(* ===== verification/_CoqProject ===== *)
-Q . S2P
Prelude.v
GameDefine.v
Cards.v
DdzLogic.v
DdzRules.v
DdzSearch.v
DdzSearchFacts.v
DdzLineFacts.v
DdzHeld.v
DdzPlay.v
DdzSettle.v
DdzTable.v
DdzInv.v
DdzReach.v
DdzSteps.v
DdzFuel.v
DdzRound.v
DdzAuction.v
Codec.v
Weights.v
Frame.v
FrameInv.v
FrameSteps.v
FrameProps.v
FramePlay.v
FrameDdz.v
HongHei.v
RedBlack.v
RedBlackTable.v
RedBlackInv.v
RedBlackSteps.v
RedBlackSettle.v
RedBlackProps.v
BullLogic.v
BullDeal.v
BullSettle.v
BullTable.v
BullInv.v
BullStart.v
BullBank.v
BullEnd.v
BullSteps.v
BullEvents.v
BullReach.v
BullProps.v
ZjhLogic.v
ZjhCompare.v
ZjhText.v
ZjhMade.v
ZjhBook.v
ZjhTypes.v
ZjhTries.v
ZjhFlushes.v
ZjhMixed.v
ZjhStraights.v
ZjhMakes.v
ZjhRound.v
ZjhEntry.v
ZjhRoundInv.v
ZjhRoundTurn.v
ZjhRoundEnd.v
ZjhRoundSteps.v
ZjhRoundMoves.v
ZjhRoundEvents.v
ZjhRoundStart.v
ZjhRoundBest.v
ZjhRoundProps.v
ZjhWait.v
ZjhTable.v
Baccarat.v
BaccaratChoice.v
BaccaratTries.v
BaccaratShoe.v
BaccaratThird.v
BaccaratRounds.v
BaccaratProps.v
