(* ===== verification/Prelude.v ===== *)
(** * Verification library of the H5 game server

    The repository is a game platform: proxies and a hall in front of game servers
    ([src/Framework]), each of which loads one game ([src/Games]) as a table sink behind
    the interface [ITableFrameSink].  The development models the code that decides: the
    game server's frame, which seats users, five games on it, and the text and random
    helpers of [src/public].  Definitions keep the names of the C++ functions.

    ** Files

    [Prelude]: machine integers, arrays, record updates, the tactics [breflect],
    [bsplit] and [bcrush], the hint databases, [std::sort] on short ranges.
    [GameDefine]: the enumerations of [src/public/gameDefine.h].

    Dou Dizhu ([src/Games/Game_ddzLandy]).
    - [Cards], [DdzLogic]: cards, sorting, [GetCardType], [CompareCard], the removal and
      dealing functions of [GameLogic.cpp]; [DdzRules]: what they compute.
    - [DdzSearch]: [SearchOutCard] and the searches below it; [DdzSearchFacts],
      [DdzLineFacts], [DdzHeld], [DdzPlay]: what a search finds is held and beats the
      turn, and for plays of one rank it finds something when there is something.
    - [DdzSettle]: the settlement of [OnNormalGameConclude].
    - [DdzTable]: the table of [TableFrameSink.cpp] as a record [Table] and one function
      for each handler; [DdzInv], [DdzReach], [DdzSteps]: the invariant, its preservation
      together with the termination of the handlers, and the transition system of all
      their interleavings; [DdzFuel], [DdzRound], [DdzAuction]: the fuel does not matter,
      the handlers refine the abstract round, the bidding is an auction.

    The game server's frame ([src/Framework/GameServer]).
    - [Frame]: user items shared by address, the managers of users, robots and tables,
      [CTableFrame]'s seating and the handlers of [GameServer].  What a game or a
      database answers during one event is an argument ([Env]); what a game does to the
      frame is a list of calls ([Act]), so every game is covered at once.
    - [FrameInv], [FrameSteps]: the invariant of seats, items, maps and lists, kept by
      every event; [FrameProps], [FramePlay]: entry, reconnection, a playing user's seat;
      [FrameDdz]: the frame implements the user operations [DdzTable] assumes.

    Red against black ([src/Games/Game_HongHeiLandy]).
    - [HongHei]: three-card hands: types, comparison, hand values, shuffle
      ([GameLogic.cpp]).
    - [RedBlack]: the loops that shuffle until the profit of the house suits its stock
      ([redblackalgorithm.cpp]).
    - [RedBlackTable]: the table of [CTableFrameSink.cpp], where many users bet at once
      on three areas: a record [Table], one function for each handler and timer, the
      transition system [exec]; [RedBlackInv], [RedBlackSteps], [RedBlackSettle]: its
      invariant and that every event keeps it; [RedBlackProps]: the reachable tables.

    Grab the banker ([src/Games/Game_QznnLandy]), five cards for each of two to four.
    - [BullLogic]: the types of a hand, the comparison ([GameLogic.cpp]).
    - [BullDeal]: [AnalyseCardEx] and [AnalyseForBlacklist], which deal the hands again
      among the players so that the chosen side wins.
    - [BullSettle]: the scores of [NormalGameEnd] as a function of a record [Round], and
      the rule they implement.
    - [BullTable]: the table of [TableFrameSink.cpp] from the waiting for users to the
      clearing: a record [Table] whose flags tell the timers that are set, one function
      for each handler and timer, the transition system [exec].
    - [BullInv]: the phases of a round as records; [BullStart], [BullBank], [BullEnd]: the
      deal, the bids and the bank, the settlement; [BullSteps], [BullEvents]: each handler
      leads to the same or the next phase; [BullReach], [BullProps]: reachable tables.

    Golden flower ([src/Games/QPAlgorithm/zjh.cpp] and [src/Games/Game_zjh]), three cards
    for each of two to five.
    - [ZjhLogic]: the pack, orders of cards, types, the comparison; [ZjhCompare]: the
      order of the hands; [ZjhText]: cards as text.
    - [ZjhMade]: the hands the house makes to order, out of the cards that are left:
      [MadeHandCards] and the tries below it, what is drawn being an argument.
    - [ZjhBook]: the books of the generator and counting; [ZjhTypes]: the type of a hand
      from its points; [ZjhTries], [ZjhFlushes], [ZjhMixed], [ZjhStraights]: what each try
      finds; [ZjhMakes]: what a request makes.
    - [ZjhRound]: a round at the table of [GameProcess.cpp]: a record [Table], where a
      chair holds what the arrays of the class hold of it, one function for each handler
      and timer, the transition system [exec].
    - [ZjhEntry]: a hand of the pack has an entry in the robots' tables of chances, so the
      assertions on that search hold; [ZjhRoundInv]: the books of a round, kept by the
      operations below the handlers;
      [ZjhRoundTurn]: passing the turn, as a clock that counts chairs; [ZjhRoundEnd]: the
      settlement; [ZjhRoundSteps], [ZjhRoundMoves], [ZjhRoundEvents]: each handler has a
      result and keeps the round or ends it; [ZjhRoundStart]: the first stakes;
      [ZjhRoundBest]: the comparison that ends a round; [ZjhRoundProps]: all runs of a round.
    - [ZjhWait]: users gather at the table and a round begins, the transition system
      [exec_desk] of a table from round to round; [ZjhTable]: that table's invariant.

    Baccarat ([src/Games/Game_BaiJiaLeLandy]), a shoe of eight packs.
    - [BaccaratChoice]: the result the house wants, by its stock and the users' bets
      ([BjlAlgorithm.cpp]); [BaccaratTries]: how long the choice takes and what it answers.
    - [Baccarat]: points and pairs ([GameLogic.cpp]), and of [CTableFrameSink.cpp] the
      search for two hands that lead to that result, the third cards, the books of the
      shoe ([Shoe]) and its change, rounds of it.
    - [BaccaratShoe]: the two hands are found in the shoe; [BaccaratThird]: the third cards
      against the table of the game; [BaccaratRounds], [BaccaratProps]: rounds of a shoe.

    Helpers of [src/public].
    - [Codec]: [base64.cpp] and [urlcodec.cpp].
    - [Weights]: [weights.cpp] over the generator of [Random.h].

    ** What is shown

    Invariants: the hands, the bottom and the cards played are one pack in every reachable
    state of a Dou Dizhu table; seats, items, user map and used lists of the frame agree in
    every reachable state of the server; in red against black the sums the cards are chosen
    by are the sums of the bets, bets are covered, and a round moves exactly the profit of
    the house and the revenue; in grab the banker exactly the seated users play, with hands
    of one pack, a bank that is covered and bets that may be placed, the bank goes to the
    highest bid, and a round pays the reference rule; in golden flower no assertion fails
    from the first user to the last round, every stake is covered, the settlement adds up
    and pays each player once, and the best hand wins the comparison that ends a round; in
    baccarat the books of the shoe agree in all sequences of rounds, and whatever result is
    wanted the third cards follow the table of the game. Refinement: plays and passes are
    moves of the abstract round, the frame refines the users of the game model. Functional
    behaviour and equivalence: card types and comparisons against the rules of the games,
    searches, settlement, the weighted choice against its odds, before and after the shuffle
    of the pool, the hands made to order. Round trips: base64, two encodings of a URL, cards
    as text. Termination: the handlers of the tables, the repeated URL decoding; liveness: a
    house that kills finds its deal, the timers alone end a round of grab the banker and of
    golden flower, and a round of golden flower has at most a hundred moves, and the choice
    of a baccarat result ends. Errors: what the code leaves undefined ([url_encode]), user
    ids that are not an [int], a loop of deals that never ends, revenue that is withheld and
    not booked, a room whose limit lets in players who cannot bet, where a round hangs, a
    reconnection that reads past an array, stakes bet again past a buffer or beyond 64 bits,
    a copy of two bytes too many, refused messages that stop the timer of a round, a start
    that fails and strands a user, the two loops of baccarat that may never end (the third
    card, the choice for blacklisted users), a request for a straight flush that writes in
    front of an array.

    ** Integers, bounds and fuel

    Values are [Z]; a place that can leave its type goes through [u8], [u16], [u32] or
    [i32], and [Weights.int] has no result when an [int] would overflow. Amounts of money
    are plain [Z]: [settle_int64] shows that balances below 2^31 keep the settlement in
    [int64_t]; in grab the banker the products of the settlement go through [i32] and [i64],
    and balances up to 2^30 keep them in range ([settlement_reference]); in red against
    black the sums of the stakes a client sends have no result beyond 64 bits ([stake_sum]).
    Undefined behaviour ([None]) is modelled where a function can meet it on inputs of its
    callers. [base64.cpp] counts bytes in an [int], so its texts are shorter than 2^31.
    Recursion that is not structural has fuel: [AutoWork] and the handlers below it run with
    256 and are shown to need at most 221, the straight search with 32 rounds for 13 ranks,
    the URL decoding with the length of the string (each round that asks for another one
    shortens it), a stake that is bet again with its amount (a chip is at least one), the
    loops that try to make a hand with [CHOOSE_COUNT], which each try brings nearer
    ([attempts_fuel]). The loops that deal until a deal fits are not bounded in the code:
    their fuel is the number of shuffles, and the theorems say when some number is enough
    and when none is. So it is with the draws of baccarat; its search for hands has one step
    more than the shoe has cards as its fuel, which is always enough ([hands_deal]). The
    [double]s the scores of baccarat are computed with are modelled bit by bit, by the
    Standard Library's [SpecFloat]; else floating point numbers are compared with draws
    only, and the outcome of such a comparison is an argument.

    ** Not modelled

    The hall, proxy, HTTP, pay, order and register servers are message and database glue;
    Redis, MySQL and MongoDB answers are arguments where a handler asks for them. Of the
    frame: score writing but for the balance, jackpots, replays, records, locks and network;
    all events of a game server's tables run on one thread, so events are atomic steps here.
    Of Dou Dizhu: the value of a hand that steers the deal (an argument), replays, the card
    counter, and of the scene messages all but the asserts and the flag they reset; the
    buffers the texts of the log are printed into, some of which are too short for twenty
    cards. Of red against black: the records and lists that feed the clients' screens, the
    reading of the configuration file. Of grab the banker: the scene messages but for the
    arrays they read and the marks of the seat ([OnEventGameScene]), replays, the marquee,
    records, the update of the storage, the reading of the configuration. Of golden flower:
    the loop that deals until enough hands are good, the exchange of hands before a round
    and the levels of control that steer it (what they leave is an argument, [Deal]),
    scenes, replays, records, the robots' statistics (the numbers; the search for the entry
    of a hand and the assertions on it are modelled, [GetWinRatioAndWeight], and [deal_ok]
    says that the hands handed in are hands of the pack); the part of a stake that an all in
    gives back is computed in floating point and is an argument between nothing and the
    stake, and so is what the sum of the times a table has waited is compared with
    ([Match]). Of baccarat: the bets, timers and settlement of the table, the records of the
    roads, the test cards and the blocks under [TEST], the functions of [GameLogic] that
    nothing calls; the shares a number drawn for blacklisted users is compared with
    (arguments). The other games, their robots and the slot and fish simulations repeat the
    structure of the modelled tables with other rules, or compute with floating point
    throughout. *)
From stdpp Require Import base list numbers sorting.
From Stdlib Require Import ZArith Lia.

#[local] Open Scope Z_scope.

(** ** Machine integers

    The C++ code computes on [uint8_t], [uint16_t], [uint32_t] and [int64_t];
    a value of such a type is a [Z] and every place where the code can leave the
    range goes through the wrap-around written here. *)
Definition u8 (z : Z) : Z := z mod 256.
Definition u16 (z : Z) : Z := z mod 65536.
Definition u32 (z : Z) : Z := z mod 4294967296.
(** Conversion of a wide integer to the 32-bit [int]. *)
Definition i32 (z : Z) : Z := (z + 2147483648) mod 4294967296 - 2147483648.
(** The wrap-around of [int64_t]. *)
Definition i64 (z : Z) : Z := (z + 9223372036854775808) mod 18446744073709551616 - 9223372036854775808.

(** ** Arrays

    A C array is the list of its cells.  [a.[i]] reads a cell; the code only
    reads inside the array (the cell outside would be undefined behaviour), the
    default [0] is what a zero-filled buffer holds. *)
Definition aget (a : list Z) (i : nat) : Z := default 0 (a !! i).
Definition nget (a : list nat) (i : nat) : nat := default 0%nat (a !! i).
Definition rget (a : list (list Z)) (i : nat) : list Z := default [] (a !! i).

Declare Scope cpp_scope.
Delimit Scope cpp_scope with cpp.
Notation "a .[ i ]" := (aget a i%nat) (at level 1, left associativity, format "a .[ i ]") : cpp_scope.
#[global] Open Scope cpp_scope.

Create HintDb cpp discriminated.
#[global] Hint Constants Opaque : cpp.
Create Rewrite HintDb cpp_rw.

(** ** Tactics of the development *)

(** [lia] also reasons on [/] and [mod] by constants. *)
Ltac Zify.zify_post_hook ::= Z.to_euclidean_division_equations.

(** Turns boolean tests of the code into the propositions they decide. *)
Ltac breflect :=
  repeat match goal with
  | H : (_ =? _)%Z = true |- _ => apply Z.eqb_eq in H
  | H : (_ =? _)%Z = false |- _ => apply Z.eqb_neq in H
  | H : (_ <? _)%Z = true |- _ => apply Z.ltb_lt in H
  | H : (_ <? _)%Z = false |- _ => apply Z.ltb_ge in H
  | H : (_ <=? _)%Z = true |- _ => apply Z.leb_le in H
  | H : (_ <=? _)%Z = false |- _ => apply Z.leb_gt in H
  | H : (_ =? _)%nat = true |- _ => apply Nat.eqb_eq in H
  | H : (_ =? _)%nat = false |- _ => apply Nat.eqb_neq in H
  | H : (_ <? _)%nat = true |- _ => apply Nat.ltb_lt in H
  | H : (_ <? _)%nat = false |- _ => apply Nat.ltb_ge in H
  | H : (_ <=? _)%nat = true |- _ => apply Nat.leb_le in H
  | H : (_ <=? _)%nat = false |- _ => apply Nat.leb_gt in H
  | H : (_ && _) = true |- _ => apply andb_true_iff in H as [??]
  | H : (_ || _) = false |- _ => apply orb_false_iff in H as [??]
  | H : negb _ = true |- _ => apply negb_true_iff in H
  | H : negb _ = false |- _ => apply negb_false_iff in H
  end.

(** Splits on the boolean tests of [if] in the goal, keeping what they say. *)
Ltac bsplit :=
  repeat match goal with
  | |- context [if ?b then _ else _] =>
      match type of b with bool => let E := fresh "E" in destruct b eqn:E end
  end; breflect.

(** The same, with a case split on a conjunction that is false or a disjunction
    that is true, and the arithmetic cases closed. *)
Ltac bcases :=
  breflect;
  repeat (match goal with
  | H : (_ && _) = false |- _ => apply andb_false_iff in H as [H|H]
  | H : (_ || _) = true |- _ => apply orb_true_iff in H as [H|H]
  end; breflect).
Ltac bcrush := bsplit; bcases; try done; try lia.

(** Evaluates a decidable proposition. *)
Ltac by_decide :=
  match goal with |- ?P => apply (bool_decide_eq_true_1 P); vm_compute; reflexivity end.

(** ** Record update

    [t <| f := v |>] is [t] with field [f] set to [v].  A record only declares its
    constructor applied to its own fields ([Settable]); the update of a field is
    derived from that. *)
Class Settable (R : Type) := eta : R → R.
Class Setter {R T : Type} (p : R → T) := set_field : (T → T) → R → R.
Arguments set_field {R T} p {_} f r.

Ltac solve_setter :=
  match goal with
  | |- @Setter ?R ?T ?p =>
      let i := constr:(_ : Settable R) in
      let e := eval hnf in i in
      let f := fresh "f" in let r := fresh "r" in intros f r;
      let body := eval cbv beta in (e r) in
      match eval pattern (p r) in body with
      | ?g _ => let b := eval cbv beta in (g (f (p r))) in exact b
      end
  end.
#[global] Hint Extern 1 (Setter _) => solve_setter : typeclass_instances.

Notation "t <| f := v |>" := (set_field f (λ _, v) t)
  (at level 12, f at next level, left associativity, format "t  <| f  :=  v |>") : cpp_scope.
Notation "t <| f ::= g |>" := (set_field f g t)
  (at level 12, f at next level, left associativity, format "t  <| f  ::=  g |>") : cpp_scope.

(** ** Lists *)

Lemma aget_lookup a i x : a !! i = Some x → aget a i = x.
Proof. unfold aget. by intros ->. Qed.

Lemma aget_app_l a b i : (i < length a)%nat → aget (a ++ b) i = aget a i.
Proof. intros H. unfold aget. by rewrite lookup_app_l. Qed.

Lemma Forall_aget (P : Z → Prop) a i : P 0 → Forall P a → P (aget a i).
Proof.
  intros H0 Ha. unfold aget. destruct (a !! i) as [x|] eqn:E; simpl; [|done].
  by eapply Forall_lookup_1.
Qed.

Definition sumZ (l : list Z) : Z := foldr Z.add 0 l.

Lemma sumZ_app l k : sumZ (l ++ k) = sumZ l + sumZ k.
Proof. induction l as [|x l IH]; simpl; [done|]. rewrite IH. lia. Qed.

Lemma sumZ_perm l k : l ≡ₚ k → sumZ l = sumZ k.
Proof. induction 1; simpl; lia. Qed.

Lemma sumZ_nonneg l : Forall (λ x, 0 <= x) l → 0 <= sumZ l.
Proof. induction 1; simpl; lia. Qed.
#[export] Hint Resolve sumZ_nonneg : cpp.

(** Two strongly sorted permutations of each other under an antisymmetric order
    are equal: what makes a sort canonical. *)
Lemma StronglySorted_unique' {A} (R : A → A → Prop) `{!AntiSymm (=) R} (l k : list A) :
  StronglySorted R l → StronglySorted R k → l ≡ₚ k → l = k.
Proof. intros. by eapply (StronglySorted_unique R). Qed.

Lemma StronglySorted_weaken {A} (R S : A → A → Prop) l :
  (∀ x y, R x y → S x y) → StronglySorted R l → StronglySorted S l.
Proof. intros H. induction 1 as [|x l _ IH Hx]; constructor; [done|].
  eapply Forall_impl; [exact Hx|]. auto.
Qed.

Lemma elem_of_concat {A} (x : A) ls : x ∈ concat ls ↔ ∃ l, x ∈ l ∧ l ∈ ls.
Proof. rewrite list_elem_of_In, in_concat. setoid_rewrite list_elem_of_In. naive_solver. Qed.

Lemma map_replicate {A B} (f : A → B) n x : map f (replicate n x) = replicate n (f x).
Proof. induction n; simpl; by f_equal. Qed.

Section Filter.
Context {A : Type} (P : A → Prop) `{!∀ x, Decision (P x)}.

Lemma filter_all l : Forall P l → filter P l = l.
Proof. induction 1; [done|]. rewrite filter_cons_True by done. by f_equal. Qed.

Lemma filter_none l : Forall (λ x, ¬ P x) l → filter P l = [].
Proof. induction 1; [done|]. by rewrite filter_cons_False by done. Qed.

Lemma filter_submseteq l k : l ⊆+ k → filter P l ⊆+ filter P k.
Proof.
  intros [m Hm]%submseteq_Permutation. rewrite Hm, filter_app. by apply submseteq_inserts_r.
Qed.
End Filter.

Lemma submseteq_NoDup {A} (l k : list A) : l ⊆+ k → NoDup k → NoDup l.
Proof. intros [m ->]%submseteq_Permutation. rewrite NoDup_app. naive_solver. Qed.

(** ** [std::sort]

    libstdc++ sorts a range of at most 16 elements by insertion, each element
    going behind the elements it is not smaller than; the code sorts hands of
    at most five cards with it. *)
Section StdSort.
Context {A : Type} (lt : A → A → bool).

Fixpoint std_insert (x : A) (l : list A) : list A :=
  match l with
  | [] => [x]
  | y :: t => if lt x y then x :: l else y :: std_insert x t
  end.

Definition std_sort (l : list A) : list A := foldl (λ s x, std_insert x s) [] l.

Lemma std_insert_perm x l : std_insert x l ≡ₚ x :: l.
Proof.
  induction l as [|y t IH]; simpl; [done|]. destruct (lt x y); [done|].
  rewrite IH. by apply Permutation_swap.
Qed.

Lemma std_sort_perm l : std_sort l ≡ₚ l.
Proof.
  unfold std_sort. assert (∀ s, foldl (λ s x, std_insert x s) s l ≡ₚ s ++ l) as H.
  { induction l as [|x l IH]; intros s; simpl; [by rewrite app_nil_r|].
    rewrite IH, std_insert_perm. simpl. by rewrite Permutation_middle. }
  apply (H []).
Qed.

Lemma std_sort_length l : length (std_sort l) = length l.
Proof. apply Permutation_length, std_sort_perm. Qed.

(** [lt] is the strict part of a total preorder: the comparator contract. *)
Hypothesis lt_asym : ∀ x y, lt x y = true → lt y x = false.
Hypothesis nlt_trans : ∀ x y z, lt y x = false → lt z y = false → lt z x = false.

Definition std_le (x y : A) : Prop := lt y x = false.

Lemma std_insert_sorted x l : StronglySorted std_le l → StronglySorted std_le (std_insert x l).
Proof.
  induction 1 as [|y t Ht IH Hy]; simpl; [by repeat constructor|].
  destruct (lt x y) eqn:E; constructor.
  - by constructor.
  - constructor; [by apply lt_asym|]. eapply Forall_impl; [exact Hy|].
    intros z Hz. eapply nlt_trans; [by apply lt_asym|exact Hz].
  - done.
  - rewrite std_insert_perm. by constructor.
Qed.

Lemma std_sort_sorted l : StronglySorted std_le (std_sort l).
Proof.
  unfold std_sort. assert (∀ s, StronglySorted std_le s →
    StronglySorted std_le (foldl (λ s x, std_insert x s) s l)) as H.
  { induction l; intros s Hs; simpl; [done|]. by apply IHl, std_insert_sorted. }
  apply H. constructor.
Qed.
End StdSort.
