(* ===== verification/GameDefine.v ===== *)
(** What the frame and the games share: the enumerations of [src/public/gameDefine.h] and
    the revenue the frame takes. *)
From stdpp Require Import base option.
From Stdlib Require Import ZArith.

Inductive eUserStatus :=
  | sGetout | sFree | sSit | sReady | sPlaying | sOffline | sLookon | sGetoutAtplaying.
#[global] Instance eUserStatus_eq_dec : EqDecision eUserStatus.
Proof. solve_decision. Defined.

(** [GAME_STATUS_INIT], [GAME_STATUS_FREE], [GAME_STATUS_START], [GAME_STATUS_END]. *)
Inductive FrameStatus := STATUS_INIT | STATUS_FREE | STATUS_START | STATUS_END.
#[global] Instance FrameStatus_eq_dec : EqDecision FrameStatus.
Proof. solve_decision. Defined.
Definition before_start (s : FrameStatus) : bool :=
  match s with STATUS_INIT | STATUS_FREE => true | _ => false end.

Definition INVALID_CHAIR : Z := 65535.
Definition INVALID_TABLE : Z := 65535.

Inductive ServerStatus := SERVER_STOPPED | SERVER_RUNNING | SERVER_REPAIRING.
#[global] Instance ServerStatus_eq_dec : EqDecision ServerStatus.
Proof. solve_decision. Defined.

(** [GameType_BaiRen] (a hundred players at one table) and [GameType_Confrontation]. *)
Inductive GameType := BaiRen | Confrontation.
#[global] Instance GameType_eq_dec : EqDecision GameType.
Proof. solve_decision. Defined.

(** The switches that keep two players apart. *)
Inductive MatchForbid :=
  | MTH_FORB_SAME_AGENT | MTH_FORB_DIFF_AGENT | MTH_FORB_SAME_IP | MTH_FORB_DIFF_IP
  | MTH_SINGLE_PLAYER | MTH_PLAYER_CNT | MTH_QUANRANTE_AREA | MTH_BLACKLIST | MTH_PERSONALSTOCK.

(** The error codes of the answer to a request to enter a room. *)
Inductive EnterError :=
  | ERROR_ENTERROOM_NOSESSION | ERROR_ENTERROOM_TABLE_FULL | ERROR_ENTERROOM_USERNOTEXIST
  | ERROR_ENTERROOM_SCORENOENOUGH | ERROR_ENTERROOM_SCORELIMIT | ERROR_ENTERROOM_USERINGAME
  | ERROR_ENTERROOM_GAME_IS_END | ERROR_ENTERROOM_PASSWORD_ERROR.

(** [CTableFrame::CalculateRevenue]. *)
Definition CalculateRevenue (revenueRatio score : Z) : Z := Z.quot (score * revenueRatio) 100.
