(* ===== verification/Cards.v ===== *)
(** Cards as the games encode them: one byte, the colour in the high nibble and
    the face value in the low one, and the bubble sort every [GameLogic] of the
    server sorts its hands with. *)
From stdpp Require Import base list numbers sorting.
From Stdlib Require Import ZArith Lia.
From S2P Require Import Prelude.

#[local] Open Scope Z_scope.

(** [GetCardValue] and [GetCardColor]: the masks [MASK_VALUE], [MASK_COLOR]. *)
Definition MASK_COLOR : Z := 240.
Definition MASK_VALUE : Z := 15.
Definition GetCardValue (c : Z) : Z := Z.land c MASK_VALUE.
Definition GetCardColor (c : Z) : Z := Z.land c MASK_COLOR.

Lemma GetCardValue_mod c : GetCardValue c = c mod 16.
Proof. apply (Z.land_ones c 4). lia. Qed.

Lemma GetCardValue_range c : 0 <= GetCardValue c < 16.
Proof. rewrite GetCardValue_mod. lia. Qed.
#[export] Hint Resolve GetCardValue_range : cpp.

(** ** The bubble sort

    One pass over the first [last + 1] cells: neighbours with
    [lt x y = true] change places; the flag is the code's [bSorted]. *)
Fixpoint bubble_pass (lt : Z → Z → bool) (last : nat) (l : list Z) : list Z * bool :=
  match last, l with
  | S n, x :: y :: t =>
      if lt x y then let '(r, _) := bubble_pass lt n (x :: t) in (y :: r, false)
      else let '(r, s) := bubble_pass lt n (y :: t) in (x :: r, s)
  | _, _ => (l, true)
  end.

(** [do { pass; last--; } while (!bSorted)]. *)
Fixpoint bubble_loop (lt : Z → Z → bool) (fuel last : nat) (l : list Z) : list Z :=
  match fuel with
  | O => l
  | S f => let '(r, s) := bubble_pass lt last l in
           if s then r else bubble_loop lt f (pred last) r
  end.

(** Every pass that swaps leaves one more cell in place, so as many passes as
    there are cells are enough ([bubble_sort_sorted]). *)
Definition bubble_sort (lt : Z → Z → bool) (l : list Z) : list Z :=
  bubble_loop lt (S (length l)) (length l - 1) l.

Section Bubble.
Context (lt : Z → Z → bool).

Lemma bubble_pass_perm n l : (bubble_pass lt n l).1 ≡ₚ l.
Proof.
  revert l. induction n as [|n IH]; intros [|x [|y t]]; simpl; try done.
  destruct (lt x y); [pose proof (IH (x :: t)) as H|pose proof (IH (y :: t)) as H];
    destruct (bubble_pass lt n _) as [r s]; simpl in *; rewrite H; [|done].
  by apply Permutation_swap.
Qed.

Lemma bubble_loop_perm fuel n l : bubble_loop lt fuel n l ≡ₚ l.
Proof.
  revert n l. induction fuel as [|f IH]; intros n l; simpl; [done|].
  pose proof (bubble_pass_perm n l) as H.
  destruct (bubble_pass lt n l) as [r []]; simpl in H; [done|]. by rewrite IH.
Qed.

Lemma bubble_sort_perm l : bubble_sort lt l ≡ₚ l.
Proof. apply bubble_loop_perm. Qed.

Lemma bubble_sort_length l : length (bubble_sort lt l) = length l.
Proof. apply Permutation_length, bubble_sort_perm. Qed.

(** The pass does not touch the cells behind [last]. *)
Lemma bubble_pass_app n a b : length a = S n →
  bubble_pass lt n (a ++ b) = ((bubble_pass lt n a).1 ++ b, (bubble_pass lt n a).2).
Proof.
  revert a. induction n as [|n IH]; intros [|x [|y t]] Hl; simpl in *; try (done || lia).
  destruct (lt x y).
  - change (x :: t ++ b) with ((x :: t) ++ b). rewrite (IH (x :: t)) by (simpl; lia).
    by destruct (bubble_pass lt n (x :: t)).
  - change (y :: t ++ b) with ((y :: t) ++ b). rewrite (IH (y :: t)) by (simpl; lia).
    by destruct (bubble_pass lt n (y :: t)).
Qed.

Context (lt_asym : ∀ x y, lt x y = true → lt y x = false).
Context (nlt_trans : ∀ x y z, lt x y = false → lt y z = false → lt x z = false).

Definition desc (x y : Z) : Prop := lt x y = false.

(** The smallest card of the range ends up in cell [last]. *)
Lemma bubble_pass_last n a : length a = S n →
  ∃ r m, (bubble_pass lt n a).1 = r ++ [m] ∧ length r = n ∧ Forall (λ x, desc x m) r.
Proof.
  revert a. induction n as [|n IH]; intros [|x [|y t]] Hl; simpl in *; try lia.
  { by exists [], x. }
  assert (∀ z t' w, length (z :: t') = S n → desc w z →
    ∃ r m, w :: (bubble_pass lt n (z :: t')).1 = r ++ [m] ∧ length r = S n ∧
           Forall (λ x, desc x m) r) as Hstep.
  { intros z t' w Hz Hw. destruct (IH (z :: t') Hz) as (r & m & Hr & Hlen & Hall).
    exists (w :: r), m. rewrite Hr. simpl. repeat split; [by rewrite Hlen|].
    constructor; [|done]. assert (z ∈ r ++ [m]) as Hin.
    { rewrite <-Hr, bubble_pass_perm. by left. }
    apply elem_of_app in Hin as [Hin|Hin%list_elem_of_singleton]; [|by subst].
    eapply nlt_trans; [exact Hw|]. by eapply Forall_forall in Hall. }
  destruct (lt x y) eqn:E.
  - destruct (Hstep x t y) as (r & m & Hr & ?); [simpl; lia|by apply lt_asym|].
    destruct (bubble_pass lt n (x :: t)) eqn:Ep; simpl in *. by exists r, m.
  - destruct (Hstep y t x) as (r & m & Hr & ?); [simpl; lia|done|].
    destruct (bubble_pass lt n (y :: t)) eqn:Ep; simpl in *. by exists r, m.
Qed.

(** A pass without a swap has seen the range in order. *)
Lemma bubble_pass_true n a : length a = S n → (bubble_pass lt n a).2 = true →
  (bubble_pass lt n a).1 = a ∧ Sorted desc a.
Proof.
  revert a. induction n as [|n IH]; intros [|x [|y t]] Hl; simpl in *; try lia; try done.
  { by repeat constructor. }
  destruct (lt x y) eqn:E; [by destruct (bubble_pass lt n (x :: t))|].
  specialize (IH (y :: t)). destruct (bubble_pass lt n (y :: t)) as [r s]; simpl in *.
  intros ->. destruct IH as [-> Hs]; [lia|done|]. split; [done|]. by constructor; [|constructor].
Qed.

#[local] Instance desc_trans : Transitive desc.
Proof. intros x y z. apply nlt_trans. Qed.

Lemma bubble_loop_sorted fuel n a b :
  length a = S n → (n < fuel)%nat → StronglySorted desc b →
  Forall (λ x, Forall (desc x) b) a →
  StronglySorted desc (bubble_loop lt fuel n (a ++ b)).
Proof.
  revert n a b. induction fuel as [|f IH]; intros n a b Hl Hf Hb Hab; [lia|].
  simpl. rewrite bubble_pass_app by done.
  pose proof (bubble_pass_true n a Hl) as Ht. pose proof (bubble_pass_perm n a) as Hp.
  destruct (bubble_pass_last n a Hl) as (r & m & Hr & Hlen & Hm).
  destruct ((bubble_pass lt n a).2) eqn:Es.
  - destruct Ht as [-> Hs]; [done|]. simpl.
    apply StronglySorted_app_2; [|by apply Sorted_StronglySorted; [apply _|]|done].
    intros x y Hx Hy. eapply Forall_forall in Hab; [|exact Hx]. by eapply Forall_forall in Hab.
  - assert (n ≠ 0%nat) as Hn by (intros ->; destruct a as [|? [|??]]; simpl in *; congruence).
    destruct n as [|n]; [done|]. rewrite Hr, <-app_assoc. simpl.
    apply IH; [done|lia| |].
    + constructor; [done|]. eapply Forall_forall in Hab; [exact Hab|].
      rewrite <-Hp, Hr. apply elem_of_app. right. by left.
    + apply Forall_forall. intros x Hx. constructor; [by eapply Forall_forall in Hm|].
      eapply Forall_forall in Hab; [exact Hab|]. rewrite <-Hp, Hr. apply elem_of_app. by left.
Qed.

Lemma bubble_sort_sorted l : StronglySorted desc (bubble_sort lt l).
Proof.
  destruct l as [|x l]; [constructor|]. unfold bubble_sort.
  rewrite <-(app_nil_r (x :: l)) at 3. simpl length. rewrite Nat.sub_1_r. simpl pred.
  apply bubble_loop_sorted; [done|lia|constructor|]. apply Forall_true. constructor.
Qed.
End Bubble.

(** ** Descending order by a logic value, the byte breaking ties *)
Section ByValue.
Context (lv : Z → Z).

(** [(v[i] < v[i+1]) || (v[i] == v[i+1] && data[i] < data[i+1])]. *)
Definition card_lt (x y : Z) : bool := (lv x <? lv y) || ((lv x =? lv y) && (x <? y)).

Lemma card_lt_asym x y : card_lt x y = true → card_lt y x = false.
Proof. unfold card_lt. lia. Qed.
Lemma card_nlt_trans x y z : card_lt x y = false → card_lt y z = false → card_lt x z = false.
Proof. unfold card_lt. lia. Qed.

Definition sort_by_value (l : list Z) : list Z := bubble_sort card_lt l.

Definition card_ge (x y : Z) : Prop := desc card_lt x y.
#[global] Instance card_ge_antisymm : AntiSymm (=) card_ge.
Proof. intros x y. unfold card_ge, desc, card_lt. lia. Qed.
#[global] Instance card_ge_trans : Transitive card_ge.
Proof. intros x y z. apply card_nlt_trans. Qed.

Lemma card_ge_value x y : card_ge x y → lv y <= lv x.
Proof. unfold card_ge, desc, card_lt. lia. Qed.

Lemma sort_by_value_perm l : sort_by_value l ≡ₚ l.
Proof. apply bubble_sort_perm. Qed.
Lemma sort_by_value_length l : length (sort_by_value l) = length l.
Proof. apply bubble_sort_length. Qed.
Lemma sort_by_value_sorted l : StronglySorted card_ge (sort_by_value l).
Proof. apply bubble_sort_sorted; [apply card_lt_asym|apply card_nlt_trans]. Qed.

(** The order is total on bytes, so the sorted hand is unique. *)
Lemma sort_by_value_canonical l k : l ≡ₚ k → sort_by_value l = sort_by_value k.
Proof.
  intros H. eapply (StronglySorted_unique' card_ge); [apply sort_by_value_sorted..|].
  by rewrite !sort_by_value_perm.
Qed.

Lemma sort_by_value_id l : StronglySorted card_ge l → sort_by_value l = l.
Proof.
  intros H. eapply (StronglySorted_unique' card_ge); [apply sort_by_value_sorted|done|].
  apply sort_by_value_perm.
Qed.
End ByValue.
