(* ===== verification/DdzLogic.v ===== *)
(** Dou Dizhu, the rules: the data and functions of
    [src/Games/Game_ddzLandy/GameLogic.cpp] that order, classify, compare and
    remove cards.  A [(cbCardData, cbCardCount)] pair is the list of its first
    [cbCardCount] cells; the counters are [nat] because a hand has at most
    [MAX_COUNT] cards. *)
From stdpp Require Import base list numbers sorting.
From Stdlib Require Import ZArith Lia.
From S2P Require Import Prelude Cards.

#[local] Open Scope Z_scope.

(** ** Data *)
Definition MAX_COUNT : nat := 20%nat.
Definition FULL_COUNT : nat := 54%nat.
Definition NORMAL_COUNT : nat := 17%nat.
Definition DISPATCH_COUNT : nat := 51%nat.

(** The enum [ddz::CardType], in its numeric order. *)
Inductive CardType :=
  | CT_ERROR | CT_SINGLE | CT_DOUBLE_CARD | CT_THREE
  | CT_SINGLE_LINE | CT_DOUBLE_LINE | CT_THREE_LINE
  | CT_THREE_TAKE_ONE | CT_THREE_TAKE_TWO
  | CT_FOUR_TAKE_ONE | CT_FOUR_TAKE_TWO | CT_BOMB_CARD | CT_MISSILE_CARD.
#[global] Instance CardType_eq_dec : EqDecision CardType.
Proof. solve_decision. Defined.

(** [m_cbCardData]: the pack, two jokers included. *)
Definition m_cbCardData : list Z :=
  [1;2;3;4;5;6;7;8;9;10;11;12;13;
   17;18;19;20;21;22;23;24;25;26;27;28;29;
   33;34;35;36;37;38;39;40;41;42;43;44;45;
   49;50;51;52;53;54;55;56;57;58;59;60;61;
   78;79].

(** [m_cbGoodcardData]: the cards a favoured robot is dealt from. *)
Definition m_cbGoodcardData : list Z :=
  [1;2; 17;18; 33;34; 49;50; 78;79;
   7;8;9; 23;24;25; 39;40;41; 55;56;57;
   10;11;12;13; 26;27;28;29; 42;43;44;45; 58;59;60;61].

(** [CGameLogic::GetCardLogicValue]: the rank, 3 lowest, A = 14, 2 = 15, jokers 16, 17. *)
Definition GetCardLogicValue (cbCardData : Z) : Z :=
  if GetCardColor cbCardData =? 64 then GetCardValue cbCardData + 2
  else if GetCardValue cbCardData <=? 2 then GetCardValue cbCardData + 13
  else GetCardValue cbCardData.

(** [CGameLogic::MakeCardData]. *)
Definition MakeCardData (cbValueIndex cbColorIndex : nat) : Z :=
  u8 (Z.lor (Z.shiftl (Z.of_nat cbColorIndex) 4) (Z.of_nat cbValueIndex + 1)).

(** [tagAnalyseResult]: per block size 1..4 the number of blocks and their cards
    one after the other.  The card buffers are written from the front without
    gaps, so each is kept as the list of the cells written. *)
Record tagAnalyseResult := AnalyseResult {
  cbBlockCount : list nat;
  cbBlockData : list (list Z)
}.

(** [ZeroMemory(&AnalyseResult)]. *)
Definition zero_result : tagAnalyseResult := AnalyseResult [0;0;0;0]%nat [[];[];[];[]].

(** [cbBlockCount[n-1]++] and the copy of [n] cards behind the earlier ones. *)
Definition add_block (r : tagAnalyseResult) (n : nat) (cards : list Z) : tagAnalyseResult :=
  AnalyseResult (alter S (n - 1)%nat (cbBlockCount r)) (alter (λ d, d ++ cards) (n - 1)%nat (cbBlockData r)).

(** How many cards at the front of [l] have the logic value [v]. *)
Fixpoint same_run (v : Z) (l : list Z) : nat :=
  match l with
  | c :: t => if GetCardLogicValue c =? v then S (same_run v t) else 0%nat
  | [] => 0%nat
  end.

(** The loop of [AnalysebCardData] at card [i], [l] being the cards from [i] on. *)
Fixpoint analyse_loop (fuel : nat) (l : list Z) (r : tagAnalyseResult) : tagAnalyseResult :=
  match fuel, l with
  | S f, c :: t =>
      let cbSameCount := S (same_run (GetCardLogicValue c) t) in
      if (4 <? cbSameCount)%nat then zero_result
      else analyse_loop f (drop cbSameCount l) (add_block r cbSameCount (take cbSameCount l))
  | _, _ => r
  end.

(** [CGameLogic::AnalysebCardData]; each turn of the loop consumes a card. *)
Definition AnalysebCardData (l : list Z) : tagAnalyseResult := analyse_loop (length l) l zero_result.

(** Reads [cbBlockCount[k]] and [cbCardData[k]]. *)
Definition blocks (r : tagAnalyseResult) (k : nat) : nat := nget (cbBlockCount r) k.
Definition bdata (r : tagAnalyseResult) (k : nat) : list Z := rget (cbBlockData r) k.

(** The loop over [i = 1 .. n-1] that compares card [i*stride] of a block buffer
    with the first one, after the filter on 2 and jokers. *)
Definition is_line (d : list Z) (stride n : nat) : bool :=
  let first := GetCardLogicValue d.[0] in
  negb (15 <=? first) &&
  forallb (λ i, first =? GetCardLogicValue d.[i * stride] + Z.of_nat i) (seq 1 (n - 1)).

(** [CGameLogic::GetCardType]. *)
Definition GetCardType (l : list Z) : CardType :=
  let cbCardCount := length l in
  match cbCardCount with
  | 0%nat => CT_ERROR
  | 1%nat => CT_SINGLE
  | 2%nat =>
      if (l.[0] =? 79) && (l.[1] =? 78) then CT_MISSILE_CARD
      else if GetCardLogicValue l.[0] =? GetCardLogicValue l.[1] then CT_DOUBLE_CARD
      else CT_ERROR
  | _ =>
      let r := AnalysebCardData l in
      if (0 <? blocks r 3)%nat then
        if (blocks r 3 =? 1)%nat && (cbCardCount =? 4)%nat then CT_BOMB_CARD
        else if (blocks r 3 =? 1)%nat && (cbCardCount =? 6)%nat then CT_FOUR_TAKE_ONE
        else if (blocks r 3 =? 1)%nat && (cbCardCount =? 8)%nat && (blocks r 1 =? 2)%nat then CT_FOUR_TAKE_TWO
        else CT_ERROR
      else if (0 <? blocks r 2)%nat then
        if (1 <? blocks r 2)%nat && negb (is_line (bdata r 2) 3 (blocks r 2)) then CT_ERROR
        else if negb (1 <? blocks r 2)%nat && (cbCardCount =? 3)%nat then CT_THREE
        else if (blocks r 2 * 3 =? cbCardCount)%nat then CT_THREE_LINE
        else if (blocks r 2 * 4 =? cbCardCount)%nat then CT_THREE_TAKE_ONE
        else if (blocks r 2 * 5 =? cbCardCount)%nat && (blocks r 1 =? blocks r 2)%nat then CT_THREE_TAKE_TWO
        else CT_ERROR
      else if (3 <=? blocks r 1)%nat then
        if negb (is_line (bdata r 1) 2 (blocks r 1)) then CT_ERROR
        else if (blocks r 1 * 2 =? cbCardCount)%nat then CT_DOUBLE_LINE
        else CT_ERROR
      else if (5 <=? blocks r 0)%nat && (blocks r 0 =? cbCardCount)%nat then
        if negb (is_line (bdata r 0) 1 (blocks r 0)) then CT_ERROR
        else CT_SINGLE_LINE
      else CT_ERROR
  end.

(** [ST_ORDER], [ST_COUNT], [ST_CUSTOM]. *)
Inductive SortType := ST_ORDER | ST_COUNT | ST_CUSTOM.

(** The copies of [ST_COUNT]: blocks of four first, then threes, pairs, singles. *)
Definition blocks_desc (r : tagAnalyseResult) : list Z :=
  concat (map (λ k, take (blocks r k * (k + 1)) (bdata r k)) [3;2;1;0]%nat).

(** [CGameLogic::SortCardList]. *)
Definition SortCardList (l : list Z) (cbSortType : SortType) : list Z :=
  match cbSortType with
  | ST_CUSTOM => l
  | ST_ORDER => sort_by_value GetCardLogicValue l
  | ST_COUNT =>
      let s := sort_by_value GetCardLogicValue l in
      let d := blocks_desc (AnalysebCardData s) in
      d ++ drop (length d) s
  end.

(** [CGameLogic::RandCardList]: [memcpy] of the pack, then [std::shuffle]; the
    random permutation is the argument. *)
Definition RandCardList (shuffle : list Z → list Z) : list Z := shuffle m_cbCardData.

(** [CGameLogic::CompareCard]: does [next] beat [first]? *)
Definition CompareCard (first next : list Z) : bool :=
  let cbNextType := GetCardType next in
  let cbFirstType := GetCardType first in
  if decide (cbNextType = CT_ERROR) then false
  else if decide (cbNextType = CT_MISSILE_CARD) then true
  else if decide (cbFirstType = CT_MISSILE_CARD) then false
  else if bool_decide (cbFirstType ≠ CT_BOMB_CARD) && bool_decide (cbNextType = CT_BOMB_CARD) then true
  else if bool_decide (cbFirstType = CT_BOMB_CARD) && bool_decide (cbNextType ≠ CT_BOMB_CARD) then false
  else if bool_decide (cbFirstType ≠ cbNextType) || negb (length first =? length next)%nat then false
  else match cbNextType with
  | CT_SINGLE | CT_DOUBLE_CARD | CT_THREE | CT_SINGLE_LINE | CT_DOUBLE_LINE
  | CT_THREE_LINE | CT_BOMB_CARD =>
      GetCardLogicValue first.[0] <? GetCardLogicValue next.[0]
  | CT_THREE_TAKE_ONE | CT_THREE_TAKE_TWO =>
      GetCardLogicValue (bdata (AnalysebCardData first) 2).[0]
        <? GetCardLogicValue (bdata (AnalysebCardData next) 2).[0]
  | CT_FOUR_TAKE_ONE | CT_FOUR_TAKE_TWO =>
      GetCardLogicValue (bdata (AnalysebCardData first) 3).[0]
        <? GetCardLogicValue (bdata (AnalysebCardData next) 3).[0]
  | _ => false
  end.

(** The inner loop of the removal: the first cell holding [c] is set to zero. *)
Fixpoint zero_first (c : Z) (l : list Z) : option (list Z) :=
  match l with
  | [] => None
  | x :: t => if c =? x then Some (0 :: t) else cons x <$> zero_first c t
  end.

(** The outer loop: [cbDeleteCount] and [cbTempCardData]. *)
Fixpoint zero_cards (rem l : list Z) : nat * list Z :=
  match rem with
  | [] => (0%nat, l)
  | c :: t =>
      match zero_first c l with
      | Some l' => let '(n, r) := zero_cards t l' in (S n, r)
      | None => zero_cards t l
      end
  end.

Definition nonzero (l : list Z) : list Z := filter (λ c, c ≠ 0) l.

(** [CGameLogic::RemoveCardList]: [None] is the result [false]; otherwise the
    hand's [cbCardCount] cells afterwards, the cards kept and then zeros. *)
Definition RemoveCardList (rem l : list Z) : option (list Z) :=
  if (MAX_COUNT <? length l)%nat then None
  else let '(cbDeleteCount, tmp) := zero_cards rem l in
  if negb (cbDeleteCount =? length rem)%nat then None
  else let kept := nonzero tmp in
       Some (kept ++ replicate (length l - length kept) 0).

(** [CGameLogic::RemoveCard]: the same, but the cells behind the kept cards are
    left as they were. *)
Definition RemoveCard (rem l : list Z) : option (list Z) :=
  if (MAX_COUNT <? length l)%nat then None
  else let '(cbDeleteCount, tmp) := zero_cards rem l in
  if negb (cbDeleteCount =? length rem)%nat then None
  else let kept := nonzero tmp in
       Some (kept ++ drop (length kept) l).

(** [CGameLogic::RemoveGoodCardData]: the same on a pack of [FULL_COUNT] cards. *)
Definition RemoveGoodCardData (rem l : list Z) : option (list Z) :=
  if (length l <? length rem)%nat then None
  else if (FULL_COUNT <? length l)%nat then None
  else let '(cbDeleteCount, tmp) := zero_cards rem l in
  if negb (cbDeleteCount =? length rem)%nat then None
  else let kept := nonzero tmp in
       Some (kept ++ drop (length kept) l).

(** The [do]-loop of [GetGoodCardData]: draw cell [r mod remaining], move the last
    remaining cell into the hole.  [rs] are the results of [rand()]. *)
Fixpoint draw_loop (rs : list nat) (l : list Z) : list Z :=
  match rs with
  | [] => []
  | r :: rs' =>
      match length l with
      | O => []
      | S n => let p := (r mod S n)%nat in
               l.[p] :: draw_loop rs' (take n (<[p := l.[n]]> l))
      end
  end.

(** [CGameLogic::GetGoodCardData]. *)
Definition GetGoodCardData (rs : list nat) : list Z :=
  take NORMAL_COUNT (draw_loop rs m_cbGoodcardData).

(** [CGameLogic::SortOutCardList]: the main blocks of a three- or four-with-wings
    play first. *)
Definition SortOutCardList (l : list Z) : list Z :=
  let r := AnalysebCardData l in
  let rest main := concat (map (λ k, take (blocks r k * (k + 1)) (bdata r k))
                               (filter (λ k, k ≠ main) [3;2;1;0]%nat)) in
  match GetCardType l with
  | CT_THREE_TAKE_ONE | CT_THREE_TAKE_TWO =>
      let d := take (blocks r 2 * 3) (bdata r 2) ++ rest 2%nat in d ++ drop (length d) l
  | CT_FOUR_TAKE_ONE | CT_FOUR_TAKE_TWO =>
      let d := take (blocks r 3 * 4) (bdata r 3) ++ rest 3%nat in d ++ drop (length d) l
  | _ => l
  end.

(** [CGameLogic::get_GroupData]: the weight of a combination. *)
Definition get_GroupData (cgType : CardType) (MaxCard : Z) (Count : Z) : Z :=
  match cgType with
  | CT_SINGLE | CT_DOUBLE_CARD | CT_THREE => MaxCard - 10
  | CT_SINGLE_LINE | CT_DOUBLE_LINE => MaxCard - 10 + 1
  | CT_THREE_LINE => Z.quot (MaxCard - 3 + 1) 2
  | CT_THREE_TAKE_ONE => if 4 <? Count then Z.quot (MaxCard - 3 + 1) 2 else MaxCard - 10
  | CT_THREE_TAKE_TWO => if 5 <? Count then Z.quot (MaxCard - 3 + 1) 2 else MaxCard - 10
  | CT_FOUR_TAKE_ONE | CT_FOUR_TAKE_TWO => Z.quot (MaxCard - 3) 2
  | CT_BOMB_CARD => MaxCard - 3 + 7
  | CT_MISSILE_CARD => 20
  | CT_ERROR => 0
  end.

(** The runs of equal rank of a sorted hand, as the [GetAll...Card] loops cut it. *)
Fixpoint runs_loop (fuel : nat) (l : list Z) : list (list Z) :=
  match fuel, l with
  | S f, c :: t => let n := S (same_run (GetCardLogicValue c) t) in take n l :: runs_loop f (drop n l)
  | _, _ => []
  end.
Definition runs (l : list Z) : list (list Z) := runs_loop (length l) l.

(** [CGameLogic::GetAllBomCard]. *)
Definition GetAllBomCard (hand : list Z) : list Z :=
  let l := SortCardList hand ST_ORDER in
  if (length hand <? 2)%nat then []
  else (if (79 =? l.[0]) && (78 =? l.[1]) then [l.[0]; l.[1]] else [])
       ++ concat (map (λ b, if (4 =? length b)%nat then take 4 b else []) (runs l)).

(** [CGameLogic::GetAllThreeCard]. *)
Definition GetAllThreeCard (hand : list Z) : list Z :=
  concat (map (λ b, if (3 <=? length b)%nat then take 3 b else []) (runs (SortCardList hand ST_ORDER))).

(** [CGameLogic::GetAllDoubleCard]. *)
Definition GetAllDoubleCard (hand : list Z) : list Z :=
  concat (map (λ b, if (2 <=? length b)%nat then take 2 b else []) (runs (SortCardList hand ST_ORDER))).
