(* ===== verification/DdzRules.v ===== *)
(** Dou Dizhu, what the rule functions of [DdzLogic] compute: the analysis is the
    decomposition of the hand into runs of equal rank, the straight types are
    exactly the rank patterns of the rules, [CompareCard] is a strict order and
    the removal functions take exactly the given cards out of the hand. *)
From stdpp Require Import base list numbers sorting.
From Stdlib Require Import ZArith Lia.
From S2P Require Import Prelude Cards DdzLogic.

#[local] Open Scope Z_scope.

(** The ranks of a list of cards. *)
Definition lvs (l : list Z) : list Z := map GetCardLogicValue l.

(** [n] neighbouring ranks from [top] down, each held [b] times. *)
Definition line_values (b : nat) (top : Z) (n : nat) : list Z :=
  concat (map (λ i, replicate b (top - Z.of_nat i)) (seq 0 n)).

(** ** Runs *)

Lemma lvs_app l k : lvs (l ++ k) = lvs l ++ lvs k.
Proof. apply map_app. Qed.
Lemma lvs_length l : length (lvs l) = length l.
Proof. apply length_map. Qed.
#[export] Hint Rewrite lvs_app lvs_length : cpp_rw.

Lemma same_run_le v l : (same_run v l <= length l)%nat.
Proof. induction l; simpl; bsplit; lia. Qed.

Lemma same_run_take v l : lvs (take (same_run v l) l) = replicate (same_run v l) v.
Proof.
  induction l as [|c l IH]; simpl; [done|]. bsplit; simpl; [|done].
  unfold lvs in *. simpl. by rewrite IH, E.
Qed.

Lemma same_run_exact v n l : hd_error (lvs l) ≠ Some v → ∀ p, lvs p = replicate n v →
  same_run v (p ++ l) = n.
Proof.
  intros Hl. induction n as [|n IH]; intros [|c p] Hp; simplify_eq/=.
  - destruct l as [|c l]; simpl in *; [done|]. bsplit; congruence.
  - rewrite Z.eqb_refl. by rewrite (IH p).
Qed.

Lemma runs_loop_fuel f g l : (length l <= f)%nat → (length l <= g)%nat →
  runs_loop f l = runs_loop g l.
Proof.
  revert g l. induction f as [|f IH]; intros [|g] [|c t] Hf Hg; simpl in *; try (done || lia).
  f_equal. apply IH; rewrite length_drop; lia.
Qed.

Lemma runs_cons c t :
  let n := S (same_run (GetCardLogicValue c) t) in
  runs (c :: t) = take n (c :: t) :: runs (drop n (c :: t)).
Proof.
  unfold runs. cbn [length runs_loop]. f_equal.
  apply runs_loop_fuel; simpl; rewrite length_drop; lia.
Qed.

(** Induction along the runs of a hand. *)
Lemma runs_induction (P : list Z → Prop) :
  P [] →
  (∀ c t, P (drop (S (same_run (GetCardLogicValue c) t)) (c :: t)) → P (c :: t)) →
  ∀ l, P l.
Proof.
  intros H0 HS l. remember (length l) as n eqn:Hn. revert l Hn.
  induction n as [n IH] using lt_wf_ind. intros [|c t] ->; [done|].
  apply HS. eapply IH; [|done]. rewrite length_drop. simpl. lia.
Qed.

Lemma runs_concat l : concat (runs l) = l.
Proof.
  induction l as [|c t IH] using runs_induction; [done|].
  rewrite runs_cons. cbn [concat]. rewrite IH. apply take_drop.
Qed.

(** Every run is a non-empty block of one rank. *)
Lemma runs_const l : Forall (λ b, ∃ v n, lvs b = replicate (S n) v) (runs l).
Proof.
  induction l as [|c t IH] using runs_induction; [constructor|].
  rewrite runs_cons. constructor; [|done].
  eexists (GetCardLogicValue c), _. simpl. f_equal. apply same_run_take.
Qed.

(** A hand that starts with exactly [S n] cards of rank [v]. *)
Lemma runs_app v n p l : lvs p = replicate (S n) v → hd_error (lvs l) ≠ Some v →
  runs (p ++ l) = p :: runs l.
Proof.
  destruct p as [|c p]; intros Hp Hl; simplify_eq/=. rewrite runs_cons.
  assert (same_run (GetCardLogicValue c) (p ++ l) = length p) as ->.
  { rewrite (same_run_exact _ n); [|done..]. by rewrite <-(lvs_length p), H0, length_replicate. }
  simpl. by rewrite take_app_length, drop_app_length.
Qed.

Lemma line_values_S b top n :
  line_values b top (S n) = replicate b top ++ line_values b (top - 1) n.
Proof.
  unfold line_values. rewrite <-cons_seq. simpl. rewrite Z.sub_0_r. f_equal. f_equal.
  rewrite <-seq_shift, map_map. apply map_ext. intros i. f_equal. lia.
Qed.

Lemma line_values_length b top n : length (line_values b top n) = (n * b)%nat.
Proof.
  revert top. induction n as [|n IH]; intros top; [done|].
  rewrite line_values_S, length_app, length_replicate, IH. lia.
Qed.

(** The runs of a straight are its blocks. *)
Lemma runs_line b top n l : lvs l = line_values (S b) top n →
  Forall (λ r, length r = S b) (runs l) ∧ length (runs l) = n.
Proof.
  revert top l. induction n as [|n IH]; intros top l Hl.
  { destruct l; [|done]. by repeat constructor. }
  rewrite line_values_S in Hl. rewrite <-(take_drop (S b) l) in Hl |- *. rewrite lvs_app in Hl.
  assert (length (take (S b) l) = S b) as Hlen.
  { apply (f_equal length) in Hl. rewrite <-lvs_app, take_drop, lvs_length, length_app,
      length_replicate in Hl. rewrite length_take. lia. }
  apply app_inj_1 in Hl as [Hp Hr]; [|by rewrite lvs_length, length_replicate].
  destruct (IH _ _ Hr) as [H1 H2].
  rewrite (runs_app top b _ _ Hp).
  - split; [by constructor|simpl; by f_equal].
  - rewrite Hr. destruct n; [done|]. rewrite line_values_S. simpl. intros [=]. lia.
Qed.

(** ** The analysis is the run decomposition *)

Definition small_runs (l : list Z) : bool := forallb (λ b, (length b <=? 4)%nat) (runs l).
Definition runs_of (n : nat) (l : list Z) : list (list Z) := filter (λ b, length b = n) (runs l).

Lemma analyse_loop_runs f l r : (length l <= f)%nat →
  analyse_loop f l r =
  if small_runs l then foldl (λ r b, add_block r (length b) b) r (runs l) else zero_result.
Proof.
  revert r f. unfold small_runs. induction l as [|c t IH] using runs_induction; intros r [|f] Hf;
    simpl in Hf; try (done || lia).
  rewrite runs_cons. cbn [analyse_loop forallb foldl].
  set (n := S (same_run (GetCardLogicValue c) t)) in *.
  pose proof (same_run_le (GetCardLogicValue c) t) as Hle.
  assert (length (take n (c :: t)) = n) as Hn by (rewrite length_take; unfold n; simpl; lia).
  rewrite Hn. destruct (4 <? n)%nat eqn:E; breflect.
  { by rewrite (proj2 (Nat.leb_gt _ _)) by lia. }
  rewrite (proj2 (Nat.leb_le _ _)) by lia. simpl andb. apply IH.
  rewrite length_drop. simpl. lia.
Qed.

Lemma add_blocks_spec bs r k :
  Forall (λ b, 1 <= length b <= 4)%nat bs → (k < 4)%nat →
  length (cbBlockCount r) = 4%nat → length (cbBlockData r) = 4%nat →
  let r' := foldl (λ r b, add_block r (length b) b) r bs in
  blocks r' k = (blocks r k + length (filter (λ b, length b = S k) bs))%nat ∧
  bdata r' k = bdata r k ++ concat (filter (λ b, length b = S k) bs).
Proof.
  intros Hbs Hk. revert r. induction Hbs as [|b bs Hb Hbs IH]; intros r H1 H2; simpl.
  { rewrite app_nil_r. split; [lia|done]. }
  destruct (IH (add_block r (length b) b)) as [Ha Hd]; [by simpl; rewrite length_alter..|].
  simpl in Ha, Hd. rewrite Ha, Hd. clear Ha Hd IH.
  unfold blocks, bdata, nget, rget, add_block; simpl.
  destruct (decide (length b = S k)) as [E|E].
  - rewrite E. simpl. rewrite Nat.sub_0_r, !list_lookup_alter, filter_cons_True by done.
    destruct (lookup_lt_is_Some_2 (cbBlockCount r) k) as [x ->]; [lia|].
    destruct (lookup_lt_is_Some_2 (cbBlockData r) k) as [y ->]; [lia|]. simpl.
    rewrite !decide_True by done. simpl. rewrite app_assoc. split; [lia|done].
  - rewrite filter_cons_False by done. by rewrite !list_lookup_alter_ne by lia.
Qed.

Lemma runs_nonempty l : Forall (λ b, 1 <= length b)%nat (runs l).
Proof.
  eapply Forall_impl; [apply runs_const|]. intros b (v & n & H).
  rewrite <-lvs_length, H, length_replicate. lia.
Qed.

Lemma analyse_spec l k : (k < 4)%nat → small_runs l = true →
  blocks (AnalysebCardData l) k = length (runs_of (S k) l) ∧
  bdata (AnalysebCardData l) k = concat (runs_of (S k) l).
Proof.
  intros Hk Hs. unfold AnalysebCardData. rewrite analyse_loop_runs, Hs by done.
  destruct (add_blocks_spec (runs l) zero_result k) as [H1 H2]; try done.
  - pose proof (runs_nonempty l) as Hne. unfold small_runs in Hs.
    rewrite forallb_forall in Hs. rewrite Forall_forall in Hne |- *. intros b Hb.
    specialize (Hne b Hb). apply list_elem_of_In, Hs in Hb. breflect. lia.
  - simpl in H1, H2. rewrite H1, H2. unfold runs_of.
    by destruct k as [|[|[|[|k]]]]; try lia.
Qed.

Lemma analyse_big l k : small_runs l = false →
  blocks (AnalysebCardData l) k = 0%nat ∧ bdata (AnalysebCardData l) k = [].
Proof.
  intros Hs. unfold AnalysebCardData. rewrite analyse_loop_runs, Hs by done.
  destruct k as [|[|[|[|k]]]]; done.
Qed.

(** ** Straights *)

Lemma concat_inj_lengths {A} (xs ys : list (list A)) :
  Forall2 (λ a b, length a = length b) xs ys → concat xs = concat ys → xs = ys.
Proof.
  induction 1 as [|x y xs ys Hxy _ IH]; simpl; [done|].
  intros [-> ?]%app_inj_1; [|done]. f_equal. auto.
Qed.

Lemma concat_aget b rs i : Forall (λ r, length r = S b) rs →
  (concat rs).[i * S b] = (rget rs i).[0].
Proof.
  intros H. revert i. induction H as [|r rs Hr _ IH]; intros i; [by destruct i|].
  destruct i as [|i]; simpl concat.
  - rewrite Nat.mul_0_l, aget_app_l by lia. done.
  - unfold aget at 1. rewrite lookup_app_r by lia.
    replace (S i * S b - length r)%nat with (i * S b)%nat by lia. apply IH.
Qed.

Lemma run_head b v r : lvs r = replicate (S b) v → GetCardLogicValue r.[0] = v.
Proof. destruct r; intros; by simplify_eq/=. Qed.

Lemma lvs_concat rs : lvs (concat rs) = concat (map lvs rs).
Proof. apply concat_map. Qed.

Lemma run_length b v r : lvs r = replicate b v → length r = b.
Proof. intros H. by rewrite <-lvs_length, H, length_replicate. Qed.

Section IsLine.
Context (b : nat) (rs : list (list Z)).
Context (Hrs : Forall (λ r, ∃ v, lvs r = replicate (S b) v) rs) (Hne : rs ≠ []).

Lemma blocks_length : Forall (λ r, length r = S b) rs.
Proof. eapply Forall_impl; [exact Hrs|]. intros r [v H]. by eapply run_length. Qed.

Lemma block_head i r : rs !! i = Some r →
  lvs r = replicate (S b) (GetCardLogicValue (concat rs).[i * S b]).
Proof.
  intros Hi. rewrite concat_aget by apply blocks_length. unfold rget. rewrite Hi. simpl.
  destruct (Forall_lookup_1 _ _ _ _ Hrs Hi) as [v Hv]. by rewrite (run_head _ _ _ Hv).
Qed.

Lemma is_line_spec : is_line (concat rs) (S b) (length rs) = true ↔
  ∃ top, top <= 14 ∧ lvs (concat rs) = line_values (S b) top (length rs).
Proof.
  unfold is_line. set (d := concat rs). cbv zeta.
  rewrite andb_true_iff, negb_true_iff, Z.leb_gt, forallb_forall. split.
  - intros [Htop Hi]. exists (GetCardLogicValue d.[0]). split; [lia|].
    unfold d at 1, line_values. rewrite lvs_concat. f_equal. apply list_eq. intros i.
    destruct (decide (i < length rs)%nat) as [Hlt|Hge].
    + destruct (lookup_lt_is_Some_2 rs i Hlt) as [r Hr].
      rewrite !list_lookup_fmap, lookup_seq_lt, Hr by done. simpl. f_equal.
      rewrite (block_head i r Hr). fold d. destruct (decide (i = 0%nat)) as [->|Hi0].
      * rewrite Nat.mul_0_l. simpl. by rewrite Z.sub_0_r.
      * specialize (Hi i). rewrite in_seq in Hi. assert (H := Hi ltac:(lia)). breflect.
        by replace (GetCardLogicValue d.[0] - Z.of_nat i) with (GetCardLogicValue d.[i * S b]) by lia.
    + rewrite !lookup_ge_None_2; [done|rewrite length_map, ?length_seq; lia..].
  - intros (top & Htop & Heq). unfold d in Heq. rewrite lvs_concat in Heq.
    apply concat_inj_lengths in Heq.
    2: { apply Forall2_fmap. apply Forall2_same_length_lookup_2; [by rewrite length_seq|].
         intros i r j Hr Hj. apply lookup_seq in Hj as [-> _]. rewrite length_replicate, lvs_length.
         by rewrite (Forall_lookup_1 _ _ _ _ blocks_length Hr). }
    assert (∀ i, (i < length rs)%nat → GetCardLogicValue d.[i * S b] = top - Z.of_nat i) as Hh.
    { intros i Hlt. destruct (lookup_lt_is_Some_2 rs i Hlt) as [r Hr].
      apply (f_equal (lookup i)) in Heq.
      rewrite !list_lookup_fmap, lookup_seq_lt, Hr in Heq by done. simpl in Heq.
      rewrite (block_head i r Hr) in Heq. by simplify_eq/=. }
    assert (0 < length rs)%nat as H0 by (destruct rs; [done|simpl; lia]).
    pose proof (Hh 0%nat H0) as Hfirst. rewrite Nat.mul_0_l in Hfirst. split; [lia|].
    intros i [??]%in_seq. rewrite Hfirst, Hh by lia. apply Z.eqb_eq. lia.
Qed.
End IsLine.

(** ** Counting *)

Lemma count_runs bs : Forall (λ b, 1 <= length b <= 4)%nat bs →
  let n k := length (filter (λ b : list Z, length b = k) bs) in
  length (concat bs) = (n 1 + 2 * n 2 + 3 * n 3 + 4 * n 4)%nat.
Proof.
  induction 1 as [|b bs Hb _ IH]; simpl in *; [done|].
  rewrite length_app, IH, !filter_cons. repeat case_decide; simpl; lia.
Qed.

Lemma small_runs_lengths l : small_runs l = true → Forall (λ b, 1 <= length b <= 4)%nat (runs l).
Proof.
  intros Hs. pose proof (runs_nonempty l) as Hne. unfold small_runs in Hs.
  rewrite forallb_forall in Hs. rewrite Forall_forall in Hne |- *. intros b Hb.
  specialize (Hne b Hb). apply list_elem_of_In, Hs in Hb. breflect. lia.
Qed.

Lemma small_runs_count l : small_runs l = true → let n k := length (runs_of k l) in
  length l = (n 1 + 2 * n 2 + 3 * n 3 + 4 * n 4)%nat.
Proof.
  intros Hs. pose proof (count_runs _ (small_runs_lengths _ Hs)) as H. by rewrite runs_concat in H.
Qed.

Lemma runs_of_const n l : Forall (λ r, ∃ v, lvs r = replicate n v) (runs_of n l).
Proof.
  apply Forall_forall. intros r [Hlen Hr]%list_elem_of_filter.
  pose proof (runs_const l) as Hc. rewrite Forall_forall in Hc.
  destruct (Hc r Hr) as (v & k & Hv). exists v. rewrite <-Hlen, (run_length _ _ _ Hv). done.
Qed.

(** When every card sits in a run of length [n], those runs are the hand. *)
Lemma runs_of_all n l : Forall (λ b, length b = n) (runs l) → runs_of n l = runs l.
Proof.
  unfold runs_of. induction 1; simpl; [done|]. rewrite filter_cons_True by done. by f_equal.
Qed.

Lemma runs_of_none n m l : n ≠ m → Forall (λ b, length b = n) (runs l) → runs_of m l = [].
Proof.
  unfold runs_of. induction 2 as [|b bs Hb]; simpl; [done|]. by rewrite filter_cons_False by lia.
Qed.

Lemma runs_of_full n l : small_runs l = true →
  (∀ m, (1 <= m <= 4)%nat → m ≠ n → runs_of m l = []) → concat (runs_of n l) = l.
Proof.
  intros Hs Hm. rewrite runs_of_all; [apply runs_concat|].
  apply small_runs_lengths in Hs. rewrite Forall_forall in Hs |- *. intros b Hb.
  destruct (decide (length b = n)) as [|Hne]; [done|].
  assert (b ∈ runs_of (length b) l) as Hin by (apply list_elem_of_filter; done).
  rewrite Hm in Hin; [by apply not_elem_of_nil in Hin|by apply Hs|done].
Qed.

Lemma uniform_small n l : (n <= 4)%nat → Forall (λ b, length b = n) (runs l) → small_runs l = true.
Proof.
  intros Hn H. unfold small_runs. apply forallb_forall. intros b Hb%list_elem_of_In.
  rewrite Forall_forall in H. apply Nat.leb_le. rewrite H by done. lia.
Qed.

(** ** The rules of the game *)

(** A body of [n] triples, neighbours when there are several, without a bomb. *)
Record plane (l : list Z) (n : nat) : Prop := Plane {
  plane_small : small_runs l = true;
  plane_four : runs_of 4 l = [];
  plane_pos : (1 <= n)%nat;
  plane_three : length (runs_of 3 l) = n;
  plane_line : n = 1%nat ∨ ∃ top, top <= 14 ∧ lvs (concat (runs_of 3 l)) = line_values 3 top n
}.

(**    [Rule l t]: the list of cards [l] is a legal play of type [t]. *)
Inductive Rule : list Z → CardType → Prop :=
  | R_single l v : lvs l = [v] → Rule l CT_SINGLE
  | R_missile : Rule [79; 78] CT_MISSILE_CARD
  | R_pair l v : lvs l = replicate 2 v → Rule l CT_DOUBLE_CARD
  | R_three l v : lvs l = replicate 3 v → Rule l CT_THREE
  | R_bomb l v : lvs l = replicate 4 v → Rule l CT_BOMB_CARD
  | R_line1 l top n : (5 <= n)%nat → top <= 14 → lvs l = line_values 1 top n → Rule l CT_SINGLE_LINE
  | R_line2 l top n : (3 <= n)%nat → top <= 14 → lvs l = line_values 2 top n → Rule l CT_DOUBLE_LINE
  | R_line3 l top n : (2 <= n)%nat → top <= 14 → lvs l = line_values 3 top n → Rule l CT_THREE_LINE
  | R_three_one l n : plane l n → length l = (4 * n)%nat → Rule l CT_THREE_TAKE_ONE
  | R_three_two l n : plane l n → length l = (5 * n)%nat → length (runs_of 2 l) = n →
      Rule l CT_THREE_TAKE_TWO
  | R_four_one l : small_runs l = true → length (runs_of 4 l) = 1%nat → length l = 6%nat →
      Rule l CT_FOUR_TAKE_ONE
  | R_four_two l : small_runs l = true → length (runs_of 4 l) = 1%nat → length l = 8%nat →
      length (runs_of 2 l) = 2%nat → Rule l CT_FOUR_TAKE_TWO.

(** The decision tree of [GetCardType] on the block counts. *)
Definition classify (n1 n2 n3 n4 m : nat) (line3 line2 line1 : bool) : CardType :=
  if (0 <? n4)%nat then
    if (n4 =? 1)%nat && (m =? 4)%nat then CT_BOMB_CARD
    else if (n4 =? 1)%nat && (m =? 6)%nat then CT_FOUR_TAKE_ONE
    else if (n4 =? 1)%nat && (m =? 8)%nat && (n2 =? 2)%nat then CT_FOUR_TAKE_TWO
    else CT_ERROR
  else if (0 <? n3)%nat then
    if (1 <? n3)%nat && negb line3 then CT_ERROR
    else if negb (1 <? n3)%nat && (m =? 3)%nat then CT_THREE
    else if (n3 * 3 =? m)%nat then CT_THREE_LINE
    else if (n3 * 4 =? m)%nat then CT_THREE_TAKE_ONE
    else if (n3 * 5 =? m)%nat && (n2 =? n3)%nat then CT_THREE_TAKE_TWO
    else CT_ERROR
  else if (3 <=? n2)%nat then
    if negb line2 then CT_ERROR else if (n2 * 2 =? m)%nat then CT_DOUBLE_LINE else CT_ERROR
  else if (5 <=? n1)%nat && (n1 =? m)%nat then
    if negb line1 then CT_ERROR else CT_SINGLE_LINE
  else CT_ERROR.

Definition line_of (b : nat) (l : list Z) : bool :=
  is_line (concat (runs_of b l)) b (length (runs_of b l)).

Lemma GetCardType_classify l : (3 <= length l)%nat → small_runs l = true →
  let n k := length (runs_of k l) in
  GetCardType l = classify (n 1%nat) (n 2%nat) (n 3%nat) (n 4%nat) (length l)
                           (line_of 3 l) (line_of 2 l) (line_of 1 l).
Proof.
  intros Hl Hs. simpl.
  assert (∀ k, (k < 4)%nat → blocks (AnalysebCardData l) k = length (runs_of (S k) l)) as Hb
    by (intros; by apply analyse_spec).
  assert (∀ k, (k < 4)%nat → bdata (AnalysebCardData l) k = concat (runs_of (S k) l)) as Hd
    by (intros; by apply analyse_spec).
  unfold GetCardType, classify, line_of.
  destruct l as [|a [|b [|c l]]]; simpl in Hl; try lia. cbv zeta beta iota.
  change (length (a :: b :: c :: l)) with (S (S (S (length l)))). cbv iota.
  rewrite !Hb, !Hd by lia. done.
Qed.

Lemma GetCardType_big l : (3 <= length l)%nat → small_runs l = false → GetCardType l = CT_ERROR.
Proof.
  intros Hl Hs. unfold GetCardType.
  destruct l as [|a [|b [|c l]]]; simpl in Hl; try lia.
  change (length (a :: b :: c :: l)) with (S (S (S (length l)))). cbv zeta iota.
  by rewrite !(fun k => proj1 (analyse_big _ k Hs)).
Qed.

Lemma line_of_spec b l : runs_of (S b) l ≠ [] → line_of (S b) l = true ↔
  ∃ top, top <= 14 ∧ lvs (concat (runs_of (S b) l)) = line_values (S b) top (length (runs_of (S b) l)).
Proof. intros H. apply is_line_spec; [apply runs_of_const|done]. Qed.

(** A hand that is nothing but [n] runs of [S b] cards. *)
Lemma runs_only n b l : small_runs l = true → length (runs_of (S b) l) = n →
  length l = (n * S b)%nat → (b < 4)%nat → concat (runs_of (S b) l) = l.
Proof.
  intros Hs Hn Hl Hb. pose proof (small_runs_count l Hs) as Hc. simpl in Hc.
  apply runs_of_full; [done|]. intros m Hm Hmb.
  apply length_zero_iff_nil.
  destruct b as [|[|[|[|b]]]]; try lia; destruct m as [|[|[|[|[|m]]]]]; try lia; simpl in *; lia.
Qed.

(** Conversely: the counts of a hand made of [n] runs of [S b] cards. *)
Lemma uniform_counts b n l : (b < 4)%nat →
  Forall (λ r, length r = S b) (runs l) → length (runs l) = n →
  small_runs l = true ∧ length l = (n * S b)%nat ∧ concat (runs_of (S b) l) = l ∧
  ∀ k, length (runs_of k l) = if (k =? S b)%nat then n else 0%nat.
Proof.
  intros Hb Hall Hn. assert (Hs : small_runs l = true) by (eapply uniform_small; [|done]; lia).
  assert (Hcc : concat (runs_of (S b) l) = l) by (rewrite runs_of_all by done; apply runs_concat).
  assert (∀ k, length (runs_of k l) = if (k =? S b)%nat then n else 0%nat) as Hk.
  { intros k. destruct (k =? S b)%nat eqn:E; breflect.
    - subst k. by rewrite runs_of_all.
    - by rewrite (runs_of_none (S b) k l). }
  split_and!; [done| |done|done].
  rewrite (small_runs_count l Hs), !Hk. destruct b as [|[|[|[|b]]]]; simpl; lia.
Qed.

Lemma replicate_line b v : replicate b v = line_values b v 1.
Proof. unfold line_values. simpl. by rewrite app_nil_r, Z.sub_0_r. Qed.

Lemma rule_line b n top l t : (b < 4)%nat → (3 <= n * S b)%nat → lvs l = line_values (S b) top n →
  (∀ p2 p3 p1, classify (if (b =? 0)%nat then n else 0) (if (b =? 1)%nat then n else 0)
     (if (b =? 2)%nat then n else 0) (if (b =? 3)%nat then n else 0) (n * S b)
     (if (b =? 2)%nat then bool_decide (n = 1%nat) || bool_decide (top <= 14) || p3 else p3)
     (if (b =? 1)%nat then bool_decide (top <= 14) || p2 else p2)
     (if (b =? 0)%nat then bool_decide (top <= 14) || p1 else p1) = t) →
  GetCardType l = t.
Proof.
  intros Hb Hn Hl Ht. destruct (runs_line _ _ _ _ Hl) as [Hall Hlen].
  destruct (uniform_counts b n l Hb Hall Hlen) as (Hs & Hm & Hcc & Hk).
  rewrite GetCardType_classify by (try lia; done). simpl. rewrite !Hk, Hm.
  assert (top <= 14 → line_of (S b) l = true) as Hline.
  { intros Htop. apply line_of_spec.
    - intros E. specialize (Hk (S b)). rewrite E, Nat.eqb_refl in Hk. simpl in Hk. lia.
    - exists top. by rewrite Hcc, Hk, Nat.eqb_refl. }
  rewrite <-(Ht (line_of 2 l) (line_of 3 l) (line_of 1 l)). clear Ht.
  destruct b as [|[|[|[|b]]]]; try lia; simpl in *;
    repeat case_bool_decide; simpl; try rewrite Hline by done; try done.
  by rewrite H.
Qed.

Lemma plane_unbroken l n : plane l n → (1 <? n)%nat && negb (line_of 3 l) = false.
Proof.
  intros [Hs H4 Hn H3 Hl]. destruct Hl as [->|Hl]; [done|].
  rewrite (proj2 (line_of_spec 2 l ltac:(intros E; rewrite E in H3; simpl in H3; lia))).
  - by rewrite andb_false_r.
  - by rewrite H3.
Qed.

#[local] Arguments Nat.leb : simpl never.
#[local] Arguments Nat.ltb : simpl never.
#[local] Arguments Nat.eqb : simpl never.

(** Every legal play gets its type. *)
Lemma rule_type l t : Rule l t → GetCardType l = t.
Proof.
  destruct 1 as [l v H| |l v H|l v H|l v H|l top n Hn Ht H|l top n Hn Ht H|l top n Hn Ht H
                |l n H Hm|l n H Hm H2|l Hs H4 Hm|l Hs H4 Hm H2].
  - destruct l as [|c [|]]; by simplify_eq/=.
  - done.
  - destruct l as [|c [|d [|]]]; simplify_eq/=. unfold GetCardType. simpl.
    unfold aget; simpl. rewrite H, Z.eqb_refl. bsplit; subst; done.
  - rewrite replicate_line in H. apply (rule_line 2 1 v); [lia..|done|].
    intros. unfold classify. simpl. done.
  - rewrite replicate_line in H. apply (rule_line 3 1 v); [lia..|done|]. done.
  - apply (rule_line 0 n top); [lia..|done|]. intros. rewrite (bool_decide_eq_true_2 (top <= 14)) by done.
    unfold classify. simpl. bcrush.
  - apply (rule_line 1 n top); [lia..|done|]. intros. rewrite (bool_decide_eq_true_2 (top <= 14)) by done.
    unfold classify. simpl. bcrush.
  - apply (rule_line 2 n top); [lia..|done|]. intros. rewrite (bool_decide_eq_true_2 (top <= 14)) by done.
    unfold classify. simpl. rewrite orb_true_r. bcrush.
  - pose proof (plane_unbroken _ _ H) as E. destruct H as [Hs H4 Hn H3 Hl]. rewrite GetCardType_classify by (try lia; done).
    simpl. rewrite H4, H3, Hm.
    unfold classify. simpl. rewrite E. bcrush.
  - pose proof (plane_unbroken _ _ H) as E. destruct H as [Hs H4 Hn H3 Hl]. rewrite GetCardType_classify by (try lia; done).
    simpl. rewrite H4, H3, H2, Hm.
    unfold classify. simpl. rewrite E. rewrite Nat.eqb_refl, andb_true_r. bcrush.
  - rewrite GetCardType_classify by (try lia; done). simpl. by rewrite H4, Hm.
  - rewrite GetCardType_classify by (try lia; done). simpl. by rewrite H4, Hm, H2.
Qed.

(** A hand that is nothing but blocks of [S b] cards in line. *)
Lemma line_hand b l : (b < 4)%nat → small_runs l = true →
  length l = (length (runs_of (S b) l) * S b)%nat → l ≠ [] → line_of (S b) l = true →
  ∃ top, top <= 14 ∧ lvs l = line_values (S b) top (length (runs_of (S b) l)).
Proof.
  intros Hb Hs Hm Hne Hl. pose proof (runs_only _ _ _ Hs eq_refl Hm Hb) as Hcc.
  apply line_of_spec in Hl; [by rewrite Hcc in Hl|].
  intros E. rewrite E in Hcc. by subst.
Qed.

(** A hand that is one block. *)
Lemma block_hand b l : (b < 4)%nat → small_runs l = true →
  length (runs_of (S b) l) = 1%nat → length l = S b → ∃ v, lvs l = replicate (S b) v.
Proof.
  intros Hb Hs H1 Hm. pose proof (runs_only 1 b l Hs H1 ltac:(lia) Hb) as Hcc.
  pose proof (runs_of_const (S b) l) as Hc.
  destruct (runs_of (S b) l) as [|r [|]]; try done. simpl in Hcc. rewrite app_nil_r in Hcc.
  subst. by inversion_clear Hc.
Qed.

Lemma plane_intro l : small_runs l = true → (length (runs_of 4 l) <= 0)%nat →
  (0 < length (runs_of 3 l))%nat → (line_of 3 l = true ∨ (length (runs_of 3 l) <= 1)%nat) →
  plane l (length (runs_of 3 l)).
Proof.
  intros Hs H4 H3 Hl. split; [done|apply length_zero_iff_nil; lia|lia|done|].
  destruct Hl as [Hl|Hl]; [right|left; lia]. apply (line_of_spec 2); [|done].
  intros E. rewrite E in H3. simpl in H3. lia.
Qed.

(** Every type but [CT_ERROR] is only given to legal plays. *)
Lemma type_rule l : GetCardType l ≠ CT_ERROR → Rule l (GetCardType l).
Proof.
  destruct (decide (length l <= 2)%nat) as [Hl|Hl].
  { destruct l as [|c [|d [|]]]; simpl in Hl; try lia; [done|intros _; by eapply R_single|].
    unfold GetCardType. simpl. unfold aget. simpl. bsplit; subst; try done; intros _; [constructor|].
    eapply R_pair. simpl. by rewrite E0. }
  destruct (small_runs l) eqn:Hs; [|rewrite GetCardType_big by (done || lia); done].
  assert (l ≠ []) as Hne by (intros ->; simpl in Hl; lia).
  rewrite GetCardType_classify by (done || lia). unfold classify. simpl.
  bsplit; intros Ht; try done; clear Ht; bcases; try lia.
  all: try (destruct (block_hand 3 l) as [v Hv]; [lia|done|lia|lia|]; by eapply R_bomb).
  all: try (by constructor).
  all: try (destruct (block_hand 2 l) as [v Hv]; [lia|done|lia|lia|]; by eapply R_three).
  all: try (destruct (line_hand 2 l) as (top & ? & ?); [lia|done|lia|done|done|]; eapply R_line3; [|done..]; lia).
  all: try (destruct (line_hand 1 l) as (top & ? & ?); [lia|done|lia|done|done|]; eapply R_line2; [|done..]; lia).
  all: try (destruct (line_hand 0 l) as (top & ? & ?); [lia|done|lia|done|done|]; eapply R_line1; [|done..]; lia).
  all: first [eapply R_three_one; [apply plane_intro; [done|lia|lia|auto]|lia]
             |eapply R_three_two; [apply plane_intro; [done|lia|lia|auto]|lia|lia]].
Qed.

(** C23. [GetCardType] decides the rules: for every hand and every type but
    [CT_ERROR], the function answers the type exactly when the hand is a legal
    play of that type, so it answers [CT_ERROR] exactly on illegal hands. *)
Theorem GetCardType_rule l t : t ≠ CT_ERROR → (GetCardType l = t ↔ Rule l t).
Proof.
  intros Ht. split; [|apply rule_type]. intros <-. by apply type_rule.
Qed.

Lemma GetCardType_rule_witness :
  GetCardType [28;11;10;9;8;55;23] = CT_ERROR ∧ Rule [28;43;10;9;8] CT_SINGLE_LINE.
Proof. split; [done|]. apply GetCardType_rule; done. Defined.

(** ** Comparing plays *)

(** What [CompareCard] compares: the rank of the first card, of the first triple
    or of the first bomb. *)
Definition play_rank (l : list Z) : Z :=
  match GetCardType l with
  | CT_THREE_TAKE_ONE | CT_THREE_TAKE_TWO => GetCardLogicValue (bdata (AnalysebCardData l) 2).[0]
  | CT_FOUR_TAKE_ONE | CT_FOUR_TAKE_TWO => GetCardLogicValue (bdata (AnalysebCardData l) 3).[0]
  | _ => GetCardLogicValue l.[0]
  end.

(** The rules: the rocket beats everything, a bomb everything but a bomb and the
    rocket, otherwise the same shape with a higher rank. *)
Definition beats (first next : list Z) : Prop :=
  GetCardType next = CT_MISSILE_CARD ∨
  GetCardType first ≠ CT_MISSILE_CARD ∧
  ((GetCardType next = CT_BOMB_CARD ∧ GetCardType first ≠ CT_BOMB_CARD) ∨
   (GetCardType next ≠ CT_ERROR ∧ GetCardType first = GetCardType next ∧
    length first = length next ∧ play_rank first < play_rank next)).

Lemma CompareCard_beats first next : CompareCard first next = true ↔ beats first next.
Proof.
  unfold CompareCard, beats, play_rank.
  destruct (GetCardType next) eqn:En, (GetCardType first) eqn:Ef; simpl;
    repeat case_decide; try done; repeat case_bool_decide; try done; simpl;
    rewrite ?orb_true_r; simpl; try (intuition congruence; fail).
  all: destruct (length first =? length next)%nat eqn:El; simpl; rewrite ?Z.ltb_lt; breflect; intuition (congruence || lia).
Qed.

(** [CompareCard] is transitive: what beats a play that beats the table beats
    the table. *)
Theorem CompareCard_trans a b c :
  CompareCard a b = true → CompareCard b c = true → CompareCard a c = true.
Proof.
  rewrite !CompareCard_beats. unfold beats.
  intros [Hb|(Ha & [[Hb Ha']|(Hb & Hab & Hl & Hr)])] [Hc|(Hb' & [[Hc Hb'']|(Hc & Hbc & Hl' & Hr')])];
    try (by left); try congruence; right; (split; [done|]).
  - left. split; [congruence|done].
  - left. split; [done|congruence].
  - right. split_and!; [done|congruence..|lia].
Qed.

Lemma CompareCard_trans_witness : CompareCard [3] [2] = true.
Proof. by apply (CompareCard_trans [3] [10] [2]). Defined.

(** Two plays never beat each other, the rocket against itself apart. *)
Theorem CompareCard_asym a b :
  GetCardType b ≠ CT_MISSILE_CARD → CompareCard a b = true → CompareCard b a = false.
Proof.
  intros Hm Hab. apply not_true_iff_false. revert Hab. rewrite !CompareCard_beats. unfold beats.
  intros [?|(Ha & [[Hb Ha']|(Hb & Hab & Hl & Hr)])] [?|(Hb' & [[? Hb'']|(? & Hba & Hl' & Hr')])];
    congruence || lia.
Qed.

Lemma CompareCard_asym_witness : CompareCard [10; 26; 42; 58] [3; 19; 35; 51] = false.
Proof. apply CompareCard_asym; done. Defined.

(** Sorting a hand in rank order: the result is a permutation of the hand, in
    descending rank order (bytes break ties), and does not depend on the order
    the cards were held in. *)
Theorem SortCardList_order l k :
  l ≡ₚ k →
  SortCardList l ST_ORDER ≡ₚ l ∧
  StronglySorted (card_ge GetCardLogicValue) (SortCardList l ST_ORDER) ∧
  SortCardList l ST_ORDER = SortCardList k ST_ORDER.
Proof.
  intros H. split_and!.
  - apply sort_by_value_perm.
  - apply sort_by_value_sorted.
  - by apply sort_by_value_canonical.
Qed.

Lemma SortCardList_order_witness :
  SortCardList [3; 78; 2; 61; 18; 79] ST_ORDER = SortCardList [79; 61; 3; 2; 78; 18] ST_ORDER.
Proof. apply (SortCardList_order [3; 78; 2; 61; 18; 79]). by_decide. Defined.

(** The analysis is the decomposition of the hand into its runs of equal rank:
    the runs put together are the hand, and as long as no rank is held five times
    the [k]-th block list is the concatenation of the runs of [k] cards. *)
Theorem AnalysebCardData_runs l k :
  (1 <= k <= 4)%nat → Forall (λ b, length b <= 4)%nat (runs l) →
  concat (runs l) = l ∧
  Forall (λ b, ∃ v n, lvs b = replicate (S n) v) (runs l) ∧
  blocks (AnalysebCardData l) (k - 1) = length (filter (λ b, length b = k) (runs l)) ∧
  bdata (AnalysebCardData l) (k - 1) = concat (filter (λ b, length b = k) (runs l)).
Proof.
  intros Hk Hl. split_and!; [apply runs_concat|apply runs_const|..];
    destruct k as [|k]; try lia; simpl; rewrite Nat.sub_0_r; apply analyse_spec; try lia;
    apply forallb_forall; intros b Hb%list_elem_of_In; rewrite Forall_forall in Hl;
    apply Nat.leb_le; auto.
Qed.

Lemma AnalysebCardData_runs_witness :
  bdata (AnalysebCardData [28; 12; 43; 10; 26; 42]) (2 - 1) = [28; 12].
Proof.
  rewrite (proj2 (proj2 (proj2 (AnalysebCardData_runs [28; 12; 43; 10; 26; 42] 2 ltac:(lia)
    ltac:(by_decide))))).
  reflexivity.
Defined.

(** ** Removing cards *)

Lemma zero_first_spec c l :
  match zero_first c l with
  | Some l' => ∃ p q, l = p ++ c :: q ∧ l' = p ++ 0 :: q
  | None => c ∉ l
  end.
Proof.
  induction l as [|x l IH]; simpl; [by apply not_elem_of_nil|].
  destruct (c =? x) eqn:E; breflect; [subst; by exists [], l|].
  destruct (zero_first c l) as [l'|]; simpl.
  - destruct IH as (p & q & -> & ->). by exists (x :: p), q.
  - intros [?|?]%elem_of_cons; done.
Qed.

Lemma nonzero_app l k : nonzero (l ++ k) = nonzero l ++ nonzero k.
Proof. apply filter_app. Qed.

Lemma submseteq_zero rem p q : 0 ∉ rem → rem ⊆+ p ++ 0 :: q → rem ⊆+ p ++ q.
Proof.
  intros H0. rewrite <-Permutation_middle. intros [H|(t & Ht & _)]%submseteq_cons_r; [done|].
  exfalso. apply H0. rewrite Ht. by left.
Qed.

(** The cards are all there: every one is blanked, once. *)
Lemma zero_cards_ok rem l : 0 ∉ rem → rem ⊆+ l →
  (zero_cards rem l).1 = length rem ∧
  nonzero (zero_cards rem l).2 ++ rem ≡ₚ nonzero l ∧
  nonzero (zero_cards rem l).2 `sublist_of` nonzero l.
Proof.
  revert l. induction rem as [|c rem IH]; intros l H0 Hsub; simpl.
  { by rewrite app_nil_r. }
  rewrite not_elem_of_cons in H0. destruct H0 as [Hc H0].
  pose proof (zero_first_spec c l) as Hz. destruct (zero_first c l) as [l'|].
  - destruct Hz as (p & q & -> & ->).
    destruct (IH (p ++ 0 :: q)) as (Hn & Hp & Hs); [done|..].
    { rewrite <-Permutation_middle in Hsub |- *. apply submseteq_cons_l in Hsub as (k & Hk & Hsub).
      apply Permutation_cons_inv in Hk. rewrite <-Hk in Hsub. by apply submseteq_cons. }
    destruct (zero_cards rem (p ++ 0 :: q)) as [n r]. simpl in *. split_and!; [by f_equal|..].
    + rewrite <-Permutation_middle, Hp, !nonzero_app. unfold nonzero.
      rewrite filter_cons_False by auto. rewrite (filter_cons_True _ c) by done.
      by rewrite Permutation_middle.
    + etrans; [exact Hs|]. rewrite !nonzero_app. unfold nonzero.
      rewrite filter_cons_False by auto. rewrite (filter_cons_True _ c) by done.
      apply sublist_app; [done|]. by apply sublist_cons.
  - exfalso. apply Hz. eapply elem_of_submseteq; [|exact Hsub]. by left.
Qed.

(** A card is missing: the count falls short. *)
Lemma zero_cards_missing rem l : 0 ∉ rem → ¬ rem ⊆+ l → ((zero_cards rem l).1 < length rem)%nat.
Proof.
  assert (∀ rem l, (zero_cards rem l).1 <= length rem)%nat as Hle.
  { clear. induction rem as [|c rem IH]; intros l; simpl; [lia|].
    destruct (zero_first c l) as [l'|].
    - specialize (IH l'). destruct (zero_cards rem l'). simpl in *. lia.
    - specialize (IH l). lia. }
  revert l. induction rem as [|c rem IH]; intros l H0 Hsub; simpl.
  { by destruct Hsub; apply submseteq_nil_l. }
  rewrite not_elem_of_cons in H0. destruct H0 as [Hc H0].
  pose proof (zero_first_spec c l) as Hz. destruct (zero_first c l) as [l'|].
  - destruct Hz as (p & q & -> & ->). specialize (IH (p ++ 0 :: q) H0).
    destruct (zero_cards rem (p ++ 0 :: q)) as [n r]. simpl in *. assert (n < length rem)%nat; [|lia].
    apply IH. intros Hr%submseteq_zero; [|done]. apply Hsub.
    rewrite <-Permutation_middle. by apply submseteq_skip.
  - specialize (Hle rem l). lia.
Qed.

Lemma nonzero_id l : 0 ∉ l → nonzero l = l.
Proof.
  unfold nonzero. induction l as [|x l IH]; [done|]. rewrite not_elem_of_cons. intros [??].
  rewrite filter_cons_True by auto. by rewrite IH.
Qed.

Lemma remove_list_spec rem l :
  0 ∉ rem → 0 ∉ l → (length l <= MAX_COUNT)%nat →
  (rem ⊆+ l → ∃ kept, RemoveCardList rem l = Some (kept ++ replicate (length rem) 0) ∧
                      kept ++ rem ≡ₚ l ∧ kept `sublist_of` l) ∧
  (¬ rem ⊆+ l → RemoveCardList rem l = None).
Proof.
  intros H0 Hl Hlen. unfold RemoveCardList.
  rewrite (proj2 (Nat.ltb_ge _ _)) by done. split; intros Hsub.
  - destruct (zero_cards_ok rem l H0 Hsub) as (Hn & Hp & Hs).
    destruct (zero_cards rem l) as [n r]. simpl in *. rewrite Hn, Nat.eqb_refl. simpl.
    rewrite (nonzero_id l) in Hp, Hs by done. exists (nonzero r). split; [|done].
    do 3 f_equal. apply Permutation_length in Hp. rewrite length_app in Hp. lia.
  - pose proof (zero_cards_missing rem l H0 Hsub) as Hn.
    destruct (zero_cards rem l) as [n r]. simpl in Hn.
    by rewrite (proj2 (Nat.eqb_neq _ _)) by lia.
Qed.

(** Removing cards from a hand: when the hand holds the cards (counted with
    their multiplicity) the call succeeds, the cards that stay keep their order,
    together with the removed ones they are the hand, and the freed cells are
    zero; when a card is missing the call fails. *)
Theorem RemoveCardList_spec rem l :
  0 ∉ rem → 0 ∉ l → (length l <= MAX_COUNT)%nat →
  (rem ⊆+ l → ∃ kept, RemoveCardList rem l = Some (kept ++ replicate (length rem) 0) ∧
                      kept ++ rem ≡ₚ l ∧ kept `sublist_of` l) ∧
  (¬ rem ⊆+ l → RemoveCardList rem l = None).
Proof. apply remove_list_spec. Qed.

Lemma RemoveCardList_spec_witness :
  RemoveCardList [26; 9] [28; 26; 10; 9] = Some [28; 10; 0; 0] ∧
  RemoveCardList [26; 26] [28; 26; 10; 9] = None.
Proof.
  split; [reflexivity|].
  apply (RemoveCardList_spec [26; 26] [28; 26; 10; 9]); [by_decide..|simpl; unfold MAX_COUNT; lia|].
  by_decide.
Defined.

(** Finding: the byte [0] a client may send is found in the cells [RemoveCardList]
    has already blanked, and its logic value is a king's: one king and three
    zeros are a bomb, and three cards more than the hand gives up are counted. *)
Lemma zero_cards_play_as_bomb :
  GetCardType [13; 0; 0; 0] = CT_BOMB_CARD ∧
  RemoveCardList [13; 0; 0; 0] [13; 12; 11; 10; 9] = Some [12; 11; 10; 9; 0].
Proof. split; reflexivity. Qed.
