(* ===== verification/DdzSearch.v ===== *)
(** Dou Dizhu, the play search of [src/Games/Game_ddzLandy/GameLogic.cpp]
    ([SearchOutCard] and the searches it calls), which the table uses to play for
    an absent player.  A [tagSearchCardResult] is the list of its
    [cbSearchCount] results, each the list of its [cbCardCount[i]] cards. *)
From stdpp Require Import base list numbers sorting.
From Stdlib Require Import ZArith Lia.
From S2P Require Import Prelude Cards DdzLogic.

#[local] Open Scope Z_scope.

(** ** Distribution of a hand over value and colour *)

Definition cbIndexCount : nat := 5%nat.

(** [tagDistributing]: the number of cards, and per value index 0..14 the number of
    cards of each colour (cells 0..4) and in total (cell [cbIndexCount]). *)
Record tagDistributing := Distribution {
  dCardCount : nat;
  cbDistributing : list (list nat)
}.

Definition dist (d : tagDistributing) (i j : nat) : nat := nget (default [] (cbDistributing d !! i)) j.

Definition distribute (d : tagDistributing) (c : Z) : tagDistributing :=
  if c =? 0 then d
  else Distribution (S (dCardCount d))
         (alter (λ row, alter S (Z.to_nat (Z.shiftr (GetCardColor c) 4)) (alter S cbIndexCount row))
                (Z.to_nat (GetCardValue c - 1)) (cbDistributing d)).

(** [CGameLogic::AnalysebDistributing]. *)
Definition AnalysebDistributing (l : list Z) : tagDistributing :=
  foldl distribute (Distribution 0 (replicate 15 (replicate 6 0%nat))) l.

(** ** Cards of one rank *)

Definition refer_value (cbReferCard : Z) : Z :=
  if cbReferCard =? 0 then 0 else GetCardLogicValue cbReferCard.

(** The [for] loop over the blocks of [cbBlockIndex + 1] cards, the last (lowest)
    block first. *)
Definition same_in_block (r : tagAnalyseResult) (refer : Z) (n b : nat) : list (list Z) :=
  concat (map (λ i, let cbIndex := ((blocks r b - i - 1) * (b + 1))%nat in
                    if refer <? GetCardLogicValue (bdata r b).[cbIndex]
                    then [take n (drop cbIndex (bdata r b))] else [])
              (seq 0 (blocks r b))).

(** [CGameLogic::SearchSameCard]. *)
Definition SearchSameCard (hand : list Z) (cbReferCard : Z) (cbSameCardCount : nat) : list (list Z) :=
  let r := AnalysebCardData (SortCardList hand ST_ORDER) in
  concat (map (same_in_block r (refer_value cbReferCard) cbSameCardCount)
              (seq (cbSameCardCount - 1) (4 - (cbSameCardCount - 1)))).

(** ** Three or four of a kind with wings *)

(** The wings the two inner loops visit, from low to high: the first [take]
    cards of every block of at least [take] cards, the rank [v] left out. *)
Definition wing_candidates (r : tagAnalyseResult) (v : Z) (ntake : nat) : list (list Z) :=
  concat (map (λ j,
    concat (map (λ k, let cbIndex := ((blocks r j - k - 1) * (j + 1))%nat in
                      if GetCardValue (bdata r j).[cbIndex] =? v then []
                      else [take ntake (drop cbIndex (bdata r j))])
                (seq 0 (blocks r j))))
    (seq (ntake - 1) (4 - (ntake - 1)))).

(** Wings are appended until [need] cards are together. *)
Fixpoint add_wings (need : nat) (cards : list Z) (wings : list (list Z)) : option (list Z) :=
  match wings with
  | [] => None
  | w :: ws =>
      let cards' := cards ++ w in
      if (length cards' <? need)%nat then add_wings need cards' ws else Some cards'
  end.

(** [CGameLogic::SearchTakeCardType]. *)
Definition SearchTakeCardType (hand : list Z) (cbReferCard : Z) (cbSameCount cbTakeCardCount : nat)
  : list (list Z) :=
  let cbHandCardCount := length hand in
  if negb (cbSameCount =? 3)%nat && negb (cbSameCount =? 4)%nat then []
  else if negb (cbTakeCardCount =? 1)%nat && negb (cbTakeCardCount =? 2)%nat then []
  else if ((cbSameCount =? 4)%nat && (cbHandCardCount <? cbSameCount + cbTakeCardCount * 2)%nat)
          || (cbHandCardCount <? cbSameCount + cbTakeCardCount)%nat then []
  else
    let l := SortCardList hand ST_ORDER in
    let same := SearchSameCard l cbReferCard cbSameCount in
    let r := AnalysebCardData l in
    let cbNeedCount := (cbSameCount + cbTakeCardCount + (if (cbSameCount =? 4)%nat then cbTakeCardCount else 0))%nat in
    omap (λ s, add_wings cbNeedCount s (wing_candidates r (GetCardValue s.[0]) cbTakeCardCount)) same.

(** ** Straights *)

(** The copy of [cbBlockCount] cards of value index [cbIndex], colours 3 to 0. *)
Definition copy_colors (d : tagDistributing) (cbBlockCount cbIndex : nat) : list Z :=
  take cbBlockCount
    (concat (map (λ c, replicate (dist d cbIndex c) (MakeCardData cbIndex c)) [3;2;1;0]%nat)).

Definition copy_line (d : tagDistributing) (cbBlockCount from n : nat) : list Z :=
  concat (map (copy_colors d cbBlockCount) (seq from n)).

(** The search loop: [v] is [cbValueIndex], [link] is [cbTmpLinkCount]; the result
    is both of them after the loop and the lines found. *)
Fixpoint line_loop (fuel : nat) (d : tagDistributing) (cbBlockCount cbLess cbLineCount : nat)
  (v link : nat) (acc : list (list Z)) : nat * nat * list (list Z) :=
  match fuel with
  | O => (v, link, acc)
  | S f =>
      if (13 <=? v)%nat then (v, link, acc)
      else
        let emit v link :=
          if (cbLess <=? link)%nat then
            line_loop f d cbBlockCount cbLess cbLineCount (S v)
              (if (cbLineCount =? 0)%nat then 0 else link - 1)%nat
              (acc ++ [copy_line d cbBlockCount (v + 1 - link) link])
          else line_loop f d cbBlockCount cbLess cbLineCount (S v) link acc in
        if (dist d v cbIndexCount <? cbBlockCount)%nat then
          if (link <? cbLess)%nat then line_loop f d cbBlockCount cbLess cbLineCount (S v) 0 acc
          else emit (v - 1)%nat link
        else if (cbLineCount =? 0)%nat
             then line_loop f d cbBlockCount cbLess cbLineCount (S v) (S link) acc
             else emit v (S link)
  end.

(** Every index is visited at most twice. *)
Definition line_fuel : nat := 32%nat.

Definition less_line_count (cbBlockCount cbLineCount : nat) : nat :=
  if (cbLineCount =? 0)%nat then
    if (cbBlockCount =? 1)%nat then 5%nat else if (cbBlockCount =? 2)%nat then 3%nat else 2%nat
  else cbLineCount.

Definition refer_index (cbReferCard : Z) (cbLess : nat) : nat :=
  if cbReferCard =? 0 then 2%nat
  else Z.to_nat (u8 (GetCardLogicValue cbReferCard - Z.of_nat cbLess + 1)).

(** [CGameLogic::SearchLineCardType]. *)
Definition SearchLineCardType (hand : list Z) (cbReferCard : Z) (cbBlockCount cbLineCount : nat)
  : list (list Z) :=
  let cbLess := less_line_count cbBlockCount cbLineCount in
  let cbReferIndex := refer_index cbReferCard cbLess in
  if (14 <? cbReferIndex + cbLess)%nat then []
  else if (length hand <? cbLess * cbBlockCount)%nat then []
  else
    let d := AnalysebDistributing (SortCardList hand ST_ORDER) in
    let '(v, link, acc) := line_loop line_fuel d cbBlockCount cbLess cbLineCount cbReferIndex 0 [] in
    let aces := (cbBlockCount <=? dist d 0 cbIndexCount)%nat in
    if (cbLess - 1 <=? link)%nat && (v =? 13)%nat && (aces || (cbLess <=? link)%nat)
    then acc ++ [copy_line d cbBlockCount (v - link) link
                 ++ (if aces then copy_colors d cbBlockCount 0 else [])]
    else acc.

(** ** Planes with wings *)

(** The extraction of [cbTake * cbLineCount] wing cards from an analysis; [None]
    when the blocks do not give exactly that many. *)
Fixpoint distill_blocks (want ntake : nat) (cards acc : list Z) (n size : nat) : list Z :=
  match n with
  | O => acc
  | S k =>
      let acc' := acc ++ take ntake (drop (k * size) cards) in
      if (length acc' =? want)%nat then acc' else distill_blocks want ntake cards acc' k size
  end.

Fixpoint distill_loop (r : tagAnalyseResult) (ntake nline : nat) (js : list nat) (acc : list Z) : list Z :=
  match js with
  | [] => acc
  | j :: js' =>
      if (0 <? blocks r j)%nat && (j + 1 =? ntake)%nat && (nline <=? blocks r j)%nat then
        take ((j + 1) * nline) (drop ((blocks r j - nline) * (j + 1)) (bdata r j))
      else
        let acc' := distill_blocks (ntake * nline) ntake (bdata r j) acc (blocks r j) (j + 1) in
        if (length acc' =? ntake * nline)%nat then acc' else distill_loop r ntake nline js' acc'
  end.

Definition distill (r : tagAnalyseResult) (ntake nline : nat) : option (list Z) :=
  let d := distill_loop r ntake nline (seq (ntake - 1) (4 - (ntake - 1))) [] in
  if (length d =? ntake * nline)%nat then Some d else None.

(** The wings branch of [SearchOutCard]: the line is *not* removed from the copy
    of the hand (the call is commented out), only its length is subtracted; a
    line without wings is emptied and then filtered out. *)
Definition SearchPlaneWings (l turn : list Z) (ntake : nat) : list (list Z) :=
  let cbLineCount := (length turn / (if (ntake =? 1)%nat then 4 else 5))%nat in
  let lines := SearchLineCardType l (SortOutCardList turn).[0] 3 cbLineCount in
  omap (λ s,
    let r := AnalysebCardData (take (length l - length s) l) in
    match distill r ntake cbLineCount with
    | Some w => Some (s ++ w)
    | None => None
    end) lines.

(** The result buffers of [SearchThreeTwoLine].  Cards are written at row
    [cbSearchCount++] but their number at row [i] of the line they come from. *)
Record wing_buffer := WingBuffer {
  wb_cards : list (list Z);
  wb_count : list nat
}.
Definition no_wings : wing_buffer := WingBuffer [] (replicate MAX_COUNT 0%nat).
Definition wb_push (w : wing_buffer) (i : nat) (cards : list Z) : wing_buffer :=
  WingBuffer (wb_cards w ++ [cards]) (<[i := length cards]> (wb_count w)).

(** The final copy: row [i] gives its first [cbCardCount[i]] cells. *)
Definition wb_results (w : wing_buffer) : list (list Z) :=
  imap (λ i c, take (nget (wb_count w) i) (c ++ replicate (MAX_COUNT - length c) 0)) (wb_cards w).

(** [while (cond(n)) n += 3]. *)
Fixpoint need_del (fuel : nat) (cond : Z → bool) (n : Z) : Z :=
  match fuel with
  | O => n
  | S f => if cond n then need_del f cond (n + 3) else n
  end.

(** The lowest cards of a line are given up; [None]: fewer than two triples stay. *)
Definition shorten_line (cond : Z → bool) (s : list Z) : option (list Z) :=
  let n := need_del MAX_COUNT cond 3 in
  if Z.quot (Z.of_nat (length s) - n) 3 <? 2 then None
  else let k := Z.to_nat n in
       Some (take (length s - k) (default s (RemoveCard (take k s) s))).

Definition three_two_step (hand : list Z) (st : wing_buffer * wing_buffer) (i : nat) (s0 : list Z)
  : wing_buffer * wing_buffer :=
  let H := Z.of_nat (length hand) in
  let cnt0 := Z.of_nat (length s0) in
  match (if H - cnt0 <? cnt0 / 3
         then shorten_line (λ n, H + n - cnt0 <? Z.quot (cnt0 - n) 3) s0 else Some s0) with
  | None => st
  | Some s =>
      let tmp := default hand (RemoveCardList s hand) in
      let cbTmpCardCount := (length hand - length s)%nat in
      let cbNeedCount := (length s / 3)%nat in
      let single := wb_push (fst st) i (s ++ take cbNeedCount (drop (cbTmpCardCount - cbNeedCount) tmp)) in
      let cnt := Z.of_nat (length s) in
      match (if (cbTmpCardCount <? length s / 3 * 2)%nat
             then match shorten_line (λ n, Z.of_nat cbTmpCardCount + n - cnt <? Z.quot (cnt - n) 3 * 2) s with
                  | Some s' => Some (s', take (length hand - length s') hand)
                  | None => None
                  end
             else Some (s, take cbTmpCardCount tmp)) with
      | None => (single, snd st)
      | Some (s2, rest) =>
          match distill (AnalysebCardData rest) 2 (length s2 / 3) with
          | Some w => (single, wb_push (snd st) i (s2 ++ w))
          | None => (single, snd st)
          end
      end
  end.

Fixpoint three_two_loop (hand : list Z) (st : wing_buffer * wing_buffer) (i : nat) (lines : list (list Z))
  : wing_buffer * wing_buffer :=
  match lines with
  | [] => st
  | s :: t => three_two_loop hand (three_two_step hand st i s) (S i) t
  end.

(** [CGameLogic::SearchThreeTwoLine]. *)
Definition SearchThreeTwoLine (hand : list Z) : list (list Z) :=
  let '(single, double) :=
    three_two_loop hand (no_wings, no_wings) 0 (SearchLineCardType hand 0 3 0) in
  wb_results double ++ wb_results single.

(** ** The search for a play *)

(** The lowest rank of the sorted hand [l], when it is held more than once: the
    cards of that face value at the end of the hand, last card first. *)
Definition low_block (l : list Z) : list Z :=
  let n := length l in
  let v := GetCardValue l.[n - 1] in
  if (1 <? n)%nat && (GetCardValue l.[n - 1] =? GetCardValue l.[n - 2])
  then l.[n - 1] :: (fix go (r : list Z) := match r with
                      | c :: t => if GetCardValue c =? v then c :: go t else []
                      | [] => []
                      end) (drop 1 (rev l))
  else [].

Definition rocket (l : list Z) : list (list Z) :=
  if (2 <=? length l)%nat && (l.[0] =? 79) && (l.[1] =? 78) then [[l.[0]; l.[1]]] else [].

(** The [CT_ERROR] branch of [SearchOutCard]: one play of every type, for a player
    who opens the trick. *)
Definition SearchFirstOut (l : list Z) : list (list Z) :=
  let first_of (results : list (list Z)) := take 1 results in
  let low := low_block l in
  let same n := if (length low =? n)%nat then [] else first_of (SearchSameCard l 0 n) in
  (if decide (GetCardType l = CT_ERROR) then [] else [l])
  ++ (if (length low =? 0)%nat then [] else [low])
  ++ same 1%nat ++ same 2%nat ++ same 3%nat
  ++ first_of (SearchTakeCardType l 0 3 1)
  ++ first_of (SearchTakeCardType l 0 3 2)
  ++ first_of (SearchLineCardType l 0 1 0)
  ++ first_of (SearchLineCardType l 0 2 0)
  ++ first_of (SearchLineCardType l 0 3 0)
  ++ first_of (SearchThreeTwoLine l)
  ++ same 4%nat
  ++ rocket l.

(** The searches of the type of the turn. *)
Definition SearchSameType (l turn : list Z) : list (list Z) :=
  let n := length turn in
  match GetCardType turn with
  | CT_SINGLE => SearchSameCard l turn.[0] 1
  | CT_DOUBLE_CARD => SearchSameCard l turn.[0] 2
  | CT_THREE => SearchSameCard l turn.[0] 3
  | CT_SINGLE_LINE => SearchLineCardType l turn.[0] 1 n
  | CT_DOUBLE_LINE => SearchLineCardType l turn.[0] 2 (n / 2)
  | CT_THREE_LINE => SearchLineCardType l turn.[0] 3 (n / 3)
  | CT_THREE_TAKE_ONE =>
      if (length l <? n)%nat then []
      else if (n =? 4)%nat || (n =? 5)%nat then SearchTakeCardType l turn.[2] 3 1
      else SearchPlaneWings l turn 1
  | CT_THREE_TAKE_TWO =>
      if (length l <? n)%nat then []
      else if (n =? 4)%nat || (n =? 5)%nat then SearchTakeCardType l turn.[2] 3 2
      else SearchPlaneWings l turn 2
  | CT_FOUR_TAKE_ONE => SearchTakeCardType l (SortOutCardList turn).[0] 4 1
  | CT_FOUR_TAKE_TWO => SearchTakeCardType l (SortOutCardList turn).[0] 4 2
  | _ => []
  end.

(** [CGameLogic::SearchOutCard]. *)
Definition SearchOutCard (hand turn : list Z) : list (list Z) :=
  let l := SortCardList hand ST_ORDER in
  let t := GetCardType turn in
  if decide (t = CT_ERROR) then SearchFirstOut l
  else
    SearchSameType l turn
    ++ (if (4 <=? length l)%nat && bool_decide (t ≠ CT_MISSILE_CARD)
        then SearchSameCard l (if decide (t = CT_BOMB_CARD) then turn.[0] else 0) 4 else [])
    ++ (if decide (t = CT_MISSILE_CARD) then [] else rocket l).

(** ** Combinations and straights of a whole hand *)

(** [CGameLogic::Combination]: all ways to choose [len1] more cards of [src], the
    card at the front first. *)
Fixpoint Combination (combine : list Z) (len1 : nat) (src : list Z) : list (list Z) :=
  match len1 with
  | O => [combine]
  | S k => match src with
           | [] => []
           | c :: t => Combination (combine ++ [c]) k t ++ Combination combine len1 t
           end
  end.

(** The scan of [GetAllLineCard] over the cards behind [last]; [acc] is
    [cbSingleLineCard]. *)
Fixpoint line_scan (l : list Z) (last : Z) (acc : list Z) : list Z :=
  match l with
  | [] => acc
  | c :: t =>
      if negb (1 =? GetCardLogicValue last - GetCardLogicValue c)
         && negb (GetCardValue last =? GetCardValue c)
      then if (length acc <? 5)%nat then line_scan t c [c] else acc
      else if negb (GetCardValue last =? GetCardValue c) then line_scan t c (acc ++ [c])
      else line_scan t last acc
  end.

(** The [while] loop: every straight found is removed and kept; [first] is
    [cbFirstCard]. *)
Fixpoint all_lines (fuel : nat) (first : nat) (l : list Z) (acc : list Z) : list Z :=
  match fuel with
  | O => acc
  | S f =>
      if (length l <? 5)%nat then acc
      else
        let line := line_scan (drop (first + 1) l) l.[first] [l.[first]] in
        if (5 <=? length line)%nat then
          let l' := take (length l - length line) (default l (RemoveCard line l)) in
          all_lines f first l' (acc ++ line)
        else acc
  end.

(** The first card below a 2; cell 0 when there is none. *)
Fixpoint first_plain (l : list Z) (i : nat) : nat :=
  match l with
  | [] => 0%nat
  | c :: t => if GetCardLogicValue c <? 15 then i else first_plain t (S i)
  end.

(** [CGameLogic::GetAllLineCard]: a straight takes five cards of the hand. *)
Definition GetAllLineCard (hand : list Z) : list Z :=
  let l := SortCardList hand ST_ORDER in
  if (length hand <? 5)%nat then []
  else all_lines (length hand) (first_plain l 0) l [].
