(* ===== verification/DdzSearchFacts.v ===== *)
(** Dou Dizhu, the play search: what [SearchSameCard], [SearchLineCardType] and
    [SearchOutCard] find.  Every play found is held and beats the turn, and for
    the types without wings nothing is found only when the hand cannot beat it. *)
From stdpp Require Import base list numbers sorting.
From Stdlib Require Import ZArith Lia.
From S2P Require Import Prelude Cards DdzLogic DdzRules DdzSearch.

#[local] Open Scope Z_scope.

(** ** Hands of the pack *)

Lemma pack_NoDup : NoDup m_cbCardData.
Proof. by_decide. Qed.

Section Pack.
Context (l : list Z) (Hl : l ⊆+ m_cbCardData).

Lemma hand_NoDup : NoDup l.
Proof. eapply submseteq_NoDup; [exact Hl|exact pack_NoDup]. Qed.

Lemma hand_in c : c ∈ l → c ∈ m_cbCardData.
Proof. intros H. by eapply elem_of_submseteq. Qed.

Lemma hand_nonzero : 0 ∉ l.
Proof. intros H%hand_in. revert H. by_decide. Qed.

(** No rank is held more than four times. *)
Lemma hand_rank v : (length (filter (λ c, GetCardLogicValue c = v) l) <= 4)%nat.
Proof.
  assert (∀ w, w ∈ lvs m_cbCardData →
    (length (filter (λ c, GetCardLogicValue c = w) m_cbCardData) <= 4)%nat) as Hp.
  { apply Forall_forall. by_decide. }
  destruct (decide (v ∈ lvs m_cbCardData)) as [Hv|Hv].
  - etrans; [|by apply Hp]. by apply submseteq_length, filter_submseteq.
  - rewrite filter_none; [simpl; lia|]. apply Forall_forall. intros c Hc Hcv.
    apply Hv. subst. by apply list_elem_of_fmap_2, hand_in.
Qed.
End Pack.

(** ** The runs of a sorted hand are its ranks *)

Definition by_rank (l : list Z) : Prop := StronglySorted (λ x y, GetCardLogicValue y <= GetCardLogicValue x) l.

Lemma sorted_by_rank l : by_rank (SortCardList l ST_ORDER).
Proof.
  eapply StronglySorted_weaken; [|apply sort_by_value_sorted].
  intros x y. apply card_ge_value.
Qed.

Lemma sorted_perm l : SortCardList l ST_ORDER ≡ₚ l.
Proof. apply sort_by_value_perm. Qed.

Lemma sorted_length l : length (SortCardList l ST_ORDER) = length l.
Proof. apply sort_by_value_length. Qed.

Lemma same_run_below v l : by_rank l → Forall (λ c, GetCardLogicValue c <= v) l →
  Forall (λ c, GetCardLogicValue c < v) (drop (same_run v l) l).
Proof.
  unfold by_rank. induction 1 as [|c l Hs IH Hc]; intros Hv; simpl; [constructor|].
  inversion_clear Hv. bsplit; simpl; [by apply IH|].
  constructor; [lia|]. eapply Forall_impl; [exact Hc|]. simpl. lia.
Qed.

Lemma runs_filter l b : by_rank l → b ∈ runs l →
  ∃ v, lvs b = replicate (length b) v ∧ b = filter (λ c, GetCardLogicValue c = v) l.
Proof.
  induction l as [|c t IH] using runs_induction; intros Hs Hb.
  { by apply not_elem_of_nil in Hb. }
  rewrite runs_cons in Hb. cbv zeta in Hb.
  set (v := GetCardLogicValue c) in *. set (n := same_run v t) in *.
  pose proof (same_run_take v t) as Htake. fold n in Htake.
  assert (Forall (λ x, GetCardLogicValue x < v) (drop (S n) (c :: t))) as Hlow.
  { simpl. inversion_clear Hs. apply same_run_below; [done|]. done. }
  assert (∀ x, x ∈ take (S n) (c :: t) → GetCardLogicValue x = v) as Heq.
  { intros x. simpl. rewrite elem_of_cons. intros [->|Hx]; [done|].
    apply (list_elem_of_fmap_2 GetCardLogicValue) in Hx. fold (lvs (take n t)) in Hx.
    change (GetCardLogicValue <$> take n t) with (lvs (take n t)) in Hx.
    rewrite Htake in Hx. by apply elem_of_replicate in Hx as [? _]. }
  apply elem_of_cons in Hb as [->|Hb].
  - exists v. split.
    + simpl. f_equal. rewrite Htake. f_equal.
      rewrite length_take. pose proof (same_run_le v t). lia.
    + rewrite <-(take_drop (S n) (c :: t)) at 2. rewrite filter_app, filter_all, filter_none.
      * by rewrite app_nil_r.
      * eapply Forall_impl; [exact Hlow|]. simpl. intros. lia.
      * by apply Forall_forall.
  - destruct (IH) as (w & Hw & Hf); [|done|].
    { rewrite <-(take_drop (S n) (c :: t)) in Hs. by apply StronglySorted_app_1_r in Hs. }
    exists w. split; [done|]. rewrite Hf at 1.
    rewrite <-(take_drop (S n) (c :: t)) at 2. rewrite filter_app, (filter_none _ (take _ _)); [done|].
    apply Forall_forall. intros x Hx%Heq Hxw.
    pose proof (runs_nonempty (drop (S n) (c :: t))) as Hne. rewrite Forall_forall in Hne.
    specialize (Hne b Hb). destruct b as [|y b]; simpl in Hne; [lia|].
    assert (y ∈ filter (λ c, GetCardLogicValue c = w) (drop (S n) (c :: t))) as Hy
      by (rewrite <-Hf; left).
    apply list_elem_of_filter in Hy as [Hyw Hy]. rewrite Forall_forall in Hlow.
    specialize (Hlow y Hy). lia.
Qed.

(** Conversely every rank of the hand is a run. *)
Lemma rank_run l v : by_rank l → v ∈ lvs l →
  filter (λ c, GetCardLogicValue c = v) l ∈ runs l.
Proof.
  intros Hs (c & -> & Hc)%list_elem_of_fmap. rewrite <-(runs_concat l) in Hc.
  apply elem_of_concat in Hc as (b & Hcb & Hb).
  destruct (runs_filter l b Hs Hb) as (v & Hv & Hf).
  assert (GetCardLogicValue c = v) as ->; [|by rewrite <-Hf].
  rewrite Hf in Hcb. by apply list_elem_of_filter in Hcb as [? _].
Qed.

Lemma hand_small l : l ⊆+ m_cbCardData → small_runs (SortCardList l ST_ORDER) = true.
Proof.
  intros Hl. apply forallb_forall. intros b Hb%list_elem_of_In. apply Nat.leb_le.
  destruct (runs_filter _ b (sorted_by_rank l) Hb) as (v & _ & ->).
  rewrite sorted_perm. by apply hand_rank.
Qed.

(** ** Cards of one rank *)

(** The cards from the [k]-th block of [S b] cards on. *)
Lemma drop_blocks b (rs : list (list Z)) k x : Forall (λ r, length r = S b) rs → rs !! k = Some x →
  ∃ tl, drop (k * (b + 1)) (concat rs) = x ++ tl.
Proof.
  intros H. revert k. induction H as [|r rs Hr _ IH]; intros [|k] Hk; simplify_eq/=.
  - by exists (concat rs).
  - destruct (IH _ Hk) as [tl Htl]. exists tl.
    rewrite skipn_app, (drop_ge r) by lia. rewrite <-Htl. simpl. f_equal. lia.
Qed.

Lemma same_in_block_spec l refer n b s : small_runs l = true → (b < 4)%nat → (n <= S b)%nat → (0 < n)%nat →
  s ∈ same_in_block (AnalysebCardData l) refer n b ↔
  ∃ x, x ∈ runs_of (S b) l ∧ refer < GetCardLogicValue x.[0] ∧ s = take n x.
Proof.
  intros Hs Hb Hn Hn0. destruct (analyse_spec l b Hb Hs) as [Hc Hd]. unfold same_in_block.
  rewrite Hc, Hd. set (rs := runs_of (S b) l).
  assert (Forall (λ r, length r = S b) rs) as Hlen.
  { apply Forall_forall. by intros x [? _]%list_elem_of_filter. }
  assert (∀ k x, rs !! k = Some x → take n (drop (k * (b + 1)) (concat rs)) = take n x ∧
            (concat rs).[k * (b + 1)] = x.[0]) as Hk.
  { intros k x Hx. pose proof (Forall_lookup_1 _ _ _ _ Hlen Hx) as Hxl. simpl in Hxl. split.
    - destruct (drop_blocks b rs k x Hlen Hx) as [tl ->]. apply take_app_le. lia.
    - rewrite Nat.add_1_r, concat_aget by done. unfold rget. by rewrite Hx. }
  rewrite elem_of_concat. split.
  - intros (t & Hst & Ht). apply list_elem_of_fmap in Ht as (i & -> & Hi).
    apply elem_of_seq in Hi. cbv zeta in Hst.
    destruct (lookup_lt_is_Some_2 rs (length rs - i - 1)) as [x Hx]; [lia|].
    destruct (Hk _ _ Hx) as [H1 H2]. rewrite H1, H2 in Hst. destruct (refer <? _) eqn:E; breflect.
    + apply list_elem_of_singleton in Hst as ->. exists x. split_and!; [|done|done].
      by eapply list_elem_of_lookup_2.
    + by apply not_elem_of_nil in Hst.
  - intros (x & Hx & Hr & ->). apply list_elem_of_lookup_1 in Hx as [k Hkx].
    pose proof (lookup_lt_Some _ _ _ Hkx) as Hlt. destruct (Hk _ _ Hkx) as [H1 H2].
    exists [take n x]. split; [by left|]. apply list_elem_of_fmap. exists (length rs - k - 1)%nat.
    split; [|apply elem_of_seq; lia].
    replace (length rs - (length rs - k - 1) - 1)%nat with k by lia.
    rewrite H1, H2, (proj2 (Z.ltb_lt _ _)) by done. done.
Qed.

(** The result of [SearchSameCard]: from every rank above the reference held [n]
    times or more, the [n] highest cards. *)
Lemma SearchSameCard_runs l refer n s : small_runs (SortCardList l ST_ORDER) = true → (1 <= n <= 4)%nat →
  s ∈ SearchSameCard l refer n ↔
  ∃ x, x ∈ runs (SortCardList l ST_ORDER) ∧ (n <= length x)%nat ∧
       refer_value refer < GetCardLogicValue x.[0] ∧ s = take n x.
Proof.
  intros Hs Hn. unfold SearchSameCard. rewrite elem_of_concat. split.
  - intros (t & Hst & Ht). apply list_elem_of_fmap in Ht as (b & -> & Hb).
    apply elem_of_seq in Hb. apply same_in_block_spec in Hst as (x & Hx & ? & ->); [|done|lia..].
    apply list_elem_of_filter in Hx as [Hxl Hx]. exists x. split_and!; try done. lia.
  - intros (x & Hx & Hnx & Hr & ->).
    pose proof (small_runs_lengths _ Hs) as Hlen. rewrite Forall_forall in Hlen. specialize (Hlen x Hx).
    eexists. split; [|apply list_elem_of_fmap; exists (length x - 1)%nat; split; [done|apply elem_of_seq; lia]].
    apply same_in_block_spec; [done|lia..|]. exists x. split_and!; try done.
    apply list_elem_of_filter. split; [lia|done].
Qed.

Lemma rank_head x v n : lvs x = replicate n v → (0 < n)%nat → GetCardLogicValue x.[0] = v.
Proof. intros Hx Hn. destruct n; [lia|]. by eapply run_head. Qed.

Lemma lvs_take n l : lvs (take n l) = take n (lvs l).
Proof. unfold lvs. by rewrite firstn_map. Qed.

Lemma SearchSameCard_found l refer n :
  l ⊆+ m_cbCardData → (1 <= n <= 4)%nat →
  (∀ s, s ∈ SearchSameCard l refer n →
     s ⊆+ l ∧ ∃ v, refer_value refer < v ∧ lvs s = replicate n v) ∧
  (∀ k v, k ⊆+ l → lvs k = replicate n v → refer_value refer < v →
     ∃ s, s ∈ SearchSameCard l refer n ∧ lvs s = replicate n v).
Proof.
  intros Hl Hn. pose proof (hand_small l Hl) as Hs. pose proof (sorted_by_rank l) as Hr. split.
  - intros s (x & Hx & Hnx & Hv & ->)%SearchSameCard_runs; [|done..]. split.
    + etrans; [apply submseteq_take|]. rewrite <-(sorted_perm l).
      destruct (runs_filter _ x Hr Hx) as (v & _ & ->). apply sublist_submseteq, sublist_filter.
    + destruct (runs_filter _ x Hr Hx) as (v & Hvx & _). exists v.
      rewrite (rank_head x v (length x)) in Hv by (done || lia). split; [done|].
      rewrite lvs_take, Hvx, take_replicate. f_equal. lia.
  - intros k v Hk Hkv Hv. set (x := filter (λ c, GetCardLogicValue c = v) (SortCardList l ST_ORDER)).
    assert (n <= length x)%nat as Hnx.
    { assert (filter (λ c, GetCardLogicValue c = v) k = k) as E.
      { apply filter_all, Forall_forall. intros c Hc.
        apply (list_elem_of_fmap_2 GetCardLogicValue) in Hc.
        change (GetCardLogicValue <$> k) with (lvs k) in Hc. rewrite Hkv in Hc.
        by apply elem_of_replicate in Hc as [? _]. }
      rewrite <-(run_length _ _ _ Hkv), <-E. apply submseteq_length, filter_submseteq.
      by rewrite sorted_perm. }
    assert (x ∈ runs (SortCardList l ST_ORDER)) as Hx.
    { apply rank_run; [done|]. destruct x as [|c x'] eqn:E; simpl in Hnx; [lia|].
      assert (c ∈ x) as Hc by (subst; rewrite E; left).
      apply list_elem_of_filter in Hc as [<- Hc]. by apply list_elem_of_fmap_2. }
    destruct (runs_filter _ x Hr Hx) as (w & Hw & Hxw).
    assert (lvs x = replicate (length x) v) as Hxv.
    { apply list_eq_Forall2. apply Forall2_same_length_lookup_2; [by rewrite length_replicate, lvs_length|].
      intros i a b Ha [-> _]%lookup_replicate. apply list_elem_of_lookup_2 in Ha.
      apply list_elem_of_fmap in Ha as (c & -> & Hc). by apply list_elem_of_filter in Hc as [? _]. }
    exists (take n x). split.
    + apply SearchSameCard_runs; [done..|]. exists x. split_and!; try done.
      by rewrite (rank_head x v (length x)) by (done || lia).
    + rewrite lvs_take, Hxv, take_replicate. f_equal. lia.
Qed.

(** [SearchSameCard] finds plays of [n] cards of one rank: every result is held
    and is [n] cards of a rank above the reference card, and for every such set
    of cards of the hand there is a result of its rank. *)
Theorem SearchSameCard_spec l refer n :
  l ⊆+ m_cbCardData → (1 <= n <= 4)%nat →
  (∀ s, s ∈ SearchSameCard l refer n →
     s ⊆+ l ∧ ∃ v, refer_value refer < v ∧ lvs s = replicate n v) ∧
  (∀ k v, k ⊆+ l → lvs k = replicate n v → refer_value refer < v →
     ∃ s, s ∈ SearchSameCard l refer n ∧ lvs s = replicate n v).
Proof. apply SearchSameCard_found. Qed.

Lemma SearchSameCard_spec_witness :
  ∃ s, s ∈ SearchSameCard [10; 26; 42; 9; 25; 3] 8 2 ∧ lvs s = replicate 2 10.
Proof.
  apply (proj2 (SearchSameCard_spec [10; 26; 42; 9; 25; 3] 8 2 ltac:(by_decide) ltac:(lia)) [10; 42]);
    [by_decide|reflexivity|reflexivity].
Defined.
