(* ===== verification/DdzLineFacts.v ===== *)
(** Dou Dizhu, the straight search: [AnalysebDistributing] counts the cards of
    every value and colour, the loop of [SearchLineCardType] ends within its fuel
    and every line it reports is held and is a straight above the reference. *)
From stdpp Require Import base list numbers sorting.
From Stdlib Require Import ZArith Lia.
From S2P Require Import Prelude Cards DdzLogic DdzRules DdzSearch DdzSearchFacts.

#[local] Open Scope Z_scope.

(** ** The distribution table *)

Definition card_row (c : Z) : nat := Z.to_nat (GetCardValue c - 1).
Definition card_col (c : Z) : nat := Z.to_nat (Z.shiftr (GetCardColor c) 4).

Definition table_ok (d : tagDistributing) : Prop :=
  length (cbDistributing d) = 15%nat ∧ Forall (λ r, length r = 6%nat) (cbDistributing d).

Definition b2n (b : bool) : nat := if b then 1%nat else 0%nat.

Lemma pack_cells c : c ∈ m_cbCardData → c ≠ 0 ∧ (card_row c < 15)%nat ∧ (card_col c < 5)%nat.
Proof. revert c. apply Forall_forall. by_decide. Qed.

Lemma nget_alter f r j k : (j < length r)%nat →
  nget (alter f j r) k = if decide (j = k) then f (nget r k) else nget r k.
Proof.
  intros Hj. unfold nget. destruct (decide (j = k)) as [->|Hjk].
  - destruct (lookup_lt_is_Some_2 r k Hj) as [x Hx]. by rewrite list_lookup_alter_eq, Hx.
  - by rewrite list_lookup_alter_ne.
Qed.

Lemma distribute_spec d c : table_ok d → c ∈ m_cbCardData →
  table_ok (distribute d c) ∧
  ∀ i j, dist (distribute d c) i j =
    (dist d i j + b2n (bool_decide (card_row c = i ∧ (j = cbIndexCount ∨ j = card_col c))))%nat.
Proof.
  intros [H1 H2] Hc. destruct (pack_cells c Hc) as (H0 & Hr & Hcol). unfold distribute.
  rewrite (proj2 (Z.eqb_neq _ _) H0). fold (card_row c) (card_col c). split.
  - split; simpl; [by rewrite length_alter|]. apply Forall_alter; [done|].
    intros r Hr' ?. by rewrite !length_alter.
  - intros i j. unfold dist. simpl. destruct (decide (card_row c = i)) as [<-|Hi].
    + destruct (lookup_lt_is_Some_2 (cbDistributing d) (card_row c)) as [r Hrow]; [lia|].
      rewrite list_lookup_alter_eq, Hrow. simpl.
      pose proof (Forall_lookup_1 _ _ _ _ H2 Hrow) as Hlen. simpl in Hlen.
      rewrite !nget_alter by (rewrite ?length_alter; unfold cbIndexCount; lia).
      destruct (decide (card_col c = j)) as [<-|A].
      { rewrite decide_False, bool_decide_eq_true_2 by (auto || unfold cbIndexCount; lia). simpl. lia. }
      destruct (decide (cbIndexCount = j)) as [<-|B].
      { rewrite bool_decide_eq_true_2 by auto. simpl. lia. }
      rewrite bool_decide_eq_false_2 by (intros [_ [?|?]]; congruence). simpl. lia.
    + rewrite list_lookup_alter_ne by done. rewrite bool_decide_eq_false_2 by tauto. simpl. lia.
Qed.

Definition cell_cards (l : list Z) (i j : nat) : nat :=
  length (filter (λ c, card_row c = i ∧ (j = cbIndexCount ∨ j = card_col c)) l).

Lemma cell_cards_cons c l i j : cell_cards (c :: l) i j =
  (b2n (bool_decide (card_row c = i ∧ (j = cbIndexCount ∨ j = card_col c))) + cell_cards l i j)%nat.
Proof.
  unfold cell_cards. rewrite filter_cons. case_bool_decide as E.
  - by rewrite decide_True.
  - by rewrite decide_False.
Qed.

Lemma distribution_cells l i j :
  Forall (λ c, c ∈ m_cbCardData) l →
  dist (AnalysebDistributing l) i j =
  length (filter (λ c, card_row c = i ∧ (j = cbIndexCount ∨ j = card_col c)) l).
Proof.
  intros Hl. unfold AnalysebDistributing.
  assert (∀ d, table_ok d → dist (foldl distribute d l) i j = (dist d i j + cell_cards l i j)%nat) as H.
  { induction Hl as [|c l Hc _ IH]; intros d Hd; simpl; [unfold cell_cards; simpl; lia|].
    destruct (distribute_spec d c Hd Hc) as [Hd' Hcell].
    rewrite IH, Hcell, cell_cards_cons by done. lia. }
  rewrite H.
  - unfold cell_cards, dist. cbn [cbDistributing].
    destruct (decide (i < 15)%nat).
    + rewrite lookup_replicate_2 by lia. unfold nget. unfold default, id.
      destruct (replicate 6 0%nat !! j) as [x|] eqn:E; [|done].
      by apply lookup_replicate in E as [-> _].
    + rewrite lookup_ge_None_2; [done|]. rewrite length_replicate. lia.
  - split; [done|]. by_decide.
Qed.

(** Every cell of the table of [AnalysebDistributing] is the number of cards of
    that value and colour, the last column the number of cards of the value. *)
Theorem AnalysebDistributing_count l i j :
  Forall (λ c, c ∈ m_cbCardData) l →
  dist (AnalysebDistributing l) i j =
  length (filter (λ c, card_row c = i ∧ (j = cbIndexCount ∨ j = card_col c)) l).
Proof. apply distribution_cells. Qed.

Lemma AnalysebDistributing_count_witness :
  dist (AnalysebDistributing [10; 26; 58; 3]) 9 cbIndexCount = 3%nat.
Proof. rewrite AnalysebDistributing_count; [reflexivity|by_decide]. Defined.

(** ** Copying cards out of the table *)

(** The logic value of the cards of a table row. *)
Definition row_value (i : nat) : Z := if (i <? 2)%nat then Z.of_nat i + 14 else Z.of_nat i + 1.

Lemma make_card i j : (i < 13)%nat → (j < 4)%nat →
  card_row (MakeCardData i j) = i ∧ card_col (MakeCardData i j) = j ∧
  MakeCardData i j ∈ m_cbCardData ∧ GetCardLogicValue (MakeCardData i j) = row_value i.
Proof.
  intros Hi Hj.
  assert (Forall (λ i, Forall (λ j,
    card_row (MakeCardData i j) = i ∧ card_col (MakeCardData i j) = j ∧
    MakeCardData i j ∈ m_cbCardData ∧ GetCardLogicValue (MakeCardData i j) = row_value i)
    (seq 0 4)) (seq 0 13)) as H by by_decide.
  pose proof (proj1 (Forall_seq _ _ _) H i ltac:(lia)) as H'.
  apply (proj1 (Forall_seq _ _ _) H' j). lia.
Qed.

Lemma pack_make c : c ∈ m_cbCardData → (card_row c < 13)%nat →
  (card_col c < 4)%nat ∧ c = MakeCardData (card_row c) (card_col c).
Proof.
  intros Hc. assert (Forall (λ c, (card_row c < 13)%nat →
    (card_col c < 4)%nat ∧ c = MakeCardData (card_row c) (card_col c)) m_cbCardData) as H by by_decide.
  rewrite Forall_forall in H. by apply H.
Qed.

Definition full_row (i : nat) : list Z := map (MakeCardData i) [3;2;1;0]%nat.

Lemma full_rows_NoDup : NoDup (concat (map full_row (seq 2 11 ++ [0%nat]))).
Proof. by_decide. Qed.

Lemma all_equal_NoDup {A} (x : A) l : NoDup l → (∀ y, y ∈ l → y = x) → (length l <= 1)%nat.
Proof.
  intros Hn Hx. destruct l as [|a [|b l]]; simpl; try lia.
  assert (a = x) as -> by (apply Hx; left). assert (b = x) as -> by (apply Hx; right; left).
  apply NoDup_cons in Hn as [H _]. destruct H. left.
Qed.

Section Table.
Context (l : list Z) (Hl : l ⊆+ m_cbCardData).
Let d := AnalysebDistributing l.

Lemma hand_Forall : Forall (λ c, c ∈ m_cbCardData) l.
Proof. apply Forall_forall. intros c Hc. by eapply hand_in. Qed.

Lemma dist_cell i j : (i < 13)%nat → (j < 4)%nat →
  dist d i j = 0%nat ∨ (dist d i j = 1%nat ∧ MakeCardData i j ∈ l).
Proof.
  intros Hi Hj. unfold d. rewrite distribution_cells by apply hand_Forall.
  set (f := filter _ l). assert (∀ c, c ∈ f → c = MakeCardData i j ∧ c ∈ l) as Hf.
  { intros c [[Hr Hc] Hin]%list_elem_of_filter. split; [|done]. unfold cbIndexCount in Hc.
    destruct (pack_make c (hand_in l Hl c Hin)) as [_ ->]; [lia|].
    rewrite Hr. f_equal. lia. }
  assert (length f <= 1)%nat as Hlen.
  { apply (all_equal_NoDup (MakeCardData i j)); [apply NoDup_filter, hand_NoDup, Hl|].
    intros c Hc. by apply Hf. }
  destruct f as [|c f]; [by left|]. right. simpl in *. split; [lia|].
  destruct (Hf c) as [<- ?]; [left|done].
Qed.

Lemma dist_total i : (i < 13)%nat →
  dist d i cbIndexCount = (dist d i 0 + dist d i 1 + dist d i 2 + dist d i 3)%nat.
Proof.
  intros Hi. unfold d. rewrite !distribution_cells by apply hand_Forall.
  fold (cell_cards l i cbIndexCount) (cell_cards l i 0) (cell_cards l i 1) (cell_cards l i 2)
       (cell_cards l i 3).
  pose proof hand_Forall as Hall. clear d Hl. induction Hall as [|c l' Hc _ IH]; [done|].
  rewrite !cell_cards_cons, IH. unfold b2n, cbIndexCount.
  destruct (decide (card_row c = i)) as [<-|Hr].
  - destruct (pack_make c Hc Hi) as [Hcol _]. repeat case_bool_decide; lia.
  - rewrite !bool_decide_eq_false_2 by tauto. lia.
Qed.

Lemma copy_colors_sub b i : (i < 13)%nat →
  copy_colors d b i ⊆+ full_row i ∧ (∀ c, c ∈ copy_colors d b i → c ∈ l).
Proof.
  intros Hi. unfold copy_colors, full_row. split.
  - etrans; [apply submseteq_take|]. simpl.
    assert (∀ j, (j < 4)%nat → replicate (dist d i j) (MakeCardData i j) ⊆+ [MakeCardData i j]) as H.
    { intros j Hj. destruct (dist_cell i j Hi Hj) as [->|[-> _]]; simpl; [apply submseteq_nil_l|done]. }
    rewrite app_nil_r.
    change ([MakeCardData i 3; MakeCardData i 2; MakeCardData i 1; MakeCardData i 0]) with
      ([MakeCardData i 3] ++ [MakeCardData i 2] ++ [MakeCardData i 1] ++ [MakeCardData i 0]).
    repeat apply submseteq_app; apply H; lia.
  - intros c Hc. apply elem_of_take in Hc as (k & Hc & _).
    apply list_elem_of_lookup_2 in Hc. apply elem_of_concat in Hc as (r & Hcr & Hr).
    apply list_elem_of_fmap in Hr as (j & -> & Hj).
    assert (j < 4)%nat as Hj4 by (repeat apply elem_of_cons in Hj as [->|Hj]; try lia; by apply not_elem_of_nil in Hj).
    apply elem_of_replicate in Hcr as [-> Hd].
    destruct (dist_cell i j Hi Hj4) as [?|[_ ?]]; [lia|done].
Qed.

Lemma copy_colors_values b i : (i < 13)%nat → (b <= dist d i cbIndexCount)%nat →
  lvs (copy_colors d b i) = replicate b (row_value i).
Proof.
  intros Hi Hb. rewrite dist_total in Hb by done.
  assert (∀ j, (j < 4)%nat → GetCardLogicValue (MakeCardData i j) = row_value i) as Hv
    by (intros j Hj; by apply make_card).
  unfold copy_colors. rewrite lvs_take. simpl. rewrite app_nil_r. unfold lvs.
  rewrite !map_app, !map_replicate, !Hv, <-!replicate_add, take_replicate by lia.
  f_equal. lia.
Qed.
End Table.

(** ** The search loop *)

Section Loop.
Context (d : tagDistributing) (b less nline ref : nat).
Context (Hless : (1 <= less)%nat).
Context (Hmode : nline = 0%nat ∧ (2 <= less)%nat ∨ nline = less).

Definition full (i : nat) : Prop := (b <= dist d i cbIndexCount)%nat.
Definition full_range (lo n : nat) : Prop := ∀ i, (lo <= i < lo + n)%nat → full i.

(** A line the loop may report. *)
Definition line_found (r : list Z) : Prop := ∃ lo n,
  r = copy_line d b lo n ∧ (ref <= lo)%nat ∧ (lo + n <= 13)%nat ∧ (less <= n)%nat ∧
  (nline = 0%nat ∨ n = nline) ∧ full_range lo n.

(** The last [link] indices before [v] are full; with a fixed length the window
    never exceeds it. *)
Definition loop_inv (v link : nat) (acc : list (list Z)) : Prop :=
  (ref + link <= v <= 13)%nat ∧ full_range (v - link) link ∧
  (nline = 0%nat ∨ (link < less)%nat) ∧ Forall line_found acc.

Lemma line_loop_inv f v link acc :
  loop_inv v link acc →
  let '(v', link', acc') := line_loop f d b less nline v link acc in loop_inv v' link' acc'.
Proof.
  revert v link acc. induction f as [|f IH]; intros v link acc H; [done|]. cbn [line_loop].
  destruct (13 <=? v)%nat eqn:Ev; breflect; [done|].
  destruct H as (Hv & Hfull & Hlen & Hacc).
  destruct (dist d v cbIndexCount <? b)%nat eqn:Ed; breflect.
  - destruct (link <? less)%nat eqn:El; breflect.
    { apply IH. split_and!; [lia..| |lia|done]. intros i Hi. lia. }
    destruct Hlen as [Hn|?]; [|lia]. rewrite (proj2 (Nat.leb_le less link)) by lia.
    apply IH. rewrite Hn. simpl. split_and!; [lia..| |lia|].
    { intros i Hi. lia. }
    apply Forall_app. split; [done|]. constructor; [|done].
    exists (v - link)%nat, link. split_and!; try lia; [f_equal; lia|done].
  - assert (full_range (v - link) (S link)) as Hfull'.
    { intros i Hi. destruct (decide (i = v)) as [->|]; [done|]. apply Hfull. lia. }
    destruct (nline =? 0)%nat eqn:En; breflect.
    { apply IH. split_and!; [lia..| |lia|done]. intros i Hi. apply Hfull'. lia. }
    destruct (less <=? S link)%nat eqn:El; breflect.
    + apply IH. split_and!; [lia..| |lia|].
      { intros i Hi. apply Hfull'. lia. }
      apply Forall_app. split; [done|]. constructor; [|done].
      exists (v - link)%nat, (S link). split_and!; try lia; [f_equal; lia|].
      done.
    + apply IH. split_and!; [lia..| |lia|done]. intros i Hi. apply Hfull'. lia.
Qed.

(** The loop reaches the end of the table within [2 * (13 - v) + 2] turns. *)
Lemma line_loop_ends f v link acc :
  (v <= 13)%nat → (nline = 0%nat ∨ (link < less)%nat) →
  (2 * (13 - v) + b2n (less <=? link)%nat < f)%nat →
  (line_loop f d b less nline v link acc).1.1 = 13%nat.
Proof.
  revert v link acc. induction f as [|f IH]; intros v link acc Hv Hlen Hf; [lia|]. cbn [line_loop].
  destruct (13 <=? v)%nat eqn:Ev; breflect; [simpl; lia|]. unfold b2n in *.
  destruct (dist d v cbIndexCount <? b)%nat eqn:Ed; breflect.
  - destruct (link <? less)%nat eqn:El; breflect; [apply IH; bsplit; lia|].
    destruct Hlen as [Hn|?]; [|lia]. rewrite (proj2 (Nat.leb_le less link)) in * by lia.
    assert ((nline =? 0)%nat = true) as -> by (by rewrite Hn).
    apply IH; [lia|by left|bsplit; lia].
  - destruct (nline =? 0)%nat eqn:En; breflect; [apply IH; bsplit; lia|].
    destruct (less <=? S link)%nat eqn:El; breflect; apply IH; bsplit; lia.
Qed.
End Loop.

(** ** Lines as ranks *)

Lemma line_values_snoc b top n :
  line_values b top (S n) = line_values b top n ++ replicate b (top - Z.of_nat n).
Proof.
  unfold line_values. rewrite seq_S, map_app, concat_app. simpl. by rewrite app_nil_r.
Qed.

Lemma line_values_below b top n v : v ∈ line_values b top n → v <= top.
Proof.
  intros H. apply elem_of_concat in H as (r & Hv & Hr). apply list_elem_of_fmap in Hr as (i & -> & _).
  apply elem_of_replicate in Hv as [-> _]. lia.
Qed.

Lemma StronglySorted_replicate {A} (R : A → A → Prop) n x : R x x → StronglySorted R (replicate n x).
Proof. intros H. induction n; simpl; constructor; [done|]. by apply Forall_replicate. Qed.

Lemma line_values_sorted b top n : StronglySorted Z.ge (line_values b top n).
Proof.
  revert top. induction n as [|n IH]; intros top; [constructor|]. rewrite line_values_S.
  apply StronglySorted_app_2; [|apply StronglySorted_replicate; lia|done].
  intros x y Hx%elem_of_replicate Hy%line_values_below. lia.
Qed.

#[local] Instance ge_antisymm : AntiSymm (=) Z.ge.
Proof. intros x y. lia. Qed.

Lemma lvs_sorted l : StronglySorted Z.ge (lvs (SortCardList l ST_ORDER)).
Proof.
  pose proof (sorted_by_rank l) as H. unfold by_rank in H.
  induction H as [|c t _ IH Hc]; constructor; [done|].
  apply Forall_forall. intros v (x & -> & Hx)%list_elem_of_fmap.
  rewrite Forall_forall in Hc. specialize (Hc x Hx). lia.
Qed.

(** The ranks of a sorted hand are determined by the ranks of the hand. *)
Lemma lvs_sorted_unique l k : StronglySorted Z.ge k → lvs l ≡ₚ k → lvs (SortCardList l ST_ORDER) = k.
Proof.
  intros Hk Hp. eapply (StronglySorted_unique' Z.ge); [apply lvs_sorted|done|].
  rewrite <-Hp. by apply Permutation_map, sorted_perm.
Qed.

Lemma seq_split lo n : (2 <= lo)%nat → (lo + n <= 13)%nat → seq lo n ⊆+ seq 2 11.
Proof.
  intros Hlo Hn. replace 11%nat with ((lo - 2) + (n + (13 - lo - n)))%nat by lia.
  rewrite !seq_app. replace (2 + (lo - 2))%nat with lo by lia.
  etrans; [|apply submseteq_inserts_l; reflexivity]. by apply submseteq_inserts_r.
Qed.

Section Lines.
Context (l : list Z) (Hl : l ⊆+ m_cbCardData) (b : nat).
Let d := AnalysebDistributing l.

Lemma copy_line_values lo n : (2 <= lo)%nat → (lo + n <= 13)%nat → full_range d b lo n →
  lvs (copy_line d b lo n) ≡ₚ line_values b (Z.of_nat (lo + n)) n.
Proof.
  intros Hlo. induction n as [|n IH]; intros Hn Hf; [done|].
  unfold copy_line. rewrite seq_S, map_app, concat_app, lvs_app, line_values_S. simpl. rewrite app_nil_r.
  unfold d. rewrite copy_colors_values; [|done|lia|apply Hf; lia].
  unfold copy_line in IH. fold d. rewrite IH; [|lia|intros i Hi; apply Hf; lia].
  rewrite Permutation_app_comm. unfold row_value. rewrite (proj2 (Nat.ltb_ge _ _)) by lia.
  replace (Z.of_nat (lo + n) + 1) with (Z.of_nat (lo + S n)) by lia.
  by replace (Z.of_nat (lo + S n) - 1) with (Z.of_nat (lo + n)) by lia.
Qed.

Lemma copy_rows_sub rows c : Forall (λ i, i < 13)%nat rows →
  c ∈ concat (map (copy_colors d b) rows) → c ∈ l.
Proof.
  intros His H. apply elem_of_concat in H as (r & Hc & Hr).
  apply list_elem_of_fmap in Hr as (i & -> & Hi). rewrite Forall_forall in His.
  by eapply copy_colors_sub; [..|exact Hc]; auto.
Qed.

Lemma copy_rows_full rows : Forall (λ i, i < 13)%nat rows →
  concat (map (copy_colors d b) rows) ⊆+ concat (map full_row rows).
Proof.
  induction 1; cbn [map concat]; [done|]. apply submseteq_app; [|done]. by apply copy_colors_sub.
Qed.

(** The cards of different rows are a part of the hand. *)
Lemma copy_rows_held rows : rows ⊆+ seq 2 11 ++ [0%nat] →
  concat (map (copy_colors d b) rows) ⊆+ l.
Proof.
  intros His. assert (Forall (λ i, i < 13)%nat rows) as Hb.
  { apply Forall_forall. intros i Hi. eapply elem_of_submseteq in Hi; [|exact His].
    apply elem_of_app in Hi as [Hi%elem_of_seq|Hi%list_elem_of_singleton]; lia. }
  apply NoDup_submseteq; [|intros c; by apply copy_rows_sub].
  eapply submseteq_NoDup; [by apply copy_rows_full|].
  eapply submseteq_NoDup; [|apply full_rows_NoDup].
  apply submseteq_Permutation in His as [k Hk]. rewrite Hk, map_app, concat_app.
  by apply submseteq_inserts_r.
Qed.

Lemma plain_line lo n : (2 <= lo)%nat → (lo + n <= 13)%nat → full_range d b lo n →
  copy_line d b lo n ⊆+ l ∧
  lvs (SortCardList (copy_line d b lo n) ST_ORDER) = line_values b (Z.of_nat (lo + n)) n.
Proof.
  intros Hlo Hn Hf. split.
  - apply copy_rows_held. apply submseteq_inserts_r, seq_split; lia.
  - apply lvs_sorted_unique; [apply line_values_sorted|]. by apply copy_line_values.
Qed.

(** A line up to the king with the ace on top. *)
Lemma ace_line n : (n <= 11)%nat → full_range d b (13 - n) n → (b <= dist d 0 cbIndexCount)%nat →
  let r := copy_line d b (13 - n) n ++ copy_colors d b 0 in
  r ⊆+ l ∧ lvs (SortCardList r ST_ORDER) = line_values b 14 (S n).
Proof.
  intros Hn Hf Ha r.
  assert (r = concat (map (copy_colors d b) (seq (13 - n) n ++ [0%nat]))) as Hr.
  { rewrite map_app, concat_app. simpl. by rewrite app_nil_r. }
  split.
  - rewrite Hr. apply copy_rows_held. apply submseteq_app; [|done]. apply seq_split; lia.
  - apply lvs_sorted_unique; [apply line_values_sorted|]. unfold r.
    rewrite lvs_app, copy_line_values by (done || lia). unfold d.
    rewrite copy_colors_values by (done || lia). rewrite line_values_S, Permutation_app_comm.
    by replace (Z.of_nat (13 - n + n)) with (14 - 1) by lia.
Qed.
End Lines.

Lemma line_search_sound hand refer b line r :
  hand ⊆+ m_cbCardData → (1 <= b <= 3)%nat →
  refer = 0 ∨ refer ∈ m_cbCardData ∧ (0 < line)%nat ∧ Z.of_nat line + 1 <= GetCardLogicValue refer →
  r ∈ SearchLineCardType hand refer b line →
  r ⊆+ hand ∧ ∃ top n, lvs (SortCardList r ST_ORDER) = line_values b top n ∧
    (less_line_count b line <= n)%nat ∧ (line = 0%nat ∨ n = line) ∧
    refer_value refer < top <= 14.
Proof.
  intros Hh Hb Href Hr. unfold SearchLineCardType in Hr.
  set (less := less_line_count b line) in *. set (ref := refer_index refer less) in *.
  assert ((1 <= less)%nat ∧ (line = 0%nat ∧ (2 <= less)%nat ∨ line = less)) as [Hless Hmode].
  { unfold less, less_line_count. bsplit; lia. }
  assert ((2 <= ref)%nat ∧ refer_value refer < Z.of_nat (ref + less)) as [Href2 Hval].
  { unfold ref, refer_index, refer_value. destruct Href as [->|(Hin & Hl0 & Hlv)]; [simpl; lia|].
    assert (less = line) as Hll by lia. rewrite Hll.
    assert (GetCardLogicValue refer <= 17) as Hmax.
    { clear -Hin. revert refer Hin. apply Forall_forall. by_decide. }
    rewrite (proj2 (Z.eqb_neq _ _)) by (intros ->; revert Hin; by_decide).
    unfold u8. lia. }
  destruct (14 <? ref + less)%nat eqn:E14; [by apply not_elem_of_nil in Hr|].
  destruct (length hand <? less * b)%nat; [by apply not_elem_of_nil in Hr|]. breflect.
  set (l := SortCardList hand ST_ORDER) in *.
  assert (l ⊆+ m_cbCardData) as Hl by (unfold l; by rewrite sorted_perm).
  pose proof (line_loop_inv (AnalysebDistributing l) b less line ref Hless Hmode line_fuel ref 0 []) as Hinv.
  destruct (line_loop _ _ _ _ _ _ _ _) as [[v link] acc] eqn:El.
  destruct Hinv as (Hv & Hf & Hlen & Hacc).
  { split_and!; [lia..| |lia|constructor]. intros i Hi. lia. }
  assert (∀ r, line_found (AnalysebDistributing l) b less line ref r →
    r ⊆+ l ∧ ∃ top n, lvs (SortCardList r ST_ORDER) = line_values b top n ∧
    (less <= n)%nat ∧ (line = 0%nat ∨ n = line) ∧ refer_value refer < top <= 14) as Hfound.
  { intros s (lo & n & -> & Hlo & Hn & Hln & Hm & Hfl).
    destruct (plain_line l Hl b lo n) as [Hs Hvs]; [lia..|done|]. split; [done|].
    exists (Z.of_nat (lo + n)), n. split_and!; try done; lia. }
  rewrite <-(sorted_perm hand). fold l. rewrite Forall_forall in Hacc.
  destruct (_ && _) eqn:Esp in Hr; [|by auto].
  apply elem_of_app in Hr as [Hr|Hr%list_elem_of_singleton]; [by auto|].
  apply andb_true_iff in Esp as [Esp Ha]. breflect. subst v.
  destruct (b <=? dist (AnalysebDistributing l) 0 cbIndexCount)%nat eqn:Eace; breflect.
  - subst r. destruct (ace_line l Hl b link) as [Hs Hvs]; [lia|done|done|]. split; [done|].
    exists 14, (S link). split_and!; try done; lia.
  - rewrite app_nil_r in Hr. simpl in Ha. breflect. apply Hfound. exists (13 - link)%nat, link.
    split_and!; try done; lia.
Qed.

(** Every line [SearchLineCardType] reports is a part of the hand, and sorted it is
    a straight of [cbBlockCount] cards per rank, of the length asked for (or, with
    length 0, of the least length of its type or more), not above the ace and
    above the reference card. *)
Theorem SearchLineCardType_sound hand refer b line r :
  hand ⊆+ m_cbCardData → (1 <= b <= 3)%nat →
  refer = 0 ∨ refer ∈ m_cbCardData ∧ (0 < line)%nat ∧ Z.of_nat line + 1 <= GetCardLogicValue refer →
  r ∈ SearchLineCardType hand refer b line →
  r ⊆+ hand ∧ ∃ top n, lvs (SortCardList r ST_ORDER) = line_values b top n ∧
    (less_line_count b line <= n)%nat ∧ (line = 0%nat ∨ n = line) ∧
    refer_value refer < top <= 14.
Proof. apply line_search_sound. Qed.

Lemma SearchLineCardType_sound_witness :
  [21; 6; 55; 8; 41] ⊆+ [41; 9; 8; 55; 6; 5; 21].
Proof.
  apply (SearchLineCardType_sound [41; 9; 8; 55; 6; 5; 21] 24 1 5); [by_decide|lia| |by_decide].
  right. split; [by_decide|]. split; [lia|]. by vm_compute.
Defined.
