(* ===== verification/DdzHeld.v ===== *)
(** Dou Dizhu: the search proposes only cards of the hand, whatever the turn. *)
From stdpp Require Import base list numbers sorting.
From Stdlib Require Import ZArith Lia.
From S2P Require Import Prelude Cards DdzLogic DdzRules DdzSearch DdzSearchFacts DdzLineFacts.

#[local] Open Scope Z_scope.

(** ** Lists of which every card has a property *)

Section Held.
Context (P : Z → Prop).

Lemma held_aget l i : (i < length l)%nat → Forall P l → P l.[i].
Proof.
  intros Hi Hl. destruct (lookup_lt_is_Some_2 l i Hi) as [x Hx]. rewrite (aget_lookup _ _ _ Hx).
  by eapply Forall_lookup_1.
Qed.

Lemma Forall_nonzero l : Forall P l → Forall P (nonzero l).
Proof. intros H. rewrite Forall_forall in *. by intros x [_ Hx]%list_elem_of_filter; apply H. Qed.

Lemma Forall_zero_first c l l' : zero_first c l = Some l' → Forall P (nonzero l) → Forall P (nonzero l').
Proof.
  pose proof (zero_first_spec c l) as Hz. intros E. rewrite E in Hz. destruct Hz as (p & q & -> & ->).
  unfold nonzero. rewrite !filter_app, !Forall_app. intros [H1 H2]. split; [done|].
  rewrite filter_cons_False by (intros H; by apply H). destruct (decide (c ≠ 0)).
  - rewrite filter_cons_True in H2 by done. by inversion_clear H2.
  - by rewrite filter_cons_False in H2 by done.
Qed.

(** What [RemoveCardList] keeps: cards of the list, and all but one per card removed. *)
Lemma zero_cards_kept rem l : Forall P (nonzero l) → Forall P (nonzero (zero_cards rem l).2).
Proof.
  revert l. induction rem as [|c rem IH]; intros l Hl; [done|]. cbn [zero_cards].
  destruct (zero_first c l) as [l'|] eqn:E; [|by apply IH].
  specialize (IH l' (Forall_zero_first c l l' E Hl)). by destruct (zero_cards rem l').
Qed.

Lemma Forall_RemoveCard rem l r : Forall P l → RemoveCard rem l = Some r → Forall P r.
Proof.
  intros Hl. unfold RemoveCard. destruct (_ <? _)%nat; [done|].
  pose proof (zero_cards_kept rem l (Forall_nonzero l Hl)) as Hk. destruct (zero_cards rem l) as [n tmp].
  destruct (negb _); [done|]. intros E. injection E as <-. simpl in Hk.
  apply Forall_app. split; [done|by apply Forall_drop].
Qed.

(** ** Blocks *)

Lemma add_block_Forall r n l : (∀ k, Forall P (bdata r k)) → Forall P l →
  ∀ k, Forall P (bdata (add_block r n l) k).
Proof.
  intros Hr Hl k. specialize (Hr k). unfold bdata, rget, add_block in *. simpl.
  destruct (decide ((n - 1)%nat = k)) as [<-|Hne].
  - rewrite list_lookup_alter_eq. destruct (cbBlockData r !! (n - 1)%nat); simpl in *; [|constructor].
    by apply Forall_app.
  - by rewrite list_lookup_alter_ne.
Qed.

Lemma analyse_Forall l k : Forall P l → Forall P (bdata (AnalysebCardData l) k).
Proof.
  assert (∀ k, Forall P (bdata zero_result k)) as H0.
  { intros [|[|[|[|j]]]]; constructor. }
  unfold AnalysebCardData. generalize (length l) as fuel. intros fuel Hl. revert l k Hl.
  assert (∀ l r, Forall P l → (∀ k, Forall P (bdata r k)) → ∀ k, Forall P (bdata (analyse_loop fuel l r) k)) as H.
  { induction fuel as [|f IH]; intros l r Hl Hr k; [apply Hr|]. destruct l as [|c l]; [apply Hr|].
    cbn [analyse_loop]. destruct (4 <? _)%nat; [done|]. apply IH; [by apply Forall_drop|].
    apply add_block_Forall; [done|by apply Forall_take]. }
  intros l k Hl. by apply H.
Qed.

Lemma sorted_Forall l : Forall P l → Forall P (SortCardList l ST_ORDER).
Proof. by rewrite sorted_perm. Qed.

Lemma same_Forall l refer n : Forall P l → Forall (Forall P) (SearchSameCard l refer n).
Proof.
  intros Hl. unfold SearchSameCard. apply Forall_concat, Forall_map, Forall_true. intros b.
  unfold same_in_block. apply Forall_concat, Forall_map, Forall_true. intros i. simpl.
  destruct (_ <? _); [|constructor]. constructor; [|constructor].
  by apply Forall_take, Forall_drop, analyse_Forall, sorted_Forall.
Qed.

Lemma wings_Forall r v n : (∀ k, Forall P (bdata r k)) → Forall (Forall P) (wing_candidates r v n).
Proof.
  intros Hr. unfold wing_candidates. apply Forall_concat, Forall_map, Forall_true. intros j.
  apply Forall_concat, Forall_map, Forall_true. intros k. simpl.
  destruct (_ =? _); [constructor|]. constructor; [|constructor]. by apply Forall_take, Forall_drop.
Qed.

Lemma add_wings_Forall need cards wings r : Forall P cards → Forall (Forall P) wings →
  add_wings need cards wings = Some r → Forall P r.
Proof.
  intros Hc Hw. revert cards Hc. induction Hw as [|w ws Hw _ IH]; intros cards Hc; [done|]. cbn [add_wings].
  assert (Forall P (cards ++ w)) by (by apply Forall_app). destruct (_ <? _)%nat; [by apply IH|].
  intros E. by injection E as <-.
Qed.

Lemma take_Forall l refer same n : Forall P l → Forall (Forall P) (SearchTakeCardType l refer same n).
Proof.
  intros Hl. unfold SearchTakeCardType. repeat (case_match; [constructor|]).
  apply Forall_forall. intros r (s & Hs & Hr)%list_elem_of_omap.
  assert (Forall (Forall P) (SearchSameCard (SortCardList l ST_ORDER) refer same)) as Hsame.
  { by apply same_Forall, sorted_Forall. }
  rewrite Forall_forall in Hsame. eapply add_wings_Forall; [by apply Hsame| |exact Hr].
  apply wings_Forall. intros k. by apply analyse_Forall, sorted_Forall.
Qed.

Lemma distill_blocks_Forall want n cards acc k size : Forall P cards → Forall P acc →
  Forall P (distill_blocks want n cards acc k size).
Proof.
  intros Hc. revert acc. induction k as [|k IH]; intros acc Ha; [done|]. cbn [distill_blocks].
  assert (Forall P (acc ++ take n (drop (k * size) cards))) by (apply Forall_app; split; [done|]; by apply Forall_take, Forall_drop).
  destruct (_ =? _)%nat; [done|by apply IH].
Qed.

Lemma distill_Forall r n k d : (∀ j, Forall P (bdata r j)) → distill r n k = Some d → Forall P d.
Proof.
  intros Hr. unfold distill. destruct (_ =? _)%nat; [|done]. intros E. injection E as <-.
  assert (∀ js acc, Forall P acc → Forall P (distill_loop r n k js acc)) as H; [|by apply H].
  induction js as [|j js IH]; intros acc Ha; [done|]. cbn [distill_loop].
  destruct (_ && _); [by apply Forall_take, Forall_drop|].
  assert (Forall P (distill_blocks (n * k) n (bdata r j) acc (blocks r j) (j + 1)))
    by (by apply distill_blocks_Forall).
  destruct (_ =? _)%nat; [done|by apply IH].
Qed.
End Held.

(** ** Straights *)

Section Lines.
Context (hand : list Z) (Hh : hand ⊆+ m_cbCardData).
Let P c := c ∈ hand.
Let d := AnalysebDistributing (SortCardList hand ST_ORDER).

Lemma colors_held b i : Forall P (copy_colors d b i).
Proof.
  apply Forall_take, Forall_concat, Forall_map, Forall_forall. intros j Hj.
  assert (j < 4)%nat as Hj4 by (repeat (apply elem_of_cons in Hj as [->|Hj]; [lia|]); by apply not_elem_of_nil in Hj).
  apply Forall_forall. intros c [-> Hn]%elem_of_replicate.
  unfold d in Hn. rewrite distribution_cells in Hn.
  2: { rewrite sorted_perm. apply Forall_forall. intros c Hc. by eapply elem_of_submseteq. }
  set (cells := filter _ _) in Hn. destruct cells as [|c cs] eqn:E; [done|].
  assert (c ∈ cells) as Hc by (rewrite E; left). unfold cells in Hc.
  apply list_elem_of_filter in Hc as [[Hr Hcol] Hc]. rewrite sorted_perm in Hc.
  assert (c ∈ m_cbCardData) as Hp by (by eapply elem_of_submseteq).
  destruct Hcol as [Hcol|Hcol]; [unfold cbIndexCount in Hcol; lia|].
  assert (Forall (λ c, (card_col c < 4)%nat → (card_row c < 13)%nat) m_cbCardData) as Hall by by_decide.
  rewrite Forall_forall in Hall. destruct (pack_make c Hp) as [_ Ec]; [apply Hall; [done|lia]|].
  unfold P. by rewrite <-Hr, Hcol, <-Ec.
Qed.

Lemma line_held b from n : Forall P (copy_line d b from n).
Proof. apply Forall_concat, Forall_map, Forall_true. intros i. apply colors_held. Qed.

Lemma line_loop_held fuel b less line v link acc : Forall (Forall P) acc →
  Forall (Forall P) (line_loop fuel d b less line v link acc).2.
Proof.
  revert v link acc. induction fuel as [|f IH]; intros v link acc Ha; [done|]. cbn [line_loop].
  assert (∀ from n, Forall (Forall P) (acc ++ [copy_line d b from n])) as Hnew.
  { intros from n. apply Forall_app. split; [done|]. constructor; [apply line_held|constructor]. }
  repeat case_match; try done; try apply IH; try done; apply Hnew.
Qed.

Lemma lines_held refer b line : Forall (Forall P) (SearchLineCardType hand refer b line).
Proof.
  unfold SearchLineCardType. fold d. case_match; [constructor|]. case_match; [constructor|].
  pose proof (line_loop_held line_fuel b (less_line_count b line) line
    (refer_index refer (less_line_count b line)) 0 [] ltac:(constructor)) as Hl.
  destruct (line_loop _ _ _ _ _ _ _ _) as [[v link] acc]. cbn [snd] in Hl.
  destruct (_ && _); [|done]. apply Forall_app. split; [done|]. constructor; [|constructor].
  apply Forall_app. split; [apply line_held|]. case_match; [apply colors_held|constructor].
Qed.
End Lines.

(** ** Planes with wings *)

Lemma zero_first_count c l l' : zero_first c l = Some l' →
  (length (nonzero l) <= S (length (nonzero l')))%nat.
Proof.
  pose proof (zero_first_spec c l) as Hz. intros E. rewrite E in Hz. destruct Hz as (p & q & -> & ->).
  unfold nonzero. rewrite !filter_app, !length_app. rewrite (filter_cons_False _ 0) by (intros H; by apply H).
  rewrite filter_cons. case_decide; simpl; lia.
Qed.

Lemma zero_cards_count rem l :
  (length (nonzero l) <= length rem + length (nonzero (zero_cards rem l).2))%nat.
Proof.
  revert l. induction rem as [|c rem IH]; intros l; [done|]. cbn [zero_cards length].
  destruct (zero_first c l) as [l'|] eqn:E.
  - specialize (IH l'). pose proof (zero_first_count c l l' E). destruct (zero_cards rem l'). simpl in *. lia.
  - specialize (IH l). lia.
Qed.

Lemma need_del_stop fuel cond n : (∀ k, n + 3 * Z.of_nat fuel <= k → cond k = false) →
  cond (need_del fuel cond n) = false ∧ n <= need_del fuel cond n.
Proof.
  revert n. induction fuel as [|f IH]; intros n H; cbn [need_del]; [split; [apply H|]; lia|].
  destruct (cond n) eqn:E; [|split; [done|lia]].
  destruct (IH (n + 3)) as [H1 H2]; [intros k Hk; apply H; lia|]. split; [done|lia].
Qed.

Lemma RemoveCard_length rem l r : RemoveCard rem l = Some r → (length l <= length r)%nat.
Proof.
  unfold RemoveCard. destruct (_ <? _)%nat; [done|]. destruct (zero_cards rem l) as [n tmp].
  destruct (negb _); [done|]. intros E. injection E as <-. rewrite length_app, length_drop. lia.
Qed.

Lemma shorten_spec P cond s s' : Forall P s → shorten_line cond s = Some s' →
  let n := need_del MAX_COUNT cond 3 in
  Forall P s' ∧ 6 <= Z.of_nat (length s) - n ∧
  (3 <= n → Z.of_nat (length s') = Z.of_nat (length s) - n).
Proof.
  intros Hs. unfold shorten_line. set (n := need_del MAX_COUNT cond 3). cbv zeta.
  destruct (_ <? 2) eqn:E; [done|]. breflect. intros Es. injection Es as <-.
  set (r := default s _).
  assert (Forall P r ∧ (length s <= length r)%nat) as [Hr Hl].
  { unfold r. destruct (RemoveCard _ s) as [x|] eqn:Ex; simpl; [|done].
    split; [by eapply Forall_RemoveCard|by eapply RemoveCard_length]. }
  split; [by apply Forall_take|]. split.
  - destruct (decide (0 <= Z.of_nat (length s) - n)); [|assert (Z.quot (Z.of_nat (length s) - n) 3 <= 0); [|lia]].
    + rewrite Z.quot_div_nonneg in E by lia. lia.
    + replace (Z.of_nat (length s) - n) with (- (n - Z.of_nat (length s))) by lia.
      rewrite Z.quot_opp_l by lia. pose proof (Z.quot_pos (n - Z.of_nat (length s)) 3). lia.
  - intros Hn. rewrite length_take. destruct (decide (0 <= Z.of_nat (length s) - n)); [lia|].
    exfalso. replace (Z.of_nat (length s) - n) with (- (n - Z.of_nat (length s))) in E by lia.
    rewrite Z.quot_opp_l in E by lia. pose proof (Z.quot_pos (n - Z.of_nat (length s)) 3). lia.
Qed.

Section Wings.
Context (l : list Z) (Hl : l ⊆+ m_cbCardData).
Let P c := c ∈ l.

Lemma self_held : Forall P l.
Proof. by apply Forall_forall. Qed.

Lemma plane_held turn n : Forall (Forall P) (SearchPlaneWings l turn n).
Proof.
  unfold SearchPlaneWings. apply Forall_forall. intros r (s & Hs & Hr)%list_elem_of_omap.
  pose proof (lines_held l Hl (SortOutCardList turn).[0] 3 (length turn / (if (n =? 1)%nat then 4 else 5))) as H.
  rewrite Forall_forall in H. specialize (H s Hs). destruct (distill _ _ _) as [w|] eqn:Ew; [|done].
  injection Hr as <-. apply Forall_app. split; [exact H|].
  eapply distill_Forall; [|exact Ew]. intros j. apply analyse_Forall, Forall_take, self_held.
Qed.

(** The cells of the hand copy that are still cards after a line is removed. *)
Lemma rest_held s : Forall P (take (length l - length s) (default l (RemoveCardList s l))).
Proof.
  destruct (RemoveCardList s l) as [r|] eqn:E; simpl; [|apply Forall_take, self_held].
  revert E. unfold RemoveCardList. destruct (_ <? _)%nat; [done|].
  pose proof (zero_cards_kept P s l (Forall_nonzero P l self_held)) as Hk.
  pose proof (zero_cards_count s l) as Hc. rewrite (nonzero_id l) in Hc by by apply hand_nonzero.
  destruct (zero_cards s l) as [n tmp]. destruct (negb _); [done|]. intros E. injection E as <-.
  simpl in *. rewrite take_app_le by lia. by apply Forall_take.
Qed.
(** The first row of a result buffer: its count is the one of its own line, or
    still 0. *)
Definition row0_ok (W : wing_buffer) : Prop :=
  Forall (Forall P) (wb_cards W) ∧
  (nget (wb_count W) 0 <= match wb_cards W with c :: _ => length c | [] => 0 end)%nat.

Lemma push_row0 W i c : row0_ok W → Forall P c → (i = 0%nat → wb_cards W = []) → row0_ok (wb_push W i c).
Proof.
  intros [Hc Hn] Hcc Hi. split; simpl.
  - apply Forall_app. split; [done|]. by constructor.
  - unfold nget in *. destruct (decide (i = 0%nat)) as [->|Hne].
    + rewrite (Hi eq_refl). simpl. destruct (wb_count W); simpl; lia.
    + rewrite list_lookup_insert_ne by done. destruct (wb_cards W); simpl in *; lia.
Qed.

Lemma results_row0 W r : row0_ok W → head (wb_results W) = Some r → Forall P r.
Proof.
  intros [Hc Hn]. unfold wb_results. destruct (wb_cards W) as [|c cs]; [done|]. simpl.
  intros E. injection E as <-. rewrite take_app_le by done. apply Forall_take. by inversion_clear Hc.
Qed.

Lemma single_fits s0 s : s0 ⊆+ m_cbCardData → Forall P s0 →
  (if Z.of_nat (length l) - Z.of_nat (length s0) <? Z.of_nat (length s0) / 3
   then shorten_line (λ n, Z.of_nat (length l) + n - Z.of_nat (length s0)
                           <? Z.quot (Z.of_nat (length s0) - n) 3) s0 else Some s0) = Some s →
  Forall P s ∧ (length s / 3 <= length l - length s)%nat.
Proof.
  intros Hs0 Hp. destruct (_ <? _) eqn:E; breflect.
  - assert (length s0 <= 54)%nat as Hle.
    { apply submseteq_length in Hs0. done. }
    set (cond := λ n : Z, _). intros Hs. destruct (shorten_spec P cond s0 s Hp Hs) as (H1 & H2 & H3).
    set (n := need_del MAX_COUNT cond 3) in *.
    destruct (need_del_stop MAX_COUNT cond 3) as [Hstop Hge].
    { intros k Hk. unfold cond, MAX_COUNT in *. apply Z.ltb_ge.
      replace (Z.of_nat (length s0) - k) with (- (k - Z.of_nat (length s0))) by lia.
      rewrite Z.quot_opp_l by lia. pose proof (Z.quot_pos (k - Z.of_nat (length s0)) 3). lia. }
    fold n in Hstop, Hge. specialize (H3 Hge). unfold cond in Hstop. breflect.
    split; [done|]. rewrite Z.quot_div_nonneg, <-H3 in Hstop by lia.
    apply Nat2Z.inj_le. rewrite Nat2Z.inj_div. lia.
  - intros Hs. injection Hs as <-. split; [done|]. apply Nat2Z.inj_le. rewrite Nat2Z.inj_div. lia.
Qed.

Lemma three_two_step_row0 st i s0 : row0_ok st.1 → row0_ok st.2 →
  s0 ⊆+ m_cbCardData → Forall P s0 →
  (i = 0%nat → wb_cards st.1 = [] ∧ wb_cards st.2 = []) →
  row0_ok (three_two_step l st i s0).1 ∧ row0_ok (three_two_step l st i s0).2.
Proof.
  intros H1 H2 Hs0 Hp Hi. unfold three_two_step.
  pose proof (single_fits s0) as Hfit.
  destruct (if _ : bool then shorten_line _ s0 else Some s0) as [s|]; [|done].
  destruct (Hfit s Hs0 Hp eq_refl) as [Hs Hneed]. clear Hfit.
  pose proof (rest_held s) as Hrest. set (tmp := default l (RemoveCardList s l)) in *.
  set (nl := (length l - length s)%nat) in *.
  assert (Forall P (s ++ take (length s / 3) (drop (nl - length s / 3) tmp))) as Hsingle.
  { apply Forall_app. split; [done|]. rewrite take_drop_commute. apply Forall_drop.
    by replace (nl - length s / 3 + length s / 3)%nat with nl by lia. }
  assert (row0_ok (wb_push st.1 i (s ++ take (length s / 3) (drop (nl - length s / 3) tmp)))) as Hr1.
  { apply push_row0; [done..|]. by intros [? _]%Hi. }
  destruct (if _ : bool then _ else _) as [[s2 rest]|] eqn:E2; [|done].
  assert (Forall P s2 ∧ Forall P rest) as [Hs2 Hrest2].
  { revert E2. destruct (_ <? _)%nat.
    - destruct (shorten_line _ s) as [s'|] eqn:E'; [|done]. intros E2. injection E2 as <- <-.
      split; [|apply Forall_take, self_held]. by apply (shorten_spec P _ _ _ Hs E').
    - intros E2. by injection E2 as <- <-. }
  destruct (distill _ _ _) as [w|] eqn:Ew; [|done]. split; [done|].
  apply push_row0; [done| |by intros [_ ?]%Hi]. apply Forall_app. split; [done|].
  eapply distill_Forall; [|exact Ew]. intros j. by apply analyse_Forall.
Qed.

Lemma three_two_loop_row0 st i lines : row0_ok st.1 → row0_ok st.2 →
  Forall (λ s, s ⊆+ m_cbCardData ∧ Forall P s) lines →
  (i = 0%nat → wb_cards st.1 = [] ∧ wb_cards st.2 = []) →
  row0_ok (three_two_loop l st i lines).1 ∧ row0_ok (three_two_loop l st i lines).2.
Proof.
  intros H1 H2 Hl'. revert st i H1 H2. induction Hl' as [|s t [Hs Hp] _ IH]; intros st i H1 H2 Hi; [done|].
  destruct (three_two_step_row0 st i s H1 H2 Hs Hp Hi). cbn [three_two_loop]. by apply IH.
Qed.

Lemma three_two_held r : head (SearchThreeTwoLine l) = Some r → Forall P r.
Proof.
  unfold SearchThreeTwoLine. set (lines := SearchLineCardType l 0 3 0).
  assert (Forall (λ s, s ⊆+ m_cbCardData ∧ Forall P s) lines) as Hlines.
  { apply Forall_forall. intros s Hs. split.
    - destruct (line_search_sound l 0 3 0 s Hl ltac:(lia) ltac:(by left) Hs) as [Hsub _]. by etrans.
    - pose proof (lines_held l Hl 0 3 0) as H. rewrite Forall_forall in H. by apply H. }
  assert (row0_ok no_wings) as H0 by (split; [constructor|done]).
  destruct (three_two_loop_row0 (no_wings, no_wings) 0 lines H0 H0 Hlines ltac:(done)) as [H1 H2].
  destruct (three_two_loop _ _ _ _) as [single double]. simpl in H1, H2.
  destruct (wb_results double) as [|x xs] eqn:E; simpl.
  - by apply results_row0.
  - intros Ex. injection Ex as ->. eapply results_row0; [exact H2|]. by rewrite E.
Qed.
End Wings.

(** ** The search *)

Section Search.
Context (hand : list Z) (Hh : hand ⊆+ m_cbCardData).
Let P c := c ∈ hand.
Let l := SortCardList hand ST_ORDER.

Lemma l_pack : l ⊆+ m_cbCardData.
Proof. unfold l. by rewrite sorted_perm. Qed.

Lemma l_held : Forall P l.
Proof. apply Forall_forall. intros c. unfold l. by rewrite sorted_perm. Qed.

Lemma in_l_held r : Forall (λ c, c ∈ l) r → Forall P r.
Proof. intros H. eapply Forall_impl; [exact H|]. intros c. unfold l. by rewrite sorted_perm. Qed.

Lemma lists_held (L : list (list Z)) : Forall (Forall (λ c, c ∈ l)) L → Forall (Forall P) L.
Proof. intros H. eapply Forall_impl; [exact H|]. apply in_l_held. Qed.

Lemma low_block_held : Forall P (low_block l).
Proof.
  unfold low_block. destruct (_ && _) eqn:E; [|constructor]. breflect.
  constructor; [apply held_aget; [lia|apply l_held]|].
  assert (Forall P (drop 1 (rev l))) as Hr.
  { apply Forall_drop, Forall_rev, l_held. }
  induction (drop 1 (rev l)) as [|c t IH]; [constructor|]. inversion_clear Hr.
  destruct (_ =? _); [|constructor]. constructor; [done|by apply IH].
Qed.

Lemma rocket_held_all : Forall (Forall P) (rocket l).
Proof.
  unfold rocket. destruct (_ && _) eqn:E; [|constructor]. breflect.
  constructor; [|constructor]. constructor; [apply held_aget; [lia|apply l_held]|].
  constructor; [apply held_aget; [lia|apply l_held]|constructor].
Qed.

Lemma search_held turn : Forall (Forall P) (SearchOutCard hand turn).
Proof.
  assert (∀ refer n, Forall (Forall P) (SearchSameCard l refer n)) as Hsame
    by (intros; apply same_Forall, l_held).
  assert (∀ refer a b, Forall (Forall P) (SearchTakeCardType l refer a b)) as Htake
    by (intros; apply take_Forall, l_held).
  assert (∀ refer b n, Forall (Forall P) (SearchLineCardType l refer b n)) as Hline
    by (intros; apply lists_held, lines_held, l_pack).
  assert (∀ n, Forall (Forall P) (SearchPlaneWings l turn n)) as Hplane
    by (intros; apply lists_held, plane_held, l_pack).
  unfold SearchOutCard. fold l. case_decide.
  - unfold SearchFirstOut. rewrite !Forall_app. pose proof low_block_held as Hlow.
    split_and!; try (destruct (_ =? _)%nat; [constructor|]); try (by apply Forall_take); try apply rocket_held_all.
    + case_decide; [constructor|]. constructor; [apply l_held|constructor].
    + constructor; [done|constructor].
    + destruct (SearchThreeTwoLine l) as [|r rs] eqn:E; [constructor|]. simpl.
      constructor; [|constructor]. apply in_l_held, (three_two_held l l_pack). by rewrite E.
  - rewrite !Forall_app. split_and!.
    + unfold SearchSameType. repeat case_match; try constructor; auto.
    + case_match; [apply Hsame|constructor].
    + case_decide; [constructor|apply rocket_held_all].
Qed.
End Search.

(** The automatic player only proposes cards of the hand: for any turn, even one
    of cards that were never in the pack, every card of every proposal of
    [SearchOutCard] is a card of the hand (wings may repeat a card of the line,
    since the lines that take it from the copy are commented out). *)
Theorem SearchOutCard_held hand turn r c :
  hand ⊆+ m_cbCardData → r ∈ SearchOutCard hand turn → c ∈ r → c ∈ hand.
Proof.
  intros Hh Hr. pose proof (search_held hand Hh turn) as H. rewrite Forall_forall in H.
  specialize (H r Hr). rewrite Forall_forall in H. apply H.
Qed.

Lemma SearchOutCard_held_witness : 41 ∈ [57; 41; 9; 24; 8; 56; 3; 20].
Proof.
  apply (SearchOutCard_held [57; 41; 9; 24; 8; 56; 3; 20] [] [56; 24; 8; 57; 41; 9; 20; 3]);
    by_decide.
Defined.
