(* ===== verification/DdzPlay.v ===== *)
(** Dou Dizhu, [SearchOutCard] as a whole: the plays it proposes against a turn
    without wings are held and beat it, and against one rank or the rocket it
    proposes nothing exactly when nothing can be played. *)
From stdpp Require Import base list numbers sorting.
From Stdlib Require Import ZArith Lia.
From S2P Require Import Prelude Cards DdzLogic DdzRules DdzSearch DdzSearchFacts DdzLineFacts.

#[local] Open Scope Z_scope.

Lemma pack_rank c : c ∈ m_cbCardData → 3 <= GetCardLogicValue c <= 17.
Proof. revert c. apply Forall_forall. by_decide. Qed.

(** ** Ranks and types of the plays found *)

Lemma sorted_ranks l k : StronglySorted Z.ge k → lvs l = k → lvs (SortCardList l ST_ORDER) = k.
Proof. intros Hk <-. by apply lvs_sorted_unique. Qed.

Lemma sorted_block l n v : lvs l = replicate n v → lvs (SortCardList l ST_ORDER) = replicate n v.
Proof. apply sorted_ranks, StronglySorted_replicate. lia. Qed.

(** The type of [n] cards of one rank. *)
Definition same_type (n : nat) : CardType :=
  match n with
  | 1%nat => CT_SINGLE | 2%nat => CT_DOUBLE_CARD | 3%nat => CT_THREE | 4%nat => CT_BOMB_CARD | _ => CT_ERROR
  end.

Lemma same_rule l n v : (1 <= n <= 4)%nat → lvs l = replicate n v → Rule l (same_type n).
Proof.
  intros Hn H. destruct n as [|[|[|[|[|n]]]]]; simpl in *; try lia.
  - exact (R_single l v H).
  - exact (R_pair l v H).
  - exact (R_three l v H).
  - exact (R_bomb l v H).
Qed.

Lemma rule_same l n : (1 <= n <= 4)%nat → Rule l (same_type n) → ∃ v, lvs l = replicate n v.
Proof.
  intros Hn H. destruct n as [|[|[|[|[|n]]]]]; cbn [same_type] in H; try lia;
    inversion H; subst; eexists; eassumption.
Qed.

Definition line_type (b : nat) : CardType :=
  match b with 1%nat => CT_SINGLE_LINE | 2%nat => CT_DOUBLE_LINE | _ => CT_THREE_LINE end.

Lemma line_rule l b top n : (1 <= b <= 3)%nat → (less_line_count b 0 <= n)%nat → top <= 14 →
  lvs l = line_values b top n → Rule l (line_type b).
Proof.
  intros Hb Hn Ht H. destruct b as [|[|[|[|b]]]]; simpl in *; try lia.
  - exact (R_line1 l top n Hn Ht H).
  - exact (R_line2 l top n Hn Ht H).
  - exact (R_line3 l top n Hn Ht H).
Qed.

Lemma rule_line_values l b : (1 <= b <= 3)%nat → Rule l (line_type b) →
  ∃ top n, (less_line_count b 0 <= n)%nat ∧ top <= 14 ∧ lvs l = line_values b top n.
Proof.
  intros Hb H. destruct b as [|[|[|[|b]]]]; cbn [line_type] in H; try lia;
    inversion H; subst; eexists _, _; split_and!; eassumption.
Qed.

(** The rank compared is the rank of the first card. *)
Lemma play_rank_first l t : GetCardType l = t →
  t ≠ CT_THREE_TAKE_ONE → t ≠ CT_THREE_TAKE_TWO → t ≠ CT_FOUR_TAKE_ONE → t ≠ CT_FOUR_TAKE_TWO →
  play_rank l = GetCardLogicValue l.[0].
Proof. unfold play_rank. intros ->. by destruct t. Qed.

Lemma first_rank l v vs : lvs l = v :: vs → GetCardLogicValue l.[0] = v.
Proof. destruct l; intros; by simplify_eq/=. Qed.

Lemma first_of_line l b top n : lvs l = line_values (S b) top (S n) → GetCardLogicValue l.[0] = top.
Proof. rewrite line_values_S. simpl. apply first_rank. Qed.

Lemma refer_first l v : l ⊆+ m_cbCardData → l ≠ [] → GetCardLogicValue l.[0] = v →
  l.[0] ∈ m_cbCardData ∧ refer_value l.[0] = v.
Proof.
  intros Hl Hne <-. destruct l as [|c l]; [done|]. unfold aget. simpl.
  assert (c ∈ m_cbCardData) as Hc by (eapply elem_of_submseteq; [|exact Hl]; left).
  split; [done|]. unfold refer_value. destruct (c =? 0) eqn:E; breflect; [|done].
  subst. exfalso. revert Hc. by_decide.
Qed.

(** The lowest rank of a straight of cards. *)
Lemma line_low l b top n : l ⊆+ m_cbCardData → (0 < n)%nat → lvs l = line_values (S b) top n →
  Z.of_nat n + 2 <= top.
Proof.
  intros Hl Hn Hv. destruct n as [|n]; [lia|]. rewrite line_values_snoc in Hv.
  assert (top - Z.of_nat n ∈ lvs l) as Hin.
  { rewrite Hv. apply elem_of_app. right. left. }
  apply list_elem_of_fmap in Hin as (c & Hc & Hin).
  pose proof (pack_rank c (hand_in l Hl c Hin)). lia.
Qed.

Lemma block_rank s n v : (1 <= n <= 4)%nat → lvs s = replicate n v → play_rank s = v.
Proof.
  intros Hn Hs. pose proof (rule_type _ _ (same_rule _ _ _ Hn Hs)) as H.
  rewrite (play_rank_first s _ H) by (by destruct n as [|[|[|[|[|n]]]]]).
  apply (rank_head s v n); [done|lia].
Qed.

(** A block or a straight above the turn beats it. *)
Lemma block_beats turn s n v w : (1 <= n <= 4)%nat →
  lvs turn = replicate n w → lvs s = replicate n v → w < v → beats turn s.
Proof.
  intros Hn Ht Hs Hv.
  pose proof (rule_type _ _ (same_rule _ _ _ Hn Ht)) as H1.
  pose proof (rule_type _ _ (same_rule _ _ _ Hn Hs)) as H2.
  right. rewrite H1, H2. split; [by destruct n as [|[|[|[|[|n]]]]]|]. right. split_and!.
  - by destruct n as [|[|[|[|[|n]]]]]; try lia.
  - done.
  - by rewrite (run_length _ _ _ Ht), (run_length _ _ _ Hs).
  - by rewrite (block_rank turn n w), (block_rank s n v).
Qed.

Lemma line_beats turn s b top top' n : (1 <= b <= 3)%nat → (less_line_count b 0 <= n)%nat →
  lvs turn = line_values b top n → lvs s = line_values b top' n → top < top' <= 14 → beats turn s.
Proof.
  intros Hb Hn Ht Hs Hv.
  pose proof (rule_type _ _ (line_rule turn b top n Hb Hn ltac:(lia) Ht)) as H1.
  pose proof (rule_type _ _ (line_rule s b top' n Hb Hn ltac:(lia) Hs)) as H2.
  right. rewrite H1, H2. split; [by destruct b as [|[|[|b]]]|]. right. split_and!.
  - by destruct b as [|[|[|b]]].
  - done.
  - by rewrite <-(lvs_length turn), <-(lvs_length s), Ht, Hs, !line_values_length.
  - rewrite (play_rank_first turn _ H1), (play_rank_first s _ H2) by (by destruct b as [|[|[|b]]]).
    destruct b as [|b]; [lia|]. destruct n as [|n]; [exfalso; unfold less_line_count in Hn; destruct b as [|[|]]; simpl in Hn; lia|].
    rewrite (first_of_line _ _ _ _ Ht), (first_of_line _ _ _ _ Hs). lia.
Qed.

(** ** The rocket *)

Lemma pack_value_unique c v : c ∈ m_cbCardData → (v = 78 ∨ v = 79) →
  GetCardLogicValue c = GetCardLogicValue v → c = v.
Proof.
  intros Hc Hv H. assert (Forall (λ c, (GetCardLogicValue c = 16 → c = 78) ∧
    (GetCardLogicValue c = 17 → c = 79)) m_cbCardData) as Hall by by_decide.
  rewrite Forall_forall in Hall. destruct (Hall c Hc) as [H1 H2].
  destruct Hv as [-> | ->]; [by apply H1|by apply H2].
Qed.

(** Both jokers held: they are the first two cards of the sorted hand. *)
Lemma rocket_held hand : hand ⊆+ m_cbCardData → 79 ∈ hand → 78 ∈ hand →
  rocket (SortCardList hand ST_ORDER) = [[79; 78]].
Proof.
  intros Hh H79 H78. pose proof (sorted_perm hand) as Hp. pose proof (sorted_by_rank hand) as Hs.
  rewrite <-Hp in Hh, H79, H78. unfold by_rank in Hs.
  destruct (SortCardList hand ST_ORDER) as [|c [|d l]]; [by apply not_elem_of_nil in H79| |].
  { apply list_elem_of_singleton in H79, H78. congruence. }
  assert (c = 79) as ->.
  { apply (pack_value_unique c 79); [eapply elem_of_submseteq; [|exact Hh]; left|by right|].
    apply elem_of_cons in H79 as [<-|H79]; [done|]. apply StronglySorted_inv in Hs as [_ Hs].
    rewrite Forall_forall in Hs. specialize (Hs 79 H79).
    pose proof (pack_rank c ltac:(eapply elem_of_submseteq; [|exact Hh]; left)) as Hc.
    change (GetCardLogicValue 79) with 17 in *. lia. }
  apply elem_of_cons in H78 as [?|H78]; [done|].
  assert (d = 78) as ->; [|done].
  assert (d ∈ m_cbCardData) as Hd by (eapply elem_of_submseteq; [|exact Hh]; right; left).
  apply (pack_value_unique d 78); [done|by left|].
  apply elem_of_cons in H78 as [<-|H78]; [done|].
  apply StronglySorted_inv in Hs as [Hs _]. apply StronglySorted_inv in Hs as [_ Hs].
  rewrite Forall_forall in Hs. specialize (Hs 78 H78). pose proof (pack_rank d Hd).
  change (GetCardLogicValue 78) with 16 in *.
  destruct (decide (GetCardLogicValue d = 17)) as [E|]; [|lia].
  apply (pack_value_unique d 79) in E as ->; [|done|by right].
  pose proof (hand_NoDup _ Hh) as Hn. apply NoDup_cons in Hn as [Hn _]. destruct Hn. left.
Qed.

Lemma rocket_in l r : r ∈ rocket l → ∃ t, l = 79 :: 78 :: t ∧ r = [79; 78].
Proof.
  unfold rocket. destruct l as [|c [|d l]]; simpl; try by intros ?%not_elem_of_nil.
  unfold aget. simpl. destruct (_ && _) eqn:E; [|by intros ?%not_elem_of_nil].
  breflect. subst. intros ->%list_elem_of_singleton. by exists l.
Qed.

(** ** The plays proposed *)

(** The turns without wings. *)
Definition plain_turn (t : CardType) : Prop :=
  (∃ n, (1 <= n <= 4)%nat ∧ t = same_type n) ∨ (∃ b, (1 <= b <= 3)%nat ∧ t = line_type b) ∨ t = CT_MISSILE_CARD.

Section Turn.
Context (hand turn : list Z) (Hh : hand ⊆+ m_cbCardData) (Ht : turn ⊆+ m_cbCardData).
Let l := SortCardList hand ST_ORDER.

Lemma sorted_sub : l ⊆+ m_cbCardData.
Proof. unfold l. by rewrite sorted_perm. Qed.

Lemma search_same_sound n w r : (1 <= n <= 4)%nat → lvs turn = replicate n w →
  r ∈ SearchSameCard l turn.[0] n → r ⊆+ hand ∧ beats turn (SortCardList r ST_ORDER).
Proof.
  intros Hn Hw Hr. destruct (SearchSameCard_found l turn.[0] n sorted_sub Hn) as [H _].
  destruct (H r Hr) as (Hs & v & Hv & Hvs). unfold l in Hs. rewrite sorted_perm in Hs.
  split; [done|]. eapply block_beats; [exact Hn|exact Hw|by apply sorted_block|].
  destruct (refer_first turn w Ht) as [_ E]; [intros ->; by destruct n; simpl in *; try lia| |congruence || lia].
  apply (rank_head turn w n); [done|lia].
Qed.

Lemma search_line_sound b top n r : (1 <= b <= 3)%nat → (less_line_count b 0 <= n)%nat → top <= 14 →
  lvs turn = line_values b top n →
  r ∈ SearchLineCardType l turn.[0] b n → r ⊆+ hand ∧ beats turn (SortCardList r ST_ORDER).
Proof.
  intros Hb Hn Htop Hv Hr. destruct b as [|b]; [lia|].
  assert (0 < n)%nat as Hn0.
  { unfold less_line_count in Hn. destruct b as [|[|]]; simpl in Hn; lia. }
  pose proof (line_low turn b top n Ht Hn0 Hv) as Hlow.
  assert (GetCardLogicValue turn.[0] = top) as Hfirst.
  { destruct n; [lia|]. by eapply first_of_line. }
  destruct (refer_first turn top Ht) as [Hin Hrv]; [|done|].
  { intros ->. destruct n; [lia|]. by rewrite line_values_S in Hv. }
  destruct (line_search_sound l turn.[0] (S b) n r sorted_sub Hb) as (Hs & top' & m & Hvs & Hm & Hmn & Htop');
    [right; split_and!; [done|lia|lia]|done|].
  unfold l in Hs. rewrite sorted_perm in Hs. split; [done|].
  destruct Hmn as [-> | ->]; [lia|]. eapply line_beats; [exact Hb|exact Hn|exact Hv|exact Hvs|lia].
Qed.

Lemma search_bomb_sound r : GetCardType turn ≠ CT_MISSILE_CARD → GetCardType turn ≠ CT_BOMB_CARD →
  r ∈ SearchSameCard l 0 4 → r ⊆+ hand ∧ beats turn (SortCardList r ST_ORDER).
Proof.
  intros Hm Hb Hr. destruct (SearchSameCard_found l 0 4 sorted_sub) as [H _]; [lia|].
  destruct (H r Hr) as (Hs & v & Hv & Hvs). unfold l in Hs. rewrite sorted_perm in Hs.
  split; [done|]. right. split; [done|]. left. split; [|done].
  apply rule_type. eapply R_bomb, sorted_block, Hvs.
Qed.

Lemma rocket_sound r : r ∈ rocket l → r ⊆+ hand ∧ beats turn (SortCardList r ST_ORDER).
Proof.
  intros (t & Hl & ->)%rocket_in. split.
  - rewrite <-(sorted_perm hand). fold l. rewrite Hl. change (79 :: 78 :: t) with ([79; 78] ++ t).
    by apply submseteq_inserts_r.
  - by left.
Qed.

(** The three searches of [SearchOutCard]. *)
Lemma search_out_cases r : GetCardType turn ≠ CT_ERROR → r ∈ SearchOutCard hand turn →
  r ∈ SearchSameType l turn ∨
  (GetCardType turn ≠ CT_MISSILE_CARD ∧
   r ∈ SearchSameCard l (if decide (GetCardType turn = CT_BOMB_CARD) then turn.[0] else 0) 4) ∨
  r ∈ rocket l.
Proof.
  intros He Hr. unfold SearchOutCard in Hr. fold l in Hr. rewrite decide_False in Hr by done.
  apply elem_of_app in Hr as [Hr|Hr]; [by left|]. right. apply elem_of_app in Hr as [Hr|Hr].
  - left. destruct (_ && _) eqn:E; [|by apply not_elem_of_nil in Hr]. breflect.
    apply bool_decide_eq_true in H0. done.
  - right. case_decide; [by apply not_elem_of_nil in Hr|done].
Qed.

Lemma search_out_same n r : (1 <= n <= 4)%nat → GetCardType turn = same_type n →
  r ∈ SearchOutCard hand turn → r ⊆+ hand ∧ beats turn (SortCardList r ST_ORDER).
Proof.
  intros Hn E Hr. assert (GetCardType turn ≠ CT_ERROR) as He.
  { rewrite E. by destruct n as [|[|[|[|[|]]]]]; try lia. }
  pose proof (type_rule turn He) as Hrule. rewrite E in Hrule.
  destruct (rule_same turn n Hn Hrule) as [w Hw].
  destruct (search_out_cases r He Hr) as [H|[[Hm H]|H]]; [| |by apply rocket_sound].
  - unfold SearchSameType in H. rewrite E in H.
    destruct n as [|[|[|[|[|n]]]]]; try lia; simpl in H; try (by apply not_elem_of_nil in H);
      by eapply search_same_sound.
  - case_decide as Hb; [|by apply search_bomb_sound].
    eapply (search_same_sound 4 w); [lia| |done]. rewrite E in Hb.
    by destruct n as [|[|[|[|[|n]]]]].
Qed.

Lemma search_out_line b r : (1 <= b <= 3)%nat → GetCardType turn = line_type b →
  r ∈ SearchOutCard hand turn → r ⊆+ hand ∧ beats turn (SortCardList r ST_ORDER).
Proof.
  intros Hb E Hr. assert (GetCardType turn ≠ CT_ERROR) as He by (rewrite E; by destruct b as [|[|[|]]]).
  pose proof (type_rule turn He) as Hrule. rewrite E in Hrule.
  destruct (rule_line_values turn b Hb Hrule) as (top & n & Hn & Htop & Hv).
  destruct (search_out_cases r He Hr) as [H|[[Hm H]|H]]; [| |by apply rocket_sound].
  - eapply (search_line_sound b top n); [done..|].
    assert (length turn = (n * b)%nat) as Hlen by (by rewrite <-lvs_length, Hv, line_values_length).
    unfold SearchSameType in H. rewrite E, Hlen in H.
    destruct b as [|[|[|[|b]]]]; try lia; cbn [line_type] in H.
    + by rewrite Nat.mul_1_r in H.
    + by rewrite Nat.div_mul in H.
    + by rewrite Nat.div_mul in H.
  - rewrite decide_False in H by (rewrite E; by destruct b as [|[|[|]]]).
    apply search_bomb_sound; [done| |done]. rewrite E. by destruct b as [|[|[|]]].
Qed.
End Turn.

(** C35. Every play [SearchOutCard] proposes against a turn without wings is a part of
    the hand and, sorted, beats the turn. *)
Theorem SearchOutCard_sound hand turn r :
  hand ⊆+ m_cbCardData → turn ⊆+ m_cbCardData → plain_turn (GetCardType turn) →
  r ∈ SearchOutCard hand turn →
  r ⊆+ hand ∧ CompareCard turn (SortCardList r ST_ORDER) = true.
Proof.
  intros Hh Ht Hp Hr. rewrite CompareCard_beats.
  destruct Hp as [(n & Hn & E)|[(b & Hb & E)|E]].
  - by eapply search_out_same.
  - by eapply search_out_line.
  - unfold SearchOutCard, SearchSameType in Hr. rewrite E in Hr. simpl in Hr.
    rewrite andb_false_r in Hr. by apply not_elem_of_nil in Hr.
Qed.

Lemma SearchOutCard_sound_witness :
  CompareCard [8; 7; 22; 5; 4; 3] [57; 8; 23; 6; 5; 4] = true.
Proof.
  apply (SearchOutCard_sound [57; 8; 23; 6; 5; 4; 36] [8; 7; 22; 5; 4; 3] [36; 5; 6; 23; 8; 57]);
    [by_decide|by_decide| |by_decide].
  right; left; exists 1%nat; by split; [lia|].
Defined.

Lemma same_type_length s n v : lvs s = replicate n v → length s = n.
Proof. apply run_length. Qed.

Lemma search_same_nonempty hand refer n k v : hand ⊆+ m_cbCardData → (1 <= n <= 4)%nat →
  k ⊆+ hand → lvs k = replicate n v → refer_value refer < v →
  SearchSameCard (SortCardList hand ST_ORDER) refer n ≠ [].
Proof.
  intros Hh Hn Hk Hv Hr E.
  destruct (SearchSameCard_found (SortCardList hand ST_ORDER) refer n) as [_ H].
  { by rewrite sorted_perm. }
  { done. }
  destruct (H k v) as (s & Hs & _); [by rewrite sorted_perm|done|done|].
  rewrite E in Hs. by apply not_elem_of_nil in Hs.
Qed.

(** Nothing is missed against one rank or the rocket. *)
Lemma search_out_complete hand turn k : hand ++ turn ⊆+ m_cbCardData →
  ((∃ n, (1 <= n <= 4)%nat ∧ GetCardType turn = same_type n) ∨ GetCardType turn = CT_MISSILE_CARD) →
  k ⊆+ hand → beats turn k → SearchOutCard hand turn ≠ [].
Proof.
  intros Hht Htype Hk Hb.
  assert (hand ⊆+ m_cbCardData) as Hh by (etrans; [apply submseteq_inserts_r; reflexivity|exact Hht]).
  assert (turn ⊆+ m_cbCardData) as Ht by (etrans; [apply submseteq_inserts_l; reflexivity|exact Hht]).
  assert (GetCardType turn ≠ CT_ERROR) as He.
  { destruct Htype as [(n & Hn & ->)| ->]; [by destruct n as [|[|[|[|[|]]]]]; try lia|done]. }
  unfold SearchOutCard. rewrite decide_False by done.
  set (l := SortCardList hand ST_ORDER). intros [Hsame [Hbomb Hrocket]%app_eq_nil]%app_eq_nil.
  destruct Hb as [Hm|(Hm & [[Hb Hnb]|(_ & E & Hlen & Hrk)])].
  - pose proof (type_rule k) as Hr. rewrite Hm in Hr. specialize (Hr ltac:(done)). inversion Hr; subst.
    assert (79 ∈ hand ∧ 78 ∈ hand) as [H79 H78].
    { split; (eapply elem_of_submseteq; [|exact Hk]); [left|right; left]. }
    case_decide as Et; [|by unfold l in Hrocket; rewrite rocket_held in Hrocket].
    pose proof (type_rule turn He) as Hr'. rewrite Et in Hr'. inversion Hr'; subst.
    apply (hand_NoDup _) in Hht. apply NoDup_app in Hht as (_ & Hd & _). apply (Hd 79 H79). left.
  - pose proof (type_rule k) as Hr. rewrite Hb in Hr. specialize (Hr ltac:(done)).
    destruct (rule_same k 4 ltac:(lia) Hr) as [v Hv].
    rewrite decide_False in Hbomb by done. rewrite bool_decide_eq_true_2, andb_true_r in Hbomb by done.
    rewrite (proj2 (Nat.leb_le 4 _)) in Hbomb.
    + eapply search_same_nonempty in Hbomb; [done|done|lia|exact Hk|exact Hv|].
      assert (v ∈ lvs k) as (c & -> & Hc)%list_elem_of_fmap by (rewrite Hv; left).
      pose proof (pack_rank c (hand_in hand Hh c (elem_of_submseteq _ _ _ Hc Hk))). change (refer_value 0) with 0. lia.
    + unfold l. rewrite sorted_length, <-(run_length _ _ _ Hv). by apply submseteq_length.
  - destruct Htype as [(n & Hn & Ht')|Ht']; [|congruence].
    pose proof (type_rule turn He) as Hrt. rewrite Ht' in Hrt.
    destruct (rule_same turn n Hn Hrt) as [w Hw].
    assert (Rule k (same_type n)) as Hrk'.
    { rewrite <-Ht', E. apply type_rule. by rewrite <-E. }
    destruct (rule_same k n Hn Hrk') as [v Hv].
    assert (w < v) as Hwv.
    { revert Hrk. by rewrite (block_rank turn n w), (block_rank k n v). }
    assert (refer_value turn.[0] = w) as Hrv.
    { apply (refer_first turn w Ht); [|apply (rank_head turn w n); [done|lia]].
      intros ->. by destruct n; [lia|]. }
    assert (SearchSameCard l turn.[0] n ≠ []) as Hne.
    { eapply search_same_nonempty; [done|done|exact Hk|exact Hv|lia]. }
    apply Hne. unfold SearchSameType in Hsame. rewrite Ht' in Hsame.
    destruct n as [|[|[|[|[|n]]]]]; try lia; simpl in Hsame; try done.
    rewrite Ht' in Hbomb. cbn [same_type] in Hbomb. rewrite decide_True in Hbomb by done.
    rewrite bool_decide_eq_true_2, andb_true_r in Hbomb by done.
    rewrite (proj2 (Nat.leb_le 4 _)) in Hbomb; [done|].
    unfold l. rewrite sorted_length, <-(run_length _ _ _ Hv). by apply submseteq_length.
Qed.

(** Against a single, a pair, a triple, a bomb or the rocket, [SearchOutCard]
    proposes nothing exactly when no cards of the hand beat the turn: the table
    passes for an absent player only when it has to. *)
Theorem SearchOutCard_none hand turn :
  hand ++ turn ⊆+ m_cbCardData →
  (∃ n, (1 <= n <= 4)%nat ∧ GetCardType turn = same_type n) ∨ GetCardType turn = CT_MISSILE_CARD →
  SearchOutCard hand turn = [] ↔ ¬ ∃ k, k ⊆+ hand ∧ CompareCard turn k = true.
Proof.
  intros Hht Htype.
  assert (hand ⊆+ m_cbCardData) as Hh by (etrans; [apply submseteq_inserts_r; reflexivity|exact Hht]).
  assert (turn ⊆+ m_cbCardData) as Ht by (etrans; [apply submseteq_inserts_l; reflexivity|exact Hht]).
  split.
  - intros E (k & Hk & Hb). apply CompareCard_beats in Hb. by eapply search_out_complete.
  - intros Hno. destruct (SearchOutCard hand turn) as [|r rs] eqn:E; [done|]. destruct Hno.
    exists (SortCardList r ST_ORDER).
    destruct Htype as [(n & Hn & Ety)|Ety].
    + destruct (search_out_same hand turn Hh Ht n r Hn Ety) as [Hs Hb]; [rewrite E; left|].
      split; [by rewrite sorted_perm|by apply CompareCard_beats].
    + unfold SearchOutCard, SearchSameType in E. rewrite Ety in E. simpl in E.
      by rewrite andb_false_r in E.
Qed.

Lemma SearchOutCard_none_witness :
  ¬ ∃ k, k ⊆+ [57; 8; 22; 6; 5] ∧ CompareCard [11; 27] k = true.
Proof.
  apply (SearchOutCard_none [57; 8; 22; 6; 5] [11; 27]); [by_decide| |reflexivity].
  left. exists 2%nat. by split; [lia|].
Defined.
