(* ===== verification/DdzSettle.v ===== *)
(** Dou Dizhu, the settlement of a finished game: the amounts
    [CTableFrameSink::OnNormalGameConclude]
    ([src/Games/Game_ddzLandy/TableFrameSink.cpp]) works out, and what they
    promise: nobody loses or wins more than his balance and the amounts add up to
    zero but for one unit of rounding.  Amounts are [Z]; [settle_int64] shows that
    balances below 2^31 keep the products inside [int64_t]. *)
From stdpp Require Import base list numbers.
From Stdlib Require Import ZArith Lia.
From S2P Require Import Prelude GameDefine.

#[local] Open Scope Z_scope.

Definition GAME_PLAYER : nat := 3%nat.
Definition CB_NOT_ADD_DOUBLE : Z := 0.
Definition CB_ADD_DOUBLE : Z := 1.
Definition CB_NO_ADD_DOUBLE : Z := 2.

(** What the settlement reads: the chairs, the bidding, the counters of the game
    and the balances. *)
Record Game := MkGame {
  g_banker : nat;
  g_winner : nat;
  g_bankerScore : Z;
  g_bombs : nat;
  g_outCount : list Z;
  g_bankerEmpty : bool;
  g_stake : list Z;
  g_cell : Z;
  g_score : list Z
}.

(** The other two chairs, as the loops over [GAME_PLAYER] that skip the banker. *)
Definition is_farmer (g : Game) (i : nat) : bool := negb (i =? g_banker g)%nat.

(** [lScoreTimes]: the bid, doubled per bomb and for a spring. *)
Definition score_times (g : Game) : Z :=
  let t := Z.max 1 (g_bankerScore g) * 2 ^ Z.of_nat (g_bombs g) in
  if (g_winner g =? g_banker g)%nat then
    if ((g_outCount g).[(g_banker g + 1) mod 3] =? 0) && ((g_outCount g).[(g_banker g + 2) mod 3] =? 0)
    then t * 2 else t
  else if (g_outCount g).[g_banker g] =? 1 then t * 2 else t.

(** [lTempUserScpre[i]] of a farmer after the loop: the stake, cut to the balance. *)
Definition farmer_score (g : Game) (i : nat) : Z :=
  let lUserScore := (g_score g).[i] in
  let stakeTimes := if (g_stake g).[i] =? CB_ADD_DOUBLE then 2 else 1 in
  let lUserTimes := (if g_bankerEmpty g then -1 else 1) * stakeTimes in
  let s := lUserTimes * g_cell g * score_times g in
  if s <? 0 then
    if lUserScore <=? 0 then 0
    else if lUserScore + s <? 0 then - lUserScore else s
  else if lUserScore <? s then lUserScore else s.

Definition temp_score (g : Game) (i : nat) : Z := if is_farmer g i then farmer_score g i else 0.

Definition sum_chairs (f : nat → Z) : Z := sumZ (map f (seq 0 GAME_PLAYER)).

(** [iBankerTotalWinScore], [iUserTotalLoseScore], [iUserTotalWinScore]. *)
Definition banker_total (g : Game) : Z := - sum_chairs (temp_score g).
Definition lose_total (g : Game) : Z := sum_chairs (λ i, Z.min 0 (temp_score g i)).
Definition win_total (g : Game) : Z := sum_chairs (λ i, Z.max 0 (temp_score g i)).

(** The final [lTempUserScpre[i]]: the three cases of "以小博大" (nobody wins more
    than he brought). *)
Definition settle (g : Game) (i : nat) : Z :=
  let base := (g_score g).[g_banker g] in
  let temp := temp_score g i in
  if base <? banker_total g then
    if is_farmer g i then
      let need := Z.quot (base * temp) (lose_total g) in
      - (if (g_score g).[i] <? need then (g_score g).[i] else need)
    else base
  else if banker_total g + base <? 0 then
    if is_farmer g i then
      if temp <? 0 then temp
      else
        let win := Z.quot (base * temp) (win_total g) in
        if (g_score g).[i] <? win then (g_score g).[i] else win
    else - base
  else if is_farmer g i then temp else banker_total g.

(** [scoreInfo.revenue] and [scoreInfo.addScore]. *)
Definition revenue (ratio : Z) (g : Game) (i : nat) : Z :=
  if 0 <? settle g i then CalculateRevenue ratio (settle g i) else 0.
Definition add_score (ratio : Z) (g : Game) (i : nat) : Z := settle g i - revenue ratio g i.

(** The argument of [UpdateStorageScore]: what the robots won, less the system's
    share of a win.  The code computes the share in [double], which is exact below
    2^53, and truncates. *)
Definition storage_score (systemReduceRatio : Z) (g : Game) (android : nat → bool) : Z :=
  let w := sum_chairs (λ i, if android i then settle g i else 0) in
  if 0 <? w then Z.quot (w * (1000 - systemReduceRatio)) 1000 else w.

(** ** The promises of the settlement *)

Record Game_ok (g : Game) : Prop := {
  ok_banker : (g_banker g < 3)%nat;
  ok_len : length (g_score g) = 3%nat;
  ok_cell : 0 < g_cell g;
  ok_score : Forall (λ s, 0 <= s) (g_score g)
}.

Lemma score_times_pos g : 1 <= score_times g.
Proof.
  unfold score_times.
  assert (1 <= 2 ^ Z.of_nat (g_bombs g)) as H by (pose proof (Z.pow_pos_nonneg 2 (Z.of_nat (g_bombs g))); lia).
  assert (1 <= Z.max 1 (g_bankerScore g) * 2 ^ Z.of_nat (g_bombs g)) by nia.
  bsplit; lia.
Qed.

(** A share of [total] in proportion to [x] out of [w], as the code divides. *)
Definition share (total x w : Z) : Z := total * x / w.

Lemma share_bound total x w : 0 <= total <= w → 0 <= x → 0 < w → 0 <= share total x w <= x.
Proof.
  intros Ht Hx Hw. unfold share. split; [apply Z.div_pos; nia|].
  apply Z.div_le_upper_bound; [done|]. nia.
Qed.

(** Two shares of the whole lose less than one unit each in the division. *)
Lemma share_sum total x y : 0 <= total → 0 <= x → 0 <= y → 0 < x + y →
  total - 1 <= share total x (x + y) + share total y (x + y) <= total.
Proof.
  intros Ht Hx Hy Hw. unfold share.
  pose proof (Z.div_mod (total * x) (x + y) ltac:(lia)) as H1.
  pose proof (Z.div_mod (total * y) (x + y) ltac:(lia)) as H2.
  pose proof (Z.mod_pos_bound (total * x) (x + y) Hw) as B1.
  pose proof (Z.mod_pos_bound (total * y) (x + y) Hw) as B2.
  set (q1 := total * x / (x + y)) in *. set (q2 := total * y / (x + y)) in *.
  set (r1 := (total * x) mod (x + y)) in *. set (r2 := (total * y) mod (x + y)) in *.
  assert ((x + y) * (total - q1 - q2) = r1 + r2) as E by lia. nia.
Qed.

Section Settle.
Context (g : Game) (Hok : Game_ok g).

Lemma score_nonneg i : 0 <= (g_score g).[i].
Proof. apply Forall_aget; [lia|]. apply Hok. Qed.

(** The stake before and after the cut to the balance. *)
Lemma farmer_score_bound i : - (g_score g).[i] <= farmer_score g i <= (g_score g).[i].
Proof.
  pose proof (score_nonneg i). pose proof (score_times_pos g) as Ht. pose proof (ok_cell g Hok) as Hc.
  unfold farmer_score. cbv zeta. bsplit; lia.
Qed.

Lemma temp_bound i : - (g_score g).[i] <= temp_score g i <= (g_score g).[i].
Proof. unfold temp_score. bsplit; [apply farmer_score_bound|]. pose proof (score_nonneg i). lia. Qed.

(** All stakes of a game have the same sign. *)
Lemma temp_sign i : if g_bankerEmpty g then temp_score g i <= 0 else 0 <= temp_score g i.
Proof.
  pose proof (score_nonneg i) as Hs. pose proof (score_times_pos g) as Ht. pose proof (ok_cell g Hok) as Hc.
  unfold temp_score, farmer_score. cbv zeta.
  set (k := if (g_stake g).[i] =? CB_ADD_DOUBLE then 2 else 1).
  assert (1 <= k) as Hk by (unfold k; bsplit; lia).
  assert (0 < k * g_cell g * score_times g) as Hp by (apply Z.mul_pos_pos; nia).
  destruct (g_bankerEmpty g); bsplit; nia.
Qed.

Let base := (g_score g).[g_banker g].

Lemma sum_three f : sum_chairs f = f 0%nat + f 1%nat + f 2%nat.
Proof. unfold sum_chairs. simpl. lia. Qed.

Lemma quot_lose t w : 0 <= base → t <= 0 → w < 0 → Z.quot (base * t) w = share base (- t) (- w).
Proof.
  intros Hb Ht Hw. unfold share. rewrite <-Z.quot_div_nonneg by nia.
  replace (base * - t) with (- (base * t)) by lia. by rewrite Z.quot_opp_opp by lia.
Qed.

Lemma quot_win t w : 0 <= base → 0 <= t → 0 < w → Z.quot (base * t) w = share base t w.
Proof. intros Hb Ht Hw. unfold share. apply Z.quot_div_nonneg; nia. Qed.

Lemma base_nonneg : 0 <= base.
Proof. apply score_nonneg. Qed.

(** The three chairs seen from the banker's. *)
Let b := g_banker g.
Let f1 := ((b + 1) mod 3)%nat.
Let f2 := ((b + 2) mod 3)%nat.

Lemma sum_from_banker f : sum_chairs f = f b + f f1 + f f2.
Proof.
  rewrite sum_three. unfold f1, f2. pose proof (ok_banker g Hok) as Hb. fold b in Hb.
  destruct b as [|[|[|]]]; simpl; lia.
Qed.

Lemma chair_cases i : (i < 3)%nat → i = b ∨ i = f1 ∨ i = f2.
Proof.
  unfold f1, f2. pose proof (ok_banker g Hok) as Hb. fold b in Hb.
  destruct b as [|[|[|]]]; simpl; lia.
Qed.

Lemma farmers : is_farmer g b = false ∧ is_farmer g f1 = true ∧ is_farmer g f2 = true.
Proof.
  unfold is_farmer, f1, f2. fold b. pose proof (ok_banker g Hok) as Hb. fold b in Hb.
  destruct b as [|[|[|]]]; simpl; lia || done.
Qed.

Lemma temp_banker : temp_score g b = 0.
Proof. unfold temp_score. by rewrite (proj1 farmers). Qed.

Let x := temp_score g f1.
Let y := temp_score g f2.

Lemma totals : banker_total g = - (x + y) ∧ lose_total g = Z.min 0 x + Z.min 0 y ∧
  win_total g = Z.max 0 x + Z.max 0 y.
Proof.
  unfold banker_total, lose_total, win_total. rewrite !sum_from_banker, temp_banker.
  fold x y. lia.
Qed.

Lemma same_sign : (x <= 0 ∧ y <= 0) ∨ (0 <= x ∧ 0 <= y).
Proof.
  pose proof (temp_sign f1) as H1. pose proof (temp_sign f2) as H2. fold x in H1. fold y in H2.
  destruct (g_bankerEmpty g); lia.
Qed.

(** The three cases: [t] is the stake of the farmer in chair [i]. *)
Lemma settle_cases :
  (base < - (x + y) ∧ x <= 0 ∧ y <= 0 ∧ settle g b = base ∧
     settle g f1 = - share base (- x) (- x - y) ∧ settle g f2 = - share base (- y) (- x - y)) ∨
  (base < x + y ∧ 0 <= x ∧ 0 <= y ∧ settle g b = - base ∧
     settle g f1 = share base x (x + y) ∧ settle g f2 = share base y (x + y)) ∨
  (- base <= x + y <= base ∧ settle g b = - (x + y) ∧ settle g f1 = x ∧ settle g f2 = y).
Proof.
  destruct totals as (Et & El & Ew). destruct farmers as (Fb & F1 & F2).
  pose proof base_nonneg as Hb0. pose proof same_sign as Hss.
  pose proof (temp_bound f1) as B1. pose proof (temp_bound f2) as B2. fold x in B1. fold y in B2.
  unfold settle. fold base. rewrite Fb, F1, F2, Et, El, Ew. fold x y. cbv zeta.
  destruct (Z.ltb_spec base (- (x + y))) as [H1|H1].
  { left. assert (x <= 0 ∧ y <= 0) as [Hx Hy] by lia.
    rewrite !Z.min_r, !quot_lose by lia. replace (- (x + y)) with (- x - y) by lia.
    pose proof (share_bound base (- x) (- x - y)). pose proof (share_bound base (- y) (- x - y)).
    rewrite (proj2 (Z.ltb_ge (g_score g).[f1] _)), (proj2 (Z.ltb_ge (g_score g).[f2] _)) by lia.
    split_and!; done || lia. }
  right. destruct (Z.ltb_spec (- (x + y) + base) 0) as [H2|H2].
  - left. assert (0 <= x ∧ 0 <= y) as [Hx Hy] by lia.
    rewrite !Z.max_r, !quot_win by lia.
    pose proof (share_bound base x (x + y)). pose proof (share_bound base y (x + y)).
    rewrite (proj2 (Z.ltb_ge x 0)), (proj2 (Z.ltb_ge y 0)) by lia.
    rewrite (proj2 (Z.ltb_ge (g_score g).[f1] _)), (proj2 (Z.ltb_ge (g_score g).[f2] _)) by lia.
    split_and!; done || lia.
  - right. split_and!; done || lia.
Qed.
End Settle.

Lemma settle_bounds g i :
  Game_ok g → (i < 3)%nat → - (g_score g).[i] <= settle g i <= (g_score g).[i].
Proof.
  intros Hok Hi. pose proof (score_nonneg g Hok (g_banker g)) as Hb.
  pose proof (temp_bound g Hok ((g_banker g + 1) mod 3)) as B1.
  pose proof (temp_bound g Hok ((g_banker g + 2) mod 3)) as B2.
  pose proof (settle_cases g Hok) as H.
  set (x := temp_score g ((g_banker g + 1) mod 3)) in *. set (y := temp_score g ((g_banker g + 2) mod 3)) in *.
  set (base := (g_score g).[g_banker g]) in *.
  pose proof (share_bound base (- x) (- x - y)). pose proof (share_bound base (- y) (- x - y)).
  pose proof (share_bound base x (x + y)). pose proof (share_bound base y (x + y)).
  destruct (chair_cases g Hok i Hi) as [-> | [-> | ->]]; fold base; lia.
Qed.

(** C36. Nobody loses more than his balance and nobody wins more than his balance,
    whatever the multiplier, the bombs and the doubled stakes. *)
Theorem settle_within_balance g i :
  Game_ok g → (i < 3)%nat → - (g_score g).[i] <= settle g i <= (g_score g).[i].
Proof. apply settle_bounds. Qed.

(** The amounts add up to zero when the stakes fit the banker's balance; when they
    are cut to it, integer division costs at most one unit: one unit too much is
    paid out when the banker wins, one too little when he loses. *)
Theorem settle_balanced g :
  Game_ok g →
  let total := sum_chairs (settle g) in
  (- (g_score g).[g_banker g] <= banker_total g <= (g_score g).[g_banker g] → total = 0) ∧
  ((g_score g).[g_banker g] < banker_total g → 0 <= total <= 1) ∧
  (banker_total g < - (g_score g).[g_banker g] → -1 <= total <= 0).
Proof.
  intros Hok. cbv zeta. rewrite (sum_from_banker g Hok).
  destruct (totals g Hok) as (Et & _). rewrite Et.
  pose proof (score_nonneg g Hok (g_banker g)) as Hb.
  destruct (settle_cases g Hok) as [(Hc & Hx & Hy & -> & -> & ->)|[(Hc & Hx & Hy & -> & -> & ->)|(Hc & -> & -> & ->)]].
  - set (x := temp_score g ((g_banker g + 1) mod 3)) in *. set (y := temp_score g ((g_banker g + 2) mod 3)) in *.
    pose proof (share_sum (g_score g).[g_banker g] (- x) (- y)) as S.
    replace (- x + - y) with (- x - y) in S by lia. lia.
  - set (x := temp_score g ((g_banker g + 1) mod 3)) in *. set (y := temp_score g ((g_banker g + 2) mod 3)) in *.
    pose proof (share_sum (g_score g).[g_banker g] x y). lia.
  - lia.
Qed.

(** A game won by a banker with 100 against farmers with 1000 and 70, stake 64. *)
Definition sample_game : Game :=
  MkGame 1 1 3 2 [0; 5; 0] true [2; 0; 1] 10 [1000; 100; 70].

Lemma sample_ok : Game_ok sample_game.
Proof. split; [simpl; lia|done|done|by_decide]. Qed.

Lemma settle_within_balance_witness : - 70 <= settle sample_game 2 <= 70.
Proof. apply (settle_within_balance sample_game 2); [apply sample_ok|lia]. Defined.

Lemma settle_balanced_witness : 0 <= sum_chairs (settle sample_game) <= 1.
Proof. apply (settle_balanced sample_game sample_ok). reflexivity. Defined.

(** The fee is taken out of a win and is not more than it. *)
Lemma add_score_bound ratio g i : Game_ok g → (i < 3)%nat → 0 <= ratio <= 100 →
  - (g_score g).[i] <= add_score ratio g i <= settle g i.
Proof.
  intros Hok Hi Hr. pose proof (settle_bounds g i Hok Hi) as Hs. unfold add_score, revenue.
  destruct (Z.ltb_spec 0 (settle g i)); [|lia]. unfold CalculateRevenue.
  rewrite Z.quot_div_nonneg by nia.
  assert (0 <= settle g i * ratio / 100 <= settle g i) by (split; [apply Z.div_pos; nia|apply Z.div_le_upper_bound; nia]).
  pose proof (score_nonneg g Hok i). lia.
Qed.

(** With balances below 2^31 the products formed on [int64_t] do not overflow. *)
Lemma settle_int64 g i : Game_ok g → Forall (λ s, s < 2 ^ 31) (g_score g) →
  Z.abs ((g_score g).[g_banker g] * temp_score g i) < 2 ^ 63.
Proof.
  intros Hok Hs. pose proof (temp_bound g Hok i) as Ht.
  pose proof (score_nonneg g Hok i). pose proof (score_nonneg g Hok (g_banker g)).
  assert (∀ j, (g_score g).[j] < 2 ^ 31) as Hb by (intros j; by apply Forall_aget).
  pose proof (Hb i). pose proof (Hb (g_banker g)). change (2 ^ 63) with (2 * (2 ^ 31 * 2 ^ 31)). nia.
Qed.
