(* ===== verification/DdzTable.v ===== *)
(** Dou Dizhu, the table: the state of [CTableFrameSink]
    ([src/Games/Game_ddzLandy/TableFrameSink.cpp]) and its handlers: dealing,
    bidding, doubling, playing, passing, the automatic player and the end of the
    game.  [draws] counts the values taken from the outside world (random
    numbers, shuffles, the stock), each an argument of the model.  A timer
    handler may run at any time: its scene guard decides what it does. *)
From stdpp Require Import base list numbers option.
From Stdlib Require Import ZArith Lia.
From S2P Require Import Prelude GameDefine Cards DdzLogic DdzSearch DdzSettle.

#[local] Open Scope Z_scope.

(** ** Data *)

Inductive Scene :=
  | GAME_SCENE_FREE | GAME_SCENE_CALL | GAME_SCENE_CALLEnd
  | GAME_SCENE_STAKE | GAME_SCENE_STAKEEnd | GAME_SCENE_PLAY.
#[global] Instance Scene_eq_dec : EqDecision Scene.
Proof. solve_decision. Defined.

Definition TIME_CALL_BANKER : Z := 15.
Definition TIME_CALL_BANKERSend : Z := 5.
Definition TIME_ADD_DOUBLE : Z := 10.
Definition TIME_OUT_CARD : Z := 15.
Definition TIME_OUT_CARDTrust : Z := 2.
Definition TIME_FIRST_OUT_CARD : Z := 25.
Definition TIME_TICK_USER : Z := 5.

Definition CB_NOT_CALL : Z := 0.
Definition CB_CALL_BENKER_1 : Z := 1.
Definition CB_CALL_BENKER_3 : Z := 3.
Definition CB_NO_CALL_BENKER : Z := 4.

(** What the table reads of a [CServerUserItem]. *)
Record User := MkUser {
  u_id : Z;
  u_status : eUserStatus;
  u_android : bool;
  u_score : Z
}.
#[global] Instance eta_User : Settable User := λ u, MkUser (u_id u) (u_status u) (u_android u) (u_score u).

(** The messages to the clients, with the fields the handlers fill in. *)
Inductive Msg :=
  | S_GAME_START (start current : Z) (cards : list Z)
  | S_GAME_START_AI (start current : Z) (banker : list Z) (cards : list Z)
  | S_CALL_BANKER (last banker current info : Z)
  | S_BANKER_INFO (banker current : Z) (cards : list Z) (score : Z)
  | S_ADD_DOUBLE (current double times : Z)
  | S_OUT_CARD_START (banker current : Z)
  | S_OUT_CARD (msgid current user : Z) (cards : list Z) (times : Z)
  | S_PASS_CARD (msgid user current turnover : Z)
  | S_TRUSTEE (trustee : list bool)
  | S_CHEAT_LOOK_CARD (user : Z) (cards : list Z)
  | S_GAME_CONCLUDE (scores : list Z).

(** Calls into the frame: a message to a chair, the score and stock bookkeeping. *)
Inductive Event :=
  | SendTableData (chair : Z) (m : Msg)
  | WriteUserScore (add revenue : list Z)
  | UpdateStorageScore (score : Z).

(** The state of the table. *)
Record Table := MkTable {
  m_wFirstUser : Z;
  m_wBankerUser : Z;
  m_wCurrentUser : Z;
  m_bTrustee : list bool;
  m_cbNoCallCount : Z;
  m_bFisrtCall : bool;
  m_cbFirstCall : Z;
  m_bOffLineTrustee : bool;
  m_cbRemainTime : Z;
  m_cbBombCount : Z;
  m_cbEachBombCount : list Z;
  m_dwStartTime : Z;
  m_cbBankerScore : Z;
  m_cbScoreInfo : list Z;
  m_cbStakeInfo : list Z;
  m_wTurnWiner : Z;
  m_cbTurnCardCount : Z;
  m_cbTurnCardData : list Z;
  m_cbSurplusCard : list Z;
  m_cbOutCardCount : list Z;
  m_cbOutCardList : list (list (list Z));
  m_cbBankerCard : list Z;
  m_cbHandCardCount : list Z;
  m_cbHandCardData : list (list Z);
  m_cbHandCardAllData : list (list Z);
  m_cbGameStatus : Scene;
  m_iUserWinScore : list Z;
  m_MSGID : Z;
  m_isflag : bool;
  m_bhaveCancelTrustee : bool;
  m_listTestCardArray : list Z;
  m_lStockScore : Z;
  m_lStorageMin : Z;
  totalMatchSeconds_ : Z;
  frameStatus : FrameStatus;
  seats : list (option User);
  draws : nat;
  out : list Event
}.
#[global] Instance eta_Table : Settable Table := λ t, MkTable
  (m_wFirstUser t) (m_wBankerUser t) (m_wCurrentUser t) (m_bTrustee t) (m_cbNoCallCount t)
  (m_bFisrtCall t) (m_cbFirstCall t) (m_bOffLineTrustee t) (m_cbRemainTime t) (m_cbBombCount t)
  (m_cbEachBombCount t) (m_dwStartTime t) (m_cbBankerScore t) (m_cbScoreInfo t) (m_cbStakeInfo t)
  (m_wTurnWiner t) (m_cbTurnCardCount t) (m_cbTurnCardData t) (m_cbSurplusCard t) (m_cbOutCardCount t)
  (m_cbOutCardList t) (m_cbBankerCard t) (m_cbHandCardCount t) (m_cbHandCardData t) (m_cbHandCardAllData t)
  (m_cbGameStatus t) (m_iUserWinScore t) (m_MSGID t) (m_isflag t) (m_bhaveCancelTrustee t)
  (m_listTestCardArray t) (m_lStockScore t) (m_lStorageMin t) (totalMatchSeconds_ t) (frameStatus t) (seats t) (draws t) (out t).

(** The room and [ddz_config.ini] settings the handlers read. *)
Record Config := MkConfig {
  floorScore : Z;
  systemReduceRatio : Z;
  systemKillAllRatio : Z;
  revenueRatio : Z;
  m_StorageRatio : Z;
  m_StorageMinRatio : Z;
  m_StorageMaxRatio : Z;
  m_bTestGame : Z;
  m_cbGoodCardValue : Z;
  m_cbGoodCardTime : Z;
  m_cbTestUser : Z;
  testCards : list Z
}.

(** ** Helpers of the model *)

Definition idx (chair : Z) : nat := Z.to_nat chair.
Definition getz (l : list Z) (chair : Z) : Z := l.[idx chair].
Definition setz (l : list Z) (chair v : Z) : list Z := <[idx chair := v]> l.
Definition trusted (t : Table) (chair : Z) : bool := default false (m_bTrustee t !! idx chair).
Definition row (l : list (list Z)) (chair : Z) : list Z := rget l (idx chair).

(** [CTableFrame::GetTableUserItem]: no user for a chair outside the table. *)
Definition GetTableUserItem (t : Table) (chair : Z) : option User :=
  if (0 <=? chair) && (chair <? 3) then default None (seats t !! idx chair) else None.

Definition set_user (t : Table) (chair : Z) (u : option User) : Table :=
  t <| seats := <[idx chair := u]> (seats t) |>.
Definition set_status (t : Table) (chair : Z) (s : eUserStatus) : Table :=
  match GetTableUserItem t chair with
  | Some u => set_user t chair (Some (u <| u_status := s |>))
  | None => t
  end.
(** [CTableFrame::ClearTableUser], with [OnUserStandup]: the seat is free, unless its
    user is playing (or has no id). *)
Definition ClearTableUser (t : Table) (chair : Z) : Table :=
  match GetTableUserItem t chair with
  | Some u => if (u_id u =? 0) || bool_decide (u_status u = sPlaying) then t else set_user t chair None
  | None => t
  end.

Definition emit (t : Table) (e : Event) : Table := t <| out := out t ++ [e] |>.
(** The same message to every chair; [present]: only to chairs with a user. *)
Definition send_all (t : Table) (m : Z → Msg) : Table :=
  foldl (λ t i, emit t (SendTableData i (m i))) t [0; 1; 2].
Definition send_present (t : Table) (m : Z → Msg) : Table :=
  foldl (λ t i, match GetTableUserItem t i with
                | Some _ => emit t (SendTableData i (m i)) | None => t end) t [0; 1; 2].

(** The cards a player holds: the first [m_cbHandCardCount[i]] cells of his row. *)
Definition hand (t : Table) (chair : Z) : list Z :=
  take (Z.to_nat (getz (m_cbHandCardCount t) chair)) (row (m_cbHandCardData t) chair).
Definition turn (t : Table) : list Z := take (Z.to_nat (m_cbTurnCardCount t)) (m_cbTurnCardData t).

(** [CopyMemory] to the front of a row. *)
Definition overwrite (new cells : list Z) : list Z := new ++ drop (length new) cells.

Definition zero_rows : list (list Z) := replicate 3 (replicate MAX_COUNT 0).

Definition for_chairs (f : Z → Table → option Table) (t : Table) : option Table :=
  t ← f 0 t; t ← f 1 t; f 2 t.

(** The constructor of [CTableFrameSink] and [SetTableFrame], on a table whose three
    seats are free; the members they do not write keep what the memory [m] held. *)
Definition new_table (m : Table) : Table :=
  m <| m_bTrustee := [false; false; false] |> <| m_bOffLineTrustee := false |> <| m_bFisrtCall := true |>
    <| m_cbNoCallCount := 0 |> <| m_wFirstUser := INVALID_CHAIR |> <| m_wBankerUser := INVALID_CHAIR |>
    <| m_wCurrentUser := INVALID_CHAIR |> <| m_cbOutCardCount := [0; 0; 0] |> <| m_cbBombCount := 0 |>
    <| m_cbFirstCall := u8 INVALID_CHAIR |> <| m_cbEachBombCount := [0; 0; 0] |> <| m_cbBankerScore := 0 |>
    <| m_cbScoreInfo := [0; 0; 0] |> <| m_cbStakeInfo := [0; 0; 0] |> <| m_cbTurnCardCount := 0 |>
    <| m_wTurnWiner := INVALID_CHAIR |> <| m_cbTurnCardData := replicate MAX_COUNT 0 |>
    <| m_cbBankerCard := [0; 0; 0] |> <| m_cbHandCardData := zero_rows |> <| m_cbHandCardCount := [0; 0; 0] |>
    <| m_cbSurplusCard := [] |> <| m_cbRemainTime := 0 |> <| m_MSGID := 0 |> <| m_isflag := true |>
    <| totalMatchSeconds_ := 0 |> <| m_bhaveCancelTrustee := false |> <| m_listTestCardArray := [] |>
    <| frameStatus := STATUS_FREE |> <| m_cbGameStatus := GAME_SCENE_FREE |>
    <| seats := [None; None; None] |> <| draws := 0%nat |> <| out := [] |>.

(** ** The table *)
Section Table.
(** The room, and the outside world: the [k]-th value of [rand()], of
    [m_random.betweenInt(0,1000)], of [std::shuffle], the stock
    [(lEndStorage, lLowlimit, lUplimit)] the frame reports, whether the server is
    still running, and the hand valuation [get_HandCardValue], which only decides
    how often the cards are shuffled again. *)
Context (cfg : Config).
Context (rnd between : nat → Z) (shuf : nat → list Z → list Z).
Context (storage : nat → Z * Z * Z) (running : nat → bool).
Context (get_HandCardValue : list Z → Z).

Definition drew (t : Table) (n : nat) : Table := t <| draws ::= λ d, (d + n)%nat |>.

(** *** Reset and deal *)

(** [CTableFrameSink::RepositionSink]. *)
Definition RepositionSink (t : Table) : Table :=
  if negb (m_isflag t) then
    foldl (λ t i, match GetTableUserItem t i with Some _ => ClearTableUser t i | None => t end) t [0; 1; 2]
  else
    t <| m_cbBombCount := 0 |> <| m_wBankerUser := INVALID_CHAIR |> <| m_wCurrentUser := INVALID_CHAIR |>
      <| m_cbOutCardCount := [0; 0; 0] |> <| m_cbEachBombCount := [0; 0; 0] |>
      <| m_bTrustee := [false; false; false] |>
      <| m_cbBankerScore := 0 |> <| m_cbScoreInfo := [0; 0; 0] |> <| m_cbStakeInfo := [0; 0; 0] |>
      <| m_cbTurnCardCount := 0 |> <| m_wTurnWiner := INVALID_CHAIR |>
      <| m_cbTurnCardData := replicate MAX_COUNT 0 |>
      <| m_cbBankerCard := [0; 0; 0] |> <| m_cbHandCardData := zero_rows |>
      <| m_cbHandCardCount := [0; 0; 0] |> <| m_cbHandCardAllData := zero_rows |>
      <| m_cbOutCardList := [[]; []; []] |> <| m_cbSurplusCard := [] |>
      <| m_cbRemainTime := 0 |> <| m_MSGID := 0 |> <| m_bhaveCancelTrustee := false |>.

(** [CTableFrameSink::bHaveTheSameCard]: some plain card twice, or three jokers,
    among the cells of the present players. *)
Definition bHaveTheSameCard (t : Table) : bool :=
  let cells := concat (map (λ i, match GetTableUserItem t i with
                                 | Some _ => nonzero (row (m_cbHandCardData t) i) | None => [] end) [0; 1; 2]) in
  let plain := filter (λ c, Z.shiftr (GetCardColor c) 4 < 4) cells in
  let kings := filter (λ c, ¬ Z.shiftr (GetCardColor c) 4 < 4) cells in
  negb (bool_decide (NoDup plain)) || (2 <? length kings)%nat.

Definition IsAndroid (t : Table) (i : Z) : bool :=
  match GetTableUserItem t i with Some u => u_android u | None => false end.

Definition androids (t : Table) : list Z := filter (λ i, IsAndroid t i = true) [0; 1; 2].

(** Seventeen cards to the front of a player's row. *)
Definition deal_to (t : Table) (i : Z) (cards : list Z) : Table :=
  t <| m_cbHandCardCount ::= λ l, setz l i (Z.of_nat NORMAL_COUNT) |>
    <| m_cbHandCardData ::= λ l, <[idx i := overwrite cards (row l i)]> l |>.

Definition slice (l : list Z) (from n : nat) : list Z := take n (drop from l).

(** The favoured deal: [good] for the robot [w], the rest of the pack for the
    others and the bottom. *)
Definition deal_good (t : Table) (w : Z) (good pack : list Z) : Table :=
  let t := deal_to t w good in
  let rest := default pack (RemoveGoodCardData good pack) in
  let '(t, _) := foldl (λ '(t, j) i,
      if i =? w then (t, j) else (deal_to t i (slice rest (j * NORMAL_COUNT) NORMAL_COUNT), S j))
    (t, 0%nat) [0; 1; 2] in
  t <| m_cbBankerCard := SortCardList (slice rest (2 * NORMAL_COUNT) 3) ST_ORDER |>.

(** The plain deal. *)
Definition deal_plain (t : Table) (pack : list Z) : Table :=
  let t := foldl (λ t i, deal_to t i (slice pack (idx i * NORMAL_COUNT) NORMAL_COUNT)) t [0; 1; 2] in
  t <| m_cbBankerCard := SortCardList (slice pack DISPATCH_COUNT 3) ST_ORDER |>.

(** The deal of the test mode: the hands of the card file, the configured one for
    the (last) real player, the next and previous ones for his neighbours. *)
Definition deal_test (t : Table) : Table :=
  let list := if (length (m_listTestCardArray t) =? 0)%nat then testCards cfg else m_listTestCardArray t in
  let given := negb (length list =? 0)%nat in
  let rows := if given then map (λ i, slice list (i * NORMAL_COUNT) NORMAL_COUNT) [0; 1; 2]%nat
              else zero_rows in
  let t := if given then t <| m_cbBankerCard := slice list DISPATCH_COUNT 3 |> <| m_listTestCardArray := [] |> else t in
  let human := foldl (λ h i, if IsAndroid t i then h else i) 0 [0; 1; 2] in
  let k := m_cbTestUser cfg in
  let t := t <| m_cbHandCardCount := [17; 17; 17] |> in
  let put t chair k := t <| m_cbHandCardData ::= λ l, <[idx chair := overwrite (take NORMAL_COUNT (row rows k)) (row l chair)]> l |> in
  let t := put t ((human + 2) mod 3) ((k + 2) mod 3) in
  let t := put t human k in
  let t := put t ((human + 1) mod 3) ((k + 1) mod 3) in
  t <| m_cbBankerCard ::= λ c, SortCardList c ST_ORDER |>.

(** [CTableFrameSink::StoreageControl]: one deal. *)
Definition StoreageControl (t : Table) : Table :=
  let k := draws t in
  let pack := RandCardList (shuf k) in
  let Ratio := rnd k mod 100 in
  let '(stock, low, up) := storage k in
  let WinRatio := if up <=? stock then m_StorageMaxRatio cfg else m_StorageRatio cfg in
  let WinRatio := if stock <=? low then m_StorageMinRatio cfg else WinRatio in
  let ReturnValue := (Ratio <? WinRatio) && (m_bTestGame cfg =? 0) in
  let ReturnValue := ReturnValue || (between k <? systemKillAllRatio cfg) in
  let bots := androids t in
  let good_bot := bots !! (Z.to_nat (rnd (k + 1)%nat) mod length bots)%nat in
  let t := drew t 2 <| m_lStockScore := stock |> <| m_lStorageMin := low |> in
  match (if ReturnValue then good_bot else None) with
  | Some w =>
      let k := draws t in
      let t := drew t 39 in
      deal_good t w (GetGoodCardData (map (λ i, Z.to_nat (rnd (k + i)%nat)) (seq 0 38))) (RandCardList (shuf k))
  | None =>
      if m_bTestGame cfg =? 1 then deal_test t else deal_plain t pack
  end.

(** The [do]-loop of [OnGameStart]: deal again while fewer than two hands are good
    and deals are left; [n] is [testCount] before the deal. *)
Fixpoint deal_loop (fuel : nat) (n : Z) (t : Table) : Table :=
  let t := StoreageControl t in
  let good := length (filter (λ i, m_cbGoodCardValue cfg < get_HandCardValue (hand t i)) [0; 1; 2]) in
  let n := if (m_lStockScore t <=? m_lStorageMin t) && negb (bHaveTheSameCard t)
           then m_cbGoodCardTime cfg else n + 1 in
  if (n <? m_cbGoodCardTime cfg) && (good <? 2)%nat then
    match fuel with O => t | S f => deal_loop f n t end
  else t.

(** The caller of the first bid: the winner of the last game, or drawn with a card. *)
Definition first_caller (t : Table) : Z * Z * Table :=
  if m_wFirstUser t =? INVALID_CHAIR then
    let pack := RandCardList (shuf (draws t)) in
    let i := Z.to_nat (rnd (draws t) mod Z.of_nat DISPATCH_COUNT) in
    let start := GetCardValue pack.[i] mod 3 in
    (start, (start + Z.of_nat (i / NORMAL_COUNT)) mod 3, drew t 1)
  else (m_wFirstUser t, m_wFirstUser t, drew t 1).

(** The loop that deals out: the message with the hand (a robot sees all cards),
    and the user is playing. *)
Definition announce_start (start cur : Z) (t : Table) (i : Z) : Table :=
  match GetTableUserItem t i with
  | None => t
  | Some u =>
      let t := if u_android u
        then emit t (SendTableData i (S_GAME_START_AI start cur (m_cbBankerCard t)
               (concat (map (λ j, take NORMAL_COUNT (row (m_cbHandCardData t) j)) [0; 1; 2]))))
        else emit t (SendTableData i (S_GAME_START start cur (hand t i))) in
      if decide (u_status u = sOffline) then t else set_status t i sPlaying
  end.

Definition sort_hand (t : Table) (i : Z) : Table :=
  let n := Z.to_nat (getz (m_cbHandCardCount t) i) in
  t <| m_cbHandCardData ::= λ l, <[idx i := SortCardList (take n (row l i)) ST_ORDER ++ drop n (row l i)]> l |>.

(** The server stops: every user is cleared from the table. *)
Definition clear_all (t : Table) : Table :=
  foldl (λ t i, match GetTableUserItem t i with Some _ => ClearTableUser t i | None => t end) t [0; 1; 2].

Definition open_game (t : Table) : Table :=
  t <| m_bFisrtCall := true |> <| m_cbNoCallCount ::= λ n, u8 (n + 1) |> <| m_dwStartTime := 1 |>
    <| frameStatus := STATUS_START |> <| m_cbGameStatus := GAME_SCENE_CALL |>
    <| m_cbSurplusCard := [] |>.

(** The deal and the chair that bids first. *)
Definition deal_game (cur : Z) (t : Table) : Z * Table :=
  if m_bTestGame cfg =? 1 then
    (default cur (head (filter (λ i, IsAndroid t i = false) [0; 1; 2])), StoreageControl t)
  else (cur, deal_loop (Z.to_nat (m_cbGoodCardTime cfg)) 0 t).

(** The users are told and the hands sorted. *)
Definition tell_game (start cur : Z) (t : Table) : Table :=
  let t := foldl (announce_start start cur) (t <| m_wFirstUser := cur |> <| m_wCurrentUser := cur |>) [0; 1; 2] in
  let t := foldl sort_hand t [0; 1; 2] in
  t <| m_cbRemainTime := TIME_CALL_BANKER |>.

(** [OnGameStart] up to the call of [AutoWork]; [false]: the server is stopping
    and the table is cleared instead. *)
Definition start_game (t : Table) : Table * bool :=
  let t := RepositionSink t in
  if negb (m_isflag t) then (clear_all t, false)
  else
    let '(start, cur, t) := first_caller (open_game t) in
    let '(cur, t) := deal_game cur t in
    (tell_game start cur t, true).

(** [aw] is [AutoWork]; the knot is tied below. *)
Section Open.
Context (aw : Table → option Table).

(** [CTableFrameSink::OnGameStart]. *)
Definition OnGameStart (t : Table) : option Table :=
  let '(t, ok) := start_game t in if ok then aw t else Some t.

(** *** Bidding *)

(** [CTableFrameSink::isBankerDecided]. *)
Definition isBankerDecided (t : Table) : bool :=
  existsb (λ i, Z.of_nat MAX_COUNT <=? getz (m_cbHandCardCount t) i) [0; 1; 2].

(** The bottom cards for the banker, and the banker to lead. *)
Definition give_bottom (t : Table) : Table :=
  let b := m_wBankerUser t in
  let t := t <| m_cbHandCardCount ::= λ l, setz l b (u8 (getz l b + 3)) |>
             <| m_cbHandCardData ::= λ l, <[idx b := take NORMAL_COUNT (row l b) ++ m_cbBankerCard t
                                                      ++ drop (NORMAL_COUNT + 3) (row l b)]> l |> in
  let t := sort_hand t b in
  t <| m_cbHandCardAllData := m_cbHandCardData t |>
    <| m_wTurnWiner := b |> <| m_wCurrentUser := b |>
    <| m_cbGameStatus := GAME_SCENE_CALLEnd |> <| m_cbRemainTime := 3 |>.

(** The recorded bid: out-of-range bids are a pass, bids that do not raise too. *)
Definition take_bid (t : Table) (wChairID cbCallScore : Z) : Table * Z :=
  let c := if (cbCallScore <? CB_NOT_CALL) || (CB_NO_CALL_BENKER <? cbCallScore)
           then CB_NO_CALL_BENKER else cbCallScore in
  let bid := (CB_CALL_BENKER_1 <=? c) && (c <=? CB_CALL_BENKER_3) in
  let '(t, c) :=
    if bid && (m_cbBankerScore t <? c)
    then (t <| m_cbBankerScore := c |> <| m_wBankerUser := m_wCurrentUser t |>, c)
    else if bid && (c <=? m_cbBankerScore t) then (t, CB_NOT_CALL)
    else if (c <? CB_CALL_BENKER_1) && (CB_CALL_BENKER_3 <? c) then (t, CB_NOT_CALL)
    else (t, c) in
  let t := t <| m_cbScoreInfo ::= λ l, setz l wChairID c |> in
  let t := if m_bFisrtCall t then t <| m_bFisrtCall := false |> <| m_cbFirstCall := u8 wChairID |> else t in
  (t, c).

(** [CTableFrameSink::OnUserCallScore]. *)
Definition OnUserCallScore (t : Table) (wChairID cbCallScore : Z) : option (bool * Table) :=
  if negb (wChairID =? m_wCurrentUser t) then Some (true, t)
  else if isBankerDecided t then Some (true, t)
  else
    let '(t, c) := take_bid t wChairID cbCallScore in
    let next := (wChairID + 1) mod 3 in
    let last := (m_cbBankerScore t =? 3) || (m_wFirstUser t =? next) in
    let t := t <| m_wCurrentUser := if last then INVALID_CHAIR else next |>
               <| m_dwStartTime := m_cbBankerScore t |> in
    if last then
      if (m_wBankerUser t =? INVALID_CHAIR) && (m_cbNoCallCount t <? 3) then
        t ← OnGameStart t; Some (true, t)
      else
        let t := t <| m_cbNoCallCount := 0 |> in
        let t := send_present t (λ _, S_CALL_BANKER wChairID (m_wBankerUser t) (m_wCurrentUser t) c) in
        let t := if m_cbBankerScore t =? 0 then t <| m_cbBankerScore := 1 |> else t in
        let t := if m_wBankerUser t =? INVALID_CHAIR then t <| m_wBankerUser := m_wFirstUser t |> else t in
        t ← aw (give_bottom t); Some (true, t)
    else
      let t := send_present t (λ _, S_CALL_BANKER wChairID INVALID_CHAIR (m_wCurrentUser t) c) in
      t ← aw (t <| m_cbRemainTime := TIME_CALL_BANKERSend |>); Some (true, t).

(** [CTableFrameSink::OnAutoCallScore]. *)
Definition OnAutoCallScore (t : Table) (wChairID : Z) : option (bool * Table) :=
  if bool_decide (m_cbGameStatus t ≠ GAME_SCENE_CALL) || negb (wChairID =? m_wCurrentUser t)
  then Some (false, t) else OnUserCallScore t wChairID 255.

(** *** Doubling *)

(** [usertimes]: the multiplier a chair is shown, bombs apart. *)
Definition user_times (t : Table) (i : Z) : Z :=
  let doubled j := if getz (m_cbStakeInfo t) j =? CB_ADD_DOUBLE then 1 else 0 in
  if i =? m_wBankerUser t
  then 1 + sumZ (map (λ j, if j =? m_wBankerUser t then 1 else doubled j) [0; 1; 2])
  else 1 + doubled i.

(** [CTableFrameSink::OnUserStakeScore]. *)
Definition OnUserStakeScore (t : Table) (wChairID cbStakeScore : Z) : option (bool * Table) :=
  let s := if CB_NOT_ADD_DOUBLE =? cbStakeScore then CB_NO_ADD_DOUBLE else cbStakeScore in
  if negb (getz (m_cbStakeInfo t) wChairID =? 0) || (m_wBankerUser t =? wChairID) then Some (true, t)
  else
    let t := t <| m_cbStakeInfo ::= λ l, setz l wChairID s |> in
    let t := send_present t (λ i, S_ADD_DOUBLE wChairID s (user_times t i)) in
    let nUser := length (filter (λ i, 0 < getz (m_cbStakeInfo t) i) [0; 1; 2]) in
    if (nUser =? 2)%nat then
      t ← aw (t <| m_cbGameStatus := GAME_SCENE_STAKEEnd |> <| m_cbRemainTime := 3 |>); Some (true, t)
    else Some (true, t).

(** [CTableFrameSink::OnAutoStakeScore]. *)
Definition OnAutoStakeScore (t : Table) (wChairID : Z) : option (bool * Table) :=
  if bool_decide (m_cbGameStatus t ≠ GAME_SCENE_STAKE) then Some (false, t)
  else if (getz (m_cbStakeInfo t) wChairID <=? 0) && negb (m_wBankerUser t =? wChairID) then
    '(_, t) ← OnUserStakeScore t wChairID CB_NO_ADD_DOUBLE; Some (true, t)
  else Some (true, t).

(** *** Playing *)

(** [CTableFrameSink::OnUserTrust]; without a user nothing happens. *)
Definition OnUserTrust (t : Table) (wChairID : Z) (bTrust : bool) : Table :=
  match GetTableUserItem t wChairID with
  | None => t
  | Some _ =>
      let t := t <| m_bTrustee ::= λ l, <[idx wChairID := bTrust]> l |> in
      send_all t (λ _, S_TRUSTEE (m_bTrustee t))
  end.

Definition out_time (t : Table) : Z :=
  if trusted t (m_wCurrentUser t) then TIME_OUT_CARDTrust else TIME_OUT_CARD.

(** [CTableFrameSink::OnUserPassCard]. *)
Definition pass_card (t : Table) (wChairID : Z) : Table :=
  let t := t <| m_wCurrentUser ::= λ c, (c + 1) mod 3 |> in
  let t := if m_wCurrentUser t =? m_wTurnWiner t
           then t <| m_cbTurnCardCount := 0 |> <| m_cbTurnCardData := replicate MAX_COUNT 0 |> else t in
  let t := t <| m_MSGID ::= λ n, n + 1 |> in
  let t := send_all t (λ _, S_PASS_CARD (m_MSGID t) wChairID (m_wCurrentUser t)
                             (if m_cbTurnCardCount t =? 0 then 1 else 0)) in
  t <| m_cbRemainTime := out_time t |>.

Definition OnUserPassCard (t : Table) (wChairID : Z) : option (bool * Table) :=
  if negb (wChairID =? m_wCurrentUser t) || (m_cbTurnCardCount t =? 0) then Some (true, t)
  else t ← aw (pass_card t wChairID); Some (true, t).

(** *** The end of a game *)

Definition score_of (t : Table) (i : Z) : Z :=
  match GetTableUserItem t i with Some u => u_score u | None => 0 end.

(** What [OnNormalGameConclude] reads, for the player [wChairID] who went out. *)
Definition game_of (t : Table) (wChairID : Z) : Game :=
  MkGame (idx (m_wBankerUser t)) (idx wChairID) (m_cbBankerScore t) (Z.to_nat (m_cbBombCount t))
         (m_cbOutCardCount t) (getz (m_cbHandCardCount t) (m_wBankerUser t) =? 0)
         (m_cbStakeInfo t) (floorScore cfg) (map (score_of t) [0; 1; 2]).

Definition add_user_score (t : Table) (i add : Z) : Table :=
  match GetTableUserItem t i with
  | Some u => set_user t i (Some (u <| u_score ::= λ s, s + add |>))
  | None => t
  end.

(** [CTableFrameSink::OnNormalGameConclude]: stock, scores, message, and the
    winner bids first in the next game. *)
Definition OnNormalGameConclude (t : Table) (wChairID : Z) : Table :=
  let g := game_of t wChairID in
  let adds := map (λ i, add_score (revenueRatio cfg) g i) (seq 0 3) in
  let revs := map (λ i, revenue (revenueRatio cfg) g i) (seq 0 3) in
  let t := t <| m_iUserWinScore := adds |> in
  let t := emit t (UpdateStorageScore (storage_score (systemReduceRatio cfg) g (λ i, IsAndroid t (Z.of_nat i)))) in
  let t := emit t (WriteUserScore adds revs) in
  let t := foldl (λ t i, add_user_score t i (getz adds i)) t [0; 1; 2] in
  let t := send_present t (λ _, S_GAME_CONCLUDE adds) in
  t <| m_wFirstUser := wChairID |>.

(** [CTableFrameSink::OnEventGameConclude] with [GER_NORMAL], up to [AutoWork]:
    [ConcludeGame] resets the table with the old [m_isflag] and reports whether
    the server goes on. *)
Definition conclude (t : Table) (wChairID : Z) : Table :=
  let t := OnNormalGameConclude t wChairID in
  let t := t <| totalMatchSeconds_ := 0 |> <| frameStatus := STATUS_END |> in
  let t := RepositionSink t in
  t <| m_isflag := running (draws t) |> <| frameStatus := STATUS_END |>
    <| m_cbGameStatus := GAME_SCENE_FREE |> <| m_cbRemainTime := TIME_TICK_USER |>.

Definition OnEventGameConclude (t : Table) (wChairID : Z) : option (bool * Table) :=
  match GetTableUserItem t wChairID with
  | None => Some (false, t)
  | Some _ => t ← aw (conclude t wChairID); Some (true, t)
  end.

(** *** Playing cards *)

(** The state after the cards [cards] of the current player are accepted; [rest]
    are the cells of his hand after [RemoveCardList]. *)
Definition play_cards (t : Table) (wChairID : Z) (cards rest : list Z) : Table :=
  let n := Z.of_nat (length cards) in
  let cbCardType := GetCardType cards in
  let held := Z.to_nat (getz (m_cbHandCardCount t) wChairID) in
  let t := t <| m_cbHandCardData ::= λ l, <[idx wChairID := rest ++ drop held (row l wChairID)]> l |>
             <| m_cbSurplusCard ::= λ l, l ++ cards |>
             <| m_cbOutCardCount ::= λ l, setz l wChairID (u8 (getz l wChairID + 1)) |>
             <| m_cbOutCardList ::= λ l, alter (λ p, p ++ [cards]) (idx wChairID) l |>
             <| m_cbTurnCardCount := n |>
             <| m_cbHandCardCount ::= λ l, setz l wChairID (u8 (getz l wChairID - n)) |>
             <| m_cbTurnCardData := overwrite cards (replicate MAX_COUNT 0) |> in
  let t := if bool_decide (cbCardType = CT_BOMB_CARD) || bool_decide (cbCardType = CT_MISSILE_CARD)
           then t <| m_cbBombCount ::= λ b, u8 (b + 1) |>
                  <| m_cbEachBombCount ::= λ l, setz l wChairID (u8 (getz l wChairID + 1)) |>
           else t in
  let t := t <| m_wTurnWiner := wChairID |>
             <| m_wCurrentUser ::= λ c, if getz (m_cbHandCardCount t) wChairID =? 0
                                        then INVALID_CHAIR else (c + 1) mod 3 |>
             <| m_MSGID ::= λ k, k + 1 |> in
  send_all t (λ i, S_OUT_CARD (m_MSGID t) (m_wCurrentUser t) wChairID cards
                     (u32 (user_times t i * 2 ^ m_cbBombCount t))).

(** [CTableFrameSink::OnUserOutCard]; [cards] are the first [cbCardCount] cells of
    the caller's buffer. *)
Definition OnUserOutCard (t : Table) (wChairID : Z) (cards : list Z) : option (bool * Table) :=
  if negb (wChairID =? m_wCurrentUser t) then Some (true, t)
  else if decide (GetCardType cards = CT_ERROR) then Some (false, t)
  else if negb (m_cbTurnCardCount t =? 0) && negb (CompareCard (turn t) cards) then Some (false, t)
  else match RemoveCardList cards (hand t wChairID) with
  | None => Some (false, t)
  | Some rest =>
      let t := play_cards t wChairID cards rest in
      if m_wCurrentUser t =? INVALID_CHAIR then
        '(_, t) ← OnEventGameConclude t wChairID; Some (true, t)
      else
        t ← aw (t <| m_cbRemainTime := out_time t |>); Some (true, t)
  end.

(** *** The automatic player *)

(** The loops over the search results: the play that empties the hand, and
    whether it is four-with-wings (only looked at when the player leads). *)
Fixpoint out_all (lead : bool) (results : list (list Z)) (n : nat) (found : option (list Z))
  : option (list Z) * bool :=
  match results with
  | [] => (found, false)
  | r :: rs =>
      if (length r =? n)%nat then
        if negb lead then (Some r, false)
        else if bool_decide (GetCardType r = CT_FOUR_TAKE_ONE) || bool_decide (GetCardType r = CT_FOUR_TAKE_TWO)
        then (Some r, true)
        else out_all lead rs n (Some r)
      else out_all lead rs n found
  end.

Definition leads (t : Table) : bool := bool_decide (GetCardType (turn t) = CT_ERROR).

(** [CTableFrameSink::IsCanOutAllCard]. *)
Definition IsCanOutAllCard (t : Table) (wChairID : Z) : bool :=
  if bool_decide (m_cbGameStatus t ≠ GAME_SCENE_PLAY) || negb (wChairID =? m_wCurrentUser t) then false
  else
    let results := SearchOutCard (hand t wChairID) (turn t) in
    if (0 <? getz (m_cbHandCardCount t) wChairID) && negb (length results =? 0)%nat then
      let '(found, four) := out_all (leads t) results (length (hand t wChairID)) None in
      match found with Some _ => negb four | None => false end
    else false.

Definition last_card (t : Table) (wChairID : Z) : Z :=
  (row (m_cbHandCardData t) wChairID).[Z.to_nat (getz (m_cbHandCardCount t) wChairID) - 1].

(** The lead: the first proposal, or else the last card. *)
Definition auto_lead (t : Table) (wChairID : Z) : option (bool * Table) :=
  match SearchOutCard (hand t wChairID) [] with
  | r :: _ =>
      '(done, t) ← OnUserOutCard t wChairID r;
      if (done : bool) then Some (true, t) else OnUserOutCard t wChairID [last_card t wChairID]
  | [] => OnUserOutCard t wChairID [last_card t wChairID]
  end.

(** [CTableFrameSink::OnAutoOutCard]. *)
Definition OnAutoOutCard (t : Table) (wChairID : Z) : option (bool * Table) :=
  if bool_decide (m_cbGameStatus t ≠ GAME_SCENE_PLAY) || negb (wChairID =? m_wCurrentUser t) then Some (false, t)
  else
    match SearchOutCard (hand t wChairID) (turn t) with
    | first :: more =>
        if 0 <? getz (m_cbHandCardCount t) wChairID then
          let '(found, four) := out_all (leads t) (first :: more) (length (hand t wChairID)) None in
          match (if (four : bool) then None else found) with
          | Some r => OnUserOutCard t wChairID (SortCardList r ST_ORDER)
          | None =>
              if m_cbTurnCardCount t =? 0 then auto_lead t wChairID
              else
                '(done, t) ← OnUserOutCard t wChairID (SortCardList first ST_ORDER);
                if (done : bool) then Some (true, t) else OnUserPassCard t wChairID
          end
        else OnUserPassCard t wChairID
    | [] => OnUserPassCard t wChairID
    end.

(** [CTableFrameSink::IsOfflineTrustee]. *)
Definition IsOfflineTrustee (t : Table) (wChairID : Z) : bool :=
  if wChairID =? INVALID_CHAIR then false
  else if m_bOffLineTrustee t then
    match GetTableUserItem t wChairID with Some _ => trusted t wChairID | None => false end
  else false.

(** The body of [CTableFrameSink::AutoWork]. *)
Definition AutoWork_body (t : Table) : option Table :=
  match m_cbGameStatus t with
  | GAME_SCENE_CALL =>
      if IsOfflineTrustee t (m_wCurrentUser t) then snd <$> OnAutoCallScore t (m_wCurrentUser t) else Some t
  | GAME_SCENE_STAKE =>
      for_chairs (λ i t, if IsOfflineTrustee t i && (getz (m_cbStakeInfo t) i <=? 0) && negb (m_wBankerUser t =? i)
                         then snd <$> OnAutoStakeScore t i else Some t) t
  | GAME_SCENE_PLAY =>
      let c := m_wCurrentUser t in
      match GetTableUserItem t c with
      | None => Some t
      | Some u =>
          if decide (u_status u = sOffline) then snd <$> OnAutoOutCard (OnUserTrust t c true) c
          else if IsCanOutAllCard t c then
            let t := if u_android u && trusted t c
                     then let coin := rnd (draws t) mod 100 in
                          let t := drew t 1 in
                          if coin <? 20 then OnUserTrust t c false else t
                     else t in
            snd <$> OnAutoOutCard t c
          else Some t
      end
  | _ => Some t
  end.
End Open.

(** The knot: [AutoWork] calls the handlers, which call [AutoWork]. *)
Fixpoint AutoWork (fuel : nat) (t : Table) : option Table :=
  match fuel with
  | O => None
  | S f => AutoWork_body (AutoWork f) t
  end.

(** *** Timers *)
Section Handlers.
Context (fuel : nat).
Let aw := AutoWork fuel.

(** [CTableFrameSink::CleanUser]: the robots leave when the first user found is
    one. *)
Definition CleanUser (t : Table) : Table :=
  let real := match filter (λ i, is_Some (GetTableUserItem t i)) [0; 1; 2] with
              | i :: _ => negb (IsAndroid t i) | [] => false end in
  if real then t
  else foldl (λ t i, if IsAndroid t i then ClearTableUser t i else t) t [0; 1; 2].

(** The scene [GAME_SCENE_FREE] of [OnTimer]: everybody leaves ([IsExistUser] asks
    for a positive user id). *)
Definition timer_free (t : Table) : Table :=
  let t := t <| frameStatus := STATUS_FREE |> in
  if negb (m_isflag t) then
    foldl (λ t i, match GetTableUserItem t i with
                  | Some _ => ClearTableUser (set_status t i sOffline) i | None => t end) t [0; 1; 2]
  else
    foldl (λ t i, match GetTableUserItem t i with
                  | None => t
                  | Some u =>
                      if u_id u <=? 0 then t
                      else if decide (u_status u = sOffline) then ClearTableUser t i
                      else let t := ClearTableUser (set_status t i sGetout) i in
                           if u_android u then t else CleanUser t
                  end) t [0; 1; 2].

(** [CTableFrameSink::OnTimer]. *)
Definition OnTimer (t : Table) : option Table :=
  match m_cbGameStatus t with
  | GAME_SCENE_FREE => Some (timer_free t)
  | GAME_SCENE_CALLEnd =>
      let t := t <| m_cbGameStatus := GAME_SCENE_STAKE |> in
      let t := emit t (SendTableData INVALID_CHAIR
        (S_BANKER_INFO (m_wBankerUser t) (m_wCurrentUser t) (m_cbBankerCard t) (m_cbBankerScore t))) in
      aw (t <| m_cbRemainTime := TIME_ADD_DOUBLE |>)
  | GAME_SCENE_STAKEEnd =>
      let t := t <| m_cbGameStatus := GAME_SCENE_PLAY |> in
      let t := emit t (SendTableData INVALID_CHAIR (S_OUT_CARD_START (m_wBankerUser t) (m_wCurrentUser t))) in
      aw (t <| m_cbRemainTime := if trusted t (m_wCurrentUser t) then TIME_OUT_CARDTrust
                                 else TIME_FIRST_OUT_CARD |>)
  | _ => Some t
  end.

(** [CTableFrameSink::OnCallBankerTimer]. *)
Definition OnCallBankerTimer (t : Table) : option Table :=
  match m_cbGameStatus t with
  | GAME_SCENE_CALL => snd <$> OnAutoCallScore aw t (m_wCurrentUser t)
  | _ => Some t
  end.

(** [CTableFrameSink::OnCallStakeTimer]. *)
Definition OnCallStakeTimer (t : Table) : option Table :=
  match m_cbGameStatus t with
  | GAME_SCENE_STAKE =>
      for_chairs (λ i t, if negb (m_wBankerUser t =? i) && (getz (m_cbStakeInfo t) i <=? 0)
                         then snd <$> OnAutoStakeScore aw t i else Some t) t
  | _ => Some t
  end.

(** [CTableFrameSink::OnUserTrustTimer]. *)
Definition OnUserTrustTimer (t : Table) : option Table :=
  match m_cbGameStatus t with
  | GAME_SCENE_PLAY =>
      let c := m_wCurrentUser t in
      snd <$> OnAutoOutCard aw (OnUserTrust t c true) (m_wCurrentUser t)
  | _ => Some t
  end.

(** *** Client messages *)

Inductive Cmd :=
  | C_CALL_BANKER (cbcallinfo : Z)
  | C_ADD_DOUBLE (cbdoubleinfo : Z)
  | C_OUT_CARD (cbcarddata : list Z) (cbcardcount : Z)
  | C_PASS_CARD
  | C_TRUSTEE
  | C_CANCEL_TRUSTEE (wchairid : Z)
  | C_CHEAT_LOOK_CARD (wbecheatchairid : Z)
  | C_GAMESCENE.

(** The status check of the message handlers: [None] ends the handler. *)
Definition check_playing (t : Table) (chair : Z) (u : User) : option Table :=
  if decide (u_status u = sPlaying) then Some t
  else if negb (u_android u) && bool_decide (u_status u ≠ sOffline) then None
  else if u_android u && bool_decide (u_status u = sOffline) then Some (set_status t chair sPlaying)
  else Some t.

Definition untrust (t : Table) (chair : Z) : Table :=
  t <| m_bTrustee ::= λ l, <[idx chair := false]> l |>.

(** The first [cbcardcount] cells of the 20-cell buffer the cards are copied to. *)
Definition wire_cards (cbcarddata : list Z) (cbcardcount : Z) : list Z :=
  take (Z.to_nat (u8 cbcardcount)) (overwrite (map u8 cbcarddata) (replicate MAX_COUNT 0)).

(** More cards than the buffer has cells are written past its end; a greater count is read
    past it by the player whose turn it is. *)
Definition wire_overrun (t : Table) (chair : Z) (cbcarddata : list Z) (cbcardcount : Z) : bool :=
  (MAX_COUNT <? length cbcarddata)%nat || ((chair =? m_wCurrentUser t) && (Z.of_nat MAX_COUNT <? u8 cbcardcount)).

(** [SUB_C_CANCEL_TRUSTEE]: the chair is the one in the message, not the sender's; from 3
    on it is an index past [m_bTrustee]. *)
Definition cancel_trustee (t : Table) (wchairid : Z) : option (bool * Table) :=
  let w := u16 wchairid in
  if w =? INVALID_CHAIR then Some (true, t)
  else if 3 <=? w then None
  else if negb (trusted t w) || m_bhaveCancelTrustee t then Some (true, t)
  else
    let t := OnUserTrust t w false in
    if (w =? m_wCurrentUser t) && bool_decide (m_cbGameStatus t = GAME_SCENE_PLAY) then
      t ← aw (t <| m_bhaveCancelTrustee := true |>
                <| m_cbRemainTime := TIME_OUT_CARD - TIME_OUT_CARDTrust |>);
      Some (true, t)
    else Some (true, t).

(** [SUB_C_TRUSTEE]. *)
Definition trustee_cmd (t : Table) (chair : Z) (u : User) : option (bool * Table) :=
  let st := if decide (m_cbGameStatus t = GAME_SCENE_FREE) then
              if negb (u_android u) && bool_decide (u_status u ≠ sOffline) then None
              else if u_android u && bool_decide (u_status u = sOffline)
              then Some (set_status t chair sPlaying) else Some t
            else Some t in
  match st with
  | None => Some (true, t)
  | Some t =>
      let t := OnUserTrust t chair true in
      if (chair =? m_wCurrentUser t) && bool_decide (m_cbGameStatus t = GAME_SCENE_PLAY) then
        '(_, t) ← OnAutoOutCard aw (t <| m_bhaveCancelTrustee := false |>) (m_wCurrentUser t); Some (true, t)
      else Some (true, t)
  end.

(** [CTableFrameSink::OnEventGameScene]: what is sent of the table apart, one member is
    reset. *)
Definition OnEventGameScene (t : Table) : Table := t <| m_bhaveCancelTrustee := false |>.

(** [CTableFrameSink::OnGameMessage]; [None]: a handler runs out of fuel, or an index of the
    message is past an array. *)
Definition OnGameMessage (t : Table) (chair : Z) (cmd : Cmd) : option (bool * Table) :=
  match GetTableUserItem t chair with
  | None => Some (true, t)
  | Some u =>
      match cmd with
      | C_CALL_BANKER info =>
          match check_playing t chair u with
          | None => Some (true, t)
          | Some t =>
              if decide (m_cbGameStatus t = GAME_SCENE_CALL)
              then OnUserCallScore aw (untrust t chair) chair (u8 info) else Some (true, t)
          end
      | C_ADD_DOUBLE info =>
          match check_playing t chair u with
          | None => Some (true, t)
          | Some t =>
              if chair =? m_wBankerUser t then Some (true, t)
              else if decide (m_cbGameStatus t = GAME_SCENE_STAKE)
              then OnUserStakeScore aw (untrust t chair) chair (u8 info) else Some (true, t)
          end
      | C_OUT_CARD data count =>
          match check_playing t chair u with
          | None => Some (true, t)
          | Some t =>
              if decide (m_cbGameStatus t = GAME_SCENE_PLAY) then
                if wire_overrun t chair data count then None
                else OnUserOutCard aw (untrust t chair) chair (wire_cards data count)
              else Some (true, t)
          end
      | C_PASS_CARD =>
          if decide (m_cbGameStatus t = GAME_SCENE_PLAY) then
            match check_playing t chair u with
            | None => Some (true, t)
            | Some t => OnUserPassCard aw (untrust t chair) chair
            end
          else Some (true, t)
      | C_TRUSTEE => trustee_cmd t chair u
      | C_CANCEL_TRUSTEE w => cancel_trustee t w
      | C_CHEAT_LOOK_CARD w =>
          if negb (u_android u) then Some (false, t)
          else if 3 <=? w then Some (true, t)
          else if w <? 0 then None
          else Some (true, emit t (SendTableData chair (S_CHEAT_LOOK_CARD w (hand t w))))
      | C_GAMESCENE => Some (false, OnEventGameScene t)
      end
  end.

(** *** Entering, leaving and matching *)

(** [sliceMatchSeconds_] (0.2f), [timeoutMatchSeconds_] (3.6f) and
    [timeoutAddAndroidSeconds_] (1.4f): the binary fractions the [float] literals
    are, in units of 2^-26 seconds; sums of them are exact in [double]. *)
Definition slice_time : Z := 13421773.
Definition timeout_time : Z := 15099494 * 16.
Definition android_time : Z := 11744051 * 8.

Definition find_user (t : Table) (userid : Z) : option (Z * User) :=
  head (omap (λ i, match GetTableUserItem t i with
                   | Some u => if u_id u =? userid then Some (i, u) else None | None => None end) [0; 1; 2]).

(** [GetPlayerCount(true)]. *)
Definition player_count (t : Table) : nat := length (filter (λ i, is_Some (GetTableUserItem t i)) [0; 1; 2]).

(** [GetPlayerCount(false)]. *)
Definition real_count (t : Table) : nat :=
  length (filter (λ i, match GetTableUserItem t i with Some u => negb (u_android u) | None => false end = true) [0; 1; 2]).

(** [CTableFrameSink::OnUserEnter], broadcasts apart; the user has his seat.  The assertions
    ask that the first user at the table is no robot. *)
Definition OnUserEnter (t : Table) (userid : Z) : option (bool * Table) :=
  match find_user t userid with
  | None => Some (false, t)
  | Some (chair, _) =>
      if (player_count t =? 1)%nat && negb (real_count t =? 1)%nat then None
      else
      let t := if (player_count t =? 1)%nat then t <| totalMatchSeconds_ := 0 |> else t in
      let t := set_status t chair (if before_start (frameStatus t) then sReady else sPlaying) in
      let t := OnEventGameScene t in
      if before_start (frameStatus t) && (player_count t =? 3)%nat then
        t ← OnGameStart aw t; Some (true, t)
      else Some (true, t)
  end.

(** [CTableFrameSink::CanLeftTable]. *)
Definition CanLeftTable (t : Table) (userid : Z) : bool :=
  match find_user t userid with
  | None => true
  | Some _ => before_start (frameStatus t) || bool_decide (frameStatus t = STATUS_END)
  end.

(** [CTableFrameSink::OnUserLeft]. *)
Definition OnUserLeft (t : Table) (userid : Z) : bool * Table :=
  if negb (CanLeftTable t userid) then (false, t)
  else match find_user t userid with
  | None => (false, t)
  | Some (chair, _) =>
      (true, if bool_decide (frameStatus t ≠ STATUS_START)
             then ClearTableUser (set_status t chair sGetout) chair else t)
  end.

(** [CTableFrameSink::OnTimerGameReadyOver]: the waiting time grows by a slice. *)
Definition OnTimerGameReadyOver (t : Table) : option Table :=
  if negb (before_start (frameStatus t)) then Some t
  else
    let t := t <| totalMatchSeconds_ ::= λ s, s + slice_time |> in
    if (3 <=? player_count t)%nat then Some t
    else if totalMatchSeconds_ t <? timeout_time then Some t
    else if timeout_time + android_time <=? totalMatchSeconds_ t then
      if (3 <=? player_count t)%nat then OnGameStart aw t else Some t
    else Some t.

Definition waiting (s : Scene) : bool := match s with GAME_SCENE_FREE => true | _ => false end.

(** [CTableFrameSink::CanJoinTable]; [pUser] is [None] for a robot looking for a
    seat ([userId = -1]), otherwise a user id. *)
Definition CanJoinTable (t : Table) (pUser : option Z) : bool :=
  if decide (frameStatus t = STATUS_END) then false
  else if waiting (m_cbGameStatus t) then
    if (3 <=? player_count t)%nat then false
    else match pUser with
    | None => negb (totalMatchSeconds_ t <? timeout_time)
    | Some id =>
        if id =? -1 then negb (totalMatchSeconds_ t <? timeout_time)
        else match find_user t id with
        | Some (_, u) => negb (u_android u && (totalMatchSeconds_ t <? timeout_time))
        | None => true
        end
    end
  else match pUser with
  | Some id => match find_user t id with Some _ => true | None => false end
  | None => false
  end.
End Handlers.
End Table.
