(* ===== verification/DdzInv.v ===== *)
(** Dou Dizhu, the invariant of the table: through dealing, bidding, doubling and
    playing, the three hands, the bottom and the cards played are the pack, and
    the chairs named by the state exist.  [reachable_cards] shows it for every
    state the handlers of [DdzTable] reach. *)
From stdpp Require Import base list numbers option relations.
From Stdlib Require Import ZArith Lia.
From S2P Require Import Prelude GameDefine Cards DdzLogic DdzRules DdzSearch DdzSearchFacts DdzSettle DdzTable.

#[local] Open Scope Z_scope.

(** ** The part of the state the invariant speaks of *)
Record Core := MkCore {
  c_scene : Scene;
  c_frame : FrameStatus;
  c_seats : list bool;
  c_isflag : bool;
  c_current : Z;
  c_banker : Z;
  c_first : Z;
  c_winner : Z;
  c_calls : Z;
  c_turn : Z;
  c_counts : list Z;
  c_rows : list (list Z);
  c_bottom : list Z;
  c_played : list Z
}.

Definition core (t : Table) : Core :=
  MkCore (m_cbGameStatus t) (frameStatus t) (map (λ o, bool_decide (is_Some o)) (seats t)) (m_isflag t)
         (m_wCurrentUser t) (m_wBankerUser t) (m_wFirstUser t) (m_wTurnWiner t)
         (m_cbNoCallCount t) (m_cbTurnCardCount t) (m_cbHandCardCount t) (m_cbHandCardData t) (m_cbBankerCard t) (m_cbSurplusCard t).

#[global] Instance eta_Core : Settable Core := λ k, MkCore (c_scene k) (c_frame k) (c_seats k) (c_isflag k)
  (c_current k) (c_banker k) (c_first k) (c_winner k) (c_calls k) (c_turn k) (c_counts k) (c_rows k)
  (c_bottom k) (c_played k).

Definition chair (c : Z) : Prop := 0 <= c < 3.

(** The cards in chair [c]'s hand. *)
Definition held (k : Core) (c : Z) : list Z :=
  take (Z.to_nat (getz (c_counts k) c)) (row (c_rows k) c).
Definition all_hands (k : Core) : list Z := held k 0 ++ held k 1 ++ held k 2.

(** Three rows of 20 cells, no count beyond the row. *)
Definition rows_ok (k : Core) : Prop :=
  length (c_counts k) = 3%nat ∧ length (c_rows k) = 3%nat ∧
  ∀ c, chair c → length (row (c_rows k) c) = MAX_COUNT ∧ 0 <= getz (c_counts k) c <= 20.

Definition dealt (k : Core) : Prop :=
  rows_ok k ∧ c_counts k = [17; 17; 17] ∧ length (c_bottom k) = 3%nat ∧
  all_hands k ++ c_bottom k ≡ₚ m_cbCardData.

(** The invariant, scene by scene.  While cards are played it is lost once a card
    byte 0 is accepted ([zero_cards_play_as_bomb]). *)
Definition CoreInv (k : Core) : Prop :=
  match c_scene k with
  | GAME_SCENE_FREE => True
  | GAME_SCENE_CALL =>
      c_isflag k = true ∧ dealt k ∧ c_played k = [] ∧
      (c_banker k = INVALID_CHAIR ∨ chair (c_banker k)) ∧ chair (c_first k) ∧
      chair (c_current k)
  | GAME_SCENE_CALLEnd | GAME_SCENE_STAKE | GAME_SCENE_STAKEEnd =>
      c_isflag k = true ∧ rows_ok k ∧ c_played k = [] ∧ chair (c_banker k) ∧
      c_current k = c_banker k ∧ chair (c_winner k) ∧ getz (c_counts k) (c_banker k) = 20 ∧
      all_hands k ≡ₚ m_cbCardData
  | GAME_SCENE_PLAY =>
      c_isflag k = true ∧ chair (c_banker k) ∧ chair (c_current k) ∧ chair (c_winner k) ∧
      (0 ∈ c_played k ∨ rows_ok k ∧ all_hands k ++ c_played k ≡ₚ m_cbCardData)
  end.

(** [m_cbNoCallCount]: during the bidding the number of this deal, one to three; zero
    when no bidding is open. *)
Definition calls_ok (k : Core) : Prop :=
  if decide (c_scene k = GAME_SCENE_CALL) then 1 <= c_calls k <= 3 else c_calls k = 0.

Lemma calls_ok_call k : c_scene k = GAME_SCENE_CALL → calls_ok k ↔ 1 <= c_calls k <= 3.
Proof. intros E. unfold calls_ok. by rewrite decide_True. Qed.

Lemma calls_ok_other k : c_scene k ≠ GAME_SCENE_CALL → calls_ok k ↔ c_calls k = 0.
Proof. intros E. unfold calls_ok. by rewrite decide_False. Qed.

(** The first caller is not drawn yet or a chair, in every scene. *)
Definition first_ok (k : Core) : Prop := (c_first k = INVALID_CHAIR ∨ chair (c_first k)) ∧ calls_ok k.

Lemma first_ok_scene k s : first_ok k → c_scene k ≠ GAME_SCENE_CALL → s ≠ GAME_SCENE_CALL → first_ok (k <| c_scene := s |>).
Proof. intros [H1 H2] Hk Hs. split; [exact H1|]. apply calls_ok_other in H2; [|done]. by apply calls_ok_other. Qed.

(** A game runs on a full table. *)
Definition seated (k : Core) : Prop := take 3 (c_seats k) = [true; true; true].
Definition running_ok (k : Core) : Prop :=
  c_scene k ≠ GAME_SCENE_FREE → c_frame k = STATUS_START ∧ seated k ∧ 0 <= c_calls k.

Definition KInv (k : Core) : Prop := first_ok k ∧ running_ok k ∧ CoreInv k.
Definition Inv (t : Table) : Prop := KInv (core t).

Lemma Inv_core t t' : core t' = core t → Inv t → Inv t'.
Proof. unfold Inv. by intros ->. Qed.

(** ** Steps that leave the core alone *)

Lemma core_emit t e : core (emit t e) = core t.
Proof. done. Qed.
Lemma core_send_all t m : core (send_all t m) = core t.
Proof. done. Qed.
Lemma core_send_present t m : core (send_present t m) = core t.
Proof.
  unfold send_present. simpl. by repeat case_match.
Qed.
(** A user replaced by a user. *)
Lemma core_set_user t c u u' : GetTableUserItem t c = Some u → core (set_user t c (Some u')) = core t.
Proof.
  unfold GetTableUserItem. destruct (_ && _); [|done]. intros H.
  destruct (seats t !! idx c) as [o|] eqn:E; simpl in H; [subst o|done].
  unfold core, set_user. simpl. f_equal. rewrite list_fmap_insert.
  apply list_insert_id. by rewrite list_lookup_fmap, E.
Qed.
Lemma core_set_status t c s : core (set_status t c s) = core t.
Proof. unfold set_status. case_match eqn:E; [|done]. by eapply core_set_user. Qed.
Lemma core_add_score t c s : core (add_user_score t c s) = core t.
Proof. unfold add_user_score. case_match eqn:E; [|done]. by eapply core_set_user. Qed.
Lemma core_trust t c b : core (OnUserTrust t c b) = core t.
Proof. unfold OnUserTrust. by case_match. Qed.
Lemma core_untrust t c : core (untrust t c) = core t.
Proof. done. Qed.
Lemma core_drew t n : core (drew t n) = core t.
Proof. done. Qed.

Lemma core_remain t v : core (t <| m_cbRemainTime := v |>) = core t.
Proof. done. Qed.

(** A fold of steps that leave the core alone. *)
Lemma core_foldl {A} (f : Table → A → Table) l t :
  (∀ t a, core (f t a) = core t) → core (foldl f t l) = core t.
Proof. intros H. revert t. induction l as [|a l IH]; intros t; simpl; [done|]. by rewrite IH. Qed.

Create Rewrite HintDb core_rw.
#[export] Hint Rewrite core_emit core_send_all core_send_present core_set_status core_add_score
  core_trust core_untrust core_drew core_remain : core_rw.

Lemma take_overwrite (l r : list Z) : take (length l) (overwrite l r) = l.
Proof. unfold overwrite. by rewrite take_app_length. Qed.

Lemma overwrite_length l r : (length l <= length r)%nat → length (overwrite l r) = length r.
Proof. intros H. unfold overwrite. rewrite length_app, length_drop. lia. Qed.

(** ** The deals *)

(** Three hands of 17 cards at the front of the rows. *)
Lemma dealt_intro k h0 h1 h2 r0 r1 r2 :
  c_counts k = [17; 17; 17] → c_rows k = [h0 ++ r0; h1 ++ r1; h2 ++ r2] →
  length h0 = 17%nat → length h1 = 17%nat → length h2 = 17%nat →
  length r0 = 3%nat → length r1 = 3%nat → length r2 = 3%nat →
  length (c_bottom k) = 3%nat → h0 ++ h1 ++ h2 ++ c_bottom k ≡ₚ m_cbCardData → dealt k.
Proof.
  intros Hc Hr H0 H1 H2 L0 L1 L2 Hb Hp.
  assert (all_hands k = h0 ++ h1 ++ h2) as Ha.
  { unfold all_hands, held. rewrite Hc, Hr. unfold row, rget, getz, aget, idx. simpl.
    change (Pos.to_nat 17) with 17%nat.
    rewrite !take_app_le, !take_ge by lia. done. }
  split_and!; [|done|done|by rewrite Ha, <-!app_assoc].
  split_and!; [by rewrite Hc|by rewrite Hr|]. intros c Hcc. unfold chair in Hcc.
  assert (c = 0 ∨ c = 1 ∨ c = 2) as [-> | [-> | ->]] by lia;
    rewrite Hc, Hr; unfold row, rget, getz, aget, idx, MAX_COUNT; simpl; rewrite length_app; lia.
Qed.

(** The rows the deal writes to. *)
Definition three_rows (t : Table) : Prop :=
  length (m_cbHandCardCount t) = 3%nat ∧
  ∃ r0 r1 r2, m_cbHandCardData t = [r0; r1; r2] ∧
    length r0 = 20%nat ∧ length r1 = 20%nat ∧ length r2 = 20%nat.

Lemma slice_length l a n : (a + n <= length l)%nat → length (slice l a n) = n.
Proof. intros H. unfold slice. rewrite length_take, length_drop. lia. Qed.

Lemma overwrite_17 h r : length h = 17%nat → length r = 20%nat →
  ∃ z, overwrite h r = h ++ z ∧ length z = 3%nat.
Proof. intros Hh Hr. eexists. split; [done|]. rewrite length_drop. lia. Qed.

Lemma slice_app l a n m : slice l a n ++ slice l (a + n) m = slice l a (n + m).
Proof.
  unfold slice. replace (drop (a + n) l) with (drop n (drop a l)) by (rewrite drop_drop; f_equal; lia).
  apply take_take_drop.
Qed.

Lemma slice_all l n : length l = n → slice l 0 n = l.
Proof. intros H. unfold slice. rewrite drop_0, take_ge by lia. done. Qed.

(** After three hands of 17 cards are put on the rows, in whatever order. *)
Lemma dealt_rows k r0 r1 r2 h0 h1 h2 :
  length r0 = 20%nat → length r1 = 20%nat → length r2 = 20%nat →
  length h0 = 17%nat → length h1 = 17%nat → length h2 = 17%nat →
  c_counts k = [17; 17; 17] → c_rows k = [overwrite h0 r0; overwrite h1 r1; overwrite h2 r2] →
  length (c_bottom k) = 3%nat → h0 ++ h1 ++ h2 ++ c_bottom k ≡ₚ m_cbCardData → dealt k.
Proof.
  intros L0 L1 L2 H0 H1 H2 Hc Hr Hb Hp.
  destruct (overwrite_17 h0 r0 H0 L0) as (z0 & E0 & Z0).
  destruct (overwrite_17 h1 r1 H1 L1) as (z1 & E1 & Z1).
  destruct (overwrite_17 h2 r2 H2 L2) as (z2 & E2 & Z2).
  rewrite E0, E1, E2 in Hr. by eapply dealt_intro.
Qed.

Lemma three_counts (l : list Z) : length l = 3%nat → ∃ a b c, l = [a; b; c].
Proof. destruct l as [|a [|b [|c [|]]]]; try done. by exists a, b, c. Qed.

(** The plain deal of a shuffled pack. *)
Lemma deal_plain_dealt t pack : three_rows t → pack ≡ₚ m_cbCardData → dealt (core (deal_plain t pack)).
Proof.
  intros (Hc & r0 & r1 & r2 & Hr & L0 & L1 & L2) Hp.
  assert (length pack = 54%nat) as Hlen by (by rewrite Hp).
  destruct (three_counts _ Hc) as (x & y & z & Ec).
  eapply (dealt_rows _ r0 r1 r2 (slice pack 0 17) (slice pack 17 17) (slice pack 34 17));
    try done; try (apply slice_length; lia).
  - unfold deal_plain. simpl. unfold setz. by rewrite Ec.
  - unfold deal_plain. simpl. rewrite Hr. by unfold row, rget.
  - unfold deal_plain. simpl. rewrite sort_by_value_length. apply slice_length.
    unfold DISPATCH_COUNT. lia.
  - unfold deal_plain. simpl. rewrite sort_by_value_perm. unfold DISPATCH_COUNT.
    rewrite (slice_app pack 34 17 3 : _ ++ slice pack 51 3 = slice pack 34 20).
    rewrite (slice_app pack 17 17 20 : _ ++ slice pack 34 20 = slice pack 17 37).
    rewrite (slice_app pack 0 17 37 : _ ++ slice pack 17 37 = slice pack 0 54).
    by rewrite slice_all.
Qed.

(** The favoured deal: the good cards leave the pack before the rest is dealt. *)
Lemma deal_good_dealt t w good pack : three_rows t → chair w → pack ≡ₚ m_cbCardData →
  good ⊆+ m_cbCardData → length good = 17%nat → dealt (core (deal_good t w good pack)).
Proof.
  intros (Hc & r0 & r1 & r2 & Hr & L0 & L1 & L2) Hw Hp Hg Hlg.
  assert (length pack = 54%nat) as Hlen by (by rewrite Hp).
  assert (0 ∉ good) as H0 by (by apply hand_nonzero).
  assert (0 ∉ pack) as Hp0 by (rewrite Hp; by_decide).
  assert (good ⊆+ pack) as Hsub by (by rewrite Hp).
  destruct (three_counts _ Hc) as (x & y & z & Ec).
  destruct (zero_cards_ok good pack H0 Hsub) as (Hn & Hk & _).
  assert (∃ tl, RemoveGoodCardData good pack = Some (nonzero (zero_cards good pack).2 ++ tl)) as (tl & Hrem).
  { unfold RemoveGoodCardData. rewrite Hlen, Hlg. unfold FULL_COUNT. simpl.
    destruct (zero_cards good pack) as [n tmp]. simpl in *. rewrite Hn, Hlg. simpl. by eexists. }
  rewrite (nonzero_id pack) in Hk by done. set (kept := nonzero _) in *.
  assert (length kept = 37%nat) as Hlk.
  { apply Permutation_length in Hk. rewrite length_app in Hk. lia. }
  set (rest := kept ++ tl) in *.
  assert (slice rest 0 17 ++ slice rest 17 17 ++ slice rest 34 3 = kept) as Hrest.
  { rewrite (slice_app rest 17 17 3 : _ ++ slice rest 34 3 = slice rest 17 20).
    rewrite (slice_app rest 0 17 20 : _ ++ slice rest 17 20 = slice rest 0 37). unfold slice, rest.
    rewrite drop_0, take_app_le, take_ge by lia. done. }
  assert (length rest = 37 + length tl)%nat as Hlr by (unfold rest; rewrite length_app; lia).
  assert (∀ a, length (SortCardList (slice rest 34 3) ST_ORDER) = 3%nat ∧
    (a ≡ₚ good ++ slice rest 0 17 ++ slice rest 17 17 →
     a ++ SortCardList (slice rest 34 3) ST_ORDER ≡ₚ m_cbCardData)) as Hb.
  { intros a. split; [simpl; rewrite sort_by_value_length; apply slice_length; lia|].
    intros ->. simpl. rewrite sort_by_value_perm, <-Hp, <-Hk, <-Hrest.
    rewrite <-!app_assoc, (Permutation_app_comm good). by rewrite <-!app_assoc. }
  assert (w = 0 ∨ w = 1 ∨ w = 2) as [-> | [-> | ->]] by (unfold chair in Hw; lia).
  - eapply (dealt_rows _ r0 r1 r2 good (slice rest 0 17) (slice rest 17 17));
      try done; try (apply slice_length; lia); unfold deal_good; rewrite Hrem; simpl.
    + unfold setz. by rewrite Ec.
    + rewrite Hr. by unfold row, rget.
    + apply (Hb []).
    + rewrite !app_assoc. apply Hb. by rewrite <-!app_assoc.
  - eapply (dealt_rows _ r0 r1 r2 (slice rest 0 17) good (slice rest 17 17));
      try done; try (apply slice_length; lia); unfold deal_good; rewrite Hrem; simpl.
    + unfold setz. by rewrite Ec.
    + rewrite Hr. by unfold row, rget.
    + apply (Hb []).
    + rewrite !app_assoc. apply Hb. rewrite <-!app_assoc. by rewrite Permutation_app_swap_app.
  - eapply (dealt_rows _ r0 r1 r2 (slice rest 0 17) (slice rest 17 17) good);
      try done; try (apply slice_length; lia); unfold deal_good; rewrite Hrem; simpl.
    + unfold setz. by rewrite Ec.
    + rewrite Hr. by unfold row, rget.
    + apply (Hb []).
    + rewrite !app_assoc. apply Hb. rewrite <-!app_assoc. rewrite (Permutation_app_comm good). by rewrite <-!app_assoc.
Qed.

(** ** The favoured hand *)

Lemma insert_last_perm (l : list Z) p x y : l !! p = Some x → x :: <[p := y]> l ≡ₚ y :: l.
Proof.
  intros Hp. pose proof (lookup_lt_Some _ _ _ Hp) as Hlt.
  rewrite <-(take_drop_middle l p x Hp) at 2. rewrite insert_take_drop by done.
  rewrite <-!Permutation_middle. apply Permutation_swap.
Qed.

Lemma draw_loop_perm rs l : length rs = length l → draw_loop rs l ≡ₚ l.
Proof.
  revert l. induction rs as [|r rs IH]; intros l Hl; [by destruct l|].
  destruct l as [|c l _] using rev_ind; [done|]. rewrite length_app in Hl. simpl in Hl.
  cbn [draw_loop]. rewrite length_app. cbn [length]. rewrite Nat.add_1_r.
  set (p := (r mod S (length l))%nat).
  assert (p <= length l)%nat as Hp by (unfold p; pose proof (Nat.mod_upper_bound r (S (length l))); lia).
  assert ((l ++ [c]).[length l] = c) as Hlast.
  { unfold aget. by rewrite lookup_app_r, Nat.sub_diag by lia. }
  rewrite Hlast. destruct (decide (p = length l)) as [->|Hne].
  - rewrite Hlast, insert_app_r_alt, Nat.sub_diag, take_app_length by lia. simpl.
    rewrite IH by lia. apply Permutation_cons_append.
  - rewrite insert_app_l, take_app_le, take_ge by (rewrite ?length_insert; lia).
    rewrite IH by (rewrite length_insert; lia). rewrite aget_app_l by lia.
    destruct (lookup_lt_is_Some_2 l p) as [x Hx]; [lia|].
    rewrite (aget_lookup _ _ _ Hx), (insert_last_perm _ _ _ _ Hx). apply Permutation_cons_append.
Qed.

Lemma good_cards rs : length rs = 38%nat →
  GetGoodCardData rs ⊆+ m_cbCardData ∧ length (GetGoodCardData rs) = 17%nat.
Proof.
  intros Hr. assert (draw_loop rs m_cbGoodcardData ≡ₚ m_cbGoodcardData) as Hp by (by apply draw_loop_perm).
  unfold GetGoodCardData. split.
  - etrans; [apply submseteq_take|]. rewrite Hp. by_decide.
  - rewrite length_take, Hp. done.
Qed.

Lemma rows_three t : rows_ok (core t) → three_rows t.
Proof.
  intros (Hc & Hr & H). split; [done|]. simpl in Hr, H.
  destruct (m_cbHandCardData t) as [|r0 [|r1 [|r2 [|]]]]; try done. exists r0, r1, r2.
  split_and!; [done|apply (H 0)|apply (H 1)|apply (H 2)]; unfold chair; lia.
Qed.

(** A deal only touches counts, rows and bottom. *)
Definition same_rest (k k' : Core) : Prop :=
  k' = MkCore (c_scene k) (c_frame k) (c_seats k) (c_isflag k) (c_current k) (c_banker k) (c_first k)
              (c_winner k) (c_calls k) (c_turn k) (c_counts k') (c_rows k') (c_bottom k') (c_played k).

#[local] Instance same_rest_preorder : PreOrder same_rest.
Proof.
  split; [by intros []|]. unfold same_rest. intros k1 k2 k3 H1 H2. rewrite H2. by rewrite H1.
Qed.

Lemma deal_good_rest t w good pack : same_rest (core t) (core (deal_good t w good pack)).
Proof.
  unfold deal_good. cbn [foldl]. destruct (0 =? w), (1 =? w), (2 =? w); done.
Qed.

Section Deal.
Context (cfg : Config) (rnd between : nat → Z) (shuf : nat → list Z → list Z).
Context (storage : nat → Z * Z * Z) (running : nat → bool) (value : list Z → Z).
Context (Htest : m_bTestGame cfg = 0) (Hshuf : ∀ k l, shuf k l ≡ₚ l).

Lemma StoreageControl_dealt t : three_rows t →
  dealt (core (StoreageControl cfg rnd between shuf storage t)) ∧
  same_rest (core t) (core (StoreageControl cfg rnd between shuf storage t)).
Proof.
  intros Ht. unfold StoreageControl. destruct (storage (draws t)) as [[stock low] up].
  set (win := if _ : bool then m_StorageMinRatio cfg else _). rewrite Htest. cbn [Z.eqb].
  set (t1 := set_field m_lStorageMin _ _).
  assert (core t1 = core t) as Hc by done. assert (three_rows t1) as Ht1 by done.
  destruct (if _ : bool then androids t !! _ else None) as [w|] eqn:Ew.
  - assert (chair w) as Hw.
    { destruct (_ || _); [|done]. apply list_elem_of_lookup_2 in Ew.
      apply list_elem_of_filter in Ew as [_ Hin]. unfold chair.
      repeat (apply elem_of_cons in Hin as [->|Hin]; [lia|]). by apply not_elem_of_nil in Hin. }
    destruct (good_cards (map (λ i, Z.to_nat (rnd (draws t1 + i)%nat)) (seq 0 38))) as [Hg Hl].
    { by rewrite length_map, length_seq. }
    split; [|rewrite <-Hc; apply (deal_good_rest (drew t1 39))].
    apply deal_good_dealt; [done..|apply Hshuf|done|done].
  - split; [|done]. apply deal_plain_dealt; [done|]. apply Hshuf.
Qed.

Lemma deal_loop_dealt fuel n t : three_rows t →
  dealt (core (deal_loop cfg rnd between shuf storage value fuel n t)) ∧
  same_rest (core t) (core (deal_loop cfg rnd between shuf storage value fuel n t)).
Proof.
  revert n t. induction fuel as [|f IH]; intros n t Ht; cbn [deal_loop];
    destruct (StoreageControl_dealt t Ht) as [Hd Hs]; set (t' := StoreageControl _ _ _ _ _ t) in *;
    destruct (_ && _); try (by split).
  destruct (IH (if (m_lStockScore t' <=? m_lStorageMin t') && negb (bHaveTheSameCard t')
                then m_cbGoodCardTime cfg else n + 1) t') as [Hd' Hs']; [apply rows_three, Hd|].
  split; [done|by etrans].
Qed.
End Deal.

(** ** Updating one hand *)

Definition set_hand (k : Core) (c n : Z) (r : list Z) : Core :=
  MkCore (c_scene k) (c_frame k) (c_seats k) (c_isflag k) (c_current k) (c_banker k) (c_first k) (c_winner k) (c_calls k) (c_turn k)
         (setz (c_counts k) c n) (<[idx c := r]> (c_rows k)) (c_bottom k) (c_played k).

Lemma chair_idx c c' : chair c → chair c' → idx c = idx c' → c = c'.
Proof. unfold chair, idx. lia. Qed.

Lemma held_set k c c' n r : length (c_counts k) = 3%nat → length (c_rows k) = 3%nat →
  chair c → chair c' →
  held (set_hand k c n r) c' = if decide (c' = c) then take (Z.to_nat n) r else held k c'.
Proof.
  intros Hc Hr H H'. unfold held, set_hand, setz, getz, row, rget, aget. simpl.
  unfold chair in H, H'. destruct (decide (c' = c)) as [->|Hne].
  - rewrite !list_lookup_insert_eq by (unfold idx; lia). done.
  - rewrite !list_lookup_insert_ne by (intros E; apply Hne, chair_idx; done). done.
Qed.

Lemma rows_ok_set k c n r : rows_ok k → chair c → length r = MAX_COUNT → 0 <= n <= 20 →
  rows_ok (set_hand k c n r).
Proof.
  intros (Hc & Hr & H) Hch Hl Hn. unfold rows_ok, set_hand, setz. simpl.
  rewrite !length_insert. split_and!; [done..|]. intros c' Hc'. unfold row, rget, getz, aget.
  destruct (decide (c' = c)) as [->|Hne].
  - rewrite !list_lookup_insert_eq by (unfold idx, chair in *; lia). done.
  - rewrite !list_lookup_insert_ne by (intros E; apply Hne, chair_idx; done). by apply H.
Qed.

(** All hands, before and after one of them changes. *)
Lemma all_hands_set k c n r : length (c_counts k) = 3%nat → length (c_rows k) = 3%nat → chair c →
  ∃ others, all_hands k ≡ₚ held k c ++ others ∧
            all_hands (set_hand k c n r) ≡ₚ take (Z.to_nat n) r ++ others.
Proof.
  intros Hc Hr H. assert (chair 0 ∧ chair 1 ∧ chair 2) as (H0 & H1 & H2) by (unfold chair; lia).
  unfold all_hands. rewrite !held_set by done. unfold chair in H.
  assert (c = 0 ∨ c = 1 ∨ c = 2) as [-> | [-> | ->]] by lia; simpl.
  - by exists (held k 1 ++ held k 2).
  - exists (held k 0 ++ held k 2). split; by rewrite Permutation_app_swap_app.
  - exists (held k 0 ++ held k 1). split; rewrite app_assoc; apply Permutation_app_comm.
Qed.

Lemma held_length k c : rows_ok k → chair c → Z.of_nat (length (held k c)) = getz (c_counts k) c.
Proof.
  intros (_ & _ & H) Hc. destruct (H c Hc) as [Hl Hn]. unfold held. rewrite length_take, Hl.
  unfold MAX_COUNT. lia.
Qed.

Lemma held_part k c l : chair c → all_hands k ++ l ≡ₚ m_cbCardData → held k c ⊆+ m_cbCardData.
Proof.
  intros Hc <-. unfold all_hands. unfold chair in Hc.
  assert (c = 0 ∨ c = 1 ∨ c = 2) as [-> | [-> | ->]] by lia.
  - rewrite <-!app_assoc. by apply submseteq_inserts_r.
  - rewrite <-!app_assoc, Permutation_app_swap_app. by apply submseteq_inserts_r.
  - rewrite <-!app_assoc, (app_assoc (held k 0)). apply submseteq_inserts_l. by apply submseteq_inserts_r.
Qed.

(** The banker takes the bottom. *)
Lemma core_give_bottom t : chair (m_wBankerUser t) → three_rows t →
  let b := m_wBankerUser t in
  let n := u8 (getz (m_cbHandCardCount t) b + 3) in
  let r := take NORMAL_COUNT (row (m_cbHandCardData t) b) ++ m_cbBankerCard t
           ++ drop (NORMAL_COUNT + 3) (row (m_cbHandCardData t) b) in
  core (give_bottom t) =
  let k := set_hand (core t) b n (SortCardList (take (Z.to_nat n) r) ST_ORDER ++ drop (Z.to_nat n) r) in
  MkCore GAME_SCENE_CALLEnd (c_frame k) (c_seats k) (c_isflag k) b b (c_first k) b (c_calls k) (c_turn k) (c_counts k) (c_rows k) (c_bottom k) (c_played k).
Proof.
  intros Hb (Hc & r0 & r1 & r2 & Hr & _). unfold give_bottom, sort_hand, core, set_hand. simpl.
  f_equal. unfold setz, getz, aget. unfold chair in Hb.
  rewrite !list_lookup_insert_eq by (unfold idx; lia). simpl.
  unfold row, rget. rewrite !list_lookup_insert_eq by (rewrite Hr; unfold idx; simpl; lia).
  simpl. by rewrite list_insert_insert_eq.
Qed.

Lemma give_bottom_inv t : m_wFirstUser t = INVALID_CHAIR ∨ chair (m_wFirstUser t) → m_isflag t = true → dealt (core t) → m_cbSurplusCard t = [] →
  chair (m_wBankerUser t) → frameStatus t = STATUS_START → seated (core t) → m_cbNoCallCount t = 0 →
  Inv (give_bottom t).
Proof.
  intros Hfirst Hf (Hok & Hcnt & Hbot & Hp) Hs Hb Hfr Hseat Hcalls. unfold Inv. rewrite core_give_bottom by (done || by apply rows_three).
  set (b := m_wBankerUser t) in *. cbv zeta. simpl in Hcnt, Hbot, Hp.
  assert (getz (m_cbHandCardCount t) b = 17) as Hn.
  { rewrite Hcnt. unfold chair in Hb. assert (b = 0 ∨ b = 1 ∨ b = 2) as [-> | [-> | ->]] by lia; done. }
  rewrite Hn. change (u8 (17 + 3)) with 20. change (Z.to_nat 20) with 20%nat.
  destruct Hok as (Hc & Hr & Hlen). destruct (Hlen b Hb) as [Hl _]. simpl in Hl. unfold MAX_COUNT in Hl.
  set (cells := row (m_cbHandCardData t) b) in *.
  set (r := take NORMAL_COUNT cells ++ m_cbBankerCard t ++ drop (NORMAL_COUNT + 3) cells).
  assert (r = take 17 cells ++ m_cbBankerCard t) as Er.
  { unfold r, NORMAL_COUNT. rewrite (drop_ge cells) by (simpl; lia). by rewrite app_nil_r. }
  assert (length r = 20%nat) as Hlr by (rewrite Er, length_app, length_take; lia).
  rewrite (take_ge r), (drop_ge r), app_nil_r by lia.
  assert (chair b) as Hb' by done.
  destruct (all_hands_set (core t) b 20 (SortCardList r ST_ORDER) Hc Hr Hb) as (oth & H1 & H2).
  assert (held (core t) b = take 17 cells) as Hh.
  { unfold held. simpl. by rewrite Hn. }
  assert (rows_ok (set_hand (core t) b 20 (SortCardList r ST_ORDER))) as Hok'.
  { apply rows_ok_set; [by split_and!|done|simpl; by rewrite sort_by_value_length|lia]. }
  assert (length (SortCardList r ST_ORDER) = 20%nat) as Hls by (simpl; by rewrite sort_by_value_length).
  split_and!; [split; [exact Hfirst|exact Hcalls]|intros _; simpl; split_and!; [done|done|lia]|]. unfold CoreInv. simpl. split_and!; try done.
  - unfold setz, getz, aget. rewrite list_lookup_insert_eq; [done|].
    simpl in Hc. unfold idx, chair in *. lia.
  - etrans; [exact H2|]. rewrite take_ge by (rewrite Hls; done).
    rewrite sorted_perm, Er, <-Hh, <-Hp, H1, <-!app_assoc. f_equiv. apply Permutation_app_comm.
Qed.

(** ** The start of a game *)

Section Pres.
Context (cfg : Config) (rnd between : nat → Z) (shuf : nat → list Z → list Z).
Context (storage : nat → Z * Z * Z) (running : nat → bool) (value : list Z → Z).
Context (Htest : m_bTestGame cfg = 0) (Hshuf : ∀ k l, shuf k l ≡ₚ l).

(** Between games only the first caller matters. *)
Definition free_ok (t : Table) : Prop := m_cbGameStatus t = GAME_SCENE_FREE ∧ first_ok (core t).

Lemma free_inv t : free_ok t → Inv t.
Proof. intros [Hs Hf]. split_and!; [done|by intros []|unfold CoreInv; simpl; by rewrite Hs]. Qed.

Lemma free_foldl {A} (f : Table → A → Table) l t :
  (∀ t a, free_ok t → free_ok (f t a)) → free_ok t → free_ok (foldl f t l).
Proof. intros H. revert t. induction l as [|a l IH]; intros t Ht; [done|]. simpl. apply IH, H, Ht. Qed.

(** Clearing chairs only frees seats. *)
Lemma clear_fold {A} (p : Table → A) l t :
  (∀ t c u, p (set_user t c u) = p t) →
  p (foldl (λ t i, match GetTableUserItem t i with Some _ => ClearTableUser t i | None => t end) t l) = p t.
Proof.
  intros H. revert t. induction l as [|i l IH]; intros t; [done|]. cbn [foldl]. rewrite IH.
  unfold ClearTableUser. repeat case_match; rewrite ?H; done.
Qed.

Lemma clear_all_free t : free_ok t → free_ok (clear_all t).
Proof. apply free_foldl. intros u i Hu. unfold ClearTableUser. by repeat case_match. Qed.

Lemma first_caller_ok t : m_wFirstUser t = INVALID_CHAIR ∨ chair (m_wFirstUser t) →
  let '(start, cur, t') := first_caller rnd shuf t in chair cur ∧ core t' = core t.
Proof.
  unfold first_caller. simpl. intros H.
  destruct (m_wFirstUser t =? INVALID_CHAIR) eqn:E; breflect; (split; [|done]).
  - unfold chair. lia.
  - by destruct H.
Qed.

Lemma announce_core start cur t i : core (announce_start start cur t i) = core t.
Proof. unfold announce_start. repeat case_match; by rewrite ?core_set_status. Qed.

Lemma sort_hand_core t c : three_rows t → chair c →
  let n := getz (m_cbHandCardCount t) c in
  core (sort_hand t c) =
  set_hand (core t) c n (SortCardList (take (Z.to_nat n) (row (m_cbHandCardData t) c)) ST_ORDER
                         ++ drop (Z.to_nat n) (row (m_cbHandCardData t) c)).
Proof.
  intros (Hc & _) Hch. unfold sort_hand, core, set_hand. simpl. f_equal.
  unfold setz, getz, aget. destruct (lookup_lt_is_Some_2 (m_cbHandCardCount t) (idx c)) as [x Hx].
  { unfold idx, chair in *. lia. }
  rewrite Hx. simpl. by rewrite list_insert_id.
Qed.

Lemma sort_hand_dealt t c : dealt (core t) → chair c →
  dealt (core (sort_hand t c)) ∧ same_rest (core t) (core (sort_hand t c)).
Proof.
  intros (Hok & Hcnt & Hbot & Hp) Hch. rewrite sort_hand_core by (done || by apply rows_three).
  cbv zeta. set (n := getz (m_cbHandCardCount t) c). set (cells := row (m_cbHandCardData t) c).
  pose proof Hok as (Hc & Hr & H). destruct (H c Hch) as [Hl Hn]. simpl in Hl, Hn. fold n in Hn. fold cells in Hl.
  set (r := SortCardList (take (Z.to_nat n) cells) ST_ORDER ++ drop (Z.to_nat n) cells).
  assert (length (SortCardList (take (Z.to_nat n) cells) ST_ORDER) = Z.to_nat n) as Hls.
  { simpl. rewrite sort_by_value_length, length_take, Hl. unfold MAX_COUNT. lia. }
  assert (length r = MAX_COUNT) as Hlr.
  { unfold r. rewrite length_app, Hls, length_drop, Hl. unfold MAX_COUNT. lia. }
  destruct (all_hands_set (core t) c n r Hc Hr Hch) as (oth & H1 & H2).
  split; [|done]. split_and!; [by apply rows_ok_set|..].
  - simpl. unfold setz, n, getz, aget. rewrite list_insert_id; [done|]. simpl in Hc.
    destruct (lookup_lt_is_Some_2 (m_cbHandCardCount t) (idx c)) as [x Hx].
    { unfold idx, chair in *. lia. } by rewrite Hx.
  - done.
  - rewrite H2. unfold r at 1. rewrite take_app_le, take_ge by lia. rewrite sorted_perm.
    change (take (Z.to_nat n) cells) with (held (core t) c). by rewrite <-H1.
Qed.

Lemma core_reset t : m_isflag t = true → core (RepositionSink t) =
    MkCore (m_cbGameStatus t) (frameStatus t) (c_seats (core t)) true INVALID_CHAIR INVALID_CHAIR
           (m_wFirstUser t) INVALID_CHAIR (m_cbNoCallCount t) 0 [0;0;0] zero_rows [0;0;0] [].
Proof. unfold RepositionSink, core. intros E. rewrite E. simpl. by rewrite E. Qed.

Lemma reset_free t : m_isflag t = false → RepositionSink t = clear_all t.
Proof. unfold RepositionSink. by intros ->. Qed.

Lemma flag_clear_all t : m_isflag (clear_all t) = m_isflag t.
Proof. by apply (clear_fold m_isflag). Qed.

Lemma core_open t : core (open_game t) =
  MkCore GAME_SCENE_CALL STATUS_START (c_seats (core t)) (m_isflag t) (m_wCurrentUser t) (m_wBankerUser t)
         (m_wFirstUser t) (m_wTurnWiner t) (u8 (m_cbNoCallCount t + 1)) (m_cbTurnCardCount t) (m_cbHandCardCount t) (m_cbHandCardData t) (m_cbBankerCard t) [].
Proof. done. Qed.

Lemma core_tell start cur t : dealt (core t) →
  dealt (core (tell_game start cur t)) ∧
  same_rest (MkCore (m_cbGameStatus t) (frameStatus t) (c_seats (core t)) (m_isflag t) cur (m_wBankerUser t) cur (m_wTurnWiner t) (m_cbNoCallCount t) (m_cbTurnCardCount t) (m_cbHandCardCount t)
                    (m_cbHandCardData t) (m_cbBankerCard t) (m_cbSurplusCard t))
            (core (tell_game start cur t)).
Proof.
  intros Hd. unfold tell_game. rewrite core_remain.
  set (t0 := set_field m_wCurrentUser _ _).
  assert (core (foldl (announce_start start cur) t0 [0; 1; 2]) = core t0) as Hc
    by (apply core_foldl, announce_core).
  assert (core t0 = MkCore (m_cbGameStatus t) (frameStatus t) (c_seats (core t)) (m_isflag t) cur (m_wBankerUser t) cur (m_wTurnWiner t) (m_cbNoCallCount t) (m_cbTurnCardCount t) (m_cbHandCardCount t)
                    (m_cbHandCardData t) (m_cbBankerCard t) (m_cbSurplusCard t)) as Hc0 by done.
  assert (dealt (core t0)) as Hd0 by exact Hd. rewrite <-Hc in Hd0. rewrite <-Hc0, <-Hc.
  set (t4 := foldl (announce_start start cur) t0 [0; 1; 2]) in *. clearbody t4.
  destruct (sort_hand_dealt t4 0 Hd0) as [Hd5 Hs5]; [unfold chair; lia|].
  destruct (sort_hand_dealt _ 1 Hd5) as [Hd6 Hs6]; [unfold chair; lia|].
  destruct (sort_hand_dealt _ 2 Hd6) as [Hd7 Hs7]; [unfold chair; lia|].
  change (foldl sort_hand t4 [0; 1; 2]) with (sort_hand (sort_hand (sort_hand t4 0) 1) 2).
  set (t7 := sort_hand (sort_hand (sort_hand t4 0) 1) 2) in *. clearbody t7.
  split; [exact Hd7|].
  assert (same_rest (core t4) (core t7)) as Hs by (etrans; [exact Hs5|]; etrans; [exact Hs6|exact Hs7]).
  exact Hs.
Qed.

Lemma three_rows_core t t' : core t = core t' → three_rows t → three_rows t'.
Proof.
  intros Hc. assert (m_cbHandCardCount t = m_cbHandCardCount t') as E1 by exact (f_equal c_counts Hc).
  assert (m_cbHandCardData t = m_cbHandCardData t') as E2 by exact (f_equal c_rows Hc).
  unfold three_rows. by rewrite E1, E2.
Qed.

(** The state the bidding opens in. *)
Lemma call_inv k k3 k7 cur :
  k = MkCore GAME_SCENE_CALL STATUS_START (c_seats k) true INVALID_CHAIR INVALID_CHAIR
    (c_first k) INVALID_CHAIR (c_calls k) 0 (c_counts k) (c_rows k) (c_bottom k) [] →
  seated k → 1 <= c_calls k <= 3 → same_rest k k3 → dealt k7 → chair cur →
  same_rest (MkCore (c_scene k3) (c_frame k3) (c_seats k3) (c_isflag k3) cur (c_banker k3) cur (c_winner k3)
                    (c_calls k3) (c_turn k3) (c_counts k3) (c_rows k3) (c_bottom k3) (c_played k3)) k7 →
  KInv k7 ∧ c_scene k7 = GAME_SCENE_CALL ∧ c_calls k7 = c_calls k ∧ c_first k7 = c_current k7 ∧
  c_banker k7 = INVALID_CHAIR.
Proof.
  unfold same_rest, KInv, first_ok, calls_ok, running_ok, seated, CoreInv. simpl.
  intros -> Hseat Hcalls -> Hd Hcur E. simpl in *.
  rewrite E in Hd |- *. simpl in *. split_and!; try done; try lia; [by right|intros _; split_and!; [done|done|lia]].
Qed.

(** What the start of a game needs. *)
Definition start_pre (k : Core) : Prop :=
  first_ok k ∧ seated k ∧ (c_isflag k = false → c_scene k = GAME_SCENE_FREE) ∧ c_calls k < 3.

Lemma start_game_inv t : start_pre (core t) →
  let r := start_game cfg rnd between shuf storage value t in
  Inv r.1 ∧ (r.2 = true → c_scene (core r.1) = GAME_SCENE_CALL ∧
               c_calls (core r.1) = u8 (m_cbNoCallCount t + 1) ∧ c_first (core r.1) = c_current (core r.1) ∧
               c_banker (core r.1) = INVALID_CHAIR) ∧
  r.2 = m_isflag t.
Proof.
  cbv zeta. intros (Hfirst & Hseat & Hflag & Hless). unfold start_game.
  destruct (m_isflag t) eqn:E; cycle 1.
  { rewrite (reset_free t E), flag_clear_all, E. cbn [negb fst].
    split; [|by split]. apply free_inv, clear_all_free, clear_all_free. split; [by apply Hflag|done]. }
  pose proof (core_reset t E) as Hr. set (t0 := RepositionSink t) in *. clearbody t0.
  pose proof (core_open t0) as Ho.
  rewrite (f_equal c_isflag Hr : m_isflag t0 = _). cbn [c_isflag negb].
  assert (core (open_game t0) = MkCore GAME_SCENE_CALL STATUS_START (c_seats (core t)) true
            INVALID_CHAIR INVALID_CHAIR (m_wFirstUser t) INVALID_CHAIR (u8 (m_cbNoCallCount t + 1)) 0
            [0;0;0] zero_rows [0;0;0] []) as Hc1.
  { rewrite Ho. unfold core in Hr. injection Hr; intros. f_equal; try assumption. by f_equal; f_equal. }
  set (t1 := open_game t0) in *. clearbody t1. clear Ho Hr.
  assert (m_wFirstUser t1 = INVALID_CHAIR ∨ chair (m_wFirstUser t1)) as Hf1.
  { rewrite (f_equal c_first Hc1 : m_wFirstUser t1 = _). apply Hfirst. }
  assert (0 <= m_cbNoCallCount t) as Hnn.
  { destruct Hfirst as [_ Hn]. unfold calls_ok in Hn. simpl in Hn. case_decide; lia. }
  simpl in Hless.
  pose proof (first_caller_ok t1 Hf1) as Hfc. destruct (first_caller rnd shuf t1) as [[start cur] t2].
  destruct Hfc as [Hcur Hc2]. rewrite Hc1 in Hc2.
  assert (three_rows t2) as Hrows.
  { split; [by rewrite (f_equal c_counts Hc2 : m_cbHandCardCount t2 = _)|].
    rewrite (f_equal c_rows Hc2 : m_cbHandCardData t2 = _). by eexists _, _, _. }
  unfold deal_game. rewrite Htest. cbn [Z.eqb].
  destruct (deal_loop_dealt cfg rnd between shuf storage value Htest Hshuf
    (Z.to_nat (m_cbGoodCardTime cfg)) 0 t2 Hrows) as [Hd Hs].
  set (t3 := deal_loop _ _ _ _ _ _ _ _ t2) in *. clearbody t3. cbn [fst snd].
  destruct (core_tell start cur t3 Hd) as [Hd7 Hs7].
  set (t7 := tell_game start cur t3) in *. clearbody t7.
  destruct (call_inv (core t2) (core t3) (core t7) cur) as (Hi & H1 & H2 & H3 & H4);
    [by rewrite Hc2|by rewrite Hc2|rewrite Hc2; simpl; unfold u8; rewrite Z.mod_small; lia|done..|].
  split; [exact Hi|]. split; [|done]. intros _. rewrite H2, Hc2. done.
Qed.
End Pres.
