(* ===== verification/DdzReach.v ===== *)
(** Dou Dizhu, the handlers of the table: each keeps the invariant of [DdzInv] and
    the recursion through [AutoWork] ends.  Both are shown at once: [wp false]
    speaks of the handlers that return, [wp true] also says that they do, from a
    state without zero cards and with the fuel the measure [mu] asks for. *)
From stdpp Require Import base list numbers sorting.
From Stdlib Require Import ZArith Lia.
From S2P Require Import Prelude GameDefine Cards DdzLogic DdzRules DdzSearch DdzSearchFacts DdzHeld DdzSettle DdzTable DdzInv.

#[local] Open Scope Z_scope.

(** ** Results of handlers *)

Definition wp {A} (tot : bool) (o : option A) (P : A → Prop) : Prop :=
  match o with Some x => P x | None => tot = false end.

Section Wp.
Context {A B : Type} (tot : bool).

Lemma wp_mono (o : option A) (P Q : A → Prop) : wp tot o P → (∀ x, P x → Q x) → wp tot o Q.
Proof. destruct o; simpl; auto. Qed.

Lemma wp_bind (o : option A) (f : A → option B) P Q :
  wp tot o P → (∀ x, P x → wp tot (f x) Q) → wp tot (x ← o; f x) Q.
Proof. destruct o; simpl; auto. Qed.

Lemma wp_fmap (o : option A) (f : A → B) (P : A → Prop) (Q : B → Prop) :
  wp tot o P → (∀ x, P x → Q (f x)) → wp tot (f <$> o) Q.
Proof. destruct o; simpl; auto. Qed.
End Wp.

(** A result [(b, t)] whose state satisfies the invariant. *)
Definition snd_ok (x : bool * Table) : Prop := Inv x.2.

(** ** The measure of [AutoWork] *)

(** The turns until chair [c] is followed by [a]. *)
Definition dist (a c : Z) : nat := S (Z.to_nat ((a - c - 1) mod 3)).

(** Every card played takes at least one card; two passes clear the turn; three
    bids close the bidding, which is repeated while [m_cbNoCallCount] is below 3. *)
Definition mu (k : Core) : nat :=
  match c_scene k with
  | GAME_SCENE_CALL => 3 * Z.to_nat (3 - c_calls k) + dist (c_first k) (c_current k) + 1
  | GAME_SCENE_STAKE => 2
  | GAME_SCENE_PLAY =>
      Z.to_nat (4 * sumZ (c_counts k)) +
      (if decide (c_turn k = 0) then 0 else dist (c_winner k) (c_current k)) + 2
  | _ => 1
  end.

(** The cards played are cards: the client sent no byte 0. *)
Definition clean (k : Core) : Prop := c_scene k = GAME_SCENE_PLAY → 0 ∉ c_played k.

Lemma dist_next a c : chair a → chair c → a ≠ (c + 1) mod 3 → dist a c = S (dist a ((c + 1) mod 3)).
Proof.
  unfold chair, dist. intros Ha Hc H.
  assert (c = 0 ∨ c = 1 ∨ c = 2) as [-> | [-> | ->]] by lia;
    assert (a = 0 ∨ a = 1 ∨ a = 2) as [-> | [-> | ->]] by lia; vm_compute in H |- *; congruence.
Qed.

Lemma dist_bound a c : (1 <= dist a c <= 3)%nat.
Proof. unfold dist. lia. Qed.

Lemma dist_self a : dist a a = 3%nat.
Proof. unfold dist. by replace (a - a - 1) with (-1) by lia. Qed.

Lemma next_chair c : chair ((c + 1) mod 3).
Proof. unfold chair. lia. Qed.

(** ** Steps on the core *)

Lemma core_take_bid t w b :
  core (take_bid t w b).1 = core t ∨ core (take_bid t w b).1 = core t <| c_banker := m_wCurrentUser t |>.
Proof.
  unfold take_bid. set (c := if _ : bool then CB_NO_CALL_BENKER else b).
  destruct (_ && _); [|destruct (_ && _); [|destruct (_ && _)]]; cbn [fst]; destruct (m_bFisrtCall _); auto.
Qed.

(** The invariant of the bidding, in one piece. *)
Definition call_facts (k : Core) : Prop :=
  c_scene k = GAME_SCENE_CALL ∧ c_frame k = STATUS_START ∧ seated k ∧ 0 <= c_calls k <= 3 ∧
  c_isflag k = true ∧ dealt k ∧ c_played k = [] ∧ (c_banker k = INVALID_CHAIR ∨ chair (c_banker k)) ∧
  chair (c_first k).

Lemma call_facts_inv k : call_facts k → chair (c_current k) → 1 <= c_calls k → KInv k.
Proof.
  intros (Hs & Hf & Hseat & Hn & Hfl & Hd & Hp & Hb & H1) Hc Hl.
  split_and!; [split; [by right|apply calls_ok_call; [done|lia]]|intros _; split_and!; [done|done|lia]|].
  unfold CoreInv. by rewrite Hs.
Qed.

Lemma inv_call_facts k : KInv k → c_scene k = GAME_SCENE_CALL → call_facts k ∧ chair (c_current k).
Proof.
  intros ([_ H1] & Hr & Hi) Hs. apply calls_ok_call in H1; [|done]. unfold CoreInv in Hi. rewrite Hs in Hi.
  destruct Hi as (?&?&?&?&?&?). destruct Hr as (?&?&?); [congruence|]. unfold call_facts. split_and!; (done || lia).
Qed.

Lemma call_facts_current k c : call_facts k → call_facts (k <| c_current := c |>).
Proof. done. Qed.

Lemma call_facts_banker k c : call_facts k → chair c → call_facts (k <| c_banker := c |>).
Proof. intros (?&?&?&?&?&?&?&?&?) ?. unfold call_facts; simpl. split_and!; try (done || lia). by right. Qed.

Lemma call_facts_calls k : call_facts k → call_facts (k <| c_calls := 0 |>).
Proof. intros (?&?&?&?&?&?&?&?&?). unfold call_facts; simpl. split_and!; (done || lia). Qed.

(** A bidding that is open is one of the first three. *)
Lemma inv_calls k : KInv k → c_scene k = GAME_SCENE_CALL → 1 <= c_calls k <= 3.
Proof. intros ([_ H1] & _) Hs. by apply calls_ok_call in H1. Qed.

(** Nobody has bid in one of the first two deals: the game may start again. *)
Lemma redeal_pre k : call_facts k → 1 <= c_calls k → c_calls k < 3 → start_pre k.
Proof.
  intros (Hcall&?&?&?&Hfl&?&?&?&?) Hge Hlt. split_and!; [|done|congruence|done].
  split; [by right|]. apply calls_ok_call; [done|lia].
Qed.

(** The invariant of the scene [GAME_SCENE_PLAY], the current player apart. *)
Definition hands_ok (k : Core) : Prop :=
  0 ∈ c_played k ∨ rows_ok k ∧ all_hands k ++ c_played k ≡ₚ m_cbCardData.
Definition play_facts (k : Core) : Prop :=
  c_scene k = GAME_SCENE_PLAY ∧ first_ok k ∧ running_ok k ∧ c_isflag k = true ∧
  chair (c_banker k) ∧ chair (c_winner k) ∧ hands_ok k.

Lemma play_facts_inv k : play_facts k → chair (c_current k) → KInv k.
Proof.
  intros (Hs & ?&?&?&?&?&?) Hc. split_and!; [done..|]. unfold CoreInv. by rewrite Hs.
Qed.

Lemma inv_play_facts k : KInv k → c_scene k = GAME_SCENE_PLAY → play_facts k ∧ chair (c_current k).
Proof.
  intros (H1 & Hr & Hi) Hs. unfold CoreInv in Hi. rewrite Hs in Hi.
  destruct Hi as (?&?&?&?&?). by split_and!.
Qed.

Lemma core_pass t w : core (pass_card t w) =
  let next := (m_wCurrentUser t + 1) mod 3 in
  core t <| c_current := next |>
         <| c_turn := if next =? m_wTurnWiner t then 0 else m_cbTurnCardCount t |>.
Proof.
  unfold pass_card. rewrite core_remain, core_send_all. cbv zeta.
  set (t1 := set_field m_wCurrentUser _ t).
  change (m_wCurrentUser t1) with ((m_wCurrentUser t + 1) mod 3).
  change (m_wTurnWiner t1) with (m_wTurnWiner t). by destruct (_ =? _).
Qed.

Lemma core_play t w cards rest :
  let n := u8 (getz (m_cbHandCardCount t) w - Z.of_nat (length cards)) in
  let k := set_hand (core t) w n (rest ++ drop (Z.to_nat (getz (m_cbHandCardCount t) w)) (row (m_cbHandCardData t) w)) in
  core (play_cards t w cards rest) =
  k <| c_winner := w |> <| c_turn := Z.of_nat (length cards) |> <| c_played := m_cbSurplusCard t ++ cards |>
    <| c_current := if getz (c_counts k) w =? 0 then INVALID_CHAIR else (m_wCurrentUser t + 1) mod 3 |>.
Proof. unfold play_cards. rewrite core_send_all. destruct (_ || _); reflexivity. Qed.

(** The cards leave the hand for the cards played. *)
Lemma play_hand k w cards rest r : chair w → rows_ok k → all_hands k ++ c_played k ≡ₚ m_cbCardData →
  0 ∉ cards → RemoveCardList cards (held k w) = Some rest →
  r = rest ++ drop (Z.to_nat (getz (c_counts k) w)) (row (c_rows k) w) →
  let n := getz (c_counts k) w - Z.of_nat (length cards) in
  let k' := set_hand k w (u8 n) r in
  0 <= n ∧ u8 n = n ∧ rows_ok k' ∧ all_hands k' ++ c_played k ++ cards ≡ₚ m_cbCardData ∧
  take (Z.to_nat n) r ++ cards ≡ₚ held k w.
Proof.
  intros Hw Hok Hp H0 Hr ->. cbv zeta. pose proof (held_length k w Hok Hw) as Hl.
  pose proof Hok as (Hc & Hrows & Hall). destruct (Hall w Hw) as [Hrow Hn].
  pose proof (held_part k w _ Hw Hp) as Hsub.
  destruct (remove_list_spec cards (held k w) H0) as [Hyes Hno].
  { by apply hand_nonzero. }
  { unfold MAX_COUNT. lia. }
  destruct (decide (cards ⊆+ held k w)) as [Hin|Hin]; [|rewrite Hno in Hr by done; done].
  destruct (Hyes Hin) as (kept & Hk & Hperm & _). rewrite Hk in Hr. injection Hr as <-.
  pose proof (Permutation_length Hperm) as Hlen. rewrite length_app in Hlen.
  set (n := getz (c_counts k) w - Z.of_nat (length cards)).
  assert (n = Z.of_nat (length kept)) as En by (unfold n; lia).
  assert (u8 n = n) as Hu by (unfold u8; apply Z.mod_small; lia).
  set (tail := drop _ _).
  assert (length ((kept ++ replicate (length cards) 0) ++ tail) = MAX_COUNT) as Hlr.
  { unfold tail. rewrite !length_app, length_replicate, length_drop, Hrow. unfold MAX_COUNT. lia. }
  split; [lia|]. split; [done|]. split; [apply rows_ok_set; [done..|lia]|].
  destruct (all_hands_set k w (u8 n) ((kept ++ replicate (length cards) 0) ++ tail) Hc Hrows Hw)
    as (oth & H1 & H2).
  split; [|by rewrite En, Nat2Z.id, <-(app_assoc kept), take_app_length].
  rewrite H2, Hu, En, Nat2Z.id, <-(app_assoc kept), take_app_length, <-Hp, H1, <-Hperm, <-!app_assoc. f_equiv.
  rewrite (Permutation_app_comm cards), <-!app_assoc. done.
Qed.

Lemma first_reset t : m_wFirstUser (RepositionSink t) = m_wFirstUser t.
Proof. unfold RepositionSink. destruct (negb _); [|done]. by apply (clear_fold m_wFirstUser). Qed.

Lemma calls_send t m : m_cbNoCallCount (send_present t m) = m_cbNoCallCount t.
Proof. exact (f_equal c_calls (core_send_present t m)). Qed.

Lemma calls_reset t : m_cbNoCallCount (RepositionSink t) = m_cbNoCallCount t.
Proof. unfold RepositionSink. destruct (negb _); [|done]. by apply (clear_fold m_cbNoCallCount). Qed.

Lemma closed_free t b v : chair (m_wFirstUser t) → m_cbNoCallCount t = 0 →
  free_ok (t <| m_isflag := b |> <| frameStatus := STATUS_END |> <| m_cbGameStatus := GAME_SCENE_FREE |>
             <| m_cbRemainTime := v |>).
Proof. intros H Hn. split; [done|]. split; [by right|exact Hn]. Qed.

Lemma seated_user t c : seated (core t) → chair c → is_Some (GetTableUserItem t c).
Proof.
  unfold seated, chair, GetTableUserItem. simpl. intros Hs Hc.
  destruct (seats t) as [|o0 [|o1 [|o2 l]]]; try done. simpl in Hs. injection Hs as H0 H1 H2.
  apply bool_decide_eq_true in H0, H1, H2.
  assert (c = 0 ∨ c = 1 ∨ c = 2) as [-> | [-> | ->]] by lia; simpl; done.
Qed.

Lemma sum_counts l : length l = 3%nat → sumZ l = getz l 0 + getz l 1 + getz l 2.
Proof. intros Hl. destruct (three_counts _ Hl) as (x & y & z & ->). unfold getz, aget. change (idx 0) with 0%nat. change (idx 1) with 1%nat.
  change (idx 2) with 2%nat. simpl. lia. Qed.

Lemma getz_setz l c c' n : chair c → chair c' → length l = 3%nat →
  getz (setz l c n) c' = if decide (c' = c) then n else getz l c'.
Proof.
  intros H H' Hl. unfold getz, setz, aget. destruct (decide (c' = c)) as [->|Hne].
  - rewrite list_lookup_insert_eq; [done|]. unfold idx, chair in *. lia.
  - rewrite list_lookup_insert_ne; [done|]. intros E. by apply Hne, chair_idx.
Qed.

Lemma sum_setz l c n : chair c → length l = 3%nat → sumZ (setz l c n) = sumZ l - getz l c + n.
Proof.
  intros Hc Hl. rewrite !sum_counts by (unfold setz; by rewrite ?length_insert).
  rewrite !getz_setz by (done || unfold chair; lia). unfold chair in Hc.
  assert (c = 0 ∨ c = 1 ∨ c = 2) as [-> | [-> | ->]] by lia; simpl; lia.
Qed.

(** The state after a play. *)
Lemma play_facts_play t w cards rest : play_facts (core t) → chair w →
  RemoveCardList cards (hand t w) = Some rest →
  play_facts (core (play_cards t w cards rest)) ∧
  (0 ∉ m_cbSurplusCard t → 0 ∉ cards →
   clean (core (play_cards t w cards rest)) ∧
   sumZ (c_counts (core (play_cards t w cards rest))) = sumZ (m_cbHandCardCount t) - Z.of_nat (length cards) ∧
   0 <= sumZ (c_counts (core (play_cards t w cards rest)))).
Proof.
  intros (Hs & H1 & Hr & Hfl & Hb & Hwin & Hh) Hw Hrem. pose proof (core_play t w cards rest) as Hc.
  set (t' := play_cards t w cards rest) in *. clearbody t'. cbv zeta in Hc. rewrite Hc. clear Hc t'.
  set (n := getz (m_cbHandCardCount t) w - Z.of_nat (length cards)).
  set (r := rest ++ drop _ _). set (k := core t) in *.
  assert (0 ∉ m_cbSurplusCard t → 0 ∉ cards →
    0 <= n ∧ u8 n = n ∧ rows_ok (set_hand k w (u8 n) r) ∧
    all_hands (set_hand k w (u8 n) r) ++ c_played k ++ cards ≡ₚ m_cbCardData) as Hplay.
  { intros H0 H0'. destruct Hh as [Hh|[Hok Hp]]; [done|].
    destruct (play_hand k w cards rest r) as (P1 & P2 & P3 & P4 & _); [done..|].
    exact (conj P1 (conj P2 (conj P3 P4))). }
  split.
  - split_and!; try done. unfold hands_ok. simpl.
    destruct (decide (0 ∈ m_cbSurplusCard t)); [left; apply elem_of_app; by left|].
    destruct (decide (0 ∈ cards)); [left; apply elem_of_app; by right|]. right.
    destruct Hplay as (_ & _ & Hok & Hp); [done..|]. by split.
  - intros H0 H0'. destruct (Hplay H0 H0') as (Hn & Hu & Hok & _). split.
    + intros _. simpl. rewrite elem_of_app. by intros [|].
    + destruct Hh as [Hh|[Hok' _]]; [done|]. destruct Hok' as (Hc & _ & Hall).
      assert (∀ c, chair c → 0 <= getz (m_cbHandCardCount t) c) as Hge by (intros c Hcc; by apply Hall).
      pose proof (Hge 0) as A0. pose proof (Hge 1) as A1. pose proof (Hge 2) as A2. clear Hge Hall.
      simpl. rewrite Hu, sum_setz, sum_counts by done. unfold n in *. unfold chair in *.
      assert (w = 0 ∨ w = 1 ∨ w = 2) as [-> | [-> | ->]] by lia; lia.
Qed.

Lemma out_all_in lead results n found r : (out_all lead results n found).1 = Some r →
  found = Some r ∨ r ∈ results.
Proof.
  revert found. induction results as [|x xs IH]; intros found; cbn [out_all]; [by left|].
  destruct (_ =? n)%nat.
  - destruct (negb lead); [intros E; injection E as <-; right; left|].
    destruct (_ || _); [intros E; injection E as <-; right; left|].
    intros [E|E]%IH; [injection E as <-; right; left|by right; right].
  - intros [E|E]%IH; [by left|by right; right].
Qed.

(** The cards the automatic player plays are not zero. *)
Lemma found_nonzero t w r : play_facts (core t) → chair w → clean (core t) →
  (∃ turn, r ∈ SearchOutCard (hand t w) turn) → (0 ∉ r) ∧ (0 ∉ SortCardList r ST_ORDER).
Proof.
  intros (Hs & _ & _ & _ & _ & _ & Hh) Hw Hc [turn Hr]. specialize (Hc Hs).
  destruct Hh as [Hh|[Hok Hp]]; [done|]. pose proof (held_part _ w _ Hw Hp) as Hsub.
  assert (0 ∉ r) as H0; [|split; [done|by rewrite sorted_perm]].
  intros H0. pose proof (search_held (hand t w) Hsub turn) as Hall. rewrite Forall_forall in Hall.
  specialize (Hall r Hr). rewrite Forall_forall in Hall. specialize (Hall 0 H0).
  by apply (hand_nonzero _ Hsub).
Qed.

Lemma last_card_ok t w : play_facts (core t) → chair w → clean (core t) →
  0 ∉ [last_card t w] ∨ RemoveCardList [last_card t w] (hand t w) = None.
Proof.
  intros (Hs & _ & _ & _ & _ & _ & Hh) Hw Hc. specialize (Hc Hs).
  destruct Hh as [Hh|[Hok Hp]]; [done|]. pose proof (held_part _ w _ Hw Hp) as Hsub.
  pose proof (held_length _ w Hok Hw) as Hl. destruct Hok as (_ & _ & Hall). destruct (Hall w Hw) as [Hrow Hn].
  simpl in *. unfold last_card. change (held (core t) w) with (hand t w) in *.
  destruct (decide (getz (m_cbHandCardCount t) w = 0)) as [E|E].
  - right. rewrite E in Hl. destruct (hand t w) eqn:Eh; [done|simpl in Hl; lia].
  - left. rewrite list_elem_of_singleton. intros E0.
    assert (0 ∈ hand t w) as Hin; [|by apply (hand_nonzero _ Hsub)].
    unfold hand. set (n := Z.to_nat (getz (m_cbHandCardCount t) w)) in *.
    rewrite E0. apply (list_elem_of_lookup_2 _ (n - 1)). unfold MAX_COUNT in *.
    rewrite lookup_take_lt by lia. unfold aget.
    destruct (lookup_lt_is_Some_2 (row (m_cbHandCardData t) w) (n - 1)) as [x Hx]; [lia|].
    by rewrite Hx.
Qed.

Section Handlers.
Context (cfg : Config) (rnd between : nat → Z) (shuf : nat → list Z → list Z).
Context (storage : nat → Z * Z * Z) (running : nat → bool) (value : list Z → Z).
Context (Htest : m_bTestGame cfg = 0) (Hshuf : ∀ k l, shuf k l ≡ₚ l).

(** [aw] is [AutoWork] on the states of measure at most [m]. *)
Context (tot : bool) (m : nat) (aw : Table → option Table).
Context (Hm : tot = true → (1 <= m)%nat).
Context (Haw : ∀ t, Inv t → (tot = true → clean (core t) ∧ (mu (core t) <= m)%nat) → wp tot (aw t) Inv).

Lemma aw_true t : Inv t → (tot = true → clean (core t) ∧ (mu (core t) <= m)%nat) →
  wp tot (t ← aw t; Some (true, t)) snd_ok.
Proof using Hm Haw. clear - Hm Haw. intros H1 H2. eapply wp_bind; [by apply Haw|done]. Qed.

(** *** The start of a game and the bidding *)

Lemma OnGameStart_ok t : start_pre (core t) →
  (tot = true → (3 * Z.to_nat (3 - u8 (m_cbNoCallCount t + 1)) + 4 <= m)%nat) →
  wp tot (OnGameStart cfg rnd between shuf storage value aw t) Inv.
Proof.
  intros Hpre Hmu. unfold OnGameStart.
  pose proof (start_game_inv cfg rnd between shuf storage value Htest Hshuf t Hpre) as (Hi & Hs & _).
  destruct (start_game _ _ _ _ _ _ t) as [t' ok]. cbn [fst snd] in Hi, Hs.
  destruct ok; [|done]. destruct (Hs eq_refl) as (H1 & H2 & H3 & _). apply Haw; [done|].
  intros T. split; [intros E; congruence|]. unfold mu. rewrite H1, H2, H3, dist_self.
  specialize (Hmu T). lia.
Qed.

(** The bottom goes to the banker: the bidding is over. *)
Lemma call_end t : call_facts (core t) → chair (m_wBankerUser t) → m_cbNoCallCount t = 0 → wp tot (aw (give_bottom t)) Inv.
Proof.
  intros (?&?&?&?&?&Hd&?&?&?) Hb Hn. apply Haw; [apply give_bottom_inv; try done; by right|].
  intros T. rewrite core_give_bottom by (done || by apply rows_three, Hd). split; [done|]. by apply Hm.
Qed.

Lemma OnUserCallScore_ok t w b : Inv t → m_cbGameStatus t = GAME_SCENE_CALL →
  (tot = true → (mu (core t) <= S m)%nat) →
  wp tot (OnUserCallScore cfg rnd between shuf storage value aw t w b) snd_ok.
Proof.
  intros Hinv Hsc Hmu. unfold OnUserCallScore.
  destruct (negb (w =? _)) eqn:Ew; [exact Hinv|]. breflect. subst w.
  destruct (isBankerDecided t); [exact Hinv|].
  destruct (inv_call_facts _ Hinv Hsc) as [Hf Hcur]. simpl in Hcur. pose proof (inv_calls _ Hinv Hsc) as Hn1. simpl in Hn1.
  assert (mu (core t) = 3 * Z.to_nat (3 - m_cbNoCallCount t) + dist (m_wFirstUser t) (m_wCurrentUser t) + 1)%nat
    as Emu by (unfold mu; simpl; by rewrite Hsc).
  rewrite Emu in Hmu. clear Emu.
  pose proof (core_take_bid t (m_wCurrentUser t) b) as Hc.
  destruct (take_bid t (m_wCurrentUser t) b) as [t1 c]. cbn [fst] in Hc.
  assert (call_facts (core t1) ∧ m_wFirstUser t1 = m_wFirstUser t ∧ m_cbNoCallCount t1 = m_cbNoCallCount t)
    as (Hf1 & E1 & E2).
  { destruct Hc as [Hc|Hc]; (split; [|split; [exact (f_equal c_first Hc)|exact (f_equal c_calls Hc)]]); rewrite Hc.
    - done.
    - by apply call_facts_banker. }
  rewrite <-E1, <-E2 in Hmu. rewrite <-E2 in Hn1. clear Hc E1 E2 Hinv Hsc Hf.
  set (next := (m_wCurrentUser t + 1) mod 3) in *. set (last := (_ =? 3) || _).
  set (t2 := set_field m_dwStartTime _ _).
  assert (core t2 = core t1 <| c_current := if last then INVALID_CHAIR else next |>) as Hc2 by done.
  assert (call_facts (core t2)) as Hf2 by (rewrite Hc2; by apply call_facts_current).
  assert (m_wFirstUser t2 = m_wFirstUser t1 ∧ m_cbNoCallCount t2 = m_cbNoCallCount t1) as [E1 E2] by done.
  rewrite <-E1, <-E2 in Hmu. rewrite <-E2 in Hn1. clearbody t2. clear E1 E2.
  destruct last eqn:El; cycle 1.
  - (* the next player bids *)
    apply aw_true.
    + unfold Inv. rewrite core_remain, core_send_present. apply call_facts_inv; [done|rewrite Hc2; apply next_chair|simpl; lia].
    + intros T. rewrite core_remain, core_send_present. split; [intros E; destruct Hf2; congruence|].
      unfold mu. rewrite (proj1 Hf2). unfold core. simpl.
      assert (m_wCurrentUser t2 = next) as -> by exact (f_equal c_current Hc2).
      specialize (Hmu T). rewrite (dist_next _ (m_wCurrentUser t)) in Hmu; [fold next in Hmu; lia|apply Hf2|done|].
      apply orb_false_iff in El as [_ El]. breflect. fold next.
      by rewrite (f_equal c_first Hc2 : m_wFirstUser t2 = m_wFirstUser t1).
  - destruct (_ && _) eqn:En.
    + (* nobody bid: deal again *)
      breflect. eapply wp_bind; [apply OnGameStart_ok|done].
      * apply redeal_pre; [done|simpl; lia|simpl; lia].
      * intros T. specialize (Hmu T). assert (0 <= m_cbNoCallCount t2) by apply Hf2.
        pose proof (dist_bound (m_wFirstUser t2) (m_wCurrentUser t)).
        unfold u8. rewrite Z.mod_small by lia. lia.
    + set (t3 := send_present _ _).
      assert (core t3 = core t2 <| c_calls := 0 |>) as Hc3 by apply core_send_present.
      assert (call_facts (core t3)) as Hf3 by (rewrite Hc3; by apply call_facts_calls).
      assert (m_cbNoCallCount t3 = 0) as H03 by exact (f_equal c_calls Hc3). clearbody t3. clear Hc3.
      set (t4 := if m_cbBankerScore t3 =? 0 then _ else t3).
      assert (core t4 = core t3) as Hc4 by (unfold t4; by destruct (_ =? 0)).
      assert (m_cbNoCallCount t4 = 0) as H04 by (etrans; [exact (f_equal c_calls Hc4)|exact H03]).
      rewrite <-Hc4 in Hf3. clearbody t4. clear Hc4.
      set (t5 := if m_wBankerUser t4 =? INVALID_CHAIR then _ else t4).
      assert (m_cbNoCallCount t5 = 0) as H05 by (unfold t5; destruct (m_wBankerUser t4 =? INVALID_CHAIR); exact H04).
      assert (call_facts (core t5) ∧ chair (m_wBankerUser t5)) as [Hf5 Hb5].
      { unfold t5. destruct (m_wBankerUser t4 =? INVALID_CHAIR) eqn:Eb; breflect.
        - assert (chair (m_wFirstUser t4)) by apply Hf3. split; [|done].
          exact (call_facts_banker (core t4) _ Hf3 ltac:(done)).
        - split; [done|]. by destruct Hf3 as (?&?&?&?&?&?&?&[?|?]&?). }
      eapply wp_bind; [by apply call_end|done].
Qed.

(** *** Doubling *)

Lemma OnUserStakeScore_ok t w b : Inv t → m_cbGameStatus t = GAME_SCENE_STAKE →
  wp tot (OnUserStakeScore aw t w b) snd_ok.
Proof using Hm Haw. clear - Hm Haw.
  intros Hinv Hsc. unfold OnUserStakeScore.
  set (s := if _ =? b then CB_NO_ADD_DOUBLE else b). destruct (_ || _); [exact Hinv|].
  set (t1 := set_field m_cbStakeInfo _ t). set (t2 := send_present t1 _).
  assert (core t2 = core t) as Hc by (unfold t2; by rewrite core_send_present). clearbody t2.
  destruct (_ =? 2)%nat; [|unfold wp, snd_ok, Inv; simpl; by rewrite Hc].
  set (t3 := set_field m_cbRemainTime _ _).
  assert (core t3 = core t <| c_scene := GAME_SCENE_STAKEEnd |>) as Hc3.
  { change (core t3) with (core t2 <| c_scene := GAME_SCENE_STAKEEnd |>). by rewrite Hc. }
  clearbody t3. apply aw_true; unfold Inv; rewrite Hc3.
  - destruct Hinv as (H1 & Hr & Hi). unfold CoreInv in Hi. simpl in Hi. rewrite Hsc in Hi.
    split_and!; [apply first_ok_scene; [done|simpl; congruence|done]| |done]. intros _. apply Hr. simpl. congruence.
  - intros T. split; [done|]. by apply Hm.
Qed.

Lemma OnAutoStakeScore_ok t i : Inv t → wp tot (OnAutoStakeScore aw t i) snd_ok.
Proof using Hm Haw. clear - Hm Haw.
  intros Hinv. unfold OnAutoStakeScore. destruct (bool_decide _) eqn:E; [done|].
  apply bool_decide_eq_false, dec_stable in E. destruct (_ && _); [|done].
  eapply wp_bind; [by apply OnUserStakeScore_ok|]. by intros [b t'] H.
Qed.

Lemma for_chairs_ok f t : (∀ i t, Inv t → wp tot (f i t) Inv) → Inv t → wp tot (for_chairs f t) Inv.
Proof using.
  intros Hf Ht. unfold for_chairs. eapply wp_bind; [by apply Hf|]. intros t1 H1.
  eapply wp_bind; [by apply Hf|]. intros t2 H2. by apply Hf.
Qed.

(** *** Playing *)

Lemma OnUserPassCard_ok t w : Inv t → m_cbGameStatus t = GAME_SCENE_PLAY →
  (tot = true → clean (core t) ∧ (mu (core t) <= S m)%nat) → wp tot (OnUserPassCard aw t w) snd_ok.
Proof using Hm Haw. clear - Hm Haw.
  intros Hinv Hsc Hmu. unfold OnUserPassCard. destruct (_ || _) eqn:E; [exact Hinv|].
  apply orb_false_iff in E as [_ E]. breflect. pose proof (core_pass t w) as Hc. cbv zeta in Hc.
  set (t' := pass_card t w) in *. clearbody t'.
  destruct (inv_play_facts _ Hinv Hsc) as [Hf Hcur]. apply aw_true; unfold Inv; rewrite Hc.
  - apply play_facts_inv; [exact Hf|apply next_chair].
  - intros T. destruct (Hmu T) as [Hcl Hle]. split; [exact Hcl|]. unfold mu in Hle |- *. simpl in Hle |- *.
    rewrite Hsc in Hle |- *. rewrite decide_False in Hle by done.
    destruct (_ =? m_wTurnWiner t) eqn:Ew; breflect; [simpl; pose proof (dist_bound (m_wTurnWiner t) (m_wCurrentUser t)); lia|].
    rewrite decide_False by done. rewrite (dist_next _ (m_wCurrentUser t)) in Hle; [lia| |done|done].
    by destruct Hf as (?&?&?&?&?&?&?).
Qed.

(** *** The end of a game *)

Lemma conclude_calls t w : m_cbNoCallCount (OnNormalGameConclude cfg t w) = m_cbNoCallCount t.
Proof.
  unfold OnNormalGameConclude. set (t1 := send_present _ _). change (m_cbNoCallCount t1 = m_cbNoCallCount t).
  unfold t1. rewrite calls_send. etrans; [|reflexivity].
  match goal with |- m_cbNoCallCount (foldl _ ?t0 _) = _ => assert (m_cbNoCallCount t0 = m_cbNoCallCount t) as <- by done; generalize t0 end.
  intros t0. cbn [foldl]. unfold add_user_score. by repeat case_match.
Qed.

Lemma closing_calls u : m_cbNoCallCount (u <| totalMatchSeconds_ := 0 |> <| frameStatus := STATUS_END |>) = m_cbNoCallCount u.
Proof. done. Qed.

Lemma conclude_free t w : chair w → m_cbNoCallCount t = 0 → free_ok (conclude cfg running t w).
Proof.
  intros Hw Hn. apply closed_free; [by rewrite first_reset|].
  by rewrite calls_reset, closing_calls, conclude_calls.
Qed.

Lemma OnEventGameConclude_ok t w : seated (core t) → chair w → m_cbNoCallCount t = 0 →
  wp tot (OnEventGameConclude cfg running aw t w) snd_ok.
Proof using Hm Haw. clear - Hm Haw.
  intros Hs Hw Hn. unfold OnEventGameConclude. destruct (seated_user t w Hs Hw) as [u ->].
  apply aw_true; [by apply free_inv, conclude_free|]. intros T.
  destruct (conclude_free t w Hw Hn) as [Hsc _]. set (t' := conclude cfg running t w) in *. clearbody t'.
  unfold clean, mu. simpl. rewrite Hsc. split; [done|]. by apply Hm.
Qed.

(** *** Playing cards *)

(** A refused play leaves the state alone. *)
Definition out_ok (t : Table) (x : bool * Table) : Prop := Inv x.2 ∧ (x.1 = false → x.2 = t).

Lemma OnUserOutCard_ok t w cards : Inv t → m_cbGameStatus t = GAME_SCENE_PLAY →
  (tot = true → clean (core t) ∧ (mu (core t) <= S m)%nat ∧
                (0 ∉ cards ∨ RemoveCardList cards (hand t w) = None)) →
  wp tot (OnUserOutCard cfg running aw t w cards) (out_ok t).
Proof using Hm Haw. clear - Hm Haw.
  intros Hinv Hsc Hmu. unfold OnUserOutCard.
  destruct (negb (w =? _)) eqn:Ew; [done|]. breflect. subst w.
  destruct (decide (GetCardType cards = CT_ERROR)) as [|Hty]; [done|]. destruct (_ && _); [done|].
  destruct (RemoveCardList cards _) as [rest|] eqn:Hrem; [|done].
  destruct (inv_play_facts _ Hinv Hsc) as [Hf Hcur]. simpl in Hcur.
  destruct (play_facts_play t _ cards rest Hf Hcur Hrem) as [Hpf Hclean].
  pose proof (core_play t (m_wCurrentUser t) cards rest) as Hc. cbv zeta in Hc.
  set (t' := play_cards t _ cards rest) in *. clearbody t'.
  assert (1 <= length cards)%nat as Hlen by (destruct cards; [by destruct Hty|simpl; lia]).
  assert (m_wCurrentUser t' = INVALID_CHAIR ∨ m_wCurrentUser t' = (m_wCurrentUser t + 1) mod 3) as Hnext.
  { rewrite (f_equal c_current Hc : m_wCurrentUser t' = _). simpl. destruct (_ =? 0); auto. }
  assert (m_cbTurnCardCount t' = Z.of_nat (length cards)) as Hturn by exact (f_equal c_turn Hc).
  assert (m_wTurnWiner t' = m_wCurrentUser t) as Hwin by exact (f_equal c_winner Hc). clear Hc.
  destruct (m_wCurrentUser t' =? INVALID_CHAIR) eqn:Ei; breflect.
  - eapply wp_bind; [apply (OnEventGameConclude_ok t' (m_wCurrentUser t)); [|done|]|by intros [].. ];
      destruct Hpf as (Hs & [_ Hn] & Hr & _); [apply Hr; congruence|].
    apply calls_ok_other in Hn; [done|congruence].
  - destruct Hnext as [Hnext|Hnext]; [done|].
    eapply wp_bind; [apply Haw|by split]; unfold Inv; rewrite core_remain.
    + apply play_facts_inv; [done|]. simpl. rewrite Hnext. apply next_chair.
    + intros T. destruct (Hmu T) as (Hcl & Hle & [H0|H0]); [|done].
      destruct Hclean as (H1 & H2 & H3); [by apply Hcl|done|]. split; [done|].
      unfold mu in Hle |- *. simpl in Hle, H2, H3 |- *. rewrite Hsc in Hle. rewrite (proj1 Hpf : m_cbGameStatus t' = _).
      rewrite Hturn, Hnext, Hwin, H2. rewrite H2 in H3. rewrite decide_False by lia.
      assert (dist (m_wCurrentUser t) ((m_wCurrentUser t + 1) mod 3) = 2%nat) as ->.
      { unfold chair in Hcur. assert (m_wCurrentUser t = 0 ∨ m_wCurrentUser t = 1 ∨ m_wCurrentUser t = 2)
          as [-> | [-> | ->]] by lia; done. }
      lia.
Qed.

Lemma out_snd t o : wp tot o (out_ok t) → wp tot o snd_ok.
Proof using. intros H. eapply wp_mono; [exact H|]. by intros x [? _]. Qed.

(** *** The automatic player *)

Lemma auto_lead_ok t : Inv t → m_cbGameStatus t = GAME_SCENE_PLAY →
  (tot = true → clean (core t) ∧ (mu (core t) <= S m)%nat) →
  wp tot (auto_lead cfg running aw t (m_wCurrentUser t)) snd_ok.
Proof using Hm Haw. clear - Hm Haw.
  intros Hinv Hsc Hmu. destruct (inv_play_facts _ Hinv Hsc) as [Hf Hcur]. unfold auto_lead.
  assert (wp tot (OnUserOutCard cfg running aw t (m_wCurrentUser t) [last_card t (m_wCurrentUser t)]) snd_ok) as Hlast.
  { eapply out_snd, OnUserOutCard_ok; [done..|]. intros T. destruct (Hmu T). split_and!; [done..|].
    by apply last_card_ok. }
  destruct (SearchOutCard _ _) as [|r rs] eqn:E; [done|].
  eapply wp_bind; [apply OnUserOutCard_ok; [done..|]|].
  - intros T. destruct (Hmu T). split_and!; [done..|]. left.
    apply (found_nonzero t (m_wCurrentUser t) r); [done..|]. exists []. rewrite E. left.
  - intros [b t'] [H1 H2]. simpl in *. destruct b; [done|]. by rewrite H2.
Qed.

Lemma OnAutoOutCard_ok t w : Inv t → (tot = true → clean (core t) ∧ (mu (core t) <= S m)%nat) →
  wp tot (OnAutoOutCard cfg running aw t w) snd_ok.
Proof using Hm Haw. clear - Hm Haw.
  intros Hinv Hmu. unfold OnAutoOutCard. destruct (_ || _) eqn:E; [exact Hinv|]. breflect. subst w.
  rename H into Hsc. apply bool_decide_eq_false, dec_stable in Hsc. pose proof (inv_play_facts _ Hinv Hsc) as [Hf Hcur].
  assert (wp tot (OnUserPassCard aw t (m_wCurrentUser t)) snd_ok) as Hpass by by apply OnUserPassCard_ok.
  destruct (SearchOutCard _ _) as [|first more] eqn:Es; [done|]. destruct (0 <? _); [|done].
  destruct (out_all _ _ _ _) as [found four] eqn:Eo.
  assert (∀ r, r ∈ first :: more → tot = true →
    clean (core t) ∧ (mu (core t) <= S m)%nat ∧
    (0 ∉ SortCardList r ST_ORDER ∨ RemoveCardList (SortCardList r ST_ORDER) (hand t (m_wCurrentUser t)) = None)) as Hr.
  { intros r Hr T. destruct (Hmu T). split_and!; [done..|]. left.
    apply (found_nonzero t (m_wCurrentUser t) r); [done..|]. exists (turn t). by rewrite Es. }
  destruct (if four then None else found) as [r|] eqn:Ef.
  - eapply out_snd, OnUserOutCard_ok; [done..|]. apply Hr. destruct four; [done|]. subst found.
    destruct (out_all_in (leads t) (first :: more) (length (hand t (m_wCurrentUser t))) None r) as [?|?];
      [by rewrite Eo|done|done].
  - destruct (_ =? 0); [by apply auto_lead_ok|].
    eapply wp_bind; [apply OnUserOutCard_ok; [done..|apply Hr; left]|].
    intros [b t'] [H1 H2]. simpl in *. destruct b; [done|]. by rewrite H2.
Qed.

(** *** [AutoWork] *)

Lemma OnAutoCallScore_ok t w : Inv t → (tot = true → clean (core t) ∧ (mu (core t) <= S m)%nat) →
  wp tot (OnAutoCallScore cfg rnd between shuf storage value aw t w) snd_ok.
Proof.
  intros Hinv Hmu. unfold OnAutoCallScore. destruct (_ || _) eqn:E; [exact Hinv|]. breflect.
  apply bool_decide_eq_false, dec_stable in H.
  apply OnUserCallScore_ok; [done|done|intros T; by apply Hmu].
Qed.

Lemma snd_inv o : wp tot o snd_ok → wp tot (snd <$> o) Inv.
Proof using. intros H. eapply wp_fmap; [exact H|done]. Qed.

(** A step that leaves the core alone, before the automatic player acts. *)
Lemma auto_out_core t t' w : core t' = core t → Inv t →
  (tot = true → clean (core t) ∧ (mu (core t) <= S m)%nat) →
  wp tot (snd <$> OnAutoOutCard cfg running aw t' w) Inv.
Proof using Hm Haw. clear - Hm Haw.
  intros Hc Hinv Hmu. apply snd_inv, OnAutoOutCard_ok; [by apply (Inv_core t)|by rewrite Hc].
Qed.

Lemma AutoWork_body_ok t : Inv t → (tot = true → clean (core t) ∧ (mu (core t) <= S m)%nat) →
  wp tot (AutoWork_body cfg rnd between shuf storage running value aw t) Inv.
Proof.
  intros Hinv Hmu. unfold AutoWork_body. destruct (m_cbGameStatus t) eqn:Es; try done.
  - destruct (IsOfflineTrustee _ _); [|done]. by apply snd_inv, OnAutoCallScore_ok.
  - apply for_chairs_ok; [|done]. intros i t' Ht'. destruct (_ && _); [|done].
    by apply snd_inv, OnAutoStakeScore_ok.
  - destruct (GetTableUserItem _ _) as [u|]; [|done]. destruct (decide _).
    { by apply (auto_out_core t); [apply core_trust|..]. }
    destruct (IsCanOutAllCard _ _); [|done]. apply (auto_out_core t); [|done..].
    destruct (_ && _); [|done]. destruct (_ <? 20); by rewrite ?core_trust.
Qed.
End Handlers.

(** ** The recursion ends *)

Lemma mu_small k : (mu k <= 1)%nat →
  c_scene k ≠ GAME_SCENE_CALL ∧ c_scene k ≠ GAME_SCENE_STAKE ∧ c_scene k ≠ GAME_SCENE_PLAY.
Proof.
  unfold mu. pose proof (dist_bound (c_first k) (c_current k)). destruct (c_scene k); try lia; done.
Qed.

Lemma mu_bound t : Inv t → clean (core t) → (mu (core t) <= 221)%nat.
Proof.
  intros (_ & Hr & Hi) Hc. unfold mu, clean, CoreInv in *. destruct (c_scene (core t)) eqn:Es; try lia.
  - pose proof (dist_bound (c_first (core t)) (c_current (core t))).
    destruct Hr as (_ & _ & H0); [congruence|]. lia.
  - destruct Hi as (_ & _ & _ & _ & [Hi|[Hok Hp]]); [by destruct Hc|].
    pose proof (dist_bound (c_winner (core t)) (c_current (core t))).
    assert (sumZ (c_counts (core t)) <= 54); [|case_decide; lia].
    rewrite sum_counts by apply Hok.
    rewrite <-!(held_length (core t)) by (done || unfold chair; lia).
    apply Permutation_length in Hp. unfold all_hands in Hp. rewrite !length_app in Hp.
    change (length m_cbCardData) with 54%nat in Hp. lia.
Qed.

Section Auto.
Context (cfg : Config) (rnd between : nat → Z) (shuf : nat → list Z → list Z).
Context (storage : nat → Z * Z * Z) (running : nat → bool) (value : list Z → Z).
Context (Htest : m_bTestGame cfg = 0) (Hshuf : ∀ k l, shuf k l ≡ₚ l).

Lemma AutoWork_ok tot fuel t : Inv t → (tot = true → clean (core t) ∧ (mu (core t) <= fuel)%nat) →
  wp tot (AutoWork cfg rnd between shuf storage running value fuel t) Inv.
Proof.
  revert t. induction fuel as [|f IH]; intros t Hinv Hmu; cbn [AutoWork].
  { simpl. destruct tot; [|done]. destruct (Hmu eq_refl) as [_ Hle].
    unfold mu in Hle. pose proof (dist_bound (c_first (core t)) (c_current (core t))).
    destruct (c_scene (core t)); lia. }
  destruct f as [|f].
  - destruct tot.
    + destruct (Hmu eq_refl) as [_ Hle]. apply mu_small in Hle as (H1 & H2 & H3). simpl in H1, H2, H3.
      unfold AutoWork_body. by destruct (m_cbGameStatus t).
    + apply (AutoWork_body_ok cfg rnd between shuf storage running value Htest Hshuf false 1); [done|done|done|done].
  - eapply (AutoWork_body_ok cfg rnd between shuf storage running value Htest Hshuf tot (S f)); [lia|apply IH|done|done].
Qed.
End Auto.
