(* ===== verification/DdzSteps.v ===== *)
(** Dou Dizhu, the table as a transition system: the client messages, the timers,
    users who sit down, come, leave or go offline, in any order.  The theorems are
    about every state such a table reaches. *)
From stdpp Require Import base list numbers sorting.
From Stdlib Require Import ZArith Lia.
From S2P Require Import Prelude GameDefine Cards DdzLogic DdzRules DdzSearch DdzSearchFacts DdzHeld DdzSettle DdzTable DdzInv DdzReach.

#[local] Open Scope Z_scope.

(** The room and the outside world, the arguments of [DdzTable]. *)
Record World := MkWorld {
  w_cfg : Config;
  w_rnd : nat → Z;
  w_between : nat → Z;
  w_shuf : nat → list Z → list Z;
  w_storage : nat → Z * Z * Z;
  w_running : nat → bool;
  w_value : list Z → Z
}.

(** What the theorems ask of it: no test mode, and [std::shuffle] permutes. *)
Record fair (w : World) : Prop := MkFair {
  fair_test : m_bTestGame (w_cfg w) = 0;
  fair_shuf : ∀ k l, w_shuf w k l ≡ₚ l
}.

(** [on w fuel f] passes the world to a handler. *)
Abbreviation on w f := (f (w_cfg w) (w_rnd w) (w_between w) (w_shuf w) (w_storage w) (w_running w) (w_value w)) (only parsing).

(** One event at the table. *)
Inductive Step (w : World) (fuel : nat) : Table → Table → Prop :=
  | step_message t chair cmd b t' :
      on w OnGameMessage fuel t chair cmd = Some (b, t') → Step w fuel t t'
  | step_timer t t' : on w OnTimer fuel t = Some t' → Step w fuel t t'
  | step_call_timer t t' : on w OnCallBankerTimer fuel t = Some t' → Step w fuel t t'
  | step_stake_timer t t' : on w OnCallStakeTimer fuel t = Some t' → Step w fuel t t'
  | step_trust_timer t t' : on w OnUserTrustTimer fuel t = Some t' → Step w fuel t t'
  | step_ready_timer t t' : on w OnTimerGameReadyOver fuel t = Some t' → Step w fuel t t'
  | step_enter t userid b t' : on w OnUserEnter fuel t userid = Some (b, t') → Step w fuel t t'
  | step_left t userid : Step w fuel t (OnUserLeft t userid).2
  | step_sit t c u : chair c → seats t !! idx c = Some None → Step w fuel t (set_user t c (Some u))
  | step_user t c u u' : GetTableUserItem t c = Some u → Step w fuel t (set_user t c (Some u')).

(** The states a table reaches; each event has its own fuel. *)
Inductive reachable (w : World) : Table → Prop :=
  | reach_new m : reachable w (new_table m)
  | reach_step fuel t t' : reachable w t → Step w fuel t t' → reachable w t'.

(** ** The handlers keep the invariant *)

Lemma free_ok_core t t' : core t' = core t → free_ok t → free_ok t'.
Proof.
  unfold free_ok. intros Hc. change (m_cbGameStatus t') with (c_scene (core t')).
  change (m_cbGameStatus t) with (c_scene (core t)). by rewrite Hc.
Qed.

Lemma free_ok_clear t c : free_ok t → free_ok (ClearTableUser t c).
Proof. intros H. unfold ClearTableUser. by repeat case_match. Qed.

Lemma clean_user_free t : free_ok t → free_ok (CleanUser t).
Proof.
  unfold CleanUser. intros H. destruct (match _ with [] => _ | _ => _ end); [done|].
  apply free_foldl; [|done]. intros u i Hu. destruct (IsAndroid u i); [by apply free_ok_clear|done].
Qed.

Lemma timer_free_ok t : free_ok t → free_ok (timer_free t).
Proof.
  intros H. unfold timer_free. set (t1 := set_field frameStatus _ t).
  assert (free_ok t1) as H1 by done. clearbody t1.
  destruct (negb (m_isflag t1)); (apply free_foldl; [|done]); intros u i Hu.
  - destruct (GetTableUserItem u i); [|done]. apply free_ok_clear.
    by apply (free_ok_core u); [apply core_set_status|].
  - destruct (GetTableUserItem u i) as [x|]; [|done]. destruct (u_id x <=? 0); [done|]. destruct (decide _); [by apply free_ok_clear|].
    assert (free_ok (ClearTableUser (set_status u i sGetout) i)) as Hc.
    { apply free_ok_clear. by apply (free_ok_core u); [apply core_set_status|]. }
    destruct (u_android x); [done|by apply clean_user_free].
Qed.

Lemma inv_free t : Inv t → m_cbGameStatus t = GAME_SCENE_FREE → free_ok t.
Proof. by intros (? & _). Qed.

(** The end of the bidding and of the doubling. *)
Lemma stake_inv k : KInv k → c_scene k = GAME_SCENE_CALLEnd → KInv (k <| c_scene := GAME_SCENE_STAKE |>).
Proof.
  intros (H1 & Hr & Hi) Hs. unfold CoreInv in Hi. rewrite Hs in Hi. split_and!; [apply first_ok_scene; [done|congruence|done]| |done].
  intros _. apply Hr. by rewrite Hs.
Qed.

Lemma play_inv k : KInv k → c_scene k = GAME_SCENE_STAKEEnd →
  KInv (k <| c_scene := GAME_SCENE_PLAY |>) ∧ clean (k <| c_scene := GAME_SCENE_PLAY |>).
Proof.
  intros (H1 & Hr & Hi) Hs. unfold CoreInv in Hi. rewrite Hs in Hi.
  destruct Hi as (Hf & Hok & Hp & Hb & Hc & Hw & _ & Hall). split.
  - split_and!; [apply first_ok_scene; [done|congruence|done]|intros _; apply Hr; by rewrite Hs|].
    split_and!; [done|done|by simpl; rewrite Hc|done|]. right. split; [done|].
    simpl. by rewrite Hp, app_nil_r.
  - intros _. simpl. rewrite Hp. apply not_elem_of_nil.
Qed.

Lemma inv_start t : Inv t → seated (core t) → m_cbGameStatus t = GAME_SCENE_FREE → start_pre (core t).
Proof.
  intros (H1 & _) Hs Hf. split_and!; [apply H1..|done|done|].
  destruct H1 as [_ H1]. apply calls_ok_other in H1; [|simpl; congruence]. rewrite H1. lia.
Qed.

Lemma inv_frame t : Inv t → frameStatus t ≠ STATUS_START → m_cbGameStatus t = GAME_SCENE_FREE.
Proof.
  intros (_ & Hr & _) Hf. destruct (decide (m_cbGameStatus t = GAME_SCENE_FREE)) as [|Hs]; [done|].
  destruct (Hr Hs). done.
Qed.

Lemma three_seated t : (3 <= player_count t)%nat → seated (core t).
Proof.
  unfold player_count, GetTableUserItem, seated. simpl. rewrite !filter_cons, filter_nil.
  destruct (seats t) as [|[] [|[] [|[] ?]]]; simpl; try (repeat case_decide; simpl in *; try done; lia).
Qed.

Lemma check_playing_core t chair u t' : check_playing t chair u = Some t' → core t' = core t.
Proof.
  unfold check_playing. destruct (decide _); [by intros [= <-]|]. destruct (_ && _); [done|].
  destruct (_ && _); intros [= <-]; [apply core_set_status|done].
Qed.

Section Steps.
Context (w : World) (Hw : fair w) (tot : bool) (fuel : nat).

(** Fuel for the longest game. *)
Definition fit (t : Table) : Prop := tot = true → clean (core t) ∧ (221 <= fuel)%nat.

Let Htest := fair_test w Hw.
Let Hshuf := fair_shuf w Hw.

Context (Hfuel : tot = true → (221 <= fuel)%nat).

Lemma aw_ok t : Inv t → (tot = true → clean (core t) ∧ (mu (core t) <= fuel)%nat) →
  wp tot (on w AutoWork fuel t) Inv.
Proof. apply AutoWork_ok; [exact Htest|exact Hshuf]. Qed.

Lemma fuel_one : tot = true → (1 <= fuel)%nat.
Proof. intros T. specialize (Hfuel T). lia. Qed.

Lemma fit_mu t : Inv t → (tot = true → clean (core t)) →
  tot = true → clean (core t) ∧ (mu (core t) <= S fuel)%nat.
Proof.
  intros Hi Hc T. split; [by apply Hc|]. pose proof (mu_bound t Hi (Hc T)). specialize (Hfuel T). lia.
Qed.

Lemma aw_fit t : Inv t → (tot = true → clean (core t)) → wp tot (on w AutoWork fuel t) Inv.
Proof.
  intros Hi Hc. apply aw_ok; [done|]. intros T. split; [by apply Hc|].
  pose proof (mu_bound t Hi (Hc T)). specialize (Hfuel T). lia.
Qed.

Lemma OnTimer_ok t : Inv t → wp tot (on w OnTimer fuel t) Inv.
Proof.
  intros Hi. unfold OnTimer. destruct (m_cbGameStatus t) eqn:Es; try done.
  - by apply free_inv, timer_free_ok, inv_free.
  - set (t' := set_field m_cbRemainTime _ _).
    assert (core t' = core t <| c_scene := GAME_SCENE_STAKE |>) as Hc by done. clearbody t'.
    apply aw_fit; [unfold Inv; rewrite Hc; by apply stake_inv|]. by rewrite Hc.
  - set (t' := set_field m_cbRemainTime _ _).
    assert (core t' = core t <| c_scene := GAME_SCENE_PLAY |>) as Hc by done. clearbody t'.
    destruct (play_inv _ Hi Es) as [H1 H2].
    apply aw_fit; [unfold Inv; by rewrite Hc|by rewrite Hc].
Qed.

Lemma OnCallBankerTimer_ok t : Inv t → (tot = true → clean (core t)) →
  wp tot (on w OnCallBankerTimer fuel t) Inv.
Proof.
  intros Hi Hc. unfold OnCallBankerTimer. destruct (m_cbGameStatus t); try done.
  apply snd_inv. eapply OnAutoCallScore_ok with (m := fuel); eauto using aw_ok, fuel_one, fit_mu.
Qed.

Lemma OnCallStakeTimer_ok t : Inv t → wp tot (on w OnCallStakeTimer fuel t) Inv.
Proof.
  intros Hi. unfold OnCallStakeTimer. destruct (m_cbGameStatus t); try done.
  apply for_chairs_ok; [|done]. intros i t' Ht'. destruct (_ && _); [|done].
  apply snd_inv. eapply OnAutoStakeScore_ok with (m := fuel); eauto using aw_ok, fuel_one.
Qed.

Lemma OnUserTrustTimer_ok t : Inv t → (tot = true → clean (core t)) →
  wp tot (on w OnUserTrustTimer fuel t) Inv.
Proof.
  intros Hi Hc. unfold OnUserTrustTimer. destruct (m_cbGameStatus t); try done.
  eapply auto_out_core with (m := fuel) (t := t); eauto using aw_ok, fuel_one, fit_mu, core_trust.
Qed.
(** The start of a game from between two games. *)
Lemma start_ok t : start_pre (core t) →
  wp tot (OnGameStart (w_cfg w) (w_rnd w) (w_between w) (w_shuf w) (w_storage w) (w_value w)
            (on w AutoWork fuel) t) Inv.
Proof.
  intros Hp. eapply OnGameStart_ok with (m := fuel); eauto using aw_ok, fuel_one.
  intros T. specialize (Hfuel T). unfold u8. lia.
Qed.

Lemma core_inv t t' : core t' = core t → Inv t → Inv t'.
Proof. apply Inv_core. Qed.

(** *** Messages *)

(** A command of at most twenty cards without card byte 0, or with a chair of the table. *)
Definition cmd_ok (c : Cmd) : Prop :=
  match c with
  | C_OUT_CARD data count => (0 ∉ wire_cards data count) ∧ (length data ≤ MAX_COUNT)%nat ∧ u8 count <= Z.of_nat MAX_COUNT
  | C_CANCEL_TRUSTEE w => u16 w < 3 ∨ u16 w = INVALID_CHAIR
  | C_CHEAT_LOOK_CARD w => 0 <= w
  | _ => True
  end.

Lemma core_untrust_eq t c : core (untrust t c) = core t.
Proof. done. Qed.

Lemma cancel_trustee_ok t c : Inv t → (tot = true → clean (core t) ∧ (u16 c < 3 ∨ u16 c = INVALID_CHAIR)) →
  wp tot (cancel_trustee (w_cfg w) (w_rnd w) (w_between w) (w_shuf w) (w_storage w) (w_running w) (w_value w)
            fuel t c) snd_ok.
Proof.
  intros Hi Hc'. assert (tot = true → clean (core t)) as Hc by (intros T; by apply Hc').
  unfold cancel_trustee. destruct (Z.eqb_spec (u16 c) INVALID_CHAIR) as [|Hne]; [done|].
  destruct (Z.leb_spec 3 (u16 c)) as [Hge|_].
  { cbn. destruct tot; [|done]. destruct (Hc' eq_refl) as (_ & [?|?]); [lia|done]. }
  destruct (_ || _); [done|].
  set (t1 := OnUserTrust t _ false). assert (core t1 = core t) as Hc1 by apply core_trust. clearbody t1.
  destruct (_ && _); [|exact (core_inv _ _ Hc1 Hi)].
  set (t2 := set_field m_cbRemainTime _ _). assert (core t2 = core t) as Hc2 by exact Hc1. clearbody t2.
  eapply wp_bind; [apply aw_fit|done]; [by apply (core_inv t)|by rewrite Hc2].
Qed.

Lemma trustee_ok t chair u : Inv t → (tot = true → clean (core t)) →
  wp tot (on w trustee_cmd fuel t chair u) snd_ok.
Proof.
  intros Hi Hc. unfold trustee_cmd. set (st := if decide (_ = GAME_SCENE_FREE) then _ else Some t).
  assert (∀ t', st = Some t' → core t' = core t) as Hst.
  { intros t'. unfold st. destruct (decide _); [|by intros [= <-]]. destruct (_ && _); [done|].
    destruct (_ && _); intros [= <-]; [apply core_set_status|done]. }
  destruct st as [t0|]; [|done]. specialize (Hst t0 eq_refl).
  set (t1 := OnUserTrust t0 chair true).
  assert (core t1 = core t) as Hc1 by (unfold t1; by rewrite core_trust). clearbody t1.
  destruct (_ && _); [|exact (core_inv _ _ Hc1 Hi)].
  set (t2 := set_field m_bhaveCancelTrustee _ _). assert (core t2 = core t) as Hc2 by exact Hc1. clearbody t2.
  assert (Inv t2) as Hi2 by by apply (core_inv t).
  eapply wp_bind; [eapply OnAutoOutCard_ok with (m := fuel); eauto using aw_ok, fuel_one|].
  - apply fit_mu; [done|by rewrite Hc2].
  - by intros [b t'].
Qed.

Lemma OnGameMessage_ok t chair cmd : Inv t → (tot = true → clean (core t) ∧ cmd_ok cmd) →
  wp tot (on w OnGameMessage fuel t chair cmd) snd_ok.
Proof.
  intros Hi Hc. unfold OnGameMessage. destruct (GetTableUserItem t chair) as [u|]; [|exact Hi].
  assert (∀ t1, check_playing t chair u = Some t1 → Inv (untrust t1 chair) ∧
    (tot = true → clean (core (untrust t1 chair)) ∧ (mu (core (untrust t1 chair)) <= S fuel)%nat)) as Hcheck.
  { intros t1 H1%check_playing_core. assert (Inv t1) as Hi1 by by apply (core_inv t).
    split; [exact Hi1|]. rewrite core_untrust_eq. apply fit_mu; [done|]. rewrite H1. intros T. by apply Hc. }
  assert (∀ t1, check_playing t chair u = Some t1 → Inv t1) as Hplain by by intros t1 [? _]%Hcheck.
  destruct cmd as [info|info|data count| | |c|c|].
  - destruct (check_playing t chair u) as [t1|]; [|exact Hi]. destruct (Hcheck t1 eq_refl) as [Hi1 Hm1].
    destruct (decide _) as [Es|]; [|by apply Hplain].
    eapply OnUserCallScore_ok with (m := fuel); eauto using aw_ok, fuel_one. intros T. by apply Hm1.
  - destruct (check_playing t chair u) as [t1|]; [|exact Hi]. destruct (Hcheck t1 eq_refl) as [Hi1 Hm1].
    destruct (_ =? _); [by apply Hplain|]. destruct (decide _) as [Es|]; [|by apply Hplain].
    eapply OnUserStakeScore_ok with (m := fuel); eauto using aw_ok, fuel_one.
  - destruct (check_playing t chair u) as [t1|]; [|exact Hi]. destruct (Hcheck t1 eq_refl) as [Hi1 Hm1].
    destruct (decide _) as [Es|]; [|by apply Hplain].
    destruct (wire_overrun t1 chair data count) eqn:Ew.
    { cbn. destruct tot; [|done]. exfalso. destruct (Hc eq_refl) as (_ & _ & Hl & Hn). unfold wire_overrun in Ew.
      replace (MAX_COUNT <? length data)%nat with false in Ew by (symmetry; by apply Nat.ltb_ge).
      replace (Z.of_nat MAX_COUNT <? u8 count) with false in Ew by (symmetry; by apply Z.ltb_ge).
      by rewrite andb_false_r in Ew. }
    eapply out_snd, OnUserOutCard_ok with (m := fuel); eauto using aw_ok, fuel_one.
    intros T. destruct (Hm1 T), (Hc T) as (_ & ? & _). split_and!; [done..|by left].
  - destruct (decide _) as [Es|]; [|exact Hi].
    destruct (check_playing t chair u) as [t1|] eqn:E; [|exact Hi]. destruct (Hcheck t1 eq_refl) as [Hi1 Hm1].
    apply check_playing_core in E.
    eapply OnUserPassCard_ok with (m := fuel); eauto using aw_ok, fuel_one.
    change (c_scene (core (untrust t1 chair)) = GAME_SCENE_PLAY). by rewrite core_untrust_eq, E.
  - apply trustee_ok; [done|]. intros T. by apply Hc.
  - apply cancel_trustee_ok; [done|]. intros T. by apply Hc.
  - destruct (negb _); [exact Hi|]. destruct (3 <=? c); [exact Hi|]. destruct (Z.ltb_spec c 0); [|exact Hi].
    cbn. destruct tot; [|done]. destruct (Hc eq_refl) as [_ H0]. simpl in H0. lia.
  - exact Hi.
Qed.

(** *** Users who come and go *)

(** Who is alone at the table is no robot. *)
Definition first_real (t : Table) : Prop := player_count t = 1%nat → real_count t = 1%nat.

Lemma OnUserEnter_ok t id : Inv t → (tot = true → first_real t) →
  wp tot (on w OnUserEnter fuel t id) snd_ok.
Proof.
  intros Hi Hreal. unfold OnUserEnter. destruct (find_user t id) as [[c u]|]; [|exact Hi].
  destruct ((player_count t =? 1)%nat && negb (real_count t =? 1)%nat) eqn:Ea.
  { cbn. destruct tot; [|done]. apply andb_true_iff in Ea as [E1 E2]. apply Nat.eqb_eq in E1.
    apply negb_true_iff, Nat.eqb_neq in E2. exfalso. by apply E2, Hreal. }
  clear Ea. set (t1 := if (_ =? 1)%nat then _ else t).
  assert (core t1 = core t) as H1 by (unfold t1; by destruct (_ =? 1)%nat).
  clearbody t1. set (t2 := set_status t1 c _).
  assert (core t2 = core t) as H2 by (unfold t2; by rewrite core_set_status). clearbody t2.
  set (t3 := OnEventGameScene t2). assert (core t3 = core t) as H3 by exact H2.
  assert (Inv t3) as Hi3 by by apply (core_inv t). clearbody t3.
  destruct (_ && _) eqn:E; [|done]. breflect.
  eapply wp_bind; [apply start_ok|done]. apply inv_start; [done|apply three_seated; lia|].
  apply inv_frame; [done|]. intros E'. by rewrite E' in *.
Qed.

Lemma OnTimerGameReadyOver_ok t : Inv t →
  wp tot (on w OnTimerGameReadyOver fuel t) Inv.
Proof.
  intros Hi. unfold OnTimerGameReadyOver. destruct (negb _); [exact Hi|].
  set (t1 := set_field totalMatchSeconds_ _ t). assert (core t1 = core t) as H1 by done.
  assert (Inv t1) as Hi1 by by apply (core_inv t).
  clearbody t1.
  destruct (3 <=? _)%nat eqn:E; [done|]. destruct (_ <? _); [done|]. by destruct (_ <=? _).
Qed.

Lemma OnUserLeft_ok t id : Inv t → Inv (OnUserLeft t id).2.
Proof.
  intros Hi. unfold OnUserLeft. destruct (negb _); [done|]. destruct (find_user t id) as [[c u]|]; [|done].
  cbn [snd]. destruct (bool_decide _) eqn:E; [|done]. apply bool_decide_eq_true in E.
  apply free_inv, free_ok_clear. apply (free_ok_core t); [apply core_set_status|].
  apply inv_free; [done|]. by apply inv_frame.
Qed.

Lemma sit_ok t c u : Inv t → chair c → seats t !! idx c = Some None → Inv (set_user t c (Some u)).
Proof.
  intros Hi Hc Hs. apply free_inv. split; [|apply Hi]. change (m_cbGameStatus t = GAME_SCENE_FREE).
  destruct (decide (m_cbGameStatus t = GAME_SCENE_FREE)) as [|Hn]; [done|]. exfalso.
  destruct Hi as (_ & Hr & _). destruct (Hr Hn) as (_ & Hseat & _).
  destruct (seated_user t c Hseat Hc) as [x Hx]. unfold GetTableUserItem in Hx.
  destruct (_ && _); [|done]. by rewrite Hs in Hx.
Qed.
End Steps.

(** ** Every state reached *)

Lemma step_inv w fuel t t' : fair w → Inv t → Step w fuel t t' → Inv t'.
Proof.
  intros Hw Hi Hs. assert (∀ {A} (o : option A) P x, wp false o P → o = Some x → P x) as Hwp.
  { by intros A o P x H ->. }
  destruct Hs as [t c cmd b t' H|t t' H|t t' H|t t' H|t t' H|t t' H|t id b t' H|t id|t c u Hc H|t c u u' H].
  - by apply (Hwp _ _ _ (b, t') (OnGameMessage_ok w Hw false fuel ltac:(done) t c cmd Hi ltac:(done))).
  - by eapply Hwp; [apply (OnTimer_ok w Hw false fuel)|].
  - by eapply Hwp; [apply (OnCallBankerTimer_ok w Hw false fuel)|].
  - by eapply Hwp; [apply (OnCallStakeTimer_ok w Hw false fuel)|].
  - by eapply Hwp; [apply (OnUserTrustTimer_ok w Hw false fuel)|].
  - by eapply Hwp; [apply (OnTimerGameReadyOver_ok w false fuel)|].
  - by apply (Hwp _ _ _ (b, t') (OnUserEnter_ok w Hw false fuel ltac:(done) t id Hi ltac:(done))).
  - by apply OnUserLeft_ok.
  - by apply sit_ok.
  - by apply (Inv_core t); [eapply core_set_user|].
Qed.

Lemma new_inv m : Inv (new_table m).
Proof. apply free_inv. split; [done|split; [by left|done]]. Qed.

Lemma reachable_inv w t : fair w → reachable w t → Inv t.
Proof. intros Hw. induction 1; [apply new_inv|by eapply step_inv]. Qed.

(** The cards not in a hand: the bottom while the players bid, then the cards played. *)
Definition rest_cards (t : Table) : list Z :=
  match m_cbGameStatus t with GAME_SCENE_CALL => m_cbBankerCard t | _ => m_cbSurplusCard t end.

(** C1. No card is lost, doubled or invented: in every state a table reaches, through
    any interleaving of client messages, timers and users who come and go, the three
    hands with the bottom (while bidding) or with the cards played are the pack of 54
    cards, as long as no client has played the card byte 0; and from the end of the
    bidding to the first play the banker holds 20 cards. *)
Theorem reachable_cards w t :
  fair w → reachable w t → m_cbGameStatus t ≠ GAME_SCENE_FREE → 0 ∉ m_cbSurplusCard t →
  hand t 0 ++ hand t 1 ++ hand t 2 ++ rest_cards t ≡ₚ m_cbCardData ∧
  (m_cbGameStatus t ≠ GAME_SCENE_CALL → m_cbSurplusCard t = [] →
   m_cbGameStatus t ≠ GAME_SCENE_PLAY → length (hand t (m_wBankerUser t)) = 20%nat).
Proof.
  intros Hw Hr Hs H0. pose proof (reachable_inv w t Hw Hr) as (_ & _ & Hi). unfold CoreInv in Hi. simpl in Hi.
  assert (∀ l, hand t 0 ++ hand t 1 ++ hand t 2 ++ l = all_hands (core t) ++ l) as Ha.
  { intros l. unfold all_hands. by rewrite <-!app_assoc. }
  rewrite Ha. unfold rest_cards.
  assert (∀ sc, m_cbGameStatus t = sc → sc ≠ GAME_SCENE_FREE → sc ≠ GAME_SCENE_CALL → sc ≠ GAME_SCENE_PLAY →
    rows_ok (core t) → m_cbSurplusCard t = [] → chair (m_wBankerUser t) →
    getz (m_cbHandCardCount t) (m_wBankerUser t) = 20 → all_hands (core t) ≡ₚ m_cbCardData →
    all_hands (core t) ++ m_cbSurplusCard t ≡ₚ m_cbCardData ∧ length (hand t (m_wBankerUser t)) = 20%nat) as Hmid.
  { intros sc _ _ _ _ Hok Hp Hb Hn Hall. rewrite Hp, app_nil_r. split; [done|].
    pose proof (held_length _ _ Hok Hb) as Hl. simpl in Hl. change (held (core t)) with (hand t) in Hl. lia. }
  destruct (m_cbGameStatus t); try done.
  - destruct Hi as (_ & (_ & _ & _ & Hp) & _). by split.
  - destruct Hi as (_ & Hok & Hp & Hb & _ & _ & Hn & Hall). destruct (Hmid GAME_SCENE_CALLEnd); auto.
  - destruct Hi as (_ & Hok & Hp & Hb & _ & _ & Hn & Hall). destruct (Hmid GAME_SCENE_STAKE); auto.
  - destruct Hi as (_ & Hok & Hp & Hb & _ & _ & Hn & Hall). destruct (Hmid GAME_SCENE_STAKEEnd); auto.
  - destruct Hi as (_ & _ & _ & _ & [Hi|[_ Hi]]); [done|]. by split.
Qed.

(** A small world: one floor, no good-card redeals, a stock that never favours the
    house; the first caller is drawn with the third card. *)
Definition demo : World :=
  MkWorld (MkConfig 100 10 0 5 0 0 0 0 0 1 0 []) (λ k, 50 + Z.of_nat k) (λ _, 500) (λ _ l, l)
          (λ _, (0, 0, 0)) (λ _, true) (λ _, 0).

Definition blank_table : Table :=
  MkTable 0 0 0 [] 0 false 0 false 0 0 [] 0 0 [] [] 0 0 [] [] [] [] [] [] [] [] GAME_SCENE_FREE [] 0 false false
          [] 0 0 0 STATUS_INIT [] 0 [].

Lemma demo_fair : fair demo.
Proof. by split. Qed.

(** Three users sit down; the third one to enter starts the game. *)
Definition demo_seated : Table :=
  set_user (set_user (set_user (new_table blank_table) 0 (Some (MkUser 11 sSit false 10000)))
    1 (Some (MkUser 12 sSit false 20000))) 2 (Some (MkUser 13 sSit true 30000)).

Definition demo_dealt : Table :=
  default demo_seated (snd <$> on demo OnUserEnter 256%nat demo_seated 13).

Lemma demo_dealt_reachable : reachable demo demo_dealt.
Proof.
  eapply (reach_step _ 256 demo_seated).
  - repeat (eapply (reach_step _ 256); [|apply step_sit; [by vm_compute|reflexivity]]). apply reach_new.
  - apply (step_enter _ _ _ 13 true). vm_compute. reflexivity.
Defined.

Lemma reachable_cards_witness :
  hand demo_dealt 0 ++ hand demo_dealt 1 ++ hand demo_dealt 2 ++ rest_cards demo_dealt ≡ₚ m_cbCardData.
Proof.
  apply (reachable_cards demo demo_dealt demo_fair demo_dealt_reachable); by_decide.
Defined.

(** ** The automatic player stops *)

(** Without client cards 0 every event is handled within the fuel: at most 221
    nested calls of [AutoWork]. *)
Lemma handlers_total w t fuel : fair w → Inv t → clean (core t) → (221 <= fuel)%nat →
  (∃ t', on w AutoWork fuel t = Some t') ∧
  (∀ chair cmd, cmd_ok cmd → ∃ b t', on w OnGameMessage fuel t chair cmd = Some (b, t')) ∧
  (∃ t', on w OnTimer fuel t = Some t') ∧
  (∃ t', on w OnCallBankerTimer fuel t = Some t') ∧
  (∃ t', on w OnCallStakeTimer fuel t = Some t') ∧
  (∃ t', on w OnUserTrustTimer fuel t = Some t') ∧
  (∃ t', on w OnTimerGameReadyOver fuel t = Some t') ∧
  (first_real t → ∀ id, ∃ b t', on w OnUserEnter fuel t id = Some (b, t')).
Proof.
  intros Hw Hi Hc Hf. assert (∀ A (o : option A) P, wp true o P → ∃ x, o = Some x) as Hwp.
  { intros A [x|] P H; [by exists x|done]. }
  assert (∀ (o : option (bool * Table)) P, wp true o P → ∃ b t', o = Some (b, t')) as Hwp2.
  { intros o P [[b t'] ->]%Hwp. by exists b, t'. }
  split_and!.
  - by eapply Hwp, (aw_fit w Hw true fuel).
  - intros chair cmd Hcmd. by eapply Hwp2, (OnGameMessage_ok w Hw true fuel).
  - by eapply Hwp, (OnTimer_ok w Hw true fuel).
  - by eapply Hwp, (OnCallBankerTimer_ok w Hw true fuel).
  - by eapply Hwp, (OnCallStakeTimer_ok w Hw true fuel).
  - by eapply Hwp, (OnUserTrustTimer_ok w Hw true fuel).
  - by eapply Hwp, (OnTimerGameReadyOver_ok w true fuel).
  - intros Hreal id. by eapply Hwp2, (OnUserEnter_ok w Hw true fuel).
Qed.

(** C14. Nothing hangs: in every state a table reaches in which no card byte 0 has been
    played, every handler returns, whatever the users, the draws and the hands are.
    [AutoWork], the handlers it calls and the handlers that call it again recurse at most
    221 deep: with the fuel 221 none runs out.  The messages are those whose indices are
    within the arrays ([cmd_ok]: at most twenty cards, none of them the byte 0, and chairs
    of the table), and a user enters an empty table only if he is no robot ([first_real],
    which the code asserts). *)
Theorem handlers_return w t fuel :
  fair w → reachable w t → 0 ∉ m_cbSurplusCard t → (221 <= fuel)%nat →
  (∃ t', on w AutoWork fuel t = Some t') ∧
  (∀ chair cmd, cmd_ok cmd → ∃ b t', on w OnGameMessage fuel t chair cmd = Some (b, t')) ∧
  (∃ t', on w OnTimer fuel t = Some t') ∧
  (∃ t', on w OnCallBankerTimer fuel t = Some t') ∧
  (∃ t', on w OnCallStakeTimer fuel t = Some t') ∧
  (∃ t', on w OnUserTrustTimer fuel t = Some t') ∧
  (∃ t', on w OnTimerGameReadyOver fuel t = Some t') ∧
  (first_real t → ∀ id, ∃ b t', on w OnUserEnter fuel t id = Some (b, t')).
Proof. intros Hw Hr Hc Hf. apply handlers_total; [done|by eapply reachable_inv|by intros _|done]. Qed.

Lemma handlers_return_witness : ∃ t', on demo AutoWork 256%nat demo_dealt = Some t'.
Proof. apply (handlers_return demo demo_dealt 256 demo_fair demo_dealt_reachable); [by_decide|lia]. Defined.

(** *** The first game of [demo]: player 0 calls three, a farmer doubles. *)

Definition demo_message (t : Table) (chair : Z) (cmd : Cmd) : Table :=
  default t (snd <$> on demo OnGameMessage 256%nat t chair cmd).
Definition demo_timer (t : Table) : Table := default t (on demo OnTimer 256%nat t).

Definition demo_called : Table := demo_message demo_dealt (m_wCurrentUser demo_dealt) (C_CALL_BANKER 3).
Definition demo_stake : Table := demo_timer demo_called.
Definition demo_doubled : Table :=
  let b := m_wBankerUser demo_stake in
  demo_message (demo_message demo_stake ((b + 1) mod 3) (C_ADD_DOUBLE 2)) ((b + 2) mod 3) (C_ADD_DOUBLE 1).
Definition demo_play : Table := demo_timer demo_doubled.

Lemma demo_play_reachable : reachable demo demo_play.
Proof.
  eapply (reach_step _ 256 demo_doubled); [|apply step_timer; vm_compute; reflexivity].
  eapply (reach_step _ 256 (demo_message demo_stake 0 (C_ADD_DOUBLE 2))).
  2: { apply (step_message _ _ _ 1 (C_ADD_DOUBLE 1) true). vm_compute. reflexivity. }
  eapply (reach_step _ 256 demo_stake).
  2: { apply (step_message _ _ _ 0 (C_ADD_DOUBLE 2) true). vm_compute. reflexivity. }
  eapply (reach_step _ 256 demo_called); [|apply step_timer; vm_compute; reflexivity].
  eapply (reach_step _ 256 demo_dealt); [apply demo_dealt_reachable|].
  apply (step_message _ _ _ 2 (C_CALL_BANKER 3) true). vm_compute. reflexivity.
Qed.
