(* ===== verification/DdzFuel.v ===== *)
(** Dou Dizhu, the fuel of [AutoWork] is no part of its result: more fuel gives the
    same state. *)
From stdpp Require Import base list numbers option.
From Stdlib Require Import ZArith Lia.
From S2P Require Import Prelude GameDefine Cards DdzLogic DdzSearch DdzSettle DdzTable DdzSteps.

#[local] Open Scope Z_scope.

(** [o'] gives every result of [o]. *)
Definition sub {A} (o o' : option A) : Prop := ∀ x, o = Some x → o' = Some x.

Section Sub.
Context {A B : Type}.

Lemma sub_refl (o : option A) : sub o o.
Proof. by intros x. Qed.

Lemma sub_bind (o o' : option A) (f f' : A → option B) :
  sub o o' → (∀ x, sub (f x) (f' x)) → sub (x ← o; f x) (x ← o'; f' x).
Proof. intros Ho Hf y. destruct o as [x|]; [|done]. simpl. rewrite (Ho x eq_refl). apply Hf. Qed.

Lemma sub_fmap (o o' : option A) (f : A → B) : sub o o' → sub (f <$> o) (f <$> o').
Proof. intros Ho y. destruct o as [x|]; [|done]. simpl. by rewrite (Ho x eq_refl). Qed.
End Sub.

Create HintDb sub_db.
#[export] Hint Resolve sub_refl sub_bind sub_fmap : sub_db.

(** Case analysis on what both sides branch on. *)
Ltac sub_crush :=
  repeat match goal with
  | |- sub ?o ?o => apply sub_refl
  | |- sub (mbind _ _) (mbind _ _) => apply sub_bind; [|intros]
  | |- sub (_ <$> _) (_ <$> _) => apply sub_fmap
  | H : ∀ t, sub _ _ |- sub _ _ => apply H
  | |- sub (match ?x with _ => _ end) _ => destruct x
  | |- sub _ _ => progress auto with sub_db
  end.

Section Mono.
Context (cfg : Config) (rnd between : nat → Z) (shuf : nat → list Z → list Z).
Context (storage : nat → Z * Z * Z) (running : nat → bool) (value : list Z → Z).
Context (aw aw' : Table → option Table) (H : ∀ t, sub (aw t) (aw' t)).

Lemma sub_start t : sub (OnGameStart cfg rnd between shuf storage value aw t)
                        (OnGameStart cfg rnd between shuf storage value aw' t).
Proof. unfold OnGameStart. sub_crush. Qed.
Hint Resolve sub_start : sub_db.

Lemma sub_call t c b : sub (OnUserCallScore cfg rnd between shuf storage value aw t c b)
                           (OnUserCallScore cfg rnd between shuf storage value aw' t c b).
Proof. unfold OnUserCallScore. sub_crush. Qed.
Hint Resolve sub_call : sub_db.

Lemma sub_stake t c b : sub (OnUserStakeScore aw t c b) (OnUserStakeScore aw' t c b).
Proof. unfold OnUserStakeScore. sub_crush. Qed.
Hint Resolve sub_stake : sub_db.

Lemma sub_auto_stake t c : sub (OnAutoStakeScore aw t c) (OnAutoStakeScore aw' t c).
Proof. unfold OnAutoStakeScore. sub_crush. Qed.
Hint Resolve sub_auto_stake : sub_db.

Lemma sub_pass t c : sub (OnUserPassCard aw t c) (OnUserPassCard aw' t c).
Proof. unfold OnUserPassCard. sub_crush. Qed.
Hint Resolve sub_pass : sub_db.

Lemma sub_end t c : sub (OnEventGameConclude cfg running aw t c) (OnEventGameConclude cfg running aw' t c).
Proof. unfold OnEventGameConclude. sub_crush. Qed.
Hint Resolve sub_end : sub_db.

Lemma sub_out t c l : sub (OnUserOutCard cfg running aw t c l) (OnUserOutCard cfg running aw' t c l).
Proof. unfold OnUserOutCard. sub_crush. Qed.
Hint Resolve sub_out : sub_db.

Lemma sub_lead t c : sub (auto_lead cfg running aw t c) (auto_lead cfg running aw' t c).
Proof. unfold auto_lead. sub_crush. Qed.
Hint Resolve sub_lead : sub_db.

Lemma sub_auto_out t c : sub (OnAutoOutCard cfg running aw t c) (OnAutoOutCard cfg running aw' t c).
Proof. unfold OnAutoOutCard. sub_crush. Qed.
Hint Resolve sub_auto_out : sub_db.

Lemma sub_auto_call t c : sub (OnAutoCallScore cfg rnd between shuf storage value aw t c)
                              (OnAutoCallScore cfg rnd between shuf storage value aw' t c).
Proof. unfold OnAutoCallScore. sub_crush. Qed.
Hint Resolve sub_auto_call : sub_db.

Lemma sub_chairs f f' t : (∀ i t, sub (f i t) (f' i t)) → sub (for_chairs f t) (for_chairs f' t).
Proof. intros Hf. unfold for_chairs. repeat (apply sub_bind; [apply Hf|intros]). apply Hf. Qed.

Lemma sub_body t : sub (AutoWork_body cfg rnd between shuf storage running value aw t)
                       (AutoWork_body cfg rnd between shuf storage running value aw' t).
Proof.
  unfold AutoWork_body. destruct (m_cbGameStatus t); try apply sub_refl; [sub_crush| |sub_crush].
  apply sub_chairs. intros i u. sub_crush.
Qed.
End Mono.

Lemma AutoWork_sub w f g t : (f <= g)%nat → sub (on w AutoWork f t) (on w AutoWork g t).
Proof.
  revert g t. induction f as [|f IH]; intros g t Hg; [done|]. destruct g as [|g]; [lia|].
  cbn [AutoWork]. apply sub_body. intros u. apply IH. lia.
Qed.

(** The fuel is not part of the behaviour: two runs of [AutoWork] that end give
    the same table, whatever fuel each of them had. *)
Theorem AutoWork_fuel w f g t t1 t2 :
  on w AutoWork f t = Some t1 → on w AutoWork g t = Some t2 → t1 = t2.
Proof.
  intros H1 H2. destruct (decide (f <= g)%nat) as [Hle|Hle].
  - apply (AutoWork_sub w f g t Hle) in H1. congruence.
  - apply (AutoWork_sub w g f t ltac:(lia)) in H2. congruence.
Qed.

(** The dealt table of [demo], where nobody is trusted to the automatic player. *)
Lemma AutoWork_fuel_witness : demo_dealt = demo_dealt.
Proof. apply (AutoWork_fuel demo 1 256 demo_dealt); by vm_compute. Defined.
