(* ===== verification/DdzRound.v ===== *)
(** Dou Dizhu, the rules of the table as an abstract game, and the handlers that
    implement them: a play or a pass of the handlers is a move of the game and a
    refused one is none; the bidding is an auction; the doubling takes one answer of
    each farmer; the end of a game pays the scores of [DdzSettle]. *)
From stdpp Require Import base list numbers sorting.
From Stdlib Require Import ZArith Lia.
From S2P Require Import Prelude GameDefine Cards DdzLogic DdzRules DdzSearch DdzSearchFacts DdzHeld DdzSettle DdzTable DdzInv DdzReach DdzSteps.

#[local] Open Scope Z_scope.

(** ** The abstract game *)

(** The hands, who made the last play and which, and who is to move. *)
Record Round := MkRound {
  r_hands : Z → list Z;
  r_lead : option (Z * list Z);
  r_current : Z
}.

Definition next_player (c : Z) : Z := (c + 1) mod 3.

(** A play: cards of the hand, of a type of the rules, that beat the last play. *)
Definition allowed (r : Round) (cards : list Z) : Prop :=
  GetCardType cards ≠ CT_ERROR ∧
  match r_lead r with Some (_, l) => CompareCard l cards = true | None => True end ∧
  cards ⊆+ r_hands r (r_current r).

Inductive Move : Round → Round → Prop :=
  | move_play r cards r' :
      allowed r cards →
      r_hands r' (r_current r) ++ cards ≡ₚ r_hands r (r_current r) →
      (∀ c, chair c → c ≠ r_current r → r_hands r' c = r_hands r c) →
      r_lead r' = Some (r_current r, cards) →
      r_current r' = (if decide (r_hands r' (r_current r) = []) then INVALID_CHAIR else next_player (r_current r)) →
      Move r r'
  | move_pass r p l r' :
      r_lead r = Some (p, l) →
      (∀ c, chair c → r_hands r' c = r_hands r c) →
      r_current r' = next_player (r_current r) →
      r_lead r' = (if decide (next_player (r_current r) = p) then None else Some (p, l)) →
      Move r r'.

(** What the table knows of the round. *)
Definition round_of (t : Table) : Round :=
  MkRound (hand t) (if decide (m_cbTurnCardCount t = 0) then None else Some (m_wTurnWiner t, turn t))
          (m_wCurrentUser t).

(** ** Plays and passes *)

Lemma data_send_all t m : m_cbTurnCardData (send_all t m) = m_cbTurnCardData t.
Proof. done. Qed.

Lemma turn_play t c cards rest : turn (play_cards t c cards rest) = cards.
Proof.
  unfold turn. assert (m_cbTurnCardCount (play_cards t c cards rest) = Z.of_nat (length cards)) as ->
    by exact (f_equal c_turn (core_play t c cards rest)).
  assert (m_cbTurnCardData (play_cards t c cards rest) = overwrite cards (replicate MAX_COUNT 0)) as ->.
  { unfold play_cards. rewrite data_send_all. destruct (_ || _); reflexivity. }
  by rewrite Nat2Z.id, take_overwrite.
Qed.

Lemma turn_remain t v : turn (t <| m_cbRemainTime := v |>) = turn t.
Proof. done. Qed.
Lemma turn_send_all t m : turn (send_all t m) = turn t.
Proof. done. Qed.

Lemma turn_pass t c : turn (pass_card t c) =
  if next_player (m_wCurrentUser t) =? m_wTurnWiner t then [] else turn t.
Proof.
  unfold pass_card. rewrite turn_remain, turn_send_all.
  set (t1 := set_field m_wCurrentUser _ t).
  change (m_wCurrentUser t1) with (next_player (m_wCurrentUser t)). change (m_wTurnWiner t1) with (m_wTurnWiner t).
  by destruct (_ =? _).
Qed.

(** The end of a play: no card left, no next player. *)
Lemma play_move t cards rest :
  play_facts (core t) → chair (m_wCurrentUser t) → (0 ∉ m_cbSurplusCard t) → (0 ∉ cards) →
  GetCardType cards ≠ CT_ERROR →
  (m_cbTurnCardCount t ≠ 0 → CompareCard (turn t) cards = true) →
  RemoveCardList cards (hand t (m_wCurrentUser t)) = Some rest →
  let t' := play_cards t (m_wCurrentUser t) cards rest in
  Move (round_of t) (round_of t') ∧
  m_wCurrentUser t' = (if decide (hand t' (m_wCurrentUser t) = []) then INVALID_CHAIR
                       else next_player (m_wCurrentUser t)).
Proof.
  cbv zeta.
  intros (_ & _ & _ & _ & _ & _ & Hh) Hc H0 H0' Hty Hcmp Hrem.
  destruct Hh as [Hh|[Hok Hp]]; [done|]. set (c := m_wCurrentUser t) in *.
  pose proof (core_play t c cards rest) as Hcore. cbv zeta in Hcore.
  set (r := rest ++ drop _ _) in Hcore.
  destruct (play_hand (core t) c cards rest r Hc Hok Hp H0' Hrem eq_refl) as (Hn & Hu & Hok' & _ & Hperm).
  change (held (core t) c) with (hand t c) in Hperm. simpl in Hn, Hu, Hok'.
  change (c_counts (core t)) with (m_cbHandCardCount t) in Hperm. set (n := getz (m_cbHandCardCount t) c - Z.of_nat (length cards)) in *.
  set (k' := set_hand (core t) c (u8 n) r) in *. destruct Hok as (Hlc & Hlr & _).
  pose proof (turn_play t c cards rest) as Hturn.
  set (t' := play_cards t c cards rest) in *. clearbody t'.
  assert (∀ c', chair c' → hand t' c' = if decide (c' = c) then take (Z.to_nat n) r else hand t c') as Hhand.
  { intros c' Hc'. change (hand t' c') with (held (core t') c'). rewrite Hcore.
    change (held k' c' = if decide (c' = c) then take (Z.to_nat n) r else held (core t) c').
    unfold k'. rewrite held_set by done. by rewrite Hu. }
  assert (getz (c_counts k') c = n) as Hcount.
  { unfold k'. simpl. rewrite getz_setz by done. by rewrite decide_True. }
  pose proof (held_length k' c Hok' Hc) as Hlen. rewrite Hcount in Hlen.
  unfold k' in Hlen. rewrite held_set, decide_True, Hu in Hlen by done.
  assert (m_wCurrentUser t' = if decide (hand t' c = []) then INVALID_CHAIR else next_player c) as Hcur.
  { pose proof (f_equal c_current Hcore) as Ec. change (c_current (core t')) with (m_wCurrentUser t') in Ec.
    change (c_current (?k <| c_current := ?v |>)) with v in Ec. rewrite Ec, Hcount. clear Ec.
    assert (hand t' c = take (Z.to_nat n) r) as -> by (rewrite Hhand by done; by rewrite decide_True).
    assert (take (Z.to_nat n) r = [] ↔ n = 0) as Hnil.
    { rewrite <-length_zero_iff_nil. lia. }
    destruct (n =? 0) eqn:En; breflect; case_decide; tauto. }
  split; [|exact Hcur].
  apply (move_play _ cards).
  - split_and!; [done| |].
    + simpl. by destruct (decide (m_cbTurnCardCount t = 0)); [|apply Hcmp].
    + change (cards ⊆+ hand t c). rewrite <-Hperm. by apply submseteq_inserts_l.
  - simpl. fold c. rewrite Hhand, decide_True by done. exact Hperm.
  - intros c' Hc' Hne. simpl in *. rewrite Hhand by done. by rewrite decide_False.
  - unfold round_of. cbn [r_lead r_current]. fold c.
    assert (m_cbTurnCardCount t' = Z.of_nat (length cards)) as -> by exact (f_equal c_turn Hcore).
    rewrite decide_False by (destruct cards; [by destruct Hty|simpl; lia]).
    by rewrite Hturn, (f_equal c_winner Hcore : m_wTurnWiner t' = c).
  - exact Hcur.
Qed.

Lemma current_user t w : negb (w =? m_wCurrentUser t) = false → w = m_wCurrentUser t.
Proof. intros H. by breflect. Qed.

(** C10. Playing cards implements the rules: with no card byte 0 among the cards of the
    request nor among the cards played before (the code takes such a byte, which a client can
    send, for a blanked cell of the hand), a request to play cards out of turn, of no type,
    too low or not held leaves the table as it was; every other one is a move of the abstract
    game, the cards join the cards played, and the handler goes on with the end of the game
    when the hand is empty and with the next player otherwise. *)
Theorem OnUserOutCard_refines cfg running aw t w cards :
  Inv t → m_cbGameStatus t = GAME_SCENE_PLAY → 0 ∉ m_cbSurplusCard t → 0 ∉ cards →
  (w ≠ m_wCurrentUser t ∨ ¬ allowed (round_of t) cards →
   ∃ b, OnUserOutCard cfg running aw t w cards = Some (b, t)) ∧
  (w = m_wCurrentUser t → allowed (round_of t) cards →
   ∃ t1, Move (round_of t) (round_of t1) ∧ m_cbSurplusCard t1 = m_cbSurplusCard t ++ cards ∧
         OnUserOutCard cfg running aw t w cards =
         if decide (hand t1 w = []) then '(_, t2) ← OnEventGameConclude cfg running aw t1 w; Some (true, t2)
         else t2 ← aw (t1 <| m_cbRemainTime := out_time t1 |>); Some (true, t2)).
Proof.
  intros Hi Hs H0 H0'. destruct (inv_play_facts _ Hi Hs) as [Hf Hc]. simpl in Hc. unfold OnUserOutCard.
  destruct (negb (w =? m_wCurrentUser t)) eqn:Ew.
  { split; [intros _; by exists true|]. intros -> _. breflect. congruence. }
  apply current_user in Ew as ->. set (c := m_wCurrentUser t) in *.
  assert (hand t c ⊆+ m_cbCardData) as Hpack.
  { destruct Hf as (_ & _ & _ & _ & _ & _ & [Hh|[Hok Hp]]); [done|]. exact (held_part (core t) c _ Hc Hp). }
  assert (length (hand t c) <= MAX_COUNT)%nat as Hlen.
  { destruct Hf as (_ & _ & _ & _ & _ & _ & [Hh|[Hok Hp]]); [done|].
    pose proof (held_length (core t) c Hok Hc) as Hl. destruct Hok as (_ & _ & Hall).
    destruct (Hall c Hc). change (held (core t) c) with (hand t c) in Hl. unfold MAX_COUNT. lia. }
  destruct (remove_list_spec cards (hand t c) H0' (hand_nonzero _ Hpack) Hlen) as [Hyes Hno].
  assert (∀ r, RemoveCardList cards (hand t c) = Some r → cards ⊆+ hand t c) as Hsub.
  { intros r Hr. destruct (decide (cards ⊆+ hand t c)) as [|Hn]; [done|]. rewrite Hno in Hr by done. done. }
  unfold allowed, round_of at 2. cbn [r_lead r_hands r_current]. fold c.
  destruct (decide (GetCardType cards = CT_ERROR)) as [He|He].
  { split; [intros _; by exists false|]. by intros _ (? & _). }
  assert (negb (m_cbTurnCardCount t =? 0) && negb (CompareCard (turn t) cards) = false ↔
          match (if decide (m_cbTurnCardCount t = 0) then None else Some (m_wTurnWiner t, turn t)) with
          | Some (_, l) => CompareCard l cards = true | None => True end) as Hcmp.
  { destruct (m_cbTurnCardCount t =? 0) eqn:E0; breflect; case_decide; try done.
    simpl. by destruct (CompareCard _ _). }
  destruct (negb _ && _) eqn:Eb.
  { split; [intros _; by exists false|]. intros _ (_ & Hl & _). by apply Hcmp in Hl. }
  destruct (RemoveCardList cards (hand t c)) as [rest|] eqn:Hr.
  2: { split; [intros _; by exists false|]. intros _ (_ & _ & Hl). by destruct (Hyes Hl) as (? & ? & _). }
  split.
  { intros [?|Hn]; [done|]. destruct Hn. split_and!; [done|by apply Hcmp|by eapply Hsub]. }
  intros _ _. destruct (play_move t cards rest) as [Hm Hcur]; try done.
  { intros E0. destruct Hcmp as [Hcmp _]. specialize (Hcmp eq_refl). by rewrite decide_False in Hcmp. }
  pose proof (core_play t c cards rest) as Hcore. cbv zeta in Hcore. fold c in Hm, Hcur.
  set (t1 := play_cards t c cards rest) in *. clearbody t1. exists t1.
  split; [done|]. split; [exact (f_equal c_played Hcore)|].
  rewrite Hcur. case_decide; [done|].
  destruct (next_player c =? INVALID_CHAIR) eqn:E; [|done]. breflect.
  pose proof (next_chair c) as Hn. unfold next_player, chair, INVALID_CHAIR in *. lia.
Qed.

Lemma demo_play_inv : Inv demo_play.
Proof. apply (reachable_inv demo); [apply demo_fair|apply demo_play_reachable]. Qed.

(** The banker of [demo] opens with a straight of pairs. *)
Lemma OnUserOutCard_refines_witness :
  ∃ t1, Move (round_of demo_play) (round_of t1) ∧
        m_cbSurplusCard t1 = [61; 45; 60; 44; 59; 43; 58; 42].
Proof.
  destruct (OnUserOutCard_refines (w_cfg demo) (w_running demo) Some demo_play 2
    [61; 45; 60; 44; 59; 43; 58; 42] demo_play_inv) as [_ H]; [by vm_compute|by_decide|by_decide|].
  destruct H as (t1 & Hm & Hs & _); [by vm_compute| |].
  - split_and!; [by vm_compute|by vm_compute|by_decide].
  - exists t1. split; [done|]. rewrite Hs. by vm_compute.
Defined.

(** A pass. *)
Lemma pass_hands t w c : hand (pass_card t w) c = hand t c.
Proof.
  change (hand (pass_card t w) c) with (held (core (pass_card t w)) c). by rewrite core_pass.
Qed.

(** Passing implements the rules: a player who is not to move, or who must lead,
    cannot pass and nothing changes; every other pass is a move of the abstract
    game, and the turn is cleared when it comes back to the player who made the
    last play. *)
Theorem OnUserPassCard_refines aw t w :
  (w ≠ m_wCurrentUser t ∨ m_cbTurnCardCount t = 0 → OnUserPassCard aw t w = Some (true, t)) ∧
  (w = m_wCurrentUser t → m_cbTurnCardCount t ≠ 0 →
   OnUserPassCard aw t w = (t' ← aw (pass_card t w); Some (true, t')) ∧
   Move (round_of t) (round_of (pass_card t w))).
Proof.
  unfold OnUserPassCard. split.
  - intros [Hw|Ht].
    + rewrite (proj2 (Z.eqb_neq _ _) Hw). done.
    + rewrite Ht, orb_true_r. done.
  - intros -> Ht. rewrite Z.eqb_refl, (proj2 (Z.eqb_neq _ _) Ht). split; [done|].
    apply (move_pass _ (m_wTurnWiner t) (turn t)).
    + unfold round_of. simpl. by rewrite decide_False.
    + intros c _. apply pass_hands.
    + exact (f_equal c_current (core_pass t (m_wCurrentUser t))).
    + pose proof (turn_pass t (m_wCurrentUser t)) as Hturn.
      pose proof (core_pass t (m_wCurrentUser t)) as Hc. cbv zeta in Hc.
      set (t' := pass_card t (m_wCurrentUser t)) in *. clearbody t'.
      unfold round_of. cbn [r_lead r_current]. rewrite Hturn.
      assert (m_wTurnWiner t' = m_wTurnWiner t) as -> by exact (f_equal c_winner Hc).
      assert (m_cbTurnCardCount t' = if next_player (m_wCurrentUser t) =? m_wTurnWiner t then 0
                                     else m_cbTurnCardCount t) as -> by exact (f_equal c_turn Hc).
      destruct (next_player _ =? _) eqn:E; breflect.
      * by rewrite !decide_True.
      * by rewrite !decide_False.
Qed.

Lemma OnUserPassCard_refines_witness :
  OnUserPassCard Some demo_play 2 = Some (true, demo_play).
Proof. apply OnUserPassCard_refines. right. by vm_compute. Defined.

(** Two passes close the trick: after a play of chair [c] that the others pass,
    [c] is to move, the turn is empty and he may lead any type; no hand changed. *)
Theorem two_passes t a b :
  chair (m_wTurnWiner t) → m_cbTurnCardCount t ≠ 0 → m_wCurrentUser t = next_player (m_wTurnWiner t) →
  let t2 := pass_card (pass_card t a) b in
  m_wCurrentUser t2 = m_wTurnWiner t ∧ m_cbTurnCardCount t2 = 0 ∧ turn t2 = [] ∧
  ∀ c, hand t2 c = hand t c.
Proof.
  intros Hc Ht Hcur t2. unfold t2. rewrite turn_pass.
  pose proof (core_pass t a) as H1. cbv zeta in H1. rewrite Hcur in H1.
  pose proof (core_pass (pass_card t a) b) as H2. cbv zeta in H2.
  assert (∀ c, hand (pass_card (pass_card t a) b) c = hand t c) as Hh by (intros c; by rewrite !pass_hands).
  set (t1 := pass_card t a) in *. clearbody t1. set (t3 := pass_card t1 b) in *. clearbody t3.
  assert (m_wCurrentUser t1 = next_player (next_player (m_wTurnWiner t))) as E1 by exact (f_equal c_current H1).
  assert (m_wTurnWiner t1 = m_wTurnWiner t) as E2 by exact (f_equal c_winner H1).
  rewrite E1, E2 in H2 |- *.
  assert (next_player (next_player (next_player (m_wTurnWiner t))) = m_wTurnWiner t) as E.
  { unfold next_player, chair in *. assert (m_wTurnWiner t = 0 ∨ m_wTurnWiner t = 1 ∨ m_wTurnWiner t = 2)
      as [-> | [-> | ->]] by lia; done. }
  unfold next_player in E, H2 |- *. rewrite E, Z.eqb_refl in *. split_and!; [|  |done|done].
  - exact (f_equal c_current H2).
  - exact (f_equal c_turn H2).
Qed.

(** The banker of [demo] has played a two. *)
Definition demo_after : Table := play_cards demo_play 2 [50] [79; 78; 49; 61].

Lemma two_passes_witness :
  m_wCurrentUser (pass_card (pass_card demo_after 0) 1) = m_wTurnWiner demo_after.
Proof.
  assert (chair (m_wTurnWiner demo_after)) as H1 by by vm_compute.
  assert (m_cbTurnCardCount demo_after ≠ 0) as H2 by by vm_compute.
  assert (m_wCurrentUser demo_after = next_player (m_wTurnWiner demo_after)) as H3 by by vm_compute.
  exact (proj1 (two_passes demo_after 0 1 H1 H2 H3)).
Defined.
