(* ===== verification/DdzAuction.v ===== *)
(** Dou Dizhu, bidding, doubling and the end of the game: the bidding is an auction
    in which a bid counts when it is above the ones before it, the doubling takes
    one answer of each farmer, and the end of a game adds the scores of
    [DdzSettle] to the balances of the users. *)
From stdpp Require Import base list numbers sorting.
From Stdlib Require Import ZArith Lia.
From S2P Require Import Prelude GameDefine Cards DdzLogic DdzRules DdzSearch DdzSearchFacts DdzSettle DdzTable DdzInv DdzReach DdzSteps.

#[local] Open Scope Z_scope.

(** ** The auction *)

(** What a bid byte is worth: 1, 2 or 3 points, anything else is a pass. *)
Definition bid_value (b : Z) : Z := if (1 <=? b) && (b <=? 3) then b else 0.

(** The best bid so far and who made it. *)
Definition outbid (best : Z * Z) (chair bid : Z) : Z * Z :=
  if best.2 <? bid then (chair, bid) else best.

(** The record of the bid, which no later decision reads. *)
Definition note_bid (t : Table) (w c : Z) : Table :=
  let t := t <| m_cbScoreInfo ::= λ l, setz l w c |> in
  if m_bFisrtCall t then t <| m_bFisrtCall := false |> <| m_cbFirstCall := u8 w |> else t.

Lemma note_bid_same t w c : m_wBankerUser (note_bid t w c) = m_wBankerUser t ∧
  m_cbBankerScore (note_bid t w c) = m_cbBankerScore t ∧ core (note_bid t w c) = core t.
Proof. unfold note_bid. cbv zeta. change (m_bFisrtCall (t <| m_cbScoreInfo ::= ?f |>)) with (m_bFisrtCall t).
  by destruct (m_bFisrtCall t). Qed.

Lemma take_bid_eq t w b : 0 <= m_cbBankerScore t → ∃ c, (take_bid t w b).1 = note_bid
  (if m_cbBankerScore t <? bid_value b
   then t <| m_cbBankerScore := bid_value b |> <| m_wBankerUser := m_wCurrentUser t |> else t) w c.
Proof.
  intros Hs. unfold take_bid, bid_value, CB_NOT_CALL, CB_NO_CALL_BENKER, CB_CALL_BENKER_1, CB_CALL_BENKER_3.
  set (s := m_cbBankerScore t) in *. destruct (decide (1 <= b <= 3)) as [Hb|Hb].
  - rewrite (proj2 (Z.ltb_ge b 0)), (proj2 (Z.ltb_ge 4 b)) by lia. cbn [orb].
    rewrite (proj2 (Z.leb_le 1 b)), (proj2 (Z.leb_le b 3)) by lia. cbn [andb].
    destruct (s <? b) eqn:E; [by eexists|]. breflect. rewrite (proj2 (Z.leb_le b s)) by lia. by eexists.
  - set (c := if (b <? 0) || (4 <? b) then 4 else b).
    assert (c = 0 ∨ c = 4) as Hc.
    { unfold c. destruct (b <? 0) eqn:E1, (4 <? b) eqn:E2; breflect; simpl; lia. }
    assert ((1 <=? c) && (c <=? 3) = false) as -> by (by destruct Hc as [-> | ->]).
    assert ((c <? 1) && (3 <? c) = false) as -> by (by destruct Hc as [-> | ->]).
    assert ((1 <=? b) && (b <=? 3) = false) as ->.
    { destruct (1 <=? b) eqn:E1, (b <=? 3) eqn:E2; breflect; simpl; lia. }
    cbn [andb]. rewrite (proj2 (Z.ltb_ge s 0)) by lia. by eexists.
Qed.

Lemma take_bid_best t b : 0 <= m_cbBankerScore t →
  let t' := (take_bid t (m_wCurrentUser t) b).1 in
  (m_wBankerUser t', m_cbBankerScore t') =
    outbid (m_wBankerUser t, m_cbBankerScore t) (m_wCurrentUser t) (bid_value b) ∧
  core t' = core t <| c_banker := m_wBankerUser t' |> ∧ 0 <= m_cbBankerScore t'.
Proof.
  intros Hs. cbv zeta. destruct (take_bid_eq t (m_wCurrentUser t) b Hs) as [c ->].
  set (t1 := if _ <? _ then _ else t). destruct (note_bid_same t1 (m_wCurrentUser t) c) as (-> & -> & ->).
  unfold t1, outbid. cbn [snd]. destruct (_ <? _) eqn:E; breflect; [|done].
  split; [done|]. split; [done|]. change (0 <= bid_value b). lia.
Qed.

(** Nobody holds 20 cards while the players bid. *)
Lemma dealt_undecided t : dealt (core t) → isBankerDecided t = false.
Proof.
  intros (_ & Hc & _). simpl in Hc. unfold isBankerDecided. by rewrite Hc.
Qed.

(** The hands after the bottom is given to the banker. *)
Lemma give_bottom_hands t : dealt (core t) → chair (m_wBankerUser t) →
  hand (give_bottom t) (m_wBankerUser t) ≡ₚ hand t (m_wBankerUser t) ++ m_cbBankerCard t ∧
  (∀ c, chair c → c ≠ m_wBankerUser t → hand (give_bottom t) c = hand t c).
Proof.
  intros (Hok & Hcnt & Hbot & Hp) Hb. pose proof (core_give_bottom t Hb (rows_three t Hok)) as Hc.
  cbv zeta in Hc. set (b := m_wBankerUser t) in *. simpl in Hcnt, Hbot.
  assert (getz (m_cbHandCardCount t) b = 17) as Hn.
  { rewrite Hcnt. unfold chair in Hb. assert (b = 0 ∨ b = 1 ∨ b = 2) as [-> | [-> | ->]] by lia; done. }
  rewrite Hn in Hc. change (u8 (17 + 3)) with 20 in Hc. change (Z.to_nat 20) with 20%nat in Hc.
  pose proof (held_length _ b Hok Hb) as Hlen. destruct Hok as (Hlc & Hlr & Hlen'). destruct (Hlen' b Hb) as [Hl _].
  simpl in Hl. unfold MAX_COUNT in Hl. set (cells := row (m_cbHandCardData t) b) in *.
  assert (take 17 cells = hand t b) as Eh by (unfold hand; by rewrite Hn).
  assert (length (hand t b) = 17%nat) as Hlh by (rewrite <-Eh, length_take; lia).
  unfold NORMAL_COUNT in Hc. rewrite (drop_ge cells) in Hc by (simpl; lia). rewrite app_nil_r, Eh in Hc.
  set (r := hand t b ++ m_cbBankerCard t) in *.
  assert (length r = 20%nat) as Hr by (unfold r; rewrite length_app; lia).
  rewrite (take_ge r), (drop_ge r), app_nil_r in Hc by lia.
  set (t' := give_bottom t) in *. clearbody t'.
  assert (∀ c, chair c → hand t' c = if decide (c = b) then SortCardList r ST_ORDER else hand t c) as Hh.
  { intros c Hcc. change (hand t' c) with (held (core t') c). rewrite Hc.
    change (held (set_hand (core t) b 20 (SortCardList r ST_ORDER)) c =
            if decide (c = b) then SortCardList r ST_ORDER else held (core t) c).
    rewrite held_set by done. change (Z.to_nat 20) with 20%nat. case_decide; [|done].
    rewrite take_ge; [done|]. simpl. rewrite sort_by_value_length. lia. }
  split; [rewrite Hh, decide_True by done; apply sorted_perm|].
  intros c Hcc Hne. by rewrite Hh, decide_False.
Qed.

Lemma score_give_bottom t : m_cbBankerScore (give_bottom t) = m_cbBankerScore t.
Proof. done. Qed.

Lemma score_send_present t m : m_cbBankerScore (send_present t m) = m_cbBankerScore t.
Proof. unfold send_present. cbn [foldl]. by repeat case_match. Qed.

Lemma bottom_send_present t m : hand (send_present t m) = hand t ∧ m_cbBankerCard (send_present t m) = m_cbBankerCard t.
Proof.
  pose proof (core_send_present t m) as Hc. split; [|exact (f_equal c_bottom Hc)].
  change (held (core (send_present t m)) = held (core t)). by rewrite Hc.
Qed.

(** The last steps of the bidding. *)
Lemma close_bids t : 0 <= m_cbBankerScore t → call_facts (core t) →
  let t' := t <| m_cbNoCallCount := 0 |> in
  ∀ msg,
  let t1 := send_present t' msg in
  let t2 := if m_cbBankerScore t1 =? 0 then t1 <| m_cbBankerScore := 1 |> else t1 in
  let t3 := if m_wBankerUser t2 =? INVALID_CHAIR then t2 <| m_wBankerUser := m_wFirstUser t2 |> else t2 in
  let b := if decide (m_wBankerUser t = INVALID_CHAIR) then m_wFirstUser t else m_wBankerUser t in
  core t3 = core t <| c_calls := 0 |> <| c_banker := b |> ∧ m_cbBankerScore t3 = Z.max 1 (m_cbBankerScore t).
Proof.
  intros Hs Hf t' msg. cbv zeta. set (t1 := send_present t' msg).
  assert (core t1 = core t <| c_calls := 0 |>) as H1 by (unfold t1; by rewrite core_send_present).
  assert (m_cbBankerScore t1 = m_cbBankerScore t) as Hs1 by (unfold t1; by rewrite score_send_present).
  clearbody t1. set (t2 := if m_cbBankerScore t1 =? 0 then _ else t1).
  assert (core t2 = core t1 ∧ m_cbBankerScore t2 = Z.max 1 (m_cbBankerScore t1)) as [H2 Hs2].
  { unfold t2. destruct (_ =? 0) eqn:E; breflect; (split; [done|]).
    - change (1 = Z.max 1 (m_cbBankerScore t1)). lia.
    - lia. }
  clearbody t2. rewrite H1 in H2. clear H1. rewrite Hs1 in Hs2. clear Hs1 t1.
  assert (m_wBankerUser t2 = m_wBankerUser t) as Eb by exact (f_equal c_banker H2).
  assert (m_wFirstUser t2 = m_wFirstUser t) as Ef by exact (f_equal c_first H2).
  rewrite Eb. destruct (m_wBankerUser t =? INVALID_CHAIR) eqn:E; breflect.
  - rewrite decide_True by done. split; [|exact Hs2].
    change (core (t2 <| m_wBankerUser := m_wFirstUser t2 |>)) with (core t2 <| c_banker := m_wFirstUser t2 |>).
    by rewrite H2, Ef.
  - rewrite decide_False by done. split; [|exact Hs2]. by rewrite H2.
Qed.

(** The table [t2] after a bid that makes [best] the best bid and [cur] the next player;
    the rest is as in [t]. *)
Record Called (t t2 : Table) (best : Z * Z) (cur : Z) : Prop := MkCalled {
  cl_best : (m_wBankerUser t2, m_cbBankerScore t2) = best;
  cl_cur : m_wCurrentUser t2 = cur;
  cl_first : m_wFirstUser t2 = m_wFirstUser t;
  cl_calls : m_cbNoCallCount t2 = m_cbNoCallCount t;
  cl_bottom : m_cbBankerCard t2 = m_cbBankerCard t;
  cl_hand : hand t2 = hand t;
  cl_facts : call_facts (core t2)
}.

(** [take_bid] and the two assignments after it. *)
Lemma bid_called t b cur v : Inv t → m_cbGameStatus t = GAME_SCENE_CALL → 0 <= m_cbBankerScore t →
  let t1 := (take_bid t (m_wCurrentUser t) b).1 in
  let best := outbid (m_wBankerUser t, m_cbBankerScore t) (m_wCurrentUser t) (bid_value b) in
  m_cbBankerScore t1 = best.2 ∧ m_wFirstUser t1 = m_wFirstUser t ∧ 0 <= best.2 ∧
  Called t (t1 <| m_wCurrentUser := cur |> <| m_dwStartTime := v |>) best cur.
Proof.
  intros Hi Hs Hsc. cbv zeta. destruct (inv_call_facts _ Hi Hs) as [Hf Hcur].
  destruct (take_bid_best t b Hsc) as (Hbest & Hcore & Hpos).
  set (best := outbid _ _ _) in *. set (t1 := (take_bid _ _ _).1) in *. clearbody t1.
  assert (call_facts (core t1)) as Hf1.
  { destruct Hf as (?&?&?&Hn&?&?&?&Hb&?). rewrite Hcore. simpl in Hn. unfold call_facts; simpl. split_and!; try (done || lia). simpl in Hb.
    unfold best, outbid in Hbest. destruct (_ <? _); injection Hbest as -> _; [by right|done]. }
  pose proof (f_equal snd Hbest) as Es. simpl in Es. rewrite <-Es.
  set (t2 := set_field m_dwStartTime _ _).
  assert (core t2 = core t1 <| c_current := cur |>) as Hc2 by done.
  split; [done|]. split; [exact (f_equal c_first Hcore)|]. split; [done|]. split.
  - exact Hbest.
  - done.
  - etrans; [exact (f_equal c_first Hc2)|exact (f_equal c_first Hcore)].
  - etrans; [exact (f_equal c_calls Hc2)|exact (f_equal c_calls Hcore)].
  - etrans; [exact (f_equal c_bottom Hc2)|exact (f_equal c_bottom Hcore)].
  - change (held (core t2) = held (core t)). by rewrite Hc2, Hcore.
  - rewrite Hc2. by apply call_facts_current.
Qed.

(** The next player is told. *)
Lemma called_open t t2 best cur m v : Called t t2 best cur →
  let t3 := send_present t2 m <| m_cbRemainTime := v |> in
  m_cbGameStatus t3 = GAME_SCENE_CALL ∧ m_wCurrentUser t3 = cur ∧
  (m_wBankerUser t3, m_cbBankerScore t3) = best ∧ (∀ c, hand t3 c = hand t c).
Proof.
  intros [Hb Hcur _ _ _ Hh Hf]. cbv zeta.
  pose proof (core_send_present t2 m) as Hc. destruct (bottom_send_present t2 m) as [Eh _].
  pose proof (score_send_present t2 m) as Es. set (t3 := send_present t2 m) in *. clearbody t3.
  change (m_cbGameStatus t3 = GAME_SCENE_CALL ∧ m_wCurrentUser t3 = cur ∧
          (m_wBankerUser t3, m_cbBankerScore t3) = best ∧ ∀ c, hand t3 c = hand t c).
  rewrite Es, Eh, Hh, <-Hb, <-Hcur.
  split; [etrans; [exact (f_equal c_scene Hc)|apply Hf]|]. split; [exact (f_equal c_current Hc)|].
  split; [|done]. f_equal. exact (f_equal c_banker Hc).
Qed.

(** The bottom for the winner of the auction, the banker [b]. *)
Lemma called_closed t t2 best cur t5 b : Called t t2 best cur → chair b →
  core t5 = core t2 <| c_calls := 0 |> <| c_banker := b |> →
  let t6 := give_bottom t5 in
  m_cbGameStatus t6 = GAME_SCENE_CALLEnd ∧ m_cbNoCallCount t6 = 0 ∧ m_wBankerUser t6 = b ∧
  m_wCurrentUser t6 = b ∧ m_wTurnWiner t6 = b ∧ m_cbBankerScore t6 = m_cbBankerScore t5 ∧
  hand t6 b ≡ₚ hand t b ++ m_cbBankerCard t ∧ (∀ c, chair c → c ≠ b → hand t6 c = hand t c).
Proof.
  intros [_ _ _ _ Hbot Hh Hf] Hb Hc. cbv zeta.
  assert (dealt (core t5)) as Hd by (rewrite Hc; apply Hf).
  assert (m_wBankerUser t5 = b) as E by exact (f_equal c_banker Hc).
  assert (hand t5 = hand t) as Eh.
  { rewrite <-Hh. change (held (core t5) = held (core t2)). by rewrite Hc. }
  assert (m_cbBankerCard t5 = m_cbBankerCard t) as Ebot.
  { rewrite <-Hbot. exact (f_equal c_bottom Hc). }
  destruct (give_bottom_hands t5 Hd) as [Hh1 Hh2]; [by rewrite E|].
  pose proof (core_give_bottom t5 ltac:(by rewrite E) (rows_three t5 (proj1 Hd))) as Hg. cbv zeta in Hg.
  pose proof (score_give_bottom t5) as Hs. rewrite E, Eh, Ebot in Hh1. rewrite E, Eh in Hh2.
  set (t6 := give_bottom t5) in *. clearbody t6.
  split; [exact (f_equal c_scene Hg)|].
  split; [etrans; [exact (f_equal c_calls Hg)|exact (f_equal c_calls Hc)]|].
  split; [rewrite <-E; exact (f_equal c_banker Hg)|].
  split; [rewrite <-E; exact (f_equal c_current Hg)|].
  split; [rewrite <-E; exact (f_equal c_winner Hg)|]. done.
Qed.

(** The new deal of a bidding nobody has bid in. *)
Lemma redealt cfg rnd between shuf storage value aw t n :
  m_bTestGame cfg = 0 → (∀ k l, shuf k l ≡ₚ l) → call_facts (core t) → m_cbNoCallCount t = n → 1 <= n <= 3 → n < 3 →
  ∃ t1, (t' ← OnGameStart cfg rnd between shuf storage value aw t; Some (true, t')) = (t' ← aw t1; Some (true, t')) ∧
    m_cbGameStatus t1 = GAME_SCENE_CALL ∧ m_cbNoCallCount t1 = n + 1 ∧
    m_wFirstUser t1 = m_wCurrentUser t1 ∧ m_wBankerUser t1 = INVALID_CHAIR ∧
    hand t1 0 ++ hand t1 1 ++ hand t1 2 ++ m_cbBankerCard t1 ≡ₚ m_cbCardData.
Proof.
  intros Htest Hshuf Hf <- Hn Hlt.
  pose proof (start_game_inv cfg rnd between shuf storage value Htest Hshuf t
    (redeal_pre _ Hf ltac:(simpl; lia) Hlt)) as (Hi & H1 & H2).
  unfold OnGameStart. destruct (start_game _ _ _ _ _ _ t) as [t1 ok]. cbn [fst snd] in *.
  assert (ok = true) as -> by (rewrite H2; apply Hf). exists t1. split; [done|].
  destruct (H1 eq_refl) as (Hs & Hc & Hfirst & Hb). simpl in Hs, Hc, Hfirst, Hb.
  split; [exact Hs|]. split; [rewrite Hc; unfold u8; apply Z.mod_small; lia|]. split; [exact Hfirst|].
  split; [exact Hb|]. destruct (inv_call_facts _ Hi Hs) as [Hf1 _].
  assert (dealt (core t1)) as (_ & _ & _ & Hp) by apply Hf1. unfold all_hands in Hp. by rewrite <-!app_assoc in Hp.
Qed.

(** C30. The bidding is an auction.  A call of the player whose turn it is counts when
    it is 1, 2 or 3 and above the best bid; the bidding closes with a bid of 3 or
    after the last player.  While it is open the next player bids and no card moves.
    The deals of a game are counted from one ([m_cbNoCallCount]); a bidding that closes
    without a bid in the first or the second deal has the cards dealt again and the count
    one higher, with no banker and the first caller to bid, and in the third, as with a
    bid, it ends: the best bidder, or the first caller for one point, is the banker, takes
    the three cards of the bottom and leads; the other hands stay, and the count is zero
    again.  So a game is dealt again twice at most, then the first caller is forced.  (A
    new deal is one of the pack outside the test mode, with a shuffle that permutes.) *)
Theorem OnUserCallScore_auction cfg rnd between shuf storage value aw t b :
  Inv t → m_cbGameStatus t = GAME_SCENE_CALL → 0 <= m_cbBankerScore t →
  let w := m_wCurrentUser t in
  let next := (w + 1) mod 3 in
  let best := outbid (m_wBankerUser t, m_cbBankerScore t) w (bid_value b) in
  let closed := best.2 = 3 ∨ next = m_wFirstUser t in
  let call := OnUserCallScore cfg rnd between shuf storage value aw t w b in
  (¬ closed → ∃ t1, call = (t' ← aw t1; Some (true, t')) ∧
     m_cbGameStatus t1 = GAME_SCENE_CALL ∧ m_wCurrentUser t1 = next ∧
     (m_wBankerUser t1, m_cbBankerScore t1) = best ∧ (∀ c, hand t1 c = hand t c)) ∧
  1 <= m_cbNoCallCount t <= 3 ∧
  (closed → best.1 = INVALID_CHAIR → m_cbNoCallCount t < 3 →
     m_bTestGame cfg = 0 → (∀ k l, shuf k l ≡ₚ l) →
     ∃ t1, call = (t' ← aw t1; Some (true, t')) ∧
       m_cbGameStatus t1 = GAME_SCENE_CALL ∧ m_cbNoCallCount t1 = m_cbNoCallCount t + 1 ∧
       m_wFirstUser t1 = m_wCurrentUser t1 ∧ m_wBankerUser t1 = INVALID_CHAIR ∧
       hand t1 0 ++ hand t1 1 ++ hand t1 2 ++ m_cbBankerCard t1 ≡ₚ m_cbCardData) ∧
  (closed → best.1 ≠ INVALID_CHAIR ∨ m_cbNoCallCount t = 3 →
     ∃ t1, call = (t' ← aw t1; Some (true, t')) ∧
       m_cbGameStatus t1 = GAME_SCENE_CALLEnd ∧ m_cbNoCallCount t1 = 0 ∧
       m_wBankerUser t1 = (if decide (best.1 = INVALID_CHAIR) then m_wFirstUser t else best.1) ∧
       m_wCurrentUser t1 = m_wBankerUser t1 ∧ m_wTurnWiner t1 = m_wBankerUser t1 ∧
       m_cbBankerScore t1 = Z.max 1 best.2 ∧
       hand t1 (m_wBankerUser t1) ≡ₚ hand t (m_wBankerUser t1) ++ m_cbBankerCard t ∧
       (∀ c, chair c → c ≠ m_wBankerUser t1 → hand t1 c = hand t c)).
Proof.
  intros Hi Hs Hsc w next best closed call. unfold call, OnUserCallScore. clear call.
  rewrite (proj2 (Z.eqb_eq w (m_wCurrentUser t)) eq_refl). cbn [negb].
  destruct (inv_call_facts _ Hi Hs) as [Hf _]. rewrite dealt_undecided by apply Hf.
  pose proof (λ cur v, bid_called t b cur v Hi Hs Hsc) as Hcall. cbv zeta in Hcall. fold w best in Hcall.
  destruct (take_bid t w b) as [t1 c]. cbn [fst] in Hcall. fold next.
  set (last := (_ =? 3) || _). specialize (Hcall (if last then INVALID_CHAIR else next) (m_cbBankerScore t1)).
  destruct Hcall as (Es & Ef & Hpos & Hcall).
  assert (closed ↔ last = true) as Hlast.
  { unfold closed, last. rewrite <-Es, Ef, orb_true_iff, !Z.eqb_eq. intuition congruence. }
  set (t2 := set_field m_dwStartTime _ _) in *. clearbody t2.
  pose proof (cl_best _ _ _ _ Hcall) as Hb2.
  assert (best.1 = m_wBankerUser t2 ∧ best.2 = m_cbBankerScore t2) as [Eb Es2] by (by rewrite <-Hb2).
  pose proof (cl_calls _ _ _ _ Hcall) as En. pose proof (inv_calls _ Hi Hs) as Hn3. simpl in Hn3.
  split; [|split; [exact Hn3|split]].
  - intros Hn. destruct last; [by destruct Hn; apply Hlast|].
    eexists. split; [done|]. by eapply called_open.
  - intros Hcl%Hlast Hnb Hno Htest Hshuf. rewrite Hcl, <-Eb, Hnb, En, (proj2 (Z.ltb_lt _ 3) Hno). cbn [Z.eqb andb].
    apply (redealt cfg rnd between shuf storage value aw t2 (m_cbNoCallCount t)); try done. apply (cl_facts _ _ _ _ Hcall).
  - intros Hcl%Hlast Hor. rewrite Hcl.
    assert ((m_wBankerUser t2 =? INVALID_CHAIR) && (m_cbNoCallCount t2 <? 3) = false) as ->.
    { rewrite <-Eb, En. destruct Hor as [Hb|Hb].
      - by rewrite (proj2 (Z.eqb_neq _ _) Hb).
      - rewrite Hb. apply andb_false_r. }
    pose proof (cl_facts _ _ _ _ Hcall) as Hf2.
    destruct (close_bids t2 ltac:(lia) Hf2 (λ _, S_CALL_BANKER w
      (m_wBankerUser (t2 <| m_cbNoCallCount := 0 |>)) (m_wCurrentUser (t2 <| m_cbNoCallCount := 0 |>)) c)) as [Hc3 Hs3].
    set (t3 := send_present _ _) in *. set (t4 := if m_cbBankerScore t3 =? 0 then _ else t3) in *.
    set (t5 := if m_wBankerUser t4 =? INVALID_CHAIR then _ else t4) in *. clearbody t5. clear t4 t3.
    exists (give_bottom t5). split; [done|].
    set (bk := if decide (m_wBankerUser t2 = INVALID_CHAIR) then _ else _) in *.
    assert (chair bk) as Hbk.
    { unfold bk. destruct (decide _); [apply Hf2|]. by destruct Hf2 as (?&?&?&?&?&?&?&[?|?]&?). }
    destruct (called_closed _ _ _ _ t5 bk Hcall Hbk Hc3) as (H1 & H2 & H3 & H4 & H5 & H6 & H7 & H8).
    set (t6 := give_bottom t5) in *. clearbody t6. rewrite H3. split_and!; try done.
    + unfold bk. by rewrite Eb, (cl_first _ _ _ _ Hcall).
    + by rewrite H6, Hs3, Es2.
Qed.

Lemma OnUserCallScore_auction_witness :
  ∃ t1, OnUserCallScore (w_cfg demo) (w_rnd demo) (w_between demo) (w_shuf demo) (w_storage demo) (w_value demo)
          Some demo_dealt (m_wCurrentUser demo_dealt) 2 = Some (true, t1) ∧
        (m_wBankerUser t1, m_cbBankerScore t1) = outbid (m_wBankerUser demo_dealt, 0) (m_wCurrentUser demo_dealt) 2.
Proof.
  assert (Inv demo_dealt) as Hi by exact (reachable_inv demo _ demo_fair demo_dealt_reachable).
  assert (m_cbGameStatus demo_dealt = GAME_SCENE_CALL) as Hs by by vm_compute.
  assert (m_cbBankerScore demo_dealt = 0) as H0 by by vm_compute.
  destruct (proj1 (OnUserCallScore_auction (w_cfg demo) (w_rnd demo) (w_between demo) (w_shuf demo) (w_storage demo)
    (w_value demo) Some demo_dealt 2 Hi Hs ltac:(by rewrite H0))) as (t1 & Hc & _ & _ & Hb & _).
  - by vm_compute; intros [?|?].
  - exists t1. split; [exact Hc|]. rewrite Hb, H0. done.
Defined.

(** ** The doubling *)

(** The answer recorded: no answer given is a refusal. *)
Definition answer (x : Z) : Z := if x =? 0 then CB_NO_ADD_DOUBLE else x.

Lemma stake_ignored aw t c x : getz (m_cbStakeInfo t) c ≠ 0 ∨ m_wBankerUser t = c →
  OnUserStakeScore aw t c x = Some (true, t).
Proof.
  intros H. unfold OnUserStakeScore. assert (negb (getz (m_cbStakeInfo t) c =? 0) || (m_wBankerUser t =? c) = true) as ->.
  { destruct H as [H|H].
    - by rewrite (proj2 (Z.eqb_neq _ _) H).
    - rewrite (proj2 (Z.eqb_eq _ _) H). apply orb_true_r. }
  done.
Qed.

Lemma stake_send t m : m_cbStakeInfo (send_present t m) = m_cbStakeInfo t.
Proof. unfold send_present. cbn [foldl]. by repeat case_match. Qed.

(** One answer of a farmer. *)
Lemma stake_step t c x : getz (m_cbStakeInfo t) c = 0 → m_wBankerUser t ≠ c →
  ∃ t1, OnUserStakeScore Some t c x = Some (true, t1) ∧
    m_cbStakeInfo t1 = setz (m_cbStakeInfo t) c (answer x) ∧
    core t1 = core t <| c_scene :=
      if decide (length (filter (λ i, 0 < getz (setz (m_cbStakeInfo t) c (answer x)) i) [0; 1; 2]) = 2%nat)
      then GAME_SCENE_STAKEEnd else m_cbGameStatus t |>.
Proof.
  intros H0 Hb. unfold OnUserStakeScore. rewrite H0, (proj2 (Z.eqb_neq _ _) Hb). cbn [Z.eqb negb orb].
  change (if CB_NOT_ADD_DOUBLE =? x then CB_NO_ADD_DOUBLE else x) with (if 0 =? x then CB_NO_ADD_DOUBLE else x).
  rewrite (Z.eqb_sym 0 x). fold (answer x).
  set (t1 := set_field m_cbStakeInfo _ t). set (t2 := send_present t1 _).
  assert (core t2 = core t) as Hc by exact (core_send_present t1 _).
  assert (m_cbStakeInfo t2 = setz (m_cbStakeInfo t) c (answer x)) as Hst by apply stake_send.
  clearbody t2. rewrite Hst. set (n := length _). destruct (n =? 2)%nat eqn:E; breflect.
  - rewrite decide_True by done. eexists. split; [done|]. split; [exact Hst|].
    change (core t2 <| c_scene := GAME_SCENE_STAKEEnd |> = core t <| c_scene := GAME_SCENE_STAKEEnd |>).
    by rewrite Hc.
  - rewrite decide_False by done. exists t2. split; [done|]. split; [done|].
    change (m_cbGameStatus t) with (c_scene (core t)). by rewrite Hc.
Qed.

Lemma count_pos p q r : length (filter (λ i, 0 < getz [p; q; r] i) [0; 1; 2]) =
  ((if decide (0 < p)%Z then 1 else 0) + (if decide (0 < q)%Z then 1 else 0) + (if decide (0 < r)%Z then 1 else 0))%nat.
Proof.
  rewrite !filter_cons. change (getz [p; q; r] 0) with p. change (getz [p; q; r] 1) with q.
  change (getz [p; q; r] 2) with r. by repeat case_decide.
Qed.

(** The three chairs in any order. *)
Definition perm3 (b f g : Z) : Prop :=
  (b, f, g) ∈ [(0, 1, 2); (0, 2, 1); (1, 0, 2); (1, 2, 0); (2, 0, 1); (2, 1, 0)].

Lemma perm3_cases b f g : chair b → chair f → chair g → b ≠ f → b ≠ g → f ≠ g → perm3 b f g.
Proof.
  unfold chair, perm3. intros.
  assert (b = 0 ∨ b = 1 ∨ b = 2) as [-> | [-> | ->]] by lia;
    assert (f = 0 ∨ f = 1 ∨ f = 2) as [-> | [-> | ->]] by lia; try done;
    assert (g = 0 ∨ g = 1 ∨ g = 2) as [-> | [-> | ->]] by lia; try done; by_decide.
Qed.

(** The stakes after one and after two answers. *)
Lemma stakes_perm b f g u v : perm3 b f g → 0 < u → 0 < v →
  let s1 := setz [0; 0; 0] f u in
  let s2 := setz s1 g v in
  getz [0; 0; 0] f = 0 ∧ getz s1 f = u ∧ getz s1 g = 0 ∧
  length (filter (λ i, 0 < getz s1 i) [0; 1; 2]) = 1%nat ∧
  getz s2 f = u ∧ getz s2 g = v ∧ getz s2 b = 0 ∧
  length (filter (λ i, 0 < getz s2 i) [0; 1; 2]) = 2%nat.
Proof.
  intros Hp Hu Hv. unfold perm3 in Hp.
  repeat (apply elem_of_cons in Hp as [[= -> -> ->]|Hp]; [|]); [..|by apply not_elem_of_nil in Hp];
    cbv zeta.
  - change (setz [0; 0; 0] 1 u) with [0; u; 0]. change (setz [0; u; 0] 2 v) with [0; u; v].
    rewrite !count_pos. split_and!; try done; repeat case_decide; done || lia.
  - change (setz [0; 0; 0] 2 u) with [0; 0; u]. change (setz [0; 0; u] 1 v) with [0; v; u].
    rewrite !count_pos. split_and!; try done; repeat case_decide; done || lia.
  - change (setz [0; 0; 0] 0 u) with [u; 0; 0]. change (setz [u; 0; 0] 2 v) with [u; 0; v].
    rewrite !count_pos. split_and!; try done; repeat case_decide; done || lia.
  - change (setz [0; 0; 0] 2 u) with [0; 0; u]. change (setz [0; 0; u] 0 v) with [v; 0; u].
    rewrite !count_pos. split_and!; try done; repeat case_decide; done || lia.
  - change (setz [0; 0; 0] 0 u) with [u; 0; 0]. change (setz [u; 0; 0] 1 v) with [u; v; 0].
    rewrite !count_pos. split_and!; try done; repeat case_decide; done || lia.
  - change (setz [0; 0; 0] 1 u) with [0; u; 0]. change (setz [0; u; 0] 0 v) with [v; u; 0].
    rewrite !count_pos. split_and!; try done; repeat case_decide; done || lia.
Qed.

(** The doubling takes exactly one answer of each farmer: the banker's answers and
    second answers are ignored, the first farmer's answer leaves the scene open, the
    second one closes it, and the recorded answers are the ones given (0 counts as
    a refusal); no card moves. *)
Theorem doubling_result t b f g x y :
  chair b → chair f → chair g → b ≠ f → b ≠ g → f ≠ g → 0 <= x → 0 <= y →
  m_cbGameStatus t = GAME_SCENE_STAKE → m_wBankerUser t = b → m_cbStakeInfo t = [0; 0; 0] →
  ∃ t1 t2, OnUserStakeScore Some t f x = Some (true, t1) ∧ m_cbGameStatus t1 = GAME_SCENE_STAKE ∧
    (∀ z, OnUserStakeScore Some t1 f z = Some (true, t1) ∧ OnUserStakeScore Some t1 b z = Some (true, t1)) ∧
    OnUserStakeScore Some t1 g y = Some (true, t2) ∧ m_cbGameStatus t2 = GAME_SCENE_STAKEEnd ∧
    getz (m_cbStakeInfo t2) f = answer x ∧ getz (m_cbStakeInfo t2) g = answer y ∧
    getz (m_cbStakeInfo t2) b = 0 ∧ (∀ c, hand t2 c = hand t c).
Proof.
  intros Hb Hf Hg Hbf Hbg Hfg Hx Hy Hs Hbk H0.
  assert (0 < answer x ∧ 0 < answer y) as [Ax Ay].
  { unfold answer, CB_NO_ADD_DOUBLE. destruct (x =? 0) eqn:?, (y =? 0) eqn:?; breflect; lia. }
  destruct (stakes_perm b f g (answer x) (answer y) (perm3_cases b f g Hb Hf Hg Hbf Hbg Hfg) Ax Ay)
    as (F0 & F1 & G1 & N1 & F2 & G2 & B2 & N2).
  destruct (stake_step t f x) as (t1 & E1 & S1 & C1); [by rewrite H0|congruence|].
  rewrite H0 in S1, C1. rewrite N1 in C1. rewrite decide_False in C1 by done.
  assert (m_wBankerUser t1 = b) as Hb1 by (rewrite <-Hbk; exact (f_equal c_banker C1)).
  assert (m_cbGameStatus t1 = GAME_SCENE_STAKE) as Hs1 by (rewrite <-Hs; exact (f_equal c_scene C1)).
  destruct (stake_step t1 g y) as (t2 & E2 & S2 & C2); [by rewrite S1|congruence|].
  rewrite S1 in S2, C2. rewrite N2 in C2. rewrite decide_True in C2 by done.
  exists t1, t2. rewrite S2. split_and!; try done.
  - intros z. split; apply stake_ignored; [left; rewrite S1, F1; lia|by right].
  - exact (f_equal c_scene C2).
  - intros c. change (held (core t2) c = held (core t) c). rewrite C2.
    change (held (core t1) c = held (core t) c). by rewrite C1.
Qed.

Lemma doubling_result_witness :
  ∃ t1 t2, OnUserStakeScore Some demo_stake 0 0 = Some (true, t1) ∧
           OnUserStakeScore Some t1 1 1 = Some (true, t2) ∧ m_cbGameStatus t2 = GAME_SCENE_STAKEEnd.
Proof.
  assert (chair 0 ∧ chair 1 ∧ chair 2) as (C0 & C1 & C2) by (unfold chair; lia).
  assert (2 ≠ 0 ∧ 2 ≠ 1 ∧ 0 ≠ 1 ∧ 0 <= 0 ∧ 0 <= 1) as (N1 & N2 & N3 & P1 & P2) by lia.
  assert (m_cbStakeInfo demo_stake = [0; 0; 0]) as H3 by (vm_compute; reflexivity).
  assert (m_wBankerUser demo_stake = 2) as H2 by (vm_compute; reflexivity).
  assert (m_cbGameStatus demo_stake = GAME_SCENE_STAKE) as H1 by (vm_compute; reflexivity).
  destruct (doubling_result demo_stake 2 0 1 0 1 C2 C0 C1 N1 N2 N3 P1 P2 H1 H2 H3)
    as (t1 & t2 & E1 & _ & _ & E2 & E3 & _).
  exists t1, t2. exact (conj E1 (conj E2 E3)).
Defined.

(** ** The end of a game *)

Lemma user_of_seats t t' i : seats t = seats t' → GetTableUserItem t i = GetTableUserItem t' i.
Proof. unfold GetTableUserItem. by intros ->. Qed.

Lemma add_score_user t i j a : chair i → chair j →
  GetTableUserItem (add_user_score t j a) i =
  if decide (i = j) then (λ u, u <| u_score ::= λ s, s + a |>) <$> GetTableUserItem t i else GetTableUserItem t i.
Proof.
  intros Hi Hj. unfold add_user_score. destruct (GetTableUserItem t j) as [u|] eqn:E.
  - unfold GetTableUserItem in *. unfold chair in *.
    assert ((0 <=? i) && (i <? 3) = true ∧ (0 <=? j) && (j <? 3) = true) as [Bi Bj].
    { split; apply andb_true_iff; split; [apply Z.leb_le|apply Z.ltb_lt|apply Z.leb_le|apply Z.ltb_lt]; lia. }
    rewrite Bi. rewrite Bj in E. unfold set_user. cbn [seats set_field].
    destruct (seats t !! idx j) as [o|] eqn:Eo; simpl in E; [subst o|done].
    change (default None (<[idx j := Some (u <| u_score ::= λ s, s + a |>)]> (seats t) !! idx i) =
      if decide (i = j) then (λ u, u <| u_score ::= λ s, s + a |>) <$> default None (seats t !! idx i)
      else default None (seats t !! idx i)).
    destruct (decide (i = j)) as [->|Hne].
    + rewrite list_lookup_insert_eq by (by eapply lookup_lt_Some). by rewrite Eo.
    + rewrite list_lookup_insert_ne; [done|]. intros Ei. by apply Hne, chair_idx.
  - destruct (decide (i = j)) as [->|]; [by rewrite E|done].
Qed.

Lemma user_send t m i : GetTableUserItem (send_present t m) i = GetTableUserItem t i.
Proof. apply user_of_seats. unfold send_present. cbn [foldl]. by repeat case_match. Qed.

(** The balances after the scores are written. *)
Lemma paid_user t adds i u : chair i → GetTableUserItem t i = Some u →
  GetTableUserItem (foldl (λ t i, add_user_score t i (getz adds i)) t [0; 1; 2]) i =
  Some (u <| u_score ::= λ s, s + getz adds i |>).
Proof.
  intros Hi Hu. cbn [foldl]. assert (chair 0 ∧ chair 1 ∧ chair 2) as (H0 & H1 & H2) by (unfold chair; lia).
  rewrite !add_score_user, Hu by done. unfold chair in Hi.
  assert (i = 0 ∨ i = 1 ∨ i = 2) as [-> | [-> | ->]] by lia; done.
Qed.

Lemma seats_reset t : m_isflag t = true → seats (RepositionSink t) = seats t.
Proof. unfold RepositionSink. by intros ->. Qed.

(** The steps of [conclude] around the scores. *)
Lemma close_seats t b v : seats (t <| m_isflag := b |> <| frameStatus := STATUS_END |>
  <| m_cbGameStatus := GAME_SCENE_FREE |> <| m_cbRemainTime := v |>) = seats t.
Proof. done. Qed.

(** [OnNormalGameConclude] with the amounts and the stock named. *)
Definition pay_out (t : Table) (adds revs : list Z) (stock w : Z) : Table :=
  let t := t <| m_iUserWinScore := adds |> in
  let t := emit (emit t (UpdateStorageScore stock)) (WriteUserScore adds revs) in
  let t := foldl (λ t i, add_user_score t i (getz adds i)) t [0; 1; 2] in
  send_present t (λ _, S_GAME_CONCLUDE adds) <| m_wFirstUser := w |>.

Lemma normal_pay_out cfg t w : ∃ revs stock, OnNormalGameConclude cfg t w =
  pay_out t (map (λ i, add_score (revenueRatio cfg) (game_of cfg t w) i) (seq 0 3)) revs stock w.
Proof. unfold OnNormalGameConclude, pay_out. by eexists _, _. Qed.

Lemma pay_out_user t adds revs stock w i u : chair i → GetTableUserItem t i = Some u →
  GetTableUserItem (pay_out t adds revs stock w) i = Some (u <| u_score ::= λ s, s + getz adds i |>).
Proof.
  intros Hi Hu. unfold pay_out. set (t3 := emit _ (WriteUserScore _ _)).
  assert (GetTableUserItem t3 i = Some u) as H3 by exact Hu. clearbody t3.
  set (t4 := foldl _ t3 _). assert (GetTableUserItem t4 i = Some (u <| u_score ::= λ s, s + getz adds i |>)) as H4
    by exact (paid_user t3 adds i u Hi H3). clearbody t4. rewrite <-H4.
  transitivity (GetTableUserItem (send_present t4 (λ _, S_GAME_CONCLUDE adds)) i); [done|apply user_send].
Qed.

Lemma core_report t adds revs stock : core (emit (emit (t <| m_iUserWinScore := adds |>)
  (UpdateStorageScore stock)) (WriteUserScore adds revs)) = core t.
Proof. done. Qed.
Lemma core_credit t adds : core (foldl (λ t i, add_user_score t i (getz adds i)) t [0; 1; 2]) = core t.
Proof. rewrite core_foldl; [done|intros; apply core_add_score]. Qed.
Lemma core_first t w : core (t <| m_wFirstUser := w |>) = core t <| c_first := w |>.
Proof. done. Qed.
Lemma core_pay_out t adds revs stock w : core (pay_out t adds revs stock w) = core t <| c_first := w |>.
Proof. unfold pay_out. by rewrite core_first, core_send_present, core_credit, core_report. Qed.

(** A table whose settlement has its promises: a banker, a positive cell, a
    revenue share, and no negative balance. *)
Record Pay_ok (cfg : Config) (t : Table) : Prop := MkPay {
  pay_banker : chair (m_wBankerUser t);
  pay_cell : 0 < floorScore cfg;
  pay_ratio : 0 <= revenueRatio cfg <= 100;
  pay_score : ∀ i u, chair i → GetTableUserItem t i = Some u → 0 <= u_score u
}.

Lemma pay_game cfg t w : Pay_ok cfg t → Game_ok (game_of cfg t w).
Proof.
  intros [Hb Hc _ Hs]. split; unfold game_of; cbn [g_banker g_score g_cell].
  - unfold idx, chair in *. lia.
  - done.
  - done.
  - assert (∀ i, chair i → 0 <= score_of t i) as H.
    { intros i Hi. unfold score_of. destruct (GetTableUserItem t i) as [u|] eqn:E; [by eapply Hs|lia]. }
    repeat constructor; apply H; unfold chair; lia.
Qed.

Lemma score_row t i : chair i → (map (score_of t) [0; 1; 2]).[idx i] = score_of t i.
Proof. unfold chair. intros Hi. by assert (i = 0 ∨ i = 1 ∨ i = 2) as [-> | [-> | ->]] by lia. Qed.

Lemma add_row (f : nat → Z) i : chair i → getz (map f (seq 0 3)) i = f (idx i).
Proof. unfold chair. intros Hi. by assert (i = 0 ∨ i = 1 ∨ i = 2) as [-> | [-> | ->]] by lia. Qed.

(** What follows the pay-out: the reset, and the answer of the frame. *)
Definition reopen (running : nat → bool) (t : Table) : Table :=
  let t := RepositionSink (t <| totalMatchSeconds_ := 0 |> <| frameStatus := STATUS_END |>) in
  t <| m_isflag := running (draws t) |> <| frameStatus := STATUS_END |>
    <| m_cbGameStatus := GAME_SCENE_FREE |> <| m_cbRemainTime := TIME_TICK_USER |>.

Lemma conclude_reopen cfg running t w : conclude cfg running t w = reopen running (OnNormalGameConclude cfg t w).
Proof. done. Qed.

Lemma reopen_same running t i : m_isflag t = true →
  GetTableUserItem (reopen running t) i = GetTableUserItem t i ∧ m_wFirstUser (reopen running t) = m_wFirstUser t ∧
  m_cbGameStatus (reopen running t) = GAME_SCENE_FREE ∧ frameStatus (reopen running t) = STATUS_END.
Proof.
  intros Hf. unfold reopen. set (t2 := t <| totalMatchSeconds_ := 0 |> <| frameStatus := STATUS_END |>).
  assert (m_isflag t2 = true) as Hf2 by exact Hf. assert (seats t2 = seats t) as Hs2 by done.
  assert (m_wFirstUser t2 = m_wFirstUser t) as <- by done. clearbody t2.
  pose proof (seats_reset t2 Hf2) as Hs3. pose proof (first_reset t2) as <-.
  set (t3 := RepositionSink t2) in *. clearbody t3. cbv zeta. split; [|done].
  apply user_of_seats. by rewrite close_seats, Hs3.
Qed.

(** C33. The end of a game pays what the settlement says: while the server is not
    stopping every user keeps his seat, his balance changes by his settled amount
    less the revenue, and no balance becomes negative, nor grows by more than it
    was; the winner calls first in the next game, and the table waits for it. *)
Theorem conclude_pays cfg running t w i u :
  Pay_ok cfg t → m_isflag t = true → chair i → GetTableUserItem t i = Some u →
  let t' := conclude cfg running t w in
  ∃ u', GetTableUserItem t' i = Some u' ∧ u_id u' = u_id u ∧ u_android u' = u_android u ∧
    u_score u' = u_score u + add_score (revenueRatio cfg) (game_of cfg t w) (idx i) ∧
    0 <= u_score u' <= 2 * u_score u ∧
    m_wFirstUser t' = w ∧ m_cbGameStatus t' = GAME_SCENE_FREE ∧ frameStatus t' = STATUS_END.
Proof.
  intros Hok Hflag Hi Hu t'. destruct (normal_pay_out cfg t w) as (revs & stock & Hnorm).
  set (adds := map _ (seq 0 3)) in Hnorm.
  pose proof (pay_out_user t adds revs stock w i u Hi Hu) as Hn.
  pose proof (core_pay_out t adds revs stock w) as Hc. rewrite <-Hnorm in Hn, Hc.
  unfold adds in Hn. rewrite (add_row (λ i, add_score (revenueRatio cfg) (game_of cfg t w) i)) in Hn by done.
  clear Hnorm adds revs stock.
  set (a := add_score _ _ (idx i)) in *. exists (u <| u_score ::= λ s, s + a |>).
  assert (- u_score u <= a <= u_score u) as Ha.
  { destruct (add_score_bound (revenueRatio cfg) (game_of cfg t w) (idx i) (pay_game cfg t w Hok)) as [H1 H2];
      [unfold idx, chair in *; lia|apply Hok|].
    destruct (settle_bounds (game_of cfg t w) (idx i) (pay_game cfg t w Hok)) as [_ H3];
      [unfold idx, chair in *; lia|].
    assert ((g_score (game_of cfg t w)).[idx i] = u_score u) as E.
    { unfold game_of. cbn [g_score]. rewrite score_row by done. unfold score_of. by rewrite Hu. }
    rewrite E in H1, H3. fold a in H1, H2. lia. }
  unfold t'. clear t'. rewrite conclude_reopen. set (t1 := OnNormalGameConclude cfg t w) in *. clearbody t1.
  destruct (reopen_same running t1 i) as (E1 & E2 & E3 & E4).
  { rewrite <-Hflag. exact (f_equal c_isflag Hc). }
  rewrite E1, E2, E3, E4. split_and!; try done.
  - change (0 <= u_score u + a). lia.
  - change (u_score u + a <= 2 * u_score u). lia.
  - exact (f_equal c_first Hc).
Qed.

Lemma conclude_pays_witness :
  ∃ u', GetTableUserItem (conclude (w_cfg demo) (w_running demo) demo_play 2) 0 = Some u' ∧
        0 <= u_score u' <= 20000.
Proof.
  assert (chair 0) as H0 by (unfold chair; lia).
  assert (Pay_ok (w_cfg demo) demo_play) as Hok.
  { split; [split; by vm_compute|by vm_compute|split; by vm_compute|].
    intros i u Hi. unfold chair in Hi. assert (i = 0 ∨ i = 1 ∨ i = 2) as [-> | [-> | ->]] by lia;
      vm_compute; intros [= <-]; done. }
  assert (m_isflag demo_play = true) as Hf by (vm_compute; reflexivity).
  assert (GetTableUserItem demo_play 0 = Some (MkUser 11 sPlaying false 10000)) as Hu by (vm_compute; reflexivity).
  destruct (conclude_pays (w_cfg demo) (w_running demo) demo_play 2 0 _ Hok Hf H0 Hu)
    as (u' & E & _ & _ & _ & B & _).
  exists u'. exact (conj E B).
Defined.

(** ** Requests out of turn *)

(** A client cannot act out of turn: a bid, a play or a pass of a chair that is not
    to move leaves the hands, the cards played, the bidding and the turn as they
    were and sends nothing. *)
Theorem out_of_turn w fuel t chair cmd b t' :
  chair ≠ m_wCurrentUser t →
  match cmd with C_CALL_BANKER _ | C_OUT_CARD _ _ | C_PASS_CARD => True | _ => False end →
  on w OnGameMessage fuel t chair cmd = Some (b, t') →
  core t' = core t ∧ m_cbBankerScore t' = m_cbBankerScore t ∧ turn t' = turn t ∧ out t' = out t.
Proof.
  intros Hne Hcmd. unfold OnGameMessage. destruct (GetTableUserItem t chair) as [u|]; [|by intros [= <- <-]].
  assert (∀ t1, check_playing t chair u = Some t1 → core t1 = core t ∧ m_cbBankerScore t1 = m_cbBankerScore t ∧
    turn t1 = turn t ∧ out t1 = out t) as Hcheck.
  { unfold check_playing, set_status. intros t1. destruct (decide _); [by intros [= <-]|].
    destruct (_ && _); [done|]. destruct (_ && _); [|by intros [= <-]].
    destruct (GetTableUserItem t chair) eqn:E; intros [= <-]; [|done].
    split; [by eapply core_set_user|done]. }
  assert (∀ t1, check_playing t chair u = Some t1 → (chair =? m_wCurrentUser (untrust t1 chair)) = false) as Hturn.
  { intros t1 (H1 & _)%Hcheck. apply Z.eqb_neq. intros E. apply Hne. rewrite E.
    exact (f_equal c_current H1). }
  destruct cmd as [info|info|data count| | |c|c|]; try done.
  - destruct (check_playing t chair u) as [t1|]; [|by intros [= <- <-]].
    specialize (Hcheck t1 eq_refl). specialize (Hturn t1 eq_refl).
    destruct (decide _); [|by intros [= <- <-]]. unfold OnUserCallScore. rewrite Hturn. by intros [= <- <-].
  - destruct (check_playing t chair u) as [t1|]; [|by intros [= <- <-]].
    specialize (Hcheck t1 eq_refl). specialize (Hturn t1 eq_refl).
    destruct (decide _); [|by intros [= <- <-]]. destruct (wire_overrun _ _ _ _); [done|].
    unfold OnUserOutCard. rewrite Hturn. by intros [= <- <-].
  - destruct (decide _); [|by intros [= <- <-]]. destruct (check_playing t chair u) as [t1|]; [|by intros [= <- <-]].
    specialize (Hcheck t1 eq_refl). specialize (Hturn t1 eq_refl).
    unfold OnUserPassCard. rewrite Hturn. by intros [= <- <-].
Qed.

Lemma out_of_turn_witness :
  core (demo_message demo_play 0 (C_OUT_CARD [3] 1)) = core demo_play.
Proof.
  assert (on demo OnGameMessage 256%nat demo_play 0 (C_OUT_CARD [3] 1) =
    Some (true, demo_message demo_play 0 (C_OUT_CARD [3] 1))) as H by (vm_compute; reflexivity).
  assert (0 ≠ m_wCurrentUser demo_play) as Hne by (vm_compute; discriminate).
  exact (proj1 (out_of_turn demo 256 demo_play 0 (C_OUT_CARD [3] 1) true _ Hne I H)).
Defined.
