(* ===== verification/Codec.v ===== *)
(** Text codecs: base64 ([src/public/base64.cpp]) and the URL codec
    ([src/public/urlcodec.cpp]).  A [std::string] is the list of its bytes; a read
    past the terminating zero of a string, and a shift by the width of its type or
    more, are undefined behaviour, [None] in the model. *)
From Stdlib Require Import String Ascii.
From stdpp Require Import base list numbers relations.
From Stdlib Require Import ZArith Lia.
From S2P Require Import Prelude.

#[local] Open Scope Z_scope.

(** The bytes of a string literal. *)
Definition chars (s : string) : list Z := map (λ a, Z.of_N (N_of_ascii a)) (list_ascii_of_string s).
Definition chr (a : ascii) : Z := Z.of_N (N_of_ascii a).

Definition byte (c : Z) : Prop := 0 <= c < 256.

Definition between (lo c hi : Z) : bool := (lo <=? c) && (c <=? hi).
(** [isalnum] and [isspace] of the C locale. *)
Definition isalnum (c : Z) : bool :=
  between (chr "0") c (chr "9") || between (chr "A") c (chr "Z") || between (chr "a") c (chr "z").
Definition isspace (c : Z) : bool := (c =? 32) || between 9 c 13.

(** A decidable fact about the numbers below [n] is checked on each of them. *)
Lemma below_all (n : nat) (P : Z → Prop) `{!∀ z, Decision (P z)} :
  forallb (λ c, bool_decide (P c)) (map Z.of_nat (seq 0 n)) = true →
  ∀ c, 0 <= c < Z.of_nat n → P c.
Proof.
  intros Hall c Hc. rewrite forallb_forall in Hall.
  apply (bool_decide_eq_true_1 (P c)), Hall, in_map_iff.
  exists (Z.to_nat c). rewrite in_seq. lia.
Qed.

(** ** Base64 *)

Module Base64.

Definition base64_chars : list Z :=
  chars "ABCDEFGHIJKLMNOPQRSTUVWXYZabcdefghijklmnopqrstuvwxyz0123456789+/".

Definition is_base64 (c : Z) : bool := isalnum c || (c =? chr "+") || (c =? chr "/").

(** [base64_chars.find(c)], converted to [unsigned char]; [npos] is all ones. *)
Definition find (c : Z) : Z :=
  match list_find (λ x, x = c) base64_chars with
  | Some (i, _) => Z.of_nat i
  | None => 255
  end.

(** The four codes of three bytes; missing bytes are zero. *)
Definition quad (a : list Z) : list Z :=
  [Z.shiftr (Z.land a.[0] 252) 2;
   Z.shiftl (Z.land a.[0] 3) 4 + Z.shiftr (Z.land a.[1] 240) 4;
   Z.shiftl (Z.land a.[1] 15) 2 + Z.shiftr (Z.land a.[2] 192) 6;
   Z.land a.[2] 63].

Definition letters (q : list Z) : list Z := map (λ i, base64_chars.[Z.to_nat i]) q.

(** The loop of [base64_encode]; [a] is the filled part of [char_array_3]. *)
Fixpoint encode_from (a bytes : list Z) : list Z :=
  match bytes with
  | [] =>
      if (length a =? 0)%nat then []
      else letters (take (length a + 1) (quad a)) ++ replicate (3 - length a) (chr "=")
  | b :: rest =>
      let a := a ++ [b] in
      if (length a =? 3)%nat then letters (quad a) ++ encode_from [] rest else encode_from a rest
  end.

Definition base64_encode (bytes : list Z) : list Z := encode_from [] bytes.

(** The three bytes of four codes, kept in [unsigned char]. *)
Definition triple (q : list Z) : list Z :=
  [u8 (Z.shiftl q.[0] 2 + Z.shiftr (Z.land q.[1] 48) 4);
   u8 (Z.shiftl (Z.land q.[1] 15) 4 + Z.shiftr (Z.land q.[2] 60) 2);
   u8 (Z.shiftl (Z.land q.[2] 3) 6 + q.[3])].

(** The end of [base64_decode]: the missing cells of [char_array_4] are zero bytes.
    The code counts the bytes of the string in an [int] ([in_len]), so the strings meant are
    shorter than 2^31. *)
Definition decode_tail (a : list Z) : list Z :=
  if (length a =? 0)%nat then []
  else take (length a - 1) (triple (map find (a ++ replicate (4 - length a) 0))).

(** The loop of [base64_decode]; [a] is the filled part of [char_array_4]. *)
Fixpoint decode_from (a s : list Z) : list Z :=
  match s with
  | [] => decode_tail a
  | c :: rest =>
      if negb (c =? chr "=") && is_base64 c then
        let a := a ++ [c] in
        if (length a =? 4)%nat then triple (map find a) ++ decode_from [] rest else decode_from a rest
      else decode_tail a
  end.

Definition base64_decode (s : list Z) : list Z := decode_from [] s.

(** *** The shifts and masks as arithmetic *)

(** What [quad] and [triple] take from a byte and from a code. *)
Lemma byte_bits a : byte a →
  Z.shiftr (Z.land a 252) 2 = a / 4 ∧ Z.shiftl (Z.land a 3) 4 = 16 * (a mod 4) ∧
  Z.shiftr (Z.land a 240) 4 = a / 16 ∧ Z.shiftl (Z.land a 15) 2 = 4 * (a mod 16) ∧
  Z.shiftr (Z.land a 192) 6 = a / 64 ∧ Z.land a 63 = a mod 64.
Proof. revert a. apply (below_all 256 _). vm_compute. reflexivity. Qed.

Lemma code_bits q : 0 <= q < 256 →
  Z.shiftl q 2 = 4 * q ∧ Z.shiftr (Z.land q 48) 4 = q / 16 mod 4 ∧
  Z.shiftl (Z.land q 15) 4 = 16 * (q mod 16) ∧ Z.shiftr (Z.land q 60) 2 = q / 4 mod 16 ∧
  Z.shiftl (Z.land q 3) 6 = 64 * (q mod 4).
Proof. revert q. apply (below_all 256 _). vm_compute. reflexivity. Qed.

(** The alphabet: a code below 64 has a letter that is found again. *)
Definition letter (i : Z) : Z := base64_chars.[Z.to_nat i].

Lemma letter_ok i : 0 <= i < 64 →
  find (letter i) = i ∧ negb (letter i =? chr "=") && is_base64 (letter i) = true.
Proof. revert i. apply (below_all 64 _). vm_compute. reflexivity. Qed.

Lemma quad_arith a b c : byte a → byte b → byte c →
  quad [a; b; c] =
    [a / 4; 16 * (a mod 4) + b / 16; 4 * (b mod 16) + c / 64; c mod 64].
Proof.
  intros (E1 & E2 & _)%byte_bits (_ & _ & E3 & E4 & _)%byte_bits (_ & _ & _ & _ & E5 & E6)%byte_bits.
  unfold quad, aget. simpl. by rewrite E1, E2, E3, E4, E5, E6.
Qed.

Lemma triple_arith p q r s : 0 <= p < 256 → 0 <= q < 256 → 0 <= r < 256 →
  triple [p; q; r; s] =
    [u8 (4 * p + q / 16 mod 4); u8 (16 * (q mod 16) + r / 4 mod 16); u8 (64 * (r mod 4) + s)].
Proof.
  intros (E1 & _)%code_bits (_ & E2 & E3 & _)%code_bits (_ & _ & _ & E4 & E5)%code_bits.
  unfold triple, aget. simpl. by rewrite E1, E2, E3, E4, E5.
Qed.

Lemma triple_quad a b c : byte a → byte b → byte c → triple (quad [a; b; c]) = [a; b; c].
Proof.
  unfold byte. intros Ha Hb Hc. rewrite quad_arith by done. rewrite triple_arith by lia.
  unfold u8. repeat f_equal; lia.
Qed.

(** *** Three bytes at a time *)

Lemma letters_map q : letters q = map letter q.
Proof. done. Qed.

Lemma find_letters q : Forall (λ i, 0 <= i < 64) q → map find (map letter q) = q.
Proof.
  induction 1 as [|i q Hi _ IH]; cbn [map]; [done|]. by rewrite IH, (proj1 (letter_ok i Hi)).
Qed.

Lemma quad_codes a b c : byte a → byte b → byte c → Forall (λ i, 0 <= i < 64) (quad [a; b; c]).
Proof.
  unfold byte. intros Ha Hb Hc. rewrite quad_arith by done. repeat constructor; lia.
Qed.

Lemma decode_from_letter a i rest : 0 <= i < 64 →
  decode_from a (letter i :: rest) =
    if (length (a ++ [letter i]) =? 4)%nat
    then triple (map find (a ++ [letter i])) ++ decode_from [] rest
    else decode_from (a ++ [letter i]) rest.
Proof. intros Hi. cbn [decode_from]. by rewrite (proj2 (letter_ok i Hi)). Qed.

Ltac read_letter := rewrite decode_from_letter by lia; cbn [length app Nat.eqb].

Lemma decode_quad q rest : Forall (λ i, 0 <= i < 64) q → length q = 4%nat →
  decode_from [] (letters q ++ rest) = triple q ++ decode_from [] rest.
Proof.
  intros Hq Hl. destruct q as [|p [|q [|r [|s [|]]]]]; try discriminate Hl.
  rewrite letters_map. pose proof (find_letters _ Hq) as Hf. revert Hf.
  repeat match goal with H : Forall _ _ |- _ => apply Forall_cons_1 in H as [? H] end.
  intros Hf. cbn [map app]. do 4 read_letter.
  by rewrite <- Hf at 1.
Qed.

Lemma encode_three a b c rest :
  base64_encode (a :: b :: c :: rest) = letters (quad [a; b; c]) ++ base64_encode rest.
Proof. done. Qed.

Lemma decode_from_pad a rest : decode_from a (chr "=" :: rest) = decode_tail a.
Proof. done. Qed.

Lemma find_zero : find 0 = 255.
Proof. vm_compute. reflexivity. Qed.

(** One or two bytes at the end: the letters before the padding give them back. *)
Lemma decode_one a : byte a → base64_decode (base64_encode [a]) = [a].
Proof.
  intros Ha. unfold base64_decode, base64_encode. cbn [encode_from app length Nat.eqb].
  assert (quad [a] = quad [a; 0; 0]) as -> by done. unfold byte in *.
  rewrite quad_arith by (unfold byte; lia). rewrite letters_map.
  cbn [take map app Nat.add Nat.sub replicate].
  do 2 read_letter. rewrite decode_from_pad. unfold decode_tail. cbn [length Nat.eqb Nat.sub app map take replicate].
  rewrite find_zero, !(λ i H, proj1 (letter_ok i H)) by lia.
  rewrite triple_arith by lia. cbn [take]. unfold u8. f_equal. lia.
Qed.

Lemma decode_two a b : byte a → byte b → base64_decode (base64_encode [a; b]) = [a; b].
Proof.
  intros Ha Hb. unfold base64_decode, base64_encode. cbn [encode_from app length Nat.eqb].
  assert (quad [a; b] = quad [a; b; 0]) as -> by done. unfold byte in *.
  rewrite quad_arith by (unfold byte; lia). rewrite letters_map.
  cbn [take map app Nat.add Nat.sub replicate].
  do 3 read_letter. rewrite decode_from_pad. unfold decode_tail. cbn [length Nat.eqb Nat.sub app map take replicate].
  rewrite find_zero, !(λ i H, proj1 (letter_ok i H)) by lia.
  rewrite triple_arith by lia. cbn [take]. unfold u8. f_equal; [lia|]. f_equal. lia.
Qed.

(** C31. Base64: decoding what [base64_encode] makes of any bytes gives the bytes
    back, whatever the length is modulo three. *)
Theorem base64_roundtrip l : Forall byte l → base64_decode (base64_encode l) = l.
Proof.
  induction l as [l IH] using (induction_ltof1 _ length). unfold ltof in IH.
  destruct l as [|a [|b [|c rest]]]; intros Hl; [done| | |];
    repeat match goal with H : Forall _ (_ :: _) |- _ => apply Forall_cons_1 in H as [? H] end.
  - by apply decode_one.
  - by apply decode_two.
  - rewrite encode_three. unfold base64_decode in *.
    rewrite decode_quad by (done || by apply quad_codes).
    rewrite triple_quad by done. cbn [app]. do 3 f_equal. apply IH; simpl; [lia|done].
Qed.

Lemma base64_roundtrip_witness : base64_decode (base64_encode [0; 255; 61; 7]) = [0; 255; 61; 7].
Proof. apply base64_roundtrip. repeat constructor; unfold byte; lia. Defined.

End Base64.

(** ** The URL codec *)

Module Url.

(** A read at index [i] of a string: the terminating zero is readable. *)
Definition at_ (s : list Z) (i : nat) : option Z :=
  if (i <? length s)%nat then s !! i else if (i =? length s)%nat then Some 0 else None.

Definition isDigit16Char (c : Z) : bool :=
  between (chr "0") c (chr "9") || between (chr "A") c (chr "F") || between (chr "a") c (chr "f").

(** [initCharVec]: the characters that need no encoding. *)
Definition dontNeedEncoding (c : Z) : bool :=
  isalnum c || bool_decide (c ∈ chars "+-_.*").

(** [hasUrlEncoded]: after a percent sign two characters are skipped. *)
Fixpoint hasUrlEncoded (s : list Z) : bool :=
  match s with
  | [] => false
  | c :: rest =>
      if dontNeedEncoding c then hasUrlEncoded rest
      else if c =? chr "%" then
        match rest with
        | c1 :: c2 :: rest2 => if isDigit16Char c1 && isDigit16Char c2 then true else hasUrlEncoded rest2
        | _ => hasUrlEncoded rest
        end
      else hasUrlEncoded rest
  end.

Definition CharToInt (ch : Z) : Z :=
  if between (chr "0") ch (chr "9") then ch - chr "0"
  else if between (chr "a") ch (chr "f") then ch - chr "a" + 10
  else if between (chr "A") ch (chr "F") then ch - chr "A" + 10
  else -1.

(** [StrToBin] of two characters, as a byte. *)
Definition StrToBin (c0 c1 : Z) : Z := u8 (Z.lor (Z.shiftl (CharToInt c0) 4) (CharToInt c1)).

(** [%X] of a number below 16. *)
Definition hex (x : Z) : Z := if x <? 10 then x + chr "0" else x - 10 + chr "A".

Definition Encode1 (c : Z) : list Z :=
  if isalnum c then [c]
  else if isspace c then [chr "+"]
  else [chr "%"; hex (Z.shiftr c 4); hex (c mod 16)].

Definition Encode (s : list Z) : list Z := concat (map Encode1 s).

(** One round of the loop of [Decode] at index [i]: the byte, the next index and
    whether a third encoding was met. *)
Definition decode_step (s : list Z) (i : nat) : option (Z * nat * bool) :=
  c ← at_ s i;
  if c =? chr "%" then
    c1 ← at_ s (i + 1); c2 ← at_ s (i + 2);
    let ch := StrToBin c1 c2 in
    if ch =? chr "%" then
      c3 ← at_ s (i + 3); c4 ← at_ s (i + 4);
      let ch := StrToBin c3 c4 in
      Some (ch, (i + 5)%nat, ch =? chr "%")
    else Some (ch, (i + 3)%nat, false)
  else if c =? chr "+" then Some (chr " ", (i + 1)%nat, false)
  else Some (c, (i + 1)%nat, false).

(** The loop of [Decode]; as many rounds as characters are enough. *)
Fixpoint decode_loop (fuel : nat) (s : list Z) (i : nat) : option (bool * list Z) :=
  if (i <? length s)%nat then
    match fuel with
    | O => None
    | S f =>
        '(c, i, more) ← decode_step s i;
        '(more', r) ← decode_loop f s i;
        Some ((more : bool) || (more' : bool), c :: r)
    end
  else Some (false, []).

(** [URL::Decode]: whether the result is encoded again ([1]), and the result. *)
Definition Decode (s : list Z) : option (bool * list Z) := decode_loop (length s) s 0.

(** The [do]-loop of [MultipleDecode] on [strURL]. *)
Fixpoint multiple_loop (fuel : nat) (strURL : list Z) : option (list Z) :=
  '(more, r) ← Decode strURL;
  if (more : bool) then match fuel with O => None | S f => multiple_loop f r end else Some r.

Definition MultipleDecode (s : list Z) : option (list Z) :=
  if negb (hasUrlEncoded s) then Some s
  else
    '(more, r) ← Decode s;
    if (more : bool) then multiple_loop (length r) r else Some r.

(** A right shift of a promoted 32-bit [int]. *)
Definition shr_int (x n : Z) : option Z := if (0 <=? n) && (n <? 32) then Some (Z.shiftr x n) else None.

(** [_INLINE_C_2_H(c >> 4)]: the macro does not put its argument in parentheses, so
    the digit is [c >> 4 + 55] or [c >> 4 + 48], a shift by 59 or 52 places. *)
Definition high_digit (c : Z) : option Z :=
  d ← (if 9 <? Z.shiftr c 4 then shr_int c (4 + 55) else shr_int c (4 + 48)); Some (u8 d).

Definition low_digit (c : Z) : Z := u8 (if 9 <? c mod 16 then c mod 16 + 55 else c mod 16 + 48).

Definition unreserved (c : Z) : bool :=
  isalnum c || (c =? chr "-") || (c =? chr "_") || (c =? chr ".") || (c =? chr "~").

Fixpoint url_encode (d : list Z) : option (list Z) :=
  match d with
  | [] => Some []
  | c :: rest =>
      e ← (if unreserved c then Some [c]
           else if c =? chr " " then Some [chr "+"]
           else h ← high_digit c; Some [chr "%"; h; low_digit c]);
      r ← url_encode rest; Some (e ++ r)
  end.

(** [__INLINE_H_2_C]. *)
Definition from_hex (x : Z) : Z :=
  if between (chr "A") x (chr "Z") then x - chr "A" + 10
  else if between (chr "a") x (chr "z") then x - chr "a" + 10
  else if between (chr "0") x (chr "9") then x - chr "0"
  else x.

(** [url_decode]: a percent sign without two characters behind it ends the decoding. *)
Fixpoint url_decode (e : list Z) : list Z :=
  match e with
  | [] => []
  | c :: rest =>
      if c =? chr "+" then chr " " :: url_decode rest
      else if c =? chr "%" then
        match rest with
        | c1 :: c2 :: rest2 => u8 (from_hex c1 * 16 + from_hex c2) :: url_decode rest2
        | _ => c :: rest
        end
      else c :: url_decode rest
  end.

(** What [url_encode] leaves as it is or turns into a plus sign. *)
Definition plain (c : Z) : bool := unreserved c || (c =? chr " ").

(** *** The rounds of [Decode] *)

Lemma at_Some s i c : at_ s i = Some c → (i ≤ length s)%nat.
Proof. unfold at_. bsplit; intros; simplify_eq; lia. Qed.

(** A round moves on, by four readable places at least when it meets a third
    encoding. *)
Lemma decode_step_next s i c j more :
  decode_step s i = Some (c, j, more) → (i < length s)%nat →
  (i < j)%nat ∧ (more = true → i + 4 ≤ length s ∧ i + 4 < j)%nat.
Proof.
  unfold decode_step. intros H Hi.
  repeat match type of H with
  | (at_ ?s ?k ≫= _) = _ =>
      let E := fresh "E" in destruct (at_ s k) eqn:E; cbn in H; [apply at_Some in E|done]
  | (if ?b then _ else _) = _ => destruct b
  end; simplify_eq; split; (lia || done).
Qed.

Lemma decode_loop_length fuel s i more r :
  decode_loop fuel s i = Some (more, r) →
  (length r + (if more : bool then 3 else 0) ≤ length s - i)%nat.
Proof.
  revert i more r. induction fuel as [|f IH]; intros i more r; simpl;
    destruct (i <? length s)%nat eqn:Hi; intros H; simplify_eq; simpl; try lia.
  destruct (decode_step s i) as [[[c j] m]|] eqn:Es; simpl in H; [|done].
  destruct (decode_loop f s j) as [[m' r']|] eqn:El; simpl in H; [|done].
  simplify_eq. apply IH in El. breflect. apply decode_step_next in Es as [Hj Hm]; [|done].
  destruct m; simpl; [specialize (Hm eq_refl)|]; destruct m'; lia.
Qed.

(** With a round for each character left, the loop only fails where a round reads
    past the end. *)
Lemma decode_loop_none fuel s i :
  (length s - i ≤ fuel)%nat → decode_loop fuel s i = None →
  ∃ j, (j < length s)%nat ∧ decode_step s j = None.
Proof.
  revert i. induction fuel as [|f IH]; intros i Hf; simpl;
    destruct (i <? length s)%nat eqn:Hi; intros H; breflect; try done; [lia|].
  destruct (decode_step s i) as [[[c j] m]|] eqn:Es; [|eauto].
  simpl in H. apply decode_step_next in Es as [Hj _]; [|done].
  destruct (decode_loop f s j) as [[m' r']|] eqn:El; [done|]. apply (IH j); [lia|done].
Qed.

(** The string of the next call of [Decode] in [MultipleDecode]. *)
Definition again (s r : list Z) : Prop := Decode s = Some (true, r).

(** A string on which [Decode] reads past the terminating zero. *)
Definition overrun (s : list Z) : Prop := ∃ j, (j < length s)%nat ∧ decode_step s j = None.

Lemma again_length s r : again s r → (length r + 3 ≤ length s)%nat.
Proof. intros H%decode_loop_length. lia. Qed.

Lemma Decode_none s : Decode s = None → overrun s.
Proof. apply decode_loop_none. lia. Qed.

Lemma multiple_loop_spec fuel s : (length s ≤ fuel)%nat →
  match multiple_loop fuel s with
  | Some r => ∃ s', rtc again s s' ∧ Decode s' = Some (false, r)
  | None => ∃ s', rtc again s s' ∧ overrun s'
  end.
Proof.
  revert s. induction fuel as [|f IH]; intros s Hf; simpl;
    (destruct (Decode s) as [[[] r]|] eqn:E; simpl;
     [|by exists s; split; [apply rtc_refl|]
      |exists s; split; [apply rtc_refl|by apply Decode_none]]);
    pose proof (again_length _ _ E); [lia|].
  specialize (IH r ltac:(lia)).
  destruct (multiple_loop f r); destruct IH as (s' & ? & ?); exists s'; (split; [by econstructor|done]).
Qed.

(** The repeated decoding ends: every call of [Decode] that asks for another one
    returns a shorter string, so [MultipleDecode] of an encoded string is the result
    of the last [Decode] of a chain, and it has no result only where a [Decode] of
    the chain reads past the end of its string. *)
Theorem MultipleDecode_ends s : hasUrlEncoded s = true →
  match MultipleDecode s with
  | Some r => ∃ s', rtc again s s' ∧ Decode s' = Some (false, r)
  | None => ∃ s', rtc again s s' ∧ overrun s'
  end.
Proof.
  intros Hs. unfold MultipleDecode. rewrite Hs. cbn [negb].
  destruct (Decode s) as [[[] r]|] eqn:E; simpl.
  - pose proof (multiple_loop_spec (length r) r ltac:(lia)) as H.
    destruct (multiple_loop (length r) r); destruct H as (s' & ? & ?);
      exists s'; (split; [by econstructor|done]).
  - by exists s; split; [apply rtc_refl|].
  - exists s. split; [apply rtc_refl|by apply Decode_none].
Qed.

Lemma MultipleDecode_ends_witness : hasUrlEncoded (chars "%252525252541") = true ∧
  ∃ s', rtc again (chars "%252525252541") s' ∧ Decode s' = Some (false, chars "A").
Proof.
  split; [reflexivity|]. pose proof (MultipleDecode_ends (chars "%252525252541") eq_refl) as H.
  vm_compute (MultipleDecode _) in H. exact H.
Defined.

(** *** Round trips *)

Lemma at_app pre t k : at_ (pre ++ t) (length pre + k) = at_ t k.
Proof.
  unfold at_. rewrite length_app, lookup_app_r by lia.
  replace (length pre + k - length pre)%nat with k by lia.
  destruct (k <? length t)%nat eqn:E1; destruct (length pre + k <? length pre + length t)%nat eqn:E2;
    breflect; try lia; [done|].
  destruct (k =? length t)%nat eqn:E3; destruct (length pre + k =? length pre + length t)%nat eqn:E4;
    breflect; (done || lia).
Qed.

(** The part [e] of a string is one round of [Decode]: it gives [c], and [m] tells
    that another decoding is needed. *)
Definition chunk (e : list Z) (c : Z) (m : bool) : Prop :=
  e ≠ [] ∧ ∀ pre t, decode_step (pre ++ e ++ t) (length pre) = Some (c, (length pre + length e)%nat, m).

Lemma decode_step_app pre t :
  decode_step (pre ++ t) (length pre) =
    '(c, j, m) ← decode_step t 0; Some (c, (length pre + j)%nat, m).
Proof.
  unfold decode_step. rewrite <- (Nat.add_0_r (length pre)) at 1. rewrite !at_app.
  change (0 + 1)%nat with 1%nat. change (0 + 2)%nat with 2%nat.
  change (0 + 3)%nat with 3%nat. change (0 + 4)%nat with 4%nat.
  destruct (at_ t 0) as [c|]; cbn -[chr StrToBin]; [|done]. destruct (c =? chr "%"); [|bsplit; done].
  destruct (at_ t 1) as [c1|]; cbn -[chr StrToBin]; [|done].
  destruct (at_ t 2) as [c2|]; cbn -[chr StrToBin]; [|done].
  destruct (StrToBin c1 c2 =? chr "%"); [|done].
  destruct (at_ t 3) as [c3|]; cbn -[chr StrToBin]; [|done].
  by destruct (at_ t 4).
Qed.

Lemma chunk_plain c : c ≠ chr "%" → c ≠ chr "+" → chunk [c] c false.
Proof.
  intros H1 H2. split; [done|]. intros pre t. rewrite decode_step_app.
  unfold decode_step. cbn [at_ app length]. unfold at_. cbn.
  apply Z.eqb_neq in H1 as ->. apply Z.eqb_neq in H2 as ->. done.
Qed.

Lemma chunk_plus : chunk [chr "+"] (chr " ") false.
Proof. split; [done|]. intros pre t. by rewrite decode_step_app. Qed.

Lemma chunk_percent h l : StrToBin h l ≠ chr "%" → chunk [chr "%"; h; l] (StrToBin h l) false.
Proof.
  intros H1. split; [done|]. intros pre t. rewrite decode_step_app.
  unfold decode_step. unfold at_. cbn -[StrToBin]. apply Z.eqb_neq in H1 as ->. done.
Qed.

Lemma chunk_twice h l :
  chunk (chars "%25" ++ [h; l]) (StrToBin h l) (StrToBin h l =? chr "%").
Proof.
  split; [done|]. intros pre t. rewrite decode_step_app. done.
Qed.

Lemma decode_loop_chunks fuel pre l :
  Forall (λ x, chunk x.1.1 x.1.2 x.2) l → let e := concat (map (λ x, x.1.1) l) in
  (length e ≤ fuel)%nat →
  decode_loop fuel (pre ++ e) (length pre) = Some (existsb snd l, map (λ x, x.1.2) l).
Proof.
  intros Hl. revert fuel pre.
  induction Hl as [|[[e c] m] l [He Hc] _ IH]; intros fuel pre; cbn [map concat fst snd existsb].
  - intros _. rewrite app_nil_r. destruct fuel; cbn [decode_loop]; by rewrite Nat.ltb_irrefl.
  - intros Hf. cbn in He, Hc. rewrite length_app in Hf.
    destruct fuel as [|f]; [destruct e; simpl in Hf; [done|lia]|].
    cbn [decode_loop].
    assert ((length pre <? length (pre ++ e ++ concat (map (λ x, x.1.1) l)))%nat = true) as ->.
    { apply Nat.ltb_lt. rewrite !length_app. destruct e; [done|simpl; lia]. }
    rewrite Hc. cbn [mbind option_bind].
    rewrite app_assoc, <- (length_app pre e), IH; [done|].
    destruct e; [done|simpl in Hf; lia].
Qed.

Lemma Decode_chunks {A} (e : A → list Z) (c : A → Z) (m : A → bool) (l : list A) :
  Forall (λ x, chunk (e x) (c x) (m x)) l →
  Decode (concat (map e l)) = Some (existsb m l, map c l).
Proof.
  intros Hl. unfold Decode.
  pose proof (decode_loop_chunks (length (concat (map e l))) [] (map (λ x, (e x, c x, m x)) l)) as H.
  rewrite !map_map in H. cbn [fst snd app length] in H.
  change (map (λ x, e x) l) with (map e l) in H. rewrite H; [|by apply Forall_map|done].
  do 2 f_equal. clear. induction l as [|x l IH]; simpl; by rewrite ?IH.
Qed.

(** The digits [%X] prints are read back. *)
Lemma hex_ok c : byte c →
  StrToBin (hex (Z.shiftr c 4)) (hex (c mod 16)) = c ∧
  isalnum (hex (Z.shiftr c 4)) = true ∧ isalnum (hex (c mod 16)) = true.
Proof. revert c. apply (below_all 256 _). vm_compute. reflexivity. Qed.

Lemma isalnum_plain c : isalnum c = true → c ≠ chr "%" ∧ c ≠ chr "+".
Proof. unfold isalnum, between. intros H. split; intros ->; vm_compute in H; done. Qed.

Lemma Encode1_alnum c : isalnum c = true → Encode1 c = [c].
Proof. unfold Encode1. by intros ->. Qed.

Lemma chunk_Encode1 c : byte c → c ≠ chr "%" →
  chunk (Encode1 c) (if isspace c then chr " " else c) false.
Proof.
  intros Hb Hc. unfold Encode1. destruct (isalnum c) eqn:Ea.
  - assert (isspace c = false) as ->.
    { revert Ea. revert c Hb Hc. apply (below_all 256 (λ c, c ≠ _ → _ → _ = false)). vm_compute. reflexivity. }
    apply isalnum_plain in Ea as [??]. by apply chunk_plain.
  - destruct (isspace c); [apply chunk_plus|].
    destruct (hex_ok c Hb) as (E & _). rewrite <- E at 3. apply chunk_percent. by rewrite E.
Qed.

(** [Decode] undoes [Encode] in one round on strings without a percent sign; a
    white space character comes back as a blank. *)
Theorem Decode_Encode s : Forall byte s → chr "%" ∉ s →
  Decode (Encode s) = Some (false, map (λ c, if isspace c then chr " " else c) s).
Proof.
  intros Hb Hs. unfold Encode. rewrite (Decode_chunks _ (λ c, if isspace c then chr " " else c) (λ _, false)).
  - do 2 f_equal. clear. by induction s.
  - rewrite Forall_forall in *. intros c Hc. apply chunk_Encode1; [by apply Hb|congruence].
Qed.

Lemma Decode_Encode_witness :
  Decode (Encode (chars "a b&c=1/2")) = Some (false, chars "a b&c=1/2").
Proof.
  apply (Decode_Encode (chars "a b&c=1/2")); [|by_decide].
  unfold byte. apply (bool_decide_eq_true_1 (Forall _ _)). vm_compute. reflexivity.
Defined.

(** One round of [Decode] undoes two encodings: a string without white space is
    given back as it is, and the result asks for another round exactly when it has a
    percent sign. *)
Theorem Decode_Encode_twice s : Forall (λ c, byte c ∧ isspace c = false) s →
  Decode (Encode (Encode s)) = Some (existsb (λ c, c =? chr "%") s, s).
Proof.
  intros Hs. unfold Encode at 2.
  assert (∀ s, Encode (concat (map Encode1 s)) = concat (map (λ c, Encode (Encode1 c)) s)) as ->.
  { clear. induction s as [|c s IH]; [done|]. cbn [map concat]. rewrite <- IH.
    unfold Encode. by rewrite map_app, concat_app. }
  rewrite (Decode_chunks _ id (λ c, c =? chr "%")); [by rewrite map_id|].
  eapply Forall_impl; [exact Hs|]. intros c [Hb Hc].
  destruct (isalnum c) eqn:Ea.
  - rewrite !Encode1_alnum by done. unfold Encode. cbn [map concat]. rewrite Encode1_alnum by done.
    destruct (isalnum_plain c Ea) as [E ?]. rewrite (proj2 (Z.eqb_neq _ _) E). by apply chunk_plain.
  - destruct (hex_ok c Hb) as (E & E1 & E2). unfold Encode1 at 1. rewrite Ea, Hc.
    unfold Encode. cbn [map concat]. rewrite (Encode1_alnum _ E1), (Encode1_alnum _ E2).
    unfold id. rewrite <- E at 3 4. apply chunk_twice.
Qed.

Lemma Decode_Encode_twice_witness :
  Decode (Encode (Encode (chars "x=1&y=50%"))) = Some (true, chars "x=1&y=50%").
Proof.
  apply (Decode_Encode_twice (chars "x=1&y=50%")).
  unfold byte. apply (bool_decide_eq_true_1 (Forall _ _)). vm_compute. reflexivity.
Defined.

(** [url_encode] is defined exactly on the strings whose characters need no
    percent encoding, where [url_decode] undoes it: the digit of any other character is
    computed by a shift by 52 or 59 places of a 32-bit integer. *)
Theorem url_encode_undefined d :
  match url_encode d with
  | Some e => Forall (λ c, plain c = true) d ∧ url_decode e = d
  | None => ∃ c, c ∈ d ∧ plain c = false
  end.
Proof.
  induction d as [|c d IH]; simpl; [done|].
  destruct (unreserved c) eqn:Eu; [|destruct (c =? chr " ") eqn:Es]; simpl.
  - destruct (url_encode d) as [e|]; simpl.
    + destruct IH as [IH1 IH2]. split; [constructor; [unfold plain; by rewrite Eu|done]|].
      assert ((c =? chr "+") = false) as ->.
      { apply Z.eqb_neq. intros ->. discriminate Eu. }
      assert ((c =? chr "%") = false) as ->.
      { apply Z.eqb_neq. intros ->. discriminate Eu. }
      by rewrite IH2.
    + destruct IH as (x & ? & ?). exists x. split; [by right|done].
  - breflect. subst c. destruct (url_encode d) as [e|]; simpl.
    + destruct IH as [IH1 IH2]. split; [by constructor|]. by rewrite IH2.
    + destruct IH as (x & ? & ?). exists x. split; [by right|done].
  - assert (high_digit c = None) as ->.
    { unfold high_digit, shr_int. by destruct (9 <? Z.shiftr c 4). }
    simpl. exists c. split; [by left|]. unfold plain. by rewrite Eu, Es.
Qed.

End Url.
