(* ===== verification/Weights.v ===== *)
(** Weighted random choice ([src/public/weights.cpp]) over the linear congruential
    generator of [src/public/Random.h].  The seed of the generator is the state of a
    small monad; signed overflow, a modulus of zero and the end of a function without
    [return] are undefined behaviour, where the monad has no result. *)
From stdpp Require Import base list numbers.
From Stdlib Require Import ZArith Lia.
From S2P Require Import Prelude.

#[local] Open Scope Z_scope.

(** A result of 32-bit [int] arithmetic. *)
Definition int (z : Z) : option Z :=
  if (-2147483648 <=? z) && (z <? 2147483648) then Some z else None.

Lemma int_Some z : -2147483648 <= z < 2147483648 → int z = Some z.
Proof. intros H. unfold int. bcrush. Qed.

(** ** The generator *)

Definition Rnd (A : Type) : Type := Z → option (A * Z).
#[global] Instance rnd_ret : MRet Rnd := λ A x seed, Some (x, seed).
#[global] Instance rnd_bind : MBind Rnd := λ A B f m seed, '(x, seed) ← m seed; f x seed.
Definition lift {A} (o : option A) : Rnd A := λ seed, x ← o; Some (x, seed).

Definition GetNextSeed (m_nSeed : Z) : Z := u32 (214013 * m_nSeed + 2531011).

(** [Random_Int]: the remainder and the sum are unsigned, the result is [int]. *)
Definition Random_Int (min max : Z) : Rnd Z := λ m_nSeed,
  let m_nSeed := GetNextSeed m_nSeed in
  d ← int (max - min); n ← int (d + 1);
  if n =? 0 then None
  else Some (i32 (u32 (min + Z.lxor m_nSeed (Z.shiftr m_nSeed 15) mod u32 n)), m_nSeed).

Definition RandomBetween (a b : Z) : Rnd Z := Random_Int a b.

(** [for] over a range: the body runs with each index in turn. *)
Fixpoint for_each {S} (l : list nat) (body : nat → S → Rnd S) (s : S) : Rnd S :=
  match l with
  | [] => mret s
  | i :: l => s ← body i s; for_each l body s
  end.

(** ** The choice *)

(** The loop of [GetResultByWeight] from index [i] with the rest [c] of the draw. *)
Fixpoint pick (i : nat) (c : Z) (weight : list Z) : option nat :=
  match weight with
  | [] => None
  | w :: rest => c ← int (c - w); if c <=? 0 then Some i else pick (S i) c rest
  end.

Fixpoint total (sum : Z) (weight : list Z) : option Z :=
  match weight with
  | [] => Some sum
  | w :: rest => sum ← int (sum + w); total sum rest
  end.

Definition GetResultByWeight (weight : list Z) : Rnd nat :=
  sum ← lift (total 0 weight);
  if sum <=? 1 then mret 0%nat
  else r ← RandomBetween 1 sum; lift (pick 0 r weight).

(** ** The pool of weights *)

Definition MAX_WEIGHT : nat := 10.

Record Pool := mkPool { count_ : nat; weights_ : list Z; indexID_ : list Z }.

Definition CWeight : Pool := mkPool 0 (replicate MAX_WEIGHT 0) (replicate MAX_WEIGHT 0).

(** Writes [x] over the first cells of the array [a]. *)
Definition fill (x a : list Z) : list Z := x ++ drop (length x) a.

Definition init (weight : list Z) (p : Pool) : Pool :=
  if (MAX_WEIGHT <? length weight)%nat then p
  else mkPool (length weight) (fill weight (weights_ p))
         (fill (map Z.of_nat (seq 0 (length weight))) (indexID_ p)).

Definition swap (i j : nat) (a : list Z) : list Z := <[j := a.[i]]> (<[i := a.[j]]> a).

Definition shuffle_step (i : nat) (p : Pool) : Rnd Pool :=
  x ← RandomBetween 100 100000;
  let j := Z.to_nat (x mod Z.of_nat (count_ p)) in
  if (i =? j)%nat then mret p
  else mret (mkPool (count_ p) (swap i j (weights_ p)) (swap i j (indexID_ p))).

Definition shuffleSeq (p : Pool) : Rnd Pool :=
  c ← RandomBetween 5 10;
  for_each (seq 0 (Z.to_nat c)) (λ _ p, for_each (seq 0 (count_ p)) shuffle_step p) p.

Definition getResultByWeight (p : Pool) : Rnd Z :=
  i ← GetResultByWeight (take (count_ p) (weights_ p)); mret ((indexID_ p).[i]).

Inductive ExchangeTy := Exchange | NoExchange.

Definition exchange_of (z : Z) : ExchangeTy := if z =? 0 then Exchange else NoExchange.

Definition CalcExchangeOrNot (ratioExchange : Z) : Rnd ExchangeTy :=
  w ← lift (int (100 - ratioExchange));
  pool ← shuffleSeq (init [ratioExchange; w] CWeight);
  i ← getResultByWeight pool; mret (exchange_of i).

Definition CalcExchangeOrNot2 (pool : Pool) : Rnd (Pool * ExchangeTy) :=
  pool ← shuffleSeq pool; i ← getResultByWeight pool; mret (pool, exchange_of i).

(** ** The generator stays in its range *)

Lemma seed_range s : 0 <= GetNextSeed s < 4294967296.
Proof. unfold GetNextSeed, u32. lia. Qed.

Lemma Random_Int_some min max s :
  -2147483648 <= min → min <= max → max < 2147483648 → max - min < 2147483647 →
  ∃ r, Random_Int min max s = Some (r, GetNextSeed s) ∧ min <= r <= max.
Proof.
  intros H1 H2 H3 H4. unfold Random_Int. rewrite (int_Some (max - min)) by lia. cbn.
  rewrite int_Some by lia. cbn. replace (max - min + 1 =? 0) with false by lia.
  eexists. split; [reflexivity|].
  set (x := Z.lxor _ _). clearbody x. unfold u32, i32.
  rewrite (Z.mod_small (max - min + 1)) by lia.
  pose proof (Z.mod_pos_bound x (max - min + 1)). set (d := x mod _) in *. clearbody d. lia.
Qed.

(** [Random_Int] of a range whose size is an [int] gives a number of the range,
    whatever the seed is, negative lower bounds included. *)
Theorem Random_Int_range min max s :
  -2147483648 <= min → min <= max → max < 2147483648 → max - min < 2147483647 →
  ∃ r, Random_Int min max s = Some (r, GetNextSeed s) ∧ min <= r <= max.
Proof. apply Random_Int_some. Qed.

Lemma Random_Int_range_witness :
  ∃ r, Random_Int (-3) 3 1 = Some (r, GetNextSeed 1) ∧ -3 <= r <= 3.
Proof. apply Random_Int_range; lia. Defined.

Lemma RandomBetween_some a b s : 0 <= a → a <= b → b < 2147483647 + a → b < 2147483648 →
  ∃ r, RandomBetween a b s = Some (r, GetNextSeed s) ∧ a <= r <= b.
Proof. intros. apply Random_Int_some; lia. Qed.

(** ** How often an index is chosen *)

(** The weight of the indices from [i] that satisfy [f]. *)
Fixpoint weight_of (f : nat → bool) (i : nat) (weight : list Z) : Z :=
  match weight with
  | [] => 0
  | w :: rest => (if f i then w else 0) + weight_of f (S i) rest
  end.

Definition hits (f : nat → bool) (i : nat) (weight : list Z) (r : Z) : bool :=
  match pick i r weight with Some j => f j | None => false end.

(** The draws [1 .. n]. *)
Definition draws (n : Z) : list Z := seqZ 1 n.

Definition weights_ok (weight : list Z) : Prop :=
  Forall (λ w, 0 <= w) weight ∧ sumZ weight < 2147483648.

Lemma total_sum sum weight : 0 <= sum → Forall (λ w, 0 <= w) weight →
  sum + sumZ weight < 2147483648 → total sum weight = Some (sum + sumZ weight).
Proof.
  intros Hs Hw. revert sum Hs. induction Hw as [|w weight Hw Hall IH]; intros sum Hs H; simpl in *.
  - f_equal. lia.
  - pose proof (sumZ_nonneg _ Hall). rewrite int_Some by lia. cbn. rewrite IH by lia. f_equal. lia.
Qed.

Lemma pick_cons i c w weight : 1 <= c → 0 <= w → c < 2147483648 → w < 2147483648 →
  pick i c (w :: weight) = if c <=? w then Some i else pick (S i) (c - w) weight.
Proof.
  intros. cbn [pick]. rewrite int_Some by lia. cbn.
  destruct (c - w <=? 0) eqn:E1, (c <=? w) eqn:E2; breflect; (done || lia).
Qed.

(** Every draw up to the sum chooses an index, of positive weight. *)
Lemma pick_some i c weight : weights_ok weight → 1 <= c <= sumZ weight →
  ∃ k, pick i c weight = Some (i + k)%nat ∧ (k < length weight)%nat ∧ 0 < weight.[k].
Proof.
  intros [Hw Hs]. revert i c Hs. induction Hw as [|w weight Hw Hall IH]; intros i c Hs Hc; simpl in *; [lia|].
  pose proof (sumZ_nonneg _ Hall). change (∃ k, pick i c (w :: weight) = Some (i + k)%nat ∧
    (k < S (length weight))%nat ∧ 0 < (w :: weight).[k]).
  rewrite pick_cons by lia. destruct (c <=? w) eqn:E; breflect.
  - exists 0%nat. rewrite Nat.add_0_r. split; [done|]. split; [lia|]. unfold aget. simpl. lia.
  - destruct (IH (S i) (c - w)) as (k & -> & ? & ?); [lia..|].
    exists (S k). rewrite Nat.add_succ_r. split; [done|]. split; [lia|done].
Qed.

(** How many elements of [l] satisfy [f]. *)
Definition number (f : Z → bool) (l : list Z) : Z := sumZ (map (λ x, Z.b2z (f x)) l).

Lemma number_app f l k : number f (l ++ k) = number f l + number f k.
Proof. unfold number. by rewrite map_app, sumZ_app. Qed.

Lemma number_ext f g l : (∀ x, x ∈ l → f x = g x) → number f l = number g l.
Proof.
  intros H. unfold number. f_equal. apply map_ext_in. intros x Hx. rewrite H; [done|].
  by apply list_elem_of_In.
Qed.

Lemma number_const b l : number (λ _, b) l = if (b : bool) then Z.of_nat (length l) else 0.
Proof. unfold number. induction l as [|x l IH]; destruct b; simpl in *; try done; lia. Qed.

(** Among the draws up to the sum, an index is chosen as often as its weight says. *)
Lemma number_hits f i weight : weights_ok weight →
  number (hits f i weight) (draws (sumZ weight)) = weight_of f i weight.
Proof.
  intros [Hw Hs]. revert i Hs. induction Hw as [|w weight Hw Hall IH]; intros i Hs; [done|].
  pose proof (sumZ_nonneg _ Hall) as Hn. simpl in *.
  unfold draws. rewrite seqZ_app by lia. rewrite number_app. f_equal.
  - rewrite (number_ext _ (λ _, f i)).
    + rewrite number_const, length_seqZ. destruct (f i); lia.
    + intros r [? ?]%elem_of_seqZ. unfold hits. rewrite pick_cons by lia.
      by replace (r <=? w) with true by lia.
  - rewrite <- (IH (S i)) by lia. rewrite (Z.add_comm 1 w), <- fmap_add_seqZ.
    unfold number at 1. rewrite map_map.
    apply (number_ext (λ r, hits f i (w :: weight) (w + r))). intros r [? ?]%elem_of_seqZ.
    unfold hits. rewrite pick_cons by lia. replace (w + r <=? w) with false by lia.
    by replace (w + r - w) with r by lia.
Qed.

Lemma weight_of_index i j weight : (i ≤ j)%nat →
  weight_of (λ k, (k =? j)%nat) i weight = weight.[j - i].
Proof.
  revert i. induction weight as [|w rest IH]; intros i Hi; cbn [weight_of]; [by destruct (j - i)%nat|].
  destruct (decide (i = j)) as [->|].
  - rewrite Nat.eqb_refl, Nat.sub_diag. change ((w :: rest).[0]) with w.
    assert (∀ i, (j < i)%nat → weight_of (λ k, (k =? j)%nat) i rest = 0) as ->; [|lia|lia].
    clear. induction rest as [|w rest IH]; intros i Hi; simpl; [done|].
    rewrite (proj2 (Nat.eqb_neq i j)), IH by lia. done.
  - rewrite (proj2 (Nat.eqb_neq i j)), IH by lia.
    replace (j - i)%nat with (S (j - S i)) by lia. done.
Qed.

(** The draw behind a call of [GetResultByWeight]. *)
Lemma draw_of weight seed : weights_ok weight → 1 < sumZ weight →
  ∃ r, RandomBetween 1 (sumZ weight) seed = Some (r, GetNextSeed seed) ∧ 1 <= r <= sumZ weight ∧
    ∃ k, pick 0 r weight = Some k ∧
    GetResultByWeight weight seed = lift (pick 0 r weight) (GetNextSeed seed).
Proof.
  intros Hok Hsum. destruct (RandomBetween_some 1 (sumZ weight) seed) as (r & Hr & ?); [destruct Hok; lia..|].
  exists r. split; [done|]. split; [lia|]. destruct (pick_some 0 r weight Hok) as (k & Ek & _); [lia|].
  exists k. split; [done|]. destruct Hok as [Hw ?]. unfold GetResultByWeight, mbind, rnd_bind, lift at 1.
  rewrite total_sum by (done || lia). cbn. rewrite Z.add_0_l.
  replace (sumZ weight <=? 1) with false by lia. by rewrite Hr.
Qed.

(** C34. For weights that are not negative and whose sum is an [int] ([weights_ok]): when
    the sum is more than 1, [GetResultByWeight] chooses by a draw from 1 to the sum; of
    these draws every one chooses an index, so the end of the loop without [return] is
    never reached, and an index is chosen by exactly as many as its weight.  When the
    sum is 0 or 1 there is no draw and the answer is index 0 whatever the weights are:
    with the weights 0 and 1 it is an index of weight 0. *)
Theorem GetResultByWeight_fair weight seed : weights_ok weight →
  (1 < sumZ weight →
    (∃ r, RandomBetween 1 (sumZ weight) seed = Some (r, GetNextSeed seed) ∧ 1 <= r <= sumZ weight ∧
      GetResultByWeight weight seed = lift (pick 0 r weight) (GetNextSeed seed)) ∧
    (∀ r, 1 <= r <= sumZ weight → is_Some (pick 0 r weight)) ∧
    ∀ i, number (hits (λ k, (k =? i)%nat) 0 weight) (draws (sumZ weight)) = weight.[i]) ∧
  (sumZ weight <= 1 → GetResultByWeight weight seed = Some (0%nat, seed)).
Proof.
  intros Hok. split; [intros Hsum; split; [|split]|intros Hsum].
  - destruct (draw_of weight seed Hok Hsum) as (r & ? & ? & k & _ & ?). by exists r.
  - intros r Hr. destruct (pick_some 0 r weight Hok Hr) as (k & -> & _). done.
  - intros i. rewrite number_hits by done. rewrite weight_of_index by lia. by rewrite Nat.sub_0_r.
  - destruct Hok as [Hw ?]. unfold GetResultByWeight, mbind, rnd_bind, lift at 1.
    rewrite total_sum by (done || lia). cbn. rewrite Z.add_0_l. by replace (sumZ weight <=? 1) with true by lia.
Qed.

Lemma GetResultByWeight_fair_witness :
  number (hits (λ k, (k =? 1)%nat) 0 [30; 70]) (draws 100) = 70 ∧ GetResultByWeight [0; 1] 5 = Some (0%nat, 5).
Proof.
  split.
  - refine (proj2 (proj2 (proj1 (GetResultByWeight_fair [30; 70] 1 _) _)) 1%nat); [split|]; [|done..].
    repeat constructor; lia.
  - refine (proj2 (GetResultByWeight_fair [0; 1] 5 _) _); [split|]; [|done..]. repeat constructor; lia.
Defined.

(** ** The shuffled pool *)

Definition valid (p : Pool) : Prop :=
  length (weights_ p) = MAX_WEIGHT ∧ length (indexID_ p) = MAX_WEIGHT ∧ (0 < count_ p ≤ MAX_WEIGHT)%nat.

(** The live entries: an index with its weight. *)
Definition pairs (p : Pool) : list (Z * Z) := take (count_ p) (zip (indexID_ p) (weights_ p)).

(** The pool [q] holds the entries of [p] in some order. *)
Definition same_entries (p q : Pool) : Prop :=
  valid q ∧ count_ q = count_ p ∧ pairs q ≡ₚ pairs p.

Lemma for_each_inv {S} (I : S → Prop) l body s seed :
  (∀ i s seed, i ∈ l → I s → ∃ s' seed', body i s seed = Some (s', seed') ∧ I s') →
  I s → ∃ s' seed', for_each l body s seed = Some (s', seed') ∧ I s'.
Proof.
  intros Hbody. revert s seed. induction l as [|i l IH]; intros s seed Hs; [by eexists _, _|].
  destruct (Hbody i s seed) as (s1 & seed1 & E & Hs1); [by left|done|].
  destruct (IH (λ j s seed Hj, Hbody j s seed ltac:(by right)) s1 seed1 Hs1) as (s2 & seed2 & E2 & Hs2).
  exists s2, seed2. split; [|done]. cbn [for_each]. unfold mbind, rnd_bind at 1. by rewrite E.
Qed.

Lemma swap_zip i j idx w : (i < length idx)%nat → (j < length idx)%nat → length w = length idx →
  zip (swap i j idx) (swap i j w) ≡ₚ zip idx w.
Proof.
  intros Hi Hj Hw.
  destruct (lookup_lt_is_Some_2 idx i) as [a Ea]; [done|].
  destruct (lookup_lt_is_Some_2 idx j) as [b Eb]; [done|].
  destruct (lookup_lt_is_Some_2 w i) as [c Ec]; [lia|].
  destruct (lookup_lt_is_Some_2 w j) as [d Ed]; [lia|].
  unfold swap. rewrite (aget_lookup _ _ _ Ea), (aget_lookup _ _ _ Eb), (aget_lookup _ _ _ Ec),
    (aget_lookup _ _ _ Ed).
  rewrite <- !insert_zip_with. apply Permutation_insert_swap; rewrite lookup_zip_with.
  - by rewrite Ea, Ec.
  - by rewrite Eb, Ed.
Qed.

Lemma take_swap n i j a : (i < n)%nat → (j < n)%nat → take n (swap i j a) = swap i j (take n a).
Proof.
  intros Hi Hj. unfold swap, aget. rewrite !take_insert_lt by done. by rewrite !lookup_take_lt by lia.
Qed.

Lemma length_swap i j a : length (swap i j a) = length a.
Proof. unfold swap. by rewrite !length_insert. Qed.

Lemma pairs_take p : pairs p = zip (take (count_ p) (indexID_ p)) (take (count_ p) (weights_ p)).
Proof. unfold pairs. apply zip_with_take. Qed.

Lemma shuffle_step_entries p q i seed : same_entries p q → (i < count_ p)%nat →
  ∃ q' seed', shuffle_step i q seed = Some (q', seed') ∧ same_entries p q'.
Proof.
  intros ((Hw & Hx & Hc) & E & Hp) Hi. unfold shuffle_step, mbind, rnd_bind at 1.
  destruct (RandomBetween_some 100 100000 seed) as (x & -> & Hr); [lia..|]. cbn.
  set (j := Z.to_nat _). assert (j < count_ q)%nat as Hj by (unfold j; lia). clearbody j.
  destruct (i =? j)%nat; [by exists q, (GetNextSeed seed)|].
  eexists _, _. split; [reflexivity|]. split; [|split]; cbn.
  - unfold valid. cbn. rewrite !length_swap. done.
  - done.
  - unfold pairs at 1. cbn [count_ weights_ indexID_]. rewrite zip_with_take, !take_swap by lia.
    rewrite swap_zip; rewrite ?length_take; [by rewrite <- pairs_take|unfold MAX_WEIGHT in *; lia..].
Qed.

Lemma shuffleSeq_entries p seed : valid p →
  ∃ q seed', shuffleSeq p seed = Some (q, seed') ∧ same_entries p q.
Proof.
  intros Hp. unfold shuffleSeq, mbind, rnd_bind at 1.
  destruct (RandomBetween_some 5 10 seed) as (c & -> & _); [lia..|]. cbn.
  apply for_each_inv; [|by split].
  intros _ q seed1 _ Hq. apply for_each_inv; [|done].
  intros i q' seed2 [_ Hi]%elem_of_seq Hq'. apply shuffle_step_entries; [done|].
  destruct Hq as (_ & E & _). rewrite <- E. lia.
Qed.

Definition weight_at (id : Z) (l : list (Z * Z)) : Z :=
  sumZ (map (λ x, if x.1 =? id then x.2 else 0) l).

Lemma weight_of_pairs id idx i f weight : (length weight ≤ length idx)%nat →
  (∀ k, (k < length weight)%nat → f (i + k)%nat = (idx.[k] =? id)) → weight_of f i weight = weight_at id (zip idx weight).
Proof.
  revert i idx. induction weight as [|w rest IH]; intros i idx Hl Hf; [by destruct idx|].
  destruct idx as [|x idx]; simpl in Hl; [lia|]. cbn [weight_of zip zip_with]. unfold weight_at.
  cbn [map sumZ foldr fst snd]. f_equal.
  - by rewrite <- (Nat.add_0_r i), Hf by (simpl; lia).
  - apply IH; [lia|]. intros k Hk. rewrite Nat.add_succ_comm, Hf by (simpl; lia). done.
Qed.

Lemma weight_at_perm id l k : l ≡ₚ k → weight_at id l = weight_at id k.
Proof. intros H. unfold weight_at. apply sumZ_perm. by rewrite H. Qed.

Lemma init_pairs weight : (length weight ≤ MAX_WEIGHT)%nat →
  pairs (init weight CWeight) = zip (map Z.of_nat (seq 0 (length weight))) weight.
Proof.
  intros H. unfold init. replace (MAX_WEIGHT <? length weight)%nat with false by (symmetry; by apply Nat.ltb_ge).
  rewrite pairs_take. cbn [count_ weights_ indexID_]. unfold fill.
  rewrite !take_app_length'; rewrite ?length_map, ?length_seq; done.
Qed.

(** The entry the pool gives for a draw. *)
Definition pool_result (p : Pool) (r : Z) : option Z :=
  i ← pick 0 r (take (count_ p) (weights_ p)); Some (indexID_ p).[i].

(** The draws that give an index are as many as its weight in the pool. *)
Lemma number_pool id p : valid p → weights_ok (take (count_ p) (weights_ p)) →
  number (λ r, bool_decide (pool_result p r = Some id)) (draws (sumZ (take (count_ p) (weights_ p)))) =
  weight_at id (pairs p).
Proof.
  intros (Hw & Hx & Hc) Hok. rewrite pairs_take.
  rewrite zip_with_take_l' by (rewrite length_take; unfold MAX_WEIGHT in *; lia).
  rewrite <- (weight_of_pairs id (indexID_ p) 0 (λ k, (indexID_ p).[k] =? id)).
  - rewrite <- number_hits by done. apply number_ext. intros r _. unfold pool_result, hits.
    destruct (pick 0 r _) as [k|]; [|done]. cbn.
    destruct (Z.eqb_spec (indexID_ p).[k] id) as [->|]; [by rewrite bool_decide_eq_true_2|].
    apply bool_decide_eq_false_2. congruence.
  - rewrite length_take. lia.
  - done.
Qed.

Lemma index_lookup n k : (k < n)%nat → map Z.of_nat (seq 0 n) !! k = Some (Z.of_nat k).
Proof. intros H. rewrite list_lookup_fmap, lookup_seq_lt by done. done. Qed.

(** The entries of a fresh pool: index [i] has the [i]-th weight. *)
Lemma weight_at_init id weight : (id < length weight)%nat → (length weight ≤ MAX_WEIGHT)%nat →
  weight_at (Z.of_nat id) (pairs (init weight CWeight)) = weight.[id].
Proof.
  intros Hid Hl. rewrite init_pairs by done.
  rewrite <- (weight_of_pairs (Z.of_nat id) _ 0 (λ k, (k =? id)%nat)).
  - rewrite weight_of_index by lia. by rewrite Nat.sub_0_r.
  - by rewrite length_map, length_seq.
  - intros k Hk. simpl. rewrite (aget_lookup _ k (Z.of_nat k)); [|by apply index_lookup].
    destruct (Nat.eqb_spec k id), (Z.eqb_spec (Z.of_nat k) (Z.of_nat id)); (done || lia).
Qed.

Lemma pairs_weights p : valid p → map snd (pairs p) = take (count_ p) (weights_ p).
Proof.
  intros (Hw & Hx & Hc). rewrite pairs_take. apply snd_zip.
  rewrite !length_take. unfold MAX_WEIGHT in *. lia.
Qed.

Lemma same_entries_weights p q : valid p → same_entries p q →
  take (count_ q) (weights_ q) ≡ₚ take (count_ p) (weights_ p).
Proof. intros Hp (Hq & _ & Hpq). rewrite <- !pairs_weights by done. by rewrite Hpq. Qed.

Lemma weights_ok_perm l k : l ≡ₚ k → weights_ok l → weights_ok k.
Proof. intros H [H1 H2]. split; [by rewrite <- H|]. by rewrite <- (sumZ_perm _ _ H). Qed.

Lemma init_valid weight : weight ≠ [] → (length weight ≤ MAX_WEIGHT)%nat →
  valid (init weight CWeight) ∧
  take (count_ (init weight CWeight)) (weights_ (init weight CWeight)) = weight.
Proof.
  intros Hne Hl. unfold init. replace (MAX_WEIGHT <? length weight)%nat with false by (symmetry; by apply Nat.ltb_ge).
  unfold valid, fill. cbn [count_ weights_ indexID_]. split; [|by apply take_app_length'].
  rewrite !length_app, !length_drop, length_map, length_seq. cbn. unfold MAX_WEIGHT in *.
  destruct weight; [done|]. simpl in *. lia.
Qed.

(** The shuffled pool answers a draw with one of the entries of the fresh pool, of
    positive weight. *)
Lemma shuffled_result weight seed :
  weight ≠ [] → (length weight ≤ MAX_WEIGHT)%nat → weights_ok weight → 1 < sumZ weight →
  ∃ p seed', shuffleSeq (init weight CWeight) seed = Some (p, seed') ∧
    same_entries (init weight CWeight) p ∧
    ∃ r x w, 1 <= r <= sumZ weight ∧ pool_result p r = Some x ∧
      getResultByWeight p seed' = Some (x, GetNextSeed seed') ∧
      0 < w ∧ (x, w) ∈ pairs (init weight CWeight).
Proof.
  intros Hne Hl Hok Hsum. destruct (init_valid weight Hne Hl) as [Hv Hw].
  destruct (shuffleSeq_entries _ seed Hv) as (p & seed' & E & Hp).
  exists p, seed'. split; [done|]. split; [done|].
  pose proof (same_entries_weights _ _ Hv Hp) as Hperm. rewrite Hw in Hperm.
  pose proof (sumZ_perm _ _ Hperm) as Hs. pose proof (weights_ok_perm _ _ (symmetry Hperm) Hok) as Hok'.
  destruct (draw_of (take (count_ p) (weights_ p)) seed' Hok') as (r & _ & Hr & k & Hk & Hg); [lia|].
  destruct (pick_some 0 r _ Hok' Hr) as (k' & Hk' & Hlen & Hpos).
  rewrite Hk in Hk'. simplify_eq/=. rewrite Hk in Hg.
  exists r, (indexID_ p).[k'], (take (count_ p) (weights_ p)).[k']. split_and!; [lia|lia| | |done|].
  - unfold pool_result. by rewrite Hk.
  - unfold getResultByWeight, mbind, rnd_bind. by rewrite Hg.
  - destruct Hp as (Hvp & _ & Hpp). rewrite <- Hpp, pairs_take. destruct Hvp as (Hw1 & Hx1 & Hc1).
    apply list_elem_of_lookup. exists k'. rewrite lookup_zip_with.
    rewrite length_take in Hlen.
    destruct (lookup_lt_is_Some_2 (take (count_ p) (indexID_ p)) k') as [x Ex].
    { rewrite length_take. unfold MAX_WEIGHT in *. lia. }
    destruct (lookup_lt_is_Some_2 (take (count_ p) (weights_ p)) k') as [w Ew].
    { rewrite length_take. lia. }
    rewrite Ex, Ew, (aget_lookup _ _ _ Ew). cbn. rewrite lookup_take_lt in Ex by lia.
    by rewrite (aget_lookup _ _ _ Ex).
Qed.

(** Shuffling the pool does not change the odds: whatever the seed is, in the
    shuffled pool of [weight] each index is still given by as many draws as its weight
    says, and [getResultByWeight] returns the entry of one of the draws. *)
Theorem getResultByWeight_shuffled weight seed :
  weight ≠ [] → (length weight ≤ MAX_WEIGHT)%nat → weights_ok weight → 1 < sumZ weight →
  ∃ p seed', shuffleSeq (init weight CWeight) seed = Some (p, seed') ∧
    (∃ r, 1 <= r <= sumZ weight ∧ is_Some (pool_result p r) ∧
      getResultByWeight p seed' = lift (pool_result p r) (GetNextSeed seed')) ∧
    ∀ id, (id < length weight)%nat →
      number (λ r, bool_decide (pool_result p r = Some (Z.of_nat id))) (draws (sumZ weight)) =
      weight.[id].
Proof.
  intros Hne Hl Hok Hsum. destruct (init_valid weight Hne Hl) as [Hv Hw].
  destruct (shuffled_result weight seed) as (p & seed' & E & Hp & r & x & w & Hr & Hx & Hg & _); [done..|].
  exists p, seed'. split; [done|].
  pose proof (same_entries_weights _ _ Hv Hp) as Hperm. rewrite Hw in Hperm.
  pose proof (sumZ_perm _ _ Hperm) as Hs. pose proof (weights_ok_perm _ _ (symmetry Hperm) Hok) as Hok'.
  split.
  - exists r. split; [lia|]. by rewrite Hx, Hg.
  - intros id Hid. rewrite <- Hs, number_pool by (apply Hp || done).
    rewrite <- (weight_at_init id weight) by done. apply weight_at_perm, Hp.
Qed.

Lemma getResultByWeight_shuffled_witness :
  ∃ p seed', shuffleSeq (init [30; 70] CWeight) 1 = Some (p, seed') ∧
    number (λ r, bool_decide (pool_result p r = Some 1)) (draws 100) = 70.
Proof.
  destruct (getResultByWeight_shuffled [30; 70] 1) as (p & seed' & E & _ & H);
    [done|unfold MAX_WEIGHT; simpl; lia|split; [repeat constructor; lia|done]|done|].
  exists p, seed'. split; [exact E|]. apply (H 1%nat). simpl. lia.
Defined.

(** The chance of a card exchange: for any seed and any rate from 0 to 100,
    [CalcExchangeOrNot] decides; a rate of 0 never exchanges and a rate of 100 always
    does. *)
Theorem CalcExchangeOrNot_decides ratioExchange seed : 0 <= ratioExchange <= 100 →
  ∃ ty seed', CalcExchangeOrNot ratioExchange seed = Some (ty, seed') ∧
    (ratioExchange = 0 → ty = NoExchange) ∧ (ratioExchange = 100 → ty = Exchange).
Proof.
  intros Hr. destruct (shuffled_result [ratioExchange; 100 - ratioExchange] seed)
    as (p & seed' & E & _ & r & x & w & _ & _ & Hg & Hw & Hx);
    [done|unfold MAX_WEIGHT; simpl; lia|split; [repeat constructor; lia|simpl; lia]|simpl; lia|].
  exists (exchange_of x), (GetNextSeed seed'). split.
  - unfold CalcExchangeOrNot, mbind, rnd_bind, lift. rewrite int_Some by lia. cbn -[init shuffleSeq getResultByWeight].
    rewrite E. cbn [mbind option_bind]. by rewrite Hg.
  - assert (pairs (init [ratioExchange; 100 - ratioExchange] CWeight) = [(0, ratioExchange); (1, 100 - ratioExchange)])
      as Ep by done. rewrite Ep in Hx.
    apply elem_of_cons in Hx as [[= -> ->]|[[= -> ->]|Hx%not_elem_of_nil]%elem_of_cons]; [| |done];
      (split; intros; [done || lia|done || lia]).
Qed.

Lemma CalcExchangeOrNot_decides_witness :
  ∃ ty seed', CalcExchangeOrNot 100 1 = Some (ty, seed') ∧ (100 = 100 → ty = Exchange).
Proof.
  destruct (CalcExchangeOrNot_decides 100 1) as (ty & seed' & E & _ & H); [lia|].
  exists ty, seed'. split; [exact E|exact H].
Defined.
