(* ===== verification/Frame.v ===== *)
(** The game server's frame: user items, tables and seats
    ([src/Framework/GameServer]: ServerUserItem, ServerUserManager, AndroidUserManager,
    GameTableManager, TableFrame, GameServer).  Items are shared by address: a seat, the
    user map and the free and used lists hold the address of an item of [heap].  What
    the game of a table and the services outside answer during one event is an
    [Env]; the game acts on the frame through the calls of [Act]. *)
From Stdlib Require Import String.
From stdpp Require Import base list numbers option gmap strings pretty.
From Stdlib Require Import ZArith Lia.
From S2P Require Import Prelude GameDefine.

#[local] Open Scope Z_scope.
#[local] Abbreviation length := List.length.

(** ** Data *)

(** [GSUserBaseInfo]: the members the frame reads. *)
Record UserInfo := MkInfo {
  userId : Z;
  userScore : Z;
  agentId : Z;
  lineCode : string;
  ip : Z;
  takeMinScore : Z
}.
#[global] Instance eta_UserInfo : Settable UserInfo :=
  λ u, MkInfo (userId u) (userScore u) (agentId u) (lineCode u) (ip u) (takeMinScore u).

(** Its constructor. *)
Definition no_info : UserInfo := MkInfo (-1) 0 0 "" 0 0.

(** [CServerUserItem]; [m_isAndroidUser] tells the objects of [CAndroidUserItem]. *)
Record Item := MkItem {
  m_tableId : Z;
  m_chairId : Z;
  m_userStatus : eUserStatus;
  m_trustShip : bool;
  m_bClientReady : bool;
  m_isAndroidUser : bool;
  m_userBaseInfo : UserInfo;
  m_blacklist_status : Z;
  inQuarantine : bool;
  m_sMthBlockList : list string
}.
#[global] Instance eta_Item : Settable Item := λ i,
  MkItem (m_tableId i) (m_chairId i) (m_userStatus i) (m_trustShip i) (m_bClientReady i)
    (m_isAndroidUser i) (m_userBaseInfo i) (m_blacklist_status i) (inQuarantine i) (m_sMthBlockList i).

(** The constructor of an item. *)
Definition new_item (android : bool) : Item :=
  MkItem INVALID_TABLE INVALID_CHAIR sFree false false android no_info 0 false (replicate 20 ""%string).

(** [ResetUserItem]: the quarantine mark and the block list stay. *)
Definition ResetUserItem (i : Item) : Item :=
  MkItem INVALID_TABLE INVALID_CHAIR sFree false false (m_isAndroidUser i) no_info 0
    (inQuarantine i) (m_sMthBlockList i).

Definition GetUserId (i : Item) : Z := userId (m_userBaseInfo i).
Definition isPlaying (i : Item) : bool := bool_decide (m_userStatus i = sPlaying).

Definition isValided (i : Item) : bool :=
  negb (m_tableId i =? INVALID_TABLE) && negb (m_chairId i =? INVALID_CHAIR) && (0 <? GetUserId i).

(** An area of the score strategy of the robots. *)
Record Area := MkArea { weight : Z; lowTimes : Z; highTimes : Z }.

(** The configuration of the room: [tagGameInfo], [tagGameRoomInfo], the strategy. *)
Record Config := MkConfig {
  gameType : GameType;
  gameId : Z;
  roomId : Z;
  maxPlayerNum : nat;
  tableCount : nat;
  enterMinScore : Z;
  enterMaxScore : Z;
  matchforbids : MatchForbid → bool;
  bEnableAndroid : bool;
  androidMaxUserCount : Z;
  realChangeAndroid : Z;
  areas : list Area
}.

(** The calls to Redis that keep the online state of a user. *)
Inductive Call := SetUserOnlineInfo (user table : Z) | DelUserOnlineInfo (user : Z).

(** The state of the server.  The free list keeps its back in front. *)
Record Frame := MkFrame {
  heap : list Item;
  m_FreeUserItemList : list nat;
  m_UsedUserItemList : list nat;
  m_UserMap : gmap Z nat;
  m_AndroidUserItemFreeList : list nat;
  m_AndroidUserItemUsedList : list nat;
  m_UserLists : list (list (option nat));
  m_cbGameStatuses : list FrameStatus;
  m_listUsedTable : list nat;
  m_listFreeTable : list nat;
  m_UserIdProxyConnectionInfoMap : gset Z;
  serverStatus : ServerStatus;
  calls : list Call
}.
#[global] Instance eta_Frame : Settable Frame := λ f,
  MkFrame (heap f) (m_FreeUserItemList f) (m_UsedUserItemList f) (m_UserMap f)
    (m_AndroidUserItemFreeList f) (m_AndroidUserItemUsedList f) (m_UserLists f) (m_cbGameStatuses f)
    (m_listUsedTable f) (m_listFreeTable f) (m_UserIdProxyConnectionInfoMap f) (serverStatus f) (calls f).

(** What a game may do to the frame in a callback or a timer, at its own table. *)
Inductive Act :=
  | AClearTableUser (chair : Z)
  | ASetUserStatus (chair : Z) (s : eUserStatus)
  | ASetTrustship (chair : Z) (b : bool)
  | ASetUserScore (chair : Z) (score : Z)
  | ASetGameStatus (s : FrameStatus).

(** What the game of each table and the services answer during one event. *)
Class Env := {
  sink_CanJoinTable : nat → Item → bool;
  sink_CanLeftTable : nat → Z → bool;
  sink_OnUserEnter : nat → Z → list Act;
  sink_OnUserLeft : nat → Z → list Act * bool;
  sink_OnGameMessage : nat → Z → list Act;
  redis_GetMatchBlockList : Z → option (list string);
  rand_seat : nat → Z → Z;
  rand_area : Z → Z;
  rand_score : Z → Z;
  rand_table : Z;
  android_quota : nat → Z → Z
}.

(** ** Items and seats *)

Definition item (f : Frame) (a : nat) : Item := default (new_item false) (heap f !! a).
Definition set_item (a : nat) (g : Item → Item) (f : Frame) : Frame := f <| heap ::= alter g a |>.

Definition seats (f : Frame) (t : nat) : list (option nat) := default [] (m_UserLists f !! t).
Definition seat (f : Frame) (t c : nat) : option nat := default None (seats f t !! c).
Definition set_seat (t c : nat) (o : option nat) (f : Frame) : Frame :=
  f <| m_UserLists ::= alter (<[c := o]>) t |>.

(** ** CServerUserManager *)

(** [GetUserItem]: a free item, reset, or a new one; it is used under [user]. *)
Definition GetUserItem (user : Z) (f : Frame) : nat * Frame :=
  match m_FreeUserItemList f with
  | a :: free =>
      let f := set_item a ResetUserItem (f <| m_FreeUserItemList := free |>) in
      (a, f <| m_UsedUserItemList ::= (λ l, l ++ [a]) |> <| m_UserMap ::= <[user := a]> |>)
  | [] =>
      let a := length (heap f) in
      let f := f <| heap ::= (λ h, h ++ [new_item false]) |> in
      (a, f <| m_UsedUserItemList ::= (λ l, l ++ [a]) |> <| m_UserMap ::= <[user := a]> |>)
  end.

Definition FindUserItem (user : Z) (f : Frame) : option nat := m_UserMap f !! user.

(** [DeleteUserItem]: the key that leaves the map is the id as an [int]. *)
Definition DeleteUserItem (a : nat) (f : Frame) : bool * Frame :=
  let user := i32 (GetUserId (item f a)) in
  match list_find (λ x, x = a) (m_UsedUserItemList f) with
  | Some (i, _) =>
      let f := f <| m_FreeUserItemList ::= cons a |> <| m_UsedUserItemList ::= delete i |>
                 <| m_UserMap ::= delete user |> in
      (true, set_item a ResetUserItem f)
  | None => (false, f)
  end.

(** ** CAndroidUserManager *)

Definition AddAndroid (info : UserInfo) (f : Frame) : Frame :=
  let a := length (heap f) in
  f <| heap ::= (λ h, h ++ [new_item true <| m_userBaseInfo := info |>]) |>
    <| m_AndroidUserItemFreeList ::= (λ l, l ++ [a]) |>.

Definition GetFreeAndroidUserItem (f : Frame) : option (nat * Frame) :=
  match m_AndroidUserItemFreeList f with
  | [] => None
  | a :: free =>
      Some (a, f <| m_AndroidUserItemUsedList ::= (λ l, l ++ [a]) |> <| m_AndroidUserItemFreeList := free |>)
  end.

(** [DeleteAndroidUserItem]: the first used robot with the id. *)
Definition DeleteAndroidUserItem (user : Z) (f : Frame) : bool * Frame :=
  match list_find (λ a, GetUserId (item f a) = user) (m_AndroidUserItemUsedList f) with
  | Some (i, a) =>
      (true, f <| m_AndroidUserItemFreeList ::= (λ l, l ++ [a]) |>
               <| m_AndroidUserItemUsedList ::= delete i |>)
  | None => (false, f)
  end.

(** ** CTableFrame *)

Section Server.
Context (cfg : Config).

(** [InitAllTable] with [CTableFrame::Init], before any robot is added. *)
Definition InitAllTable (status : ServerStatus) : Frame :=
  MkFrame [] [] [] ∅ [] []
    (replicate (tableCount cfg) (replicate (maxPlayerNum cfg) None))
    (replicate (tableCount cfg) STATUS_INIT) [] (seq 0 (tableCount cfg)) ∅ status [].

Definition GetTableUserItem (t : nat) (chair : Z) (f : Frame) : option nat :=
  if (0 <=? chair) && (chair <? Z.of_nat (maxPlayerNum cfg)) then seat f t (Z.to_nat chair) else None.

Definition GetUserItemByUserId (t : nat) (user : Z) (f : Frame) : option nat :=
  head (omap (λ c, a ← seat f t c; if GetUserId (item f a) =? user then Some a else None)
    (seq 0 (maxPlayerNum cfg))).

(** The occupied chairs of a table whose item satisfies [p]. *)
Definition count_chairs (p : Item → bool) (t : nat) (f : Frame) : nat :=
  length (filter (λ c, match seat f t c with Some a => p (item f a) | None => false end = true)
    (seq 0 (maxPlayerNum cfg))).

Definition GetPlayerCount (bIncludeAndroid : bool) (t : nat) (f : Frame) : nat :=
  count_chairs (λ i, if m_isAndroidUser i then bIncludeAndroid else true) t f.
Definition GetAndroidPlayerCount (t : nat) (f : Frame) : nat := count_chairs m_isAndroidUser t f.

(** [OnUserStandup]: a playing user keeps his seat. *)
Definition OnUserStandup (t a : nat) (f : Frame) : bool * Frame :=
  let i := item f a in
  if (m_chairId i =? INVALID_CHAIR) || (GetUserId i =? 0) then (false, f)
  else if isPlaying i then (false, f)
  else
    let user := GetUserId i in
    let chair := m_chairId i in
    let f :=
      if negb (m_isAndroidUser i) then
        let f := f <| m_UserIdProxyConnectionInfoMap ::= (.∖ {[user]}) |>
                   <| calls ::= (λ l, l ++ [DelUserOnlineInfo user]) |> in
        snd (DeleteUserItem a f)
      else snd (DeleteAndroidUserItem user f) in
    let f := set_item a (λ i, i <| m_tableId := INVALID_TABLE |> <| m_chairId := INVALID_CHAIR |>) f in
    (true, if chair <? Z.of_nat (length (seats f t)) then set_seat t (Z.to_nat chair) None f else f).

Definition ClearTableUser (t : nat) (chair : Z) (f : Frame) : Frame :=
  if negb (chair =? INVALID_CHAIR) && (chair <? Z.of_nat (maxPlayerNum cfg)) then
    match GetTableUserItem t chair f with
    | Some a => snd (OnUserStandup t a f)
    | None => f
    end
  else f.

(** One call of the game of table [t]. *)
Definition run_act (t : nat) (f : Frame) (x : Act) : Frame :=
  let on chair g := match GetTableUserItem t chair f with Some a => set_item a g f | None => f end in
  match x with
  | AClearTableUser chair => ClearTableUser t chair f
  | ASetUserStatus chair s => on chair (λ i, i <| m_userStatus := s |>)
  | ASetTrustship chair b => on chair (λ i, i <| m_trustShip := b |>)
  | ASetUserScore chair z =>
      on chair (λ i, i <| m_userBaseInfo ::= (λ u, u <| userScore := z |>) |>)
  | ASetGameStatus s => f <| m_cbGameStatuses ::= <[t := s]> |>
  end.

Definition run_acts (t : nat) (xs : list Act) (f : Frame) : Frame := foldl (run_act t) f xs.

(** [ntohl] of a 32-bit address on a little-endian machine. *)
Definition ntohl (x : Z) : Z :=
  Z.lor (Z.lor (Z.shiftl (Z.land x 255) 24) (Z.shiftl (Z.land (Z.shiftr x 8) 255) 16))
    (Z.lor (Z.shiftl (Z.land (Z.shiftr x 16) 255) 8) (Z.land (Z.shiftr x 24) 255)).

(** [CheckSubnetInetIp], with the mask 255.255.255.0. *)
Definition CheckSubnetInetIp (src dst : Z) : bool :=
  Z.land (ntohl src) 4294967040 =? Z.land (ntohl dst) 4294967040.

Context {E : Env}.

(** The checks of [CTableFrame::CanJoinTable] between the new user [me] and a seated
    one; [true]: they must not meet. *)
Definition forbidden (me other : Item) : bool :=
  let forb := matchforbids cfg in
  let u := m_userBaseInfo me in
  let same_line := bool_decide (lineCode u = lineCode (m_userBaseInfo other)) in
  if forb MTH_SINGLE_PLAYER then true
  else if negb (bool_decide (gameType cfg = BaiRen)) && forb MTH_BLACKLIST &&
          ((m_blacklist_status other =? 1) || negb (m_blacklist_status me =? 0)) then true
  else if forb MTH_QUANRANTE_AREA && (inQuarantine me || inQuarantine other) then true
  else if negb (agentId u =? 0) && forb MTH_FORB_DIFF_AGENT && negb same_line then true
  else if negb (agentId u =? 0) && forb MTH_FORB_SAME_AGENT && same_line then true
  else if negb (ip u =? 0) && forb MTH_FORB_SAME_IP && CheckSubnetInetIp (ip u) (ip (m_userBaseInfo other)) then true
  else if negb (ip u =? 0) && forb MTH_FORB_DIFF_IP && negb (CheckSubnetInetIp (ip u) (ip (m_userBaseInfo other))) then true
  else if forb MTH_PLAYER_CNT then
    match redis_GetMatchBlockList (GetUserId me) with
    | Some l => bool_decide (pretty (GetUserId other) ∈ l)
    | None => false
    end || bool_decide (pretty (GetUserId me) ∈ m_sMthBlockList other)
  else false.

(** The loop over the seats: it ends at the user's own seat. *)
Fixpoint may_meet (me : Item) (f : Frame) (row : list (option nat)) : bool :=
  match row with
  | [] => true
  | None :: row => may_meet me f row
  | Some a :: row =>
      let other := item f a in
      if m_isAndroidUser other then may_meet me f row
      else if GetUserId other =? GetUserId me then true
      else if forbidden me other then false
      else may_meet me f row
  end.

Definition CanJoinTable (t : nat) (me : Item) (f : Frame) : bool :=
  if bool_decide (serverStatus f = SERVER_STOPPED) || bool_decide (serverStatus f = SERVER_REPAIRING) then false
  else if negb (GetUserId me =? -1) && negb (may_meet me f (take (maxPlayerNum cfg) (seats f t))) then false
  else sink_CanJoinTable t me.

Definition OnUserEnterAction (t a : nat) (f : Frame) : Frame :=
  run_acts t (sink_OnUserEnter t (GetUserId (item f a))) f.

(** The first free chair in the order of the search from [startIndex]. *)
Definition free_chair (t startIndex : nat) (f : Frame) : option nat :=
  head (filter (λ c, seat f t c = None)
    (map (λ i, (startIndex + i) mod maxPlayerNum cfg)%nat (seq 0 (maxPlayerNum cfg)))).

Definition RoomSitChair (t a : nat) (f : Frame) : bool * Frame :=
  let user := GetUserId (item f a) in
  if user <=? 0 then (false, f)
  else
    let startIndex :=
      if bool_decide (gameType cfg = Confrontation)
      then Z.to_nat (rand_seat t user mod Z.of_nat (maxPlayerNum cfg)) else 0%nat in
    match free_chair t startIndex f with
    | None => (false, f)
    | Some c =>
        let f := set_item a (λ i, i <| m_tableId := Z.of_nat t |> <| m_chairId := Z.of_nat c |>) f in
        let f := set_seat t c (Some a) f in
        let f := set_item a (λ i, i <| m_bClientReady := true |> <| m_userStatus := sSit |>) f in
        let f := OnUserEnterAction t a f in
        (true, if negb (m_isAndroidUser (item f a))
               then f <| calls ::= (λ l, l ++ [SetUserOnlineInfo user (m_tableId (item f a))]) |> else f)
    end.

Definition OnUserLeft (t a : nat) (f : Frame) : bool * Frame :=
  let f := set_item a (λ i, i <| m_userStatus := sOffline |> <| m_trustShip := true |>) f in
  let '(acts, ret) := sink_OnUserLeft t (GetUserId (item f a)) in
  (ret, run_acts t acts f).

Definition OnUserOffline (t a : nat) (f : Frame) : bool * Frame := OnUserLeft t a f.

(** ** CGameTableManager *)

Definition GetTable (tableId : Z) (f : Frame) : option nat :=
  if tableId <? Z.of_nat (length (m_UserLists f)) then Some (Z.to_nat tableId) else None.

(** [FindNormalTableFromTableId]: a used table with a free chair. *)
Definition FindNormalTableFromTableId (tableId : Z) (f : Frame) : option nat :=
  head (filter (λ t, tableId = Z.of_nat t ∧ (GetPlayerCount true t f < maxPlayerNum cfg)%nat)
    (m_listUsedTable f)).

(** Moves a free table to the end of the used ones. *)
Definition use_table (i t : nat) (f : Frame) : option nat * Frame :=
  (Some t, f <| m_listUsedTable ::= (λ l, l ++ [t]) |> <| m_listFreeTable ::= delete i |>).

Definition suits (a : nat) (exceptTableID enterTableId : Z) (f : Frame) (t : nat) : bool :=
  negb (negb (exceptTableID =? INVALID_TABLE) && (exceptTableID =? Z.of_nat t)) &&
  negb (negb (enterTableId =? INVALID_TABLE) && negb (enterTableId =? Z.of_nat t)) &&
  (GetPlayerCount true t f <? maxPlayerNum cfg)%nat && CanJoinTable t (item f a) f.

Definition FindNormalSuitTable (a : nat) (exceptTableID enterTableId : Z) (f : Frame) : option nat * Frame :=
  match list_find (λ t, suits a exceptTableID enterTableId f t = true) (m_listUsedTable f) with
  | Some (_, t) => (Some t, f)
  | None =>
      match (if enterTableId =? INVALID_TABLE then None
             else list_find (λ t, Z.of_nat t = enterTableId) (m_listFreeTable f)) with
      | Some (i, t) => use_table i t f
      | None =>
          match m_listFreeTable f with
          | t :: _ => use_table 0 t f
          | [] => (None, f)
          end
      end
  end.

(** [FreeNormalTable]: nothing calls it. *)
Definition FreeNormalTable (t : nat) (f : Frame) : Frame :=
  match list_find (λ t', t' = t) (m_listUsedTable f) with
  | Some (i, _) => f <| m_listFreeTable ::= (λ l, l ++ [t]) |> <| m_listUsedTable ::= delete i |>
  | None => f
  end.

Definition KickAllTableUser (f : Frame) : Frame :=
  foldl (λ f t, f <| m_cbGameStatuses ::= <[t := STATUS_INIT]> |>)
    (f <| serverStatus := SERVER_STOPPED |>) (m_listUsedTable f).

(** ** GameServer *)

(** A request to enter a room, with the answers of Redis and MongoDB to the questions
    of the handler. *)
Record Request := MkRequest {
  q_userId : Z;
  q_tableId : Z;
  q_ip : Z;
  q_currency : bool;
  q_online : bool;
  q_password : option bool;
  q_place : option (Z * Z * Z);
  q_conn : bool;
  q_info : option UserInfo;
  q_quarantine : bool;
  q_blockList : list string;
  q_blacklist : option Z
}.

Definition call (c : Call) (f : Frame) : Frame := f <| calls ::= (λ l, l ++ [c]) |>.

Definition SwitchUserItem (a : nat) (f : Frame) : bool * Frame :=
  let i := item f a in
  if (GetUserId i <=? 0) || (m_chairId i =? INVALID_CHAIR) then (false, f)
  else
    let f := set_item a (λ i, i <| m_trustShip := false |> <| m_bClientReady := true |>) f in
    match GetTable (m_tableId i) f with
    | Some t => (true, OnUserEnterAction t a f)
    | None => (true, f)
    end.

Definition CheckUserCanEnterRoom (place : option (Z * Z * Z)) (tableId : Z) : bool :=
  match place with
  | None => true
  | Some (redisGameId, redisRoomId, redisTableId) =>
      if redisTableId =? INVALID_TABLE then (gameId cfg =? redisGameId) && (roomId cfg =? redisRoomId)
      else if bool_decide (gameType cfg = BaiRen) && (1 <? tableCount cfg)%nat && (tableId =? INVALID_TABLE)
      then true
      else (gameId cfg =? redisGameId) && (roomId cfg =? redisRoomId) && (tableId =? redisTableId)
  end.

(** The values of an [LRANGE] reply replace the front of the list. *)
Definition lrange (reply values : list string) : list string := reply ++ drop (length reply) values.

(** The new item of a user who passed the checks.  The parameters of the black room and
    of the personal stock are no members of the model. *)
Definition fill_item (q : Request) (info : UserInfo) (i : Item) : Item :=
  i <| m_sMthBlockList ::= lrange (q_blockList q) |> <| inQuarantine := q_quarantine q |>
    <| m_blacklist_status := if matchforbids cfg MTH_BLACKLIST then default 0 (q_blacklist q) else 0 |>
    <| m_userBaseInfo := info <| ip := q_ip q |> |>.

(** The part of [cmd_enter_room] after the checks: an item, a table, a chair. *)
Definition enter_new (q : Request) (info : UserInfo) (f : Frame) : option EnterError * Frame :=
  let '(a, f) := GetUserItem (q_userId q) f in
  let f := set_item a (fill_item q info) f in
  let '(o, f) := FindNormalSuitTable a INVALID_TABLE (q_tableId q) f in
  match o with
  | None => (Some ERROR_ENTERROOM_TABLE_FULL, call (DelUserOnlineInfo (q_userId q)) f)
  | Some t => (None, snd (RoomSitChair t a f))
  end.

(** A user with a seat comes back to it. *)
Definition reenter (a : nat) (f : Frame) : option EnterError * Frame :=
  match GetTable (m_tableId (item f a)) f with
  | Some t =>
      if CanJoinTable t (item f a) f then
        let '(ok, f) := SwitchUserItem a f in
        (if ok then None else Some ERROR_ENTERROOM_USERNOTEXIST, f)
      else (Some ERROR_ENTERROOM_GAME_IS_END, f)
  | None => (Some ERROR_ENTERROOM_GAME_IS_END, f)
  end.

(** The item of a user who has a seat. *)
Definition seated_item (user : Z) (f : Frame) : option nat :=
  match FindUserItem user f with
  | Some a => if isValided (item f a) then Some a else None
  | None => None
  end.

Definition refuse (user : Z) (e : EnterError) (f : Frame) : option EnterError * Frame :=
  (Some e, call (DelUserOnlineInfo user) f).

Definition enter_checked (q : Request) (f : Frame) : option EnterError * Frame :=
  if negb (CheckUserCanEnterRoom (q_place q) (q_tableId q)) then (Some ERROR_ENTERROOM_USERINGAME, f)
  else if negb (q_conn q) then refuse (q_userId q) ERROR_ENTERROOM_NOSESSION f
  else match q_info q with
  | None => refuse (q_userId q) ERROR_ENTERROOM_USERNOTEXIST f
  | Some info =>
      if (0 <? enterMinScore cfg) && (userScore info <? enterMinScore cfg)
      then refuse (q_userId q) ERROR_ENTERROOM_SCORENOENOUGH f
      else if (0 <? enterMaxScore cfg) && (enterMaxScore cfg <? userScore info)
      then refuse (q_userId q) ERROR_ENTERROOM_SCORELIMIT f
      else enter_new q info f
  end.

(** [cmd_enter_room]: the error code of the answer and the new state. *)
Definition cmd_enter_room (q : Request) (f : Frame) : option EnterError * Frame :=
  if negb (q_currency q) then (Some ERROR_ENTERROOM_GAME_IS_END, f)
  else if negb (q_online q) then (Some ERROR_ENTERROOM_GAME_IS_END, f)
  else match q_password q with
  | None => (Some ERROR_ENTERROOM_NOSESSION, f)
  | Some false => (Some ERROR_ENTERROOM_PASSWORD_ERROR, f)
  | Some true =>
      let f := f <| m_UserIdProxyConnectionInfoMap ::= (.∪ {[q_userId q]}) |> in
      match seated_item (q_userId q) f with
      | Some a => reenter a f
      | None => enter_checked q f
      end
  end.

(** [cmd_user_left]: the return code of the answer. *)
Definition cmd_user_left (user type : Z) (f : Frame) : Z * Frame :=
  match FindUserItem user f with
  | None => (0, f)
  | Some a =>
      match GetTable (m_tableId (item f a)) f with
      | None => (0, f)
      | Some t =>
          if sink_CanLeftTable t user then
            let '(ret, f) := if type =? 4 then (false, f) else OnUserLeft t a f in
            (if ret || (type =? 4) then 0 else 1, f)
          else (2, f)
      end
  end.

Definition cmd_user_offline (user : Z) (f : Frame) : Frame :=
  match FindUserItem user f with
  | None => f
  | Some a =>
      match GetTable (m_tableId (item f a)) f with
      | None => f
      | Some t => snd (OnUserOffline t a (f <| m_UserIdProxyConnectionInfoMap ::= (.∖ {[user]}) |>))
      end
  end.

(** [cmd_game_message] with [CTableFrame::OnGameEvent]. *)
Definition cmd_game_message (user : Z) (f : Frame) : Frame :=
  match FindUserItem user f with
  | None => f
  | Some a =>
      match GetTable (m_tableId (item f a)) f with
      | None => f
      | Some t => run_acts t (sink_OnGameMessage t (m_chairId (item f a))) f
      end
  end.

(** ** The timer that seats robots *)

Definition u64 (z : Z) : Z := z mod 18446744073709551616.

(** [GlobalFunc::RandomInt64] with the draw [r]. *)
Definition RandomInt64 (min max r : Z) : Z :=
  let min := u64 min in let max := u64 max in
  if max <? min then u64 (max + r mod u64 (min - max + 1)) else u64 (min + r mod u64 (max - min + 1)).

(** The score a robot takes to the table; [None]: the draw is beyond the last area,
    where the code reads past the end of the vector. *)
Definition android_score (i : Item) : option Z :=
  let minScore := i32 (takeMinScore (m_userBaseInfo i)) in
  '(_, area) ← list_find (λ ar, rand_area (GetUserId i) mod 1000 < weight ar) (areas cfg);
  let minLine := lowTimes area * minScore ÷ 100 in
  let highLine := highTimes area * minScore ÷ 100 in
  let '(minLine, highLine) :=
    if bool_decide (gameType cfg = Confrontation) && (minLine =? 0) && (highLine =? 0)
    then (500000, 50000000) else (minLine, highLine) in
  Some (i64 (RandomInt64 minLine highLine (rand_score (GetUserId i)))).

(** A robot from the free list takes a score and a seat. *)
Definition seat_android (t a : nat) (f : Frame) : option Frame :=
  score ← android_score (item f a);
  let f := set_item a (λ i, i <| m_userBaseInfo ::= (λ u, u <| userScore := score |>) |>) f in
  Some (snd (RoomSitChair t a f)).

(** One robot at most; a round without a free robot does nothing. *)
Fixpoint confrontation_loop (n t : nat) (f : Frame) : option Frame :=
  match n with
  | O => Some f
  | S n =>
      match GetFreeAndroidUserItem f with
      | None => confrontation_loop n t f
      | Some (a, f) => seat_android t a f
      end
  end.

(** [eGameKindId::sgj]. *)
Definition sgj : Z := 1810.

Fixpoint bairen_loop (n t : nat) (f : Frame) : option Frame :=
  match n with
  | O => Some f
  | S n =>
      match GetFreeAndroidUserItem f with
      | None => bairen_loop n t f
      | Some (a, f) =>
          if isPlaying (item f a) then bairen_loop n t f
          else if (gameId cfg =? sgj) && negb (CanJoinTable t (item f a) f) then Some f
          else f ← seat_android t a f; bairen_loop n t f
      end
  end.

(** How many robots the table of a hundred players takes now; [None]: none, go on to
    the next table. *)
Definition bairen_need (t : nat) (f : Frame) : option nat :=
  let androids := Z.of_nat (GetAndroidPlayerCount t f) in
  let real := Z.of_nat (GetPlayerCount false t f) in
  let max := android_quota t (i32 (androidMaxUserCount cfg)) in
  if bEnableAndroid cfg && (real + androids <? Z.of_nat (maxPlayerNum cfg)) && (androids <? u32 max) then
    let max := if 0 <? realChangeAndroid cfg then i32 (max - real / realChangeAndroid cfg) else max in
    let count := if u32 max <=? androids then 0 else i32 (max - androids) in
    Some (Z.to_nat (Z.min 5 count))
  else None.

Fixpoint check_tables (choose : nat) (ts : list nat) (f : Frame) : option Frame :=
  match ts with
  | [] => Some f
  | t :: ts =>
      if bool_decide (gameType cfg = BaiRen) then
        if negb (choose =? t)%nat then check_tables choose ts f
        else if negb (CanJoinTable t (new_item false) f) then check_tables choose ts f
        else match bairen_need t f with
        | Some n => bairen_loop n t f
        | None => check_tables choose ts f
        end
      else
        let real := GetPlayerCount false t f in
        if (real =? 0)%nat || bool_decide (m_cbGameStatuses f !! t = Some STATUS_START) then check_tables choose ts f
        else if negb (CanJoinTable t (new_item false) f) then check_tables choose ts f
        else
          let count := (maxPlayerNum cfg - (real + GetAndroidPlayerCount t f))%nat in
          f ← (if bEnableAndroid cfg then confrontation_loop count t f else Some f);
          check_tables choose ts f
  end.

Definition OnTimerCheckUserIn (f : Frame) : option Frame :=
  if bool_decide (serverStatus f = SERVER_STOPPED) then Some f
  else match m_AndroidUserItemFreeList f with
  | [] => Some f
  | _ =>
      let n := length (m_listUsedTable f) in
      let choose := if bool_decide (gameType cfg = BaiRen) && (1 <? n)%nat
                    then Z.to_nat (rand_table mod Z.of_nat n) else 0%nat in
      check_tables choose (m_listUsedTable f) f
  end.

End Server.

(** ** The server as a transition system *)

(** What reaches the logic thread: requests, the robot timer, a timer of the game of a
    table, a robot of the database, the stop of the server. *)
Inductive Event :=
  | EEnter (q : Request)
  | ELeft (user type : Z)
  | EOffline (user : Z)
  | EMessage (user : Z)
  | ETimer
  | EGame (t : nat) (acts : list Act)
  | EAndroid (info : UserInfo)
  | EKick.

Definition exec (cfg : Config) {E : Env} (e : Event) (f : Frame) : option Frame :=
  match e with
  | EEnter q => Some (snd (cmd_enter_room cfg q f))
  | ELeft user type => Some (snd (cmd_user_left cfg user type f))
  | EOffline user => Some (cmd_user_offline cfg user f)
  | EMessage user => Some (cmd_game_message cfg user f)
  | ETimer => OnTimerCheckUserIn cfg f
  | EGame t acts => Some (run_acts cfg t acts f)
  | EAndroid info => Some (AddAndroid info f)
  | EKick => Some (KickAllTableUser f)
  end.
