(* ===== verification/FrameInv.v ===== *)
(** The invariant of the frame: every seat and the item in it agree, a user has one
    seat, the user map finds him, and the tables are in one list each. *)
From Stdlib Require Import String.
From stdpp Require Import base list numbers option gmap strings pretty.
From Stdlib Require Import ZArith Lia.
From S2P Require Import Prelude GameDefine Frame.

#[local] Open Scope Z_scope.
#[local] Abbreviation length := List.length.

(** ** Reading what was written *)

Lemma item_set_eq a g f : (a < length (heap f))%nat → item (set_item a g f) a = g (item f a).
Proof.
  intros H. unfold item, set_item. cbn. rewrite list_lookup_alter_eq.
  by destruct (lookup_lt_is_Some_2 _ _ H) as [i ->].
Qed.

Lemma item_set_ne a b g f : a ≠ b → item (set_item a g f) b = item f b.
Proof. intros H. unfold item, set_item. cbn. by rewrite list_lookup_alter_ne. Qed.

Lemma heap_set a g f : length (heap (set_item a g f)) = length (heap f).
Proof. unfold set_item. cbn. apply length_alter. Qed.

(** An update that keeps a member of every item keeps it in the heap. *)
Lemma item_set_keeps {B} (p : Item → B) a g f b :
  (∀ i, p (g i) = p i) → p (item (set_item a g f) b) = p (item f b).
Proof.
  intros H. destruct (decide (a = b)) as [->|]; [|by rewrite item_set_ne].
  unfold item, set_item. cbn. rewrite list_lookup_alter_eq. destruct (heap f !! b); cbn; auto.
Qed.

Lemma seat_set_eq t c o f : (t < length (m_UserLists f))%nat → (c < length (seats f t))%nat →
  seat (set_seat t c o f) t c = o.
Proof.
  intros Ht Hc. unfold seat, seats, set_seat in *. cbn. rewrite list_lookup_alter_eq.
  destruct (lookup_lt_is_Some_2 _ _ Ht) as [row E]. rewrite E in *. cbn in *.
  by rewrite list_lookup_insert_eq.
Qed.

Lemma seat_set_ne t c o f t' c' : (t', c') ≠ (t, c) → seat (set_seat t c o f) t' c' = seat f t' c'.
Proof.
  intros H. unfold seat, seats, set_seat. cbn. destruct (decide (t = t')) as [->|].
  - rewrite list_lookup_alter_eq. destruct (m_UserLists f !! t') as [row|]; cbn; [|done].
    rewrite list_lookup_insert_ne; [done|]. congruence.
  - by rewrite list_lookup_alter_ne.
Qed.

Lemma seat_set_None t c f t' c' :
  seat (set_seat t c None f) t' c' = if decide ((t', c') = (t, c)) then None else seat f t' c'.
Proof.
  destruct (decide _) as [[= -> ->]|]; [|by apply seat_set_ne].
  unfold seat, seats, set_seat. cbn. rewrite list_lookup_alter_eq.
  destruct (m_UserLists f !! t) as [row|]; cbn; [|done].
  destruct (decide (c < length row)%nat).
  - by rewrite list_lookup_insert_eq.
  - by rewrite list_insert_ge, lookup_ge_None_2 by lia.
Qed.

Lemma seat_lt f t c a : seat f t c = Some a →
  (t < length (m_UserLists f))%nat ∧ (c < length (seats f t))%nat.
Proof.
  unfold seat, seats. intros H. destruct (m_UserLists f !! t) as [row|] eqn:E; cbn in *; [|done].
  split; [by eapply lookup_lt_Some|]. destruct (row !! c) eqn:Ec; [|done]. by eapply lookup_lt_Some.
Qed.

(** ** The invariant *)

Section Invariant.
Context (cfg : Config).

(** Table and chair numbers fit below [INVALID_TABLE] and [INVALID_CHAIR]. *)
Definition config_ok : Prop :=
  Z.of_nat (tableCount cfg) <= 65535 ∧ 0 < Z.of_nat (maxPlayerNum cfg) <= 65535.

Definition users (f : Frame) : list nat := m_FreeUserItemList f ++ m_UsedUserItemList f.
Definition androids (f : Frame) : list nat := m_AndroidUserItemFreeList f ++ m_AndroidUserItemUsedList f.

(** Who may sit: a used robot, or a used item the map finds under its id. *)
Definition may_sit (f : Frame) (a : nat) : Prop :=
  let i := item f a in
  if m_isAndroidUser i then a ∈ m_AndroidUserItemUsedList f
  else a ∈ m_UsedUserItemList f ∧ m_UserMap f !! GetUserId i = Some a ∧ GetUserId i < 2147483648.

(** The item knows its seat. *)
Definition sits (f : Frame) (a t c : nat) : Prop :=
  let i := item f a in
  m_tableId i = Z.of_nat t ∧ m_chairId i = Z.of_nat c ∧ 0 < GetUserId i ∧ may_sit f a.

Definition nowhere (i : Item) : Prop := m_tableId i = INVALID_TABLE ∧ m_chairId i = INVALID_CHAIR.

Record inv (f : Frame) : Prop := {
  inv_tables : length (m_UserLists f) = tableCount cfg;
  inv_rows : ∀ t, (t < tableCount cfg)%nat → length (seats f t) = maxPlayerNum cfg;
  inv_users : NoDup (users f);
  inv_androids : NoDup (androids f);
  inv_heap : ∀ a, a ∈ users f ++ androids f → (a < length (heap f))%nat;
  inv_user_kind : ∀ a, a ∈ users f → m_isAndroidUser (item f a) = false;
  inv_android_kind : ∀ a, a ∈ androids f → m_isAndroidUser (item f a) = true ∧ 0 < GetUserId (item f a);
  inv_android_ids : ∀ a b, a ∈ androids f → b ∈ androids f →
    GetUserId (item f a) = GetUserId (item f b) → a = b;
  inv_seat : ∀ t c a, seat f t c = Some a → sits f a t c;
  inv_map : ∀ u a, m_UserMap f !! u = Some a → a ∈ m_UsedUserItemList f ∧ GetUserId (item f a) = u;
  inv_loose : ∀ a, nowhere (item f a) ∨ ∃ t c, seat f t c = Some a;
  inv_lists : m_listUsedTable f ++ m_listFreeTable f ≡ₚ seq 0 (tableCount cfg);
  inv_free_tables : ∀ t c, t ∈ m_listFreeTable f → seat f t c = None
}.

Lemma inv_init status : inv (InitAllTable cfg status).
Proof.
  assert (∀ t c, seat (InitAllTable cfg status) t c = None) as Hs.
  { intros t c. unfold seat, seats. cbn.
    destruct (replicate _ _ !! t) as [row|] eqn:E; cbn; [|done].
    apply lookup_replicate in E as [-> _]. destruct (replicate _ _ !! c) as [o|] eqn:E'; cbn; [|done].
    by apply lookup_replicate in E' as [-> _]. }
  split; cbn; try (intros; set_solver).
  - apply length_replicate.
  - intros t Ht. unfold seats. cbn. rewrite lookup_replicate_2 by done. cbn. apply length_replicate.
  - constructor.
  - constructor.
  - intros t c a Ha. by rewrite Hs in Ha.
  - intros a. left. done.
Qed.

(** What the invariant reads of an item. *)
Definition key (i : Item) : Z * Z * bool * Z := (m_tableId i, m_chairId i, m_isAndroidUser i, GetUserId i).

(** Two states the invariant does not tell apart. *)
Record same_view (f f' : Frame) : Prop := {
  sv_lists : m_UserLists f' = m_UserLists f;
  sv_free : m_FreeUserItemList f' = m_FreeUserItemList f;
  sv_used : m_UsedUserItemList f' = m_UsedUserItemList f;
  sv_afree : m_AndroidUserItemFreeList f' = m_AndroidUserItemFreeList f;
  sv_aused : m_AndroidUserItemUsedList f' = m_AndroidUserItemUsedList f;
  sv_map : m_UserMap f' = m_UserMap f;
  sv_tused : m_listUsedTable f' = m_listUsedTable f;
  sv_tfree : m_listFreeTable f' = m_listFreeTable f;
  sv_heap : length (heap f') = length (heap f);
  sv_key : ∀ a, key (item f' a) = key (item f a)
}.

#[global] Instance same_view_preorder : PreOrder same_view.
Proof.
  split; [by split|]. intros f g h [] []. split; congruence.
Qed.

Lemma same_view_seat f f' t c : same_view f f' → seat f' t c = seat f t c.
Proof. intros H. unfold seat, seats. by rewrite (sv_lists _ _ H). Qed.

Lemma inv_same_view f f' : same_view f f' → inv f → inv f'.
Proof.
  intros Hv Hf. pose proof (λ t c, same_view_seat f f' t c Hv) as Hs.
  destruct Hv as [H1 H2 H3 H4 H5 H6 H7 H8 H9 Hk]. destruct Hf.
  assert (∀ a, m_tableId (item f' a) = m_tableId (item f a)) as K1 by (intros a; specialize (Hk a); unfold key in Hk; congruence).
  assert (∀ a, m_chairId (item f' a) = m_chairId (item f a)) as K2 by (intros a; specialize (Hk a); unfold key in Hk; congruence).
  assert (∀ a, m_isAndroidUser (item f' a) = m_isAndroidUser (item f a)) as K3 by (intros a; specialize (Hk a); unfold key in Hk; congruence).
  assert (∀ a, GetUserId (item f' a) = GetUserId (item f a)) as K4 by (intros a; specialize (Hk a); unfold key in Hk; congruence).
  split; unfold sits, may_sit, nowhere, users, androids, seats in *;
    rewrite ?H1, ?H2, ?H3, ?H4, ?H5, ?H6, ?H7, ?H8, ?H9 in *; repeat setoid_rewrite K1;
    repeat setoid_rewrite K2; repeat setoid_rewrite K3; repeat setoid_rewrite K4; repeat setoid_rewrite Hs; done.
Qed.

Lemma same_view_item a g f : (∀ i, key (g i) = key i) → same_view f (set_item a g f).
Proof. intros H. split; try done; [apply heap_set|]. intros b. by apply (item_set_keeps key). Qed.

(** ** Leaving a seat *)

Lemma key_inj i j : key i = key j →
  m_tableId i = m_tableId j ∧ m_chairId i = m_chairId j ∧ m_isAndroidUser i = m_isAndroidUser j ∧
  GetUserId i = GetUserId j.
Proof. unfold key. intros [= -> -> -> ->]. done. Qed.

Lemma seat_unique f t c t' c' a : inv f → seat f t c = Some a → seat f t' c' = Some a →
  (t', c') = (t, c).
Proof.
  intros Hf (H1 & H2 & _)%(inv_seat _ Hf) (H3 & H4 & _)%(inv_seat _ Hf). f_equal; lia.
Qed.

(** [f'] is [f] with the user [a] away from his seat. *)
Record left_seat (a t c : nat) (f f' : Frame) : Prop := {
  ls_lists : length (m_UserLists f') = length (m_UserLists f);
  ls_rows : ∀ t', length (seats f' t') = length (seats f t');
  ls_seat : ∀ t' c', seat f' t' c' = if decide ((t', c') = (t, c)) then None else seat f t' c';
  ls_users : users f' ≡ₚ users f;
  ls_androids : androids f' ≡ₚ androids f;
  ls_used : ∀ b, b ≠ a → b ∈ m_UsedUserItemList f → b ∈ m_UsedUserItemList f';
  ls_aused : ∀ b, b ≠ a → b ∈ m_AndroidUserItemUsedList f → b ∈ m_AndroidUserItemUsedList f';
  ls_map : m_UserMap f' = if m_isAndroidUser (item f a) then m_UserMap f
                          else delete (GetUserId (item f a)) (m_UserMap f);
  ls_tables : m_listUsedTable f' = m_listUsedTable f ∧ m_listFreeTable f' = m_listFreeTable f;
  ls_heap : length (heap f') = length (heap f);
  ls_item : ∀ b, b ≠ a → item f' b = item f b;
  ls_nowhere : nowhere (item f' a);
  ls_kind : m_isAndroidUser (item f' a) = m_isAndroidUser (item f a);
  ls_id : m_isAndroidUser (item f a) = true → GetUserId (item f' a) = GetUserId (item f a)
}.

Lemma ls_key a t c f f' : left_seat a t c f f' → ∀ b, b ≠ a → key (item f' b) = key (item f b).
Proof. intros H b Hb. by rewrite (ls_item _ _ _ _ _ H). Qed.

Lemma left_seat_id a t c f f' b : left_seat a t c f f' →
  m_isAndroidUser (item f' b) = m_isAndroidUser (item f b) ∧
  (m_isAndroidUser (item f b) = true → GetUserId (item f' b) = GetUserId (item f b)).
Proof.
  intros H. destruct (decide (b = a)) as [->|Hb]; [split; apply H|].
  apply (ls_key _ _ _ _ _ H) in Hb. apply key_inj in Hb as (_ & _ & ? & ?). by split.
Qed.

(** Two used items under one id are the same, by the map. *)
Lemma may_sit_inj f a b : may_sit f a → may_sit f b → m_isAndroidUser (item f a) = false →
  m_isAndroidUser (item f b) = false → GetUserId (item f a) = GetUserId (item f b) → a = b.
Proof.
  unfold may_sit. intros Ha Hb Ea Eb Hid. rewrite Ea in Ha. rewrite Eb in Hb.
  destruct Ha as (_ & Ha & _), Hb as (_ & Hb & _). congruence.
Qed.

Lemma left_seat_others a t c f f' t' c' b : inv f → left_seat a t c f f' → seat f t c = Some a →
  seat f' t' c' = Some b → b ≠ a ∧ seat f t' c' = Some b.
Proof.
  intros Hf Hl Ha. rewrite (ls_seat _ _ _ _ _ Hl). destruct (decide _) as [|Hne]; [done|].
  intros Hb. split; [|done]. intros ->. by apply Hne, (seat_unique f t c t' c' a).
Qed.

Lemma left_seat_sits a t c f f' b t' c' : inv f → left_seat a t c f f' → seat f t c = Some a →
  b ≠ a → sits f b t' c' → sits f' b t' c'.
Proof.
  intros Hf Hl Ha Hb (H1 & H2 & H3 & Hm).
  destruct (key_inj _ _ (ls_key _ _ _ _ _ Hl b Hb)) as (K1 & K2 & K3 & K4).
  unfold sits. rewrite K1, K2, K4. do 3 (split; [done|]).
  destruct (inv_seat _ Hf _ _ _ Ha) as (_ & _ & _ & Ma).
  pose proof (may_sit_inj f a b Ma Hm) as Hinj.
  unfold may_sit in *. rewrite K3, K4, (ls_map _ _ _ _ _ Hl).
  destruct (m_isAndroidUser (item f b)) eqn:Eb; [by apply (ls_aused _ _ _ _ _ Hl)|].
  destruct Hm as (Hu & Hmap & Hid). split; [by apply (ls_used _ _ _ _ _ Hl)|]. split; [|done].
  destruct (m_isAndroidUser (item f a)) eqn:Ea; [done|].
  rewrite lookup_delete_ne; [done|]. intros E. by apply Hb; symmetry; apply Hinj.
Qed.

Lemma inv_leave a t c f f' : inv f → seat f t c = Some a → left_seat a t c f f' → inv f'.
Proof.
  intros Hf Ha Hl. pose proof (λ b, left_seat_id _ _ _ _ _ b Hl) as Hid.
  split.
  - rewrite (ls_lists _ _ _ _ _ Hl). apply Hf.
  - intros t' Ht'. rewrite (ls_rows _ _ _ _ _ Hl). by apply Hf.
  - rewrite (ls_users _ _ _ _ _ Hl). apply Hf.
  - rewrite (ls_androids _ _ _ _ _ Hl). apply Hf.
  - intros b. rewrite (ls_users _ _ _ _ _ Hl), (ls_androids _ _ _ _ _ Hl), (ls_heap _ _ _ _ _ Hl). apply Hf.
  - intros b. rewrite (ls_users _ _ _ _ _ Hl). destruct (Hid b) as [-> _]. apply Hf.
  - intros b. rewrite (ls_androids _ _ _ _ _ Hl). intros Hb.
    destruct (inv_android_kind _ Hf b Hb) as [E ?], (Hid b) as [-> E']. by rewrite E' by done.
  - intros b b'. rewrite (ls_androids _ _ _ _ _ Hl). intros Hb Hb'.
    rewrite (proj2 (Hid b)) by apply (inv_android_kind _ Hf b Hb).
    rewrite (proj2 (Hid b')) by apply (inv_android_kind _ Hf b' Hb'). by apply Hf.
  - intros t' c' b Hb. destruct (left_seat_others _ _ _ _ _ _ _ _ Hf Hl Ha Hb) as [Hne Hb'].
    eapply left_seat_sits; [done..|]. by apply Hf.
  - intros u b. rewrite (ls_map _ _ _ _ _ Hl). intros Hb.
    assert (m_UserMap f !! u = Some b ∧ b ≠ a) as [Hb' Hne].
    { destruct (inv_seat _ Hf _ _ _ Ha) as (_ & _ & _ & Ma). unfold may_sit in Ma.
      destruct (m_isAndroidUser (item f a)) eqn:Ea.
      - split; [done|]. intros ->. apply (inv_map _ Hf) in Hb as [Hb _].
        assert (a ∈ users f) as Hu%(inv_user_kind _ Hf) by (unfold users; set_solver). congruence.
      - apply lookup_delete_Some in Hb as [Hu Hb]. split; [done|]. intros ->.
        by apply (inv_map _ Hf) in Hb as [_ ?]. }
    destruct (inv_map _ Hf _ _ Hb') as [Hu Hidb]. split; [by apply (ls_used _ _ _ _ _ Hl)|].
    by destruct (key_inj _ _ (ls_key _ _ _ _ _ Hl b Hne)) as (_ & _ & _ & ->).
  - intros b. destruct (decide (b = a)) as [->|Hne]; [left; apply Hl|].
    destruct (key_inj _ _ (ls_key _ _ _ _ _ Hl b Hne)) as (K1 & K2 & _).
    destruct (inv_loose _ Hf b) as [Hn|(t' & c' & Hb)].
    + left. unfold nowhere in *. by rewrite K1, K2.
    + right. exists t', c'. rewrite (ls_seat _ _ _ _ _ Hl). destruct (decide _) as [[= -> ->]|]; [|done]. congruence.
  - destruct (ls_tables _ _ _ _ _ Hl) as [-> ->]. apply Hf.
  - intros t' c'. destruct (ls_tables _ _ _ _ _ Hl) as [_ ->]. intros Ht.
    rewrite (ls_seat _ _ _ _ _ Hl). destruct (decide _); [done|]. by apply Hf.
Qed.

Lemma i32_id z : -2147483648 <= z < 2147483648 → i32 z = z.
Proof. unfold i32. lia. Qed.

Lemma list_find_eq a (l : list nat) : a ∈ l → ∃ i, list_find (λ x, x = a) l = Some (i, a) ∧ l !! i = Some a.
Proof.
  intros Ha. destruct (list_find_elem_of (λ x, x = a) l a Ha eq_refl) as [[i b] E].
  exists i. apply list_find_Some in E as E'. destruct E' as (? & -> & _). done.
Qed.

Lemma elem_of_delete_ne {A} (l : list A) i a b : l !! i = Some a → b ≠ a → b ∈ l → b ∈ delete i l.
Proof. intros Hi Hne Hb. rewrite (delete_Permutation l i a Hi) in Hb. set_solver. Qed.

(** [f'] keeps everything but the items, the lists and the map of the users. *)
Lemma DeleteUserItem_used a f : a ∈ m_UsedUserItemList f →
  ∃ i, m_UsedUserItemList f !! i = Some a ∧
    snd (DeleteUserItem a f) = set_item a ResetUserItem
      (f <| m_FreeUserItemList ::= cons a |> <| m_UsedUserItemList ::= delete i |>
         <| m_UserMap ::= delete (i32 (GetUserId (item f a))) |>).
Proof.
  intros Ha. destruct (list_find_eq _ _ Ha) as (i & E & Hi). exists i. split; [done|].
  unfold DeleteUserItem. by rewrite E.
Qed.

Lemma DeleteAndroidUserItem_used a f : inv f → a ∈ m_AndroidUserItemUsedList f →
  ∃ i, m_AndroidUserItemUsedList f !! i = Some a ∧
    snd (DeleteAndroidUserItem (GetUserId (item f a)) f) =
      f <| m_AndroidUserItemFreeList ::= (λ l, l ++ [a]) |> <| m_AndroidUserItemUsedList ::= delete i |>.
Proof.
  intros Hf Ha. destruct (list_find_elem_of (λ x, GetUserId (item f x) = GetUserId (item f a))
    (m_AndroidUserItemUsedList f) a Ha eq_refl) as [[i b] E].
  apply list_find_Some in E as E'. destruct E' as (Hi & Hid & _).
  assert (b = a) as ->.
  { apply (inv_android_ids _ Hf); [..|done]; unfold androids.
    - apply elem_of_app. right. by eapply list_elem_of_lookup_2.
    - set_solver. }
  exists i. split; [done|]. unfold DeleteAndroidUserItem. by rewrite E.
Qed.

(** [f1] is [f] after the item of [a] went back to its manager. *)
Record returned (a : nat) (f f1 : Frame) : Prop := {
  rt_lists : m_UserLists f1 = m_UserLists f;
  rt_users : users f1 ≡ₚ users f;
  rt_androids : androids f1 ≡ₚ androids f;
  rt_used : ∀ b, b ≠ a → b ∈ m_UsedUserItemList f → b ∈ m_UsedUserItemList f1;
  rt_aused : ∀ b, b ≠ a → b ∈ m_AndroidUserItemUsedList f → b ∈ m_AndroidUserItemUsedList f1;
  rt_map : m_UserMap f1 = if m_isAndroidUser (item f a) then m_UserMap f
                          else delete (GetUserId (item f a)) (m_UserMap f);
  rt_tables : m_listUsedTable f1 = m_listUsedTable f ∧ m_listFreeTable f1 = m_listFreeTable f;
  rt_heap : length (heap f1) = length (heap f);
  rt_item : ∀ b, b ≠ a → item f1 b = item f b;
  rt_kind : m_isAndroidUser (item f1 a) = m_isAndroidUser (item f a);
  rt_id : m_isAndroidUser (item f a) = true → GetUserId (item f1 a) = GetUserId (item f a)
}.

Definition unseat (i : Item) : Item := i <| m_tableId := INVALID_TABLE |> <| m_chairId := INVALID_CHAIR |>.

Lemma returned_left a t c f f1 : (a < length (heap f))%nat → (t < length (m_UserLists f))%nat →
  returned a f f1 → left_seat a t c f (set_seat t c None (set_item a unseat f1)).
Proof.
  intros Ha Ht Hr. pose proof (λ b, item_set_ne a b unseat f1) as Hne.
  split; try (by apply Hr).
  - cbn. by rewrite length_alter, (rt_lists _ _ _ Hr).
  - intros t'. unfold seats. cbn. rewrite (rt_lists _ _ _ Hr).
    destruct (decide (t = t')) as [->|]; [|by rewrite list_lookup_alter_ne].
    rewrite list_lookup_alter_eq. destruct (m_UserLists f !! t'); cbn; [apply length_insert|done].
  - intros t' c'. rewrite seat_set_None. destruct (decide _); [done|].
    unfold seat, seats. cbn. by rewrite (rt_lists _ _ _ Hr).
  - cbn. rewrite length_alter. apply Hr.
  - intros b Hb. change (item (set_item a unseat f1) b = item f b).
    rewrite Hne by done. by rewrite (rt_item _ _ _ Hr).
  - change (nowhere (item (set_item a unseat f1) a)). rewrite item_set_eq; [done|].
    by rewrite (rt_heap _ _ _ Hr).
  - change (m_isAndroidUser (item (set_item a unseat f1) a) = m_isAndroidUser (item f a)).
    rewrite (item_set_keeps m_isAndroidUser) by done. apply Hr.
  - change (m_isAndroidUser (item f a) = true → GetUserId (item (set_item a unseat f1) a) = GetUserId (item f a)).
    rewrite (item_set_keeps GetUserId) by done. apply Hr.
Qed.

Lemma DeleteAndroidUserItem_returned a f : inv f → m_isAndroidUser (item f a) = true →
  a ∈ m_AndroidUserItemUsedList f →
  returned a f (snd (DeleteAndroidUserItem (GetUserId (item f a)) f)).
Proof.
  intros Hf Ha Hu. destruct (DeleteAndroidUserItem_used a f Hf Hu) as (i & Hi & ->).
  split; rewrite ?Ha; try done.
  - unfold androids. cbn. rewrite (delete_Permutation _ _ _ Hi) at 2. cbn.
    rewrite <- (assoc_L (++)). by apply Permutation_app_head.
  - intros b Hb. cbn. by apply elem_of_delete_ne with a.
Qed.

Lemma DeleteUserItem_returned a f : m_isAndroidUser (item f a) = false →
  a ∈ m_UsedUserItemList f → (a < length (heap f))%nat → i32 (GetUserId (item f a)) = GetUserId (item f a) →
  returned a f (snd (DeleteUserItem a f)).
Proof.
  intros Ha Hu Hlt Hid. destruct (DeleteUserItem_used a f Hu) as (i & Hi & ->). rewrite Hid.
  split; rewrite ?Ha; try done.
  - unfold users. cbn. rewrite (delete_Permutation _ _ _ Hi) at 2. by apply Permutation_middle.
  - intros b Hb. cbn. by apply elem_of_delete_ne with a.
  - cbn. apply length_alter.
  - intros b Hb. etrans; [by apply item_set_ne|]. done.
  - etrans; [by apply (item_set_keeps m_isAndroidUser)|]. done.
Qed.

(** Bookkeeping outside the lists keeps what [returned] tells. *)
Lemma returned_after a f f0 f1 : heap f0 = heap f → m_UserLists f0 = m_UserLists f →
  users f0 = users f → androids f0 = androids f → m_UsedUserItemList f0 = m_UsedUserItemList f →
  m_AndroidUserItemUsedList f0 = m_AndroidUserItemUsedList f → m_UserMap f0 = m_UserMap f →
  m_listUsedTable f0 = m_listUsedTable f → m_listFreeTable f0 = m_listFreeTable f →
  returned a f0 f1 → returned a f f1.
Proof.
  intros E1 E2 E3 E4 E5 E6 E7 E8 E9 []. split; unfold item in *;
    rewrite <- ?E1, <- ?E2, <- ?E3, <- ?E4, <- ?E5, <- ?E6, <- ?E7, <- ?E8, <- ?E9; done.
Qed.

(** A user who may leave: seated, not playing. *)
Lemma OnUserStandup_left t c a f : config_ok → inv f → seat f t c = Some a →
  isPlaying (item f a) = false → left_seat a t c f (snd (OnUserStandup t a f)).
Proof.
  intros [_ Hcfg] Hf Ha Hp. destruct (seat_lt _ _ _ _ Ha) as [Ht Hc].
  destruct (inv_seat _ Hf _ _ _ Ha) as (H1 & H2 & H3 & Hm). unfold may_sit in Hm.
  pose proof (inv_rows _ Hf t ltac:(by rewrite <- (inv_tables _ Hf))) as Hrow.
  unfold OnUserStandup. rewrite Hp.
  replace ((m_chairId (item f a) =? INVALID_CHAIR) || (GetUserId (item f a) =? 0)) with false.
  2: { symmetry. apply orb_false_iff. unfold INVALID_CHAIR. split; apply Z.eqb_neq; lia. }
  rewrite H2, Nat2Z.id.
  match goal with |- context [set_item a _ ?f1] => assert (returned a f f1) as Hr end.
  { destruct (m_isAndroidUser (item f a)) eqn:Ea; cbn [negb].
    - by apply DeleteAndroidUserItem_returned.
    - destruct Hm as (Hu & _ & Hid).
      eapply returned_after; [..|apply DeleteUserItem_returned]; try done.
      + apply (inv_heap _ Hf). unfold users. set_solver.
      + change (i32 (GetUserId (item f a)) = GetUserId (item f a)). apply i32_id. lia. }
  match goal with |- context [set_item a ?g ?f1] => revert Hr; generalize f1 end.
  intros f1 Hr.
  cbn [snd]. replace (Z.of_nat c <? _) with true.
  - apply returned_left; [|done..]. apply (inv_heap _ Hf).
    unfold users, androids. destruct (m_isAndroidUser (item f a)); set_solver.
  - symmetry. apply Z.ltb_lt. unfold seats in *. cbn. rewrite (rt_lists _ _ _ Hr). lia.
Qed.

Lemma OnUserStandup_inv t c a f : config_ok → inv f → seat f t c = Some a →
  inv (snd (OnUserStandup t a f)).
Proof.
  intros Hcfg Hf Ha. destruct (isPlaying (item f a)) eqn:Hp.
  - unfold OnUserStandup. rewrite Hp. by destruct (_ || _).
  - eapply inv_leave; [done..|]. by apply OnUserStandup_left.
Qed.

Lemma GetTableUserItem_seat t chair f a : GetTableUserItem cfg t chair f = Some a →
  seat f t (Z.to_nat chair) = Some a ∧ 0 <= chair < Z.of_nat (maxPlayerNum cfg).
Proof. unfold GetTableUserItem. bsplit; intros; split; (done || lia). Qed.

Lemma ClearTableUser_inv t chair f : config_ok → inv f → inv (ClearTableUser cfg t chair f).
Proof.
  intros Hcfg Hf. unfold ClearTableUser. destruct (_ && _); [|done].
  destruct (GetTableUserItem _ _ _ _) as [a|] eqn:Ea; [|done].
  apply GetTableUserItem_seat in Ea as [Ea _]. by eapply OnUserStandup_inv.
Qed.

Lemma run_act_inv t x f : config_ok → inv f → inv (run_act cfg t f x).
Proof.
  intros Hcfg Hf. destruct x; cbn [run_act]; [by apply ClearTableUser_inv|..].
  1-3: destruct (GetTableUserItem _ _ _ _); [|done]; by eapply inv_same_view; [apply same_view_item|].
  eapply inv_same_view; [|done]. by split.
Qed.

Lemma run_acts_inv t xs f : config_ok → inv f → inv (run_acts cfg t xs f).
Proof.
  intros Hcfg. unfold run_acts. revert f. induction xs as [|x xs IH]; intros f Hf; [done|].
  by apply IH, run_act_inv.
Qed.

(** ** Taking a seat *)

Definition sit_at (t c : nat) (i : Item) : Item :=
  i <| m_tableId := Z.of_nat t |> <| m_chairId := Z.of_nat c |>.

Lemma sit_item a t c f b : (a < length (heap f))%nat →
  let i := item (set_seat t c (Some a) (set_item a (sit_at t c) f)) b in
  (b ≠ a → i = item f b) ∧ m_isAndroidUser i = m_isAndroidUser (item f b) ∧
  GetUserId i = GetUserId (item f b) ∧
  (b = a → m_tableId i = Z.of_nat t ∧ m_chairId i = Z.of_nat c).
Proof.
  intros Ha i. change i with (item (set_item a (sit_at t c) f) b). split_and!.
  - intros Hb. by rewrite item_set_ne.
  - by apply (item_set_keeps m_isAndroidUser).
  - by apply (item_set_keeps GetUserId).
  - intros ->. by rewrite item_set_eq.
Qed.

Lemma inv_sit a t c f : inv f → (∀ t c, seat f t c ≠ Some a) → may_sit f a → 0 < GetUserId (item f a) →
  t ∈ m_listUsedTable f → (c < maxPlayerNum cfg)%nat → seat f t c = None →
  inv (set_seat t c (Some a) (set_item a (sit_at t c) f)).
Proof.
  intros Hf Hout Hm Hid Ht Hc Hnone.
  assert (a < length (heap f))%nat as Ha.
  { apply (inv_heap _ Hf). unfold may_sit, users, androids in *.
    destruct (m_isAndroidUser (item f a)); set_solver. }
  assert (t < tableCount cfg)%nat as Htc.
  { assert (t ∈ seq 0 (tableCount cfg)) as Hs; [|apply elem_of_seq in Hs; lia].
    rewrite <- (inv_lists _ Hf). set_solver. }
  set (f' := set_seat t c (Some a) (set_item a (sit_at t c) f)).
  pose proof (λ b, sit_item a t c f b Ha) as Hi. cbn zeta in Hi. fold f' in Hi.
  assert (∀ b, m_isAndroidUser (item f' b) = m_isAndroidUser (item f b)) as K3 by apply Hi.
  assert (∀ b, GetUserId (item f' b) = GetUserId (item f b)) as K4 by apply Hi.
  assert (∀ b, may_sit f b → may_sit f' b) as Hms.
  { intros b. unfold may_sit. by rewrite K3, K4. }
  assert (seat f' t c = Some a) as Hsa.
  { unfold f'. apply seat_set_eq; unfold seats; cbn.
    - by rewrite (inv_tables _ Hf).
    - change (c < length (seats f t))%nat. by rewrite (inv_rows _ Hf). }
  assert (∀ t' c', (t', c') ≠ (t, c) → seat f' t' c' = seat f t' c') as Hsn.
  { intros t' c' Hne. unfold f'. by rewrite seat_set_ne. }
  split; try exact (inv_users _ Hf); try exact (inv_androids _ Hf); try exact (inv_lists _ Hf).
  - unfold f'. cbn. rewrite length_alter. apply (inv_tables _ Hf).
  - intros t' Ht'. unfold f', seats. cbn. destruct (decide (t = t')) as [->|Hne].
    + rewrite list_lookup_alter_eq. pose proof (inv_rows _ Hf t' Ht') as Hrow. unfold seats in Hrow.
      destruct (m_UserLists f !! t'); cbn in *; [by rewrite length_insert|done].
    + rewrite list_lookup_alter_ne by done. by apply (inv_rows _ Hf).
  - intros b Hb. cbn. rewrite length_alter. by apply (inv_heap _ Hf).
  - intros b. rewrite K3. apply Hf.
  - intros b. rewrite K3, K4. apply Hf.
  - intros b b'. rewrite !K4. apply Hf.
  - intros t' c' b Hb. destruct (decide ((t', c') = (t, c))) as [[= -> ->]|Hne].
    + assert (b = a) as -> by congruence. destruct (proj2 (proj2 (proj2 (Hi a))) eq_refl) as [E1 E2].
      unfold sits. rewrite K4. auto.
    + rewrite Hsn in Hb by done. assert (b ≠ a) as Hba by (intros ->; by apply (Hout t' c')).
      destruct (inv_seat _ Hf _ _ _ Hb) as (E1 & E2 & E3 & E4). unfold sits.
      rewrite (proj1 (Hi b) Hba). auto.
  - intros u b Hb. rewrite K4. by apply (inv_map _ Hf).
  - intros b. destruct (decide (b = a)) as [->|Hba]; [right; by exists t, c|].
    rewrite (proj1 (Hi b) Hba). destruct (inv_loose _ Hf b) as [|(t' & c' & Hb)]; [by left|].
    right. exists t', c'. rewrite Hsn; [done|]. intros [= -> ->]. congruence.
  - intros t' c' Ht'. destruct (decide ((t', c') = (t, c))) as [[= -> ->]|Hne].
    + pose proof (inv_lists _ Hf) as Hp. assert (NoDup (m_listUsedTable f ++ m_listFreeTable f)) as Hnd.
      { rewrite Hp. apply NoDup_seq. }
      apply NoDup_app in Hnd as (_ & Hd & _). by destruct (Hd t Ht).
    + rewrite Hsn by done. by apply (inv_free_tables _ Hf).
Qed.

(** ** Items from the managers *)

Lemma not_androids f a : inv f → a ∈ users f → a ∉ androids f.
Proof.
  intros Hf Hu Ha. apply (inv_user_kind _ Hf) in Hu. destruct (inv_android_kind _ Hf a Ha). congruence.
Qed.

Lemma free_unseated f a t c : inv f → a ∈ m_FreeUserItemList f → seat f t c ≠ Some a.
Proof.
  intros Hf Ha Hs. destruct (inv_seat _ Hf _ _ _ Hs) as (_ & _ & _ & Hm). unfold may_sit in Hm.
  assert (a ∈ users f) as Hu by (unfold users; set_solver).
  rewrite (inv_user_kind _ Hf a Hu) in Hm. destruct Hm as [Hm _].
  pose proof (inv_users _ Hf) as Hnd. unfold users in Hnd. apply NoDup_app in Hnd as (_ & Hd & _).
  by apply (Hd a).
Qed.

Lemma free_android_unseated f a t c : inv f → a ∈ m_AndroidUserItemFreeList f → seat f t c ≠ Some a.
Proof.
  intros Hf Ha Hs. destruct (inv_seat _ Hf _ _ _ Hs) as (_ & _ & _ & Hm). unfold may_sit in Hm.
  assert (a ∈ androids f) as Hu by (unfold androids; set_solver).
  destruct (inv_android_kind _ Hf a Hu) as [E _]. rewrite E in Hm.
  pose proof (inv_androids _ Hf) as Hnd. unfold androids in Hnd. apply NoDup_app in Hnd as (_ & Hd & _).
  by apply (Hd a).
Qed.

(** A seated user has a valid item; the map finds it, so that a user without a valid
    item has no seat. *)
Lemma seated_valid f t c a : config_ok → inv f → seat f t c = Some a → isValided (item f a) = true.
Proof.
  intros [Ht Hc] Hf Ha. destruct (seat_lt _ _ _ _ Ha) as [Hlt Hlc].
  destruct (inv_seat _ Hf _ _ _ Ha) as (H1 & H2 & H3 & _). rewrite (inv_tables _ Hf) in Hlt.
  rewrite (inv_rows _ Hf) in Hlc by done. unfold isValided, INVALID_TABLE, INVALID_CHAIR.
  rewrite H1, H2. apply andb_true_iff. split; [apply andb_true_iff; split|]; [..|by apply Z.ltb_lt];
    apply negb_true_iff, Z.eqb_neq; lia.
Qed.

Lemma valid_seated f a : config_ok → inv f → isValided (item f a) = true → ∃ t c, seat f t c = Some a.
Proof.
  intros _ Hf Hv. destruct (inv_loose _ Hf a) as [[E1 E2]|]; [|done].
  unfold isValided in Hv. by rewrite E1 in Hv.
Qed.

Lemma no_seat u f t c a : config_ok → inv f → seated_item u f = None → seat f t c = Some a →
  m_isAndroidUser (item f a) = false → GetUserId (item f a) ≠ u.
Proof.
  intros Hcfg Hf Hn Ha Hk Hu. destruct (inv_seat _ Hf _ _ _ Ha) as (_ & _ & _ & Hm).
  unfold may_sit in Hm. rewrite Hk, Hu in Hm. destruct Hm as (_ & Hm & _).
  unfold seated_item, FindUserItem in Hn. rewrite Hm, (seated_valid f t c a) in Hn by done. done.
Qed.

Lemma item_alloc f b : item (f <| heap ::= (λ h, h ++ [new_item false]) |>) b = item f b.
Proof.
  unfold item. cbn. destruct (decide (b < length (heap f))%nat).
  - by rewrite lookup_app_l.
  - rewrite lookup_app_r, (lookup_ge_None_2 (heap f)) by lia. by destruct (b - length (heap f))%nat.
Qed.

(** A new item may as well come out of the free list. *)
Definition alloc (f : Frame) : Frame :=
  f <| heap ::= (λ h, h ++ [new_item false]) |> <| m_FreeUserItemList ::= cons (length (heap f)) |>.

Lemma alloc_item f b : item (alloc f) b = item f b.
Proof. apply (item_alloc f). Qed.

Lemma alloc_inv f : inv f → inv (alloc f).
Proof.
  intros Hf. pose proof (alloc_item f) as Hi.
  assert (∀ t c, seat (alloc f) t c = seat f t c) as Hs by done.
  assert (length (heap f) ∉ users f ++ androids f) as Hfresh.
  { intros H%(inv_heap _ Hf). lia. }
  assert (length (heap (alloc f)) = S (length (heap f))) as Hlen by (cbn; rewrite length_app; simpl; lia).
  split; try exact (inv_tables _ Hf); try exact (inv_rows _ Hf); try exact (inv_androids _ Hf);
    try exact (inv_lists _ Hf); try exact (inv_free_tables _ Hf).
  - change (NoDup (length (heap f) :: users f)). constructor; [|apply (inv_users _ Hf)]. set_solver.
  - intros a Ha. rewrite Hlen. change (a ∈ length (heap f) :: users f ++ androids f) in Ha.
    apply elem_of_cons in Ha as [->|Ha]; [lia|]. apply (inv_heap _ Hf) in Ha. lia.
  - intros a Ha. rewrite Hi. change (a ∈ length (heap f) :: users f) in Ha.
    apply elem_of_cons in Ha as [->|Ha]; [|by apply (inv_user_kind _ Hf)].
    unfold item. by rewrite lookup_ge_None_2.
  - intros a Ha. rewrite Hi. by apply (inv_android_kind _ Hf).
  - intros a b Ha Hb. rewrite !Hi. by apply (inv_android_ids _ Hf).
  - intros t c a Ha. unfold sits, may_sit. rewrite Hi. by apply (inv_seat _ Hf).
  - intros u a Ha. rewrite Hi. by apply (inv_map _ Hf).
  - intros a. rewrite Hi. by apply (inv_loose _ Hf).
Qed.

Lemma alter_snoc {A} (g : A → A) h x : alter g (length h) (h ++ [x]) = h ++ [g x].
Proof. induction h as [|y h IH]; [done|]. cbn. by f_equal. Qed.

Lemma GetUserItem_alloc u f : m_FreeUserItemList f = [] → GetUserItem u f = GetUserItem u (alloc f).
Proof.
  intros E. unfold GetUserItem, alloc. rewrite E. cbn. rewrite E. f_equal. unfold set_item, set_field. cbn.
  by rewrite alter_snoc, E.
Qed.

(** A free item, reset and filled by [g], in use under [u]. *)
Lemma pop_inv u a free g f : config_ok → inv f → seated_item u f = None → 0 < u < 2147483648 →
  m_FreeUserItemList f = a :: free →
  (∀ i, nowhere i → nowhere (g i) ∧ m_isAndroidUser (g i) = m_isAndroidUser i ∧ GetUserId (g i) = u) →
  let f2 := set_item a g (snd (GetUserItem u f)) in
  inv f2 ∧ may_sit f2 a ∧ (∀ t c, seat f2 t c ≠ Some a) ∧ GetUserId (item f2 a) = u.
Proof.
  intros Hcfg Hf Hn Hu E Hg f2.
  assert (a ∈ m_FreeUserItemList f) as Hfree by (rewrite E; set_solver).
  assert (a ∈ users f) as Hau by (unfold users; set_solver).
  assert (a < length (heap f))%nat as Hlt by (apply (inv_heap _ Hf); set_solver).
  assert (item f2 a = g (ResetUserItem (item f a))) as Ea.
  { unfold f2, GetUserItem. rewrite E. cbn [snd]. rewrite item_set_eq; [|cbn; by rewrite length_alter].
    f_equal. change (item (set_item a ResetUserItem f) a = ResetUserItem (item f a)). by apply item_set_eq. }
  assert (∀ b, b ≠ a → item f2 b = item f b) as Hne.
  { intros b Hb. unfold f2, GetUserItem. rewrite E. cbn [snd]. rewrite item_set_ne by done.
    change (item (set_item a ResetUserItem f) b = item f b). by apply item_set_ne. }
  destruct (Hg (ResetUserItem (item f a))) as (Gn & Gk & Gi); [done|]. rewrite <- Ea in Gn, Gk, Gi.
  assert (m_isAndroidUser (item f2 a) = false) as Gk'.
  { rewrite Gk. cbn. by apply (inv_user_kind _ Hf). }
  assert (m_UsedUserItemList f2 = m_UsedUserItemList f ++ [a] ∧ m_FreeUserItemList f2 = free ∧
    m_UserMap f2 = <[u := a]> (m_UserMap f) ∧ length (heap f2) = length (heap f)) as (Fu & Ff & Fm & Fh).
  { unfold f2, GetUserItem. rewrite E. cbn. by rewrite !length_alter. }
  assert (users f2 ≡ₚ users f) as Fp.
  { unfold users. rewrite Fu, Ff, E. cbn. rewrite (assoc_L (++)), (comm (++) _ [a]). done. }
  assert (m_UserLists f2 = m_UserLists f ∧ androids f2 = androids f ∧
    m_AndroidUserItemUsedList f2 = m_AndroidUserItemUsedList f ∧
    m_listUsedTable f2 = m_listUsedTable f ∧ m_listFreeTable f2 = m_listFreeTable f) as (Fl & Fa & Fau & Ft & Ftf).
  { unfold f2, GetUserItem. by rewrite E. }
  clearbody f2.
  assert (∀ t c, seat f2 t c = seat f t c) as Hs by (intros; unfold seat, seats; by rewrite Fl).
  assert (∀ b, b ∈ androids f → b ≠ a) as Hna.
  { intros b Hb ->. by apply (not_androids f a). }
  split; [|split; [|split]].
  - split.
    + rewrite Fl. apply (inv_tables _ Hf).
    + intros t. unfold seats. rewrite Fl. by apply (inv_rows _ Hf).
    + rewrite Fp. apply (inv_users _ Hf).
    + rewrite Fa. apply (inv_androids _ Hf).
    + intros b. rewrite Fp, Fa, Fh. apply (inv_heap _ Hf).
    + intros b. rewrite Fp. destruct (decide (b = a)) as [->|]; [done|].
      rewrite Hne by done. apply (inv_user_kind _ Hf).
    + intros b. rewrite Fa. intros Hb. rewrite Hne by (by apply Hna). by apply (inv_android_kind _ Hf).
    + intros b b'. rewrite Fa. intros Hb Hb'. rewrite !Hne by (by apply Hna). by apply (inv_android_ids _ Hf).
    + intros t c b. rewrite Hs. intros Hb.
      assert (b ≠ a) as Hba by (intros ->; by apply (free_unseated f a t c Hf)).
      destruct (inv_seat _ Hf _ _ _ Hb) as (H1 & H2 & H3 & Hm). unfold sits, may_sit in *.
      rewrite Hne, Fau, Fu, Fm by done. split_and!; [done..|].
      destruct (m_isAndroidUser (item f b)) eqn:Ek; [done|]. destruct Hm as (M1 & M2 & M3).
      split; [set_solver|]. split; [|done]. rewrite lookup_insert_ne; [done|].
      intros Eu. symmetry in Eu. by apply (no_seat u f t c b).
    + intros u' b. rewrite Fm, Fu. intros [[<- <-]|[Hu' Hb]]%lookup_insert_Some; [set_solver|].
      destruct (inv_map _ Hf _ _ Hb) as [Hb1 Hb2]. assert (b ≠ a) as Hba.
      { intros ->. pose proof (inv_users _ Hf) as Hnd. unfold users in Hnd.
        apply NoDup_app in Hnd as (_ & Hd & _). by apply (Hd a). }
      rewrite Hne by done. set_solver.
    + intros b. destruct (decide (b = a)) as [->|]; [by left|]. rewrite Hne by done.
      setoid_rewrite Hs. apply (inv_loose _ Hf).
    + rewrite Ft, Ftf. apply (inv_lists _ Hf).
    + intros t c. rewrite Ftf, Hs. apply (inv_free_tables _ Hf).
  - unfold may_sit. rewrite Gk', Fu, Gi, Fm, lookup_insert_eq. split; [set_solver|]. split; [done|lia].
  - intros t c. rewrite Hs. by apply free_unseated.
  - done.
Qed.

(** What [GetUserItem] and the filling of the item give together. *)
Lemma acquire_inv q info f : config_ok → inv f → seated_item (q_userId q) f = None →
  userId info = q_userId q → 0 < q_userId q < 2147483648 →
  let '(a, f1) := GetUserItem (q_userId q) f in
  let f2 := set_item a (fill_item cfg q info) f1 in
  inv f2 ∧ may_sit f2 a ∧ (∀ t c, seat f2 t c ≠ Some a) ∧ GetUserId (item f2 a) = q_userId q.
Proof.
  intros Hcfg Hf Hn Hid Hu.
  assert (∀ f, inv f → seated_item (q_userId q) f = None → ∀ a free, m_FreeUserItemList f = a :: free →
    let '(a, f1) := GetUserItem (q_userId q) f in
    let f2 := set_item a (fill_item cfg q info) f1 in
    inv f2 ∧ may_sit f2 a ∧ (∀ t c, seat f2 t c ≠ Some a) ∧ GetUserId (item f2 a) = q_userId q) as Hpop.
  { clear f Hf Hn. intros f Hf Hn a free E.
    pose proof (pop_inv (q_userId q) a free (fill_item cfg q info) f Hcfg Hf Hn Hu E) as H.
    unfold GetUserItem in *. rewrite E in *. by apply H. }
  destruct (m_FreeUserItemList f) as [|a free] eqn:E; [|by eapply Hpop].
  rewrite (GetUserItem_alloc _ _ E). eapply Hpop; [by apply alloc_inv| |unfold alloc; cbn; by rewrite E].
  unfold seated_item, FindUserItem in *. cbn. destruct (m_UserMap f !! q_userId q); [|done].
  by rewrite alloc_item.
Qed.

End Invariant.
