(* ===== verification/FrameSteps.v ===== *)
(** The handlers of the game server keep the invariant of the frame: tables are found
    and used, users sit down, come back, leave, and robots join. *)
From Stdlib Require Import String.
From stdpp Require Import base list numbers option gmap strings pretty relations.
From Stdlib Require Import ZArith Lia.
From S2P Require Import Prelude GameDefine Frame FrameInv.

#[local] Open Scope Z_scope.
#[local] Abbreviation length := List.length.

Section Steps.
Context (cfg : Config) {E : Env} (Hcfg : config_ok cfg).
Implicit Types f : Frame.

(** ** Tables in use stay in use *)

Lemma standup_tables t a f : m_listUsedTable (snd (OnUserStandup t a f)) = m_listUsedTable f.
Proof.
  unfold OnUserStandup. destruct (_ || _); [done|]. destruct (isPlaying _); [done|]. cbn [snd].
  match goal with |- context [set_item a ?g ?f1] => assert (m_listUsedTable f1 = m_listUsedTable f) as E1 end.
  { destruct (negb _); [unfold DeleteUserItem|unfold DeleteAndroidUserItem];
      by destruct (list_find _ _) as [[]|]. }
  destruct (_ <? _); exact E1.
Qed.

Lemma run_act_tables t x f : m_listUsedTable (run_act cfg t f x) = m_listUsedTable f.
Proof.
  destruct x; cbn [run_act]; try (destruct (GetTableUserItem _ _ _ _); done); [|done].
  unfold ClearTableUser. destruct (_ && _); [|done].
  destruct (GetTableUserItem _ _ _ _); [apply standup_tables|done].
Qed.

Lemma run_acts_tables t xs f : m_listUsedTable (run_acts cfg t xs f) = m_listUsedTable f.
Proof.
  unfold run_acts. revert f. induction xs as [|x xs IH]; intros f; [done|].
  cbn [foldl]. by rewrite IH, run_act_tables.
Qed.

Lemma RoomSitChair_tables t a f : m_listUsedTable (snd (RoomSitChair cfg t a f)) = m_listUsedTable f.
Proof.
  unfold RoomSitChair. destruct (_ <=? _); [done|]. destruct (free_chair _ _ _ _) as [c|]; [|done].
  cbn [snd]. unfold OnUserEnterAction.
  destruct (negb _); [change (m_listUsedTable (?f <| calls ::= _ |>)) with (m_listUsedTable f)|];
    by rewrite run_acts_tables.
Qed.

(** ** A chair *)

Lemma free_chair_some t startIndex f c : free_chair cfg t startIndex f = Some c →
  (c < maxPlayerNum cfg)%nat ∧ seat f t c = None.
Proof.
  unfold free_chair. intros H%head_Some_elem_of. apply list_elem_of_filter in H as [H1 H2].
  split; [|done]. apply list_elem_of_fmap in H2 as (i & -> & _). apply Nat.mod_upper_bound.
  destruct Hcfg as [_ ?]. lia.
Qed.

Lemma same_view_calls f g : same_view f (f <| calls ::= g |>).
Proof. by split. Qed.

Lemma OnUserEnterAction_inv t a f : inv cfg f → inv cfg (OnUserEnterAction cfg t a f).
Proof. apply run_acts_inv, Hcfg. Qed.

Lemma RoomSitChair_inv t a f : inv cfg f → (∀ t c, seat f t c ≠ Some a) → may_sit f a →
  t ∈ m_listUsedTable f → inv cfg (snd (RoomSitChair cfg t a f)).
Proof.
  intros Hf Hout Hm Ht. unfold RoomSitChair. destruct (_ <=? _) eqn:Eu; [done|].
  destruct (free_chair _ _ _ _) as [c|] eqn:Ec; [|done]. cbn [snd].
  apply free_chair_some in Ec as [Hc Hs]. apply Z.leb_gt in Eu.
  match goal with |- context [OnUserEnterAction cfg t a ?f1] => assert (inv cfg f1) as H1 end.
  { eapply inv_same_view; [apply same_view_item; done|]. by apply inv_sit. }
  apply (OnUserEnterAction_inv t a) in H1. destruct (negb _); [|done].
  eapply inv_same_view; [apply same_view_calls|done].
Qed.

(** ** A table *)

(** [f'] differs from [f] in the lists of the tables only. *)
Definition same_but_tables (f f' : Frame) : Prop :=
  ∃ used free, f' = f <| m_listUsedTable := used |> <| m_listFreeTable := free |>.

Lemma use_table_inv i t f : inv cfg f → m_listFreeTable f !! i = Some t →
  inv cfg (snd (use_table i t f)) ∧ t ∈ m_listUsedTable (snd (use_table i t f)).
Proof.
  intros Hf Hi. unfold use_table. cbn [snd]. split; [|cbn; set_solver].
  destruct Hf. split; try done.
  - cbn. etrans; [|exact inv_lists]. rewrite <- (assoc_L (++)). apply Permutation_app_head.
    symmetry. by apply (delete_Permutation _ i).
  - intros t' c Ht'. apply (inv_free_tables t' c). cbn in Ht'. rewrite (delete_Permutation _ _ _ Hi).
    set_solver.
Qed.

Lemma FindNormalSuitTable_ok a ex en f o f' : inv cfg f → FindNormalSuitTable cfg a ex en f = (o, f') →
  inv cfg f' ∧ (∀ t, o = Some t → t ∈ m_listUsedTable f') ∧ same_but_tables f f'.
Proof.
  intros Hf. unfold FindNormalSuitTable.
  assert (same_but_tables f f) as Hsame by (exists (m_listUsedTable f), (m_listFreeTable f); by destruct f).
  assert (∀ i t, m_listFreeTable f !! i = Some t → use_table i t f = (o, f') →
    inv cfg f' ∧ (∀ t, o = Some t → t ∈ m_listUsedTable f') ∧ same_but_tables f f') as Huse.
  { intros i t Hi Hu. destruct (use_table_inv i t f Hf Hi) as [H1 H2]. rewrite Hu in *. cbn in *.
    split; [done|]. unfold use_table in Hu. simplify_eq. split; [by intros ? [= <-]|].
    eexists _, _. by destruct f. }
  destruct (list_find _ (m_listUsedTable f)) as [[i t]|] eqn:E1.
  { intros [= <- <-]. split; [done|]. split; [|done]. intros ? [= <-].
    apply list_find_Some in E1 as (Hi & _). by eapply list_elem_of_lookup_2. }
  destruct (if en =? INVALID_TABLE then _ else _) as [[i t]|] eqn:E2.
  { destruct (en =? INVALID_TABLE); [done|]. apply list_find_Some in E2 as (Hi & _). by apply Huse. }
  destruct (m_listFreeTable f) as [|t free] eqn:E3; [by intros [= <- <-]|]. by apply Huse.
Qed.

(** ** Users come and go *)

Lemma enter_new_inv q info f : inv cfg f → seated_item (q_userId q) f = None →
  userId info = q_userId q → 0 < q_userId q < 2147483648 → inv cfg (snd (enter_new cfg q info f)).
Proof.
  intros Hf Hn Hid Hu. unfold enter_new.
  pose proof (acquire_inv cfg q info f Hcfg Hf Hn Hid Hu) as H.
  destruct (GetUserItem (q_userId q) f) as [a f1]. cbn zeta in H.
  destruct H as (H1 & Hm & Hout & Hu2). set (f2 := set_item a (fill_item cfg q info) f1) in *.
  destruct (FindNormalSuitTable cfg a INVALID_TABLE (q_tableId q) f2) as [o f3] eqn:Ef.
  apply FindNormalSuitTable_ok in Ef as (H3 & Ht & used & free & E3); [|done].
  destruct o as [t|].
  - apply RoomSitChair_inv; [done| | |by apply Ht]; by rewrite E3.
  - eapply inv_same_view; [apply same_view_calls|done].
Qed.

Lemma reenter_inv a f : inv cfg f → inv cfg (snd (reenter cfg a f)).
Proof.
  intros Hf. unfold reenter. destruct (GetTable _ _) as [t|] eqn:Et; [|done].
  destruct (CanJoinTable _ _ _ _); [|done].
  destruct (SwitchUserItem cfg a f) as [ok f1] eqn:Es. unfold SwitchUserItem in Es.
  destruct (_ || _); [by simplify_eq|].
  match type of Es with context [GetTable _ ?g] => assert (inv cfg g) as H1 end.
  { eapply inv_same_view; [by apply same_view_item|done]. }
  destruct (GetTable _ (set_item _ _ _)); simplify_eq; cbn [snd]; [by apply OnUserEnterAction_inv|done].
Qed.

Lemma enter_checked_inv q f : inv cfg f → seated_item (q_userId q) f = None →
  (∀ info, q_info q = Some info → userId info = q_userId q) → 0 < q_userId q < 2147483648 →
  inv cfg (snd (enter_checked cfg q f)).
Proof.
  intros Hf Hn Hid Hu. unfold enter_checked, refuse, call.
  assert (inv cfg (f <| calls ::= (λ l, l ++ [DelUserOnlineInfo (q_userId q)]) |>)) as Hcall.
  { eapply inv_same_view; [apply same_view_calls|done]. }
  destruct (negb _); [done|]. destruct (negb _); [done|].
  destruct (q_info q) as [info|]; [|done]. destruct (_ && _); [done|]. destruct (_ && _); [done|].
  apply enter_new_inv; auto.
Qed.

Lemma cmd_enter_room_inv q f : inv cfg f →
  (∀ info, q_info q = Some info → userId info = q_userId q) → 0 < q_userId q < 2147483648 →
  inv cfg (snd (cmd_enter_room cfg q f)).
Proof.
  intros Hf Hid Hu. unfold cmd_enter_room. destruct (negb _); [done|]. destruct (negb _); [done|].
  destruct (q_password q) as [[]|]; [|done..].
  match goal with |- context [seated_item _ ?g] => assert (inv cfg g) as H1 end.
  { eapply inv_same_view; [|done]. by split. }
  destruct (seated_item _ _) eqn:Es; [by apply reenter_inv|by apply enter_checked_inv].
Qed.

Lemma OnUserLeft_inv t a f : inv cfg f → inv cfg (snd (OnUserLeft cfg t a f)).
Proof.
  intros Hf. unfold OnUserLeft. destruct (sink_OnUserLeft _ _) as [acts ret]. cbn [snd].
  apply run_acts_inv; [done|]. eapply inv_same_view; [by apply same_view_item|done].
Qed.

Lemma cmd_user_left_inv user type f : inv cfg f → inv cfg (snd (cmd_user_left cfg user type f)).
Proof.
  intros Hf. unfold cmd_user_left. destruct (FindUserItem user f) as [a|]; [|done].
  destruct (GetTable _ f) as [t|]; [|done]. destruct (sink_CanLeftTable t user); [|done].
  destruct (type =? 4); [done|].
  pose proof (OnUserLeft_inv t a f Hf) as H. by destruct (OnUserLeft cfg t a f).
Qed.

Lemma cmd_user_offline_inv user f : inv cfg f → inv cfg (cmd_user_offline cfg user f).
Proof.
  intros Hf. unfold cmd_user_offline. destruct (FindUserItem user f) as [a|]; [|done].
  destruct (GetTable _ f) as [t|]; [|done]. apply OnUserLeft_inv.
  eapply inv_same_view; [|done]. by split.
Qed.

Lemma cmd_game_message_inv user f : inv cfg f → inv cfg (cmd_game_message cfg user f).
Proof.
  intros Hf. unfold cmd_game_message. destruct (FindUserItem user f) as [a|]; [|done].
  destruct (GetTable _ f) as [t|]; [|done]. by apply run_acts_inv.
Qed.

Lemma KickAllTableUser_inv f : inv cfg f → inv cfg (KickAllTableUser f).
Proof.
  intros Hf. unfold KickAllTableUser.
  assert (∀ ts g, inv cfg g → inv cfg (foldl (λ f t, f <| m_cbGameStatuses ::= <[t := STATUS_INIT]> |>) g ts)) as H.
  { induction ts as [|t ts IH]; intros g Hg; [done|]. apply IH. eapply inv_same_view; [|done]. by split. }
  apply H. eapply inv_same_view; [|done]. by split.
Qed.

(** ** Robots *)

Lemma GetFreeAndroid_inv f a f' : inv cfg f → GetFreeAndroidUserItem f = Some (a, f') →
  inv cfg f' ∧ (∀ t c, seat f' t c ≠ Some a) ∧ may_sit f' a ∧ m_listUsedTable f' = m_listUsedTable f.
Proof.
  intros Hf. unfold GetFreeAndroidUserItem.
  destruct (m_AndroidUserItemFreeList f) as [|a' free] eqn:Efr; [done|]. intros [= -> <-].
  assert (a ∈ m_AndroidUserItemFreeList f) as Ha by (rewrite Efr; set_solver).
  assert (a ∈ androids f) as Ha' by (unfold androids; set_solver).
  split_and!; [|intros t c; by apply (free_android_unseated cfg f)| |done].
  - assert (androids (f <| m_AndroidUserItemUsedList ::= (λ l, l ++ [a]) |> <| m_AndroidUserItemFreeList := free |>)
      ≡ₚ androids f) as Hp.
    { unfold androids. rewrite Efr. cbn. rewrite (assoc_L (++)), (comm (++) _ [a]). done. }
    split; try exact (inv_tables _ _ Hf); try exact (inv_rows _ _ Hf); try exact (inv_users _ _ Hf);
      try exact (inv_lists _ _ Hf); try exact (inv_free_tables _ _ Hf); try exact (inv_loose _ _ Hf);
      try exact (inv_user_kind _ _ Hf); try exact (inv_map _ _ Hf).
    + rewrite Hp. apply (inv_androids _ _ Hf).
    + intros b. rewrite Hp. apply (inv_heap _ _ Hf).
    + intros b. rewrite Hp. apply (inv_android_kind _ _ Hf).
    + intros b b'. rewrite Hp. apply (inv_android_ids _ _ Hf).
    + intros t c b Hb. destruct (inv_seat _ _ Hf _ _ _ Hb) as (H1 & H2 & H3 & Hm).
      split_and!; [done..|]. unfold may_sit in *. cbn.
      change (item (f <| m_AndroidUserItemUsedList ::= _ |> <| m_AndroidUserItemFreeList := _ |>) b) with (item f b).
      destruct (m_isAndroidUser (item f b)); [set_solver|done].
  - unfold may_sit. change (item (f <| m_AndroidUserItemUsedList ::= _ |> <| m_AndroidUserItemFreeList := _ |>) a) with (item f a).
    rewrite (proj1 (inv_android_kind _ _ Hf a Ha')). cbn. set_solver.
Qed.

Lemma seat_android_inv t a f f' : inv cfg f → (∀ t c, seat f t c ≠ Some a) → may_sit f a →
  t ∈ m_listUsedTable f → seat_android cfg t a f = Some f' →
  inv cfg f' ∧ m_listUsedTable f' = m_listUsedTable f.
Proof.
  intros Hf Hout Hm Ht. unfold seat_android. destruct (android_score cfg _) as [z|]; [|done]. cbn.
  intros [= <-]. split; [|by rewrite RoomSitChair_tables].
  assert (∀ i : Item, key (i <| m_userBaseInfo ::= (λ u, u <| userScore := z |>) |>) = key i) as Hk by done.
  apply RoomSitChair_inv; [by eapply inv_same_view; [apply same_view_item|]|done| |done].
  revert Hm. unfold may_sit. by rewrite (item_set_keeps m_isAndroidUser), (item_set_keeps GetUserId).
Qed.

Lemma confrontation_loop_inv n t f f' : inv cfg f → t ∈ m_listUsedTable f →
  confrontation_loop cfg n t f = Some f' → inv cfg f' ∧ m_listUsedTable f' = m_listUsedTable f.
Proof.
  intros Hf Ht. induction n as [|n IH]; cbn; [by intros [= <-]|].
  destruct (GetFreeAndroidUserItem f) as [[a f1]|] eqn:Eg; [|done]. intros Hs.
  apply GetFreeAndroid_inv in Eg as (H1 & Hout & Hm & Hl); [|done].
  apply seat_android_inv in Hs as [H2 H3]; [|done..|by rewrite Hl]. split; [done|congruence].
Qed.

Lemma bairen_loop_inv n t f f' : inv cfg f → t ∈ m_listUsedTable f →
  bairen_loop cfg n t f = Some f' → inv cfg f' ∧ m_listUsedTable f' = m_listUsedTable f.
Proof.
  revert f. induction n as [|n IH]; intros f Hf Ht; cbn; [by intros [= <-]|].
  destruct (GetFreeAndroidUserItem f) as [[a f1]|] eqn:Eg; [|by apply IH].
  apply GetFreeAndroid_inv in Eg as (H1 & Hout & Hm & Hl); [|done].
  destruct (isPlaying _). { intros Hs%IH; [|done|by rewrite Hl]. by rewrite <- Hl. }
  destruct (_ && _); [intros [= <-]; by rewrite Hl|].
  destruct (seat_android cfg t a f1) as [f2|] eqn:Es; [|done]. cbn. intros Hs.
  apply seat_android_inv in Es as [H2 H3]; [|done..|by rewrite Hl].
  apply IH in Hs as [H4 H5]; [|done|by rewrite H3, Hl]. split; [done|congruence].
Qed.

Lemma check_tables_inv choose ts f f' : inv cfg f → (∀ t, t ∈ ts → t ∈ m_listUsedTable f) →
  check_tables cfg choose ts f = Some f' → inv cfg f'.
Proof.
  revert f. induction ts as [|t ts IH]; intros f Hf Ht; cbn [check_tables]; [by intros [= <-]|].
  assert (∀ f1, inv cfg f1 → m_listUsedTable f1 = m_listUsedTable f →
    check_tables cfg choose ts f1 = Some f' → inv cfg f') as Hgo.
  { intros f1 H1 Hl. apply IH; [done|]. intros t' Ht'. rewrite Hl. apply Ht. by right. }
  assert (t ∈ m_listUsedTable f) as Htu by (apply Ht; by left).
  destruct (bool_decide _).
  - destruct (negb _); [by apply Hgo|]. destruct (negb _); [by apply Hgo|].
    destruct (bairen_need cfg t f) as [n|]; [|by apply Hgo]. by intros [? _]%bairen_loop_inv.
  - destruct (_ || _); [by apply Hgo|]. destruct (negb _); [by apply Hgo|].
    destruct (bEnableAndroid cfg); [|by apply Hgo].
    destruct (confrontation_loop _ _ _ _) as [f1|] eqn:Ec; [|done]. cbn.
    apply confrontation_loop_inv in Ec as [H1 H2]; [|done..]. by apply Hgo.
Qed.

Lemma OnTimerCheckUserIn_inv f f' : inv cfg f → OnTimerCheckUserIn cfg f = Some f' → inv cfg f'.
Proof.
  intros Hf. unfold OnTimerCheckUserIn. destruct (bool_decide _); [by intros [= <-]|].
  destruct (m_AndroidUserItemFreeList f); [by intros [= <-]|]. by apply check_tables_inv.
Qed.

(** A robot of the database has an id of its own. *)
Definition new_android (info : UserInfo) (f : Frame) : Prop :=
  0 < userId info ∧ ∀ a, a ∈ androids f → GetUserId (item f a) ≠ userId info.

Lemma AddAndroid_inv info f : inv cfg f → new_android info f → inv cfg (AddAndroid info f).
Proof.
  intros Hf [Hpos Hnew]. set (x := new_item true <| m_userBaseInfo := info |>).
  set (n := length (heap f)). set (f' := AddAndroid info f).
  assert (n ∉ users f ++ androids f) as Hfresh by (intros H%(inv_heap _ _ Hf); unfold n in H; lia).
  assert (∀ b, b ≠ n → item f' b = item f b) as Hi.
  { intros b Hb. unfold item. cbn. destruct (decide (b < n)%nat); [by rewrite lookup_app_l|].
    rewrite lookup_app_r, (lookup_ge_None_2 (heap f)) by (unfold n in *; lia).
    by rewrite lookup_ge_None_2 by (simpl; unfold n in *; lia). }
  assert (item f' n = x) as Hx.
  { unfold item, n. cbn. by rewrite lookup_app_r, Nat.sub_diag by lia. }
  assert (length (heap f') = S n) as Hlen by (cbn; rewrite length_app; simpl; unfold n; lia).
  assert (∀ a, a ∈ users f → a ≠ n) as Hu by (intros a Ha ->; set_solver).
  assert (∀ a, a ∈ androids f → a ≠ n) as Ha by (intros a Ha ->; set_solver).
  assert (androids f' ≡ₚ n :: androids f) as Hp.
  { unfold androids, f', AddAndroid. cbn. rewrite <- (assoc_L (++)). cbn. symmetry. apply Permutation_middle. }
  assert (∀ b, may_sit f b → b ≠ n) as Hm.
  { intros b Hb. unfold may_sit in Hb. destruct (m_isAndroidUser (item f b)).
    - apply Ha. unfold androids. set_solver.
    - apply Hu. unfold users. set_solver. }
  assert (m_isAndroidUser x = true ∧ GetUserId x = userId info ∧ nowhere x) as (X1 & X2 & X3) by done.
  clearbody x.
  split; try exact (inv_tables _ _ Hf); try exact (inv_rows _ _ Hf); try exact (inv_users _ _ Hf);
    try exact (inv_lists _ _ Hf); try exact (inv_free_tables _ _ Hf).
  - rewrite Hp. constructor; [set_solver|apply (inv_androids _ _ Hf)].
  - intros a. rewrite Hp, Hlen. change (users f') with (users f). intros Hin.
    destruct (decide (a = n)) as [->|]; [lia|]. assert (a < n)%nat; [|lia].
    apply (inv_heap _ _ Hf). set_solver.
  - intros a Hin. rewrite Hi by (by apply Hu). by apply (inv_user_kind _ _ Hf).
  - intros a. rewrite Hp. intros [->|Hin]%elem_of_cons; [rewrite Hx, X1, X2; done|].
    rewrite Hi by (by apply Ha). by apply (inv_android_kind _ _ Hf).
  - intros a b. rewrite Hp. intros [->|Hin]%elem_of_cons [->|Hin']%elem_of_cons; [done|..].
    + rewrite Hx, X2, Hi by (by apply Ha). intros Heq. by destruct (Hnew b).
    + rewrite Hx, X2, Hi by (by apply Ha). intros Heq. by destruct (Hnew a).
    + rewrite !Hi by (by apply Ha). by apply (inv_android_ids _ _ Hf).
  - intros t c b Hb. pose proof (inv_seat _ _ Hf t c b Hb) as (H1 & H2 & H3 & H4).
    unfold sits, may_sit in *. rewrite Hi by (by apply Hm). done.
  - intros u b Hb. destruct (inv_map _ _ Hf u b Hb) as [H1 H2].
    rewrite Hi by (apply Hu; unfold users; set_solver). done.
  - intros b. destruct (decide (b = n)) as [->|Hb]; [left; by rewrite Hx|].
    rewrite Hi by done. apply (inv_loose _ _ Hf).
Qed.

End Steps.

(** ** Reachable states *)

(** The events of a run: an id is a positive [int] (the assumption the code makes in
    [DeleteUserItem]), the document of a user has his id, a robot is new. *)
Definition valid_event (e : Event) (f : Frame) : Prop :=
  match e with
  | EEnter q => 0 < q_userId q < 2147483648 ∧ ∀ info, q_info q = Some info → userId info = q_userId q
  | EAndroid info => new_android info f
  | _ => True
  end.

Inductive step (cfg : Config) : Frame → Frame → Prop :=
  | step_event (E : Env) e f f' : valid_event e f → exec cfg e f = Some f' → step cfg f f'.

Definition reachable (cfg : Config) (f : Frame) : Prop :=
  ∃ status, rtc (step cfg) (InitAllTable cfg status) f.

Lemma exec_inv cfg {E : Env} e f f' : config_ok cfg → inv cfg f → valid_event e f →
  exec cfg e f = Some f' → inv cfg f'.
Proof.
  intros Hcfg Hf Hv. destruct e; cbn [exec valid_event] in *; intros He; simplify_eq.
  - destruct Hv. by apply cmd_enter_room_inv.
  - by apply cmd_user_left_inv.
  - by apply cmd_user_offline_inv.
  - by apply cmd_game_message_inv.
  - by eapply OnTimerCheckUserIn_inv.
  - by apply run_acts_inv.
  - by apply AddAndroid_inv.
  - by apply KickAllTableUser_inv.
Qed.

Lemma frame_reachable_inv cfg f : config_ok cfg → reachable cfg f → inv cfg f.
Proof.
  intros Hcfg [status Hr]. pose proof (inv_init cfg status) as H. revert H.
  induction Hr as [|f g h [E e f' g' Hv He] _ IH]; [done|]. intros Hf. apply IH. by eapply exec_inv.
Qed.
