(* ===== verification/FrameProps.v ===== *)
(** What the frame promises: a user has one seat and the server finds him there, a user
    who comes back keeps his seat, a user who is given a table gets a chair, a playing
    user is not moved; and what happens to ids that are not an [int]. *)
From Stdlib Require Import String.
From stdpp Require Import base list numbers option gmap strings pretty relations.
From Stdlib Require Import ZArith Lia.
From S2P Require Import Prelude GameDefine Frame FrameInv FrameSteps.

#[local] Open Scope Z_scope.
#[local] Abbreviation length := List.length.

(** ** A small room *)

Definition demo_config : Config :=
  MkConfig Confrontation 8 80 3 2 0 0 (λ _, false) true 0 0 [MkArea 1000 100 200].

(** A game that lets everyone in and out and does nothing else. *)
Definition demo_env : Env := {|
  sink_CanJoinTable := λ _ _, true; sink_CanLeftTable := λ _ _, true;
  sink_OnUserEnter := λ _ _, []; sink_OnUserLeft := λ _ _, ([AClearTableUser 0], true);
  sink_OnGameMessage := λ _ _, []; redis_GetMatchBlockList := λ _, None;
  rand_seat := λ _ _, 0; rand_area := λ _, 0; rand_score := λ _, 0; rand_table := 0;
  android_quota := λ _ n, n |}.

Definition demo_request (user : Z) : Request :=
  MkRequest user INVALID_TABLE 0 true true (Some true) None true
    (Some (MkInfo user 1000 0 "" 0 0)) false [] None.

Definition demo_event (user : Z) : Event := EEnter (demo_request user).

(** A run under one environment; [None]: an event had no result. *)
Definition run (cfg : Config) (E : Env) (es : list Event) (f : Frame) : option Frame :=
  foldl (λ o e, f ← o; exec cfg e f) (Some f) es.

Definition demo_run (es : list Event) : Frame :=
  default (InitAllTable demo_config SERVER_RUNNING)
    (run demo_config demo_env es (InitAllTable demo_config SERVER_RUNNING)).

(** User 7 at table 0, chair 0; user 9 next to him. *)
Definition demo : Frame := Eval vm_compute in demo_run [demo_event 7; demo_event 9].

Lemma demo_ok : config_ok demo_config.
Proof. unfold config_ok. simpl. lia. Qed.

Lemma demo_valid user f : 0 < user < 2147483648 → valid_event (demo_event user) f.
Proof. intros H. split; [done|]. by intros info [= <-]. Qed.

Lemma demo_reachable : reachable demo_config demo.
Proof.
  exists SERVER_RUNNING.
  eapply rtc_l; [eapply (step_event _ demo_env); [apply (demo_valid 7); lia|reflexivity]|].
  eapply rtc_l; [eapply (step_event _ demo_env); [apply (demo_valid 9); lia|reflexivity]|].
  apply rtc_refl.
Qed.

(** ** One seat for a user *)

(** The item is in use, and no free one: which list, tells its kind. *)
Definition in_use (f : Frame) (a : nat) : Prop :=
  if m_isAndroidUser (item f a)
  then a ∈ m_AndroidUserItemUsedList f ∧ a ∉ m_AndroidUserItemFreeList f
  else a ∈ m_UsedUserItemList f ∧ a ∉ m_FreeUserItemList f.

Lemma seated_in_use cfg f t c a : inv cfg f → seat f t c = Some a → in_use f a.
Proof.
  intros Hf Ha. destruct (inv_seat _ _ Hf _ _ _ Ha) as (_ & _ & _ & Hm). unfold may_sit, in_use in *.
  destruct (m_isAndroidUser (item f a)) eqn:E; (split; [apply Hm|]); intros Hin.
  - by apply (free_android_unseated cfg f a t c Hf Hin).
  - by apply (free_unseated cfg f a t c Hf Hin).
Qed.

(** A table with someone at it is a used table, and no free one. *)
Lemma seated_table cfg f t c a : inv cfg f → seat f t c = Some a →
  t ∈ m_listUsedTable f ∧ t ∉ m_listFreeTable f.
Proof.
  intros Hf Ha. assert (t ∉ m_listFreeTable f) as Hn.
  { intros Hin. by rewrite (inv_free_tables _ _ Hf t c Hin) in Ha. }
  split; [|done]. destruct (seat_lt _ _ _ _ Ha) as [Ht _]. rewrite (inv_tables _ _ Hf) in Ht.
  assert (t ∈ m_listUsedTable f ++ m_listFreeTable f) as Hin.
  { rewrite (inv_lists _ _ Hf). apply elem_of_seq. lia. }
  apply elem_of_app in Hin as [?|?]; done.
Qed.

(** C2. In every reachable state of the server, whatever the games and the services
    answer: the item in a seat has the number of its table and chair and the id of a
    user; it is in the list of the used items of its kind and not in the free one, and
    its table in the list of the used tables and not in the free one; the user map finds
    a real user in his seat; and no two seats have the same user, nor two robots with
    one id.  A run is one in which the users who enter have ids from 1 to 2^31 - 1 and
    their documents carry the id of the request, and the robots of the database are new
    ([valid_event]); there are at most 65535 tables and from 1 to 65535 chairs
    ([config_ok]).  What a wider id does is shown by [wide_id_two_seats]. *)
Theorem reachable_seats cfg f t c a : config_ok cfg → reachable cfg f → seat f t c = Some a →
  m_tableId (item f a) = Z.of_nat t ∧ m_chairId (item f a) = Z.of_nat c ∧ 0 < GetUserId (item f a) ∧
  (if m_isAndroidUser (item f a)
   then a ∈ m_AndroidUserItemUsedList f ∧ a ∉ m_AndroidUserItemFreeList f
   else a ∈ m_UsedUserItemList f ∧ a ∉ m_FreeUserItemList f) ∧
  (t ∈ m_listUsedTable f ∧ t ∉ m_listFreeTable f) ∧
  (m_isAndroidUser (item f a) = false → FindUserItem (GetUserId (item f a)) f = Some a) ∧
  ∀ t' c' b, seat f t' c' = Some b →
    m_isAndroidUser (item f b) = m_isAndroidUser (item f a) →
    GetUserId (item f b) = GetUserId (item f a) → (t', c', b) = (t, c, a).
Proof.
  intros Hcfg Hr Ha. pose proof (frame_reachable_inv _ _ Hcfg Hr) as Hf.
  destruct (inv_seat _ _ Hf _ _ _ Ha) as (H1 & H2 & H3 & Hm). do 3 (split; [done|]).
  split; [by eapply seated_in_use|]. split; [by eapply seated_table|]. split.
  - intros Hk. unfold may_sit in Hm. rewrite Hk in Hm. apply Hm.
  - intros t' c' b Hb Hk Hu. destruct (inv_seat _ _ Hf _ _ _ Hb) as (_ & _ & _ & Hm').
    assert (b = a) as ->; [|by rewrite (seat_unique _ _ _ _ _ _ _ Hf Ha Hb)].
    destruct (m_isAndroidUser (item f a)) eqn:Ea; [|by apply (may_sit_inj f b a)].
    unfold may_sit in Hm, Hm'. rewrite Ea in Hm. rewrite Hk in Hm'.
    apply (inv_android_ids _ _ Hf); [unfold androids; set_solver..|done].
Qed.

Lemma reachable_seats_witness : FindUserItem 7 demo = Some 0%nat ∧
  m_chairId (item demo 0) = 0.
Proof.
  destruct (reachable_seats demo_config demo 0 0 0 demo_ok demo_reachable) as (_ & H1 & _ & _ & _ & H2 & _);
    [reflexivity|]. split; [exact (H2 eq_refl)|exact H1].
Defined.

(** ** Coming back *)

Lemma may_meet_heap cfg {E : Env} me f g row : heap g = heap f → may_meet cfg me g row = may_meet cfg me f row.
Proof.
  intros H. induction row as [|[a|] row IH]; cbn; [done| |done]. unfold item. by rewrite H, IH.
Qed.

Lemma CanJoinTable_view cfg {E : Env} t me f g : heap g = heap f → m_UserLists g = m_UserLists f →
  serverStatus g = serverStatus f → CanJoinTable cfg t me g = CanJoinTable cfg t me f.
Proof.
  intros H1 H2 H3. unfold CanJoinTable, seats. by rewrite H2, H3, (may_meet_heap cfg me f g).
Qed.

(** Reconnection: a seated user who enters the room again gets no new item and no
    other seat.  When the game of his table lets him in, he is off trusteeship and the
    game is told; otherwise he is told that the game is over.  Nothing else changes. *)
Theorem reenter_keeps_seat cfg {E : Env} f q t c a :
  config_ok cfg → reachable cfg f → seat f t c = Some a →
  m_isAndroidUser (item f a) = false → q_userId q = GetUserId (item f a) →
  q_currency q = true → q_online q = true → q_password q = Some true →
  let f1 := f <| m_UserIdProxyConnectionInfoMap ::= (.∪ {[q_userId q]}) |> in
  cmd_enter_room cfg q f =
    if CanJoinTable cfg t (item f a) f then
      (None, run_acts cfg t (sink_OnUserEnter t (q_userId q))
        (set_item a (λ i, i <| m_trustShip := false |> <| m_bClientReady := true |>) f1))
    else (Some ERROR_ENTERROOM_GAME_IS_END, f1).
Proof.
  intros Hcfg Hr Ha Hk Hu Q1 Q2 Q3 f1. pose proof (frame_reachable_inv _ _ Hcfg Hr) as Hf.
  destruct (inv_seat _ _ Hf _ _ _ Ha) as (H1 & H2 & H3 & Hm). unfold may_sit in Hm. rewrite Hk in Hm.
  destruct Hm as (_ & Hm & _). destruct (seat_lt _ _ _ _ Ha) as [Ht Hc].
  unfold cmd_enter_room. rewrite Q1, Q2, Q3. cbn [negb]. fold f1.
  assert (seated_item (q_userId q) f1 = Some a) as ->.
  { unfold seated_item, FindUserItem. change (m_UserMap f1) with (m_UserMap f). rewrite Hu, Hm.
    change (item f1 a) with (item f a). by rewrite (seated_valid _ _ _ _ _ Hcfg Hf Ha). }
  assert (∀ g, m_UserLists g = m_UserLists f → GetTable (m_tableId (item f a)) g = Some t) as Hg.
  { intros g Hg. unfold GetTable. rewrite Hg, H1, Nat2Z.id.
    destruct (Z.ltb_spec (Z.of_nat t) (Z.of_nat (length (m_UserLists f)))); [done|lia]. }
  unfold reenter. change (item f1 a) with (item f a). rewrite (Hg f1) by done.
  rewrite (CanJoinTable_view cfg t (item f a) f f1) by done.
  destruct (CanJoinTable _ _ _ _); [|done].
  unfold SwitchUserItem. change (item f1 a) with (item f a).
  replace ((GetUserId (item f a) <=? 0) || (m_chairId (item f a) =? INVALID_CHAIR)) with false.
  2: { symmetry. apply orb_false_iff. split; [apply Z.leb_gt; lia|]. apply Z.eqb_neq.
       destruct Hcfg as [_ ?]. rewrite (inv_tables _ _ Hf) in Ht. rewrite (inv_rows _ _ Hf) in Hc by done.
       unfold INVALID_CHAIR. lia. }
  rewrite Hg by done. unfold OnUserEnterAction. rewrite (item_set_keeps GetUserId) by done.
  change (item f1 a) with (item f a). by rewrite Hu.
Qed.

Lemma reenter_keeps_seat_witness : fst (@cmd_enter_room demo_config demo_env (demo_request 7) demo) = None.
Proof.
  rewrite (@reenter_keeps_seat demo_config demo_env demo (demo_request 7) 0 0 0 demo_ok demo_reachable);
    [reflexivity..].
Defined.

(** ** A table means a chair *)

Lemma filter_length_lt {A} (P : A → Prop) `{!∀ x, Decision (P x)} (l : list A) :
  (length (filter P l) < length l)%nat → ∃ x, x ∈ l ∧ ¬ P x.
Proof.
  induction l as [|x l IH]; simpl; [lia|]. destruct (decide (P x)) as [Hx|Hx].
  - rewrite filter_cons_True by done. simpl. intros Hlt. destruct IH as (y & ? & ?); [lia|].
    exists y. split; [by right|done].
  - intros _. exists x. split; [by left|done].
Qed.

Lemma free_place cfg t f : (GetPlayerCount cfg true t f < maxPlayerNum cfg)%nat →
  ∃ c, (c < maxPlayerNum cfg)%nat ∧ seat f t c = None.
Proof.
  unfold GetPlayerCount, count_chairs. intros H.
  destruct (filter_length_lt (λ c, match seat f t c with
    | Some a => if m_isAndroidUser (item f a) then true else true | None => false end = true)
    (seq 0 (maxPlayerNum cfg))) as (c & Hc & Hs).
  { by rewrite length_seq. }
  exists c. apply elem_of_seq in Hc. split; [lia|]. destruct (seat f t c) as [a|]; [|done].
  exfalso. apply Hs. by destruct (m_isAndroidUser (item f a)).
Qed.

(** The search for a chair goes round the whole table. *)
Lemma free_chair_total cfg t startIndex f c : (c < maxPlayerNum cfg)%nat → seat f t c = None →
  is_Some (free_chair cfg t startIndex f).
Proof.
  intros Hc Hs. unfold free_chair. set (n := maxPlayerNum cfg) in *.
  destruct (filter _ _) as [|x l] eqn:E; [|done].
  assert (c ∈ @nil nat) as Hin; [|by apply not_elem_of_nil in Hin].
  rewrite <- E. apply list_elem_of_filter. split; [done|]. apply list_elem_of_fmap.
  exists ((c + (n - startIndex mod n)) mod n)%nat. split.
  - rewrite Nat.Div0.add_mod_idemp_r.
    pose proof (Nat.div_mod_eq startIndex n) as Hd. pose proof (Nat.mod_upper_bound startIndex n ltac:(lia)).
    replace (startIndex + (c + (n - startIndex mod n)))%nat with (c + (1 + startIndex / n) * n)%nat by lia.
    rewrite Nat.Div0.mod_add. by rewrite Nat.mod_small.
  - apply elem_of_seq. pose proof (Nat.mod_upper_bound (c + (n - startIndex mod n)) n ltac:(lia)). lia.
Qed.

(** The part of the invariant the way to a chair needs. *)
Record shape (cfg : Config) (f : Frame) : Prop := {
  sh_tables : length (m_UserLists f) = tableCount cfg;
  sh_rows : ∀ t, (t < tableCount cfg)%nat → length (seats f t) = maxPlayerNum cfg;
  sh_lists : ∀ t, t ∈ m_listUsedTable f ++ m_listFreeTable f → (t < tableCount cfg)%nat;
  sh_free_tables : ∀ t c, t ∈ m_listFreeTable f → seat f t c = None
}.

Lemma inv_shape cfg f : inv cfg f → shape cfg f.
Proof.
  intros Hf. split; try by apply Hf. intros t. rewrite (inv_lists _ _ Hf). intros Ht%elem_of_seq. lia.
Qed.

Section Outcome.
Context (cfg : Config) {E : Env} (Hcfg : config_ok cfg).

(** The table that is found has a free chair, and nobody has moved. *)
Lemma FindNormalSuitTable_chair a ex en f t f' : shape cfg f →
  FindNormalSuitTable cfg a ex en f = (Some t, f') →
  (t < tableCount cfg)%nat ∧ (∃ c, (c < maxPlayerNum cfg)%nat ∧ seat f' t c = None) ∧
  ∃ used free, f' = f <| m_listUsedTable := used |> <| m_listFreeTable := free |>.
Proof.
  intros Hf. unfold FindNormalSuitTable.
  destruct (list_find _ (m_listUsedTable f)) as [[i t']|] eqn:E1.
  { intros [= -> <-]. apply list_find_Some in E1 as (Hi & Hs & _). apply list_elem_of_lookup_2 in Hi.
    unfold suits in Hs. apply andb_true_iff in Hs as [Hs _]. apply andb_true_iff in Hs as [_ Hs].
    apply Nat.ltb_lt in Hs. split; [apply (sh_lists _ _ Hf); set_solver|]. split; [by apply free_place|].
    exists (m_listUsedTable f), (m_listFreeTable f). by destruct f. }
  assert (∀ i t', m_listFreeTable f !! i = Some t' → use_table i t' f = (Some t, f') →
    (t < tableCount cfg)%nat ∧ (∃ c, (c < maxPlayerNum cfg)%nat ∧ seat f' t c = None) ∧
    ∃ used free, f' = f <| m_listUsedTable := used |> <| m_listFreeTable := free |>) as Huse.
  { intros i t' Hi [= -> <-]. apply list_elem_of_lookup_2 in Hi. split; [apply (sh_lists _ _ Hf); set_solver|].
    split; [|by do 2 eexists]. exists 0%nat. split; [destruct Hcfg; lia|].
    by apply (sh_free_tables _ _ Hf t 0). }
  destruct (if en =? INVALID_TABLE then _ else _) as [[i t']|] eqn:E2.
  { destruct (en =? INVALID_TABLE); [done|]. apply list_find_Some in E2 as (Hi & _). by eapply Huse. }
  destruct (m_listFreeTable f) as [|t' free] eqn:E3; [done|]. by apply (Huse 0%nat).
Qed.

Lemma FindNormalSuitTable_none a ex en f f' : FindNormalSuitTable cfg a ex en f = (None, f') →
  f' = f ∧ m_listFreeTable f = [] ∧ ∀ t, t ∈ m_listUsedTable f → suits cfg a ex en f t = false.
Proof.
  unfold FindNormalSuitTable. destruct (list_find _ (m_listUsedTable f)) as [[i t]|] eqn:E1; [done|].
  destruct (if en =? INVALID_TABLE then _ else _) as [[i t]|]; [done|].
  destruct (m_listFreeTable f); [|done]. intros [= <-]. split; [done|]. split; [done|].
  intros t Ht. apply list_find_None in E1. rewrite Forall_forall in E1. specialize (E1 t Ht).
  by destruct (suits _ _ _ _ _ _).
Qed.

(** What [RoomSitChair] does when the table has a free chair: [g] is the state the
    game of the table is told about. *)
Lemma RoomSitChair_sits t a f c0 : length (m_UserLists f) = tableCount cfg →
  length (seats f t) = maxPlayerNum cfg → (t < tableCount cfg)%nat → (a < length (heap f))%nat →
  0 < GetUserId (item f a) → (c0 < maxPlayerNum cfg)%nat → seat f t c0 = None →
  ∃ c g, (c < maxPlayerNum cfg)%nat ∧ seat f t c = None ∧ seat g t c = Some a ∧
    GetUserId (item g a) = GetUserId (item f a) ∧ m_userStatus (item g a) = sSit ∧
    (∀ t' c', (t', c') ≠ (t, c) → seat g t' c' = seat f t' c') ∧
    (∀ b, b ≠ a → item g b = item f b) ∧ fst (RoomSitChair cfg t a f) = true ∧
    let f' := snd (RoomSitChair cfg t a f) in
    let h := run_acts cfg t (sink_OnUserEnter t (GetUserId (item f a))) g in
    heap f' = heap h ∧ m_UserLists f' = m_UserLists h.
Proof.
  intros Hl Hrow Ht Ha Hid Hc0 Hn. unfold RoomSitChair.
  replace (GetUserId (item f a) <=? 0) with false by (symmetry; by apply Z.leb_gt).
  match goal with |- context [free_chair cfg t ?s f] =>
    destruct (free_chair_total cfg t s f c0 Hc0 Hn) as [c Ec]; rewrite Ec end.
  apply (free_chair_some cfg Hcfg) in Ec as [Hc Hs].
  match goal with |- context [OnUserEnterAction cfg t a ?g] => set (g0 := g); exists c, g0 end.
  assert (GetUserId (item g0 a) = GetUserId (item f a)) as Hu.
  { unfold g0. rewrite (item_set_keeps GetUserId) by done.
    apply (item_set_keeps GetUserId a (sit_at t c)). done. }
  split; [done|]. split; [done|]. split_and!.
  - apply seat_set_eq; cbn; [by rewrite Hl|].
    change (c < length (seats f t))%nat. by rewrite Hrow.
  - done.
  - unfold g0. rewrite item_set_eq; [done|]. cbn. by rewrite length_alter.
  - intros t' c' Hne. unfold g0.
    by apply (seat_set_ne t c (Some a) (set_item a (sit_at t c) f)).
  - intros b Hb. unfold g0. rewrite item_set_ne by done. by apply (item_set_ne a).
  - done.
  - cbn [snd]. unfold OnUserEnterAction. rewrite Hu. by destruct (negb _).
  - cbn [snd]. unfold OnUserEnterAction. rewrite Hu. by destruct (negb _).
Qed.

End Outcome.

(** Entering the room, after the checks, from every reachable state.  Without an
    error the user has been given a free chair of a table, with status [sSit], no other
    seat has changed, and what follows is what the game does when it is told.  With
    an error it is the full room: no table is free, no used table suits; the user then
    has no seat, but his item stays in use and in the map. *)
Theorem enter_new_outcome cfg {E : Env} q info f : config_ok cfg → reachable cfg f →
  seated_item (q_userId q) f = None → userId info = q_userId q → 0 < q_userId q < 2147483648 →
  let a := fst (GetUserItem (q_userId q) f) in
  let f' := snd (enter_new cfg q info f) in
  match fst (enter_new cfg q info f) with
  | None => ∃ t c g, (t < tableCount cfg)%nat ∧ (c < maxPlayerNum cfg)%nat ∧
      seat f t c = None ∧ seat g t c = Some a ∧ GetUserId (item g a) = q_userId q ∧
      m_userStatus (item g a) = sSit ∧ (∀ t' c', (t', c') ≠ (t, c) → seat g t' c' = seat f t' c') ∧
      let h := run_acts cfg t (sink_OnUserEnter t (q_userId q)) g in
      heap f' = heap h ∧ m_UserLists f' = m_UserLists h
  | Some e => e = ERROR_ENTERROOM_TABLE_FULL ∧ m_listFreeTable f = [] ∧
      (∀ t, t ∈ m_listUsedTable f → suits cfg a INVALID_TABLE (q_tableId q)
        (set_item a (fill_item cfg q info) (snd (GetUserItem (q_userId q) f))) t = false) ∧
      (∀ t c, seat f' t c = seat f t c) ∧ a ∈ m_UsedUserItemList f' ∧
      FindUserItem (q_userId q) f' = Some a
  end.
Proof.
  intros Hcfg Hr Hn Hid Hu. pose proof (frame_reachable_inv _ _ Hcfg Hr) as Hf.
  pose proof (acquire_inv cfg q info f Hcfg Hf Hn Hid Hu) as Ha. unfold enter_new.
  assert (m_UserLists (snd (GetUserItem (q_userId q) f)) = m_UserLists f ∧
    m_listFreeTable (snd (GetUserItem (q_userId q) f)) = m_listFreeTable f ∧
    m_listUsedTable (snd (GetUserItem (q_userId q) f)) = m_listUsedTable f ∧
    m_UserMap (snd (GetUserItem (q_userId q) f)) !! q_userId q = Some (fst (GetUserItem (q_userId q) f)))
    as (L1 & L2 & L3 & L4).
  { unfold GetUserItem. destruct (m_FreeUserItemList f); cbn; rewrite lookup_insert_eq; done. }
  destruct (GetUserItem (q_userId q) f) as [a f1]. cbn [fst snd] in *.
  destruct Ha as (H2 & Hm & Hout & Hau). set (f2 := set_item a (fill_item cfg q info) f1) in *.
  assert (∀ t c, seat f2 t c = seat f t c) as Hs2.
  { intros t c. unfold seat, seats. change (m_UserLists f2) with (m_UserLists f1). by rewrite L1. }
  destruct (inv_map _ _ H2 (q_userId q) a L4) as [Hused _].
  destruct (FindNormalSuitTable cfg a INVALID_TABLE (q_tableId q) f2) as [[t|] f3] eqn:Ef; cbn [fst snd].
  - destruct (FindNormalSuitTable_chair cfg Hcfg _ _ _ _ _ _ (inv_shape _ _ H2) Ef) as (Ht & (c0 & Hc0 & Hs0) & _).
    apply FindNormalSuitTable_ok in Ef as (H3 & _ & used & free & E3); [|done..].
    assert (∀ t c, seat f3 t c = seat f t c) as Hs3 by (intros; rewrite E3; apply Hs2).
    assert (∀ b, item f3 b = item f2 b) as Hi3 by (intros; by rewrite E3).
    destruct (RoomSitChair_sits cfg Hcfg t a f3 c0) as (c & g & Hc & S1 & S2 & Su & S3 & S4 & S5 & _ & S6); try done.
    { by apply (inv_tables _ _ H3). }
    { by apply (inv_rows _ _ H3). }
    { apply (inv_heap _ _ H3). unfold users. rewrite E3. set_solver. }
    { rewrite Hi3, Hau. lia. }
    rewrite Hi3, Hau in S6, Su. exists t, c, g. split_and!; try done.
    + by rewrite <- Hs3.
    + intros t' c' Hne. by rewrite S4, Hs3.
    + apply S6.
    + apply S6.
  - apply FindNormalSuitTable_none in Ef as (-> & F1 & F2).
    split; [done|]. split; [by rewrite <- L2|]. split; [intros t Ht; apply F2; by rewrite <- L3 in Ht|].
    split; [exact Hs2|]. split; [exact Hused|exact L4].
Qed.

Lemma enter_new_outcome_witness :
  fst (@enter_new demo_config demo_env (demo_request 11) (MkInfo 11 1000 0 "" 0 0) demo) = None ∧
  ∃ t c g, seat demo t c = None ∧ seat g t c = Some 2%nat.
Proof.
  split; [reflexivity|].
  destruct (@enter_new_outcome demo_config demo_env (demo_request 11) (MkInfo 11 1000 0 "" 0 0) demo
    demo_ok demo_reachable eq_refl eq_refl) as (t & c & g & _ & _ & H1 & H2 & _); [simpl; lia|].
  exists t, c, g. split; [exact H1|exact H2].
Defined.

(** ** Ids that are not an [int] *)

(** The request of a user who passes the checks of [cmd_enter_room]. *)
Definition accepted (cfg : Config) (q : Request) (info : UserInfo) : Prop :=
  q_currency q = true ∧ q_online q = true ∧ q_password q = Some true ∧
  CheckUserCanEnterRoom cfg (q_place q) (q_tableId q) = true ∧ q_conn q = true ∧ q_info q = Some info ∧
  (0 <? enterMinScore cfg) && (userScore info <? enterMinScore cfg) = false ∧
  (0 <? enterMaxScore cfg) && (enterMaxScore cfg <? userScore info) = false.

Lemma accepted_enters cfg {E : Env} q info f : accepted cfg q info → seated_item (q_userId q) f = None →
  cmd_enter_room cfg q f =
    enter_new cfg q info (f <| m_UserIdProxyConnectionInfoMap ::= (.∪ {[q_userId q]}) |>).
Proof.
  intros (H1 & H2 & H3 & H4 & H5 & H6 & H7 & H8) Hs. unfold cmd_enter_room, enter_checked.
  rewrite H1, H2, H3, H4, H5, H6, H7, H8. cbn [negb].
  by replace (seated_item _ _) with (@None nat).
Qed.

Lemma RoomSitChair_map cfg {E : Env} t a f : sink_OnUserEnter t (GetUserId (item f a)) = [] →
  m_UserMap (snd (RoomSitChair cfg t a f)) = m_UserMap f.
Proof.
  intros He. unfold RoomSitChair. destruct (_ <=? _); [done|].
  destruct (free_chair _ _ _ _) as [c|]; [|done]. cbn [snd]. unfold OnUserEnterAction.
  match goal with |- context [run_acts cfg t (sink_OnUserEnter t (GetUserId (item ?g a))) ?g] =>
    replace (GetUserId (item g a)) with (GetUserId (item f a)) end.
  { rewrite He. by destruct (negb _). }
  symmetry. rewrite (item_set_keeps GetUserId) by done. by apply (item_set_keeps GetUserId a (sit_at t c)).
Qed.

(** A user enters while the last freed item is [b]: he sits with [b], and the seat of [a]
    is another one. *)
Lemma enter_freed cfg {E : Env} q info f u free t c a b : config_ok cfg → shape cfg f → 0 < u →
  seat f t c = Some a → GetUserId (item f a) = u → b ≠ a → (b < length (heap f))%nat →
  m_FreeUserItemList f = b :: free → m_listFreeTable f ≠ [] → (∀ t', sink_OnUserEnter t' u = []) →
  q_userId q = u → userId info = u →
  let '(e, f2) := enter_new cfg q info f in
  e = None ∧ seat f2 t c = Some a ∧ GetUserId (item f2 a) = u ∧ FindUserItem u f2 = Some b ∧
  ∃ t' c', seat f2 t' c' = Some b ∧ (t', c') ≠ (t, c) ∧ GetUserId (item f2 b) = u.
Proof.
  intros Hcfg Hf Hu Ha Hau Hab Hb Hfl Htf He Hq Hi. unfold enter_new, GetUserItem. rewrite Hfl, Hq.
  match goal with |- context [FindNormalSuitTable cfg b _ _ ?g] => set (f1 := g) end.
  assert (shape cfg f1) as H1 by (split; apply Hf).
  assert (∀ x, x ≠ b → item f1 x = item f x) as I1.
  { intros x Hx. unfold f1. rewrite item_set_ne by done. etrans; [|by apply (item_set_ne b x ResetUserItem)].
    done. }
  assert (GetUserId (item f1 b) = u) as Ib.
  { unfold f1. rewrite item_set_eq; [done|]. cbn. by rewrite length_alter. }
  assert (m_UserMap f1 !! u = Some b) as Hm by (apply lookup_insert_eq).
  destruct (FindNormalSuitTable cfg b INVALID_TABLE (q_tableId q) f1) as [[t1|] f2] eqn:Ef.
  2: { exfalso. by apply FindNormalSuitTable_none in Ef as (_ & Hno & _). }
  apply FindNormalSuitTable_chair in Ef as (Ht1 & (c0 & Hc0 & Hs0) & used & fr & ->); [|done..].
  match goal with |- context [RoomSitChair cfg t1 b ?g] => set (f2 := g) in * end.
  assert (∀ x, item f2 x = item f1 x) as I2 by done.
  assert (∀ t' c', seat f2 t' c' = seat f t' c') as S2 by done.
  destruct (RoomSitChair_sits cfg Hcfg t1 b f2 c0) as (c1 & g & Hc1 & S3 & S4 & Su & _ & S5 & S6 & _ & S7 & S8).
  - apply Hf.
  - by apply (sh_rows _ _ Hf).
  - done.
  - cbn. by rewrite !length_alter.
  - by rewrite I2, Ib.
  - done.
  - done.
  - rewrite I2, Ib, He in S7, S8. cbn in S7, S8. split; [done|].
    pose proof (RoomSitChair_map cfg t1 b f2) as Hmap. rewrite I2, Ib, He in Hmap. specialize (Hmap eq_refl).
    set (f3 := snd (RoomSitChair cfg t1 b f2)) in *.
    assert (∀ x, item f3 x = item g x) as I3 by (intros; unfold item; by rewrite S7).
    assert (∀ t' c', seat f3 t' c' = seat g t' c') as S9 by (intros; unfold seat, seats; by rewrite S8).
    assert ((t, c) ≠ (t1, c1)) as Hne by (intros [= <- <-]; rewrite S2 in S3; congruence).
    rewrite S9, S5, S2 by done. split; [done|]. split; [by rewrite I3, S6, I2, I1|].
    split; [by unfold FindUserItem; rewrite Hmap|].
    exists t1, c1. rewrite S9. split; [done|]. split; [congruence|]. by rewrite I3, Su, I2.
Qed.

(** What clearing the chair of a real user who does not play leaves: the key that goes
    from the map is the id as an [int]. *)
Lemma ClearTableUser_wide cfg f t c b : config_ok cfg → shape cfg f → seat f t c = Some b →
  b ∈ m_UsedUserItemList f → m_isAndroidUser (item f b) = false → isPlaying (item f b) = false →
  m_chairId (item f b) = Z.of_nat c → GetUserId (item f b) ≠ 0 →
  let f1 := run_act cfg t f (AClearTableUser (Z.of_nat c)) in
  shape cfg f1 ∧ m_UserMap f1 = delete (i32 (GetUserId (item f b))) (m_UserMap f) ∧
  m_FreeUserItemList f1 = b :: m_FreeUserItemList f ∧ m_listFreeTable f1 = m_listFreeTable f ∧
  length (heap f1) = length (heap f) ∧ (∀ a, a ≠ b → item f1 a = item f a) ∧
  ∀ t' c', seat f1 t' c' = if decide ((t', c') = (t, c)) then None else seat f t' c'.
Proof.
  intros Hcfg Hf Hb Hu Hk Hp Hc Hid. destruct (seat_lt _ _ _ _ Hb) as [Ht Hlt].
  rewrite (sh_tables _ _ Hf) in Ht. rewrite (sh_rows _ _ Hf) in Hlt by done. destruct Hcfg as [_ Hcfg].
  cbn [run_act]. unfold ClearTableUser, GetTableUserItem. rewrite Nat2Z.id, Hb.
  replace (negb (Z.of_nat c =? INVALID_CHAIR) && (Z.of_nat c <? Z.of_nat (maxPlayerNum cfg))) with true.
  2: { symmetry. rewrite andb_true_iff, negb_true_iff, Z.eqb_neq, Z.ltb_lt. unfold INVALID_CHAIR. lia. }
  replace ((0 <=? Z.of_nat c) && (Z.of_nat c <? Z.of_nat (maxPlayerNum cfg))) with true.
  2: { symmetry. rewrite andb_true_iff, Z.leb_le, Z.ltb_lt. lia. }
  unfold OnUserStandup. rewrite Hp, Hk, Hc, Nat2Z.id.
  replace ((Z.of_nat c =? INVALID_CHAIR) || (GetUserId (item f b) =? 0)) with false.
  2: { symmetry. rewrite orb_false_iff, !Z.eqb_neq. unfold INVALID_CHAIR. lia. }
  cbn [negb snd].
  match goal with |- context [DeleteUserItem b ?g] => destruct (DeleteUserItem_used b g Hu) as (i & Hi & ->) end.
  match goal with |- context [set_item b (λ _, _) ?g] => set (g1 := g) end.
  match goal with |- context [set_item b ?h g1] => set (g2 := set_item b h g1);
    assert (∀ a, a ≠ b → item g2 a = item f a) as Hi2 by (intros a Ha; unfold g2;
      rewrite item_set_ne by done; unfold g1; by rewrite item_set_ne) end.
  assert (m_UserLists g2 = m_UserLists f) as L2 by done.
  assert (∀ t' c', seat g2 t' c' = seat f t' c') as S2 by (intros; unfold seat, seats; by rewrite L2).
  replace (Z.of_nat c <? Z.of_nat (length (seats g2 t))) with true.
  2: { symmetry. apply Z.ltb_lt. unfold seats. rewrite L2. fold (seats f t). rewrite (sh_rows _ _ Hf); lia. }
  assert (∀ t' c', seat (set_seat t c None g2) t' c' =
    if decide ((t', c') = (t, c)) then None else seat f t' c') as S3.
  { intros t' c'. rewrite seat_set_None, S2. done. }
  split; [|split_and!; try done].
  - split.
    + cbn. rewrite length_alter. apply (sh_tables _ _ Hf).
    + intros t' Ht'. rewrite <- (sh_rows _ _ Hf t' Ht'). unfold seats. cbn.
      destruct (decide (t = t')) as [->|]; [|by rewrite list_lookup_alter_ne].
      rewrite list_lookup_alter_eq. destruct (m_UserLists f !! t'); cbn; [apply length_insert|done].
    + apply (sh_lists _ _ Hf).
    + intros t' c' Ht'. rewrite S3. destruct (decide _); [done|]. by apply (sh_free_tables _ _ Hf).
  - cbn. by rewrite !length_alter.
Qed.

(** C37. [DeleteUserItem] takes the id as an [int].  In every state of the server, with
    [a] the item of the user [u] at one seat and [b] the item, in use, of a user at
    another seat who does not play and whose id, taken as an [int], is [u]: when the
    game clears the chair of [b], the entry of [u] leaves the map although [a] still
    sits; and when [u] then enters again, with a request that passes the checks, while a
    table is free and the game says nothing, he is given a second seat, with the item
    [b]: both seats have the user [u], and the map leads to [b]. *)
Theorem wide_id_two_seats cfg {E : Env} f q info u t c a t2 c2 b :
  config_ok cfg → shape cfg f → 0 < u < 2147483648 →
  seat f t c = Some a → GetUserId (item f a) = u → (b < length (heap f))%nat →
  seat f t2 c2 = Some b → b ≠ a → b ∈ m_UsedUserItemList f → m_isAndroidUser (item f b) = false →
  isPlaying (item f b) = false → m_chairId (item f b) = Z.of_nat c2 → i32 (GetUserId (item f b)) = u →
  m_listFreeTable f ≠ [] → (∀ t', sink_OnUserEnter t' u = []) →
  accepted cfg q info → q_userId q = u → userId info = u →
  let f1 := run_act cfg t2 f (AClearTableUser (Z.of_nat c2)) in
  FindUserItem u f1 = None ∧ seat f1 t c = Some a ∧ GetUserId (item f1 a) = u ∧
  let '(e, f2) := cmd_enter_room cfg q f1 in
  e = None ∧ seat f2 t c = Some a ∧ GetUserId (item f2 a) = u ∧ FindUserItem u f2 = Some b ∧
  ∃ t' c', seat f2 t' c' = Some b ∧ (t', c') ≠ (t, c) ∧ GetUserId (item f2 b) = u.
Proof.
  intros Hcfg Hf Hu Ha Hau Hbh Hb Hab Hbu Hbk Hbp Hbc Hbw Hfree Henv Hq Hqu Hiu f1.
  assert ((t, c) ≠ (t2, c2)) as Hne by (intros [= -> ->]; congruence).
  destruct (ClearTableUser_wide cfg f t2 c2 b) as (H1 & Hm & Hfl & Htf & Hh & Hi & Hs); try done.
  { intros E0. rewrite E0 in Hbw. unfold i32 in Hbw. cbn in Hbw. lia. }
  fold f1 in H1, Hm, Hfl, Htf, Hh, Hi, Hs. rewrite Hbw in Hm.
  assert (seat f1 t c = Some a) as Ha1 by (rewrite Hs; by destruct (decide _)).
  assert (FindUserItem u f1 = None) as Hn by (unfold FindUserItem; rewrite Hm; apply lookup_delete_eq).
  do 2 (split; [done|]). split; [by rewrite Hi|].
  rewrite (accepted_enters cfg q info f1 Hq).
  2: { unfold seated_item. by rewrite Hqu, Hn. }
  match goal with |- context [enter_new cfg q info ?g] =>
    apply (enter_freed cfg q info g u (m_FreeUserItemList f) t c a b) end; try done.
  - split; apply H1.
  - lia.
  - by change (GetUserId (item f1 a) = u); rewrite Hi.
  - change (b < length (heap f1))%nat. by rewrite Hh.
  - change (m_listFreeTable f1 ≠ []). by rewrite Htf.
Qed.

(** User 5 at chair 0 and a user with the id 2^32 + 5 at chair 1. *)
Definition demo_wide : Frame := Eval vm_compute in demo_run [demo_event 5; demo_event 4294967301].

Lemma demo_wide_shape : shape demo_config demo_wide.
Proof.
  split.
  - reflexivity.
  - intros t Ht. cbn in Ht. do 2 (destruct t as [|t]; [reflexivity|]). lia.
  - intros t Ht. change (t ∈ [0; 1]%nat) in Ht. cbn. rewrite !elem_of_cons, elem_of_nil in Ht. lia.
  - intros t c Ht. change (t ∈ [1]%nat) in Ht. apply list_elem_of_singleton in Ht as ->.
    do 3 (destruct c as [|c]; [reflexivity|]). reflexivity.
Qed.

Lemma wide_id_two_seats_witness : ∃ f, snd (@cmd_enter_room demo_config demo_env (demo_request 5)
    (run_act demo_config 0 demo_wide (AClearTableUser 1))) = f ∧
  seat f 0 0 = Some 0%nat ∧ GetUserId (item f 0) = 5 ∧
  ∃ t' c', seat f t' c' = Some 1%nat ∧ (t', c') ≠ (0%nat, 0%nat) ∧ GetUserId (item f 1) = 5.
Proof.
  eexists. split; [reflexivity|].
  pose proof (@wide_id_two_seats demo_config demo_env demo_wide (demo_request 5) (MkInfo 5 1000 0 "" 0 0)
    5 0 0 0 0 1 1 demo_ok demo_wide_shape ltac:(lia) eq_refl eq_refl ltac:(cbn; lia) eq_refl ltac:(done)
    ltac:(vm_compute; set_solver) eq_refl eq_refl eq_refl eq_refl ltac:(done) ltac:(done)
    ltac:(repeat split) eq_refl eq_refl) as (_ & _ & _ & H).
  destruct (cmd_enter_room _ _ _) as [e f2]. destruct H as (_ & H1 & H2 & _ & H3). done.
Defined.
