(* ===== verification/FramePlay.v ===== *)
(** A playing user keeps his seat through every event that is not his own leaving or a
    change of his status by the game of his table. *)
From Stdlib Require Import String.
From stdpp Require Import base list numbers option gmap strings pretty relations.
From Stdlib Require Import ZArith Lia.
From S2P Require Import Prelude GameDefine Frame FrameInv FrameSteps FrameProps.

#[local] Open Scope Z_scope.
#[local] Abbreviation length := List.length.

Section Play.
Context (cfg : Config) (Hcfg : config_ok cfg) (t c a : nat).
Implicit Types f : Frame.

(** [a] plays at chair [c] of table [t]. *)
Definition plays (f : Frame) : Prop := seat f t c = Some a ∧ isPlaying (item f a) = true.

(** The calls of a game of table [t'] that leave his status alone. *)
Definition leaves_alone (t' : nat) (x : Act) : Prop :=
  t' = t → ∀ s, x ≠ ASetUserStatus (Z.of_nat c) s.

Class Quiet (E : Env) : Prop := {
  quiet_enter : ∀ t' u, Forall (leaves_alone t') (sink_OnUserEnter t' u);
  quiet_left : ∀ t' u, Forall (leaves_alone t') (fst (sink_OnUserLeft t' u));
  quiet_message : ∀ t' chair, Forall (leaves_alone t') (sink_OnGameMessage t' chair)
}.

(** What is told of a step: the invariant and the play go on together. *)
Definition playing (f : Frame) : Prop := inv cfg f ∧ plays f.

Lemma plays_seat f f' : m_UserLists f' = m_UserLists f → item f' a = item f a → plays f → plays f'.
Proof. intros H1 H2 [H3 H4]. unfold plays, seat, seats. by rewrite H1, H2. Qed.

Lemma plays_item b g f : (b = a → ∀ i, m_userStatus (g i) = m_userStatus i) → plays f → plays (set_item b g f).
Proof.
  intros Hg [H1 H2]. split; [done|]. destruct (decide (b = a)) as [->|Hb].
  - unfold isPlaying. rewrite (item_set_keeps m_userStatus); auto.
  - by rewrite item_set_ne.
Qed.

Lemma plays_standup t' c' b f : playing f → seat f t' c' = Some b → plays (snd (OnUserStandup t' b f)).
Proof.
  intros [Hf [H1 H2]] Hb. destruct (isPlaying (item f b)) eqn:Ep.
  - unfold OnUserStandup. rewrite Ep. by destruct (_ || _).
  - assert (b ≠ a) as Hba by (intros ->; congruence).
    pose proof (OnUserStandup_left cfg t' c' b f Hcfg Hf Hb Ep) as Hl. split.
    + rewrite (ls_seat _ _ _ _ _ Hl). destruct (decide _) as [[= -> ->]|]; congruence.
    + by rewrite (ls_item _ _ _ _ _ Hl) by done.
Qed.

Lemma plays_act t' x f : leaves_alone t' x → playing f → plays (run_act cfg t' f x).
Proof.
  intros Hx [Hf Hp]. destruct x as [chair|chair s|chair b|chair z|s]; cbn [run_act].
  - unfold ClearTableUser. destruct (_ && _); [|done].
    destruct (GetTableUserItem _ _ _ _) as [b|] eqn:Eb; [|done].
    apply GetTableUserItem_seat in Eb as [Eb _]. by eapply plays_standup.
  - destruct (GetTableUserItem _ _ _ _) as [b|] eqn:Eb; [|done].
    apply GetTableUserItem_seat in Eb as [Eb Hr]. apply plays_item; [|done]. intros ->.
    destruct Hp as [Hp _]. pose proof (seat_unique _ _ _ _ _ _ _ Hf Hp Eb) as [= E1 E2].
    exfalso. apply (Hx E1 s). f_equal. lia.
  - destruct (GetTableUserItem _ _ _ _) as [b'|]; [by apply plays_item|done].
  - destruct (GetTableUserItem _ _ _ _) as [b'|]; [by apply plays_item|done].
  - exact Hp.
Qed.

Lemma playing_acts t' xs f : Forall (leaves_alone t') xs → playing f → playing (run_acts cfg t' xs f).
Proof.
  intros Hxs. unfold run_acts. revert f. induction Hxs as [|x xs Hx _ IH]; intros f Hf; [done|].
  apply IH. split; [apply run_act_inv, Hf; done|by apply plays_act].
Qed.

Lemma playing_calls g f : playing f → playing (f <| calls ::= g |>).
Proof. intros [Hf Hp]. split; [by eapply inv_same_view; [apply same_view_calls|]|exact Hp]. Qed.

Lemma playing_proxy g f : playing f → playing (f <| m_UserIdProxyConnectionInfoMap ::= g |>).
Proof. intros [Hf Hp]. split; [eapply inv_same_view; [|done]; by split|exact Hp]. Qed.

Lemma playing_item b g f : (∀ i, key (g i) = key i) → (b = a → ∀ i, m_userStatus (g i) = m_userStatus i) →
  playing f → playing (set_item b g f).
Proof.
  intros Hk Hg [Hf Hp]. split; [by eapply inv_same_view; [apply same_view_item|]|by apply plays_item].
Qed.

Lemma playing_AddAndroid info f : playing f → new_android info f → playing (AddAndroid info f).
Proof.
  intros [Hf Hp] Hn. split; [by apply AddAndroid_inv|]. apply (plays_seat f); [done| |exact Hp].
  destruct Hp as [Hs _]. destruct (inv_seat _ _ Hf _ _ _ Hs) as (_ & _ & _ & Hm).
  assert (a < length (heap f))%nat as Ha.
  { apply (inv_heap _ _ Hf). unfold may_sit, users, androids in *.
    destruct (m_isAndroidUser (item f a)); set_solver. }
  unfold item. cbn. by rewrite lookup_app_l.
Qed.

Lemma playing_kick f : playing f → playing (KickAllTableUser f).
Proof.
  intros [Hf Hp]. split; [by apply KickAllTableUser_inv|]. unfold KickAllTableUser.
  assert (∀ ts g, plays g → plays (foldl (λ f t, f <| m_cbGameStatuses ::= <[t := STATUS_INIT]> |>) g ts)) as H.
  { induction ts as [|t' ts IH]; intros g Hg; [done|]. by apply IH. }
  by apply H.
Qed.

Section Events.
Context {E : Env} `{!Quiet E}.

Lemma playing_enter t' b f : playing f → playing (OnUserEnterAction cfg t' b f).
Proof. apply playing_acts, quiet_enter. Qed.

Lemma playing_RoomSitChair t' b f : playing f → (∀ t c, seat f t c ≠ Some b) → may_sit f b →
  t' ∈ m_listUsedTable f → playing (snd (RoomSitChair cfg t' b f)).
Proof.
  intros [Hf Hp] Hout Hm Ht. split; [by apply RoomSitChair_inv|].
  unfold RoomSitChair. destruct (_ <=? _) eqn:Eu; [exact Hp|]. apply Z.leb_gt in Eu.
  destruct (free_chair _ _ _ _) as [c'|] eqn:Ec; [|exact Hp]. cbn [snd].
  apply (free_chair_some cfg Hcfg) in Ec as [Hc Hs].
  assert (b ≠ a) as Hba by (intros ->; by apply (Hout t c), Hp).
  match goal with |- context [OnUserEnterAction cfg t' b ?f1] => assert (playing f1) as H1 end.
  { apply playing_item; [done|done|]. split; [by apply inv_sit|].
    destruct Hp as [P1 P2]. split.
    - rewrite seat_set_ne; [exact P1|]. intros [= -> ->]. congruence.
    - change (isPlaying (item (set_item b (sit_at t' c') f) a) = true). by rewrite item_set_ne. }
  apply (playing_enter t' b) in H1.
  destruct (negb _); [by apply playing_calls|]; apply H1.
Qed.

Lemma playing_tables a' ex en f o f' : playing f → FindNormalSuitTable cfg a' ex en f = (o, f') → playing f'.
Proof.
  intros [Hf Hp] Hs. apply FindNormalSuitTable_ok in Hs as (Hf' & _ & used & free & ->); [|done..].
  by split.
Qed.

Lemma playing_enter_new q info f : playing f → seated_item (q_userId q) f = None →
  userId info = q_userId q → 0 < q_userId q < 2147483648 → playing (snd (enter_new cfg q info f)).
Proof.
  intros Hp Hn Hid Hu. pose proof (acquire_inv cfg q info f Hcfg (proj1 Hp) Hn Hid Hu) as H.
  assert (let '(b, f1) := GetUserItem (q_userId q) f in m_UserLists f1 = m_UserLists f ∧
    (b ≠ a → item f1 a = item f a)) as Hg.
  { unfold GetUserItem. destruct (m_FreeUserItemList f) as [|b free] eqn:Ef.
    - split; [done|]. intros _. apply (item_alloc f).
    - split; [done|]. intros Hb. by apply (item_set_ne b a ResetUserItem f). }
  unfold enter_new. destruct (GetUserItem (q_userId q) f) as [b f1]. cbn zeta in H.
  destruct H as (H2 & Hm & Hout & Hub), Hg as [G1 G2].
  set (f2 := set_item b (fill_item cfg q info) f1) in *.
  assert (b ≠ a) as Hba.
  { intros ->. apply (Hout t c). unfold seat, seats. change (m_UserLists f2) with (m_UserLists f1).
    rewrite G1. apply Hp. }
  assert (playing f2) as Hp2.
  { split; [done|]. apply plays_item; [done|]. eapply plays_seat; [done|by apply G2|apply Hp]. }
  destruct (FindNormalSuitTable _ _ _ _ _) as [o f3] eqn:Ef.
  pose proof (playing_tables _ _ _ _ _ _ Hp2 Ef) as Hp3.
  apply FindNormalSuitTable_ok in Ef as (_ & Ht & used & free & E3); [|done..].
  destruct o as [t'|]; cbn [snd]; [|by apply playing_calls].
  apply playing_RoomSitChair; [done|by rewrite E3..|by apply Ht].
Qed.

Lemma playing_reenter b f : playing f → playing (snd (reenter cfg b f)).
Proof.
  intros Hp. unfold reenter. destruct (GetTable _ _) as [t'|]; [|done].
  destruct (CanJoinTable _ _ _ _); [|done]. unfold SwitchUserItem. destruct (_ || _); [done|].
  match goal with |- context [GetTable _ ?g] => assert (playing g) as H1 end.
  { by apply playing_item. }
  destruct (GetTable _ (set_item _ _ _)) as [t2|]; cbn [snd]; [|done]. by apply playing_enter.
Qed.

Lemma playing_cmd_enter_room q f : playing f → 0 < q_userId q < 2147483648 →
  (∀ info, q_info q = Some info → userId info = q_userId q) → playing (snd (cmd_enter_room cfg q f)).
Proof.
  intros Hp Hu Hid. unfold cmd_enter_room. destruct (negb _); [done|]. destruct (negb _); [done|].
  destruct (q_password q) as [[]|]; [|done..].
  apply (playing_proxy (.∪ {[q_userId q]})) in Hp. destruct (seated_item _ _) eqn:Es; [by apply playing_reenter|].
  unfold enter_checked, refuse, call. destruct (negb _); [done|].
  destruct (negb _); [by apply playing_calls|]. destruct (q_info q) as [info|]; [|by apply playing_calls].
  destruct (_ && _); [by apply playing_calls|]. destruct (_ && _); [by apply playing_calls|].
  apply playing_enter_new; auto.
Qed.

Lemma playing_OnUserLeft t' b f : b ≠ a → playing f → playing (snd (OnUserLeft cfg t' b f)).
Proof.
  intros Hb Hp. unfold OnUserLeft.
  pose proof (quiet_left t' (GetUserId (item (set_item b (λ i, i <| m_userStatus := sOffline |> <| m_trustShip := true |>) f) b))) as Hq.
  destruct (sink_OnUserLeft _ _) as [acts ret]. cbn [snd].
  apply playing_acts; [done|]. by apply playing_item.
Qed.

(** The item found under another id is another item. *)
Lemma find_other user b f : playing f → FindUserItem user f = Some b → user ≠ GetUserId (item f a) → b ≠ a.
Proof. intros [Hf _] Hb Hu ->. apply (inv_map _ _ Hf) in Hb as [_ Hb]. congruence. Qed.

Lemma playing_cmd_user_left user type f : playing f → user ≠ GetUserId (item f a) →
  playing (snd (cmd_user_left cfg user type f)).
Proof.
  intros Hp Hu. unfold cmd_user_left. destruct (FindUserItem user f) as [b|] eqn:Eb; [|done].
  apply find_other in Eb; [|done..]. destruct (GetTable _ f) as [t'|]; [|done].
  destruct (sink_CanLeftTable t' user); [|done]. destruct (type =? 4); [done|].
  pose proof (playing_OnUserLeft t' b f Eb Hp) as H. by destruct (OnUserLeft cfg t' b f).
Qed.

Lemma playing_cmd_user_offline user f : playing f → user ≠ GetUserId (item f a) →
  playing (cmd_user_offline cfg user f).
Proof.
  intros Hp Hu. unfold cmd_user_offline. destruct (FindUserItem user f) as [b|] eqn:Eb; [|done].
  apply find_other in Eb; [|done..]. destruct (GetTable _ f) as [t'|]; [|done].
  apply playing_OnUserLeft; [done|]. by apply playing_proxy.
Qed.

Lemma playing_free_android b f f' : playing f → GetFreeAndroidUserItem f = Some (b, f') → playing f'.
Proof.
  intros [Hf Hp] Hg. apply (GetFreeAndroid_inv cfg Hcfg) in Hg as Hi; [|done]. split; [apply Hi|].
  unfold GetFreeAndroidUserItem in Hg. destruct (m_AndroidUserItemFreeList f); [done|]. by simplify_eq.
Qed.

Lemma playing_seat_android t' b f f' : playing f → (∀ t c, seat f t c ≠ Some b) → may_sit f b →
  t' ∈ m_listUsedTable f → seat_android cfg t' b f = Some f' → playing f'.
Proof.
  intros Hp Hout Hm Ht. unfold seat_android. destruct (android_score cfg _) as [z|]; [|done]. cbn.
  intros [= <-]. apply playing_RoomSitChair; [by apply playing_item|done| |done].
  revert Hm. unfold may_sit. by rewrite (item_set_keeps m_isAndroidUser), (item_set_keeps GetUserId).
Qed.

Lemma playing_confrontation n t' f f' : playing f → t' ∈ m_listUsedTable f →
  confrontation_loop cfg n t' f = Some f' → playing f'.
Proof.
  intros Hp Ht. induction n as [|n IH]; cbn; [by intros [= <-]|].
  destruct (GetFreeAndroidUserItem f) as [[b f1]|] eqn:Eg; [|done].
  pose proof (playing_free_android _ _ _ Hp Eg) as Hp1.
  apply (GetFreeAndroid_inv cfg Hcfg) in Eg as (H1 & Hout & Hm & Hl); [|apply Hp].
  apply playing_seat_android; [done..|by rewrite Hl].
Qed.

Lemma playing_bairen n t' f f' : playing f → t' ∈ m_listUsedTable f →
  bairen_loop cfg n t' f = Some f' → playing f'.
Proof.
  revert f. induction n as [|n IH]; intros f Hp Ht; cbn; [by intros [= <-]|].
  destruct (GetFreeAndroidUserItem f) as [[b f1]|] eqn:Eg; [|by apply IH].
  pose proof (playing_free_android _ _ _ Hp Eg) as Hp1.
  apply (GetFreeAndroid_inv cfg Hcfg) in Eg as (H1 & Hout & Hm & Hl); [|apply Hp].
  destruct (isPlaying _); [apply IH; [done|by rewrite Hl]|].
  destruct (_ && _); [by intros [= <-]|].
  destruct (seat_android cfg t' b f1) as [f2|] eqn:Es; [|done]. cbn.
  apply playing_seat_android in Es as Hp2; [|done..|by rewrite Hl].
  apply (seat_android_inv cfg Hcfg) in Es as [_ H3]; [|done..|by rewrite Hl].
  apply IH; [done|]. by rewrite H3, Hl.
Qed.

Lemma playing_check_tables choose ts f f' : playing f → (∀ t, t ∈ ts → t ∈ m_listUsedTable f) →
  check_tables cfg choose ts f = Some f' → playing f'.
Proof.
  revert f. induction ts as [|t' ts IH]; intros f Hp Ht; cbn [check_tables]; [by intros [= <-]|].
  assert (∀ f1, playing f1 → m_listUsedTable f1 = m_listUsedTable f →
    check_tables cfg choose ts f1 = Some f' → playing f') as Hgo.
  { intros f1 H1 Hl. apply IH; [done|]. intros t2 Ht2. rewrite Hl. apply Ht. by right. }
  assert (t' ∈ m_listUsedTable f) as Htu by (apply Ht; by left).
  destruct (bool_decide _).
  - destruct (negb _); [by apply Hgo|]. destruct (negb _); [by apply Hgo|].
    destruct (bairen_need cfg t' f) as [n|]; [|by apply Hgo]. by apply playing_bairen.
  - destruct (_ || _); [by apply Hgo|]. destruct (negb _); [by apply Hgo|].
    destruct (bEnableAndroid cfg); [|by apply Hgo].
    destruct (confrontation_loop _ _ _ _) as [f1|] eqn:Ec; [|done]. cbn.
    pose proof (playing_confrontation _ _ _ _ Hp Htu Ec) as Hp1.
    apply (confrontation_loop_inv cfg Hcfg) in Ec as [_ H2]; [|apply Hp|done]. by apply Hgo.
Qed.

Lemma playing_timer f f' : playing f → OnTimerCheckUserIn cfg f = Some f' → playing f'.
Proof.
  intros Hp. unfold OnTimerCheckUserIn. destruct (bool_decide _); [by intros [= <-]|].
  destruct (m_AndroidUserItemFreeList f); [by intros [= <-]|]. by apply playing_check_tables.
Qed.

End Events.
End Play.

(** The events that are not the leaving of [user] and in which the game of his table
    leaves his status alone. *)
Definition spares (t c : nat) (user : Z) (e : Event) : Prop :=
  match e with
  | ELeft u _ | EOffline u => u ≠ user
  | EGame t' acts => Forall (leaves_alone t c t') acts
  | _ => True
  end.

(** C24. A playing user keeps his seat: in every reachable state, an event that is not
    his own leaving or going offline ([spares]: such a request marks him offline, and an
    offline user may be cleared), in which no call of the game of his table sets his
    status ([Quiet], [spares]), and whose ids are those the code assumes ([valid_event]:
    a user who enters has an id from 1 to 2^31 - 1 and his own document, a robot is new),
    leaves him in his chair and playing, even if the game clears his chair. *)
Theorem playing_keeps_seat cfg {E : Env} e f f' t c a : config_ok cfg → reachable cfg f →
  seat f t c = Some a → isPlaying (item f a) = true → Quiet t c E →
  valid_event e f → spares t c (GetUserId (item f a)) e → exec cfg e f = Some f' →
  seat f' t c = Some a ∧ isPlaying (item f' a) = true.
Proof.
  intros Hcfg Hr Hs Hpl HQ Hv Hsp He. pose proof (frame_reachable_inv _ _ Hcfg Hr) as Hf.
  assert (playing cfg t c a f) as Hp by done.
  assert (playing cfg t c a f') as [_ H]; [|exact H].
  destruct e; cbn [exec valid_event spares] in *; simplify_eq.
  - destruct Hv. by apply playing_cmd_enter_room.
  - by apply playing_cmd_user_left.
  - by apply playing_cmd_user_offline.
  - unfold cmd_game_message. destruct (FindUserItem user f) as [b|]; [|done].
    destruct (GetTable _ f) as [t'|]; [|done]. apply playing_acts; [done|by apply quiet_message|done].
  - by eapply playing_timer.
  - by apply playing_acts.
  - by apply playing_AddAndroid.
  - by apply playing_kick.
Qed.

(** The small room with a game that starts when a user has entered. *)
Definition demo_playing : Frame := Eval vm_compute in
  demo_run [demo_event 7; EGame 0 [ASetUserStatus 0 sPlaying]; demo_event 9].

Lemma demo_playing_reachable : reachable demo_config demo_playing.
Proof.
  exists SERVER_RUNNING.
  eapply rtc_l; [eapply (step_event _ demo_env); [apply (demo_valid 7); lia|reflexivity]|].
  eapply rtc_l; [eapply (step_event _ demo_env (EGame 0 [ASetUserStatus 0 sPlaying])); [done|reflexivity]|].
  eapply rtc_l; [eapply (step_event _ demo_env); [apply (demo_valid 9); lia|reflexivity]|].
  apply rtc_refl.
Qed.

Lemma playing_keeps_seat_witness :
  ∃ f', @exec demo_config demo_env (EGame 0 [AClearTableUser 0]) demo_playing = Some f' ∧
    seat f' 0 0 = Some 0%nat.
Proof.
  eexists. split; [reflexivity|].
  refine (proj1 (@playing_keeps_seat demo_config demo_env (EGame 0 [AClearTableUser 0]) demo_playing _ 0 0 0
    demo_ok demo_playing_reachable eq_refl eq_refl _ _ _ eq_refl)).
  - split; intros; repeat constructor. intros _ s. discriminate.
  - exact I.
  - repeat constructor. intros _ s. discriminate.
Defined.
