(* ===== verification/FrameDdz.v ===== *)
(** The frame under the Dou Dizhu table: the calls the game model makes on its own list
    of users are refined by the frame, for the table of the game and no other. *)
From Stdlib Require Import String.
From stdpp Require Import base list numbers option gmap strings pretty relations.
From Stdlib Require Import ZArith Lia.
From S2P Require Import Prelude GameDefine DdzTable Frame FrameInv FrameSteps FrameProps.

#[local] Open Scope Z_scope.
#[local] Abbreviation length := List.length.

Section Refinement.
Context (cfg : Config) (Hcfg : config_ok cfg) (Hthree : maxPlayerNum cfg = 3%nat).
Implicit Types f : Frame.

(** What the game reads of an item. *)
Definition user_of (i : Item) : User :=
  MkUser (GetUserId i) (m_userStatus i) (m_isAndroidUser i) (userScore (m_userBaseInfo i)).

Definition user_at (f : Frame) (t c : nat) : option User := a ← seat f t c; Some (user_of (item f a)).

(** The users of table [t], as the game sees them. *)
Definition view (f : Frame) (t : nat) : list (option User) := map (user_at f t) (seq 0 3).

(** The game model [tb] stands at table [t] of the frame. *)
Definition stands (tb : Table) (t : nat) (f : Frame) : Prop :=
  DdzTable.seats tb = view f t ∧ m_cbGameStatuses f !! t = Some (frameStatus tb).

(** A call of the game on its own users. *)
Definition ddz_act (tb : Table) (x : Act) : Table :=
  match x with
  | AClearTableUser chair => DdzTable.ClearTableUser tb chair
  | ASetUserStatus chair s => DdzTable.set_status tb chair s
  | ASetTrustship _ _ => tb
  | ASetUserScore chair z =>
      match DdzTable.GetTableUserItem tb chair with
      | Some u => DdzTable.set_user tb chair (Some (u <| u_score := z |>))
      | None => tb
      end
  | ASetGameStatus s => tb <| frameStatus := s |>
  end.

Lemma view_ext f f' t : (∀ c, (c < 3)%nat → user_at f' t c = user_at f t c) → view f' t = view f t.
Proof. intros H. unfold view. cbn. by rewrite !H by lia. Qed.

Lemma view_insert f f' t c o : (c < 3)%nat → user_at f' t c = o →
  (∀ c', c' ≠ c → user_at f' t c' = user_at f t c') → view f' t = <[c := o]> (view f t).
Proof.
  intros Hc Ho Hne. unfold view. destruct c as [|[|[|c]]]; [..|lia]; cbn; rewrite Ho, !Hne by lia; done.
Qed.

(** A look at a chair: the same user on both sides. *)
Lemma stands_lookup tb t f chair : stands tb t f →
  DdzTable.GetTableUserItem tb chair = a ← GetTableUserItem cfg t chair f; Some (user_of (item f a)).
Proof.
  intros [Hs _]. unfold DdzTable.GetTableUserItem, GetTableUserItem. rewrite Hthree, Hs.
  destruct (_ && _) eqn:E; [|done]. breflect. unfold view, DdzTable.idx.
  assert (Z.to_nat chair < 3)%nat as Hc by lia. clear -Hc.
  destruct (Z.to_nat chair) as [|[|[|c]]]; [done..|lia].
Qed.

(** An update of one item by a user's call. *)
Lemma stands_update tb t f chair a g u : inv cfg f → stands tb t f →
  GetTableUserItem cfg t chair f = Some a → user_of (g (item f a)) = u →
  stands (DdzTable.set_user tb chair (Some u)) t (set_item a g f) ∧
  ∀ t', t' ≠ t → view (set_item a g f) t' = view f t'.
Proof.
  intros Hf [Hs Hst] Ha Hu. apply GetTableUserItem_seat in Ha as [Ha Hr]. rewrite Hthree in Hr.
  assert (a < length (heap f))%nat as Hlt.
  { destruct (inv_seat _ _ Hf _ _ _ Ha) as (_ & _ & _ & Hm). apply (inv_heap _ _ Hf).
    unfold may_sit, users, androids in *. destruct (m_isAndroidUser (item f a)); set_solver. }
  assert (∀ t' c', (t', c') ≠ (t, Z.to_nat chair) → user_at (set_item a g f) t' c' = user_at f t' c') as Hne.
  { intros t' c' Hne. unfold user_at. change (seat (set_item a g f) t' c') with (seat f t' c').
    destruct (seat f t' c') as [b|] eqn:Eb; [|done]. cbn. rewrite item_set_ne; [done|].
    intros <-. apply Hne. by apply (seat_unique cfg f _ _ _ _ a). }
  split; [split; [|done]|].
  - cbn. rewrite Hs. symmetry. apply view_insert; [unfold DdzTable.idx; lia| |].
    + unfold user_at, DdzTable.idx. change (seat (set_item a g f)) with (seat f). rewrite Ha. cbn. by rewrite item_set_eq, Hu.
    + intros c' Hc'. apply Hne. intros [= ->]. done.
  - intros t' Ht'. apply view_ext. intros c' _. apply Hne. congruence.
Qed.

Lemma OnUserStandup_status t a f : m_cbGameStatuses (snd (OnUserStandup t a f)) = m_cbGameStatuses f.
Proof.
  unfold OnUserStandup. destruct (_ || _); [done|]. destruct (isPlaying _); [done|]. cbn [snd].
  match goal with |- context [set_item a ?g ?f1] => assert (m_cbGameStatuses f1 = m_cbGameStatuses f) as E1 end.
  { destruct (negb _); [unfold DeleteUserItem|unfold DeleteAndroidUserItem];
      by destruct (list_find _ _) as [[]|]. }
  destruct (_ <? _); exact E1.
Qed.

Lemma stands_clear tb t f chair : inv cfg f → stands tb t f →
  stands (DdzTable.ClearTableUser tb chair) t (ClearTableUser cfg t chair f) ∧
  ∀ t', t' ≠ t → view (ClearTableUser cfg t chair f) t' = view f t'.
Proof.
  intros Hf Hs. unfold DdzTable.ClearTableUser, ClearTableUser. rewrite (stands_lookup tb t f chair Hs).
  destruct (GetTableUserItem cfg t chair f) as [a|] eqn:Ea; [|by destruct (_ && _)].
  pose proof (GetTableUserItem_seat _ _ _ _ _ Ea) as [Ha Hr]. rewrite Hthree in Hr.
  replace (negb (chair =? INVALID_CHAIR) && (chair <? Z.of_nat (maxPlayerNum cfg))) with true.
  2: { symmetry. rewrite Hthree. apply andb_true_iff. unfold INVALID_CHAIR.
       split; [apply negb_true_iff, Z.eqb_neq|apply Z.ltb_lt]; lia. }
  destruct (inv_seat _ _ Hf _ _ _ Ha) as (_ & _ & Hid & _). cbn -[Z.eqb OnUserStandup].
  replace (GetUserId (item f a) =? 0) with false by (symmetry; apply Z.eqb_neq; lia). cbn [orb].
  fold (isPlaying (item f a)). destruct (isPlaying (item f a)) eqn:Hp.
  { unfold OnUserStandup. rewrite Hp. by destruct (_ || _). }
  pose proof (OnUserStandup_left cfg t (Z.to_nat chair) a f Hcfg Hf Ha Hp) as Hl.
  pose proof (OnUserStandup_status t a f) as Hst.
  set (f' := snd (OnUserStandup t a f)) in *. clearbody f'.
  assert (∀ t' c', (t', c') ≠ (t, Z.to_nat chair) → user_at f' t' c' = user_at f t' c') as Hne.
  { intros t' c' Hne. unfold user_at. rewrite (ls_seat _ _ _ _ _ Hl).
    destruct (decide _) as [|]; [done|]. destruct (seat f t' c') as [b|] eqn:Eb; [|done]. cbn.
    rewrite (ls_item _ _ _ _ _ Hl); [done|]. intros ->. apply Hne. by apply (seat_unique cfg f _ _ _ _ a). }
  split; [split|].
  - cbn. rewrite (proj1 Hs). symmetry. apply view_insert; [unfold DdzTable.idx; lia| |].
    + unfold user_at, DdzTable.idx. rewrite (ls_seat _ _ _ _ _ Hl). by rewrite decide_True.
    + intros c' Hc'. apply Hne. intros [= ->]. done.
  - cbn. rewrite Hst. apply Hs.
  - intros t' Ht'. apply view_ext. intros c' _. apply Hne. congruence.
Qed.

Lemma stands_act tb t f x : inv cfg f → stands tb t f →
  stands (ddz_act tb x) t (run_act cfg t f x) ∧
  ∀ t', t' ≠ t → view (run_act cfg t f x) t' = view f t'.
Proof.
  intros Hf Hs. destruct x as [chair|chair s|chair b|chair z|s]; cbn [ddz_act run_act].
  - by apply stands_clear.
  - unfold DdzTable.set_status. rewrite (stands_lookup _ _ _ chair Hs).
    destruct (GetTableUserItem cfg t chair f) as [a|] eqn:Ea; [|done]. by apply stands_update.
  - destruct (GetTableUserItem cfg t chair f) as [a|] eqn:Ea; [|done].
    assert (∀ t' c, user_at (set_item a (λ i, i <| m_trustShip := b |>) f) t' c = user_at f t' c) as H.
    { intros t' c. unfold user_at. change (seat (set_item a ?g f)) with (seat f).
      destruct (seat f t' c) as [b'|]; [|done]. cbn. by rewrite (item_set_keeps user_of). }
    split; [split; [|apply Hs]|].
    + rewrite (proj1 Hs). symmetry. apply view_ext. intros c _. apply H.
    + intros t' _. apply view_ext. intros c _. apply H.
  - rewrite (stands_lookup _ _ _ chair Hs).
    destruct (GetTableUserItem cfg t chair f) as [a|] eqn:Ea; [|done]. by apply stands_update.
  - split; [split|done]; [apply Hs|]. cbn. destruct Hs as [_ Hst].
    rewrite list_lookup_insert_eq; [done|]. by eapply lookup_lt_Some.
Qed.

End Refinement.

(** C21. The frame refines the users of the game model.  When a Dou Dizhu table of the
    model stands at table [t] of a reachable state, then after any sequence of calls of
    the game (clearing a chair, setting a status, a score, the status of the game) it
    still stands there: both sides hold the same users with the same status and score;
    and no other table has changed. *)
Theorem ddz_frame_refinement cfg f tb t xs : config_ok cfg → maxPlayerNum cfg = 3%nat →
  reachable cfg f → stands tb t f →
  stands (foldl ddz_act tb xs) t (run_acts cfg t xs f) ∧
  ∀ t', t' ≠ t → view (run_acts cfg t xs f) t' = view f t'.
Proof.
  intros Hcfg H3 Hr Hs. pose proof (frame_reachable_inv _ _ Hcfg Hr) as Hf. clear Hr.
  unfold run_acts. revert tb f Hf Hs. induction xs as [|x xs IH]; intros tb f Hf Hs; [done|].
  cbn [foldl]. destruct (stands_act cfg Hcfg H3 tb t f x Hf Hs) as [Hs1 Hv1].
  destruct (IH (ddz_act tb x) (run_act cfg t f x)) as [Hs2 Hv2]; [by apply run_act_inv|done|].
  split; [done|]. intros t' Ht'. by rewrite Hv2, Hv1.
Qed.

(** A Dou Dizhu table where users 7 and 9 of the small room sit. *)
Definition demo_table : Table :=
  MkTable 0 0 0 [] 0 false 0 false 0 0 [] 0 0 [] [] 0 0 [] [] [] [] [] [] [] [] GAME_SCENE_FREE [] 0
    false false [] 0 0 0 STATUS_INIT
    [Some (MkUser 7 sSit false 1000); Some (MkUser 9 sSit false 1000); None] 0 [].

Lemma ddz_frame_refinement_witness :
  stands (foldl ddz_act demo_table [ASetUserStatus 1 sReady; AClearTableUser 0]) 0
    (run_acts demo_config 0 [ASetUserStatus 1 sReady; AClearTableUser 0] demo).
Proof.
  refine (proj1 (ddz_frame_refinement demo_config demo demo_table 0
    [ASetUserStatus 1 sReady; AClearTableUser 0] demo_ok eq_refl demo_reachable _)).
  split; reflexivity.
Defined.
