(* ===== verification/HongHei.v ===== *)
(** Red against black, the cards ([src/Games/Game_HongHeiLandy/GameLogic.cpp]): hands of
    three cards of one pack, their types, the comparison and the shuffle. *)
From stdpp Require Import base list numbers sorting sets.
From Stdlib Require Import ZArith Lia.
From S2P Require Import Prelude.

#[local] Open Scope Z_scope.

(** ** Cards *)

Definition m_cbCardListData : list Z :=
  concat (map (λ color, map (λ v, 16 * Z.of_nat color + Z.of_nat v) (seq 1 13)) (seq 0 4)).

Definition MAX_COUNT : nat := 3.
Definition DRAW : Z := 2.
Definition LOGIC_MASK_COLOR : Z := 240.
Definition LOGIC_MASK_VALUE : Z := 15.

Definition CT_SINGLE : Z := 0.
Definition CT_DOUBLE : Z := 1.
Definition CT_SHUN_ZI : Z := 2.
Definition CT_JIN_HUA : Z := 3.
Definition CT_SHUN_JIN : Z := 4.
Definition CT_BAO_ZI : Z := 5.
Definition CT_SPECIAL : Z := 6.

Definition GetCardValue (c : Z) : Z := Z.land c LOGIC_MASK_VALUE.
Definition GetCardColor (c : Z) : Z := Z.shiftr (Z.land c LOGIC_MASK_COLOR) 4.

Definition GetCardLogicValue (c : Z) : Z := if GetCardValue c =? 1 then GetCardValue c + 13 else GetCardValue c.

(** [SortCardList]: by falling value, with [std::sort]. *)
Definition SortCardList (l : list Z) : list Z :=
  std_sort (λ a b, GetCardLogicValue b <? GetCardLogicValue a) l.

(** ** Types *)

Definition has_value (v : Z) (l : list Z) : bool := existsb (λ c, GetCardValue c =? v) l.

(** [GetCardType] of a hand, sorted by the call. *)
Definition GetCardType (hand : list Z) : Z :=
  let l := SortCardList hand in
  let color i := GetCardColor l.[i] in
  let value i := GetCardLogicValue l.[i] in
  let cbSameColor := (color 1%nat =? color 0%nat) && (color 2%nat =? color 0%nat) in
  let bLineCard := (value 0%nat =? value 1%nat + 1) && (value 0%nat =? value 2%nat + 2) in
  let bLineCard := bLineCard || (has_value 1 l && has_value 2 l && has_value 3 l) in
  if cbSameColor && bLineCard then CT_SHUN_JIN
  else if negb cbSameColor && bLineCard then CT_SHUN_ZI
  else if cbSameColor && negb bLineCard then CT_JIN_HUA
  else
    let bDouble := (value 0%nat =? value 1%nat) || (value 0%nat =? value 2%nat) || (value 1%nat =? value 2%nat) in
    let bPanther := (value 0%nat =? value 1%nat) && (value 0%nat =? value 2%nat) in
    if bDouble then if bPanther then CT_BAO_ZI else CT_DOUBLE else CT_SINGLE.

(** ** Comparison *)

Definition gt (x y : Z) : Z := if y <? x then 1 else 0.

(** Values from the first to the last, then the first card. *)
Definition compare_values (f n : list Z) : Z :=
  let v := GetCardLogicValue in
  if negb (v f.[0] =? v n.[0]) then gt (v f.[0]) (v n.[0])
  else if negb (v f.[1] =? v n.[1]) then gt (v f.[1]) (v n.[1])
  else if negb (v f.[2] =? v n.[2]) then gt (v f.[2]) (v n.[2])
  else if negb (f.[0] =? n.[0]) then gt f.[0] n.[0] else DRAW.

(** A straight: its top, 3 for A-3-2, then the top card. *)
Definition line_value (l : list Z) : Z :=
  if (GetCardLogicValue l.[0] =? 14) && (GetCardLogicValue l.[2] =? 2) then 3 else GetCardLogicValue l.[0].

Definition compare_lines (f n : list Z) : Z :=
  if negb (line_value f =? line_value n) then gt (line_value f) (line_value n)
  else if line_value n =? 3 then if negb (f.[1] =? n.[1]) then gt f.[1] n.[1] else DRAW
  else if negb (f.[0] =? n.[0]) then gt f.[0] n.[0] else DRAW.

(** The pair and the single card of a sorted hand. *)
Definition pair_of (l : list Z) : Z * Z :=
  let v := GetCardLogicValue in
  if v l.[0] =? v l.[1] then (v l.[0], v l.[2]) else (v l.[2], v l.[0]).

(** One round of the search for the best colours of the pairs: the second test looks at
    the maximum of the first hand, as the code does. *)
Definition color_step (fd nd : Z) (m : Z * Z) (c : Z * Z) : Z * Z :=
  let '(maxColor_First, maxColor_Next) := m in
  let '(f, n) := c in
  let maxColor_First :=
    if (fd =? GetCardLogicValue f) && (maxColor_First <? GetCardColor f) then GetCardColor f else maxColor_First in
  let maxColor_Next :=
    if (nd =? GetCardLogicValue n) && (maxColor_First <? GetCardColor n) then GetCardColor n else maxColor_Next in
  (maxColor_First, maxColor_Next).

Definition compare_pairs (f n : list Z) : Z :=
  let '(bFirstDouble, bFirstSingle) := pair_of f in
  let '(bNextDouble, bNextSingle) := pair_of n in
  if negb (bFirstDouble =? bNextDouble) then gt bFirstDouble bNextDouble
  else if negb (bFirstSingle =? bNextSingle) then gt bFirstSingle bNextSingle
  else
    let '(maxColor_First, maxColor_Next) :=
      foldl (color_step bFirstDouble bNextDouble) (0, 0) (zip f n) in
    gt maxColor_First maxColor_Next.

Definition CompareCard (cbFirstData cbNextData : list Z) : Z :=
  let f := SortCardList cbFirstData in
  let n := SortCardList cbNextData in
  let ft := GetCardType f in
  let nt := GetCardType n in
  if nt + ft =? CT_SPECIAL + CT_BAO_ZI then gt ft nt
  else
    let ft := if ft =? CT_SPECIAL then CT_SINGLE else ft in
    let nt := if nt =? CT_SPECIAL then CT_SINGLE else nt in
    if negb (ft =? nt) then gt ft nt
    else if (ft =? CT_BAO_ZI) || (ft =? CT_SINGLE) || (ft =? CT_JIN_HUA) then compare_values f n
    else if (ft =? CT_SHUN_ZI) || (ft =? CT_SHUN_JIN) then compare_lines f n
    else if ft =? CT_DOUBLE then compare_pairs f n
    else DRAW.

(** ** One number for a hand *)

Definition GetCardLevelValue (hand : list Z) (bLevel : Z) : Z :=
  let l := SortCardList hand in
  if bLevel =? CT_SINGLE then 0
  else if bLevel =? CT_BAO_ZI then GetCardLogicValue l.[0]
  else if bLevel =? CT_JIN_HUA then 0
  else if (bLevel =? CT_SHUN_ZI) || (bLevel =? CT_SHUN_JIN) then
    if (GetCardLogicValue l.[0] =? 14) && (GetCardLogicValue l.[2] =? 2) then 1 else GetCardLogicValue l.[0]
  else if bLevel =? CT_DOUBLE then GetCardLogicValue l.[1]
  else 0.

Definition nibbles (x y z : Z) : Z := Z.lor (Z.lor (Z.shiftl x 8) (Z.shiftl y 4)) z.

Definition GetCardMaxValue (hand : list Z) : Z :=
  let l := SortCardList hand in
  let v := GetCardLogicValue in let c := GetCardColor in
  Z.shiftl (nibbles (v l.[0]) (v l.[1]) (v l.[2])) 16 + nibbles (c l.[0]) (c l.[1]) (c l.[2]).

Definition GetValue (hand : list Z) : Z :=
  let Level := GetCardType hand in
  Z.lor (Z.shiftl (Z.lor (Z.shiftl Level 8) (GetCardLevelValue hand Level)) 32) (GetCardMaxValue hand).

(** ** The shuffle *)

(** The rounds from [bRandCount]; [rnd] gives the values of [rand()]. *)
Fixpoint rand_loop (rnd : nat → Z) (n bRandCount : nat) (cbCardData : list Z) : list Z :=
  match n with
  | O => []
  | S n =>
      let bPosition := Z.to_nat (rnd bRandCount mod Z.of_nat (52 - bRandCount)) in
      cbCardData.[bPosition] ::
        rand_loop rnd n (S bRandCount) (<[bPosition := cbCardData.[52 - S bRandCount]]> cbCardData)
  end.

(** The loop runs at least once. *)
Definition RandCardList (rnd : nat → Z) (cbBufferCount : nat) : list Z :=
  rand_loop rnd (Nat.max 1 cbBufferCount) 0 m_cbCardListData.

(** ** Facts about cards *)

Definition card (c : Z) : Prop := c ∈ m_cbCardListData.
#[global] Instance card_dec c : Decision (card c) := list_elem_of_dec c m_cbCardListData.

(** A fact about the cards of the pack is checked on each of them. *)
Lemma card_all (P : Z → Prop) `{!∀ c, Decision (P c)} :
  forallb (λ c, bool_decide (P c)) m_cbCardListData = true → ∀ c, card c → P c.
Proof.
  intros Hall c Hc. rewrite forallb_forall in Hall.
  apply (bool_decide_eq_true_1 (P c)), Hall. by apply list_elem_of_In.
Qed.

(** A card is its colour and its value: the ace counts 14. *)
Lemma card_split c : card c →
  0 <= GetCardColor c < 4 ∧ 2 <= GetCardLogicValue c <= 14 ∧
  c = 16 * GetCardColor c + (if GetCardLogicValue c =? 14 then 1 else GetCardLogicValue c).
Proof. revert c. apply (card_all _). vm_compute. reflexivity. Qed.

Lemma card_value c : card c → GetCardValue c = if GetCardLogicValue c =? 14 then 1 else GetCardLogicValue c.
Proof. revert c. apply (card_all _). vm_compute. reflexivity. Qed.

Lemma card_same c d : card c → card d → GetCardLogicValue c = GetCardLogicValue d →
  (c < d ↔ GetCardColor c < GetCardColor d) ∧ (c = d ↔ GetCardColor c = GetCardColor d).
Proof.
  intros (_ & _ & Ec)%card_split (_ & _ & Ed)%card_split E. rewrite E in Ec.
  destruct (GetCardLogicValue d =? 14); lia.
Qed.

(** ** The rules of the types

    The type by the rules of the game, whatever the order of the cards. *)
Definition same_color (x y z : Z) : bool :=
  (GetCardColor x =? GetCardColor y) && (GetCardColor y =? GetCardColor z).

Definition rule_line (x y z : Z) : bool :=
  let a := GetCardLogicValue x in let b := GetCardLogicValue y in let c := GetCardLogicValue z in
  let low := Z.min a (Z.min b c) in let high := Z.max a (Z.max b c) in
  let middle := a + b + c - low - high in
  ((low + 1 =? middle) && (middle + 1 =? high)) || ((low =? 2) && (middle =? 3) && (high =? 14)).

Definition rule_type (x y z : Z) : Z :=
  let a := GetCardLogicValue x in let b := GetCardLogicValue y in let c := GetCardLogicValue z in
  if (a =? b) && (b =? c) then CT_BAO_ZI
  else if same_color x y z && rule_line x y z then CT_SHUN_JIN
  else if same_color x y z then CT_JIN_HUA
  else if rule_line x y z then CT_SHUN_ZI
  else if (a =? b) || (b =? c) || (a =? c) then CT_DOUBLE
  else CT_SINGLE.

(** A hand: three different cards of the pack. *)
Definition hand (h : list Z) : Prop := length h = 3%nat ∧ Forall card h ∧ NoDup h.

Lemma all_hands (f : Z → Z → Z → bool) :
  forallb (λ x, forallb (λ y, forallb (λ z, (x =? y) || (y =? z) || (x =? z) || f x y z)
    m_cbCardListData) m_cbCardListData) m_cbCardListData = true →
  ∀ h, hand h → ∃ x y z, h = [x; y; z] ∧ f x y z = true.
Proof.
  intros Hall h (Hl & Hc & Hnd). destruct h as [|x [|y [|z [|]]]]; try done.
  exists x, y, z. split; [done|]. rewrite !Forall_cons in Hc. destruct Hc as (Hx & Hy & Hz & _).
  rewrite !NoDup_cons in Hnd. destruct Hnd as (N1 & N2 & _).
  rewrite forallb_forall in Hall. specialize (Hall x (proj1 (list_elem_of_In _ _) Hx)).
  rewrite forallb_forall in Hall. specialize (Hall y (proj1 (list_elem_of_In _ _) Hy)).
  rewrite forallb_forall in Hall. specialize (Hall z (proj1 (list_elem_of_In _ _) Hz)).
  rewrite !orb_true_iff, !Z.eqb_eq in Hall. destruct Hall as [[[->| ->]| ->]|]; [| | |done];
    exfalso; [apply N1|apply N2|apply N1]; rewrite !elem_of_cons; auto.
Qed.

Lemma type_by_rules h : hand h →
  ∃ x y z, h = [x; y; z] ∧ GetCardType h = rule_type x y z.
Proof.
  intros Hh. destruct (all_hands (λ x y z, GetCardType [x; y; z] =? rule_type x y z)) with (h := h)
    as (x & y & z & -> & E); [vm_compute; reflexivity|done|].
  exists x, y, z. split; [done|]. by apply Z.eqb_eq.
Qed.

(** The type of a hand is the one of the rules, for every hand of the pack in every
    order; A-3-2 is a straight. *)
Theorem GetCardType_rules h : hand h →
  ∃ x y z, h = [x; y; z] ∧ GetCardType h = rule_type x y z.
Proof. apply type_by_rules. Qed.

Lemma GetCardType_rules_witness : GetCardType [17; 3; 34] = CT_SHUN_ZI.
Proof.
  destruct (GetCardType_rules [17; 3; 34]) as (x & y & z & [= <- <- <-] & E); [|exact E].
  split; [done|]. split; apply (bool_decide_eq_true_1 _); vm_compute; reflexivity.
Defined.

(** ** The strength of a hand

    What decides between two hands of one pack, in the order it decides. *)
Fixpoint lex_lt (l k : list Z) : bool :=
  match l, k with
  | x :: l, y :: k => (x <? y) || ((x =? y) && lex_lt l k)
  | [], _ :: _ => true
  | _, [] => false
  end.

(** The best colour among the cards of value [v]. *)
Definition best_color (v : Z) (l : list Z) : Z :=
  foldr (λ c m, if GetCardLogicValue c =? v then Z.max (GetCardColor c) m else m) 0 l.

(** The strength of a sorted hand of type [type]. *)
Definition rank (type : Z) (l : list Z) : list Z :=
  if type =? CT_DOUBLE then [(pair_of l).1; (pair_of l).2; best_color (pair_of l).1 l]
  else if (type =? CT_SHUN_ZI) || (type =? CT_SHUN_JIN) then
    [line_value l; if line_value l =? 3 then l.[1] else l.[0]]
  else [GetCardLogicValue l.[0]; GetCardLogicValue l.[1]; GetCardLogicValue l.[2]; l.[0]].

Definition strength (h : list Z) : list Z := GetCardType h :: rank (GetCardType h) (SortCardList h).

(** The sorted hand: its values do not rise, its cards are those of the hand. *)
Lemma sort_hand h : hand h → ∃ x y z, SortCardList h = [x; y; z] ∧ hand [x; y; z] ∧ h ≡ₚ [x; y; z] ∧
  GetCardLogicValue z <= GetCardLogicValue y <= GetCardLogicValue x.
Proof.
  intros (Hl & Hc & Hnd). unfold SortCardList. set (lt := λ a b, GetCardLogicValue b <? GetCardLogicValue a).
  pose proof (std_sort_perm lt h) as Hp. pose proof (std_sort_length lt h) as Hlen. rewrite Hl in Hlen.
  pose proof (std_sort_sorted lt) as Hs.
  assert (StronglySorted (std_le lt) (std_sort lt h)) as Hss.
  { apply Hs; unfold lt; intros; breflect; [apply Z.ltb_ge|apply Z.ltb_ge]; lia. }
  destruct (std_sort lt h) as [|x [|y [|z [|]]]]; try done.
  exists x, y, z. split; [done|]. split; [|split; [done|]].
  - split; [done|]. by rewrite Hp.
  - apply StronglySorted_inv in Hss as [Hss Hx]. apply StronglySorted_inv in Hss as [_ Hy].
    rewrite !Forall_cons in Hx, Hy. destruct Hx as (Hx & _), Hy as (Hy & _).
    unfold std_le, lt in *. breflect. lia.
Qed.

Lemma SortCardList_idem x y z : GetCardLogicValue z <= GetCardLogicValue y <= GetCardLogicValue x →
  SortCardList [x; y; z] = [x; y; z].
Proof.
  intros H. unfold SortCardList, std_sort. cbn [foldl std_insert].
  replace (GetCardLogicValue x <? GetCardLogicValue y) with false by (symmetry; apply Z.ltb_ge; lia).
  cbn [std_insert]. replace (GetCardLogicValue x <? GetCardLogicValue z) with false by (symmetry; apply Z.ltb_ge; lia).
  by replace (GetCardLogicValue y <? GetCardLogicValue z) with false by (symmetry; apply Z.ltb_ge; lia).
Qed.

(** The type of a sorted hand by its values alone, up to the colours. *)
Definition type_by_values (x y z : Z) : bool :=
  let a := GetCardLogicValue x in let b := GetCardLogicValue y in let c := GetCardLogicValue z in
  let t := GetCardType [x; y; z] in
  if (c <=? b) && (b <=? a) then
    if (a =? b) && (b =? c) then t =? CT_BAO_ZI
    else if (a =? b) || (b =? c) then t =? CT_DOUBLE
    else if ((a =? b + 1) && (b =? c + 1)) || ((a =? 14) && (b =? 3) && (c =? 2))
    then (t =? CT_SHUN_ZI) || (t =? CT_SHUN_JIN)
    else (t =? CT_SINGLE) || (t =? CT_JIN_HUA)
  else true.

Lemma type_values x y z : hand [x; y; z] →
  let a := GetCardLogicValue x in let b := GetCardLogicValue y in let c := GetCardLogicValue z in
  let t := GetCardType [x; y; z] in
  c <= b → b <= a →
  (t = CT_BAO_ZI ∧ a = b ∧ b = c) ∨ (t = CT_DOUBLE ∧ (a = b ∧ c < b ∨ b < a ∧ b = c)) ∨
  ((t = CT_SHUN_ZI ∨ t = CT_SHUN_JIN) ∧ (a = b + 1 ∧ b = c + 1 ∨ a = 14 ∧ b = 3 ∧ c = 2)) ∨
  ((t = CT_SINGLE ∨ t = CT_JIN_HUA) ∧ c < b ∧ b < a).
Proof.
  intros Hh a b c t Hcb Hba. destruct (all_hands type_by_values) with (h := [x; y; z])
    as (? & ? & ? & [= <- <- <-] & E); [vm_compute; reflexivity|done|].
  revert E. unfold type_by_values. fold a b c t. clearbody a b c t.
  destruct (a =? b) eqn:E1, (b =? c) eqn:E2; breflect; bsplit; intros Ht; bcases; try lia; tauto.
Qed.

(** ** The comparison by strength *)

(** Two hands of one pack. *)
Definition two_hands (h k : list Z) : Prop := hand h ∧ hand k ∧ ∀ c, c ∈ h → c ∉ k.

(** Cards of the same value in two hands differ in colour. *)
Lemma colors_differ c d (h k : list Z) : c ∈ h → d ∈ k → Forall card h → Forall card k →
  (∀ c, c ∈ h → c ∉ k) → GetCardLogicValue c = GetCardLogicValue d → GetCardColor c ≠ GetCardColor d.
Proof.
  intros Hc Hd Hh Hk Hdis E Ec. rewrite Forall_forall in Hh, Hk.
  destruct (card_same c d (Hh c Hc) (Hk d Hd) E) as [_ [_ H]]. apply (Hdis c Hc). by rewrite (H Ec).
Qed.

Lemma lex_cons x y l k : lex_lt (x :: l) (y :: k) = if x =? y then lex_lt l k else x <? y.
Proof.
  cbn [lex_lt]. destruct (Z.eqb_spec x y) as [->|].
  - by rewrite Z.ltb_irrefl.
  - by rewrite andb_false_l, orb_false_r.
Qed.

(** A test of the code against the head of [lex_lt]. *)
Lemma lex_test x y l k r : (x = y → r = (if lex_lt k l then 1 else 0)) →
  (if negb (x =? y) then gt x y else r) = if lex_lt (y :: k) (x :: l) then 1 else 0.
Proof.
  intros Hr. rewrite lex_cons, (Z.eqb_sym y x). destruct (Z.eqb_spec x y) as [E|]; [by apply Hr|done].
Qed.

Lemma lex_last x y : x ≠ y → (if negb (x =? y) then gt x y else DRAW) = if lex_lt [y] [x] then 1 else 0.
Proof. intros Hne%Z.eqb_neq. by rewrite lex_cons, (Z.eqb_sym y x), Hne. Qed.

Lemma compare_values_lex f0 f1 f2 n0 n1 n2 : f0 ≠ n0 →
  let v := GetCardLogicValue in
  compare_values [f0; f1; f2] [n0; n1; n2] =
    if lex_lt [v n0; v n1; v n2; n0] [v f0; v f1; v f2; f0] then 1 else 0.
Proof. intros Hne v. unfold compare_values. do 3 (apply lex_test; intros _). by apply lex_last. Qed.

Lemma compare_lines_lex f n : f.[0] ≠ n.[0] → f.[1] ≠ n.[1] →
  compare_lines f n =
    if lex_lt [line_value n; if line_value n =? 3 then n.[1] else n.[0]]
              [line_value f; if line_value f =? 3 then f.[1] else f.[0]] then 1 else 0.
Proof.
  intros H0 H1. unfold compare_lines. rewrite lex_cons, Z.eqb_sym.
  destruct (Z.eqb_spec (line_value n) (line_value f)) as [<-|]; [|done].
  simpl negb. cbv iota. destruct (line_value n =? 3); by apply lex_last.
Qed.

(** The two best colours, for cards of one value and four different colours. *)
Lemma pair_colors p q f0 f1 n0 n1 :
  let c := GetCardColor in let v := GetCardLogicValue in
  v f0 = p → v f1 = p → v n0 = q → v n1 = q →
  0 <= c f0 < 4 → 0 <= c f1 < 4 → 0 <= c n0 < 4 → 0 <= c n1 < 4 →
  c f0 ≠ c n0 → c f0 ≠ c n1 → c f1 ≠ c n0 → c f1 ≠ c n1 →
  let m := color_step p q (color_step p q (0, 0) (f0, n0)) (f1, n1) in
  gt m.1 m.2 = if Z.max (c n0) (c n1) <? Z.max (c f0) (c f1) then 1 else 0.
Proof.
  intros c v E1 E2 E3 E4 R1 R2 R3 R4 D1 D2 D3 D4. unfold color_step. fold v c.
  rewrite E1, E2, E3, E4, !Z.eqb_refl. cbn [andb fst snd]. unfold gt.
  assert (∀ i, 0 <= i < 4 → i = 0 ∨ i = 1 ∨ i = 2 ∨ i = 3) as Hfour by lia.
  apply Hfour in R1, R2, R3, R4. clear Hfour E1 E2 E3 E4. revert R1 R2 R3 R4 D1 D2 D3 D4.
  generalize (c f0), (c f1), (c n0), (c n1). intros a0 a1 b0 b1 R1 R2 R3 R4 D1 D2 D3 D4.
  destruct R1 as [-> |[-> |[-> | ->]]], R2 as [-> |[-> |[-> | ->]]], R3 as [-> |[-> |[-> | ->]]],
    R4 as [-> |[-> |[-> | ->]]]; first [reflexivity|congruence].
Qed.

Lemma color_step_skip p q m f n : GetCardLogicValue f ≠ p → GetCardLogicValue n ≠ q → color_step p q m (f, n) = m.
Proof.
  intros H1 H2. unfold color_step. destruct m.
  replace (p =? GetCardLogicValue f) with false by (symmetry; apply Z.eqb_neq; lia).
  by replace (q =? GetCardLogicValue n) with false by (symmetry; apply Z.eqb_neq; lia).
Qed.

(** The cards of two hands, pairwise. *)
Lemma two_cards h k : two_hands h k → ∀ i j, (i < 3)%nat → (j < 3)%nat →
  h.[i] ≠ k.[j] ∧ 0 <= GetCardColor h.[i] < 4 ∧ 0 <= GetCardColor k.[j] < 4 ∧
  (GetCardLogicValue h.[i] = GetCardLogicValue k.[j] → GetCardColor h.[i] ≠ GetCardColor k.[j]).
Proof.
  intros ((Lh & Ch & _) & (Lk & Ck & _) & Hd) i j Hi Hj.
  destruct (lookup_lt_is_Some_2 h i) as [x Ex]; [lia|]. destruct (lookup_lt_is_Some_2 k j) as [y Ey]; [lia|].
  unfold aget. rewrite Ex, Ey. simpl. apply list_elem_of_lookup_2 in Ex, Ey.
  split; [intros ->; by apply (Hd y)|]. rewrite Forall_forall in Ch, Ck.
  split; [by apply card_split, Ch|]. split; [by apply card_split, Ck|].
  intros E. apply (colors_differ x y h k); try done; by apply Forall_forall.
Qed.

(** A sorted hand with one pair. *)
Definition one_pair (l : list Z) : Prop :=
  let v := GetCardLogicValue in
  (v l.[0] = v l.[1] ∧ v l.[2] < v l.[1]) ∨ (v l.[1] < v l.[0] ∧ v l.[1] = v l.[2]).

(** The best colour of the pair. *)
Lemma best_pair_color x y z : hand [x; y; z] → one_pair [x; y; z] →
  let l := [x; y; z] in
  best_color (pair_of l).1 l =
    if GetCardLogicValue x =? GetCardLogicValue y then Z.max (GetCardColor x) (GetCardColor y)
    else Z.max (GetCardColor y) (GetCardColor z).
Proof.
  intros (_ & Hc & _) Hp l. rewrite !Forall_cons in Hc. destruct Hc as (Cx & Cy & Cz & _).
  apply card_split in Cx as (Cx & _), Cy as (Cy & _), Cz as (Cz & _).
  unfold one_pair, aget in Hp. simpl in Hp. unfold l, pair_of, aget, best_color. simpl.
  generalize dependent (GetCardLogicValue x). intros a. generalize dependent (GetCardLogicValue y). intros b.
  generalize dependent (GetCardLogicValue z). intros c Hp.
  destruct (Z.eqb_spec a b); simpl; rewrite ?Z.eqb_refl; bsplit; lia.
Qed.

(** The verdict on two pairs: pair, single card, then the best colour. *)
Lemma pair_verdict p q s t x y g : (p = q → s = t → g = (if y <? x then 1 else 0) ∧ x ≠ y) →
  (if negb (p =? q) then gt p q else if negb (s =? t) then gt s t else g) =
    (if lex_lt [q; t; y] [p; s; x] then 1 else 0) ∧ [p; s; x] ≠ [q; t; y].
Proof.
  intros Hg. split; [|intros [= -> -> ->]; by destruct Hg].
  apply lex_test. intros E1. apply lex_test. intros E2. destruct (Hg E1 E2) as [-> Hne].
  by rewrite lex_cons, (proj2 (Z.eqb_neq y x)) by congruence.
Qed.

(** The two cards of the pairs at the same places of both hands. *)
Lemma pair_colors_places l k i j : two_hands l k → (i < 3)%nat → (j < 3)%nat →
  let c := GetCardColor in let v := GetCardLogicValue in
  v l.[i] = v l.[j] → v k.[i] = v k.[j] → v l.[i] = v k.[i] →
  let m := color_step (v l.[i]) (v k.[i]) (color_step (v l.[i]) (v k.[i]) (0, 0) (l.[i], k.[i])) (l.[j], k.[j]) in
  gt m.1 m.2 = (if Z.max (c k.[i]) (c k.[j]) <? Z.max (c l.[i]) (c l.[j]) then 1 else 0) ∧
  Z.max (c l.[i]) (c l.[j]) ≠ Z.max (c k.[i]) (c k.[j]).
Proof.
  intros Htwo Hi Hj c v El Ek E. pose proof (two_cards _ _ Htwo) as Ht.
  destruct (Ht i i Hi Hi) as (_ & R1 & R3 & D1).
  destruct (Ht i j Hi Hj) as (_ & _ & R4 & D2). destruct (Ht j i Hj Hi) as (_ & R2 & _ & D3).
  destruct (Ht j j Hj Hj) as (_ & _ & _ & D4).
  fold c v in R1, R2, R3, R4, D1, D2, D3, D4.
  specialize (D1 E). specialize (D2 (eq_trans E Ek)). specialize (D3 (eq_trans (eq_sym El) E)).
  specialize (D4 (eq_trans (eq_trans (eq_sym El) E) Ek)).
  split; [by apply pair_colors|]. lia.
Qed.

Lemma compare_pairs_lex f0 f1 f2 n0 n1 n2 :
  let f := [f0; f1; f2] in let n := [n0; n1; n2] in
  two_hands f n → one_pair f → one_pair n →
  let s l := [(pair_of l).1; (pair_of l).2; best_color (pair_of l).1 l] in
  compare_pairs f n = (if lex_lt (s n) (s f) then 1 else 0) ∧ s f ≠ s n.
Proof.
  intros f n Hfn Hf Hn s. pose proof (pair_colors_places f n 0 1 Hfn) as H01.
  pose proof (pair_colors_places f n 1 2 Hfn) as H12. destruct Hfn as (Hhf & Hhn & _).
  unfold s, f, n in *. rewrite !best_pair_color by done. unfold compare_pairs, pair_of.
  unfold one_pair, aget in Hf, Hn. simpl in Hf, Hn. unfold aget in *.
  cbn [lookup list_lookup default from_option id zip zip_with foldl] in H01, H12 |- *.
  destruct (Z.eqb_spec (GetCardLogicValue f0) (GetCardLogicValue f1)),
    (Z.eqb_spec (GetCardLogicValue n0) (GetCardLogicValue n1)); cbn [fst snd];
    apply pair_verdict; intros E1 E2; try (exfalso; lia).
  - rewrite (color_step_skip _ _ _ f2 n2) by lia.
    rewrite (surjective_pairing (color_step _ _ _ (f1, n1))). apply H01; lia.
  - rewrite (color_step_skip _ _ (0, 0) f0 n0) by lia.
    rewrite (surjective_pairing (color_step _ _ _ (f2, n2))).
    replace (GetCardLogicValue f2) with (GetCardLogicValue f1) in * by lia.
    replace (GetCardLogicValue n2) with (GetCardLogicValue n1) in * by lia. apply H12; lia.
Qed.

(** Of two different lists one is below the other, and not both. *)
Lemma lex_total l k : l ≠ k → lex_lt l k = negb (lex_lt k l).
Proof.
  revert k. induction l as [|x l IH]; intros [|y k] Hne; try done.
  rewrite !lex_cons, (Z.eqb_sym y x). destruct (Z.eqb_spec x y) as [->|Hxy].
  - apply IH. congruence.
  - destruct (Z.ltb_spec x y), (Z.ltb_spec y x); try done; lia.
Qed.

Lemma sorted_hand h : hand h → ∃ x y z, let l := [x; y; z] in
  SortCardList h = l ∧ hand l ∧ h ≡ₚ l ∧ GetCardType h = GetCardType l ∧ SortCardList l = l ∧
  GetCardLogicValue z <= GetCardLogicValue y <= GetCardLogicValue x.
Proof.
  intros Hh. destruct (sort_hand h Hh) as (x & y & z & Es & Hl & Hp & Hv). exists x, y, z.
  pose proof (SortCardList_idem x y z Hv) as Ei.
  split; [done|]. split; [done|]. split; [done|]. split; [|done].
  unfold GetCardType. by rewrite Es, Ei.
Qed.

(** Two sorted hands of the same type. *)
Definition verdict (t : Z) (f n : list Z) : Z :=
  if (t =? CT_BAO_ZI) || (t =? CT_SINGLE) || (t =? CT_JIN_HUA) then compare_values f n
  else if (t =? CT_SHUN_ZI) || (t =? CT_SHUN_JIN) then compare_lines f n
  else if t =? CT_DOUBLE then compare_pairs f n else DRAW.

Lemma same_type_rank x y z a b c : let f := [x; y; z] in let n := [a; b; c] in
  two_hands f n → GetCardType f = GetCardType n →
  GetCardLogicValue z <= GetCardLogicValue y <= GetCardLogicValue x →
  GetCardLogicValue c <= GetCardLogicValue b <= GetCardLogicValue a →
  let t := GetCardType n in
  verdict t f n = (if lex_lt (rank t n) (rank t f) then 1 else 0) ∧ rank t f ≠ rank t n.
Proof.
  intros f n Hfn Et Hf Hn t. pose proof (two_cards _ _ Hfn) as Hc.
  destruct (Hc 0 0)%nat as [H0 _]; [lia..|]. destruct (Hc 1 1)%nat as [H1 _]; [lia..|].
  pose proof (type_values x y z (proj1 Hfn)) as Tf. fold f in Tf. rewrite Et in Tf. fold t in Tf.
  pose proof (type_values a b c (proj1 (proj2 Hfn))) as Tn. fold n in Tn. fold t in Tn. cbv zeta in Tf, Tn.
  specialize (Tf (proj1 Hf) (proj2 Hf)). specialize (Tn (proj1 Hn) (proj2 Hn)). clearbody t. clear Et.
  assert (∀ u, u ≠ CT_DOUBLE → u ≠ CT_SHUN_ZI → u ≠ CT_SHUN_JIN → verdict u f n = compare_values f n →
    verdict u f n = (if lex_lt (rank u n) (rank u f) then 1 else 0) ∧ rank u f ≠ rank u n) as Hval.
  { intros u N1%Z.eqb_neq N2%Z.eqb_neq N3%Z.eqb_neq ->. unfold rank. rewrite N1, N2, N3.
    split; [by apply compare_values_lex|]. cbn [orb]. congruence. }
  assert (∀ u, u = CT_SHUN_ZI ∨ u = CT_SHUN_JIN →
    verdict u f n = (if lex_lt (rank u n) (rank u f) then 1 else 0) ∧ rank u f ≠ rank u n) as Hline.
  { intros u Hu. assert (verdict u f n = compare_lines f n) as -> by (by destruct Hu as [-> | ->]).
    assert (∀ l, rank u l = [line_value l; if line_value l =? 3 then l.[1] else l.[0]]) as Hr
      by (by destruct Hu as [-> | ->]).
    rewrite !Hr. split; [by apply compare_lines_lex|]. intros [= El E]. rewrite El in E.
    destruct (line_value n =? 3); congruence. }
  destruct Tn as [[-> _]|[[-> Pn]|[[Ht _]|[[-> | ->] _]]]]; try (by apply Hval); [|by apply Hline].
  destruct Tf as [[? _]|[[_ Pf]|[[[?|?] _]|[[?|?] _]]]]; try done.
  by apply compare_pairs_lex.
Qed.

Lemma type_range x y z : 0 <= GetCardType [x; y; z] <= 5.
Proof. unfold GetCardType, CT_BAO_ZI, CT_DOUBLE, CT_SINGLE, CT_JIN_HUA, CT_SHUN_ZI, CT_SHUN_JIN. bsplit; lia. Qed.

(** The comparison without the special hands, which [GetCardType] never gives. *)
Lemma CompareCard_eq h k f n : SortCardList h = f → SortCardList k = n →
  0 <= GetCardType f <= 5 → 0 <= GetCardType n <= 5 →
  CompareCard h k =
    if negb (GetCardType f =? GetCardType n) then gt (GetCardType f) (GetCardType n)
    else verdict (GetCardType f) f n.
Proof.
  intros <- <- Rf Rn. unfold CompareCard, verdict, CT_SPECIAL in *.
  generalize dependent (GetCardType (SortCardList h)). intros ft Rf.
  generalize dependent (GetCardType (SortCardList k)). intros nt Rn.
  rewrite (proj2 (Z.eqb_neq ft 6)), (proj2 (Z.eqb_neq nt 6)) by lia.
  by rewrite (proj2 (Z.eqb_neq (nt + ft) (6 + CT_BAO_ZI))) by (unfold CT_BAO_ZI; lia).
Qed.

Lemma compare_by_strength h k : two_hands h k →
  CompareCard h k = (if lex_lt (strength k) (strength h) then 1 else 0) ∧ strength h ≠ strength k.
Proof.
  intros (Hh & Hk & Hd).
  destruct (sorted_hand h Hh) as (x & y & z & Eh & Hh' & Ph & Th & Ih & Vh).
  destruct (sorted_hand k Hk) as (a & b & c & Ek & Hk' & Pk & Tk & Ik & Vk).
  assert (two_hands [x; y; z] [a; b; c]) as Hfn.
  { split; [done|]. split; [done|]. intros e. rewrite <- Ph, <- Pk. apply Hd. }
  rewrite (CompareCard_eq h k _ _ Eh Ek) by apply type_range. unfold strength. rewrite Eh, Ek, Th, Tk.
  destruct (Z.eqb_spec (GetCardType [x; y; z]) (GetCardType [a; b; c])) as [E|Hne]; cbn [negb].
  - destruct (same_type_rank x y z a b c Hfn E Vh Vk) as [Hv Hr].
    rewrite lex_cons, E, Z.eqb_refl. split; [done|]. intros [= Er]. by apply Hr.
  - rewrite lex_cons, (proj2 (Z.eqb_neq (GetCardType [a; b; c]) _)) by congruence. split; [done|].
    intros [= E _]. by apply Hne.
Qed.

Lemma compare_verdict h k : two_hands h k →
  CompareCard h k = (if lex_lt (strength k) (strength h) then 1 else 0) ∧
  CompareCard k h = 1 - CompareCard h k.
Proof.
  intros Ht. destruct (compare_by_strength h k Ht) as [E Hne].
  destruct (compare_by_strength k h) as [E' _].
  { destruct Ht as (? & ? & Hd). split; [done|]. split; [done|]. intros c Hk Hh. by apply (Hd c). }
  split; [done|]. rewrite E, E', (lex_total _ _ Hne). by destruct (lex_lt (strength k) (strength h)).
Qed.

(** C12. Between two hands of one pack the comparison is the order of their strengths: the
    type, then the values, the pair before the single card, the best colour last; one of
    the two hands wins, and there is no draw. *)
Theorem CompareCard_strength h k : two_hands h k →
  CompareCard h k = (if lex_lt (strength k) (strength h) then 1 else 0) ∧
  CompareCard k h = 1 - CompareCard h k.
Proof. apply compare_verdict. Qed.

(** A pair of eights with the better colour, against a pair of eights with the same single. *)
Lemma CompareCard_strength_witness :
  CompareCard [8; 56; 20] [24; 40; 4] = 1 ∧ CompareCard [24; 40; 4] [8; 56; 20] = 1 - CompareCard [8; 56; 20] [24; 40; 4].
Proof.
  destruct (CompareCard_strength [8; 56; 20] [24; 40; 4]) as [E1 E2].
  - split; [split; [done|]; split; apply (bool_decide_eq_true_1 _); vm_compute; reflexivity|].
    split; [split; [done|]; split; apply (bool_decide_eq_true_1 _); vm_compute; reflexivity|].
    intros c Hc. apply (proj1 (Forall_forall (λ c, c ∉ [24; 40; 4]) [8; 56; 20])); [|done].
    apply (bool_decide_eq_true_1 _). vm_compute. reflexivity.
  - split; [|exact E2]. rewrite E1. vm_compute. reflexivity.
Defined.

(** ** The shuffle deals from one pack *)

Lemma insert_swap_perm (l : list Z) p x y : l !! p = Some x → x :: <[p := y]> l ≡ₚ y :: l.
Proof.
  intros Hp. rewrite insert_take_drop by (by eapply lookup_lt_Some).
  rewrite <- (take_drop_middle l p x Hp) at 3. solve_Permutation.
Qed.

Lemma rand_loop_perm rnd n k data : length data = 52%nat → (k + n <= 52)%nat →
  length (rand_loop rnd n k data) = n ∧ ∃ rest, rand_loop rnd n k data ++ rest ≡ₚ take (52 - k) data.
Proof.
  revert k data. induction n as [|n IH]; intros k data Hl Hk.
  { split; [done|]. by exists (take (52 - k) data). }
  cbn [rand_loop]. set (p := Z.to_nat _).
  assert (p < 52 - k)%nat as Hp by (unfold p; lia).
  destruct (lookup_lt_is_Some_2 data p) as [x Ex]; [lia|].
  destruct (lookup_lt_is_Some_2 data (52 - S k)) as [y Ey]; [lia|].
  rewrite (aget_lookup _ _ _ Ex), (aget_lookup _ _ _ Ey).
  destruct (IH (S k) (<[p := y]> data)) as [Hlen [rest Hr]]; [by rewrite length_insert|lia|].
  split; [cbn [length]; lia|]. exists rest. cbn [app]. rewrite Hr.
  replace (52 - k)%nat with (S (52 - S k)) by lia. rewrite (take_S_r _ _ _ Ey).
  destruct (decide (p = 52 - S k)%nat) as [E|Hne].
  - rewrite take_insert_ge by lia. assert (x = y) as -> by (rewrite E in Ex; congruence).
    solve_Permutation.
  - rewrite take_insert_lt by lia. rewrite <- Permutation_cons_append.
    apply insert_swap_perm. by rewrite lookup_take_lt by lia.
Qed.

Lemma three_pack_NoDup : NoDup m_cbCardListData.
Proof. apply (bool_decide_eq_true_1 _). vm_compute. reflexivity. Qed.

Lemma rand_deal rnd n : (0 < n <= 52)%nat →
  length (RandCardList rnd n) = n ∧ NoDup (RandCardList rnd n) ∧ Forall card (RandCardList rnd n).
Proof.
  intros Hn. unfold RandCardList. replace (Nat.max 1 n) with n by lia.
  destruct (rand_loop_perm rnd n 0 m_cbCardListData) as [Hl [rest Hr]]; [done|lia|].
  rewrite take_ge in Hr by done. split; [done|]. pose proof three_pack_NoDup as Hnd. rewrite <- Hr in Hnd.
  apply NoDup_app in Hnd as (Hnd & _ & _). split; [done|].
  apply Forall_forall. intros c Hc. unfold card. rewrite <- Hr. apply elem_of_app. by left.
Qed.

(** The shuffle deals as many cards as asked, all of the pack and none twice, whatever
    [rand()] gives. *)
Theorem RandCardList_deal rnd n : (0 < n <= 52)%nat →
  length (RandCardList rnd n) = n ∧ NoDup (RandCardList rnd n) ∧ Forall card (RandCardList rnd n).
Proof. apply rand_deal. Qed.

Lemma RandCardList_deal_witness :
  length (RandCardList (λ i, 7 * Z.of_nat i) 6) = 6%nat ∧ NoDup (RandCardList (λ i, 7 * Z.of_nat i) 6) ∧
  Forall card (RandCardList (λ i, 7 * Z.of_nat i) 6).
Proof. apply (RandCardList_deal (λ i, 7 * Z.of_nat i) 6). lia. Defined.
