(* ===== verification/RedBlack.v ===== *)
(** Red against black, the choice of the cards
    ([src/Games/Game_HongHeiLandy/redblackalgorithm.cpp] and its header): the pack is
    shuffled until the outcome fits the stock of the house.  [shuffles k i] is the [i]-th
    value of [rand()] in the [k]-th shuffle.  Probabilities the code computes with
    floating point numbers are arguments. *)
From stdpp Require Import base list numbers sorting sets.
From Stdlib Require Import ZArith Lia.
From S2P Require Import Prelude HongHei.

#[local] Open Scope Z_scope.

(** ** State *)

Definition LuckyGate : nat := 0.
Definition BalckGate : nat := 1.
Definition RedGate : nat := 2.
Definition MAX_CARDS : nat := 52.
Definition Denominator : Z := 10000.

(** [RedBlackAlgorithm]. *)
Record Algo := MkAlgo {
  m_highLimit : Z;
  m_lowLimit : Z;
  m_curProfit : Z;
  m_thresholdNum : Z;
  m_profitInterval : Z;
  m_killOrReword : Z;
  resultProbility : Z;
  bettingQuantity : list Z;
  m_muticleArr : list Z;
  m_TableCardType : list Z;
  m_winType : Z;
  m_winFlag : nat;
  m_loseFlag : nat;
  m_lcurrentProfit : Z
}.
#[global] Instance eta_Algo : Settable Algo := λ a,
  MkAlgo (m_highLimit a) (m_lowLimit a) (m_curProfit a) (m_thresholdNum a) (m_profitInterval a)
    (m_killOrReword a) (resultProbility a) (bettingQuantity a) (m_muticleArr a) (m_TableCardType a)
    (m_winType a) (m_winFlag a) (m_loseFlag a) (m_lcurrentProfit a).

(** A new object; the members the constructor leaves alone are zero here. *)
Definition new_algo : Algo :=
  MkAlgo 0 0 0 0 0 0 0 [0; 0; 0] (replicate 6 0) [0; 0] 0 0 0 0.

(** ** Setting up a round *)

Definition SetBetting (index value : Z) (a : Algo) : Algo :=
  if (index <? 0) || (3 <=? index) then a
  else a <| bettingQuantity ::= <[Z.to_nat index := value]> |>.

(** [RandomInt], with the value [r] of [rand()]. *)
Definition RandomInt (min max r : Z) : Z :=
  let '(min, max) := if max <? min then (max, min) else (min, max) in
  if min =? max then min else min + Z.rem r (max - min + 1).

(** [OverHighLowLimit]: the interval of the stock; its probability is an argument of
    [SetAlgorithemNum], the zero between the limits apart. *)
Definition OverHighLowLimit (a : Algo) : Algo :=
  a <| m_profitInterval := if m_highLimit a <? m_curProfit a then 1
                           else if m_curProfit a <? m_lowLimit a then -1 else 0 |>.

Definition CalculatCotrol (r : Z) (a : Algo) : Algo :=
  a <| m_killOrReword :=
         if m_profitInterval a =? 1 then if RandomInt 0 10000 r <? resultProbility a then 1 else 0
         else if m_profitInterval a =? -1 then if RandomInt 0 10000 r <? resultProbility a then -1 else 0
         else 0 |>.

(** [prob]: what [OverHighLowLimit] returns outside the limits, times [Denominator], as
    an [int]. *)
Definition SetAlgorithemNum (high low curr : Z) (mularr : list Z) (threshold prob r : Z) (a : Algo) : Algo :=
  let a := a <| m_thresholdNum := threshold |> <| m_highLimit := high |> <| m_lowLimit := low |>
             <| m_curProfit := curr |> <| m_lcurrentProfit := 0 |> <| m_muticleArr := mularr |> in
  let a := OverHighLowLimit a in
  CalculatCotrol r (a <| resultProbility := if m_profitInterval a =? 0 then 0 else prob |>).

Definition SetMustKill (isKillOrRewar : Z) (a : Algo) : Algo :=
  a <| m_killOrReword := if 1 <? isKillOrRewar then 1
                         else if isKillOrRewar <? -1 then -1 else isKillOrRewar |>.

Definition GetCurProfit (a : Algo) : Z := m_lcurrentProfit a.

(** ** One deal *)

(** What a deal shows: the six cards, the types and the values of both hands. *)
Record Deal := MkDeal {
  d_cards : list Z;
  hei : list Z;
  hong : list Z;
  heiType : Z;
  hongType : Z;
  heiCard : Z;
  hongCard : Z
}.

(** The six cards in front of the pack; [GetCardType] sorts the hands in place. *)
Definition show (cards : list Z) : Deal :=
  let b := take 3 cards in let r := take 3 (drop 3 cards) in
  let heiType := GetCardType b in let hongType := GetCardType r in
  MkDeal (take 6 cards) (SortCardList b) (SortCardList r) heiType hongType
    (GetCardLevelValue (SortCardList b) heiType) (GetCardLevelValue (SortCardList r) hongType).

(** A pair below nine counts as single cards for the lucky gate. *)
Definition lucky_type (type value : Z) : Z := if (type =? 1) && (value <? 9) then CT_SINGLE else type.

Definition winscore (a : Algo) : Z :=
  let q := bettingQuantity a in let m := m_muticleArr a in
  q.[m_loseFlag a] - q.[m_winFlag a] * m.[0] +
  (if 0 <? m_winType a then - (q.[LuckyGate] * m.[Z.to_nat (m_winType a)]) else q.[LuckyGate]).

(** The body the three functions share: the winner and the score of the house. *)
Definition open_deal (d : Deal) (a : Algo) : Algo :=
  let a := a <| m_TableCardType := [heiType d; hongType d] |> in
  let a :=
    if negb (CompareCard (hei d) (hong d) =? 0) then
      a <| m_winType := lucky_type (heiType d) (heiCard d) |> <| m_winFlag := BalckGate |> <| m_loseFlag := RedGate |>
    else
      a <| m_winType := lucky_type (hongType d) (hongCard d) |> <| m_winFlag := RedGate |> <| m_loseFlag := BalckGate |> in
  a <| m_lcurrentProfit := winscore a |>.

(** [wintag] and [wintype]: the winner and the type of his hand. *)
Definition wintag (a : Algo) : nat := m_winFlag a.
Definition wintype (d : Deal) (a : Algo) : Z := if (m_winFlag a =? BalckGate)%nat then heiType d else hongType d.

(** The loss of the house is beyond the red line. *)
Definition beyond_red_line (a : Algo) : bool :=
  (m_lcurrentProfit a <? - m_thresholdNum a) &&
  (m_lcurrentProfit a <? - (m_curProfit a - m_lowLimit a) ÷ 2).

(** [isOk] of [GetOpenCard]: the deal is thrown away. *)
Definition isOk (a : Algo) : bool :=
  if m_killOrReword a =? -1 then m_lcurrentProfit a <? 0
  else if m_killOrReword a =? 1 then (0 <? m_lcurrentProfit a) || beyond_red_line a
  else beyond_red_line a.

(** [memcpy(handcardarr, tmpcbTableCardArray, sizeof(handcardarr))]: the parameter is a
    pointer, so eight bytes are copied between two arrays of six.  The result is what is
    written from [handcardarr] on: the cards and, over what lies behind the array of the
    caller, the two bytes [past] the local array. *)
Definition memcpy_hands (past : Z * Z) (tmpcbTableCardArray : list Z) : list Z :=
  take 8 (tmpcbTableCardArray ++ [past.1; past.2]).

(** ** The three loops *)

(** Deals until [again] is content with one, from the [k]-th shuffle. *)
Fixpoint deal_until (again : Deal → Algo → bool) (fuel : nat) (shuffles : nat → nat → Z) (k : nat) (a : Algo) : option (Deal * Algo) :=
  match fuel with
  | O => None
  | S f =>
      let d := show (RandCardList (shuffles k) MAX_CARDS) in
      let a := open_deal d a in
      if again d a then deal_until again f shuffles (S k) a else Some (d, a)
  end.

(** The copy of the last deal is the one that stays. *)
Definition hand_out (past : Z * Z) (o : option (Deal * Algo)) : option (list Z * Deal * Algo) :=
  '(d, a) ← o; Some (memcpy_hands past (d_cards d), d, a).

Definition GetOpenCard (past : Z * Z) (fuel : nat) (shuffles : nat → nat → Z) (k : nat) (a : Algo) :
    option (list Z * Deal * Algo) :=
  hand_out past (deal_until (λ _ a, isOk a) fuel shuffles k a).

(** The colour a black-listed user must not win on: [ishongOrHei] asks for black;
    [isxingYunYiJi] asks for a hand that pays nothing on the lucky gate, by the value of
    the black hand in both cases, as the code does. *)
Definition color_again (isxingYunYiJi ishongOrHei : bool) (d : Deal) (a : Algo) : bool :=
  let pays := isxingYunYiJi && (((m_winType a =? 1) && (9 <=? heiCard d)) || (1 <? m_winType a)) in
  if ishongOrHei then (CompareCard (hei d) (hong d) =? 0) || pays
  else (CompareCard (hong d) (hei d) =? 0) || pays.

Definition black_again (isxingYunYiJi ishongOrHei : bool) (d : Deal) (a : Algo) : bool :=
  if m_killOrReword a =? -1 then m_lcurrentProfit a <? 0
  else if m_killOrReword a =? 1 then (0 <? m_lcurrentProfit a) || beyond_red_line a
  else color_again isxingYunYiJi ishongOrHei d a.

(** The two flags are comparisons of a draw with probabilities of the black list. *)
Definition BlackGetOpenCard (isxingYunYiJi ishongOrHei : bool) (past : Z * Z) (fuel : nat)
    (shuffles : nat → nat → Z) (k : nat) (a : Algo) : option (list Z * Deal * Algo) :=
  hand_out past (deal_until (black_again isxingYunYiJi ishongOrHei) fuel shuffles k a).

(** [BlackGetMustKillOpenCard]: the flags drawn first are overwritten. *)
Definition BlackGetMustKillOpenCard (userJetton : list Z) (past : Z * Z) (fuel : nat)
    (shuffles : nat → nat → Z) (k : nat) (a : Algo) : option (list Z * Deal * Algo) :=
  hand_out past (deal_until (color_again false (negb (userJetton.[2] <? userJetton.[1]))) fuel shuffles k a).

Lemma hand_out_Some past o m d a : hand_out past o = Some (m, d, a) →
  o = Some (d, a) ∧ m = memcpy_hands past (d_cards d).
Proof. destruct o as [[d' a']|]; [|done]. by intros [= <- <- <-]. Qed.

Lemma hand_out_is_Some past o : is_Some (hand_out past o) ↔ is_Some o.
Proof.
  destruct o as [[d a]|]; [split; by eexists|]. split; intros H; by apply is_Some_None in H.
Qed.

(** ** The loops

    A deal replaces what the one before left, so the state a loop starts from is the
    one each of its deals is made in. *)
Definition deal (shuffles : nat → nat → Z) (k : nat) : Deal := show (RandCardList (shuffles k) MAX_CARDS).

Lemma open_deal_again d d' a : open_deal d (open_deal d' a) = open_deal d a.
Proof. unfold open_deal. destruct a; by repeat destruct (negb _). Qed.

Lemma open_deal_kept d a :
  m_killOrReword (open_deal d a) = m_killOrReword a ∧ bettingQuantity (open_deal d a) = bettingQuantity a ∧
  m_muticleArr (open_deal d a) = m_muticleArr a ∧ m_thresholdNum (open_deal d a) = m_thresholdNum a ∧
  m_curProfit (open_deal d a) = m_curProfit a ∧ m_lowLimit (open_deal d a) = m_lowLimit a ∧
  m_lcurrentProfit (open_deal d a) = winscore (open_deal d a).
Proof. unfold open_deal. destruct a; by repeat destruct (negb _). Qed.

Section Loop.
Context (again : Deal → Algo → bool) (shuffles : nat → nat → Z).

(** The [k]-th deal is kept. *)
Definition kept (k : nat) (a : Algo) : Prop := again (deal shuffles k) (open_deal (deal shuffles k) a) = false.

Lemma deal_until_start fuel k d a :
  deal_until again fuel shuffles k (open_deal d a) = deal_until again fuel shuffles k a.
Proof. destruct fuel; [done|]. simpl. by rewrite open_deal_again. Qed.

Lemma deal_until_S fuel k a : deal_until again (S fuel) shuffles k a =
  let d := deal shuffles k in
  if again d (open_deal d a) then deal_until again fuel shuffles (S k) a else Some (d, open_deal d a).
Proof. simpl. fold (deal shuffles k). by rewrite deal_until_start. Qed.

Lemma deal_until_kept fuel k a d a' : deal_until again fuel shuffles k a = Some (d, a') →
  ∃ j, (k ≤ j)%nat ∧ d = deal shuffles j ∧ a' = open_deal d a ∧ kept j a.
Proof.
  revert k. induction fuel as [|fuel IH]; intros k; [done|]. rewrite deal_until_S. cbv zeta.
  destruct (again _ _) eqn:E.
  - intros (j & Hj & ?)%IH. exists j. split; [lia|done].
  - intros [= <- <-]. by exists k.
Qed.

(** The loop ends exactly when some deal to come is kept. *)
Lemma deal_until_ends k a :
  (∃ fuel, is_Some (deal_until again fuel shuffles k a)) ↔ ∃ j, (k ≤ j)%nat ∧ kept j a.
Proof.
  split.
  - intros (fuel & [d a'] & H). apply deal_until_kept in H as (j & ? & _ & _ & ?). by exists j.
  - intros (j & Hj & Hk). exists (S (j - k)). remember (j - k)%nat as n eqn:En.
    revert k Hj En. induction n as [|n IH]; intros k Hj En; rewrite deal_until_S; cbv zeta.
    + assert (k = j) as -> by lia. unfold kept in Hk. rewrite Hk. by eexists.
    + destruct (again _ _); [|by eexists]. apply IH; lia.
Qed.

(** No kept deal, no end. *)
Lemma deal_until_never fuel k a : (∀ j, ¬ kept j a) → deal_until again fuel shuffles k a = None.
Proof.
  intros Hn. destruct (deal_until _ _ _ _ _) as [[d a']|] eqn:E; [|done].
  apply deal_until_kept in E as (j & _ & _ & _ & Hk). by apply Hn in Hk.
Qed.
End Loop.

(** ** One deal *)

(** The hands of a shuffle are two hands of one pack. *)
Lemma shuffle_hands rnd : let cards := RandCardList rnd MAX_CARDS in
  two_hands (take 3 cards) (take 3 (drop 3 cards)).
Proof.
  intros cards. destruct (rand_deal rnd MAX_CARDS) as (Hl & Hnd & Hc); [unfold MAX_CARDS; lia|]. fold cards in Hl, Hnd, Hc.
  clearbody cards. unfold MAX_CARDS in Hl. rewrite <- (take_drop 3 cards) in Hnd.
  apply NoDup_app in Hnd as (N1 & Hd & N2). pose proof N2 as N3. rewrite <- (take_drop 3 (drop 3 cards)) in N3.
  apply NoDup_app in N3 as (N3 & _ & _).
  split; [|split].
  - split; [rewrite length_take; lia|]. split; [by apply Forall_take|done].
  - split; [rewrite length_take, length_drop; lia|]. split; [by apply Forall_take, Forall_drop|done].
  - intros c H1 H2. apply (Hd c H1). apply elem_of_take in H2 as (i & Hi & _). by eapply list_elem_of_lookup_2.
Qed.

Lemma strength_sorted h : hand h → hand (SortCardList h) ∧ strength (SortCardList h) = strength h ∧ h ≡ₚ SortCardList h.
Proof.
  intros Hh. destruct (sorted_hand h Hh) as (x & y & z & Eh & Hl & Hp & Et & Es & _).
  rewrite Eh. split; [done|]. split; [|done]. unfold strength. by rewrite Eh, Es, Et.
Qed.

(** The hands of a deal, their types, and the comparison in both orders. *)
Lemma deal_hands sh k : let d := deal sh k in
  let b := take 3 (d_cards d) in let r := drop 3 (d_cards d) in
  two_hands b r ∧ heiType d = GetCardType b ∧ hongType d = GetCardType r ∧
  CompareCard (hei d) (hong d) = (if lex_lt (strength r) (strength b) then 1 else 0) ∧
  CompareCard (hong d) (hei d) = 1 - CompareCard (hei d) (hong d).
Proof.
  intros d b r. pose proof (shuffle_hands (sh k)) as Ht. cbv zeta in Ht.
  assert (b = take 3 (RandCardList (sh k) MAX_CARDS)) as Eb.
  { unfold b, d, deal, show. cbn [d_cards]. rewrite take_take. done. }
  assert (r = take 3 (drop 3 (RandCardList (sh k) MAX_CARDS))) as Er.
  { unfold r, d, deal, show. cbn [d_cards]. by rewrite (skipn_firstn_comm 3 6). }
  rewrite <- Eb, <- Er in Ht. split; [done|].
  destruct (strength_sorted b (proj1 Ht)) as (Hb & Sb & Pb).
  destruct (strength_sorted r (proj1 (proj2 Ht))) as (Hr & Sr & Pr).
  assert (two_hands (SortCardList b) (SortCardList r)) as Ht'.
  { split; [done|]. split; [done|]. intros c. rewrite <- Pb, <- Pr. apply Ht. }
  assert (hei d = SortCardList b ∧ hong d = SortCardList r ∧ heiType d = GetCardType b ∧ hongType d = GetCardType r)
    as (-> & -> & -> & ->) by (rewrite Eb, Er; done).
  split; [done|]. split; [done|]. rewrite <- Sb, <- Sr. by apply compare_verdict.
Qed.

Lemma deal_length sh k : length (d_cards (deal sh k)) = 6%nat.
Proof.
  unfold deal, show. cbn [d_cards]. destruct (rand_deal (sh k) MAX_CARDS) as (Hl & _); [unfold MAX_CARDS; lia|].
  rewrite length_take, Hl. done.
Qed.

(** The copy gives the caller the six cards, and two bytes he has no room for. *)
Lemma memcpy_six past x : length x = 6%nat →
  take 6 (memcpy_hands past x) = x ∧ drop 6 (memcpy_hands past x) = [past.1; past.2].
Proof. intros Hl. do 6 (destruct x as [|? x]; [done|]). by destruct x. Qed.

(** The winner of a deal is the stronger hand; the types are those of the hands. *)
Lemma open_deal_winner sh k a : let d := deal sh k in let o := open_deal d a in
  let b := take 3 (d_cards d) in let r := drop 3 (d_cards d) in
  if lex_lt (strength r) (strength b)
  then m_winFlag o = BalckGate ∧ m_loseFlag o = RedGate ∧ m_winType o = lucky_type (heiType d) (heiCard d)
  else m_winFlag o = RedGate ∧ m_loseFlag o = BalckGate ∧ m_winType o = lucky_type (hongType d) (hongCard d).
Proof.
  intros d o b r. destruct (deal_hands sh k) as (_ & _ & _ & Ec & _). fold d b r in Ec.
  unfold o, open_deal. rewrite Ec. destruct (lex_lt (strength r) (strength b)); destruct a; done.
Qed.

(** ** What the loops promise *)

#[local] Opaque deal open_deal.

(** C25. What [GetOpenCard] returns: two hands of one pack, the winner is the stronger hand,
    [wintype] is its type; a house that kills does not lose, a house that rewards does not
    win, and unless it kills its loss stays within the red line.  What is written [m] at
    the array of the caller are the six cards and two bytes more. *)
Theorem GetOpenCard_policy past fuel sh k a m d a' : GetOpenCard past fuel sh k a = Some (m, d, a') →
  let b := take 3 (d_cards d) in let r := drop 3 (d_cards d) in
  (take 6 m = d_cards d ∧ drop 6 m = [past.1; past.2]) ∧
  two_hands b r ∧
  (if lex_lt (strength r) (strength b) then wintag a' = BalckGate ∧ wintype d a' = GetCardType b
   else wintag a' = RedGate ∧ wintype d a' = GetCardType r) ∧
  GetCurProfit a' = winscore a' ∧
  (m_killOrReword a = -1 → 0 <= GetCurProfit a') ∧
  (m_killOrReword a = 1 → GetCurProfit a' <= 0) ∧
  (m_killOrReword a ≠ -1 → - m_thresholdNum a <= GetCurProfit a' ∨
                           - (m_curProfit a - m_lowLimit a) ÷ 2 <= GetCurProfit a').
Proof.
  intros [(j & _ & -> & -> & Hk)%deal_until_kept ->]%hand_out_Some b r.
  split; [apply memcpy_six, deal_length|].
  destruct (deal_hands sh j) as (Ht & E1 & E2 & _). pose proof (open_deal_winner sh j a) as Hw. cbv zeta in Hw.
  destruct (open_deal_kept (deal sh j) a) as (K1 & _ & _ & K4 & K5 & K6 & K7).
  unfold kept, isOk, beyond_red_line in Hk. unfold GetCurProfit, wintag, wintype.
  rewrite K1, K4, K5, K6 in Hk. split; [done|]. split; [|split; [done|]].
  - fold b r in Hw. destruct (lex_lt (strength r) (strength b)); destruct Hw as (-> & _); (split; [reflexivity|]);
      [exact E1|exact E2].
  - destruct (Z.eqb_spec (m_killOrReword a) (-1)) as [E|];
      [|destruct (Z.eqb_spec (m_killOrReword a) 1)]; breflect; bcases; lia.
Qed.

(** The shuffle that leaves the pack in the order the draws of zero give. *)
Definition demo_shuffles (k i : nat) : Z := Z.of_nat (i * i * k + 5 * i).

(** A house in profit: low limit 0, high limit 1000000, 2000 on black, 100 on red. *)
Definition demo_algo (kill : Z) : Algo :=
  SetMustKill kill (SetBetting 2 100 (SetBetting 1 2000 (SetBetting 0 50
    (SetAlgorithemNum 1000000 0 500000 [1; 1; 2; 3; 5; 10] 5000 0 0 new_algo)))).

Lemma GetOpenCard_policy_witness : ∃ m d a',
  GetOpenCard (7, 8) 10 demo_shuffles 0 (demo_algo (-1)) = Some (m, d, a') ∧ length m = 8%nat ∧ 0 <= GetCurProfit a'.
Proof.
  destruct (GetOpenCard (7, 8) 10 demo_shuffles 0 (demo_algo (-1))) as [[[m d] a']|] eqn:E; [|vm_compute in E; discriminate].
  exists m, d, a'. split; [done|]. split; [vm_compute in E; injection E as <- _ _; reflexivity|].
  apply (proj1 (proj2 (proj2 (proj2 (proj2 (GetOpenCard_policy (7, 8) 10 demo_shuffles 0 _ m d a' E)))))). reflexivity.
Defined.

(** A house that kills always finds its deal: once black and red have both won with a
    hand that pays nothing on the lucky gate, [GetOpenCard] has returned. *)
Theorem GetOpenCard_kill_ends past sh k a :
  m_killOrReword a = -1 → (m_muticleArr a).[0] = 1 → 0 <= (bettingQuantity a).[LuckyGate] →
  (∃ i, (k ≤ i)%nat ∧ let o := open_deal (deal sh i) a in m_winFlag o = BalckGate ∧ m_winType o = 0) →
  (∃ i, (k ≤ i)%nat ∧ let o := open_deal (deal sh i) a in m_winFlag o = RedGate ∧ m_winType o = 0) →
  ∃ fuel, is_Some (GetOpenCard past fuel sh k a).
Proof.
  intros Hkill Hm Hl (i & Hi & Fi & Ti) (j & Hj & Fj & Tj). setoid_rewrite hand_out_is_Some. apply deal_until_ends.
  assert (∀ n, m_winType (open_deal (deal sh n) a) = 0 →
    (bettingQuantity a).[m_winFlag (open_deal (deal sh n) a)] <=
      (bettingQuantity a).[m_loseFlag (open_deal (deal sh n) a)] → kept (λ _ a, isOk a) sh n a) as Hkept.
  { intros n Tn Hle. destruct (open_deal_kept (deal sh n) a) as (K1 & K2 & K3 & _ & _ & _ & K7).
    unfold kept, isOk. rewrite K1, Hkill, K7. unfold winscore. rewrite K2, K3, Hm, Tn.
    cbn [Z.eqb Pos.eqb Z.ltb Z.compare]. apply Z.ltb_ge. lia. }
  destruct (Z.le_ge_cases ((bettingQuantity a).[BalckGate]) ((bettingQuantity a).[RedGate])) as [H|H].
  - exists i. split; [done|]. apply Hkept; [done|].
    pose proof (open_deal_winner sh i a) as Hw. cbv zeta in Hw. rewrite Fi in *.
    destruct (lex_lt _ _); destruct Hw as (E & -> & _); [done|discriminate E].
  - exists j. split; [done|]. apply Hkept; [done|].
    pose proof (open_deal_winner sh j a) as Hw. cbv zeta in Hw. rewrite Fj in *.
    destruct (lex_lt _ _); destruct Hw as (E & -> & _); [discriminate E|done].
Qed.

Lemma GetOpenCard_kill_ends_witness : ∃ fuel, is_Some (GetOpenCard (0, 0) fuel demo_shuffles 0 (demo_algo (-1))).
Proof.
  apply (GetOpenCard_kill_ends (0, 0) demo_shuffles 0 (demo_algo (-1))); [reflexivity|reflexivity|vm_compute; discriminate|..].
  - exists 1%nat. split; [lia|]. vm_compute. done.
  - exists 14%nat. split; [lia|]. vm_compute. done.
Defined.

(** A house that rewards may never return: when all the money is on one colour, more
    than the threshold and more than half the stock above the low limit, every deal either
    wins or goes beyond the red line, and [GetOpenCard] deals for ever. *)
Theorem GetOpenCard_never past sh k fuel a b :
  m_killOrReword a = 1 → (m_muticleArr a).[0] = 1 →
  bettingQuantity a = [0; b; 0] ∨ bettingQuantity a = [0; 0; b] →
  0 <= m_thresholdNum a → m_lowLimit a <= m_curProfit a →
  m_thresholdNum a < b → m_curProfit a - m_lowLimit a < 2 * b →
  GetOpenCard past fuel sh k a = None.
Proof.
  intros Hkill Hm Hb Ht Hs H1 H2. unfold GetOpenCard. rewrite deal_until_never; [done|]. intros j Hk.
  destruct (open_deal_kept (deal sh j) a) as (K1 & K2 & K3 & K4 & K5 & K6 & K7).
  unfold kept, isOk, beyond_red_line in Hk. rewrite K1, Hkill, K4, K5, K6, K7 in Hk.
  unfold winscore in Hk. rewrite K2, K3, Hm in Hk.
  set (o := open_deal (deal sh j) a) in *.
  assert ((m_winFlag o = BalckGate ∧ m_loseFlag o = RedGate) ∨ (m_winFlag o = RedGate ∧ m_loseFlag o = BalckGate)) as Hw.
  { pose proof (open_deal_winner sh j a) as Hw. cbv zeta in Hw. fold o in Hw. destruct (lex_lt _ _); tauto. }
  assert ((bettingQuantity a).[LuckyGate] = 0) as El by (destruct Hb as [-> | ->]; done).
  rewrite El in Hk.
  assert ((bettingQuantity a).[m_loseFlag o] - (bettingQuantity a).[m_winFlag o] * 1 = b ∨
          (bettingQuantity a).[m_loseFlag o] - (bettingQuantity a).[m_winFlag o] * 1 = - b) as Hd.
  { destruct Hb as [-> | ->], Hw as [[-> ->]|[-> ->]]; unfold aget; simpl; lia. }
  replace (if 0 <? m_winType o then _ else 0) with 0 in Hk by (destruct (0 <? m_winType o); lia).
  assert (- (m_curProfit a - m_lowLimit a) ÷ 2 = - ((m_curProfit a - m_lowLimit a) / 2)) as Eq.
  { rewrite Z.quot_opp_l by lia. f_equal. apply Z.quot_div_nonneg; lia. }
  rewrite Eq in Hk. destruct Hd as [Hd|Hd]; rewrite Hd in Hk; simpl in Hk; breflect; bcases; lia.
Qed.

(** The stock is above its high limit, the draw says reward, 4000 are on black. *)
Definition generous_algo : Algo :=
  SetBetting 1 4000 (SetAlgorithemNum 5000 0 6000 [1; 1; 2; 3; 5; 10] 3500 4500 0 new_algo).

Lemma GetOpenCard_never_witness : GetOpenCard (0, 0) 1000 demo_shuffles 0 generous_algo = None.
Proof.
  apply (GetOpenCard_never (0, 0) demo_shuffles 0 1000 generous_algo 4000); try (vm_compute; congruence).
  left. reflexivity.
Defined.

(** The user marked for a certain loss never has more on the winning colour than on the
    other one. *)
Theorem BlackGetMustKillOpenCard_loses userJetton past fuel sh k a m d a' :
  BlackGetMustKillOpenCard userJetton past fuel sh k a = Some (m, d, a') →
  userJetton.[m_winFlag a'] <= userJetton.[m_loseFlag a'].
Proof.
  intros [(j & _ & -> & -> & Hk)%deal_until_kept _]%hand_out_Some. unfold kept, color_again in Hk. cbn [andb] in Hk.
  rewrite !orb_false_r in Hk. destruct (deal_hands sh j) as (_ & _ & _ & Ec & Ec').
  pose proof (open_deal_winner sh j a) as Hw. cbv zeta in Hw, Ec'. rewrite Ec' in Hk. cbv zeta in Ec. rewrite Ec in Hk.
  destruct (lex_lt _ _); destruct Hw as (-> & -> & _); destruct (Z.ltb_spec (userJetton.[2]) (userJetton.[1]));
    simpl in Hk; unfold BalckGate, RedGate; try discriminate Hk; lia.
Qed.
