(* ===== verification/RedBlackTable.v ===== *)
(** Red against black, the table ([src/Games/Game_HongHeiLandy/CTableFrameSink.cpp]): users
    bet on three areas until the timer opens the cards, the round is settled and written
    to the balances, and the table is cleared.  [None] is a null pointer read, an index
    past an array or a sum of a message beyond [int64_t].  What only feeds the screens of the clients is left out: the open
    records, the list of the best players, the counts of chips and of card types. *)
From stdpp Require Import base list numbers option gmap.
From Stdlib Require Import ZArith Lia.
From S2P Require Import Prelude GameDefine HongHei RedBlack.

#[local] Open Scope Z_scope.

(** ** Data *)

(** The areas of the bets. *)
Definition SPECIAL : nat := 0.
Definition BLACK : nat := 1.
Definition RED : nat := 2.

Definition CHIP_COUNT : nat := 5.

(** What the table reads of the user item in a chair. *)
Record Seat := MkSeat {
  s_userId : Z;
  s_android : bool;
  s_score : Z;
  s_status : eUserStatus;
  s_trust : bool
}.
#[global] Instance eta_Seat : Settable Seat :=
  λ s, MkSeat (s_userId s) (s_android s) (s_score s) (s_status s) (s_trust s).

Record UserInfo := MkUserInfo {
  chairId : Z;
  m_lUserJettonScore : list Z;
  m_lRobotUserJettonScore : list Z;
  m_lPreUserJettonScore : list Z;
  m_EndWinScore : Z;
  m_Revenue : Z;
  m_JettonScore : list Z;
  m_WinScore : list Z;
  lTwentyAllUserScore : Z;
  lTwentyWinScore : Z;
  lTwentyWinCount : Z;
  NotBetJettonCount : Z;
  dAreaWin : list Z;
  dLastJetton : list Z
}.
#[global] Instance eta_UserInfo : Settable UserInfo := λ u,
  MkUserInfo (chairId u) (m_lUserJettonScore u) (m_lRobotUserJettonScore u) (m_lPreUserJettonScore u)
    (m_EndWinScore u) (m_Revenue u) (m_JettonScore u) (m_WinScore u) (lTwentyAllUserScore u)
    (lTwentyWinScore u) (lTwentyWinCount u) (NotBetJettonCount u) (dAreaWin u) (dLastJetton u).

Definition zeros : list Z := [0; 0; 0].

Definition new_user (chair : Z) : UserInfo :=
  MkUserInfo chair zeros zeros zeros 0 0 [] [] 0 0 0 0 zeros zeros.

(** [UserInfo::clear]. *)
Definition clear (u : UserInfo) : UserInfo :=
  u <| m_lPreUserJettonScore := m_lUserJettonScore u |> <| m_lUserJettonScore := zeros |>
    <| m_lRobotUserJettonScore := zeros |> <| m_EndWinScore := 0 |> <| m_Revenue := 0 |>
    <| dAreaWin := zeros |>.

(** The bets of a user over the three areas. *)
Definition all_bets (b : list Z) : Z := b.[SPECIAL] + b.[BLACK] + b.[RED].

(** The configuration of the game and of the room. *)
Record Config := MkConfig {
  m_HongTimes : Z;
  m_HeiTimes : Z;
  m_SpecialTimes : list Z;
  m_AreaMaxJetton : list Z;
  m_lLimitPoints : Z;
  m_bControl : bool;
  m_userScoreLevel : list Z;
  m_userChips : list (list Z);
  revenueRatio : Z;
  systemReduceRatio : Z;
  min_score : Z
}.

(** [past_array] is no member of the class: it holds the bytes the last opening of the cards
    wrote behind the local array that takes them. *)
Record Table := MkTable {
  game_status : FrameStatus;
  seats : gmap Z Seat;
  m_CurStock : Z;
  m_UserInfo : gmap Z UserInfo;
  m_lAllJettonScore : list Z;
  m_lTrueUserJettonScore : list Z;
  m_lRobotserJettonAreaScore : list Z;
  m_currentchips : gmap Z (list Z);
  m_Algorithm : Algo;
  m_cbTableCardArray : list Z;
  m_winFlag : nat;
  m_winType : Z;
  m_wincardValue : Z;
  m_TableCardType : list Z;
  m_curSystemWin : Z;
  m_listTestCardArray : list Z;
  m_cbGameStatus : FrameStatus;
  past_array : list Z
}.
#[global] Instance eta_Table : Settable Table := λ t,
  MkTable (game_status t) (seats t) (m_CurStock t) (m_UserInfo t) (m_lAllJettonScore t)
    (m_lTrueUserJettonScore t) (m_lRobotserJettonAreaScore t) (m_currentchips t) (m_Algorithm t)
    (m_cbTableCardArray t) (m_winFlag t) (m_winType t) (m_wincardValue t) (m_TableCardType t)
    (m_curSystemWin t) (m_listTestCardArray t) (m_cbGameStatus t) (past_array t).

Definition new_table : Table :=
  MkTable STATUS_INIT ∅ 0 ∅ zeros zeros zeros ∅ new_algo (replicate 6 0) 0 0 0 [0; 0] 0 [] STATUS_INIT [].

Definition chips_of (chair : Z) (t : Table) : list Z :=
  default [100; 200; 500; 1000; 5000] (m_currentchips t !! chair).

(** ** The frame below the table *)

Definition set_seat (chair : Z) (g : Seat → Seat) (t : Table) : Table := t <| seats ::= alter g chair |>.
Definition set_user (user : Z) (g : UserInfo → UserInfo) (t : Table) : Table := t <| m_UserInfo ::= alter g user |>.

Definition GetUserItemByUserId (user : Z) (t : Table) : option (Z * Seat) :=
  head (filter (λ cs, s_userId cs.2 = user) (map_to_list (seats t))).

(** A playing user keeps his chair. *)
Definition ClearTableUser (chair : Z) (t : Table) : Table :=
  match seats t !! chair with
  | Some s => if bool_decide (s_status s = sPlaying) then t else t <| seats ::= delete chair |>
  | None => t
  end.

(** ** Entering and leaving *)

(** The gear of chips for a score. *)
Definition chip_gear (cfg : Config) (score : Z) : list Z :=
  let l := m_userScoreLevel cfg in
  rget (m_userChips cfg)
    (if (l.[0] <=? score) && (score <? l.[1]) then 0
     else if (l.[1] <=? score) && (score <? l.[2]) then 1
     else if (l.[2] <=? score) && (score <? l.[3]) then 2 else 3).

Definition OnUserEnter (cfg : Config) (user : Z) (t : Table) : Table :=
  match GetUserItemByUserId user t with
  | None => t
  | Some (chair, s) =>
      let t := t <| m_cbGameStatus := game_status t |> in
      let t := if bool_decide (game_status t = STATUS_INIT)
               then t <| game_status := STATUS_START |> <| m_cbGameStatus := STATUS_START |> else t in
      let t := t <| m_currentchips ::= <[chair := chip_gear cfg (s_score s)]> |> in
      let t := match m_UserInfo t !! user with
               | None => t <| m_UserInfo ::= <[user := new_user chair]> |>
               | Some _ => t
               end in
      set_seat chair (λ s, s <| s_status := sPlaying |>) t
  end.

Definition CanLeftTable (user : Z) (t : Table) : option bool :=
  match GetUserItemByUserId user t with
  | None => Some true
  | Some _ =>
      u ← m_UserInfo t !! user;
      let totalxz := if bool_decide (game_status t = STATUS_START) then all_bets (m_lUserJettonScore u) else 0 in
      Some (negb (0 <? totalxz))
  end.

Definition OnUserLeft (user : Z) (t : Table) : option (bool * Table) :=
  match GetUserItemByUserId user t with
  | None => Some (false, t)
  | Some (chair, _) =>
      u ← m_UserInfo t !! user;
      let totalxz := if bool_decide (game_status t = STATUS_START) then all_bets (m_lUserJettonScore u) else 0 in
      let t := set_seat chair (λ s, s <| s_status := sOffline |>) t in
      if totalxz =? 0 then Some (true, ClearTableUser (chairId u) (t <| m_UserInfo ::= delete user |>))
      else Some (false, set_seat chair (λ s, s <| s_trust := true |>) t)
  end.

(** ** Bets *)

Inductive BetFail := NotBetting | BadBet | NoUser | AreaLimit | NoScore.

Definition add_at (i : nat) (x : Z) (l : list Z) : list Z := alter (λ y, y + x) i l.

(** [OnUserAddScore]: the reason of the refusal, if there is one, and the new state. *)
Definition OnUserAddScore (cfg : Config) (chair : Z) (area : nat) (lJettonScore : Z) (t : Table) : option (option BetFail * Table) :=
  if negb (bool_decide (game_status t = STATUS_START)) then Some (Some NotBetting, t)
  else if negb (existsb (λ c, c =? lJettonScore) (chips_of chair t)) || (2 <? area)%nat then Some (Some BadBet, t)
  else match seats t !! chair with
  | None => Some (Some NoUser, t)
  | Some s =>
      u ← m_UserInfo t !! s_userId s;
      let b := if s_android s then m_lRobotUserJettonScore u else m_lUserJettonScore u in
      if (m_AreaMaxJetton cfg).[area] <? b.[area] + lJettonScore then Some (Some AreaLimit, t)
      else if s_score s - all_bets b - lJettonScore <? 0 then Some (Some NoScore, t)
      else
        let t := t <| m_lAllJettonScore ::= add_at area lJettonScore |> in
        if s_android s then
          Some (None, set_user (s_userId s) (λ u, u <| m_lRobotUserJettonScore ::= add_at area lJettonScore |>)
                        (t <| m_lRobotserJettonAreaScore ::= add_at area lJettonScore |>))
        else
          Some (None, set_user (s_userId s) (λ u, u <| m_lUserJettonScore ::= add_at area lJettonScore |>)
                        (t <| m_lTrueUserJettonScore ::= add_at area lJettonScore |>))
  end.

(** The [while] loop of [Rejetton] for one area: the largest chip that fits, by its index
    from the last, again and again. *)
Fixpoint rebet_area (cfg : Config) (fuel : nat) (chair : Z) (area : nat) (rest : Z) (t : Table) : option Table :=
  if 0 <? rest then
    match fuel with
    | O => None
    | S f =>
        match find (λ c, c <=? rest) (rev (chips_of chair t)) with
        | Some c =>
            '(_, t) ← OnUserAddScore cfg chair area c t;
            let rest := rest - c in
            if rest <? (chips_of chair t).[0] then Some t else rebet_area cfg f chair area rest t
        | None => if rest <? (chips_of chair t).[0] then Some t else rebet_area cfg f chair area rest t
        end
    end
  else Some t.

(** A result of [int64_t] arithmetic; [None]: the addition overflows. *)
Definition int64 (z : Z) : option Z :=
  if (-9223372036854775808 <=? z) && (z <? 9223372036854775808) then Some z else None.

(** The sum of the stakes: zero from the first negative one on. *)
Fixpoint stake_sum (acc : Z) (l : list Z) : option Z :=
  match l with
  | [] => Some acc
  | x :: l => if x <? 0 then Some 0 else acc ← int64 (acc + x); stake_sum acc l
  end.

(** The stakes [last] on top of the bets [b] go beyond the limit of an area. *)
Fixpoint over_limit (cfg : Config) (b last : list Z) (areas : list nat) : option bool :=
  match areas with
  | [] => Some false
  | i :: areas =>
      x ← int64 (b.[i] + last.[i]);
      if (m_AreaMaxJetton cfg).[i] <? x then Some true else over_limit cfg b last areas
  end.

(** [Rejetton]: the stakes of the message overwrite [dLastJetton] from its front; a fourth
    one is written behind its three places.  The fuel of an area is its stake: a chip is
    at least one.  A negative stake ends the request before [areajetton] is used. *)
Definition Rejetton (cfg : Config) (chair : Z) (ljettonscore : list Z) (t : Table) : option Table :=
  match seats t !! chair with
  | None => Some t
  | Some s =>
      if negb (bool_decide (m_cbGameStatus t = STATUS_START)) then Some t
      else if (3 <? length ljettonscore)%nat then None
      else
        u ← m_UserInfo t !! s_userId s;
        let last := ljettonscore ++ drop (length ljettonscore) (dLastJetton u) in
        let t := set_user (s_userId s) (λ u, u <| dLastJetton := last |>) t in
        alljetton ← stake_sum 0 last;
        if (alljetton =? 0) || (s_score s <? alljetton) then Some t
        else
          over ← over_limit cfg (m_lUserJettonScore u) last [0; 1; 2]%nat;
          if over : bool then Some t
          else foldl (λ ot i, t ← ot; rebet_area cfg (Z.to_nat last.[i]) chair i last.[i] t)
                 (Some t) [0; 1; 2]%nat
  end.

(** ** The cards *)

(** How the cards are chosen: by a draw against [systemKillAllRatio] and by the black
    list of Redis, with probabilities in floating point. *)
Inductive Control :=
  | KillAll
  | Black (isxingYunYiJi ishongOrHei : bool)
  | MustKill (user : Z)
  | Plain.

(** What one opening of the cards takes from outside: the choice, the storage of the room,
    the draws, the two bytes of the stack behind the array of the loops, the test cards of
    the configuration file. *)
Record Draw := MkDraw {
  control : Control;
  lUplimit : Z;
  lLowlimit : Z;
  lEndStorage : Z;
  d_prob : Z;
  d_rand : Z;
  d_shuffles : nat → nat → Z;
  d_fuel : nat;
  d_past : Z * Z;
  d_config_cards : list Z
}.

Definition beishu (cfg : Config) : list Z := 1 :: map u8 (drop 1 (m_SpecialTimes cfg)).

(** The algorithm before it deals. *)
Definition set_algorithm (cfg : Config) (w : Draw) (t : Table) : Algo :=
  let j := m_lTrueUserJettonScore t in
  let a := SetBetting 2 j.[2] (SetBetting 1 j.[1] (SetBetting 0 j.[0] (m_Algorithm t))) in
  let a := SetAlgorithemNum (lUplimit w) (lLowlimit w) (lEndStorage w) (beishu cfg) (m_lLimitPoints cfg) (d_prob w) (d_rand w) a in
  match control w with KillAll => SetMustKill (-1) a | _ => a end.

(** What is written at the local [tmpcbTableCardArray], and the algorithm. *)
Definition open_with (w : Draw) (t : Table) (a : Algo) : option (list Z * Deal * Algo) :=
  match control w with
  | KillAll | Plain => GetOpenCard (d_past w) (d_fuel w) (d_shuffles w) 0 a
  | Black x h => BlackGetOpenCard x h (d_past w) (d_fuel w) (d_shuffles w) 0 a
  | MustKill user =>
      u ← m_UserInfo t !! user;
      BlackGetMustKillOpenCard (m_lUserJettonScore u) (d_past w) (d_fuel w) (d_shuffles w) 0 a
  end.

(** The winner and his hand from the six cards of the table. *)
Definition judge (cards : list Z) (t : Table) : Table :=
  let d := show cards in
  let t := t <| m_cbTableCardArray := take 6 cards |> <| m_TableCardType := [heiType d; hongType d] |> in
  if negb (CompareCard (hei d) (hong d) =? 0) then
    t <| m_winFlag := BLACK |> <| m_winType := heiType d |> <| m_wincardValue := heiCard d |>
  else t <| m_winFlag := RED |> <| m_winType := hongType d |> <| m_wincardValue := hongCard d |>.

(** Six test cards replace the cards of the table. *)
Definition test_cards (w : Draw) (t : Table) : Table :=
  let t := match m_listTestCardArray t with
           | [] => t <| m_listTestCardArray := d_config_cards w |>
           | _ => t
           end in
  if (5 <? length (m_listTestCardArray t))%nat
  then judge (m_listTestCardArray t) (t <| m_listTestCardArray ::= drop 6 |>)
  else t.

Definition GetOpenCards (cfg : Config) (w : Draw) (t : Table) : option Table :=
  t ← (if m_bControl cfg then
         '(m, _, a) ← open_with w t (set_algorithm cfg w t);
         Some (judge (take 6 m) (t <| m_Algorithm := a |> <| past_array := drop 6 m |>))
       else Some (judge (RandCardList (d_shuffles w 0) MAX_CARDS) t));
  let t := test_cards w t in
  let win := GetCurProfit (m_Algorithm t) in
  let win := if 0 <? win then win * (1000 - systemReduceRatio cfg) ÷ 1000 else win in
  Some (t <| m_curSystemWin := win |> <| m_CurStock ::= λ z, z + win |>).

(** ** The settlement *)

(** [cul_android] and [cul_real_user], which also keeps the wins of the areas: the revenue
    of an area replaces the one before. *)
Definition area_win (android : bool) (a : nat) (x : Z) (u : UserInfo) : UserInfo :=
  if android then u else u <| dAreaWin ::= <[a := x]> |>.

Definition cul (cfg : Config) (android : bool) (b : list Z) (winarea lostarea : option nat) (times : Z) (u : UserInfo) : UserInfo :=
  let u := match winarea with
           | Some a =>
               if 0 <? b.[a] then
                 let rev := CalculateRevenue (revenueRatio cfg) (b.[a] * times) in
                 area_win android a (b.[a] * times - rev)
                   (u <| m_Revenue := rev |> <| m_EndWinScore ::= λ z, z + (b.[a] * times - rev) |>)
               else u
           | None => u
           end in
  match lostarea with
  | Some a => if 0 <? b.[a] then area_win android a (- b.[a]) (u <| m_EndWinScore ::= λ z, z - b.[a] |>) else u
  | None => u
  end.

(** The lucky area pays. *)
Definition lucky_pays (t : Table) : bool :=
  (CT_SINGLE <? m_winType t) && (m_winType t <? 6) && (negb (m_winType t =? CT_DOUBLE) || (8 <? m_wincardValue t)).

Definition bets_of (s : Seat) (u : UserInfo) : list Z :=
  if s_android s then m_lRobotUserJettonScore u else m_lUserJettonScore u.

Definition settle_user (cfg : Config) (t : Table) (u : UserInfo) : UserInfo :=
  match seats t !! chairId u with
  | None => u
  | Some s =>
      let b := bets_of s u in
      let u :=
        if (m_winFlag t =? BLACK)%nat then cul cfg (s_android s) b (Some BLACK) (Some RED) (m_HeiTimes cfg) u
        else if (m_winFlag t =? RED)%nat then cul cfg (s_android s) b (Some RED) (Some BLACK) (m_HongTimes cfg) u
        else u in
      if lucky_pays t then cul cfg (s_android s) b (Some SPECIAL) None (m_SpecialTimes cfg).[Z.to_nat (m_winType t)] u
      else cul cfg (s_android s) b None (Some SPECIAL) 1 u
  end.

(** A list of the last twenty values. *)
Definition push20 (x : Z) (l : list Z) : list Z := (if (20 <=? length l)%nat then tail l else l) ++ [x].

Definition change_user (t : Table) (u : UserInfo) : UserInfo :=
  match seats t !! chairId u with
  | None => u
  | Some s =>
      let jetton := push20 (all_bets (bets_of s u)) (m_JettonScore u) in
      let win := push20 (m_EndWinScore u) (m_WinScore u) in
      u <| m_JettonScore := jetton |> <| m_WinScore := win |> <| lTwentyAllUserScore := sumZ jetton |>
        <| lTwentyWinScore := sumZ win |> <| lTwentyWinCount := Z.of_nat (length (filter (λ x, 0 < x) win)) |>
  end.

Definition ChangeUserInfo (t : Table) : Table := t <| m_UserInfo ::= fmap (change_user t) |>.

Definition OnEventGameConclude (cfg : Config) (w : Draw) (t : Table) : option Table :=
  t ← GetOpenCards cfg w t;
  Some (ChangeUserInfo (t <| m_UserInfo ::= fmap (settle_user cfg t) |>)).

(** [WriteUserScore] with the balance the frame keeps. *)
Definition write_user (t : Table) (u : UserInfo) : UserInfo :=
  match seats t !! chairId u with
  | None => u
  | Some s =>
      u <| NotBetJettonCount ::= λ n, if 0 <? all_bets (bets_of s u) then 0 else n + 1 |>
  end.

Definition written (u : UserInfo) (t : Table) : Table :=
  set_seat (chairId u)
    (λ s, if 0 <? all_bets (bets_of s u) then s <| s_score ::= λ z, z + m_EndWinScore u |> else s) t.

Definition WriteUserScore (t : Table) : Table :=
  map_fold (λ _ u t, written u t) (t <| m_UserInfo ::= fmap (write_user t) |>) (m_UserInfo t).

(** ** The timers *)

Definition leaves (cfg : Config) (running : bool) (s : Seat) : bool :=
  negb running || bool_decide (s_status s = sOffline) || (s_android s && (s_score s <? min_score cfg)).

(** [clearTableUser]: the ids to clear are kept as [uint32_t]. *)
Definition clearTableUser (cfg : Config) (running : bool) (t : Table) : option Table :=
  let go := filter (λ iu, match seats t !! chairId iu.2 with Some s => leaves cfg running s | None => false end = true)
              (map_to_list (m_UserInfo t)) in
  let t := foldl (λ t iu, set_seat (chairId iu.2) (λ s, s <| s_status := sOffline |>) t) t go in
  foldl (λ ot iu, t ← ot; let id := u32 iu.1 in
           u ← m_UserInfo t !! id; Some (ClearTableUser (chairId u) t <| m_UserInfo ::= delete id |>)) (Some t) go.

Definition OnTimerJetton (cfg : Config) (w : Draw) (running : bool) (t : Table) : option Table :=
  t ← OnEventGameConclude cfg w t;
  clearTableUser cfg running (WriteUserScore t <| game_status := STATUS_END |> <| m_cbGameStatus := STATUS_END |>).

Definition ClearTableData (t : Table) : Table :=
  t <| m_lAllJettonScore := zeros |> <| m_lTrueUserJettonScore := zeros |> <| m_lRobotserJettonAreaScore := zeros |>
    <| m_cbTableCardArray := replicate 6 0 |>
    <| m_UserInfo ::= fmap (λ u, match seats t !! chairId u with
                                 | Some _ => clear (u <| dLastJetton := m_lUserJettonScore u |>)
                                 | None => u
                                 end) |>.

(** [OnTimerEnd]: [ConcludeGame] sets the status and tells whether the server stops. *)
Definition OnTimerEnd (server_stopped : bool) (t : Table) : Table :=
  let t := ClearTableData t <| game_status := STATUS_START |> in
  if server_stopped then t else t <| m_cbGameStatus := STATUS_START |>.

(** ** The table as a transition system *)

(** A user the frame has seated comes in, comes back, leaves or loses his connection; a
    message; a timer. *)
Inductive Event :=
  | EEnter (chair : Z) (user : Z) (android : bool) (score : Z)
  | EReturn (user : Z)
  | ELeft (user : Z)
  | EBet (chair : Z) (area : nat) (score : Z)
  | ERejetton (chair : Z) (scores : list Z)
  | EJetton (w : Draw) (running : bool)
  | EEnd.

(** The frame marks a user who leaves as offline before it asks the table. *)
Definition exec (cfg : Config) (e : Event) (t : Table) : option Table :=
  match e with
  | EEnter chair user android score =>
      Some (OnUserEnter cfg user (t <| seats ::= <[chair := MkSeat user android score sSit false]> |>))
  | EReturn user =>
      match GetUserItemByUserId user t with
      | Some (chair, _) => Some (OnUserEnter cfg user (set_seat chair (λ s, s <| s_trust := false |>) t))
      | None => Some t
      end
  | ELeft user =>
      match GetUserItemByUserId user t with
      | Some (chair, _) =>
          snd <$> OnUserLeft user (set_seat chair (λ s, s <| s_status := sOffline |> <| s_trust := true |>) t)
      | None => Some t
      end
  | EBet chair area score => snd <$> OnUserAddScore cfg chair area score t
  | ERejetton chair scores => Rejetton cfg chair scores t
  | EJetton w running => OnTimerJetton cfg w running t
  | EEnd => Some (OnTimerEnd false t)
  end.
