(* ===== verification/RedBlackInv.v ===== *)
(** Red against black, the invariant of the table: users and chairs are in step, the bets
    of a user are within his balance and the limits of the areas, and the sums the cards
    are chosen by are the sums of the bets. *)
From stdpp Require Import base list numbers option gmap relations.
From Stdlib Require Import ZArith Lia.
From S2P Require Import Prelude GameDefine HongHei RedBlack RedBlackTable.

#[local] Open Scope Z_scope.

(** ** Sums over a map *)

Definition sum_over {A} (f : A → Z) (m : gmap Z A) : Z := sumZ (map (f ∘ snd) (map_to_list m)).

Lemma sum_over_empty {A} (f : A → Z) : sum_over f ∅ = 0.
Proof. done. Qed.

Lemma sum_over_insert {A} (f : A → Z) i x (m : gmap Z A) : m !! i = None →
  sum_over f (<[i := x]> m) = f x + sum_over f m.
Proof. intros Hi. unfold sum_over. by rewrite (sumZ_perm _ _ (fmap_Permutation _ _ _ (map_to_list_insert m i x Hi))). Qed.

Lemma sum_over_delete {A} (f : A → Z) i x (m : gmap Z A) : m !! i = Some x →
  sum_over f m = f x + sum_over f (delete i m).
Proof.
  intros Hi. rewrite <- (insert_delete_id m i x Hi) at 1. apply sum_over_insert, lookup_delete_eq.
Qed.

Lemma sum_over_alter {A} (f : A → Z) g i x (m : gmap Z A) : m !! i = Some x →
  sum_over f (alter g i m) = sum_over f m + (f (g x) - f x).
Proof.
  intros Hi. rewrite (sum_over_delete f i x m Hi).
  rewrite (sum_over_delete f i (g x)) by (by rewrite lookup_alter_eq, Hi).
  rewrite delete_alter_eq. lia.
Qed.

Lemma sum_over_ext {A B} (f : A → Z) (g : B → Z) (m : gmap Z A) (k : gmap Z B) :
  (∀ i, f <$> m !! i = g <$> k !! i) → sum_over f m = sum_over g k.
Proof.
  revert k. induction m as [|i x m Hi IH] using map_ind; intros k Hk.
  - assert (k = ∅) as ->; [|done]. apply map_empty. intros i. specialize (Hk i). rewrite lookup_empty in Hk.
    by destruct (k !! i).
  - pose proof (Hk i) as Hki. rewrite lookup_insert_eq in Hki. destruct (k !! i) as [y|] eqn:Ek; [|done].
    simpl in Hki. rewrite sum_over_insert by done. rewrite (sum_over_delete g i y k Ek).
    rewrite (IH (delete i k)); [by injection Hki as ->|]. intros j. destruct (decide (i = j)) as [<-|Hne].
    + by rewrite Hi, lookup_delete_eq.
    + rewrite lookup_delete_ne by done. rewrite <- (Hk j). by rewrite lookup_insert_ne.
Qed.

Lemma sum_over_add {A} (f g : A → Z) (m : gmap Z A) : sum_over (λ x, f x + g x) m = sum_over f m + sum_over g m.
Proof.
  induction m as [|i x m Hi IH] using map_ind; [done|]. rewrite !sum_over_insert by done. lia.
Qed.

Lemma sum_over_zero {A} (f : A → Z) (m : gmap Z A) : (∀ i x, m !! i = Some x → f x = 0) → sum_over f m = 0.
Proof.
  intros H. rewrite (sum_over_ext f (λ _ : A, 0) m m).
  - clear H. induction m as [|i x m Hi IH] using map_ind; [done|]. by rewrite sum_over_insert, IH.
  - intros i. specialize (H i). destruct (m !! i); [|done]. simpl. by rewrite (H a).
Qed.

Lemma sum_over_nonneg {A} (f : A → Z) (m : gmap Z A) : (∀ i x, m !! i = Some x → 0 <= f x) → 0 <= sum_over f m.
Proof.
  induction m as [|i x m Hi IH] using map_ind; intros H; [done|]. rewrite sum_over_insert by done.
  pose proof (H i x). rewrite lookup_insert_eq in H0. specialize (H0 eq_refl).
  assert (0 <= sum_over f m); [|lia]. apply IH. intros j y Hj. apply (H j). rewrite lookup_insert_ne; [done|]. congruence.
Qed.

(** ** The invariant *)

(** Every user of the table sits in his chair, everyone in a chair is a user. *)
Record paired (t : Table) : Prop := {
  user_seat : ∀ id u, m_UserInfo t !! id = Some u → ∃ s, seats t !! chairId u = Some s ∧ s_userId s = id;
  seat_user : ∀ c s, seats t !! c = Some s → ∃ u, m_UserInfo t !! s_userId s = Some u ∧ chairId u = c
}.

(** Three amounts, none of them negative. *)
Definition amounts (b : list Z) : Prop := length b = 3%nat ∧ Forall (λ x, 0 <= x) b.

(** The bets of a user: robots and real users have lists of their own. *)
Definition shaped (s : Seat) (u : UserInfo) : Prop :=
  0 <= s_score s ∧ amounts (m_lUserJettonScore u) ∧ amounts (m_lRobotUserJettonScore u) ∧
  length (dLastJetton u) = 3%nat ∧
  if s_android s then m_lUserJettonScore u = zeros else m_lRobotUserJettonScore u = zeros.

(** While bets are taken: they are within the balance and the limits, nothing is settled. *)
Definition betting (cfg : Config) (s : Seat) (u : UserInfo) : Prop :=
  all_bets (bets_of s u) <= s_score s ∧ (∀ a, (a < 3)%nat → (bets_of s u).[a] <= (m_AreaMaxJetton cfg).[a]) ∧
  m_EndWinScore u = 0 ∧ m_Revenue u = 0.

Record inv (cfg : Config) (t : Table) : Prop := {
  inv_paired : paired t;
  inv_id : ∀ id u, m_UserInfo t !! id = Some u → 0 < id < 4294967296;
  inv_user : ∀ id u s, m_UserInfo t !! id = Some u → seats t !! chairId u = Some s → shaped s u;
  inv_bets : game_status t ≠ STATUS_END →
    ∀ id u s, m_UserInfo t !! id = Some u → seats t !! chairId u = Some s → betting cfg s u;
  inv_length : length (m_lTrueUserJettonScore t) = 3%nat;
  inv_algo : length (bettingQuantity (m_Algorithm t)) = 3%nat;
  inv_true : game_status t ≠ STATUS_END → ∀ a, (a < 3)%nat →
    (m_lTrueUserJettonScore t).[a] = sum_over (λ u, (m_lUserJettonScore u).[a]) (m_UserInfo t);
  inv_status : m_cbGameStatus t = game_status t ∧ game_status t ≠ STATUS_FREE ∧
    (game_status t = STATUS_INIT → m_UserInfo t = ∅);
  inv_chips : ∀ c, length (chips_of c t) = CHIP_COUNT ∧ Forall (λ x, 0 < x) (chips_of c t)
}.

(** What the configuration must satisfy. *)
Record config_ok (cfg : Config) : Prop := {
  ok_max : ∀ a, (a < 3)%nat → 0 <= (m_AreaMaxJetton cfg).[a];
  ok_gears : length (m_userChips cfg) = 4%nat;
  ok_chips : Forall (λ l, length l = CHIP_COUNT ∧ Forall (λ x, 0 < x) l) (m_userChips cfg);
  ok_times : m_HeiTimes cfg = 1 ∧ m_HongTimes cfg = 1;
  ok_special : length (m_SpecialTimes cfg) = 6%nat ∧ Forall (λ x, 0 <= x < 256) (m_SpecialTimes cfg);
  ok_revenue : 0 <= revenueRatio cfg <= 100
}.

(** ** Pairing *)

Lemma unseated user t : GetUserItemByUserId user t = None → ∀ c s, seats t !! c = Some s → s_userId s ≠ user.
Proof.
  unfold GetUserItemByUserId. intros H c s Hs E.
  assert ((c, s) ∈ filter (λ cs : Z * Seat, s_userId cs.2 = user) (map_to_list (seats t))) as Hin.
  { apply list_elem_of_filter. split; [done|]. by apply elem_of_map_to_list. }
  destruct (filter _ _); [by apply elem_of_nil in Hin|done].
Qed.

Section Pairing.
Context (t : Table) (Hp : paired t).

Lemma same_chair i j u v : m_UserInfo t !! i = Some u → m_UserInfo t !! j = Some v → chairId u = chairId v → i = j.
Proof.
  intros Hi Hj E. destruct (user_seat _ Hp i u Hi) as (s & Hs & <-).
  destruct (user_seat _ Hp j v Hj) as (s' & Hs' & <-). rewrite E in Hs. congruence.
Qed.

Lemma find_seat user chair s : GetUserItemByUserId user t = Some (chair, s) →
  seats t !! chair = Some s ∧ s_userId s = user.
Proof.
  unfold GetUserItemByUserId. intros H. destruct (filter _ _) as [|[c x] l] eqn:E; [done|]. injection H as -> ->.
  assert ((chair, s) ∈ filter (λ cs : Z * Seat, s_userId cs.2 = user) (map_to_list (seats t))) as Hin by (rewrite E; by left).
  apply list_elem_of_filter in Hin as [Hu Hin]. by apply elem_of_map_to_list in Hin.
Qed.

Lemma find_seat_user user chair s : GetUserItemByUserId user t = Some (chair, s) →
  ∃ u, m_UserInfo t !! user = Some u ∧ chairId u = chair.
Proof. intros [Hs <-]%find_seat. by apply (seat_user _ Hp). Qed.

Lemma find_seat_None user : GetUserItemByUserId user t = None → m_UserInfo t !! user = None.
Proof.
  intros H. destruct (m_UserInfo t !! user) as [u|] eqn:E; [|done]. exfalso.
  destruct (user_seat _ Hp user u E) as (s & Hs & Hu). by apply (unseated user t H _ s Hs).
Qed.
End Pairing.

(** A user and his chair go together. *)
Lemma paired_remove t t' id u : paired t → m_UserInfo t !! id = Some u →
  m_UserInfo t' = delete id (m_UserInfo t) → seats t' = delete (chairId u) (seats t) → paired t'.
Proof.
  intros Hp Hu Em Es. split; rewrite Em, Es.
  - intros i v [Hne Hv]%lookup_delete_Some. destruct (user_seat _ Hp i v Hv) as (s & Hs & <-).
    exists s. split; [|done]. rewrite lookup_delete_ne; [done|]. intros E.
    apply Hne. by apply (same_chair t Hp id (s_userId s) u v).
  - intros c s [Hne Hs]%lookup_delete_Some. destruct (seat_user _ Hp c s Hs) as (v & Hv & Ec).
    exists v. split; [|done]. rewrite lookup_delete_ne; [done|]. intros E. congruence.
Qed.

(** A change that keeps ids and chairs keeps the pairing. *)
Lemma paired_map t t' (f : Z → UserInfo → UserInfo) (g : Z → Seat → Seat) : paired t →
  (∀ i, m_UserInfo t' !! i = f i <$> m_UserInfo t !! i) → (∀ c, seats t' !! c = g c <$> seats t !! c) →
  (∀ i u, chairId (f i u) = chairId u) → (∀ c s, s_userId (g c s) = s_userId s) → paired t'.
Proof.
  intros Hp Hf Hg Ef Eg. split.
  - intros i v. rewrite Hf. intros (u & Hu & ->)%fmap_Some. destruct (user_seat _ Hp i u Hu) as (s & Hs & <-).
    exists (g (chairId u) s). rewrite Ef, Hg, Hs. done.
  - intros c s'. rewrite Hg. intros (s & Hs & ->)%fmap_Some. destruct (seat_user _ Hp c s Hs) as (u & Hu & <-).
    exists (f (s_userId s) u). rewrite Eg, Hf, Hu. done.
Qed.
