(* ===== verification/RedBlackSteps.v ===== *)
(** Red against black, the events keep the invariant of the table: users come, return and
    leave, bets are placed, the round is settled and cleared.  No event meets a null
    pointer. *)
From stdpp Require Import base list numbers option gmap relations.
From Stdlib Require Import ZArith Lia.
From S2P Require Import Prelude GameDefine HongHei RedBlack RedBlackTable RedBlackInv.

#[local] Open Scope Z_scope.

(** ** Amounts *)

Lemma amounts_zeros : amounts zeros.
Proof. split; [done|]. repeat constructor; lia. Qed.

Lemma amounts_get b a : amounts b → 0 <= b.[a].
Proof. intros [_ H]. by apply Forall_aget. Qed.

Lemma add_at_get i x b a : (a < length b)%nat → (add_at i x b).[a] = b.[a] + (if (a =? i)%nat then x else 0).
Proof.
  intros Ha. unfold add_at, aget. destruct (lookup_lt_is_Some_2 b a Ha) as [y Hy].
  destruct (Nat.eqb_spec a i) as [->|Hne].
  - by rewrite list_lookup_alter_eq, Hy.
  - rewrite list_lookup_alter_ne by done. rewrite Hy. simpl. lia.
Qed.

Lemma add_at_length i x b : length (add_at i x b) = length b.
Proof. apply length_alter. Qed.

Lemma amounts_add i x b : amounts b → 0 <= b.[i] + x → amounts (add_at i x b).
Proof.
  intros [Hl Hb] Hx. split; [by rewrite add_at_length|]. apply Forall_lookup. intros a y Hy.
  assert (a < length b)%nat as Ha by (rewrite <- (add_at_length i x); by eapply lookup_lt_Some).
  apply aget_lookup in Hy. rewrite add_at_get in Hy by done.
  pose proof (amounts_get b a (conj Hl Hb)). destruct (Nat.eqb_spec a i) as [->|]; lia.
Qed.

Lemma all_bets_add i x b : length b = 3%nat → (i < 3)%nat → all_bets (add_at i x b) = all_bets b + x.
Proof.
  intros Hl Hi. unfold all_bets, SPECIAL, BLACK, RED. rewrite !add_at_get by lia.
  destruct i as [|[|[|]]]; simpl; lia.
Qed.

Lemma all_bets_nonneg b : amounts b → 0 <= all_bets b.
Proof.
  intros H. unfold all_bets. pose proof (amounts_get b SPECIAL H). pose proof (amounts_get b BLACK H).
  pose proof (amounts_get b RED H). lia.
Qed.

Lemma amounts_le_all b i : amounts b → b.[i] <= all_bets b.
Proof.
  intros H. pose proof (all_bets_nonneg b H). pose proof (amounts_get b SPECIAL H). pose proof (amounts_get b BLACK H).
  pose proof (amounts_get b RED H). unfold all_bets, SPECIAL, BLACK, RED in *. destruct H as [Hl _].
  destruct i as [|[|[|i]]]; [lia..|]. unfold aget at 1. rewrite lookup_ge_None_2 by lia. simpl. lia.
Qed.

(** One of several amounts is at most their sum. *)
Lemma Forall_aget_sum l i : Forall (λ x, 0 <= x) l → l.[i] <= sumZ l.
Proof.
  intros H. pose proof (sumZ_nonneg _ H) as Hn. revert i. induction H as [|x l Hx Hl IH]; intros i; [by destruct i|].
  pose proof (sumZ_nonneg _ Hl) as Hn'. destruct i as [|i]; unfold aget in *; simpl in *; [lia|]. specialize (IH Hn' i). lia.
Qed.

Lemma all_bets_zero b : amounts b → all_bets b = 0 → ∀ a, (a < 3)%nat → b.[a] = 0.
Proof.
  intros H. unfold all_bets. pose proof (amounts_get b SPECIAL H). pose proof (amounts_get b BLACK H).
  pose proof (amounts_get b RED H). unfold SPECIAL, BLACK, RED in *. intros E [|[|[|]]] Ha; lia.
Qed.

(** The bets of a user are one of his two lists, the other is empty. *)
Lemma bets_amounts s u : shaped s u → amounts (bets_of s u).
Proof. intros (_ & H1 & H2 & _). unfold bets_of. by destruct (s_android s). Qed.

(** ** Placing a bet *)

Section Steps.
Context (cfg : Config) (Hcfg : config_ok cfg).

(** A bet of a user with a chair, as one update of the table. *)
Definition placed (c : Z) (s : Seat) (area : nat) (x : Z) (t : Table) : Table :=
  let t := t <| m_lAllJettonScore ::= add_at area x |> in
  if s_android s then
    set_user (s_userId s) (λ u, u <| m_lRobotUserJettonScore ::= add_at area x |>)
      (t <| m_lRobotserJettonAreaScore ::= add_at area x |>)
  else
    set_user (s_userId s) (λ u, u <| m_lUserJettonScore ::= add_at area x |>)
      (t <| m_lTrueUserJettonScore ::= add_at area x |>).

Lemma placed_users c s area x t : m_UserInfo (placed c s area x t) =
  alter (λ u, if s_android s then u <| m_lRobotUserJettonScore ::= add_at area x |>
              else u <| m_lUserJettonScore ::= add_at area x |>) (s_userId s) (m_UserInfo t).
Proof. unfold placed, set_user. by destruct (s_android s). Qed.

Lemma placed_kept c s area x t : let t' := placed c s area x t in
  seats t' = seats t ∧ game_status t' = game_status t ∧ m_cbGameStatus t' = m_cbGameStatus t ∧
  (∀ d, chips_of d t' = chips_of d t) ∧
  m_Algorithm t' = m_Algorithm t ∧
  m_lTrueUserJettonScore t' = if s_android s then m_lTrueUserJettonScore t else add_at area x (m_lTrueUserJettonScore t).
Proof. unfold placed, set_user, chips_of. by destruct (s_android s). Qed.

Lemma placed_past c s area x t : past_array (placed c s area x t) = past_array t.
Proof. unfold placed, set_user. by destruct (s_android s). Qed.

(** What a bet that counts has passed. *)
Record bet_ok (t : Table) (c : Z) (area : nat) (x : Z) (s : Seat) (u : UserInfo) : Prop := {
  bet_area : (area < 3)%nat;
  bet_pos : 0 < x;
  bet_seat : seats t !! c = Some s;
  bet_user : m_UserInfo t !! s_userId s = Some u;
  bet_max : (bets_of s u).[area] + x <= (m_AreaMaxJetton cfg).[area];
  bet_score : all_bets (bets_of s u) + x <= s_score s
}.

(** [OnUserAddScore] never reads a null pointer; it refuses and changes nothing, or
    places a bet that passed every check. *)
Lemma OnUserAddScore_cases t c area x : inv cfg t → ∃ r t', OnUserAddScore cfg c area x t = Some (r, t') ∧
  (r ≠ None ∧ t' = t ∨ r = None ∧ game_status t = STATUS_START ∧ ∃ s u, bet_ok t c area x s u ∧ t' = placed c s area x t).
Proof.
  intros Hi. unfold OnUserAddScore. case_bool_decide as Hst; simpl; [|by do 2 eexists; split; [done|left]].
  destruct (existsb _ _) eqn:Ec; simpl; [|by do 2 eexists; split; [done|left]].
  destruct (Nat.ltb_spec 2 area) as [|Ha]; [by do 2 eexists; split; [done|left]|].
  destruct (seats t !! c) as [s|] eqn:Es; [|by do 2 eexists; split; [done|left]].
  destruct (seat_user _ (inv_paired _ _ Hi) c s Es) as (u & Hu & Echair). rewrite Hu. simpl.
  fold (bets_of s u). destruct (Z.ltb_spec ((m_AreaMaxJetton cfg).[area]) ((bets_of s u).[area] + x)) as [|Hmax];
    [by do 2 eexists; split; [done|left]|].
  destruct (Z.ltb_spec (s_score s - all_bets (bets_of s u) - x) 0) as [|Hsc]; [by do 2 eexists; split; [done|left]|].
  exists None, (placed c s area x t). split; [unfold placed; by destruct (s_android s)|]. right.
  split; [done|]. split; [done|]. exists s, u. split; [|done]. split; try done; [lia| |lia].
  apply existsb_exists in Ec as (y & Hy & Exy). apply Z.eqb_eq in Exy as ->.
  pose proof (proj2 (inv_chips _ _ Hi c)) as Hpos. rewrite Forall_forall in Hpos. by apply Hpos, list_elem_of_In.
Qed.

Lemma inv_placed t c area x s u : inv cfg t → game_status t = STATUS_START → bet_ok t c area x s u →
  inv cfg (placed c s area x t).
Proof.
  intros Hi Hst [Ha Hx Hs Hu Hmax Hsc].
  destruct (placed_kept c s area x t) as (K1 & K2 & K3 & K4 & K7 & K5). pose proof (placed_users c s area x t) as K6.
  set (g := λ u : UserInfo, _) in K6. set (t' := placed c s area x t) in *.
  assert (chairId u = c) as Ec.
  { destruct (seat_user _ (inv_paired _ _ Hi) c s Hs) as (v & Hv & E). congruence. }
  pose proof (inv_user _ _ Hi _ _ _ Hu ltac:(by rewrite Ec)) as Hsh.
  pose proof (inv_bets _ _ Hi ltac:(by rewrite Hst) _ _ _ Hu ltac:(by rewrite Ec)) as Hbet.
  assert (bets_of s (g u) = add_at area x (bets_of s u)) as Eb by (unfold bets_of, g; by destruct (s_android s)).
  assert (∀ P : UserInfo → Seat → Prop, (∀ i v r, m_UserInfo t !! i = Some v → seats t !! chairId v = Some r → P v r) → P (g u) s →
    ∀ i v r, m_UserInfo t' !! i = Some v → seats t' !! chairId v = Some r → P v r) as Hall.
  { intros P HP Hgu i v r. rewrite K6, K1. destruct (decide (i = s_userId s)) as [->|Hne].
    - rewrite lookup_alter_eq, Hu. intros [= <-]. replace (chairId (g u)) with c by (rewrite <- Ec; unfold g; by destruct (s_android s)).
      rewrite Hs. by intros [= <-].
    - rewrite lookup_alter_ne by done. apply HP. }
  split.
  - apply (paired_map t t' (λ i, if decide (i = s_userId s) then g else id) (λ _, id)); [apply Hi|..].
    + intros i. rewrite K6. case_decide as E; [by rewrite E, lookup_alter_eq|].
      rewrite lookup_alter_ne by done. by destruct (_ !! i).
    + intros d. rewrite K1. by destruct (_ !! d).
    + intros i v. case_decide; [|done]. unfold g. by destruct (s_android s).
    + done.
  - intros i v. rewrite K6. destruct (decide (i = s_userId s)) as [->|Hne]; [intros _; by apply (inv_id _ _ Hi _ u)|].
    rewrite lookup_alter_ne by done. apply (inv_id _ _ Hi).
  - apply (Hall (λ v r, shaped r v)); [intros i v r; apply (inv_user _ _ Hi)|].
    destruct Hsh as (H1 & H2 & H3 & H4 & H5). unfold g, shaped. destruct (s_android s); simpl.
    + repeat split; try done; try apply H2. all: apply amounts_add; [done|]. all: pose proof (amounts_get _ area H3); lia.
    + repeat split; try done; try apply H3. all: apply amounts_add; [done|]. all: pose proof (amounts_get _ area H2); lia.
  - intros Hne. apply (Hall (λ v r, betting cfg r v)); [intros i v r; apply (inv_bets _ _ Hi); by rewrite Hst|].
    destruct Hbet as (B1 & B2 & B3 & B4). destruct (bets_amounts _ _ Hsh) as [Hl _].
    unfold betting. rewrite Eb, all_bets_add by lia. split; [lia|]. split.
    + intros a Hlt. rewrite add_at_get by lia. pose proof (B2 a Hlt). destruct (Nat.eqb_spec a area) as [->|]; lia.
    + unfold g. by destruct (s_android s).
  - rewrite K5. destruct (s_android s); [|rewrite add_at_length]; apply Hi.
  - rewrite K7. apply Hi.
  - intros _ a Hlt. rewrite K5, K6. rewrite (sum_over_alter _ g _ u) by done.
    pose proof (inv_true _ _ Hi ltac:(by rewrite Hst) a Hlt) as Ht. destruct Hsh as (_ & [H2 _] & _).
    destruct (s_android s) eqn:Ea; unfold g; simpl.
    + rewrite Ht. lia.
    + rewrite !add_at_get by (rewrite ?(inv_length _ _ Hi); lia). rewrite Ht. lia.
  - rewrite K2, K3, K6. pose proof (inv_status _ _ Hi) as (E1 & E2 & E3). split; [done|]. split; [done|].
    rewrite Hst. done.
  - intros d. rewrite K4. apply (inv_chips _ _ Hi).
Qed.

(** ** Updates of every user and chair in place *)

Lemma inv_map t t' (f : Z → UserInfo → UserInfo) (g : Z → Seat → Seat) : inv cfg t →
  (∀ i, m_UserInfo t' !! i = f i <$> m_UserInfo t !! i) → (∀ c, seats t' !! c = g c <$> seats t !! c) →
  (∀ i u, chairId (f i u) = chairId u) → (∀ c s, s_userId (g c s) = s_userId s) →
  (∀ i u s, m_UserInfo t !! i = Some u → seats t !! chairId u = Some s → shaped s u → shaped (g (chairId u) s) (f i u)) →
  (game_status t' ≠ STATUS_END → ∀ i u s, m_UserInfo t !! i = Some u → seats t !! chairId u = Some s →
    shaped s u → (game_status t ≠ STATUS_END → betting cfg s u) → betting cfg (g (chairId u) s) (f i u)) →
  length (m_lTrueUserJettonScore t') = 3%nat → length (bettingQuantity (m_Algorithm t')) = 3%nat →
  (game_status t' ≠ STATUS_END → ∀ a, (a < 3)%nat →
    (m_lTrueUserJettonScore t').[a] = sum_over (λ u, (m_lUserJettonScore u).[a]) (m_UserInfo t')) →
  (m_cbGameStatus t' = game_status t' ∧ game_status t' ≠ STATUS_FREE ∧ (game_status t' = STATUS_INIT → m_UserInfo t' = ∅)) →
  (∀ c, length (chips_of c t') = CHIP_COUNT ∧ Forall (λ x, 0 < x) (chips_of c t')) → inv cfg t'.
Proof.
  intros Hi Hf Hg Ef Eg Hsh Hbet Hlen Halg Htrue Hst Hch.
  assert (∀ i v r, m_UserInfo t' !! i = Some v → seats t' !! chairId v = Some r →
    ∃ u s, m_UserInfo t !! i = Some u ∧ seats t !! chairId u = Some s ∧ v = f i u ∧ r = g (chairId u) s) as Hinv.
  { intros i v r. rewrite Hf. intros (u & Hu & ->)%fmap_Some. rewrite Ef, Hg. intros (s & Hs & ->)%fmap_Some. by exists u, s. }
  split; [|..|done|done|done|done|done].
  - by apply (paired_map t t' f g); [apply Hi|..].
  - intros i v. rewrite Hf. intros (u & Hu & ->)%fmap_Some. by apply (inv_id _ _ Hi _ u).
  - intros i v r Hv Hr. destruct (Hinv i v r Hv Hr) as (u & s & Hu & Hs & -> & ->).
    apply Hsh; [done|done|]. by apply (inv_user _ _ Hi i).
  - intros Hne i v r Hv Hr. destruct (Hinv i v r Hv Hr) as (u & s & Hu & Hs & -> & ->).
    apply Hbet; [done|done|done|by apply (inv_user _ _ Hi i)|]. intros Hne'. by apply (inv_bets _ _ Hi Hne' i).
Qed.

(** The sum of the bets when no user's bets change. *)
Lemma sum_bets_same a t t' (f : Z → UserInfo → UserInfo) : (∀ i, m_UserInfo t' !! i = f i <$> m_UserInfo t !! i) →
  (∀ i u, m_lUserJettonScore (f i u) = m_lUserJettonScore u) →
  sum_over (λ u, (m_lUserJettonScore u).[a]) (m_UserInfo t') = sum_over (λ u, (m_lUserJettonScore u).[a]) (m_UserInfo t).
Proof.
  intros Hf E. apply sum_over_ext. intros i. rewrite Hf. destruct (m_UserInfo t !! i); [|done]. simpl. by rewrite E.
Qed.

(** ** Betting again *)

Lemma rebet_area_ok fuel c a rest t : inv cfg t → game_status t = STATUS_START → (Z.to_nat rest ≤ fuel)%nat →
  ∃ t', rebet_area cfg fuel c a rest t = Some t' ∧ inv cfg t' ∧ game_status t' = STATUS_START ∧ seats t' = seats t ∧
    chips_of c t' = chips_of c t ∧ past_array t' = past_array t.
Proof.
  revert rest t. induction fuel as [|fuel IH]; intros rest t Hi Hst Hf; simpl.
  { replace (0 <? rest) with false by (symmetry; apply Z.ltb_ge; lia). by exists t. }
  destruct (Z.ltb_spec 0 rest) as [Hr|]; [|by exists t].
  pose proof (inv_chips _ _ Hi c) as [Hcl Hcp]. rewrite Forall_forall in Hcp.
  destruct (find _ _) as [x|] eqn:Ef.
  - apply find_some in Ef as [Hin Hle]. apply in_rev, list_elem_of_In, Hcp in Hin. apply Z.leb_le in Hle.
    destruct (OnUserAddScore_cases t c a x Hi) as (r & t1 & E & Hcase). rewrite E. simpl.
    assert (inv cfg t1 ∧ game_status t1 = STATUS_START ∧ seats t1 = seats t ∧ chips_of c t1 = chips_of c t ∧
      past_array t1 = past_array t) as (Hi1 & H1 & H2 & H3 & H4).
    { destruct Hcase as [[_ ->]|(_ & _ & s & u & Hok & ->)]; [done|].
      destruct (placed_kept c s a x t) as (K1 & K2 & _ & K4 & _). rewrite K1, K2, K4, placed_past.
      split; [by apply (inv_placed t c a x s u)|done]. }
    destruct (rest - x <? _); [by exists t1|]. destruct (IH (rest - x) t1 Hi1 H1) as (t' & -> & Hi' & G1 & G2 & G3 & G4); [lia|].
    exists t'. split; [done|]. rewrite G2, G3, G4. done.
  - replace (rest <? (chips_of c t).[0]) with true; [by exists t|]. symmetry. apply Z.ltb_lt.
    destruct (chips_of c t) as [|y l] eqn:El; [done|]. pose proof (find_none _ _ Ef y) as Hn.
    assert (In y (rev (y :: l))) as Hin by (apply -> in_rev; by left). specialize (Hn Hin). by apply Z.leb_gt in Hn.
Qed.

Lemma int64_None z : int64 z = None → 0 <= z → 9223372036854775808 <= z.
Proof.
  unfold int64.  intros H Hz.
  destruct (Z.leb_spec (-9223372036854775808) z), (Z.ltb_spec z 9223372036854775808); simpl in H; (done || lia).
Qed.

Lemma int64_Some z x : int64 z = Some x → x = z.
Proof. unfold int64. case_match; [by intros [= <-]|done]. Qed.

Lemma stake_sum_None acc l : 0 <= acc → stake_sum acc l = None →
  ∃ k, Forall (λ x, 0 <= x) (take k l) ∧ 9223372036854775808 <= acc + sumZ (take k l).
Proof.
  revert acc. induction l as [|x l IH]; intros acc Ha; simpl; [done|].
  destruct (Z.ltb_spec x 0) as [|Hx]; [done|]. destruct (int64 (acc + x)) as [y|] eqn:Ey; cbn.
  - apply int64_Some in Ey as ->. intros (k & H1 & H2)%IH; [|lia]. exists (S k). simpl. split; [by constructor|lia].
  - intros _. apply int64_None in Ey; [|lia]. exists 1%nat. simpl. rewrite take_0. split; [by repeat constructor|simpl; lia].
Qed.

(** A sum that is not zero is the sum of stakes none of which is negative. *)
Lemma stake_sum_Some acc l z : stake_sum acc l = Some z → z ≠ 0 → z = acc + sumZ l ∧ Forall (λ x, 0 <= x) l.
Proof.
  revert acc. induction l as [|x l IH]; intros acc; simpl; [intros [= <-]; split; [lia|constructor]|].
  destruct (Z.ltb_spec x 0) as [|Hx]; [by intros [= <-]|]. destruct (int64 (acc + x)) as [y|] eqn:Ey; [|done].
  apply int64_Some in Ey as ->. cbn. intros H Hz. destruct (IH _ H Hz) as [-> Hl]. split; [lia|by constructor].
Qed.

Lemma over_limit_None b last areas m : (∀ i, 0 <= b.[i] <= m ∧ 0 <= last.[i] <= m) →
  over_limit cfg b last areas = None → 4611686018427387904 <= m.
Proof.
  intros Hb. induction areas as [|i areas IH]; simpl; [done|]. pose proof (Hb i).
  destruct (int64 _) as [x|] eqn:Ex; cbn; [case_match; [done|exact IH]|].
  intros _. apply int64_None in Ex; lia.
Qed.

(** The requests to bet again that fail: a fourth stake, a sum of stakes beyond [int64_t],
    and, for a balance of 2^62 and more, perhaps a bet and a stake. *)
Definition rejetton_fails (t : Table) (c : Z) (l : list Z) : Prop :=
  ∃ s u, seats t !! c = Some s ∧ m_UserInfo t !! s_userId s = Some u ∧
    ((3 < length l)%nat ∨
     (∃ k, let last := l ++ drop (length l) (dLastJetton u) in
        Forall (λ x, 0 <= x) (take k last) ∧ 9223372036854775808 <= sumZ (take k last)) ∨
     4611686018427387904 <= s_score s).

Lemma inv_Rejetton t c l : inv cfg t →
  (∃ t', Rejetton cfg c l t = Some t' ∧ inv cfg t' ∧ past_array t' = past_array t) ∨
  (Rejetton cfg c l t = None ∧ game_status t = STATUS_START ∧ rejetton_fails t c l).
Proof.
  intros Hi. unfold Rejetton. destruct (seats t !! c) as [s|] eqn:Es; [|left; by exists t].
  case_bool_decide as Hst; cbn [negb]; [|left; by exists t].
  assert (game_status t = STATUS_START) as Hgs by (by rewrite <- (proj1 (inv_status _ _ Hi))).
  destruct (seat_user _ (inv_paired _ _ Hi) c s Es) as (u & Hu & Ec). rewrite Hu. cbn [mbind option_bind].
  destruct (Nat.ltb_spec 3 (length l)) as [Hl|Hl].
  { right. split; [done|]. split; [done|]. exists s, u. split; [done|]. split; [done|]. by left. }
  set (last := l ++ _). set (g := λ u : UserInfo, u <| dLastJetton := last |>).
  pose proof (inv_user _ _ Hi _ _ _ Hu ltac:(by rewrite Ec)) as Hsh. pose proof Hsh as (Hs0 & Hau & _ & Hlast & Hand).
  assert (length last = 3%nat) as Hlen by (unfold last; rewrite length_app, length_drop; lia).
  assert (inv cfg (set_user (s_userId s) g t)) as Hi1.
  { apply (inv_map t _ (λ i, if decide (i = s_userId s) then g else id) (λ _, id) Hi).
    - intros i. simpl. case_decide as E; [by rewrite E, lookup_alter_eq|].
      rewrite lookup_alter_ne by done. by destruct (_ !! i).
    - intros d. simpl. by destruct (_ !! d).
    - intros i v. by case_decide.
    - done.
    - intros i v r _ _ (H1 & H2 & H3 & H4 & H5). case_decide; [|done]. unfold shaped, g; simpl. done.
    - intros Hne i v r _ _ _ Hb. specialize (Hb Hne). case_decide; [|done]. destruct Hb as (B1 & B2 & B3).
      unfold betting, g, bets_of, id in *. by destruct (s_android r).
    - apply Hi.
    - apply Hi.
    - intros Hne a Ha. simpl in *. rewrite (inv_true _ _ Hi Hne a Ha). symmetry.
      apply (sum_bets_same a t (set_user (s_userId s) g t) (λ i, if decide (i = s_userId s) then g else id)).
      + intros i. simpl. case_decide as E; [by rewrite E, lookup_alter_eq|].
        rewrite lookup_alter_ne by done. by destruct (_ !! i).
      + intros i v. by case_decide.
    - pose proof (inv_status _ _ Hi) as (E1 & E2 & E3). split; [done|]. split; [done|]. simpl. rewrite <- E1, Hst. done.
    - apply (inv_chips _ _ Hi). }
  set (t1 := set_user (s_userId s) g t) in *. assert (game_status t1 = STATUS_START) as Hst1.
  { simpl. by rewrite <- (proj1 (inv_status _ _ Hi)). }
  assert (past_array t1 = past_array t) as Hpa by done. clearbody t1.
  destruct (stake_sum 0 last) as [z|] eqn:Ez; cbn [mbind option_bind].
  2: { right. split; [done|]. split; [done|]. exists s, u. split; [done|]. split; [done|]. right. left.
       apply stake_sum_None in Ez; [|lia]. exact Ez. }
  destruct ((z =? 0) || (s_score s <? z)) eqn:Eg; [left; by exists t1|].
  apply orb_false_iff in Eg as [Ez0 Esc]. apply Z.eqb_neq in Ez0. apply Z.ltb_ge in Esc.
  destruct (over_limit cfg (m_lUserJettonScore u) last [0; 1; 2]%nat) as [b|] eqn:Eo; cbn [mbind option_bind].
  2: { right. split; [done|]. split; [done|]. exists s, u. split; [done|]. split; [done|]. right. right.
       apply stake_sum_Some in Ez as [-> Hnn]; [|done]. apply (over_limit_None _ _ _ (s_score s)) in Eo; [done|]. intros i.
       destruct (inv_bets _ _ Hi ltac:(by rewrite Hgs) _ u s Hu ltac:(by rewrite Ec)) as (Hb & _).
       split.
       - split; [by apply amounts_get|]. destruct (s_android s) eqn:Ea.
         + rewrite Hand. assert (zeros.[i] = 0) as -> by (by destruct i as [|[|[|[|i]]]]). exact Hs0.
         + unfold bets_of in Hb. rewrite Ea in Hb. pose proof (amounts_le_all _ i Hau). lia.
       - split; [by apply Forall_aget|]. pose proof (Forall_aget_sum last i Hnn). lia. }
  destruct b; [left; by exists t1|]. left. cbn [foldl mbind option_bind].
  destruct (rebet_area_ok (Z.to_nat last.[0]) c 0 last.[0] t1 Hi1 Hst1) as (t2 & -> & Hi2 & Hst2 & _ & _ & P2); [done|]. cbn [mbind option_bind].
  destruct (rebet_area_ok (Z.to_nat last.[1]) c 1 last.[1] t2 Hi2 Hst2) as (t3 & -> & Hi3 & Hst3 & _ & _ & P3); [done|]. cbn [mbind option_bind].
  destruct (rebet_area_ok (Z.to_nat last.[2]) c 2 last.[2] t3 Hi3 Hst3) as (t4 & -> & Hi4 & Hst4 & _ & _ & P4); [done|].
  exists t4. split; [done|]. split; [done|]. congruence.
Qed.

(** ** Coming, returning, leaving *)

Lemma gear_ok score : length (chip_gear cfg score) = CHIP_COUNT ∧ Forall (λ x, 0 < x) (chip_gear cfg score).
Proof.
  assert (∀ i, (i < 4)%nat → let l := rget (m_userChips cfg) i in length l = CHIP_COUNT ∧ Forall (λ x, 0 < x) l) as Hall.
  { intros i Hi l. rewrite <- (ok_gears _ Hcfg) in Hi. apply lookup_lt_is_Some_2 in Hi as [k Hk].
    unfold l, rget. rewrite Hk. simpl. pose proof (ok_chips _ Hcfg) as H. rewrite Forall_forall in H.
    by eapply H, list_elem_of_lookup_2. }
  unfold chip_gear. apply Hall. bsplit; lia.
Qed.

Lemma gears_ok (m : gmap Z (list Z)) t' chair score :
  (∀ c, let l := default [100; 200; 500; 1000; 5000] (m !! c) in length l = CHIP_COUNT ∧ Forall (λ x, 0 < x) l) →
  m_currentchips t' = <[chair := chip_gear cfg score]> m →
  ∀ c, length (chips_of c t') = CHIP_COUNT ∧ Forall (λ x, 0 < x) (chips_of c t').
Proof.
  intros Hm E c. unfold chips_of. rewrite E. destruct (decide (c = chair)) as [->|Hne].
  - rewrite lookup_insert_eq. apply gear_ok.
  - rewrite lookup_insert_ne by done. apply Hm.
Qed.

Lemma find_seat_unique t c s : seats t !! c = Some s →
  (∀ c' s', seats t !! c' = Some s' → s_userId s' = s_userId s → c' = c) →
  GetUserItemByUserId (s_userId s) t = Some (c, s).
Proof.
  intros Hs Hu. destruct (GetUserItemByUserId (s_userId s) t) as [[c' s']|] eqn:E.
  - apply find_seat in E as [Hs' E]. pose proof (Hu c' s' Hs' E) as ->. congruence.
  - exfalso. by apply (unseated _ t E c s Hs).
Qed.

Lemma inv_enter t chair user android score : inv cfg t → seats t !! chair = None →
  (∀ c s, seats t !! c = Some s → s_userId s ≠ user) → 0 < user < 4294967296 → 0 <= score →
  inv cfg (OnUserEnter cfg user (t <| seats ::= <[chair := MkSeat user android score sSit false]> |>)).
Proof.
  intros Hi Hc Hnew Hid Hsc. set (s0 := MkSeat user android score sSit false).
  set (t0 := t <| seats ::= <[chair := s0]> |>).
  assert (GetUserItemByUserId user t0 = Some (chair, s0)) as Efind.
  { apply (find_seat_unique t0 chair s0); [by apply lookup_insert_eq|].
    intros c s Hs Eu. destruct (decide (c = chair)) as [|Hne]; [done|]. simpl in Hs.
    rewrite lookup_insert_ne in Hs by done. exfalso. by apply (Hnew c s). }
  assert (m_UserInfo t !! user = None) as Hno.
  { destruct (m_UserInfo t !! user) as [u|] eqn:E; [|done]. exfalso.
    destruct (user_seat _ (inv_paired _ _ Hi) user u E) as (s & Hs & Es). by apply (Hnew _ s Hs). }
  unfold OnUserEnter. rewrite Efind.
  set (t1 := if bool_decide _ then _ else _).
  assert (m_UserInfo t1 = m_UserInfo t ∧ seats t1 = <[chair := s0]> (seats t) ∧ m_currentchips t1 = m_currentchips t ∧
    m_lTrueUserJettonScore t1 = m_lTrueUserJettonScore t ∧ m_cbGameStatus t1 = game_status t1 ∧
    (game_status t1 = STATUS_START ∨ game_status t1 = STATUS_END) ∧ (game_status t = STATUS_END → game_status t1 = STATUS_END) ∧ m_Algorithm t1 = m_Algorithm t)
    as (K1 & K2 & K3 & K4 & K5 & K6 & K7 & K8).
  { unfold t1. simpl. case_bool_decide as E; simpl; [rewrite E; split_and!; try done; by left|].
    pose proof (inv_status _ _ Hi) as (_ & Hf & _). split_and!; try done. destruct (game_status t); try done; auto. }
  clearbody t1. simpl. rewrite K1, Hno. clear Efind t0.
  assert (∀ i u s, (<[user := new_user chair]> (m_UserInfo t)) !! i = Some u →
    (alter (λ s, s <| s_status := sPlaying |>) chair (<[chair := s0]> (seats t))) !! chairId u = Some s →
    (i = user ∧ u = new_user chair ∧ s = s0 <| s_status := sPlaying |>) ∨
    (m_UserInfo t !! i = Some u ∧ seats t !! chairId u = Some s)) as Hall.
  { intros i u s. destruct (decide (i = user)) as [->|Hne].
    - rewrite lookup_insert_eq. intros [= <-]. simpl. rewrite lookup_alter_eq, lookup_insert_eq. intros [= <-]. by left.
    - rewrite lookup_insert_ne by done. intros Hu. right. split; [done|].
      destruct (decide (chairId u = chair)) as [E|Hne'].
      + exfalso. destruct (user_seat _ (inv_paired _ _ Hi) i u Hu) as (s' & Hs' & _). congruence.
      + by rewrite lookup_alter_ne, lookup_insert_ne in H by done. }
  split; simpl; rewrite ?K1, ?K2, ?K4.
  - split; simpl; rewrite ?K1, ?K2.
    + intros i u. destruct (decide (i = user)) as [->|Hne].
      * rewrite lookup_insert_eq. intros [= <-]. simpl. rewrite lookup_alter_eq, lookup_insert_eq. simpl. by eexists.
      * rewrite lookup_insert_ne by done. intros Hu. destruct (user_seat _ (inv_paired _ _ Hi) i u Hu) as (s & Hs & Es).
        exists s. split; [|done]. assert (chairId u ≠ chair) by congruence.
        by rewrite lookup_alter_ne, lookup_insert_ne by done.
    + intros c s. destruct (decide (c = chair)) as [->|Hne].
      * rewrite lookup_alter_eq, lookup_insert_eq. intros [= <-]. simpl. rewrite lookup_insert_eq. by eexists.
      * rewrite lookup_alter_ne, lookup_insert_ne by done. intros Hs.
        rewrite lookup_insert_ne by (intros E; by apply (Hnew c s)). by apply (seat_user _ (inv_paired _ _ Hi)).
  - intros i u. destruct (decide (i = user)) as [->|Hne]; [done|]. rewrite lookup_insert_ne by done. apply (inv_id _ _ Hi).
  - intros i u s Hu Hs. destruct (Hall i u s Hu Hs) as [(_ & -> & ->)|[Hu' Hs']]; [|by apply (inv_user _ _ Hi i)].
    split; [done|]. split; [apply amounts_zeros|]. split; [apply amounts_zeros|]. split; [done|]. simpl. by destruct android.
  - intros Hne i u s Hu Hs. destruct (Hall i u s Hu Hs) as [(_ & -> & ->)|[Hu' Hs']].
    + split; [|split; [|done]]; unfold bets_of; simpl; destruct android; simpl; try done.
      all: intros a Ha; pose proof (ok_max _ Hcfg a Ha); destruct a as [|[|[|]]]; [done..|lia].
    + apply (inv_bets _ _ Hi) with (id := i); [|done|done]. intros E. by apply Hne, K7.
  - apply Hi.
  - rewrite K8. apply Hi.
  - intros Hne a Ha. rewrite sum_over_insert by done. rewrite (inv_true _ _ Hi) by (try done; intros E; by apply Hne, K7).
    destruct a as [|[|[|]]]; [done..|lia].
  - split; [done|]. split; [by destruct K6 as [-> | ->]|]. by destruct K6 as [-> | ->].
  - apply (gears_ok (m_currentchips t) _ chair score); [apply (inv_chips _ _ Hi)|]. simpl. by rewrite K3.
Qed.

(** A change of one seat that keeps the id, the kind and the balance. *)
Lemma inv_set_seat t c g : inv cfg t →
  (∀ s, s_userId (g s) = s_userId s ∧ s_android (g s) = s_android s ∧ s_score (g s) = s_score s) →
  inv cfg (set_seat c g t).
Proof.
  intros Hi Hg.
  apply (inv_map t _ (λ _, id) (λ d, if decide (d = c) then g else id) Hi); try apply Hi.
  - intros i. simpl. by destruct (_ !! i).
  - intros d. simpl. case_decide as E; [by rewrite E, lookup_alter_eq|].
    rewrite lookup_alter_ne by done. by destruct (_ !! d).
  - done.
  - intros d s. case_decide; [by apply Hg|done].
  - intros i u s _ _ Hs. case_decide; [|done]. destruct (Hg s) as (_ & Ea & Es).
    unfold shaped, id in *. by rewrite Ea, Es.
  - intros Hne i u s _ _ _ Hb. specialize (Hb Hne). case_decide; [|done]. destruct (Hg s) as (_ & Ea & Es).
    unfold betting, bets_of, id in *. by rewrite Ea, Es.
Qed.

Lemma inv_return t user chair s : inv cfg t → GetUserItemByUserId user t = Some (chair, s) →
  inv cfg (OnUserEnter cfg user (set_seat chair (λ s, s <| s_trust := false |>) t)).
Proof.
  intros Hi Hf. assert (inv cfg (set_seat chair (λ s, s <| s_trust := false |>) t)) as Hi1 by by apply inv_set_seat.
  set (t1 := set_seat _ _ t) in *. clearbody t1. unfold OnUserEnter. destruct (GetUserItemByUserId user t1) as [[c s']|] eqn:Ef; [|done].
  destruct (find_seat_user t1 (inv_paired _ _ Hi1) user c s' Ef) as (u & Hu & _).
  pose proof (inv_status _ _ Hi1) as (E1 & E2 & E3).
  assert (game_status t1 ≠ STATUS_INIT) as Hni.
  { intros E. rewrite (E3 E), lookup_empty in Hu. done. }
  simpl. rewrite bool_decide_false by done. simpl. rewrite Hu.
  apply inv_set_seat; [|done].
  apply (inv_map t1 _ (λ _, id) (λ _, id) Hi1); try apply Hi1; try done.
  - intros i. simpl. by destruct (_ !! i).
  - intros d. simpl. by destruct (_ !! d).
  - intros Hne i v r _ _ _ Hb. by apply Hb.
  - by apply (gears_ok (m_currentchips t1) _ c (s_score s')); [apply (inv_chips _ _ Hi1)|].
Qed.

(** A user who has nothing at stake leaves with his chair. *)
Lemma inv_remove t t' id u : inv cfg t → m_UserInfo t !! id = Some u →
  m_UserInfo t' = delete id (m_UserInfo t) → seats t' = delete (chairId u) (seats t) →
  m_lTrueUserJettonScore t' = m_lTrueUserJettonScore t → m_Algorithm t' = m_Algorithm t →
  m_currentchips t' = m_currentchips t → game_status t' = game_status t → m_cbGameStatus t' = m_cbGameStatus t →
  (game_status t ≠ STATUS_END → ∀ a, (a < 3)%nat → (m_lUserJettonScore u).[a] = 0) → inv cfg t'.
Proof.
  intros Hi Hu Em Es Et Ea Ec Eg Eg' Hz.
  assert (∀ i v s, m_UserInfo t' !! i = Some v → seats t' !! chairId v = Some s →
    m_UserInfo t !! i = Some v ∧ seats t !! chairId v = Some s) as Hall.
  { intros i v s. rewrite Em, Es. by intros [_ ?]%lookup_delete_Some [_ ?]%lookup_delete_Some. }
  split.
  - apply (paired_remove t t' id u); [apply Hi|done..].
  - intros i v. rewrite Em. intros [_ Hv]%lookup_delete_Some. by apply (inv_id _ _ Hi i v).
  - intros i v s Hv Hs. destruct (Hall i v s Hv Hs). by apply (inv_user _ _ Hi i).
  - rewrite Eg. intros Hne i v s Hv Hs. destruct (Hall i v s Hv Hs). by apply (inv_bets _ _ Hi Hne i).
  - rewrite Et. apply Hi.
  - rewrite Ea. apply Hi.
  - rewrite Eg, Et, Em. intros Hne a Ha. rewrite (inv_true _ _ Hi Hne a Ha).
    rewrite (sum_over_delete _ id u) by done. rewrite (Hz Hne a Ha). lia.
  - rewrite Eg, Eg', Em. pose proof (inv_status _ _ Hi) as (E1 & E2 & E3). split; [done|]. split; [done|].
    intros E. by rewrite (E3 E), delete_empty.
  - intros d. unfold chips_of. rewrite Ec. apply (inv_chips _ _ Hi).
Qed.

Lemma inv_left t user chair s : inv cfg t → GetUserItemByUserId user t = Some (chair, s) →
  ∃ r t', OnUserLeft user (set_seat chair (λ s, s <| s_status := sOffline |> <| s_trust := true |>) t) = Some (r, t') ∧ inv cfg t'.
Proof.
  intros Hi Hf. assert (inv cfg (set_seat chair (λ s, s <| s_status := sOffline |> <| s_trust := true |>) t)) as Hi1 by by apply inv_set_seat.
  set (t1 := set_seat _ _ t) in *. clearbody t1. clear Hi Hf. unfold OnUserLeft.
  destruct (GetUserItemByUserId user t1) as [[c s']|] eqn:Ef; [|by do 2 eexists].
  destruct (find_seat_user t1 (inv_paired _ _ Hi1) user c s' Ef) as (u & Hu & Ec). rewrite Hu. cbn [mbind option_bind].
  apply find_seat in Ef as [Hs Es]. pose proof (inv_user _ _ Hi1 user u s' Hu ltac:(by rewrite Ec)) as (_ & Hsh & _).
  destruct (Z.eqb_spec (if bool_decide (game_status t1 = STATUS_START) then all_bets (m_lUserJettonScore u) else 0) 0) as [E|E];
    do 2 eexists; (split; [done|]).
  - unfold ClearTableUser. simpl. rewrite Ec, lookup_alter_eq, Hs. simpl.
    apply (inv_remove (set_seat c (λ s, s <| s_status := sOffline |>) t1) _ user u); try done.
    + by apply inv_set_seat.
    + simpl. by rewrite Ec.
    + simpl. intros Hne a Ha. case_bool_decide as Est; [by apply (all_bets_zero _ Hsh)|].
      pose proof (inv_status _ _ Hi1) as (_ & Hnf & Hini). destruct (game_status t1); try done.
      rewrite Hini in Hu by done. by rewrite lookup_empty in Hu.
  - apply inv_set_seat; [|done]. by apply inv_set_seat.
Qed.

(** ** The end of the round *)

(** Every user of the table has his chair, so every bet is cleared. *)
Lemma inv_clear t : inv cfg t → inv cfg (OnTimerEnd false t).
Proof.
  intros Hi. set (f := λ u : UserInfo, clear (u <| dLastJetton := m_lUserJettonScore u |>)).
  assert (∀ i, m_UserInfo (ClearTableData t) !! i = f <$> m_UserInfo t !! i) as Hf.
  { intros i. simpl. rewrite lookup_fmap. destruct (m_UserInfo t !! i) as [u|] eqn:Hu; [|done]. simpl.
    destruct (user_seat _ (inv_paired _ _ Hi) i u Hu) as (s & -> & _). done. }
  apply (inv_map t _ (λ _, f) (λ _, id) Hi).
  - exact Hf.
  - intros c. simpl. by destruct (_ !! c).
  - done.
  - done.
  - intros i u s _ _ (H1 & H2 & H3 & H4 & H5). unfold f, clear, shaped, id. simpl.
    split; [done|]. split; [apply amounts_zeros|]. split; [apply amounts_zeros|]. split; [apply H2|]. by destruct (s_android s).
  - intros _ i u s _ _ (H1 & _) _. unfold f, clear, betting, bets_of, id. simpl.
    split; [by destruct (s_android s)|]. split; [|done]. intros a Ha. pose proof (ok_max _ Hcfg a Ha).
    destruct (s_android s); (destruct a as [|[|[|]]]; [done..|lia]).
  - done.
  - apply Hi.
  - intros _ a Ha. rewrite sum_over_zero; [destruct a as [|[|[|]]]; [done..|lia]|].
    intros i x. change (m_UserInfo (OnTimerEnd false t)) with (m_UserInfo (ClearTableData t)). rewrite Hf.
    intros (u & _ & ->)%fmap_Some. unfold f. destruct a as [|[|[|]]]; [done..|lia].
  - done.
  - apply (inv_chips _ _ Hi).
Qed.
End Steps.
