(* ===== verification/RedBlackSettle.v ===== *)
(** Red against black, the end of a round: what the settlement adds to the balances, that
    no balance becomes negative, and that the profit the cards were chosen by is what the
    real users lose before the revenue. *)
From stdpp Require Import base list numbers option gmap relations.
From Stdlib Require Import ZArith Lia.
From S2P Require Import Prelude GameDefine HongHei RedBlack RedBlackTable RedBlackInv RedBlackSteps.

#[local] Open Scope Z_scope.

Section Settle.
Context (cfg : Config) (Hcfg : config_ok cfg).

(** ** What a user wins *)

Definition loser (flag : nat) : nat := if (flag =? BLACK)%nat then RED else BLACK.

(** The win of the bets [b] on the opened cards, before the revenue. *)
Definition gross (t : Table) (b : list Z) : Z :=
  b.[m_winFlag t] - b.[loser (m_winFlag t)] +
  (if lucky_pays t then b.[SPECIAL] * (m_SpecialTimes cfg).[Z.to_nat (m_winType t)] else - b.[SPECIAL]).

(** The revenue of both areas. *)
Definition tax (t : Table) (b : list Z) : Z :=
  CalculateRevenue (revenueRatio cfg) (b.[m_winFlag t]) +
  (if lucky_pays t
   then CalculateRevenue (revenueRatio cfg) (b.[SPECIAL] * (m_SpecialTimes cfg).[Z.to_nat (m_winType t)]) else 0).

(** The cards are opened. *)
Definition opened (t : Table) : Prop :=
  (m_winFlag t = BLACK ∨ m_winFlag t = RED) ∧ 0 <= (m_SpecialTimes cfg).[Z.to_nat (m_winType t)].

Lemma revenue_range x : 0 <= x → 0 <= CalculateRevenue (revenueRatio cfg) x <= x.
Proof.
  intros Hx. unfold CalculateRevenue. pose proof (ok_revenue _ Hcfg) as Hr.
  rewrite Z.quot_div_nonneg by nia.
  split; [apply Z.div_pos; nia|]. apply Z.div_le_upper_bound; nia.
Qed.

Lemma area_win_kept r a x u : let v := area_win r a x u in
  chairId v = chairId u ∧ m_lUserJettonScore v = m_lUserJettonScore u ∧
  m_lRobotUserJettonScore v = m_lRobotUserJettonScore u ∧ dLastJetton v = dLastJetton u ∧
  m_EndWinScore v = m_EndWinScore u ∧ m_Revenue v = m_Revenue u.
Proof. by destruct r. Qed.

Lemma cul_EndWin r b win lost times u : amounts b → 0 <= times →
  m_EndWinScore (cul cfg r b win lost times u) = m_EndWinScore u +
    (match win with Some a => b.[a] * times - CalculateRevenue (revenueRatio cfg) (b.[a] * times) | None => 0 end) -
    (match lost with Some a => b.[a] | None => 0 end).
Proof.
  intros Hb Ht. unfold cul. pose proof (amounts_get b) as Hg.
  assert (∀ a x u, m_EndWinScore (area_win r a x u) = m_EndWinScore u) as Ha by (intros; apply area_win_kept).
  destruct win as [a|], lost as [l|]; simpl.
  - pose proof (Hg a Hb). pose proof (Hg l Hb). destruct (Z.ltb_spec 0 b.[a]); destruct (Z.ltb_spec 0 b.[l]); rewrite ?Ha; simpl; rewrite ?Ha; simpl; try lia;
      replace (b.[a]) with 0 by lia; simpl; unfold CalculateRevenue; simpl; lia.
  - pose proof (Hg a Hb). destruct (Z.ltb_spec 0 b.[a]); rewrite ?Ha; simpl; try lia;
      replace (b.[a]) with 0 by lia; simpl; unfold CalculateRevenue; simpl; lia.
  - pose proof (Hg l Hb). destruct (Z.ltb_spec 0 b.[l]); rewrite ?Ha; simpl; lia.
  - lia.
Qed.

(** [cul] touches the win of the round only. *)
Lemma cul_kept r b win lost times u : let v := cul cfg r b win lost times u in
  chairId v = chairId u ∧ m_lUserJettonScore v = m_lUserJettonScore u ∧
  m_lRobotUserJettonScore v = m_lRobotUserJettonScore u ∧ dLastJetton v = dLastJetton u.
Proof. unfold cul, area_win. destruct win, lost; by repeat case_match. Qed.

#[local] Arguments cul : simpl never.

Lemma settle_kept t u : let v := settle_user cfg t u in
  chairId v = chairId u ∧ m_lUserJettonScore v = m_lUserJettonScore u ∧
  m_lRobotUserJettonScore v = m_lRobotUserJettonScore u ∧ dLastJetton v = dLastJetton u.
Proof.
  unfold settle_user. destruct (seats t !! chairId u) as [s|]; [|done]. cbv zeta.
  set (v := if (m_winFlag t =? BLACK)%nat then _ else _).
  assert (chairId v = chairId u ∧ m_lUserJettonScore v = m_lUserJettonScore u ∧
    m_lRobotUserJettonScore v = m_lRobotUserJettonScore u ∧ dLastJetton v = dLastJetton u) as (<- & <- & <- & <-)
    by (unfold v; repeat case_match; [apply cul_kept|apply cul_kept|done]).
  destruct (lucky_pays t); apply cul_kept.
Qed.

Lemma settle_value t u s : opened t → seats t !! chairId u = Some s → amounts (bets_of s u) →
  m_EndWinScore (settle_user cfg t u) = m_EndWinScore u + gross t (bets_of s u) - tax t (bets_of s u).
Proof.
  intros [Hf Hm] Hs Hb. destruct (ok_times _ Hcfg) as [T1 T2].
  unfold settle_user. rewrite Hs, T1, T2. unfold gross, tax, loser.
  assert (∀ v, m_EndWinScore (if lucky_pays t then cul cfg (s_android s) (bets_of s u) (Some SPECIAL) None (m_SpecialTimes cfg).[Z.to_nat (m_winType t)] v
      else cul cfg (s_android s) (bets_of s u) None (Some SPECIAL) 1 v) = m_EndWinScore v +
    (if lucky_pays t then (bets_of s u).[SPECIAL] * (m_SpecialTimes cfg).[Z.to_nat (m_winType t)] -
       CalculateRevenue (revenueRatio cfg) ((bets_of s u).[SPECIAL] * (m_SpecialTimes cfg).[Z.to_nat (m_winType t)])
     else - (bets_of s u).[SPECIAL])) as Hv.
  { intros v. destruct (lucky_pays t); rewrite cul_EndWin by (done || lia); lia. }
  rewrite Hv. destruct Hf as [-> | ->]; simpl; rewrite cul_EndWin, Z.mul_1_r by (done || lia); destruct (lucky_pays t); lia.
Qed.

(** Nobody loses more than he bet. *)
Lemma settle_least t u s : opened t → seats t !! chairId u = Some s → amounts (bets_of s u) →
  m_EndWinScore u - all_bets (bets_of s u) <= m_EndWinScore (settle_user cfg t u).
Proof.
  intros Ho Hs Hb. rewrite (settle_value t u s) by done. destruct Ho as [Hf Hm].
  unfold gross, tax, all_bets, loser. pose proof (amounts_get (bets_of s u)) as Hg.
  pose proof (Hg SPECIAL Hb) as G0. pose proof (Hg BLACK Hb) as G1. pose proof (Hg RED Hb) as G2.
  pose proof (revenue_range _ G1) as R1. pose proof (revenue_range _ G2) as R2.
  assert (0 <= (bets_of s u).[SPECIAL] * (m_SpecialTimes cfg).[Z.to_nat (m_winType t)]) as Hp by nia.
  pose proof (revenue_range _ Hp) as R3. destruct Hf as [-> | ->]; simpl; destruct (lucky_pays t); lia.
Qed.

Lemma tax_nonneg t b : opened t → amounts b → 0 <= tax t b.
Proof.
  intros [_ Hm] Hb. unfold tax. pose proof (amounts_get b (m_winFlag t) Hb) as H1. pose proof (amounts_get b SPECIAL Hb) as H2.
  pose proof (revenue_range _ H1). assert (0 <= b.[SPECIAL] * (m_SpecialTimes cfg).[Z.to_nat (m_winType t)]) as H3 by nia.
  pose proof (revenue_range _ H3). destruct (lucky_pays t); lia.
Qed.

(** ** Writing the balances *)

Definition pay (u : UserInfo) (s : Seat) : Seat :=
  if 0 <? all_bets (bets_of s u) then s <| s_score ::= λ z, z + m_EndWinScore u |> else s.

Lemma written_seats (m : gmap Z UserInfo) t :
  (∀ i j u v, m !! i = Some u → m !! j = Some v → chairId u = chairId v → i = j) →
  let t' := map_fold (λ _ u t, written u t) t m in
  m_UserInfo t' = m_UserInfo t ∧
  (∀ i u, m !! i = Some u → seats t' !! chairId u = pay u <$> seats t !! chairId u) ∧
  (∀ c, (∀ i u, m !! i = Some u → chairId u ≠ c) → seats t' !! c = seats t !! c).
Proof.
  cbv zeta.
  apply (map_fold_weak_ind (λ t' m,
    (∀ i j u v, m !! i = Some u → m !! j = Some v → chairId u = chairId v → i = j) →
    m_UserInfo t' = m_UserInfo t ∧
    (∀ i u, m !! i = Some u → seats t' !! chairId u = pay u <$> seats t !! chairId u) ∧
    (∀ c, (∀ i u, m !! i = Some u → chairId u ≠ c) → seats t' !! c = seats t !! c))).
  { intros _. split; [done|]. split; [|done]. intros i u. by rewrite lookup_empty. }
  clear m. intros i x m r Hi IH Hinj. destruct IH as (IH1 & IH2 & IH3).
  { intros j k u v Hj Hk. apply Hinj; rewrite lookup_insert_ne; done || congruence. }
  assert (∀ j u, m !! j = Some u → chairId u ≠ chairId x) as Hx.
  { intros j u Hj E. assert (j = i) as ->; [|congruence]. apply (Hinj j i u x); [|by rewrite lookup_insert_eq|done].
    rewrite lookup_insert_ne; [done|congruence]. }
  split; [done|]. unfold written. simpl. split.
  - intros j u. destruct (decide (j = i)) as [->|Hne].
    + rewrite lookup_insert_eq. intros [= <-]. rewrite lookup_alter_eq, IH3 by done. done.
    + rewrite lookup_insert_ne by done. intros Hj. rewrite lookup_alter_ne by (intros E; by apply (Hx j u Hj)). by apply (IH2 j).
  - intros c Hc. rewrite lookup_alter_ne by (apply (Hc i x); by rewrite lookup_insert_eq).
    apply IH3. intros j u Hj. apply (Hc j u). rewrite lookup_insert_ne; [done|congruence].
Qed.

(** The balances after [WriteUserScore], with the users as the settlement left them. *)
Lemma WriteUserScore_spec t : paired t →
  (∀ i, m_UserInfo (WriteUserScore t) !! i = write_user t <$> m_UserInfo t !! i) ∧
  (∀ i u, m_UserInfo t !! i = Some u → seats (WriteUserScore t) !! chairId u = pay u <$> seats t !! chairId u) ∧
  dom (seats (WriteUserScore t)) = dom (seats t).
Proof.
  intros Hp. set (t0 := t <| m_UserInfo ::= fmap (write_user t) |>).
  destruct (written_seats (m_UserInfo t) t0) as (H1 & H2 & H3).
  { intros i j u v. by apply same_chair. }
  split; [|split].
  - intros i. unfold WriteUserScore. fold t0. rewrite H1. simpl. by rewrite lookup_fmap.
  - intros i u Hu. apply (H2 i u Hu).
  - apply set_eq. intros c. rewrite !elem_of_dom. destruct (seats t !! c) as [s|] eqn:Es.
    + destruct (seat_user _ Hp c s Es) as (u & Hu & <-). unfold WriteUserScore. fold t0.
      rewrite (H2 _ u Hu). simpl. rewrite Es. split; by eexists.
    + unfold WriteUserScore. fold t0. rewrite H3; [simpl; by rewrite Es|].
      intros i u Hu E. destruct (user_seat _ Hp i u Hu) as (s & Hs & _). congruence.
Qed.

(** ** The opened cards *)

Lemma show_again cards : show (d_cards (show cards)) = show cards.
Proof.
  unfold show. cbn [d_cards]. rewrite !take_take. rewrite (skipn_firstn_comm 3 6), take_take. done.
Qed.

Lemma type_of_any h : 0 <= HongHei.GetCardType h <= 5.
Proof. unfold HongHei.GetCardType, CT_BAO_ZI, CT_DOUBLE, CT_SINGLE, CT_JIN_HUA, CT_SHUN_ZI, CT_SHUN_JIN. bsplit; lia. Qed.

(** A judged table has a winner and a type with a multiple. *)
Lemma judge_opened cards t : opened (judge cards t).
Proof.
  assert (∀ x, 0 <= x <= 5 → 0 <= (m_SpecialTimes cfg).[Z.to_nat x]) as Hx.
  { intros x _. destruct (ok_special _ Hcfg) as [_ H]. apply (Forall_aget (λ x, 0 <= x)); [done|].
    eapply Forall_impl; [exact H|]. simpl. lia. }
  unfold judge, opened. destruct (negb _); simpl; (split; [by auto|]); apply Hx; apply type_of_any.
Qed.

(** What the opening of the cards leaves alone. *)
Definition same_bets (t t' : Table) : Prop :=
  game_status t' = game_status t ∧ m_cbGameStatus t' = m_cbGameStatus t ∧ seats t' = seats t ∧
  m_UserInfo t' = m_UserInfo t ∧ m_lTrueUserJettonScore t' = m_lTrueUserJettonScore t ∧
  m_currentchips t' = m_currentchips t.

Lemma judge_same cards t : same_bets t (judge cards t).
Proof. unfold judge. by destruct (negb _). Qed.

Lemma judge_algo cards t : m_Algorithm (judge cards t) = m_Algorithm t.
Proof. unfold judge. by destruct (negb _). Qed.

Lemma judge_past cards t : past_array (judge cards t) = past_array t.
Proof. unfold judge. by destruct (negb _). Qed.

Lemma judge_test cards t : m_listTestCardArray (judge cards t) = m_listTestCardArray t.
Proof. unfold judge. by destruct (negb _). Qed.

(** The table judges a deal as the loops did. *)
Lemma judge_open_deal c t a : let d := show c in let o := judge (d_cards d) t in let b := open_deal d a in
  m_winFlag o = RedBlack.m_winFlag b ∧ loser (m_winFlag o) = m_loseFlag b ∧
  lucky_pays o = (0 <? RedBlack.m_winType b) ∧
  (lucky_pays o = true → RedBlack.m_winType b = m_winType o ∧ 1 <= m_winType o <= 5).
Proof.
  assert (∀ ty v, 0 <= ty <= 5 →
    (CT_SINGLE <? ty) && (ty <? 6) && (negb (ty =? CT_DOUBLE) || (8 <? v)) = (0 <? lucky_type ty v) ∧
    ((CT_SINGLE <? ty) && (ty <? 6) && (negb (ty =? CT_DOUBLE) || (8 <? v)) = true → lucky_type ty v = ty ∧ 1 <= ty <= 5)) as Hl.
  { intros ty v Hty. unfold lucky_type, CT_DOUBLE, CT_SINGLE. assert (ty = 0 ∨ ty = 1 ∨ ty = 2 ∨ ty = 3 ∨ ty = 4 ∨ ty = 5) as Ht by lia.
    assert ((8 <? v) = negb (v <? 9)) as -> by (bsplit; lia).
    repeat destruct Ht as [->|Ht]; try rewrite Ht; simpl; by destruct (v <? 9). }
  cbv zeta. unfold judge, open_deal, lucky_pays. rewrite show_again.
  pose proof (Hl (heiType (show c)) (heiCard (show c)) ltac:(apply type_of_any)).
  pose proof (Hl (hongType (show c)) (hongCard (show c)) ltac:(apply type_of_any)).
  clear Hl. set (d := show c) in *. clearbody d.
  destruct (negb (CompareCard _ _ =? 0)), a; cbn -[CT_SINGLE CT_DOUBLE]; tauto.
Qed.

#[local] Opaque judge RandCardList open_deal.

(** The test cards and the books after the cards are opened. *)
Definition booked (w : Draw) (t : Table) : Table :=
  let t := test_cards w t in
  let win := GetCurProfit (m_Algorithm t) in
  let win := if 0 <? win then win * (1000 - systemReduceRatio cfg) ÷ 1000 else win in
  t <| m_curSystemWin := win |> <| m_CurStock ::= λ z, z + win |>.

Lemma GetOpenCards_shape w t t' : GetOpenCards cfg w t = Some t' → ∃ cards a p,
  t' = booked w (judge cards (t <| m_Algorithm := a |> <| past_array := p |>)) ∧
  (m_bControl cfg = false ∧ a = m_Algorithm t ∧ p = past_array t ∨
   m_bControl cfg = true ∧ ∃ m d, open_with w t (set_algorithm cfg w t) = Some (m, d, a) ∧ cards = take 6 m ∧ p = drop 6 m).
Proof.
  unfold GetOpenCards. destruct (m_bControl cfg).
  - destruct (open_with _ _ _) as [[[m d] a]|] eqn:Eo; [|done]. intros [= <-].
    exists (take 6 m), a, (drop 6 m). split; [reflexivity|]. right. split; [done|]. by exists m, d.
  - generalize (RandCardList (d_shuffles w 0) MAX_CARDS). intros cards [= <-].
    exists cards, (m_Algorithm t), (past_array t). split; [by destruct t|]. by left.
Qed.

Lemma booked_same w t : same_bets t (booked w t) ∧ m_Algorithm (booked w t) = m_Algorithm t ∧ (opened t → opened (booked w t)).
Proof.
  assert (same_bets t (test_cards w t) ∧ m_Algorithm (test_cards w t) = m_Algorithm t ∧
    (opened t → opened (test_cards w t))) as H; [|exact H].
  unfold test_cards. set (t2 := match m_listTestCardArray t with [] => _ | _ => _ end).
  assert (same_bets t t2 ∧ m_Algorithm t2 = m_Algorithm t ∧ (opened t → opened t2)) as (H3 & H4 & H5)
    by (unfold t2; by destruct (m_listTestCardArray t)).
  clearbody t2. destruct (_ <? _)%nat; [|done]. split; [|split; [by rewrite judge_algo|intros _; apply judge_opened]].
  pose proof (judge_same (m_listTestCardArray t2) (t2 <| m_listTestCardArray ::= drop 6 |>)) as H.
  unfold same_bets in *. simpl in H. intuition congruence.
Qed.

(** Without test cards the judged cards stay. *)
Lemma booked_plain w t b : m_listTestCardArray t = [] → d_config_cards w = [] →
  m_winFlag (booked w t) = m_winFlag t ∧ gross (booked w t) b = gross t b.
Proof. intros Ht Hw. unfold booked, test_cards. rewrite Ht, Hw. done. Qed.

Lemma GetOpenCards_ok w t t' : GetOpenCards cfg w t = Some t' → same_bets t t' ∧ opened t'.
Proof.
  intros (cards & a & p & -> & _)%GetOpenCards_shape. set (t0 := t <| m_Algorithm := a |> <| past_array := p |>).
  destruct (booked_same w (judge cards t0)) as (H & _ & Ho).
  split; [|apply Ho, judge_opened]. pose proof (judge_same cards t0) as H1.
  unfold same_bets in *. simpl in H1. intuition congruence.
Qed.

(** The loops return a deal and the state it is opened in; the copy is the cards of the
    deal and the two bytes behind. *)
Lemma open_with_deal w t a m d a' : open_with w t a = Some (m, d, a') →
  (∃ cards, d = show cards) ∧ a' = open_deal d a ∧ take 6 m = d_cards d ∧ drop 6 m = [(d_past w).1; (d_past w).2].
Proof.
  assert (∀ again, hand_out (d_past w) (deal_until again (d_fuel w) (d_shuffles w) 0 a) = Some (m, d, a') →
    (∃ cards, d = show cards) ∧ a' = open_deal d a ∧ take 6 m = d_cards d ∧ drop 6 m = [(d_past w).1; (d_past w).2]) as H.
  { intros again [(j & _ & -> & -> & _)%deal_until_kept ->]%hand_out_Some. split; [by eexists|]. split; [done|].
    apply memcpy_six, deal_length. }
  unfold open_with. destruct (control w); [apply H|apply H| |apply H].
  destruct (m_UserInfo t !! user); [apply H|done].
Qed.

(** Only the copy under control writes past an array. *)
Lemma booked_past w t : past_array (booked w t) = past_array t.
Proof.
  unfold booked, test_cards. cbn. destruct (m_listTestCardArray t); cbn; case_match; cbn; rewrite ?judge_past; done.
Qed.

Lemma GetOpenCards_past w t t' : GetOpenCards cfg w t = Some t' →
  past_array t' = if m_bControl cfg then [(d_past w).1; (d_past w).2] else past_array t.
Proof.
  intros (cards & a & p & -> & H)%GetOpenCards_shape. rewrite booked_past, judge_past. cbn.
  destruct H as [(-> & _ & ->)|(-> & m & d & H & _ & ->)]; [done|]. by apply open_with_deal in H as (_ & _ & _ & ->).
Qed.

Lemma SetMustKill_kept x a : bettingQuantity (SetMustKill x a) = bettingQuantity a ∧ m_muticleArr (SetMustKill x a) = m_muticleArr a.
Proof. done. Qed.

Lemma SetBetting_length i x a : length (bettingQuantity (SetBetting i x a)) = length (bettingQuantity a).
Proof. unfold SetBetting. destruct (_ || _); [done|]. simpl. by rewrite length_insert. Qed.

(** What the cards are chosen by: the sums of the real users' bets, and the multiples. *)
Lemma set_algorithm_kept w t : length (bettingQuantity (m_Algorithm t)) = 3%nat →
  (∀ a, (a < 3)%nat → (bettingQuantity (set_algorithm cfg w t)).[a] = (m_lTrueUserJettonScore t).[a]) ∧
  length (bettingQuantity (set_algorithm cfg w t)) = 3%nat ∧
  m_muticleArr (set_algorithm cfg w t) = beishu cfg.
Proof.
  intros Hl. set (j := m_lTrueUserJettonScore t).
  set (a0 := SetBetting 2 j.[2] (SetBetting 1 j.[1] (SetBetting 0 j.[0] (m_Algorithm t)))).
  assert (bettingQuantity (set_algorithm cfg w t) = bettingQuantity a0 ∧ m_muticleArr (set_algorithm cfg w t) = beishu cfg)
    as [-> ->] by (unfold set_algorithm; by destruct (control w)).
  assert (length (bettingQuantity a0) = 3%nat) as H0 by (unfold a0; by rewrite !SetBetting_length).
  split; [|done]. unfold a0. destruct (bettingQuantity (m_Algorithm t)) as [|x [|y [|z [|]]]] eqn:E; try done.
  unfold SetBetting. simpl. rewrite E. intros [|[|[|]]] Ha; [done..|lia].
Qed.

(** The profit the cards were chosen by is what the bets lose on them. *)
Lemma GetOpenCards_profit w t o : m_bControl cfg = true → m_listTestCardArray t = [] → d_config_cards w = [] →
  length (bettingQuantity (m_Algorithm t)) = 3%nat → GetOpenCards cfg w t = Some o →
  GetCurProfit (m_Algorithm o) = - gross o (m_lTrueUserJettonScore t).
Proof.
  intros Hctl Ht Hw Hl (cards & a & p & -> & Ha)%GetOpenCards_shape.
  destruct Ha as [(E & _)|(_ & m & d & ([c ->] & -> & -> & _)%open_with_deal & -> & ->)]; [congruence|].
  set (A := set_algorithm cfg w t). set (b := open_deal (show c) A). set (t0 := t <| m_Algorithm := b |> <| past_array := _ |>).
  destruct (booked_same w (judge (d_cards (show c)) t0)) as (_ & -> & _). rewrite judge_algo.
  destruct (booked_plain w (judge (d_cards (show c)) t0) (m_lTrueUserJettonScore t)) as (_ & ->); [by rewrite judge_test|done|].
  pose proof (judge_open_deal c t0 A) as (J1 & J2 & J3 & J4). fold b in J1, J2, J3, J4.
  destruct (open_deal_kept (show c) A) as (_ & K2 & K3 & _ & _ & _ & K7). fold b in K2, K3, K7.
  unfold GetCurProfit. change (m_Algorithm t0) with b. rewrite K7.
  destruct (set_algorithm_kept w t Hl) as (Q1 & Q2 & Q3). fold A in Q1, Q2, Q3.
  pose proof (proj1 (judge_opened (d_cards (show c)) t0)) as Hf.
  unfold winscore, gross. rewrite K2, K3, Q3, <- J1, <- J2, <- J3.
  set (o := judge (d_cards (show c)) t0) in *.
  assert (m_winFlag o < 3 ∧ loser (m_winFlag o) < 3 ∧ LuckyGate < 3)%nat as (L1 & L2 & L3)
    by (unfold loser, LuckyGate; destruct Hf as [-> | ->]; unfold RED, BLACK; simpl; lia).
  rewrite !Q1 by done. change (beishu cfg).[0] with 1.
  destruct (lucky_pays o); [|change LuckyGate with SPECIAL; lia]. destruct (J4 eq_refl) as [-> H5].
  assert ((beishu cfg).[Z.to_nat (m_winType o)] = (m_SpecialTimes cfg).[Z.to_nat (m_winType o)]) as ->;
    [|change LuckyGate with SPECIAL; lia].
  destruct (ok_special _ Hcfg) as [Hlen Hall]. unfold beishu, aget.
  destruct (m_SpecialTimes cfg) as [|x0 l]; [done|]. change (drop 1 (x0 :: l)) with l. inversion_clear Hall as [|? ? _ Hall'].
  destruct (Z.to_nat (m_winType o)) as [|n] eqn:En; [lia|]. simpl. rewrite list_lookup_fmap.
  destruct (l !! n) as [y|] eqn:Ey; [|done]. simpl. unfold u8. apply Z.mod_small.
  eapply Forall_lookup_1 in Hall'; [|exact Ey]. simpl in Hall'. lia.
Qed.

(** Without control nothing computes the profit: that of an earlier round stays. *)
Lemma GetOpenCards_stale w t o : m_bControl cfg = false → GetOpenCards cfg w t = Some o → m_Algorithm o = m_Algorithm t.
Proof.
  intros Hctl (cards & a & p & -> & Ha)%GetOpenCards_shape.
  destruct (booked_same w (judge cards (t <| m_Algorithm := a |> <| past_array := p |>))) as (_ & -> & _).
  rewrite judge_algo. by destruct Ha as [(_ & -> & _)|(? & _)]; [|congruence].
Qed.

Lemma GetOpenCards_algo w t t' : GetOpenCards cfg w t = Some t' → length (bettingQuantity (m_Algorithm t)) = 3%nat →
  length (bettingQuantity (m_Algorithm t')) = 3%nat.
Proof.
  intros (cards & a & p & -> & Ha)%GetOpenCards_shape Hl.
  destruct (booked_same w (judge cards (t <| m_Algorithm := a |> <| past_array := p |>))) as (_ & -> & _).
  rewrite judge_algo. simpl. destruct Ha as [(_ & -> & _)|(_ & m & d & (_ & -> & _)%open_with_deal & _)]; [done|].
  destruct (open_deal_kept d (set_algorithm cfg w t)) as (_ & -> & _). by apply set_algorithm_kept.
Qed.

(** ** The round as one step *)

Lemma written_true t : m_lTrueUserJettonScore (WriteUserScore t) = m_lTrueUserJettonScore t ∧
  m_currentchips (WriteUserScore t) = m_currentchips t ∧ m_Algorithm (WriteUserScore t) = m_Algorithm t.
Proof.
  unfold WriteUserScore. set (t0 := _ <| m_UserInfo ::= _ |>).
  assert (m_lTrueUserJettonScore t0 = m_lTrueUserJettonScore t ∧ m_currentchips t0 = m_currentchips t ∧
    m_Algorithm t0 = m_Algorithm t) as H by done.
  clearbody t0. apply (map_fold_weak_ind (λ t' _, m_lTrueUserJettonScore t' = m_lTrueUserJettonScore t ∧
    m_currentchips t' = m_currentchips t ∧ m_Algorithm t' = m_Algorithm t)); [done|]. by intros.
Qed.

(** A user after the settlement and the bookkeeping of the round. *)
Definition finished (t o : Table) (u : UserInfo) : UserInfo := write_user t (change_user t (settle_user cfg o u)).

Lemma finished_kept t o u : let v := finished t o u in
  chairId v = chairId u ∧ m_lUserJettonScore v = m_lUserJettonScore u ∧
  m_lRobotUserJettonScore v = m_lRobotUserJettonScore u ∧ dLastJetton v = dLastJetton u ∧
  m_EndWinScore v = m_EndWinScore (settle_user cfg o u).
Proof.
  unfold finished. destruct (settle_kept o u) as (<- & <- & <- & <-). set (v := settle_user cfg o u). clearbody v.
  unfold write_user, change_user. by repeat case_match.
Qed.

Lemma conclude_spec w t t1 : OnEventGameConclude cfg w t = Some t1 → paired t → ∃ o, same_bets t o ∧ opened o ∧
  GetOpenCards cfg w t = Some o ∧ m_Algorithm t1 = m_Algorithm o ∧
  game_status t1 = game_status t ∧ m_cbGameStatus t1 = m_cbGameStatus t ∧
  m_lTrueUserJettonScore t1 = m_lTrueUserJettonScore t ∧ m_currentchips t1 = m_currentchips t ∧
  (∀ i, m_UserInfo (WriteUserScore t1) !! i = finished t o <$> m_UserInfo t !! i) ∧
  (∀ i u, m_UserInfo t !! i = Some u →
    seats (WriteUserScore t1) !! chairId u = pay (finished t o u) <$> seats t !! chairId u) ∧
  dom (seats (WriteUserScore t1)) = dom (seats t).
Proof.
  unfold OnEventGameConclude. destruct (GetOpenCards cfg w t) as [o|] eqn:Eo; [|done]. cbn [mbind option_bind].
  intros [= <-] Hp. destruct (GetOpenCards_ok w t o Eo) as [(S1 & S2 & S3 & S4 & S5 & S6) Ho].
  exists o. split; [done|]. split; [done|]. split; [done|]. set (t1 := ChangeUserInfo _).
  assert (∀ i, m_UserInfo t1 !! i = (λ u, change_user t (settle_user cfg o u)) <$> m_UserInfo t !! i) as Hu.
  { intros i. unfold t1, ChangeUserInfo. simpl. rewrite !lookup_fmap, S4. destruct (_ !! i); [|done]. simpl.
    f_equal. unfold change_user. simpl. by rewrite S3. }
  assert (seats t1 = seats t) as Hs1 by (unfold t1; simpl; done).
  assert (∀ u, chairId (change_user t (settle_user cfg o u)) = chairId u) as Hc.
  { intros u. destruct (settle_kept o u) as (<- & _). unfold change_user. by case_match. }
  assert (paired t1) as Hp1.
  { apply (paired_map t t1 (λ _ u, change_user t (settle_user cfg o u)) (λ _, id) Hp); try done.
    intros c. rewrite Hs1. by destruct (_ !! c). }
  destruct (WriteUserScore_spec t1 Hp1) as (W1 & W2 & W3).
  split; [done|]. split; [done|]. split; [done|]. split; [done|]. split; [done|]. split; [|split].
  - intros i. rewrite W1, Hu. destruct (_ !! i); [|done]. simpl. f_equal. unfold finished, write_user. by rewrite Hs1.
  - intros i u Hi. pose proof (W2 i (change_user t (settle_user cfg o u))) as H. rewrite Hu, Hi, Hc, Hs1 in H.
    rewrite (H eq_refl). destruct (seats t !! chairId u) as [s|]; [|done]. simpl. f_equal.
    unfold finished. set (v := change_user _ _). unfold pay, write_user, bets_of. by destruct (seats t !! chairId v).
  - by rewrite W3, Hs1.
Qed.

Definition ended (t : Table) : Table := WriteUserScore t <| game_status := STATUS_END |> <| m_cbGameStatus := STATUS_END |>.

Lemma inv_ended w t t1 : inv cfg t → game_status t = STATUS_START → OnEventGameConclude cfg w t = Some t1 → inv cfg (ended t1).
Proof.
  intros Hi Hst Hc. destruct (conclude_spec w t t1 Hc (inv_paired _ _ Hi)) as
    (o & (S1 & S2 & S3 & S4 & S5 & S6) & Ho & Eo & Ea & _ & _ & C3 & C4 & C5 & C6 & C7).
  destruct (written_true t1) as (W1 & W2 & W3).
  set (g := λ (c : Z) (s : Seat), match m_UserInfo t !! s_userId s with Some u => pay (finished t o u) s | None => s end).
  assert (∀ c, seats (ended t1) !! c = g c <$> seats t !! c) as Hg.
  { intros c. change (seats (ended t1)) with (seats (WriteUserScore t1)). destruct (seats t !! c) as [s|] eqn:Es.
    - destruct (seat_user _ (inv_paired _ _ Hi) c s Es) as (u & Hu & <-). rewrite (C6 _ u Hu), Es. simpl. unfold g. by rewrite Hu.
    - apply not_elem_of_dom. rewrite C7. by apply not_elem_of_dom. }
  assert (∀ c s, s_userId (g c s) = s_userId s ∧ s_android (g c s) = s_android s) as Hgs.
  { intros c s. unfold g. destruct (_ !! _); [|done]. unfold pay. by case_match. }
  apply (inv_map cfg t _ (λ _, finished t o) g Hi).
  - exact C5.
  - exact Hg.
  - intros i u. apply finished_kept.
  - intros c s. apply Hgs.
  - intros i u s Hu Hs (H1 & H2 & H3 & H4 & H5). destruct (finished_kept t o u) as (_ & E2 & E3 & E4 & E5).
    destruct (Hgs (chairId u) s) as [_ Eg]. unfold shaped. rewrite E2, E3, E4, Eg. split; [|done].
    destruct (user_seat _ (inv_paired _ _ Hi) i u Hu) as (s' & Hs' & Eid). assert (s' = s) as -> by congruence.
    unfold g. rewrite Eid, Hu. unfold pay. destruct (Z.ltb_spec 0 (all_bets (bets_of s (finished t o u)))) as [|Hz]; [|done].
    simpl. rewrite E5.
    destruct (inv_bets _ _ Hi ltac:(by rewrite Hst) i u s Hu Hs) as (B1 & _ & B3 & _).
    pose proof (settle_least o u s Ho ltac:(by rewrite S3)) as Hl. rewrite B3 in Hl.
    assert (amounts (bets_of s u)) as Hb by (unfold bets_of; by destruct (s_android s)). specialize (Hl Hb). lia.
  - done.
  - simpl. rewrite W1, C3. apply Hi.
  - simpl. rewrite W3, Ea. apply (GetOpenCards_algo w t); [done|apply Hi].
  - done.
  - done.
  - intros c. unfold chips_of. simpl. rewrite W2, C4. apply (inv_chips _ _ Hi).
Qed.

(** ** Clearing the table *)

Lemma inv_clear_users l t : inv cfg t → game_status t = STATUS_END → NoDup l.*1 →
  (∀ iu, iu ∈ l → m_UserInfo t !! iu.1 = Some iu.2 ∧ ∃ s, seats t !! chairId iu.2 = Some s ∧ s_status s = sOffline) →
  ∃ t', foldl (λ ot (iu : Z * UserInfo), t ← ot; let id := u32 iu.1 in
    u ← m_UserInfo t !! id; Some (ClearTableUser (chairId u) t <| m_UserInfo ::= delete id |>)) (Some t) l = Some t' ∧
  inv cfg t' ∧ game_status t' = STATUS_END.
Proof.
  revert t. induction l as [|[i u] l IH]; intros t Hi Hst Hnd Hl; [by exists t|].
  destruct (Hl (i, u)) as (Hu & s & Hs & Es); [by left|]. simpl in Hu, Hs. cbn [foldl mbind option_bind fst snd].
  pose proof (inv_id _ _ Hi i u Hu) as Hid. assert (u32 i = i) as -> by (unfold u32; apply Z.mod_small; lia).
  rewrite Hu. cbn [mbind option_bind]. set (t1 := ClearTableUser (chairId u) t <| m_UserInfo ::= delete i |>).
  assert (ClearTableUser (chairId u) t = t <| seats ::= delete (chairId u) |>) as Ec.
  { unfold ClearTableUser. rewrite Hs, Es. done. }
  apply NoDup_cons in Hnd as [Hni Hnd].
  apply (IH t1).
  - apply (inv_remove cfg t t1 i u); try done; unfold t1; rewrite Ec; done.
  - unfold t1. by rewrite Ec.
  - done.
  - intros [j v] Hj. destruct (Hl (j, v)) as (Hv & s' & Hs' & Es'); [by right|]. simpl in *.
    assert (j ≠ i) as Hne. { intros ->. apply Hni. apply list_elem_of_fmap. by exists (i, v). }
    unfold t1. rewrite Ec. simpl. rewrite lookup_delete_ne by done. split; [done|]. exists s'.
    rewrite lookup_delete_ne; [done|]. intros E. apply Hne. by apply (same_chair t (inv_paired _ _ Hi) j i v u).
Qed.

(** The users to clear are marked first. *)
Lemma mark_offline l t : inv cfg t → let t' := foldl (λ t iu, set_seat (chairId iu.2) (λ s, s <| s_status := sOffline |>) t) t (l : list (Z * UserInfo)) in
  inv cfg t' ∧ game_status t' = game_status t ∧ m_UserInfo t' = m_UserInfo t ∧
  (∀ c s, seats t !! c = Some s → (s_status s = sOffline ∨ ∃ iu, iu ∈ l ∧ chairId iu.2 = c) →
    ∃ s', seats t' !! c = Some s' ∧ s_status s' = sOffline).
Proof.
  revert t. induction l as [|iu l IH]; intros t Hi; simpl.
  { split; [done|]. split; [done|]. split; [done|]. intros c s Hs [E|(iu & Hin & _)]; [by exists s|by apply elem_of_nil in Hin]. }
  set (t1 := set_seat (chairId iu.2) (λ s, s <| s_status := sOffline |>) t).
  assert (inv cfg t1) as Hi1 by by apply inv_set_seat.
  destruct (IH t1 Hi1) as (H1 & H2 & H3 & H4). split; [done|]. split; [done|]. split; [done|].
  intros c s Hs Hc. destruct (decide (c = chairId iu.2)) as [->|Hne].
  - apply (H4 _ (s <| s_status := sOffline |>)); [|by left]. unfold t1, set_seat. simpl. by rewrite lookup_alter_eq, Hs.
  - apply (H4 c s); [unfold t1, set_seat; simpl; by rewrite lookup_alter_ne|].
    destruct Hc as [|(iv & Hin & E)]; [by left|]. apply elem_of_cons in Hin as [->|Hin]; [by rewrite E in Hne|].
    right. by exists iv.
Qed.

Lemma inv_clearTableUser running t : inv cfg t → game_status t = STATUS_END →
  ∃ t', clearTableUser cfg running t = Some t' ∧ inv cfg t'.
Proof.
  intros Hi Hst. unfold clearTableUser. set (go := filter _ _).
  destruct (mark_offline go t Hi) as (H1 & H2 & H3 & H4). set (t1 := foldl _ t go) in *.
  destruct (inv_clear_users go t1 H1) as (t' & E & Hi' & _); [by rewrite H2| | |by exists t'].
  - pose proof (NoDup_fst_map_to_list (m_UserInfo t)) as Hnd. unfold go.
    clear -Hnd. induction (map_to_list (m_UserInfo t)) as [|x l IH]; [by constructor|].
    simpl in Hnd. apply NoDup_cons in Hnd as [Hx Hnd]. rewrite filter_cons. case_decide; [|by apply IH].
    simpl. apply NoDup_cons. split; [|by apply IH]. intros (y & Ey & Hy)%list_elem_of_fmap. apply Hx.
    apply list_elem_of_filter in Hy as [_ Hy]. apply list_elem_of_fmap. by exists y.
  - intros [i u] Hin. rewrite H3. apply list_elem_of_filter in Hin as Hin'. destruct Hin' as [_ Hm].
    apply elem_of_map_to_list in Hm. simpl. split; [done|].
    destruct (user_seat _ (inv_paired _ _ Hi) i u Hm) as (s & Hs & _). apply (H4 _ s Hs). right. by exists (i, u).
Qed.
End Settle.
