(* ===== verification/RedBlackProps.v ===== *)
(** Red against black, what holds of every table the events can reach: the books of the
    bets, that no event meets a null pointer, and that the round pays the users exactly
    what the house loses, less the revenue. *)
From stdpp Require Import base list numbers option gmap relations.
From Stdlib Require Import ZArith Lia.
From S2P Require Import Prelude GameDefine HongHei RedBlack RedBlackTable RedBlackInv RedBlackSteps RedBlackSettle.

#[local] Open Scope Z_scope.
#[local] Opaque judge RandCardList open_deal show.

(** ** Reachable tables *)

(** What the frame and the timers keep to.  The frame seats a user in a free chair, once,
    with a balance that is not negative; the ids fit [clearTableUser]; the timer of a phase
    fires in that phase; the user of [MustKill] is one of the table.  What a client may
    send is not restricted. *)
Definition valid (t : Table) (e : Event) : bool :=
  match e with
  | EEnter chair user _ score =>
      bool_decide (seats t !! chair = None) && bool_decide (GetUserItemByUserId user t = None) &&
      (0 <? user) && (user <? 4294967296) && (0 <=? score)
  | EJetton w _ => bool_decide (game_status t = STATUS_START) &&
      match control w with MustKill user => bool_decide (is_Some (m_UserInfo t !! user)) | _ => true end
  | EEnd => bool_decide (game_status t = STATUS_END)
  | _ => true
  end.

Inductive reachable (cfg : Config) : Table → Prop :=
  | reach_new : reachable cfg new_table
  | reach_step t e t' : reachable cfg t → valid t e = true → exec cfg e t = Some t' → reachable cfg t'.

(** A run of events from a table. *)
Fixpoint run (cfg : Config) (es : list Event) (t : Table) : option Table :=
  match es with
  | [] => Some t
  | e :: es => if valid t e then t ← exec cfg e t; run cfg es t else None
  end.

Lemma run_reachable cfg es t t' : run cfg es t = Some t' → reachable cfg t → reachable cfg t'.
Proof.
  revert t. induction es as [|e es IH]; intros t; simpl; [by intros [= ->]|].
  destruct (valid t e) eqn:Ev; [|done]. destruct (exec cfg e t) as [t1|] eqn:Ee; [|done]. simpl.
  intros H Hr. apply (IH t1 H). by eapply reach_step.
Qed.

Section Reach.
Context (cfg : Config) (Hcfg : config_ok cfg).

Lemma inv_new : inv cfg new_table.
Proof.
  split.
  - split; intros ? ?; simpl; by rewrite lookup_empty.
  - intros id u. simpl. by rewrite lookup_empty.
  - intros id u s. simpl. by rewrite lookup_empty.
  - intros _ id u s. simpl. by rewrite lookup_empty.
  - done.
  - done.
  - intros _ a Ha. change (m_UserInfo new_table) with (∅ : gmap Z UserInfo). rewrite sum_over_empty.
    destruct a as [|[|[|]]]; [done..|lia].
  - done.
  - intros c. split; [done|]. unfold chips_of. simpl. rewrite lookup_empty. simpl. repeat constructor.
Qed.

(** What the events leave behind the array of the cards: only an opening under control
    writes there. *)
Definition past_of (e : Event) (t : Table) : list Z :=
  match e with
  | EJetton w _ => if m_bControl cfg then [(d_past w).1; (d_past w).2] else past_array t
  | _ => past_array t
  end.

Lemma clearTableUser_past running t t' : clearTableUser cfg running t = Some t' → past_array t' = past_array t.
Proof.
  unfold clearTableUser. set (go := filter _ _). clearbody go. set (t1 := foldl _ t go).
  assert (past_array t1 = past_array t) as <-.
  { unfold t1. generalize t. induction go as [|iu go IH]; intros t0; [done|]. cbn [foldl]. by rewrite IH. }
  clearbody t1. revert t1. induction go as [|iu go IH]; intros t1; cbn [foldl]; [by intros [= <-]|].
  cbn [mbind option_bind]. destruct (m_UserInfo t1 !! u32 iu.1) as [u|]; cbn [mbind option_bind].
  - intros ->%IH. cbn. unfold ClearTableUser. by repeat case_match.
  - assert (∀ l, foldl (λ ot (iu : Z * UserInfo), t ← ot; u ← m_UserInfo t !! u32 iu.1;
      Some (ClearTableUser (chairId u) t <| m_UserInfo ::= delete (u32 iu.1) |>)) None l = None) as ->; [|done].
    intros l. by induction l.
Qed.

Lemma written_past t : past_array (WriteUserScore t) = past_array t.
Proof.
  unfold WriteUserScore. set (t0 := _ <| m_UserInfo ::= _ |>). assert (past_array t0 = past_array t) as <- by done.
  clearbody t0. apply (map_fold_weak_ind (λ t' _, past_array t' = past_array t0)); [done|]. by intros.
Qed.

Lemma jetton_past w running t t' : OnTimerJetton cfg w running t = Some t' → past_array t' = past_of (EJetton w running) t.
Proof.
  unfold OnTimerJetton, OnEventGameConclude. destruct (GetOpenCards cfg w t) as [o|] eqn:Eo; [|done].
  cbn [mbind option_bind]. intros ->%clearTableUser_past. cbn. rewrite written_past. cbn.
  by apply GetOpenCards_past in Eo.
Qed.

(** The timer of the bets: it fails only where no deal is kept. *)
Lemma inv_jetton w running t : inv cfg t → game_status t = STATUS_START →
  (∃ t', OnTimerJetton cfg w running t = Some t' ∧ inv cfg t') ∨
  (OnTimerJetton cfg w running t = None ∧ m_bControl cfg = true ∧ open_with w t (set_algorithm cfg w t) = None).
Proof.
  intros Hi Hst. unfold OnTimerJetton. destruct (OnEventGameConclude cfg w t) as [t1|] eqn:Ec.
  - left. cbn [mbind option_bind]. apply (inv_clearTableUser cfg running (ended t1)); [|done]. by eapply inv_ended.
  - right. split; [done|]. unfold OnEventGameConclude, GetOpenCards in Ec.
    destruct (m_bControl cfg); [|done]. split; [done|]. by destruct (open_with _ _ _) as [[[] ?]|].
Qed.

(** The events that fail: a timer whose cards never come, a request to bet again with a
    fourth stake or with sums beyond [int64_t]. *)
Definition fails (t : Table) (e : Event) : Prop :=
  (∃ w running, e = EJetton w running ∧ m_bControl cfg = true ∧ open_with w t (set_algorithm cfg w t) = None) ∨
  (∃ c l, e = ERejetton c l ∧ game_status t = STATUS_START ∧ rejetton_fails t c l).

Lemma OnUserLeft_past user t r t' : OnUserLeft user t = Some (r, t') → past_array t' = past_array t.
Proof.
  unfold OnUserLeft. destruct (GetUserItemByUserId user t) as [[c s]|]; [|by intros [= _ <-]].
  destruct (m_UserInfo t !! user) as [u|]; [|done]. cbn [mbind option_bind].
  destruct (_ =? 0); intros [= _ <-]; [|done]. unfold ClearTableUser. by repeat case_match.
Qed.

Lemma OnUserEnter_past user t : past_array (OnUserEnter cfg user t) = past_array t.
Proof. unfold OnUserEnter. by repeat case_match. Qed.

(** An event keeps the invariant, or it is one that fails. *)
Lemma inv_exec t e : inv cfg t → valid t e = true →
  (∃ t', exec cfg e t = Some t' ∧ inv cfg t' ∧ past_array t' = past_of e t) ∨ (exec cfg e t = None ∧ fails t e).
Proof.
  intros Hi Hv. destruct e as [chair user android score|user|user|chair area x|chair l|w running|]; cbn [exec past_of].
  - left. simpl in Hv. breflect. apply bool_decide_eq_true in H, H3.
    eexists. split; [done|]. split; [|by rewrite OnUserEnter_past]. apply inv_enter; try done. by apply unseated.
  - left. destruct (GetUserItemByUserId user t) as [[c s]|] eqn:Ef; [|by exists t].
    eexists. split; [done|]. split; [by eapply inv_return|by rewrite OnUserEnter_past].
  - left. destruct (GetUserItemByUserId user t) as [[c s]|] eqn:Ef; [|by exists t].
    destruct (inv_left cfg t user c s Hi Ef) as (r & t' & E & Hi'). rewrite E. exists t'. split; [done|].
    split; [done|]. by apply OnUserLeft_past in E.
  - left. destruct (OnUserAddScore_cases cfg t chair area x Hi) as (r & t' & -> & [[_ ->]|(_ & Hst & s & u & Hb & ->)]);
      eexists; (split; [done|]); [done|]. split; [by eapply inv_placed|]. apply placed_past.
  - destruct (inv_Rejetton cfg t chair l Hi) as [Hs|(H1 & H2 & H3)]; [by left|]. right. split; [done|]. right. by exists chair, l.
  - simpl in Hv. breflect. apply bool_decide_eq_true in H.
    destruct (inv_jetton w running t Hi H) as [(t' & Et & Hi')|(H1 & H2 & H3)].
    + left. exists t'. split; [done|]. split; [done|]. by apply jetton_past in Et.
    + right. split; [done|]. left. by exists w, running.
  - left. eexists. split; [done|]. split; [by apply inv_clear|done].
Qed.

Lemma reachable_table_inv t : reachable cfg t → inv cfg t.
Proof.
  induction 1 as [|t e t' _ IH Hv He]; [apply inv_new|].
  destruct (inv_exec t e IH Hv) as [(t'' & E & Hi & _)|[E _]]; congruence.
Qed.

(** ** Money *)

(** A sum over the users is a sum over the chairs. *)
Lemma paired_sum (fu : UserInfo → Z) (fs : Seat → Z) t : paired t →
  (∀ i u s, m_UserInfo t !! i = Some u → seats t !! chairId u = Some s → fu u = fs s) →
  sum_over fu (m_UserInfo t) = sum_over fs (seats t).
Proof.
  remember (m_UserInfo t) as m eqn:Em. revert t Em. induction m as [|i u m Hi IH] using map_ind; intros t Em Hp Hf.
  - assert (seats t = ∅) as ->; [|done]. apply map_empty. intros c. destruct (seats t !! c) as [s|] eqn:Es; [|done].
    destruct (seat_user _ Hp c s Es) as (u & Hu & _). by rewrite <- Em, lookup_empty in Hu.
  - assert (m_UserInfo t !! i = Some u) as Hu by (rewrite <- Em; apply lookup_insert_eq).
    destruct (user_seat _ Hp i u Hu) as (s & Hs & _).
    rewrite sum_over_insert by done. rewrite (sum_over_delete fs _ s _ Hs). rewrite (Hf i u s) by (done || apply lookup_insert_eq).
    f_equal. set (t' := t <| m_UserInfo := m |> <| seats ::= delete (chairId u) |>).
    apply (IH t'); [done| |].
    + apply (paired_remove t t' i u); [done|done| |done]. simpl. rewrite <- Em. by rewrite delete_insert_id.
    + intros j v r Hv Hr. simpl in Hr. apply lookup_delete_Some in Hr as [_ Hr]. apply (Hf j v r); [|done].
      rewrite lookup_insert_ne; [done|]. congruence.
Qed.

(** The wins of the users are the win on the sums of their bets. *)
Lemma sum_gross t (m : gmap Z UserInfo) :
  let b a := sum_over (λ u, (m_lUserJettonScore u).[a]) m in
  sum_over (λ u, gross cfg t (m_lUserJettonScore u)) m =
    b (m_winFlag t) - b (loser (m_winFlag t)) +
    (if lucky_pays t then b SPECIAL * (m_SpecialTimes cfg).[Z.to_nat (m_winType t)] else - b SPECIAL).
Proof.
  induction m as [|i u m Hi IH] using map_ind; cbv zeta in *.
  - rewrite !sum_over_empty. destruct (lucky_pays t); lia.
  - rewrite !sum_over_insert by done. rewrite IH. unfold gross. destruct (lucky_pays t); lia.
Qed.

Lemma gross_zeros t : gross cfg t zeros - tax cfg t zeros = 0.
Proof.
  assert (∀ a, zeros.[a] = 0) as Hz by (intros [|[|[|[]]]]; done).
  unfold gross, tax. rewrite !Hz. unfold CalculateRevenue. destruct (lucky_pays t); simpl; lia.
Qed.

(** The balances of the real users. *)
Definition real_money (t : Table) : Z := sum_over (λ s, if s_android s then 0 else s_score s) (seats t).

Lemma all_zero b : amounts b → all_bets b <= 0 → b = zeros.
Proof.
  intros Hb Hz. pose proof (all_bets_nonneg b Hb). pose proof (all_bets_zero b Hb ltac:(lia)) as H0.
  destruct Hb as [Hl _]. destruct b as [|x [|y [|z [|]]]]; try done.
  pose proof (H0 0%nat). pose proof (H0 1%nat). pose proof (H0 2%nat). unfold aget in *. simpl in *. unfold zeros. repeat f_equal; lia.
Qed.

Lemma round_money w t t1 : inv cfg t → game_status t = STATUS_START → OnEventGameConclude cfg w t = Some t1 →
  ∃ o, GetOpenCards cfg w t = Some o ∧ m_Algorithm t1 = m_Algorithm o ∧
  real_money (WriteUserScore t1) = real_money t + gross cfg o (m_lTrueUserJettonScore t) -
    sum_over (λ u, tax cfg o (m_lUserJettonScore u)) (m_UserInfo t).
Proof.
  intros Hi Hst Hc. destruct (conclude_spec cfg Hcfg w t t1 Hc (inv_paired _ _ Hi)) as
    (o & (S1 & S2 & S3 & S4 & S5 & S6) & Ho & Eo & Ea & _ & _ & _ & _ & _ & C6 & C7).
  exists o. split; [done|]. split; [done|].
  set (win := λ u, gross cfg o (m_lUserJettonScore u) - tax cfg o (m_lUserJettonScore u)).
  set (gain := λ s : Seat, match m_UserInfo t !! s_userId s with Some u => win u | None => 0 end).
  assert (real_money (WriteUserScore t1) = real_money t + sum_over gain (seats t)) as ->.
  { unfold real_money. rewrite <- sum_over_add. apply sum_over_ext. intros c.
    destruct (seats t !! c) as [s|] eqn:Es.
    - destruct (seat_user _ (inv_paired _ _ Hi) c s Es) as (u & Hu & Ec). rewrite <- Ec in Es |- *. rewrite (C6 _ u Hu), Es.
      simpl. f_equal. unfold gain. rewrite Hu.
      pose proof (inv_user _ _ Hi _ u s Hu Es) as Hsh. pose proof (bets_amounts _ _ Hsh) as Hb.
      destruct (finished_kept cfg t o u) as (_ & E2 & E3 & _ & E5).
      destruct (inv_bets _ _ Hi ltac:(by rewrite Hst) _ u s Hu Es) as (_ & _ & B3 & _).
      pose proof (settle_value cfg Hcfg o u s Ho ltac:(by rewrite S3) Hb) as Hv.
      assert (bets_of s (finished cfg t o u) = bets_of s u) as Eb by (unfold bets_of; by rewrite E2, E3).
      destruct Hsh as (_ & _ & _ & _ & Hz). unfold pay, win. rewrite Eb. unfold bets_of in *.
      destruct (s_android s) eqn:Hand.
      + rewrite Hz. destruct (0 <? _); simpl; rewrite Hand, gross_zeros; lia.
      + destruct (Z.ltb_spec 0 (all_bets (m_lUserJettonScore u))) as [|Hn]; simpl; rewrite Hand.
        * rewrite E5, Hv, B3. lia.
        * rewrite (all_zero _ Hb Hn), gross_zeros. lia.
    - assert (seats (WriteUserScore t1) !! c = None) as ->; [|done]. apply not_elem_of_dom. rewrite C7. by apply not_elem_of_dom. }
  rewrite <- (paired_sum win gain t) by (try apply Hi; intros i u s Hu Hs; unfold gain;
    destruct (user_seat _ (inv_paired _ _ Hi) i u Hu) as (s' & Hs' & Ei);
    assert (s' = s) as -> by congruence; by rewrite Ei, Hu).
  assert (sum_over win (m_UserInfo t) = sum_over (λ u, gross cfg o (m_lUserJettonScore u)) (m_UserInfo t) -
    sum_over (λ u, tax cfg o (m_lUserJettonScore u)) (m_UserInfo t)) as ->.
  { unfold win. rewrite (sum_over_ext (λ u, gross cfg o (m_lUserJettonScore u))
      (λ u, (gross cfg o (m_lUserJettonScore u) - tax cfg o (m_lUserJettonScore u)) + tax cfg o (m_lUserJettonScore u)) _ (m_UserInfo t)).
    - rewrite (sum_over_add (λ u, gross cfg o (m_lUserJettonScore u) - tax cfg o (m_lUserJettonScore u))). lia.
    - intros i. destruct (_ !! i); [|done]. simpl. f_equal. lia. }
  pose proof (sum_gross o (m_UserInfo t)) as Hg. cbv beta zeta in Hg. rewrite Hg. clear Hg. unfold gross. destruct Ho as [Hf _].
  assert (∀ a, (a < 3)%nat → (m_lTrueUserJettonScore t).[a] = sum_over (λ u, (m_lUserJettonScore u).[a]) (m_UserInfo t)) as Ht
    by (apply (inv_true _ _ Hi); by rewrite Hst).
  assert (m_winFlag o < 3 ∧ loser (m_winFlag o) < 3 ∧ SPECIAL < 3)%nat as (L1 & L2 & L3)
    by (unfold loser, SPECIAL; destruct Hf as [-> | ->]; unfold RED, BLACK; simpl; lia).
  rewrite !Ht by done.
  destruct (lucky_pays o); lia.
Qed.
End Reach.

(** ** Demonstration *)

Definition demo_config : Config :=
  MkConfig 1 1 [1; 1; 2; 3; 5; 10] [5000; 50000; 50000] 3500 true [0; 50000; 200000; 500000]
    (replicate 4 [100; 200; 500; 1000; 5000]) 5 0 0.

Lemma demo_config_ok : config_ok demo_config.
Proof.
  split; simpl; try lia; try done; repeat constructor; try lia.
  intros [|[|[|]]] Ha; vm_compute; [done..|congruence].
Defined.

(** Two real users and a robot have bet; the house must win. *)
Definition demo_events : list Event :=
  [EEnter 0 1001 false 100000; EEnter 1 1002 false 50000; EEnter 2 5000 true 900000;
   EBet 0 1 1000; EBet 0 0 100; EBet 1 2 500; EBet 2 1 5000; ERejetton 1 [0; 1300; 0]].
Definition demo_table : Table := default new_table (run demo_config demo_events new_table).
Definition demo_draw : Draw := MkDraw KillAll 1000000 0 500000 0 0 demo_shuffles 20 (77, 88) [].

Lemma demo_table_reachable : reachable demo_config demo_table.
Proof.
  apply (run_reachable demo_config demo_events new_table); [|constructor].
  vm_compute. reflexivity.
Defined.

(** ** What holds of every reachable table *)

(** C9. While bets are taken, the three sums by which the cards will be chosen are the
    sums of the real users' bets, every user sits in the chair he is booked for, and what
    a user has bet is within his balance and within the limit of each area. *)
Theorem reachable_books cfg (Hcfg : config_ok cfg) t : reachable cfg t → game_status t = STATUS_START →
  (∀ a, (a < 3)%nat → (m_lTrueUserJettonScore t).[a] = sum_over (λ u, (m_lUserJettonScore u).[a]) (m_UserInfo t)) ∧
  (∀ c s, seats t !! c = Some s → ∃ u, m_UserInfo t !! s_userId s = Some u ∧ chairId u = c) ∧
  (∀ id u, m_UserInfo t !! id = Some u → ∃ s, seats t !! chairId u = Some s ∧ s_userId s = id ∧
    all_bets (bets_of s u) <= s_score s ∧
    ∀ a, (a < 3)%nat → 0 <= (bets_of s u).[a] <= (m_AreaMaxJetton cfg).[a]).
Proof.
  intros Hi%reachable_table_inv Hst; [|done]. assert (game_status t ≠ STATUS_END) as Hne by (by rewrite Hst).
  split; [by apply (inv_true _ _ Hi)|]. split; [apply (inv_paired _ _ Hi)|].
  intros id u Hu. destruct (user_seat _ (inv_paired _ _ Hi) id u Hu) as (s & Hs & Eid).
  destruct (inv_bets _ _ Hi Hne id u s Hu Hs) as (B1 & B2 & _).
  exists s. split; [done|]. split; [done|]. split; [done|]. intros a Ha. split; [|by apply B2].
  apply amounts_get. apply bets_amounts. by apply (inv_user _ _ Hi id).
Qed.

Lemma reachable_books_witness : m_lTrueUserJettonScore demo_table = [100; 2300; 500] ∧
  (m_lTrueUserJettonScore demo_table).[1] = sum_over (λ u, (m_lUserJettonScore u).[1]) (m_UserInfo demo_table).
Proof.
  split; [vm_compute; reflexivity|].
  apply (proj1 (reachable_books demo_config demo_config_ok demo_table demo_table_reachable ltac:(vm_compute; reflexivity))). lia.
Defined.



(** A fourth stake, and stakes whose sum is 2^63: both have no result. *)
Example rejetton_fourth : Rejetton demo_config 1 [0; 100; 0; 100] demo_table = None.
Proof. vm_compute. reflexivity. Qed.

Example rejetton_overflow : Rejetton demo_config 1 [9223372036854775807; 1; 0] demo_table = None.
Proof. vm_compute. reflexivity. Qed.

(** C3. The round is paid to the last coin, whether or not the cards are under control and
    whatever test cards there are: with colours that pay one to one ([config_ok]), the real
    users' balances change by what the sums of their bets win on the cards that are opened
    and by minus the revenue of the winning areas, and no balance becomes negative.  The
    profit of the house that is booked is minus that win when the cards are under control
    and there are no test cards; without control it is the one that was there before. *)
Theorem settlement_balances cfg (Hcfg : config_ok cfg) w t t1 : reachable cfg t → game_status t = STATUS_START →
  OnEventGameConclude cfg w t = Some t1 →
  let b := m_lTrueUserJettonScore t in
  let withheld := sum_over (λ u, tax cfg t1 (m_lUserJettonScore u)) (m_UserInfo t) in
  let won := b.[m_winFlag t1] - b.[loser (m_winFlag t1)] +
    (if lucky_pays t1 then b.[SPECIAL] * (m_SpecialTimes cfg).[Z.to_nat (m_winType t1)] else - b.[SPECIAL]) in
  real_money (WriteUserScore t1) = real_money t + won - withheld ∧ 0 <= withheld ∧
  (∀ c s, seats (WriteUserScore t1) !! c = Some s → 0 <= s_score s) ∧
  (m_bControl cfg = true → m_listTestCardArray t = [] → d_config_cards w = [] → GetCurProfit (m_Algorithm t1) = - won) ∧
  (m_bControl cfg = false → GetCurProfit (m_Algorithm t1) = GetCurProfit (m_Algorithm t)).
Proof.
  intros Hi%reachable_table_inv Hst Hc b withheld won; [|done].
  destruct (round_money cfg Hcfg w t t1 Hi Hst Hc) as (o & Eo & Ea & Em).
  assert ((∀ b, tax cfg t1 b = tax cfg o b) ∧ won = gross cfg o b) as [Htax Hwon].
  { unfold OnEventGameConclude in Hc. rewrite Eo in Hc. injection Hc as <-. done. }
  split; [|split; [|split; [|split]]].
  - rewrite Em, Hwon. unfold withheld.
    rewrite (sum_over_ext (λ u, tax cfg t1 (m_lUserJettonScore u)) (λ u, tax cfg o (m_lUserJettonScore u)) _ (m_UserInfo t)); [done|].
    intros i. destruct (_ !! i); [|done]. simpl. by rewrite Htax.
  - apply sum_over_nonneg. intros i u Hu. rewrite Htax.
    destruct (user_seat _ (inv_paired _ _ Hi) i u Hu) as (s & Hs & _).
    destruct (inv_user _ _ Hi i u s Hu Hs) as (_ & Hb & _). apply (tax_nonneg cfg Hcfg); [|done].
    by apply (GetOpenCards_ok cfg Hcfg w t o).
  - pose proof (inv_ended cfg Hcfg w t t1 Hi Hst Hc) as He. intros c s Hs.
    destruct (seat_user _ (inv_paired _ _ He) c s Hs) as (u & Hu & Ec).
    destruct (inv_user _ _ He _ u s Hu) as (H0 & _); [by rewrite Ec|done].
  - intros Hctl Ht Hw. rewrite Hwon, Ea. by apply (GetOpenCards_profit cfg Hcfg w t o Hctl Ht Hw (inv_algo _ _ Hi)).
  - intros Hctl. rewrite Ea. by rewrite (GetOpenCards_stale cfg Hcfg w t o Hctl Eo).
Qed.

Lemma settlement_balances_witness : ∃ t1, OnEventGameConclude demo_config demo_draw demo_table = Some t1 ∧
  real_money demo_table = 150000 ∧ 150000 - real_money (WriteUserScore t1) - GetCurProfit (m_Algorithm t1) =
    sum_over (λ u, tax demo_config t1 (m_lUserJettonScore u)) (m_UserInfo demo_table).
Proof.
  destruct (OnEventGameConclude demo_config demo_draw demo_table) as [t1|] eqn:E; [|vm_compute in E; discriminate E].
  exists t1. split; [reflexivity|]. assert (real_money demo_table = 150000) as Em by (vm_compute; reflexivity).
  split; [exact Em|].
  pose proof (settlement_balances demo_config demo_config_ok demo_draw demo_table t1 demo_table_reachable
    ltac:(vm_compute; reflexivity) E) as (H & _ & _ & H2 & _). cbv zeta in H, H2.
  rewrite H, Em, (H2 eq_refl ltac:(vm_compute; reflexivity) eq_refl). lia.
Defined.

(** ** What is booked wrongly *)

(** The settlement of one user: his win is the win of his bets less the revenue of the
    winning areas, but the revenue booked is that of one area only: whoever wins on his
    colour and on the lucky area pays both revenues and has the lucky one booked. *)
Theorem settle_user_books cfg (Hcfg : config_ok cfg) t u s : opened cfg t → seats t !! chairId u = Some s →
  amounts (bets_of s u) → m_EndWinScore u = 0 → m_Revenue u = 0 →
  let b := bets_of s u in let v := settle_user cfg t u in
  m_EndWinScore v = gross cfg t b - tax cfg t b ∧
  m_Revenue v = tax cfg t b -
    (if lucky_pays t && (0 <? b.[SPECIAL]) then CalculateRevenue (revenueRatio cfg) b.[m_winFlag t] else 0).
Proof.
  intros Ho Hs Hb He Hr b v. split; [unfold v; rewrite (settle_value cfg Hcfg t u s) by done; fold b; lia|].
  destruct Ho as [Hf Hm]. destruct (ok_times _ Hcfg) as [T1 T2].
  assert (∀ x, b.[x] <= 0 → b.[x] = 0) as Hz by (intros x; pose proof (amounts_get b x Hb); lia).
  assert (CalculateRevenue (revenueRatio cfg) 0 = 0) as R0 by (unfold CalculateRevenue; done).
  unfold v, settle_user. rewrite Hs, T1, T2. fold b. unfold tax, cul, area_win.
  clearbody b. clear Hs. destruct Hf as [-> | ->]; simpl; rewrite !Z.mul_1_r; destruct (s_android s), (lucky_pays t); simpl;
    repeat match goal with |- context [0 <? b.[?x]] => destruct (Z.ltb_spec 0 b.[x]) end; simpl;
    repeat match goal with H : b.[_] <= 0 |- _ => rewrite (Hz _ H) end; rewrite ?Z.mul_0_l, ?R0, ?Hr; lia.
Qed.

(** Both hands of the demonstration: black wins with a flush. *)
Definition demo_winner : UserInfo := new_user 0 <| m_lUserJettonScore := [100; 1000; 0] |>.
Definition demo_opened : Table :=
  demo_table <| m_winFlag := BLACK |> <| m_winType := CT_JIN_HUA |> <| m_wincardValue := 14 |>.

Lemma settle_user_books_witness : m_EndWinScore (settle_user demo_config demo_opened demo_winner) = 1235 ∧
  m_Revenue (settle_user demo_config demo_opened demo_winner) = 65 - 50.
Proof.
  destruct (seats demo_opened !! 0) as [s|] eqn:Es; [|vm_compute in Es; discriminate Es].
  assert (bets_of s demo_winner = [100; 1000; 0]) as Eb by (vm_compute in Es; injection Es as <-; reflexivity).
  destruct (settle_user_books demo_config demo_config_ok demo_opened demo_winner s) as [H1 H2].
  - split; [left; reflexivity|vm_compute; discriminate].
  - exact Es.
  - rewrite Eb. split; [reflexivity|repeat constructor; lia].
  - reflexivity.
  - reflexivity.
  - rewrite H1, H2, Eb. split; vm_compute; reflexivity.
Defined.

(** The list of the users to clear is one of 32-bit ids: the end of a round at which a
    user with a wider id is to leave reads a null pointer, unless the low half of the id
    happens to be a user of the table. *)
Theorem clearTableUser_wide cfg running t id u s :
  m_UserInfo t !! id = Some u → seats t !! chairId u = Some s → leaves cfg running s = true →
  m_UserInfo t !! u32 id = None → clearTableUser cfg running t = None.
Proof.
  intros Hu Hs Hl Hw. unfold clearTableUser. set (go := filter _ _).
  assert ((id, u) ∈ go) as Hin.
  { apply list_elem_of_filter. split; [simpl; by rewrite Hs|]. by apply elem_of_map_to_list. }
  clearbody go. set (t1 := foldl _ t go).
  assert (m_UserInfo t1 !! u32 id = None) as H1.
  { unfold t1. clear -Hw. revert t Hw. induction go as [|iu go IH]; intros t Hw; [done|]. by apply IH. }
  clearbody t1. clear -Hin H1. revert t1 H1. induction go as [|iu go IH]; intros t H1; [by apply elem_of_nil in Hin|].
  set (step := λ ot iu, _). assert (∀ l, foldl step None l = None) as Hnone by (intros l; by induction l).
  cbn [foldl]. destruct (step (Some t) iu) as [t'|] eqn:Et; [|apply Hnone].
  unfold step in Et. cbn [mbind option_bind] in Et. destruct (m_UserInfo t !! u32 iu.1) as [v|] eqn:Ev; [|done].
  cbn [mbind option_bind] in Et. apply elem_of_cons in Hin as [<-|Hin]; [simpl in Ev; congruence|].
  apply (IH Hin). injection Et as <-. simpl. unfold ClearTableUser.
  apply lookup_delete_None. right. by repeat case_match.
Qed.

(** A user with the id 2^32 + 7 sits alone when the server stops. *)
Definition wide_table : Table :=
  default new_table (exec demo_config (EEnter 3 4294967303 false 100) new_table).

Lemma clearTableUser_wide_witness : clearTableUser demo_config false wide_table = None.
Proof.
  destruct (seats wide_table !! 3) as [s|] eqn:Es; [|vm_compute in Es; discriminate Es].
  destruct (m_UserInfo wide_table !! 4294967303) as [u|] eqn:Eu; [|vm_compute in Eu; discriminate Eu].
  assert (chairId u = 3) as Ec by (vm_compute in Eu; injection Eu as <-; reflexivity).
  apply (clearTableUser_wide demo_config false wide_table 4294967303 u s); [exact Eu|by rewrite Ec|reflexivity|].
  vm_compute. reflexivity.
Defined.
