(* ===== verification/BullLogic.v ===== *)
(** Grab the banker, the cards ([src/Games/Game_QznnLandy/GameLogic.cpp]): five cards form
    a bull when three of them add up to a multiple of ten; the other two give its number. *)
From stdpp Require Import base list numbers sorting sets.
From Stdlib Require Import ZArith Lia.
From S2P Require Import Prelude Cards.

#[local] Open Scope Z_scope.

(** ** Cards *)

Definition MAX_COUNT : nat := 5.
Definition MAX_CARD_TOTAL : nat := 52.

Definition m_byCardDataArray : list Z :=
  concat (map (λ color, map (λ v, 16 * Z.of_nat color + Z.of_nat v) (seq 1 13)) (seq 0 4)).

(** [OX_VALUE0] and the bulls from one to ten are their number. *)
Definition OX_VALUE0 : Z := 0.
Definition OX_SILVERY_BULL : Z := 11.
Definition OX_GOLDEN_BULL : Z := 12.
Definition OX_BOMB : Z := 13.
Definition OX_FIVE_SMALL : Z := 14.

Definition GetCardColor (c : Z) : Z := Z.shiftr (Z.land c MASK_COLOR) 4.

(** Court cards count ten. *)
Definition GetLogicValue (c : Z) : Z := if 10 <? GetCardValue c then 10 else GetCardValue c.

(** By falling value, then by falling card. *)
Definition SortCardList (l : list Z) : list Z := sort_by_value GetCardValue l.

(** ** Types *)

Definition IsFiveSmall (h : list Z) : bool :=
  forallb (λ c, negb (4 <? GetCardValue c)) h &&
  let wTotalValue := sumZ (map GetCardValue h) in (wTotalValue <=? 10) && (0 <? wTotalValue).

Definition IsBomb (h : list Z) : bool :=
  let t := SortCardList h in
  let bSecondValue := GetCardValue t.[2] in
  (length (filter (λ c, bSecondValue = GetCardValue c) t) =? 4)%nat.

Definition IsGoldenBull (h : list Z) : bool := forallb (λ c, 10 <? GetCardValue c) h.

Definition IsSilveryBull (h : list Z) : bool :=
  forallb (λ c, 10 <=? GetCardValue c) h &&
  (length (filter (λ c, (10 < GetCardValue c)%Z) h) =? 4)%nat && (length (filter (λ c, GetCardValue c = 10%Z) h) =? 1)%nat.

(** The pairs [i < j] in the order of the loops. *)
Definition pairs : list (nat * nat) := concat (map (λ i, map (pair i) (seq (S i) (4 - i))) (seq 0 4)).

(** The cards besides [i] and [j] add up to a multiple of ten. *)
Definition splits (bTemp : list Z) (ij : nat * nat) : bool :=
  Z.rem (sumZ bTemp - bTemp.[fst ij] - bTemp.[snd ij]) 10 =? 0.

Definition GetCardType (h : list Z) : Z :=
  if IsFiveSmall h then OX_FIVE_SMALL
  else if IsBomb h then OX_BOMB
  else if IsGoldenBull h then OX_GOLDEN_BULL
  else if IsSilveryBull h then OX_SILVERY_BULL
  else
    let bTemp := map GetLogicValue h in
    match find (splits bTemp) pairs with
    | Some (i, j) => let s := bTemp.[i] + bTemp.[j] in if 10 <? s then s - 10 else s
    | None => OX_VALUE0
    end.

(** ** Comparison *)

Definition CompareCard (cbFirstCard cbNextCard : list Z) : bool :=
  let cbFirstType := GetCardType cbFirstCard in
  let cbNextType := GetCardType cbNextCard in
  if negb (cbFirstType =? cbNextType) then cbNextType <? cbFirstType
  else
    let f := SortCardList cbFirstCard in
    let n := SortCardList cbNextCard in
    if cbFirstType =? OX_BOMB then GetCardValue n.[2] <? GetCardValue f.[2]
    else if negb (GetCardValue n.[0] =? GetCardValue f.[0]) then GetCardValue n.[0] <? GetCardValue f.[0]
    else GetCardColor n.[0] <? GetCardColor f.[0].

Definition GetMultiple (h : list Z) : Z :=
  let t := GetCardType h in
  if t <=? 6 then 1 else if t <=? 9 then 2 else if t =? 10 then 3
  else if (t =? OX_BOMB) || (t =? OX_SILVERY_BULL) || (t =? OX_GOLDEN_BULL) || (t =? OX_FIVE_SMALL) then 4 else 0.

(** The cards of the bull in front; a hand without one stays as it is. *)
Definition GetOxCard (h : list Z) : bool * list Z :=
  match find (splits (map GetLogicValue h)) pairs with
  | Some (i, j) =>
      (true, concat (imap (λ k c, if (k =? i)%nat || (k =? j)%nat then [] else [c]) h) ++ [h.[i]; h.[j]])
  | None => (false, h)
  end.

(** ** Hands of the pack *)

Definition hand (h : list Z) : Prop := length h = MAX_COUNT ∧ Forall (λ c, c ∈ m_byCardDataArray) h ∧ NoDup h.

(** The bytes of the pack, and what the masks read of them. *)
Lemma pack_byte c : c ∈ m_byCardDataArray → 1 <= GetCardValue c <= 13 ∧ 0 <= GetCardColor c <= 3 ∧
  c = 16 * GetCardColor c + GetCardValue c.
Proof.
  intros Hc. assert (Forall (λ c, 1 <= GetCardValue c <= 13 ∧ 0 <= GetCardColor c <= 3 ∧
    c = 16 * GetCardColor c + GetCardValue c) m_byCardDataArray) as H by by_decide.
  rewrite Forall_forall in H. by apply H.
Qed.

Lemma hand_values h : hand h → Forall (λ c, 1 <= GetCardValue c <= 13) h.
Proof. intros (_ & H & _). eapply Forall_impl; [exact H|]. intros c Hc. by apply pack_byte. Qed.

(** ** Sorted hands *)

Lemma bull_sorted_perm h : SortCardList h ≡ₚ h.
Proof. apply sort_by_value_perm. Qed.

Lemma sorted_canonical h k : h ≡ₚ k → SortCardList h = SortCardList k.
Proof. apply sort_by_value_canonical. Qed.

(** The first card is the greatest, by value and then by colour. *)
Definition rank (c : Z) : Z := 16 * GetCardValue c + GetCardColor c.

Lemma sorted_top h : hand h → ∃ c, SortCardList h !! 0%nat = Some c ∧ c ∈ h ∧ Forall (λ x, rank x <= rank c) h.
Proof.
  intros (Hl & Hc & _). pose proof (bull_sorted_perm h) as Hp. pose proof (sort_by_value_sorted GetCardValue h) as Hs.
  fold (SortCardList h) in Hs. destruct (SortCardList h) as [|c l].
  { apply Permutation_length in Hp. by rewrite Hl in Hp. }
  exists c. split; [done|]. assert (c ∈ h) as Hin by (rewrite <- Hp; by left). split; [done|].
  rewrite <- Hp in Hc. rewrite Forall_forall in Hc. apply Forall_forall. intros x Hx. rewrite <- Hp in Hx.
  destruct (pack_byte c (Hc c ltac:(by left))) as (V1 & C1 & E1). destruct (pack_byte x (Hc x Hx)) as (V2 & C2 & E2).
  apply elem_of_cons in Hx as [->|Hx]; [lia|].
  inversion_clear Hs as [|? ? _ Hall]. rewrite Forall_forall in Hall. specialize (Hall x Hx).
  unfold card_ge, desc, card_lt in Hall. unfold rank. bcases; lia.
Qed.

(** The middle card of a sorted hand has the value four cards have. *)
Lemma bomb_value h v : length h = 5%nat → length (filter (λ c, v = GetCardValue c) h) = 4%nat →
  GetCardValue (SortCardList h).[2] = v.
Proof.
  intros Hl Hn. pose proof (bull_sorted_perm h) as Hp. rewrite <- Hp in Hl, Hn.
  pose proof (sort_by_value_sorted GetCardValue h) as Hs. fold (SortCardList h) in Hs.
  clear Hp. destruct (SortCardList h) as [|a [|b [|c [|d [|e [|]]]]]]; try done. clear Hl.
  assert (∀ x y, card_ge GetCardValue x y → GetCardValue y <= GetCardValue x) as Hge by (intros; by apply card_ge_value).
  repeat match goal with H : StronglySorted _ (_ :: _) |- _ => inversion_clear H end.
  repeat match goal with H : Forall _ (_ :: _) |- _ => inversion_clear H end.
  repeat match goal with H : card_ge _ _ _ |- _ => apply Hge in H end.
  rewrite !filter_cons in Hn. change ([a; b; c; d; e].[2]) with c.
  repeat case_decide; simpl in Hn; try lia; try congruence.
Qed.

Lemma IsBomb_spec h : length h = 5%nat →
  IsBomb h = true ↔ ∃ v, length (filter (λ c, v = GetCardValue c) h) = 4%nat.
Proof.
  intros Hl. unfold IsBomb. rewrite Nat.eqb_eq, (filter_Permutation _ _ _ (bull_sorted_perm h)). split; [by eexists|].
  intros (v & Hv). by rewrite (bomb_value h v Hl Hv).
Qed.

(** ** Bulls *)

(** Three of the cards add up to a multiple of ten. *)
Definition has_bull (h : list Z) : Prop := ∃ three rest, three ++ rest ≡ₚ h ∧ length three = 3%nat ∧
  sumZ (map GetLogicValue three) mod 10 = 0.

Lemma logic_range c : 1 <= GetCardValue c <= 13 → 1 <= GetLogicValue c <= 10.
Proof. unfold GetLogicValue. bsplit; lia. Qed.

Lemma pairs_below i j : (i < j < 5)%nat ↔ (i, j) ∈ pairs.
Proof.
  split.
  - intros [Hij Hj]. assert (∀ j, (j < 5)%nat → ∀ i, (i < j)%nat → (i, j) ∈ pairs) as H; [|by apply H].
    intros [|[|[|[|[|]]]]] Hlt; try lia; intros [|[|[|[|]]]] Hlt'; try lia; by_decide.
  - intros H. assert (Forall (λ p : nat * nat, (fst p < snd p < 5)%nat) pairs) as Hall by by_decide.
    rewrite Forall_forall in Hall. apply (Hall (i, j) H).
Qed.

(** Two cards of a hand have two places. *)
Lemma two_places (l : list Z) x y : [x; y] ⊆+ l →
  ∃ i j, (i < j < length l)%nat ∧ (l !! i = Some x ∧ l !! j = Some y ∨ l !! i = Some y ∧ l !! j = Some x).
Proof.
  intros H. assert (x ∈ l) as Hx by (eapply elem_of_submseteq; [|exact H]; by left).
  apply list_elem_of_split in Hx as (a & b & ->).
  assert ([y] ⊆+ a ++ b) as Hy.
  { apply (submseteq_app_inv_l [y] (a ++ b) [x]). simpl. by rewrite Permutation_middle. }
  apply singleton_submseteq_l in Hy. apply elem_of_app in Hy as [Hy|Hy]; apply list_elem_of_lookup in Hy as [n Hn];
    apply lookup_lt_Some in Hn as Hlt.
  - exists n, (length a). rewrite length_app. simpl. split; [lia|]. right.
    split; [by rewrite lookup_app_l|by rewrite list_lookup_middle].
  - exists (length a), (length a + S n)%nat. rewrite length_app. simpl. split; [lia|]. left.
    split; [by rewrite list_lookup_middle|]. rewrite lookup_app_r by lia.
    by replace (length a + S n - length a)%nat with (S n) by lia.
Qed.

Lemma two_of (l : list Z) i j : (i < j < length l)%nat → ∃ r, r ++ [l.[i]; l.[j]] ≡ₚ l.
Proof.
  intros [Hij Hj]. destruct (lookup_lt_is_Some_2 l j Hj) as [y Hy].
  destruct (lookup_lt_is_Some_2 l i) as [x Hx]; [lia|].
  rewrite (aget_lookup l i x Hx), (aget_lookup l j y Hy).
  rewrite <- (take_drop_middle l j y Hy) in Hx |- *. rewrite lookup_app_l in Hx by (rewrite length_take; lia).
  rewrite <- (take_drop_middle (take j l) i x Hx).
  exists (take i (take j l) ++ drop (S i) (take j l) ++ drop (S j) l).
  generalize (take i (take j l)), (drop (S i) (take j l)), (drop (S j) l). intros A B C.
  rewrite (Permutation_app_comm _ [x; y]), <- (Permutation_middle (A ++ x :: B)), <- (Permutation_middle A B).
  simpl. rewrite <- app_assoc. apply Permutation_swap.
Qed.

Lemma sum_logic l k : l ≡ₚ k → sumZ (map GetLogicValue l) = sumZ (map GetLogicValue k).
Proof. intros H. by apply sumZ_perm, fmap_Permutation. Qed.

Lemma map_get (l : list Z) i : (i < length l)%nat → (map GetLogicValue l).[i] = GetLogicValue l.[i].
Proof.
  intros Hi. destruct (lookup_lt_is_Some_2 l i Hi) as [x Hx]. unfold aget. by rewrite list_lookup_fmap, Hx.
Qed.

Section Five.
Context (h : list Z) (Hh : length h = 5%nat) (Hv : Forall (λ c, 1 <= GetCardValue c <= 13) h).

Lemma logic_sum_nonneg l : l ⊆+ h → 0 <= sumZ (map GetLogicValue l).
Proof.
  intros Hl. apply sumZ_nonneg. apply Forall_fmap, Forall_forall. intros c Hc. simpl.
  rewrite Forall_forall in Hv. pose proof (logic_range c (Hv c (elem_of_submseteq _ _ _ Hc Hl))). lia.
Qed.

(** A pair of places splits the hand as its two cards do. *)
Lemma splits_spec i j : (i < j < 5)%nat → splits (map GetLogicValue h) (i, j) = true ↔
  (sumZ (map GetLogicValue h) - (GetLogicValue h.[i] + GetLogicValue h.[j])) mod 10 = 0.
Proof.
  intros Hij. unfold splits. simpl. rewrite !map_get by lia. rewrite Z.eqb_eq.
  destruct (two_of h i j) as [r Hr]; [lia|]. rewrite <- (sum_logic _ _ Hr), map_app, sumZ_app. simpl.
  assert (0 <= sumZ (map GetLogicValue r)) as Hnn.
  { apply logic_sum_nonneg. rewrite <- Hr. by apply submseteq_inserts_r. }
  match goal with |- Z.rem ?a 10 = 0 ↔ ?b mod 10 = 0 => replace b with a by lia end.
  by rewrite Z.rem_mod_nonneg by lia.
Qed.

Lemma find_splits : match find (splits (map GetLogicValue h)) pairs with
  | Some (i, j) => (i < j < 5)%nat ∧ splits (map GetLogicValue h) (i, j) = true
  | None => ¬ has_bull h
  end.
Proof.
  destruct (find _ pairs) as [[i j]|] eqn:E.
  - apply find_some in E as [Hin Hs]. split; [by apply pairs_below, list_elem_of_In|done].
  - intros (three & rest & Hp & Hl & Hm). pose proof (Permutation_length Hp) as Hlen. rewrite length_app in Hlen.
    destruct rest as [|x [|y [|]]]; simpl in Hlen; try lia.
    destruct (two_places h x y) as (i & j & Hij & Hxy); [rewrite <- Hp; by apply submseteq_inserts_l|].
    rewrite Hh in Hij. pose proof (find_none _ _ E (i, j)) as Hn. rewrite <- list_elem_of_In in Hn.
    specialize (Hn (proj1 (pairs_below i j) Hij)). apply not_true_iff_false in Hn. apply Hn, splits_spec; [done|].
    rewrite <- (sum_logic _ _ Hp), map_app, sumZ_app. simpl.
    assert (GetLogicValue h.[i] + GetLogicValue h.[j] = GetLogicValue x + GetLogicValue y) as ->
      by (destruct Hxy as [[H1 H2]|[H1 H2]]; rewrite (aget_lookup _ _ _ H1), (aget_lookup _ _ _ H2); lia).
    replace (_ - _) with (sumZ (map GetLogicValue three)) by lia. done.
Qed.

(** Whatever three cards make the bull, its number is the same. *)
Lemma bull_number : let t := match find (splits (map GetLogicValue h)) pairs with
    | Some (i, j) => let s := (map GetLogicValue h).[i] + (map GetLogicValue h).[j] in if 10 <? s then s - 10 else s
    | None => OX_VALUE0
    end in
  (t = 0 ↔ ¬ has_bull h) ∧ 0 <= t <= 10 ∧ (t ≠ 0 → t = (sumZ (map GetLogicValue h) - 1) mod 10 + 1).
Proof.
  pose proof find_splits as Hf. cbv zeta. destruct (find _ pairs) as [[i j]|]; [|done].
  destruct Hf as [Hij Hs]. rewrite !map_get by lia. apply splits_spec in Hs as Hsum; [|done].
  assert (∀ k, (k < 5)%nat → 1 <= GetLogicValue h.[k] <= 10) as Hr.
  { intros k Hk. rewrite <- Hh in Hk. apply lookup_lt_is_Some_2 in Hk as [c Hc]. rewrite (aget_lookup _ _ _ Hc).
    apply logic_range. by eapply Forall_lookup_1 in Hv. }
  pose proof (Hr i ltac:(lia)). pose proof (Hr j ltac:(lia)).
  destruct (Z.ltb_spec 10 (GetLogicValue h.[i] + GetLogicValue h.[j])); (split; [|split; [lia|intros _; lia]]);
    (split; [lia|]); intros Hn; exfalso; apply Hn; destruct (two_of h i j) as [r Hr']; try lia;
    exists r, [h.[i]; h.[j]]; (split; [done|]); (split; [apply Permutation_length in Hr'; rewrite length_app in Hr'; simpl in Hr'; lia|]);
    rewrite <- (sum_logic _ _ Hr'), map_app, sumZ_app in Hsum; simpl in Hsum; rewrite <- Hsum; f_equal; lia.
Qed.
End Five.

(** ** The rules *)

Definition five_small (h : list Z) : Prop := Forall (λ c, GetCardValue c <= 4) h ∧ sumZ (map GetCardValue h) <= 10.
Definition bomb (h : list Z) : Prop := ∃ v, length (filter (λ c, v = GetCardValue c) h) = 4%nat.
Definition golden (h : list Z) : Prop := Forall (λ c, 10 < GetCardValue c) h.
Definition silvery (h : list Z) : Prop :=
  length (filter (λ c, 10 < GetCardValue c) h) = 4%nat ∧ length (filter (λ c, GetCardValue c = 10) h) = 1%nat.

Lemma forallb_Forall {A} (f : A → bool) (P : A → Prop) l : (∀ x, f x = true ↔ P x) → forallb f l = true ↔ Forall P l.
Proof. intros Hf. induction l as [|x l IH]; simpl; [by split|]. by rewrite andb_true_iff, Forall_cons, IH, Hf. Qed.

Lemma IsFiveSmall_spec h : hand h → IsFiveSmall h = true ↔ five_small h.
Proof.
  intros Hh. unfold IsFiveSmall, five_small. rewrite andb_true_iff.
  rewrite (forallb_Forall _ (λ c, GetCardValue c <= 4)) by (intros x; rewrite negb_true_iff, Z.ltb_ge; done).
  assert (0 < sumZ (map GetCardValue h)) as Hpos.
  { destruct Hh as (Hl & Hc & _). destruct h as [|c h]; [done|]. simpl. inversion_clear Hc as [|? ? H1 H2].
    pose proof (proj1 (proj1 (pack_byte c H1))). assert (0 <= sumZ (map GetCardValue h)); [|lia].
    apply sumZ_nonneg, Forall_fmap. eapply Forall_impl; [exact H2|]. intros x _. simpl. apply GetCardValue_range. }
  rewrite andb_true_iff, Z.leb_le, Z.ltb_lt. tauto.
Qed.

Lemma IsGoldenBull_spec h : IsGoldenBull h = true ↔ golden h.
Proof. apply forallb_Forall. intros x. apply Z.ltb_lt. Qed.

(** Five cards in two classes are all in one of them. *)
Lemma silvery_all h : length h = 5%nat → silvery h → Forall (λ c, 10 <= GetCardValue c) h.
Proof.
  intros Hl [H1 H2]. destruct h as [|a [|b [|c [|d [|e [|]]]]]]; try done. clear Hl.
  rewrite !filter_cons in H1, H2. repeat case_decide; simpl in H1, H2; try lia;
    repeat (apply Forall_cons; split; [lia|]); by apply Forall_nil.
Qed.

Lemma IsSilveryBull_spec h : length h = 5%nat → IsSilveryBull h = true ↔ silvery h.
Proof.
  intros Hl. unfold IsSilveryBull. rewrite !andb_true_iff, !Nat.eqb_eq.
  rewrite (forallb_Forall _ (λ c, 10 <= GetCardValue c)) by (intros; apply Z.leb_le).
  split; [by intros [[_ H1] H2]|]. intros H. split; [split; [by apply silvery_all|apply H]|apply H].
Qed.

(** The type of a hand is the one of the rules, whatever the order of the cards: the
    special hands by their rank, a bull when three cards add up to a multiple of ten, and
    the number of the bull is that of the other two cards, whichever three are taken. *)
Theorem GetCardType_bull h : hand h →
  let t := GetCardType h in
  (t = OX_FIVE_SMALL ↔ five_small h) ∧
  (t = OX_BOMB ↔ ¬ five_small h ∧ bomb h) ∧
  (t = OX_GOLDEN_BULL ↔ ¬ bomb h ∧ golden h) ∧
  (t = OX_SILVERY_BULL ↔ ¬ bomb h ∧ silvery h) ∧
  (t <= 10 ↔ ¬ five_small h ∧ ¬ bomb h ∧ ¬ golden h ∧ ¬ silvery h) ∧
  (t = OX_VALUE0 ↔ t <= 10 ∧ ¬ has_bull h) ∧
  (∀ three rest, t <= 10 → three ++ rest ≡ₚ h → length three = 3%nat → sumZ (map GetLogicValue three) mod 10 = 0 →
    t = (sumZ (map GetLogicValue rest) - 1) mod 10 + 1).
Proof.
  intros Hh. pose proof Hh as (Hl & _ & _). pose proof (hand_values h Hh) as Hv. cbv zeta.
  pose proof (IsFiveSmall_spec h Hh) as S1. pose proof (IsBomb_spec h Hl) as S2. fold (bomb h) in S2.
  pose proof (IsGoldenBull_spec h) as S3. pose proof (IsSilveryBull_spec h Hl) as S4.
  destruct (bull_number h Hl Hv) as (B1 & B2 & B3). cbv zeta in B1, B2, B3.
  assert (golden h → ¬ five_small h) as G1.
  { intros G [F _]. destruct h as [|c h]; [done|]. inversion_clear G. inversion_clear F. lia. }
  assert (silvery h → ¬ five_small h) as G2.
  { intros G%silvery_all [F _]; [|done]. destruct h as [|c h]; [done|]. inversion_clear G. inversion_clear F. lia. }
  assert (silvery h → ¬ golden h) as G3.
  { intros [G _] F. unfold golden in F. rewrite filter_all in G by done. unfold MAX_COUNT in Hl. lia. }
  unfold GetCardType. set (t := match find _ _ with Some (i, j) => _ | None => OX_VALUE0 end) in *. clearbody t.
  unfold OX_FIVE_SMALL, OX_BOMB, OX_GOLDEN_BULL, OX_SILVERY_BULL, OX_VALUE0 in *.
  assert (∀ three rest, three ++ rest ≡ₚ h → length three = 3%nat → sumZ (map GetLogicValue three) mod 10 = 0 →
    t = (sumZ (map GetLogicValue rest) - 1) mod 10 + 1) as B4.
  { intros three rest Hp H3 Hs. assert (t ≠ 0) as Hne by (intros E; apply B1 in E; apply E; by exists three, rest).
    rewrite (B3 Hne), <- (sum_logic _ _ Hp), map_app, sumZ_app. lia. }
  assert (∀ b P, (b = true ↔ P) → if b then P else ¬ P) as Hb by (intros [] P [? ?]; auto; intros ?; discriminate (H0 H1)).
  apply Hb in S1, S2, S3, S4. clear Hb Hh Hl Hv B3.
  destruct (IsFiveSmall h), (IsBomb h), (IsGoldenBull h), (IsSilveryBull h);
    (split_and!; [split; intros; (lia || tauto || intuition lia).. |intros; (lia || eauto)]).
Qed.

(** ** The order of the hands *)

(** The strength of a hand as one number: the type, then the value of the four or the
    greatest card. *)
Definition key (h : list Z) : Z :=
  4096 * GetCardType h +
  (if GetCardType h =? OX_BOMB then 16 * GetCardValue (SortCardList h).[2] else rank (SortCardList h).[0]).

(** Two hands of one pack. *)
Definition two_hands (a b : list Z) : Prop := hand a ∧ hand b ∧ ∀ c, c ∈ a → c ∈ b → False.

Lemma sorted_first h : hand h → ∃ c, (SortCardList h).[0] = c ∧ c ∈ h ∧ c ∈ m_byCardDataArray.
Proof.
  intros Hh. destruct (sorted_top h Hh) as (c & Hc & Hin & _). exists c. split; [by apply aget_lookup|].
  split; [done|]. destruct Hh as (_ & Hp & _). rewrite Forall_forall in Hp. by apply Hp.
Qed.

Lemma rank_inj c d : c ∈ m_byCardDataArray → d ∈ m_byCardDataArray → rank c = rank d → c = d.
Proof. intros (? & ? & E1)%pack_byte (? & ? & E2)%pack_byte. unfold rank. lia. Qed.

(** A value has four cards in the pack, so two hands have not both four of it. *)
Lemma two_bombs a b v : two_hands a b → length (filter (λ c, v = GetCardValue c) a) = 4%nat →
  length (filter (λ c, v = GetCardValue c) b) = 4%nat → False.
Proof.
  intros ((_ & Ca & Na) & (_ & Cb & Nb) & Hd) La Lb.
  assert (a ++ b ⊆+ m_byCardDataArray) as Hsub.
  { apply NoDup_submseteq; [by apply NoDup_app|]. rewrite Forall_forall in Ca, Cb.
    intros c [?|?]%elem_of_app; auto. }
  apply (filter_submseteq (λ c, v = GetCardValue c)) in Hsub. apply submseteq_length in Hsub.
  rewrite filter_app, length_app, La, Lb in Hsub.
  assert (∀ w, w ∈ seq 0 16 → (length (filter (λ c, Z.of_nat w = GetCardValue c) m_byCardDataArray) ≤ 4)%nat) as Hw.
  { apply Forall_forall. by_decide. }
  destruct (filter (λ c, v = GetCardValue c) a) as [|c l] eqn:E; [done|].
  assert (v = GetCardValue c) as Hv.
  { assert (c ∈ filter (λ c, v = GetCardValue c) a) as Hc by (rewrite E; by left). by apply list_elem_of_filter in Hc as [? _]. }
  pose proof (GetCardValue_range c). specialize (Hw (Z.to_nat v)). rewrite Z2Nat.id in Hw by lia.
  assert (Z.to_nat v ∈ seq 0 16) as Hin by (apply elem_of_seq; lia). specialize (Hw Hin). lia.
Qed.

Lemma bomb_type h : hand h → GetCardType h = OX_BOMB →
  length (filter (λ c, GetCardValue (SortCardList h).[2] = GetCardValue c) h) = 4%nat.
Proof.
  intros Hh Ht. pose proof Hh as (Hl & _). assert (bomb h) as (v & Hv).
  { apply IsBomb_spec; [done|]. pose proof (bull_number h Hl (hand_values h Hh)) as (_ & Hr & _). cbv zeta in Hr.
    revert Ht. unfold GetCardType. destruct (IsFiveSmall h); [done|]. destruct (IsBomb h); [done|].
    destruct (IsGoldenBull h); [done|]. destruct (IsSilveryBull h); [done|]. intros E. rewrite E in Hr.
    unfold OX_BOMB in Hr. lia. }
  by rewrite (bomb_value h v Hl Hv).
Qed.

Lemma CompareCard_keys a b : two_hands a b →
  CompareCard a b = (key b <? key a) ∧ key a ≠ key b ∧ CompareCard b a = negb (CompareCard a b).
Proof.
  intros Ht. assert (∀ a b, two_hands a b → CompareCard a b = (key b <? key a) ∧ key a ≠ key b) as H.
  { clear. intros a b Ht. pose proof Ht as (Ha & Hb & Hd).
    destruct (sorted_first a Ha) as (c & Ec & Hca & Hcp). destruct (sorted_first b Hb) as (d & Ed & Hdb & Hdp).
    destruct (pack_byte c Hcp) as (V1 & C1 & _). destruct (pack_byte d Hdp) as (V2 & C2 & _).
    pose proof (GetCardValue_range (SortCardList a).[2]) as Ra. pose proof (GetCardValue_range (SortCardList b).[2]) as Rb.
    unfold CompareCard, key. rewrite Ec, Ed.
    destruct (Z.eqb_spec (GetCardType a) (GetCardType b)) as [E|E]; simpl.
    2:{ unfold rank. bsplit; (split; [|lia]); apply eq_bool_prop_intro; rewrite !Is_true_true, !Z.ltb_lt; lia. }
    rewrite <- E. destruct (Z.eqb_spec (GetCardType a) OX_BOMB) as [Eb|_].
    - assert (GetCardValue (SortCardList a).[2] ≠ GetCardValue (SortCardList b).[2]) as Hne.
      { intros Ev. apply (two_bombs a b (GetCardValue (SortCardList a).[2]) Ht); [by apply bomb_type|].
        rewrite Ev. apply bomb_type; [done|]. by rewrite <- E. }
      split; [|lia]. apply eq_bool_prop_intro. rewrite !Is_true_true, !Z.ltb_lt. lia.
    - assert (rank c ≠ rank d) as Hne.
      { intros Er. apply rank_inj in Er as ->; [|done..]. by apply (Hd d). }
      unfold rank in *. split; [|lia].
      destruct (Z.eqb_spec (GetCardValue d) (GetCardValue c)); simpl; apply eq_bool_prop_intro; rewrite !Is_true_true, !Z.ltb_lt; lia. }
  destruct (H a b Ht) as [E Hne]. assert (two_hands b a) as Ht' by (destruct Ht as (? & ? & Hd); split_and!; [done..|]; intros c ? ?; by apply (Hd c)).
  destruct (H b a Ht') as [E' _]. split; [done|]. split; [done|]. rewrite E, E'. destruct (Z.ltb_spec (key a) (key b)), (Z.ltb_spec (key b) (key a)); simpl; (done || lia).
Qed.

(** C27. Between two hands of one pack [CompareCard] is the order of their strengths, and
    no two strengths are equal: of two hands exactly one beats the other, and the order
    has no cycles. *)
Theorem CompareCard_order a b : two_hands a b →
  CompareCard a b = (key b <? key a) ∧ key a ≠ key b ∧ CompareCard b a = negb (CompareCard a b).
Proof. apply CompareCard_keys. Qed.

(** ** The cards of the bull *)

Lemma OxCard_perm h i j : length h = 5%nat → (i < j < 5)%nat →
  concat (imap (λ k c, if (k =? i)%nat || (k =? j)%nat then [] else [c]) h) ++ [h.[i]; h.[j]] ≡ₚ h.
Proof.
  intros Hl [Hij Hj]. destruct h as [|a [|b [|c [|d [|e [|]]]]]]; try done. clear Hl.
  destruct j as [|[|[|[|[|]]]]]; try lia; destruct i as [|[|[|[|]]]]; try lia; unfold aget; simpl; by solve_Permutation.
Qed.

(** [GetOxCard] tells whether the hand has a bull and moves cards only: the three cards
    in front of the result are a bull, and no card is lost. *)
Theorem GetOxCard_spec h : hand h →
  (fst (GetOxCard h) = true ↔ has_bull h) ∧ snd (GetOxCard h) ≡ₚ h ∧
  (has_bull h → sumZ (map GetLogicValue (take 3 (snd (GetOxCard h)))) mod 10 = 0).
Proof.
  intros Hh. pose proof Hh as (Hl & _). pose proof (hand_values h Hh) as Hv.
  pose proof (find_splits h Hl Hv) as Hf. unfold GetOxCard. destruct (find _ pairs) as [[i j]|]; [|done].
  destruct Hf as [Hij Hs]. apply (splits_spec h Hl Hv) in Hs; [|done].
  pose proof (OxCard_perm h i j Hl Hij) as Hp. set (three := concat _) in *. cbn [fst snd].
  assert (length three = 3%nat) as H3 by (apply Permutation_length in Hp; rewrite length_app in Hp; simpl in Hp; unfold MAX_COUNT in Hl; lia).
  assert (sumZ (map GetLogicValue three) mod 10 = 0) as Hm.
  { rewrite <- (sum_logic _ _ Hp), map_app, sumZ_app in Hs. simpl in Hs. rewrite <- Hs. f_equal. lia. }
  split; [|split; [done|]].
  - split; [intros _|done]. by exists three, [h.[i]; h.[j]].
  - intros _. by rewrite (take_app_length' three) by done.
Qed.

(** Ten of hearts, king, jack, five, two: a bull of seven. *)
Definition demo_bull : list Z := [42; 13; 27; 5; 50].
(** Four eights. *)
Definition demo_bomb : list Z := [8; 24; 40; 56; 3].

Lemma demo_bull_hand : hand demo_bull.
Proof. split; [reflexivity|]. split; by_decide. Defined.
Lemma demo_bomb_hand : hand demo_bomb.
Proof. split; [reflexivity|]. split; by_decide. Defined.

Lemma GetCardType_bull_witness : GetCardType demo_bull = 7 ∧ (GetCardType demo_bomb = OX_BOMB ↔ ¬ five_small demo_bomb ∧ bomb demo_bomb).
Proof.
  split.
  - apply (proj2 (proj2 (proj2 (proj2 (proj2 (proj2 (GetCardType_bull demo_bull demo_bull_hand)))))) [42; 13; 27] [5; 50]);
      [vm_compute; discriminate|reflexivity|reflexivity|reflexivity].
  - apply (GetCardType_bull demo_bomb demo_bomb_hand).
Defined.

Lemma CompareCard_order_witness : CompareCard demo_bomb demo_bull = true ∧ CompareCard demo_bull demo_bomb = false.
Proof.
  assert (two_hands demo_bomb demo_bull) as H.
  { split; [apply demo_bomb_hand|]. split; [apply demo_bull_hand|]. intros c H1 H2.
    assert (Forall (λ c, c ∉ demo_bull) demo_bomb) as Hd by by_decide. rewrite Forall_forall in Hd. by apply (Hd c). }
  destruct (CompareCard_order demo_bomb demo_bull H) as (_ & _ & E).
  split; [vm_compute; reflexivity|]. rewrite E. vm_compute. reflexivity.
Defined.

Lemma GetOxCard_spec_witness : snd (GetOxCard demo_bull) ≡ₚ demo_bull.
Proof. apply (GetOxCard_spec demo_bull demo_bull_hand). Defined.
