(* ===== verification/BullDeal.v ===== *)
(** Grab the banker, the exchange of hands before they are shown ([AnalyseCardEx] and
    [AnalyseForBlacklist] of [src/Games/Game_QznnLandy/TableFrameSink.cpp]): the hands are
    ranked, the robots, or one chosen player, take from one end of the ranking and the
    others from the other end. *)
From Stdlib Require Import ZArith Lia.
From S2P Require Import Prelude Cards BullLogic.
From stdpp Require Import base numbers sorting sets option list.

#[local] Open Scope Z_scope.

Definition GAME_PLAYER : nat := 4.
Definition chairs : list nat := seq 0 GAME_PLAYER.

Definition bget (l : list bool) (i : nat) : bool := default false (l !! i).

(** ** The ranking *)

(** The best hand besides the ranked ones, the worst one without [bSteal]. *)
Definition win_step (playing : list bool) (cards : list (list Z)) (bSteal : bool) (vecCardVal : list nat) (wWinUser : option nat) (i : nat) : option nat :=
  if negb (bget playing i) then wWinUser
  else if bool_decide (i ∈ vecCardVal) then wWinUser
  else match wWinUser with
       | None => Some i
       | Some w => if Bool.eqb (CompareCard (rget cards i) (rget cards w)) bSteal then Some i else wWinUser
       end.

Definition win_user (playing : list bool) (cards : list (list Z)) (bSteal : bool) (vecCardVal : list nat) : option nat :=
  foldl (win_step playing cards bSteal vecCardVal) None chairs.

(** One round for each player; [None]: there are fewer players than [m_wPlayCount]. *)
Fixpoint ranking (playing : list bool) (cards : list (list Z)) (bSteal : bool) (n : nat) (vecCardVal : list nat) : option (list nat) :=
  match n with
  | O => Some vecCardVal
  | S n => w ← win_user playing cards bSteal vecCardVal; ranking playing cards bSteal n (vecCardVal ++ [w])
  end.

(** ** The exchange *)

(** [front] takes the first hand of the ranking, everybody else the last one. *)
Fixpoint exchange (playing : list bool) (front : nat → bool) (tmp : list (list Z)) (ixs : list nat) (vecCardVal : list nat)
    (cards : list (list Z)) : option (list (list Z)) :=
  match ixs with
  | [] => Some cards
  | i :: ixs =>
      if negb (bget playing i) then exchange playing front tmp ixs vecCardVal cards
      else
        '(v, rest) ← (if front i then match vecCardVal with v :: r => Some (v, r) | [] => None end
                      else v ← vecCardVal !! (length vecCardVal - 1)%nat; Some (v, take (length vecCardVal - 1) vecCardVal));
        exchange playing front tmp ixs rest (if (v =? i)%nat then cards else <[i := rget tmp v]> cards)
  end.

Definition swap_cards (playing : list bool) (n : nat) (bSteal : bool) (front : nat → bool) (cards : list (list Z)) : option (list (list Z)) :=
  vec ← ranking playing cards bSteal n []; exchange playing front cards chairs vec cards.

(** ** The choice of the side *)

(** [AnalyseCardEx] with robots at the table: [None] leaves the hands alone.  [randomRet] is
    drawn against [m_difficulty], [r] and [r'] are the values of [rand() % 100]. *)
Definition steal_choice (m_llStorageControl lower high m_difficulty randomRet r r' : Z) : option bool :=
  if randomRet <? m_difficulty then Some true
  else if (lower <? m_llStorageControl) && (m_llStorageControl <? high) then None
  else
    let bSteal := if high <? m_llStorageControl then false else true in
    if (high <? m_llStorageControl) && (r <=? 30) then None
    else if (m_llStorageControl <? lower) && (r' <=? 20) then None
    else Some bSteal.

Definition AnalyseCardEx (playing : list bool) (n : nat) (android : nat → bool) (androids : nat)
    (m_llStorageControl lower high m_difficulty randomRet r r' : Z) (cards : list (list Z)) : option (list (list Z)) :=
  if (androids =? 0)%nat then Some cards
  else match steal_choice m_llStorageControl lower high m_difficulty randomRet r r' with
       | None => Some cards
       | Some bSteal => swap_cards playing n bSteal android cards
       end.

(** The player [AnalyseForBlacklist] lets win: among the chairs below the number of
    players a robot, or without robots someone off the black list, or the least weight on
    it.  [r j] is the value of [rand() % 100] for chair [j]. *)
Section Pick.
Context (playing : list bool) (android black : nat → bool) (weight : nat → Z) (androids : nat) (r : nat → Z).

Definition pick_step '(winnerSeat, winnerWeight) (j : nat) : option nat * Z :=
  if negb (bget playing j) then (winnerSeat, winnerWeight)
  else if (androids =? 0)%nat then
    if negb (android j) then
      if negb (black j) then
        if winnerWeight =? 0 then ((if 50 <? r j then Some j else winnerSeat), winnerWeight) else (Some j, 0)
      else if weight j <? winnerWeight then (Some j, weight j) else (winnerSeat, winnerWeight)
    else (winnerSeat, winnerWeight)
  else if android j then
    ((match winnerSeat with None => Some j | Some _ => if 50 <? r j then Some j else winnerSeat end), winnerWeight)
  else (winnerSeat, winnerWeight).

Definition pick_winner (n : nat) : option nat := fst (foldl pick_step (None, 10000) (seq 0 n)).

End Pick.

Definition AnalyseForBlacklist (playing : list bool) (n : nat) (android black : nat → bool) (weight : nat → Z) (androids : nat)
    (r : nat → Z) (cards : list (list Z)) : option (list (list Z)) :=
  let winnerSeat := pick_winner playing android black weight androids r n in
  swap_cards playing n true (λ i, android i || bool_decide (winnerSeat = Some i)) cards.

(** ** What the exchange does *)

(** The chairs that play, in the order of the loops. *)
Definition players (playing : list bool) : list nat := filter (λ i, bget playing i = true) chairs.

(** [a] is the hand the ranking prefers to [b]. *)
Definition prefers (bSteal : bool) (a b : list Z) : Prop := if bSteal then key b < key a else key a < key b.

#[global] Instance prefers_trans bSteal : Transitive (prefers bSteal).
Proof. intros a b c. unfold prefers. destruct bSteal; lia. Qed.

Lemma compare_prefers bSteal a b : two_hands a b → Bool.eqb (CompareCard a b) bSteal = true ↔ prefers bSteal a b.
Proof.
  intros Ht. destruct (CompareCard_keys a b Ht) as (E & Hne & _). rewrite E. unfold prefers.
  destruct bSteal, (Z.ltb_spec (key b) (key a)); simpl; split; intros; try done; lia.
Qed.

Section Exchange.
Context (playing : list bool) (cards : list (list Z)) (bSteal : bool).

(** The hands of the players are hands of one pack. *)
Context (Hhands : ∀ i j, i ∈ players playing → j ∈ players playing → i ≠ j → two_hands (rget cards i) (rget cards j)).

Definition ahead (i j : nat) : Prop := prefers bSteal (rget cards i) (rget cards j).

#[local] Instance ahead_trans : Transitive ahead.
Proof. intros i j k. apply prefers_trans. Qed.

Definition free (used : list nat) (l : list nat) : list nat := filter (λ i, bget playing i = true ∧ i ∉ used) l.

Lemma elem_of_free used l i : i ∈ free used l ↔ i ∈ l ∧ bget playing i = true ∧ i ∉ used.
Proof. unfold free. rewrite list_elem_of_filter. tauto. Qed.

Lemma elem_of_players i : i ∈ players playing ↔ i ∈ chairs ∧ bget playing i = true.
Proof. unfold players. rewrite list_elem_of_filter. tauto. Qed.

(** The search keeps the best hand it has seen. *)
Lemma win_user_loop used l acc : NoDup l → l ⊆ chairs →
  (∀ w, acc = Some w → w ∈ players playing ∧ w ∉ l) →
  let r := foldl (win_step playing cards bSteal used) acc l in
  let seen i := acc = Some i ∨ i ∈ free used l in
  match r with
  | None => ∀ i, ¬ seen i
  | Some w => seen w ∧ ∀ i, seen i → i = w ∨ ahead w i
  end.
Proof.
  revert acc. induction l as [|i l IH]; intros acc Hnd Hl Hacc; cbv zeta; cbn [foldl].
  { destruct acc as [w|]; simpl.
    - split; [by left|]. intros i [[= ->]|Hi]; [by left|by apply elem_of_nil in Hi].
    - intros i [?|Hi]; [done|by apply elem_of_nil in Hi]. }
  apply NoDup_cons in Hnd as [Hni Hnd]. assert (l ⊆ chairs) as Hl' by (intros x Hx; apply Hl; by right).
  assert (∀ j, j ∈ free used (i :: l) ↔ (j = i ∧ bget playing i = true ∧ i ∉ used) ∨ j ∈ free used l) as Hfree.
  { intros j. rewrite !elem_of_free, elem_of_cons. naive_solver. }
  cbv zeta in IH. unfold win_step at 2. destruct (bget playing i) eqn:Ep; simpl.
  2:{ specialize (IH acc Hnd Hl' ltac:(intros w Hw; destruct (Hacc w Hw) as [? Hn]; split; [done|]; intros ?; apply Hn; by right)).
      destruct (foldl _ acc l); setoid_rewrite Hfree; naive_solver. }
  case_bool_decide as Hu.
  { specialize (IH acc Hnd Hl' ltac:(intros w Hw; destruct (Hacc w Hw) as [? Hn]; split; [done|]; intros ?; apply Hn; by right)).
    destruct (foldl _ acc l); setoid_rewrite Hfree; naive_solver. }
  assert (i ∈ players playing) as Hip by (apply elem_of_players; split; [apply Hl; by left|done]).
  destruct acc as [w|].
  - destruct (Hacc w eq_refl) as [Hwp Hwl]. assert (w ≠ i) as Hwi by (intros ->; apply Hwl; by left).
    assert (w ∉ l) as Hwl' by (intros ?; apply Hwl; by right).
    pose proof (compare_prefers bSteal _ _ (Hhands i w Hip Hwp ltac:(done))) as Hcmp. fold (ahead i w) in Hcmp.
    destruct (Bool.eqb _ bSteal) eqn:Ec.
    + specialize (IH (Some i) Hnd Hl' ltac:(by intros ? [= <-])). destruct (foldl _ (Some i) l) as [r|]; [setoid_rewrite Hfree|].
      * destruct IH as [H1 H2]. assert (i = r ∨ ahead r i) as Hri by (apply H2; by left).
        assert (ahead i w) as Hiw by by apply Hcmp. split; [naive_solver|].
        intros j [[= <-]|[(-> & _)|Hj]]; [|by destruct Hri as [<-|]; [left|right]|by apply H2; right].
        right. destruct Hri as [<-|]; [done|]. by transitivity i.
      * exfalso. apply (IH i). by left.
    + specialize (IH (Some w) Hnd Hl' ltac:(by intros ? [= <-])). destruct (foldl _ (Some w) l) as [r|]; [setoid_rewrite Hfree|].
      * destruct IH as [H1 H2]. assert (w = r ∨ ahead r w) as Hrw by (apply H2; by left).
        assert (ahead w i) as Hwi'.
        { assert (¬ ahead i w) as Hn by (rewrite <- Hcmp; done). destruct (CompareCard_keys _ _ (Hhands i w Hip Hwp ltac:(done))) as (_ & Hk & _).
          unfold ahead, prefers in *. destruct bSteal; lia. }
        split; [naive_solver|]. intros j [[= <-]|[(-> & _)|Hj]]; [by apply H2; left| |by apply H2; right].
        right. destruct Hrw as [<-|]; [done|]. by transitivity w.
      * exfalso. apply (IH w). by left.
  - specialize (IH (Some i) Hnd Hl' ltac:(by intros ? [= <-])). destruct (foldl _ (Some i) l) as [r|]; [setoid_rewrite Hfree|].
    + destruct IH as [H1 H2]. split; [naive_solver|]. intros j [?|[(-> & _)|Hj]]; [done|apply H2; by left|apply H2; by right].
    + exfalso. apply (IH i). by left.
Qed.

Lemma win_user_spec used : match win_user playing cards bSteal used with
  | None => ∀ i, i ∉ free used chairs
  | Some w => w ∈ free used chairs ∧ ∀ i, i ∈ free used chairs → i = w ∨ ahead w i
  end.
Proof.
  pose proof (win_user_loop used chairs None (NoDup_seq _ _) ltac:(done) ltac:(done)) as H. cbv zeta in H.
  unfold win_user. destruct (foldl _ None chairs); [naive_solver|].
  intros i Hi. apply (H i). by right.
Qed.

(** ** The ranking is sorted *)

Lemma free_NoDup used l : NoDup l → NoDup (free used l).
Proof. apply NoDup_filter. Qed.

Lemma free_snoc used l w : NoDup l → w ∈ free used l → free used l ≡ₚ w :: free (used ++ [w]) l.
Proof.
  intros Hl Hw. apply NoDup_Permutation; [by apply free_NoDup| |].
  - apply NoDup_cons. split; [rewrite elem_of_free; set_solver|by apply free_NoDup].
  - intros i. rewrite elem_of_cons. apply elem_of_free in Hw. rewrite !elem_of_free, elem_of_app, list_elem_of_singleton.
    destruct (decide (i = w)) as [->|]; naive_solver.
Qed.

Lemma ranking_spec n used : length (free used chairs) = n →
  ∃ vec, ranking playing cards bSteal n used = Some (used ++ vec) ∧ vec ≡ₚ free used chairs ∧ StronglySorted ahead vec.
Proof.
  revert used. induction n as [|n IH]; intros used Hn; simpl.
  { exists []. apply length_zero_iff_nil in Hn. rewrite Hn, app_nil_r. split; [done|]. split; [done|constructor]. }
  pose proof (win_user_spec used) as Hw. destruct (win_user playing cards bSteal used) as [w|]; simpl.
  - destruct Hw as [Hw Hbest]. pose proof (free_snoc used chairs w (NoDup_seq _ _) Hw) as Hp.
    destruct (IH (used ++ [w])) as (vec & E & Hv & Hs).
    { apply Permutation_length in Hp. simpl in Hp. lia. }
    exists (w :: vec). rewrite E, <- app_assoc. split; [done|]. split; [by rewrite Hp, Hv|].
    constructor; [done|]. apply Forall_forall. intros i Hi. rewrite Hv, elem_of_free in Hi.
    destruct (Hbest i) as [->|]; [rewrite elem_of_free; set_solver|set_solver|done].
  - destruct (free used chairs) as [|i l] eqn:E; [done|]. destruct (Hw i). by left.
Qed.

(** ** The exchange deals the ranking out *)

Definition playing_of (ixs : list nat) : list nat := filter (λ i, bget playing i = true) ixs.

Lemma exchange_spec front tmp ixs vec cards0 : NoDup ixs → length vec = length (playing_of ixs) → StronglySorted ahead vec →
  (∀ i, i ∈ ixs → (i < length cards0)%nat) →
  ∃ cards' (src : nat → nat), exchange playing front tmp ixs vec cards0 = Some cards' ∧ length cards' = length cards0 ∧
    (∀ i, i ∉ playing_of ixs → cards' !! i = cards0 !! i) ∧ map src (playing_of ixs) ≡ₚ vec ∧
    (∀ i, i ∈ playing_of ixs → cards' !! i = if (src i =? i)%nat then cards0 !! i else Some (rget tmp (src i))) ∧
    (∀ i j, i ∈ playing_of ixs → j ∈ playing_of ixs → front i = true → front j = false → ahead (src i) (src j)).
Proof.
  revert vec cards0. induction ixs as [|i ixs IH]; intros vec cards0 Hnd Hlen Hsort Hlt.
  { destruct vec; [|done]. exists cards0, id. split_and!; set_solver. }
  apply NoDup_cons in Hnd as [Hni Hnd]. unfold playing_of in Hlen |- *. rewrite filter_cons in Hlen |- *.
  cbn [exchange]. destruct (bget playing i) eqn:Ep; simpl.
  2:{ apply IH; auto. intros; apply Hlt; by right. }
  simpl in Hlen.
  assert (∃ v rest, (if front i then match vec with v :: r => Some (v, r) | [] => None end
    else v ← vec !! (length vec - 1)%nat; Some (v, take (length vec - 1) vec)) = Some (v, rest) ∧ vec ≡ₚ v :: rest ∧
    StronglySorted ahead rest ∧ Forall (λ x, if front i then ahead v x else ahead x v) rest) as (v & rest & -> & Hp & Hs & Hv).
  { destruct (front i).
    - destruct vec as [|v r]; [done|]. exists v, r. split; [done|]. split; [done|]. by inversion_clear Hsort.
    - destruct vec as [|v r _] using rev_ind; [done|]. rewrite length_app. simpl.
      replace (length r + 1 - 1)%nat with (length r) by lia. rewrite list_lookup_middle by done. simpl.
      rewrite take_app_length. exists v, r. split; [done|]. apply StronglySorted_app in Hsort as (H1 & H2 & _).
      split; [by rewrite Permutation_app_comm|]. split; [done|]. apply Forall_forall. intros x Hx. apply H1; [done|by left]. }
  cbn [mbind option_bind]. set (cards1 := if (v =? i)%nat then cards0 else <[i:=rget tmp v]> cards0).
  assert (length cards1 = length cards0) as Hl1 by (unfold cards1; destruct (v =? i)%nat; [done|apply length_insert]).
  destruct (IH rest cards1) as (cards' & src & E & Hl' & Hout & Hperm & Hin & Hord).
  { done. } { apply Permutation_length in Hp. simpl in Hp. unfold playing_of. lia. } { done. }
  { intros j Hj. rewrite Hl1. apply Hlt. by right. }
  assert (i ∉ playing_of ixs) as Hni' by (unfold playing_of; rewrite list_elem_of_filter; tauto).
  exists cards', (λ k, if decide (k = i) then v else src k). fold (playing_of ixs).
  assert (map (λ k, if decide (k = i) then v else src k) (playing_of ixs) = map src (playing_of ixs)) as Hmap.
  { apply map_ext_in. intros k Hk. apply list_elem_of_In in Hk. rewrite decide_False; [done|]. by intros ->. }
  assert (∀ k, k ∈ playing_of ixs → src k ∈ rest) as Hsrc.
  { intros k Hk. rewrite <- Hperm. by apply list_elem_of_fmap_2. }
  split; [done|]. split; [lia|]. split; [|split; [|split]].
  - intros k Hk. apply not_elem_of_cons in Hk as [Hki Hk]. rewrite Hout by done. unfold cards1.
    destruct (v =? i)%nat; [done|]. by rewrite list_lookup_insert_ne by done.
  - simpl. rewrite decide_True, Hmap, Hperm by done. by symmetry.
  - intros k Hk. apply elem_of_cons in Hk as [->|Hk].
    + rewrite decide_True, Hout by done. unfold cards1. destruct (Nat.eqb_spec v i); [done|].
      apply list_lookup_insert_eq. apply Hlt. by left.
    + assert (k ≠ i) as Hki by (by intros ->). rewrite decide_False, Hin by done. unfold cards1.
      destruct (v =? i)%nat; [done|]. by rewrite list_lookup_insert_ne by done.
  - rewrite Forall_forall in Hv. intros a b Ha Hb Fa Fb. apply elem_of_cons in Ha, Hb.
    destruct (decide (a = i)) as [->|Hai], (decide (b = i)) as [->|Hbi]; try congruence.
    + rewrite Fa in Hv. apply Hv, Hsrc. by destruct Hb.
    + rewrite Fb in Hv. apply Hv, Hsrc. by destruct Ha.
    + destruct Ha, Hb; try done. by apply Hord.
Qed.

End Exchange.

(** ** The hands after the exchange *)

(** The hands of the players are of one pack, and there are as many as the table counts. *)
Definition dealt (playing : list bool) (n : nat) (cards : list (list Z)) : Prop :=
  n = length (players playing) ∧ length cards = GAME_PLAYER ∧
  (∀ i j, i ∈ players playing → j ∈ players playing → i ≠ j → two_hands (rget cards i) (rget cards j)).

(** Every hand of the players is kept and goes to one of them; the hands of [front] are
    preferred to the others. *)
Definition exchanged (playing : list bool) (bSteal : bool) (front : nat → bool) (cards cards' : list (list Z)) : Prop :=
  length cards' = GAME_PLAYER ∧ (∀ i, i ∉ players playing → cards' !! i = cards !! i) ∧
  map (rget cards') (players playing) ≡ₚ map (rget cards) (players playing) ∧
  (∀ i j, i ∈ players playing → j ∈ players playing → front i = true → front j = false →
     CompareCard (rget cards' i) (rget cards' j) = bSteal).

Lemma swap_cards_ok playing n bSteal front cards : dealt playing n cards →
  ∃ cards', swap_cards playing n bSteal front cards = Some cards' ∧ exchanged playing bSteal front cards cards'.
Proof.
  intros (-> & Hl & Hh).
  assert (free playing [] chairs = players playing) as Hfree.
  { apply list_filter_iff. intros i. set_solver. }
  destruct (ranking_spec playing cards bSteal Hh (length (players playing)) []) as (vec & E & Hv & Hs); [by rewrite Hfree|].
  rewrite Hfree in Hv. destruct (exchange_spec playing cards bSteal Hh front cards chairs vec cards) as (cards' & src & E' & Hl' & Hout & Hperm & Hin & Hord).
  { apply NoDup_seq. } { by rewrite Hv. } { done. }
  { intros i Hi. apply elem_of_seq in Hi. rewrite Hl. unfold GAME_PLAYER in *. lia. }
  unfold swap_cards. rewrite E. cbn [mbind option_bind app]. rewrite E'. exists cards'. split; [done|].
  fold (players playing) in *. unfold playing_of in *. fold (players playing) in *.
  assert (∀ i, i ∈ players playing → rget cards' i = rget cards (src i)) as Hget.
  { intros i Hi. apply Hin in Hi as He. unfold rget at 1. rewrite He. destruct (Nat.eqb_spec (src i) i) as [->|]; done. }
  assert (∀ i, i ∈ players playing → src i ∈ players playing) as Hsrc.
  { intros i Hi. rewrite <- Hv, <- Hperm. by apply list_elem_of_fmap_2. }
  split; [lia|]. split; [done|]. split.
  - rewrite (map_ext_in (rget cards') (λ i, rget cards (src i))) by (intros i Hi; by apply Hget, list_elem_of_In).
    rewrite <- (map_map src (rget cards)). change (map (rget cards) (map src (players playing))) with (rget cards <$> map src (players playing)).
    by rewrite Hperm, Hv.
  - intros i j Hi Hj Fi Fj. rewrite !Hget by done. specialize (Hord i j Hi Hj Fi Fj).
    assert (src i ≠ src j) as Hne.
    { intros He. rewrite He in Hord. unfold ahead, prefers in Hord. destruct bSteal; lia. }
    apply compare_prefers in Hord; [|by apply Hh; auto]. by apply eqb_prop in Hord.
Qed.

(** The exchange of hands returns for every seating: no hand of a player is lost or
    doubled, the other chairs keep their cards, and every player on the preferred side
    holds a hand that beats (with [bSteal]) or loses to every hand of the other side. *)
Theorem swap_cards_spec playing n bSteal front cards : dealt playing n cards →
  ∃ cards', swap_cards playing n bSteal front cards = Some cards' ∧ exchanged playing bSteal front cards cards'.
Proof. apply swap_cards_ok. Qed.

(** With robots at the table [AnalyseCardEx] leaves the hands alone or deals them
    again among the players: while the storage is low, or the difficulty is drawn, every
    robot beats every real player; while it is high every real player beats every robot. *)
Theorem AnalyseCardEx_sides playing n android androids m_llStorageControl lower high m_difficulty randomRet r r' cards :
  dealt playing n cards → (0 < androids)%nat → lower <= high →
  ∃ cards', AnalyseCardEx playing n android androids m_llStorageControl lower high m_difficulty randomRet r r' cards = Some cards' ∧
    (cards' = cards ∨ ∃ bSteal, exchanged playing bSteal android cards cards' ∧
       (randomRet < m_difficulty → bSteal = true) ∧
       (m_difficulty <= randomRet → bSteal = (m_llStorageControl <=? high) ∧ (m_llStorageControl <= lower ∨ high <= m_llStorageControl))) ∧
    (randomRet < m_difficulty → exchanged playing true android cards cards').
Proof.
  intros Hd Ha Hlh. unfold AnalyseCardEx. rewrite (proj2 (Nat.eqb_neq androids 0)) by lia.
  destruct (steal_choice _ _ _ _ _ _ _) as [bSteal|] eqn:E.
  - destruct (swap_cards_ok playing n bSteal android cards Hd) as (cards' & -> & Hx). exists cards'. split; [done|].
    revert E. unfold steal_choice. destruct (Z.ltb_spec randomRet m_difficulty).
    { intros [= <-]. split; [|done]. right. exists true. split; [done|]. split; [done|]. lia. }
    intros E. split; [|lia]. right. exists bSteal. split; [done|]. split; [lia|]. intros _. revert E.
    destruct (Z.ltb_spec lower m_llStorageControl), (Z.ltb_spec m_llStorageControl high), (Z.ltb_spec high m_llStorageControl),
      (Z.ltb_spec m_llStorageControl lower), (r <=? 30), (r' <=? 20), (Z.leb_spec m_llStorageControl high); simpl; try done; try lia;
      intros [= <-]; (split; [done|lia]).
  - exists cards. split; [done|]. split; [by left|]. revert E. unfold steal_choice.
    destruct (Z.ltb_spec randomRet m_difficulty); [done|lia].
Qed.

(** ** The choice among listed players *)

Lemma pick_robot playing android black weight k r l acc : (0 < k)%nat →
  (∀ w, fst acc = Some w → android w = true) →
  ∀ w, fst (foldl (pick_step playing android black weight k r) acc l) = Some w → android w = true.
Proof.
  intros Hk. revert acc. induction l as [|j l IH]; intros [ws ww] Hacc; [done|]. apply IH. unfold pick_step.
  rewrite (proj2 (Nat.eqb_neq k 0)) by lia. destruct (bget playing j); [|done]. simpl.
  destruct (android j) eqn:Ea; [|done]. simpl in *. intros w. destruct ws as [s|]; [|by intros [= <-]].
  destruct (50 <? r j); [by intros [= <-]|]. apply Hacc.
Qed.

(** Whom the loop keeps when there are no robots: [seen] are the players it has passed. *)
Definition picked (black : nat → bool) (weight : nat → Z) (seen : list nat) (p : option nat * Z) : Prop :=
  match p with
  | (None, ww) => ww = 10000 ∧ Forall (λ j, black j = true ∧ 10000 <= weight j) seen
  | (Some w, ww) => w ∈ seen ∧ if black w then ww = weight w ∧ 0 < ww ∧ Forall (λ j, black j = true ∧ ww <= weight j) seen else ww = 0
  end.

Lemma pick_listed playing black weight r l seen acc : (∀ j, black j = true → 0 < weight j) → picked black weight seen acc →
  picked black weight (seen ++ filter (λ j, bget playing j = true) l) (foldl (pick_step playing (λ _, false) black weight 0 r) acc l).
Proof.
  intros Hw. revert seen acc. induction l as [|j l IH]; intros seen acc Hp; [by rewrite app_nil_r|].
  rewrite filter_cons. cbn [foldl]. destruct (bget playing j) eqn:Ep.
  2:{ rewrite decide_False by done. apply IH. destruct acc. unfold pick_step. by rewrite Ep. }
  rewrite decide_True by done. rewrite cons_middle, app_assoc. apply IH. clear IH.
  destruct acc as [ws ww]. unfold pick_step. rewrite Ep. simpl.
  assert (j ∈ seen ++ [j]) as Hj by (apply elem_of_app; right; by left).
  destruct (black j) eqn:Eb; simpl.
  - specialize (Hw j Eb). destruct (Z.ltb_spec (weight j) ww) as [Hlt|Hge]; simpl.
    + rewrite Eb. split; [done|]. split; [done|]. split; [done|]. apply Forall_app. split; [|by repeat constructor].
      destruct ws as [w|]; simpl in Hp.
      * destruct Hp as [_ Hp]. destruct (black w); [|lia]. destruct Hp as (-> & _ & H).
        eapply Forall_impl; [exact H|]. simpl. intros x []; split; [done|lia].
      * destruct Hp as [-> H]. eapply Forall_impl; [exact H|]. simpl. intros x []; split; [done|lia].
    + destruct ws as [w|]; simpl in *.
      * split; [set_solver|]. destruct Hp as [_ Hp]. destruct (black w); [|done]. destruct Hp as (? & ? & H).
        split; [done|]. split; [done|]. apply Forall_app. split; [done|by repeat constructor].
      * destruct Hp as [-> H]. split; [done|]. apply Forall_app. split; [done|]. by repeat constructor.
  - destruct (Z.eqb_spec ww 0) as [->|]; simpl; [|by rewrite Eb].
    destruct ws as [w|]; simpl in Hp; [|lia]. destruct Hp as [Hin Hp]. destruct (black w) eqn:Ew; [lia|].
    destruct (50 <? r j); simpl; rewrite ?Eb, ?Ew; [done|set_solver].
Qed.

(** [AnalyseForBlacklist] returns for every seating.  With robots each of them beats every
    real player.  Without robots one player beats all the others: one who is not on the
    black list if the loop over the chairs below the number of players meets such a
    player, and otherwise the one of them with the least weight. *)
Theorem AnalyseForBlacklist_winner playing n android black weight androids r cards : dealt playing n cards →
  (∀ j, black j = true → 0 < weight j < 10000) →
  let below := filter (λ j, bget playing j = true) (seq 0 n) in
  ∃ cards', AnalyseForBlacklist playing n android black weight androids r cards = Some cards' ∧
    ((0 < androids)%nat → exchanged playing true android cards cards') ∧
    (androids = 0%nat → (∀ j, android j = false) → below ≠ [] →
     ∃ w, w ∈ below ∧ exchanged playing true (λ j, bool_decide (j = w)) cards cards' ∧
       (if black w then ∀ j, j ∈ below → black j = true ∧ weight w <= weight j else True)).
Proof.
  intros Hd Hw below. unfold AnalyseForBlacklist.
  set (winner := pick_winner _ _ _ _ _ _ n).
  destruct (swap_cards_ok playing n true (λ i, android i || bool_decide (winner = Some i)) cards Hd) as (cards' & -> & Hx).
  exists cards'. split; [done|]. destruct Hx as (H1 & H2 & H3 & H4). split.
  - intros Ha. split; [done|]. split; [done|]. split; [done|]. intros i j Hi Hj Fi Fj. apply H4; [done..|by rewrite Fi|].
    rewrite Fj. simpl. apply bool_decide_false. intros E.
    rewrite (pick_robot playing android black weight androids r (seq 0 n) (None, 10000) Ha ltac:(done) j E) in Fj. done.
  - intros -> Ha Hb. pose proof (pick_listed playing black weight r (seq 0 n) [] (None, 10000) ltac:(intros j Hj; apply Hw in Hj; lia)
      ltac:(by split; [|constructor])) as Hp. cbn [app] in Hp. fold below in Hp.
    assert (winner = fst (foldl (pick_step playing (λ _, false) black weight 0 r) (None, 10000) (seq 0 n))) as Ewin.
    { unfold winner, pick_winner. f_equal. generalize (None : option nat, 10000). generalize (seq 0 n).
      induction l as [|j l IH]; intros p; [done|]. simpl. rewrite IH. f_equal. destruct p. unfold pick_step. by rewrite Ha. }
    destruct (foldl _ _ _) as [[w|] ww]; simpl in Ewin, Hp.
    + destruct Hp as [Hin Hp]. exists w. split; [done|]. split.
      * split; [done|]. split; [done|]. split; [done|]. intros i j Hi Hj Fi%bool_decide_eq_true Fj%bool_decide_eq_false.
        subst i. apply H4; [done..| |].
        -- rewrite Ewin, bool_decide_true by done. apply orb_true_r.
        -- rewrite Ha, Ewin. simpl. apply bool_decide_false. congruence.
      * destruct (black w); [|done]. destruct Hp as (-> & _ & H). by rewrite Forall_forall in H.
    + destruct Hp as [_ H]. destruct below as [|j l]; [done|]. exfalso. inversion_clear H as [|? ? [Hb1 Hb2] _]. apply Hw in Hb1. lia.
Qed.

(** ** Witnesses *)

Definition demo_playing : list bool := [true; true; false; true].
Definition demo_cards : list (list Z) := [demo_bull; demo_bomb; []; [1; 2; 35; 52; 29]].

Lemma demo_dealt : dealt demo_playing 3 demo_cards.
Proof.
  split; [reflexivity|]. split; [reflexivity|].
  assert (Forall (λ i, Forall (λ j, i ≠ j → Forall (λ c, c ∉ rget demo_cards j) (rget demo_cards i)) [0; 1; 3]%nat) [0; 1; 3]%nat) as Hdis by by_decide.
  assert (Forall (λ i, length (rget demo_cards i) = MAX_COUNT ∧ Forall (λ c, c ∈ m_byCardDataArray) (rget demo_cards i) ∧ NoDup (rget demo_cards i)) [0; 1; 3]%nat) as Hhand by by_decide.
  change (players demo_playing) with [0; 1; 3]%nat. rewrite Forall_forall in Hdis, Hhand. intros i j Hi Hj Hij.
  split; [by apply Hhand|]. split; [by apply Hhand|]. intros c Hc. specialize (Hdis i Hi). rewrite Forall_forall in Hdis.
  specialize (Hdis j Hj Hij). rewrite Forall_forall in Hdis. by apply Hdis.
Defined.

Lemma swap_cards_spec_witness : ∃ cards', swap_cards demo_playing 3 true (λ i, (i =? 3)%nat) demo_cards = Some cards' ∧
  exchanged demo_playing true (λ i, (i =? 3)%nat) demo_cards cards' ∧ rget cards' 3 = demo_bomb.
Proof.
  destruct (swap_cards_spec demo_playing 3 true (λ i, (i =? 3)%nat) demo_cards demo_dealt) as (cards' & E & H).
  exists cards'. split; [exact E|]. split; [exact H|]. vm_compute in E. injection E as <-. reflexivity.
Defined.

Lemma AnalyseCardEx_sides_witness : ∃ cards', AnalyseCardEx demo_playing 3 (λ i, (i =? 0)%nat) 1 0 100 200 0 500 0 50 demo_cards = Some cards' ∧
  rget cards' 0 = demo_bomb.
Proof.
  destruct (AnalyseCardEx_sides demo_playing 3 (λ i, (i =? 0)%nat) 1 0 100 200 0 500 0 50 demo_cards demo_dealt) as (cards' & E & _); [lia|lia|].
  exists cards'. split; [exact E|]. vm_compute in E. injection E as <-. reflexivity.
Defined.

Lemma AnalyseForBlacklist_winner_witness : ∃ cards',
  AnalyseForBlacklist demo_playing 3 (λ _, false) (λ j, (j =? 1)%nat) (λ _, 5) 0 (λ _, 0) demo_cards = Some cards' ∧ rget cards' 0 = demo_bomb.
Proof.
  destruct (AnalyseForBlacklist_winner demo_playing 3 (λ _, false) (λ j, (j =? 1)%nat) (λ _, 5) 0 (λ _, 0) demo_cards demo_dealt) as (cards' & E & _).
  { intros j _. lia. }
  exists cards'. split; [exact E|]. vm_compute in E. injection E as <-. reflexivity.
Defined.
