(* ===== verification/BullSettle.v ===== *)
(** Grab the banker, the settlement ([NormalGameEnd] of
    [src/Games/Game_QznnLandy/TableFrameSink.cpp]): every player settles with the banker;
    nobody loses more than he has, so a banker who cannot pay, or who would win more than
    he brought, shares what there is in proportion. *)
From Stdlib Require Import ZArith Lia.
From S2P Require Import Prelude GameDefine Cards BullLogic BullDeal.
From stdpp Require Import base numbers sorting sets option list.

#[local] Open Scope Z_scope.

(** ** The round *)

Record Round := MkRound {
  g_playing : list bool;
  g_scores : list (option Z);
  g_banker : nat;
  g_call : Z;
  g_cell : Z;
  g_jetton : list Z;
  g_cards : list (list Z)
}.

Section Settle.
Context (g : Round).

Definition llUserBaseScore (i : nat) : Z := default 0 (mjoin (g_scores g !! i)).

(** The chairs of the first loop: they play, do not hold the bank and have a user. *)
Definition others : list nat :=
  filter (λ i, bget (g_playing g) i = true ∧ i ≠ g_banker g ∧ mjoin (g_scores g !! i) ≠ None) chairs.

Definition banker_wins (i : nat) : bool := CompareCard (rget (g_cards g) (g_banker g)) (rget (g_cards g) i).

(** What chair [i] wins or loses at most: [iTempScore], cut to his balance. *)
Definition stake (i : nat) : Z :=
  let iTempScore := i64 (i32 (g_cell g * g_call g) * (g_jetton g).[i] *
    GetMultiple (rget (g_cards g) (if banker_wins i then g_banker g else i))) in
  if llUserBaseScore i <? iTempScore then llUserBaseScore i else iTempScore.

(** [iUserWinScore] after the first loop. *)
Definition first_score (i : nat) : Z :=
  if bool_decide (i ∈ others) then if banker_wins i then - stake i else stake i else 0.

Definition iBankerWinScore : Z := sumZ (map stake (filter (λ i, banker_wins i = true) others)).
Definition iUserTotalWinScore : Z := sumZ (map stake (filter (λ i, banker_wins i = false) others)).
Definition iUserTotalLoseScore : Z := - iBankerWinScore.
Definition iBankerTotalWinScore : Z := iBankerWinScore - iUserTotalWinScore.
Definition llBankerBaseScore : Z := llUserBaseScore (g_banker g).

Definition cdiv (a b : Z) : option Z := if b =? 0 then None else Some (Z.quot a b).

(** The banker would win more than he has: the losers share what he may take.  The values
    are [double] in the code, whole numbers below 2^53. *)
Definition loser_share (i : nat) : option Z :=
  let iBankerCalWinScore := llBankerBaseScore + iUserTotalWinScore in
  if 0 <? first_score i then Some (first_score i)
  else
    iUserNeedLostScore ← cdiv (i64 (iBankerCalWinScore * first_score i)) iUserTotalLoseScore;
    Some (- (if llUserBaseScore i <? iUserNeedLostScore then llUserBaseScore i else iUserNeedLostScore)).

(** The banker cannot pay: the winners share what he has. *)
Definition winner_share (i : nat) : option Z :=
  let iBankerMaxScore := llBankerBaseScore + iBankerWinScore in
  if first_score i <? 0 then Some (first_score i)
  else
    iUserRealWinScore ← cdiv (i64 (iBankerMaxScore * first_score i)) iUserTotalWinScore;
    Some (if llUserBaseScore i <? iUserRealWinScore then llUserBaseScore i else iUserRealWinScore).

(** [iUserWinScore] at the end.  [bankerliss] and [bankerscore] add the difference of a cut
    amount and the balance it was just set to, so they stay 0. *)
Definition final_score (i : nat) : option Z :=
  if llBankerBaseScore <? iBankerTotalWinScore then
    if (i =? g_banker g)%nat then Some llBankerBaseScore
    else if negb (bget (g_playing g) i) then Some 0 else loser_share i
  else if iBankerTotalWinScore + llBankerBaseScore <? 0 then
    if (i =? g_banker g)%nat then Some (0 - llBankerBaseScore)
    else if negb (bget (g_playing g) i) then Some 0 else winner_share i
  else
    Some (if (i =? g_banker g)%nat then iBankerTotalWinScore else first_score i).

Definition iUserWinScore : option (list Z) := mapM final_score chairs.

End Settle.

(** What the second loop adds to the balance of a player: the win less the revenue. *)
Definition iRevenue (revenueRatio w : Z) : Z := if 0 <? w then CalculateRevenue revenueRatio w else 0.
Definition addScore (revenueRatio w : Z) : Z := w - iRevenue revenueRatio w.

(** ** Rounds of the table *)

(** Balances stay below 2^30 (ten million coins of a hundred), multiples below 2^28. *)
Record round_ok (g : Round) : Prop := {
  ok_dealt : ∃ n, dealt (g_playing g) n (g_cards g);
  ok_banker : g_banker g ∈ players (g_playing g);
  ok_users : ∀ i, i ∈ players (g_playing g) → ∃ s, g_scores g !! i = Some (Some s) ∧ 0 <= s <= 1073741824;
  ok_unit : 0 < g_cell g * g_call g < 2147483648;
  ok_jetton : ∀ i, 0 <= (g_jetton g).[i] < 268435456
}.

(** The part of [M] that falls to [x] out of [X]. *)
Definition part (M x X : Z) : Z := M * x / X.

Lemma part_range M x X : 0 <= M <= X → 0 <= x → 0 < X → 0 <= part M x X <= x.
Proof.
  intros HM Hx HX. unfold part. split; [apply Z.div_pos; nia|]. apply Z.div_le_upper_bound; nia.
Qed.

(** The parts lose less than one unit each. *)
Lemma parts_sum M X l : 0 < X → Forall (λ x, 0 <= x) l →
  X * sumZ (map (λ x, part M x X) l) <= M * sumZ l <= X * sumZ (map (λ x, part M x X) l) + (X - 1) * Z.of_nat (length l).
Proof.
  intros HX. induction 1 as [|x l Hx _ IH]; [simpl; lia|]. cbn [map sumZ foldr length].
  fold (sumZ l) (sumZ (map (λ x, part M x X) l)). unfold part at 1 3.
  pose proof (Z.div_mod (M * x) X ltac:(lia)) as E. pose proof (Z.mod_pos_bound (M * x) X HX). nia.
Qed.

Lemma parts_total M X l : 0 < X → sumZ l = X → Forall (λ x, 0 <= x) l →
  M - (Z.of_nat (length l) - 1) <= sumZ (map (λ x, part M x X) l) <= M.
Proof.
  intros HX Hs Hl. pose proof (parts_sum M X l HX Hl) as H. rewrite Hs in H.
  assert (0 < Z.of_nat (length l)) by (destruct l; simpl in *; lia). set (s := sumZ (map _ l)) in *. clearbody s.
  split; [|apply (Z.mul_le_mono_pos_l _ _ X); lia].
  assert (M - s < Z.of_nat (length l)); [|lia]. apply (Z.mul_lt_mono_pos_l X); lia.
Qed.

Section Facts.
Context (g : Round) (Hok : round_ok g).

Lemma in_others i : i ∈ others g ↔ i ∈ players (g_playing g) ∧ i ≠ g_banker g.
Proof.
  unfold others. rewrite list_elem_of_filter, elem_of_players. split; [tauto|].
  intros [[Hc Hp] Hb]. split_and!; [done..| |done].
  destruct (ok_users g Hok i) as (s & -> & _); [by apply elem_of_players|done].
Qed.

Lemma base_range i : i ∈ players (g_playing g) → 0 <= llUserBaseScore g i <= 1073741824.
Proof. intros Hi. unfold llUserBaseScore. by destruct (ok_users g Hok i Hi) as (s & -> & Hs). Qed.

Lemma multiple_range h : 0 <= GetMultiple h <= 4.
Proof. unfold GetMultiple. bsplit; lia. Qed.

(** No product leaves its type, and a stake is within the balance. *)
Lemma stake_spec i : i ∈ others g → stake g i =
  Z.min (llUserBaseScore g i) (g_cell g * g_call g * (g_jetton g).[i] *
    GetMultiple (rget (g_cards g) (if banker_wins g i then g_banker g else i))) ∧ 0 <= stake g i <= llUserBaseScore g i.
Proof.
  intros [Hi _]%in_others. pose proof (base_range i Hi). pose proof (ok_unit g Hok). pose proof (ok_jetton g Hok i).
  unfold stake. set (m := GetMultiple _). assert (0 <= m <= 4) as Hm by apply multiple_range. clearbody m.
  assert (i32 (g_cell g * g_call g) = g_cell g * g_call g) as -> by (unfold i32; lia).
  set (u := g_cell g * g_call g) in *. assert (0 <= u * (g_jetton g).[i] <= 2147483648 * 268435456) as Hu by nia.
  assert (0 <= u * (g_jetton g).[i] * m <= 2305843009213693952) as Hum by nia.
  assert (i64 (u * (g_jetton g).[i] * m) = u * (g_jetton g).[i] * m) as -> by (unfold i64; lia).
  destruct (Z.ltb_spec (llUserBaseScore g i) (u * (g_jetton g).[i] * m)); lia.
Qed.

Lemma stakes_nonneg l : l ⊆ others g → Forall (λ x, 0 <= x) (map (stake g) l).
Proof. intros Hl. apply Forall_fmap, Forall_forall. intros i Hi. simpl. by apply Hl, stake_spec in Hi as [_ []]. Qed.

Lemma others_NoDup : NoDup (others g).
Proof. apply NoDup_filter, NoDup_seq. Qed.

Lemma others_few : (length (others g) <= 3)%nat.
Proof.
  assert (g_banker g :: others g ⊆+ chairs) as H.
  { apply NoDup_submseteq.
    - constructor; [|apply others_NoDup]. by intros [_ ?]%in_others.
    - intros i [->|Hi]%elem_of_cons; [|apply in_others in Hi as [Hi _]]; [pose proof (ok_banker g Hok) as Hi|];
        by apply elem_of_players in Hi as [? _]. }
  apply submseteq_length in H. simpl in H. lia.
Qed.

(** The losers and the winners against the bank. *)
Definition losers : list nat := filter (λ i, banker_wins g i = true) (others g).
Definition winners : list nat := filter (λ i, banker_wins g i = false) (others g).

Lemma losers_winners : losers ++ winners ≡ₚ others g.
Proof.
  unfold losers, winners. induction (others g) as [|i l IH]; [done|]. rewrite !filter_cons.
  destruct (banker_wins g i); simpl; [by rewrite IH|]. rewrite <- Permutation_middle. by rewrite IH.
Qed.

Lemma losers_length : (length losers + length winners <= 3)%nat.
Proof. rewrite <- length_app, losers_winners. apply others_few. Qed.

Lemma pot_range : 0 <= iBankerWinScore g ∧ 0 <= iUserTotalWinScore g ∧
  iBankerWinScore g + iUserTotalWinScore g <= 3221225472.
Proof.
  split; [apply sumZ_nonneg, stakes_nonneg; intros i Hi; by apply list_elem_of_filter in Hi as [_ ?]|].
  split; [apply sumZ_nonneg, stakes_nonneg; intros i Hi; by apply list_elem_of_filter in Hi as [_ ?]|].
  unfold iBankerWinScore, iUserTotalWinScore. rewrite <- sumZ_app, <- map_app.
  rewrite (sumZ_perm _ (map (stake g) (others g))) by (apply fmap_Permutation, losers_winners).
  pose proof others_few as Hf.
  assert (Forall (λ i, stake g i <= 1073741824) (others g)) as H.
  { apply Forall_forall. intros i Hi. pose proof (stake_spec i Hi) as [_ ?]. apply in_others in Hi as [Hi _].
    pose proof (base_range i Hi). lia. }
  assert (sumZ (map (stake g) (others g)) <= 1073741824 * Z.of_nat (length (others g))) as Hs; [|lia].
  clear Hf. induction H; [simpl; lia|]. cbn [map sumZ foldr length]. fold (sumZ (map (stake g) l)). lia.
Qed.

Lemma stake_in_pot i : i ∈ others g →
  stake g i <= if banker_wins g i then iBankerWinScore g else iUserTotalWinScore g.
Proof.
  intros Hi. assert (∀ l, i ∈ l → l ⊆ others g → stake g i <= sumZ (map (stake g) l)) as H.
  { induction l as [|j l IH]; intros Hin Hl; [by apply elem_of_nil in Hin|]. cbn [map sumZ foldr]. fold (sumZ (map (stake g) l)).
    assert (0 <= stake g j) by (apply stake_spec, Hl; by left).
    assert (0 <= sumZ (map (stake g) l)) by (apply sumZ_nonneg, stakes_nonneg; intros k ?; apply Hl; by right).
    apply elem_of_cons in Hin as [->|Hin]; [lia|]. specialize (IH Hin ltac:(intros k ?; apply Hl; by right)). lia. }
  destruct (banker_wins g i) eqn:E; (apply H; [by apply list_elem_of_filter|intros k Hk; by apply list_elem_of_filter in Hk as [_ ?]]).
Qed.

(** ** The settlement as it is meant *)

(** What each chair gets: the bank pays and takes the stakes; when it would take more than
    it has the losers pay their parts of what it may take, and when it cannot pay the
    winners get their parts of what there is. *)
Definition fair_score (i : nat) : Z :=
  let B := llBankerBaseScore g in let L := iBankerWinScore g in let W := iUserTotalWinScore g in
  if bool_decide (i ∈ others g) then
    if banker_wins g i then - (if B <? L - W then part (B + W) (stake g i) L else stake g i)
    else if L - W <? - B then part (B + L) (stake g i) W else stake g i
  else if (i =? g_banker g)%nat then Z.max (- B) (Z.min B (L - W))
  else 0.

Lemma cdiv_part M x X : 0 <= M → 0 <= x → 0 < X → M * x < 9223372036854775808 →
  cdiv (i64 (M * x)) X = Some (part M x X).
Proof.
  intros. unfold cdiv. rewrite (proj2 (Z.eqb_neq X 0)) by lia.
  assert (i64 (M * x) = M * x) as -> by (unfold i64; nia). unfold part. by rewrite Z.quot_div_nonneg by nia.
Qed.

Lemma cdiv_part_neg M x X : 0 <= M → 0 <= x → 0 < X → M * x < 9223372036854775808 →
  cdiv (i64 (M * - x)) (- X) = Some (part M x X).
Proof.
  intros. unfold cdiv. rewrite (proj2 (Z.eqb_neq (- X) 0)) by lia.
  assert (i64 (M * - x) = - (M * x)) as -> by (unfold i64; nia). rewrite Z.quot_opp_opp by lia.
  unfold part. by rewrite Z.quot_div_nonneg by nia.
Qed.

Lemma final_score_fair i : i ∈ chairs → final_score g i = Some (fair_score i).
Proof.
  intros Hc. pose proof pot_range as (HL & HW & Hsum). pose proof (base_range _ (ok_banker g Hok)) as HB. fold (llBankerBaseScore g) in HB.
  unfold final_score, fair_score, iBankerTotalWinScore.
  destruct (Nat.eqb_spec i (g_banker g)) as [->|Hib].
  { rewrite bool_decide_false by (intros [_ ?]%in_others; done). bsplit; f_equal; lia. }
  unfold loser_share, winner_share, first_score, iUserTotalLoseScore.
  destruct (bool_decide_reflect (i ∈ others g)) as [Hi|Hi].
  - pose proof (stake_spec i Hi) as [_ Hs]. pose proof (stake_in_pot i Hi) as Hp.
    assert (i ∈ players (g_playing g)) as Hpl by (by apply in_others in Hi as [? _]). pose proof (base_range i Hpl) as Hb.
    apply elem_of_players in Hpl as [_ ->]. cbn [negb].
    destruct (Z.ltb_spec (llBankerBaseScore g) (iBankerWinScore g - iUserTotalWinScore g)) as [HA|HA].
    + rewrite (proj2 (Z.ltb_ge _ (- llBankerBaseScore g))) by lia. destruct (banker_wins g i).
      * rewrite (proj2 (Z.ltb_ge 0 _)) by lia. rewrite cdiv_part_neg by nia. simpl.
        pose proof (part_range (llBankerBaseScore g + iUserTotalWinScore g) (stake g i) (iBankerWinScore g) ltac:(lia) ltac:(lia) ltac:(lia)).
        by rewrite (proj2 (Z.ltb_ge _ _)) by lia.
      * destruct (Z.ltb_spec 0 (stake g i)); [done|]. assert (stake g i = 0) as -> by lia.
        change 0 with (- 0) at 1. rewrite cdiv_part_neg by lia. simpl. unfold part. rewrite Z.mul_0_r, Z.div_0_l by lia.
        by destruct (Z.ltb_spec (llUserBaseScore g i) 0); [lia|].
    + destruct (Z.ltb_spec (iBankerWinScore g - iUserTotalWinScore g + llBankerBaseScore g) 0) as [HC|HC].
      2:{ rewrite (proj2 (Z.ltb_ge _ (- llBankerBaseScore g))) by lia. by destruct (banker_wins g i). }
      rewrite (proj2 (Z.ltb_lt _ (- llBankerBaseScore g))) by lia. destruct (banker_wins g i).
      * destruct (Z.ltb_spec (- stake g i) 0); [done|]. assert (stake g i = 0) as -> by lia.
        rewrite cdiv_part by lia. simpl. unfold part. rewrite Z.mul_0_r, Z.div_0_l by lia.
        by destruct (Z.ltb_spec (llUserBaseScore g i) 0); [lia|].
      * rewrite (proj2 (Z.ltb_ge _ 0)) by lia. rewrite cdiv_part by nia. simpl.
        pose proof (part_range (llBankerBaseScore g + iBankerWinScore g) (stake g i) (iUserTotalWinScore g) ltac:(lia) ltac:(lia) ltac:(lia)).
        by rewrite (proj2 (Z.ltb_ge _ _)) by lia.
  - destruct (bget (g_playing g) i) eqn:Ep; simpl; [|by bsplit].
    destruct Hi. apply in_others. split; [by apply elem_of_players|done].
Qed.

Lemma settlement_fair : iUserWinScore g = Some (map fair_score chairs).
Proof.
  unfold iUserWinScore. apply mapM_Some_2. apply Forall2_fmap_r, Forall_Forall2_diag, Forall_forall.
  intros i Hi. by apply final_score_fair.
Qed.

(** ** What everybody keeps *)

Lemma fair_range i : i ∈ players (g_playing g) → - llUserBaseScore g i <= fair_score i <= llUserBaseScore g i.
Proof.
  intros Hi. pose proof pot_range as (HL & HW & Hsum). pose proof (base_range _ (ok_banker g Hok)) as HB. fold (llBankerBaseScore g) in HB.
  unfold fair_score. destruct (bool_decide_reflect (i ∈ others g)) as [Ho|Ho].
  - pose proof (stake_spec i Ho) as [_ Hs]. pose proof (stake_in_pot i Ho) as Hp. destruct (banker_wins g i).
    + destruct (Z.ltb_spec (llBankerBaseScore g) (iBankerWinScore g - iUserTotalWinScore g)); [|lia].
      pose proof (part_range (llBankerBaseScore g + iUserTotalWinScore g) (stake g i) (iBankerWinScore g) ltac:(lia) ltac:(lia) ltac:(lia)). lia.
    + destruct (Z.ltb_spec (iBankerWinScore g - iUserTotalWinScore g) (- llBankerBaseScore g)); [|lia].
      pose proof (part_range (llBankerBaseScore g + iBankerWinScore g) (stake g i) (iUserTotalWinScore g) ltac:(lia) ltac:(lia) ltac:(lia)). lia.
  - assert (i = g_banker g) as -> by (destruct (decide (i = g_banker g)); [done|destruct Ho; by apply in_others]).
    rewrite Nat.eqb_refl. fold (llBankerBaseScore g). lia.
Qed.

(** The scores of the round add up over the bank, the losers and the winners. *)
Lemma fair_sum : sumZ (map fair_score chairs) =
  fair_score (g_banker g) + sumZ (map fair_score losers) + sumZ (map fair_score winners).
Proof.
  rewrite <- Z.add_assoc, <- sumZ_app, <- map_app. rewrite (sumZ_perm (map fair_score (losers ++ winners)) (map fair_score (others g)))
    by (apply fmap_Permutation, losers_winners).
  pose proof (ok_banker g Hok) as Hb.
  assert (chairs ≡ₚ g_banker g :: others g ++ filter (λ i, i ∉ g_banker g :: others g) chairs) as Hp.
  { apply NoDup_Permutation; [apply NoDup_seq| |].
    - constructor.
      + rewrite elem_of_app, list_elem_of_filter. intros [[_ ?]%in_others|[Hn _]]; [done|]. apply Hn. by left.
      + apply NoDup_app. split; [apply others_NoDup|]. split; [|apply NoDup_filter, NoDup_seq].
        intros i Hi [Hn _]%list_elem_of_filter. apply Hn. by right.
    - intros i. rewrite elem_of_cons, elem_of_app, list_elem_of_filter. split.
      + intros Hi. destruct (decide (i ∈ g_banker g :: others g)) as [Hin|]; [apply elem_of_cons in Hin; tauto|tauto].
      + apply elem_of_players in Hb as [Hb _]. intros [->|[Hi|[_ Hi]]]; [done| |done].
        by apply in_others in Hi as [[? _]%elem_of_players _]. }
  set (rest := filter _ _) in Hp. rewrite (sumZ_perm (map fair_score chairs) (map fair_score (g_banker g :: others g ++ rest)))
    by (apply fmap_Permutation, Hp).
  cbn [map sumZ foldr]. rewrite map_app. fold (sumZ (map fair_score (others g) ++ map fair_score rest)).
  rewrite sumZ_app. assert (∀ l, Forall (λ i, i ∉ g_banker g :: others g) l → sumZ (map fair_score l) = 0) as Hz.
  { induction 1 as [|i l Hn _ IH]; [done|]. cbn [map sumZ foldr]. fold (sumZ (map fair_score l)). rewrite IH.
    apply not_elem_of_cons in Hn as [Hn1 Hn2]. unfold fair_score. rewrite bool_decide_false by done.
    by rewrite (proj2 (Nat.eqb_neq i _)) by done. }
  rewrite (Hz rest); [lia|]. apply Forall_forall. intros i Hi. by apply list_elem_of_filter in Hi as [? _].
Qed.

End Facts.

(** ** What the settlement does *)

(** C26. Every division of the settlement has a divisor and no product leaves [int64_t]: the
    scores are those of the rule.  The bank takes and pays the stakes; a bank that would
    take more than it has lets each loser pay his part, one that cannot pay gives each
    winner his part, and chairs that do not play get nothing. *)
Theorem settlement_reference g : round_ok g → iUserWinScore g = Some (map (fair_score g) chairs).
Proof. apply settlement_fair. Qed.

Lemma final_lookup g l i : round_ok g → i ∈ chairs → iUserWinScore g = Some l → l !! i = Some (fair_score g i).
Proof.
  intros Hok Hi Hl. rewrite (settlement_fair g Hok) in Hl. assert (l = map (fair_score g) chairs) as -> by congruence. apply elem_of_seq in Hi.
  assert (chairs !! i = Some i) as E by (apply lookup_seq_lt; lia).
  etransitivity; [apply list_lookup_fmap|]. by rewrite E.
Qed.

(** Nobody, the bank included, wins or loses more than he has, so with a revenue of at
    most all of the win no balance becomes negative. *)
Theorem settlement_bounds g l i revenueRatio : round_ok g → iUserWinScore g = Some l → i ∈ players (g_playing g) → 0 <= revenueRatio <= 100 →
  ∃ w, l !! i = Some w ∧ - llUserBaseScore g i <= w <= llUserBaseScore g i ∧ 0 <= llUserBaseScore g i + addScore revenueRatio w.
Proof.
  intros Hok Hl Hi Hr. exists (fair_score g i).
  split; [apply (final_lookup g); [done|by apply elem_of_players in Hi as [? _]|done]|].
  pose proof (fair_range g Hok i Hi) as Hf. split; [done|]. unfold addScore, iRevenue.
  destruct (Z.ltb_spec 0 (fair_score g i)); [|lia]. unfold CalculateRevenue.
  pose proof (base_range g Hok i Hi). rewrite Z.quot_div_nonneg by nia.
  assert (fair_score g i * revenueRatio / 100 <= fair_score g i); [|lia].
  apply Z.div_le_upper_bound; nia.
Qed.

Lemma stakes_sum g f l : (∀ i, i ∈ l → f i = stake g i) → sumZ (map f l) = sumZ (map (stake g) l).
Proof. intros H. f_equal. apply map_ext_in. intros i Hi. by apply H, list_elem_of_In. Qed.

Lemma sum_opp f (l : list nat) : sumZ (map (λ i, - f i) l) = - sumZ (map f l).
Proof. induction l as [|i l IH]; [done|]. cbn [map sumZ foldr]. fold (sumZ (map (λ i, - f i) l)) (sumZ (map f l)). lia. Qed.

(** The sums over the two sides. *)
Lemma losers_sum g : sumZ (map (fair_score g) (losers g)) = - sumZ (map (λ i,
  if llBankerBaseScore g <? iBankerWinScore g - iUserTotalWinScore g
  then part (llBankerBaseScore g + iUserTotalWinScore g) (stake g i) (iBankerWinScore g) else stake g i) (losers g)).
Proof.
  rewrite <- sum_opp. f_equal. apply map_ext_in. intros i [Hw Ho]%list_elem_of_In%list_elem_of_filter.
  unfold fair_score. by rewrite bool_decide_true, Hw by done.
Qed.

Lemma winners_sum g : sumZ (map (fair_score g) (winners g)) = sumZ (map (λ i,
  if iBankerWinScore g - iUserTotalWinScore g <? - llBankerBaseScore g
  then part (llBankerBaseScore g + iBankerWinScore g) (stake g i) (iUserTotalWinScore g) else stake g i) (winners g)).
Proof.
  f_equal. apply map_ext_in. intros i [Hw Ho]%list_elem_of_In%list_elem_of_filter.
  unfold fair_score. by rewrite bool_decide_true, Hw by done.
Qed.

Lemma banker_score g : round_ok g → fair_score g (g_banker g) =
  Z.max (- llBankerBaseScore g) (Z.min (llBankerBaseScore g) (iBankerWinScore g - iUserTotalWinScore g)).
Proof.
  intros Hok. unfold fair_score. rewrite bool_decide_false by (intros [_ ?]%(in_others g Hok); done). by rewrite Nat.eqb_refl.
Qed.

Lemma parts_over g M X l : round_ok g → l ⊆ others g → 0 < X → sumZ (map (stake g) l) = X →
  M - (Z.of_nat (length l) - 1) <= sumZ (map (λ i, part M (stake g i) X) l) <= M.
Proof.
  intros Hok Hl HX Hs. pose proof (parts_total M X (map (stake g) l) HX Hs (stakes_nonneg g Hok l Hl)) as H.
  by rewrite map_map, length_map in H.
Qed.

(** What the scores of a round add up to: nothing as long as the bank can take and pay
    the stakes.  When the losers share what the bank may take the divisions round their
    payments down, and up to one unit less than there are losers comes from nowhere; when
    the winners share what the bank has, as much at most is lost. *)
Theorem settlement_sum g l : round_ok g → iUserWinScore g = Some l →
  let B := llBankerBaseScore g in let T := iBankerTotalWinScore g in
  (- B <= T <= B → sumZ l = 0) ∧
  (B < T → 0 <= sumZ l <= Z.of_nat (length (losers g)) - 1) ∧
  (T < - B → 1 - Z.of_nat (length (winners g)) <= sumZ l <= 0).
Proof.
  intros Hok Hl. rewrite (settlement_fair g Hok) in Hl. assert (l = map (fair_score g) chairs) as -> by congruence. cbv zeta.
  rewrite (fair_sum g Hok), losers_sum, winners_sum, (banker_score g Hok). unfold iBankerTotalWinScore.
  pose proof (pot_range g Hok) as (HL & HW & _). pose proof (base_range g Hok _ (ok_banker g Hok)) as HB. fold (llBankerBaseScore g) in HB.
  assert (sumZ (map (stake g) (losers g)) = iBankerWinScore g) as SL by done.
  assert (sumZ (map (stake g) (winners g)) = iUserTotalWinScore g) as SW by done.
  assert (sumZ (map (λ i, stake g i) (losers g)) = iBankerWinScore g ∧ sumZ (map (λ i, stake g i) (winners g)) = iUserTotalWinScore g) as [SL' SW'] by done.
  assert (losers g ⊆ others g ∧ winners g ⊆ others g) as [Il Iw].
  { split; intros i Hi; by apply list_elem_of_filter in Hi as [_ ?]. }
  destruct (Z.ltb_spec (llBankerBaseScore g) (iBankerWinScore g - iUserTotalWinScore g)) as [HA|HA];
  destruct (Z.ltb_spec (iBankerWinScore g - iUserTotalWinScore g) (- llBankerBaseScore g)) as [HC|HC]; try lia.
  - pose proof (parts_over g (llBankerBaseScore g + iUserTotalWinScore g) (iBankerWinScore g) (losers g) Hok Il ltac:(lia) SL).
    rewrite SW'. lia.
  - pose proof (parts_over g (llBankerBaseScore g + iBankerWinScore g) (iUserTotalWinScore g) (winners g) Hok Iw ltac:(lia) SW).
    rewrite SL'. lia.
Qed.

(** ** Witnesses *)

(** The bank of ten coins beats three players: seven coins each are due. *)
Definition demo_round : Round := MkRound [true; true; true; true] [Some 10; Some 7; Some 7; Some 7] 0 1 100 [0; 1; 1; 1]
  [demo_bomb; demo_bull; [1; 2; 35; 52; 29]; [6; 7; 9; 10; 11]].

Lemma demo_round_ok : round_ok demo_round.
Proof.
  split.
  - exists 4%nat. split; [reflexivity|]. split; [reflexivity|].
    assert (Forall (λ i, Forall (λ j, i ≠ j → Forall (λ c, c ∉ rget (g_cards demo_round) j) (rget (g_cards demo_round) i)) [0; 1; 2; 3]%nat) [0; 1; 2; 3]%nat) as Hdis by by_decide.
    assert (Forall (λ i, length (rget (g_cards demo_round) i) = MAX_COUNT ∧ Forall (λ c, c ∈ m_byCardDataArray) (rget (g_cards demo_round) i) ∧
      NoDup (rget (g_cards demo_round) i)) [0; 1; 2; 3]%nat) as Hhand by by_decide.
    change (players (g_playing demo_round)) with [0; 1; 2; 3]%nat. rewrite Forall_forall in Hdis, Hhand. intros i j Hi Hj Hij.
    split; [by apply Hhand|]. split; [by apply Hhand|]. intros c Hc. specialize (Hdis i Hi). rewrite Forall_forall in Hdis.
    specialize (Hdis j Hj Hij). rewrite Forall_forall in Hdis. by apply Hdis.
  - by_decide.
  - change (players (g_playing demo_round)) with [0; 1; 2; 3]%nat. intros i Hi.
    repeat (apply elem_of_cons in Hi as [->|Hi]; [eexists; split; [reflexivity|lia]|]). by apply elem_of_nil in Hi.
  - simpl. lia.
  - intros i. do 4 (destruct i as [|i]; [unfold aget; simpl; lia|]). unfold aget. simpl. lia.
Defined.

Lemma settlement_reference_witness : iUserWinScore demo_round = Some [10; -3; -3; -3].
Proof. rewrite (settlement_reference demo_round demo_round_ok). vm_compute. reflexivity. Defined.

Lemma settlement_bounds_witness : ∃ w, [10; -3; -3; -3] !! 1%nat = Some w ∧ - 7 <= w <= 7 ∧ 0 <= 7 + addScore 5 w.
Proof.
  apply (settlement_bounds demo_round [10; -3; -3; -3] 1 5 demo_round_ok); [vm_compute; reflexivity|by_decide|lia].
Defined.

(** One coin comes from nowhere. *)
Lemma settlement_sum_witness : sumZ [10; -3; -3; -3] = 1 ∧ 0 <= 1 <= 2.
Proof.
  split; [reflexivity|].
  apply (proj1 (proj2 (settlement_sum demo_round [10; -3; -3; -3] demo_round_ok ltac:(vm_compute; reflexivity)))). vm_compute. reflexivity.
Defined.
