(* ===== verification/BullTable.v ===== *)
(** Grab the banker, the table ([src/Games/Game_QznnLandy/TableFrameSink.cpp]): users wait
    for a table of two to four, everybody bids for the bank, the others bet against it, the
    hands are opened and settled, and the table is cleared.  [None] is a null pointer, a
    failed [assert], an index past an array or a division by zero.  Messages to the
    clients, replays and logs are left out. *)
From Stdlib Require Import ZArith Lia.
From S2P Require Import Prelude GameDefine Cards BullLogic BullDeal BullSettle.
From stdpp Require Import base numbers sorting sets option list.

#[local] Open Scope Z_scope.

(** ** Data *)

Definition GAME_STATUS_INIT : Z := 0.
Definition GAME_STATUS_READY : Z := 99.
Definition GAME_STATUS_START : Z := 100.
Definition GAME_STATUS_LOCK_PLAYING : Z := 100.
Definition GAME_STATUS_CALL : Z := 102.
Definition GAME_STATUS_SCORE : Z := 103.
Definition GAME_STATUS_OPEN : Z := 104.
Definition GAME_STATUS_END : Z := 200.

Definition MIN_GAME_PLAYER : nat := 2.
Definition MAX_JETTON_MUL : nat := 6.
Definition MAX_BANKER_MUL : nat := 4.

(** What the table reads of a user item; the last two are [GetBlacklistInfo]. *)
Record User := MkUser {
  userId : Z;
  android : bool;
  userScore : Z;
  userStatus : eUserStatus;
  black_status : Z;
  black_weight : Z
}.
#[global] Instance eta_User : Settable User := λ u,
  MkUser (userId u) (android u) (userScore u) (userStatus u) (black_status u) (black_weight u).

(** The room, [m_isMatch] and the weights of [InitLoadini].  The room has [GAME_PLAYER]
    chairs. *)
Record Config := MkConfig {
  floorScore : Z;
  jettons : list Z;
  minPlayerNum : nat;
  enterMinScore : Z;
  m_isMatch : bool;
  ratioGamePlayerWeight : list Z;
  systemKillAllRatio : Z;
  revenueRatio : Z
}.

(** [SetTableFrame] writes the multiples of the room over the first of the six. *)
Definition m_cbJettonMultiple (cfg : Config) : list Z :=
  map i32 (jettons cfg) ++ drop (length (jettons cfg)) [1; 5; 10; 15; 20; 25].
Definition m_cbBankerMultiple (cfg : Config) : list Z := if m_isMatch cfg then [1; 2; 4; 4] else [1; 2; 3; 4].
Definition MaxBankerMul (cfg : Config) : nat := if m_isMatch cfg then 3 else MAX_BANKER_MUL.
Definition MaxJettonMul (cfg : Config) : nat := if m_isMatch cfg then 4 else MAX_JETTON_MUL.
Definition m_dwCellScore (cfg : Config) : Z := i32 (floorScore cfg).

(** What is random or comes from outside while an event is handled: the shuffled pack,
    the values of [rand()] and [m_random], the storage of the room, the answer of
    [ConcludeGame]. *)
Record Draw := MkDraw {
  d_deck : list Z;
  d_players : Z;
  d_black : nat → Z;
  d_storage : Z * Z * Z;
  d_kill : Z;
  d_low : Z;
  d_high : Z;
  d_winner : nat → Z;
  d_continue : bool
}.

Record Table := MkTable {
  m_wGameStatus : Z;
  seats : list (option User);
  used : bool;
  m_cbPlayStatus : list bool;
  m_wPlayCount : nat;
  m_sCallBanker : list Z;
  m_sAddScore : list Z;
  m_sCardType : list Z;
  m_iMultiple : list Z;
  m_wBankerUser : option nat;
  m_cbCardData : list (list Z);
  m_cbOXCard : list (list Z);
  m_bContinueServer : bool;
  m_bPlayerIsOperation : list bool;
  m_iBlacklistNum : nat;
  m_bBlacklist : list bool;
  m_cbCallable : list (list Z);
  m_cbJettonable : list (list Z);
  m_llStorageControl : Z;
  m_llStorageLowerLimit : Z;
  m_llStorageHighLimit : Z;
  totalMatch : nat;
  MaxGamePlayers : nat;
  m_TimerIdCallBanker : bool;
  m_TimerIdAddScore : bool;
  m_TimerIdOpenCard : bool;
  m_TimerIdEnd : bool
}.
#[global] Instance eta_Table : Settable Table := λ t,
  MkTable (m_wGameStatus t) (seats t) (used t) (m_cbPlayStatus t) (m_wPlayCount t) (m_sCallBanker t) (m_sAddScore t)
    (m_sCardType t) (m_iMultiple t) (m_wBankerUser t) (m_cbCardData t) (m_cbOXCard t) (m_bContinueServer t)
    (m_bPlayerIsOperation t) (m_iBlacklistNum t) (m_bBlacklist t) (m_cbCallable t) (m_cbJettonable t)
    (m_llStorageControl t) (m_llStorageLowerLimit t) (m_llStorageHighLimit t) (totalMatch t) (MaxGamePlayers t)
    (m_TimerIdCallBanker t) (m_TimerIdAddScore t) (m_TimerIdOpenCard t) (m_TimerIdEnd t).

Definition four {A} (x : A) : list A := replicate GAME_PLAYER x.

Definition new_table : Table :=
  MkTable GAME_STATUS_INIT (four None) false (four false) 0 (four (-1)) (four (-1)) (four (-1)) (four 1) None
    (four (replicate MAX_COUNT 0)) (four (replicate MAX_COUNT 0)) true (four false) 0 (four false)
    (four (replicate MAX_BANKER_MUL 0)) (four (replicate MAX_JETTON_MUL 0)) 0 0 0 0 0 false false false false.

(** A failed [assert]. *)
Definition assert (b : bool) : option unit := if b then Some tt else None.

Definition playing (t : Table) (i : nat) : bool := bget (m_cbPlayStatus t) i.

Definition all_players (t : Table) : list nat := players (m_cbPlayStatus t).

(** ** The frame below the table *)

Definition GetTableUserItem (t : Table) (i : nat) : option User := mjoin (seats t !! i).
Definition seated (t : Table) (i : nat) : bool := bool_decide (is_Some (GetTableUserItem t i)).
Definition set_user (i : nat) (g : User → User) (t : Table) : Table := t <| seats ::= alter (fmap g) i |>.
Definition SetUserStatus (i : nat) (s : eUserStatus) : Table → Table := set_user i (λ u, u <| userStatus := s |>).

Definition GetPlayerCount (bIncludeAndroid : bool) (t : Table) : nat :=
  length (filter (λ i, match GetTableUserItem t i with Some u => bIncludeAndroid || negb (android u) | None => false end = true) chairs).
Definition GetAndroidPlayerCount (t : Table) : nat :=
  length (filter (λ i, match GetTableUserItem t i with Some u => android u | None => false end = true) chairs).
Definition IsAndroidUser (t : Table) (i : nat) : bool := match GetTableUserItem t i with Some u => android u | None => false end.
Definition IsExistUser (t : Table) (i : nat) : bool := match GetTableUserItem t i with Some u => 0 <? userId u | None => false end.

Definition find_chair (user : Z) (t : Table) : option nat :=
  head (filter (λ i, match GetTableUserItem t i with Some u => userId u =? user | None => false end = true) chairs).

(** A playing user keeps his chair. *)
Definition ClearTableUser (i : nat) (t : Table) : Table :=
  match GetTableUserItem t i with
  | Some u => if bool_decide (userStatus u = sPlaying) then t else t <| seats ::= <[i := None]> |>
  | None => t
  end.

(** A loop over chairs whose body may fail. *)
Definition for_each (l : list nat) (f : nat → Table → option Table) (t : Table) : option Table :=
  foldl (λ o i, t ← o; f i t) (Some t) l.

(** ** Timers and the data of a round *)

Definition ClearAllTimer (t : Table) : Table :=
  t <| m_TimerIdCallBanker := false |> <| m_TimerIdAddScore := false |> <| m_TimerIdOpenCard := false |> <| m_TimerIdEnd := false |>.

Definition IsTrustee (t : Table) : Table :=
  if m_wGameStatus t =? GAME_STATUS_CALL then t <| m_TimerIdCallBanker := true |>
  else if m_wGameStatus t =? GAME_STATUS_SCORE then t <| m_TimerIdCallBanker := false |> <| m_TimerIdAddScore := true |>
  else if m_wGameStatus t =? GAME_STATUS_OPEN then t <| m_TimerIdAddScore := false |> <| m_TimerIdOpenCard := true |>
  else if m_wGameStatus t =? GAME_STATUS_END then t <| m_TimerIdOpenCard := false |> <| m_TimerIdEnd := true |>
  else t.

Definition ClearGameData (t : Table) : Table := t <| m_wBankerUser := None |>.

Definition InitGameData (t : Table) : Table :=
  t <| m_wPlayCount := 0%nat |> <| m_bContinueServer := true |> <| m_cbPlayStatus := four false |>
    <| m_cbCardData := four (replicate MAX_COUNT 0) |> <| m_cbOXCard := four (replicate MAX_COUNT 0) |>
    <| m_sCallBanker := four (-1) |> <| m_sAddScore := four (-1) |> <| m_sCardType := four (-1) |> <| m_iMultiple := four 1 |>
    <| m_bPlayerIsOperation := four false |> <| m_iBlacklistNum := 0%nat |>.

(** ** The start of a round *)

(** The multiples a user may bid: the first one always, another one if his score covers it. *)
Definition callable_row (cfg : Config) (playersnum : Z) (score : Z) (row : list Z) : option (list Z) :=
  maxCallTimes ← cdiv score (floorScore cfg * 8 * (playersnum - 1));
  Some (map (λ j, let m := (m_cbBankerMultiple cfg).[j] in
    if (j =? 0)%nat then m else if m <=? maxCallTimes then m else - m) (seq 0 (MaxBankerMul cfg)) ++ drop (MaxBankerMul cfg) row).

Definition zero_row (n : nat) (row : list Z) : list Z := replicate n 0 ++ drop n row.

(** The hand of chair [i]: [count] cards are not dealt yet. *)
Definition deal_chair (d : Draw) (i : nat) (s : nat * Table) : option (nat * Table) :=
  let '(count, t) := s in
  if negb (playing t i) then Some s
  else
    user ← GetTableUserItem t i;
    let count := (count - MAX_COUNT)%nat in
    let black := (black_status user =? 1) && (d_black d i mod 1000 <=? black_weight user) in
    Some (count, t <| m_cbCardData ::= <[i := take MAX_COUNT (drop count (d_deck d))]> |> <| m_bBlacklist ::= <[i := black]> |>
                  <| m_iBlacklistNum ::= (λ n, if black then S n else n) |>).

Definition deal (d : Draw) (t : Table) : option Table :=
  snd <$> foldl (λ o i, s ← o; deal_chair d i s) (Some (MAX_CARD_TOTAL, t <| m_cbCardData := four (replicate MAX_COUNT 0) |>)) chairs.

Definition call_chair (cfg : Config) (playersnum : Z) (i : nat) (t : Table) : option Table :=
  if negb (playing t i) then Some (t <| m_cbCallable ::= alter (zero_row (MaxBankerMul cfg)) i |>)
  else
    user ← GetTableUserItem t i;
    row ← callable_row cfg playersnum (userScore user) (rget (m_cbCallable t) i);
    Some (t <| m_cbCallable ::= <[i := row]> |>).

Definition OnGameStart (cfg : Config) (d : Draw) (t : Table) : option Table :=
  let '(control, lower, high) := d_storage d in
  let t := ClearAllTimer (t <| m_llStorageControl := control |> <| m_llStorageLowerLimit := lower |> <| m_llStorageHighLimit := high |>) in
  t ← deal d t;
  t ← for_each chairs (call_chair cfg (Z.of_nat (length (all_players t)))) t;
  Some (IsTrustee (t <| m_wGameStatus := GAME_STATUS_CALL |>)).

(** Nobody plays: the users are ready and the table waits. *)
Definition wait_again (t : Table) : Table :=
  ClearAllTimer (foldl (λ t i, SetUserStatus i sReady t) t chairs <| m_cbPlayStatus := four false |> <| m_wGameStatus := GAME_STATUS_INIT |>).

Definition enter_chair (t : Table) (i : nat) : Table :=
  if seated t i then SetUserStatus i sPlaying t <| m_cbPlayStatus ::= <[i := true]> |> <| m_wPlayCount ::= S |>
  else t <| m_cbPlayStatus ::= <[i := false]> |>.

Definition GameTimereEnterPlayingOver (cfg : Config) (d : Draw) (t : Table) : option Table :=
  let t := foldl enter_chair t chairs in
  if (m_wPlayCount t <? minPlayerNum cfg)%nat then Some (wait_again t) else OnGameStart cfg d t.

(** Users who are offline or too poor leave; the others are counted. *)
Definition check_chair (cfg : Config) (s : nat * Table) (i : nat) : nat * Table :=
  let '(n, t) := s in
  match GetTableUserItem t i with
  | None => s
  | Some u =>
      if bool_decide (userStatus u = sOffline) then (n, ClearTableUser i t)
      else if userScore u <? enterMinScore cfg then (n, ClearTableUser i (SetUserStatus i sOffline t))
      else (S n, t)
  end.

Definition GameTimerReadyOver (cfg : Config) (d : Draw) (t : Table) : option Table :=
  _ ← assert (m_wGameStatus t <? GAME_STATUS_START);
  let '(wUserCount, t) := foldl (check_chair cfg) (0%nat, t) chairs in
  if (minPlayerNum cfg <=? wUserCount)%nat then
    let t := InitGameData (ClearGameData t) in
    let t := foldl (λ t i, SetUserStatus i sPlaying t) t chairs in
    GameTimereEnterPlayingOver cfg d (t <| m_wGameStatus := GAME_STATUS_LOCK_PLAYING |>)
  else Some (wait_again t).

(** ** Waiting for users *)

(** [totalMatchSeconds_] counts slices of 0.2 s: 3.6 s are 18 of them, with the 1.4 s for
    robots 25 (in [double]s of the [float] constants 18 slices are 3.60000005 against
    3.59999990, 25 are 5.00000007 against 4.99999988). *)
Definition timeoutMatch : nat := 18.
Definition timeoutAddAndroid : nat := 25.

Definition OnTimerGameReadyOver (cfg : Config) (d : Draw) (t : Table) : option Table :=
  if GAME_STATUS_START <=? m_wGameStatus t then Some t
  else
    let t := t <| totalMatch ::= S |> in
    let count := GetPlayerCount true t in
    if (MaxGamePlayers t <=? count)%nat then _ ← assert (count =? MaxGamePlayers t)%nat; Some t
    else if (totalMatch t <? timeoutMatch)%nat then Some t
    else if (timeoutAddAndroid <=? totalMatch t)%nat then
      if (MIN_GAME_PLAYER <=? count)%nat then GameTimerReadyOver cfg d t else Some t
    else Some t.

(** [user] is -1 for a robot that looks for a table. *)
Definition CanJoinTable (t : Table) (user : Z) : option bool :=
  if m_wGameStatus t =? GAME_STATUS_END then Some false
  else if m_wGameStatus t <? GAME_STATUS_LOCK_PLAYING then
    if (MaxGamePlayers t <=? GetPlayerCount true t)%nat then Some false
    else if user =? -1 then Some (negb (totalMatch t <? timeoutMatch)%nat)
    else match find_chair user t with
         | Some i => Some (negb (IsAndroidUser t i && (totalMatch t <? timeoutMatch)%nat))
         | None => Some true
         end
  else if GAME_STATUS_LOCK_PLAYING <? m_wGameStatus t then Some (bool_decide (is_Some (find_chair user t)))
  else None.

Definition CanLeftTable (t : Table) (user : Z) : bool :=
  match find_chair user t with
  | None => true
  | Some _ => (m_wGameStatus t <? GAME_STATUS_LOCK_PLAYING) || (m_wGameStatus t =? GAME_STATUS_END)
  end.

(** The number of players the table waits for, at least two. *)
Definition draw_players (cfg : Config) (r : Z) : nat :=
  let w := ratioGamePlayerWeight cfg in
  let sum := sumZ w in
  let r := if 0 <? sum then 1 + r mod sum else 0 in
  let index := match find (λ i, r - sumZ (take (S i) w) <=? 0) chairs with Some i => S i | None => 0%nat end in
  if (index <? 2)%nat then 2%nat else index.

(** The reads of the scene: the multiples of the bets placed, and while the hands are opened
    the banker's bid as an index into the row of chair [chairId]. *)
Definition bets_read (t : Table) : bool :=
  forallb (λ i, (m_sAddScore t).[i] <? Z.of_nat MAX_JETTON_MUL) (all_players t).

Definition scene_reads (t : Table) : option unit :=
  if m_wGameStatus t =? GAME_STATUS_SCORE then
    _ ← m_wBankerUser t;
    assert (bets_read t)
  else if m_wGameStatus t =? GAME_STATUS_OPEN then
    banker ← m_wBankerUser t;
    let bid := (m_sCallBanker t).[banker] in
    _ ← assert ((0 <=? bid) && (bid <? Z.of_nat MAX_BANKER_MUL));
    assert (bets_read t)
  else Some tt.

(** The scene of a user who comes in or back: an offline user plays on. *)
Definition OnEventGameScene (chairId : nat) (t : Table) : option Table :=
  match GetTableUserItem t chairId with
  | None => Some t
  | Some u =>
      _ ← scene_reads t;
      let t := if bool_decide (userStatus u = sOffline) then SetUserStatus chairId sPlaying t else t in
      Some (t <| m_bPlayerIsOperation ::= <[chairId := true]> |>)
  end.

Definition OnUserEnter (cfg : Config) (d : Draw) (user : Z) (t : Table) : option Table :=
  match find_chair user t with
  | None => Some t
  | Some chairId =>
      t ← (if (GetPlayerCount true t =? 1)%nat then
             _ ← assert (m_isMatch cfg || (GetPlayerCount false t =? 1)%nat);
             Some (t <| MaxGamePlayers := draw_players cfg (d_players d) |> <| totalMatch := 0%nat |>)
           else Some t);
      _ ← (if m_wGameStatus t <? GAME_STATUS_START
           then assert ((MIN_GAME_PLAYER <=? MaxGamePlayers t)%nat && (MaxGamePlayers t <=? GAME_PLAYER)%nat) else Some tt);
      t ← (if m_wGameStatus t =? GAME_STATUS_INIT then Some t else OnEventGameScene chairId t);
      let t :=
        if (m_wGameStatus t <? GAME_STATUS_READY) && (minPlayerNum cfg <=? GetPlayerCount true t)%nat
        then ClearAllTimer t <| m_wGameStatus := GAME_STATUS_READY |> else t in
      let t := if m_wGameStatus t =? GAME_STATUS_LOCK_PLAYING then SetUserStatus chairId sReady t else t in
      if m_wGameStatus t <? GAME_STATUS_START then
        if (MaxGamePlayers t <=? GetPlayerCount true t)%nat then
          _ ← assert (GetPlayerCount true t =? MaxGamePlayers t)%nat;
          GameTimerReadyOver cfg d t
        else if (GetPlayerCount true t =? 1)%nat then
          _ ← assert (m_isMatch cfg || (GetPlayerCount false t =? 1)%nat);
          Some (ClearAllTimer t)
        else Some t
      else Some t
  end.

Definition OnUserLeft (cfg : Config) (user : Z) (t : Table) : bool * Table :=
  if negb (CanLeftTable t user) then (false, t)
  else match find_chair user t with
  | None => (false, t)
  | Some chairID =>
      let leaves := (m_wGameStatus t =? GAME_STATUS_INIT) || (m_wGameStatus t =? GAME_STATUS_READY) ||
        (m_wGameStatus t =? GAME_STATUS_END) || negb (playing t chairID) in
      let t := if leaves then ClearTableUser chairID (SetUserStatus chairID sGetout (t <| m_cbPlayStatus ::= <[chairID := false]> |>)) else t in
      let t :=
        if (m_wGameStatus t =? GAME_STATUS_READY) &&
           (length (filter (λ i, IsExistUser t i = true) chairs) <? minPlayerNum cfg)%nat
        then ClearAllTimer t <| m_wGameStatus := GAME_STATUS_INIT |> else t in
      (leaves, t)
  end.

(** ** The bank *)

(** The best score among [l], which must be above [best]; [None]: no user in a chair. *)
Fixpoint richest (t : Table) (l : list nat) (best : Z) (w : option nat) : option (option nat) :=
  match l with
  | [] => Some w
  | i :: l =>
      user ← GetTableUserItem t i;
      if best <? userScore user then richest t l (userScore user) (Some i) else richest t l best w
  end.


Definition RandBanker (t : Table) : option nat := default 0%nat <$> richest t (all_players t) 0 None.

(** The chairs that bid [k]. *)
Definition callers (t : Table) (k : Z) : list nat :=
  filter (λ i, playing t i = true ∧ (m_sCallBanker t).[i] = k ∧ k ≠ 0) chairs.

(** Those of the highest bid; the one alone or the one with the best score.  Bids above
    four are past the array of the counts. *)
Definition highest_caller (t : Table) : option (option nat) :=
  _ ← assert (forallb (λ i, (m_sCallBanker t).[i] <=? 4) (all_players t));
  match find (λ k, negb (length (callers t k) =? 0)%nat) [4; 3; 2; 1; 0] with
  | None => Some None
  | Some k => match callers t k with [i] => Some (Some i) | l => richest t l 0 None end
  end.

(** The multiples chair [j] may bet. *)
Definition jetton_row (cfg : Config) (callMaxTimes : Z) (row : list Z) : option (list Z) :=
  let len := Z.of_nat (length (jettons cfg)) in
  top ← last (jettons cfg);
  Some ((if top <=? callMaxTimes then map (λ i, (m_cbJettonMultiple cfg).[i]) (seq 0 (MaxJettonMul cfg))
         else if len <=? callMaxTimes then
           map (λ i, if (i =? 0)%nat then 1 else i32 (Z.quot (callMaxTimes * (Z.of_nat i + 1)) len)) (seq 0 (MaxJettonMul cfg))
         else map (λ i, let i := Z.of_nat i + 1 in if i <=? callMaxTimes then i else 0) (seq 0 (MaxJettonMul cfg)))
        ++ drop (MaxJettonMul cfg) row).

Definition jetton_chair (cfg : Config) (wBankerUser : nat) (maxBankerCallTimes : Z) (j : nat) (t : Table) : option Table :=
  if playing t j && negb (j =? wBankerUser)%nat then
    userItem ← GetTableUserItem t j;
    maxPlayerCallTimes ← cdiv (userScore userItem) (floorScore cfg * (m_sCallBanker t).[wBankerUser]);
    let callMaxTimes := if maxBankerCallTimes <? maxPlayerCallTimes then maxBankerCallTimes else maxPlayerCallTimes in
    row ← jetton_row cfg callMaxTimes (rget (m_cbJettonable t) j);
    Some (t <| m_cbJettonable ::= <[j := row]> |>)
  else Some (t <| m_cbJettonable ::= alter (zero_row (MaxJettonMul cfg)) j |>).

(** Everybody has bid: the bank is given and the others may bet. *)
Definition give_bank (cfg : Config) (wTotalCount : Z) (t : Table) : option Table :=
  o ← highest_caller t;
  '(wBankerUser, t) ← match o with
    | Some w => Some (w, t)
    | None => w ← RandBanker t; Some (w, t <| m_sCallBanker ::= <[w := (m_cbBankerMultiple cfg).[0]]> |>)
    end;
  let t := IsTrustee (t <| m_wBankerUser := Some wBankerUser |> <| m_wGameStatus := GAME_STATUS_SCORE |>) in
  bankerItem ← GetTableUserItem t wBankerUser;
  maxBankerCallTimes ← cdiv (userScore bankerItem) (floorScore cfg * (wTotalCount - 1) * (m_sCallBanker t).[wBankerUser]);
  for_each chairs (jetton_chair cfg wBankerUser maxBankerCallTimes) t.

(** The return code and the new table; [4]: the bid counts. *)
Definition OnUserCallBanker (cfg : Config) (wChairID : nat) (wCallFlag : Z) (t : Table) : option (Z * Table) :=
  if negb (-1 =? (m_sCallBanker t).[wChairID]) then Some (1, t)
  else if wCallFlag <? 0 then Some (2, t)
  else if negb (wCallFlag =? 0) && negb (existsb (λ m, m =? wCallFlag) (take (MaxBankerMul cfg) (rget (m_cbCallable t) wChairID))) then Some (3, t)
  else
    let t := t <| m_sCallBanker ::= <[wChairID := wCallFlag]> |> in
    let wTotalCount := length (filter (λ i, (m_sCallBanker t).[i] ≠ -1) (all_players t)) in
    if (wTotalCount =? m_wPlayCount t)%nat then t ← give_bank cfg (Z.of_nat wTotalCount) t; Some (4, t) else Some (4, t).

Definition AutoUserCallBanker (cfg : Config) (t : Table) : option Table :=
  for_each chairs (λ i t, if negb (playing t i) then Some t
                     else if negb ((m_sCallBanker t).[i] =? -1) then Some t
                     else '(_, t) ← OnUserCallBanker cfg i 0 t; Some t) t.

Definition GameTimerCallBanker (cfg : Config) (t : Table) : option Table :=
  AutoUserCallBanker cfg (t <| m_TimerIdCallBanker := false |>).

(** ** The bets *)

(** The weight of a listed player without a user would be read through a null pointer. *)
Definition exchange_hands (cfg : Config) (d : Draw) (t : Table) : option Table :=
  let black_seen i := bget (m_bBlacklist t) i && negb (seated t i) in
  _ ← assert ((m_iBlacklistNum t =? 0)%nat || negb (GetAndroidPlayerCount t =? 0)%nat || negb (existsb black_seen (all_players t)));
  cards ← (if (m_iBlacklistNum t =? 0)%nat then
             AnalyseCardEx (m_cbPlayStatus t) (m_wPlayCount t) (IsAndroidUser t) (GetAndroidPlayerCount t) (m_llStorageControl t)
               (m_llStorageLowerLimit t) (m_llStorageHighLimit t) (systemKillAllRatio cfg) (d_kill d) (d_low d) (d_high d) (m_cbCardData t)
           else
             AnalyseForBlacklist (m_cbPlayStatus t) (m_wPlayCount t) (IsAndroidUser t) (bget (m_bBlacklist t))
               (λ i, match GetTableUserItem t i with Some u => black_weight u | None => 0 end) (GetAndroidPlayerCount t) (d_winner d) (m_cbCardData t));
  Some (t <| m_cbCardData := cards |>).

Definition OnUserAddScore (cfg : Config) (d : Draw) (wChairID : nat) (wJettonIndex : Z) (t : Table) : option (Z * Table) :=
  if bool_decide (m_wBankerUser t = Some wChairID) then Some (1, t)
  else if negb (-1 =? (m_sAddScore t).[wChairID]) then Some (2, t)
  else if (wJettonIndex <? 0) || (Z.of_nat (MaxJettonMul cfg) <=? wJettonIndex) then Some (3, t)
  else if (rget (m_cbJettonable t) wChairID).[Z.to_nat wJettonIndex] <=? 0 then Some (4, t)
  else
    let t := t <| m_sAddScore ::= <[wChairID := wJettonIndex]> |> in
    let wTotalCount := length (filter (λ i, Some i ≠ m_wBankerUser t ∧ (m_sAddScore t).[i] ≠ -1) (all_players t)) in
    if (S wTotalCount =? m_wPlayCount t)%nat then
      t ← exchange_hands cfg d (t <| m_wGameStatus := GAME_STATUS_OPEN |>); Some (4, IsTrustee t)
    else Some (4, t).

Definition AutoUserAddScore (cfg : Config) (d : Draw) (t : Table) : option Table :=
  for_each chairs (λ i t, if negb (playing t i) then Some t
                     else if negb ((m_sAddScore t).[i] =? -1) then Some t
                     else '(_, t) ← OnUserAddScore cfg d i 0 t; Some t) t.

Definition GameTimerAddScore (cfg : Config) (d : Draw) (t : Table) : option Table :=
  AutoUserAddScore cfg d (t <| m_TimerIdAddScore := false |>).

(** ** The end of a round *)

(** What the settlement reads of the table; [None]: no banker, or a player without a bet. *)
Definition round_of (cfg : Config) (t : Table) : option Round :=
  banker ← m_wBankerUser t;
  let bets := filter (λ i, i ≠ banker ∧ seated t i = true) (all_players t) in
  _ ← assert (forallb (λ i, 0 <=? (m_sAddScore t).[i]) bets);
  Some (MkRound (m_cbPlayStatus t) (map (fmap userScore) (seats t)) banker ((m_sCallBanker t).[banker]) (m_dwCellScore cfg)
    (map (λ i, if bool_decide (i ∈ bets) then (rget (m_cbJettonable t) i).[Z.to_nat (m_sAddScore t).[i]] else 0) chairs)
    (m_cbCardData t)).

(** The chairs whose score is written. *)
Definition writes (t : Table) (i : nat) : bool := playing t i && seated t i.

(** A player's part of the second loop and of [WriteUserScore]. *)
Definition settle_chair (cfg : Config) (scores : list Z) (t : Table) (i : nat) : Table :=
  if negb (writes t i) then t
  else
    let t := if bget (m_bPlayerIsOperation t) i then t else t <| m_cbPlayStatus ::= <[i := false]> |> in
    let t := if IsAndroidUser t i then t <| m_llStorageControl ::= λ s, s + scores.[i] |> else t in
    set_user i (λ u, u <| userScore ::= λ s, s + addScore (revenueRatio cfg) scores.[i] |>) t.

(** The last loop: users are ready, those who did nothing are offline. *)
Definition release_chair (t : Table) (i : nat) : Table :=
  match GetTableUserItem t i with
  | None => t
  | Some u =>
      let t := if bool_decide (userStatus u = sOffline) then t else SetUserStatus i sReady t in
      if bget (m_bPlayerIsOperation t) i then t else SetUserStatus i sOffline t
  end.

Definition NormalGameEnd (cfg : Config) (t : Table) : option Table :=
  g ← round_of cfg t;
  scores ← iUserWinScore g;
  _ ← assert (existsb (writes t) chairs);
  Some (foldl release_chair (foldl (settle_chair cfg scores) t chairs) chairs).

Definition OnEventGameConclude (cfg : Config) (d : Draw) (t : Table) : option Table :=
  t ← NormalGameEnd cfg (ClearAllTimer t);
  Some (IsTrustee (t <| m_bContinueServer := d_continue d |> <| m_wGameStatus := GAME_STATUS_END |>)).

Definition OnUserOpenCard (cfg : Config) (d : Draw) (wChairID : nat) (t : Table) : option (Z * Table) :=
  if negb (-1 =? (m_sCardType t).[wChairID]) then Some (1, t)
  else
    let h := rget (m_cbCardData t) wChairID in
    let t := t <| m_sCardType ::= <[wChairID := GetCardType h]> |> <| m_iMultiple ::= <[wChairID := GetMultiple h]> |>
               <| m_cbOXCard ::= <[wChairID := snd (GetOxCard h)]> |> in
    let wTotalCount := length (filter (λ i, (m_sCardType t).[i] ≠ -1) (all_players t)) in
    if (wTotalCount =? m_wPlayCount t)%nat then t ← OnEventGameConclude cfg d t; Some (10, t) else Some (12, t).

Definition AutoUserOpenCard (cfg : Config) (d : Draw) (t : Table) : option Table :=
  for_each chairs (λ i t, if negb (playing t i) then Some t
                     else if negb ((m_sCardType t).[i] =? -1) then Some t
                     else '(_, t) ← OnUserOpenCard cfg d i t; Some t) t.

Definition GameTimerOpenCard (cfg : Config) (d : Draw) (t : Table) : option Table :=
  AutoUserOpenCard cfg d (t <| m_TimerIdOpenCard := false |>).

Definition GameTimerEnd (t : Table) : Table :=
  let t := t <| m_TimerIdEnd := false |> in
  let clear t := foldl (λ t i, if seated t i then ClearTableUser i (SetUserStatus i sOffline t) else t) t chairs in
  if negb (m_bContinueServer t) then clear t
  else InitGameData (clear t <| m_wGameStatus := GAME_STATUS_INIT |>).

(** ** Messages and events *)

Inductive Msg :=
  | CALL_BANKER (cbcallflag : Z)
  | ADD_SCORE (cbjettonindex : Z)
  | OPEN_CARD
  | OTHER.

(** A result of a handler that is told to the client: the code is above 0. *)
Definition told (o : option (Z * Table)) (chair : nat) : option (bool * Table) :=
  '(wRtn, t) ← o; Some (0 <? wRtn, t <| m_bPlayerIsOperation ::= <[chair := true]> |>).

(** Chair 4 passes the test of the chair and is past the arrays. *)
Definition OnGameMessage (cfg : Config) (d : Draw) (wChairID : nat) (m : Msg) (t : Table) : option (bool * Table) :=
  if (4 <? wChairID)%nat then Some (true, t)
  else match m with
  | CALL_BANKER flag =>
      if negb (m_wGameStatus t =? GAME_STATUS_CALL) then Some (false, t)
      else _ ← assert (wChairID <? GAME_PLAYER)%nat;
        if negb (playing t wChairID) then Some (false, t) else told (OnUserCallBanker cfg wChairID flag t) wChairID
  | ADD_SCORE index =>
      if negb (m_wGameStatus t =? GAME_STATUS_SCORE) then Some (false, t)
      else _ ← assert (wChairID <? GAME_PLAYER)%nat;
        if negb (playing t wChairID) then Some (false, t) else told (OnUserAddScore cfg d wChairID index t) wChairID
  | OPEN_CARD =>
      _ ← assert (wChairID <? GAME_PLAYER)%nat;
      let t := t <| m_bPlayerIsOperation ::= <[wChairID := true]> |> in
      if negb (m_wGameStatus t =? GAME_STATUS_OPEN) then Some (false, t)
      else if negb (playing t wChairID) then Some (false, t)
      else '(wRtn, t) ← OnUserOpenCard cfg d wChairID t; Some (0 <? wRtn, t)
  | OTHER => Some (true, t)
  end.

(** What reaches the table through the frame.  [ESit]: a new user takes a free chair, when
    the table lets him join or is taken from the free tables; a robot only where a real
    user sits.  [EReturn]: a seated real user comes back.  The timer of the waiting may fire at
    any time, the others when they are set. *)
Inductive Event :=
  | ESit (u : User) (chair : nat)
  | EReturn (user : Z)
  | ELeave (user : Z)
  | EOffline (user : Z)
  | EMessage (chair : nat) (m : Msg)
  | TReady | TCall | TScore | TOpen | TEnd.

Definition may_sit (u : User) (chair : nat) (t : Table) : option bool :=
  if negb (chair <? GAME_PLAYER)%nat || seated t chair || bool_decide (is_Some (find_chair (userId u) t)) || (userId u <=? 0) then Some false
  else if android u then
    if (GetPlayerCount false t =? 0)%nat then Some false else CanJoinTable t (-1)
  else if used t then CanJoinTable t (userId u) else Some true.

Definition exec (cfg : Config) (d : Draw) (e : Event) (t : Table) : option Table :=
  match e with
  | ESit u chair =>
      ok ← may_sit u chair t;
      if ok : bool then OnUserEnter cfg d (userId u) (t <| seats ::= <[chair := Some (u <| userStatus := sSit |>)]> |> <| used := true |>) else Some t
  | EReturn user =>
      match find_chair user t with
      | None => Some t
      | Some i =>
          if IsAndroidUser t i then Some t
          else ok ← CanJoinTable t user; if ok : bool then OnUserEnter cfg d user t else Some t
      end
  | ELeave user =>
      match find_chair user t with
      | None => Some t
      | Some i => Some (if CanLeftTable t user then snd (OnUserLeft cfg user (SetUserStatus i sOffline t)) else t)
      end
  | EOffline user =>
      match find_chair user t with
      | None => Some t
      | Some i => Some (snd (OnUserLeft cfg user (SetUserStatus i sOffline t)))
      end
  | EMessage chair m => if seated t chair then snd <$> OnGameMessage cfg d chair m t else Some t
  | TReady => OnTimerGameReadyOver cfg d t
  | TCall => if m_TimerIdCallBanker t then GameTimerCallBanker cfg t else Some t
  | TScore => if m_TimerIdAddScore t then GameTimerAddScore cfg d t else Some t
  | TOpen => if m_TimerIdOpenCard t then GameTimerOpenCard cfg d t else Some t
  | TEnd => if m_TimerIdEnd t then Some (GameTimerEnd t) else Some t
  end.
