(* ===== verification/BullInv.v ===== *)
(** Grab the banker, the invariant of the table: in every phase of a round the seats, the
    players, their hands, bids and bets fit together, and the timer of the phase is set. *)
From Stdlib Require Import ZArith Lia.
From S2P Require Import Prelude GameDefine Cards BullLogic BullDeal BullSettle BullTable.
From stdpp Require Import base numbers sorting sets option list.

#[local] Open Scope Z_scope.

(** ** Loops and seats *)

Lemma for_each_cons i l f t : for_each (i :: l) f t = f i t ≫= for_each l f.
Proof.
  unfold for_each. simpl. destruct (f i t) as [t'|]; simpl; [done|]. by induction l.
Qed.

Lemma item_set_user i g t j : GetTableUserItem (set_user i g t) j =
  if decide (i = j) then g <$> GetTableUserItem t j else GetTableUserItem t j.
Proof.
  unfold GetTableUserItem, set_user. simpl. rewrite list_lookup_alter. destruct (decide (i = j)) as [He|]; [|done].
  subst j. by destruct (seats t !! i) as [[]|].
Qed.

Lemma item_ClearTableUser i t j : GetTableUserItem (ClearTableUser i t) j =
  match GetTableUserItem t j with
  | Some u => if decide (i = j ∧ userStatus u ≠ sPlaying) then None else Some u
  | None => None
  end.
Proof.
  unfold ClearTableUser. destruct (GetTableUserItem t i) as [u|] eqn:Ei.
  - case_bool_decide as Hp.
    + destruct (GetTableUserItem t j) as [v|] eqn:Ej; [|done]. rewrite decide_False; [done|]. intros [-> Hv]. congruence.
    + unfold GetTableUserItem in *. simpl. destruct (decide (i = j)) as [->|Hne].
      * destruct (seats t !! j) as [o|] eqn:E; [|done]. rewrite list_lookup_insert_eq by (by eapply lookup_lt_Some).
        simpl in *. rewrite Ei. by rewrite decide_True.
      * rewrite list_lookup_insert_ne by done. destruct (mjoin (seats t !! j)); [|done]. by rewrite decide_False by (intros []; done).
  - destruct (GetTableUserItem t j) as [v|] eqn:Ej; [|done]. rewrite decide_False; [done|]. intros [-> _]. congruence.
Qed.

Definition score_of (t : Table) (i : nat) : Z := match GetTableUserItem t i with Some u => userScore u | None => 0 end.

Lemma seated_spec t i : seated t i = true ↔ ∃ u, GetTableUserItem t i = Some u.
Proof. unfold seated. rewrite bool_decide_eq_true. done. Qed.

Lemma seated_chairs t i : length (seats t) = GAME_PLAYER → seated t i = true → i ∈ chairs.
Proof.
  intros Hl [u Hu]%seated_spec. unfold GetTableUserItem in Hu. destruct (seats t !! i) eqn:E; [|done].
  apply lookup_lt_Some in E. apply elem_of_seq. unfold GAME_PLAYER in *. lia.
Qed.

(** The chairs with a user. *)
Definition guests (t : Table) : list nat := filter (λ i, seated t i = true) chairs.

Lemma count_guests t : GetPlayerCount true t = length (guests t).
Proof.
  unfold GetPlayerCount, guests. f_equal. apply list_filter_iff. intros i. unfold seated.
  by destruct (GetTableUserItem t i).
Qed.

Lemma elem_guests t i : i ∈ guests t ↔ i ∈ chairs ∧ seated t i = true.
Proof. unfold guests. rewrite list_elem_of_filter. tauto. Qed.

Lemma guests_four t : (length (guests t) <= 4)%nat.
Proof. unfold guests. etransitivity; [apply length_filter|]. done. Qed.

Lemma guests_ext t t' : (∀ i, seated t i = seated t' i) → guests t = guests t'.
Proof. intros H. apply list_filter_iff. intros i. by rewrite H. Qed.

(** ** Configurations *)

(** A room: every player can pay four times the base score, the multiples are positive, two
    players are enough. *)
Record config_ok (cfg : Config) : Prop := {
  ok_floor : 0 < floorScore cfg < 134217728;
  ok_enter : 4 * floorScore cfg <= enterMinScore cfg;
  ok_jettons : (0 < length (jettons cfg) <= 6)%nat;
  ok_multiples : Forall (λ m, 0 < m < 33554432) (jettons cfg);
  ok_min : minPlayerNum cfg = 2%nat;
  ok_revenue : 0 <= revenueRatio cfg <= 100
}.

Section Inv.
Context (cfg : Config).

(** ** The phases *)

(** What holds from the deal to the settlement: exactly the users in the chairs play. *)
Record Phase (t : Table) : Prop := {
  ph_used : used t = true;
  ph_seats : length (seats t) = GAME_PLAYER;
  ph_status : length (m_cbPlayStatus t) = GAME_PLAYER;
  ph_calls : length (m_sCallBanker t) = GAME_PLAYER;
  ph_adds : length (m_sAddScore t) = GAME_PLAYER;
  ph_types : length (m_sCardType t) = GAME_PLAYER;
  ph_callable : length (m_cbCallable t) = GAME_PLAYER;
  ph_jettonable : length (m_cbJettonable t) = GAME_PLAYER;
  ph_play : ∀ i, playing t i = seated t i;
  ph_two : (2 <= m_wPlayCount t)%nat;
  ph_score : ∀ i, i ∈ all_players t → enterMinScore cfg <= score_of t i <= 1073741824;
  ph_dealt : dealt (m_cbPlayStatus t) (m_wPlayCount t) (m_cbCardData t);
  ph_ids : ∀ i u, GetTableUserItem t i = Some u → 0 < userId u
}.

Definition timers (c s o e : bool) (t : Table) : Prop :=
  m_TimerIdCallBanker t = c ∧ m_TimerIdAddScore t = s ∧ m_TimerIdOpenCard t = o ∧ m_TimerIdEnd t = e.

(** A bid of [c] is covered by the score of chair [i]. *)
Definition covered (t : Table) (i : nat) (c : Z) : Prop :=
  c <= 4 ∧ (0 < c → floorScore cfg * (Z.of_nat (m_wPlayCount t) - 1) * c <= score_of t i).

(** The bids: the flag is the timer's. *)
Record Calling (timer : bool) (t : Table) : Prop := {
  ca_status : m_wGameStatus t = GAME_STATUS_CALL;
  ca_phase : Phase t;
  ca_timers : timers timer false false false t;
  ca_rows : ∀ i, i ∈ all_players t → Forall (covered t i) (take (MaxBankerMul cfg) (rget (m_cbCallable t) i));
  ca_bids : ∀ i, i ∈ all_players t → -1 <= (m_sCallBanker t).[i] ∧ covered t i (m_sCallBanker t).[i];
  ca_open : ∃ i, i ∈ all_players t ∧ (m_sCallBanker t).[i] = -1;
  ca_adds : ∀ i, (i < 4)%nat → (m_sAddScore t).[i] = -1;
  ca_types : ∀ i, (i < 4)%nat → (m_sCardType t).[i] = -1
}.

Definition row_ok (row : list Z) : Prop := 0 < row.[0] ∧ ∀ k, (k < MaxJettonMul cfg)%nat → 0 <= row.[k] < 268435456.

(** Chair [b] has the bank; every other player has a bet he may place. *)
Record Bank (t : Table) (b : nat) : Prop := {
  ba_user : m_wBankerUser t = Some b;
  ba_plays : b ∈ all_players t;
  ba_call : 1 <= (m_sCallBanker t).[b] <= 4;
  ba_add : (m_sAddScore t).[b] = -1;
  ba_rows : ∀ j, j ∈ all_players t → j ≠ b → row_ok (rget (m_cbJettonable t) j)
}.

Definition bet_ok (c : Z) : Prop := 0 <= c < Z.of_nat (MaxJettonMul cfg).

Record Betting (timer : bool) (t : Table) : Prop := {
  be_status : m_wGameStatus t = GAME_STATUS_SCORE;
  be_phase : Phase t;
  be_timers : timers false timer false false t;
  be_calls : ∀ i, i ∈ all_players t → (m_sCallBanker t).[i] ≠ -1;
  be_types : ∀ i, (i < 4)%nat → (m_sCardType t).[i] = -1;
  be_bank : ∃ b, Bank t b ∧ (∀ j, j ∈ all_players t → j ≠ b → (m_sAddScore t).[j] = -1 ∨ bet_ok (m_sAddScore t).[j]) ∧
    (∃ j, j ∈ all_players t ∧ j ≠ b ∧ (m_sAddScore t).[j] = -1)
}.

Record Opening (timer : bool) (t : Table) : Prop := {
  op_status : m_wGameStatus t = GAME_STATUS_OPEN;
  op_phase : Phase t;
  op_timers : timers false false timer false t;
  op_bank : ∃ b, Bank t b ∧ (∀ j, j ∈ all_players t → j ≠ b → bet_ok (m_sAddScore t).[j]);
  op_open : ∃ i, i ∈ all_players t ∧ (m_sCardType t).[i] = -1
}.

(** The end: the timer clears the table, once the server has not stopped. *)
Record Ending (t : Table) : Prop := {
  en_status : m_wGameStatus t = GAME_STATUS_END;
  en_used : used t = true;
  en_seats : length (seats t) = GAME_PLAYER;
  en_rows : length (m_cbCallable t) = GAME_PLAYER ∧ length (m_cbJettonable t) = GAME_PLAYER;
  en_timers : (timers false false false true t) ∨ (timers false false false false t ∧ m_bContinueServer t = false ∧ ∀ i, seated t i = false)
}.

(** A user who waits neither plays nor is offline. *)
Definition idle (u : User) : Prop := userStatus u ≠ sPlaying ∧ userStatus u ≠ sOffline.

(** Users wait; [full] allows as many as the table is for. *)
Record Lobby (t : Table) : Prop := {
  lo_status : m_wGameStatus t = GAME_STATUS_INIT ∨ m_wGameStatus t = GAME_STATUS_READY;
  lo_seats : length (seats t) = GAME_PLAYER;
  lo_play : length (m_cbPlayStatus t) = GAME_PLAYER ∧ ∀ i, playing t i = false;
  lo_rows : length (m_cbCallable t) = GAME_PLAYER ∧ length (m_cbJettonable t) = GAME_PLAYER;
  lo_users : ∀ i u, GetTableUserItem t i = Some u → idle u ∧ 0 <= userScore u <= 1073741824 ∧ 0 < userId u;
  lo_timers : timers false false false false t;
  lo_used : used t = false → ∀ i, seated t i = false
}.

Record Waiting (t : Table) : Prop := {
  wa_lobby : Lobby t;
  wa_count : guests t = [] ∨ (2 <= MaxGamePlayers t <= 4)%nat ∧ (length (guests t) < MaxGamePlayers t)%nat
}.

Definition Inv (t : Table) : Prop :=
  Waiting t ∨ Calling true t ∨ Betting true t ∨ Opening true t ∨ Ending t.

End Inv.
