(* ===== verification/BullStart.v ===== *)
(** Grab the banker, the start of a round: the check of the users in the chairs, the deal
    of the shuffled pack, the bids each player may make. *)
From Stdlib Require Import ZArith Lia.
From S2P Require Import Prelude GameDefine Cards BullLogic BullDeal BullSettle BullTable BullInv.
From stdpp Require Import base numbers sorting sets option list.

#[local] Open Scope Z_scope.

Lemma same_seats t : t <| seats := seats t |> = t.
Proof. by destruct t. Qed.

Lemma seated_item t i : seated t i = match GetTableUserItem t i with Some _ => true | None => false end.
Proof. unfold seated. by destruct (GetTableUserItem t i). Qed.

Lemma item_seats t t' i : seats t = seats t' → GetTableUserItem t i = GetTableUserItem t' i.
Proof. unfold GetTableUserItem. by intros ->. Qed.

(** ** The users who stay *)

Section Start.
Context (cfg : Config).

Definition kept (u : User) : bool := negb (bool_decide (userStatus u = sOffline)) && negb (userScore u <? enterMinScore cfg).

Lemma check_chair_spec n t i : (∀ j u, GetTableUserItem t j = Some u → userStatus u ≠ sPlaying) →
  ∃ s, check_chair cfg (n, t) i = ((if seated (t <| seats := s |>) i then S n else n), t <| seats := s |>) ∧
    length s = length (seats t) ∧
    ∀ j, GetTableUserItem (t <| seats := s |>) j =
      if decide (i = j) then (u ← GetTableUserItem t j; if kept u then Some u else None) else GetTableUserItem t j.
Proof.
  intros Hnp. unfold check_chair.
  assert (∀ i t, ∃ s, ClearTableUser i t = t <| seats := s |> ∧ length s = length (seats t)) as Hclear.
  { clear. intros i t. unfold ClearTableUser. destruct (GetTableUserItem t i); [|by exists (seats t); rewrite same_seats].
    case_bool_decide; [by exists (seats t); rewrite same_seats|]. exists (<[i := None]> (seats t)). split; [done|]. by rewrite length_insert. }
  destruct (GetTableUserItem t i) as [u|] eqn:Ei.
  2:{ exists (seats t). rewrite same_seats, seated_item, Ei. split; [done|]. split; [done|]. intros j.
      destruct (decide (i = j)) as [<-|]; [by rewrite Ei|done]. }
  assert (∀ t1 s, ClearTableUser i t1 = t <| seats := s |> → (∀ j, GetTableUserItem t1 j = GetTableUserItem t j ∨ i = j) →
    (∃ v, GetTableUserItem t1 i = Some v ∧ userStatus v ≠ sPlaying) →
    ∀ j, GetTableUserItem (t <| seats := s |>) j = if decide (i = j) then None else GetTableUserItem t j) as Hafter.
  { intros t1 s E H1 (v & Hv & Hs) j. rewrite <- E, item_ClearTableUser. destruct (decide (i = j)) as [<-|Hne].
    - by rewrite Hv, decide_True.
    - destruct (H1 j) as [->|?]; [|done]. destruct (GetTableUserItem t j); [|done]. by rewrite decide_False by (intros []; done). }
  unfold kept. case_bool_decide as Ho.
  - destruct (Hclear i t) as (s & E & Hl). exists s. rewrite E.
    pose proof (Hafter t s E ltac:(by left) ltac:(exists u; rewrite Ei; split; [done|congruence])) as Hj.
    rewrite seated_item, Hj, decide_True by done. split; [done|]. split; [done|]. intros j. rewrite Hj.
    destruct (decide (i = j)) as [<-|]; [|done]. rewrite Ei. simpl. by rewrite bool_decide_true.
  - destruct (userScore u <? enterMinScore cfg) eqn:Es.
    + destruct (Hclear i (SetUserStatus i sOffline t)) as (s & E & Hl). exists s. rewrite E.
      change (SetUserStatus i sOffline t <| seats := s |>) with (t <| seats := s |>) in E |- *.
      assert (∀ j, GetTableUserItem (SetUserStatus i sOffline t) j = GetTableUserItem t j ∨ i = j) as H1.
      { intros j. unfold SetUserStatus. rewrite item_set_user. destruct (decide (i = j)); auto. }
      assert (∃ v, GetTableUserItem (SetUserStatus i sOffline t) i = Some v ∧ userStatus v ≠ sPlaying) as H2.
      { unfold SetUserStatus. rewrite item_set_user, decide_True, Ei by done. simpl. eexists. split; [done|]. done. }
      pose proof (Hafter _ s E H1 H2) as Hj.
      rewrite seated_item, Hj, decide_True by done. split; [done|].
      split; [rewrite Hl; simpl; apply length_alter|]. intros j. rewrite Hj.
      destruct (decide (i = j)) as [<-|]; [|done]. rewrite Ei. simpl. by rewrite Es, andb_false_r.
    + exists (seats t). rewrite same_seats, seated_item, Ei. split; [done|]. split; [done|]. intros j.
      destruct (decide (i = j)) as [<-|]; [|done]. rewrite Ei. simpl. by rewrite bool_decide_false, Es by done.
Qed.

Lemma check_loop l n t : NoDup l → (∀ j u, GetTableUserItem t j = Some u → userStatus u ≠ sPlaying) →
  ∃ s, foldl (check_chair cfg) (n, t) l = ((length (filter (λ i, seated (t <| seats := s |>) i = true) l) + n)%nat, t <| seats := s |>) ∧
    length s = length (seats t) ∧
    ∀ j, GetTableUserItem (t <| seats := s |>) j =
      if decide (j ∈ l) then (u ← GetTableUserItem t j; if kept u then Some u else None) else GetTableUserItem t j.
Proof.
  revert n t. induction l as [|i l IH]; intros n t Hnd Hnp.
  { exists (seats t). rewrite same_seats. split; [done|]. split; [done|]. intros j. rewrite decide_False; [done|apply not_elem_of_nil]. }
  apply NoDup_cons in Hnd as [Hi Hnd]. cbn [foldl].
  destruct (check_chair_spec n t i Hnp) as (s1 & -> & Hl1 & Hj1).
  destruct (IH (if seated (t <| seats := s1 |>) i then S n else n) (t <| seats := s1 |>) Hnd) as (s & E & Hl & Hj).
  { intros j u. rewrite Hj1. destruct (decide (i = j)) as [<-|]; [|apply Hnp].
    destruct (GetTableUserItem t i) as [v|] eqn:Ev; [|done]. simpl. destruct (kept v); [|done]. intros [= <-]. by eapply Hnp. }
  change (t <| seats := s1 |> <| seats := s |>) with (t <| seats := s |>) in E, Hj.
  exists s. split; [|split; [by rewrite Hl|]].
  - rewrite E. f_equal. rewrite filter_cons.
    assert (seated (t <| seats := s |>) i = seated (t <| seats := s1 |>) i) as ->.
    { rewrite !seated_item, Hj. by destruct (decide (i ∈ l)). }
    destruct (seated (t <| seats := s1 |>) i); simpl; [lia|done].
  - intros j. rewrite Hj, Hj1. destruct (decide (i = j)) as [<-|Hne].
    + rewrite decide_False by done. by rewrite decide_True by (by left).
    + destruct (decide (j ∈ l)); [rewrite decide_True by (by right); done|].
      rewrite decide_False; [done|]. intros [?|?]%elem_of_cons; congruence.
Qed.

End Start.

(** ** The users who play *)

Definition set_all (s : eUserStatus) (t : Table) : Table := t <| seats ::= map (fmap (λ u, u <| userStatus := s |>)) |>.

Ltac four_seats t :=
  destruct t; simpl in *;
  repeat match goal with H : length ?l = GAME_PLAYER |- _ =>
    destruct l as [|? [|? [|? [|? [|]]]]]; try discriminate H; clear H end.

Lemma set_loop s t : length (seats t) = GAME_PLAYER → foldl (λ t i, SetUserStatus i s t) t chairs = set_all s t.
Proof. intros Hl. four_seats t. reflexivity. Qed.

Definition enter_all (t : Table) : Table :=
  set_all sPlaying t <| m_cbPlayStatus := map (seated t) chairs |> <| m_wPlayCount ::= Nat.add (length (guests t)) |>.

Lemma enter_loop t : length (seats t) = GAME_PLAYER → length (m_cbPlayStatus t) = GAME_PLAYER →
  foldl enter_chair t chairs = enter_all t.
Proof.
  intros H1 H2. four_seats t.
  repeat match goal with u : option User |- _ => destruct u end; reflexivity.
Qed.

Lemma item_set_all s t i : GetTableUserItem (set_all s t) i = (λ u, u <| userStatus := s |>) <$> GetTableUserItem t i.
Proof.
  unfold GetTableUserItem. simpl. rewrite (list_lookup_fmap (fmap _) (seats t) i). by destruct (seats t !! i) as [[]|].
Qed.

Lemma seated_set_all s t i : seated (set_all s t) i = seated t i.
Proof. rewrite !seated_item, item_set_all. by destruct (GetTableUserItem t i). Qed.

(** ** The deal *)

Definition slice (d : Draw) (k : nat) : list Z := take MAX_COUNT (drop k (d_deck d)).

Section Deal.
Context (d : Draw) (Hdeck : d_deck d ≡ₚ m_byCardDataArray).

Lemma deck_NoDup : NoDup (d_deck d).
Proof. rewrite Hdeck. by_decide. Qed.

Lemma deck_length : length (d_deck d) = MAX_CARD_TOTAL.
Proof. by rewrite Hdeck. Qed.

Lemma elem_of_slice k c : c ∈ slice d k → ∃ n, (k <= n < k + MAX_COUNT)%nat ∧ d_deck d !! n = Some c.
Proof.
  intros [n Hn]%list_elem_of_lookup. unfold slice in Hn. apply lookup_take_Some in Hn as [Hn Hlt].
  rewrite lookup_drop in Hn. exists (k + n)%nat. split; [lia|done].
Qed.

Lemma slice_hand k : (k + MAX_COUNT <= MAX_CARD_TOTAL)%nat → hand (slice d k).
Proof.
  intros Hk. unfold hand, slice. split; [rewrite length_take, length_drop, deck_length; unfold MAX_COUNT, MAX_CARD_TOTAL in *; lia|]. split.
  - apply Forall_forall. intros c Hc. apply elem_of_slice in Hc as (n & _ & Hn). rewrite <- Hdeck. by eapply list_elem_of_lookup_2.
  - pose proof deck_NoDup as H. rewrite <- (take_drop k (d_deck d)) in H. apply NoDup_app in H as (_ & _ & H).
    rewrite <- (take_drop MAX_COUNT (drop k (d_deck d))) in H. by apply NoDup_app in H as (H & _ & _).
Qed.

Lemma slices_disjoint k k' c : (k + MAX_COUNT <= k' ∨ k' + MAX_COUNT <= k)%nat → c ∈ slice d k → c ∉ slice d k'.
Proof.
  intros Hk (n & Hn & E)%elem_of_slice (n' & Hn' & E')%elem_of_slice.
  pose proof (NoDup_lookup _ _ _ _ deck_NoDup E E'). lia.
Qed.

Lemma slices_hands k k' : (k + MAX_COUNT <= MAX_CARD_TOTAL)%nat → (k' + MAX_COUNT <= MAX_CARD_TOTAL)%nat →
  (k + MAX_COUNT <= k' ∨ k' + MAX_COUNT <= k)%nat → two_hands (slice d k) (slice d k').
Proof.
  intros. split; [by apply slice_hand|]. split; [by apply slice_hand|]. intros c Hc Hc'. by eapply slices_disjoint.
Qed.

Definition dealing (t : Table) (l : list nat) : list nat := filter (λ i, playing t i = true) l.

#[local] Opaque MAX_COUNT.

Lemma deal_loop l count t : NoDup l → (∀ i, i ∈ l → (i < length (m_cbCardData t))%nat) →
  (∀ i, playing t i = true → seated t i = true) → (MAX_COUNT * length (dealing t l) <= count)%nat →
  ∃ cards bl nb (k : nat → nat), foldl (λ o i, s ← o; deal_chair d i s) (Some (count, t)) l =
      Some ((count - MAX_COUNT * length (dealing t l))%nat, t <| m_cbCardData := cards |> <| m_bBlacklist := bl |> <| m_iBlacklistNum := nb |>) ∧
    length cards = length (m_cbCardData t) ∧
    (∀ i, i ∈ dealing t l → cards !! i = Some (slice d (k i)) ∧ (k i + MAX_COUNT <= count)%nat) ∧
    (∀ i j, i ∈ dealing t l → j ∈ dealing t l → i ≠ j → (k i + MAX_COUNT <= k j ∨ k j + MAX_COUNT <= k i)%nat) ∧
    (∀ i, i ∉ dealing t l → cards !! i = m_cbCardData t !! i).
Proof.
  revert count t. induction l as [|i l IH]; intros count t Hnd Hin Hseat Hc.
  { exists (m_cbCardData t), (m_bBlacklist t), (m_iBlacklistNum t), id. simpl. rewrite Nat.sub_0_r.
    split; [by destruct t|]. split; [done|]. split_and!; intros; try done; set_solver. }
  apply NoDup_cons in Hnd as [Hi Hnd]. cbn [foldl]. unfold dealing in *. rewrite filter_cons in *.
  unfold deal_chair at 2. cbn [mbind option_bind]. destruct (playing t i) eqn:Ep; simpl.
  2:{ simpl in Hc. apply IH; auto. intros j Hj. apply Hin. by right. }
  simpl in Hc. destruct (proj1 (seated_spec t i) (Hseat i Ep)) as [u ->]. simpl.
  set (b := (black_status u =? 1) && _).
  match goal with |- context [foldl _ (Some (_, ?x)) l] => set (t1 := x) end.
  destruct (IH (count - MAX_COUNT)%nat t1 Hnd) as (cards & bl & nb & k & E & Hl & Hk & Hdis & Hout).
  { intros j Hj. simpl. rewrite length_insert. apply Hin. by right. } { done. }
  { change (filter (λ i, playing t1 i = true) l) with (filter (λ i, playing t i = true) l). lia. }
  change (filter (λ i, playing t1 i = true) l) with (filter (λ i, playing t i = true) l) in *.
  set (ps := filter (λ i, playing t i = true) l) in *. assert (i ∉ ps) as Hips by (unfold ps; rewrite list_elem_of_filter; tauto).
  exists cards, bl, nb, (λ j, if decide (j = i) then (count - MAX_COUNT)%nat else k j). split; [|split; [|split; [|split]]].
  - rewrite E. f_equal. f_equal. unfold ps. simpl. lia.
  - rewrite Hl. simpl. apply length_insert.
  - intros j [->|Hj]%elem_of_cons.
    + rewrite decide_True, Hout by done. simpl. rewrite list_lookup_insert_eq by (apply Hin; by left).
      split; [done|]. lia.
    + rewrite decide_False by (by intros ->). destruct (Hk j Hj). split; [done|lia].
  - intros j j' Hj Hj' Hne. apply elem_of_cons in Hj, Hj'.
    destruct (decide (j = i)) as [->|H1], (decide (j' = i)) as [->|H2]; try done.
    + destruct Hj' as [?|Hj']; [done|]. destruct (Hk j' Hj'). lia.
    + destruct Hj as [?|Hj]; [done|]. destruct (Hk j Hj). lia.
    + destruct Hj, Hj'; try done. by apply Hdis.
  - intros j [Hji Hj]%not_elem_of_cons. rewrite Hout by done. simpl. by rewrite list_lookup_insert_ne by done.
Qed.

#[local] Transparent MAX_COUNT.

(** The players hold hands of one pack. *)
Lemma deal_spec t : length (m_cbPlayStatus t) = GAME_PLAYER → (∀ i, playing t i = true → seated t i = true) →
  ∃ cards bl nb, deal d t = Some (t <| m_cbCardData := cards |> <| m_bBlacklist := bl |> <| m_iBlacklistNum := nb |>) ∧
    dealt (m_cbPlayStatus t) (length (all_players t)) cards.
Proof.
  intros Hl Hs. destruct (deal_loop chairs MAX_CARD_TOTAL (t <| m_cbCardData := four (replicate MAX_COUNT 0) |>)) as (cards & bl & nb & k & E & Hlc & Hk & Hdis & _).
  { apply NoDup_seq. } { intros i Hi%elem_of_seq. simpl. unfold GAME_PLAYER in *. lia. } { done. }
  { unfold dealing. assert (∀ t, length (filter (λ i, playing t i = true) chairs) <= 4)%nat as H by (intros; etransitivity; [apply length_filter|done]).
    unfold MAX_COUNT, MAX_CARD_TOTAL. specialize (H (t <| m_cbCardData := four (replicate 5 0) |>)). lia. }
  exists cards, bl, nb. unfold deal. rewrite E. split; [done|]. split; [done|]. split; [by rewrite Hlc|].
  intros i j Hi Hj Hij. destruct (Hk i Hi) as [Ei Hki], (Hk j Hj) as [Ej Hkj]. unfold rget. rewrite Ei, Ej. simpl.
  apply slices_hands; [done..|]. by apply Hdis.
Qed.

End Deal.

(** ** The bids a player may make *)

Section Call.
Context (cfg : Config) (Hcfg : config_ok cfg).

Definition bid_ok (n score m : Z) : Prop := m <= 4 ∧ (0 < m → floorScore cfg * (n - 1) * m <= score).

Lemma callable_row_ok n score row : 2 <= n <= 4 → 4 * floorScore cfg <= score →
  ∃ r, callable_row cfg n score row = Some r ∧ Forall (bid_ok n score) (take (MaxBankerMul cfg) r).
Proof.
  intros Hn Hs. pose proof (ok_floor cfg Hcfg) as Hf. unfold callable_row, cdiv.
  rewrite (proj2 (Z.eqb_neq (floorScore cfg * 8 * (n - 1)) 0)) by nia. cbn [mbind option_bind].
  rewrite Z.quot_div_nonneg by nia. set (q := score / _).
  assert (floorScore cfg * 8 * (n - 1) * q <= score) as Hq by (apply Z.mul_div_le; nia).
  eexists. split; [done|]. rewrite take_app_length' by (by rewrite length_map, length_seq).
  apply Forall_fmap, Forall_forall. intros j Hj%elem_of_seq. simpl.
  assert (1 <= (m_cbBankerMultiple cfg).[j] <= 4 ∧ (j = 0%nat → (m_cbBankerMultiple cfg).[j] = 1)) as [Hm H0].
  { unfold m_cbBankerMultiple, MaxBankerMul, MAX_BANKER_MUL in *.
    destruct (m_isMatch cfg); do 4 (destruct j as [|j]; [unfold aget; simpl; lia|]); lia. }
  set (m := aget _ _) in *. clearbody m. unfold bid_ok. destruct (Nat.eqb_spec j 0) as [->|].
  - rewrite H0 by done. split; [lia|]. intros _. nia.
  - destruct (Z.leb_spec m q); [|lia]. split; [lia|]. intros _.
    assert (floorScore cfg * (n - 1) * m <= floorScore cfg * (n - 1) * q) by (apply Z.mul_le_mono_nonneg_l; nia). nia.
Qed.

Lemma call_loop l n t : NoDup l → 2 <= n <= 4 → (∀ i, i ∈ l → (i < length (m_cbCallable t))%nat) →
  (∀ i, playing t i = true → seated t i = true ∧ 4 * floorScore cfg <= score_of t i) →
  ∃ rows, for_each l (call_chair cfg n) t = Some (t <| m_cbCallable := rows |>) ∧ length rows = length (m_cbCallable t) ∧
    (∀ i, i ∈ l → playing t i = true → Forall (bid_ok n (score_of t i)) (take (MaxBankerMul cfg) (rget rows i))) ∧
    (∀ i, i ∉ l → rows !! i = m_cbCallable t !! i).
Proof.
  intros Hnd Hn. revert t. induction l as [|i l IH]; intros t Hin Hs.
  { exists (m_cbCallable t). split; [by destruct t|]. split; [done|]. split; [|done]. intros i Hi. by apply elem_of_nil in Hi. }
  apply NoDup_cons in Hnd as [Hi Hnd]. rewrite for_each_cons.
  assert (i < length (m_cbCallable t))%nat as Hlt by (apply Hin; by left).
  destruct (playing t i) eqn:Ep.
  - destruct (Hs i Ep) as [[u Hu]%seated_spec Hsc]. unfold score_of in Hsc. rewrite Hu in Hsc.
    destruct (callable_row_ok n (userScore u) (rget (m_cbCallable t) i) Hn Hsc) as (r & Er & Hr).
    assert (call_chair cfg n i t = Some (t <| m_cbCallable ::= <[i:=r]> |>)) as -> by (unfold call_chair; rewrite Ep, Hu; simpl; by rewrite Er).
    cbn [mbind option_bind].
    destruct (IH Hnd (t <| m_cbCallable ::= <[i:=r]> |>)) as (rows & E & Hl & Hrows & Hout).
    { intros j Hj. simpl. rewrite length_insert. apply Hin. by right. } { done. }
    exists rows. split; [by rewrite E|]. split; [rewrite Hl; apply length_insert|]. split.
    + intros j [->|Hj]%elem_of_cons Hp; [|by apply Hrows]. unfold rget, score_of. rewrite Hout by done. simpl.
      rewrite list_lookup_insert_eq by done. simpl. by rewrite Hu.
    + intros j [Hji Hj]%not_elem_of_cons. rewrite Hout by done. simpl. by rewrite list_lookup_insert_ne by done.
  - assert (call_chair cfg n i t = Some (t <| m_cbCallable ::= alter (zero_row (MaxBankerMul cfg)) i |>)) as -> by (unfold call_chair; by rewrite Ep).
    destruct (IH Hnd (t <| m_cbCallable ::= alter (zero_row (MaxBankerMul cfg)) i |>)) as (rows & E & Hl & Hrows & Hout).
    { intros j Hj. simpl. rewrite length_alter. apply Hin. by right. } { done. }
    exists rows. split; [by simpl; rewrite E|]. split; [rewrite Hl; apply length_alter|]. split.
    + intros j [->|Hj]%elem_of_cons Hp; [congruence|by apply Hrows].
    + intros j [Hji Hj]%not_elem_of_cons. rewrite Hout by done. simpl. by rewrite list_lookup_alter_ne by done.
Qed.

(** ** The start *)

Lemma seated_ext t t' i : seats t = seats t' → seated t i = seated t' i.
Proof. intros H. by rewrite !seated_item, (item_seats t t') by done. Qed.

Lemma score_ext t t' i : seats t = seats t' → score_of t i = score_of t' i.
Proof. intros H. unfold score_of. by rewrite (item_seats t t') by done. Qed.

(** The table a round starts from. *)
Record Ready (t : Table) : Prop := {
  re_used : used t = true;
  re_seats : length (seats t) = GAME_PLAYER;
  re_rows : length (m_cbCallable t) = GAME_PLAYER ∧ length (m_cbJettonable t) = GAME_PLAYER;
  re_two : (2 <= length (guests t))%nat;
  re_score : ∀ i, seated t i = true → enterMinScore cfg <= score_of t i <= 1073741824;
  re_ids : ∀ i u, GetTableUserItem t i = Some u → 0 < userId u
}.

Lemma score_set_all s t i : score_of (set_all s t) i = score_of t i.
Proof. unfold score_of. rewrite item_set_all. by destruct (GetTableUserItem t i). Qed.

Lemma playing_seated t i : length (seats t) = GAME_PLAYER → bget (map (seated t) chairs) i = seated t i.
Proof.
  intros Hl. unfold bget. destruct (decide (i < 4)%nat) as [Hi|Hi].
  - assert (map (seated t) chairs !! i = seated t <$> chairs !! i) as -> by apply list_lookup_fmap. unfold chairs, GAME_PLAYER. by rewrite lookup_seq_lt by done.
  - rewrite lookup_ge_None_2 by (rewrite length_map; unfold chairs, GAME_PLAYER; rewrite length_seq; lia). simpl.
    destruct (seated t i) eqn:E; [|done]. apply seated_chairs in E; [|done]. apply elem_of_seq in E. unfold GAME_PLAYER in *. lia.
Qed.

(** The users are in, nobody has bid. *)
Record Entered (t : Table) : Prop := {
  et_used : used t = true;
  et_seats : length (seats t) = GAME_PLAYER;
  et_status : length (m_cbPlayStatus t) = GAME_PLAYER;
  et_rows : length (m_cbCallable t) = GAME_PLAYER ∧ length (m_cbJettonable t) = GAME_PLAYER;
  et_play : ∀ i, playing t i = seated t i;
  et_count : m_wPlayCount t = length (guests t);
  et_two : (2 <= length (guests t))%nat;
  et_score : ∀ i, seated t i = true → enterMinScore cfg <= score_of t i <= 1073741824;
  et_calls : m_sCallBanker t = four (-1);
  et_adds : m_sAddScore t = four (-1);
  et_types : m_sCardType t = four (-1);
  et_ids : ∀ i u, GetTableUserItem t i = Some u → 0 < userId u
}.

Lemma fresh_round t : let t' := set_all sPlaying (InitGameData (ClearGameData t)) <| m_wGameStatus := GAME_STATUS_LOCK_PLAYING |> in
  seats t' = seats (set_all sPlaying t) ∧ used t' = used t ∧ m_cbPlayStatus t' = four false ∧ m_wPlayCount t' = 0%nat ∧
  m_cbCallable t' = m_cbCallable t ∧ m_cbJettonable t' = m_cbJettonable t ∧
  m_sCallBanker t' = four (-1) ∧ m_sAddScore t' = four (-1) ∧ m_sCardType t' = four (-1).
Proof. destruct t. simpl. done. Qed.

Lemma entered_fields t : seats (enter_all t) = seats (set_all sPlaying t) ∧ used (enter_all t) = used t ∧
  m_cbPlayStatus (enter_all t) = map (seated t) chairs ∧ m_wPlayCount (enter_all t) = (length (guests t) + m_wPlayCount t)%nat ∧
  m_cbCallable (enter_all t) = m_cbCallable t ∧ m_cbJettonable (enter_all t) = m_cbJettonable t ∧
  m_sCallBanker (enter_all t) = m_sCallBanker t ∧ m_sAddScore (enter_all t) = m_sAddScore t ∧ m_sCardType (enter_all t) = m_sCardType t.
Proof. destruct t. simpl. done. Qed.

Lemma ready_entered t : Ready t →
  Entered (enter_all (set_all sPlaying (InitGameData (ClearGameData t)) <| m_wGameStatus := GAME_STATUS_LOCK_PLAYING |>)).
Proof.
  intros [Hused Hls [Hlc Hlj] Htwo Hscore Hids]. destruct (fresh_round t) as (F1 & F2 & F3 & F4 & F5 & F6 & F7 & F8 & F9).
  set (t0 := _ <| m_wGameStatus := _ |>) in *. clearbody t0.
  assert (∀ i, seated t0 i = seated t i) as Hs0 by (intros i; rewrite (seated_ext _ _ i F1); apply seated_set_all).
  assert (∀ i, score_of t0 i = score_of t i) as Hc0 by (intros i; rewrite (score_ext _ _ i F1); apply score_set_all).
  assert (length (seats t0) = GAME_PLAYER) as Hl0 by (rewrite F1; simpl; by rewrite length_map).
  assert (guests t0 = guests t) as Hg0 by (by apply guests_ext).
  destruct (entered_fields t0) as (E1 & E2 & E3 & E4 & E5 & E6 & E7 & E8 & E9). set (t1 := enter_all t0) in *. clearbody t1.
  assert (∀ i, seated t1 i = seated t0 i) as Hs1 by (intros i; rewrite (seated_ext _ _ i E1); apply seated_set_all).
  assert (∀ i, score_of t1 i = score_of t0 i) as Hc1 by (intros i; rewrite (score_ext _ _ i E1); apply score_set_all).
  assert (guests t1 = guests t0) as Hg1 by (by apply guests_ext).
  split; try congruence.
  - rewrite E1. simpl. by rewrite length_map.
  - by rewrite E3.
  - split; congruence.
  - intros i. rewrite Hs1. unfold playing. rewrite E3. by apply playing_seated.
  - rewrite E4, F4, Hg1. lia.
  - intros i. rewrite Hs1, Hs0, Hc1, Hc0. apply Hscore.
  - intros i u. rewrite (item_seats _ _ i E1), item_set_all, (item_seats _ _ i F1), item_set_all.
    destruct (GetTableUserItem t i) as [v|] eqn:Ev; [|done]. intros [= <-]. by apply (Hids i v).
Qed.

Lemma start_entered d t : d_deck d ≡ₚ m_byCardDataArray → Entered t → ∃ t', OnGameStart cfg d t = Some t' ∧ Calling cfg true t'.
Proof.
  intros Hdeck [Hused Hls Hlp [Hlc Hlj] Hplay Hcount Htwo Hscore Hcalls Hadds Htypes Hids].
  assert (all_players t = guests t) as Hall by (apply list_filter_iff; intros i; by rewrite <- (Hplay i)).
  unfold OnGameStart. destruct (d_storage d) as [[control lower] high]. set (t2 := ClearAllTimer _).
  destruct (deal_spec d Hdeck t2) as (cards & bl & nb & E & Hdealt); [done| |].
  { intros i. change (playing t2 i) with (playing t i). change (seated t2 i) with (seated t i). by rewrite Hplay. }
  rewrite E. cbn [mbind option_bind]. match goal with |- context [for_each chairs _ ?x] => set (t3 := x) end.
  change (all_players t3) with (all_players t). pose proof (guests_four t) as Hfour. pose proof (ok_enter cfg Hcfg) as He.
  destruct (call_loop chairs (Z.of_nat (length (all_players t))) t3) as (rows & E' & Hl & Hrows & _).
  { apply NoDup_seq. } { rewrite Hall. lia. } { intros i Hi%elem_of_seq. simpl. rewrite Hlc. unfold GAME_PLAYER in *. lia. }
  { intros i. change (playing t3 i) with (playing t i). change (seated t3 i) with (seated t i). change (score_of t3 i) with (score_of t i).
    rewrite Hplay. intros Hi. split; [done|]. specialize (Hscore i Hi). lia. }
  rewrite E'. cbn [mbind option_bind]. eexists. split; [reflexivity|]. set (t4 := IsTrustee _).
  assert (used t4 = used t) as G1 by reflexivity. assert (seats t4 = seats t) as G2 by reflexivity.
  assert (m_cbPlayStatus t4 = m_cbPlayStatus t) as G3 by reflexivity. assert (m_cbCallable t4 = rows) as G4 by reflexivity.
  assert (m_cbJettonable t4 = m_cbJettonable t) as G5 by reflexivity. assert (m_wPlayCount t4 = m_wPlayCount t) as G6 by reflexivity.
  assert (m_sCallBanker t4 = m_sCallBanker t) as G7 by reflexivity. assert (m_sAddScore t4 = m_sAddScore t) as G8 by reflexivity.
  assert (m_sCardType t4 = m_sCardType t) as G9 by reflexivity. assert (m_cbCardData t4 = cards) as G10 by reflexivity.
  assert (timers true false false false t4) as G11 by (split_and!; reflexivity).
  assert (m_wGameStatus t4 = GAME_STATUS_CALL) as G12 by reflexivity.
  assert (∀ i, i ∈ chairs → seated t i = true → Forall (bid_ok (Z.of_nat (length (all_players t))) (score_of t i)) (take (MaxBankerMul cfg) (rget rows i))) as Hrows'.
  { intros i Hi Hs. apply (Hrows i Hi). change (playing t i = true). by rewrite Hplay. }
  change (dealt (m_cbPlayStatus t) (length (all_players t)) cards) in Hdealt. change (length rows = length (m_cbCallable t)) in Hl.
  clearbody t4. clear E E' Hrows t2 t3. assert (all_players t4 = all_players t) as Hall4 by (unfold all_players; by rewrite G3).
  assert (∀ i, i ∈ all_players t4 → (i < 4)%nat ∧ i ∈ chairs ∧ seated t i = true) as Hps.
  { intros i. rewrite Hall4, Hall, elem_guests. intros [Hi ?]. split; [|done]. apply elem_of_seq in Hi. unfold GAME_PLAYER in *. lia. }
  assert (∀ l i, l = four (-1) → (i < 4)%nat → l.[i] = -1) as Hm1.
  { intros l i -> Hi. by do 4 (destruct i as [|i]; [done|]); lia. }
  assert (∀ i, score_of t4 i = score_of t i) as Hsc by (intros i; by apply score_ext).
  split; [done| |done|..].
  - split; rewrite ?G1, ?G2, ?G3, ?G4, ?G5, ?G6, ?G7, ?G8, ?G9, ?G10, ?Hcalls, ?Hadds, ?Htypes, ?Hl; try done.
    + intros i. unfold playing. rewrite G3, (seated_ext _ _ i G2). apply Hplay.
    + by rewrite Hcount.
    + intros i Hi. rewrite Hsc. by apply Hscore, Hps.
    + by rewrite Hcount, <- Hall.
    + intros i u. rewrite (item_seats _ _ i G2). apply Hids.
  - intros i Hi. destruct (Hps i Hi) as (_ & Hc & Hs). specialize (Hrows' i Hc Hs). unfold covered.
    rewrite G4, G6, Hsc, Hcount, <- Hall. done.
  - intros i Hi. rewrite (Hm1 (m_sCallBanker t4)); [unfold covered; lia|congruence|by apply Hps].
  - destruct (guests t) as [|i l] eqn:Eg; [simpl in Htwo; lia|]. exists i.
    assert (i ∈ all_players t4) as Hi by (rewrite Hall4, Hall; by left). split; [done|].
    apply (Hm1 (m_sCallBanker t4)); [congruence|by apply Hps].
  - intros i Hi. apply (Hm1 (m_sAddScore t4)); [congruence|done].
  - intros i Hi. apply (Hm1 (m_sCardType t4)); [congruence|done].
Qed.

Lemma start_round d t : d_deck d ≡ₚ m_byCardDataArray → Ready t →
  ∃ t', GameTimereEnterPlayingOver cfg d (set_all sPlaying (InitGameData (ClearGameData t)) <| m_wGameStatus := GAME_STATUS_LOCK_PLAYING |>) = Some t' ∧
    Calling cfg true t'.
Proof.
  intros Hdeck Hr. pose proof (ready_entered t Hr) as He. destruct (fresh_round t) as (F1 & _ & F3 & _).
  unfold GameTimereEnterPlayingOver. set (t0 := _ <| m_wGameStatus := _ |>) in *. clearbody t0.
  rewrite enter_loop; [|rewrite F1; simpl; by rewrite length_map, (re_seats t Hr)|by rewrite F3].
  rewrite (proj2 (Nat.ltb_ge _ _)) by (rewrite (et_count _ He), (ok_min cfg Hcfg); apply (et_two _ He)).
  by apply start_entered.
Qed.

End Call.
