(* ===== verification/BullBank.v ===== *)
(** Grab the banker, the bids: who gets the bank, what the others may bet then, and that a
    bid leads to the next bid or to the bets. *)
From Stdlib Require Import ZArith Lia.
From S2P Require Import Prelude GameDefine Cards BullLogic BullDeal BullSettle BullTable BullInv BullStart.
From stdpp Require Import base numbers sorting sets option list.

#[local] Open Scope Z_scope.

(** ** Updates of a table *)

Lemma aget_insert_eq (l : list Z) i x : (i < length l)%nat → (<[i := x]> l).[i] = x.
Proof. intros H. apply aget_lookup. by apply list_lookup_insert_eq. Qed.

Lemma aget_insert_ne (l : list Z) i j x : i ≠ j → (<[i := x]> l).[j] = l.[j].
Proof. intros H. unfold aget. by rewrite list_lookup_insert_ne. Qed.

Lemma player_range t i : i ∈ all_players t → (i < 4)%nat ∧ playing t i = true.
Proof. intros [Hc ?]%elem_of_players. apply elem_of_seq in Hc. unfold GAME_PLAYER in *. split; [lia|done]. Qed.

(** All of a list pass a filter that keeps its length. *)
Lemma filter_full {A} (P : A → Prop) `{!∀ x, Decision (P x)} (l : list A) : length (filter P l) = length l → Forall P l.
Proof.
  induction l as [|x l IH]; intros Hl; [done|]. rewrite filter_cons in Hl. pose proof (length_filter P l).
  destruct (decide (P x)); simpl in Hl; [constructor; [done|apply IH; lia]|lia].
Qed.

Lemma filter_some {A} (P : A → Prop) `{!∀ x, Decision (P x)} (l : list A) : length (filter P l) ≠ length l → ∃ x, x ∈ l ∧ ¬ P x.
Proof.
  induction l as [|x l IH]; [done|]. rewrite filter_cons. intros Hl. destruct (decide (P x)).
  - destruct IH as (y & Hy & Hn); [intros E; apply Hl; simpl; by rewrite E|]. exists y. split; [by right|done].
  - exists x. split; [by left|done].
Qed.

(** Two tables of one round: the same chairs, players and hands. *)
Definition same_round (t t' : Table) : Prop :=
  used t' = used t ∧ seats t' = seats t ∧ m_cbPlayStatus t' = m_cbPlayStatus t ∧ m_wPlayCount t' = m_wPlayCount t ∧
  m_cbCardData t' = m_cbCardData t ∧ length (m_sCallBanker t') = length (m_sCallBanker t) ∧
  length (m_sAddScore t') = length (m_sAddScore t) ∧ length (m_sCardType t') = length (m_sCardType t) ∧
  length (m_cbCallable t') = length (m_cbCallable t) ∧ length (m_cbJettonable t') = length (m_cbJettonable t).

Lemma same_players t t' : same_round t t' → all_players t' = all_players t.
Proof. intros (_ & _ & H & _). unfold all_players. by rewrite H. Qed.

Lemma same_score t t' i : same_round t t' → score_of t' i = score_of t i.
Proof. intros (_ & H & _). by apply score_ext. Qed.

Lemma same_phase cfg t t' : same_round t t' → Phase cfg t → Phase cfg t'.
Proof.
  intros Hs [H1 H2 H3 H4 H5 H6 H7 H8 H9 H10 H11 H12 H13]. pose proof (same_players t t' Hs) as Hp.
  assert (∀ i, score_of t' i = score_of t i) as Hsc by (intros i; by apply same_score).
  destruct Hs as (S1 & S2 & S3 & S4 & S5 & S6 & S7 & S8 & S9 & S10).
  split; rewrite ?S1, ?S2, ?S3, ?S4, ?S5, ?S6, ?S7, ?S8, ?S9, ?S10; try done.
  - intros i. unfold playing. rewrite S3, (seated_ext _ _ i S2). apply H9.
  - intros i. rewrite Hp, Hsc. apply H11.
  - intros i u. rewrite (item_seats _ _ i S2). apply H13.
Qed.

(** ** The choice of the banker *)

Section Bank.
Context (cfg : Config) (Hcfg : config_ok cfg).

Lemma player_item t i : Phase cfg t → i ∈ all_players t → ∃ u, GetTableUserItem t i = Some u ∧ userScore u = score_of t i.
Proof.
  intros Hp Hi. apply player_range in Hi as [_ Hi]. rewrite (ph_play _ _ Hp) in Hi. apply seated_spec in Hi as [u Hu].
  exists u. unfold score_of. by rewrite Hu.
Qed.

Lemma richest_spec t l best w : Phase cfg t → l ⊆ all_players t →
  ∃ o, richest t l best w = Some o ∧
    ((o = w ∧ ∀ i, i ∈ l → score_of t i <= best) ∨
     ∃ i, i ∈ l ∧ o = Some i ∧ best < score_of t i ∧ ∀ j, j ∈ l → score_of t j <= score_of t i).
Proof.
  intros Hp. revert best w. induction l as [|i l IH]; intros best w Hl; cbn [richest].
  { exists w. split; [done|]. left. split; [done|]. intros i Hi. by apply elem_of_nil in Hi. }
  destruct (player_item t i Hp) as (u & -> & Hu); [apply Hl; by left|]. cbn [mbind option_bind]. rewrite Hu.
  assert (l ⊆ all_players t) as Hl' by (intros j Hj; apply Hl; by right).
  destruct (Z.ltb_spec best (score_of t i)) as [Hlt|Hge].
  - destruct (IH (score_of t i) (Some i) Hl') as (o & -> & Ho). exists o. split; [done|]. right.
    destruct Ho as [[-> Hall]|(j & Hj & -> & Hbest & Hall)].
    + exists i. split; [by left|]. split; [done|]. split; [done|]. intros j [->|Hj]%elem_of_cons; [lia|by apply Hall].
    + exists j. split; [by right|]. split; [done|]. split; [lia|]. intros k [->|Hk]%elem_of_cons; [lia|by apply Hall].
  - destruct (IH best w Hl') as (o & -> & Ho). exists o. split; [done|].
    destruct Ho as [[-> Hall]|(j & Hj & -> & Hbest & Hall)].
    + left. split; [done|]. intros j [->|Hj]%elem_of_cons; [lia|by apply Hall].
    + right. exists j. split; [by right|]. split; [done|]. split; [done|]. intros k [->|Hk]%elem_of_cons; [lia|by apply Hall].
Qed.

(** The player who gets the bank: no bid is higher, and of the same bids no score is. *)
Definition chosen (t : Table) (w : nat) : Prop := w ∈ all_players t ∧
  ∀ j, j ∈ all_players t → (m_sCallBanker t).[j] <= (m_sCallBanker t).[w] ∧
    ((m_sCallBanker t).[j] = (m_sCallBanker t).[w] → score_of t j <= score_of t w).

Lemma score_pos t i : Phase cfg t → i ∈ all_players t → 0 < score_of t i ∧ 4 * floorScore cfg <= score_of t i.
Proof.
  intros Hp Hi. pose proof (ph_score _ _ Hp i Hi). pose proof (ok_enter cfg Hcfg). pose proof (ok_floor cfg Hcfg). lia.
Qed.

Lemma elem_callers t k i : i ∈ callers t k ↔ i ∈ all_players t ∧ (m_sCallBanker t).[i] = k ∧ k ≠ 0.
Proof. unfold callers, all_players. rewrite list_elem_of_filter, elem_of_players. unfold playing. tauto. Qed.

Lemma highest_caller_spec t : Phase cfg t → (∀ i, i ∈ all_players t → 0 <= (m_sCallBanker t).[i] <= 4) →
  ∃ o, highest_caller t = Some o ∧
    match o with Some w => chosen t w ∧ 0 < (m_sCallBanker t).[w] | None => ∀ j, j ∈ all_players t → (m_sCallBanker t).[j] = 0 end.
Proof.
  intros Hp Hr. unfold highest_caller.
  assert (forallb (λ i, (m_sCallBanker t).[i] <=? 4) (all_players t) = true) as ->.
  { apply forallb_forall. intros i Hi%list_elem_of_In. apply Z.leb_le. by apply Hr. }
  cbn [assert mbind option_bind]. destruct (find _ _) as [k|] eqn:Ef.
  - pose proof Ef as Ef0. apply find_some in Ef as [Hk Hc]. apply negb_true_iff, Nat.eqb_neq in Hc.
    assert (∀ j, j ∈ all_players t → (m_sCallBanker t).[j] <= k) as Hmax.
    { intros j Hj. destruct (Z.le_gt_cases (m_sCallBanker t).[j] k) as [|Hgt]; [done|]. exfalso.
      assert (negb (length (callers t (m_sCallBanker t).[j]) =? 0)%nat = true) as Hf.
      { apply negb_true_iff, Nat.eqb_neq. intros El%nil_length_inv.
        assert (j ∈ callers t (m_sCallBanker t).[j]) as Hin by (apply elem_callers; split_and!; [done..|]; specialize (Hr j Hj); simpl in Hk; lia).
        rewrite El in Hin. by apply elem_of_nil in Hin. }
      specialize (Hr j Hj). clear -Ef0 Hf Hgt Hr Hk. simpl in Hk. revert Ef0. cbn [find].
      assert ((m_sCallBanker t).[j] = 4 ∨ (m_sCallBanker t).[j] = 3 ∨ (m_sCallBanker t).[j] = 2 ∨ (m_sCallBanker t).[j] = 1) as Hj by lia.
      repeat match goal with |- context [if ?b then _ else _] => let E := fresh "E" in destruct b eqn:E; [intros [= <-]; destruct Hj as [Hj|[Hj|[Hj|Hj]]]; rewrite Hj in *; (congruence || lia)|] end. done. }
    assert (∃ w, match callers t k with [i] => Some (Some i) | l => richest t l 0 None end = Some (Some w) ∧ w ∈ callers t k ∧
      ∀ j, j ∈ callers t k → score_of t j <= score_of t w) as (w & -> & Hw & Hbest).
    { destruct (richest_spec t (callers t k) 0 None Hp) as (o & Eo & Ho); [by intros i [? _]%elem_callers|].
      destruct (callers t k) as [|i [|i' l]] eqn:El; [done| |].
      - exists i. split; [done|]. split; [by left|]. intros j ->%list_elem_of_singleton. done.
      - rewrite Eo. destruct Ho as [[-> Hall]|(j & Hj & -> & _ & Hall)].
        + exfalso. specialize (Hall i ltac:(by left)). assert (i ∈ callers t k) as [Hi _]%elem_callers by (rewrite El; by left).
          pose proof (score_pos t i Hp Hi). lia.
        + by exists j. }
    apply elem_callers in Hw as (Hw & <- & Hk0). exists (Some w). split; [done|]. split; [|specialize (Hr w Hw); lia].
    split; [done|]. intros j Hj. split; [by apply Hmax|]. intros E. apply Hbest, elem_callers. done.
  - exists None. split; [done|]. intros j Hj. destruct (decide ((m_sCallBanker t).[j] = 0)) as [|Hne]; [done|]. exfalso.
    pose proof (find_none _ _ Ef (m_sCallBanker t).[j]) as Hn. specialize (Hr j Hj).
    rewrite negb_false_iff, Nat.eqb_eq in Hn.
    assert (In (m_sCallBanker t).[j] [4; 3; 2; 1; 0]) as Hin by (simpl; lia). apply Hn, nil_length_inv in Hin.
    assert (j ∈ callers t (m_sCallBanker t).[j]) as Hc by (by apply elem_callers). rewrite Hin in Hc. by apply elem_of_nil in Hc.
Qed.
Lemma RandBanker_spec t : Phase cfg t → ∃ w, RandBanker t = Some w ∧ w ∈ all_players t ∧ ∀ j, j ∈ all_players t → score_of t j <= score_of t w.
Proof.
  intros Hp. unfold RandBanker. destruct (richest_spec t (all_players t) 0 None Hp ltac:(done)) as (o & -> & [[-> Hall]|(i & Hi & -> & _ & Hall)]).
  - exfalso. pose proof (ph_two _ _ Hp) as H2. pose proof (ph_dealt _ _ Hp) as (Hn & _). fold (all_players t) in Hn.
    destruct (all_players t) as [|i l] eqn:E; [simpl in Hn; lia|].
    assert (i ∈ all_players t) as Hi by (rewrite E; by left). specialize (Hall i ltac:(by left)). pose proof (score_pos t i Hp Hi). lia.
  - by exists i.
Qed.

(** ** The bets the others may make *)

Lemma jetton_range k : (k < MaxJettonMul cfg)%nat → 0 < (m_cbJettonMultiple cfg).[k] < 33554432.
Proof.
  intros Hk. assert (Forall (λ m, 0 < m < 33554432) (m_cbJettonMultiple cfg)) as H.
  { unfold m_cbJettonMultiple. apply Forall_app. split.
    - apply Forall_fmap. eapply Forall_impl; [apply (ok_multiples cfg Hcfg)|]. intros m Hm. simpl in *. unfold i32. lia.
    - apply Forall_drop. repeat constructor; lia. }
  assert (k < length (m_cbJettonMultiple cfg))%nat as Hlt.
  { unfold m_cbJettonMultiple. rewrite length_app, length_map, length_drop. cbn [length]. unfold MaxJettonMul, MAX_JETTON_MUL in Hk. destruct (m_isMatch cfg); lia. }
  apply lookup_lt_is_Some_2 in Hlt as [m Hm]. rewrite (aget_lookup _ _ _ Hm). by eapply Forall_lookup_1 in H.
Qed.

Lemma map_seq_get (f : nat → Z) n r k : (k < n)%nat → (map f (seq 0 n) ++ r).[k] = f k.
Proof.
  intros Hk. apply aget_lookup. rewrite lookup_app_l by (by rewrite length_map, length_seq).
  etransitivity; [apply list_lookup_fmap|]. by rewrite lookup_seq_lt.
Qed.

Lemma jetton_row_ok c row : 1 <= c → ∃ r, jetton_row cfg c row = Some r ∧ row_ok cfg r.
Proof.
  intros Hc. pose proof (ok_jettons cfg Hcfg) as Hlen. unfold jetton_row.
  destruct (last (jettons cfg)) as [top|] eqn:El.
  2:{ apply last_None in El. rewrite El in Hlen. simpl in Hlen. lia. }
  assert (0 < top < 33554432) as Htop.
  { pose proof (ok_multiples cfg Hcfg) as H. rewrite Forall_forall in H. apply H. apply last_Some in El as [l ->]. apply elem_of_app. right. by left. }
  cbn [mbind option_bind]. eexists. split; [done|]. assert (0 < MaxJettonMul cfg <= 6)%nat as HM.
  { unfold MaxJettonMul, MAX_JETTON_MUL. destruct (m_isMatch cfg); lia. }
  destruct (Z.leb_spec top c) as [H1|H1]; [|destruct (Z.leb_spec (Z.of_nat (length (jettons cfg))) c) as [H2|H2]]; split;
    try (intros k Hk); rewrite map_seq_get by lia.
  - apply jetton_range. lia.
  - pose proof (jetton_range k Hk). lia.
  - done.
  - destruct (Nat.eqb_spec k 0); [lia|]. set (q := Z.quot _ _).
    assert (0 <= q <= c * (Z.of_nat k + 1)) as Hq.
    { unfold q. rewrite Z.quot_div_nonneg by nia. split; [apply Z.div_pos; nia|]. apply Z.div_le_upper_bound; nia. }
    assert (c * (Z.of_nat k + 1) <= 33554432 * 6) by nia. unfold i32. lia.
  - rewrite (proj2 (Z.leb_le _ _)) by lia. lia.
  - destruct (Z.leb_spec (Z.of_nat k + 1) c); lia.
Qed.

Lemma cdiv_one a b : 0 < b → b <= a → ∃ q, cdiv a b = Some q ∧ 1 <= q.
Proof.
  intros Hb Ha. unfold cdiv. rewrite (proj2 (Z.eqb_neq b 0)) by lia. eexists. split; [done|].
  rewrite Z.quot_div_nonneg by lia. apply Z.div_le_lower_bound; lia.
Qed.

Lemma jetton_loop l w m t : NoDup l → Phase cfg t → 1 <= m → 1 <= (m_sCallBanker t).[w] <= 4 →
  (∀ i, i ∈ l → (i < 4)%nat) →
  ∃ rows, for_each l (jetton_chair cfg w m) t = Some (t <| m_cbJettonable := rows |>) ∧ length rows = GAME_PLAYER ∧
    (∀ j, j ∈ l → j ∈ all_players t → j ≠ w → row_ok cfg (rget rows j)) ∧ (∀ j, j ∉ l → rows !! j = m_cbJettonable t !! j).
Proof.
  intros Hnd Hp Hm Hw Hl. revert t Hp Hw. induction l as [|i l IH]; intros t Hp Hw.
  { exists (m_cbJettonable t). split; [by destruct t|]. split; [apply (ph_jettonable _ _ Hp)|]. split; [|done]. intros j Hj. by apply elem_of_nil in Hj. }
  apply NoDup_cons in Hnd as [Hi Hnd]. rewrite for_each_cons.
  assert (i < length (m_cbJettonable t))%nat as Hlt by (rewrite (ph_jettonable _ _ Hp); apply Hl; by left).
  assert (∀ g, length (g (m_cbJettonable t)) = length (m_cbJettonable t) → Phase cfg (t <| m_cbJettonable ::= g |>)) as Hp'.
  { intros g Hg. apply (same_phase cfg t); [|done]. unfold same_round. simpl. split_and!; (reflexivity || done). }
  assert (∃ g, jetton_chair cfg w m i t = Some (t <| m_cbJettonable ::= g |>) ∧ length (g (m_cbJettonable t)) = length (m_cbJettonable t) ∧
    (i ∈ all_players t → i ≠ w → row_ok cfg (rget (g (m_cbJettonable t)) i)) ∧ ∀ j, j ≠ i → g (m_cbJettonable t) !! j = m_cbJettonable t !! j)
    as (g & -> & Hlg & Hrow & Hne).
  { unfold jetton_chair. destruct (playing t i && negb (i =? w)%nat) eqn:E.
    - apply andb_true_iff in E as [Ep Ew]. apply negb_true_iff, Nat.eqb_neq in Ew.
      assert (i ∈ all_players t) as Hpl.
      { apply elem_of_players. split; [|done]. apply elem_of_seq. split; [lia|]. simpl. apply Hl. by left. }
      destruct (player_item t i Hp Hpl) as (u & -> & Hu). cbn [mbind option_bind]. rewrite Hu.
      pose proof (score_pos t i Hp Hpl). pose proof (ok_floor cfg Hcfg).
      destruct (cdiv_one (score_of t i) (floorScore cfg * (m_sCallBanker t).[w])) as (q & -> & Hq); [nia|nia|]. cbn [mbind option_bind].
      destruct (jetton_row_ok (if m <? q then m else q) (rget (m_cbJettonable t) i)) as (r & -> & Hr); [destruct (m <? q); lia|].
      cbn [mbind option_bind]. exists (λ x, <[i := r]> x). split; [done|]. split; [apply length_insert|]. split.
      + intros _ _. unfold rget. by rewrite list_lookup_insert_eq.
      + intros j Hj. by rewrite list_lookup_insert_ne.
    - exists (alter (zero_row (MaxJettonMul cfg)) i). split; [done|]. split; [apply length_alter|]. split.
      + intros [_ Hpl]%player_range Hne. rewrite Hpl, (proj2 (Nat.eqb_neq _ _)) in E by done. done.
      + intros j Hj. by rewrite list_lookup_alter_ne. }
  cbn [mbind option_bind]. specialize (Hp' g Hlg).
  destruct (IH Hnd ltac:(intros j Hj; apply Hl; by right) (t <| m_cbJettonable ::= g |>) Hp' Hw) as (rows & E & Hlr & Hrows & Hout).
  exists rows. split; [by rewrite E|]. split; [done|]. split.
  - intros j [->|Hj]%elem_of_cons Hpl Hjw; [|by apply Hrows]. unfold rget. rewrite Hout by done. by apply Hrow.
  - intros j [Hji Hj]%not_elem_of_cons. rewrite Hout by done. by apply Hne.
Qed.

(** ** The bank is given *)

Lemma pick_banker t : Phase cfg t → (∀ i, i ∈ all_players t → 0 <= (m_sCallBanker t).[i] <= 4) →
  ∃ w c, (o ← highest_caller t; match o with
      | Some w => Some (w, t)
      | None => w ← RandBanker t; Some (w, t <| m_sCallBanker ::= <[w := (m_cbBankerMultiple cfg).[0]]> |>)
      end) = Some (w, t <| m_sCallBanker := c |>) ∧ chosen t w ∧ length c = GAME_PLAYER ∧
    c.[w] = Z.max 1 (m_sCallBanker t).[w] ∧ ∀ j, j ≠ w → c.[j] = (m_sCallBanker t).[j].
Proof.
  intros Hp Hr. destruct (highest_caller_spec t Hp Hr) as (o & -> & Ho). cbn [mbind option_bind]. destruct o as [w|].
  - exists w, (m_sCallBanker t). destruct Ho as [Hw Hc]. split; [by destruct t|]. split; [done|]. split; [apply (ph_calls _ _ Hp)|]. split; [lia|done].
  - destruct (RandBanker_spec t Hp) as (w & -> & Hw & Hbest). cbn [mbind option_bind].
    assert ((m_cbBankerMultiple cfg).[0] = 1) as E1 by (unfold m_cbBankerMultiple; by destruct (m_isMatch cfg)).
    exists w, (<[w := 1]> (m_sCallBanker t)). rewrite E1. split; [done|]. split.
    { split; [done|]. intros j Hj. rewrite !Ho by done. split; [lia|]. intros _. by apply Hbest. }
    split; [rewrite length_insert; apply (ph_calls _ _ Hp)|]. apply player_range in Hw as Hlt.
    rewrite aget_insert_eq, Ho by (rewrite ?(ph_calls _ _ Hp); unfold GAME_PLAYER; tauto || done). split; [done|].
    intros j Hj. by rewrite aget_insert_ne.
Qed.

Lemma give_bank_ok t tm : Phase cfg t → timers tm false false false t →
  (∀ i, i ∈ all_players t → 0 <= (m_sCallBanker t).[i] ∧ covered cfg t i (m_sCallBanker t).[i]) →
  (∀ i, (i < 4)%nat → (m_sAddScore t).[i] = -1) → (∀ i, (i < 4)%nat → (m_sCardType t).[i] = -1) →
  ∃ w t', give_bank cfg (Z.of_nat (m_wPlayCount t)) t = Some t' ∧ Betting cfg true t' ∧ chosen t w ∧ m_wBankerUser t' = Some w.
Proof.
  intros Hp Htm Hc Hadd Htype.
  destruct (pick_banker t Hp) as (w & c & E & Hw & Hlc & Hcw & Hcne).
  { intros i Hi. destruct (Hc i Hi) as [? [? _]]. lia. }
  unfold give_bank. destruct (highest_caller t) as [o|]; [|done]. cbn [mbind option_bind] in E |- *. rewrite E. clear E. cbn [mbind option_bind].
  set (t1 := IsTrustee _). pose proof Hw as [Hwp Hwmax]. destruct (player_item t w Hp Hwp) as (u & Hu & Hus).
  assert (GetTableUserItem t1 w = Some u) as -> by (transitivity (GetTableUserItem t w); [reflexivity|done]). cbn [mbind option_bind].
  change (m_sCallBanker t1) with c. rewrite Hus. destruct (Hc w Hwp) as [Hc0 [Hc4 Hcov]].
  pose proof (ph_two _ _ Hp) as H2. pose proof (score_pos t w Hp Hwp) as Hsp. pose proof (ok_floor cfg Hcfg) as Hf.
  assert (m_wPlayCount t <= 4)%nat as H4.
  { destruct (ph_dealt _ _ Hp) as (-> & _). unfold players. etransitivity; [apply length_filter|done]. }
  assert (0 < floorScore cfg * (Z.of_nat (m_wPlayCount t) - 1) <= 3 * floorScore cfg) as Hfn by nia.
  destruct (cdiv_one (score_of t w) (floorScore cfg * (Z.of_nat (m_wPlayCount t) - 1) * c.[w])) as (q & -> & Hq).
  { rewrite Hcw. nia. }
  { rewrite Hcw. destruct (Z.le_gt_cases (m_sCallBanker t).[w] 0) as [Hz|Hz].
    - rewrite Z.max_l by lia. lia.
    - rewrite Z.max_r by lia. by apply Hcov. }
  cbn [mbind option_bind].
  assert (same_round t t1) as Hs1.
  { unfold same_round. split_and!; try reflexivity. change (length c = length (m_sCallBanker t)). by rewrite Hlc, (ph_calls _ _ Hp). }
  assert (m_sCallBanker t1 = c) as G1 by reflexivity. assert (m_sAddScore t1 = m_sAddScore t) as G2 by reflexivity.
  assert (m_sCardType t1 = m_sCardType t) as G3 by reflexivity. assert (m_wBankerUser t1 = Some w) as G4 by reflexivity.
  assert (m_wGameStatus t1 = GAME_STATUS_SCORE) as G5 by reflexivity.
  assert (timers false true false false t1) as G6 by (destruct Htm as (_ & _ & T3 & T4); split_and!; [reflexivity..|exact T3|exact T4]).
  clearbody t1. pose proof (same_phase cfg t t1 Hs1 Hp) as Hp1. pose proof (same_players t t1 Hs1) as Hpl.
  destruct (jetton_loop chairs w q t1) as (rows & E & Hlr & Hrows & _); [apply NoDup_seq|done|lia|rewrite G1; lia| |].
  { intros i Hi%elem_of_seq. unfold GAME_PLAYER in *. lia. }
  rewrite E. eexists w, _. split; [reflexivity|]. set (t2 := t1 <| m_cbJettonable := rows |>).
  assert (same_round t1 t2) as Hs2.
  { unfold same_round. split_and!; try reflexivity. change (length rows = length (m_cbJettonable t1)). by rewrite Hlr, (ph_jettonable _ _ Hp1). }
  assert (m_sCallBanker t2 = c) as K1 by exact G1. assert (m_sAddScore t2 = m_sAddScore t) as K2 by exact G2.
  assert (m_sCardType t2 = m_sCardType t) as K3 by exact G3. assert (m_wBankerUser t2 = Some w) as K4 by exact G4.
  assert (m_wGameStatus t2 = GAME_STATUS_SCORE) as K5 by exact G5. assert (timers false true false false t2) as K6 by exact G6.
  assert (m_cbJettonable t2 = rows) as K7 by reflexivity. clearbody t2.
  pose proof (same_phase cfg t1 t2 Hs2 Hp1) as Hp2. pose proof (same_players t1 t2 Hs2) as Hpl2. rewrite Hpl in Hpl2.
  split; [|done]. split; [done|done|done| | |].
  - intros i Hi. rewrite K1. rewrite Hpl2 in Hi. destruct (Hc i Hi) as [? _]. destruct (decide (i = w)) as [->|]; [lia|]. rewrite Hcne by done. lia.
  - intros i Hi. rewrite K3. by apply Htype.
  - exists w. assert (∀ j, j ∈ all_players t2 → (m_sAddScore t2).[j] = -1) as Hm.
    { intros j [Hj _]%player_range. rewrite K2. by apply Hadd. }
    split; [|split].
    + split; [done|by rewrite Hpl2|rewrite K1; lia|apply Hm; by rewrite Hpl2|].
      intros j Hj Hjw. rewrite K7. rewrite Hpl2, <- Hpl in Hj. apply Hrows; [|done|done].
      apply player_range in Hj as [Hj _]. apply elem_of_seq. unfold GAME_PLAYER. lia.
    + intros j Hj _. left. by apply Hm.
    + pose proof (ph_dealt _ _ Hp2) as (Hn & _). fold (all_players t2) in Hn.
      pose proof (ph_two _ _ Hp2) as H2'.
      assert (NoDup (all_players t2)) as Hnd by (apply NoDup_filter, NoDup_seq).
      destruct (decide (Forall (λ j, j = w) (all_players t2))) as [Hall|Hall].
      * exfalso. destruct (all_players t2) as [|a [|b l]] eqn:El; simpl in Hn; [lia|lia|].
        inversion_clear Hall as [|? ? Ha Hrest]. inversion_clear Hrest as [|? ? Hb _]. subst. apply NoDup_cons in Hnd as [Hnd _]. apply Hnd. by left.
      * apply not_Forall_Exists in Hall; [|intros; apply _]. apply Exists_exists in Hall as (j & Hj & Hne). exists j. split; [done|]. split; [done|by apply Hm].
Qed.

(** ** A bid *)

Lemma call_step tm t i flag : Calling cfg tm t → i ∈ all_players t →
  ∃ r t', OnUserCallBanker cfg i flag t = Some (r, t') ∧
    ((r ≠ 4 ∧ t' = t ∧ ((m_sCallBanker t).[i] ≠ -1 ∨ flag ≠ 0)) ∨
     (r = 4 ∧ (m_sCallBanker t).[i] = -1 ∧
       ((Betting cfg true t' ∧ ∃ w, chosen (t <| m_sCallBanker ::= <[i := flag]> |>) w ∧ m_wBankerUser t' = Some w ∧
           ∀ j, j ∈ all_players t → (<[i := flag]> (m_sCallBanker t)).[j] ≠ -1) ∨
        (Calling cfg tm t' ∧ t' = t <| m_sCallBanker ::= <[i := flag]> |>)))).
Proof.
  intros Hca Hi. pose proof (ca_phase _ _ _ Hca) as Hp. unfold OnUserCallBanker.
  destruct (Z.eqb_spec (-1) (m_sCallBanker t).[i]) as [Hm|Hm]; cbn [negb].
  2:{ exists 1, t. split; [done|]. left. split; [done|]. split; [done|]. left. congruence. }
  destruct (Z.ltb_spec flag 0) as [Hneg|Hneg].
  { exists 2, t. split; [done|]. left. split; [done|]. split; [done|]. right. lia. }
  destruct (negb (flag =? 0) && negb (existsb _ _)) eqn:Ev.
  { exists 3, t. split; [done|]. left. split; [done|]. split; [done|]. right. apply andb_true_iff in Ev as [Ev _]. by apply negb_true_iff, Z.eqb_neq in Ev. }
  assert (covered cfg t i flag) as Hcov.
  { destruct (Z.eqb_spec flag 0) as [->|Hf]; [unfold covered; lia|]. simpl in Ev. apply negb_false_iff, existsb_exists in Ev as (m & Hin & ->%Z.eqb_eq).
    pose proof (ca_rows _ _ _ Hca i Hi) as H. rewrite Forall_forall in H. by apply H, list_elem_of_In. }
  set (t1 := t <| m_sCallBanker ::= <[i := flag]> |>). apply player_range in Hi as Hlt.
  assert (same_round t t1) as Hs by (unfold same_round; split_and!; try reflexivity; apply length_insert).
  pose proof (same_players t t1 Hs) as Hpl. pose proof (same_phase cfg t t1 Hs Hp) as Hp1.
  assert (∀ j, j ∈ all_players t1 → (-1 <= (m_sCallBanker t1).[j] ∧ covered cfg t1 j (m_sCallBanker t1).[j])) as Hbids.
  { intros j Hj. rewrite Hpl in Hj. change (m_sCallBanker t1) with (<[i := flag]> (m_sCallBanker t)).
    unfold covered. rewrite (same_score t t1 j Hs). change (m_wPlayCount t1) with (m_wPlayCount t).
    destruct (decide (i = j)) as [<-|Hne].
    - rewrite aget_insert_eq by (rewrite (ph_calls _ _ Hp); unfold GAME_PLAYER; tauto). split; [lia|done].
    - rewrite aget_insert_ne by done. by apply (ca_bids _ _ _ Hca). }
  pose proof (ph_dealt _ _ Hp1) as (Hn & _). fold (all_players t1) in Hn.
  destruct (Nat.eqb_spec (length (filter (λ j, (m_sCallBanker t1).[j] ≠ -1) (all_players t1))) (m_wPlayCount t1)) as [Ec|Ec].
  - rewrite Ec. rewrite Hn in Ec. apply filter_full in Ec. rewrite Forall_forall in Ec.
    destruct (give_bank_ok t1 tm Hp1) as (w & t' & E & Hb & Hw & Hbw).
    { exact (ca_timers _ _ _ Hca). } { intros j Hj. destruct (Hbids j Hj) as [? ?]. specialize (Ec j Hj). cbv beta in Ec. split; [lia|done]. }
    { exact (ca_adds _ _ _ Hca). } { exact (ca_types _ _ _ Hca). }
    exists 4, t'. rewrite E. split; [done|]. right. split; [done|]. split; [done|]. left. split; [done|]. exists w. split; [done|]. split; [done|].
    intros j Hj. rewrite <- Hpl in Hj. exact (Ec j Hj).
  - exists 4, t1. split; [done|]. right. split; [done|]. split; [done|]. right. split; [|done].
    rewrite Hn in Ec. apply filter_some in Ec as (j & Hj & Hjm). apply dec_stable in Hjm.
    split; [exact (ca_status _ _ _ Hca)|done|exact (ca_timers _ _ _ Hca)| |done|by exists j|exact (ca_adds _ _ _ Hca)|exact (ca_types _ _ _ Hca)].
    intros k Hk. rewrite Hpl in Hk. change (m_cbCallable t1) with (m_cbCallable t). eapply Forall_impl; [apply (ca_rows _ _ _ Hca k Hk)|].
    intros m Hm'. unfold covered. rewrite (same_score t t1 k Hs). exact Hm'.
Qed.

End Bank.
