(* ===== verification/BullEnd.v ===== *)
(** Grab the banker, the bets and the opening: the exchange keeps the hands, and the last
    hand that is opened settles the round by the rule of the settlement. *)
From Stdlib Require Import ZArith Lia.
From S2P Require Import Prelude GameDefine Cards BullLogic BullDeal BullSettle BullTable BullInv BullStart BullBank.
From stdpp Require Import base numbers sorting sets option list.

#[local] Open Scope Z_scope.

(** ** Exchanged hands are dealt hands *)

Lemma two_hands_ne a b : two_hands a b → a ≠ b.
Proof.
  intros ((Hl & _) & _ & Hd) <-. destruct a as [|c a]; [done|]. by apply (Hd c); left.
Qed.

Lemma exchanged_dealt playing n bSteal front cards cards' :
  dealt playing n cards → exchanged playing bSteal front cards cards' → dealt playing n cards'.
Proof.
  intros (Hn & Hl & Hh) (Hl' & _ & Hp & _). split; [done|]. split; [done|]. intros i j Hi Hj Hij.
  assert (∀ k, k ∈ players playing → ∃ a, a ∈ players playing ∧ rget cards' k = rget cards a) as Hsrc.
  { intros k Hk. assert (rget cards' k ∈ rget cards' <$> players playing) as Hin by (by apply list_elem_of_fmap_2).
    change (rget cards' <$> players playing) with (map (rget cards') (players playing)) in Hin. rewrite Hp in Hin.
    apply list_elem_of_fmap_1 in Hin as (a & E & Ha). by exists a. }
  assert (NoDup (map (rget cards') (players playing))) as Hnd.
  { rewrite Hp. assert (NoDup (players playing)) as H by (apply NoDup_filter, NoDup_seq). revert H Hh. clear.
    induction (players playing) as [|a l IH]; intros Hnd Hh; [constructor|]. apply NoDup_cons in Hnd as [Ha Hnd]. cbn [map]. constructor.
    - intros (b & E & Hb)%list_elem_of_fmap_1. assert (a ≠ b) as Hab by (by intros ->).
      apply (two_hands_ne _ _ (Hh a b ltac:(by left) ltac:(by right) Hab)). done.
    - apply IH; [done|]. intros x y Hx Hy. apply Hh; by right. }
  destruct (Hsrc i Hi) as (a & Ha & Ea), (Hsrc j Hj) as (b & Hb & Eb). rewrite Ea, Eb. apply Hh; [done..|]. intros <-.
  assert (rget cards' i ≠ rget cards' j) as Hne; [|congruence]. clear -Hnd Hi Hj Hij.
  induction (players playing) as [|x l IH]; [by apply elem_of_nil in Hi|]. cbn [map] in Hnd. apply NoDup_cons in Hnd as [Hx Hnd].
  apply elem_of_cons in Hi as [->|Hi], Hj as [->|Hj]; try done.
  - intros E. apply Hx. rewrite E. by apply list_elem_of_fmap_2.
  - intros E. apply Hx. rewrite <- E. by apply list_elem_of_fmap_2.
  - by apply IH.
Qed.

Section End_.
Context (cfg : Config) (Hcfg : config_ok cfg).

Lemma exchange_hands_ok d t : Phase cfg t → ∃ cards, exchange_hands cfg d t = Some (t <| m_cbCardData := cards |>) ∧
  dealt (m_cbPlayStatus t) (m_wPlayCount t) cards.
Proof.
  intros Hp. pose proof (ph_dealt _ _ Hp) as Hd. unfold exchange_hands.
  assert (existsb (λ i, bget (m_bBlacklist t) i && negb (seated t i)) (all_players t) = false) as ->.
  { apply not_true_iff_false. intros (i & [_ Hi]%list_elem_of_In%player_range & Hb)%existsb_exists. rewrite (ph_play _ _ Hp) in Hi.
    by rewrite Hi, andb_false_r in Hb. }
  rewrite orb_true_r. cbn [assert mbind option_bind]. destruct (m_iBlacklistNum t =? 0)%nat.
  - unfold AnalyseCardEx. destruct (_ =? 0)%nat; [by exists (m_cbCardData t)|].
    destruct (steal_choice _ _ _ _ _ _ _) as [bSteal|]; [|by exists (m_cbCardData t)].
    destruct (swap_cards_ok _ _ bSteal (IsAndroidUser t) _ Hd) as (cards' & -> & Hx). exists cards'. split; [done|]. by eapply exchanged_dealt.
  - unfold AnalyseForBlacklist. match goal with |- context [swap_cards _ _ _ ?f _] =>
      destruct (swap_cards_ok _ _ true f _ Hd) as (cards' & -> & Hx) end. exists cards'. split; [done|]. by eapply exchanged_dealt.
Qed.

(** ** The settlement of a table *)

Lemma round_of_ok t b : Phase cfg t → Bank cfg t b → (∀ j, j ∈ all_players t → j ≠ b → bet_ok cfg (m_sAddScore t).[j]) →
  ∃ g, round_of cfg t = Some g ∧ round_ok g ∧ g_playing g = m_cbPlayStatus t ∧ ∀ i, llUserBaseScore g i = score_of t i.
Proof.
  intros Hp Hb Hadd. unfold round_of. rewrite (ba_user _ _ _ Hb). cbn [mbind option_bind].
  set (bets := filter _ _). assert (∀ j, j ∈ bets → j ∈ all_players t ∧ j ≠ b) as Hbets.
  { intros j [[Hj _] Hin]%list_elem_of_filter. done. }
  assert (forallb (λ i, 0 <=? (m_sAddScore t).[i]) bets = true) as ->.
  { apply forallb_forall. intros i Hi%list_elem_of_In. destruct (Hbets i Hi) as [Hi' Hne]. apply Z.leb_le. by apply Hadd. }
  cbn [assert mbind option_bind]. eexists. split; [done|].
  assert (∀ i, default 0 (mjoin (map (fmap userScore) (seats t) !! i)) = score_of t i) as Hscore.
  { intros i. assert (map (fmap userScore) (seats t) !! i = fmap userScore <$> seats t !! i) as -> by apply list_lookup_fmap.
    unfold score_of, GetTableUserItem. by destruct (seats t !! i) as [[]|]. }
  split; [|split; [done|exact Hscore]]. split; cbn [g_playing g_scores g_banker g_call g_cell g_jetton g_cards].
  - exists (m_wPlayCount t). apply (ph_dealt _ _ Hp).
  - apply (ba_plays _ _ _ Hb).
  - intros i Hi. destruct (player_item cfg t i Hp Hi) as (u & Hu & Hs). exists (userScore u).
    assert (map (fmap userScore) (seats t) !! i = fmap userScore <$> seats t !! i) as -> by apply list_lookup_fmap.
    unfold GetTableUserItem in Hu. destruct (seats t !! i) as [o|]; [|done]. simpl in Hu. subst o. split; [done|].
    rewrite Hs. pose proof (ph_score _ _ Hp i Hi). pose proof (ok_enter cfg Hcfg). pose proof (ok_floor cfg Hcfg). lia.
  - pose proof (ok_floor cfg Hcfg). pose proof (ba_call _ _ _ Hb).
    assert (m_dwCellScore cfg = floorScore cfg) as -> by (unfold m_dwCellScore, i32; lia). nia.
  - intros i. apply (Forall_aget (λ z, 0 <= z < 268435456)); [lia|]. apply Forall_fmap, Forall_forall. intros j _. simpl.
    case_bool_decide as Hin; [|lia].
    destruct (Hbets j Hin) as [Hpl Hne]. destruct (Hadd j Hpl Hne) as [H0 H1].
    apply (ba_rows _ _ _ Hb j Hpl Hne). lia.
Qed.

Lemma settle_loop scores l t : NoDup l →
  ∃ s p c, foldl (settle_chair cfg scores) t l = t <| seats := s |> <| m_cbPlayStatus := p |> <| m_llStorageControl := c |> ∧
    length s = length (seats t) ∧ length p = length (m_cbPlayStatus t) ∧
    ∀ j, GetTableUserItem (t <| seats := s |>) j = if decide (j ∈ l ∧ writes t j = true)
      then (λ u, u <| userScore ::= λ s, s + addScore (revenueRatio cfg) scores.[j] |>) <$> GetTableUserItem t j else GetTableUserItem t j.
Proof.
  revert t. induction l as [|i l IH]; intros t Hnd.
  { exists (seats t), (m_cbPlayStatus t), (m_llStorageControl t). split; [by destruct t|]. split; [done|]. split; [done|]. intros j.
    rewrite same_seats. destruct (decide _) as [[H _]|]; [by apply elem_of_nil in H|done]. }
  apply NoDup_cons in Hnd as [Hi Hnd]. cbn [foldl].
  set (upd := λ j u, u <| userScore ::= λ s, s + addScore (revenueRatio cfg) scores.[j] |>).
  assert (∃ s1 p1 c1, settle_chair cfg scores t i = t <| seats := s1 |> <| m_cbPlayStatus := p1 |> <| m_llStorageControl := c1 |> ∧
    length s1 = length (seats t) ∧ length p1 = length (m_cbPlayStatus t) ∧
    (∀ j, j ≠ i → bget p1 j = playing t j) ∧
    ∀ j, GetTableUserItem (t <| seats := s1 |>) j = if decide (i = j ∧ writes t j = true) then upd j <$> GetTableUserItem t j else GetTableUserItem t j)
    as (s1 & p1 & c1 & -> & Hs1 & Hp1 & Hpl1 & Hj1).
  { unfold settle_chair. destruct (writes t i) eqn:Ew; cbn [negb].
    2:{ exists (seats t), (m_cbPlayStatus t), (m_llStorageControl t). split; [by destruct t|]. split; [done|]. split; [done|]. split; [done|]. intros j.
        rewrite same_seats. destruct (decide _) as [[<- H]|]; [congruence|done]. }
    exists (alter (fmap (upd i)) i (seats t)),
      (if bget (m_bPlayerIsOperation t) i then m_cbPlayStatus t else <[i := false]> (m_cbPlayStatus t)),
      (if IsAndroidUser t i then m_llStorageControl t + scores.[i] else m_llStorageControl t).
    split; [destruct t; simpl; destruct (bget m_bPlayerIsOperation i); unfold IsAndroidUser, GetTableUserItem, set_user; simpl;
      by destruct (mjoin (seats !! i)) as [[? [] ? ? ? ?]|]|].
    split; [apply length_alter|]. split; [destruct (bget _ _); [done|apply length_insert]|]. split.
    { intros j Hj. destruct (bget _ i); [done|]. unfold bget. by rewrite list_lookup_insert_ne. }
    intros j. change (GetTableUserItem (t <| seats := alter (fmap (upd i)) i (seats t) |>) j) with (GetTableUserItem (set_user i (upd i) t) j).
    rewrite item_set_user. destruct (decide (i = j)) as [<-|Hne]; [by rewrite decide_True|]. by rewrite decide_False by (intros []; done). }
  set (t1 := t <| seats := s1 |> <| m_cbPlayStatus := p1 |> <| m_llStorageControl := c1 |>).
  destruct (IH t1 Hnd) as (s & p & c & E & Hs & Hp & Hj). exists s, p, c.
  split; [rewrite E; reflexivity|]. split; [by rewrite Hs|]. split; [by rewrite Hp|]. intros j. specialize (Hj j).
  change (GetTableUserItem (t1 <| seats := s |>) j) with (GetTableUserItem (t <| seats := s |>) j) in Hj. rewrite Hj.
  change (GetTableUserItem t1 j) with (GetTableUserItem (t <| seats := s1 |>) j). rewrite Hj1. clear Hj.
  destruct (decide (i = j)) as [<-|Hne].
  - rewrite (decide_False (P := i ∈ l ∧ _)) by (intros []; done). destruct (writes t i) eqn:Ew.
    + rewrite decide_True, decide_True by (split; [by left|done]) || done. done.
    + rewrite decide_False, decide_False by (intros []; congruence). done.
  - rewrite (decide_False (P := i = j ∧ _)) by (intros []; done).
    assert (writes t1 j = writes t j) as ->.
    { unfold writes. f_equal; [by apply Hpl1|]. change (seated t1 j) with (seated (t <| seats := s1 |>) j).
      rewrite !seated_item, Hj1. rewrite decide_False; [done|]. intros []; done. }
    destruct (decide (j ∈ l ∧ _)) as [[H1 H2]|Hn]; [rewrite decide_True by (split; [by right|done]); done|].
    rewrite decide_False; [done|]. intros [[?|?]%elem_of_cons ?]; [congruence|]. by apply Hn.
Qed.

Lemma release_loop l t : ∃ s, foldl release_chair t l = t <| seats := s |> ∧ length s = length (seats t) ∧
  ∀ j, userScore <$> GetTableUserItem (t <| seats := s |>) j = userScore <$> GetTableUserItem t j.
Proof.
  revert t. induction l as [|i l IH]; intros t.
  { exists (seats t). rewrite same_seats. done. }
  cbn [foldl].
  assert (∃ s1, release_chair t i = t <| seats := s1 |> ∧ length s1 = length (seats t) ∧
    ∀ j, userScore <$> GetTableUserItem (t <| seats := s1 |>) j = userScore <$> GetTableUserItem t j) as (s1 & -> & Hs1 & Hj1).
  { unfold release_chair. destruct (GetTableUserItem t i) as [u|] eqn:Eu; [|by exists (seats t); rewrite same_seats].
    assert (∀ st t, ∃ s1, SetUserStatus i st t = t <| seats := s1 |> ∧ length s1 = length (seats t) ∧
      ∀ j, userScore <$> GetTableUserItem (t <| seats := s1 |>) j = userScore <$> GetTableUserItem t j) as Hset.
    { clear. intros st t. exists (alter (fmap (λ u, u <| userStatus := st |>)) i (seats t)). split; [done|]. split; [apply length_alter|].
      intros j. change (GetTableUserItem (t <| seats := _ |>) j) with (GetTableUserItem (SetUserStatus i st t) j). unfold SetUserStatus.
      rewrite item_set_user. destruct (decide (i = j)); [|done]. by destruct (GetTableUserItem t j). }
    destruct (Hset sReady t) as (s1 & E1 & L1 & J1). destruct (Hset sOffline t) as (s2 & E2 & L2 & J2).
    destruct (Hset sOffline (SetUserStatus i sReady t)) as (s3 & E3 & L3 & J3).
    case_bool_decide; destruct (bget (m_bPlayerIsOperation _) i).
    - exists (seats t). by rewrite same_seats.
    - by exists s2.
    - by exists s1.
    - exists s3. rewrite E3, E1. split; [done|]. rewrite E1 in L3, J3. split; [by rewrite L3|]. intros j.
      specialize (J3 j). change (t <| seats := s1 |> <| seats := s3 |>) with (t <| seats := s3 |>) in J3. by rewrite J3, J1. }
  destruct (IH (t <| seats := s1 |>)) as (s & E & Hs & Hj). exists s. rewrite E. split; [done|]. split; [by rewrite Hs|].
  intros j. specialize (Hj j). change (t <| seats := s1 |> <| seats := s |>) with (t <| seats := s |>) in Hj. by rewrite Hj, Hj1.
Qed.

(** The settlement of the table [t]: the balances after it, with the last timer set. *)
Definition paid (t t' : Table) : Prop := m_TimerIdEnd t' = true ∧ ∃ g, round_of cfg t = Some g ∧ round_ok g ∧
  ∀ i, i ∈ all_players t → score_of t' i = score_of t i + addScore (revenueRatio cfg) (fair_score g i).

Lemma conclude_ok d t b : Phase cfg t → Bank cfg t b → (∀ j, j ∈ all_players t → j ≠ b → bet_ok cfg (m_sAddScore t).[j]) →
  ∃ t', OnEventGameConclude cfg d t = Some t' ∧ Ending t' ∧ paid t t' ∧ m_sCardType t' = m_sCardType t ∧
    (∀ i, playing t' i = true → playing t i = true).
Proof.
  intros Hp Hb Hadd. destruct (round_of_ok t b Hp Hb Hadd) as (g & Eg & Hg & Hgp & Hgb).
  unfold OnEventGameConclude, NormalGameEnd.
  assert (round_of cfg (ClearAllTimer t) = Some g) as -> by (rewrite <- Eg; by destruct t). cbn [mbind option_bind].
  rewrite (settlement_fair g Hg). cbn [mbind option_bind].
  set (t0 := ClearAllTimer t). assert (timers false false false false t0) as T0 by (split_and!; reflexivity).
  assert (seats t0 = seats t ∧ m_cbPlayStatus t0 = m_cbPlayStatus t ∧ used t0 = used t ∧ m_cbCallable t0 = m_cbCallable t ∧
    m_cbJettonable t0 = m_cbJettonable t ∧ m_sCardType t0 = m_sCardType t) as (Z1 & Z2 & Z3 & Z4 & Z5 & Z6) by (split_and!; reflexivity).
  clearbody t0. assert (∀ i, playing t0 i = playing t i) as Hplay0 by (intros i; unfold playing; by rewrite Z2).
  assert (∀ i, GetTableUserItem t0 i = GetTableUserItem t i) as Hitem0 by (intros i; by apply item_seats).
  assert (∀ i, writes t0 i = playing t i) as Hw.
  { intros i. unfold writes. rewrite Hplay0, (seated_ext _ _ i Z1), <- (ph_play _ _ Hp). apply andb_diag. }
  assert (existsb (writes t0) chairs = true) as ->.
  { apply existsb_exists. pose proof (ba_plays _ _ _ Hb) as [Hc Hpl]%elem_of_players. exists b. split; [by apply list_elem_of_In|by rewrite Hw]. }
  cbn [assert mbind option_bind].
  destruct (settle_loop (map (fair_score g) chairs) chairs t0 (NoDup_seq _ _)) as (s1 & p1 & c1 & E1 & L1 & P1 & J1).
  assert (∀ i, bget p1 i = true → playing t0 i = true) as Hp1.
  { intros i Hi. assert (∀ l t i, playing (foldl (settle_chair cfg (map (fair_score g) chairs)) t l) i = true → playing t i = true) as H.
    { clear. induction l as [|j l IH]; [done|]. cbn [foldl]. intros t i Hi%IH. revert Hi. unfold settle_chair.
      destruct (writes t j); [|done]. cbn [negb]. set (t1 := if bget _ _ then t else _).
      assert (playing t1 i = true → playing t i = true) as H1.
      { unfold t1. destruct (bget (m_bPlayerIsOperation t) j); [done|]. unfold playing, bget. simpl.
        destruct (decide (j = i)) as [->|]; [|by rewrite list_lookup_insert_ne].
        rewrite list_lookup_insert. case_decide; [done|]. by destruct (_ !! i). }
      intros Hi. apply H1. revert Hi. by destruct (IsAndroidUser t1 j). }
    apply (H chairs t0 i). rewrite E1. exact Hi. }
  rewrite E1. set (t1 := t0 <| seats := s1 |> <| m_cbPlayStatus := p1 |> <| m_llStorageControl := c1 |>).
  destruct (release_loop chairs t1) as (s2 & E2 & L2 & J2). rewrite E2. eexists. split; [reflexivity|].
  set (t3 := IsTrustee _).
  assert (m_wGameStatus t3 = GAME_STATUS_END) as K1 by reflexivity. assert (used t3 = used t0) as K2 by reflexivity.
  assert (seats t3 = s2) as K3 by reflexivity. assert (m_cbCallable t3 = m_cbCallable t0) as K4 by reflexivity.
  assert (m_cbJettonable t3 = m_cbJettonable t0) as K5 by reflexivity. assert (m_sCardType t3 = m_sCardType t0) as K6 by reflexivity.
  assert (m_cbPlayStatus t3 = p1) as K7 by reflexivity.
  assert (timers false false false true t3) as K8 by (destruct T0 as (? & ? & ? & ?); split_and!; [done|done|reflexivity|reflexivity]).
  assert (length (seats t1) = length s1) as Ls1 by reflexivity.
  assert (∀ i, score_of t3 i = match userScore <$> GetTableUserItem (t0 <| seats := s1 |>) i with Some z => z | None => 0 end) as Hsc.
  { intros i. change (GetTableUserItem (t0 <| seats := s1 |>) i) with (GetTableUserItem t1 i). rewrite <- J2.
    unfold score_of. rewrite (item_seats t3 (t1 <| seats := s2 |>)) by reflexivity. by destruct (GetTableUserItem _ i). }
  clearbody t3 t1. split; [|split; [|split]].
  - split; [done|by rewrite K2, Z3, (ph_used _ _ Hp)|by rewrite K3, L2, Ls1, L1, Z1, (ph_seats _ _ Hp)| |by left].
    rewrite K4, K5, Z4, Z5. split; [apply (ph_callable _ _ Hp)|apply (ph_jettonable _ _ Hp)].
  - split; [by destruct K8 as (_ & _ & _ & ?)|]. exists g. split; [done|]. split; [done|]. intros i Hi.
    destruct (player_item cfg t i Hp Hi) as (u & Hu & Hus).
    apply player_range in Hi as [Hi4 Hi]. rewrite Hsc, J1, decide_True by (rewrite Hw; split; [apply elem_of_seq; unfold GAME_PLAYER; lia|done]).
    rewrite Hitem0, Hu. cbn [fmap option_fmap option_map]. rewrite <- Hus.
    assert ((map (fair_score g) chairs).[i] = fair_score g i) as Ef.
    { apply aget_lookup. etransitivity; [apply list_lookup_fmap|]. unfold chairs, GAME_PLAYER. by rewrite lookup_seq_lt. }
    rewrite Ef. reflexivity.
  - by rewrite K6.
  - intros i Hi. rewrite <- Hplay0. apply Hp1. unfold playing in Hi. by rewrite K7 in Hi.
Qed.

(** Nobody's balance becomes negative. *)
Lemma paid_nonneg t t' i : Phase cfg t → paid t t' → (∀ g, round_of cfg t = Some g → g_playing g = m_cbPlayStatus t ∧ ∀ i, llUserBaseScore g i = score_of t i) →
  i ∈ all_players t → 0 <= score_of t' i.
Proof.
  intros Hp (_ & g & Eg & Hg & Hs) Hb Hi. destruct (Hb g Eg) as [Hgp Hgb]. rewrite Hs by done.
  assert (i ∈ players (g_playing g)) as Hi' by (by rewrite Hgp).
  pose proof (fair_range g Hg i Hi') as Hf. pose proof (base_range g Hg i Hi') as Hr. rewrite Hgb in Hf, Hr.
  pose proof (ok_revenue cfg Hcfg). unfold addScore, iRevenue. destruct (Z.ltb_spec 0 (fair_score g i)); [|lia].
  unfold CalculateRevenue. rewrite Z.quot_div_nonneg by nia.
  assert (fair_score g i * revenueRatio cfg / 100 <= fair_score g i); [|lia]. apply Z.div_le_upper_bound; nia.
Qed.

End End_.
