(* ===== verification/BullSteps.v ===== *)
(** Grab the banker, the steps of the table: every event of a reachable table has a result
    and leads to a table of the next or the same phase. *)
From Stdlib Require Import ZArith Lia.
From S2P Require Import Prelude GameDefine Cards BullLogic BullDeal BullSettle BullTable BullInv BullStart BullBank BullEnd.
From stdpp Require Import base numbers sorting sets option list.

#[local] Open Scope Z_scope.

(** ** Loops that act for the players who have not *)

Section Auto.
Context (act : nat → Table → option (Z * Table)) (todo : Table → nat → bool) (P Q : Table → Prop).

Definition auto (i : nat) (t : Table) : option Table := if todo t i then '(_, t) ← act i t; Some t else Some t.

Lemma auto_eq i t : auto i t = if todo t i then '(_, t) ← act i t; Some t else Some t.
Proof. done. Qed.

Hypothesis step : ∀ t i, P t → todo t i = true → ∃ r t', act i t = Some (r, t') ∧
  (Q t' ∨ P t' ∧ ∀ j, todo t' j = true → todo t j = true ∧ j ≠ i).
Hypothesis stop : ∀ t i, Q t → todo t i = false.
Hypothesis open : ∀ t, P t → ∃ i, todo t i = true.

Lemma auto_stop l t : Q t → for_each l auto t = Some t.
Proof. intros HQ. induction l as [|i l IH]; [done|]. by rewrite for_each_cons, auto_eq, stop. Qed.

Lemma auto_loop l t : P t → (∀ i, todo t i = true → i ∈ l) → ∃ t', for_each l auto t = Some t' ∧ Q t'.
Proof.
  revert t. induction l as [|i l IH]; intros t HP Hl.
  { destruct (open t HP) as [i Hi]. apply Hl in Hi. by apply elem_of_nil in Hi. }
  rewrite for_each_cons, auto_eq. destruct (todo t i) eqn:Ei.
  - destruct (step t i HP Ei) as (r & t' & -> & [HQ|[HP' Htodo]]); cbn [mbind option_bind].
    + exists t'. split; [by apply auto_stop|done].
    + apply IH; [done|]. intros j Hj. destruct (Htodo j Hj) as [Hj' Hne]. apply Hl in Hj'. by apply elem_of_cons in Hj' as [?|?].
  - cbn [mbind option_bind]. apply IH; [done|]. intros j Hj. pose proof (Hl j Hj) as Hin. apply elem_of_cons in Hin as [->|]; [congruence|done].
Qed.
End Auto.

Lemma for_each_ext f g l t : (∀ i t, f i t = g i t) → for_each l f t = for_each l g t.
Proof.
  intros H. revert t. induction l as [|i l IH]; intros t; [done|]. rewrite !for_each_cons, H. destruct (g i t); [apply IH|done].
Qed.

Section Steps.
Context (cfg : Config) (Hcfg : config_ok cfg).

(** ** The bids end *)

Lemma todo_player t i (b : bool) : Phase cfg t → playing t i && b = true → i ∈ all_players t ∧ b = true.
Proof.
  intros Hp [Hi Hb]%andb_true_iff. split; [|done]. apply elem_of_players. split; [|done].
  rewrite (ph_play _ _ Hp) in Hi. apply (seated_chairs t); [apply (ph_seats _ _ Hp)|done].
Qed.

Lemma todo_chair t i (b : bool) : Phase cfg t → playing t i && b = true → i ∈ chairs.
Proof. intros Hp Hi. by apply (todo_player t i b Hp) in Hi as [[? _]%elem_of_players _]. Qed.

(** The bid of a player who has made none when the timer fires. *)
Definition no_bid (c : Z) : Z := if c =? -1 then 0 else c.

Lemma chosen_ext t t' w : all_players t' = all_players t → (∀ j, score_of t' j = score_of t j) →
  (∀ j, j ∈ all_players t → (m_sCallBanker t').[j] = (m_sCallBanker t).[j]) → chosen t w → chosen t' w.
Proof.
  intros Hp Hs Hc [Hw H]. split; [by rewrite Hp|]. intros j Hj. rewrite Hp in Hj. rewrite !Hc, !Hs by done. by apply H.
Qed.

Lemma no_bid_get l j : (map no_bid l).[j] = no_bid l.[j].
Proof.
  unfold aget. assert (map no_bid l !! j = no_bid <$> l !! j) as -> by apply list_lookup_fmap. by destruct (l !! j).
Qed.

Lemma GameTimerCallBanker_ok tm t : Calling cfg tm t → ∃ t', GameTimerCallBanker cfg t = Some t' ∧ Betting cfg true t' ∧
  ∃ w, chosen (t <| m_sCallBanker ::= map no_bid |>) w ∧ m_wBankerUser t' = Some w.
Proof.
  intros Hca. unfold GameTimerCallBanker, AutoUserCallBanker.
  set (todo := λ t i, playing t i && ((m_sCallBanker t).[i] =? -1)).
  rewrite (for_each_ext _ (auto (λ i t, OnUserCallBanker cfg i 0 t) todo)).
  2:{ intros i s. unfold auto, todo. destruct (playing s i); [|done]. by destruct (_ =? -1). }
  assert (∀ t i, Phase cfg t → todo t i = true → i ∈ all_players t ∧ (m_sCallBanker t).[i] = -1) as Htodo.
  { intros s i Hp Hi. by apply (todo_player s i _ Hp) in Hi as [Hi Hm%Z.eqb_eq]. }
  assert (∀ s i, Calling cfg false s → i ∈ all_players s → (m_sCallBanker s).[i] = -1 →
    ∀ j, no_bid (<[i := 0]> (m_sCallBanker s)).[j] = no_bid (m_sCallBanker s).[j]) as Hzero.
  { intros s i Hs Hi Hm j. destruct (decide (i = j)) as [<-|]; [|by rewrite aget_insert_ne].
    rewrite aget_insert_eq, Hm; [done|]. rewrite (ph_calls _ _ (ca_phase _ _ _ Hs)). by apply player_range in Hi as [? _]. }
  apply (auto_loop _ todo
    (λ s, Calling cfg false s ∧ same_round t s ∧ ∀ j, no_bid (m_sCallBanker s).[j] = no_bid (m_sCallBanker t).[j])
    (λ s, Betting cfg true s ∧ ∃ w, chosen (t <| m_sCallBanker ::= map no_bid |>) w ∧ m_wBankerUser s = Some w)).
  - intros s i (Hs & Hr & Hbids) Hi. destruct (Htodo s i (ca_phase _ _ _ Hs) Hi) as [Hpl Hm].
    specialize (Hzero s i Hs Hpl Hm).
    destruct (call_step cfg Hcfg false s i 0 Hs Hpl) as (r & s' & E & [(_ & _ & [?|?])|(_ & _ & [(Hb & w & Hw & Hbw & Hall)|[Hc ->]])]); [done|done| |].
    + exists r, s'. split; [done|]. left. split; [done|]. exists w. split; [|done]. revert Hw. apply chosen_ext.
      * symmetry. exact (same_players t s Hr).
      * intros j. symmetry. exact (same_score t s j Hr).
      * intros j Hj. change (m_sCallBanker (t <| m_sCallBanker ::= map no_bid |>)) with (map no_bid (m_sCallBanker t)).
        change (m_sCallBanker (s <| m_sCallBanker ::= <[i:=0]> |>)) with (<[i:=0]> (m_sCallBanker s)).
        rewrite no_bid_get, <- Hbids, <- Hzero. unfold no_bid. rewrite (proj2 (Z.eqb_neq _ _)); [done|]. by apply Hall.
    + exists r, (s <| m_sCallBanker ::= <[i:=0]> |>). split; [done|]. right. split; [split; [done|split]|].
      * destruct Hr as (R1 & R2 & R3 & R4 & R5 & R6 & R7 & R8 & R9 & R10). unfold same_round. split_and!; try done.
        change (length (<[i:=0]> (m_sCallBanker s)) = length (m_sCallBanker t)). by rewrite length_insert.
      * intros j. etransitivity; [exact (Hzero j)|apply Hbids].
      * intros j Hj. destruct (Htodo _ j (ca_phase _ _ _ Hc) Hj) as [_ Hjm].
        change (m_sCallBanker (s <| m_sCallBanker ::= <[i:=0]> |>)) with (<[i:=0]> (m_sCallBanker s)) in Hjm.
        destruct (decide (i = j)) as [<-|Hne].
        -- rewrite aget_insert_eq in Hjm; [done|]. rewrite (ph_calls _ _ (ca_phase _ _ _ Hs)). by apply player_range in Hpl as [? _].
        -- rewrite aget_insert_ne in Hjm by done. split; [|congruence]. unfold todo in *. apply andb_true_iff in Hj as [Hj _].
           apply andb_true_iff. split; [exact Hj|by apply Z.eqb_eq].
  - intros s i [Hb _]. destruct (todo s i) eqn:E; [|done]. destruct (Htodo s i (be_phase _ _ _ Hb) E) as [Hpl Hm]. by destruct (be_calls _ _ _ Hb i Hpl).
  - intros s [Hs _]. destruct (ca_open _ _ _ Hs) as (i & Hi & Hm). exists i. apply player_range in Hi as [_ Hi]. unfold todo. by rewrite Hi, Hm.
  - split; [|split; [unfold same_round; split_and!; reflexivity|done]]. destruct Hca as [S1 S2 S3 S4 S5 S6 S7 S8]. split; try done.
    + apply (same_phase cfg t); [|done]. unfold same_round. split_and!; reflexivity.
    + destruct S3 as (_ & ? & ? & ?). by split_and!.
  - intros i Hi. exact (todo_chair t i _ (ca_phase _ _ _ Hca) Hi).
Qed.

(** ** A bet *)

Lemma same_bank t t' b : same_round t t' → m_wBankerUser t' = m_wBankerUser t → m_sCallBanker t' = m_sCallBanker t →
  m_cbJettonable t' = m_cbJettonable t → (m_sAddScore t').[b] = -1 → Bank cfg t b → Bank cfg t' b.
Proof.
  intros Hs H1 H2 H3 H4 [B1 B2 B3 B4 B5]. pose proof (same_players t t' Hs) as Hp.
  split; rewrite ?H1, ?H2, ?H3, ?Hp; done.
Qed.

Lemma add_step d tm t i index : Betting cfg tm t → i ∈ all_players t →
  ∃ r t', OnUserAddScore cfg d i index t = Some (r, t') ∧
    ((t' = t ∧ (index ≠ 0 ∨ (m_sAddScore t).[i] ≠ -1 ∨ m_wBankerUser t = Some i)) ∨
     (r = 4 ∧ m_wBankerUser t ≠ Some i ∧ (m_sAddScore t).[i] = -1 ∧ bet_ok cfg index ∧
       (Opening cfg true t' ∨ (Betting cfg tm t' ∧ t' = t <| m_sAddScore ::= <[i := index]> |>)))).
Proof.
  intros Hbe Hi. pose proof (be_phase _ _ _ Hbe) as Hp. destruct (be_bank _ _ _ Hbe) as (b & Hb & Hadds & Hopen).
  unfold OnUserAddScore. rewrite (ba_user _ _ _ Hb). case_bool_decide as Hib.
  { exists 1, t. split; [done|]. left. split; [done|]. right. by right. }
  assert (i ≠ b) as Hne by congruence.
  destruct (Z.eqb_spec (-1) (m_sAddScore t).[i]) as [Hm|Hm]; cbn [negb].
  2:{ exists 2, t. split; [done|]. left. split; [done|]. right. left. congruence. }
  destruct ((index <? 0) || (Z.of_nat (MaxJettonMul cfg) <=? index)) eqn:Ex.
  { exists 3, t. split; [done|]. left. split; [done|]. left. intros ->. simpl in Ex. unfold MaxJettonMul, MAX_JETTON_MUL in Ex. by destruct (m_isMatch cfg). }
  apply orb_false_iff in Ex as [Ex1%Z.ltb_ge Ex2%Z.leb_gt].
  destruct (Z.leb_spec (rget (m_cbJettonable t) i).[Z.to_nat index] 0) as [Hz|_].
  { exists 4, t. split; [done|]. left. split; [done|]. left. intros ->. destruct (ba_rows _ _ _ Hb i Hi Hne) as [Hr _].
    change (Z.to_nat 0) with 0%nat in Hz. lia. }
  set (t1 := t <| m_sAddScore ::= <[i := index]> |>). apply player_range in Hi as Hlt.
  assert (same_round t t1) as Hs by (unfold same_round; split_and!; try reflexivity; apply length_insert).
  pose proof (same_players t t1 Hs) as Hpl. pose proof (same_phase cfg t t1 Hs Hp) as Hp1.
  assert (i < length (m_sAddScore t))%nat as Hli by (rewrite (ph_adds _ _ Hp); tauto).
  assert (∀ j, (m_sAddScore t1).[j] = if decide (i = j) then index else (m_sAddScore t).[j]) as Hadd1.
  { intros j. change (m_sAddScore t1) with (<[i := index]> (m_sAddScore t)). destruct (decide (i = j)) as [<-|]; [by rewrite aget_insert_eq|by rewrite aget_insert_ne]. }
  assert (Bank cfg t1 b) as Hb1.
  { apply (same_bank t); try reflexivity; [done| |done]. rewrite Hadd1, decide_False by done. apply (ba_add _ _ _ Hb). }
  assert (bet_ok cfg index) as Hbet by (unfold bet_ok; lia).
  pose proof (ph_dealt _ _ Hp1) as (Hn & _). fold (all_players t1) in Hn.
  change (m_wBankerUser t1) with (m_wBankerUser t). rewrite (ba_user _ _ _ Hb).
  assert (filter (λ j, Some j ≠ Some b ∧ (m_sAddScore t1).[j] ≠ -1) (all_players t1) =
          filter (λ j, (m_sAddScore t1).[j] ≠ -1) (filter (λ j, j ≠ b) (all_players t1))) as Hff.
  { rewrite list_filter_filter. apply list_filter_iff. intros j. split; intros [? ?]; split; congruence. }
  assert (S (length (filter (λ j, j ≠ b) (all_players t1))) = m_wPlayCount t1) as Hlen.
  { rewrite Hn. assert (b ∈ all_players t1) as Hbin by apply (ba_plays _ _ _ Hb1).
    assert (NoDup (all_players t1)) as Hnd by (apply NoDup_filter, NoDup_seq). revert Hbin Hnd. clear.
    induction (all_players t1) as [|x l IH]; intros Hin Hnd; [by apply elem_of_nil in Hin|]. apply NoDup_cons in Hnd as [Hx Hnd].
    rewrite filter_cons. destruct (decide (x ≠ b)) as [Hxb|Hxb%dec_stable]; simpl.
    - rewrite IH; [done| |done]. apply elem_of_cons in Hin as [->|]; [done|done].
    - subst x. f_equal. f_equal. apply filter_all. apply Forall_forall. intros y Hy ->. done. }
  rewrite Hff. destruct (Nat.eqb_spec (S (length (filter (λ j, (m_sAddScore t1).[j] ≠ -1) (filter (λ j, j ≠ b) (all_players t1))))) (m_wPlayCount t1)) as [Ec|Ec].
  - assert (length (filter (λ j, (m_sAddScore t1).[j] ≠ -1) (filter (λ j, j ≠ b) (all_players t1))) = length (filter (λ j, j ≠ b) (all_players t1))) as El by lia.
    apply filter_full in El. rewrite Forall_forall in El.
    set (t2 := t1 <| m_wGameStatus := GAME_STATUS_OPEN |>).
    assert (same_round t1 t2) as Hs2 by (unfold same_round; split_and!; reflexivity).
    pose proof (same_phase cfg t1 t2 Hs2 Hp1) as Hp2.
    destruct (exchange_hands_ok cfg d t2 Hp2) as (cards & -> & Hdealt). cbn [mbind option_bind].
    exists 4. eexists. split; [reflexivity|]. right. split; [done|]. split; [congruence|]. split; [done|]. split; [done|]. left. set (t3 := IsTrustee _).
    assert (Phase cfg t3) as Hp3.
    { destruct Hp2 as [X1 X2 X3 X4 X5 X6 X7 X8 X9 X10 X11 X12 X13]. split; [exact X1|exact X2|exact X3|exact X4|exact X5|exact X6|exact X7|exact X8|exact X9|exact X10|exact X11|exact Hdealt|exact X13]. }
    destruct (be_timers _ _ _ Hbe) as (T1 & T2 & T3 & T4).
    split; [reflexivity|done|split_and!; [exact T1|reflexivity|reflexivity|exact T4]| |].
    + exists b. destruct Hb1 as [B1 B2 B3 B4 B5]. split; [split; [exact B1|exact B2|exact B3|exact B4|exact B5]|].
      intros j Hj Hjb. change (all_players t3) with (all_players t1) in Hj. change (m_sAddScore t3) with (m_sAddScore t1).
      rewrite Hadd1. destruct (decide (i = j)) as [|Hij]; [done|]. rewrite Hpl in Hj. destruct (Hadds j Hj Hjb) as [Hm1|]; [|done].
      exfalso. apply (El j); [apply list_elem_of_filter; rewrite Hpl; done|]. by rewrite Hadd1, decide_False.
    + exists i. split; [change (i ∈ all_players t1); by rewrite Hpl|]. change (m_sCardType t3) with (m_sCardType t). apply (be_types _ _ _ Hbe). tauto.
  - exists 4, t1. split; [done|]. right. split; [done|]. split; [congruence|]. split; [done|]. split; [done|]. right. split; [|done].
    assert (length (filter (λ j, (m_sAddScore t1).[j] ≠ -1) (filter (λ j, j ≠ b) (all_players t1))) ≠ length (filter (λ j, j ≠ b) (all_players t1))) as El by lia.
    apply filter_some in El as (j & [Hjb Hj]%list_elem_of_filter & Hjm%dec_stable).
    split; [exact (be_status _ _ _ Hbe)|done|exact (be_timers _ _ _ Hbe)| |exact (be_types _ _ _ Hbe)|].
    + intros k Hk. rewrite Hpl in Hk. exact (be_calls _ _ _ Hbe k Hk).
    + exists b. split; [done|]. split; [|by exists j]. intros k Hk Hkb. rewrite Hadd1. destruct (decide (i = k)); [by right|].
      rewrite Hpl in Hk. by apply Hadds.
Qed.

(** ** The timers of the bets and of the opening *)

Lemma GameTimerAddScore_ok d tm t : Betting cfg tm t → ∃ t', GameTimerAddScore cfg d t = Some t' ∧ Opening cfg true t'.
Proof.
  intros Hbe. unfold GameTimerAddScore, AutoUserAddScore.
  set (todo := λ t i, playing t i && ((m_sAddScore t).[i] =? -1) && negb (bool_decide (m_wBankerUser t = Some i))).
  (* the banker's bet is refused and changes nothing *)
  rewrite (for_each_ext _ (auto (λ i t, OnUserAddScore cfg d i 0 t) todo)).
  2:{ intros i s. unfold auto, todo. destruct (playing s i); [|done]. destruct (_ =? -1); [|done]. simpl.
      case_bool_decide as Hb; [|done]. simpl. unfold OnUserAddScore. by rewrite bool_decide_true. }
  assert (∀ t i, Phase cfg t → todo t i = true → i ∈ all_players t ∧ (m_sAddScore t).[i] = -1 ∧ m_wBankerUser t ≠ Some i) as Htodo.
  { intros s i Hp Hi. unfold todo in Hi. rewrite <- andb_assoc in Hi. apply (todo_player s i _ Hp) in Hi as [Hi [Hm%Z.eqb_eq Hb]%andb_true_iff].
    split; [done|]. split; [done|]. apply negb_true_iff in Hb. by apply bool_decide_eq_false in Hb. }
  apply (auto_loop _ todo (Betting cfg false) (Opening cfg true)).
  - intros s i Hs Hi. destruct (Htodo s i (be_phase _ _ _ Hs) Hi) as (Hpl & Hm & Hnb).
    destruct (add_step d false s i 0 Hs Hpl) as (r & s' & E & [(_ & [?|[?|?]])|(_ & _ & _ & _ & [Ho|[Hc ->]])]); [done|done|done| |].
    + exists r, s'. split; [done|by left].
    + exists r, (s <| m_sAddScore ::= <[i:=0]> |>). split; [done|]. right. split; [done|]. intros j Hj.
      destruct (Htodo _ j (be_phase _ _ _ Hc) Hj) as (Hjp & Hjm & Hjb).
      change (m_sAddScore (s <| m_sAddScore ::= <[i:=0]> |>)) with (<[i:=0]> (m_sAddScore s)) in Hjm.
      change (m_wBankerUser (s <| m_sAddScore ::= <[i:=0]> |>)) with (m_wBankerUser s) in Hjb.
      destruct (decide (i = j)) as [<-|Hne].
      * rewrite aget_insert_eq in Hjm; [done|]. rewrite (ph_adds _ _ (be_phase _ _ _ Hs)). by apply player_range in Hpl as [? _].
      * rewrite aget_insert_ne in Hjm by done. split; [|congruence]. unfold todo. rewrite Hjm. apply player_range in Hjp as [_ Hjp].
        change (playing s j = true) in Hjp. rewrite Hjp. by rewrite bool_decide_false.
  - intros s i Ho. destruct (todo s i) eqn:E; [|done]. destruct (Htodo s i (op_phase _ _ _ Ho) E) as (Hpl & Hm & Hnb).
    destruct (op_bank _ _ _ Ho) as (b & Hb & Hadds). destruct (Hadds i Hpl) as [H0 _]; [|lia]. intros ->. by rewrite (ba_user _ _ _ Hb) in Hnb.
  - intros s Hs. destruct (be_bank _ _ _ Hs) as (b & Hb & _ & (j & Hj & Hjb & Hm)). exists j. apply player_range in Hj as [_ Hj].
    unfold todo. rewrite Hj, Hm, (ba_user _ _ _ Hb). by rewrite bool_decide_false by congruence.
  - destruct Hbe as [S1 S2 S3 S4 S5 (b & B & S6 & S7)]. split; try done.
    + apply (same_phase cfg t); [|done]. unfold same_round. split_and!; reflexivity.
    + destruct S3 as (? & _ & ? & ?). by split_and!.
    + exists b. split; [|split; [exact S6|exact S7]]. destruct B as [B1 B2 B3 B4 B5]. split; [exact B1|exact B2|exact B3|exact B4|exact B5].
  - intros i Hi. unfold todo in Hi. rewrite <- andb_assoc in Hi. exact (todo_chair t i _ (be_phase _ _ _ Hbe) Hi).
Qed.

Lemma GetCardType_range h : hand h → 0 <= GetCardType h.
Proof.
  intros Hh. pose proof Hh as (Hl & _). pose proof (bull_number h Hl (hand_values h Hh)) as (_ & Hr & _). cbv zeta in Hr.
  unfold GetCardType. destruct (IsFiveSmall h); [done|]. destruct (IsBomb h); [done|].
  destruct (IsGoldenBull h); [done|]. destruct (IsSilveryBull h); [done|]. cbv zeta. lia.
Qed.

Lemma player_hand t i : Phase cfg t → i ∈ all_players t → hand (rget (m_cbCardData t) i).
Proof.
  intros Hp Hi. pose proof (ph_dealt _ _ Hp) as (Hn & _ & Hh). fold (all_players t) in Hn, Hh. pose proof (ph_two _ _ Hp) as H2.
  assert (∃ j, j ∈ all_players t ∧ i ≠ j) as (j & Hj & Hij).
  { assert (NoDup (all_players t)) as Hnd by (apply NoDup_filter, NoDup_seq).
    destruct (all_players t) as [|a [|b l]] eqn:El; simpl in Hn; [lia|lia|].
    destruct (decide (i = a)) as [->|].
    - exists b. split; [right; by left|]. intros ->. apply NoDup_cons in Hnd as [Hnd _]. apply Hnd. by left.
    - exists a. split; [by left|done]. }
  by destruct (Hh i j Hi Hj Hij).
Qed.

Lemma same_round_trans a b c : same_round a b → same_round b c → same_round a c.
Proof.
  intros (A1 & A2 & A3 & A4 & A5 & A6 & A7 & A8 & A9 & A10) (B1 & B2 & B3 & B4 & B5 & B6 & B7 & B8 & B9 & B10).
  unfold same_round. split_and!; congruence.
Qed.

(** All hands are open: the end of the round. *)
Definition opened (t : Table) : Prop := ∀ i, playing t i = true → (m_sCardType t).[i] ≠ -1.

(** [t0] is the table before the settlement: the chairs and bets are those of [t]. *)
Definition same_bets (t t0 : Table) : Prop := same_round t t0 ∧ round_of cfg t0 = round_of cfg t.

Definition open_card (i : nat) (t : Table) : Table :=
  let h := rget (m_cbCardData t) i in
  t <| m_sCardType ::= <[i := GetCardType h]> |> <| m_iMultiple ::= <[i := GetMultiple h]> |> <| m_cbOXCard ::= <[i := snd (GetOxCard h)]> |>.

Lemma same_bets_trans a b c : same_bets a b → same_bets b c → same_bets a c.
Proof. intros [H1 E1] [H2 E2]. split; [by eapply same_round_trans|congruence]. Qed.

Lemma open_step d tm t i : Opening cfg tm t → i ∈ all_players t →
  ∃ r t', OnUserOpenCard cfg d i t = Some (r, t') ∧
    ((t' = t ∧ (m_sCardType t).[i] ≠ -1) ∨
     ((m_sCardType t).[i] = -1 ∧
      ((Ending t' ∧ opened t' ∧ ∃ t0, same_bets t t0 ∧ paid cfg t0 t') ∨ (Opening cfg tm t' ∧ t' = open_card i t)))).
Proof.
  intros Hop Hi. pose proof (op_phase _ _ _ Hop) as Hp. unfold OnUserOpenCard.
  destruct (Z.eqb_spec (-1) (m_sCardType t).[i]) as [Hm|Hm]; cbn [negb].
  2:{ exists 1, t. split; [done|]. left. split; [done|congruence]. }
  change (t <| m_sCardType ::= _ |> <| m_iMultiple ::= _ |> <| m_cbOXCard ::= _ |>) with (open_card i t).
  set (t1 := open_card i t). apply player_range in Hi as Hlt.
  assert (same_round t t1) as Hs by (unfold same_round; split_and!; try reflexivity; apply length_insert).
  pose proof (same_players t t1 Hs) as Hpl. pose proof (same_phase cfg t t1 Hs Hp) as Hp1.
  pose proof (ph_dealt _ _ Hp1) as (Hn & _). fold (all_players t1) in Hn.
  assert (∀ j, (m_sCardType t1).[j] = if decide (i = j) then GetCardType (rget (m_cbCardData t) i) else (m_sCardType t).[j]) as Htype1.
  { intros j. change (m_sCardType t1) with (<[i := GetCardType (rget (m_cbCardData t) i)]> (m_sCardType t)).
    destruct (decide (i = j)) as [<-|]; [|by rewrite aget_insert_ne]. rewrite aget_insert_eq; [done|]. rewrite (ph_types _ _ Hp). tauto. }
  destruct (op_bank _ _ _ Hop) as (b & Hb & Hadds).
  assert (Bank cfg t1 b) as Hb1 by (apply (same_bank t); try reflexivity; [done|exact (ba_add _ _ _ Hb)|done]).
  assert (∀ j, j ∈ all_players t1 → j ≠ b → bet_ok cfg (m_sAddScore t1).[j]) as Hadds1.
  { intros j Hj. rewrite Hpl in Hj. exact (Hadds j Hj). }
  destruct (Nat.eqb_spec (length (filter (λ j, (m_sCardType t1).[j] ≠ -1) (all_players t1))) (m_wPlayCount t1)) as [Ec|Ec].
  - rewrite Hn in Ec. apply filter_full in Ec. rewrite Forall_forall in Ec.
    destruct (conclude_ok cfg Hcfg d t1 b Hp1 Hb1 Hadds1) as (t' & -> & He & Hpaid & Htypes & Hplay). cbn [mbind option_bind].
    exists 10, t'. split; [done|]. right. split; [done|]. left. split; [done|]. split; [|exists t1; split; [split; [done|by destruct t]|done]].
    intros j Hpj. rewrite Htypes. apply Ec. apply Hplay in Hpj. apply elem_of_players. split; [|done].
    rewrite (ph_play _ _ Hp1) in Hpj. apply (seated_chairs t1); [apply (ph_seats _ _ Hp1)|done].
  - exists 12, t1. split; [done|]. right. split; [done|]. right. split; [|done].
    rewrite Hn in Ec. apply filter_some in Ec as (j & Hj & Hjm%dec_stable).
    split; [exact (op_status _ _ _ Hop)|done|exact (op_timers _ _ _ Hop)|by exists b|by exists j].
Qed.

Lemma GameTimerOpenCard_ok d tm t : Opening cfg tm t → ∃ t', GameTimerOpenCard cfg d t = Some t' ∧ Ending t' ∧ ∃ t0, same_bets t t0 ∧ paid cfg t0 t'.
Proof.
  intros Hop. unfold GameTimerOpenCard, AutoUserOpenCard.
  set (todo := λ t i, playing t i && ((m_sCardType t).[i] =? -1)).
  rewrite (for_each_ext _ (auto (λ i t, OnUserOpenCard cfg d i t) todo)).
  2:{ intros i s. unfold auto, todo. destruct (playing s i); [|done]. by destruct (_ =? -1). }
  assert (∀ t i, Phase cfg t → todo t i = true → i ∈ all_players t ∧ (m_sCardType t).[i] = -1) as Htodo.
  { intros s i Hp Hi. by apply (todo_player s i _ Hp) in Hi as [Hi Hm%Z.eqb_eq]. }
  destruct (auto_loop (λ i t, OnUserOpenCard cfg d i t) todo
    (λ s, Opening cfg false s ∧ same_bets t s) (λ s, Ending s ∧ opened s ∧ ∃ t0, same_bets t t0 ∧ paid cfg t0 s)) with (l := chairs) (t := t <| m_TimerIdOpenCard := false |>) as (t' & E & He & _ & Hpaid).
  - intros s i [Hs Hts] Hi. destruct (Htodo s i (op_phase _ _ _ Hs) Hi) as [Hpl Hm].
    destruct (open_step d false s i Hs Hpl) as (r & s' & E & [(_ & ?)|(_ & [(He & Ho & t0 & Ht0 & Hpaid)|[Hc ->]])]); [done| |].
    + exists r, s'. split; [done|]. left. split; [done|]. split; [done|]. exists t0. split; [by eapply same_bets_trans|done].
    + exists r, (open_card i s). split; [done|]. right. split; [split; [done|]|].
      * eapply same_bets_trans; [exact Hts|]. split; [unfold same_round; split_and!; try reflexivity; apply length_insert|by destruct s].
      * intros j Hj. destruct (Htodo _ j (op_phase _ _ _ Hc) Hj) as [Hjp Hjm].
        change (m_sCardType (open_card i s)) with (<[i:=GetCardType (rget (m_cbCardData s) i)]> (m_sCardType s)) in Hjm.
        destruct (decide (i = j)) as [<-|Hne].
        -- rewrite aget_insert_eq in Hjm.
           ++ pose proof (GetCardType_range _ (player_hand s i (op_phase _ _ _ Hs) Hpl)). lia.
           ++ rewrite (ph_types _ _ (op_phase _ _ _ Hs)). by apply player_range in Hpl as [? _].
        -- rewrite aget_insert_ne in Hjm by done. split; [|congruence]. unfold todo. rewrite Hjm. apply player_range in Hjp as [_ Hjp].
           change (playing s j = true) in Hjp. by rewrite Hjp.
  - intros s i (_ & Ho & _). unfold todo. destruct (playing s i) eqn:Ep; [|done]. simpl. apply Z.eqb_neq. by apply Ho.
  - intros s [Hs _]. destruct (op_open _ _ _ Hs) as (i & Hi & Hm). exists i. apply player_range in Hi as [_ Hi]. unfold todo. by rewrite Hi, Hm.
  - split; [|split; [unfold same_round; split_and!; reflexivity|by destruct t]].
    destruct Hop as [S1 S2 S3 (b & B & S6) S5]. split; try done.
    + apply (same_phase cfg t); [|done]. unfold same_round. split_and!; reflexivity.
    + destruct S3 as (? & ? & _ & ?). by split_and!.
    + exists b. split; [|exact S6]. destruct B as [B1 B2 B3 B4 B5]. split; [exact B1|exact B2|exact B3|exact B4|exact B5].
  - intros i Hi. exact (todo_chair t i _ (op_phase _ _ _ Hop) Hi).
  - by exists t'.
Qed.

End Steps.
