(* ===== verification/BullEvents.v ===== *)
(** Grab the banker, the events: every event of a table in the invariant has a result in
    the invariant. *)
From Stdlib Require Import ZArith Lia.
From S2P Require Import Prelude GameDefine Cards BullLogic BullDeal BullSettle BullTable BullInv BullStart BullBank BullEnd BullSteps.
From stdpp Require Import base numbers sorting sets option list.

#[local] Open Scope Z_scope.

(** ** Chairs and users *)

Lemma find_chair_some user t i : find_chair user t = Some i → i ∈ chairs ∧ ∃ u, GetTableUserItem t i = Some u ∧ userId u = user.
Proof.
  unfold find_chair. intros H. apply head_Some_elem_of in H. apply list_elem_of_filter in H as [H Hi]. split; [done|].
  destruct (GetTableUserItem t i) as [u|]; [|done]. exists u. split; [done|]. by apply Z.eqb_eq.
Qed.

Lemma find_chair_found user t i u : i ∈ chairs → GetTableUserItem t i = Some u → userId u = user → ∃ j, find_chair user t = Some j.
Proof.
  intros Hi Hu Hid. unfold find_chair. destruct (filter _ chairs) as [|j l] eqn:E; [|by exists j].
  assert (i ∈ filter (λ i, match GetTableUserItem t i with Some u => userId u =? user | None => false end = true) chairs) as Hin.
  { apply list_elem_of_filter. rewrite Hu. split; [by apply Z.eqb_eq|done]. }
  rewrite E in Hin. by apply elem_of_nil in Hin.
Qed.

Lemma find_chair_ext user t t' : (∀ j, userId <$> GetTableUserItem t j = userId <$> GetTableUserItem t' j) → find_chair user t = find_chair user t'.
Proof.
  intros H. unfold find_chair. f_equal. apply list_filter_iff. intros j. specialize (H j).
  destruct (GetTableUserItem t j), (GetTableUserItem t' j); simpl in H; try done. by injection H as ->.
Qed.

Lemma sole_guest t i : guests t = [i] → IsAndroidUser t i = false → GetPlayerCount false t = 1%nat.
Proof.
  intros Hg Ha. unfold GetPlayerCount.
  assert (filter (λ i, match GetTableUserItem t i with Some u => false || negb (android u) | None => false end = true) chairs =
          filter (λ i, IsAndroidUser t i = false) (guests t)) as ->.
  { unfold guests. rewrite list_filter_filter. apply list_filter_iff. intros j. rewrite seated_item. unfold IsAndroidUser.
    destruct (GetTableUserItem t j) as [u|]; simpl; [|naive_solver]. destruct (android u); simpl; naive_solver. }
  rewrite Hg. rewrite filter_cons, decide_True by done. done.
Qed.

Lemma guest_in t i u : length (seats t) = GAME_PLAYER → GetTableUserItem t i = Some u → i ∈ guests t.
Proof.
  intros Hl Hu. assert (seated t i = true) as Hs by (apply seated_spec; by exists u). apply elem_guests. split; [by apply (seated_chairs t)|done].
Qed.

Lemma guests_nil t i : guests t = [] → i ∈ chairs → GetTableUserItem t i = None.
Proof.
  intros Hg Hi. destruct (GetTableUserItem t i) as [u|] eqn:E; [|done].
  assert (i ∈ guests t) as H by (apply elem_guests; split; [done|]; apply seated_spec; by exists u). rewrite Hg in H. by apply elem_of_nil in H.
Qed.

Section Events.
Context (cfg : Config) (Hcfg : config_ok cfg).

(** ** The wait *)

Lemma wait_again_ok t : length (seats t) = GAME_PLAYER → length (m_cbCallable t) = GAME_PLAYER ∧ length (m_cbJettonable t) = GAME_PLAYER →
  (∀ i u, GetTableUserItem t i = Some u → 0 <= userScore u <= 1073741824 ∧ 0 < userId u) → (used t = false → ∀ i, seated t i = false) →
  Lobby (wait_again t) ∧ guests (wait_again t) = guests t ∧ MaxGamePlayers (wait_again t) = MaxGamePlayers t.
Proof.
  intros Hl Hr Hu Hused. unfold wait_again. rewrite set_loop by done. set (t1 := ClearAllTimer _).
  assert (seats t1 = seats (set_all sReady t)) as E1 by reflexivity. assert (m_cbPlayStatus t1 = four false) as E2 by reflexivity.
  assert (m_cbCallable t1 = m_cbCallable t ∧ m_cbJettonable t1 = m_cbJettonable t) as [E3 E4] by (split; reflexivity).
  assert (m_wGameStatus t1 = GAME_STATUS_INIT) as E5 by reflexivity. assert (used t1 = used t) as E6 by reflexivity.
  assert (timers false false false false t1) as E7 by (split_and!; reflexivity). assert (MaxGamePlayers t1 = MaxGamePlayers t) as E8 by reflexivity.
  clearbody t1. assert (∀ i, seated t1 i = seated t i) as Hs by (intros i; rewrite (seated_ext _ _ i E1); apply seated_set_all).
  split; [|split; [by apply guests_ext|done]]. split.
  - by left.
  - rewrite E1. simpl. by rewrite length_map.
  - rewrite E2. split; [done|]. intros i. unfold playing. rewrite E2. unfold bget. by do 4 (destruct i as [|i]; [done|]).
  - by rewrite E3, E4.
  - intros i u. rewrite (item_seats _ _ i E1), item_set_all. destruct (GetTableUserItem t i) as [v|] eqn:Ev; [|done]. intros [= <-].
    split; [done|]. by apply (Hu i v).
  - done.
  - rewrite E6. intros H i. rewrite Hs. by apply Hused.
Qed.

Lemma ready_over_ok d t : d_deck d ≡ₚ m_byCardDataArray → Lobby t →
  ∃ t', GameTimerReadyOver cfg d t = Some t' ∧
    (Calling cfg true t' ∨ (Lobby t' ∧ (length (guests t') < 2)%nat ∧ MaxGamePlayers t' = MaxGamePlayers t)).
Proof.
  intros Hdeck Hlo. unfold GameTimerReadyOver.
  assert ((m_wGameStatus t <? GAME_STATUS_START) = true) as -> by (by destruct (lo_status _ Hlo) as [-> | ->]). cbn [assert mbind option_bind].
  destruct (check_loop cfg chairs 0 t (NoDup_seq _ _)) as (s & -> & Hls & Hitems).
  { intros i u Hu. by apply (lo_users _ Hlo) in Hu as [[? _] _]. }
  set (t1 := t <| seats := s |>) in *.
  assert (∀ i, i ∈ chairs → GetTableUserItem t1 i = (u ← GetTableUserItem t i; if kept cfg u then Some u else None)) as Hitem.
  { intros i Hi. by rewrite Hitems, decide_True. }
  assert (length (seats t1) = GAME_PLAYER) as Hl1 by (change (seats t1) with s; by rewrite Hls, (lo_seats _ Hlo)).
  assert (∀ i u, GetTableUserItem t1 i = Some u → kept cfg u = true ∧ GetTableUserItem t i = Some u) as Hkept.
  { intros i u Hu. pose proof (guest_in t1 i u Hl1 Hu) as [Hi _]%elem_guests. rewrite Hitem in Hu by done.
    destruct (GetTableUserItem t i) as [v|]; [|done]. simpl in Hu. destruct (kept cfg v) eqn:Ek; [|done]. injection Hu as ->. done. }
  assert (used t1 = used t ∧ m_cbCallable t1 = m_cbCallable t ∧ m_cbJettonable t1 = m_cbJettonable t ∧ MaxGamePlayers t1 = MaxGamePlayers t)
    as (U1 & U2 & U3 & U4) by (split_and!; reflexivity).
  assert (∀ i, used t1 = false → seated t1 i = false) as Hused.
  { intros i Hu. rewrite U1 in Hu. pose proof (lo_used _ Hlo Hu i) as Hs. rewrite seated_item. rewrite seated_item in Hs.
    destruct (GetTableUserItem t1 i) as [u|] eqn:E; [|done]. apply Hkept in E as [_ E]. by rewrite E in Hs. }
  rewrite Nat.add_0_r. change (filter (λ i, seated t1 i = true) chairs) with (guests t1). clearbody t1. rewrite (ok_min cfg Hcfg).
  destruct (Nat.leb_spec 2 (length (guests t1))) as [H2|H2].
  - assert (Ready cfg t1) as Hr.
    { split; try done.
      - destruct (used t1) eqn:E; [done|]. exfalso. destruct (guests t1) as [|i l] eqn:Eg; [simpl in H2; lia|].
        assert (i ∈ guests t1) as [_ Hi]%elem_guests by (rewrite Eg; by left). by rewrite (Hused i eq_refl) in Hi.
      - rewrite U2, U3. apply (lo_rows _ Hlo).
      - intros i [u Hu]%seated_spec. unfold score_of. rewrite Hu. apply Hkept in Hu as [Hk Hu]. apply (lo_users _ Hlo) in Hu as (_ & [_ ?] & _).
        split; [|done]. unfold kept in Hk. apply andb_true_iff in Hk as [_ Hk%negb_true_iff%Z.ltb_ge]. done.
      - intros i u Hu. apply Hkept in Hu as [_ Hu]. by apply (lo_users _ Hlo) in Hu as (_ & _ & ?). }
    rewrite set_loop by (simpl; exact Hl1). destruct (start_round cfg Hcfg d t1 Hdeck Hr) as (t' & E & Hc). exists t'. split; [exact E|by left].
  - destruct (wait_again_ok t1 Hl1) as (Hw & Hg & Hm).
    { rewrite U2, U3. apply (lo_rows _ Hlo). }
    { intros i u Hu. apply Hkept in Hu as [_ Hu]. by apply (lo_users _ Hlo) in Hu as (_ & ? & ?). }
    { intros H i. by apply Hused. }
    eexists. split; [done|]. right. split; [done|]. split; [by rewrite Hg|]. by rewrite Hm, U4.
Qed.

Lemma draw_players_range r : (2 <= draw_players cfg r <= 4)%nat.
Proof.
  unfold draw_players. set (o := find _ chairs). assert (match o with Some i => S i | None => 0 end <= 4)%nat as H.
  { destruct o as [i|] eqn:E; [|lia]. apply find_some in E as [Hi _]. apply list_elem_of_In, elem_of_seq in Hi. unfold GAME_PLAYER in *. lia. }
  set (k := match o with Some i => S i | None => 0%nat end) in *. clearbody k. cbv zeta. destruct (Nat.ltb_spec k 2); lia.
Qed.

(** A waiting user's scene reads nothing and changes no status. *)
Lemma scene_lobby i t : Lobby t → ∃ g, (if m_wGameStatus t =? GAME_STATUS_INIT then Some t else OnEventGameScene i t) =
  Some (t <| m_bPlayerIsOperation := g |>).
Proof.
  intros Hlo. assert (t = t <| m_bPlayerIsOperation := m_bPlayerIsOperation t |>) as Ht by (by destruct t).
  destruct (Z.eqb_spec (m_wGameStatus t) GAME_STATUS_INIT) as [|Hst]; [exists (m_bPlayerIsOperation t); by rewrite <- Ht|].
  unfold OnEventGameScene, scene_reads. destruct (GetTableUserItem t i) as [u|] eqn:Hu; [|exists (m_bPlayerIsOperation t); by rewrite <- Ht].
  destruct (lo_users _ Hlo i u Hu) as [[_ Hoff] _]. rewrite bool_decide_false by done.
  destruct (lo_status _ Hlo) as [-> | ->]; by eexists.
Qed.

(** A lobby stays one when the counters of the wait change. *)
Lemma lobby_counters t m n : Lobby t → Lobby (t <| MaxGamePlayers := m |> <| totalMatch := n |>).
Proof. intros [L1 L2 L3 L4 L5 L6 L7]. split; [exact L1|exact L2|exact L3|exact L4|exact L5|exact L6|exact L7]. Qed.

Lemma lobby_operated g t : Lobby t → Lobby (t <| m_bPlayerIsOperation := g |>).
Proof. intros [L1 L2 L3 L4 L5 L6 L7]. split; [exact L1|exact L2|exact L3|exact L4|exact L5|exact L6|exact L7]. Qed.

(** The users who may be there when one enters. *)
Definition arrived (t : Table) : Prop :=
  length (guests t) = 1%nat ∧ GetPlayerCount false t = 1%nat ∨
  (2 <= length (guests t) <= MaxGamePlayers t)%nat ∧ (2 <= MaxGamePlayers t <= 4)%nat.

Definition started_or_waiting (t : Table) : Prop := Calling cfg true t ∨ Waiting t.

Lemma ready_over_waits d t : d_deck d ≡ₚ m_byCardDataArray → Lobby t → (2 <= MaxGamePlayers t <= 4)%nat →
  ∃ t', GameTimerReadyOver cfg d t = Some t' ∧ started_or_waiting t'.
Proof.
  intros Hdeck Hlo Hm. destruct (ready_over_ok d t Hdeck Hlo) as (t' & E & [Hc|(Hl & Hg & Hm')]); exists t'; (split; [done|]); [by left|].
  right. split; [done|]. right. rewrite Hm'. lia.
Qed.

Lemma OnUserEnter_inv d user t : d_deck d ≡ₚ m_byCardDataArray → Lobby t → arrived t → is_Some (find_chair user t) →
  ∃ t', OnUserEnter cfg d user t = Some t' ∧ started_or_waiting t'.
Proof.
  intros Hdeck Hlo Harr [i Hi]. unfold OnUserEnter. rewrite Hi.
  set (o := if (_ =? 1)%nat then _ else _).
  assert (∃ t1, o = Some t1 ∧ Lobby t1 ∧ seats t1 = seats t ∧ (2 <= MaxGamePlayers t1 <= 4)%nat ∧ (length (guests t) <= MaxGamePlayers t1)%nat)
    as (t1 & -> & Hlo1 & Hs1 & Hm1 & Hc1).
  { unfold o. rewrite count_guests. destruct Harr as [[Hg Hp]|[Hg Hm]].
    - rewrite Hg, Hp. simpl. rewrite orb_true_r. simpl. eexists. split; [done|]. pose proof (draw_players_range (d_players d)).
      split; [by apply lobby_counters|]. split; [done|]. simpl. lia.
    - rewrite (proj2 (Nat.eqb_neq (length (guests t)) 1)) by lia. exists t. split; [done|]. split; [done|]. split; [done|]. lia. }
  cbn [mbind option_bind].
  assert (guests t1 = guests t) as Hg1 by (apply guests_ext; intros j; by apply seated_ext).
  assert (GetPlayerCount false t1 = GetPlayerCount false t) as Hp1.
  { unfold GetPlayerCount. f_equal. apply list_filter_iff. intros j. by rewrite (item_seats _ _ j Hs1). }
  assert ((m_wGameStatus t1 <? GAME_STATUS_START) = true) as -> by (by destruct (lo_status _ Hlo1) as [-> | ->]).
  assert ((MIN_GAME_PLAYER <=? MaxGamePlayers t1)%nat && (MaxGamePlayers t1 <=? GAME_PLAYER)%nat = true) as ->.
  { apply andb_true_iff. rewrite !Nat.leb_le. unfold MIN_GAME_PLAYER, GAME_PLAYER. lia. }
  cbn [assert mbind option_bind].
  destruct (scene_lobby i t1 Hlo1) as [g ->]. cbn [mbind option_bind]. apply (lobby_operated g) in Hlo1.
  set (t1' := t1 <| m_bPlayerIsOperation := g |>) in *. change (seats t1) with (seats t1') in Hs1. change (guests t1) with (guests t1') in Hg1.
  change (GetPlayerCount false t1) with (GetPlayerCount false t1') in Hp1. change (MaxGamePlayers t1) with (MaxGamePlayers t1') in Hm1, Hc1.
  clearbody t1'. clear t1. rename t1' into t1.
  set (t2 := if (m_wGameStatus t1 <? GAME_STATUS_READY) && _ then _ else t1).
  assert (Lobby t2 ∧ seats t2 = seats t1 ∧ MaxGamePlayers t2 = MaxGamePlayers t1) as (Hlo2 & Hs2 & Hm2).
  { unfold t2. destruct (_ && _); [|done]. split; [|done]. destruct Hlo1 as [L1 L2 L3 L4 L5 L6 L7].
    split; [by right|exact L2|exact L3|exact L4|exact L5|split_and!; reflexivity|exact L7]. }
  clearbody t2. assert ((m_wGameStatus t2 =? GAME_STATUS_LOCK_PLAYING) = false) as -> by (by destruct (lo_status _ Hlo2) as [-> | ->]).
  assert ((m_wGameStatus t2 <? GAME_STATUS_START) = true) as -> by (by destruct (lo_status _ Hlo2) as [-> | ->]).
  assert (guests t2 = guests t) as Hg2 by (rewrite <- Hg1; apply guests_ext; intros j; by apply seated_ext).
  assert (GetPlayerCount false t2 = GetPlayerCount false t) as Hp2.
  { rewrite <- Hp1. unfold GetPlayerCount. f_equal. apply list_filter_iff. intros j. by rewrite (item_seats _ _ j Hs2). }
  rewrite count_guests, Hg2, Hm2. destruct (Nat.leb_spec (MaxGamePlayers t1) (length (guests t))) as [Hfull|Hnot].
  - rewrite (proj2 (Nat.eqb_eq (length (guests t)) (MaxGamePlayers t1))) by lia. cbn [assert mbind option_bind].
    apply ready_over_waits; [done|done|by rewrite Hm2].
  - destruct (Nat.eqb_spec (length (guests t)) 1) as [E1|E1].
    + assert (GetPlayerCount false t = 1%nat) as Hp by (destruct Harr as [[_ ?]|[? _]]; [done|lia]).
      rewrite Hp2, Hp, orb_true_r. cbn [assert mbind option_bind]. eexists. split; [done|]. right. split.
      * destruct Hlo2 as [L1 L2 L3 L4 L5 L6 L7]. split; [exact L1|exact L2|exact L3|exact L4|exact L5|split_and!; reflexivity|exact L7].
      * right. change (guests (ClearAllTimer t2)) with (guests t2). change (MaxGamePlayers (ClearAllTimer t2)) with (MaxGamePlayers t2). rewrite Hg2, Hm2. lia.
    + exists t2. split; [done|]. right. split; [done|]. right. rewrite Hg2, Hm2. lia.
Qed.

(** ** Leaving *)

Lemma ClearTableUser_seats i t : ∃ s, ClearTableUser i t = t <| seats := s |> ∧ length s = length (seats t).
Proof.
  unfold ClearTableUser. destruct (GetTableUserItem t i); [|by exists (seats t); rewrite same_seats].
  case_bool_decide; [by exists (seats t); rewrite same_seats|]. exists (<[i := None]> (seats t)). split; [done|]. by rewrite length_insert.
Qed.

Lemma left_ok t user i : find_chair user t = Some i →
  m_wGameStatus t = GAME_STATUS_INIT ∨ m_wGameStatus t = GAME_STATUS_READY ∨ m_wGameStatus t = GAME_STATUS_END →
  ∃ t', OnUserLeft cfg user (SetUserStatus i sOffline t) = (true, t') ∧
    (m_wGameStatus t' = m_wGameStatus t ∨ m_wGameStatus t = GAME_STATUS_READY ∧ m_wGameStatus t' = GAME_STATUS_INIT) ∧
    length (seats t') = length (seats t) ∧ m_cbPlayStatus t' = <[i := false]> (m_cbPlayStatus t) ∧
    (m_cbCallable t' = m_cbCallable t ∧ m_cbJettonable t' = m_cbJettonable t) ∧ used t' = used t ∧
    MaxGamePlayers t' = MaxGamePlayers t ∧ m_bContinueServer t' = m_bContinueServer t ∧
    (∀ c s o e, timers c s o e t → timers c s o e t' ∨ (m_wGameStatus t = GAME_STATUS_READY ∧ timers false false false false t')) ∧
    ∀ j, GetTableUserItem t' j = if decide (i = j) then None else GetTableUserItem t j.
Proof.
  intros Hf Hst. pose proof (find_chair_some _ _ _ Hf) as (Hi & u & Hu & Hid).
  set (t1 := SetUserStatus i sOffline t).
  assert (∀ j, GetTableUserItem t1 j = if decide (i = j) then (λ u, u <| userStatus := sOffline |>) <$> GetTableUserItem t j else GetTableUserItem t j) as H1.
  { intros j. apply item_set_user. }
  assert (find_chair user t1 = Some i) as Hf1.
  { rewrite <- Hf. apply find_chair_ext. intros j. rewrite H1. destruct (decide (i = j)); [|done]. by destruct (GetTableUserItem t j). }
  unfold OnUserLeft, CanLeftTable. rewrite Hf1.
  assert ((m_wGameStatus t1 <? GAME_STATUS_LOCK_PLAYING) || (m_wGameStatus t1 =? GAME_STATUS_END) = true) as ->.
  { change (m_wGameStatus t1) with (m_wGameStatus t). by destruct Hst as [-> | [-> | ->]]. }
  cbn [negb].
  assert ((m_wGameStatus t1 =? GAME_STATUS_INIT) || (m_wGameStatus t1 =? GAME_STATUS_READY) || (m_wGameStatus t1 =? GAME_STATUS_END) || negb (playing t1 i) = true) as ->.
  { change (m_wGameStatus t1) with (m_wGameStatus t). by destruct Hst as [-> | [-> | ->]]. }
  set (t2 := SetUserStatus i sGetout (t1 <| m_cbPlayStatus ::= <[i := false]> |>)).
  assert (∀ j, GetTableUserItem t2 j = if decide (i = j) then (λ u, u <| userStatus := sGetout |>) <$> GetTableUserItem t1 j else GetTableUserItem t1 j) as H2.
  { intros j. unfold t2, SetUserStatus. rewrite item_set_user. reflexivity. }
  destruct (ClearTableUser_seats i t2) as (s & Es & Hls).
  assert (∀ j, GetTableUserItem (t2 <| seats := s |>) j = if decide (i = j) then None else GetTableUserItem t j) as H3.
  { intros j. rewrite <- Es, item_ClearTableUser, H2, H1. destruct (decide (i = j)) as [<-|Hne].
    - rewrite Hu. cbn [fmap option_fmap option_map]. by rewrite decide_True.
    - destruct (GetTableUserItem t j); [|done]. by rewrite decide_False by (intros []; done). }
  rewrite Es. set (t3 := t2 <| seats := s |>) in *.
  assert (m_wGameStatus t3 = m_wGameStatus t ∧ m_cbPlayStatus t3 = <[i := false]> (m_cbPlayStatus t) ∧ m_cbCallable t3 = m_cbCallable t ∧
    m_cbJettonable t3 = m_cbJettonable t ∧ used t3 = used t ∧ MaxGamePlayers t3 = MaxGamePlayers t ∧ m_bContinueServer t3 = m_bContinueServer t)
    as (F1 & F2 & F3 & F4 & F5 & F6 & F7) by (split_and!; reflexivity).
  assert (∀ c s o e, timers c s o e t → timers c s o e t3) as F8 by (intros ? ? ? ? H; exact H).
  assert (length (seats t3) = length (seats t)) as F9.
  { change (length s = length (seats t)). rewrite Hls. unfold t2, t1, SetUserStatus, set_user. simpl. by rewrite !length_alter. }
  clearbody t3. destruct ((m_wGameStatus t3 =? GAME_STATUS_READY) && _) eqn:Er.
  - apply andb_true_iff in Er as [Er%Z.eqb_eq _]. eexists. split; [reflexivity|].
    split; [right; split; [congruence|reflexivity]|]. split; [exact F9|]. split; [exact F2|]. split; [split; [exact F3|exact F4]|].
    split; [exact F5|]. split; [exact F6|]. split; [exact F7|]. split; [|exact H3].
    intros c s' o e _. right. split; [congruence|]. split_and!; reflexivity.
  - exists t3. split; [done|]. split; [by left|]. split_and!; try done. intros c s' o e H. left. by apply F8.
Qed.

Lemma lobby_left t user i : Waiting t → find_chair user t = Some i → ∃ t', OnUserLeft cfg user (SetUserStatus i sOffline t) = (true, t') ∧ Waiting t'.
Proof.
  intros [Hlo Hc] Hf. destruct (left_ok t user i Hf) as (t' & E & Hst & Hl & Hp & [Hr1 Hr2] & Hu & Hm & _ & Ht & Hi).
  { destruct (lo_status _ Hlo); tauto. }
  exists t'. split; [done|].
  assert (∀ j u, GetTableUserItem t' j = Some u → GetTableUserItem t j = Some u) as Hsub.
  { intros j u. rewrite Hi. by destruct (decide (i = j)). }
  assert (∀ j, seated t' j = true → seated t j = true) as Hseat.
  { intros j [u Hj]%seated_spec. apply seated_spec. exists u. by apply Hsub. }
  assert (length (guests t') <= length (guests t))%nat as Hlen.
  { apply submseteq_length, NoDup_submseteq; [apply NoDup_filter, NoDup_seq|]. intros j. rewrite !elem_guests. intros [? ?]. auto. }
  split.
  - destruct Hlo as [L1 L2 [L3 L3'] [L4 L4'] L5 L6 L7]. split.
    + destruct Hst as [-> | [_ ->]]; [done|by left].
    + by rewrite Hl.
    + rewrite Hp. split; [by rewrite length_insert|]. intros j. unfold playing, bget. rewrite Hp.
      destruct (decide (i = j)) as [->|]; [|rewrite list_lookup_insert_ne by done; apply L3'].
      destruct (decide (j < length (m_cbPlayStatus t))%nat); [by rewrite list_lookup_insert_eq|].
      rewrite list_insert_ge by lia. apply L3'.
    + by rewrite Hr1, Hr2.
    + intros j u Hj. by apply (L5 j u), Hsub.
    + destruct (Ht _ _ _ _ L6) as [?|[_ ?]]; done.
    + rewrite Hu. intros H j. specialize (L7 H j). destruct (seated t' j) eqn:Ej; [|done]. apply Hseat in Ej. congruence.
  - destruct Hc as [Hc|Hc]; [left|right; rewrite Hm; lia]. rewrite Hc in Hlen. simpl in Hlen. apply nil_length_inv. lia.
Qed.

Lemma ending_left t user i : Ending t → find_chair user t = Some i → ∃ t', OnUserLeft cfg user (SetUserStatus i sOffline t) = (true, t') ∧ Ending t'.
Proof.
  intros [E1 E2 E3 [E4 E4'] E5] Hf. destruct (left_ok t user i Hf) as (t' & E & Hst & Hl & Hp & [Hr1 Hr2] & Hu & Hm & Hk & Ht & Hi); [tauto|].
  exists t'. split; [done|]. split.
  - destruct Hst as [-> | [Hx _]]; [done|by rewrite E1 in Hx].
  - congruence.
  - congruence.
  - split; congruence.
  - destruct E5 as [E5|(E5 & E6 & E7)].
    + left. destruct (Ht _ _ _ _ E5) as [?|[Hx _]]; [done|by rewrite E1 in Hx].
    + right. split; [destruct (Ht _ _ _ _ E5) as [?|[Hx _]]; [done|by rewrite E1 in Hx]|]. split; [congruence|]. intros j. specialize (E7 j).
      rewrite seated_item in *. rewrite Hi. by destruct (decide (i = j)).
Qed.

(** ** Users who stay *)

Definition people (u : User) : Z * Z := (userScore u, userId u).

Section People.
Context (t : Table) (s : list (option User)) (Hl : length s = length (seats t))
  (Hs : ∀ j, people <$> GetTableUserItem (t <| seats := s |>) j = people <$> GetTableUserItem t j).

Lemma people_seated j : seated (t <| seats := s |>) j = seated t j.
Proof. specialize (Hs j). rewrite !seated_item. by destruct (GetTableUserItem _ j), (GetTableUserItem t j). Qed.

Lemma people_score j : score_of (t <| seats := s |>) j = score_of t j.
Proof.
  specialize (Hs j). unfold score_of. destruct (GetTableUserItem _ j) as [u|], (GetTableUserItem t j) as [v|]; try done.
  simpl in Hs. unfold people in Hs. congruence.
Qed.

Lemma people_phase : Phase cfg t → Phase cfg (t <| seats := s |>).
Proof.
  intros [H1 H2 H3 H4 H5 H6 H7 H8 H9 H10 H11 H12 H13].
  split; [exact H1|by rewrite <- H2|exact H3|exact H4|exact H5|exact H6|exact H7|exact H8| |exact H10| |exact H12|].
  - intros i. rewrite people_seated. apply H9.
  - intros i Hi. rewrite people_score. by apply H11.
  - intros i u Hu. specialize (Hs i). rewrite Hu in Hs. destruct (GetTableUserItem t i) as [v|] eqn:Ev; [|done].
    simpl in Hs. unfold people in Hs. injection Hs as _ ->. by apply (H13 i v).
Qed.

Lemma people_calling tm : Calling cfg tm t → Calling cfg tm (t <| seats := s |>).
Proof.
  intros [C1 C2 C3 C4 C5 C6 C7 C8].
  assert (∀ i c, covered cfg t i c → covered cfg (t <| seats := s |>) i c) as Hcov.
  { intros i c. unfold covered. by rewrite people_score. }
  split; [exact C1|by apply people_phase|exact C3| | |exact C6|exact C7|exact C8].
  - intros i Hi. eapply Forall_impl; [exact (C4 i Hi)|]. apply Hcov.
  - intros i Hi. destruct (C5 i Hi) as [? ?]. split; [done|by apply Hcov].
Qed.

Lemma people_bank b : Bank cfg t b → Bank cfg (t <| seats := s |>) b.
Proof. intros [B1 B2 B3 B4 B5]. split; [exact B1|exact B2|exact B3|exact B4|exact B5]. Qed.

Lemma people_betting tm : Betting cfg tm t → Betting cfg tm (t <| seats := s |>).
Proof.
  intros [C1 C2 C3 C4 C5 (b & B & C6)]. split; [exact C1|by apply people_phase|exact C3|exact C4|exact C5|].
  exists b. split; [by apply people_bank|exact C6].
Qed.

Lemma people_opening tm : Opening cfg tm t → Opening cfg tm (t <| seats := s |>).
Proof.
  intros [C1 C2 C3 (b & B & C4) C5]. split; [exact C1|by apply people_phase|exact C3| |exact C5].
  exists b. split; [by apply people_bank|exact C4].
Qed.
End People.

Lemma status_inv i st t : Calling cfg true t ∨ Betting cfg true t ∨ Opening cfg true t →
  let t' := SetUserStatus i st t in Calling cfg true t' ∨ Betting cfg true t' ∨ Opening cfg true t'.
Proof.
  intros H. cbv zeta. set (s := alter (fmap (λ u, u <| userStatus := st |>)) i (seats t)).
  change (SetUserStatus i st t) with (t <| seats := s |>).
  assert (length s = length (seats t)) as Hl by apply length_alter.
  assert (∀ j, people <$> GetTableUserItem (t <| seats := s |>) j = people <$> GetTableUserItem t j) as Hs.
  { intros j. change (GetTableUserItem (t <| seats := s |>) j) with (GetTableUserItem (SetUserStatus i st t) j). unfold SetUserStatus.
    rewrite item_set_user. destruct (decide (i = j)); [|done]. by destruct (GetTableUserItem t j). }
  destruct H as [H|[H|H]]; [left; by apply people_calling|right; left; by apply people_betting|right; right; by apply people_opening].
Qed.

Lemma playing_status t : Calling cfg true t ∨ Betting cfg true t ∨ Opening cfg true t →
  Phase cfg t ∧ GAME_STATUS_START < m_wGameStatus t < GAME_STATUS_END.
Proof.
  intros [H|[H|H]].
  - split; [apply (ca_phase _ _ _ H)|]. by rewrite (ca_status _ _ _ H).
  - split; [apply (be_phase _ _ _ H)|]. by rewrite (be_status _ _ _ H).
  - split; [apply (op_phase _ _ _ H)|]. by rewrite (op_status _ _ _ H).
Qed.

(** ** The end *)

Lemma clear_loop t : length (seats t) = GAME_PLAYER →
  foldl (λ t i, if seated t i then ClearTableUser i (SetUserStatus i sOffline t) else t) t chairs = t <| seats := four None |>.
Proof. intros Hl. four_seats t. repeat match goal with u : option User |- _ => destruct u end; reflexivity. Qed.

Lemma GameTimerEnd_ok t : Ending t → Ending (GameTimerEnd t) ∨ (Waiting (GameTimerEnd t) ∧ guests (GameTimerEnd t) = []).
Proof.
  intros [E1 E2 E3 [E4 E4'] E5]. unfold GameTimerEnd. rewrite clear_loop by exact E3. set (t1 := t <| m_TimerIdEnd := false |>).
  assert (timers false false false false t1) as Ht by (destruct E5 as [(? & ? & ? & ?)|((? & ? & ? & ?) & _)]; by split_and!).
  assert (m_wGameStatus t1 = m_wGameStatus t ∧ used t1 = used t ∧ m_cbCallable t1 = m_cbCallable t ∧ m_cbJettonable t1 = m_cbJettonable t ∧
    m_bContinueServer t1 = m_bContinueServer t) as (F1 & F2 & F3 & F4 & F5) by (split_and!; reflexivity).
  clearbody t1. assert (∀ t i, seats t = four None → seated t i = false) as Hnone.
  { clear. intros t i H. rewrite seated_item. unfold GetTableUserItem. rewrite H. by do 4 (destruct i as [|i]; [done|]). }
  destruct (m_bContinueServer t1) eqn:Ec; cbn [negb].
  - right. set (t2 := InitGameData _).
    assert (m_wGameStatus t2 = GAME_STATUS_INIT) as G1 by reflexivity. assert (seats t2 = four None) as G2 by reflexivity.
    assert (m_cbPlayStatus t2 = four false) as G3 by reflexivity. assert (m_cbCallable t2 = m_cbCallable t1 ∧ m_cbJettonable t2 = m_cbJettonable t1) as [G4 G5] by (split; reflexivity).
    assert (timers false false false false t2) as G6 by exact Ht. assert (used t2 = used t1) as G7 by reflexivity. clearbody t2.
    assert (guests t2 = []) as Hg.
    { apply filter_none, Forall_forall. intros i _. by rewrite Hnone. }
    split; [|done]. split; [|by left]. split.
    + by left.
    + by rewrite G2.
    + rewrite G3. split; [done|]. intros i. unfold playing, bget. rewrite G3. by do 4 (destruct i as [|i]; [done|]).
    + by rewrite G4, G5, F3, F4.
    + intros i u Hu. unfold GetTableUserItem in Hu. rewrite G2 in Hu. by do 4 (destruct i as [|i]; [done|]).
    + done.
    + intros _ i. by apply Hnone.
  - left. split; [exact (eq_trans F1 E1)|exact (eq_trans F2 E2)|done| |].
    + split; [exact (eq_trans (f_equal length F3) E4)|exact (eq_trans (f_equal length F4) E4')].
    + right. split; [exact Ht|]. split; [exact Ec|]. intros i. by apply Hnone.
Qed.

End Events.
