(* ===== verification/BullReach.v ===== *)
(** Grab the banker, reachable tables: an event leaves a consistent table consistent, and
    has a result unless the scene of a user who comes back reads past a row. *)
From Stdlib Require Import ZArith Lia.
From S2P Require Import Prelude GameDefine Cards BullLogic BullDeal BullSettle BullTable BullInv BullStart BullBank BullEnd BullSteps BullEvents.
From stdpp Require Import base numbers sorting sets option list.

#[local] Open Scope Z_scope.

Section Reach.
Context (cfg : Config) (Hcfg : config_ok cfg).

(** ** Every event has a result *)

(** Users bring at most 2^30. *)
Definition event_ok (e : Event) : Prop := match e with ESit u _ => 0 <= userScore u <= 1073741824 | _ => True end.

Definition draw_ok (d : Draw) : Prop := d_deck d ≡ₚ m_byCardDataArray.

Lemma find_negative t : (∀ i u, GetTableUserItem t i = Some u → 0 < userId u) → find_chair (-1) t = None.
Proof.
  intros Hids. destruct (find_chair (-1) t) as [i|] eqn:E; [|done]. apply find_chair_some in E as (_ & u & Hu & Hid).
  specialize (Hids i u Hu). lia.
Qed.

Lemma CanJoin_playing t user : GAME_STATUS_START < m_wGameStatus t < GAME_STATUS_END →
  CanJoinTable t user = Some (bool_decide (is_Some (find_chair user t))).
Proof.
  intros Hst. unfold CanJoinTable, GAME_STATUS_START, GAME_STATUS_END, GAME_STATUS_LOCK_PLAYING in *.
  rewrite (proj2 (Z.eqb_neq _ _)), (proj2 (Z.ltb_ge _ _)), (proj2 (Z.ltb_lt _ _)) by lia. done.
Qed.

Lemma may_sit_playing u chair t : Phase cfg t → GAME_STATUS_START < m_wGameStatus t < GAME_STATUS_END → may_sit u chair t = Some false.
Proof.
  intros Hp Hst. unfold may_sit. destruct (_ || _ || _ || _) eqn:E; [done|]. apply orb_false_iff in E as [[[_ _]%orb_false_iff Hf]%orb_false_iff _].
  rewrite (ph_used _ _ Hp), !CanJoin_playing by done. rewrite (find_negative t) by apply (ph_ids _ _ Hp).
  destruct (android u); [by destruct (_ =? 0)%nat|]. by rewrite Hf.
Qed.

Lemma may_sit_ending u chair t : Ending t → may_sit u chair t = Some false.
Proof.
  intros [E1 E2 _ _ _]. unfold may_sit. destruct (_ || _); [done|]. rewrite E2. unfold CanJoinTable. rewrite E1.
  destruct (android u); [by destruct (_ =? 0)%nat|done].
Qed.

(** A user sits down at a waiting table. *)
Lemma sit_guests t chair u : length (seats t) = GAME_PLAYER → chair ∈ chairs → seated t chair = false →
  let t' := t <| seats ::= <[chair := Some u]> |> <| used := true |> in
  guests t' ≡ₚ chair :: guests t ∧ ∀ j, GetTableUserItem t' j = if decide (chair = j) then Some u else GetTableUserItem t j.
Proof.
  intros Hl Hc Hs. cbv zeta. set (t' := _ <| used := true |>).
  assert (∀ j, GetTableUserItem t' j = if decide (chair = j) then Some u else GetTableUserItem t j) as Hi.
  { intros j. unfold GetTableUserItem. change (seats t') with (<[chair := Some u]> (seats t)). apply elem_of_seq in Hc.
    destruct (decide (chair = j)) as [<-|]; [by rewrite list_lookup_insert_eq by (rewrite Hl; lia)|by rewrite list_lookup_insert_ne]. }
  split; [|done]. clearbody t'. apply NoDup_Permutation; [apply NoDup_filter, NoDup_seq| |].
  - constructor; [|apply NoDup_filter, NoDup_seq]. rewrite elem_guests, Hs. by intros [_ ?].
  - intros j. rewrite elem_of_cons, !elem_guests, !seated_item, Hi. destruct (decide (chair = j)) as [<-|Hne]; [tauto|].
    split; [tauto|]. intros [->|?]; [done|tauto].
Qed.

Lemma real_guest t : GetPlayerCount false t ≠ 0%nat → guests t ≠ [].
Proof.
  intros H Hg. apply H. unfold GetPlayerCount. rewrite filter_none; [done|]. apply Forall_forall. intros i Hi.
  by rewrite (guests_nil t i Hg Hi).
Qed.

Lemma exec_sit d u chair t : draw_ok d → event_ok (ESit u chair) → Inv cfg t → ∃ t', exec cfg d (ESit u chair) t = Some t' ∧ Inv cfg t'.
Proof.
  intros Hd Hu Hinv. cbn [exec]. destruct Hinv as [Hw|[H|[H|[H|H]]]].
  2:{ rewrite (may_sit_playing u chair t (ca_phase _ _ _ H)) by (by rewrite (ca_status _ _ _ H)). exists t. split; [done|]. right. by left. }
  2:{ rewrite (may_sit_playing u chair t (be_phase _ _ _ H)) by (by rewrite (be_status _ _ _ H)). exists t. split; [done|]. right. right. by left. }
  2:{ rewrite (may_sit_playing u chair t (op_phase _ _ _ H)) by (by rewrite (op_status _ _ _ H)). exists t. split; [done|]. right. right. right. by left. }
  2:{ rewrite (may_sit_ending u chair t H). exists t. split; [done|]. by repeat right. }
  pose proof (wa_lobby _ Hw) as Hlo.
  assert (∃ ok : bool, may_sit u chair t = Some ok ∧ (ok = true → chair ∈ chairs ∧ seated t chair = false ∧ 0 < userId u ∧
    (android u = true → GetPlayerCount false t ≠ 0%nat))) as (ok & -> & Hok).
  { unfold may_sit. destruct (_ || _ || _ || _) eqn:E; [by exists false|].
    apply orb_false_iff in E as [[[E1%negb_false_iff%Nat.ltb_lt E2]%orb_false_iff E3]%orb_false_iff E4%Z.leb_gt].
    assert (chair ∈ chairs) as Hc by (apply elem_of_seq; lia).
    assert (∀ user, ∃ b, CanJoinTable t user = Some b) as Hjoin.
    { intros user. unfold CanJoinTable. destruct (lo_status _ Hlo) as [-> | ->]; simpl; destruct (_ <=? _)%nat; (by eexists) || (destruct (_ =? -1); [by eexists|]; destruct (find_chair user t); by eexists). }
    destruct (android u).
    - destruct (Nat.eqb_spec (GetPlayerCount false t) 0); [by exists false|]. destruct (Hjoin (-1)) as [b ->]. by exists b.
    - destruct (used t); [destruct (Hjoin (userId u)) as [b ->]; by exists b|]. by exists true. }
  cbn [mbind option_bind]. destruct ok; [|exists t; split; [done|by left]]. destruct (Hok eq_refl) as (Hc & Hs & Hid & Hreal).
  set (v := u <| userStatus := sSit |>). destruct (sit_guests t chair v (lo_seats _ Hlo) Hc Hs) as [Hg Hi].
  set (t1 := t <| seats ::= <[chair := Some v]> |> <| used := true |>) in *.
  assert (Lobby t1) as Hlo1.
  { destruct Hlo as [L1 L2 L3 L4 L5 L6 L7]. split; [exact L1| |exact L3|exact L4| |exact L6|intros Hf; discriminate Hf].
    - change (length (<[chair := Some v]> (seats t)) = GAME_PLAYER). by rewrite length_insert.
    - intros j w. rewrite Hi. destruct (decide (chair = j)); [|apply L5]. intros [= <-]. split; [done|]. split; [exact Hu|done]. }
  assert (arrived t1) as Harr.
  { pose proof (Permutation_length Hg) as Hlen. simpl in Hlen. destruct (wa_count _ Hw) as [Hnil|[Hm Hlt]].
    - left. rewrite Hnil in Hlen, Hg. split; [done|]. apply Permutation_singleton_r in Hg. apply (sole_guest t1 chair); [done|].
      unfold IsAndroidUser. rewrite Hi, decide_True by done. change (android u = false). destruct (android u); [|done].
      exfalso. by apply (real_guest t (Hreal eq_refl)).
    - change (MaxGamePlayers t1) with (MaxGamePlayers t). destruct (guests t) as [|a l] eqn:Eg; [|right; change (MaxGamePlayers t1) with (MaxGamePlayers t); simpl in *; lia].
      left. split; [done|]. apply Permutation_singleton_r in Hg. apply (sole_guest t1 chair); [done|].
      unfold IsAndroidUser. rewrite Hi, decide_True by done. change (android u = false). destruct (android u); [|done].
      exfalso. by apply (real_guest t (Hreal eq_refl)). }
  assert (is_Some (find_chair (userId u) t1)) as Hfind.
  { destruct (find_chair_found (userId u) t1 chair v Hc) as [j Hj]; [rewrite Hi; by rewrite decide_True|done|by exists j]. }
  destruct (OnUserEnter_inv cfg Hcfg d (userId u) t1 Hd Hlo1 Harr Hfind) as (t' & E & [H|H]); exists t'; (split; [exact E|]).
  - right. by left.
  - by left.
Qed.

(** The scene keeps everything but the status of the user and that he has done something. *)
Lemma scene_seats i t t' : OnEventGameScene i t = Some t' → ∃ g, t' = t <| m_bPlayerIsOperation := g |> ∨
  t' = SetUserStatus i sPlaying t <| m_bPlayerIsOperation := g |>.
Proof.
  unfold OnEventGameScene. destruct (GetTableUserItem t i) as [u|].
  - destruct (scene_reads t); [|done]. cbn [mbind option_bind]. case_bool_decide; intros [= <-]; eexists; [by right|by left].
  - intros [= <-]. exists (m_bPlayerIsOperation t). left. by destruct t.
Qed.

Lemma scene_status i t t' : OnEventGameScene i t = Some t' → m_wGameStatus t' = m_wGameStatus t.
Proof. by intros [g [-> | ->]]%scene_seats. Qed.

(** A user who comes back while a round is played gets the scene. *)
Lemma return_playing d user j t : Phase cfg t → GAME_STATUS_START < m_wGameStatus t < GAME_STATUS_END → find_chair user t = Some j →
  (ok ← CanJoinTable t user; if ok : bool then OnUserEnter cfg d user t else Some t) = OnEventGameScene j t.
Proof.
  intros Hp Hst Hj. rewrite CanJoin_playing by done. rewrite bool_decide_true by (by exists j). cbn [mbind option_bind].
  unfold OnUserEnter. rewrite Hj, count_guests.
  assert (length (guests t) = m_wPlayCount t) as Hg.
  { destruct (ph_dealt _ _ Hp) as (-> & _). fold (all_players t). f_equal. symmetry. apply list_filter_iff. intros k. by rewrite <- (ph_play _ _ Hp). }
  pose proof (ph_two _ _ Hp). rewrite (proj2 (Nat.eqb_neq (length (guests t)) 1)) by lia. cbn [mbind option_bind].
  unfold GAME_STATUS_START, GAME_STATUS_END in Hst.
  rewrite (proj2 (Z.ltb_ge (m_wGameStatus t) GAME_STATUS_START)) by (unfold GAME_STATUS_START; lia). cbn [mbind option_bind].
  rewrite (proj2 (Z.eqb_neq (m_wGameStatus t) GAME_STATUS_INIT)) by (unfold GAME_STATUS_INIT; lia).
  destruct (OnEventGameScene j t) as [t'|] eqn:E; [|done]. cbn [mbind option_bind]. pose proof (scene_status j t t' E) as Hs.
  rewrite (proj2 (Z.ltb_ge (m_wGameStatus t') GAME_STATUS_READY)) by (unfold GAME_STATUS_READY; lia). cbn [andb].
  rewrite (proj2 (Z.eqb_neq (m_wGameStatus t') GAME_STATUS_LOCK_PLAYING)) by (unfold GAME_STATUS_LOCK_PLAYING; lia).
  by rewrite (proj2 (Z.ltb_ge (m_wGameStatus t') GAME_STATUS_START)) by (unfold GAME_STATUS_START; lia).
Qed.

(** The hands are opened and the banker has bid four: the bid is past the row of the scene. *)
Definition bid_past (t : Table) : Prop :=
  m_wGameStatus t = GAME_STATUS_OPEN ∧ ∃ b, m_wBankerUser t = Some b ∧ (m_sCallBanker t).[b] = 4.

Lemma bets_read_ok t b : Bank cfg t b → (∀ j, j ∈ all_players t → j ≠ b → (m_sAddScore t).[j] = -1 ∨ bet_ok cfg (m_sAddScore t).[j]) →
  bets_read t = true.
Proof.
  intros Hb Hadd. apply forallb_forall. intros j Hj%list_elem_of_In. apply Z.ltb_lt.
  assert (Z.of_nat (MaxJettonMul cfg) <= Z.of_nat MAX_JETTON_MUL) by (unfold MaxJettonMul, MAX_JETTON_MUL; destruct (m_isMatch cfg); lia).
  destruct (decide (j = b)) as [->|Hne]; [rewrite (ba_add _ _ _ Hb); unfold MAX_JETTON_MUL; lia|].
  destruct (Hadd j Hj Hne) as [->|[_ ?]]; [unfold MAX_JETTON_MUL|]; lia.
Qed.

Lemma scene_reads_ok t : Calling cfg true t ∨ Betting cfg true t ∨ Opening cfg true t →
  scene_reads t = Some tt ∧ ¬ bid_past t ∨ scene_reads t = None ∧ bid_past t.
Proof.
  unfold scene_reads, bid_past. intros [H|[H|H]].
  - rewrite (ca_status _ _ _ H). left. split; [done|]. by intros [? _].
  - rewrite (be_status _ _ _ H). destruct (be_bank _ _ _ H) as (b & Hb & Hadd & _). left.
    rewrite Z.eqb_refl, (ba_user _ _ _ Hb), (bets_read_ok t b Hb Hadd). split; [done|]. by intros [? _].
  - rewrite (op_status _ _ _ H). destruct (op_bank _ _ _ H) as (b & Hb & Hadd). change (GAME_STATUS_OPEN =? GAME_STATUS_SCORE) with false.
    rewrite Z.eqb_refl, (ba_user _ _ _ Hb), (bets_read_ok t b Hb) by (intros; right; by apply Hadd).
    destruct (ba_call _ _ _ Hb) as [Hc1 Hc2]. cbn [mbind option_bind]. rewrite (proj2 (Z.leb_le 0 _)) by lia. cbn [andb].
    destruct (Z.ltb_spec (m_sCallBanker t).[b] (Z.of_nat MAX_BANKER_MUL)) as [Hlt|Hge]; unfold MAX_BANKER_MUL in *; [left|right]; (split; [done|]).
    + intros (_ & b' & [= <-] & Hb4). lia.
    + split; [done|]. exists b. split; [done|]. lia.
Qed.

(** Who has done something is no part of the phases. *)
Lemma operated g t : Inv cfg t → Inv cfg (t <| m_bPlayerIsOperation ::= g |>).
Proof.
  assert (Phase cfg t → Phase cfg (t <| m_bPlayerIsOperation ::= g |>)) as Hp.
  { intros [H1 H2 H3 H4 H5 H6 H7 H8 H9 H10 H11 H12 H13].
    split; [exact H1|exact H2|exact H3|exact H4|exact H5|exact H6|exact H7|exact H8|exact H9|exact H10|exact H11|exact H12|exact H13]. }
  assert (∀ b, Bank cfg t b → Bank cfg (t <| m_bPlayerIsOperation ::= g |>) b) as Hb.
  { intros b [B1 B2 B3 B4 B5]. split; [exact B1|exact B2|exact B3|exact B4|exact B5]. }
  intros [[[L1 L2 L3 L4 L5 L6 L7] Hc]|[[C1 C2 C3 C4 C5 C6 C7 C8]|[[C1 C2 C3 C4 C5 (b & B & C6)]|[[C1 C2 C3 (b & B & C4) C5]|[E1 E2 E3 E4 E5]]]]].
  - left. split; [split; [exact L1|exact L2|exact L3|exact L4|exact L5|exact L6|exact L7]|exact Hc].
  - right. left. split; [exact C1|by apply Hp|exact C3|exact C4|exact C5|exact C6|exact C7|exact C8].
  - right. right. left. split; [exact C1|by apply Hp|exact C3|exact C4|exact C5|]. exists b. split; [by apply Hb|exact C6].
  - right. right. right. left. split; [exact C1|by apply Hp|exact C3| |exact C5]. exists b. split; [by apply Hb|exact C4].
  - repeat right. split; [exact E1|exact E2|exact E3|exact E4|exact E5].
Qed.

Lemma scene_inv i t : Calling cfg true t ∨ Betting cfg true t ∨ Opening cfg true t → is_Some (GetTableUserItem t i) →
  (∃ t', OnEventGameScene i t = Some t' ∧ Inv cfg t') ∧ ¬ bid_past t ∨ OnEventGameScene i t = None ∧ bid_past t.
Proof.
  intros H [u Hu]. pose proof (status_inv cfg i sPlaying t H) as Hs. cbv zeta in Hs.
  unfold OnEventGameScene. rewrite Hu. destruct (scene_reads_ok t H) as [[-> Hn]|[-> Hp]]; [left|right; done].
  split; [|done]. eexists. split; [done|]. case_bool_decide; apply operated; unfold Inv; tauto.
Qed.

(** A real user comes back to a table whose scene reads past the row. *)
Definition reads_past (t : Table) (e : Event) : Prop :=
  bid_past t ∧ ∃ user i, e = EReturn user ∧ find_chair user t = Some i ∧ IsAndroidUser t i = false.

Lemma exec_return d user t : draw_ok d → Inv cfg t →
  (∃ t', exec cfg d (EReturn user) t = Some t' ∧ Inv cfg t') ∧ ¬ reads_past t (EReturn user) ∨
  exec cfg d (EReturn user) t = None ∧ reads_past t (EReturn user).
Proof.
  intros Hd Hinv. cbn [exec]. unfold reads_past. destruct (find_chair user t) as [i|] eqn:Hf; [|left; split; [by exists t|]].
  2:{ intros (_ & v & j & [= <-] & Hj & _). congruence. }
  destruct (IsAndroidUser t i) eqn:Ha; [left; split; [by exists t|]|].
  { intros (_ & v & j & [= <-] & Hj & Hr). congruence. } pose proof (find_chair_some _ _ _ Hf) as (Hi & u & Hu & Hid).
  assert (Waiting t ∨ Ending t ∨ Calling cfg true t ∨ Betting cfg true t ∨ Opening cfg true t) as [Hw|[He|H]] by (unfold Inv in Hinv; tauto).
  - left. split; [|by intros [[Est _] _]; destruct (lo_status _ (wa_lobby _ Hw)) as [E|E]; rewrite E in Est].
    pose proof (wa_lobby _ Hw) as Hlo. pose proof (guest_in t i u (lo_seats _ Hlo) Hu) as Hin.
    assert (∃ b : bool, CanJoinTable t user = Some b) as [b ->].
    { unfold CanJoinTable. destruct (lo_status _ Hlo) as [-> | ->]; simpl; destruct (_ <=? _)%nat; (by eexists) || (destruct (_ =? -1); [by eexists|]; destruct (find_chair user t); by eexists). }
    cbn [mbind option_bind]. destruct b; [|exists t; split; [done|by left]].
    destruct (OnUserEnter_inv cfg Hcfg d user t Hd Hlo) as (t' & E & [H|H]).
    + destruct (wa_count _ Hw) as [Hnil|[Hm Hlt]]; [rewrite Hnil in Hin; by apply elem_of_nil in Hin|].
      destruct (guests t) as [|a [|b l]] eqn:Eg; [by apply elem_of_nil in Hin| |].
      * left. rewrite Eg. split; [done|]. apply list_elem_of_singleton in Hin as ->. by apply (sole_guest t a).
      * right. rewrite Eg. simpl in *. lia.
    + by exists i.
    + exists t'. split; [done|]. right. by left.
    + exists t'. split; [done|]. by left.
  - left. unfold CanJoinTable. rewrite (en_status _ He). split; [exists t; split; [done|by repeat right]|].
    intros [[Est _] _]. by rewrite (en_status _ He) in Est.
  - destruct (playing_status cfg t H) as [Hp Hst]. rewrite (return_playing d user i t Hp Hst Hf).
    destruct (scene_inv i t H) as [[Hok Hn]|[E Hpast]]; [by exists u|left; split; [done|tauto]|right].
    split; [done|]. split; [done|]. by exists user, i.
Qed.

Lemma refuses_playing user i t : Calling cfg true t ∨ Betting cfg true t ∨ Opening cfg true t → find_chair user t = Some i →
  CanLeftTable t user = false ∧ OnUserLeft cfg user (SetUserStatus i sOffline t) = (false, SetUserStatus i sOffline t).
Proof.
  intros H Hf. destruct (playing_status cfg t H) as [_ Hst].
  assert (∀ t, m_wGameStatus t = m_wGameStatus t → GAME_STATUS_START < m_wGameStatus t < GAME_STATUS_END → is_Some (find_chair user t) → CanLeftTable t user = false) as Hcan.
  { intros s _ Hs [j Hj]. unfold CanLeftTable. rewrite Hj. unfold GAME_STATUS_START, GAME_STATUS_END, GAME_STATUS_LOCK_PLAYING in *.
    rewrite (proj2 (Z.ltb_ge _ _)), (proj2 (Z.eqb_neq _ _)) by lia. done. }
  split; [apply Hcan; [done|done|by exists i]|]. unfold OnUserLeft. rewrite Hcan; [done|done|exact Hst|]. exists i. rewrite <- Hf.
  apply find_chair_ext. intros j. unfold SetUserStatus. rewrite item_set_user. destruct (decide (i = j)); [|done]. by destruct (GetTableUserItem t j).
Qed.

Lemma offline_ok user i t : Inv cfg t → find_chair user t = Some i → Inv cfg (snd (OnUserLeft cfg user (SetUserStatus i sOffline t))).
Proof.
  intros [Hw|Hinv] Hf.
  { destruct (lobby_left cfg t user i Hw Hf) as (t' & -> & H). by left. }
  assert (Ending t ∨ Calling cfg true t ∨ Betting cfg true t ∨ Opening cfg true t) as [He|H] by tauto.
  { destruct (ending_left cfg t user i He Hf) as (t' & -> & H). by repeat right. }
  destruct (refuses_playing user i t H Hf) as [_ ->]. cbn [snd]. pose proof (status_inv cfg i sOffline t H) as Ho. cbv zeta in Ho. unfold Inv. tauto.
Qed.

(** ** Messages *)

Lemma inv_status t : Inv cfg t →
  (m_wGameStatus t = GAME_STATUS_CALL → Calling cfg true t) ∧ (m_wGameStatus t = GAME_STATUS_SCORE → Betting cfg true t) ∧
  (m_wGameStatus t = GAME_STATUS_OPEN → Opening cfg true t).
Proof.
  intros [Hw|[H|[H|[H|H]]]].
  - destruct (lo_status _ (wa_lobby _ Hw)) as [-> | ->]; done.
  - rewrite (ca_status _ _ _ H). done.
  - rewrite (be_status _ _ _ H). done.
  - rewrite (op_status _ _ _ H). done.
  - rewrite (en_status _ H). done.
Qed.

Lemma told_ok (o : option (Z * Table)) chair : (∃ r t', o = Some (r, t') ∧ Inv cfg t') → ∃ b t', told o chair = Some (b, t') ∧ Inv cfg t'.
Proof. intros (r & t' & -> & H). eexists _, _. split; [done|]. by apply operated. Qed.

Lemma message_ok d chair m t : Inv cfg t → seated t chair = true → ∃ b t', OnGameMessage cfg d chair m t = Some (b, t') ∧ Inv cfg t'.
Proof.
  intros Hinv Hs.
  assert (chair < 4)%nat as Hc.
  { apply seated_chairs in Hs; [apply elem_of_seq in Hs; unfold GAME_PLAYER in *; lia|].
    destruct Hinv as [Hw|[H|[H|[H|H]]]]; [apply (lo_seats _ (wa_lobby _ Hw))|apply (ph_seats _ _ (ca_phase _ _ _ H))|
      apply (ph_seats _ _ (be_phase _ _ _ H))|apply (ph_seats _ _ (op_phase _ _ _ H))|apply (en_seats _ H)]. }
  assert (∀ t, playing t chair = true → chair ∈ all_players t) as Hpl.
  { intros s Hp. apply elem_of_players. split; [apply elem_of_seq; unfold GAME_PLAYER; lia|done]. }
  destruct (inv_status t Hinv) as (H1 & H2 & H3). unfold OnGameMessage.
  rewrite (proj2 (Nat.ltb_ge 4 chair)), (proj2 (Nat.ltb_lt chair GAME_PLAYER)) by (unfold GAME_PLAYER; lia).
  destruct m as [flag|index| |].
  - destruct (Z.eqb_spec (m_wGameStatus t) GAME_STATUS_CALL) as [E|E]; cbn [negb assert mbind option_bind]; [|by exists false, t].
    destruct (playing t chair) eqn:Ep; cbn [negb]; [|by exists false, t]. apply told_ok.
    destruct (call_step cfg Hcfg true t chair flag (H1 E) (Hpl t Ep)) as (r & t' & -> & Ho). exists r, t'. split; [done|].
    destruct Ho as [(_ & -> & _)|(_ & _ & [[? _]|[? _]])]; [done|right; right; by left|right; by left].
  - destruct (Z.eqb_spec (m_wGameStatus t) GAME_STATUS_SCORE) as [E|E]; cbn [negb assert mbind option_bind]; [|by exists false, t].
    destruct (playing t chair) eqn:Ep; cbn [negb]; [|by exists false, t]. apply told_ok.
    destruct (add_step cfg d true t chair index (H2 E) (Hpl t Ep)) as (r & t' & -> & Ho). exists r, t'. split; [done|].
    destruct Ho as [(-> & _)|(_ & _ & _ & _ & [?|[? _]])]; [done|right; right; right; by left|right; right; by left].
  - cbn [assert mbind option_bind]. set (t1 := t <| m_bPlayerIsOperation ::= _ |>). assert (Inv cfg t1) as Hinv1 by (by apply operated).
    destruct (inv_status t1 Hinv1) as (_ & _ & H3'). clearbody t1. destruct (Z.eqb_spec (m_wGameStatus t1) GAME_STATUS_OPEN) as [E|E]; cbn [negb]; [|by exists false, t1].
    destruct (playing t1 chair) eqn:Ep; cbn [negb]; [|by exists false, t1].
    destruct (open_step cfg Hcfg d true t1 chair (H3' E) (Hpl t1 Ep)) as (r & t' & -> & Ho). eexists _, t'. split; [done|].
    destruct Ho as [(-> & _)|(_ & [(? & _)|[? _]])]; [done|by repeat right|right; right; right; by left].
  - by exists true, t.
Qed.

(** ** Timers *)

Lemma ready_timer_ok d t : draw_ok d → Inv cfg t → ∃ t', OnTimerGameReadyOver cfg d t = Some t' ∧ Inv cfg t'.
Proof.
  intros Hd Hinv. unfold OnTimerGameReadyOver. destruct (Z.leb_spec GAME_STATUS_START (m_wGameStatus t)) as [|Hst]; [by exists t|].
  destruct Hinv as [Hw|[H|[H|[H|H]]]]; [|rewrite (ca_status _ _ _ H) in Hst; done|rewrite (be_status _ _ _ H) in Hst; done|
    rewrite (op_status _ _ _ H) in Hst; done|rewrite (en_status _ H) in Hst; done].
  set (t1 := t <| totalMatch ::= S |>).
  assert (Waiting t1) as Hw1.
  { destruct Hw as [[L1 L2 L3 L4 L5 L6 L7] Hc]. split; [split; [exact L1|exact L2|exact L3|exact L4|exact L5|exact L6|exact L7]|exact Hc]. }
  clearbody t1. rewrite count_guests. pose proof (wa_count _ Hw1) as Hc.
  destruct (Nat.leb_spec (MaxGamePlayers t1) (length (guests t1))) as [Hle|Hlt].
  - destruct Hc as [Hnil|[? ?]]; [|lia]. rewrite Hnil in *. simpl in Hle. assert (MaxGamePlayers t1 = 0%nat) as -> by lia.
    exists t1. split; [done|]. by left.
  - destruct (totalMatch t1 <? timeoutMatch)%nat; [exists t1; split; [done|by left]|].
    destruct (timeoutAddAndroid <=? totalMatch t1)%nat; [|exists t1; split; [done|by left]].
    destruct (Nat.leb_spec MIN_GAME_PLAYER (length (guests t1))) as [H2|]; [|exists t1; split; [done|by left]].
    destruct Hc as [Hnil|[Hm _]]; [rewrite Hnil in H2; unfold MIN_GAME_PLAYER in H2; simpl in H2; lia|].
    destruct (ready_over_waits cfg Hcfg d t1 Hd (wa_lobby _ Hw1) Hm) as (t' & E & [H|H]); exists t'; (split; [done|]); [right; by left|by left].
Qed.

(** Which timers are set tells the phase. *)
Lemma inv_timers t : Inv cfg t →
  (m_TimerIdCallBanker t = true → Calling cfg true t) ∧ (m_TimerIdAddScore t = true → Betting cfg true t) ∧
  (m_TimerIdOpenCard t = true → Opening cfg true t) ∧ (m_TimerIdEnd t = true → Ending t).
Proof.
  intros [Hw|[H|[H|[H|H]]]].
  - destruct (lo_timers _ (wa_lobby _ Hw)) as (-> & -> & -> & ->). done.
  - destruct (ca_timers _ _ _ H) as (_ & -> & -> & ->). done.
  - destruct (be_timers _ _ _ H) as (-> & _ & -> & ->). done.
  - destruct (op_timers _ _ _ H) as (-> & -> & _ & ->). done.
  - destruct (en_timers _ H) as [(-> & -> & -> & _)|((-> & -> & -> & ->) & _)]; done.
Qed.

(** Every other event has a result. *)
Lemma exec_stays d e t : draw_ok d → event_ok e → Inv cfg t → (∀ user, e ≠ EReturn user) → ∃ t', exec cfg d e t = Some t' ∧ Inv cfg t'.
Proof.
  intros Hd He Hinv Hne. destruct (inv_timers t Hinv) as (T1 & T2 & T3 & T4).
  destruct e as [u chair|user|user|user|chair m| | | | |]; [by apply exec_sit|by destruct (Hne user)|..]; cbn [exec].
  - destruct (find_chair user t) as [i|] eqn:Hf; [|by exists t]. eexists. split; [done|]. destruct (CanLeftTable t user); [|done]. by apply offline_ok.
  - destruct (find_chair user t) as [i|] eqn:Hf; [|by exists t]. eexists. split; [done|]. by apply offline_ok.
  - destruct (seated t chair) eqn:Hs; [|by exists t]. destruct (message_ok d chair m t Hinv Hs) as (b & t' & -> & H). by exists t'.
  - by apply ready_timer_ok.
  - destruct (m_TimerIdCallBanker t) eqn:E; [|by exists t].
    destruct (GameTimerCallBanker_ok cfg Hcfg true t (T1 eq_refl)) as (t' & Et & H & _). exists t'. split; [done|]. right. right. by left.
  - destruct (m_TimerIdAddScore t) eqn:E; [|by exists t].
    destruct (GameTimerAddScore_ok cfg d true t (T2 eq_refl)) as (t' & Et & H). exists t'. split; [done|]. right. right. right. by left.
  - destruct (m_TimerIdOpenCard t) eqn:E; [|by exists t].
    destruct (GameTimerOpenCard_ok cfg Hcfg d true t (T3 eq_refl)) as (t' & Et & H & _). exists t'. split; [done|]. by repeat right.
  - destruct (m_TimerIdEnd t) eqn:E; [|by exists t]. eexists. split; [done|].
    destruct (GameTimerEnd_ok t (T4 eq_refl)) as [H|[H _]]; [by repeat right|by left].
Qed.

(** An event has a result in the invariant, or it is a return that reads past the row. *)
Lemma exec_ok d e t : draw_ok d → event_ok e → Inv cfg t →
  (∃ t', exec cfg d e t = Some t' ∧ Inv cfg t') ∧ ¬ reads_past t e ∨ exec cfg d e t = None ∧ reads_past t e.
Proof.
  intros Hd He Hinv. assert ((∃ user, e = EReturn user) ∨ ∀ user, e ≠ EReturn user) as [[user ->]|Hne].
  { destruct e; (by left; eexists) || (by right). }
  - by apply exec_return.
  - left. split; [by apply exec_stays|]. intros (_ & user & i & -> & _). by apply (Hne user).
Qed.

(** ** Reachable tables *)

Inductive reachable : Table → Prop :=
  | reach_new : reachable new_table
  | reach_step t d e t' : reachable t → draw_ok d → event_ok e → exec cfg d e t = Some t' → reachable t'.

Lemma reachable_holds t : reachable t → Inv cfg t.
Proof.
  induction 1 as [|t d e t' _ IH Hd He E].
  - left. split; [|by left]. split; try done.
    + by left.
    + split; [done|]. intros i. by do 4 (destruct i as [|i]; [done|]).
    + intros i u. by do 4 (destruct i as [|i]; [done|]).
    + intros _ i. by do 4 (destruct i as [|i]; [done|]).
  - destruct (exec_ok d e t Hd He IH) as [[(t'' & E' & H) _]|[E' _]]; rewrite E in E'; [|done]. by injection E' as ->.
Qed.

End Reach.
