(* ===== verification/BullProps.v ===== *)
(** Grab the banker, what holds of the table: reachable tables are consistent, no event
    crashes them, the timers end every round, the bank goes to the highest bid, the
    balances change by the rule of the settlement, and what happens in a room whose limits
    let in players who cannot bet. *)
From Stdlib Require Import ZArith Lia.
From S2P Require Import Prelude GameDefine Cards BullLogic BullDeal BullSettle BullTable BullInv BullStart BullBank BullEnd BullSteps BullEvents BullReach.
From stdpp Require Import base numbers sorting sets option list.

#[local] Open Scope Z_scope.

Section Props.
Context (cfg : Config) (Hcfg : config_ok cfg).

(** C5. Take a room of base score 1 to 2^27 - 1, which asks for at least four base scores
    and starts with two users, with one to six positive multiples below 2^25 and a revenue
    of 0 to 100 percent ([config_ok]).  In every table reached by users with 0 to 2^30 who
    sit, come back, leave and send messages and by timers in any order, a round is
    consistent from the deal to the opening: exactly the
    users in the chairs play, at least two, each holds a hand of one pack and can pay what
    the room asks, and once the bids are over one of them has the bank with a bid of one
    to four and every other player has a bet he may place. *)
Theorem reachable_rounds t : reachable cfg t → GAME_STATUS_START < m_wGameStatus t < GAME_STATUS_END →
  dealt (m_cbPlayStatus t) (m_wPlayCount t) (m_cbCardData t) ∧ (∀ i, playing t i = seated t i) ∧ (2 <= m_wPlayCount t)%nat ∧
  (∀ i, i ∈ all_players t → enterMinScore cfg <= score_of t i) ∧
  (m_wGameStatus t ≠ GAME_STATUS_CALL → ∃ b, Bank cfg t b).
Proof.
  intros Hr%(reachable_holds cfg Hcfg) Hst.
  assert (Phase cfg t → dealt (m_cbPlayStatus t) (m_wPlayCount t) (m_cbCardData t) ∧ (∀ i, playing t i = seated t i) ∧ (2 <= m_wPlayCount t)%nat ∧
    (∀ i, i ∈ all_players t → enterMinScore cfg <= score_of t i)) as Hp.
  { intros [H1 H2 H3 H4 H5 H6 H7 H8 H9 H10 H11 H12 H13]. split_and!; [done..|]. intros i Hi. by apply H11. }
  destruct Hr as [Hw|[H|[H|[H|H]]]].
  - exfalso. destruct (lo_status _ (wa_lobby _ Hw)) as [E|E]; rewrite E in Hst; unfold GAME_STATUS_START, GAME_STATUS_INIT, GAME_STATUS_READY in Hst; lia.
  - destruct (Hp (ca_phase _ _ _ H)) as (P1 & P2 & P3 & P4). split_and!; try done. intros Hne. by destruct Hne, H.
  - destruct (Hp (be_phase _ _ _ H)) as (P1 & P2 & P3 & P4). split_and!; try done. intros _. destruct (be_bank _ _ _ H) as (b & Hb & _). by exists b.
  - destruct (Hp (op_phase _ _ _ H)) as (P1 & P2 & P3 & P4). split_and!; try done. intros _. destruct (op_bank _ _ _ H) as (b & Hb & _). by exists b.
  - exfalso. rewrite (en_status _ H) in Hst. unfold GAME_STATUS_END in Hst. lia.
Qed.

(** C18. In the same rooms and tables exactly one event fails: a real user who comes back
    while the hands are opened and the banker has bid four, whose scene reads past the row
    of bids.  Every other event, with any pack and any user of 0 to 2^30, meets no null
    pointer, no failed assertion, no index past an array and no division by zero. *)
Theorem table_events_safe t d e : reachable cfg t → draw_ok d → event_ok e →
  match exec cfg d e t with Some t' => reachable cfg t' ∧ ¬ reads_past t e | None => reads_past t e end.
Proof.
  intros Hr Hd He. destruct (exec_ok cfg Hcfg d e t Hd He (reachable_holds cfg Hcfg t Hr)) as [[(t' & E & _) Hn]|[E Hp]]; rewrite E; [|done].
  split; [by eapply reach_step|done].
Qed.

Lemma GameTimerEnd_clears t : Ending t → guests (GameTimerEnd t) = [] ∧ (m_bContinueServer t = true → m_wGameStatus (GameTimerEnd t) = GAME_STATUS_INIT).
Proof.
  intros [E1 E2 E3 E4 E5]. unfold GameTimerEnd. rewrite clear_loop by exact E3. set (t1 := t <| m_TimerIdEnd := false |>).
  assert (m_bContinueServer t1 = m_bContinueServer t) as -> by reflexivity. clearbody t1.
  assert (∀ t, seats t = four None → guests t = []) as Hnone.
  { clear. intros t H. apply filter_none, Forall_forall. intros i _. rewrite seated_item. unfold GetTableUserItem. rewrite H.
    by do 4 (destruct i as [|i]; [done|]). }
  destruct (m_bContinueServer t); cbn [negb]; (split; [by apply Hnone|done]).
Qed.

(** C17. In the rooms of [config_ok] (at least four base scores asked for, positive
    multiples) and for users with at most 2^30, without any player doing anything after
    the deal the timers end the round, each when it is the next event: the bids, the bets and
    the opening each end when their timer fires, the balances are settled, and the last
    timer clears the table for the next users unless the server stops. *)
Theorem timers_end_round t d : reachable cfg t → m_wGameStatus t = GAME_STATUS_CALL →
  ∃ t1 t2 t3 t4, exec cfg d TCall t = Some t1 ∧ m_wGameStatus t1 = GAME_STATUS_SCORE ∧
    exec cfg d TScore t1 = Some t2 ∧ m_wGameStatus t2 = GAME_STATUS_OPEN ∧
    exec cfg d TOpen t2 = Some t3 ∧ m_wGameStatus t3 = GAME_STATUS_END ∧
    exec cfg d TEnd t3 = Some t4 ∧ guests t4 = [] ∧ (m_bContinueServer t3 = true → m_wGameStatus t4 = GAME_STATUS_INIT).
Proof.
  intros Hr%(reachable_holds cfg Hcfg) Hst. destruct (inv_status cfg t Hr) as (H1 & _ & _). specialize (H1 Hst).
  destruct (GameTimerCallBanker_ok cfg Hcfg true t H1) as (t1 & E1 & B1 & _).
  destruct (GameTimerAddScore_ok cfg d true t1 B1) as (t2 & E2 & B2).
  destruct (GameTimerOpenCard_ok cfg Hcfg d true t2 B2) as (t3 & E3 & B3 & Hpaid).
  exists t1, t2, t3, (GameTimerEnd t3). cbn [exec].
  destruct (ca_timers _ _ _ H1) as (-> & _). destruct (be_timers _ _ _ B1) as (_ & -> & _). destruct (op_timers _ _ _ B2) as (_ & _ & -> & _).
  assert (exec cfg d TEnd t3 = Some (GameTimerEnd t3)) as E4 by (cbn [exec]; destruct Hpaid as (t0 & _ & -> & _); done).
  destruct (GameTimerEnd_clears t3 B3) as [G1 G2]. split_and!; try done.
  - apply (be_status _ _ _ B1).
  - apply (op_status _ _ _ B2).
  - apply (en_status _ B3).
Qed.

(** ** What ends a phase *)

(** The bids when every player has one: a message adds its own, the timer zeros. *)
Definition bids_after (e : Event) (bids : list Z) : list Z :=
  match e with
  | EMessage chair (CALL_BANKER flag) => <[chair := flag]> bids
  | TCall => map no_bid bids
  | _ => bids
  end.

Lemma playing_event d e t t' : Calling cfg true t ∨ Betting cfg true t ∨ Opening cfg true t → exec cfg d e t = Some t' →
  m_wGameStatus t' ≠ m_wGameStatus t → match e with EMessage _ _ | TCall | TScore | TOpen => True | _ => False end.
Proof.
  intros H. destruct (playing_status cfg t H) as [Hp Hst].
  assert (m_TimerIdEnd t = false) as Hend.
  { destruct H as [H|[H|H]]; [destruct (ca_timers _ _ _ H) as (_ & _ & _ & ?)|destruct (be_timers _ _ _ H) as (_ & _ & _ & ?)|
      destruct (op_timers _ _ _ H) as (_ & _ & _ & ?)]; done. }
  destruct e as [u chair|user|user|user|chair m| | | | |]; cbn [exec]; try done.
  - rewrite (may_sit_playing cfg u chair t Hp Hst). by intros [= <-].
  - destruct (find_chair user t) as [i|] eqn:Hf; [|by intros [= <-]]. destruct (IsAndroidUser t i); [by intros [= <-]|].
    rewrite (return_playing cfg d user i t Hp Hst Hf). by intros ->%scene_status.
  - destruct (find_chair user t) as [i|] eqn:Hf; [|by intros [= <-]]. destruct (refuses_playing cfg user i t H Hf) as [-> _]. by intros [= <-].
  - destruct (find_chair user t) as [i|] eqn:Hf; [|by intros [= <-]]. destruct (refuses_playing cfg user i t H Hf) as [_ ->]. by intros [= <-].
  - unfold OnTimerGameReadyOver. rewrite (proj2 (Z.leb_le _ _)) by lia. by intros [= <-].
  - rewrite Hend. by intros [= <-].
Qed.

(** A message of a chair in the phase it belongs to. *)
Lemma message_call d chair flag t : Calling cfg true t → OnGameMessage cfg d chair (CALL_BANKER flag) t =
  if (4 <? chair)%nat then Some (true, t) else _ ← assert (chair <? GAME_PLAYER)%nat;
    if negb (playing t chair) then Some (false, t) else told (OnUserCallBanker cfg chair flag t) chair.
Proof. intros H. unfold OnGameMessage. by rewrite (ca_status _ _ _ H). Qed.

Lemma message_open d chair t : Opening cfg true t → OnGameMessage cfg d chair OPEN_CARD t =
  if (4 <? chair)%nat then Some (true, t) else _ ← assert (chair <? GAME_PLAYER)%nat;
    let t := t <| m_bPlayerIsOperation ::= <[chair := true]> |> in
    if negb (playing t chair) then Some (false, t) else '(wRtn, t) ← OnUserOpenCard cfg d chair t; Some (0 <? wRtn, t).
Proof. intros H. unfold OnGameMessage. destruct (4 <? chair)%nat; [done|]. destruct (assert _); [|done]. cbn [mbind option_bind].
  change (m_wGameStatus (t <| m_bPlayerIsOperation ::= <[chair:=true]> |>)) with (m_wGameStatus t). by rewrite (op_status _ _ _ H). Qed.

(** A message that does not belong to the phase leaves the status. *)
Lemma message_status d chair m t b t' : OnGameMessage cfg d chair m t = Some (b, t') →
  match m with CALL_BANKER _ => m_wGameStatus t ≠ GAME_STATUS_CALL | ADD_SCORE _ => m_wGameStatus t ≠ GAME_STATUS_SCORE
    | OPEN_CARD => m_wGameStatus t ≠ GAME_STATUS_OPEN | OTHER => True end →
  m_wGameStatus t' = m_wGameStatus t.
Proof.
  unfold OnGameMessage. destruct (4 <? chair)%nat; [by intros [= _ <-]|]. destruct m as [flag|index| |].
  - intros E Hne%Z.eqb_neq. rewrite Hne in E. by injection E as _ <-.
  - intros E Hne%Z.eqb_neq. rewrite Hne in E. by injection E as _ <-.
  - destruct (assert _); [|done]. cbn [mbind option_bind]. intros E Hne%Z.eqb_neq.
    change (m_wGameStatus (t <| m_bPlayerIsOperation ::= <[chair:=true]> |>)) with (m_wGameStatus t) in E. rewrite Hne in E.
    cbn [negb] in E. by injection E as _ <-.
  - by intros [= _ <-].
Qed.

(** When the last player has bid, by his own message or when the timer bids nothing for
    those who have not, the bank goes to a player with the highest bid, and among those to
    one with the highest balance. *)
Theorem bank_choice t d e t' : reachable cfg t → m_wGameStatus t = GAME_STATUS_CALL → exec cfg d e t = Some t' →
  m_wGameStatus t' = GAME_STATUS_SCORE →
  ∃ w, m_wBankerUser t' = Some w ∧ chosen (t <| m_sCallBanker ::= bids_after e |>) w.
Proof.
  intros Hr%(reachable_holds cfg Hcfg) Hst Hex Hst'. destruct (inv_status cfg t Hr) as (Hca & _). specialize (Hca Hst).
  assert (m_wGameStatus t' ≠ m_wGameStatus t) as Hne by (by rewrite Hst, Hst').
  pose proof (playing_event d e t t' ltac:(by left) Hex Hne) as He. destruct (ca_timers _ _ _ Hca) as (T1 & T2 & T3 & T4).
  destruct e as [| | | |chair m| | | | |]; try done; cbn [exec] in Hex.
  - destruct (seated t chair); [|congruence]. destruct (OnGameMessage cfg d chair m t) as [[b t1]|] eqn:Em; [|done].
    injection Hex as <-. destruct m as [flag|index| |]; try (exfalso; apply Hne; apply (message_status _ _ _ _ _ _ Em); by rewrite ?Hst).
    rewrite message_call in Em by done. destruct (4 <? chair)%nat; [congruence|]. destruct (chair <? GAME_PLAYER)%nat eqn:Hc; [|done].
    cbn [assert mbind option_bind] in Em. destruct (playing t chair) eqn:Ep; cbn [negb] in Em; [|congruence].
    assert (chair ∈ all_players t) as Hpl.
    { apply elem_of_players. split; [|done]. apply elem_of_seq. apply Nat.ltb_lt in Hc. lia. }
    destruct (call_step cfg Hcfg true t chair flag Hca Hpl) as (r & t2 & E & Ho). rewrite E in Em. injection Em as _ <-.
    change (m_wGameStatus t2 = GAME_STATUS_SCORE) in Hst'. change (∃ w, m_wBankerUser t2 = Some w ∧ chosen (t <| m_sCallBanker ::= <[chair := flag]> |>) w).
    destruct Ho as [(_ & -> & _)|(_ & _ & [(_ & w & Hw & Hb & _)|[Hc2 _]])]; [by rewrite Hst in Hst'|by exists w|].
    by rewrite (ca_status _ _ _ Hc2) in Hst'.
  - rewrite T1 in Hex. destruct (GameTimerCallBanker_ok cfg Hcfg true t Hca) as (t1 & E & _ & w & Hw & Hb).
    rewrite E in Hex. injection Hex as <-. by exists w.
  - rewrite T2 in Hex. congruence.
  - rewrite T3 in Hex. congruence.
Qed.

(** The balances of [t'] are those of [t] after the settlement. *)
Definition settled (t t' : Table) : Prop := ∃ g, round_of cfg t = Some g ∧ round_ok g ∧
  ∀ i, i ∈ all_players t → score_of t' i = score_of t i + addScore (revenueRatio cfg) (fair_score g i) ∧ 0 <= score_of t' i.

Lemma paid_settled t t0 t' : Opening cfg true t → same_bets cfg t t0 → paid cfg t0 t' → settled t t'.
Proof.
  intros Hop [Hs Hr] Hpaid. pose proof (op_phase _ _ _ Hop) as Hp. destruct (op_bank _ _ _ Hop) as (b & Hb & Hadds).
  destruct (round_of_ok cfg Hcfg t b Hp Hb Hadds) as (g & Eg & Hg & Hgp & Hgb).
  pose proof (same_phase cfg t t0 Hs Hp) as Hp0. pose proof (same_players t t0 Hs) as Hpl.
  assert (∀ i, i ∈ all_players t0 → 0 <= score_of t' i) as Hnn.
  { intros i. apply (paid_nonneg cfg Hcfg t0 t' i Hp0 Hpaid). rewrite Hr, Eg. intros g' [= <-].
    split; [rewrite Hgp; by destruct Hs as (_ & _ & -> & _)|]. intros j. by rewrite Hgb, (same_score t t0 j Hs). }
  destruct Hpaid as (_ & g' & Eg' & _ & Hsc). rewrite Hr, Eg in Eg'. injection Eg' as <-.
  exists g. split; [done|]. split; [done|]. rewrite <- Hpl. intros i Hi. split; [|by apply Hnn].
  by rewrite <- (same_score t t0 i Hs), Hsc.
Qed.

(** C8. When the last hand is opened, by a message or by the timer, every player's balance
    changes by his score of the reference rule less the revenue of a win, and no balance
    becomes negative. *)
Theorem round_settlement t d e t' : reachable cfg t → m_wGameStatus t = GAME_STATUS_OPEN → exec cfg d e t = Some t' →
  m_wGameStatus t' = GAME_STATUS_END → settled t t'.
Proof.
  intros Hr%(reachable_holds cfg Hcfg) Hst Hex Hst'. destruct (inv_status cfg t Hr) as (_ & _ & Hop). specialize (Hop Hst).
  assert (m_wGameStatus t' ≠ m_wGameStatus t) as Hne by (by rewrite Hst, Hst').
  pose proof (playing_event d e t t' ltac:(by right; right) Hex Hne) as He. destruct (op_timers _ _ _ Hop) as (T1 & T2 & T3 & T4).
  destruct e as [| | | |chair m| | | | |]; try done; cbn [exec] in Hex.
  - destruct (seated t chair); [|congruence]. destruct (OnGameMessage cfg d chair m t) as [[b t1]|] eqn:Em; [|done].
    injection Hex as <-. destruct m as [flag|index| |]; try (exfalso; apply Hne; apply (message_status _ _ _ _ _ _ Em); by rewrite ?Hst).
    rewrite message_open in Em by done. destruct (4 <? chair)%nat; [congruence|]. destruct (chair <? GAME_PLAYER)%nat eqn:Hc; [|done].
    cbn [assert mbind option_bind] in Em. set (s := t <| m_bPlayerIsOperation ::= _ |>) in Em.
    assert (Opening cfg true s) as Hos by (apply (inv_status cfg s); [by apply operated|exact Hst]).
    assert (same_bets cfg t s) as Hts by (split; [unfold same_round; split_and!; reflexivity|by destruct t]).
    assert (playing s chair = playing t chair) as Hps by reflexivity.
    clearbody s. destruct (playing s chair) eqn:Ep; cbn [negb] in Em; [|injection Em as _ ->; by rewrite (op_status _ _ _ Hos) in Hst'].
    assert (chair ∈ all_players s) as Hpl.
    { apply elem_of_players. split; [|done]. apply elem_of_seq. apply Nat.ltb_lt in Hc. lia. }
    destruct (open_step cfg Hcfg d true s chair Hos Hpl) as (r & t2 & E & Ho). rewrite E in Em. injection Em as _ <-.
    destruct Ho as [[-> _]|(_ & [(_ & _ & t0 & Ht0 & Hpaid)|[Ho _]])]; [by rewrite (op_status _ _ _ Hos) in Hst'| |by rewrite (op_status _ _ _ Ho) in Hst'].
    apply (paid_settled t t0); [done| |done]. by eapply same_bets_trans.
  - rewrite T1 in Hex. congruence.
  - rewrite T2 in Hex. congruence.
  - rewrite T3 in Hex. destruct (GameTimerOpenCard_ok cfg Hcfg d true t Hop) as (t1 & E & _ & t0 & Ht0 & Hpaid).
    rewrite E in Hex. injection Hex as <-. by apply (paid_settled t t0).
Qed.

End Props.

(** ** Runs *)

Fixpoint run (cfg : Config) (l : list (Draw * Event)) (t : Table) : option Table :=
  match l with [] => Some t | (d, e) :: l => t ← exec cfg d e t; run cfg l t end.

Lemma run_reaches cfg l t t' : Forall (λ p, draw_ok p.1 ∧ event_ok p.2) l → reachable cfg t → run cfg l t = Some t' → reachable cfg t'.
Proof.
  intros Hl. revert t. induction Hl as [|[d e] l [Hd He] _ IH]; intros t Hr; cbn [run]; [by intros [= <-]|].
  destruct (exec cfg d e t) as [t1|] eqn:E; [|done]. cbn [mbind option_bind]. apply IH. by eapply reach_step.
Qed.

(** ** A room that lets in players who cannot bet *)

(** The bets are on, the timer has fired, and player [j] has no bet he may place. *)
Record stuck (cfg : Config) (b j : nat) (t : Table) : Prop := {
  st_status : m_wGameStatus t = GAME_STATUS_SCORE;
  st_bank : m_wBankerUser t = Some b;
  st_players : b ∈ all_players t ∧ j ∈ all_players t ∧ b ≠ j;
  st_count : m_wPlayCount t = length (all_players t);
  st_add : (m_sAddScore t).[j] = -1;
  st_row : ∀ k, (k < MaxJettonMul cfg)%nat → (rget (m_cbJettonable t) j).[k] <= 0;
  st_timers : timers false false false false t;
  st_used : used t = true;
  st_ids : ∀ i u, GetTableUserItem t i = Some u → 0 < userId u
}.

Section Stuck.
Context (cfg : Config) (b j : nat).

(** The status of a user, the waiting and who has done something are no part of it. *)
Lemma stuck_item t t' : stuck cfg b j t → m_wGameStatus t' = m_wGameStatus t → m_wBankerUser t' = m_wBankerUser t →
  m_cbPlayStatus t' = m_cbPlayStatus t → m_wPlayCount t' = m_wPlayCount t → (m_sAddScore t').[j] = (m_sAddScore t).[j] →
  m_cbJettonable t' = m_cbJettonable t → (timers false false false false t → timers false false false false t') → used t' = used t →
  (∀ i, userId <$> GetTableUserItem t' i = userId <$> GetTableUserItem t i) → stuck cfg b j t' ∧ ∀ i, seated t' i = seated t i.
Proof.
  intros [S1 S2 S3 S4 S5 S6 S7 S8 S9] E1 E2 E3 E4 E5 E6 E7 E8 E9. split.
  - split; unfold all_players; rewrite ?E1, ?E2, ?E3, ?E4, ?E5, ?E6, ?E8; try done; [by apply E7|].
    intros i u Hu. specialize (E9 i). rewrite Hu in E9. destruct (GetTableUserItem t i) as [v|] eqn:Ev; [|done].
    injection E9 as ->. by apply (S9 i v).
  - intros i. specialize (E9 i). rewrite !seated_item. by destruct (GetTableUserItem t' i), (GetTableUserItem t i).
Qed.

Lemma stuck_offline i t : stuck cfg b j t → stuck cfg b j (SetUserStatus i sOffline t) ∧ ∀ k, seated (SetUserStatus i sOffline t) k = seated t k.
Proof.
  intros H. apply (stuck_item t); try reflexivity; [done|done|]. intros k. unfold SetUserStatus. rewrite item_set_user.
  destruct (decide (i = k)); [|done]. by destruct (GetTableUserItem t k).
Qed.

Lemma stuck_bet d chair index t r t' : stuck cfg b j t → OnUserAddScore cfg d chair index t = Some (r, t') →
  stuck cfg b j t' ∧ ∀ i, seated t' i = seated t i.
Proof.
  intros H. pose proof H as [S1 S2 (Hb & Hj & Hbj) S4 S5 S6 S7 S8 S9]. unfold OnUserAddScore.
  case_bool_decide as Hbank; [by intros [= _ <-]|].
  destruct (negb (-1 =? (m_sAddScore t).[chair])); [by intros [= _ <-]|].
  destruct ((index <? 0) || (Z.of_nat (MaxJettonMul cfg) <=? index)) eqn:Ex; [by intros [= _ <-]|].
  apply orb_false_iff in Ex as [Ex1%Z.ltb_ge Ex2%Z.leb_gt].
  destruct (Z.leb_spec (rget (m_cbJettonable t) chair).[Z.to_nat index] 0) as [Hz|Hz]; [by intros [= _ <-]|].
  assert (chair ≠ j) as Hne by (intros ->; specialize (S6 (Z.to_nat index)); lia).
  set (t1 := t <| m_sAddScore ::= <[chair := index]> |>).
  assert ((m_sAddScore t1).[j] = -1) as H1 by (change ((<[chair := index]> (m_sAddScore t)).[j] = -1); by rewrite aget_insert_ne).
  assert (stuck cfg b j t1 ∧ ∀ i, seated t1 i = seated t i) as Hres by (apply (stuck_item t); try reflexivity; [done|congruence|done]).
  assert (m_wBankerUser t1 = Some b) as S2' by exact S2. assert (all_players t1 = all_players t) as Hpl by reflexivity.
  assert (m_wPlayCount t1 = m_wPlayCount t) as Hc by reflexivity. clearbody t1.
  destruct (Nat.eqb_spec (S (length (filter (λ i, Some i ≠ m_wBankerUser t1 ∧ (m_sAddScore t1).[i] ≠ -1) (all_players t1)))) (m_wPlayCount t1)) as [Ec|_]; [|by intros [= _ <-]].
  exfalso. rewrite Hc, Hpl, S4, S2' in Ec. set (P := λ i, Some i ≠ Some b ∧ (m_sAddScore t1).[i] ≠ -1) in *.
  assert (NoDup (b :: j :: filter P (all_players t))) as Hnd.
  { repeat apply NoDup_cons_2; [| |apply NoDup_filter, NoDup_filter, NoDup_seq].
    - intros [?|[[? _] _]%list_elem_of_filter]%elem_of_cons; done.
    - intros [[_ ?] _]%list_elem_of_filter. done. }
  apply (NoDup_submseteq _ (all_players t)) in Hnd as Hsub.
  - apply submseteq_length in Hsub. simpl in Hsub. lia.
  - intros i. rewrite !elem_of_cons. by intros [->|[->|[_ ?]%list_elem_of_filter]].
Qed.

Lemma stuck_message d chair m t r t' : stuck cfg b j t → OnGameMessage cfg d chair m t = Some (r, t') →
  stuck cfg b j t' ∧ ∀ i, seated t' i = seated t i.
Proof.
  intros H.
  assert (∀ t g, stuck cfg b j t → let t' := t <| m_bPlayerIsOperation ::= g |> in stuck cfg b j t' ∧ ∀ i, seated t' i = seated t i) as Hop.
  { clear. intros t g H. apply (stuck_item t); try reflexivity; done. }
  unfold OnGameMessage. destruct (4 <? chair)%nat; [by intros [= _ <-]|]. rewrite (st_status _ _ _ _ H).
  destruct m as [flag|index| |]; [by intros [= _ <-]| |..]; [|destruct (assert _); [|done]; cbn [mbind option_bind]..|by intros [= _ <-]].
  - rewrite Z.eqb_refl. cbn [negb]. destruct (assert _); [|done]. cbn [mbind option_bind].
    destruct (playing t chair); cbn [negb]; [|by intros [= _ <-]]. unfold told.
    destruct (OnUserAddScore cfg d chair index t) as [[z t1]|] eqn:E; [|done]. intros [= _ <-].
    destruct (stuck_bet d chair index t z t1 H E) as [H1 Hs1]. destruct (Hop t1 <[chair := true]> H1) as [H2 Hs2].
    split; [exact H2|]. intros i. by rewrite <- Hs1, <- Hs2.
  - destruct (Hop t <[chair := true]> H) as [H1 Hs1]. set (t1 := t <| m_bPlayerIsOperation ::= _ |>) in *.
    change (m_wGameStatus t1) with (m_wGameStatus t). rewrite (st_status _ _ _ _ H). by intros [= _ <-].
Qed.

Lemma stuck_scene c t t' : stuck cfg b j t → OnEventGameScene c t = Some t' → stuck cfg b j t' ∧ ∀ i, seated t' i = seated t i.
Proof.
  intros H [g [-> | ->]]%scene_seats; (apply (stuck_item t); try reflexivity; try done). intros k.
  change (GetTableUserItem (SetUserStatus c sPlaying t <| m_bPlayerIsOperation := g |>) k) with (GetTableUserItem (SetUserStatus c sPlaying t) k).
  unfold SetUserStatus. rewrite item_set_user. destruct (decide (c = k)); [|done]. by destruct (GetTableUserItem t k).
Qed.

Lemma stuck_return d user t t' : stuck cfg b j t → OnUserEnter cfg d user t = Some t' → stuck cfg b j t' ∧ ∀ i, seated t' i = seated t i.
Proof.
  intros H. unfold OnUserEnter. destruct (find_chair user t) as [c|]; [|by intros [= <-]].
  set (o := if (_ =? 1)%nat then _ else _).
  assert (∀ t1, o = Some t1 → stuck cfg b j t1 ∧ ∀ i, seated t1 i = seated t i) as Ho.
  { unfold o. destruct (GetPlayerCount true t =? 1)%nat; [|by intros t1 [= <-]]. destruct (assert _); [|done]. intros t1 [= <-].
    apply (stuck_item t); try reflexivity; done. }
  destruct o as [t1|]; [|done]. destruct (Ho t1 eq_refl) as [H1 Hs1]. cbn [mbind option_bind]. rewrite (st_status _ _ _ _ H1).
  change (GAME_STATUS_SCORE <? GAME_STATUS_START) with false. change (GAME_STATUS_SCORE =? GAME_STATUS_INIT) with false. cbn [mbind option_bind].
  destruct (OnEventGameScene c t1) as [t2|] eqn:Es; [|done]. destruct (stuck_scene c t1 t2 H1 Es) as [H2 Hs2]. cbn [mbind option_bind].
  rewrite (st_status _ _ _ _ H2). change (GAME_STATUS_SCORE <? GAME_STATUS_READY) with false. cbn [andb]. rewrite !(st_status _ _ _ _ H2).
  change (GAME_STATUS_SCORE =? GAME_STATUS_LOCK_PLAYING) with false. cbv iota. rewrite !(st_status _ _ _ _ H2).
  change (GAME_STATUS_SCORE <? GAME_STATUS_START) with false. intros [= <-]. split; [done|]. intros i. by rewrite Hs2, Hs1.
Qed.

Lemma stuck_exec d e t t' : stuck cfg b j t → exec cfg d e t = Some t' → stuck cfg b j t' ∧ ∀ i, seated t' i = seated t i.
Proof.
  intros H. pose proof (st_status _ _ _ _ H) as Hst. destruct (st_timers _ _ _ _ H) as (T1 & T2 & T3 & T4).
  assert (∀ user, CanJoinTable t user = Some (bool_decide (is_Some (find_chair user t)))) as Hcan.
  { intros user. apply CanJoin_playing. by rewrite Hst. }
  assert (∀ s user, m_wGameStatus s = GAME_STATUS_SCORE → is_Some (find_chair user s) → CanLeftTable s user = false) as Hleft.
  { intros s user Hs [c Hc]. unfold CanLeftTable. by rewrite Hc, Hs. }
  destruct e as [u chair|user|user|user|chair m| | | | |]; cbn [exec]; rewrite ?T1, ?T2, ?T3, ?T4; try (by intros [= <-]).
  - assert (may_sit u chair t = Some false) as ->; [|by intros [= <-]].
    unfold may_sit. destruct (_ || _ || _ || _) eqn:E; [done|]. apply orb_false_iff in E as [[[_ _]%orb_false_iff Hf]%orb_false_iff Hid%Z.leb_gt].
    rewrite (st_used _ _ _ _ H), !Hcan. rewrite (find_negative t) by apply (st_ids _ _ _ _ H).
    destruct (android u); [by destruct (_ =? 0)%nat|]. by rewrite Hf.
  - destruct (find_chair user t) as [c|] eqn:Hf; [|by intros [= <-]]. destruct (IsAndroidUser t c); [by intros [= <-]|].
    destruct (CanJoinTable t user) as [[]|]; [|by intros [= <-]|done]. by apply stuck_return.
  - destruct (find_chair user t) as [c|] eqn:Hf; [|by intros [= <-]]. rewrite (Hleft t) by (done || by exists c). by intros [= <-].
  - destruct (find_chair user t) as [c|] eqn:Hf; [|by intros [= <-]]. intros [= <-]. unfold OnUserLeft. rewrite Hleft; [by apply stuck_offline|done|].
    exists c. rewrite <- Hf. apply find_chair_ext. intros k. unfold SetUserStatus. rewrite item_set_user. destruct (decide (c = k)); [|done]. by destruct (GetTableUserItem t k).
  - destruct (seated t chair); [|by intros [= <-]]. destruct (OnGameMessage cfg d chair m t) as [[z t1]|] eqn:E; [|done]. intros [= <-]. by eapply stuck_message.
  - unfold OnTimerGameReadyOver. rewrite Hst. by intros [= <-].
Qed.

(** A room may let in players whose balance does not cover a single bet.  Once the timer
    of the bets has fired for such a player no event ends the round: the bet of the timer is
    refused as any other, no timer is set, and nobody leaves his chair. *)
Theorem score_stuck l t t' : stuck cfg b j t → run cfg l t = Some t' →
  m_wGameStatus t' = GAME_STATUS_SCORE ∧ (m_sAddScore t').[j] = -1 ∧ ∀ i, seated t' i = seated t i.
Proof.
  revert t. induction l as [|[d e] l IH]; intros t H; cbn [run].
  - intros [= <-]. split; [apply (st_status _ _ _ _ H)|]. split; [apply (st_add _ _ _ _ H)|done].
  - destruct (exec cfg d e t) as [t1|] eqn:E; [|done]. cbn [mbind option_bind]. intros Hrun.
    destruct (stuck_exec d e t t1 H E) as [H1 Hs1]. destruct (IH t1 H1 Hrun) as (A & B & C). split; [done|]. split; [done|].
    intros i. by rewrite C, Hs1.
Qed.

End Stuck.

(** ** Rounds of two *)

Definition room (enter : Z) : Config := MkConfig 100 [1; 2; 3; 4; 5; 6] 2 enter false [0; 10; 0; 0] 30 5.
Definition draw : Draw := MkDraw m_byCardDataArray 0 (λ _, 500) (0, -1000, 1000) 50 50 50 (λ _, 0) true.
Definition guest (id score : Z) : User := MkUser id false score sFree 0 0.

Lemma room_ok : config_ok (room 400).
Proof. split; simpl; try lia. repeat (apply Forall_cons_2; [lia|]). apply Forall_nil_2. Qed.

Lemma draw_fine : draw_ok draw.
Proof. unfold draw_ok. reflexivity. Qed.

Definition sitting (score : Z) : list (Draw * Event) := [(draw, ESit (guest 7 score) 0); (draw, ESit (guest 9 score) 2)].
Definition bidding : list (Draw * Event) := sitting 5000 ++ [(draw, EMessage 2 (CALL_BANKER 2))].
Definition called : Table := Eval vm_compute in default new_table (run (room 400) bidding new_table).
Definition bet : Table := Eval vm_compute in default new_table (run (room 400) (bidding ++ [(draw, TCall)]) new_table).
Definition open : Table := Eval vm_compute in default new_table (run (room 400) (bidding ++ [(draw, TCall); (draw, EMessage 0 (ADD_SCORE 3))]) new_table).
Definition over : Table := Eval vm_compute in default new_table (exec (room 400) draw TOpen open).

Definition poor : Table := Eval vm_compute in default new_table (run (room 50) (sitting 60 ++ [(draw, TCall); (draw, TScore)]) new_table).

Lemma called_reachable : reachable (room 400) called.
Proof.
  apply (run_reaches _ bidding new_table); [|apply reach_new|by vm_compute].
  repeat (apply Forall_cons_2; [split; [exact draw_fine|simpl; lia || done]|]). apply Forall_nil_2.
Qed.

Lemma bet_reachable : reachable (room 400) bet.
Proof. apply (reach_step _ called draw TCall); [exact called_reachable|exact draw_fine|done|by vm_compute]. Qed.

Lemma open_reachable : reachable (room 400) open.
Proof. apply (reach_step _ bet draw (EMessage 0 (ADD_SCORE 3))); [exact bet_reachable|exact draw_fine|done|by vm_compute]. Qed.

Lemma reachable_rounds_witness : ∃ b, Bank (room 400) open b.
Proof.
  refine (proj2 (proj2 (proj2 (proj2 (reachable_rounds (room 400) room_ok open open_reachable _)))) _).
  - vm_compute. split; reflexivity.
  - vm_compute. discriminate.
Defined.

(** The banker bids four, and the user of the other chair comes back while the hands are opened. *)
Definition four_bid : list (Draw * Event) :=
  sitting 5000 ++ [(draw, EMessage 2 (CALL_BANKER 4)); (draw, TCall); (draw, EMessage 0 (ADD_SCORE 3))].
Definition open_four : Table := Eval vm_compute in default new_table (run (room 400) four_bid new_table).

Lemma open_four_reachable : reachable (room 400) open_four.
Proof.
  apply (run_reaches _ four_bid new_table); [|apply reach_new|by vm_compute].
  repeat (apply Forall_cons_2; [split; [exact draw_fine|simpl; lia || done]|]). apply Forall_nil_2.
Qed.

Lemma table_events_safe_witness : reads_past open_four (EReturn 7) ∧ exec (room 400) draw TOpen open = Some over ∧ reachable (room 400) over.
Proof.
  assert (exec (room 400) draw (EReturn 7) open_four = None) as E1 by (vm_compute; reflexivity).
  assert (exec (room 400) draw TOpen open = Some over) as E2 by (vm_compute; reflexivity).
  pose proof (table_events_safe (room 400) room_ok open_four draw (EReturn 7) open_four_reachable draw_fine I) as H1.
  pose proof (table_events_safe (room 400) room_ok open draw TOpen open_reachable draw_fine I) as H2.
  rewrite E1 in H1. rewrite E2 in H2. destruct H2 as [H2 _]. split; [exact H1|]. split; [exact E2|exact H2].
Defined.

Lemma timers_end_round_witness : ∃ t1 t2 t3 t4, exec (room 400) draw TCall called = Some t1 ∧ m_wGameStatus t1 = GAME_STATUS_SCORE ∧
  exec (room 400) draw TScore t1 = Some t2 ∧ m_wGameStatus t2 = GAME_STATUS_OPEN ∧
  exec (room 400) draw TOpen t2 = Some t3 ∧ m_wGameStatus t3 = GAME_STATUS_END ∧
  exec (room 400) draw TEnd t3 = Some t4 ∧ guests t4 = [] ∧ (m_bContinueServer t3 = true → m_wGameStatus t4 = GAME_STATUS_INIT).
Proof. exact (timers_end_round (room 400) room_ok called draw called_reachable eq_refl). Defined.

Lemma bank_choice_witness : ∃ w, m_wBankerUser bet = Some w ∧ chosen (called <| m_sCallBanker ::= bids_after TCall |>) w.
Proof. apply (bank_choice (room 400) room_ok called draw TCall bet called_reachable); vm_compute; reflexivity. Defined.

Lemma round_settlement_witness : settled (room 400) open over.
Proof. apply (round_settlement (room 400) room_ok open draw TOpen over open_reachable); vm_compute; reflexivity. Defined.

Lemma poor_stuck : stuck (room 50) 0 2 poor.
Proof.
  split; try (vm_compute; reflexivity).
  - split; [|split; [|done]]; vm_compute; [by left|by right; left].
  - intros k _. by do 6 (destruct k as [|k]; [done|]).
  - by split_and!.
  - intros i u. by do 4 (destruct i as [|i]; [vm_compute; by intros [= <-]|]).
Qed.

Definition waits : list (Draw * Event) := [(draw, EOffline 9); (draw, EReturn 9); (draw, EMessage 2 (ADD_SCORE 0)); (draw, TScore); (draw, TReady)].
Definition waited : Table := Eval vm_compute in default new_table (run (room 50) waits poor).

Lemma score_stuck_witness : m_wGameStatus waited = GAME_STATUS_SCORE ∧ (m_sAddScore waited).[2] = -1 ∧ ∀ i, seated waited i = seated poor i.
Proof. apply (score_stuck (room 50) 0 2 waits poor waited poor_stuck). vm_compute. reflexivity. Defined.
