(* ===== verification/ZjhLogic.v ===== *)
(** Golden flower, the cards ([src/Games/QPAlgorithm/zjh.cpp]): hands of three cards of one
    pack, the orders of cards, the types of hands and the comparison, with and without the
    special 2-3-5. *)
From stdpp Require Import base list numbers sorting sets.
From Stdlib Require Import ZArith Lia.
From S2P Require Import Prelude HongHei.

#[local] Open Scope Z_scope.

(** ** Cards *)

Definition MaxCardTotal : nat := 52.
Definition MaxCount : nat := 3.

Definition s_CardListData : list Z :=
  concat (map (λ color, map (λ v, 16 * Z.of_nat color + Z.of_nat v) (seq 1 13)) (seq 0 4)).

Inductive HandTy := TyNil | Tysp | Ty20 | Ty123 | Tysc | Ty123sc | Ty30 | Tysp235.
#[global] Instance HandTy_eq : EqDecision HandTy.
Proof. solve_decision. Defined.

Definition ty_code (t : HandTy) : Z :=
  match t with TyNil => 0 | Tysp => 1 | Ty20 => 2 | Ty123 => 3 | Tysc => 4 | Ty123sc => 5 | Ty30 => 6 | Tysp235 => 7 end.

Definition Diamond : Z := 0.
Definition Club : Z := 16.
Definition Heart : Z := 32.
Definition Spade : Z := 48.
Definition A : Z := 1.
Definition T : Z := 10.
Definition J : Z := 11.
Definition Q : Z := 12.
Definition K : Z := 13.

Definition GetCardColor (card : Z) : Z := Z.land card 240.
Definition GetCardValue (card : Z) : Z := Z.land card 15.
Definition GetCardPoint (card : Z) : Z := if GetCardValue card =? 1 then 14 else GetCardValue card.
Definition MakeCardWith (color value : Z) : Z := Z.lor (GetCardColor color) (GetCardValue value).

(** ** The pack *)

(** [cardsData_] and the first card that is not dealt. *)
Record Pack := MkPack { index_ : nat; cardsData_ : list Z }.

(** The constructor of [CGameLogic]. *)
Definition new_pack : Pack := MkPack 0 (replicate MaxCardTotal 0).
Definition InitCards (p : Pack) : Pack := MkPack (index_ p) s_CardListData.
Definition Remaining (p : Pack) : nat := (MaxCardTotal - index_ p)%nat.

(** [shuffle] is [std::shuffle] with the numbers drawn. *)
Definition ShuffleCards (shuffle : list Z → list Z) (p : Pack) : Pack := MkPack 0 (shuffle (cardsData_ p)).

(** The rest of the pack is shuffled again; [cards] is written from its first cell on. *)
Definition DealCards (shuffle : list Z → list Z) (n : nat) (cards : list Z) (p : Pack) : list Z * Pack :=
  if (Remaining p <? n)%nat then (cards, p)
  else
    let data := take (index_ p) (cardsData_ p) ++ shuffle (drop (index_ p) (cardsData_ p)) in
    (take n (drop (index_ p) data) ++ drop n cards, MkPack (index_ p + n) data).

(** ** Orders of cards *)

Definition gtb (x y : Z) : bool := y <? x.

(** By [k1], and by [k2] between equal ones. *)
Definition by_keys (k1 : Z → Z) (lt1 : Z → Z → bool) (k2 : Z → Z) (lt2 : Z → Z → bool) (card1 card2 : Z) : bool :=
  if negb (k1 card1 =? k1 card2) then lt1 (k1 card1) (k1 card2) else lt2 (k2 card1) (k2 card2).

Definition byCardValueColorGG : Z → Z → bool := by_keys GetCardValue gtb GetCardColor gtb.
Definition byCardValueColorGL : Z → Z → bool := by_keys GetCardValue gtb GetCardColor Z.ltb.
Definition byCardValueColorLG : Z → Z → bool := by_keys GetCardValue Z.ltb GetCardColor gtb.
Definition byCardValueColorLL : Z → Z → bool := by_keys GetCardValue Z.ltb GetCardColor Z.ltb.
Definition byCardPointColorGG : Z → Z → bool := by_keys GetCardPoint gtb GetCardColor gtb.
Definition byCardPointColorGL : Z → Z → bool := by_keys GetCardPoint gtb GetCardColor Z.ltb.
Definition byCardPointColorLG : Z → Z → bool := by_keys GetCardPoint Z.ltb GetCardColor gtb.
Definition byCardPointColorLL : Z → Z → bool := by_keys GetCardPoint Z.ltb GetCardColor Z.ltb.

Definition SortCards (cards : list Z) (byValue ascend clrAscend : bool) : list Z :=
  std_sort
    (if byValue then
       if ascend then if clrAscend then byCardValueColorLL else byCardValueColorLG
       else if clrAscend then byCardValueColorGL else byCardValueColorGG
     else
       if ascend then if clrAscend then byCardPointColorLL else byCardPointColorLG
       else if clrAscend then byCardPointColorGL else byCardPointColorGG) cards.

Definition byCardColorValueGG : Z → Z → bool := by_keys GetCardColor gtb GetCardValue gtb.
Definition byCardColorValueGL : Z → Z → bool := by_keys GetCardColor gtb GetCardValue Z.ltb.
Definition byCardColorValueLG : Z → Z → bool := by_keys GetCardColor Z.ltb GetCardValue gtb.
Definition byCardColorValueLL : Z → Z → bool := by_keys GetCardColor Z.ltb GetCardValue Z.ltb.
Definition byCardColorPointGG : Z → Z → bool := by_keys GetCardColor gtb GetCardPoint gtb.
Definition byCardColorPointGL : Z → Z → bool := by_keys GetCardColor gtb GetCardPoint Z.ltb.
Definition byCardColorPointLG : Z → Z → bool := by_keys GetCardColor Z.ltb GetCardPoint gtb.
Definition byCardColorPointLL : Z → Z → bool := by_keys GetCardColor Z.ltb GetCardPoint Z.ltb.

Definition SortCardsColor (cards : list Z) (clrAscend byValue ascend : bool) : list Z :=
  std_sort
    (if byValue then
       if ascend then if clrAscend then byCardColorValueLL else byCardColorValueGL
       else if clrAscend then byCardColorValueLG else byCardColorValueGG
     else
       if ascend then if clrAscend then byCardColorPointLL else byCardColorPointGL
       else if clrAscend then byCardColorPointLG else byCardColorPointGG) cards.

(** ** Types *)

(** The type, and the hand in the order the call leaves it in. *)
Definition GetHandCardsType_private (cards : list Z) : HandTy * list Z :=
  let cards := SortCards cards false false false in
  let p0 := GetCardPoint cards.[0] in
  let p1 := GetCardPoint cards.[1] in
  let p2 := GetCardPoint cards.[2] in
  let c0 := GetCardColor cards.[0] in
  let c1 := GetCardColor cards.[1] in
  let c2 := GetCardColor cards.[2] in
  if p0 =? p1 then if p1 =? p2 then (Ty30, cards) else (Ty20, cards)
  else if p1 =? p2 then (Ty20, cards)
  else if (p1 =? p2 + 1) && ((p0 =? p1 + 1) || (p0 =? p2 + 12)) then
    let sorted := if p0 =? p2 + 12 then SortCards cards true false false else cards in
    if (c0 =? c1) && (c1 =? c2) then (Ty123sc, sorted) else (Ty123, sorted)
  else if (c0 =? c1) && (c1 =? c2) then (Tysc, cards)
  else if (p0 =? 5) && (p1 =? 3) && (p2 =? 2) then (Tysp235, cards)
  else (Tysp, cards).

Definition GetHandCardsType (cards : list Z) : HandTy * list Z :=
  let '(ty, cards) := GetHandCardsType_private cards in
  (if decide (ty = Tysp235) then Tysp else ty, cards).

Definition HasCardValue (cards : list Z) (cardValue : Z) (count : nat) : bool :=
  (0 <? count)%nat && (count <=? length (filter (λ c, cardValue = GetCardValue c) (take MaxCount cards)))%nat.
Definition MaxCard (cards : list Z) : Z := (SortCards cards false false false).[0].
Definition MinCard (cards : list Z) : Z := (SortCards cards false false false).[2].

(** ** Comparison *)

(** A loop over the three cards that returns the first difference. *)
Fixpoint first_diff (f : Z → Z) (ixs : list nat) (cards1 cards2 : list Z) : option Z :=
  match ixs with
  | [] => None
  | i :: ixs => if negb (f cards1.[i] =? f cards2.[i]) then Some (f cards1.[i] - f cards2.[i]) else first_diff f ixs cards1 cards2
  end.

Definition CompareSanPai (cards1 cards2 : list Z) : Z :=
  match first_diff GetCardPoint (seq 0 3) cards1 cards2 with
  | Some d => d
  | None => default 0 (first_diff GetCardColor (seq 0 3) cards1 cards2)
  end.

Definition CompareDuiZi (cards1 cards2 : list Z) : Z :=
  let p0 := GetCardPoint cards1.[1] in
  let p1 := GetCardPoint cards2.[1] in
  if negb (p0 =? p1) then p0 - p1
  else
    let sp0 := if GetCardPoint cards1.[0] =? p0 then GetCardPoint cards1.[2] else GetCardPoint cards1.[0] in
    let sp1 := if GetCardPoint cards2.[0] =? p1 then GetCardPoint cards2.[2] else GetCardPoint cards2.[0] in
    if negb (sp0 =? sp1) then sp0 - sp1
    else
      let c0 := if sp0 =? p0 then GetCardColor cards1.[0] else if sp0 <? p0 then GetCardColor cards1.[0] else GetCardColor cards1.[1] in
      let c1 := if sp1 =? p1 then GetCardColor cards2.[0] else if sp1 <? p1 then GetCardColor cards2.[0] else GetCardColor cards2.[1] in
      c0 - c1.

Definition CompareShunZi (cards1 cards2 : list Z) : Z :=
  match first_diff GetCardPoint (seq 0 3) cards1 cards2 with
  | Some d => d
  | None => default 0 (first_diff GetCardColor (seq 0 3) cards1 cards2)
  end.

Definition CompareJinHua (cards1 cards2 : list Z) : Z :=
  match first_diff GetCardPoint (seq 0 3) cards1 cards2 with
  | Some d => d
  | None => GetCardColor cards1.[0] - GetCardColor cards2.[0]
  end.

Definition CompareShunJin (cards1 cards2 : list Z) : Z :=
  match first_diff GetCardPoint (seq 0 3) cards1 cards2 with
  | Some d => d
  | None => GetCardColor cards1.[0] - GetCardColor cards2.[0]
  end.

Definition CompareBaoZi (cards1 cards2 : list Z) : Z := GetCardPoint cards1.[0] - GetCardPoint cards2.[0].

(** Hands of one type; [None]: the function ends without a result. *)
Definition compare_same (t : HandTy) (cards1 cards2 : list Z) : option Z :=
  match t with
  | Tysp => Some (CompareSanPai cards1 cards2)
  | Ty20 => Some (CompareDuiZi cards1 cards2)
  | Ty123 => Some (CompareShunZi cards1 cards2)
  | Tysc => Some (CompareJinHua cards1 cards2)
  | Ty123sc => Some (CompareShunJin cards1 cards2)
  | Ty30 => Some (CompareBaoZi cards1 cards2)
  | TyNil | Tysp235 => None
  end.

(** The 2-3-5 as an ordinary hand. *)
Definition plain (t : HandTy) : HandTy := if decide (t = Tysp235) then Tysp else t.

Definition compare_typed (t0 t1 : HandTy) (cards1 cards2 : list Z) : option Z :=
  if decide (t0 = t1) then compare_same (plain t0) cards1 cards2
  else if decide (t0 = Tysp235) then
    if bool_decide (t1 = Ty30) && (GetCardValue cards2.[0] =? A) then Some (ty_code t0 - ty_code t1)
    else if decide (Tysp = t1) then compare_same Tysp cards1 cards2 else Some (ty_code Tysp - ty_code t1)
  else if decide (t1 = Tysp235) then
    if bool_decide (t0 = Ty30) && (GetCardValue cards1.[0] =? A) then Some (ty_code t0 - ty_code t1)
    else if decide (t0 = Tysp) then compare_same t0 cards1 cards2 else Some (ty_code t0 - ty_code Tysp)
  else Some (ty_code t0 - ty_code t1).

(** The result, and both hands in the order the call leaves them in. *)
Definition CompareHandCards (cards1 cards2 : list Z) (sp235 : bool) : option Z * (list Z * list Z) :=
  let '(t0, cards1) := GetHandCardsType_private cards1 in
  let '(t1, cards2) := GetHandCardsType_private cards2 in
  let t0 := if sp235 then t0 else plain t0 in
  let t1 := if sp235 then t1 else plain t1 in
  (compare_typed t0 t1 cards1 cards2, (cards1, cards2)).

Definition GreaterHandCards (cards1 cards2 : list Z) : option bool := (λ d, 0 <? d) <$> fst (CompareHandCards cards1 cards2 false).

(** ** The sorts *)

Lemma by_keys_sorts (k1 k2 : Z → Z) lt1 lt2 : (lt1 = gtb ∨ lt1 = Z.ltb) → (lt2 = gtb ∨ lt2 = Z.ltb) →
  (∀ x y, by_keys k1 lt1 k2 lt2 x y = true → by_keys k1 lt1 k2 lt2 y x = false) ∧
  (∀ x y z, by_keys k1 lt1 k2 lt2 y x = false → by_keys k1 lt1 k2 lt2 z y = false → by_keys k1 lt1 k2 lt2 z x = false) ∧
  (∀ x y, by_keys k1 lt1 k2 lt2 x y = false → by_keys k1 lt1 k2 lt2 y x = false → k1 x = k1 y ∧ k2 x = k2 y).
Proof.
  intros H1 H2. unfold by_keys. split; [|split]; intros *; destruct H1 as [-> | ->], H2 as [-> | ->]; unfold gtb; bcrush.
Qed.

(** Colour and value, or colour and point, are the whole card. *)
Lemma card_cells c : card c → c = GetCardColor c + GetCardValue c ∧ 1 <= GetCardValue c <= 13 ∧
  GetCardPoint c = (if GetCardValue c =? 1 then 14 else GetCardValue c) ∧ GetCardColor c ∈ [0; 16; 32; 48].
Proof. revert c. apply (card_all _). vm_compute. reflexivity. Qed.

Lemma card_by_point c d : card c → card d → GetCardPoint c = GetCardPoint d → GetCardColor c = GetCardColor d → c = d.
Proof.
  intros (Ec & Hc & Pc & _)%card_cells (Ed & Hd & Pd & _)%card_cells Hp Hcol. rewrite Pc, Pd in Hp.
  destruct (Z.eqb_spec (GetCardValue c) 1), (Z.eqb_spec (GetCardValue d) 1); lia.
Qed.

Lemma point_sort_perm l : SortCards l false false false ≡ₚ l.
Proof. apply std_sort_perm. Qed.

Lemma sort_unique k1 k2 lt1 lt2 l l' : (lt1 = gtb ∨ lt1 = Z.ltb) → (lt2 = gtb ∨ lt2 = Z.ltb) →
  (∀ c d, c ∈ l → d ∈ l → k1 c = k1 d → k2 c = k2 d → c = d) → l ≡ₚ l' →
  std_sort (by_keys k1 lt1 k2 lt2) l = std_sort (by_keys k1 lt1 k2 lt2) l'.
Proof.
  intros H1 H2 Hinj Hp. destruct (by_keys_sorts k1 k2 lt1 lt2 H1 H2) as (Ha & Ht & He).
  set (R := std_le (by_keys k1 lt1 k2 lt2)).
  assert (∀ m, m ≡ₚ l → StronglySorted (λ x y, (x ∈ l ∧ y ∈ l) ∧ R x y) (std_sort (by_keys k1 lt1 k2 lt2) m)) as Hs.
  { intros m Hm. pose proof (std_sort_sorted _ Ha Ht m) as H. pose proof (Permutation_trans (std_sort_perm (by_keys k1 lt1 k2 lt2) m) Hm) as Hpm.
    assert (∀ x, x ∈ std_sort (by_keys k1 lt1 k2 lt2) m → x ∈ l) as Hin by (intros x; by rewrite Hpm).
    clear Hpm. induction H as [|x s Hss IH Hx]; constructor; [apply IH; intros y Hy; apply Hin; by right|].
    rewrite Forall_forall in *. intros y Hy. split; [split; apply Hin; [by left|by right]|by apply Hx]. }
  assert (AntiSymm (=) (λ x y, (x ∈ l ∧ y ∈ l) ∧ R x y)) as Hanti.
  { intros x y [[Hx Hy] Hxy] [_ Hyx]. destruct (He y x Hxy Hyx). by apply Hinj. }
  apply (StronglySorted_unique' (λ x y, (x ∈ l ∧ y ∈ l) ∧ R x y)); [by apply Hs|by apply Hs|].
  by rewrite !std_sort_perm.
Qed.

Lemma three_cells (c : list Z) : length c = 3%nat → c = [c.[0]; c.[1]; c.[2]].
Proof. by destruct c as [|x [|y [|z [|]]]]. Qed.

Lemma point_sorted h c : length h = 3%nat → c = SortCards h false false false →
  GetCardPoint c.[2] <= GetCardPoint c.[1] <= GetCardPoint c.[0].
Proof.
  intros Hl ->. destruct (by_keys_sorts GetCardPoint GetCardColor gtb gtb) as (Ha & Ht & _); [by left|by left|].
  pose proof (std_sort_sorted _ Ha Ht h) as Hs. change (std_sort _ h) with (SortCards h false false false) in Hs.
  assert (length (SortCards h false false false) = 3%nat) as Hlc by (etransitivity; [apply std_sort_length|done]).
  rewrite (three_cells _ Hlc) in Hs. inversion_clear Hs as [|? ? Hs1 Hf1]. inversion_clear Hs1 as [|? ? _ Hf2].
  apply Forall_cons in Hf1 as [H1 _]. apply Forall_cons in Hf2 as [H2 _]. unfold std_le, by_keys, gtb in H1, H2.
  revert H1 H2. bsplit; lia.
Qed.

(** ** Dealing *)

Definition pack_ok (p : Pack) : Prop := cardsData_ p ≡ₚ s_CardListData ∧ (index_ p <= MaxCardTotal)%nat.

(** A deal takes the next cards, which are none of those dealt before; the pack keeps its
    cards and those dealt before their places. *)
Lemma DealCards_spec shuffle n cards p : pack_ok p → (∀ l, shuffle l ≡ₚ l) → (n <= Remaining p)%nat → length cards = n →
  let '(hand, p') := DealCards shuffle n cards p in
  pack_ok p' ∧ index_ p' = (index_ p + n)%nat ∧ length hand = n ∧ NoDup (take (index_ p) (cardsData_ p) ++ hand) ∧
  take (index_ p') (cardsData_ p') = take (index_ p) (cardsData_ p) ++ hand.
Proof.
  intros [Hp Hi] Hs Hn Hl. unfold DealCards. rewrite (proj2 (Nat.ltb_ge _ _)) by lia. set (i := index_ p) in *. set (data := cardsData_ p) in *.
  assert (length data = MaxCardTotal) as Hdl by (by rewrite Hp). unfold Remaining in Hn. fold i in Hn.
  assert (length (take i data) = i) as Ht by (rewrite length_take; lia). set (rest := shuffle (drop i data)).
  assert (rest ≡ₚ drop i data) as Hr by apply Hs. pose proof (Permutation_length Hr) as Hrl. rewrite length_drop in Hrl.
  assert (drop i (take i data ++ rest) = rest) as -> by (rewrite <- Ht at 1; by rewrite drop_app_length).
  assert (take i data ++ rest ≡ₚ s_CardListData) as Hall by (by rewrite Hr, take_drop). rewrite <- Hl, drop_all, Hl, app_nil_r. cbn [index_ cardsData_].
  assert (take (i + n) (take i data ++ rest) = take i data ++ take n rest) as Htake.
  { rewrite take_app, Ht. f_equal; [rewrite take_ge by lia; done|f_equal; lia]. }
  split; [split; [exact Hall|simpl; lia]|]. split_and!; [done|rewrite length_take; lia| |done].
  assert (NoDup (take i data ++ rest)) as Hnd by (rewrite Hall; apply (bool_decide_unpack _); vm_compute; exact I).
  rewrite <- Htake. apply (sublist_NoDup _ (take i data ++ rest)); [done|apply sublist_take].
Qed.
