(* ===== verification/ZjhCompare.v ===== *)
(** Golden flower, the comparison: it is the order of the hands' keys, a total order on the
    hands of one pack, but for the special 2-3-5, which beats the three aces and nothing else, so
    that hands can beat each other in a circle. *)
From stdpp Require Import base list numbers sorting sets.
From Stdlib Require Import ZArith Lia.
From S2P Require Import Prelude HongHei ZjhLogic.

#[local] Open Scope Z_scope.

(** ** The key of a hand *)

(** The first difference of two lists. *)
Fixpoint lex_diff (l k : list Z) : Z :=
  match l, k with
  | x :: l, y :: k => if x =? y then lex_diff l k else x - y
  | _, _ => 0
  end.

Lemma lex_diff_opp l k : lex_diff k l = - lex_diff l k.
Proof. revert k. induction l as [|x l IH]; intros [|y k]; simpl; try done. rewrite (Z.eqb_sym y x). destruct (Z.eqb_spec x y); [apply IH|lia]. Qed.

Lemma lex_diff_zero l k : length l = length k → lex_diff l k = 0 → l = k.
Proof.
  revert k. induction l as [|x l IH]; intros [|y k]; simpl; try done. intros [= Hl]. destruct (Z.eqb_spec x y); [|lia].
  intros H. f_equal; [done|by apply IH].
Qed.

Lemma lex_diff_trans l k m : length l = length k → length k = length m → 0 < lex_diff l k → 0 < lex_diff k m → 0 < lex_diff l m.
Proof.
  revert k m. induction l as [|x l IH]; intros [|y k] [|z m]; simpl; try done. intros [= H1] [= H2].
  destruct (Z.eqb_spec x y), (Z.eqb_spec y z), (Z.eqb_spec x z); try lia. by apply IH.
Qed.

(** What decides between two hands, in the order it decides, for a hand in the order
    [GetHandCardsType_private] leaves it in. *)
Definition key_of (t : HandTy) (c : list Z) : list Z :=
  let p i := GetCardPoint c.[i] in
  let color i := GetCardColor c.[i] in
  ty_code (plain t) ::
  match plain t with
  | Ty30 => [p 0%nat; 0; 0; 0; 0; 0]
  | Ty20 =>
      let single := if p 0%nat =? p 1%nat then p 2%nat else p 0%nat in
      [p 1%nat; single; if single <? p 1%nat then color 0%nat else color 1%nat; 0; 0; 0]
  | Tysc | Ty123sc => [p 0%nat; p 1%nat; p 2%nat; color 0%nat; 0; 0]
  | _ => [p 0%nat; p 1%nat; p 2%nat; color 0%nat; color 1%nat; color 2%nat]
  end.

Definition key (h : list Z) : list Z := let '(t, c) := GetHandCardsType_private h in key_of t c.

Lemma key_length h : length (key h) = 7%nat.
Proof. unfold key. destruct (GetHandCardsType_private h) as [[] c]; done. Qed.

(** What the type says of the cards. *)
Lemma private_spec h t c : GetHandCardsType_private h = (t, c) → t ≠ TyNil ∧ c ≡ₚ h ∧
  match t with
  | Ty30 => GetCardPoint c.[0] = GetCardPoint c.[1] ∧ GetCardPoint c.[1] = GetCardPoint c.[2]
  | Ty20 => (GetCardPoint c.[0] = GetCardPoint c.[1] ∧ GetCardPoint c.[1] ≠ GetCardPoint c.[2]) ∨
            (GetCardPoint c.[0] ≠ GetCardPoint c.[1] ∧ GetCardPoint c.[1] = GetCardPoint c.[2])
  | _ => True
  end.
Proof.
  unfold GetHandCardsType_private. set (s := SortCards h false false false).
  assert (s ≡ₚ h) as Hs by apply std_sort_perm. clearbody s.
  assert (SortCards s true false false ≡ₚ h) as Hs' by (rewrite <- Hs; apply std_sort_perm).
  intros H. revert H.
  destruct (Z.eqb_spec (GetCardPoint s.[0]) (GetCardPoint s.[1])) as [E1|E1];
    destruct (Z.eqb_spec (GetCardPoint s.[1]) (GetCardPoint s.[2])) as [E2|E2].
  1-3: intros [= <- <-]; split_and!; try done; tauto.
  destruct ((GetCardPoint s.[1] =? _) && _).
  - destruct (_ && _); intros [= <- <-]; (split; [done|]; split; [|done]); by destruct (_ =? _).
  - destruct (_ && _); [intros [= <- <-]; done|]. destruct (_ && _); by intros [= <- <-].
Qed.

Lemma compare_same_key t a b : t ≠ TyNil → plain t = t →
  (t = Ty20 → ∀ c, c = a ∨ c = b → (GetCardPoint c.[0] = GetCardPoint c.[1] ∧ GetCardPoint c.[1] ≠ GetCardPoint c.[2]) ∨
            (GetCardPoint c.[0] ≠ GetCardPoint c.[1] ∧ GetCardPoint c.[1] = GetCardPoint c.[2])) →
  compare_same t a b = Some (lex_diff (key_of t a) (key_of t b)).
Proof.
  intros Hn Hp H20. destruct t; try done; unfold key_of; rewrite Hp; cbn [compare_same lex_diff]; rewrite Z.eqb_refl; f_equal.
  - unfold CompareSanPai. cbn [first_diff seq]. repeat (destruct (_ =? _); cbn [negb default]; [|done]). done.
  - pose proof (H20 eq_refl a ltac:(by left)) as Ha. pose proof (H20 eq_refl b ltac:(by right)) as Hb. clear H20. unfold CompareDuiZi.
    rewrite Z.eqb_refl. destruct (Z.eqb_spec (GetCardPoint a.[1]) (GetCardPoint b.[1])) as [E|E]; cbn [negb]; [|done].
    assert (∀ c : list Z, (GetCardPoint c.[0] = GetCardPoint c.[1] ∧ GetCardPoint c.[1] ≠ GetCardPoint c.[2]) ∨
            (GetCardPoint c.[0] ≠ GetCardPoint c.[1] ∧ GetCardPoint c.[1] = GetCardPoint c.[2]) →
       (if GetCardPoint c.[0] =? GetCardPoint c.[1] then GetCardPoint c.[2] else GetCardPoint c.[0]) ≠ GetCardPoint c.[1]) as Hs.
    { intros c Hc. destruct (Z.eqb_spec (GetCardPoint c.[0]) (GetCardPoint c.[1])); lia. }
    pose proof (Hs a Ha) as Sa. pose proof (Hs b Hb) as Sb.
    set (sa := if GetCardPoint a.[0] =? GetCardPoint a.[1] then _ else _) in *. set (sb := if GetCardPoint b.[0] =? GetCardPoint b.[1] then _ else _) in *.
    rewrite (proj2 (Z.eqb_neq _ _) Sa), (proj2 (Z.eqb_neq _ _) Sb). destruct (sa =? sb); cbn [negb]; [|done].
    set (ca := if sa <? GetCardPoint a.[1] then _ else _). set (cb := if sb <? GetCardPoint b.[1] then _ else _).
    destruct (Z.eqb_spec ca cb); lia.
  - unfold CompareShunZi. cbn [first_diff seq]. repeat (destruct (_ =? _); cbn [negb default]; [|done]). done.
  - unfold CompareJinHua. cbn [first_diff seq]. repeat (destruct (GetCardPoint _ =? _); cbn [negb default]; [|done]). rewrite Z.eqb_refl. destruct (Z.eqb_spec (GetCardColor a.[0]) (GetCardColor b.[0])); lia.
  - unfold CompareShunJin. cbn [first_diff seq]. repeat (destruct (GetCardPoint _ =? _); cbn [negb default]; [|done]). rewrite Z.eqb_refl. destruct (Z.eqb_spec (GetCardColor a.[0]) (GetCardColor b.[0])); lia.
  - unfold CompareBaoZi. rewrite Z.eqb_refl. destruct (Z.eqb_spec (GetCardPoint a.[0]) (GetCardPoint b.[0])); lia.
Qed.

Lemma key_of_plain t c : key_of (plain t) c = key_of t c.
Proof. by destruct t. Qed.

Lemma compare_equal_types ta ca tb cb a b : GetHandCardsType_private a = (ta, ca) → GetHandCardsType_private b = (tb, cb) →
  plain ta = plain tb → compare_same (plain ta) ca cb = Some (lex_diff (key_of ta ca) (key_of tb cb)).
Proof.
  intros Ea Eb Ht. pose proof (private_spec _ _ _ Ea) as (Na & _ & Sa). pose proof (private_spec _ _ _ Eb) as (Nb & _ & Sb).
  rewrite <- (key_of_plain ta), <- (key_of_plain tb), <- Ht. apply compare_same_key; [by destruct ta|by destruct ta|].
  intros H20. assert (ta = Ty20 ∧ tb = Ty20) as [-> ->] by (destruct ta, tb; done). by intros c [-> | ->].
Qed.

Lemma lex_diff_types ta tb ca cb : plain ta ≠ plain tb → lex_diff (key_of ta ca) (key_of tb cb) = ty_code (plain ta) - ty_code (plain tb).
Proof. intros Hne. unfold key_of. cbn [lex_diff]. rewrite (proj2 (Z.eqb_neq _ _)); [done|]. destruct ta, tb; done. Qed.

Lemma compare_key a b : fst (CompareHandCards a b false) = Some (lex_diff (key a) (key b)).
Proof.
  unfold CompareHandCards, key. destruct (GetHandCardsType_private a) as [ta ca] eqn:Ea, (GetHandCardsType_private b) as [tb cb] eqn:Eb.
  cbn [fst]. unfold compare_typed. assert (∀ t, plain t ≠ Tysp235) as Hp by (by intros []).
  assert (∀ t, plain (plain t) = plain t) as Hpp by (by intros []).
  destruct (decide (plain ta = plain tb)) as [Ht|Ht].
  - rewrite Hpp. by eapply compare_equal_types.
  - rewrite (decide_False (P := plain ta = Tysp235)), (decide_False (P := plain tb = Tysp235)) by done.
    by rewrite lex_diff_types.
Qed.

(** ** Two hands of one pack *)

Lemma cell_in (c h : list Z) i : c ≡ₚ h → length h = 3%nat → (i < 3)%nat → c.[i] ∈ h.
Proof.
  intros Hp Hl Hi. rewrite <- Hp. apply Permutation_length in Hp. destruct (lookup_lt_is_Some_2 c i) as [x Hx]; [lia|].
  rewrite (aget_lookup _ _ _ Hx). by eapply list_elem_of_lookup_2.
Qed.

Lemma no_shared_cell a b ca cb i j : two_hands a b → ca ≡ₚ a → cb ≡ₚ b → (i < 3)%nat → (j < 3)%nat →
  GetCardPoint ca.[i] = GetCardPoint cb.[j] → GetCardColor ca.[i] ≠ GetCardColor cb.[j].
Proof.
  intros ((La & Fa & _) & (Lb & Fb & _) & Hd) Pa Pb Hi Hj Hp Hc. rewrite Forall_forall in Fa, Fb.
  pose proof (cell_in ca a i Pa La Hi) as Ia. pose proof (cell_in cb b j Pb Lb Hj) as Ib.
  apply (Hd _ Ia). by rewrite (card_by_point _ _ (Fa _ Ia) (Fb _ Ib) Hp Hc).
Qed.

(** Six cards of one pack do not have one point. *)
Lemma two_triples a b p : two_hands a b → (∀ c, c ∈ a ++ b → GetCardPoint c = p) → False.
Proof.
  intros ((La & Fa & Na) & (Lb & Fb & Nb) & Hd) Hp.
  assert (NoDup (a ++ b)) as Hnd by (apply NoDup_app; split_and!; done).
  assert (Forall card (a ++ b)) as Hf by (by apply Forall_app).
  rewrite Forall_forall in Hf.
  assert (NoDup (GetCardColor <$> (a ++ b))) as Hcol.
  { revert Hnd Hf Hp. generalize (a ++ b). clear. induction l as [|x l IH]; intros Hnd Hf Hp; [constructor|].
    apply NoDup_cons in Hnd as [Hx Hnd]. rewrite fmap_cons. constructor.
    - intros (y & E & Hy)%list_elem_of_fmap_1. apply Hx. rewrite (card_by_point x y); [done| | | |done].
      + apply Hf. by left. + apply Hf. by right. + rewrite !Hp; [done|by right|by left].
    - apply IH; [done|intros c Hc; apply Hf; by right|intros c Hc; apply Hp; by right]. }
  apply (NoDup_submseteq _ [0; 16; 32; 48]) in Hcol.
  - apply submseteq_length in Hcol. rewrite length_fmap, length_app in Hcol. simpl in Hcol. lia.
  - intros y (c & -> & Hc)%list_elem_of_fmap_1. by destruct (card_cells c (Hf c Hc)) as (_ & _ & _ & ?).
Qed.

Lemma pair_sorted h c : length h = 3%nat → GetHandCardsType_private h = (Ty20, c) → GetCardPoint c.[2] <= GetCardPoint c.[1] <= GetCardPoint c.[0].
Proof.
  intros Hl. unfold GetHandCardsType_private. pose proof (point_sorted h _ Hl eq_refl) as Hs.
  set (s := SortCards h false false false) in *. clearbody s. cbv zeta.
  repeat match goal with |- context [if ?b then _ else _] => destruct b end; intros [= <-]; done.
Qed.

(** The card whose colour decides between equal pairs is of the pair. *)
Lemma best_pair_cell c : GetCardPoint c.[2] <= GetCardPoint c.[1] <= GetCardPoint c.[0] →
  (GetCardPoint c.[0] = GetCardPoint c.[1] ∧ GetCardPoint c.[1] ≠ GetCardPoint c.[2]) ∨
  (GetCardPoint c.[0] ≠ GetCardPoint c.[1] ∧ GetCardPoint c.[1] = GetCardPoint c.[2]) →
  ∃ i, (i < 3)%nat ∧ GetCardPoint c.[i] = GetCardPoint c.[1] ∧
    (if (if GetCardPoint c.[0] =? GetCardPoint c.[1] then GetCardPoint c.[2] else GetCardPoint c.[0]) <? GetCardPoint c.[1]
     then GetCardColor c.[0] else GetCardColor c.[1]) = GetCardColor c.[i].
Proof.
  intros Hs [[E N]|[N E]].
  - exists 0%nat. split; [lia|]. split; [done|]. rewrite (proj2 (Z.eqb_eq _ _) E), (proj2 (Z.ltb_lt _ _)) by lia. done.
  - exists 1%nat. split; [lia|]. split; [done|]. rewrite (proj2 (Z.eqb_neq _ _) N), (proj2 (Z.ltb_ge _ _)) by lia. done.
Qed.

Lemma keys_differ a b : two_hands a b → key a ≠ key b.
Proof.
  intros Hab. unfold key. destruct (GetHandCardsType_private a) as [ta ca] eqn:Ea, (GetHandCardsType_private b) as [tb cb] eqn:Eb.
  destruct (private_spec _ _ _ Ea) as (Na & Pa & Sa), (private_spec _ _ _ Eb) as (Nb & Pb & Sb). intros E.
  assert (plain ta = plain tb) as Ht by (injection E as E _; destruct ta, tb; done).
  pose proof (λ i j Hi Hj, no_shared_cell a b ca cb i j Hab Pa Pb Hi Hj) as Hne.
  unfold key_of in E. rewrite <- Ht in E. destruct (plain ta) eqn:Et.
  - by destruct ta.
  - injection E as E0 _ _ Ec _ _. by apply (Hne 0%nat 0%nat ltac:(lia) ltac:(lia)).
  - assert (ta = Ty20 ∧ tb = Ty20) as [-> ->] by (destruct ta, tb; done). injection E as E1 Es Ec.
    pose proof Hab as ((La & _) & (Lb & _) & _).
    destruct (best_pair_cell ca (pair_sorted _ _ La Ea) Sa) as (i & Hi & Pi & Ci), (best_pair_cell cb (pair_sorted _ _ Lb Eb) Sb) as (j & Hj & Pj & Cj).
    apply (Hne i j Hi Hj); [congruence|]. by rewrite <- Ci, <- Cj.
  - injection E as E0 _ _ Ec _ _. by apply (Hne 0%nat 0%nat ltac:(lia) ltac:(lia)).
  - injection E as E0 _ _ Ec. by apply (Hne 0%nat 0%nat ltac:(lia) ltac:(lia)).
  - injection E as E0 _ _ Ec. by apply (Hne 0%nat 0%nat ltac:(lia) ltac:(lia)).
  - assert (ta = Ty30 ∧ tb = Ty30) as [-> ->] by (destruct ta, tb; done). injection E as E0.
    pose proof Hab as ((La & _) & (Lb & _) & _). rewrite <- (Permutation_length Pa) in La. rewrite <- (Permutation_length Pb) in Lb.
    apply (two_triples a b (GetCardPoint ca.[0]) Hab). intros c [Hc|Hc]%elem_of_app.
    + rewrite <- Pa, (three_cells ca La), !elem_of_cons, elem_of_nil in Hc. destruct Sa. destruct Hc as [-> | [-> | [-> | []]]]; congruence.
    + rewrite <- Pb, (three_cells cb Lb), !elem_of_cons, elem_of_nil in Hc. destruct Sb. destruct Hc as [-> | [-> | [-> | []]]]; congruence.
  - by destruct ta.
Qed.

(** The order of the cards of a hand does not matter. *)
Lemma key_perm a a' : hand a → a' ≡ₚ a → key a' = key a.
Proof.
  intros (_ & Fa & _) Hp. unfold key, GetHandCardsType_private.
  assert (SortCards a' false false false = SortCards a false false false) as ->; [|done].
  rewrite Forall_forall in Fa. apply sort_unique; [by left|by left| |done].
  intros c d Hc Hd. rewrite Hp in Hc, Hd. apply card_by_point; by apply Fa.
Qed.

(** C29. Between two hands of one pack the comparison without the special 2-3-5 is the order
    of their keys (the type, then points and colours as the rules order them), whatever the
    order of the cards: exactly one of the two hands wins, the result only changes its sign
    when the hands are exchanged, and the order has no cycles. *)
Theorem CompareHandCards_order a b : two_hands a b →
  ∃ d, fst (CompareHandCards a b false) = Some d ∧ fst (CompareHandCards b a false) = Some (- d) ∧ d ≠ 0 ∧
    d = lex_diff (key a) (key b) ∧ (∀ a', a' ≡ₚ a → key a' = key a).
Proof.
  intros Hab. pose proof (keys_differ a b Hab) as Hne. exists (lex_diff (key a) (key b)). rewrite !compare_key, (lex_diff_opp (key a)).
  split_and!; try done.
  - intros H%lex_diff_zero; [done|]. by rewrite !key_length.
  - intros a' Hp. apply key_perm; [apply Hab|done].
Qed.

(** ** The special 2-3-5 *)

Definition special (h : list Z) : bool := bool_decide (fst (GetHandCardsType_private h) = Tysp235).
Definition aces (h : list Z) : bool :=
  bool_decide (fst (GetHandCardsType_private h) = Ty30) && (GetCardValue (snd (GetHandCardsType_private h)).[0] =? A).

Lemma compare_special a b :
  fst (CompareHandCards a b true) =
    if special a && aces b then Some 1 else if aces a && special b then Some (-1) else fst (CompareHandCards a b false).
Proof.
  rewrite compare_key. unfold special, aces, key, CompareHandCards.
  destruct (GetHandCardsType_private a) as [ta ca] eqn:Ea, (GetHandCardsType_private b) as [tb cb] eqn:Eb. cbn [fst snd].
  pose proof (private_spec _ _ _ Ea) as (Na & _). pose proof (private_spec _ _ _ Eb) as (Nb & _).
  pose proof (compare_equal_types _ _ _ _ _ _ Ea Eb) as Hs. pose proof (lex_diff_types ta tb ca cb) as Hd.
  clear Ea Eb. unfold compare_typed. destruct ta, tb; try done;
    first [specialize (Hs eq_refl); clear Hd|specialize (Hd ltac:(done)); clear Hs; rewrite Hd; clear Hd]; cbn [andb];
    repeat match goal with
    | |- context [decide (?x = ?y :> HandTy)] => first [rewrite (decide_True (P := x = y)) by reflexivity|rewrite (decide_False (P := x = y)) by done]
    | |- context [bool_decide (?x = ?y :> HandTy)] => first [rewrite (bool_decide_true (x = y)) by reflexivity|rewrite (bool_decide_false (x = y)) by done]
    end; cbn [andb]; try exact Hs; try reflexivity; by destruct (_ =? A).
Qed.

(** With the special 2-3-5 (three cards 2, 3, 5 that are not of one colour) only one
    thing changes: it beats three aces.  It loses against every other triple, as the
    weakest of the single cards, although the aces beat all of those ([special_cycle]). *)
Theorem CompareHandCards_235 a b :
  fst (CompareHandCards a b true) =
    if special a && aces b then Some 1 else if aces a && special b then Some (-1) else fst (CompareHandCards a b false).
Proof. exact (compare_special a b). Qed.

Definition demo_235 : list Z := [18; 3; 53].
Definition demo_aces : list Z := [1; 17; 49].
Definition demo_pair : list Z := [2; 34; 24].

(** A test for two hands of one pack. *)
Definition two_handsb (h k : list Z) : bool :=
  (length h =? 3)%nat && (length k =? 3)%nat && forallb (λ c, bool_decide (card c)) (h ++ k) && bool_decide (NoDup (h ++ k)).

Lemma two_handsb_sound h k : two_handsb h k = true → two_hands h k.
Proof.
  intros [[[Hh%Nat.eqb_eq Hk%Nat.eqb_eq]%andb_true_iff Hc]%andb_true_iff Hn%bool_decide_eq_true]%andb_true_iff. apply NoDup_app in Hn as (N1 & N2 & N3).
  assert (Forall card (h ++ k)) as [F1 F2]%Forall_app.
  { apply Forall_forall. intros c Hin%list_elem_of_In. rewrite List.forallb_forall in Hc. by apply Hc, bool_decide_eq_true in Hin. }
  split; [done|]. by split.
Qed.

Lemma demo_hands : two_hands demo_235 demo_aces ∧ two_hands demo_aces demo_pair ∧ two_hands demo_pair demo_235.
Proof. split; [|split]; apply two_handsb_sound; by vm_compute. Qed.

(** The 2-3-5 beats the aces, the aces beat a pair and the pair beats the 2-3-5. *)
Lemma special_cycle : fst (CompareHandCards demo_235 demo_aces true) = Some 1 ∧
  fst (CompareHandCards demo_aces demo_pair true) = Some 4 ∧ fst (CompareHandCards demo_pair demo_235 true) = Some 1.
Proof. split; [|split]; vm_compute; reflexivity. Qed.

Lemma CompareHandCards_order_witness :
  ∃ d, fst (CompareHandCards demo_pair demo_235 false) = Some d ∧ fst (CompareHandCards demo_235 demo_pair false) = Some (- d) ∧ d ≠ 0 ∧
    d = lex_diff (key demo_pair) (key demo_235) ∧ (∀ a', a' ≡ₚ demo_pair → key a' = key demo_pair).
Proof. exact (CompareHandCards_order demo_pair demo_235 (proj2 (proj2 demo_hands))). Defined.
