(* ===== verification/ZjhText.v ===== *)
(** Golden flower, cards as text ([src/Games/QPAlgorithm/zjh.cpp]): what [StringCards]
    prints [MakeCardList] reads back.  A string is the list of its bytes; the signs of the
    colours are three bytes of UTF-8.  [None] is a failed [assert], [front()] of an empty
    string, an [int] that overflows or a card written past the end of the buffer. *)
From stdpp Require Import base option numbers sorting sets list.
From Stdlib Require Import ZArith Lia.
From S2P Require Import Prelude HongHei ZjhLogic.

#[local] Open Scope Z_scope.

(** ** Printing *)

(** ["?"] is 63; [sprintf] prints the others, below 16, in decimal. *)
Definition StringCardValue (value : Z) : list Z :=
  if value =? 0 then [63]
  else if value =? A then [65] else if value =? J then [74] else if value =? Q then [81] else if value =? K then [75]
  else if value <? 10 then [48 + value] else [48 + value / 10; 48 + value mod 10].

Definition sign (b : Z) : list Z := [226; 153; b].

Definition StringCardColor (color : Z) : list Z :=
  if color =? Spade then sign 160 else if color =? Heart then sign 165 else if color =? Club then sign 163
  else if color =? Diamond then sign 166 else [63].

Definition StringCard (card : Z) : list Z := StringCardColor (GetCardColor card) ++ StringCardValue (GetCardValue card).

Fixpoint StringCards (cards : list Z) : list Z :=
  match cards with
  | [] => []
  | [c] => StringCard c
  | c :: cards => StringCard c ++ 32 :: StringCards cards
  end.

(** ** Reading *)

(** The pieces between the spaces, [cur] being the piece that is read; an empty last piece
    is dropped. *)
Fixpoint CardsBy (str cur : list Z) : list (list Z) :=
  match str with
  | [] => match cur with [] => [] | _ => [cur] end
  | c :: str => if c =? 32 then cur :: CardsBy str [] else CardsBy str (cur ++ [c])
  end.

Definition isspace (c : Z) : bool := (c =? 32) || ((9 <=? c) && (c <=? 13)).
Definition isdigit (c : Z) : bool := (48 <=? c) && (c <=? 57).

Fixpoint digits (str : list Z) (n : Z) : Z :=
  match str with
  | c :: str => if isdigit c then digits str (10 * n + (c - 48)) else n
  | [] => n
  end.

Fixpoint atoi (str : list Z) : option Z :=
  match str with
  | [] => Some 0
  | c :: str' =>
      if isspace c then atoi str'
      else
        let n := if c =? 45 then - digits str' 0 else if c =? 43 then digits str' 0 else digits str 0 in
        if (-2147483648 <=? n) && (n <=? 2147483647) then Some n else None
  end.

Definition read_value (str : list Z) : option Z :=
  match str with
  | [] => None
  | c :: _ =>
      if c =? 74 then Some J else if c =? 81 then Some Q else if c =? 75 then Some K
      else if c =? 65 then Some A else if c =? 84 then Some T else u8 <$> atoi str
  end.

Definition read_color (name : list Z) : option (Z * list Z) :=
  match name with
  | 226 :: 153 :: b :: rest =>
      if b =? 160 then Some (Spade, rest) else if b =? 165 then Some (Heart, rest)
      else if b =? 163 then Some (Club, rest) else if b =? 166 then Some (Diamond, rest) else None
  | _ => None
  end.

Definition MakeCardBy (name : list Z) : option Z :=
  '(color, str) ← read_color name;
  value ← read_value str;
  if value =? 0 then None else Some (MakeCardWith color value).

(** The cards and their number; [size] cells take them. *)
Definition MakeCardList (strcards : list Z) (size : nat) : option (list Z * nat) :=
  let vec := CardsBy strcards [] in
  cards ← mapM MakeCardBy vec;
  if (length cards <=? size)%nat then Some (cards, length vec) else None.

(** ** What is printed is read back *)

Lemma CardsBy_piece w cur str : Forall (λ c, c ≠ 32) w → CardsBy (w ++ 32 :: str) cur = (cur ++ w) :: CardsBy str [].
Proof.
  intros Hw. revert cur. induction Hw as [|c w Hc _ IH]; intros cur; simpl; [by rewrite app_nil_r|].
  rewrite (proj2 (Z.eqb_neq c 32)) by done. by rewrite IH, <- app_assoc.
Qed.

Lemma CardsBy_last w cur : Forall (λ c, c ≠ 32) w → cur ++ w ≠ [] → CardsBy w cur = [cur ++ w].
Proof.
  intros Hw. revert cur. induction Hw as [|c w Hc _ IH]; intros cur Hne; simpl.
  - rewrite app_nil_r in *. by destruct cur.
  - rewrite (proj2 (Z.eqb_neq c 32)) by done. rewrite IH; [by rewrite <- app_assoc|]. intros E. by destruct cur.
Qed.

Lemma card_text c : card c → Forall (λ b, b ≠ 32) (StringCard c) ∧ StringCard c ≠ [] ∧ MakeCardBy (StringCard c) = Some c.
Proof. revert c. apply (card_all _). vm_compute. reflexivity. Qed.

Lemma CardsBy_StringCards cards : Forall card cards → CardsBy (StringCards cards) [] = map StringCard cards.
Proof.
  induction 1 as [|c cards Hc Hcs IH]; [done|]. destruct (card_text c Hc) as (Hw & Hne & _). destruct cards as [|d cards].
  - by apply CardsBy_last.
  - change (StringCards (c :: d :: cards)) with (StringCard c ++ 32 :: StringCards (d :: cards)). rewrite CardsBy_piece by done. by rewrite IH.
Qed.

(** C32. Reading what [StringCards] prints of any cards of the pack gives the cards back, and
    their number, when the buffer has room for them. *)
Theorem MakeCardList_StringCards cards size : Forall card cards → (length cards <= size)%nat →
  MakeCardList (StringCards cards) size = Some (cards, length cards).
Proof.
  intros Hc Hs. unfold MakeCardList. rewrite CardsBy_StringCards by done.
  assert (mapM MakeCardBy (map StringCard cards) = Some cards) as ->.
  { clear Hs. induction Hc as [|c cards Hc _ IH]; [done|]. simpl. destruct (card_text c Hc) as (_ & _ & ->). simpl. by rewrite IH. }
  cbn [mbind option_bind]. rewrite (proj2 (Nat.leb_le _ _)) by done. by rewrite length_map.
Qed.

Lemma MakeCardList_StringCards_witness : MakeCardList (StringCards [1; 26; 61]) 3 = Some ([1; 26; 61], 3%nat).
Proof.
  apply (MakeCardList_StringCards [1; 26; 61] 3); [|simpl; lia]. apply (bool_decide_unpack _). vm_compute. exact I.
Defined.
