(* ===== verification/ZjhMade.v ===== *)
(** Golden flower, hands made to order ([src/Games/QPAlgorithm/zjh.cpp]): the generator
    keeps the cards it has given away and how many of each value and of each cell of the
    pack are left, and makes a hand of a type that is asked for out of the rest.

    Values and colours are indices, 0 is the ace and the diamonds.  What is random is an
    argument: [draws n] holds the shuffled colours and values and the numbers drawn while
    [m_randCount] is [n], any natural numbers, which [between] brings into the range that is
    asked for.  [None] is an index outside an array. *)
From stdpp Require Import base option numbers sorting sets list.
From Stdlib Require Import ZArith Lia.
From S2P Require Import Prelude HongHei ZjhLogic.

#[local] Open Scope Z_scope.

(** ** The generator *)

Definition CHOOSE_COUNT : nat := 100.

(** [m_colorIndex] is the array of the four rows of thirteen, row after row. *)
Record Gen := MkGen {
  haveUseCard : list Z;
  m_randCount : nat;
  lestCard : list (list Z);
  m_cardIndex : list Z;
  m_colorIndex : list Z
}.
#[global] Instance eta_Gen : Settable Gen := λ g,
  MkGen (haveUseCard g) (m_randCount g) (lestCard g) (m_cardIndex g) (m_colorIndex g).

Record Draw := MkDraw { d_colors : list nat; d_values : list nat; d_int : nat → nat }.

(** [m_random.betweenInt(0, n)]. *)
Definition between (d : Draw) (i n : nat) : nat := d_int d i mod S n.

Definition cell (color value : nat) : nat := (13 * color + value)%nat.
Definition card_at (color value : nat) : Z := Z.of_nat value + 16 * Z.of_nat color + 1.

Definition resetLestCard (g : Gen) : Gen :=
  g <| lestCard := map (λ i, map (λ j, Z.of_nat j + Z.of_nat i * 16) (seq 1 13)) (seq 0 4) |>
    <| m_cardIndex := replicate 13 4 |>
    <| m_colorIndex := replicate 52 1 |>.

Definition clearHaveCard (g : Gen) : Gen := resetLestCard (g <| haveUseCard := [] |>).

(** The constructor. *)
Definition new_gen : Gen := resetLestCard (MkGen [] 0 [] [] []).

Definition GetCardColorValue (card : Z) : Z := Z.shiftr (Z.land card 240) 4.

Definition addHaveChooseCard1 (g : Gen) (c : Z) : option Gen :=
  let g := g <| haveUseCard ::= λ u, u ++ [c] |> in
  let color := GetCardColorValue c in
  let value := GetCardValue c in
  if color <? 4 then
    if (1 <=? value) && (value <=? 13) then
      let v := Z.to_nat (value - 1) in
      Some (g <| m_cardIndex ::= λ a, <[v := u8 (a.[v] - 1)]> a |>
              <| m_colorIndex ::= λ a, <[cell (Z.to_nat color) v := 0]> a |>)
    else None
  else Some g.

Fixpoint addHaveChooseCard (g : Gen) (cards : list Z) : option Gen :=
  match cards with
  | [] => Some g
  | c :: cards => g ← addHaveChooseCard1 g c; addHaveChooseCard g cards
  end.

Definition isHaveSameCard (g : Gen) (cards : list Z) : option (bool * Gen) :=
  if existsb (λ c, existsb (Z.eqb c) (haveUseCard g)) cards then Some (true, g)
  else g ← addHaveChooseCard g cards; Some (false, g).

(** ** Sorting and straights *)

(** One pass of the bubble sort: whether it changed nothing, and the cards. *)
Fixpoint sort_pass (ixs : list nat) (cards : list Z) : bool * list Z :=
  match ixs with
  | [] => (true, cards)
  | i :: ixs =>
      let x := cards.[i] in
      let y := cards.[S i] in
      if (GetCardPoint x <? GetCardPoint y) || ((GetCardPoint x =? GetCardPoint y) && (x <? y))
      then (false, (sort_pass ixs (<[i := y]> (<[S i := x]> cards))).2)
      else sort_pass ixs cards
  end.

(** The passes; the last one, over an empty range, changes nothing. *)
Fixpoint sort_passes (cbLast : nat) (cards : list Z) : list Z :=
  let '(bSorted, cards) := sort_pass (seq 0 cbLast) cards in
  if bSorted then cards else match cbLast with O => cards | S cbLast => sort_passes cbLast cards end.

Definition SortCardList (cards : list Z) : list Z := sort_passes (MaxCount - 1) cards.

(** The test of a sorted hand for a straight. *)
Definition straight (num : list Z) : bool :=
  let num := SortCardList num in
  ((GetCardPoint num.[0] =? GetCardPoint num.[1] + 1) && (GetCardPoint num.[0] =? GetCardPoint num.[2] + 2))
  || ((GetCardValue num.[0] =? 1) && (GetCardValue num.[1] =? 3) && (GetCardValue num.[2] =? 2)).

(** ** The copies a try works on *)

Record Work := MkWork { TmpcardIndex : list Z; TmpcolorIndex : list Z; cards : list Z; count : nat }.
#[global] Instance eta_Work : Settable Work := λ w, MkWork (TmpcardIndex w) (TmpcolorIndex w) (cards w) (count w).

Definition no_cards : list Z := replicate MaxCount 0.
Definition fresh (g : Gen) : Work := MkWork (m_cardIndex g) (m_colorIndex g) no_cards 0.

Definition has (w : Work) (c v : nat) : bool := 0 <? (TmpcolorIndex w).[cell c v].

(** [cards\[i\]] becomes the card, which is taken from the copies. *)
Definition put_at (i c v : nat) (w : Work) : Work :=
  MkWork (<[v := u8 ((TmpcardIndex w).[v] - 1)]> (TmpcardIndex w)) (<[cell c v := 0]> (TmpcolorIndex w))
    (<[i := card_at c v]> (cards w)) (S (count w)).
Definition put (c v : nat) (w : Work) : Work := put_at (count w) c v w.

(** The length of the run from the first of the places on. *)
Fixpoint run (f : nat → bool) (ks : list nat) : nat :=
  match ks with k :: ks => if f k then S (run f ks) else 0%nat | [] => 0%nat end.

(** ** The tries

    A try gets [m_randCount], already counted, and gives whether the function returns
    false at once, the cards and [m_randCount]. *)

Definition Tried : Type := bool * list Z * nat.

(** Cards of one value, [most] at most: the guard that stops the taking. *)
Fixpoint take_colors (num most : nat) (colorid : list nat) (w : Work) : Work :=
  match colorid with
  | [] => w
  | c :: colorid => take_colors num most colorid (if has w c num && (count w <? most)%nat then put c num w else w)
  end.

Definition BaoZi_try (d : Draw) (n : nat) (g : Gen) : option Tried :=
  let w := fresh g in
  match find (λ v, 3 <=? (TmpcardIndex w).[v]) (d_values d) with
  | None => Some (true, cards w, n)
  | Some num => Some (false, cards (take_colors num 3 (d_colors d) w), n)
  end.

(** The first straight of a colour and a place of it; the case Q-K-A of the code is for an
    index the loop does not reach. *)
Fixpoint flush_run (d : Draw) (c : nat) (js : list nat) (w : Work) : option Work :=
  match js with
  | [] => None
  | j :: js =>
      let lengPos := run (has w c) (seq j (13 - j)) in
      if has w c j && (3 <=? lengPos)%nat then
        let startIndex := (between d 0 (lengPos - 3) + j)%nat in
        Some (foldl (λ w m, put c m w) w (seq startIndex 3))
      else flush_run d c js w
  end.

Fixpoint flush_runs (d : Draw) (index : list nat) (w : Work) : Work :=
  match index with
  | [] => w
  | c :: index => match flush_run d c (seq 0 11) w with Some w => w | None => flush_runs d index w end
  end.

Definition ShunJin_try (d : Draw) (n : nat) (g : Gen) : option Tried := Some (false, cards (flush_runs d (d_colors d) (fresh g)), n).

(** Two cards of a colour. *)
Fixpoint take_values (c : nat) (valuaid : list nat) (w : Work) : Work :=
  match valuaid with
  | [] => w
  | v :: valuaid => take_values c valuaid (if has w c v && (count w <? 2)%nat then put c v w else w)
  end.

(** The third card, which must not make a straight; [haveValua] holds the first two, which
    are in the hand as well. *)
Fixpoint third_of_color (c : nat) (valuaid : list nat) (w : Work) : Work :=
  match valuaid with
  | [] => w
  | v :: valuaid =>
      if has w c v && (count w <? 3)%nat && negb (straight [(cards w).[0]; (cards w).[1]; card_at c v]) then
        let w := put c v w in
        if (3 <=? count w)%nat then w else third_of_color c valuaid w
      else third_of_color c valuaid w
  end.

Fixpoint JinHua_colors (d : Draw) (n : nat) (colorid : list nat) (w : Work) : Work :=
  match colorid with
  | [] => w
  | c :: colorid =>
      if (3 <=? length (List.filter (has w c) (d_values d)))%nat then
        let w := third_of_color c (d_values d) (take_values c (d_values d) (w <| count := 0%nat |>)) in
        if (count w <? 3)%nat then JinHua_colors d n colorid (if (n <? CHOOSE_COUNT)%nat then w <| cards := no_cards |> else w)
        else w
      else JinHua_colors d n colorid w
  end.

Definition JinHua_try (d : Draw) (n : nat) (g : Gen) : option Tried := Some (false, cards (JinHua_colors d n (d_colors d) (fresh g)), n).

(** A value of which both counts say that a card is left. *)
Definition available (w : Work) (k : nat) : bool :=
  (0 <? (TmpcardIndex w).[k])
  && (0 <? (TmpcolorIndex w).[cell 0 k] + (TmpcolorIndex w).[cell 1 k] + (TmpcolorIndex w).[cell 2 k] + (TmpcolorIndex w).[cell 3 k]).

Definition colors_of (w : Work) (v : nat) : list nat := List.filter (λ c, has w c v) (seq 0 4).

(** One card of each of the values, of any colour that is left; the colours [havecolor],
    255 where there is none, and whether there always was one. *)
Fixpoint ShunZi_cards (d : Draw) (ms : list nat) (bHave : bool) (havecolor : list nat) (w : Work) : bool * list nat * Work :=
  match ms with
  | [] => (bHave, havecolor, w)
  | m :: ms =>
      match colors_of w m with
      | [] => ShunZi_cards d ms false havecolor (w <| cards := no_cards |>)
      | color =>
          let colorIndex := nget color (between d (S (count w)) (length color - 1)) in
          ShunZi_cards d ms bHave (<[count w := colorIndex]> havecolor) (put colorIndex m w)
      end
  end.

(** One choice of three cards; three of one colour are put back. *)
Definition ShunZi_once (d : Draw) (lengPos startPos : nat) (w : Work) : option (bool * Work) :=
  let startIndex := (between d 0 (lengPos - 3) + startPos)%nat in
  let '(bHave, havecolor, w) := ShunZi_cards d (seq startIndex 3) true [255%nat; 255%nat; 255%nat] (w <| count := 0%nat |>) in
  let color := nget havecolor 0 in
  if (color =? nget havecolor 1)%nat && (color =? nget havecolor 2)%nat then
    if (color <? 4)%nat then
      let back m w := w <| TmpcardIndex ::= λ a, <[m := u8 (a.[m] + 1)]> a |> <| TmpcolorIndex ::= λ a, <[cell color m := 1]> a |> in
      Some (false, foldl (λ w m, back m w) w (seq startIndex 3) <| cards := no_cards |>)
    else None
  else Some (bHave, w).

(** The choices until one fits; [more] of them after this one, by [m_randCount]. *)
Fixpoint ShunZi_again (draws : nat → Draw) (more lengPos startPos n : nat) (w : Work) : option (bool * nat * Work) :=
  '(bHave, w) ← ShunZi_once (draws (S n)) lengPos startPos w;
  match bHave, more with
  | false, S more => ShunZi_again draws more lengPos startPos (S n) w
  | _, _ => Some (bHave, S n, w)
  end.

(** The case Q-K-A of the code is for an index the loop does not reach. *)
Fixpoint ShunZi_values (draws : nat → Draw) (js : list nat) (n : nat) (w : Work) : option (nat * Work) :=
  match js with
  | [] => Some (n, w)
  | j :: js =>
      let lengPos := run (available w) (seq j (13 - j)) in
      if available w j && (3 <=? lengPos)%nat then
        '(bHave, n, w) ← ShunZi_again draws (CHOOSE_COUNT - S n) lengPos j n w;
        if (bHave : bool) then Some (n, w) else ShunZi_values draws js n w
      else ShunZi_values draws js n w
  end.

Definition ShunZi_try (draws : nat → Draw) (n : nat) (g : Gen) : option Tried :=
  '(n, w) ← ShunZi_values draws (seq 0 11) n (fresh g); Some (false, cards w, n).

(** A third card of another value than the pair. *)
Fixpoint third_of_pair (d : Draw) (num : nat) (valuaid : list nat) (w : Work) : Work :=
  match valuaid with
  | [] => w
  | v :: valuaid =>
      if (0 <? (TmpcardIndex w).[v]) && negb (v =? num)%nat then
        let color := colors_of w v in
        let w := match color with [] => w | _ => put (nget color (between d (count w) (length color - 1))) v w end in
        if (3 <=? count w)%nat then w else third_of_pair d num valuaid w
      else third_of_pair d num valuaid w
  end.

Definition DuiZi_try (bSmall : bool) (bigvalue : nat) (d : Draw) (n : nat) (g : Gen) : option Tried :=
  let w := fresh g in
  let fits v := (2 <=? (TmpcardIndex w).[v]) &&
    (if bSmall then (0 <? v)%nat && (v <=? bigvalue)%nat else (bigvalue <? v)%nat || (v =? 0)%nat) in
  match find fits (d_values d) with
  | None => Some (true, cards w, n)
  | Some num => Some (false, cards (third_of_pair d num (d_values d) (take_colors num 2 (d_colors d) w)), n)
  end.

(** The first two cards, of two colours and values.  The array [num] is the hand of the
    copies, [have] the colours and values [havecolor] and [haveNum] hold. *)
Fixpoint SanPai_two (d : Draw) (colorid : list nat) (w : Work) (have : list (nat * nat)) : Work * list (nat * nat) :=
  match colorid with
  | [] => (w, have)
  | c :: colorid =>
      let '(w, have) :=
        match find (λ v, has w c v && (count w <? 2)%nat
            && forallb (λ p, negb (v =? p.2)%nat && negb (c =? p.1)%nat) (take 1 have)) (d_values d) with
        | Some v => (put c v w, have ++ [(c, v)])
        | None => (w, have)
        end in
      if (2 <=? count w)%nat then (w, have) else SanPai_two d colorid w have
  end.

(** The third card out of a colour, and the array [cards]. *)
Fixpoint SanPai_third (n c : nat) (valuaid : list nat) (w : Work) (have : list (nat * nat)) (hand : list Z) : Work * list (nat * nat) * list Z :=
  match valuaid with
  | [] => (w, have, hand)
  | v :: valuaid =>
      if has w c v && (count w <? 3)%nat && forallb (λ p, negb (v =? p.2)%nat && negb (c =? p.1)%nat) (take 2 have) then
        let num := <[2%nat := card_at c v]> (cards w) in
        if straight num then SanPai_third n c valuaid (w <| cards := num |>) have (if (n <? CHOOSE_COUNT)%nat then no_cards else num)
        else (put_at 2 c v w, have ++ [(c, v)], num)
      else SanPai_third n c valuaid w have hand
  end.

Fixpoint SanPai_thirds (d : Draw) (n : nat) (colorid : list nat) (w : Work) (have : list (nat * nat)) (hand : list Z) : list Z :=
  match colorid with
  | [] => hand
  | c :: colorid =>
      let '(w, have, hand) := SanPai_third n c (d_values d) w have hand in
      if (3 <=? count w)%nat then hand else SanPai_thirds d n colorid w have hand
  end.

Definition SanPai_try (d : Draw) (n : nat) (g : Gen) : option Tried :=
  let '(w, have) := SanPai_two d (d_colors d) (fresh g) [] in
  Some (false, SanPai_thirds d n (d_colors d) w have no_cards, n).

(** ** Trying again

    The [do]-loop: a hand with a card that was given away is tried again, up to
    [CHOOSE_COUNT] times by [m_randCount].  A try counts it up at least by one, so that
    [CHOOSE_COUNT] rounds are enough ([attempts_fuel]). *)

Fixpoint attempts (fuel : nat) (try : nat → Gen → option Tried) (g : Gen) : option (bool * list Z * Gen) :=
  '(quit, cards, n) ← try (S (m_randCount g)) g;
  let g := g <| m_randCount := n |> in
  if (quit : bool) then Some (false, cards, g)
  else
    '(same, g) ← isHaveSameCard g cards;
    if same && (n <? CHOOSE_COUNT)%nat then match fuel with O => None | S fuel => attempts fuel try g end
    else Some ((n <? CHOOSE_COUNT)%nat, cards, g).

Definition GetRand (try : nat → Gen → option Tried) (g : Gen) : option (bool * list Z * Gen) :=
  attempts CHOOSE_COUNT try (g <| m_randCount := 0%nat |>).

Definition GetRandBaoZi (draws : nat → Draw) : Gen → option (bool * list Z * Gen) := GetRand (λ n, BaoZi_try (draws n) n).
Definition GetRandShunJin (draws : nat → Draw) : Gen → option (bool * list Z * Gen) := GetRand (λ n, ShunJin_try (draws n) n).
Definition GetRandJinHua (draws : nat → Draw) : Gen → option (bool * list Z * Gen) := GetRand (λ n, JinHua_try (draws n) n).
Definition GetRandShunZi (draws : nat → Draw) : Gen → option (bool * list Z * Gen) := GetRand (λ n, ShunZi_try draws n).
Definition GetRandDuiZi (bSmall : bool) (bigvalue : nat) (draws : nat → Draw) : Gen → option (bool * list Z * Gen) :=
  GetRand (λ n, DuiZi_try bSmall bigvalue (draws n) n).
Definition GetRandSanPai (draws : nat → Draw) : Gen → option (bool * list Z * Gen) := GetRand (λ n, SanPai_try (draws n) n).

(** The second function when the first one returns false. *)
Definition or_else (first second : Gen → option (bool * list Z * Gen)) (g : Gen) : option (bool * list Z * Gen) :=
  '(ok, cards, g) ← first g; if (ok : bool) then Some (true, cards, g) else second g.

(** [hand] is what [cards] holds before the call. *)
Definition MadeHandCards (draws draws' : nat → Draw) (hand : list Z) (cardType : HandTy) (g : Gen) : option (bool * list Z * Gen) :=
  match cardType with
  | Ty30 => or_else (GetRandBaoZi draws) (GetRandShunJin draws') g
  | Ty123sc => or_else (GetRandShunJin draws) (GetRandJinHua draws') g
  | Tysc => or_else (GetRandJinHua draws) (GetRandShunZi draws') g
  | Ty123 => or_else (GetRandShunZi draws) (GetRandDuiZi false 6 draws') g
  | Ty20 => GetRandDuiZi false 0 draws g
  | Tysp => GetRandSanPai draws g
  | TyNil | Tysp235 => Some (false, hand, g)
  end.
