(* ===== verification/ZjhBook.v ===== *)
(** Golden flower, the books of the generator: both arrays are what the list of the given
    cards says ([Book]), taking cards that are left keeps that, and out of few given cards
    some group of cells is left (counting). *)
From stdpp Require Import base option numbers sorting sets list.
From Stdlib Require Import ZArith Lia.
From S2P Require Import Prelude HongHei ZjhLogic ZjhMade.

#[local] Open Scope Z_scope.

(** ** Cells of the pack *)

Definition cell_ok (p : nat * nat) : Prop := (p.1 < 4)%nat ∧ (p.2 < 13)%nat.
Definition card_of (p : nat * nat) : Z := card_at p.1 p.2.
Definition all_cells : list (nat * nat) := list_prod (seq 0 4) (seq 0 13).

Lemma all_cells_spec p : p ∈ all_cells ↔ cell_ok p.
Proof.
  destruct p as [c v]. unfold all_cells, cell_ok. rewrite list_elem_of_In, in_prod_iff, !in_seq. simpl. lia.
Qed.

(** A fact about the cells is checked on each of them. *)
Lemma cells_all (P : nat * nat → Prop) `{!∀ p, Decision (P p)} :
  forallb (λ p, bool_decide (P p)) all_cells = true → ∀ p, cell_ok p → P p.
Proof.
  intros Hall p Hp%all_cells_spec. rewrite forallb_forall in Hall. apply (bool_decide_eq_true_1 (P p)), Hall. by apply list_elem_of_In.
Qed.

Lemma card_of_inj p q : cell_ok p → cell_ok q → card_of p = card_of q → p = q.
Proof. destruct p, q. unfold cell_ok, card_of, card_at. simpl. intros. f_equal; lia. Qed.

Lemma card_of_fields p : cell_ok p → card (card_of p) ∧ GetCardColorValue (card_of p) = Z.of_nat p.1 ∧
  GetCardValue (card_of p) = Z.of_nat (S p.2).
Proof. revert p. apply (cells_all _). vm_compute. reflexivity. Qed.

Definition point_of (v : nat) : Z := if (v =? 0)%nat then 14 else Z.of_nat v + 1.

Lemma card_point p : cell_ok p → GetCardPoint (card_of p) = point_of p.2 ∧ GetCardColor (card_of p) = 16 * Z.of_nat p.1.
Proof. revert p. apply (cells_all _). vm_compute. reflexivity. Qed.

Lemma card_at_point c v : (c < 4)%nat → (v < 13)%nat → GetCardPoint (card_at c v) = point_of v.
Proof. intros Hc Hv. by apply (card_point (c, v)). Qed.

Lemma card_cell x : card x → ∃ p, cell_ok p ∧ x = card_of p.
Proof.
  intros Hx. assert (x ∈ map card_of all_cells) as (p & Hp & Hin)%list_elem_of_fmap_1.
  { revert x Hx. apply (card_all _). vm_compute. reflexivity. }
  exists p. split; [by apply all_cells_spec|done].
Qed.

Lemma cell_inj p q : cell_ok p → cell_ok q → cell p.1 p.2 = cell q.1 q.2 → p = q.
Proof. destruct p, q. unfold cell_ok, cell. simpl. intros. f_equal; lia. Qed.

Lemma filter_iff_Forall {A} (P Q : A → Prop) `{!∀ x, Decision (P x), !∀ x, Decision (Q x)} l :
  Forall (λ x, P x ↔ Q x) l → filter P l = filter Q l.
Proof. induction 1 as [|x l Hx _ IH]; [done|]. rewrite !filter_cons. destruct (decide (P x)), (decide (Q x)); first [by rewrite IH|exfalso; tauto]. Qed.

(** ** What is left *)

Definition value_left (u : list Z) (v : nat) : nat := length (filter (λ c, card_at c v ∉ u) (seq 0 4)).
Definition values_left (u : list Z) : list Z := map (λ v, Z.of_nat (value_left u v)) (seq 0 13).
Definition colors_left (u : list Z) : list Z := map (λ p, if decide (card_of p ∈ u) then 0 else 1) all_cells.

Lemma all_cells_lookup p : cell_ok p → all_cells !! cell p.1 p.2 = Some p.
Proof. revert p. apply (cells_all _). vm_compute. reflexivity. Qed.

Lemma lookup_all_cells i p : all_cells !! i = Some p → i = cell p.1 p.2.
Proof.
  intros H. assert (cell_ok p) as Hp by (apply all_cells_spec; by eapply list_elem_of_lookup_2).
  eapply (NoDup_lookup all_cells); [|exact H|by apply all_cells_lookup]. apply (bool_decide_unpack _). vm_compute. exact I.
Qed.

Lemma values_left_get u v : (v < 13)%nat → (values_left u).[v] = Z.of_nat (value_left u v).
Proof. intros Hv. apply aget_lookup. unfold values_left. rewrite list_lookup_fmap, lookup_seq_lt by done. done. Qed.

Lemma colors_left_get u c v : (c < 4)%nat → (v < 13)%nat → (colors_left u).[cell c v] = if decide (card_at c v ∈ u) then 0 else 1.
Proof.
  intros Hc Hv. apply aget_lookup. unfold colors_left. rewrite list_lookup_fmap. change c with ((c, v).1). change v with ((c, v).2) at 2.
  by rewrite (all_cells_lookup (c, v)).
Qed.

Lemma value_left_le u v : (value_left u v <= 4)%nat.
Proof. unfold value_left. etransitivity; [apply length_filter|]. done. Qed.

Lemma value_left_take u c v : (c < 4)%nat → (v < 13)%nat → card_at c v ∉ u →
  value_left u v = S (value_left (u ++ [card_at c v]) v).
Proof.
  intros Hc Hv Hn. unfold value_left.
  assert (∀ ks : list nat, NoDup ks → Forall (λ k, (k < 4)%nat) ks →
    length (filter (λ k, card_at k v ∉ u) ks) = ((if decide (c ∈ ks) then 1 else 0) + length (filter (λ k, card_at k v ∉ u ++ [card_at c v]) ks))%nat) as H.
  { induction ks as [|k ks IH]; intros Hnd Hf; [done|]. apply NoDup_cons in Hnd as [Hk Hnd]. apply Forall_cons in Hf as [Hk4 Hf].
    specialize (IH Hnd Hf). destruct (decide (k = c)) as [->|Hne].
    - rewrite decide_True by (by left). rewrite filter_cons_True, filter_cons_False by (rewrite ?elem_of_app, ?list_elem_of_singleton; tauto).
      rewrite decide_False in IH by done. simpl. by rewrite IH.
    - assert (card_at k v ≠ card_at c v) as Hkc by (intros E; by apply (card_of_inj (k, v) (c, v)) in E; [injection E|..]).
      assert ((if decide (c ∈ k :: ks) then 1 else 0)%nat = (if decide (c ∈ ks) then 1 else 0)%nat) as ->.
      { destruct (decide (c ∈ k :: ks)) as [H|H], (decide (c ∈ ks)) as [H'|H']; try done; rewrite elem_of_cons in H; naive_solver. }
      destruct (decide (card_at k v ∈ u)).
      + rewrite !filter_cons_False by (rewrite ?elem_of_app; tauto). done.
      + rewrite !filter_cons_True by (rewrite ?elem_of_app, ?list_elem_of_singleton; tauto). simpl. rewrite IH. lia. }
  rewrite (H (seq 0 4)); [|apply NoDup_seq|apply Forall_forall; intros k Hk%elem_of_seq; lia].
  rewrite decide_True; [done|]. apply elem_of_seq. lia.
Qed.

Lemma value_left_other u c v v' : (c < 4)%nat → (v < 13)%nat → (v' < 13)%nat → v' ≠ v →
  value_left (u ++ [card_at c v]) v' = value_left u v'.
Proof.
  intros Hc Hv Hv' Hne. unfold value_left. f_equal. apply list_filter_iff. intros k.
  rewrite elem_of_app, list_elem_of_singleton. split; [tauto|]. intros Hn [|E]; [done|]. unfold card_at in E. lia.
Qed.

(** Taking a card that is left from both arrays. *)
Lemma take_value u c v : (c < 4)%nat → (v < 13)%nat → card_at c v ∉ u →
  <[v := u8 ((values_left u).[v] - 1)]> (values_left u) = values_left (u ++ [card_at c v]).
Proof.
  intros Hc Hv Hn. rewrite values_left_get by done. pose proof (value_left_take u c v Hc Hv Hn) as Ht. pose proof (value_left_le u v).
  apply list_eq. intros i. unfold values_left. destruct (decide (i = v)) as [->|Hi].
  - rewrite list_lookup_insert_eq by (rewrite length_map, length_seq; lia). rewrite list_lookup_fmap, lookup_seq_lt by done. simpl.
    f_equal. rewrite Ht. unfold u8. rewrite Z.mod_small by lia. lia.
  - rewrite list_lookup_insert_ne by done. rewrite !list_lookup_fmap. destruct (seq 0 13 !! i) as [x|] eqn:E; [|done]. simpl.
    apply lookup_seq in E as [-> Hlt]. simpl. f_equal. f_equal. symmetry. by apply value_left_other.
Qed.

Lemma take_color u c v : (c < 4)%nat → (v < 13)%nat →
  <[cell c v := 0]> (colors_left u) = colors_left (u ++ [card_at c v]).
Proof.
  intros Hc Hv. assert (cell_ok (c, v)) as Hok by done. pose proof (all_cells_lookup _ Hok) as Hl. simpl in Hl.
  apply list_eq. intros i. unfold colors_left. destruct (decide (i = cell c v)) as [->|Hi].
  - rewrite list_lookup_insert_eq by (rewrite length_map; by eapply lookup_lt_Some). rewrite list_lookup_fmap, Hl. simpl.
    rewrite decide_True; [done|]. apply elem_of_app. right. by apply list_elem_of_singleton.
  - rewrite list_lookup_insert_ne by done. rewrite !list_lookup_fmap. destruct (all_cells !! i) as [p|] eqn:E; [|done]. simpl. f_equal.
    pose proof (lookup_all_cells _ _ E) as Ei. assert (cell_ok p) as Hp by (apply all_cells_spec; by eapply list_elem_of_lookup_2).
    assert (card_of p ≠ card_at c v) as Hne by (intros Hc'; apply (card_of_inj p (c, v)) in Hc' as ->; done).
    assert (card_of p ∈ u ++ [card_at c v] ↔ card_of p ∈ u) as Hiff by (rewrite elem_of_app, list_elem_of_singleton; tauto).
    destruct (decide (card_of p ∈ u)) as [H|H], (decide (card_of p ∈ u ++ [card_at c v])) as [H'|H']; tauto.
Qed.

(** ** The invariant *)

(** The cards given away are different cards of the pack, and the arrays agree with them. *)
Definition Book (g : Gen) : Prop :=
  NoDup (haveUseCard g) ∧ Forall card (haveUseCard g) ∧
  m_cardIndex g = values_left (haveUseCard g) ∧ m_colorIndex g = colors_left (haveUseCard g).

Lemma clear_book g : Book (clearHaveCard g).
Proof. split_and!; [constructor|constructor|by vm_compute|by vm_compute]. Qed.

(** Cards that are left. *)
Definition unused (g : Gen) (h : list Z) : Prop := NoDup h ∧ Forall card h ∧ ∀ c, c ∈ h → c ∉ haveUseCard g.

Lemma add_book g h : Book g → unused g h →
  ∃ g', addHaveChooseCard g h = Some g' ∧ Book g' ∧ haveUseCard g' = haveUseCard g ++ h ∧ m_randCount g' = m_randCount g.
Proof.
  intros Hg Hh. revert g Hg Hh. induction h as [|x h IH]; intros g Hg (Hnd & Hf & Hu).
  { exists g. by rewrite app_nil_r. }
  apply NoDup_cons in Hnd as [Hx Hnd]. apply Forall_cons in Hf as [Hcx Hf].
  destruct (card_cell x Hcx) as ([c v] & [Hc Hv] & ->). simpl in Hc, Hv. destruct (card_of_fields (c, v)) as (_ & Ec & Ev); [done|]. simpl in Ec, Ev.
  pose proof Hg as (N & F & Hi & Ho). assert (card_of (c, v) ∉ haveUseCard g) as Hn by (apply Hu; by left).
  simpl. unfold addHaveChooseCard1. rewrite Ec, Ev. rewrite (proj2 (Z.ltb_lt (Z.of_nat c) 4)) by lia.
  rewrite (proj2 (Z.leb_le 1 _)), (proj2 (Z.leb_le _ 13)) by lia. cbn [andb mbind option_bind].
  replace (Z.to_nat (Z.of_nat (S v) - 1)) with v by lia. rewrite Nat2Z.id.
  destruct (IH (g <| haveUseCard ::= λ u, u ++ [card_of (c, v)] |> <| m_cardIndex ::= λ a, <[v := u8 (a.[v] - 1)]> a |>
    <| m_colorIndex ::= λ a, <[cell c v := 0]> a |>)) as (g' & E & Hg' & Hu' & Hr).
  - split_and!; simpl.
    + apply NoDup_app. split_and!; [done| |apply NoDup_singleton]. intros y Hy ->%list_elem_of_singleton. done.
    + apply Forall_app. split; [done|]. by apply Forall_singleton.
    + rewrite Hi. by apply take_value.
    + rewrite Ho. by apply take_color.
  - split_and!; [done|done|]. simpl. intros y Hy. rewrite elem_of_app, list_elem_of_singleton. intros [Hy'|Hy'].
    + apply (Hu y); [by right|done]. + by subst y.
  - exists g'. rewrite E. split_and!; [done|done| |done]. rewrite Hu'. simpl. by rewrite <- app_assoc.
Qed.

(** ** Counting *)

Lemma left_length (u l : list Z) : NoDup l → (length l <= length u + length (filter (λ c, c ∉ u) l))%nat.
Proof.
  intros Hl. assert (length (filter (λ c : Z, ¬ (c ∉ u)) l) <= length u)%nat as H.
  { apply submseteq_length, NoDup_submseteq; [by apply NoDup_filter|]. intros c [Hc _]%list_elem_of_filter. by apply dec_stable in Hc. }
  rewrite <- (filter_app_complement (λ c, c ∉ u) l) at 1. rewrite length_app. lia.
Qed.

(** If few cards are given away, one of many disjoint groups has more than [k] cards left. *)
Lemma group_left (u : list Z) (gs : list (list Z)) k : NoDup (concat gs) → (length u + length gs * k < length (concat gs))%nat →
  ∃ h, h ∈ gs ∧ (k < length (filter (λ c, c ∉ u) h))%nat.
Proof.
  intros Hnd Hlt. destruct (decide (Forall (λ h, length (filter (λ c, c ∉ u) h) <= k)%nat gs)) as [Hall|Hn].
  - exfalso. pose proof (left_length u _ Hnd) as H. assert (length (filter (λ c, c ∉ u) (concat gs)) <= length gs * k)%nat; [|lia].
    clear H Hlt Hnd. induction Hall as [|h gs Hh _ IH]; simpl; [done|]. rewrite filter_app, length_app. lia.
  - apply not_Forall_Exists in Hn; [|apply _]. apply Exists_exists in Hn as (h & Hin & Hh). exists h. split; [done|]. by apply Nat.nle_gt.
Qed.

Lemma one_left (u h : list Z) : (0 < length (filter (λ c, c ∉ u) h))%nat → ∃ c, c ∈ h ∧ c ∉ u.
Proof.
  destruct (filter (λ c, c ∉ u) h) as [|c l] eqn:E; simpl; [lia|]. intros _. exists c.
  assert (c ∈ filter (λ c, c ∉ u) h) as [? ?]%list_elem_of_filter by (rewrite E; by left). done.
Qed.
