(* ===== verification/ZjhTypes.v ===== *)
(** Golden flower, the type of a hand from its points: [straight], the test of the generator,
    and its bubble sort agree with the test and the sort of the comparison. *)
From stdpp Require Import base option numbers sorting sets list.
From Stdlib Require Import ZArith Lia.
From S2P Require Import Prelude HongHei ZjhLogic ZjhMade.

#[local] Open Scope Z_scope.

(** ** The two sorts *)

Lemma sort_test c d : card c → card d →
  (GetCardPoint c <? GetCardPoint d) || ((GetCardPoint c =? GetCardPoint d) && (c <? d)) = byCardPointColorGG d c.
Proof.
  intros (Ec & Hc & Pc & _)%card_cells (Ed & Hd & Pd & _)%card_cells. unfold byCardPointColorGG, by_keys, gtb. apply eq_bool_prop_intro.
  rewrite Is_true_true, orb_true_iff, andb_true_iff, Z.ltb_lt, Z.ltb_lt, Z.eqb_eq. revert Pc Pd. bsplit; intros Pc Pd; rewrite ?Is_true_true, ?Z.ltb_lt; lia.
Qed.

(** The bubble sort is the sort of [SortCards]. *)
Lemma bubble_sorts x y z : card x → card y → card z → SortCardList [x; y; z] = SortCards [x; y; z] false false false.
Proof.
  intros Hx Hy Hz. destruct (by_keys_sorts GetCardPoint GetCardColor gtb gtb) as (Ha & Ht & He); [by left|by left|].
  change (by_keys GetCardPoint gtb GetCardColor gtb) with byCardPointColorGG in Ha, Ht, He.
  assert (∀ c d, card c → card d → byCardPointColorGG c d = true ∧ byCardPointColorGG d c = false ∨
    byCardPointColorGG c d = false ∧ byCardPointColorGG d c = true ∨ c = d ∧ byCardPointColorGG c c = false) as Hcase.
  { intros c d Hc Hd. destruct (byCardPointColorGG c d) eqn:E1, (byCardPointColorGG d c) eqn:E2; [by rewrite (Ha _ _ E1) in E2|by left|by right; left|].
    right. right. destruct (He c d E1 E2) as [Hp Hcol]. pose proof (card_by_point c d Hc Hd Hp Hcol) as ->. done. }
  unfold SortCardList, SortCards, std_sort. change (MaxCount - 1)%nat with 2%nat. cbn.
  pose proof sort_test as HS. set (g := byCardPointColorGG) in *. clearbody g.
  pose proof (Ht x y z). pose proof (Ht z y x). pose proof (Ht x z y). pose proof (Ht y x z). pose proof (Ht y z x). pose proof (Ht z x y).
  destruct (Hcase x y) as [[E1 E1']|[[E1 E1']|[E1 E1']]], (Hcase y z) as [[E2 E2']|[[E2 E2']|[E2 E2']]],
    (Hcase x z) as [[E3 E3']|[[E3 E3']|[E3 E3']]]; try done; try (exfalso; intuition congruence); subst;
    repeat (first [rewrite HS by done|rewrite E1|rewrite E1'|rewrite E2|rewrite E2'|rewrite E3|rewrite E3']; cbn); done.
Qed.

(** ** The type of a hand *)

Definition one_color (h : list Z) : bool := forallb (λ c, GetCardColor c =? GetCardColor h.[0]) h.

Lemma one_color_perm h s : h ≡ₚ s → one_color h = one_color s.
Proof.
  intros Hp. destruct h as [|x h]; [by apply Permutation_nil_l in Hp as ->|]. destruct s as [|y s]; [by apply Permutation_nil_r in Hp|].
  assert (∀ x l, one_color (x :: l) = true ↔ ∀ c d, c ∈ x :: l → d ∈ x :: l → GetCardColor c = GetCardColor d) as H.
  { intros z l. unfold one_color. rewrite List.forallb_forall. setoid_rewrite <- list_elem_of_In. setoid_rewrite Z.eqb_eq. change ((z :: l).[0]) with z.
    split; [intros Hf c d Hc Hd; by rewrite (Hf c), (Hf d)|]. intros Hf c Hc. apply Hf; [done|by left]. }
  apply eq_true_iff_eq. rewrite !H. split; intros Hf c d Hc Hd; apply Hf; by rewrite ?Hp || rewrite <- ?Hp.
Qed.

(** Three cards of different points, a triple and a pair. *)
Lemma type_of_hand h : length h = 3%nat → Forall card h →
  fst (GetHandCardsType h) =
    match map GetCardPoint (SortCards h false false false) with
    | [p; q; r] =>
        if (p =? q) && (q =? r) then Ty30 else if (p =? q) || (q =? r) then Ty20
        else if straight h then if one_color h then Ty123sc else Ty123 else if one_color h then Tysc else Tysp
    | _ => TyNil
    end.
Proof.
  intros Hl Hf. pose proof (point_sort_perm h) as Hp. destruct h as [|x [|y [|z [|]]]]; try done.
  rewrite !Forall_cons in Hf. destruct Hf as (Hx & Hy & Hz & _). unfold straight. rewrite bubble_sorts by done. rewrite (one_color_perm _ _ (symmetry Hp)).
  unfold GetHandCardsType, GetHandCardsType_private. set (s := SortCards [x; y; z] false false false) in *.
  assert (Forall card s) as Hs by (by rewrite Hp, !Forall_cons). apply Permutation_length in Hp. clearbody s.
  destruct s as [|a [|b [|c [|]]]]; try done. rewrite !Forall_cons in Hs. destruct Hs as (Ha & Hb & Hc & _).
  change ([a; b; c].[0]) with a. change ([a; b; c].[1]) with b. change ([a; b; c].[2]) with c. cbn [map]. unfold one_color.
  change ([a; b; c].[0]) with a. cbn [forallb]. rewrite Z.eqb_refl.
  destruct (card_cells a Ha) as (_ & Va & Pa & _), (card_cells b Hb) as (_ & Vb & Pb & _), (card_cells c Hc) as (_ & Vc & Pc & _).
  assert (((GetCardPoint b =? GetCardPoint c + 1) && ((GetCardPoint a =? GetCardPoint b + 1) || (GetCardPoint a =? GetCardPoint c + 12))) =
    ((GetCardPoint a =? GetCardPoint b + 1) && (GetCardPoint a =? GetCardPoint c + 2)) || ((GetCardValue a =? 1) && (GetCardValue b =? 3) && (GetCardValue c =? 2))) as ->.
  { apply eq_true_iff_eq. rewrite !orb_true_iff, !andb_true_iff, orb_true_iff, !Z.eqb_eq. revert Pa Pb Pc. bsplit; lia. }
  rewrite (Z.eqb_sym (GetCardColor b)), (Z.eqb_sym (GetCardColor c)).
  destruct (GetCardPoint a =? GetCardPoint b), (GetCardPoint b =? GetCardPoint c); cbn; try done.
  assert ((GetCardColor b =? GetCardColor a) && ((GetCardColor c =? GetCardColor a) && true) =
    (GetCardColor a =? GetCardColor b) && (GetCardColor b =? GetCardColor c)) as ->.
  { apply eq_true_iff_eq. rewrite !andb_true_iff, !Z.eqb_eq. naive_solver congruence. }
  destruct (_ || _), (_ && _); try done. by destruct (_ && _).
Qed.

Lemma type_triple h p : length h = 3%nat → Forall card h → (∀ c, c ∈ h → GetCardPoint c = p) → fst (GetHandCardsType h) = Ty30.
Proof.
  intros Hl Hf Hp. rewrite type_of_hand by done. pose proof (point_sort_perm h) as Hs. set (s := SortCards h false false false) in *.
  assert (∀ c, c ∈ s → GetCardPoint c = p) as Hps by (intros c Hc; apply Hp; by rewrite <- Hs). apply Permutation_length in Hs. rewrite Hl in Hs.
  clearbody s. destruct s as [|x [|y [|z [|]]]]; try done. cbn [map]. rewrite (Hps x), (Hps y), (Hps z), !Z.eqb_refl by (rewrite !elem_of_cons; tauto). done.
Qed.

Lemma type_distinct h : length h = 3%nat → Forall card h → NoDup (map GetCardPoint h) →
  fst (GetHandCardsType h) = if straight h then if one_color h then Ty123sc else Ty123 else if one_color h then Tysc else Tysp.
Proof.
  intros Hl Hf Hn. rewrite type_of_hand by done. pose proof (point_sort_perm h) as Hs. set (s := SortCards h false false false) in *.
  pose proof (Permutation_length Hs) as Hls. rewrite Hl in Hls. assert (NoDup (map GetCardPoint s)) as Hns by (by rewrite Hs). clearbody s.
  destruct s as [|x [|y [|z [|]]]]; try done. cbn [map] in *. rewrite !NoDup_cons, !elem_of_cons in Hns.
  rewrite (proj2 (Z.eqb_neq (GetCardPoint x) _)), (proj2 (Z.eqb_neq (GetCardPoint y) _)) by naive_solver. done.
Qed.

Lemma type_pair h p q : length h = 3%nat → Forall card h → map GetCardPoint h ≡ₚ [p; p; q] → p ≠ q → fst (GetHandCardsType h) = Ty20.
Proof.
  intros Hl Hf Hp Hne. rewrite type_of_hand by done. pose proof (point_sorted h _ Hl eq_refl) as Hs. pose proof (point_sort_perm h) as Hps.
  set (s := SortCards h false false false) in *. pose proof (Permutation_length Hps) as Hls. rewrite Hl in Hls. rewrite <- Hps in Hp. clearbody s.
  destruct s as [|x [|y [|z [|]]]]; try done. change ([x; y; z].[0]) with x in Hs. change ([x; y; z].[1]) with y in Hs. change ([x; y; z].[2]) with z in Hs.
  cbn [map] in *. destruct (Z.eqb_spec (GetCardPoint x) (GetCardPoint y)) as [E1|E1], (Z.eqb_spec (GetCardPoint y) (GetCardPoint z)) as [E2|E2]; try done; exfalso.
  - rewrite E1, E2 in Hp. apply Hne. assert (p ∈ [GetCardPoint z; GetCardPoint z; GetCardPoint z]) as H1 by (rewrite Hp; by left).
    assert (q ∈ [GetCardPoint z; GetCardPoint z; GetCardPoint z]) as H2 by (rewrite Hp; set_solver). set_solver.
  - assert (NoDup [GetCardPoint x; GetCardPoint y; GetCardPoint z]) as Hn.
    { rewrite !NoDup_cons, !elem_of_cons, elem_of_nil. split_and!; try (intros H; repeat destruct H as [H|H]; first [lia|done]). constructor. }
    rewrite Hp in Hn. apply NoDup_cons in Hn as [[] _]. by left.
Qed.

(** ** Straights *)

(** Only the points matter. *)
Lemma straight_points x y z x' y' z' : Forall card [x; y; z; x'; y'; z'] →
  map GetCardPoint [x; y; z] = map GetCardPoint [x'; y'; z'] → straight [x; y; z] = straight [x'; y'; z'].
Proof.
  rewrite !Forall_cons. intros (Hx & Hy & Hz & Hx' & Hy' & Hz' & _) E. unfold straight. rewrite !bubble_sorts by done.
  set (h := [x; y; z]) in *. set (h' := [x'; y'; z']) in *. set (s := SortCards h false false false). set (s' := SortCards h' false false false).
  assert (length s = 3%nat ∧ length s' = 3%nat) as [Hl Hl'] by (split; apply std_sort_length).
  assert (Forall card s ∧ Forall card s') as [Hs Hs'].
  { split; unfold s, s', h, h'; by rewrite point_sort_perm, !Forall_cons. }
  assert (map GetCardPoint s = map GetCardPoint s') as Em.
  { assert (AntiSymm (=) (λ a b : Z, b <= a)) by (intros a b ??; lia). apply (StronglySorted_unique' (λ a b : Z, b <= a)).
    - pose proof (point_sorted h s eq_refl eq_refl) as Hss. rewrite (three_cells s Hl). cbn [map]. repeat constructor; lia.
    - pose proof (point_sorted h' s' eq_refl eq_refl) as Hss. rewrite (three_cells s' Hl'). cbn [map]. repeat constructor; lia.
    - unfold s, s'. rewrite !point_sort_perm. by rewrite E. }
  clearbody s s'. destruct s as [|a [|b [|c [|]]]], s' as [|a' [|b' [|c' [|]]]]; try done. injection Em as E0 E1 E2.
  rewrite !Forall_cons in Hs, Hs'. destruct Hs as (Ha & Hb & Hc & _), Hs' as (Ha' & Hb' & Hc' & _).
  assert (∀ i j, card i → card j → GetCardPoint i = GetCardPoint j → GetCardValue i = GetCardValue j) as HV.
  { intros i j (_ & Vi & Pi & _)%card_cells (_ & Vj & Pj & _)%card_cells Hij. revert Pi Pj. bsplit; lia. }
  change ([a; b; c].[0]) with a. change ([a; b; c].[1]) with b. change ([a; b; c].[2]) with c.
  change ([a'; b'; c'].[0]) with a'. change ([a'; b'; c'].[1]) with b'. change ([a'; b'; c'].[2]) with c'.
  rewrite E0, E1, E2, (HV a a'), (HV b b'), (HV c c') by done. done.
Qed.
