(* ===== verification/ZjhTries.v ===== *)
(** Golden flower, the tries of the generator: what each of them finds, and that it finds
    something while few cards are given away. *)
From stdpp Require Import base option numbers sorting sets list.
From Stdlib Require Import ZArith Lia.
From S2P Require Import Prelude HongHei ZjhLogic ZjhMade ZjhBook ZjhTypes.

#[local] Open Scope Z_scope.

(** ** The copies of a try *)

Definition hand_of (ps : list (nat * nat)) : list Z := map card_of ps.

(** Cells that are left when the cards [u] are given away. *)
Definition left_in (u : list Z) (p : nat * nat) : Prop := cell_ok p ∧ card_of p ∉ u.

(** The copies while the cells [ps] are picked. *)
Definition working (u : list Z) (ps : list (nat * nat)) (w : Work) : Prop :=
  NoDup ps ∧ Forall (left_in u) ps ∧ (length ps <= 3)%nat ∧
  TmpcardIndex w = values_left (u ++ hand_of ps) ∧ TmpcolorIndex w = colors_left (u ++ hand_of ps) ∧
  cards w = hand_of ps ++ replicate (3 - length ps) 0 ∧ count w = length ps.

Lemma fresh_working g : Book g → working (haveUseCard g) [] (fresh g).
Proof. intros (_ & _ & Hi & Ho). unfold working. rewrite app_nil_r. split_and!; try done; [constructor|simpl; lia]. Qed.

Lemma hand_left u ps c v : Forall (left_in u) ps → cell_ok (c, v) → ((card_at c v ∉ u ++ hand_of ps) ↔ (card_at c v ∉ u) ∧ ((c, v) ∉ ps)).
Proof.
  intros Hf Hok. rewrite not_elem_of_app. split; intros [Hu Hn]; (split; [done|]).
  - intros Hin. apply Hn. change (card_at c v) with (card_of (c, v)). by apply list_elem_of_fmap_2.
  - intros (p & E & Hp)%list_elem_of_fmap_1. rewrite Forall_forall in Hf. destruct (Hf p Hp) as [Hpok _].
    change (card_at c v) with (card_of (c, v)) in E. apply card_of_inj in E as <-; done.
Qed.

Lemma has_working u ps w c v : working u ps w → cell_ok (c, v) → (has w c v = true ↔ (card_at c v ∉ u) ∧ ((c, v) ∉ ps)).
Proof.
  intros (_ & Hf & _ & _ & Ho & _) Hok. unfold has. rewrite Ho, colors_left_get by apply Hok. rewrite <- hand_left by done.
  destruct (decide _); simpl; split; done || (intros; tauto).
Qed.

Lemma working_value u ps w v : working u ps w → (v < 13)%nat → (TmpcardIndex w).[v] = Z.of_nat (value_left (u ++ hand_of ps) v).
Proof. intros (_ & _ & _ & Hi & _) Hv. rewrite Hi. by apply values_left_get. Qed.

Lemma put_working u ps w c v : working u ps w → cell_ok (c, v) → has w c v = true → (length ps < 3)%nat →
  working u (ps ++ [(c, v)]) (put c v w).
Proof.
  intros Hw Hok Hh Hlt. apply (has_working u ps) in Hh as [Hu Hn]; [|done..].
  destruct Hw as (N & F & _ & Hi & Ho & Hc & Hct). assert (card_at c v ∉ u ++ hand_of ps) as Hleft by (by apply hand_left).
  unfold working, hand_of. rewrite map_app, length_app, !app_assoc. cbn [map length put put_at TmpcardIndex TmpcolorIndex cards count].
  split_and!.
  - apply NoDup_app. split_and!; [done| |apply NoDup_singleton]. intros p Hp ->%list_elem_of_singleton. done.
  - apply Forall_app. split; [done|]. by apply Forall_singleton.
  - lia.
  - rewrite Hi. by apply take_value; [apply Hok|apply Hok|].
  - rewrite Ho. by apply take_color; apply Hok.
  - rewrite Hc, Hct. unfold hand_of. rewrite insert_app_r_alt by (by rewrite length_map). rewrite length_map, Nat.sub_diag.
    replace (3 - length ps)%nat with (S (3 - (length ps + 1))) by lia. simpl. by rewrite <- app_assoc.
  - simpl. lia.
Qed.

(** Cells of different cards that are left. *)
Definition new_cells (g : Gen) (ps : list (nat * nat)) : Prop := unused g (hand_of ps) ∧ Forall cell_ok ps.

(** A finished hand. *)
Lemma working_hand g u ps w : haveUseCard g ⊆ u → working u ps w → length ps = 3%nat →
  cards w = hand_of ps ∧ new_cells g ps ∧ length (hand_of ps) = 3%nat.
Proof.
  intros Hsub (N & F & _ & _ & _ & Hc & _) Hl. rewrite Hc, Hl. simpl. rewrite app_nil_r. unfold hand_of. rewrite length_map. unfold new_cells, unused. split_and!; try done.
  - apply NoDup_fmap_2_strong; [|done]. intros p q Hp Hq. rewrite Forall_forall in F. apply card_of_inj; by apply F.
  - apply Forall_map. eapply Forall_impl; [exact F|]. intros p [Hok _]. simpl. by apply card_of_fields.
  - intros c (p & -> & Hp)%list_elem_of_fmap_1 Hin. rewrite Forall_forall in F. by destruct (F p Hp) as [_ []]; apply Hsub.
  - eapply Forall_impl; [exact F|]. by intros p [? _].
Qed.

(** ** Triples *)

Definition draw_ok (d : Draw) : Prop := d_colors d ≡ₚ seq 0 4 ∧ d_values d ≡ₚ seq 0 13.

Lemma between_le d i n : (between d i n <= n)%nat.
Proof. unfold between. pose proof (Nat.mod_upper_bound (d_int d i) (S n)). lia. Qed.

(** Cells in an order, those that are left, [most] at most. *)
Fixpoint take_cells (most : nat) (l : list (nat * nat)) (w : Work) : Work :=
  match l with
  | [] => w
  | p :: l => take_cells most l (if has w p.1 p.2 && (count w <? most)%nat then put p.1 p.2 w else w)
  end.

Lemma take_colors_cells num most cs w : take_colors num most cs w = take_cells most (map (λ c, (c, num)) cs) w.
Proof. revert w. induction cs as [|c cs IH]; intros w; [done|]. apply IH. Qed.

Lemma take_values_cells c vs w : take_values c vs w = take_cells 2 (map (pair c) vs) w.
Proof. revert w. induction vs as [|v vs IH]; intros w; [done|]. apply IH. Qed.

Lemma take_cells_spec u most l w ps : (most <= 3)%nat → NoDup (ps ++ l) → Forall cell_ok l → working u ps w → (length ps <= most)%nat →
  ∃ qs, working u (ps ++ qs) (take_cells most l w) ∧ qs ⊆ l ∧
    length (ps ++ qs) = Nat.min most (length ps + length (filter (λ p, card_of p ∉ u) l)).
Proof.
  intros Hm Hnd Hf. revert w ps Hnd. induction Hf as [|[c v] l Hok _ IH]; intros w ps Hnd Hw Hl; cbn [take_cells].
  { exists []. rewrite app_nil_r. split; [done|]. split; [done|]. simpl. lia. }
  pose proof (has_working u ps w c v Hw Hok) as Hh. pose proof Hw as (_ & _ & _ & _ & _ & _ & Hcount).
  assert ((c, v) ∉ ps) as Hnew by (intros Hp; apply NoDup_app in Hnd as (_ & Hd & _); apply (Hd _ Hp); by left).
  assert (NoDup (ps ++ l)) as Hnd' by (apply NoDup_app; apply NoDup_app in Hnd as (N1 & N2 & N3); apply NoDup_cons in N3 as [_ N3]; set_solver).
  cbn [fst snd]. destruct (has w c v) eqn:E; cbn [andb].
  - destruct (proj1 Hh eq_refl) as [Hu _]. rewrite filter_cons_True by done. cbn [length]. rewrite Hcount. destruct (Nat.ltb_spec (length ps) most).
    + destruct (IH (put c v w) (ps ++ [(c, v)])) as (qs & Hw' & Hq & Hl').
      * by rewrite <- app_assoc.
      * apply put_working; [done|done|done|lia].
      * rewrite length_app. simpl. lia.
      * exists ((c, v) :: qs). rewrite <- app_assoc in Hw', Hl'. split; [done|]. split; [set_solver|]. etransitivity; [exact Hl'|]. rewrite length_app. cbn [length]. lia.
    + destruct (IH w ps Hnd' Hw Hl) as (qs & Hw' & Hq & Hl'). exists qs. split; [done|]. split; [set_solver|]. lia.
  - rewrite filter_cons_False.
    + destruct (IH w ps Hnd' Hw Hl) as (qs & Hw' & Hq & Hl'). exists qs. split; [done|]. split; [set_solver|done].
    + intros Hu. assert (false = true) by (by apply Hh). done.
Qed.

Lemma filter_map_length {A B} (f : A → B) (P : B → Prop) `{!∀ x, Decision (P x)} l :
  length (filter P (map f l)) = length (filter (λ x, P (f x)) l).
Proof. induction l as [|x l IH]; [done|]. cbn [map]. rewrite !filter_cons. destruct (decide _); cbn [length]; by rewrite IH. Qed.

Lemma take_all_colors u num most d w : draw_ok d → (num < 13)%nat → (most <= 3)%nat → working u [] w →
  (most <= value_left u num)%nat → ∃ ps, working u ps (take_colors num most (d_colors d) w) ∧ (∀ p, p ∈ ps → p.2 = num) ∧ length ps = most.
Proof.
  intros [Hc _] Hn Hm Hw Hl. rewrite take_colors_cells. destruct (take_cells_spec u most (map (λ c, (c, num)) (d_colors d)) w []) as (ps & Hps & Hv & Hlen).
  - done.
  - simpl. apply NoDup_fmap_2; [by intros ?? [= ->]|]. rewrite Hc. apply NoDup_seq.
  - apply Forall_map, Forall_forall. intros c Hin. rewrite Hc in Hin. apply elem_of_seq in Hin. split; simpl; lia.
  - done.
  - simpl. lia.
  - exists ps. split; [done|]. split; [by intros p (c & -> & _)%Hv%list_elem_of_fmap_1|]. cbn [app] in Hlen. rewrite Hlen, filter_map_length.
    change (length (@nil (nat * nat))) with 0%nat. unfold value_left in Hl. unfold card_of. cbn [fst snd]. rewrite Hc. lia.
Qed.

(** The values, with their cards. *)
Definition value_groups (vs : list nat) : list (list Z) := map (λ v, map (λ c, card_at c v) (seq 0 4)) vs.

Lemma value_group_left u v : length (filter (λ c, c ∉ u) (map (λ c, card_at c v) (seq 0 4))) = value_left u v.
Proof. by rewrite filter_map_length. Qed.

Lemma some_value_left u vs k : NoDup (concat (value_groups vs)) → (length u + length vs * k < 4 * length vs)%nat →
  ∃ v, v ∈ vs ∧ (k < value_left u v)%nat.
Proof.
  intros Hn Hl. destruct (group_left u (value_groups vs) k Hn) as (h & (v & -> & Hv)%list_elem_of_fmap_1 & Hk).
  - unfold value_groups. rewrite length_map. assert (length (concat (map (λ v, map (λ c, card_at c v) (seq 0 4)) vs)) = 4 * length vs)%nat as ->; [|done].
    clear. induction vs as [|v vs IH]; [done|]. cbn [map concat]. rewrite length_app, IH, length_map, length_seq. simpl. lia.
  - exists v. rewrite value_group_left in Hk. done.
Qed.

Lemma find_some {A} (f : A → bool) l x : x ∈ l → f x = true → ∃ y, find f l = Some y ∧ y ∈ l ∧ f y = true.
Proof.
  intros Hx Hf. destruct (find f l) as [y|] eqn:E.
  - apply find_some in E as [Hy%list_elem_of_In Hfy]. by exists y.
  - rewrite (find_none _ _ E x) in Hf; [done|by apply list_elem_of_In].
Qed.

Lemma BaoZi_spec d n g : Book g → draw_ok d → (length (haveUseCard g) <= 25)%nat →
  ∃ ps v, BaoZi_try d n g = Some (false, hand_of ps, n) ∧ new_cells g ps ∧ length ps = 3%nat ∧ ∀ p, p ∈ ps → p.2 = v.
Proof.
  intros Hg Hd Hu. pose proof (fresh_working g Hg) as Hw. unfold BaoZi_try.
  destruct (some_value_left (haveUseCard g) (seq 0 13) 2) as (v & Hv & Hk); [apply (bool_decide_unpack _); vm_compute; exact I|simpl; lia|].
  assert (∀ v, v ∈ d_values d → (v < 13)%nat) as Hlt by (intros x Hx; destruct Hd as [_ Hd]; rewrite Hd in Hx; apply elem_of_seq in Hx; lia).
  destruct (find_some (λ v, 3 <=? (TmpcardIndex (fresh g)).[v]) (d_values d) v) as (num & -> & Hin & Hnum).
  { destruct Hd as [_ ->]. done. }
  { rewrite (working_value (haveUseCard g) []) by (done || apply elem_of_seq in Hv; lia). simpl. rewrite app_nil_r. lia. }
  rewrite (working_value (haveUseCard g) []) in Hnum by (done || by apply Hlt). simpl in Hnum. rewrite app_nil_r in Hnum. breflect.
  destruct (take_all_colors (haveUseCard g) num 3 d (fresh g)) as (ps & Hps & Hval & Hl); [done|by apply Hlt|lia|done|lia|].
  exists ps, num. destruct (working_hand g _ ps _ ltac:(done) Hps Hl) as (-> & Hun & _). done.
Qed.

(** ** Pairs *)

Lemma value_left_hand u ps v : Forall cell_ok ps → (v < 13)%nat → (∀ p, p ∈ ps → p.2 ≠ v) → value_left (u ++ hand_of ps) v = value_left u v.
Proof.
  intros Hok Hv Hne. unfold value_left. f_equal. apply list_filter_iff. intros c. rewrite not_elem_of_app. split; [tauto|].
  intros Hn. split; [done|]. intros ([c' v'] & E & Hp)%list_elem_of_fmap_1. apply (Hne _ Hp). rewrite Forall_forall in Hok. destruct (Hok _ Hp) as [_ Hlt].
  unfold card_of, card_at in E. simpl in *. lia.
Qed.

Lemma value_left_pos u v : (0 < value_left u v)%nat → ∃ c, (c < 4)%nat ∧ card_at c v ∉ u.
Proof.
  intros H. rewrite <- value_group_left in H. apply one_left in H as (x & (c & -> & Hc%elem_of_seq)%list_elem_of_fmap_1 & Hu). exists c. split; [lia|done].
Qed.

Lemma colors_of_in w v c : c ∈ colors_of w v ↔ (c < 4)%nat ∧ has w c v = true.
Proof. unfold colors_of. rewrite list_elem_of_In, filter_In, in_seq. split; intros [? ?]; split; done || lia. Qed.

(** One of the colours, whatever is drawn. *)
Lemma drawn_color u ps w v d i : working u ps w → (v < 13)%nat → (0 < (TmpcardIndex w).[v]) →
  ∃ c, nget (colors_of w v) (between d i (length (colors_of w v) - 1)) = c ∧ (c < 4)%nat ∧ has w c v = true ∧ colors_of w v ≠ [].
Proof.
  intros Hw Hv Hpos. pose proof Hw as (_ & Hf & _). rewrite (working_value u ps) in Hpos by done.
  destruct (value_left_pos (u ++ hand_of ps) v) as (c & Hc & Hn); [lia|]. apply hand_left in Hn; [|done..].
  assert (c ∈ colors_of w v) as Hin by (apply colors_of_in; split; [done|]; by apply (has_working u ps)).
  set (l := colors_of w v) in *. destruct (lookup_lt_is_Some_2 l (between d i (length l - 1))) as [x Hx].
  { destruct l; [by apply not_elem_of_nil in Hin|]. pose proof (between_le d i (length (n :: l) - 1)) as Hb. simpl length in *. lia. }
  exists x. unfold nget. rewrite Hx. split; [done|]. assert (x ∈ l) as Hxl by (by eapply list_elem_of_lookup_2).
  apply colors_of_in in Hxl as [? ?]. split_and!; try done. intros El. rewrite El in Hin. by apply not_elem_of_nil in Hin.
Qed.

Lemma third_of_pair_spec u ps num d vs w : working u ps w → length ps = 2%nat → (∀ p, p ∈ ps → p.2 = num) → Forall (λ v, (v < 13)%nat) vs →
  (∃ v, v ∈ vs ∧ v ≠ num ∧ (0 < value_left u v)%nat) →
  ∃ c v, working u (ps ++ [(c, v)]) (third_of_pair d num vs w) ∧ v ≠ num.
Proof.
  intros Hw Hl Hps Hvs. pose proof Hw as (_ & Hf & _ & _ & _ & _ & Hc). assert (Forall cell_ok ps) as Hok by (eapply Forall_impl; [exact Hf|]; by intros p [? _]).
  induction Hvs as [|v vs Hv Hvs IH]; [by intros (v & ?%not_elem_of_nil & _)|]. intros (x & Hx & Hxn & Hxl). cbn [third_of_pair].
  destruct (Z.ltb_spec 0 ((TmpcardIndex w).[v])) as [Hpos|Hzero]; cbn [andb].
  - destruct (Nat.eqb_spec v num) as [->|Hne]; cbn [negb].
    + apply IH. apply elem_of_cons in Hx as [->|Hx]; [done|]. by exists x.
    + destruct (drawn_color u ps w v d (count w) Hw Hv Hpos) as (c & -> & Hc4 & Hh & Hnil).
      destruct (colors_of w v) as [|c0 cs]; [done|]. assert ((3 <=? count (put c v w))%nat = true) as ->.
      { simpl. rewrite Hc, Hl. done. }
      exists c, v. split; [|done]. apply put_working; [done|done|done|lia].
  - apply IH. exists x. split; [|done]. apply elem_of_cons in Hx as [->|Hx]; [|done].
    rewrite (working_value u ps) in Hzero by done. rewrite value_left_hand in Hzero; [lia|done|done|]. intros p Hp. by rewrite (Hps p Hp).
Qed.

(** A fact about the values is checked on each of them. *)
Lemma forall_lt_13 (P : nat → Prop) `{!∀ v, Decision (P v)} : forallb (λ v, bool_decide (P v)) (seq 0 13) = true → ∀ v, (v < 13)%nat → P v.
Proof. intros Hall v Hv. rewrite forallb_forall in Hall. apply (bool_decide_eq_true_1 (P v)), Hall. apply in_seq. lia. Qed.

Definition big_values (bigvalue : nat) : list nat := List.filter (λ v, (bigvalue <? v)%nat || (v =? 0)%nat) (seq 0 13).

Lemma DuiZi_spec big d n g : Book g → draw_ok d → big = 0%nat ∨ big = 6%nat → (length (haveUseCard g) <= 20)%nat →
  ∃ p q r, DuiZi_try false big d n g = Some (false, hand_of [p; q; r], n) ∧ new_cells g [p; q; r] ∧ p.2 = q.2 ∧ r.2 ≠ p.2.
Proof.
  intros Hg Hd Hbig Hu. set (u := haveUseCard g) in *. pose proof (fresh_working g Hg) as Hw. fold u in Hw. unfold DuiZi_try. cbv zeta iota.
  assert (∀ x, x ∈ d_values d ↔ (x < 13)%nat) as Hin by (intros x; destruct Hd as [_ ->]; rewrite elem_of_seq; lia).
  assert (∀ x, (x < 13)%nat → (TmpcardIndex (fresh g)).[x] = Z.of_nat (value_left u x)) as Hget.
  { intros x Hx. rewrite (working_value u []) by done. simpl. by rewrite app_nil_r. }
  destruct (some_value_left u (big_values big) 1) as (v & Hv & Hk).
  { destruct Hbig as [-> | ->]; apply (bool_decide_unpack _); vm_compute; exact I. }
  { destruct Hbig as [-> | ->]; simpl; lia. }
  apply list_elem_of_In, filter_In in Hv as [Hv13%in_seq Hbv].
  destruct (find_some (λ v, (2 <=? (TmpcardIndex (fresh g)).[v]) && ((big <? v)%nat || (v =? 0)%nat)) (d_values d) v) as (num & -> & Hnum%Hin & Hfit).
  { apply Hin. lia. }
  { rewrite Hbv, andb_true_r, Hget by lia. lia. }
  rewrite Hget in Hfit by done. breflect.
  destruct (take_all_colors u num 2 d (fresh g)) as (ps & Hps & Hval & Hl); [done|done|lia|done|lia|].
  destruct (some_value_left u (filter (λ v, v ≠ num) (seq 0 13)) 0) as (y & [Hy Hy13%elem_of_seq]%list_elem_of_filter & Hyl).
  { clear -Hnum. revert num Hnum. apply (forall_lt_13 (λ num, NoDup (concat (value_groups (filter (λ v, v ≠ num) (seq 0 13)))))). vm_compute. reflexivity. }
  { assert (length (filter (λ v, v ≠ num) (seq 0 13)) = 12%nat) as ->; [|lia]. clear -Hnum. revert num Hnum.
    apply (forall_lt_13 (λ num, length (filter (λ v, v ≠ num) (seq 0 13)) = 12%nat)). vm_compute. reflexivity. }
  destruct (third_of_pair_spec u ps num d (d_values d) _ Hps Hl Hval) as (c & x & Hr & Hx).
  { apply Forall_forall. intros z. apply Hin. }
  { exists y. split; [apply Hin; lia|done]. }
  destruct ps as [|p [|q [|]]]; try done. exists p, q, (c, x).
  destruct (working_hand g u _ _ ltac:(done) Hr eq_refl) as (-> & Hun & _). split_and!; try done.
  - rewrite (Hval p), (Hval q); [done|set_solver..].
  - rewrite (Hval p); [done|by left].
Qed.
