(* ===== verification/ZjhFlushes.v ===== *)
(** Golden flower, flushes made to order: a straight flush is found when a colour has three
    neighbours left, a flush when few cards are given away. *)
From stdpp Require Import base option numbers sorting sets list.
From Stdlib Require Import ZArith Lia.
From S2P Require Import Prelude HongHei ZjhLogic ZjhMade ZjhBook ZjhTypes ZjhTries.

#[local] Open Scope Z_scope.

(** ** Runs *)

Lemma run_spec f j n : (run f (seq j n) <= n)%nat ∧ (∀ k, (j <= k)%nat → (k < j + run f (seq j n))%nat → f k = true).
Proof.
  revert j. induction n as [|n IH]; intros j; simpl; [split; [done|lia]|]. destruct (f j) eqn:E; [|split; [lia|simpl; lia]].
  destruct (IH (S j)) as [Hle Hf]. split; [lia|]. intros k Hk Hlt. destruct (decide (k = j)) as [->|]; [done|]. apply Hf; lia.
Qed.

Lemma run_ge f j n m : (m <= n)%nat → (∀ k, (j <= k < j + m)%nat → f k = true) → (m <= run f (seq j n))%nat.
Proof.
  revert j m. induction n as [|n IH]; intros j m Hm Hf; simpl; [lia|]. destruct m as [|m]; [lia|].
  rewrite Hf by lia. apply le_n_S, IH; [lia|]. intros k Hk. apply Hf. lia.
Qed.

(** Three neighbours of the run that starts at [j], wherever the draw falls. *)
Lemma run_start f j d i : (j <= 10)%nat → (3 <= run f (seq j (13 - j)))%nat →
  ∃ s, (between d i (run f (seq j (13 - j)) - 3) + j)%nat = s ∧ (j <= s <= 10)%nat ∧ ∀ k, (s <= k < s + 3)%nat → f k = true.
Proof.
  intros Hj Hr. destruct (run_spec f j (13 - j)) as [Hle Hf]. pose proof (between_le d i (run f (seq j (13 - j)) - 3)).
  eexists. split; [reflexivity|]. split; [lia|]. intros k Hk. apply Hf; lia.
Qed.

(** ** Straight flushes *)

Definition flush_left (u : list Z) (c j : nat) : Prop := ∀ k, (j <= k < j + 3)%nat → card_at c k ∉ u.

Definition neighbours (c s : nat) : list (nat * nat) := [(c, s); (c, S s); (c, S (S s))].

Lemma has_fresh u w c v : working u [] w → (c < 4)%nat → (v < 13)%nat → has w c v = true ↔ (card_at c v ∉ u).
Proof. intros Hw Hc Hv. rewrite (has_working u []) by done. rewrite elem_of_nil. tauto. Qed.

Lemma put_neighbours u w c s : working u [] w → (c < 4)%nat → (s <= 10)%nat → flush_left u c s →
  working u (neighbours c s) (foldl (λ w m, put c m w) w (seq s 3)).
Proof.
  intros Hw Hc Hs Hf. assert (∀ ps w' k, working u ps w' → (length ps < 3)%nat → (s <= k < s + 3)%nat → (c, k) ∉ ps → working u (ps ++ [(c, k)]) (put c k w')) as Hput.
  { intros ps w' k Hw' Hl Hk Hn. assert (cell_ok (c, k)) by (split; simpl; lia). apply put_working; [done|done| |done].
    apply (has_working u ps); [done|done|]. split; [by apply Hf|done]. }
  cbn [seq foldl]. unfold neighbours. change [(c, s); (c, S s); (c, S (S s))] with ((([] ++ [(c, s)]) ++ [(c, S s)]) ++ [(c, S (S s))]).
  apply Hput; [apply Hput; [apply Hput|..]|..]; try done; try (simpl; lia); simpl; rewrite ?not_elem_of_cons, ?elem_of_nil; naive_solver lia.
Qed.

Lemma flush_run_spec u d c js w : working u [] w → (c < 4)%nat → Forall (λ j, (j <= 10)%nat) js →
  match flush_run d c js w with
  | Some w' => ∃ s, (s <= 10)%nat ∧ working u (neighbours c s) w'
  | None => ∀ j, j ∈ js → ¬ flush_left u c j
  end.
Proof.
  intros Hw Hc Hjs. induction Hjs as [|j js Hj _ IH]; cbn [flush_run]; cbv zeta; [by intros j ?%not_elem_of_nil|].
  destruct (has w c j && (3 <=? run (has w c) (seq j (13 - j)))%nat) eqn:E; breflect.
  - destruct (run_start (has w c) j d 0) as (s & -> & Hs & Hf); [done|done|]. exists s. split; [lia|]. apply put_neighbours; [done|done|lia|].
    intros k Hk. apply (has_fresh u w c k Hw); [done|lia|by apply Hf].
  - assert (¬ flush_left u c j) as Hn.
    { intros Hf. assert (∀ k, (j <= k < j + 3)%nat → has w c k = true) as Hh.
      { intros k Hk. apply (has_fresh u w c k Hw); [done|lia|]. by apply Hf. }
      rewrite Hh in E by lia. cbn [andb] in E. breflect. pose proof (run_ge (has w c) j (13 - j) 3 ltac:(lia) Hh). lia. }
    revert IH. destruct (flush_run d c js w); [done|]. intros IH i [->|Hi]%elem_of_cons; [done|by apply IH].
Qed.

Lemma flush_runs_spec u d cs w : working u [] w → Forall (λ c, (c < 4)%nat) cs →
  (∃ c s, (c < 4)%nat ∧ (s <= 10)%nat ∧ working u (neighbours c s) (flush_runs d cs w)) ∨
  (flush_runs d cs w = w ∧ ∀ c j, c ∈ cs → (j <= 10)%nat → ¬ flush_left u c j).
Proof.
  intros Hw Hcs. induction Hcs as [|c cs Hc _ IH]; cbn [flush_runs]; [right; split; [done|]; by intros c j ?%not_elem_of_nil|].
  pose proof (flush_run_spec u d c (seq 0 11) w Hw Hc) as H. destruct (flush_run d c (seq 0 11) w) as [w'|].
  - left. destruct H as (s & Hs & Hw'); [|by exists c, s]. apply Forall_forall. intros j Hj%elem_of_seq. lia.
  - destruct IH as [IH|[E IH]]; [by left|right]. split; [done|]. intros c' j [->|Hc']%elem_of_cons Hj; [|by apply IH].
    apply H; [|apply elem_of_seq; lia]. apply Forall_forall. intros i Hi%elem_of_seq. lia.
Qed.

(** While fewer than sixteen cards are given away, a colour has three neighbours left. *)
Definition flush_groups : list (list Z) :=
  map (λ p, map (card_at p.1) (seq (3 * p.2) 3)) (list_prod (seq 0 4) (seq 0 4)).

Lemma some_flush_left u : (length u < 16)%nat → ∃ c j, (c < 4)%nat ∧ (j <= 10)%nat ∧ flush_left u c j.
Proof.
  intros Hu. destruct (group_left u flush_groups 2) as (h & ([c j] & -> & Hp)%list_elem_of_fmap_1 & Hk).
  - apply (bool_decide_unpack _). vm_compute. exact I.
  - change (length flush_groups) with 16%nat. change (length (concat flush_groups)) with 48%nat. lia.
  - apply list_elem_of_In, in_prod_iff in Hp as [Hc%in_seq Hj%in_seq]. exists c, (3 * j)%nat. split; [lia|]. split; [lia|].
    intros k Hkr Hin. cbn [fst snd] in Hk. set (h := map (card_at c) (seq (3 * j) 3)) in *.
    assert (length h = 3%nat) as Hl by done. assert (length (filter (λ x, x ∉ u) h) < length h)%nat as Hlt; [|lia].
    apply length_filter_lt with (card_at c k); [|by intros ?]. apply list_elem_of_fmap_2. apply elem_of_seq. lia.
Qed.

Lemma ShunJin_spec d n g : Book g → draw_ok d → (length (haveUseCard g) < 16)%nat →
  ∃ c s, ShunJin_try d n g = Some (false, hand_of (neighbours c s), n) ∧ new_cells g (neighbours c s) ∧ (c < 4)%nat ∧ (s <= 10)%nat.
Proof.
  intros Hg Hd Hu. unfold ShunJin_try. assert (∀ c, c ∈ d_colors d ↔ (c < 4)%nat) as Hin by (intros c; destruct Hd as [-> _]; rewrite elem_of_seq; lia).
  destruct (flush_runs_spec (haveUseCard g) d (d_colors d) (fresh g)) as [(c & s & Hc & Hs & Hw)|[_ Hno]].
  - by apply fresh_working.
  - apply Forall_forall. intros c. apply Hin.
  - destruct (working_hand g _ _ _ ltac:(done) Hw eq_refl) as (-> & Hun & _). by exists c, s.
  - destruct (some_flush_left _ Hu) as (c & j & Hc & Hj & Hf). exfalso. apply (Hno c j); [by apply Hin|done|done].
Qed.

(** ** Flushes *)

(** At most two cards make a straight with two cards of different values. *)
Lemma few_straights c0 c1 v0 v1 : cell_ok (c0, v0) → cell_ok (c1, v1) → v0 ≠ v1 → ∀ c, (c < 4)%nat →
  (length (List.filter (λ v, straight [card_at c0 v0; card_at c1 v1; card_at c v]) (seq 0 13)) <= 2)%nat.
Proof.
  intros [H0 V0] [H1 V1] Hne c Hc. cbn [fst snd] in *.
  assert (List.filter (λ v, straight [card_at c0 v0; card_at c1 v1; card_at c v]) (seq 0 13) =
    List.filter (λ v, straight [card_at 0 v0; card_at 0 v1; card_at 0 v]) (seq 0 13)) as ->.
  { apply List.filter_ext_in. intros v [_ Hv]%in_seq. assert (∀ c v, (c < 4)%nat → (v < 13)%nat → cell_ok (c, v)) as Hok by (by split).
    apply straight_points.
    - rewrite !Forall_cons. split_and!; try (apply (card_of_fields (_, _)); apply Hok; lia). done.
    - cbn [map]. f_equal; [|f_equal; [|f_equal]]; rewrite !card_at_point; done || lia. }
  assert (forallb (λ v0, forallb (λ v1, (v0 =? v1)%nat ||
    (length (List.filter (λ v, straight [card_at 0 v0; card_at 0 v1; card_at 0 v]) (seq 0 13)) <=? 2)%nat) (seq 0 13)) (seq 0 13) = true) as H by (vm_compute; reflexivity).
  rewrite forallb_forall in H. specialize (H v0 ltac:(apply in_seq; lia)). rewrite forallb_forall in H. specialize (H v1 ltac:(apply in_seq; lia)).
  apply orb_true_iff in H as [H|H]; breflect; done.
Qed.


Lemma pick_pair u p q w : working u [p; q] w → (cards w).[0] = card_of p ∧ (cards w).[1] = card_of q ∧ count w = 2%nat.
Proof. intros (_ & _ & _ & _ & _ & Hc & Hct). rewrite Hc, Hct. done. Qed.

Lemma third_of_color_spec u c p q vs w : (c < 4)%nat → Forall (λ v, (v < 13)%nat) vs → working u [p; q] w →
  let fits v := straight [card_of p; card_of q; card_at c v] = false in
  (∃ v, (v < 13)%nat ∧ working u [p; q; (c, v)] (third_of_color c vs w) ∧ fits v) ∨
  (third_of_color c vs w = w ∧ ∀ v, v ∈ vs → card_at c v ∉ u → (c, v) ∉ [p; q] → ¬ fits v).
Proof.
  intros Hc Hvs Hw fits. destruct (pick_pair u p q w Hw) as (E0 & E1 & Ect).
  induction Hvs as [|v vs Hv _ IH]; cbn [third_of_color]; [right; split; [done|]; by intros v ?%not_elem_of_nil|].
  rewrite E0, E1, Ect. assert (cell_ok (c, v)) as Hok by done. pose proof (has_working u [p; q] w c v Hw Hok) as Hh.
  destruct (has w c v) eqn:E; cbn [andb Nat.ltb Nat.leb].
  - destruct (straight [card_of p; card_of q; card_at c v]) eqn:Es; cbn [negb].
    + destruct IH as [IH|[El IH]]; [by left|right]. split; [done|]. intros x [->|Hx]%elem_of_cons; [|by apply IH]. intros _ _ Hf. unfold fits in Hf. congruence.
    + left. exists v. split; [done|]. cbn [put put_at count]. rewrite Ect. cbn [Nat.leb]. split; [|done].
      exact (put_working u [p; q] w c v Hw Hok E ltac:(simpl; lia)).
  - destruct IH as [IH|[El IH]]; [by left|right]. split; [done|]. intros x [->|Hx]%elem_of_cons; [|by apply IH]. intros Hu Hn _.
    assert (false = true) by (by apply Hh). done.
Qed.

(** The cells of a colour that are left. *)
Definition color_left (u : list Z) (c : nat) : nat := length (filter (λ v, card_at c v ∉ u) (seq 0 13)).

Lemma colors_counted u w c vs : working u [] (w <| count := 0%nat |>) → (c < 4)%nat → vs ≡ₚ seq 0 13 →
  length (List.filter (has w c) vs) = color_left u c.
Proof.
  intros Hw Hc Hp. unfold color_left. rewrite <- Hp. assert (Forall (λ v, (v < 13)%nat) vs) as Hf.
  { rewrite Hp. apply Forall_forall. intros v Hv%elem_of_seq. lia. }
  clear Hp. induction Hf as [|v vs Hv _ IH]; [done|]. pose proof (has_fresh u (w <| count := 0%nat |>) c v Hw Hc Hv) as Hh.
  change (has (w <| count := 0%nat |>) c v) with (has w c v) in Hh. cbn [List.filter]. rewrite filter_cons. destruct (has w c v), (decide (card_at c v ∉ u)); cbn [length]; naive_solver.
Qed.

(** Two different cards of a colour out of three that are left. *)
Lemma two_of_color u c d w : working u [] w → (c < 4)%nat → draw_ok d → (3 <= color_left u c)%nat →
  ∃ p q, working u [p; q] (take_values c (d_values d) w) ∧ p.1 = c ∧ q.1 = c ∧ p.2 ≠ q.2.
Proof.
  intros Hw Hc [_ Hd] H3. rewrite take_values_cells. destruct (take_cells_spec u 2 (map (pair c) (d_values d)) w []) as (qs & Hq & Hsub & Hl).
  - lia.
  - simpl. apply NoDup_fmap_2; [by intros ?? [= ->]|]. rewrite Hd. apply NoDup_seq.
  - apply Forall_map, Forall_forall. intros v Hin. rewrite Hd in Hin. apply elem_of_seq in Hin. split; simpl; lia.
  - done.
  - simpl. lia.
  - cbn [app length] in *. rewrite filter_map_length in Hl. unfold card_of in Hl. cbn [fst snd] in Hl. rewrite Hd in Hl. unfold color_left in H3.
    assert (length qs = 2%nat) as Hq2 by lia. clear Hl. destruct qs as [|p [|q [|]]]; try done. assert (p.1 = c ∧ q.1 = c) as [Hpc Hqc].
    { split; [assert (p ∈ map (pair c) (d_values d)) as (v & -> & _)%list_elem_of_fmap_1 by set_solver|assert (q ∈ map (pair c) (d_values d)) as (v & -> & _)%list_elem_of_fmap_1 by set_solver]; done. }
    exists p, q. split_and!; try done. destruct Hq as (Hn & _). apply NoDup_cons in Hn as [Hn _]. intros E. apply Hn. apply list_elem_of_singleton.
    destruct p, q. simpl in *. congruence.
Qed.

(** With five cards of a colour left a flush is found in it. *)
Lemma third_found u c p q vs w : (c < 4)%nat → vs ≡ₚ seq 0 13 → working u [p; q] w → p.1 = c → q.1 = c → p.2 ≠ q.2 → (5 <= color_left u c)%nat →
  ∃ v, (v < 13)%nat ∧ working u [p; q; (c, v)] (third_of_color c vs w) ∧ straight [card_of p; card_of q; card_at c v] = false.
Proof.
  intros Hc Hp Hw Hpc Hqc Hne H5. pose proof Hw as (Hn & Hf & _). rewrite !Forall_cons in Hf. destruct Hf as ([Hpok _] & [Hqok _] & _).
  destruct (third_of_color_spec u c p q vs w Hc) as [H|[_ Hno]]; [|done|done|].
  { rewrite Hp. apply Forall_forall. intros v Hv%elem_of_seq. lia. }
  exfalso. pose proof (few_straights p.1 q.1 p.2 q.2 ltac:(by destruct p) ltac:(by destruct q) Hne c Hc) as Hfew.
  set (bad := List.filter _ (seq 0 13)) in Hfew. unfold color_left in H5.
  assert (filter (λ v, card_at c v ∉ u) (seq 0 13) ⊆+ bad ++ [p.2; q.2]) as Hsub%submseteq_length; [|rewrite length_app in Hsub; change (length [p.2; q.2]) with 2%nat in Hsub; lia].
  apply NoDup_submseteq; [apply NoDup_filter, NoDup_seq|]. intros v [Hu Hv]%list_elem_of_filter. rewrite elem_of_app.
  destruct (decide ((c, v) ∈ [p; q])) as [Hin|Hin].
  - right. rewrite !elem_of_cons. rewrite !elem_of_cons in Hin. destruct Hin as [<-|[<-|[]%not_elem_of_nil]]; tauto.
  - left. apply list_elem_of_In, filter_In. split; [by apply list_elem_of_In|]. apply not_false_iff_true. apply (Hno v); [by rewrite Hp|done|done].
Qed.

Lemma JinHua_colors_spec u d n cs : draw_ok d → (n < CHOOSE_COUNT)%nat → NoDup cs → Forall (λ c, (c < 4)%nat) cs → ∀ u' w,
  u ⊆ u' → working u' [] (w <| count := 0%nat |>) → (∀ c v, c ∈ cs → (v < 13)%nat → card_at c v ∈ u' → card_at c v ∈ u) →
  (∃ c, c ∈ cs ∧ (5 <= color_left u c)%nat) →
  ∃ u'' p q r, u ⊆ u'' ∧ working u'' [p; q; r] (JinHua_colors d n cs w) ∧ p.1 = q.1 ∧ q.1 = r.1 ∧ straight (hand_of [p; q; r]) = false.
Proof.
  intros Hd Hn Hnd Hcs. induction Hcs as [|c cs Hc Hcs IH]; intros u' w Hsub Hw Hagree (b & Hb & H5); [by apply not_elem_of_nil in Hb|].
  apply NoDup_cons in Hnd as [Hcn Hnd]. cbn [JinHua_colors]. pose proof Hd as [_ Hv]. rewrite (colors_counted u' w c _ Hw Hc Hv).
  assert (color_left u' c = color_left u c) as Ecl.
  { unfold color_left. f_equal. apply filter_iff_Forall, Forall_forall. intros v Hv13%elem_of_seq.
    split; [set_solver|]. intros H Hin. apply H, Hagree; [by left|lia|done]. }
  destruct (Nat.leb_spec 3 (color_left u' c)) as [H3|H3].
  - destruct (two_of_color u' c d _ Hw Hc Hd H3) as (p & q & Hpq & Hpc & Hqc & Hne). set (w2 := take_values c (d_values d) (w <| count := 0%nat |>)) in *.
    destruct (third_of_color_spec u' c p q (d_values d) w2 Hc) as [(v & Hv13 & Hw3 & Hst)|[E3 Hno]]; [|done| |].
    { rewrite Hv. apply Forall_forall. intros v Hv13%elem_of_seq. lia. }
    + pose proof Hw3 as (_ & _ & _ & _ & _ & _ & Hct). rewrite Hct. cbn [length Nat.ltb Nat.leb]. exists u', p, q, (c, v). split_and!; try done. congruence.
    + rewrite E3. destruct (pick_pair u' p q w2 Hpq) as (_ & _ & Hct). rewrite Hct. change (2 <? 3)%nat with true. cbv iota. rewrite (proj2 (Nat.ltb_lt n CHOOSE_COUNT) Hn).
      apply (IH Hnd (u' ++ hand_of [p; q])).
      * set_solver.
      * destruct Hpq as (_ & _ & _ & Hi & Ho & _). unfold working. rewrite app_nil_r. split_and!; try done; [constructor|simpl; lia].
      * intros x v Hx Hv13 [Hin|Hin]%elem_of_app; [apply Hagree; [by right|done|done]|]. exfalso. apply Hcn.
        assert (∃ y, card_at x v = card_at c y ∧ (y < 13)%nat ∧ (x < 4)%nat) as (y & Ey & Hy & Hx4).
        { rewrite Forall_forall in Hcs. destruct Hpq as (_ & Hf & _). rewrite !Forall_cons in Hf. destruct Hf as ([[_ Hp] _] & [[_ Hq] _] & _).
          change (hand_of [p; q]) with [card_of p; card_of q] in Hin. rewrite !elem_of_cons in Hin. destruct Hin as [E|[E|[]%not_elem_of_nil]]; [exists p.2|exists q.2]; (split; [rewrite E; unfold card_of; congruence|]); split; try done; by apply Hcs. }
        assert (x = c) as <-; [|done]. unfold card_at in Ey. lia.
      * exists b. split; [|done]. apply elem_of_cons in Hb as [->|Hb]; [|done]. exfalso.
        destruct (third_found u' c p q (d_values d) w2) as (v & _ & Hv3 & _); [done|done|done|done|done|done|lia|]. rewrite E3 in Hv3.
        destruct Hv3 as (_ & _ & _ & _ & _ & _ & Hct3). rewrite Hct in Hct3. done.
  - apply (IH Hnd u'); [done|done| |].
    + intros x v Hx. apply Hagree. by right.
    + exists b. split; [|done]. apply elem_of_cons in Hb as [->|Hb]; [lia|done].
Qed.

Lemma some_color_left u : (length u < 36)%nat → ∃ c, (c < 4)%nat ∧ (5 <= color_left u c)%nat.
Proof.
  intros Hu. destruct (group_left u (map (λ c, map (card_at c) (seq 0 13)) (seq 0 4)) 4) as (h & (c & -> & Hc%elem_of_seq)%list_elem_of_fmap_1 & Hk).
  - apply (bool_decide_unpack _). vm_compute. exact I.
  - change (length (concat _)) with 52%nat. simpl. lia.
  - exists c. split; [lia|]. rewrite filter_map_length in Hk. exact Hk.
Qed.

Lemma JinHua_spec d n g : Book g → draw_ok d → (n < CHOOSE_COUNT)%nat → (length (haveUseCard g) < 36)%nat →
  ∃ p q r, JinHua_try d n g = Some (false, hand_of [p; q; r], n) ∧ new_cells g [p; q; r] ∧
    p.1 = q.1 ∧ q.1 = r.1 ∧ straight (hand_of [p; q; r]) = false.
Proof.
  intros Hg Hd Hn Hu. assert (∀ c, c ∈ d_colors d ↔ (c < 4)%nat) as Hin by (intros c; destruct Hd as [-> _]; rewrite elem_of_seq; lia).
  destruct (JinHua_colors_spec (haveUseCard g) d n (d_colors d) Hd Hn) with (u' := haveUseCard g) (w := fresh g) as (u & p & q & r & Hsub & Hw & Hr).
  - destruct Hd as [-> _]. apply NoDup_seq.
  - apply Forall_forall. intros c. apply Hin.
  - done.
  - by apply fresh_working.
  - done.
  - destruct (some_color_left _ Hu) as (c & Hc & H5). exists c. split; [by apply Hin|done].
  - exists p, q, r. unfold JinHua_try. destruct (working_hand g u _ _ Hsub Hw eq_refl) as (-> & Hun & _). done.
Qed.
