(* ===== verification/ZjhMixed.v ===== *)
(** Golden flower, single cards made to order: three cards of three colours and three
    values that are no straight. *)
From stdpp Require Import base option numbers sorting sets list.
From Stdlib Require Import ZArith Lia.
From S2P Require Import Prelude HongHei ZjhLogic ZjhMade ZjhBook ZjhTypes ZjhTries ZjhFlushes.

#[local] Open Scope Z_scope.

(** ** Single cards *)

Lemma color_groups_nodup cs : NoDup cs → NoDup (concat (map (λ c, map (card_at c) (seq 0 13)) cs)).
Proof.
  induction 1 as [|c cs Hc _ IH]; cbn [map concat]; [constructor|]. apply NoDup_app. split_and!; [|intros x Hx Hin|done].
  - apply NoDup_fmap_2; [|apply NoDup_seq]. intros v v' E. unfold card_at in E. lia.
  - apply list_elem_of_fmap_1 in Hx as (v & -> & Hv%elem_of_seq). apply elem_of_concat in Hin as (l & Hl & (c' & -> & Hc')%list_elem_of_fmap_1).
    apply list_elem_of_fmap_1 in Hl as (v' & E & Hv'%elem_of_seq). apply Hc. assert (c = c') as ->; [|done]. unfold card_at in E. lia.
Qed.

Lemma color_left_among u cs k : NoDup cs → (length u + length cs * k < 13 * length cs)%nat → ∃ c, c ∈ cs ∧ (k < color_left u c)%nat.
Proof.
  intros Hn Hl. destruct (group_left u _ k (color_groups_nodup cs Hn)) as (h & (c & -> & Hc)%list_elem_of_fmap_1 & Hk).
  - rewrite length_map. assert (length (concat (map (λ c, map (card_at c) (seq 0 13)) cs)) = 13 * length cs)%nat as ->; [|done].
    clear. induction cs as [|c cs IH]; [done|]. cbn [map concat]. rewrite length_app, IH, length_map, length_seq. simpl. lia.
  - exists c. rewrite filter_map_length in Hk. done.
Qed.

(** A colour with more cards left than the list has values has a value outside it. *)
Lemma value_outside u c bad : (length bad < color_left u c)%nat → ∃ v, (v < 13)%nat ∧ (card_at c v ∉ u) ∧ v ∉ bad.
Proof.
  intros Hlt. destruct (decide (Exists (λ v, (card_at c v ∉ u) ∧ v ∉ bad) (seq 0 13))) as [(v & Hv%elem_of_seq & Hu & Hb)%Exists_exists|Hn].
  - exists v. split; [lia|done].
  - exfalso. unfold color_left in Hlt. assert (filter (λ v, card_at c v ∉ u) (seq 0 13) ⊆+ bad) as Hs%submseteq_length; [|lia].
    apply NoDup_submseteq; [apply NoDup_filter, NoDup_seq|]. intros v [Hu Hv]%list_elem_of_filter. apply dec_stable. intros Hb. apply Hn, Exists_exists. by exists v.
Qed.

Definition other_colors (l : list nat) : list nat := filter (λ c, c ∉ l) (seq 0 4).

Lemma other_colors_length l : (4 <= length l + length (other_colors l))%nat.
Proof.
  assert (seq 0 4 ⊆+ l ++ other_colors l) as Hs%submseteq_length; [|rewrite length_app in Hs; exact Hs].
  apply NoDup_submseteq; [apply NoDup_seq|]. intros c Hc. apply elem_of_app. destruct (decide (c ∈ l)); [by left|right]. by apply list_elem_of_filter.
Qed.

Lemma color_left_other u l k : (length l < 4)%nat → (length u + (4 - length l) * k < 13 * (4 - length l))%nat → ∃ c, (c < 4)%nat ∧ (c ∉ l) ∧ (k < color_left u c)%nat.
Proof.
  intros Hl Hu. destruct (color_left_among u (take (4 - length l) (other_colors l)) k) as (c & Hc & Hk).
  - apply (sublist_NoDup _ (other_colors l)); [apply NoDup_filter, NoDup_seq|apply sublist_take].
  - pose proof (other_colors_length l). rewrite length_take, Nat.min_l by lia. lia.
  - assert (c ∈ other_colors l) as [Hn Hin%elem_of_seq]%list_elem_of_filter by (apply elem_of_take in Hc as (i & Hi & _); by eapply list_elem_of_lookup_2). exists c. split; [lia|done].
Qed.

Definition apart (p q : nat * nat) : Prop := p.1 ≠ q.1 ∧ p.2 ≠ q.2.

Lemma apart_test p c v : negb (v =? p.2)%nat && negb (c =? p.1)%nat = true ↔ apart p (c, v).
Proof. unfold apart. cbn [fst snd]. rewrite andb_true_iff, !negb_true_iff, !Nat.eqb_neq. split; intros [? ?]; split; congruence. Qed.

(** The second card, when the first one is known. *)
Lemma second_card u d p cs w : draw_ok d → Forall (λ c, (c < 4)%nat) cs → working u [p] w →
  (∃ c v, c ∈ cs ∧ (v < 13)%nat ∧ (card_at c v ∉ u) ∧ apart p (c, v)) →
  ∃ q w', SanPai_two d cs w [p] = (w', [p; q]) ∧ working u [p; q] w' ∧ apart p q.
Proof.
  intros [_ Hd] Hcs Hw. pose proof Hw as (_ & _ & _ & _ & _ & _ & Hct). simpl in Hct.
  induction Hcs as [|c cs Hc _ IH]; intros (b & y & Hb & Hy & Hu & Hap); [by apply not_elem_of_nil in Hb|]. cbn [SanPai_two].
  destruct (find _ (d_values d)) as [v|] eqn:E.
  - apply List.find_some in E as [Hv%list_elem_of_In Hf]. rewrite Hd in Hv. apply elem_of_seq in Hv. cbn [take forallb] in Hf. rewrite andb_true_r in Hf.
    apply andb_true_iff in Hf as [[Hh _]%andb_true_iff Hap'%apart_test]. change (put c v w) with (put c v w).
    exists (c, v), (put c v w). change (2 <=? count (put c v w))%nat with (1 <=? count w)%nat. rewrite Hct. split; [done|]. split; [|done].
    apply (put_working u [p]); [done|split; simpl; lia|done|simpl; lia].
  - rewrite Hct. cbn [Nat.leb]. apply IH. exists b, y. split; [|done]. apply elem_of_cons in Hb as [->|Hb]; [|done]. exfalso.
    assert (y ∈ d_values d) as Hin by (rewrite Hd; apply elem_of_seq; lia). pose proof (find_none _ _ E y ltac:(by apply list_elem_of_In)) as Hn.
    cbn beta in Hn. cbn [take forallb] in Hn. rewrite andb_true_r, (proj2 (apart_test p c y) Hap), Hct in Hn. rewrite (proj2 (has_working u [p] w c y Hw ltac:(done))) in Hn; [done|].
    split; [done|]. rewrite list_elem_of_singleton. intros <-. by destruct Hap.
Qed.

Lemma first_two u d cs w : draw_ok d → (length u <= 15)%nat → Forall (λ c, (c < 4)%nat) cs → working u [] w →
  (∀ c v, (c < 4)%nat → (v < 13)%nat → card_at c v ∉ u → c ∈ cs) →
  ∃ p q w', SanPai_two d cs w [] = (w', [p; q]) ∧ working u [p; q] w' ∧ apart p q.
Proof.
  intros Hd Hu Hcs Hw. pose proof Hw as (_ & _ & _ & _ & _ & _ & Hct). simpl in Hct. pose proof Hd as [_ Hv].
  induction Hcs as [|c cs Hc Hcs IH]; intros Hall.
  { destruct (color_left_other u [] 1) as (c & Hc & _ & Hk); [simpl; lia|simpl; lia|]. destruct (value_outside u c []) as (v & Hv13 & Hvu & _); [simpl; lia|].
    pose proof (Hall c v Hc Hv13 Hvu) as Hin. by apply not_elem_of_nil in Hin. }
  cbn [SanPai_two]. destruct (find _ (d_values d)) as [v|] eqn:E.
  - apply List.find_some in E as [Hvin%list_elem_of_In Hf]. rewrite Hv in Hvin. apply elem_of_seq in Hvin. cbn [take forallb] in Hf.
    apply andb_true_iff in Hf as [[Hh _]%andb_true_iff _]. change (2 <=? count (put c v w))%nat with (1 <=? count w)%nat. rewrite Hct. cbn [Nat.leb].
    destruct (second_card u d (c, v) cs (put c v w)) as (q & w' & E2 & Hw' & Hap); [done|done| | |by exists (c, v), q, w'].
    + apply (put_working u []); [done|split; simpl; lia|done|simpl; lia].
    + destruct (color_left_other u [c] 1) as (b & Hb & Hbc & Hk); [simpl; lia|simpl; lia|]. destruct (value_outside u b [v]) as (y & Hy & Hyu & Hyv); [simpl; lia|].
      rewrite list_elem_of_singleton in Hbc, Hyv. exists b, y. split; [|split; [done|split; [done|split; simpl; congruence]]].
      destruct (proj1 (elem_of_cons cs b c) (Hall b y Hb Hy Hyu)) as [|]; done.
  - rewrite Hct. cbn [Nat.leb]. apply IH. intros b y Hb Hy Hyu. destruct (proj1 (elem_of_cons cs b c) (Hall b y Hb Hy Hyu)) as [->|]; [|done]. exfalso.
    assert (y ∈ d_values d) as Hin by (rewrite Hv; apply elem_of_seq; lia). pose proof (find_none _ _ E y ltac:(by apply list_elem_of_In)) as Hn.
    cbn beta in Hn. cbn [take forallb] in Hn. rewrite Hct in Hn. rewrite (proj2 (has_fresh u w c y Hw Hc Hy) Hyu) in Hn. done.
Qed.

(** The copies and the array [num] while the third card is looked for. *)
Definition paired (u : list Z) (p q : nat * nat) (w : Work) : Prop :=
  ∃ w0 x, working u [p; q] w0 ∧ TmpcolorIndex w = TmpcolorIndex w0 ∧ count w = 2%nat ∧ cards w = [card_of p; card_of q; x].

Lemma working_paired u p q w : working u [p; q] w → paired u p q w.
Proof. intros Hw. pose proof Hw as (_ & _ & _ & _ & _ & Hc & Hct). by exists w, 0. Qed.

Definition third_fits (u : list Z) (p q : nat * nat) (c v : nat) : Prop :=
  (v < 13)%nat ∧ (card_at c v ∉ u) ∧ apart p (c, v) ∧ apart q (c, v) ∧ straight [card_of p; card_of q; card_at c v] = false.

Lemma SanPai_third_spec u p q n c vs w hand : paired u p q w → (n < CHOOSE_COUNT)%nat → (c < 4)%nat → Forall (λ v, (v < 13)%nat) vs →
  let '(w', have, hand') := SanPai_third n c vs w [p; q] hand in
  (∃ v, third_fits u p q c v ∧ hand' = hand_of [p; q; (c, v)] ∧ count w' = 3%nat) ∨
  (paired u p q w' ∧ have = [p; q] ∧ ∀ v, v ∈ vs → ¬ third_fits u p q c v).
Proof.
  intros Hw Hn Hc Hvs. revert w hand Hw. induction Hvs as [|v vs Hv _ IH]; intros w hand Hw; cbn [SanPai_third].
  { right. split_and!; [done|done|]. by intros v ?%not_elem_of_nil. }
  destruct Hw as (w0 & x & Hw0 & Ho & Hct & Hcards). assert (cell_ok (c, v)) as Hok by done.
  assert (has w c v = true ↔ (card_at c v ∉ u) ∧ ((c, v) ∉ [p; q])) as Hh by (rewrite <- (has_working u [p; q] w0); [unfold has; by rewrite Ho|done|done]).
  cbn [take forallb]. rewrite andb_true_r, Hct, Hcards. change (2 <? 3)%nat with true. rewrite andb_true_r. cbn [insert list_insert].
  destruct (has w c v && _) eqn:E.
  - apply andb_true_iff in E as [Hhv [Hp%apart_test Hq%apart_test]%andb_true_iff]. apply Hh in Hhv as [Hu _].
    destruct (straight [card_of p; card_of q; card_at c v]) eqn:Es.
    + specialize (IH (w <| cards := [card_of p; card_of q; card_at c v] |>) (if (n <? CHOOSE_COUNT)%nat then no_cards else [card_of p; card_of q; card_at c v])).
      destruct (SanPai_third n c vs _ _ _) as [[w' have] hand'] eqn:E3. destruct IH as [IH|(Hw' & Hhave & IH)]; [by exists w0, (card_at c v)|by left|right].
      split_and!; [done|done|]. intros y [->|Hy]%elem_of_cons; [|by apply IH]. intros (_ & _ & _ & _ & Hs). congruence.
    + left. exists v. split; [done|]. split; [done|]. cbn [put_at count]. by rewrite Hct.
  - specialize (IH w hand ltac:(by exists w0, x)). destruct (SanPai_third n c vs w [p; q] hand) as [[w' have] hand'].
    destruct IH as [IH|(Hw' & Hhave & IH)]; [by left|right]. split_and!; [done|done|]. intros y [->|Hy]%elem_of_cons; [|by apply IH].
    intros (_ & Hu & Hp & Hq & _). rewrite (proj2 (apart_test p c v) Hp), (proj2 (apart_test q c v) Hq), !andb_true_r in E.
    assert ((c, v) ∉ [p; q]) as Hnin.
    { rewrite !elem_of_cons. intros [<-|[<-|[]%not_elem_of_nil]]; [by destruct Hp|by destruct Hq]. }
    rewrite (proj2 Hh (conj Hu Hnin)) in E. done.
Qed.

Lemma SanPai_thirds_spec u p q d n cs w hand : draw_ok d → paired u p q w → (n < CHOOSE_COUNT)%nat → Forall (λ c, (c < 4)%nat) cs →
  (∃ c v, c ∈ cs ∧ third_fits u p q c v) →
  ∃ c v, (c < 4)%nat ∧ third_fits u p q c v ∧ SanPai_thirds d n cs w [p; q] hand = hand_of [p; q; (c, v)].
Proof.
  intros [_ Hd] Hw Hn Hcs. revert w hand Hw. induction Hcs as [|c cs Hc _ IH]; intros w hand Hw (b & y & Hb & Hfit); [by apply not_elem_of_nil in Hb|].
  cbn [SanPai_thirds]. pose proof (SanPai_third_spec u p q n c (d_values d) w hand Hw Hn Hc) as H.
  destruct (SanPai_third n c (d_values d) w [p; q] hand) as [[w' have] hand']. destruct H as [(v & Hv & -> & ->)|(Hw' & -> & Hno)].
  - rewrite Hd. apply Forall_forall. intros v Hv%elem_of_seq. lia.
  - by exists c, v.
  - pose proof Hw' as (_ & _ & _ & _ & -> & _). change (3 <=? 2)%nat with false. cbv iota. apply IH; [done|]. exists b, y. split; [|done].
    apply elem_of_cons in Hb as [->|Hb]; [|done]. exfalso. apply (Hno y); [|done]. rewrite Hd. apply elem_of_seq. destruct Hfit as [? _]. lia.
Qed.

Lemma some_third u p q : (length u <= 15)%nat → cell_ok p → cell_ok q → apart p q → ∃ c v, (c < 4)%nat ∧ third_fits u p q c v.
Proof.
  intros Hu Hp Hq [Hpq Hv]. destruct (color_left_other u [p.1; q.1] 5) as (c & Hc & Hcn & Hk); [simpl; lia|simpl; lia|].
  pose proof (few_straights p.1 q.1 p.2 q.2 ltac:(by destruct p) ltac:(by destruct q) Hv c Hc) as Hfew. set (bad := List.filter _ (seq 0 13)) in Hfew.
  destruct (value_outside u c (p.2 :: q.2 :: bad)) as (v & Hv13 & Hvu & Hvb); [cbn [length]; lia|]. exists c, v. split; [done|].
  rewrite !not_elem_of_cons in Hcn, Hvb. destruct Hcn as (H1 & H2 & _), Hvb as (H3 & H4 & H5). split_and!; try done; try (split; simpl; congruence).
  apply not_true_iff_false. intros Hs. apply H5, list_elem_of_In, filter_In. split; [apply in_seq; lia|done].
Qed.

Lemma SanPai_spec d n g : Book g → draw_ok d → (n < CHOOSE_COUNT)%nat → (length (haveUseCard g) <= 15)%nat →
  ∃ p q r, SanPai_try d n g = Some (false, hand_of [p; q; r], n) ∧ new_cells g [p; q; r] ∧ apart p q ∧ apart p r ∧ apart q r ∧
    straight (hand_of [p; q; r]) = false.
Proof.
  intros Hg Hd Hn Hu. set (u := haveUseCard g) in *. assert (∀ c, c ∈ d_colors d ↔ (c < 4)%nat) as Hin by (intros c; destruct Hd as [-> _]; rewrite elem_of_seq; lia).
  assert (Forall (λ c, (c < 4)%nat) (d_colors d)) as Hcs by (apply Forall_forall; intros c; apply Hin).
  destruct (first_two u d (d_colors d) (fresh g)) as (p & q & w & E & Hw & Hpq); [done|done|done|by apply fresh_working|by intros; apply Hin|].
  pose proof Hw as (_ & Hf & _). rewrite !Forall_cons in Hf. destruct Hf as ([Hp Hpu] & [Hq Hqu] & _).
  destruct (some_third u p q Hu Hp Hq Hpq) as (b & y & Hb & Hfit).
  destruct (SanPai_thirds_spec u p q d n (d_colors d) w no_cards) as (c & v & Hc & (Hv & Hvu & Hpr & Hqr & Hs) & Eh); [done|by apply working_paired|done|done| |].
  { exists b, y. split; [by apply Hin|done]. }
  exists p, q, (c, v). unfold SanPai_try. rewrite E, Eh. split; [done|]. split; [|done].
  assert (cell_ok (c, v)) as Hr by done. unfold new_cells, unused, hand_of. cbn [map]. split; [split_and!|by rewrite !Forall_cons].
  - rewrite !NoDup_cons, !elem_of_cons, !elem_of_nil. assert (∀ a b, cell_ok a → cell_ok b → apart a b → card_of a ≠ card_of b) as Hne.
    { intros a a' Ha Ha' [Hn1 _] Ec%card_of_inj; [|done..]. by subst. }
    split_and!; [intros [H|[H|[]]]|intros [H|[]]|by intros []|constructor]; revert H; by apply Hne.
  - rewrite !Forall_cons. split_and!; [by apply card_of_fields..|done].
  - intros x. rewrite !elem_of_cons, elem_of_nil. by intros [->|[->|[->|[]]]].
Qed.
