(* ===== verification/ZjhStraights.v ===== *)
(** Golden flower, plain straights made to order: the choices are repeated until one has
    more than one colour; a choice of one colour is put back. *)
From stdpp Require Import base option numbers sorting sets list.
From Stdlib Require Import ZArith Lia.
From S2P Require Import Prelude HongHei ZjhLogic ZjhMade ZjhBook ZjhTypes ZjhTries ZjhFlushes.

#[local] Open Scope Z_scope.

(** ** Putting back *)

Lemma values_left_same u u' : (∀ c, c ∈ u ↔ c ∈ u') → values_left u = values_left u' ∧ colors_left u = colors_left u'.
Proof.
  intros H. split.
  - unfold values_left. apply map_ext. intros v. unfold value_left. f_equal. f_equal. apply list_filter_iff. intros c. by rewrite H.
  - unfold colors_left. apply map_ext. intros p. destruct (decide (card_of p ∈ u)) as [Hp|Hp], (decide (card_of p ∈ u')) as [Hp'|Hp']; rewrite H in Hp; done.
Qed.

Definition back (c m : nat) (a : list Z * list Z) : list Z * list Z := (<[m := u8 (a.1.[m] + 1)]> a.1, <[cell c m := 1]> a.2).

Lemma untake u c v : cell_ok (c, v) → card_at c v ∉ u →
  back c v (values_left (u ++ [card_at c v]), colors_left (u ++ [card_at c v])) = (values_left u, colors_left u).
Proof.
  intros [Hc Hv] Hn. simpl in Hc, Hv. unfold back. cbn [fst snd]. rewrite <- (take_value u c v), <- (take_color u c v) by done. f_equal.
  - assert (values_left u !! v = Some (Z.of_nat (value_left u v))) as Hl.
    { unfold values_left. by rewrite list_lookup_fmap, lookup_seq_lt. }
    pose proof (value_left_le u v). pose proof (value_left_take u c v Hc Hv Hn).
    rewrite list_insert_insert, decide_True by done. unfold aget at 1. rewrite list_lookup_insert_eq by (by eapply lookup_lt_Some). rewrite (aget_lookup _ _ _ Hl). simpl.
    apply list_insert_id. rewrite Hl. f_equal. unfold u8. lia.
  - rewrite list_insert_insert, decide_True by done. apply list_insert_id. unfold colors_left. rewrite list_lookup_fmap.
    pose proof (all_cells_lookup (c, v) ltac:(done)) as Hl. simpl in Hl. rewrite Hl. simpl. by rewrite decide_False.
Qed.

(** Three cards of one colour, put back in the order they were taken. *)
Lemma back_neighbours u c s : (c < 4)%nat → (s <= 10)%nat → Forall (left_in u) (neighbours c s) →
  foldl (λ a m, back c m a) (values_left (u ++ hand_of (neighbours c s)), colors_left (u ++ hand_of (neighbours c s))) (seq s 3) = (values_left u, colors_left u).
Proof.
  intros Hc Hs Hf. unfold neighbours in *. rewrite !Forall_cons in Hf. destruct Hf as ([O1 H1] & [O2 H2] & [O3 H3] & _).
  cbn [seq foldl hand_of map]. unfold card_of in *. cbn [fst snd] in *. set (x := card_at c s) in *. set (y := card_at c (S s)) in *. set (z := card_at c (S (S s))) in *.
  assert (x ≠ y ∧ x ≠ z ∧ y ≠ z) as (Hxy & Hxz & Hyz) by (unfold x, y, z, card_at; lia).
  destruct (values_left_same (u ++ [x; y; z]) ((u ++ [y; z]) ++ [x])) as [-> ->]; [set_solver|].
  unfold x. rewrite untake; [|done|fold x; rewrite elem_of_app, !elem_of_cons, elem_of_nil; naive_solver]. fold x.
  destruct (values_left_same (u ++ [y; z]) ((u ++ [z]) ++ [y])) as [-> ->]; [set_solver|].
  unfold y. rewrite untake; [|done|fold y; rewrite elem_of_app, !elem_of_cons, elem_of_nil; naive_solver]. fold y.
  unfold z. by rewrite untake.
Qed.

(** ** One choice *)

Lemma ShunZi_cards_spec u d ms ps w : working u ps w → (length ps + length ms = 3)%nat → NoDup ms →
  Forall (λ m, (m < 13)%nat ∧ (0 < value_left u m)%nat ∧ ∀ p, p ∈ ps → p.2 ≠ m) ms →
  ∃ qs w', ShunZi_cards d ms true (map fst ps ++ replicate (3 - length ps) 255%nat) w = (true, map fst (ps ++ qs), w') ∧
    working u (ps ++ qs) w' ∧ map snd qs = ms.
Proof.
  revert ps w. induction ms as [|m ms IH]; intros ps w Hw Hl Hnd Hms; cbn [ShunZi_cards].
  { exists [], w. rewrite !app_nil_r. simpl in Hl. replace (3 - length ps)%nat with 0%nat by lia. simpl. by rewrite app_nil_r. }
  apply NoDup_cons in Hnd as [Hm Hnd]. apply Forall_cons in Hms as [(Hm13 & Hpos & Hne) Hms]. cbn [length] in Hl.
  pose proof Hw as (_ & Hf & _ & _ & _ & _ & Hct). assert (Forall cell_ok ps) as Hok by (eapply Forall_impl; [exact Hf|]; by intros p [? _]).
  destruct (drawn_color u ps w m d (S (count w)) Hw Hm13) as (c & Ec & Hc & Hh & Hnil).
  { rewrite (working_value u ps) by done. rewrite value_left_hand by done. lia. }
  destruct (colors_of w m) as [|c0 color] eqn:Eco; [done|]. rewrite <- Eco in *. rewrite Ec.
  destruct (IH (ps ++ [(c, m)]) (put c m w)) as (qs & w' & E & Hw' & Hq).
  - apply put_working; [done|done|done|lia].
  - rewrite length_app. simpl. lia.
  - done.
  - rewrite Forall_forall in Hms |- *. intros x Hx. destruct (Hms x Hx) as (? & ? & Hpx). split_and!; try done.
    intros p [Hp|Hp%list_elem_of_singleton]%elem_of_app; [by apply Hpx|]. subst p. simpl. intros ->. done.
  - exists ((c, m) :: qs), w'. rewrite <- app_assoc in E, Hw'. split; [|split; [done|simpl; by rewrite Hq]].
    etransitivity; [|exact E]. f_equal. rewrite Hct, length_app, map_app, insert_app_r_alt by (by rewrite length_map). rewrite length_map, Nat.sub_diag.
    replace (3 - length ps)%nat with (S (3 - (length ps + 1))) by lia. simpl. by rewrite <- app_assoc.
Qed.

(** A run of values, each of which is left: three neighbours with their colours. *)
Definition straight_of (s : nat) (ps : list (nat * nat)) : Prop := map snd ps = seq s 3.

Definition run_ok (u : list Z) (j len : nat) : Prop :=
  (3 <= len)%nat ∧ (j <= 10)%nat ∧ (j + len <= 13)%nat ∧ ∀ k, (j <= k < j + len)%nat → (0 < value_left u k)%nat.

Lemma back_work c ms w :
  foldl (λ w m, w <| TmpcardIndex ::= λ a, <[m := u8 (a.[m] + 1)]> a |> <| TmpcolorIndex ::= λ a, <[cell c m := 1]> a |>) w ms =
  let a := foldl (λ a m, back c m a) (TmpcardIndex w, TmpcolorIndex w) ms in MkWork a.1 a.2 (cards w) (count w).
Proof. revert w. induction ms as [|m ms IH]; intros w; [by destruct w|]. cbn [foldl]. rewrite IH. by destruct w. Qed.

(** A choice is a straight of more than one colour or leaves the copies as they were. *)
Lemma ShunZi_once_spec u d len j w : working u [] (w <| count := 0%nat |>) → run_ok u j len →
  (∃ s ps w', ShunZi_once d len j w = Some (true, w') ∧ working u ps w' ∧ straight_of s ps ∧ (s <= 10)%nat ∧ ¬ (∃ c, ps = neighbours c s)) ∨
  (∃ w', ShunZi_once d len j w = Some (false, w') ∧ w' <| count := 0%nat |> = w <| count := 0%nat |>).
Proof.
  intros Hw (H3 & Hj & H13 & Hrun). unfold ShunZi_once. cbv zeta. pose proof (between_le d 0 (len - 3)) as Hb.
  set (s := (between d 0 (len - 3) + j)%nat). assert (s <= 10 ∧ j <= s ∧ s + 3 <= j + len)%nat as (Hs & Hjs & Hsl) by (unfold s; lia). clearbody s.
  destruct (ShunZi_cards_spec u d (seq s 3) [] (w <| count := 0%nat |>) Hw eq_refl (NoDup_seq _ _)) as (qs & w' & E & Hw' & Hq).
  { apply Forall_forall. intros m Hm%elem_of_seq. split; [lia|]. split; [apply Hrun; lia|]. by intros p ?%not_elem_of_nil. }
  cbn [app map replicate length Nat.sub] in *. change (replicate 3 255%nat) with [255; 255; 255]%nat in E. rewrite E. pose proof Hw' as (_ & Hf & _).
  destruct qs as [|[c0 v0] [|[c1 v1] [|[c2 v2] [|]]]]; try done. injection Hq as -> -> ->. cbn [map fst]. unfold nget. cbn [lookup list_lookup default from_option]. unfold id.
  pose proof Hf as Hf'. rewrite !Forall_cons in Hf'. destruct Hf' as ([[Hc0 _] _] & _). cbn [fst] in Hc0.
  destruct (Nat.eqb_spec c0 c1) as [->|Hne]; cbn [andb].
  - destruct (Nat.eqb_spec c1 c2) as [->|Hne]; cbn [andb].
    + right. rewrite (proj2 (Nat.ltb_lt _ _) Hc0). eexists. split; [reflexivity|]. rewrite back_work.
      destruct Hw as (_ & _ & _ & Hi & Ho & Hcards & _), Hw' as (_ & _ & _ & Hi' & Ho' & _ & _). rewrite Hi', Ho'.
      change [(c2, s); (c2, S s); (c2, S (S s))] with (neighbours c2 s) in *. rewrite (back_neighbours u c2 s) by done. change (hand_of []) with (@nil Z) in *. rewrite app_nil_r in Hi. rewrite app_nil_r in Ho.
      destruct w as [a b h n]. change (a = values_left u) in Hi. change (b = colors_left u) in Ho. change (h = no_cards) in Hcards. subst a b h. reflexivity.
    + left. exists s, [(c1, s); (c1, S s); (c2, S (S s))], w'. split_and!; try done. intros (c & Eq); unfold neighbours in Eq; congruence.
  - left. exists s, [(c0, s); (c1, S s); (c2, S (S s))], w'. split_and!; try done. intros (c & Eq); unfold neighbours in Eq; congruence.
Qed.

(** ** Choosing again *)

(** Whether the numbers drawn choose more than one colour. *)
Definition chosen (d : Draw) (len j : nat) (w : Work) : bool :=
  match ShunZi_once d len j w with Some (bHave, _) => bHave | None => false end.

Definition good_straight (u : list Z) (s : nat) (ps : list (nat * nat)) (w : Work) : Prop :=
  working u ps w ∧ straight_of s ps ∧ (s <= 10)%nat ∧ ¬ (∃ c, ps = neighbours c s).

Lemma ShunZi_again_spec u draws len j w0 : working u [] w0 → count w0 = 0%nat → run_ok u j len → ∀ more n w, w <| count := 0%nat |> = w0 →
  (∃ n' s ps w', ShunZi_again draws more len j n w = Some (true, n', w') ∧ (n < n')%nat ∧ good_straight u s ps w' ∧
    ∀ k, (n < k)%nat → chosen (draws k) len j w0 = true → (n' <= k)%nat) ∨
  (∃ w', ShunZi_again draws more len j n w = Some (false, n + S more, w')%nat ∧ w' <| count := 0%nat |> = w0 ∧
    ∀ k, (n < k <= n + S more)%nat → chosen (draws k) len j w0 = false).
Proof.
  intros Hw0 Hct Hr more. induction more as [|more IH]; intros n w Ew.
  all: assert (working u [] (w <| count := 0%nat |>)) as Hw by (by rewrite Ew).
  all: assert (∀ d, ShunZi_once d len j w = ShunZi_once d len j w0) as Eonce by (intros d; by rewrite <- Ew).
  all: cbn [ShunZi_again]; destruct (ShunZi_once_spec u (draws (S n)) len j w Hw Hr) as [(s & ps & w' & E & Hg)|(w' & E & Hback)]; rewrite E; cbn [mbind option_bind].
  - left. exists (S n), s, ps, w'. split_and!; try done; lia.
  - right. exists w'. replace (n + 1)%nat with (S n) by lia. split; [done|]. split; [by rewrite Hback|]. intros k Hk. replace k with (S n) by lia. unfold chosen. by rewrite <- Eonce, E.
  - left. exists (S n), s, ps, w'. split_and!; try done; lia.
  - assert (chosen (draws (S n)) len j w0 = false) as Hno by (unfold chosen; by rewrite <- Eonce, E).
    destruct (IH (S n) w') as [(n' & s & ps & w2 & E2 & Hlt & Hg & Hk)|(w2 & E2 & Hw2 & Hk)]; [by rewrite Hback| |].
    + left. exists n', s, ps, w2. split; [done|]. split; [lia|]. split; [done|]. intros k Hnk Hch. apply Hk; [|done]. destruct (decide (k = S n)) as [->|]; [congruence|lia].
    + right. exists w2. rewrite E2. replace (S n + S more)%nat with (n + S (S more))%nat by lia. split; [done|]. split; [done|].
      intros k Hnk. destruct (decide (k = S n)) as [->|]; [done|]. apply Hk. lia.
Qed.

Definition starts_run (w : Work) (j : nat) : bool := available w j && (3 <=? run (available w) (seq j (13 - j)))%nat.

Lemma available_spec u w k : working u [] w → (k < 13)%nat → available w k = true ↔ (0 < value_left u k)%nat.
Proof.
  intros Hw Hk. unfold available. rewrite (working_value u [] w k Hw Hk). change (hand_of []) with (@nil Z). rewrite app_nil_r.
  pose proof Hw as (_ & _ & _ & _ & Ho & _). change (hand_of []) with (@nil Z) in Ho. rewrite app_nil_r in Ho. rewrite Ho.
  rewrite !colors_left_get by lia. rewrite andb_true_iff, !Z.ltb_lt. split; [lia|]. intros Hpos. split; [lia|].
  destruct (value_left_pos u k Hpos) as (c & Hc & Hn). set (f := λ c, if decide (card_at c k ∈ u) then 0 else 1 : Z).
  change (0 < f 0%nat + f 1%nat + f 2%nat + f 3%nat). assert (∀ c, 0 <= f c) as Hf by (intros x; unfold f; destruct (decide _); lia).
  assert (f c = 1) as Hfc by (unfold f; by rewrite decide_False). pose proof (Hf 0%nat). pose proof (Hf 1%nat). pose proof (Hf 2%nat). pose proof (Hf 3%nat).
  destruct c as [|[|[|[|]]]]; lia.
Qed.

Lemma starts_run_ok u w j : working u [] w → (j <= 10)%nat → starts_run w j = true → run_ok u j (run (available w) (seq j (13 - j))).
Proof.
  intros Hw Hj [Hav H3]%andb_true_iff. breflect. destruct (run_spec (available w) j (13 - j)) as [Hle Hf]. split_and!; try lia.
  intros k Hk. apply (available_spec u w k Hw); [lia|]. apply Hf; lia.
Qed.

Definition first_run (g : Gen) : option nat := find (starts_run (fresh g)) (seq 0 11).

(** The numbers drawn choose more than one colour in the run that is tried first. *)
Definition mixed_choice (g : Gen) (d : Draw) : bool :=
  match first_run g with
  | Some j => chosen d (run (available (fresh g)) (seq j (13 - j))) j (fresh g)
  | None => false
  end.

Lemma ShunZi_values_first u draws js n w j : working u [] w → count w = 0%nat → Forall (λ j, (j <= 10)%nat) js → find (starts_run w) js = Some j →
  (n < CHOOSE_COUNT)%nat → (∃ k, (n < k < CHOOSE_COUNT)%nat ∧ chosen (draws k) (run (available w) (seq j (13 - j))) j w = true) →
  ∃ n' s ps w', ShunZi_values draws js n w = Some (n', w') ∧ (n < n' < CHOOSE_COUNT)%nat ∧ good_straight u s ps w'.
Proof.
  intros Hw Hct Hjs Hfind Hn (k & Hk & Hch). induction Hjs as [|i js Hi _ IH]; [done|]. cbn [find ShunZi_values] in *. cbv zeta. change (available w i && _) with (starts_run w i) in *.
  destruct (starts_run w i) eqn:E; [|by apply IH]. injection Hfind as ->. pose proof (starts_run_ok u w j Hw Hi E) as Hr.
  destruct (ShunZi_again_spec u draws _ j w Hw Hct Hr (CHOOSE_COUNT - S n) n w) as [(n' & s & ps & w' & Ea & Hlt & Hg & Hkn)|(w' & _ & _ & Hno)].
  - destruct w. simpl in Hct. by subst.
  - rewrite Ea. cbn [mbind option_bind]. exists n', s, ps, w'. split; [done|]. split; [|done]. specialize (Hkn k ltac:(lia) Hch). lia.
  - rewrite Hno in Hch by lia. done.
Qed.

Lemma ShunZi_spec draws g : Book g → (∃ k, (2 <= k < CHOOSE_COUNT)%nat ∧ mixed_choice g (draws k) = true) →
  ∃ n s ps, ShunZi_try draws 1 g = Some (false, hand_of ps, n) ∧ (n < CHOOSE_COUNT)%nat ∧ new_cells g ps ∧
    straight_of s ps ∧ (s <= 10)%nat ∧ ¬ (∃ c, ps = neighbours c s).
Proof.
  intros Hg (k & Hk & Hch). pose proof (fresh_working g Hg) as Hw. unfold mixed_choice in Hch. destruct (first_run g) as [j|] eqn:E; [|done].
  destruct (ShunZi_values_first (haveUseCard g) draws (seq 0 11) 1 (fresh g) j) as (n & s & ps & w & Ev & Hn & Hps & Hs & H10 & Hmix); [done|done| |done|unfold CHOOSE_COUNT; lia|exists k; split; [lia|done]|].
  { apply Forall_forall. intros i Hi%elem_of_seq. lia. }
  exists n, s, ps. unfold ShunZi_try. rewrite Ev. cbn [mbind option_bind]. assert (length ps = 3%nat) as Hl by (by apply (f_equal length) in Hs; rewrite length_map, length_seq in Hs).
  destruct (working_hand g _ ps w ltac:(done) Hps Hl) as (-> & Hun & _). split_and!; try done. lia.
Qed.

(** While fewer than sixteen cards are given away there is a run. *)
Lemma some_run g : Book g → (length (haveUseCard g) < 16)%nat → is_Some (first_run g).
Proof.
  intros Hg Hu. pose proof (fresh_working g Hg) as Hw. destruct (some_flush_left _ Hu) as (c & j & Hc & Hj & Hf).
  assert (∀ k, (j <= k < j + 3)%nat → available (fresh g) k = true) as Hav.
  { intros k Hk. apply (available_spec (haveUseCard g)); [done|lia|]. unfold value_left. specialize (Hf k Hk).
    assert (c ∈ filter (λ c, card_at c k ∉ haveUseCard g) (seq 0 4)) as Hin by (apply list_elem_of_filter; split; [done|apply elem_of_seq; lia]).
    destruct (filter _ _); [by apply not_elem_of_nil in Hin|simpl; lia]. }
  destruct (find_some (starts_run (fresh g)) (seq 0 11) j) as (i & Hi & _); [apply elem_of_seq; lia| |by exists i].
  unfold starts_run. rewrite Hav by lia. pose proof (run_ge (available (fresh g)) j (13 - j) 3 ltac:(lia) Hav). by rewrite (proj2 (Nat.leb_le _ _)).
Qed.
