(* ===== verification/ZjhMakes.v ===== *)
(** Golden flower, hands made to order: while few cards are given away the generator makes
    what it is asked for, out of cards that are left; without a straight flush left the
    request for one writes in front of an array. *)
From stdpp Require Import base option numbers sorting sets list.
From Stdlib Require Import ZArith Lia.
From S2P Require Import Prelude HongHei ZjhLogic ZjhMade ZjhBook ZjhTypes ZjhTries ZjhFlushes ZjhMixed ZjhStraights.

#[local] Open Scope Z_scope.

(** ** The types of the hands that are found *)

Lemma point_of_inj v w : point_of v = point_of w → v ≠ w → ((v = 0 ∧ w = 13) ∨ (v = 13 ∧ w = 0))%nat.
Proof. unfold point_of. destruct (Nat.eqb_spec v 0), (Nat.eqb_spec w 0); lia. Qed.

Lemma hand_cards ps : Forall cell_ok ps → Forall card (hand_of ps) ∧ map GetCardPoint (hand_of ps) = map (λ p, point_of p.2) ps.
Proof.
  induction 1 as [|p ps Hp _ [IH1 IH2]]; [by split|]. cbn [hand_of map]. split; [constructor; [by apply card_of_fields|done]|].
  f_equal; [by apply card_point|done].
Qed.

Lemma one_color_cells p q r : cell_ok p → cell_ok q → cell_ok r → one_color (hand_of [p; q; r]) = true ↔ p.1 = q.1 ∧ p.1 = r.1.
Proof.
  intros Hp Hq Hr. unfold one_color, hand_of. cbn [map forallb]. change ([card_of p; card_of q; card_of r].[0]) with (card_of p).
  destruct (card_point p Hp) as [_ ->], (card_point q Hq) as [_ ->], (card_point r Hr) as [_ ->]. rewrite !andb_true_iff, !Z.eqb_eq. lia.
Qed.

Lemma type_apart p q r : cell_ok p → cell_ok q → cell_ok r → p.2 ≠ q.2 → p.2 ≠ r.2 → q.2 ≠ r.2 →
  fst (GetHandCardsType (hand_of [p; q; r])) =
    let same := bool_decide (p.1 = q.1 ∧ p.1 = r.1) in
    if straight (hand_of [p; q; r]) then if same then Ty123sc else Ty123 else if same then Tysc else Tysp.
Proof.
  intros Hp Hq Hr Hpq Hpr Hqr. destruct (hand_cards [p; q; r]) as [Hc Hm]; [by rewrite !Forall_cons|]. rewrite type_distinct; [|done|done|].
  - assert (one_color (hand_of [p; q; r]) = bool_decide (p.1 = q.1 ∧ p.1 = r.1)) as ->; [|done].
    apply eq_true_iff_eq. by rewrite one_color_cells, bool_decide_eq_true.
  - rewrite Hm. cbn [map]. destruct Hp as [_ Hp], Hq as [_ Hq], Hr as [_ Hr]. rewrite !NoDup_cons, !elem_of_cons, !elem_of_nil.
    assert (∀ v w, (v < 13)%nat → (w < 13)%nat → v ≠ w → point_of v ≠ point_of w) as Hne by (intros v w ?? Hvw E; apply point_of_inj in E; [lia|done]).
    split_and!; [intros [H|[H|[]]]|intros [H|[]]|by intros []|constructor]; revert H; by apply Hne.
Qed.

(** Three neighbours are a straight, whatever their colours. *)
Lemma straight_cells ps s : Forall cell_ok ps → straight_of s ps → (s <= 10)%nat → straight (hand_of ps) = true.
Proof.
  intros Hok Hs H10. pose proof (f_equal length Hs) as Hl. rewrite length_map, length_seq in Hl. destruct ps as [|[c0 v0] [|[c1 v1] [|[c2 v2] [|]]]]; try done.
  injection Hs as -> -> ->. assert (Forall cell_ok (neighbours 0 s)) as Hok' by (unfold neighbours, cell_ok; rewrite !Forall_cons; simpl; split_and!; done || lia).
  destruct (hand_cards _ Hok) as [Hc Hm], (hand_cards _ Hok') as [Hc' Hm']. cbn [hand_of map] in *.
  rewrite (straight_points _ _ _ (card_of (0%nat, s)) (card_of (0%nat, S s)) (card_of (0%nat, S (S s)))).
  - clear -H10. assert (forallb (λ s, straight (hand_of (neighbours 0 s))) (seq 0 11) = true) as H by (vm_compute; reflexivity).
    rewrite forallb_forall in H. apply (H s), in_seq. lia.
  - change (Forall card (hand_of [(c0, s); (c1, S s); (c2, S (S s))] ++ hand_of (neighbours 0 s))). by apply Forall_app.
  - etransitivity; [exact Hm|]. symmetry. exact Hm'.
Qed.

(** ** The loop *)

Lemma attempts_once try g h n : try 1%nat (g <| m_randCount := 0%nat |>) = Some (false, h, n) → Book g → unused g h →
  ∃ g', GetRand try g = Some ((n <? CHOOSE_COUNT)%nat, h, g') ∧ Book g' ∧ haveUseCard g' = haveUseCard g ++ h.
Proof.
  intros E Hg (Hnd & Hf & Hu). unfold GetRand. change CHOOSE_COUNT with (S 99) at 1. cbn [attempts]. change (m_randCount (g <| m_randCount := 0%nat |>)) with 0%nat.
  rewrite E. cbn [mbind option_bind]. set (g0 := g <| m_randCount := 0%nat |> <| m_randCount := n |>).
  unfold isHaveSameCard. assert (existsb (λ c, existsb (Z.eqb c) (haveUseCard g0)) h = false) as ->.
  { apply not_true_iff_false. intros (c & Hc%list_elem_of_In & (x & Hx%list_elem_of_In & ->%Z.eqb_eq)%existsb_exists)%existsb_exists. by apply (Hu x). }
  destruct (add_book g0 h Hg (conj Hnd (conj Hf Hu))) as (g' & -> & Hg' & Hu' & _). cbn [mbind option_bind andb]. by exists g'.
Qed.

Lemma or_else_first f f' g h g' : f g = Some (true, h, g') → or_else f f' g = Some (true, h, g').
Proof. intros E. unfold or_else. by rewrite E. Qed.

Lemma or_else_once try f g h n ty : try 1%nat (g <| m_randCount := 0%nat |>) = Some (false, h, n) → (n < CHOOSE_COUNT)%nat → Book g → unused g h →
  length h = 3%nat → fst (GetHandCardsType h) = ty →
  ∃ h g', GetRand try g = Some (true, h, g') ∧ or_else (GetRand try) f g = Some (true, h, g') ∧ length h = 3%nat ∧ unused g h ∧
    fst (GetHandCardsType h) = ty ∧ Book g' ∧ haveUseCard g' = haveUseCard g ++ h.
Proof.
  intros E Hn Hg Hu Hl Ht. destruct (attempts_once try g h n E Hg Hu) as (g' & Eg & Hg' & Hu'). rewrite (proj2 (Nat.ltb_lt _ _) Hn) in Eg.
  exists h, g'. by rewrite (or_else_first _ _ _ _ _ Eg).
Qed.

(** ** What each function makes *)

Section Makes.
Context (g : Gen) (draws : nat → Draw).
Hypothesis g_book : Book g.
Hypothesis few : (length (haveUseCard g) <= 15)%nat.
Hypothesis draws_ok : ∀ n, draw_ok (draws n).

Let g0 : Gen := g <| m_randCount := 0%nat |>.

Lemma BaoZi_makes : ∃ h, BaoZi_try (draws 1%nat) 1 g0 = Some (false, h, 1%nat) ∧ unused g h ∧ length h = 3%nat ∧ fst (GetHandCardsType h) = Ty30.
Proof.
  destruct (BaoZi_spec (draws 1%nat) 1 g0 g_book (draws_ok 1)) as (ps & v & E & [Hu Hok] & Hl & Hv); [simpl; lia|]. exists (hand_of ps).
  assert (length (hand_of ps) = 3%nat) as Hlh by (unfold hand_of; by rewrite length_map). destruct (hand_cards ps Hok) as [Hc _].
  split_and!; try done. apply (type_triple _ (point_of v)); [done|done|]. intros c (p & -> & Hp)%list_elem_of_fmap_1. rewrite Forall_forall in Hok.
  destruct (card_point p (Hok p Hp)) as [-> _]. by rewrite (Hv p Hp).
Qed.

Lemma ShunJin_makes : ∃ h, ShunJin_try (draws 1%nat) 1 g0 = Some (false, h, 1%nat) ∧ unused g h ∧ length h = 3%nat ∧ fst (GetHandCardsType h) = Ty123sc.
Proof.
  destruct (ShunJin_spec (draws 1%nat) 1 g0 g_book (draws_ok 1)) as (c & s & E & [Hu Hok] & Hc & Hs); [simpl; lia|]. exists (hand_of (neighbours c s)).
  split_and!; try done. pose proof (straight_cells (neighbours c s) s Hok eq_refl Hs) as Hst. unfold neighbours in *. rewrite !Forall_cons in Hok. destruct Hok as (H1 & H2 & H3 & _).
  rewrite type_apart, Hst; try done; cbn [fst snd]; lia || by rewrite bool_decide_true.
Qed.

Lemma JinHua_makes : ∃ h, JinHua_try (draws 1%nat) 1 g0 = Some (false, h, 1%nat) ∧ unused g h ∧ length h = 3%nat ∧ fst (GetHandCardsType h) = Tysc.
Proof.
  destruct (JinHua_spec (draws 1%nat) 1 g0 g_book (draws_ok 1)) as (p & q & r & E & [Hu Hok] & Hpq & Hqr & Hst); [unfold CHOOSE_COUNT; lia|simpl; lia|].
  exists (hand_of [p; q; r]). split_and!; try done. rewrite !Forall_cons in Hok. destruct Hok as (H1 & H2 & H3 & _).
  destruct Hu as [Hn _]. apply NoDup_fmap_1 in Hn. rewrite !NoDup_cons, !elem_of_cons in Hn. destruct Hn as (N1 & N2 & _).
  assert (∀ a b : nat * nat, a ≠ b → a.1 = b.1 → a.2 ≠ b.2) as Hne by (intros [??] [??]; simpl; congruence).
  rewrite type_apart, Hst; try done; [by rewrite bool_decide_true by (split; congruence)|apply Hne; [naive_solver|congruence]..].
Qed.

Lemma ShunZi_makes : (∃ k, (2 <= k < CHOOSE_COUNT)%nat ∧ mixed_choice g (draws k) = true) →
  ∃ h n, ShunZi_try draws 1 g0 = Some (false, h, n) ∧ (n < CHOOSE_COUNT)%nat ∧ unused g h ∧ length h = 3%nat ∧ fst (GetHandCardsType h) = Ty123.
Proof.
  clear few draws_ok. intros Hk. destruct (ShunZi_spec draws g0 g_book Hk) as (n & s & ps & E & Hn & [Hu Hok] & Hs & H10 & Hmix). exists (hand_of ps), n.
  pose proof (straight_cells ps s Hok Hs H10) as Hst. pose proof (f_equal length Hs) as Hl. rewrite length_map, length_seq in Hl.
  split_and!; try done; [unfold hand_of; by rewrite length_map|]. destruct ps as [|[c0 v0] [|[c1 v1] [|[c2 v2] [|]]]]; try done. injection Hs as -> -> ->.
  rewrite !Forall_cons in Hok. destruct Hok as (H1 & H2 & H3 & _). rewrite type_apart, Hst; try done; cbn [fst snd]; try lia.
  cbv zeta. rewrite bool_decide_false; [done|]. intros [-> ->]. apply Hmix. by exists c2.
Qed.

Lemma DuiZi_makes : ∃ h, DuiZi_try false 0 (draws 1%nat) 1 g0 = Some (false, h, 1%nat) ∧ unused g h ∧ length h = 3%nat ∧ fst (GetHandCardsType h) = Ty20.
Proof.
  destruct (DuiZi_spec 0 (draws 1%nat) 1 g0 g_book (draws_ok 1)) as (p & q & r & E & [Hu Hok] & Hpq & Hr); [by left|simpl; lia|].
  exists (hand_of [p; q; r]). split_and!; try done. destruct (hand_cards _ Hok) as [Hc Hm]. apply (type_pair _ (point_of p.2) (point_of r.2)); [done|done| |].
  - rewrite Hm. cbn [map]. by rewrite Hpq.
  - rewrite !Forall_cons in Hok. destruct Hok as ([_ Hp] & _ & [_ Hr13] & _). intros Eq. apply point_of_inj in Eq; [lia|]. congruence.
Qed.

Lemma SanPai_makes : ∃ h, SanPai_try (draws 1%nat) 1 g0 = Some (false, h, 1%nat) ∧ unused g h ∧ length h = 3%nat ∧ fst (GetHandCardsType h) = Tysp.
Proof.
  destruct (SanPai_spec (draws 1%nat) 1 g0 g_book (draws_ok 1)) as (p & q & r & E & [Hu Hok] & Hpq & Hpr & Hqr & Hst); [unfold CHOOSE_COUNT; lia|simpl; lia|].
  exists (hand_of [p; q; r]). split_and!; try done. rewrite !Forall_cons in Hok. destruct Hok as (H1 & H2 & H3 & _).
  rewrite type_apart, Hst; try done; [|apply Hpq|apply Hpr|apply Hqr]. cbv zeta. rewrite bool_decide_false; [done|]. intros [E1 _]. by destruct Hpq.
Qed.
End Makes.

(** ** The fuel *)

(** A try does not count [m_randCount] down. *)
Definition counting (try : nat → Gen → option Tried) : Prop := ∀ n g quit h n', try n g = Some (quit, h, n') → (n <= n')%nat.

Lemma attempts_fuel try f f' g : counting try → (CHOOSE_COUNT <= f + m_randCount g + 1)%nat → (CHOOSE_COUNT <= f' + m_randCount g + 1)%nat →
  attempts f try g = attempts f' try g.
Proof.
  intros Hc. revert f' g. induction f as [|f IH]; intros f' g Hf Hf'; destruct f' as [|f']; try done; cbn [attempts];
    destruct (try (S (m_randCount g)) g) as [[[quit h] n]|] eqn:E; try done; cbn [mbind option_bind]; destruct quit; try done;
    apply Hc in E; destruct (isHaveSameCard _ h) as [[same g']|] eqn:Es; try done; cbn [mbind option_bind];
    destruct (same && (n <? CHOOSE_COUNT)%nat) eqn:Eb; try done; apply andb_true_iff in Eb as [-> Hlt]; breflect; try lia.
  assert (m_randCount g' = n) as En.
  { unfold isHaveSameCard in Es. destruct (existsb _ h); [by injection Es as <-|]. destruct (addHaveChooseCard _ h); by cbn in Es. }
  apply IH; lia.
Qed.

Lemma again_counts draws more len j n w b n' w' : ShunZi_again draws more len j n w = Some (b, n', w') → (n < n')%nat.
Proof.
  revert n w. induction more as [|more IH]; intros n w; cbn [ShunZi_again]; destruct (ShunZi_once _ _ _ _) as [[[] x]|]; cbn; try done;
    try (intros [= _ <- _]; lia). intros H%IH. lia.
Qed.

Lemma tries_count draws : counting (λ n, BaoZi_try (draws n) n) ∧ counting (λ n, ShunJin_try (draws n) n) ∧ counting (λ n, JinHua_try (draws n) n) ∧
  counting (λ n, ShunZi_try draws n) ∧ (∀ b v, counting (λ n, DuiZi_try b v (draws n) n)) ∧ counting (λ n, SanPai_try (draws n) n).
Proof.
  split_and!; [| | | |intros b v|]; intros n g quit h n'.
  - unfold BaoZi_try. cbv zeta. destruct (find _ _); by intros [= _ _ <-].
  - by intros [= _ _ <-].
  - by intros [= _ _ <-].
  - unfold ShunZi_try. assert (∀ js n w n' w', ShunZi_values draws js n w = Some (n', w') → (n <= n')%nat) as Hv.
    { clear. induction js as [|j js IH]; intros n w n' w'; cbn [ShunZi_values]; [by intros [= <- _]|]. cbv zeta. destruct (_ && _); [|by apply IH].
      destruct (ShunZi_again _ _ _ _ _ _) as [[[b n2] w2]|] eqn:E; cbn [mbind option_bind]; [|done]. apply again_counts in E.
      destruct b; [intros [= <- _]; lia|]. intros H%IH. lia. }
    destruct (ShunZi_values _ _ _ _) as [[n2 w2]|] eqn:E; cbn; [|done]. intros [= _ _ <-]. by eapply Hv.
  - unfold DuiZi_try. cbv zeta. destruct (find _ _); by intros [= _ _ <-].
  - unfold SanPai_try. destruct (SanPai_two _ _ _ _). by intros [= _ _ <-].
Qed.

(** ** The claims *)

(** C28. While at most fifteen cards are given away (the hands of five players), the
    generator makes a hand of exactly the type that is asked for, of three cards that were
    not given away, and its books agree with the cards given away afterwards, whatever is
    drawn; only for a plain straight the numbers must not choose three cards of one colour
    98 times in a row. *)
Theorem MadeHandCards_makes draws draws' hand ty g : Book g → (length (haveUseCard g) <= 15)%nat → (∀ n, draw_ok (draws n)) →
  1 <= ty_code ty <= 6 → (ty = Ty123 → ∃ k, (2 <= k < CHOOSE_COUNT)%nat ∧ mixed_choice g (draws k) = true) →
  ∃ h g', MadeHandCards draws draws' hand ty g = Some (true, h, g') ∧ length h = 3%nat ∧ unused g h ∧ fst (GetHandCardsType h) = ty ∧
    Book g' ∧ haveUseCard g' = haveUseCard g ++ h.
Proof.
  intros Hg Hu Hd Hty Hmix. assert (1 < CHOOSE_COUNT)%nat as H1 by (unfold CHOOSE_COUNT; lia).
  assert (∀ try f h n, try 1%nat (g <| m_randCount := 0%nat |>) = Some (false, h, n) → (n < CHOOSE_COUNT)%nat → unused g h → length h = 3%nat → fst (GetHandCardsType h) = ty →
    (MadeHandCards draws draws' hand ty g = GetRand try g ∨ MadeHandCards draws draws' hand ty g = or_else (GetRand try) f g) →
    ∃ h g', MadeHandCards draws draws' hand ty g = Some (true, h, g') ∧ length h = 3%nat ∧ unused g h ∧ fst (GetHandCardsType h) = ty ∧
      Book g' ∧ haveUseCard g' = haveUseCard g ++ h) as Hmake.
  { intros try f h n E Hn Hun Hl Ht Hm. destruct (or_else_once try f g h n ty E Hn Hg Hun Hl Ht) as (h' & g' & E1 & E2 & Hr).
    exists h', g'. split; [|done]. destruct Hm as [-> | ->]; done. }
  destruct ty; try (simpl in Hty; lia).
  - destruct (SanPai_makes g draws Hg Hu Hd) as (h & E & Hun & Hl & Ht).
    exact (Hmake (λ n, SanPai_try (draws n) n) (λ _, None) h 1%nat E H1 Hun Hl Ht (or_introl eq_refl)).
  - destruct (DuiZi_makes g draws Hg Hu Hd) as (h & E & Hun & Hl & Ht).
    exact (Hmake (λ n, DuiZi_try false 0 (draws n) n) (λ _, None) h 1%nat E H1 Hun Hl Ht (or_introl eq_refl)).
  - destruct (ShunZi_makes g draws Hg (Hmix eq_refl)) as (h & n & E & Hn & Hun & Hl & Ht).
    exact (Hmake (λ n, ShunZi_try draws n) (GetRandDuiZi false 6 draws') h n E Hn Hun Hl Ht (or_intror eq_refl)).
  - destruct (JinHua_makes g draws Hg Hu Hd) as (h & E & Hun & Hl & Ht).
    exact (Hmake (λ n, JinHua_try (draws n) n) (GetRandShunZi draws') h 1%nat E H1 Hun Hl Ht (or_intror eq_refl)).
  - destruct (ShunJin_makes g draws Hg Hu Hd) as (h & E & Hun & Hl & Ht).
    exact (Hmake (λ n, ShunJin_try (draws n) n) (GetRandJinHua draws') h 1%nat E H1 Hun Hl Ht (or_intror eq_refl)).
  - destruct (BaoZi_makes g draws Hg Hu Hd) as (h & E & Hun & Hl & Ht).
    exact (Hmake (λ n, BaoZi_try (draws n) n) (GetRandShunJin draws') h 1%nat E H1 Hun Hl Ht (or_intror eq_refl)).
Qed.

(** When no colour has three neighbours left, the request for a straight flush does not
    fall back to a flush: whatever is drawn, the hand stays empty and giving away the card
    0 writes in front of [m_cardIndex]. *)
Theorem MadeHandCards_no_flush draws draws' hand g : Book g → (∀ n, draw_ok (draws n)) →
  (∀ c j, (c < 4)%nat → (j <= 10)%nat → ¬ flush_left (haveUseCard g) c j) →
  MadeHandCards draws draws' hand Ty123sc g = None.
Proof.
  intros Hg Hd Hno. unfold MadeHandCards, or_else, GetRandShunJin, GetRand. change CHOOSE_COUNT with (S 99) at 1. cbn [attempts].
  change (m_randCount (g <| m_randCount := 0%nat |>)) with 0%nat. unfold ShunJin_try. set (g0 := g <| m_randCount := 0%nat |>). assert (Book g0) as Hg0 by exact Hg.
  assert (∀ c, c ∈ d_colors (draws 1%nat) → (c < 4)%nat) as Hin by (intros c Hc; destruct (Hd 1%nat) as [Hp _]; rewrite Hp in Hc; apply elem_of_seq in Hc; lia).
  destruct (flush_runs_spec (haveUseCard g) (draws 1%nat) (d_colors (draws 1%nat)) (fresh g0)) as [(c & s & Hc & Hs & Hw)|[-> _]].
  - by apply (fresh_working g0).
  - apply Forall_forall. exact Hin.
  - exfalso. apply (Hno c s Hc Hs). destruct Hw as (_ & Hf & _). unfold neighbours in Hf. rewrite !Forall_cons in Hf. destruct Hf as ([_ H1] & [_ H2] & [_ H3] & _).
    intros k Hk. assert (k = s ∨ k = S s ∨ k = S (S s)) as [-> |[-> | ->]] by lia; done.
  - cbn [mbind option_bind]. change (cards (fresh g0)) with [0; 0; 0]. unfold isHaveSameCard. destruct Hg as (_ & Hf & _).
    assert (existsb (λ c, existsb (Z.eqb c) (haveUseCard (g0 <| m_randCount := 1%nat |>))) [0; 0; 0] = false) as ->; [|done].
    assert (existsb (Z.eqb 0) (haveUseCard (g0 <| m_randCount := 1%nat |>)) = false) as E.
    { apply not_true_iff_false. intros (x & Hx%list_elem_of_In & Ex%Z.eqb_eq)%existsb_exists. rewrite Forall_forall in Hf. destruct (card_cells x (Hf x Hx)) as (Ec & Hv & _ & Hcol).
      subst x. vm_compute in Hv. by destruct Hv. }
    cbn [existsb]. by rewrite E.
Qed.

(** ** Examples *)

Definition plain_draw : Draw := MkDraw (seq 0 4) (seq 0 13) (λ i, i).

Lemma plain_draw_ok n : draw_ok ((λ _ : nat, plain_draw) n).
Proof. done. Qed.

(** Three players hold their cards. *)
Definition dealt : Gen := default new_gen (addHaveChooseCard new_gen [1; 2; 3; 17; 20; 29; 33; 61; 45]).

Lemma dealt_book : Book dealt.
Proof.
  destruct (add_book new_gen [1; 2; 3; 17; 20; 29; 33; 61; 45]) as (g & E & Hg & _); [apply (clear_book new_gen)| |].
  - split_and!; [by_decide|by_decide|]. intros c _. by apply not_elem_of_nil.
  - unfold dealt. by rewrite E.
Qed.

Lemma MadeHandCards_makes_witness : ∃ h g', MadeHandCards (λ _, plain_draw) (λ _, plain_draw) no_cards Ty123 dealt = Some (true, h, g') ∧ length h = 3%nat ∧
  unused dealt h ∧ fst (GetHandCardsType h) = Ty123 ∧ Book g' ∧ haveUseCard g' = haveUseCard dealt ++ h.
Proof.
  apply (MadeHandCards_makes (λ _, plain_draw) (λ _, plain_draw) no_cards Ty123 dealt dealt_book).
  - vm_compute. lia.
  - exact plain_draw_ok.
  - simpl. lia.
  - intros _. exists 2%nat. split; [unfold CHOOSE_COUNT; lia|by vm_compute].
Defined.

(** The threes, sixes, nines and queens of all colours are given away. *)
Definition blocked : Gen := default new_gen (addHaveChooseCard new_gen (concat (map (λ c, map (card_at c) [2; 5; 8; 11]%nat) (seq 0 4)))).

Lemma blocked_book : Book blocked.
Proof.
  destruct (add_book new_gen (concat (map (λ c, map (card_at c) [2; 5; 8; 11]%nat) (seq 0 4)))) as (g & E & Hg & _); [apply (clear_book new_gen)| |].
  - split_and!; [by_decide|by_decide|]. intros c _. by apply not_elem_of_nil.
  - unfold blocked. by rewrite E.
Qed.

Lemma blocked_runs c j : (c < 4)%nat → (j <= 10)%nat → ¬ flush_left (haveUseCard blocked) c j.
Proof.
  intros Hc Hj Hf. assert (∃ k, (j <= k < j + 3)%nat ∧ k ∈ [2; 5; 8; 11]%nat) as (k & Hk & Hin).
  { exists (3 * (j / 3) + 2)%nat. pose proof (Nat.div_mod_eq j 3). pose proof (Nat.mod_upper_bound j 3). split; [lia|].
    assert (j / 3 <= 3)%nat by lia. destruct (j / 3)%nat as [|[|[|[|]]]]; [set_solver..|lia]. }
  apply (Hf k Hk). change (haveUseCard blocked) with (concat (map (λ c, map (card_at c) [2; 5; 8; 11]%nat) (seq 0 4))).
  apply elem_of_concat. exists (map (card_at c) [2; 5; 8; 11]%nat). split; [by apply list_elem_of_fmap_2|]. apply (list_elem_of_fmap_2 (λ c, map (card_at c) [2; 5; 8; 11]%nat)).
  apply elem_of_seq. lia.
Qed.

Lemma MadeHandCards_no_flush_witness : MadeHandCards (λ _, plain_draw) (λ _, plain_draw) no_cards Ty123sc blocked = None.
Proof. exact (MadeHandCards_no_flush _ _ no_cards blocked blocked_book plain_draw_ok blocked_runs). Defined.
