(* ===== verification/ZjhRound.v ===== *)
(** Golden flower, a round at the table ([src/Games/Game_zjh/GameProcess.cpp]): the players
    stake in turn, raise, give up, compare hands or stake all they have, until one is left
    or twenty turns are over.  [None] is a failed [assert] or a null pointer.  Messages to
    the clients, replays, logs and the clocks the clients show are left out, and so are the
    numbers in the robots' statistics, but not the search for the entry of a hand. *)
From stdpp Require Import base option numbers sorting sets list.
From Stdlib Require Import ZArith Lia.
From S2P Require Import Prelude GameDefine ZjhLogic.

#[local] Open Scope Z_scope.

(** ** Data *)

Definition GAME_PLAYER : nat := 5.
Definition MAX_ROUND : Z := 20.
Definition GAME_STATUS_INIT : Z := 0.
Definition GAME_STATUS_START : Z := 100.

Inductive Wait_Operate := OP_INVALID | OP_LOOKOVER | OP_GIVEUP | OP_FOLLOW | OP_ADD | OP_COMPARE | OP_ALLIN | OP_RUSH | OP_MAX.
#[global] Instance Wait_Operate_eq : EqDecision Wait_Operate.
Proof. solve_decision. Defined.

(** [playturn_t]: how a player went out, and in which turn. *)
Inductive Result := NORESULT | GIVEUP | CMPLOST | ALLINLOST.

Record betinfo_t := MkBet { jetton : Z; score : Z; opValue : Wait_Operate }.

(** A user item of the frame. *)
Record User := MkUser { userId : Z; android : bool; userScore : Z }.
#[global] Instance eta_User : Settable User := λ u, MkUser (userId u) (android u) (userScore u).

(** The copy of a player's data that the round keeps when he leaves. *)
Record userinfo_t := MkInfo { info_userId : Z; info_score : Z; isAndroidUser : bool }.

(** What a chair holds: the user item of the frame, the entry of [userinfos_], and the
    cells of the arrays that are indexed by chairs.  The last four are [userControlinfo_],
    [currentHaveWinScore_] and the answer of [isControlAgentId]. *)
Record Player := MkPlayer {
  item : option User;
  userinfo : option userinfo_t;
  handCards_ : list Z;
  handCardsType_ : HandTy;
  isLooked_ : bool;
  isGiveup_ : bool;
  isComparedLost_ : bool;
  noGiveUpTimeout_ : bool;
  tableScore_ : Z;
  betinfo_ : list betinfo_t;
  turn_ : Z;
  result_ : Result;
  comparedUser_ : list nat;
  curWin : Z;
  curWeight : Z;
  currentHaveWinScore_ : Z;
  controlAgent : bool
}.
#[global] Instance eta_Player : Settable Player := λ p,
  MkPlayer (item p) (userinfo p) (handCards_ p) (handCardsType_ p) (isLooked_ p) (isGiveup_ p) (isComparedLost_ p)
    (noGiveUpTimeout_ p) (tableScore_ p) (betinfo_ p) (turn_ p) (result_ p) (comparedUser_ p) (curWin p) (curWeight p)
    (currentHaveWinScore_ p) (controlAgent p).

Definition nobody : Player :=
  MkPlayer None None (replicate MaxCount 0) TyNil false false false true 0 [] 0 NORESULT [] 0 0 0 false.

(** The room, and what the configuration file sets. *)
Record Config := MkConfig {
  CellScore : Z;
  JettionList : list Z;
  revenueRatio : Z;
  systemReduceRatio : Z;
  special235_ : bool;
  ratioChangeGoodCard_ : Z;
  controlWinScoreRate_1 : Z;
  controllPoint : Z
}.

(** What is random or computed in floating point while an event is handled.  The first
    three are those of [AnalyseLastAndroidUser], by the passive chair: the draw from 1 to
    100, and the odds and the threshold it computes when the stock is low.  [d_refund] is
    what [OnUserAllIn] gives back of a stake. *)
Record Draw := MkDraw {
  d_rand : nat → Z;
  d_good : nat → Z;
  d_control : nat → Z;
  d_next : nat;
  d_refund : Z → Z → Z → Z
}.

(** What the end of a round announces of a player. *)
Record Row := MkRow { row_chair : nat; row_android : bool; row_table : Z; row_win : Z; row_revenue : Z; row_turn : Z; row_result : Result }.
Definition userWinScorePure (r : Row) : Z := row_win r - row_revenue r.

Record GameEnd := MkEnd { winuser : nat; rows : list Row; systemWinScore : Z }.

(** [writes] are the calls of [WriteSpecialUserScore] that change a balance, [ended] is the
    last [CMD_S_GameEnd]. *)
Record Table := MkTable {
  gameStatus : Z;
  players_ : list Player;
  bankerUser_ : option nat;
  currentUser_ : option nat;
  firstUser_ : option nat;
  currentWinUser_ : option nat;
  currentTurn_ : Z;
  isExceed_ : bool;
  jettonValue_ : Z;
  followScore_ : Z;
  tableAllScore_ : Z;
  madeMaxCards_ : list Z;
  madeMaxCardsType_ : HandTy;
  blastAndroidChangeCard : bool;
  StockScore : Z;
  StockLowLimit : Z;
  StockHighLimit : Z;
  timerIdWaiting_ : bool;
  writes : list (nat * Z);
  ended : option GameEnd
}.
#[global] Instance eta_Table : Settable Table := λ t,
  MkTable (gameStatus t) (players_ t) (bankerUser_ t) (currentUser_ t) (firstUser_ t) (currentWinUser_ t) (currentTurn_ t)
    (isExceed_ t) (jettonValue_ t) (followScore_ t) (tableAllScore_ t) (madeMaxCards_ t) (madeMaxCardsType_ t)
    (blastAndroidChangeCard t) (StockScore t) (StockLowLimit t) (StockHighLimit t) (timerIdWaiting_ t) (writes t) (ended t).

(** A failed [assert]. *)
Definition assert (b : bool) : option unit := if b then Some tt else None.

Definition chairs : list nat := seq 0 GAME_PLAYER.
Definition pl (t : Table) (i : nat) : Player := default nobody (players_ t !! i).
Definition upd (i : nat) (f : Player → Player) (t : Table) : Table := t <| players_ ::= alter f i |>.

(** The user item of a chair. *)
Definition IsExistUser (t : Table) (i : nat) : bool := match item (pl t i) with Some u => 0 <? userId u | None => false end.
Definition IsAndroidUser (t : Table) (i : nat) : bool := match item (pl t i) with Some u => android u | None => false end.
Definition ScoreByChairId (t : Table) (i : nat) : Z := match item (pl t i) with Some u => userScore u | None => 0 end.

(** An entry of [userinfos_]. *)
Definition listed (t : Table) (i : nat) : bool := match userinfo (pl t i) with Some _ => true | None => false end.

(** Gave up or lost a comparison. *)
Definition out (t : Table) (i : nat) : bool := isGiveup_ (pl t i) || isComparedLost_ (pl t i).
Definition live (t : Table) (i : nat) : bool := IsExistUser t i && negb (out t i).
Definition alive (t : Table) : list nat := filter (λ i, live t i = true) chairs.
Definition leftPlayerCount (t : Table) : nat := length (alive t).
Definition IsLastAndroidUser (t : Table) : nat := length (filter (λ i, IsAndroidUser t i = true) (alive t)).

Definition is_current (t : Table) (i : nat) : bool := bool_decide (currentUser_ t = Some i).
Definition is_bank (t : Table) (i : nat) : bool := bool_decide (bankerUser_ t = Some i).

(** ** Whose turn it is *)

(** The chairs round the table from [start] on. *)
Definition ring (start : nat) : list nat := map (λ i, (start + i) mod GAME_PLAYER)%nat (seq 0 GAME_PLAYER).

(** The second [GetNextUser]. *)
Definition GetNextUser_from (t : Table) (startUser : nat) (ignoreCurrentUser : bool) : option nat :=
  find (λ i, live t i && negb (ignoreCurrentUser && is_current t i)) (ring startUser).

(** The first [GetNextUser], for the steps [l]: the next user, whether the turns are used
    up, and the turn.  [addflag] says that the chair of the first user was passed. *)
Fixpoint GetNextUser_loop (t : Table) (cur first : nat) (addflag exceed : bool) (turn : Z) (l : list nat) : option (option nat * bool * Z) :=
  match l with
  | [] => Some (None, exceed, turn)
  | i :: l =>
      let nextUser := ((cur + i) mod GAME_PLAYER)%nat in
      if negb (listed t nextUser) then GetNextUser_loop t cur first addflag exceed turn l
      else if (nextUser =? first)%nat && addflag then Some (None, exceed, turn)
      else
        '(addflag, exceed, turn) ←
          (if (nextUser =? first)%nat then
             if turn + 1 <? MAX_ROUND then Some (true, exceed, turn + 1)
             else _ ← assert (turn + 1 =? MAX_ROUND); Some (true, true, turn)
           else Some (addflag, exceed, turn));
        if (nextUser =? cur)%nat || out t nextUser then GetNextUser_loop t cur first addflag exceed turn l
        else Some (Some nextUser, exceed, turn)
  end.

Definition GetNextUser (t : Table) : option (option nat * bool * Z) :=
  cur ← currentUser_ t;
  first ← firstUser_ t;
  GetNextUser_loop t cur first false false (currentTurn_ t) (seq 1 (GAME_PLAYER - 1)).

(** The operating user changes; his timer is not set yet. *)
Definition next_turn (t : Table) : option Table :=
  '(o, exceed, turn) ← GetNextUser t;
  nextUser ← o;
  _ ← assert (negb (is_current t nextUser) && negb (out t nextUser));
  Some (t <| currentUser_ := Some nextUser |> <| isExceed_ := exceed |> <| currentTurn_ := turn |> <| timerIdWaiting_ := false |>).

(** The bank passes on. *)
Definition move_bank (t : Table) : option Table :=
  bank ← bankerUser_ t;
  next ← GetNextUser_from t (bank + 1) false;
  Some (t <| bankerUser_ := Some next |>).

(** ** Stakes *)

(** The first chip above the one that is followed; -1: none. *)
Definition GetCurrentAddStart (cfg : Config) (t : Table) : option Z :=
  _ ← assert (0 <? followScore_ t);
  match list_find (λ j, followScore_ t = j) (JettionList cfg) with
  | None => Some (-1)
  | Some (i, _) =>
      let start := S i in
      if (start <? length (JettionList cfg))%nat then
        _ ← assert (followScore_ t <? (JettionList cfg).[start]);
        _ ← assert (forallb (λ j, (JettionList cfg).[j - 1] <? (JettionList cfg).[j]) (seq (S start) (length (JettionList cfg) - S start)));
        Some (Z.of_nat start)
      else Some (-1)
  end.

Definition selectAddIndex (cfg : Config) (start index : Z) (t : Table) : Table :=
  if (Z.of_nat (length (JettionList cfg)) <=? index) || (index <? start) then t
  else let j := (JettionList cfg).[Z.to_nat index] in t <| jettonValue_ := j |> <| followScore_ := j |>.

Definition CurrentFollowScore (t : Table) (i : nat) : Z := if isLooked_ (pl t i) then followScore_ t * 2 else followScore_ t.
Definition CurrentAddScore (t : Table) (i : nat) : Z := CurrentFollowScore t i.
Definition CurrentCompareScore (t : Table) (i : nat) : Z := CurrentFollowScore t i * 2.

Definition GetLastBetScore (t : Table) (i : nat) : option Z :=
  _ ← assert ((0 <=? currentTurn_ t) && (currentTurn_ t <? MAX_ROUND));
  Some (match betinfo_ (pl t i) !! Z.to_nat (currentTurn_ t) with Some b => score b | None => 0 end).

(** An entry of [betinfo_]; the stake itself. *)
Definition note_bet (i : nat) (s : Z) (op : Wait_Operate) (t : Table) : Table :=
  upd i (λ p, p <| betinfo_ ::= λ l, l ++ [MkBet (jettonValue_ t) s op] |>) t.
Definition stake (i : nat) (s : Z) (t : Table) : Table :=
  upd i (λ p, p <| tableScore_ ::= Z.add s |>) t <| tableAllScore_ ::= Z.add s |>.

(** [WriteSpecialUserScore] with [bWriteScore]. *)
Definition WriteUserScore (i : nat) (z : Z) (t : Table) : Table :=
  upd i (λ p, p <| item ::= fmap (λ u, u <| userScore ::= Z.add z |>) |>) t <| writes ::= λ l, l ++ [(i, z)] |>.

(** A real player who is out pays at once. *)
Definition write_lost (i : nat) (t : Table) : Table :=
  if IsAndroidUser t i then t else WriteUserScore i (- tableScore_ (pl t i)) t.

(** ** Comparing hands *)

(** The call sorts both hands. *)
Definition compare_hands (cfg : Config) (i j : nat) (t : Table) : option (Z * Table) :=
  let '(r, (a, b)) := CompareHandCards (handCards_ (pl t i)) (handCards_ (pl t j)) (special235_ cfg) in
  d ← r; Some (d, upd j (λ p, p <| handCards_ := b |>) (upd i (λ p, p <| handCards_ := a |>) t)).

Definition isNeedChangeCards (t : Table) : bool :=
  match madeMaxCardsType_ t with
  | Ty30 => false
  | Ty123sc => negb ((9 <? GetCardPoint (SortCards (madeMaxCards_ t) false false false).[0]) && (currentTurn_ t <? 8))
  | _ => true
  end.

(** The odds of an exchange, and the win from which on there may be one. *)
Definition change_odds (cfg : Config) (d : Draw) (t : Table) (winUser nextChairId : nat) : Z * Z :=
  let p := pl t winUser in
  let point := if controlAgent p then controllPoint cfg else 0 in
  let ratio := ratioChangeGoodCard_ cfg in
  if StockScore t <? StockLowLimit t then (d_good d nextChairId + point, d_control d nextChairId)
  else if StockHighLimit t <? StockScore t then
    (if 0 <=? curWin p then ratio + Z.quot (curWeight p) 2 else Z.quot ratio 2, currentHaveWinScore_ p)
  else
    ((if curWin p <? - controlWinScoreRate_1 cfg * CellScore cfg * 15 then Z.quot ratio 2
      else if curWin p <? - controlWinScoreRate_1 cfg * CellScore cfg * 6 then Z.quot ratio 2 + Z.quot (curWeight p) 2
      else if curWin p <? 0 then ratio
      else ratio + curWeight p) + point, currentHaveWinScore_ p).

(** The hand of chair [i] becomes the one that was made for this. *)
Definition take_made (i : nat) (t : Table) : Table :=
  upd i (λ p, p <| handCards_ := madeMaxCards_ t |> <| handCardsType_ := madeMaxCardsType_ t |>) t.

(** Before a comparison with the last robot: its hand may be exchanged. *)
Definition AnalyseLastAndroidUser (cfg : Config) (d : Draw) (chairId nextChairId : nat) (t : Table) : option Table :=
  if blastAndroidChangeCard t then Some t
  else
    let bfirstAndroid := IsAndroidUser t chairId in
    let bnextAndroid := IsAndroidUser t nextChairId in
    if (IsLastAndroidUser t =? 1)%nat && (bfirstAndroid || bnextAndroid) then
      '(r, t) ← compare_hands cfg chairId nextChairId t;
      let winUser := if 0 <? r then chairId else nextChairId in
      let bAndroidLost := if 0 <? r then bnextAndroid else bfirstAndroid in
      let '(ChangeGoodCard, randControlScore) := change_odds cfg d t winUser nextChairId in
      if bAndroidLost && (d_rand d nextChairId <? ChangeGoodCard) && (randControlScore <=? tableAllScore_ t - tableScore_ (pl t winUser)) then
        let t := t <| blastAndroidChangeCard := true |> in
        if bfirstAndroid && isNeedChangeCards t then Some (take_made chairId t)
        else if bnextAndroid then Some (take_made nextChairId t)
        else Some t
      else Some t
    else Some t.

(** Both have compared their hands. *)
Definition note_compared (i j : nat) (t : Table) : Table :=
  upd j (λ p, p <| comparedUser_ ::= λ l, l ++ [i] |>) (upd i (λ p, p <| comparedUser_ ::= λ l, l ++ [j] |>) t).

(** ** The robots' statistics

    Whether [GetWinRatioAndWeight] has an entry for a hand of type [ty]. *)
Definition straight_entries : list (Z * Z) :=
  [(A, Q); (K, J); (Q, T); (J, 9); (T, 8); (9, 7); (8, 6); (7, 5); (6, 4); (5, 3); (4, 2); (A, 2)].

Definition has_entry (ty : HandTy) (cards : list Z) : bool :=
  let max := GetCardValue (MaxCard cards) in
  let min := GetCardValue (MinCard cards) in
  match ty with
  | Ty30 | Ty123sc => true
  | Tysc | Tysp => existsb (Z.eqb max) [A; K; Q; J; T; 9; 8; 7; 6; 5]
  | Ty123 => existsb (λ '(x, y), (max =? x) && (min =? y)) straight_entries
  | Ty20 => existsb (λ v, HasCardValue cards v 2) [A; K; Q; J; T; 9; 8; 7; 6; 5; 4; 3; 2]
  | TyNil | Tysp235 => false
  end.

(** [MaxCard] and [MinCard] sort the hand; a hand without an entry fails an [assert]. *)
Definition GetWinRatioAndWeight (i : nat) (t : Table) : option Table :=
  let ty := handCardsType_ (pl t i) in
  _ ← assert (has_entry ty (handCards_ (pl t i)));
  Some (match ty with
        | Tysc | Ty123 | Tysp => upd i (λ p, p <| handCards_ ::= λ h, SortCards h false false false |>) t
        | _ => t
        end).

(** The entries of two players after a comparison, one of whom has lost. *)
Definition weigh_compared (chairId nextChairId : nat) (t : Table) : option Table :=
  t ← GetWinRatioAndWeight chairId t;
  _ ← assert (Bool.eqb (isComparedLost_ (pl t nextChairId)) (negb (isComparedLost_ (pl t chairId))));
  GetWinRatioAndWeight nextChairId t.

(** Player [i] is out. *)
Definition compare_lost (i : nat) (t : Table) : Table :=
  upd i (λ p, p <| isComparedLost_ := true |> <| turn_ := currentTurn_ t + 1 |>) t.

(** ** The end of a round *)

Definition ClearAllTimer (t : Table) : Table := t <| timerIdWaiting_ := false |>.

(** The bank is compared with the invalid chair, not set to it. *)
Definition InitGameData (cfg : Config) (t : Table) : Table :=
  t <| players_ ::= map (λ p, nobody <| item := item p |>) |> <| tableAllScore_ := 0 |> <| currentUser_ := None |> <| firstUser_ := None |>
    <| currentWinUser_ := None |> <| currentTurn_ := -1 |> <| isExceed_ := false |> <| jettonValue_ := CellScore cfg |>
    <| followScore_ := CellScore cfg |> <| madeMaxCards_ := replicate MaxCount 0 |>.

(** Everybody leaves. *)
Definition OnTimerGameEnd (cfg : Config) (t : Table) : Table :=
  let t := foldl (λ t i, if IsExistUser t i then upd i (λ p, p <| item := None |>) t else t) t chairs in
  InitGameData cfg (ClearAllTimer t) <| gameStatus := GAME_STATUS_INIT |>.

Definition win_score (t : Table) (i : nat) : Z := if out t i then - tableScore_ (pl t i) else tableAllScore_ t - tableScore_ (pl t i).

Definition conclude_row (cfg : Config) (t : Table) (win : nat) (i : nat) (u : userinfo_t) : option Row :=
  _ ← assert (tableScore_ (pl t i) <=? info_score u);
  let w := win_score t i in
  _ ← assert ((w <? 0) || (i =? win)%nat);
  Some (MkRow i (isAndroidUser u) (tableScore_ (pl t i)) w (if 0 <? w then CalculateRevenue (revenueRatio cfg) w else 0)
          (if w <? 0 then turn_ (pl t i) else currentTurn_ t + 1) (result_ (pl t i))).

(** The rows of the players of the round. *)
Fixpoint conclude_rows (cfg : Config) (t : Table) (win : nat) (l : list nat) : option (list Row) :=
  match l with
  | [] => Some []
  | i :: l =>
      match userinfo (pl t i) with
      | None => conclude_rows cfg t win l
      | Some u => r ← conclude_row cfg t win i u; rs ← conclude_rows cfg t win l; Some (r :: rs)
      end
  end.

(** What the robots win goes to the stock, less the reduction of the room. *)
Definition system_score (cfg : Config) (rs : list Row) : Z :=
  let s := sumZ (map row_win (filter (λ r, row_android r = true) rs)) in
  if 0 <? s then s - Z.quot (s * systemReduceRatio cfg) 1000 else s.

Definition OnEventGameConclude (cfg : Config) (t : Table) : option Table :=
  let t := ClearAllTimer t in
  _ ← assert (leftPlayerCount t =? 1)%nat;
  win ← last (alive t);
  let t := t <| currentUser_ := Some win |> <| currentWinUser_ := Some win |> in
  _ ← assert (is_bank t win);
  rs ← conclude_rows cfg t win chairs;
  _ ← assert (length (filter (λ r, (0 <= row_win r)%Z) rs) =? 1)%nat;
  _ ← assert (forallb (λ r, negb (row_chair r =? win)%nat || (0 <? userWinScorePure r)) rs);
  let sys := system_score cfg rs in
  let t := t <| StockScore ::= Z.add sys |> in
  let t := foldl (λ t r, if (row_chair r =? win)%nat && negb (row_android r) then WriteUserScore win (userWinScorePure r) t else t) t rs in
  Some (OnTimerGameEnd cfg (t <| ended := Some (MkEnd win rs sys) |>)).

(** ** The operations *)

(** After twenty turns the hands are compared in turn, [winUser] being the winner so far. *)
Fixpoint CompareCardForce_loop (cfg : Config) (d : Draw) (winUser : nat) (l : list nat) (t : Table) : option Table :=
  match l with
  | [] => Some t
  | nextUser :: l =>
      if (nextUser =? winUser)%nat || negb (live t nextUser) then CompareCardForce_loop cfg d winUser l t
      else
        _ ← assert (live t winUser);
        t ← AnalyseLastAndroidUser cfg d winUser nextUser (note_compared winUser nextUser t);
        '(r, t) ← compare_hands cfg nextUser winUser t;
        let '(lostUser, best) := if 0 <? r then (winUser, nextUser) else (nextUser, winUser) in
        let t := upd winUser (λ p, p <| result_ := CMPLOST |>) (compare_lost lostUser t) in
        t ← weigh_compared winUser nextUser (write_lost lostUser t);
        CompareCardForce_loop cfg d best l t
  end.

(** When no other player is left no hands are compared, wherever the loop starts. *)
Definition OnUserCompareCardForce (cfg : Config) (d : Draw) (t : Table) : option Table :=
  match currentUser_ t with
  | None => Some t
  | Some cur =>
      if negb (live t cur) then Some t
      else
        bank ← bankerUser_ t;
        let startUser := default 0%nat (GetNextUser_from t (bank + 1) true) in
        t ← CompareCardForce_loop cfg d cur (ring startUser) t;
        t ← (if isComparedLost_ (pl t bank) then move_bank t else Some t);
        OnEventGameConclude cfg t
  end.

(** The next user's timer is set, or the hands are compared. *)
Definition go_on (cfg : Config) (d : Draw) (t : Table) : option Table :=
  if isExceed_ t then OnUserCompareCardForce cfg d t else Some (t <| timerIdWaiting_ := true |>).

(** The first part of [OnUserAllIn]: hands are compared until the player loses. *)
Fixpoint OnUserAllIn_loop (cfg : Config) (d : Draw) (chairId : nat) (l : list nat) (t : Table) : option Table :=
  match l with
  | [] => Some t
  | next :: l =>
      if (next =? chairId)%nat || negb (live t next) then OnUserAllIn_loop cfg d chairId l t
      else
        t ← AnalyseLastAndroidUser cfg d chairId next (note_compared chairId next t);
        '(r, t) ← compare_hands cfg chairId next t;
        if r <? 0 then Some (upd chairId (λ p, p <| result_ := ALLINLOST |>) (compare_lost chairId t))
        else OnUserAllIn_loop cfg d chairId l t
  end.

(** Player [i] loses against the one who went all in: of a stake of the present turn he
    gets back what the other could not match. *)
Definition OnUserAllIn_beats (d : Draw) (left compare : Z) (i : nat) (t : Table) : option Table :=
  let t := upd i (λ p, p <| result_ := CMPLOST |>) (compare_lost i t) in
  x ← GetLastBetScore t i;
  let t := if 0 <? x then stake i (- d_refund d x left compare) t else t in
  Some (write_lost i t).

Fixpoint OnUserAllIn_beat (d : Draw) (left compare : Z) (chairId : nat) (l : list nat) (t : Table) : option Table :=
  match l with
  | [] => Some t
  | i :: l =>
      t ← (if (i =? chairId)%nat || negb (live t i) then Some t else OnUserAllIn_beats d left compare i t);
      OnUserAllIn_beat d left compare chairId l t
  end.

Definition OnUserAllIn (cfg : Config) (d : Draw) (chairId startChairId : nat) (t : Table) : option (bool * Table) :=
  let t := t <| timerIdWaiting_ := false |> in
  if negb (IsExistUser t chairId) || negb (IsExistUser t startChairId) then Some (false, t)
  else if out t chairId || out t startChairId then Some (false, t)
  else if negb (is_current t chairId) then Some (false, t)
  else if (chairId =? startChairId)%nat then Some (false, t)
  else
    let currentCompareScore := CurrentCompareScore t chairId in
    if currentCompareScore + tableScore_ (pl t chairId) <? ScoreByChairId t chairId then Some (false, t)
    else
      let currentLeftScore := ScoreByChairId t chairId - tableScore_ (pl t chairId) in
      if currentLeftScore <? 0 then Some (false, t)
      else
        t ← OnUserAllIn_loop cfg d chairId (ring startChairId) (note_bet chairId currentLeftScore OP_ALLIN t);
        let t := stake chairId currentLeftScore t in
        bank ← bankerUser_ t;
        t ← (if negb (isComparedLost_ (pl t chairId)) then
               t ← OnUserAllIn_beat d currentLeftScore currentCompareScore chairId chairs t;
               if (bank =? chairId)%nat then Some t
               else _ ← assert (isComparedLost_ (pl t bank)); Some (t <| bankerUser_ := Some chairId |>)
             else
               t ← (if (bank =? chairId)%nat then move_bank t else Some t);
               Some (write_lost chairId t));
        t ← (if (2 <=? leftPlayerCount t)%nat then
               t ← next_turn t;
               _ ← assert (isComparedLost_ (pl t chairId));
               go_on cfg d t
             else OnEventGameConclude cfg t);
        Some (true, t).

(** A player who cannot pay his bet goes all in. *)
Definition all_in_next (cfg : Config) (d : Draw) (chairId : nat) (t : Table) : option (bool * Table) :=
  match GetNextUser_from t (chairId + 1) true with
  | None => Some (false, t)
  | Some nextUser => OnUserAllIn cfg d chairId nextUser t
  end.

(** A stake that ends the turn of a player. *)
Definition bet (cfg : Config) (d : Draw) (chairId : nat) (s : Z) (op : Wait_Operate) (t : Table) : option (bool * Table) :=
  if ScoreByChairId t chairId <=? s + tableScore_ (pl t chairId) then all_in_next cfg d chairId t
  else
    t ← next_turn (note_bet chairId s op (stake chairId s t));
    t ← go_on cfg d t;
    Some (true, t).

(** An [index] above 0 raises to that chip, another one follows. *)
Definition OnUserAddScore (cfg : Config) (d : Draw) (chairId : nat) (index : Z) (t : Table) : option (bool * Table) :=
  let t := t <| timerIdWaiting_ := false |> in
  if negb (IsExistUser t chairId) then Some (false, t)
  else if out t chairId then Some (false, t)
  else if negb (is_current t chairId) then Some (false, t)
  else if index <=? 0 then bet cfg d chairId (CurrentFollowScore t chairId) OP_FOLLOW t
  else
    start ← GetCurrentAddStart cfg t;
    if (start <=? 0) || (index <? start) then
      if IsAndroidUser t chairId then bet cfg d chairId (CurrentFollowScore t chairId) OP_FOLLOW t else Some (false, t)
    else if Z.of_nat (length (JettionList cfg)) <=? index then Some (false, t)
    else
      let t := selectAddIndex cfg start index t in
      bet cfg d chairId (CurrentAddScore t chairId) OP_ADD t.

Definition OnUserCompareCard (cfg : Config) (d : Draw) (chairId nextChairId : nat) (t : Table) : option (bool * Table) :=
  let t := t <| timerIdWaiting_ := false |> in
  if negb (IsExistUser t chairId) || negb (IsExistUser t nextChairId) then Some (false, t)
  else if out t chairId || out t nextChairId then Some (false, t)
  else if negb (is_current t chairId) then Some (false, t)
  else if (chairId =? nextChairId)%nat then Some (false, t)
  else
    t ← AnalyseLastAndroidUser cfg d chairId nextChairId t;
    let currentCompareScore := CurrentCompareScore t chairId in
    if ScoreByChairId t chairId <=? currentCompareScore + tableScore_ (pl t chairId) then OnUserAllIn cfg d chairId nextChairId t
    else
      '(r, t) ← compare_hands cfg chairId nextChairId (note_bet chairId currentCompareScore OP_COMPARE t);
      let lostUser := if 0 <? r then nextChairId else chairId in
      let t := compare_lost lostUser (note_compared chairId nextChairId t) in
      let t := upd chairId (λ p, p <| result_ := CMPLOST |>) t in
      t ← (if is_bank t lostUser then move_bank t else Some t);
      t ← weigh_compared chairId nextChairId (write_lost lostUser (stake chairId currentCompareScore t));
      t ← (if (2 <=? leftPlayerCount t)%nat then t ← next_turn t; go_on cfg d t else OnEventGameConclude cfg t);
      Some (true, t).

(** The timer only stops when the user to move gives up. *)
Definition OnUserGiveUp (cfg : Config) (d : Draw) (chairId : nat) (timeout : bool) (t : Table) : option (bool * Table) :=
  match currentUser_ t with
  | None => Some (false, t)
  | Some cur =>
      if negb (IsExistUser t chairId) || negb (IsExistUser t cur) then Some (false, t)
      else if out t chairId || out t cur then Some (false, t)
      else
        let t := upd chairId (λ p, p <| isGiveup_ := true |> <| turn_ := currentTurn_ t + 1 |> <| result_ := GIVEUP |>) t in
        _ ← assert (negb (IsAndroidUser t chairId) || negb timeout && isLooked_ (pl t chairId));
        t ← (if is_bank t chairId then move_bank t else Some t);
        t ← GetWinRatioAndWeight chairId (write_lost chairId t);
        t ← (if (2 <=? leftPlayerCount t)%nat then
               if (chairId =? cur)%nat then t ← next_turn t; go_on cfg d t else Some t
             else
               nextUser ← GetNextUser_from t (chairId + 1) false;
               t ← GetWinRatioAndWeight nextUser t;
               OnEventGameConclude cfg t);
        Some (true, t)
  end.

Definition OnUserLookCard (chairId : nat) (t : Table) : bool * Table :=
  match currentUser_ t with
  | None => (false, t)
  | Some cur =>
      if negb (IsExistUser t chairId) || negb (IsExistUser t cur) then (false, t)
      else if out t chairId || out t cur then (false, t)
      else if isLooked_ (pl t chairId) then (false, t)
      else (true, upd chairId (λ p, p <| isLooked_ := true |>) t)
  end.

Definition OnUserTimeoutGiveUpSetting (chairId : nat) (giveup : bool) (t : Table) : bool * Table :=
  match currentUser_ t with
  | None => (false, t)
  | Some cur =>
      if negb (IsExistUser t chairId) || negb (IsExistUser t cur) then (false, t)
      else if out t chairId || out t cur then (false, t)
      else (true, upd chairId (λ p, p <| noGiveUpTimeout_ := giveup |>) t)
  end.

(** What is done for a user whose time is over. *)
Definition timeout_operate (t : Table) (cur : nat) : Wait_Operate :=
  let p := pl t cur in
  if IsAndroidUser t cur then OP_COMPARE
  else if isLooked_ p && noGiveUpTimeout_ p then
    if ty_code (handCardsType_ p) <? ty_code Ty123 then OP_GIVEUP
    else if currentTurn_ t =? 0 then
      if ScoreByChairId t cur <? CurrentFollowScore t cur + tableScore_ p then OP_GIVEUP else OP_FOLLOW
    else if ScoreByChairId t cur <? CurrentCompareScore t cur + tableScore_ p then OP_ALLIN else OP_COMPARE
  else OP_GIVEUP.

Definition onTimerWaitingOver (cfg : Config) (d : Draw) (t : Table) : option Table :=
  let t := t <| timerIdWaiting_ := false |> in
  match currentUser_ t with
  | None => Some t
  | Some cur =>
      if out t cur then Some t
      else if negb (IsExistUser t cur) then Some t
      else
        match timeout_operate t cur with
        | OP_GIVEUP => snd <$> OnUserGiveUp cfg d cur true t
        | OP_FOLLOW => snd <$> OnUserAddScore cfg d cur (-1) t
        | OP_COMPARE =>
            match GetNextUser_from t (d_next d) true with
            | None => Some t
            | Some nextUser => snd <$> OnUserCompareCard cfg d cur nextUser t
            end
        | OP_ALLIN =>
            match GetNextUser_from t (cur + 1) true with
            | None => Some t
            | Some nextUser => snd <$> OnUserAllIn cfg d cur nextUser t
            end
        | OP_INVALID => None
        | _ => Some t
        end
  end.

(** ** Messages *)

Inductive Msg :=
  | SUB_C_LOOK_CARD
  | SUB_C_GIVE_UP
  | SUB_C_ADD_SCORE (index : Z)
  | SUB_C_COMPARE_CARD (peeruser : nat)
  | SUB_C_ALL_IN
  | SUB_C_GIVEUP_TIMEOUT_OP (isgiveup : bool).

(** The tests at the head of the messages of the user to move. *)
Definition may_move (t : Table) (chairId : nat) : bool := IsExistUser t chairId && negb (out t chairId) && is_current t chairId.

Definition OnGameMessage (cfg : Config) (d : Draw) (chairId : nat) (m : Msg) (t : Table) : option (bool * Table) :=
  match m with
  | SUB_C_LOOK_CARD => Some (OnUserLookCard chairId t)
  | SUB_C_GIVE_UP => OnUserGiveUp cfg d chairId false t
  | SUB_C_ADD_SCORE index =>
      if negb (may_move t chairId) then Some (false, t)
      else
        let size := Z.of_nat (length (JettionList cfg)) in
        if index =? size - 1 then
          top ← last (JettionList cfg);
          if followScore_ t =? top then Some (false, t) else OnUserAddScore cfg d chairId index t
        else if (index =? 0) || (size <=? index) then Some (false, t)
        else OnUserAddScore cfg d chairId index t
  | SUB_C_COMPARE_CARD peeruser =>
      if negb (may_move t chairId) then Some (false, t)
      else if negb (IsExistUser t peeruser) then
        if (leftPlayerCount t =? 2)%nat then
          match GetNextUser_from t (chairId + 1) true with
          | None => Some (false, t)
          | Some nextUser => OnUserCompareCard cfg d chairId nextUser t
          end
        else Some (false, t)
      else if out t peeruser then
        if negb (IsAndroidUser t chairId) then Some (false, t)
        else
          match GetNextUser_from t (peeruser + 1) true with
          | None => Some (false, t)
          | Some nextUser => OnUserCompareCard cfg d chairId nextUser t
          end
      else OnUserCompareCard cfg d chairId peeruser t
  | SUB_C_ALL_IN => if negb (may_move t chairId) then Some (false, t) else all_in_next cfg d chairId t
  | SUB_C_GIVEUP_TIMEOUT_OP b => Some (OnUserTimeoutGiveUpSetting chairId b t)
  end.

(** ** Users who leave and return *)

Definition GAME_STATUS_READY : Z := 1.
Definition GAME_STATUS_END : Z := 200.

(** [SetUserStatus(sFree)] has freed the chair. *)
Definition ClearTableUser (i : nat) (t : Table) : Table := upd i (λ p, p <| item := None |>) t.

Definition GetPlayerCount_real (t : Table) : nat := length (filter (λ i, (IsExistUser t i && negb (IsAndroidUser t i)) = true) chairs).

Definition CanLeftTable (t : Table) (chairId : nat) : bool :=
  (gameStatus t <? GAME_STATUS_START) || (gameStatus t =? GAME_STATUS_END) || out t chairId.

Definition OnUserLeft (chairId : nat) (t : Table) : bool * Table :=
  let ret := (gameStatus t =? GAME_STATUS_READY) || out t chairId in
  let t := if ret then ClearTableUser chairId t else t in
  let t :=
    if (gameStatus t =? GAME_STATUS_READY) && (GetPlayerCount_real t =? 0)%nat then
      let t := foldl (λ t i, if IsExistUser t i then upd i (λ p, p <| currentHaveWinScore_ := 0 |>) (ClearTableUser i t) else t) t chairs in
      ClearAllTimer t <| gameStatus := GAME_STATUS_INIT |>
    else t in
  (ret, if ret then upd chairId (λ p, p <| currentHaveWinScore_ := 0 |>) t else t).

(** [CanJoinTable] for a user of the table who reconnects while a round is played. *)
Definition CanJoinTable_playing (chairId : nat) (t : Table) : bool * Table :=
  if out t chairId then (false, ClearTableUser chairId t) else (true, t).

(** ** The start of a round *)

(** The hands that were dealt and exchanged, the one that is kept for the last robot, the
    chair drawn for the bank, the stock, and the control data of the players. *)
Record Deal := MkDeal {
  g_bank : nat;
  g_hands : nat → list Z;
  g_made : list Z;
  g_stock : Z * Z * Z;
  g_curWin : nat → Z;
  g_curWeight : nat → Z;
  g_have : nat → Z;
  g_agent : nat → bool
}.

Definition copy_info (u : User) : userinfo_t := MkInfo (userId u) (userScore u) (android u).

(** What a round gives a player: his hand, the copy of his data and the first stake. *)
Definition enter_round (cfg : Config) (g : Deal) (t : Table) (i : nat) : Table :=
  if IsExistUser t i then
    let '(ty, hand) := GetHandCardsType (g_hands g i) in
    stake i (CellScore cfg) (upd i (λ p,
      p <| handCards_ := hand |> <| handCardsType_ := ty |> <| userinfo := copy_info <$> item p |> <| curWin := g_curWin g i |>
        <| curWeight := g_curWeight g i |> <| currentHaveWinScore_ := g_have g i |> <| controlAgent := g_agent g i |>) t)
  else t.

(** From [InitGameData] in [GameTimerReadyOver] to the end of [OnGameStart]. *)
Definition OnGameStart (cfg : Config) (g : Deal) (t : Table) : option Table :=
  let '(stock, low, high) := g_stock g in
  let t := ClearAllTimer (InitGameData cfg t <| gameStatus := GAME_STATUS_START |> <| blastAndroidChangeCard := false |>
    <| StockScore := stock |> <| StockLowLimit := low |> <| StockHighLimit := high |>
    <| madeMaxCards_ := g_made g |> <| madeMaxCardsType_ := fst (GetHandCardsType (g_made g)) |> <| writes := [] |> <| ended := None |>) in
  bank ← find (IsExistUser t) (ring (default (g_bank g) (bankerUser_ t)));
  cur ← find (λ i, IsExistUser t i && negb (i =? bank)%nat) (ring (bank + 1));
  _ ← assert (currentTurn_ t + 1 =? 0);
  let t := t <| bankerUser_ := Some bank |> <| currentUser_ := Some cur |> <| firstUser_ := Some cur |> <| currentTurn_ := currentTurn_ t + 1 |> in
  Some (foldl (enter_round cfg g) t chairs <| timerIdWaiting_ := true |>).

(** ** All events of a round *)

Inductive Event :=
  | EMessage (chair : nat) (m : Msg)
  | ETimer
  | ELeave (chair : nat)
  | EReturn (chair : nat).

Definition exec (cfg : Config) (d : Draw) (e : Event) (t : Table) : option Table :=
  match e with
  | EMessage chair m => if IsExistUser t chair then snd <$> OnGameMessage cfg d chair m t else Some t
  | ETimer => if timerIdWaiting_ t then onTimerWaitingOver cfg d t else Some t
  | ELeave chair => if IsExistUser t chair && CanLeftTable t chair then Some (snd (OnUserLeft chair t)) else Some t
  | EReturn chair => if IsExistUser t chair && (GAME_STATUS_START <=? gameStatus t) then Some (snd (CanJoinTable_playing chair t)) else Some t
  end.

Fixpoint run (cfg : Config) (l : list (Draw * Event)) (t : Table) : option Table :=
  match l with
  | [] => Some t
  | (d, e) :: l => t ← exec cfg d e t; run cfg l t
  end.
