(* ===== verification/ZjhEntry.v ===== *)
(** Golden flower, the entries of the robots' statistics: every hand of three cards of the
    pack has one, under the type the comparison gives it. *)
From stdpp Require Import base option numbers sorting sets list.
From Stdlib Require Import ZArith Lia.
From S2P Require Import Prelude HongHei ZjhLogic ZjhCompare ZjhRound.

#[local] Open Scope Z_scope.

(** ** The order of the cards *)

Lemma hand_perm a a' : a' ≡ₚ a → hand a → hand a'.
Proof. intros Hp (L & F & N). split; [by rewrite Hp|split; by rewrite Hp]. Qed.

Lemma sort_perm h h' : hand h → h' ≡ₚ h → SortCards h' false false false = SortCards h false false false.
Proof.
  intros (_ & F & _) Hp. rewrite Forall_forall in F. apply sort_unique; [by left|by left| |done].
  intros c d Hc Hd. rewrite Hp in Hc, Hd. apply card_by_point; by apply F.
Qed.

Lemma type_perm h h' : hand h → h' ≡ₚ h → GetHandCardsType h' = GetHandCardsType h.
Proof. intros Hh Hp. unfold GetHandCardsType, GetHandCardsType_private. by rewrite (sort_perm h h' Hh Hp). Qed.

(** The comparison sorts both hands. *)
Lemma private_perm h : snd (GetHandCardsType_private h) ≡ₚ h.
Proof. destruct (GetHandCardsType_private h) as [ty c] eqn:E. by destruct (private_spec h ty c E) as (_ & ? & _). Qed.

Lemma CompareHandCards_hands a b sp : snd (CompareHandCards a b sp) = (snd (GetHandCardsType_private a), snd (GetHandCardsType_private b)).
Proof. unfold CompareHandCards. by destruct (GetHandCardsType_private a), (GetHandCardsType_private b). Qed.

(** ** Every hand has an entry *)

(** A pair is found whatever the order of the cards. *)
Lemma pair_found h v x y z : h ≡ₚ [x; y; z] → v = GetCardValue y → GetCardValue x = v ∨ GetCardValue z = v → HasCardValue h v 2 = true.
Proof.
  intros Hp Hv Hxz. unfold HasCardValue. apply andb_true_iff. split; [done|]. apply Nat.leb_le.
  rewrite take_ge by (by rewrite Hp). rewrite Hp, !filter_cons. change (filter (λ c, v = GetCardValue c) []) with (@nil Z).
  rewrite (decide_True (P := v = GetCardValue y)) by done.
  destruct Hxz as [Hx|Hz]; [rewrite (decide_True (P := v = GetCardValue x)) by done; destruct (decide (v = GetCardValue z))|
    rewrite (decide_True (P := v = GetCardValue z)) by done; destruct (decide (v = GetCardValue x))]; simpl; lia.
Qed.

Lemma value_cases (v : Z) : 1 <= v <= 13 → v ∈ [A; K; Q; J; T; 9; 8; 7; 6; 5; 4; 3; 2].
Proof. intros H. rewrite !elem_of_cons. unfold A, K, Q, J, T. lia. Qed.

Lemma hand_entry h : hand h → has_entry (fst (GetHandCardsType h)) h = true.
Proof.
  intros (Hl & Hf & _). pose proof (point_sorted h _ Hl eq_refl) as Hord. pose proof (point_sort_perm h) as Hp.
  unfold has_entry, MaxCard, MinCard, GetHandCardsType, GetHandCardsType_private.
  set (s := SortCards h false false false) in *. pose proof (Permutation_length Hp) as Hls. rewrite Hl in Hls.
  assert (Forall card s) as Hs by (by rewrite Hp). clearbody s. destruct s as [|a [|b [|c [|]]]]; try done.
  rewrite !Forall_cons in Hs. destruct Hs as (Ha & Hb & Hc & _).
  change ([a; b; c].[0]) with a in *. change ([a; b; c].[1]) with b in *. change ([a; b; c].[2]) with c in *.
  destruct (card_cells a Ha) as (_ & Va & Pa & _), (card_cells b Hb) as (_ & Vb & Pb & _), (card_cells c Hc) as (_ & Vc & Pc & _).
  assert (∀ x, GetCardValue x = GetCardValue b → x = a ∨ x = c → existsb (λ v, HasCardValue h v 2) [A; K; Q; J; T; 9; 8; 7; 6; 5; 4; 3; 2] = true) as Hpair.
  { intros x Hx Hac. apply existsb_exists. exists (GetCardValue b). split; [by apply list_elem_of_In, value_cases|].
    apply (pair_found h _ a b c); [done|done|]. destruct Hac as [<-|<-]; auto. }
  assert (∀ x y, 1 <= GetCardValue x <= 13 → 1 <= GetCardValue y <= 13 → GetCardPoint x = (if GetCardValue x =? 1 then 14 else GetCardValue x) →
    GetCardPoint y = (if GetCardValue y =? 1 then 14 else GetCardValue y) → GetCardPoint x = GetCardPoint y → GetCardValue x = GetCardValue y) as Hpv.
  { intros x y Hx Hy -> ->. bsplit; lia. }
  destruct (Z.eqb_spec (GetCardPoint a) (GetCardPoint b)) as [E1|E1].
  { destruct (Z.eqb_spec (GetCardPoint b) (GetCardPoint c)) as [E2|E2]; cbn; [done|]. apply (Hpair a); [by apply Hpv|by left]. }
  destruct (Z.eqb_spec (GetCardPoint b) (GetCardPoint c)) as [E2|E2]; [cbn; apply (Hpair c); [symmetry; by apply Hpv|by right]|].
  destruct ((GetCardPoint b =? GetCardPoint c + 1) && ((GetCardPoint a =? GetCardPoint b + 1) || (GetCardPoint a =? GetCardPoint c + 12))) eqn:E3.
  - assert (existsb (λ '(x, y), (GetCardValue a =? x) && (GetCardValue c =? y)) straight_entries = true) as Hst.
    { apply andb_true_iff in E3 as [E3%Z.eqb_eq E4]. rewrite orb_true_iff, !Z.eqb_eq in E4. clear Hpair Hpv.
      set (va := GetCardValue a) in *. set (vc := GetCardValue c) in *. set (vb := GetCardValue b) in *. clearbody va vb vc.
      pose proof (value_cases va Va) as Hin. rewrite !elem_of_cons, elem_of_nil in Hin. unfold A, K, Q, J, T in Hin.
      assert (vc = va - 2 ∨ (va = 1 ∧ (vc = 12 ∨ vc = 2))) as Hvc by (revert Pa Pb Pc; bsplit; lia).
      assert (3 < va ∨ va = 1) as Hva by (revert Pa Pb Pc; bsplit; lia).
      destruct Hvc as [->|[-> [-> | ->]]]; [|reflexivity..]. repeat destruct Hin as [Hin|Hin]; try (subst va; reflexivity || lia); done. }
    destruct ((GetCardColor a =? GetCardColor b) && _); cbv beta iota; (rewrite decide_False by done); [done|exact Hst].
  - assert (existsb (Z.eqb (GetCardValue a)) [A; K; Q; J; T; 9; 8; 7; 6; 5] = true) as Hhi.
    { assert (GetCardValue a = 1 ∨ 5 <= GetCardValue a) as Hva.
      { apply andb_false_iff in E3. rewrite orb_false_iff, !Z.eqb_neq in E3. revert Pa Pb Pc. bsplit; lia. }
      apply existsb_exists. exists (GetCardValue a). split; [|apply Z.eqb_refl]. apply list_elem_of_In. rewrite !elem_of_cons. unfold A, K, Q, J, T. lia. }
    destruct ((GetCardColor a =? GetCardColor b) && _); cbv beta iota; [rewrite decide_False by done; exact Hhi|].
    destruct ((GetCardPoint a =? 5) && _ && _); cbv beta iota; [rewrite decide_True by done|rewrite decide_False by done]; exact Hhi.
Qed.
