(* ===== verification/ZjhRoundInv.v ===== *)
(** Golden flower, the books of a round: what the stakes, the copies of the players' data
    and the written balances have to do with each other, and that the operations below
    the handlers keep it. *)
From stdpp Require Import base option numbers sorting sets list.
From Stdlib Require Import ZArith Lia.
From S2P Require Import Prelude GameDefine HongHei ZjhLogic ZjhRound ZjhEntry.

#[local] Open Scope Z_scope.

(** ** Chairs *)

Lemma elem_chairs i : i ∈ chairs ↔ (i < GAME_PLAYER)%nat.
Proof. unfold chairs. rewrite elem_of_seq. lia. Qed.

Lemma chairs_NoDup : NoDup chairs.
Proof. apply NoDup_seq. Qed.

Lemma elem_ring s i : i ∈ ring s ↔ (i < GAME_PLAYER)%nat.
Proof.
  unfold ring. rewrite list_elem_of_In, in_map_iff. split.
  - intros (k & <- & _). apply Nat.mod_upper_bound. done.
  - intros Hi. exists ((i + (GAME_PLAYER - s mod GAME_PLAYER)) mod GAME_PLAYER)%nat. unfold GAME_PLAYER in *.
    pose proof (Nat.mod_upper_bound s 5 ltac:(done)). split; [|apply in_seq; pose proof (Nat.mod_upper_bound (i + (5 - s mod 5)) 5 ltac:(done)); lia].
    rewrite Nat.Div0.add_mod_idemp_r. replace (s + (i + (5 - s mod 5)))%nat with (i + (s / 5 + 1) * 5)%nat by (pose proof (Nat.div_mod_eq s 5); lia).
    rewrite Nat.Div0.mod_add. by apply Nat.mod_small.
Qed.

Lemma pl_upd i f t j : (i < length (players_ t))%nat → pl (upd i f t) j = if decide (i = j) then f (pl t j) else pl t j.
Proof.
  intros Hi. unfold pl. change (players_ (upd i f t)) with (alter f i (players_ t)). case_decide as H.
  - subst j. rewrite list_lookup_alter_eq. destruct (lookup_lt_is_Some_2 _ _ Hi) as [p ->]. done.
  - by rewrite list_lookup_alter_ne.
Qed.

Lemma upd_length i f t : length (players_ (upd i f t)) = length (players_ t).
Proof. apply length_alter. Qed.

Lemma pl_out t j : (length (players_ t) <= j)%nat → pl t j = nobody.
Proof. intros H. unfold pl. by rewrite (lookup_ge_None_2 _ _ H). Qed.

Lemma upd_comm i j f g t : (∀ p, f (g p) = g (f p)) → upd i f (upd j g t) = upd j g (upd i f t).
Proof.
  intros H. assert (alter f i (alter g j (players_ t)) = alter g j (alter f i (players_ t))) as E.
  { destruct (decide (i = j)) as [<-|Hij]; [|by apply list_alter_alter_ne]. rewrite !list_alter_alter_eq. apply list_alter_ext; [|done]. intros p _. apply H. }
  destruct t. unfold upd, set_field. cbn in *. by rewrite E.
Qed.

Lemma sum_upd (h : Player → Z) i f t : (i < length (players_ t))%nat →
  sumZ (map h (players_ (upd i f t))) = sumZ (map h (players_ t)) - h (pl t i) + h (f (pl t i)).
Proof.
  change (players_ (upd i f t)) with (alter f i (players_ t)). unfold pl. generalize (players_ t) as l. clear t. intros l. revert i.
  induction l as [|p l IH]; intros [|i] Hi; [simpl in *; lia..| |].
  - unfold sumZ. simpl. lia.
  - assert (i < length l)%nat as Hl by (simpl in Hi; lia). specialize (IH i Hl). change (alter f (S i) (p :: l)) with (p :: alter f i l).
    change ((p :: l) !! S i) with (l !! i). cbn [map]. unfold sumZ in *. cbn [foldr]. lia.
Qed.

(** ** What the cards do not change

    Three cards of the pack, under their type. *)
Definition good_hand (ty : HandTy) (cards : list Z) : Prop := hand cards ∧ ty = fst (GetHandCardsType cards).
#[global] Instance good_hand_dec ty cards : Decision (good_hand ty cards).
Proof. unfold good_hand, hand. apply _. Defined.
Definition good (p : Player) : Prop := good_hand (handCardsType_ p) (handCards_ p).

Lemma good_hand_perm ty h h' : h' ≡ₚ h → good_hand ty h → good_hand ty h'.
Proof. intros Hp [Hh ->]. split; [by apply (hand_perm h)|]. by rewrite (type_perm h h' Hh Hp). Qed.

(** [core] forgets which cards the players hold, but not whether they are a hand under its
    type, the notes about comparisons and how players went out. *)
Definition strip (p : Player) : Player :=
  let ok := bool_decide (good_hand (handCardsType_ p) (handCards_ p)) in
  p <| handCards_ := if ok then [1; 2; 3] else replicate MaxCount 0 |> <| handCardsType_ := if ok then Ty123sc else TyNil |>
    <| turn_ := 0 |> <| result_ := NORESULT |> <| comparedUser_ := [] |>.
Lemma good_strip p : good (strip p) ↔ good p.
Proof.
  unfold good, strip. change (handCardsType_ (_ <| comparedUser_ := [] |>)) with (if bool_decide (good_hand (handCardsType_ p) (handCards_ p)) then Ty123sc else TyNil).
  change (handCards_ (_ <| comparedUser_ := [] |>)) with (if bool_decide (good_hand (handCardsType_ p) (handCards_ p)) then [1; 2; 3] else replicate MaxCount 0).
  case_bool_decide as H; [|split; [|done]; intros Hz; exfalso; revert Hz; apply (bool_decide_unpack _); vm_compute; exact I]. split; [done|]. intros _. apply (bool_decide_unpack _). vm_compute. exact I.
Qed.

Lemma strip_hand p c : c ≡ₚ handCards_ p → strip (p <| handCards_ := c |>) = strip p.
Proof.
  intros Hp. unfold strip. change (handCardsType_ (p <| handCards_ := c |>)) with (handCardsType_ p). change (handCards_ (p <| handCards_ := c |>)) with c.
  assert (bool_decide (good_hand (handCardsType_ p) c) = bool_decide (good_hand (handCardsType_ p) (handCards_ p))) as ->; [|done].
  apply bool_decide_ext. split; apply good_hand_perm; by rewrite Hp.
Qed.

Lemma strip_given p c ty : good p → good_hand ty c → strip (p <| handCards_ := c |> <| handCardsType_ := ty |>) = strip p.
Proof.
  intros Hg Hc. unfold strip. change (handCardsType_ (p <| handCards_ := c |> <| handCardsType_ := ty |>)) with ty.
  change (handCards_ (p <| handCards_ := c |> <| handCardsType_ := ty |>)) with c. rewrite !bool_decide_true by done. reflexivity.
Qed.

Definition core (t : Table) : Table := t <| players_ ::= map strip |> <| blastAndroidChangeCard := false |>.

Lemma pl_core t i : pl (core t) i = strip (pl t i).
Proof. unfold pl. change (players_ (core t)) with (strip <$> players_ t). rewrite list_lookup_fmap. destruct (players_ t !! i); [done|]. vm_compute. reflexivity. Qed.

Lemma core_length t : length (players_ (core t)) = length (players_ t).
Proof. apply length_map. Qed.

Lemma alter_out {A} (f : A → A) i l : (length l <= i)%nat → alter f i l = l.
Proof. revert i. induction l as [|x l IH]; intros [|i] H; simpl in *; [done..|lia|]. f_equal/=. apply IH. lia. Qed.

Lemma map_alter {A B} (s : A → B) f g i l : (∀ p, s (f p) = g (s p)) → map s (alter f i l) = alter g i (map s l).
Proof. intros H. revert i. induction l as [|p l IH]; intros [|i]; [done..| |]; f_equal/=; [apply H|apply IH]. Qed.

Lemma core_upd i f t : (∀ p, strip (f p) = f (strip p)) → core (upd i f t) = upd i f (core t).
Proof.
  intros H. pose proof (map_alter strip f f i (players_ t) H) as E. destruct t. unfold core, upd, set_field. cbn in *. by rewrite E.
Qed.

Lemma core_same_at i f t : strip (f (pl t i)) = strip (pl t i) → core (upd i f t) = core t.
Proof.
  intros H. assert (map strip (alter f i (players_ t)) = map strip (players_ t)) as E.
  { revert H. unfold pl. generalize (players_ t) as l. clear t. intros l. revert i. induction l as [|p l IH]; intros [|i] H; [done..|by f_equal/=|].
    f_equal/=. by apply IH. }
  destruct t. unfold core, upd, set_field. cbn in *. by rewrite E.
Qed.

Lemma core_same i f t : (∀ p, strip (f p) = strip p) → core (upd i f t) = core t.
Proof. intros H. apply core_same_at, H. Qed.

(** Player [i] is out; he is out and has paid. *)
Definition knock (i : nat) (t : Table) : Table := upd i (λ p, p <| isComparedLost_ := true |>) t.
Definition knocked (i : nat) (t : Table) : Table := write_lost i (knock i t).

Lemma same_pl {A} (f : Player → A) t t' i : (∀ p, f (strip p) = f p) → core t = core t' → f (pl t i) = f (pl t' i).
Proof. intros H E. by rewrite <- (H (pl t i)), <- (H (pl t' i)), <- !pl_core, E. Qed.

Lemma same_table {A} (f : Table → A) t t' : (∀ t, f (core t) = f t) → core t = core t' → f t = f t'.
Proof. intros H E. by rewrite <- (H t), <- (H t'), E. Qed.

Lemma live_core t i : live (core t) i = live t i.
Proof. unfold live, IsExistUser, out. by rewrite pl_core. Qed.

Lemma alive_core t : alive (core t) = alive t.
Proof. apply list_filter_iff. intros i. by rewrite live_core. Qed.

Lemma knock_core t i : core (knock i t) = knock i (core t).
Proof. by apply core_upd. Qed.

Lemma write_lost_core t i : core (write_lost i t) = write_lost i (core t).
Proof.
  unfold write_lost, IsAndroidUser. rewrite pl_core. change (item (strip (pl t i))) with (item (pl t i)). destruct (match item _ with Some _ => _ | None => _ end); [done|].
  change (tableScore_ (strip (pl t i))) with (tableScore_ (pl t i)). unfold WriteUserScore.
  change (core (upd i _ t <| writes ::= λ l, l ++ [(i, - tableScore_ (pl t i))] |>)) with (core (upd i (λ p, p <| item ::= fmap (λ u, u <| userScore ::= Z.add (- tableScore_ (pl t i)) |>) |>) t) <| writes ::= λ l, l ++ [(i, - tableScore_ (pl t i))] |>).
  by rewrite core_upd.
Qed.

Lemma knocked_core t i : core (knocked i t) = knocked i (core t).
Proof. unfold knocked. by rewrite write_lost_core, knock_core. Qed.

Lemma compare_lost_core t i : core (compare_lost i t) = core (knock i t).
Proof.
  assert (compare_lost i t = upd i (λ p, p <| turn_ := currentTurn_ t + 1 |>) (knock i t)) as ->; [|by apply core_same].
  unfold compare_lost, knock. assert (∀ l : list Player, alter (λ p, p <| isComparedLost_ := true |> <| turn_ := currentTurn_ t + 1 |>) i l =
    alter (λ p, p <| turn_ := currentTurn_ t + 1 |>) i (alter (λ p, p <| isComparedLost_ := true |>) i l)) as E.
  { intros l. by rewrite list_alter_alter_eq. }
  destruct t. unfold upd, set_field. cbn in *. by rewrite E.
Qed.

Lemma note_compared_core i j t : core (note_compared i j t) = core t.
Proof. unfold note_compared. by rewrite !core_same. Qed.

(** A hand in another order; a hand of the pack for one of the pack. *)
Lemma order_core i c t : c ≡ₚ handCards_ (pl t i) → core (upd i (λ p, p <| handCards_ := c |>) t) = core t.
Proof. intros Hc. by apply core_same_at, strip_hand. Qed.

Lemma take_made_core i t : good (pl t i) → good_hand (madeMaxCardsType_ t) (madeMaxCards_ t) → core (take_made i t) = core t.
Proof. intros Hg Hm. by apply core_same_at, strip_given. Qed.

(** The statistics have an entry for a hand of the pack, which may be put in order. *)
Lemma GetWinRatioAndWeight_order i t : good (pl t i) → ∃ c, c ≡ₚ handCards_ (pl t i) ∧
  GetWinRatioAndWeight i t = Some (upd i (λ p, p <| handCards_ := c |>) t).
Proof.
  intros [Hh Ht]. unfold GetWinRatioAndWeight. rewrite Ht, (hand_entry _ Hh). cbn [assert mbind option_bind].
  assert (∀ f g, f (pl t i) = g (pl t i) → upd i f t = upd i g t) as Hupd.
  { intros f g H. assert (alter f i (players_ t) = alter g i (players_ t)) as E.
    { apply list_alter_ext; [|done]. intros p Hp. unfold pl in H. by rewrite Hp in H. }
    destruct t. unfold upd, set_field. cbn in *. by rewrite E. }
  assert (t = upd i (λ p, p <| handCards_ := handCards_ (pl t i) |>) t) as Hid.
  { rewrite (Hupd _ id) by (by destruct (pl t i)). unfold upd, set_field. destruct t. cbn. by rewrite (list_alter_id id). }
  assert (SortCards (handCards_ (pl t i)) false false false ≡ₚ handCards_ (pl t i)) as Hs by apply point_sort_perm.
  destruct (fst (GetHandCardsType (handCards_ (pl t i)))); (by exists (handCards_ (pl t i)); rewrite <- Hid) ||
    (exists (SortCards (handCards_ (pl t i)) false false false); split; [done|]; f_equal; by apply Hupd).
Qed.

Lemma GetWinRatioAndWeight_some i t : good (pl t i) → ∃ t', GetWinRatioAndWeight i t = Some t' ∧ core t' = core t.
Proof. intros (c & Hc & E)%GetWinRatioAndWeight_order. eexists. split; [exact E|]. by apply order_core. Qed.

Lemma good_core t t' i : core t' = core t → good (pl t i) → good (pl t' i).
Proof. intros E Hg. apply good_strip. rewrite <- pl_core, E, pl_core. by apply good_strip. Qed.

Lemma result_core i r t : core (upd i (λ p, p <| result_ := r |>) t) = core t.
Proof. by apply core_same. Qed.

(** ** The books

    [ps] are the players of the round, by chairs; each holds a hand of the pack, and so is
    the hand that is kept for an exchange. *)
Definition pout (p : Player) : bool := isGiveup_ p || isComparedLost_ p.

(** A chair of a player: he stakes at least the floor and at most what he brought, he
    sits there unless he is out, and a real player who is out has paid his stake. *)
Definition chair_ok (cfg : Config) (o : option userinfo_t) (p : Player) : Prop :=
  userinfo p = o ∧
  match o with
  | None => item p = None ∧ tableScore_ p = 0
  | Some f =>
      CellScore cfg <= tableScore_ p <= info_score f ∧
      match item p with
      | None => pout p = true
      | Some u => userId u = info_userId f ∧ 0 < userId u ∧ android u = isAndroidUser f ∧
          userScore u = info_score f - (if pout p && negb (isAndroidUser f) then tableScore_ p else 0)
      end
  end.

(** What was written of a chair. *)
Definition written (t : Table) (i : nat) : list Z := snd <$> filter (λ w, w.1 = i) (writes t).

Record Book (cfg : Config) (ps : nat → option userinfo_t) (t : Table) : Prop := {
  bk_len : length (players_ t) = GAME_PLAYER;
  bk_chair : ∀ i, chair_ok cfg (ps i) (pl t i);
  bk_sum : tableAllScore_ t = sumZ (map tableScore_ (players_ t));
  bk_written : ∀ i, written t i = match ps i with
    | Some f => if out t i && negb (isAndroidUser f) then [- tableScore_ (pl t i)] else []
    | None => [] end;
  bk_hands : ∀ i, is_Some (ps i) → good (pl t i);
  bk_made : good_hand (madeMaxCardsType_ t) (madeMaxCards_ t)
}.

Lemma Book_core cfg ps t : Book cfg ps (core t) ↔ Book cfg ps t.
Proof.
  assert (∀ i, chair_ok cfg (ps i) (pl (core t) i) ↔ chair_ok cfg (ps i) (pl t i)) as Hc by (intros i; rewrite pl_core; done).
  assert (sumZ (map tableScore_ (players_ (core t))) = sumZ (map tableScore_ (players_ t))) as Hs.
  { change (players_ (core t)) with (map strip (players_ t)). rewrite map_map. done. }
  assert (∀ i, out (core t) i = out t i ∧ tableScore_ (pl (core t) i) = tableScore_ (pl t i)) as Hp by (intros i; unfold out; by rewrite pl_core).
  assert (∀ i, good (pl (core t) i) ↔ good (pl t i)) as Hg by (intros i; rewrite pl_core; apply good_strip).
  split; intros [H1 H2 H3 H4 H5 H6]; split.
  - by rewrite core_length in H1.
  - intros i. apply Hc, H2.
  - change (tableAllScore_ (core t)) with (tableAllScore_ t) in H3. by rewrite Hs in H3.
  - intros i. specialize (H4 i). destruct (Hp i) as [E1 E2]. by rewrite E1, E2 in H4.
  - intros i Hi. by apply Hg, H5.
  - exact H6.
  - by rewrite core_length.
  - intros i. apply Hc, H2.
  - by rewrite Hs.
  - intros i. destruct (Hp i) as [-> ->]. apply H4.
  - intros i Hi. by apply Hg, H5.
  - exact H6.
Qed.

Lemma Book_same cfg ps t t' : core t = core t' → Book cfg ps t → Book cfg ps t'.
Proof. intros E H. apply Book_core. rewrite <- E. by apply Book_core. Qed.

Section Books.
Context (cfg : Config) (Hcell : 0 < CellScore cfg) (ps : nat → option userinfo_t).

Lemma bk_item t i u : Book cfg ps t → item (pl t i) = Some u → ∃ f, ps i = Some f ∧ (i < GAME_PLAYER)%nat ∧ userId u = info_userId f ∧ 0 < userId u ∧
  android u = isAndroidUser f ∧ userScore u = info_score f - (if out t i && negb (isAndroidUser f) then tableScore_ (pl t i) else 0).
Proof.
  intros Hb Hu. destruct (bk_chair _ _ _ Hb i) as [_ H]. destruct (ps i) as [f|]; [|destruct H; congruence]. destruct H as [_ H]. rewrite Hu in H.
  exists f. split; [done|]. split; [|exact H]. destruct (decide (i < length (players_ t))%nat) as [|Hi]; [by rewrite <- (bk_len _ _ _ Hb)|].
  rewrite pl_out in Hu by lia. done.
Qed.

Lemma exist_item t i : Book cfg ps t → IsExistUser t i = true ↔ is_Some (item (pl t i)).
Proof.
  intros Hb. unfold IsExistUser. destruct (item (pl t i)) as [u|] eqn:Hu; [|split; [done|by intros [? ?]]].
  destruct (bk_item t i u Hb Hu) as (f & _ & _ & _ & H & _). split; [intros _; by eexists|]. intros _. by apply Z.ltb_lt.
Qed.

Lemma live_player t i : Book cfg ps t → live t i = true ↔ is_Some (ps i) ∧ out t i = false.
Proof.
  intros Hb. unfold live. rewrite andb_true_iff, negb_true_iff, (exist_item t i Hb). split.
  - intros [[u Hu] Ho]. destruct (bk_item t i u Hb Hu) as (f & Hf & _). split; [by exists f|done].
  - intros [[f Hf] Ho]. split; [|done]. destruct (bk_chair _ _ _ Hb i) as [_ H]. rewrite Hf in H. destruct H as [_ H].
    destruct (item (pl t i)); [by eexists|]. unfold pout in H. unfold out in Ho. congruence.
Qed.

Lemma live_chair t i : Book cfg ps t → live t i = true → (i < GAME_PLAYER)%nat.
Proof.
  intros Hb H. unfold live in H. apply andb_true_iff in H as [[u Hu]%exist_item _]; [|done]. by destruct (bk_item t i u Hb Hu) as (f & _ & ? & _).
Qed.

Lemma elem_alive t i : Book cfg ps t → i ∈ alive t ↔ live t i = true.
Proof. intros Hb. unfold alive. rewrite list_elem_of_filter, elem_chairs. split; [by intros [? _]|]. intros H. split; [done|]. by apply (live_chair t). Qed.

Lemma listed_player t i : Book cfg ps t → listed t i = true ↔ is_Some (ps i).
Proof.
  intros Hb. destruct (bk_chair _ _ _ Hb i) as [H _]. unfold listed. rewrite H. destruct (ps i); [by split; [eexists|]|].
  split; [done|by intros [? ?]].
Qed.

Lemma live_facts t i : Book cfg ps t → live t i = true → ∃ f u, ps i = Some f ∧ item (pl t i) = Some u ∧ IsAndroidUser t i = isAndroidUser f ∧
  ScoreByChairId t i = info_score f ∧ userinfo (pl t i) = Some f ∧ CellScore cfg <= tableScore_ (pl t i) <= info_score f.
Proof.
  intros Hb Hl. pose proof Hl as Hl'. unfold live in Hl. apply andb_true_iff in Hl as [[u Hu]%exist_item Ho%negb_true_iff]; [|done].
  destruct (bk_item t i u Hb Hu) as (f & Hf & _ & _ & _ & Ha & Hs). exists f, u. destruct (bk_chair _ _ _ Hb i) as [Hi H]. rewrite Hf in Hi, H.
  unfold IsAndroidUser, ScoreByChairId. rewrite Hu, Ha, Hs, Ho. cbn [andb]. rewrite Z.sub_0_r. by destruct H as [? _].
Qed.

(** ** The operations *)

Lemma Book_stake t i s : Book cfg ps t → live t i = true → 0 <= s + tableScore_ (pl t i) - CellScore cfg →
  s + tableScore_ (pl t i) <= ScoreByChairId t i → Book cfg ps (stake i s t).
Proof.
  intros Hb Hl H1 H2. destruct (live_facts t i Hb Hl) as (f & u & Hf & Hu & Ha & Hs & Hi & Ht). pose proof (live_chair t i Hb Hl) as Hlt.
  rewrite <- (bk_len _ _ _ Hb) in Hlt. assert (out t i = false) as Ho by (apply (live_player t i Hb) in Hl; tauto). destruct Hb as [B1 B2 B3 B4 B5 B6].
  set (g := λ p : Player, p <| tableScore_ ::= Z.add s |>). assert (∀ j, pl (stake i s t) j = if decide (i = j) then g (pl t j) else pl t j) as Hpl by (intros j; by apply pl_upd).
  split.
  - change (length (players_ (upd i g t)) = GAME_PLAYER). by rewrite upd_length.
  - intros j. rewrite Hpl. destruct (decide (i = j)) as [<-|]; [|apply B2]. specialize (B2 i). rewrite Hf in *. unfold chair_ok in *.
    change (userinfo (g (pl t i))) with (userinfo (pl t i)). change (item (g (pl t i))) with (item (pl t i)). rewrite Hu in *.
    change (pout (g (pl t i))) with (out t i). change (pout (pl t i)) with (out t i) in B2. rewrite Ho in *.
    change (tableScore_ (g (pl t i))) with (s + tableScore_ (pl t i)). cbn [andb] in *. destruct B2 as (? & _ & ?). split; [done|]. split; [lia|done].
  - change (s + tableAllScore_ t = sumZ (map tableScore_ (players_ (upd i g t)))). rewrite (sum_upd tableScore_ i g t) by done.
    change (tableScore_ (g (pl t i))) with (s + tableScore_ (pl t i)). lia.
  - intros j. change (written (stake i s t) j) with (written t j). rewrite B4. destruct (ps j) as [fj|]; [|done]. unfold out. rewrite Hpl.
    destruct (decide (i = j)) as [<-|]; [|done]. change (isGiveup_ (g (pl t i)) || isComparedLost_ (g (pl t i))) with (out t i).
    change (isGiveup_ (pl t i) || isComparedLost_ (pl t i)) with (out t i). by rewrite Ho.
  - intros j Hj. rewrite Hpl. destruct (decide (i = j)); by apply B5.
  - exact B6.
Qed.

(** A change of the cells the books do not read. *)
Lemma Book_upd t i f : (∀ p, userinfo (f p) = userinfo p ∧ item (f p) = item p ∧ tableScore_ (f p) = tableScore_ p ∧ pout (f p) = pout p) →
  (∀ p, good p → good (f p)) → Book cfg ps t → Book cfg ps (upd i f t).
Proof.
  intros Hf Hgd [B1 B2 B3 B4 B5 B6]. destruct (decide (i < length (players_ t))%nat) as [Hi|Hi].
  2:{ assert (players_ (upd i f t) = players_ t) as E.
      { change (players_ (upd i f t)) with (alter f i (players_ t)). apply alter_out. lia. }
      assert (∀ j, pl (upd i f t) j = pl t j) as Hpl by (intros j; unfold pl; by rewrite E). split; [by rewrite E|intros j; rewrite Hpl; apply B2|by rewrite E| |intros j; rewrite Hpl; apply B5|exact B6].
      intros j. unfold out. rewrite Hpl. apply B4. }
  assert (∀ j, pl (upd i f t) j = if decide (i = j) then f (pl t j) else pl t j) as Hpl by (intros j; by apply pl_upd).
  destruct (Hf (pl t i)) as (F1 & F2 & F3 & F4). split.
  - by rewrite upd_length.
  - intros j. rewrite Hpl. destruct (decide (i = j)) as [<-|]; [|apply B2]. specialize (B2 i). unfold chair_ok in *. by rewrite F1, F2, F3, F4.
  - change (tableAllScore_ t = sumZ (map tableScore_ (players_ (upd i f t)))). rewrite (sum_upd tableScore_ i f t) by done. lia.
  - intros j. change (written (upd i f t) j) with (written t j). rewrite B4. destruct (ps j) as [fj|]; [|done].
    change (out (upd i f t) j) with (pout (pl (upd i f t) j)). change (out t j) with (pout (pl t j)). rewrite Hpl. destruct (decide (i = j)) as [<-|]; [|done]. by rewrite F3, F4.
  - intros j Hj. rewrite Hpl. destruct (decide (i = j)) as [<-|]; [apply Hgd|]; by apply B5.
  - exact B6.
Qed.

(** A player who goes out, and pays if he is real. *)
Lemma Book_gone t i f : (∀ p, userinfo (f p) = userinfo p ∧ item (f p) = item p ∧ tableScore_ (f p) = tableScore_ p ∧ pout (f p) = true) →
  (∀ p, good p → good (f p)) → Book cfg ps t → live t i = true → Book cfg ps (write_lost i (upd i f t)).
Proof.
  intros Hf Hgd Hb Hl. destruct (live_facts t i Hb Hl) as (o & u & Ho & Hu & Ha & Hs & Hi & Ht). pose proof (live_chair t i Hb Hl) as Hlt.
  rewrite <- (bk_len _ _ _ Hb) in Hlt. assert (out t i = false) as Hout by (apply (live_player t i Hb) in Hl; tauto).
  destruct (bk_item t i u Hb Hu) as (o' & Ho' & _ & Hid & Hpos & Hau & Hus). rewrite Ho in Ho'. injection Ho' as <-. rewrite Hout in Hus. cbn [andb] in Hus.
  destruct Hb as [B1 B2 B3 B4 B5 B6]. destruct (Hf (pl t i)) as (F1 & F2 & F3 & F4). set (t1 := upd i f t).
  assert (∀ j, pl t1 j = if decide (i = j) then f (pl t j) else pl t j) as Hpl by (intros j; by apply pl_upd).
  assert (IsAndroidUser t1 i = isAndroidUser o) as Ha1 by (unfold IsAndroidUser; by rewrite Hpl, decide_True, F2, Hu).
  set (g := λ p : Player, p <| item ::= fmap (λ u : User, u <| userScore ::= Z.add (- tableScore_ (pl t i)) |>) |>).
  assert (write_lost i t1 = if isAndroidUser o then t1 else upd i g t1 <| writes ::= λ l, l ++ [(i, - tableScore_ (pl t i))] |>) as ->.
  { unfold write_lost. rewrite Ha1. destruct (isAndroidUser o); [done|]. rewrite Hpl, decide_True, F3 by done. reflexivity. }
  destruct (isAndroidUser o) eqn:Er.
  - split.
    + unfold t1. by rewrite upd_length.
    + intros j. rewrite Hpl. destruct (decide (i = j)) as [<-|]; [|apply B2]. rewrite Ho. unfold chair_ok. rewrite F1, F2, F3, F4, Hu, Er. cbn [andb negb].
      split; [done|]. split; [done|]. split; [done|]. split; [done|]. rewrite Hau. split; [done|]. lia.
    + change (tableAllScore_ t = sumZ (map tableScore_ (players_ t1))). unfold t1. rewrite (sum_upd tableScore_ i f t) by done. lia.
    + intros j. change (written t1 j) with (written t j). rewrite B4. change (out t1 j) with (pout (pl t1 j)). change (out t j) with (pout (pl t j)). rewrite Hpl.
      destruct (decide (i = j)) as [<-|]; [|done]. rewrite Ho, Er. by rewrite !andb_false_r.
    + intros j Hj. rewrite Hpl. destruct (decide (i = j)) as [<-|]; [apply Hgd|]; by apply B5.
    + exact B6.
  - assert (∀ j, pl (upd i g t1) j = if decide (i = j) then g (f (pl t j)) else pl t j) as Hpl2.
    { intros j. rewrite pl_upd by (unfold t1; by rewrite upd_length). rewrite Hpl. by case_decide. }
    split.
    + change (length (players_ (upd i g t1)) = GAME_PLAYER). unfold t1. by rewrite !upd_length.
    + intros j. change (pl (upd i g t1 <| writes ::= _ |>) j) with (pl (upd i g t1) j). rewrite Hpl2. destruct (decide (i = j)) as [<-|]; [|apply B2]. rewrite Ho. unfold chair_ok.
      change (userinfo (g (f (pl t i)))) with (userinfo (f (pl t i))). change (tableScore_ (g (f (pl t i)))) with (tableScore_ (f (pl t i))).
      change (pout (g (f (pl t i)))) with (pout (f (pl t i))). change (item (g (f (pl t i)))) with ((λ u : User, u <| userScore ::= Z.add (- tableScore_ (pl t i)) |>) <$> item (f (pl t i))).
      rewrite F1, F2, F3, F4, Hu, Er. cbn [fmap option_fmap option_map andb negb]. split; [done|]. split; [done|]. split; [done|]. split; [done|]. split; [exact Hau|].
      change (- tableScore_ (pl t i) + userScore u = info_score o - tableScore_ (pl t i)). lia.
    + change (tableAllScore_ t = sumZ (map tableScore_ (players_ (upd i g t1)))). rewrite (sum_upd tableScore_ i g t1) by (unfold t1; by rewrite upd_length).
      unfold t1. rewrite (sum_upd tableScore_ i f t) by done. change (tableScore_ (g (pl (upd i f t) i))) with (tableScore_ (pl (upd i f t) i)). lia.
    + intros j. unfold written. change (writes (upd i g t1 <| writes ::= λ l, l ++ [(i, - tableScore_ (pl t i))] |>)) with (writes t ++ [(i, - tableScore_ (pl t i))]).
      rewrite filter_app, fmap_app. change (snd <$> filter (λ w, w.1 = j) (writes t)) with (written t j). rewrite B4.
      change (out (upd i g t1 <| writes ::= _ |>) j) with (pout (pl (upd i g t1) j)). change (pl (upd i g t1 <| writes ::= _ |>) j) with (pl (upd i g t1) j).
      change (out t j) with (pout (pl t j)). rewrite Hpl2. destruct (decide (i = j)) as [<-|Hne].
      * rewrite Ho, Er. change (pout (pl t i)) with (out t i). rewrite Hout. change (pout (g (f (pl t i)))) with (pout (f (pl t i))). rewrite F4. cbn [andb negb].
        rewrite filter_cons_True by done. change (tableScore_ (g (f (pl t i)))) with (tableScore_ (f (pl t i))). by rewrite F3.
      * rewrite filter_cons_False by (simpl; congruence). by rewrite app_nil_r.
    + intros j Hj. change (pl (upd i g t1 <| writes ::= _ |>) j) with (pl (upd i g t1) j). rewrite Hpl2.
      destruct (decide (i = j)) as [<-|]; [apply (Hgd (pl t i))|]; by apply B5.
    + exact B6.
Qed.

Lemma Book_knocked t i : Book cfg ps t → live t i = true → Book cfg ps (knocked i t).
Proof. intros Hb Hl. apply Book_gone; [|done..]. intros p. split_and!; try done. apply orb_true_r. Qed.

(** The books are about the players, the stakes and what was written. *)
Lemma Book_fields t t' : players_ t' = players_ t → tableAllScore_ t' = tableAllScore_ t → writes t' = writes t →
  madeMaxCards_ t' = madeMaxCards_ t → madeMaxCardsType_ t' = madeMaxCardsType_ t → Book cfg ps t → Book cfg ps t'.
Proof.
  intros E1 E2 E3 E4 E5 [B1 B2 B3 B4 B5 B6]. split; [by rewrite E1|intros i; unfold pl; rewrite E1; apply B2|by rewrite E2, E1| |intros i; unfold pl; rewrite E1; apply B5|by rewrite E4, E5].
  intros i. unfold written, out, pl. rewrite E1, E3. apply B4.
Qed.

(** A player who is out leaves. *)
Lemma Book_left t i : Book cfg ps t → out t i = true → Book cfg ps (ClearTableUser i t).
Proof.
  intros [B1 B2 B3 B4 B5 B6] Ho. destruct (decide (i < length (players_ t))%nat) as [Hi|Hi].
  2:{ unfold out in Ho. by rewrite pl_out in Ho by lia. }
  set (f := λ p : Player, p <| item := None |>). assert (∀ j, pl (ClearTableUser i t) j = if decide (i = j) then f (pl t j) else pl t j) as Hpl by (intros j; by apply pl_upd).
  split.
  - change (length (players_ (upd i f t)) = GAME_PLAYER). by rewrite upd_length.
  - intros j. rewrite Hpl. destruct (decide (i = j)) as [<-|]; [|apply B2]. specialize (B2 i). unfold chair_ok in *. destruct B2 as [H1 H2]. split; [done|].
    destruct (ps i); [|by destruct H2]. destruct H2 as [H2 _]. by split.
  - change (tableAllScore_ t = sumZ (map tableScore_ (players_ (upd i f t)))). rewrite (sum_upd tableScore_ i f t) by done. change (tableScore_ (f (pl t i))) with (tableScore_ (pl t i)). lia.
  - intros j. change (written (ClearTableUser i t) j) with (written t j). rewrite B4. change (out (ClearTableUser i t) j) with (pout (pl (ClearTableUser i t) j)). rewrite Hpl.
    change (out t j) with (pout (pl t j)). by destruct (decide (i = j)) as [<-|].
  - intros j Hj. rewrite Hpl. destruct (decide (i = j)); by apply B5.
  - exact B6.
Qed.
End Books.

(** ** Who is left *)

Definition plive (p : Player) : bool := match item p with Some u => 0 <? userId u | None => false end && negb (pout p).

Lemma alive_eq t t' : (∀ j, live t' j = live t j) → alive t' = alive t.
Proof. intros H. apply list_filter_iff. intros i. by rewrite H. Qed.

Lemma live_upd i f t j : (∀ p, plive (f p) = plive p) → live (upd i f t) j = live t j.
Proof.
  intros H. destruct (decide (i < length (players_ t))%nat) as [Hi|Hi].
  - change (plive (pl (upd i f t) j) = plive (pl t j)). rewrite pl_upd by done. case_decide; [apply H|done].
  - unfold live, IsExistUser, out, pl. change (players_ (upd i f t)) with (alter f i (players_ t)). by rewrite alter_out by lia.
Qed.

Lemma live_write i z t j : live (WriteUserScore i z t) j = live t j.
Proof.
  change (live (upd i (λ p, p <| item ::= fmap (λ u, u <| userScore ::= Z.add z |>) |>) t) j = live t j). apply live_upd. intros p.
  unfold plive. change (item (p <| item ::= fmap (λ u, u <| userScore ::= Z.add z |>) |>)) with ((λ u : User, u <| userScore ::= Z.add z |>) <$> item p). by destruct (item p).
Qed.

Lemma live_write_lost i t j : live (write_lost i t) j = live t j.
Proof. unfold write_lost. destruct (IsAndroidUser t i); [done|]. apply live_write. Qed.

Lemma live_gone i f t j : (i < length (players_ t))%nat → (∀ p, pout (f p) = true) → (∀ p, item (f p) = item p) →
  live (write_lost i (upd i f t)) j = live t j && negb (i =? j)%nat.
Proof.
  intros Hi Hf _. rewrite live_write_lost. change (plive (pl (upd i f t) j) = live t j && negb (i =? j)%nat). rewrite pl_upd by done.
  case_decide as H; [subst j; unfold plive; rewrite Hf, Nat.eqb_refl; by rewrite !andb_false_r|]. rewrite (proj2 (Nat.eqb_neq i j)) by done. by rewrite andb_true_r.
Qed.

Lemma live_knocked i t j : (i < length (players_ t))%nat → live (knocked i t) j = live t j && negb (i =? j)%nat.
Proof. intros Hi. apply live_gone; [done|intros p; apply orb_true_r|done]. Qed.

Lemma knocked_lost i t j : (i < length (players_ t))%nat → isComparedLost_ (pl (knocked i t) j) = if decide (i = j) then true else isComparedLost_ (pl t j).
Proof.
  intros Hi. unfold knocked, write_lost.
  assert (isComparedLost_ (pl (knock i t) j) = if decide (i = j) then true else isComparedLost_ (pl t j)) as H by (unfold knock; rewrite pl_upd by done; by case_decide).
  destruct (IsAndroidUser (knock i t) i); [exact H|]. rewrite <- H. unfold WriteUserScore.
  match goal with |- isComparedLost_ (pl (?x <| writes ::= _ |>) j) = _ => change (isComparedLost_ (pl x j) = isComparedLost_ (pl (knock i t) j)) end.
  rewrite pl_upd by (unfold knock; by rewrite upd_length). by case_decide.
Qed.

Lemma alive_without i t t' : (∀ j, live t' j = live t j && negb (i =? j)%nat) → alive t' = filter (λ j, j ≠ i) (alive t).
Proof.
  intros H. unfold alive. rewrite list_filter_filter. apply list_filter_iff. intros j. rewrite H, andb_true_iff, negb_true_iff, Nat.eqb_neq. split; intros [? ?]; by split.
Qed.

Lemma alive_NoDup t : NoDup (alive t).
Proof. apply NoDup_filter, chairs_NoDup. Qed.

Lemma count_without i t t' : i ∈ alive t → (∀ j, live t' j = live t j && negb (i =? j)%nat) → leftPlayerCount t = S (leftPlayerCount t').
Proof.
  intros Hi H. unfold leftPlayerCount. rewrite (alive_without i t t' H). assert (alive t ≡ₚ i :: filter (λ j, j ≠ i) (alive t)) as E; [|by rewrite E at 1].
  apply NoDup_Permutation; [apply alive_NoDup|constructor; [|apply NoDup_filter, alive_NoDup]; by intros [? _]%list_elem_of_filter|].
  intros j. rewrite elem_of_cons, list_elem_of_filter. destruct (decide (j = i)) as [->|]; tauto.
Qed.

(** ** Bets

    The stake of a player who is not out is the floor and his bets. *)
Definition bets_ok (cfg : Config) (p : Player) : Prop :=
  plive p = true → tableScore_ p = CellScore cfg + sumZ (map score (betinfo_ p)) ∧ Forall (λ b, 0 <= score b) (betinfo_ p).
Definition Bets (cfg : Config) (t : Table) : Prop := ∀ i, bets_ok cfg (pl t i).

Lemma Bets_core cfg t : Bets cfg (core t) ↔ Bets cfg t.
Proof. split; intros H i; specialize (H i); rewrite pl_core in *; done. Qed.

Lemma Bets_same cfg t t' : core t = core t' → Bets cfg t → Bets cfg t'.
Proof. intros E H. apply Bets_core. rewrite <- E. by apply Bets_core. Qed.

Lemma Bets_upd cfg i f t : (∀ p, bets_ok cfg p → bets_ok cfg (f p)) → Bets cfg t → Bets cfg (upd i f t).
Proof.
  intros H Hb j. destruct (decide (i < length (players_ t))%nat) as [Hi|Hi].
  - rewrite pl_upd by done. case_decide; [by apply H|done].
  - unfold pl. change (players_ (upd i f t)) with (alter f i (players_ t)). rewrite alter_out by lia. apply Hb.
Qed.

Lemma Bets_write_lost cfg i t : Bets cfg t → Bets cfg (write_lost i t).
Proof.
  intros H. unfold write_lost. destruct (IsAndroidUser t i); [done|]. unfold WriteUserScore.
  change (Bets cfg (upd i (λ p, p <| item ::= fmap (λ u, u <| userScore ::= Z.add (- tableScore_ (pl t i)) |>) |>) t)). apply Bets_upd; [|done]. intros p Hp Hl.
  apply Hp. unfold plive in *. change (item (p <| item ::= fmap (λ u, u <| userScore ::= Z.add (- tableScore_ (pl t i)) |>) |>)) with ((λ u : User, u <| userScore ::= Z.add (- tableScore_ (pl t i)) |>) <$> item p) in Hl.
  by destruct (item p).
Qed.

Lemma Bets_gone cfg i f t : (∀ p, pout (f p) = true) → Bets cfg t → Bets cfg (write_lost i (upd i f t)).
Proof. intros Hf H. apply Bets_write_lost, Bets_upd; [|done]. intros p _ Hl. unfold plive in Hl. by rewrite Hf, andb_false_r in Hl. Qed.

Lemma Bets_knocked cfg i t : Bets cfg t → Bets cfg (knocked i t).
Proof. apply Bets_gone. intros p. apply orb_true_r. Qed.

(** A bet as a whole. *)
Definition put_bet (i : nat) (s : Z) (op : Wait_Operate) (t : Table) : Table := stake i s (note_bet i s op t).

Lemma Bets_put cfg i s op t : 0 <= s → Bets cfg t → Bets cfg (put_bet i s op t).
Proof.
  intros Hs H. unfold put_bet, stake, note_bet. set (b := MkBet (jettonValue_ t) s op). set (f := λ p : Player, p <| betinfo_ ::= λ l, l ++ [b] |>). set (g := λ p : Player, p <| tableScore_ ::= Z.add s |>).
  change (Bets cfg (upd i g (upd i f t))). intros j. destruct (decide (i < length (players_ t))%nat) as [Hi|Hi].
  - rewrite pl_upd by (by rewrite upd_length). rewrite pl_upd by done. case_decide; [|apply H]. subst j. intros Hl. destruct (H i Hl) as [H1 H2].
    change (betinfo_ (g (f (pl t i)))) with (betinfo_ (pl t i) ++ [b]). change (tableScore_ (g (f (pl t i)))) with (s + tableScore_ (pl t i)). split.
    + rewrite map_app, sumZ_app. cbn. lia.
    + apply Forall_app. split; [done|]. by repeat constructor.
  - unfold pl. change (players_ (upd i g (upd i f t))) with (alter g i (alter f i (players_ t))). rewrite !alter_out by (rewrite ?length_alter; lia). apply H.
Qed.

Lemma Book_put cfg ps t i s op : Book cfg ps t → live t i = true → 0 <= s →
  s + tableScore_ (pl t i) <= ScoreByChairId t i → Book cfg ps (put_bet i s op t).
Proof.
  intros Hb Hl Hs Ht. unfold put_bet, note_bet. set (f := λ p : Player, p <| betinfo_ ::= λ l, l ++ [MkBet (jettonValue_ t) s op] |>).
  assert (i < length (players_ t))%nat as Hi by (rewrite (bk_len _ _ _ Hb); by apply (live_chair cfg ps t)).
  destruct (live_facts cfg ps t i Hb Hl) as (o & u & _ & _ & _ & _ & _ & Hfl). apply Book_stake.
  - by apply Book_upd.
  - by rewrite live_upd.
  - rewrite pl_upd, decide_True by done. change (tableScore_ (f (pl t i))) with (tableScore_ (pl t i)). lia.
  - unfold ScoreByChairId in *. rewrite pl_upd, decide_True by done. exact Ht.
Qed.

Lemma live_put i s op t j : live (put_bet i s op t) j = live t j.
Proof. unfold put_bet, stake, note_bet. change (live (upd i (λ p, p <| tableScore_ ::= Z.add s |>) (upd i (λ p, p <| betinfo_ ::= λ l, l ++ [MkBet (jettonValue_ t) s op] |>) t)) j = live t j). by rewrite !live_upd. Qed.
