(* ===== verification/ZjhRoundTurn.v ===== *)
(** Golden flower, the order of a round: passing the turn counts chairs, the bank stays
    with a player who is not out, comparing hands changes nothing but the cards. *)
From stdpp Require Import base option numbers sorting sets list.
From Stdlib Require Import ZArith Lia.
From S2P Require Import Prelude GameDefine ZjhLogic ZjhCompare ZjhRound ZjhEntry ZjhRoundInv.

#[local] Open Scope Z_scope.

(** ** The clock of a round

    The chairs the turn has passed since the round began: five for each turn, and those
    from the first user to the present one. *)
Definition distance (first cur : nat) : Z := Z.of_nat ((cur + (GAME_PLAYER - first)) mod GAME_PLAYER).
Definition clock (t : Table) : Z :=
  match firstUser_ t, currentUser_ t with Some f, Some c => 5 * currentTurn_ t + distance f c | _, _ => 0 end.
Definition seats_after (cur i : nat) : nat := ((cur + i) mod GAME_PLAYER)%nat.

(** The chairs from the next one on until the first player who is not out. *)
Definition next_live (t : Table) (cur : nat) : option nat := find (λ i, live t (seats_after cur i)) (seq 1 (GAME_PLAYER - 1)).

Definition offset (cur first : nat) : nat := ((first + (GAME_PLAYER - cur)) mod GAME_PLAYER)%nat.
Definition passed (cur first k : nat) : bool := ((1 <=? offset cur first) && (offset cur first <=? k))%nat.

Lemma offset_at cur first i : (cur < GAME_PLAYER)%nat → (first < GAME_PLAYER)%nat → (1 <= i < GAME_PLAYER)%nat →
  seats_after cur i = first ↔ offset cur first = i.
Proof.
  unfold seats_after, offset, GAME_PLAYER. intros Hc Hf Hi. do 5 (destruct cur as [|cur]; [do 5 (destruct i as [|i]; [do 5 (destruct first as [|first]; [done|]); lia|]); lia|]). lia.
Qed.

Lemma passed_distance cur first i : (cur < GAME_PLAYER)%nat → (first < GAME_PLAYER)%nat → (1 <= i < GAME_PLAYER)%nat →
  passed cur first i = (5 <=? distance first cur + Z.of_nat i) ∧
  distance first (seats_after cur i) = distance first cur + Z.of_nat i - (if passed cur first i then 5 else 0).
Proof.
  unfold passed, seats_after, offset, distance, GAME_PLAYER. intros Hc Hf Hi.
  do 5 (destruct cur as [|cur]; [do 5 (destruct i as [|i]; [do 5 (destruct first as [|first]; [done|]); lia|]); lia|]). lia.
Qed.

Lemma distance_range first cur : (first < GAME_PLAYER)%nat → 0 <= distance first cur < 5.
Proof. intros _. unfold distance, GAME_PLAYER. pose proof (Nat.mod_upper_bound (cur + (5 - first)) 5). lia. Qed.

Section Turn.
Context (cfg : Config) (ps : nat → option userinfo_t).

Lemma listed_chair t i : Book cfg ps t → listed t i = true → (i < GAME_PLAYER)%nat.
Proof.
  intros Hb Hi. destruct (decide (i < GAME_PLAYER)%nat); [done|]. exfalso. unfold listed in Hi. rewrite pl_out in Hi; [done|].
  rewrite (bk_len _ _ _ Hb). lia.
Qed.

Lemma live_listed t i : Book cfg ps t → live t i = true ↔ listed t i = true ∧ out t i = false.
Proof. intros Hb. rewrite (live_player cfg ps), (listed_player cfg ps) by done. done. Qed.

Lemma GetNextUser_passes t cur first turn : Book cfg ps t → (cur < GAME_PLAYER)%nat → listed t first = true → 0 <= turn < MAX_ROUND →
  ∀ m k i, (k + m = 4)%nat → find (λ i, live t (seats_after cur i)) (seq (S k) m) = Some i →
  GetNextUser_loop t cur first (passed cur first k) (passed cur first k && (turn =? 19)) (if passed cur first k && (turn <? 19) then turn + 1 else turn) (seq (S k) m)
  = Some (Some (seats_after cur i), passed cur first i && (turn =? 19), if passed cur first i && (turn <? 19) then turn + 1 else turn).
Proof.
  intros Hb Hc Hf Ht. pose proof (listed_chair t first Hb Hf) as Hfc. induction m as [|m IH]; intros k i Hk; [done|]. cbn [seq find GetNextUser_loop].
  fold (seats_after cur (S k)). set (n := seats_after cur (S k)). assert (1 <= S k < GAME_PLAYER)%nat as Hr by (unfold GAME_PLAYER; lia).
  pose proof (offset_at cur first (S k) Hc Hfc Hr) as Hoff. fold n in Hoff. pose proof (live_listed t n Hb) as Hl.
  assert ((n =? cur)%nat = false) as Hnc.
  { apply Nat.eqb_neq. unfold n, seats_after, GAME_PLAYER in *. intros E. do 5 (destruct cur as [|cur]; [do 4 (destruct k as [|k]; [done|]); lia|]). lia. }
  assert ((n =? first)%nat = true → offset cur first = S k) as H1 by (intros E%Nat.eqb_eq; tauto).
  assert ((n =? first)%nat = false → passed cur first (S k) = passed cur first k) as H2.
  { intros E%Nat.eqb_neq. assert (offset cur first ≠ S k) by tauto. unfold passed. apply Bool.eq_true_iff_eq. rewrite !andb_true_iff, !Nat.leb_le. lia. }
  destruct (live t n) eqn:Eln.
  - intros [= <-]. fold n. destruct Hl as [[Hls Hlo] _]; [done|]. rewrite Hls, Hlo. cbn [negb]. rewrite Hnc. cbn [orb].
    destruct (n =? first)%nat eqn:Ef; [|by rewrite H2]. specialize (H1 eq_refl). unfold passed. rewrite H1.
    rewrite (proj2 (Nat.leb_le 1 (S k))), (proj2 (Nat.leb_gt (S k) k)), Nat.leb_refl by lia. cbn [andb]. unfold MAX_ROUND in *.
    destruct (Z.eqb_spec turn 19) as [->|]; [reflexivity|]. rewrite !(proj2 (Z.ltb_lt _ _)) by lia. reflexivity.
  - intros Hfind. specialize (IH (S k) i ltac:(lia) Hfind). destruct (listed t n) eqn:Els; cbn [negb].
    + assert (out t n = true) as Hlo by (destruct (out t n); [done|]; destruct Hl as [_ Hl]; discriminate (Hl (conj eq_refl eq_refl))).
      rewrite Hlo, orb_true_r. destruct (n =? first)%nat eqn:Ef; [|by rewrite H2 in IH].
      specialize (H1 eq_refl). revert IH. unfold passed. rewrite H1.
      rewrite (proj2 (Nat.leb_le 1 (S k))), (proj2 (Nat.leb_gt (S k) k)), Nat.leb_refl by lia. cbn [andb]. unfold MAX_ROUND in *.
      destruct (Z.eqb_spec turn 19) as [->|]; [intros <-; reflexivity|]. rewrite !(proj2 (Z.ltb_lt _ _)) by lia. intros <-. reflexivity.
    + destruct (n =? first)%nat eqn:Ef; [|by rewrite H2 in IH]. apply Nat.eqb_eq in Ef. congruence.
Qed.

(** Passing the turn counts the chairs up to the next player who is not out; when a hundred
    have been counted the turns are used up. *)
Lemma GetNextUser_counts t cur first i : Book cfg ps t → currentUser_ t = Some cur → firstUser_ t = Some first → (cur < GAME_PLAYER)%nat →
  listed t first = true → 0 <= currentTurn_ t < MAX_ROUND → next_live t cur = Some i →
  GetNextUser t = Some (Some (seats_after cur i), 100 <=? clock t + Z.of_nat i, Z.min 19 ((clock t + Z.of_nat i) / 5)) ∧
  live t (seats_after cur i) = true ∧ seats_after cur i ≠ cur ∧ (1 <= i <= 4)%nat ∧
  (clock t + Z.of_nat i < 100 → 5 * ((clock t + Z.of_nat i) / 5) + distance first (seats_after cur i) = clock t + Z.of_nat i).
Proof.
  intros Hb Hcur Hfirst Hc Hf Ht Hn. pose proof (listed_chair t first Hb Hf) as Hfc. pose proof Hn as Hin. apply find_some in Hin as [Hin Hlive].
  apply in_seq in Hin. change (1 + (GAME_PLAYER - 1))%nat with 5%nat in Hin. unfold clock. rewrite Hcur, Hfirst. pose proof (distance_range first cur Hfc) as Hd.
  destruct (passed_distance cur first i Hc Hfc) as [Hp Hd']; [unfold GAME_PLAYER; lia|].
  pose proof (distance_range first (seats_after cur i) Hfc) as Hd2. unfold MAX_ROUND in Ht.
  assert (passed cur first 0 = false) as Hp0 by (unfold passed; by destruct (offset cur first)).
  pose proof (GetNextUser_passes t cur first (currentTurn_ t) Hb Hc Hf Ht 4 0 i eq_refl Hn) as E. rewrite Hp0 in E. cbn [andb] in E.
  split_and!.
  - unfold GetNextUser. rewrite Hcur, Hfirst. cbn [mbind option_bind]. change (GAME_PLAYER - 1)%nat with 4%nat. rewrite E. do 2 f_equal; [f_equal|].
    + apply Bool.eq_true_iff_eq. rewrite Hp, andb_true_iff, Z.eqb_eq, !Z.leb_le. lia.
    + rewrite Hp. destruct (Z.leb_spec 5 (distance first cur + Z.of_nat i)); cbn [andb]; bcrush.
  - done.
  - intros E'. unfold seats_after, GAME_PLAYER in *. do 5 (destruct cur as [|cur]; [do 5 (destruct i as [|i]; [first [discriminate|lia]|]); lia|]). lia.
  - lia.
  - lia.
  - intros _. rewrite Hd'. rewrite Hp in *. destruct (5 <=? distance first cur + Z.of_nat i) eqn:?; breflect; lia.
Qed.

Lemma find_exists {A} (f : A → bool) l x : In x l → f x = true → ∃ y, find f l = Some y.
Proof. intros Hx Hf. destruct (find f l) eqn:E; [by eexists|]. by rewrite (List.find_none _ _ E x Hx) in Hf. Qed.

Lemma next_live_exists t cur j : Book cfg ps t → (cur < GAME_PLAYER)%nat → live t j = true → j ≠ cur → ∃ i, next_live t cur = Some i.
Proof.
  intros Hb Hc Hj Hne. pose proof (live_chair cfg ps t j Hb Hj) as Hjc. apply (find_exists _ _ (offset cur j)).
  - apply in_seq. unfold offset, GAME_PLAYER in *. do 5 (destruct cur as [|cur]; [do 5 (destruct j as [|j]; [simpl; lia|]); lia|]). lia.
  - assert (seats_after cur (offset cur j) = j) as ->; [|done]. unfold seats_after, offset, GAME_PLAYER in *.
    do 5 (destruct cur as [|cur]; [do 5 (destruct j as [|j]; [done|]); lia|]). lia.
Qed.

(** The turn passes. *)
Lemma next_turn_passes t cur first j : Book cfg ps t → currentUser_ t = Some cur → firstUser_ t = Some first → (cur < GAME_PLAYER)%nat →
  listed t first = true → 0 <= currentTurn_ t < MAX_ROUND → live t j = true → j ≠ cur →
  ∃ n turn ex, next_turn t = Some (t <| currentUser_ := Some n |> <| isExceed_ := ex |> <| currentTurn_ := turn |> <| timerIdWaiting_ := false |>) ∧
    live t n = true ∧ n ≠ cur ∧ 0 <= turn < MAX_ROUND ∧
    (ex = false → clock t < 5 * turn + distance first n < 100) ∧ (ex = true → 96 <= clock t).
Proof.
  intros Hb Hcur Hfirst Hc Hf Ht Hj Hne. destruct (next_live_exists t cur j Hb Hc Hj Hne) as [i Hi].
  destruct (GetNextUser_counts t cur first i Hb Hcur Hfirst Hc Hf Ht Hi) as (E & Hl & Hn & Hr & Hclock).
  pose proof (distance_range first cur (listed_chair t first Hb Hf)) as Hd. assert (0 <= clock t) as H0 by (unfold clock; rewrite Hcur, Hfirst; lia).
  eexists _, _, _. unfold next_turn. rewrite E. cbn [mbind option_bind].
  assert (is_current t (seats_after cur i) = false) as -> by (apply bool_decide_eq_false; rewrite Hcur; congruence).
  rewrite (proj2 (proj1 (live_listed t _ Hb) Hl)). cbn [negb andb assert mbind option_bind]. split; [reflexivity|]. split; [done|]. split; [done|].
  unfold MAX_ROUND. split; [lia|]. split; [intros Hex%Z.leb_gt|intros Hex%Z.leb_le; lia]. specialize (Hclock Hex). lia.
Qed.

(** ** The bank *)

Lemma GetNextUser_from_some t s (ign : bool) j : (j < GAME_PLAYER)%nat → live t j = true → (ign = true → is_current t j = false) →
  ∃ n, GetNextUser_from t s ign = Some n ∧ live t n = true ∧ (ign = true → is_current t n = false).
Proof.
  intros Hc Hj Hi. destruct (find_exists (λ i, live t i && negb (ign && is_current t i)) (ring s) j) as [n Hn].
  - by apply list_elem_of_In, elem_ring.
  - rewrite Hj. destruct ign; [by rewrite Hi|done].
  - exists n. split; [exact Hn|]. apply find_some in Hn as [_ [H1 H2]%andb_true_iff]. split; [done|]. intros ->. by apply negb_true_iff in H2.
Qed.

Lemma move_bank_some t b j : bankerUser_ t = Some b → (j < GAME_PLAYER)%nat → live t j = true →
  ∃ n, move_bank t = Some (t <| bankerUser_ := Some n |>) ∧ live t n = true.
Proof.
  intros Hbank Hc Hj. destruct (GetNextUser_from_some t (b + 1) false j Hc Hj ltac:(done)) as (n & Hn & Hl & _).
  exists n. unfold move_bank. rewrite Hbank. cbn [mbind option_bind]. by rewrite Hn.
Qed.

(** ** Comparing hands *)

Lemma CompareHandCards_some a b sp : ∃ d, fst (CompareHandCards a b sp) = Some d.
Proof. destruct sp; [rewrite compare_special; destruct (_ && _); [by eexists|]; destruct (_ && _); [by eexists|]|]; eexists; apply compare_key. Qed.

Lemma compare_hands_some t i j : ∃ r t', compare_hands cfg i j t = Some (r, t') ∧ core t' = core t.
Proof.
  unfold compare_hands. destruct (CompareHandCards_some (handCards_ (pl t i)) (handCards_ (pl t j)) (special235_ cfg)) as [d Hd].
  pose proof (CompareHandCards_hands (handCards_ (pl t i)) (handCards_ (pl t j)) (special235_ cfg)) as Hh.
  destruct (CompareHandCards _ _ _) as [r [a b]]. cbn [fst snd] in Hd, Hh. rewrite Hd. injection Hh as -> ->. cbn [mbind option_bind]. eexists _, _. split; [reflexivity|].
  set (a := snd (GetHandCardsType_private (handCards_ (pl t i)))). set (t1 := upd i (λ p, p <| handCards_ := a |>) t).
  assert (core t1 = core t) as E1 by apply order_core, private_perm. rewrite <- E1. apply order_core. rewrite private_perm. unfold t1.
  destruct (decide (i < length (players_ t))%nat) as [Hi|Hi].
  - rewrite pl_upd by done. case_decide as Hd'; [subst j; symmetry; apply private_perm|done].
  - unfold pl. change (players_ (upd i (λ p, p <| handCards_ := a |>) t)) with (alter (λ p, p <| handCards_ := a |>) i (players_ t)). by rewrite alter_out by lia.
Qed.

(** Hands of the pack are compared, and one may be exchanged for the one that is kept. *)
Lemma Analyse_some d i j t : good (pl t i) → good (pl t j) → good_hand (madeMaxCardsType_ t) (madeMaxCards_ t) → ∃ t', AnalyseLastAndroidUser cfg d i j t = Some t' ∧ core t' = core t.
Proof.
  intros Hi Hj Hm. unfold AnalyseLastAndroidUser. destruct (blastAndroidChangeCard t); [by eexists|]. destruct (_ && _); [|by eexists].
  destruct (compare_hands_some t i j) as (r & t1 & -> & E1). cbn [mbind option_bind]. destruct (change_odds _ _ _ _ _) as [c w]. destruct (_ && _); [|by eexists].
  assert (good_hand (madeMaxCardsType_ t1) (madeMaxCards_ t1)) as Hm1.
  { by rewrite (same_table madeMaxCardsType_ t1 t ltac:(done) E1), (same_table madeMaxCards_ t1 t ltac:(done) E1). }
  assert (∀ k, good (pl t k) → good (pl (t1 <| blastAndroidChangeCard := true |>) k)) as Hk by (intros k; by apply good_core).
  destruct (_ && _); [eexists; split; [reflexivity|]; rewrite take_made_core; [exact E1|by apply Hk|done]|].
  destruct (IsAndroidUser t j); [eexists; split; [reflexivity|]; rewrite take_made_core; [exact E1|by apply Hk|done]|]. by eexists.
Qed.

Lemma live_good t i : Book cfg ps t → live t i = true → good (pl t i).
Proof. intros Hb Hl. apply (bk_hands _ _ _ Hb). apply (live_player cfg ps t i Hb) in Hl. tauto. Qed.

Lemma Analyse_book d i j t : Book cfg ps t → live t i = true → live t j = true → ∃ t', AnalyseLastAndroidUser cfg d i j t = Some t' ∧ core t' = core t.
Proof. intros Hb Hi Hj. apply Analyse_some; [by apply live_good..|apply (bk_made _ _ _ Hb)]. Qed.

(** Both players of a comparison have an entry. *)
Lemma weigh_some i j t : good (pl t i) → good (pl t j) → isComparedLost_ (pl t j) = negb (isComparedLost_ (pl t i)) →
  ∃ t', weigh_compared i j t = Some t' ∧ core t' = core t.
Proof.
  intros Hi Hj Hl. unfold weigh_compared. destruct (GetWinRatioAndWeight_some i t Hi) as (t1 & -> & E1). cbn [mbind option_bind].
  rewrite !(same_pl isComparedLost_ t1 t _ ltac:(done) E1), Hl, eqb_reflx. cbn [assert mbind option_bind].
  destruct (GetWinRatioAndWeight_some j t1) as (t2 & -> & E2); [by apply (good_core t)|]. exists t2. split; [done|congruence].
Qed.
End Turn.
