(* ===== verification/ZjhRoundEnd.v ===== *)
(** Golden flower, the end of a round: one player is left, the others' stakes are his. *)
From stdpp Require Import base option numbers sorting sets list.
From Stdlib Require Import ZArith Lia.
From S2P Require Import Prelude GameDefine ZjhLogic ZjhRound ZjhRoundInv ZjhRoundTurn.

#[local] Open Scope Z_scope.

(** ** What a settlement is *)

(** The rooms the theorems are about: a positive floor, chips that grow, a revenue of less
    than the whole. *)
Definition config_ok (cfg : Config) : Prop :=
  0 < CellScore cfg ∧ 0 <= revenueRatio cfg < 100 ∧ CellScore cfg ∈ JettionList cfg ∧
  (∀ i j x y, (i < j)%nat → JettionList cfg !! i = Some x → JettionList cfg !! j = Some y → 0 < x < y) ∧ Forall (λ x, 0 < x) (JettionList cfg).

Definition row_ok (cfg : Config) (ps : nat → option userinfo_t) (g : GameEnd) (r : Row) : Prop :=
  ∃ f, ps (row_chair r) = Some f ∧ row_android r = isAndroidUser f ∧ CellScore cfg <= row_table r <= info_score f ∧
  if decide (row_chair r = winuser g) then
    row_win r = sumZ (map row_table (rows g)) - row_table r ∧ row_revenue r = CalculateRevenue (revenueRatio cfg) (row_win r) ∧ 0 < userWinScorePure r
  else row_win r = - row_table r ∧ row_revenue r = 0.

Record settled (cfg : Config) (ps : nat → option userinfo_t) (g : GameEnd) : Prop := {
  st_chairs : map row_chair (rows g) = filter (λ i, is_Some (ps i)) chairs;
  st_winner : winuser g ∈ map row_chair (rows g);
  st_rows : Forall (row_ok cfg ps g) (rows g);
  st_system : systemWinScore g = system_score cfg (rows g)
}.

(** The table after a round: nobody sits there, and every real player was paid once. *)
Record Over (cfg : Config) (ps : nat → option userinfo_t) (t : Table) : Prop := {
  ov_status : gameStatus t = GAME_STATUS_INIT;
  ov_players : players_ t = replicate GAME_PLAYER nobody;
  ov_current : currentUser_ t = None;
  ov_timer : timerIdWaiting_ t = false;
  ov_end : ∃ g, ended t = Some g ∧ settled cfg ps g ∧ bankerUser_ t = Some (winuser g) ∧
    ∀ r, r ∈ rows g → written t (row_chair r) = if row_android r then [] else [userWinScorePure r]
}.

(** ** Lists of rows *)

Section Rows.
Context {A : Type} (F : nat → option A).

Lemma filter_only (P : A → Prop) `{!∀ a, Decision (P a)} l w a : NoDup l → w ∈ l → F w = Some a →
  (∀ i b, i ∈ l → i ≠ w → F i = Some b → ¬ P b) → filter P (omap F l) = if decide (P a) then [a] else [].
Proof.
  assert (∀ k, (∀ i b, i ∈ k → F i = Some b → ¬ P b) → filter P (omap F k) = []) as Hnone.
  { intros k Hk. apply filter_none, Forall_forall. intros b Hb. apply list_elem_of_omap in Hb as (i & Hi & Hb). by apply (Hk i b). }
  induction l as [|x l IH]; intros Hn Hw Ha Ho; [by apply elem_of_nil in Hw|]. apply NoDup_cons in Hn as [Hx Hn].
  destruct (decide (x = w)) as [->|Hne].
  - cbn [omap list_omap]. rewrite Ha. rewrite filter_cons. rewrite (Hnone l); [done|]. intros i b Hi. apply Ho; [by right|]. intros ->. done.
  - apply elem_of_cons in Hw as [->|Hw]; [done|]. cbn [omap list_omap]. destruct (F x) as [b|] eqn:Eb.
    + rewrite filter_cons_False by (apply (Ho x b); [by left|done..]). apply IH; [done..|]. intros i c Hi. apply Ho. by right.
    + apply IH; [done..|]. intros i c Hi. apply Ho. by right.
Qed.

Lemma foldl_filter {S} (c : A → bool) (g : S → A → S) l s : foldl (λ s a, if c a then g s a else s) s l = foldl g s (filter (λ a, c a = true) l).
Proof.
  revert s. induction l as [|a l IH]; intros s; cbn [foldl]; [done|]. destruct (c a) eqn:E.
  - rewrite filter_cons_True by done. apply IH.
  - rewrite filter_cons_False by congruence. apply IH.
Qed.
End Rows.

Lemma sum_two (h : nat → Z) l i j : NoDup l → i ∈ l → j ∈ l → i ≠ j → (∀ k, k ∈ l → 0 <= h k) → h i + h j <= sumZ (map h l).
Proof.
  intros Hn Hi Hj Hne H0. assert (∀ k x, x ∈ k → (∀ y, y ∈ k → 0 <= h y) → h x <= sumZ (map h k)) as H1.
  { induction k as [|y k IH]; intros x Hx Hk; [by apply elem_of_nil in Hx|]. cbn [map]. unfold sumZ in *. cbn [foldr].
    assert (0 <= foldr Z.add 0 (map h k)) as Hs by (apply sumZ_nonneg, Forall_forall; intros z (y' & -> & Hy')%list_elem_of_fmap; apply Hk; by right).
    pose proof (Hk y ltac:(by left)). apply elem_of_cons in Hx as [->|Hx]; [lia|]. pose proof (IH x Hx ltac:(intros; apply Hk; by right)). lia. }
  induction l as [|x l IH]; [by apply elem_of_nil in Hi|]. apply NoDup_cons in Hn as [Hx Hn]. cbn [map]. unfold sumZ in *. cbn [foldr].
  assert (∀ k, k ∈ l → 0 <= h k) as H0' by (intros; apply H0; by right). pose proof (H0 x ltac:(by left)).
  apply elem_of_cons in Hi as [->|Hi]; apply elem_of_cons in Hj as [->|Hj]; [done| | |].
  - pose proof (H1 l j Hj H0'). lia.
  - pose proof (H1 l i Hi H0'). lia.
  - pose proof (IH Hn Hi Hj H0'). lia.
Qed.

Lemma players_chairs t : length (players_ t) = GAME_PLAYER → players_ t = map (pl t) chairs.
Proof. unfold GAME_PLAYER, pl. destruct (players_ t) as [|p0 [|p1 [|p2 [|p3 [|p4 [|]]]]]]; intros H; try discriminate H. reflexivity. Qed.

(** ** The end *)

Section End.
Context (cfg : Config) (Hcfg : config_ok cfg) (ps : nat → option userinfo_t).

Definition row_of (t : Table) (w i : nat) (u : userinfo_t) : Row :=
  MkRow i (isAndroidUser u) (tableScore_ (pl t i)) (win_score t i) (if 0 <? win_score t i then CalculateRevenue (revenueRatio cfg) (win_score t i) else 0)
    (if win_score t i <? 0 then turn_ (pl t i) else currentTurn_ t + 1) (result_ (pl t i)).
Definition entry (t : Table) (w i : nat) : option Row := row_of t w i <$> ps i.

Lemma conclude_rows_some t w l : Book cfg ps t → (∀ i, is_Some (ps i) → i ≠ w → win_score t i < 0) → conclude_rows cfg t w l = Some (omap (entry t w) l).
Proof.
  intros Hb Hw. induction l as [|i l IH]; [done|]. cbn [conclude_rows omap list_omap]. unfold entry at 1. destruct (bk_chair _ _ _ Hb i) as [E H].
  rewrite E. destruct (ps i) as [f|] eqn:Ef; [|apply IH]. destruct H as [[_ H] _]. cbn [fmap option_fmap option_map]. unfold conclude_row.
  rewrite (proj2 (Z.leb_le _ _) H). cbn [assert mbind option_bind]. fold (entry t w) in IH |- *.
  assert ((win_score t i <? 0) || (i =? w)%nat = true) as ->.
  { destruct (Nat.eqb_spec i w); [by rewrite orb_true_r|]. rewrite (proj2 (Z.ltb_lt _ _)); [done|]. apply Hw; [by eexists|done]. }
  cbn [assert mbind option_bind]. rewrite IH. reflexivity.
Qed.

Lemma entry_chairs t w l : map row_chair (omap (entry t w) l) = filter (λ i, is_Some (ps i)) l.
Proof.
  induction l as [|i l IH]; [done|]. cbn [omap list_omap]. unfold entry at 1. destruct (ps i) as [f|] eqn:Ef; cbn [fmap option_fmap option_map].
  - rewrite filter_cons_True by (by eexists). cbn [map]. by rewrite <- IH.
  - rewrite filter_cons_False by (rewrite Ef; by intros [? ?]). exact IH.
Qed.

Lemma entry_tables t w l : Book cfg ps t → sumZ (map row_table (omap (entry t w) l)) = sumZ (map (λ i, tableScore_ (pl t i)) l).
Proof.
  intros Hb. induction l as [|i l IH]; [done|]. cbn [omap list_omap map]. unfold entry at 1. destruct (bk_chair _ _ _ Hb i) as [_ H].
  destruct (ps i) as [f|]; cbn [fmap option_fmap option_map]; unfold sumZ in *; cbn [foldr map] in *; [cbn [row_table row_of]; by rewrite <- IH|].
  destruct H as [_ ->]. by rewrite <- IH.
Qed.

Lemma book_total t : Book cfg ps t → tableAllScore_ t = sumZ (map (λ i, tableScore_ (pl t i)) chairs).
Proof. intros Hb. rewrite (bk_sum _ _ _ Hb), (players_chairs t (bk_len _ _ _ Hb)) at 1. by rewrite map_map. Qed.

Lemma stake_nonneg t i : Book cfg ps t → 0 <= tableScore_ (pl t i).
Proof. intros Hb. destruct Hcfg as (Hc & _). destruct (bk_chair _ _ _ Hb i) as [_ H]. destruct (ps i); [lia|]. destruct H. lia. Qed.

(** The winner's win is what the others have staked. *)
Lemma win_positive t w j : Book cfg ps t → alive t = [w] → is_Some (ps j) → j ≠ w →
  (∀ i, is_Some (ps i) → i ≠ w → win_score t i = - tableScore_ (pl t i) ∧ win_score t i < 0) ∧
  win_score t w = tableAllScore_ t - tableScore_ (pl t w) ∧ CellScore cfg <= win_score t w ∧ is_Some (ps w).
Proof.
  intros Hb Ha [fj Hj] Hne. destruct Hcfg as (Hc & _). assert (live t w = true) as Hw by (apply (elem_alive cfg ps t w Hb); rewrite Ha; by left).
  destruct (proj1 (live_player cfg ps t w Hb) Hw) as [Hpw How]. split; [|split; [|split; [|done]]].
  - intros i [f Hf] Hi. assert (out t i = true) as Ho.
    { destruct (out t i) eqn:Ho; [done|]. assert (i ∈ alive t) as Hin by (apply (elem_alive cfg ps t i Hb), (live_player cfg ps t i Hb); split; [by eexists|done]).
      rewrite Ha in Hin. apply list_elem_of_singleton in Hin. done. }
    unfold win_score. rewrite Ho. split; [done|]. destruct (bk_chair _ _ _ Hb i) as [_ H]. rewrite Hf in H. destruct H as [H _]. lia.
  - unfold win_score. by rewrite How.
  - unfold win_score. rewrite How, (book_total t Hb). pose proof (live_chair cfg ps t w Hb Hw) as Hwc.
    assert (j < GAME_PLAYER)%nat as Hjc.
    { apply (listed_chair cfg ps t j Hb), (listed_player cfg ps t j Hb). by eexists. }
    pose proof (sum_two (λ i, tableScore_ (pl t i)) chairs w j chairs_NoDup ltac:(by apply elem_chairs) ltac:(by apply elem_chairs) ltac:(done) ltac:(intros; by apply stake_nonneg)).
    destruct (bk_chair _ _ _ Hb j) as [_ Hcj]. rewrite Hj in Hcj. destruct Hcj as [Hcj _]. simpl in *. lia.
Qed.

Lemma revenue_less w : 0 < w → 0 <= CalculateRevenue (revenueRatio cfg) w < w.
Proof.
  destruct Hcfg as (_ & Hr & _). intros Hw. unfold CalculateRevenue. rewrite Z.quot_div_nonneg by nia. split; [apply Z.div_pos; nia|apply Z.div_lt_upper_bound; nia].
Qed.

Lemma foldl_clear l t : length (players_ t) = GAME_PLAYER → (∀ i, IsExistUser t i = true ↔ is_Some (item (pl t i))) →
  let t' := foldl (λ t i, if IsExistUser t i then upd i (λ p, p <| item := None |>) t else t) t l in
  length (players_ t') = GAME_PLAYER ∧ (∀ i, i ∈ l → item (pl t' i) = None) ∧ (∀ i, item (pl t i) = None → item (pl t' i) = None) ∧
  writes t' = writes t ∧ bankerUser_ t' = bankerUser_ t ∧ ended t' = ended t.
Proof.
  revert t. induction l as [|x l IH]; intros t Hl He; cbv zeta; cbn [foldl]; [split_and!; try done; intros i Hi; by apply elem_of_nil in Hi|].
  set (t1 := if IsExistUser t x then upd x (λ p, p <| item := None |>) t else t).
  assert (length (players_ t1) = GAME_PLAYER) as Hl1 by (unfold t1; destruct (IsExistUser t x); [by rewrite upd_length|done]).
  assert (item (pl t1 x) = None ∧ (∀ i, i ≠ x → pl t1 i = pl t i)) as [Hx Hn].
  { unfold t1. destruct (IsExistUser t x) eqn:E.
    - assert (x < length (players_ t))%nat as Hxl.
      { destruct (decide (x < length (players_ t))%nat); [done|]. unfold IsExistUser in E. by rewrite pl_out in E by lia. }
      split; [by rewrite pl_upd, decide_True|]. intros i Hi. by rewrite pl_upd, decide_False.
    - split; [|done]. destruct (item (pl t x)) eqn:Ei; [|done]. assert (is_Some (item (pl t x))) as H by (by eexists). apply He in H. congruence. }
  destruct (IH t1 Hl1) as (I1 & I2 & I3 & I4 & I5 & I6).
  { intros i. unfold IsExistUser. destruct (decide (i = x)) as [->|Hi]; [rewrite Hx; split; [done|by intros [? ?]]|]. rewrite Hn by done. apply He. }
  assert (writes t1 = writes t ∧ bankerUser_ t1 = bankerUser_ t ∧ ended t1 = ended t) as (W1 & W2 & W3) by (unfold t1; by destruct (IsExistUser t x)).
  split_and!; [done| | |congruence..].
  - intros i [->|Hi]%elem_of_cons; [by apply I3|by apply I2].
  - intros i Hi. apply I3. destruct (decide (i = x)) as [->|Hix]; [done|]. by rewrite Hn.
Qed.

Lemma OnTimerGameEnd_clears t : length (players_ t) = GAME_PLAYER → (∀ i, IsExistUser t i = true ↔ is_Some (item (pl t i))) →
  let t' := OnTimerGameEnd cfg t in
  gameStatus t' = GAME_STATUS_INIT ∧ players_ t' = replicate GAME_PLAYER nobody ∧ currentUser_ t' = None ∧ timerIdWaiting_ t' = false ∧
  bankerUser_ t' = bankerUser_ t ∧ ended t' = ended t ∧ writes t' = writes t.
Proof.
  intros Hl He. destruct (foldl_clear chairs t Hl He) as (F1 & F2 & _ & F4 & F5 & F6). cbv zeta. unfold OnTimerGameEnd.
  set (t1 := foldl _ t chairs) in *. split_and!; try done.
  change (map (λ p, nobody <| item := item p |>) (players_ t1) = replicate GAME_PLAYER nobody). rewrite (players_chairs t1 F1), map_map.
  apply (list_eq_same_length _ _ GAME_PLAYER); [by rewrite length_replicate|by rewrite length_map|].
  intros i x y Hi Hx Hy. apply lookup_replicate in Hy as [-> _]. match type of Hx with map ?g ?l !! ?k = ?o => change ((g <$> l) !! k = o) in Hx end.
  apply list_lookup_fmap_Some in Hx as (k & -> & Hk).
  rewrite F2; [done|]. by apply list_elem_of_lookup_2 in Hk.
Qed.

(** A real winner is paid. *)
Lemma winner_paid t t2 w z robot : Book cfg ps t → players_ t2 = players_ t → writes t2 = writes t →
  let t3 := if robot : bool then t2 else WriteUserScore w z t2 in
  length (players_ t3) = GAME_PLAYER ∧ (∀ i, IsExistUser t3 i = true ↔ is_Some (item (pl t3 i))) ∧ bankerUser_ t3 = bankerUser_ t2 ∧
  ∀ i, written t3 i = written t i ++ (if decide (i = w) then if robot then [] else [z] else []).
Proof.
  intros Hb Ep Ew. cbv zeta. assert (length (players_ t2) = GAME_PLAYER) as Hl by (rewrite Ep; apply (bk_len _ _ _ Hb)).
  assert (∀ i, IsExistUser t2 i = true ↔ is_Some (item (pl t2 i))) as He by (intros i; unfold IsExistUser, pl; rewrite Ep; apply (exist_item cfg ps t i Hb)).
  assert (∀ i, written t2 i = written t i) as Hw by (intros i; unfold written; by rewrite Ew). destruct robot.
  { split_and!; [done..|]. intros i. rewrite Hw. case_decide; by rewrite app_nil_r. }
  set (f := λ p : Player, p <| item ::= fmap (λ u, u <| userScore ::= Z.add z |>) |>). split_and!; [change (length (players_ (upd w f t2)) = GAME_PLAYER); by rewrite upd_length| |done|].
  - intros i. specialize (He i). change (IsExistUser (WriteUserScore w z t2) i) with (IsExistUser (upd w f t2) i). change (pl (WriteUserScore w z t2) i) with (pl (upd w f t2) i).
    destruct (decide (w < length (players_ t2))%nat).
    2:{ assert (players_ (upd w f t2) = players_ t2) as E by (apply alter_out; lia). unfold IsExistUser, pl in *. by rewrite E. }
    unfold IsExistUser in *. rewrite pl_upd by done. case_decide as Hd; [subst i|done].
    change (item (f (pl t2 w))) with ((λ u : User, u <| userScore ::= Z.add z |>) <$> item (pl t2 w)).
    destruct (item (pl t2 w)); [|done]. cbn. split; [by eexists|]. intros _. by apply He; eexists.
  - intros i. rewrite <- Hw. unfold written. change (writes (WriteUserScore w z t2)) with (writes t2 ++ [(w, z)]). rewrite filter_app, fmap_app. f_equal.
    case_decide as Hd; [subst i; by rewrite filter_cons_True|by rewrite filter_cons_False by (simpl; congruence)].
Qed.

Lemma OnEventGameConclude_settles t w j : Book cfg ps t → alive t = [w] → bankerUser_ t = Some w → is_Some (ps j) → j ≠ w →
  ∃ t', OnEventGameConclude cfg t = Some t' ∧ Over cfg ps t' ∧ ∃ g, ended t' = Some g ∧ winuser g = w.
Proof.
  intros Hb Ha Hbank Hj Hne. destruct (win_positive t w j Hb Ha Hj Hne) as (Hlose & Hwin & Hpos & [fw Hfw]). pose proof (proj1 Hcfg) as Hc.
  assert (live t w = true) as Hlw by (apply (elem_alive cfg ps t w Hb); rewrite Ha; by left). pose proof (live_chair cfg ps t w Hb Hlw) as Hwc.
  pose proof (revenue_less (win_score t w) ltac:(lia)) as Hrev. unfold OnEventGameConclude.
  set (t1 := ClearAllTimer t <| currentUser_ := Some w |> <| currentWinUser_ := Some w |>).
  change (leftPlayerCount (ClearAllTimer t)) with (length (alive t)). change (alive (ClearAllTimer t)) with (alive t). rewrite Ha. cbn [length Nat.eqb assert mbind option_bind last].
  fold t1. change (is_bank t1 w) with (bool_decide (bankerUser_ t = Some w)). rewrite bool_decide_true by done. cbn [assert mbind option_bind].
  assert (Book cfg ps t1) as Hb1 by (by apply (Book_fields cfg ps t)). assert (∀ i, is_Some (ps i) → i ≠ w → win_score t1 i < 0) as Hlose1 by (intros i Hi Hiw; by apply Hlose).
  rewrite (conclude_rows_some t1 w chairs Hb1 Hlose1). cbn [mbind option_bind]. set (rs := omap (entry t1 w) chairs). set (rw := row_of t1 w w fw).
  assert (∀ P : Row → Prop, ∀ `{!∀ r, Decision (P r)}, (∀ i r, i ≠ w → entry t1 w i = Some r → ¬ P r) → filter P rs = if decide (P rw) then [rw] else []) as Honly.
  { intros P HP Hno. apply (filter_only _ _ _ w); [apply chairs_NoDup|by apply elem_chairs|unfold entry; by rewrite Hfw|]. intros i b _. apply Hno. }
  assert (∀ i r, entry t1 w i = Some r → ∃ f, ps i = Some f ∧ r = row_of t1 w i f) as Hentry.
  { intros i r H. unfold entry in H. destruct (ps i) as [f|]; [|done]. injection H as <-. by exists f. }
  assert (row_win rw = win_score t w) as Hrw by done.
  assert (row_revenue rw = CalculateRevenue (revenueRatio cfg) (win_score t w)) as Hrr by (change (row_revenue rw) with (if 0 <? win_score t w then CalculateRevenue (revenueRatio cfg) (win_score t w) else 0); by rewrite (proj2 (Z.ltb_lt _ _)) by lia).
  rewrite (Honly (λ r, 0 <= row_win r)).
  2:{ intros i r Hi (f & Hf & ->)%Hentry. cbn [row_win row_of]. specialize (Hlose1 i ltac:(by eexists) Hi). lia. }
  rewrite decide_True by lia. cbn [length Nat.eqb assert mbind option_bind].
  assert (forallb (λ r, negb (row_chair r =? w)%nat || (0 <? userWinScorePure r)) rs = true) as ->.
  { apply List.forallb_forall. intros r (i & Hi & Hr)%list_elem_of_In%list_elem_of_omap. destruct (Hentry i r Hr) as (f & Hf & ->). change (row_chair (row_of t1 w i f)) with i.
    destruct (Nat.eqb_spec i w) as [->|]; [|done]. cbn [negb orb]. assert (f = fw) as -> by congruence. change (row_of t1 w w fw) with rw. unfold userWinScorePure. rewrite Hrw, Hrr. apply Z.ltb_lt. lia. }
  cbn [assert mbind option_bind]. set (t2 := t1 <| StockScore ::= Z.add (system_score cfg rs) |>).
  rewrite (foldl_filter (λ r, (row_chair r =? w)%nat && negb (row_android r)) (λ t r, WriteUserScore w (userWinScorePure r) t)).
  rewrite (Honly (λ r, (row_chair r =? w)%nat && negb (row_android r) = true)).
  2:{ intros i r Hi (f & Hf & ->)%Hentry. change (row_chair (row_of t1 w i f)) with i. by rewrite (proj2 (Nat.eqb_neq i w)). }
  change (row_chair rw) with w. change (row_android rw) with (isAndroidUser fw). rewrite Nat.eqb_refl. cbn [andb].
  set (g := MkEnd w rs (system_score cfg rs)).
  destruct (winner_paid t t2 w (userWinScorePure rw) (isAndroidUser fw) Hb eq_refl eq_refl) as (L3 & E3 & B3 & W3).
  assert (foldl (λ t r, WriteUserScore w (userWinScorePure r) t) t2 (if decide (negb (isAndroidUser fw) = true) then [rw] else []) =
    if isAndroidUser fw then t2 else WriteUserScore w (userWinScorePure rw) t2) as -> by (by destruct (isAndroidUser fw)).
  set (t3 := if isAndroidUser fw then t2 else _) in *. clearbody t3.
  set (t4 := t3 <| ended := Some g |>). assert (ended t4 = Some g) as Hx by reflexivity. assert (bankerUser_ t4 = Some w) as Hy by (by rewrite <- Hbank).
  assert (∀ i, written t4 i = written t3 i) as Hz by done. destruct (OnTimerGameEnd_clears t4 L3 E3) as (O1 & O2 & O3 & O4 & O5 & O6 & O7).
  eexists. split; [reflexivity|]. rewrite Hx in O6. rewrite Hy in O5. split; [|exists g; by split]. split; [exact O1|exact O2|exact O3|exact O4|]. exists g. split; [done|].
  assert (sumZ (map row_table rs) = tableAllScore_ t) as Htab by (unfold rs; rewrite (entry_tables t1 w chairs Hb1); symmetry; exact (book_total t1 Hb1)).
  split; [|split; [exact O5|]].
  - split; [apply entry_chairs| |apply Forall_forall|done].
    + change (w ∈ map row_chair rs). unfold rs. rewrite entry_chairs, list_elem_of_filter, elem_chairs. split; [by eexists|done].
    + intros r (i & Hi & Hr)%list_elem_of_omap. destruct (Hentry i r Hr) as (f & Hf & ->). exists f. change (row_chair (row_of t1 w i f)) with i. change (winuser g) with w.
      split; [done|]. split; [done|]. destruct (bk_chair _ _ _ Hb i) as [_ Hch]. rewrite Hf in Hch. destruct Hch as [Hch _]. split; [exact Hch|].
      case_decide as Hd.
      * subst i. assert (f = fw) as -> by congruence. change (row_of t1 w w fw) with rw. change (rows g) with rs. rewrite Htab, Hrw, Hrr. unfold userWinScorePure. rewrite Hrw, Hrr.
        change (row_table rw) with (tableScore_ (pl t w)). split; [exact Hwin|]. split; [done|]. lia.
      * destruct (Hlose i ltac:(by eexists) Hd) as [H1 H2]. cbn [row_win row_revenue row_table row_of]. change (win_score t1 i) with (win_score t i). rewrite (proj2 (Z.ltb_ge 0 _)) by lia. by split.
  - intros r (i & Hi & Hr)%list_elem_of_omap. destruct (Hentry i r Hr) as (f & Hf & ->). change (row_chair (row_of t1 w i f)) with i. change (row_android (row_of t1 w i f)) with (isAndroidUser f).
    unfold written at 1. rewrite O7. fold (written t4 i). rewrite Hz, W3, (bk_written _ _ _ Hb i), Hf. case_decide as Hd.
    + subst i. assert (f = fw) as -> by congruence. rewrite (proj2 (proj1 (live_player cfg ps t w Hb) Hlw)). cbn [andb app]. by destruct (isAndroidUser fw).
    + destruct (Hlose i ltac:(by eexists) Hd) as [H1 H2]. rewrite app_nil_r.
      assert (out t i = true) as -> by (destruct (out t i) eqn:Eo; [done|]; unfold win_score in H1, H2; rewrite Eo in H1, H2; pose proof (stake_nonneg t w Hb); lia).
      destruct (isAndroidUser f); [done|]. cbn [andb negb]. unfold userWinScorePure. cbn [row_win row_revenue row_of]. change (win_score t1 i) with (win_score t i).
      rewrite (proj2 (Z.ltb_ge 0 _)) by lia. by rewrite H1, Z.sub_0_r.
Qed.
End End.
