(* ===== verification/ZjhRoundSteps.v ===== *)
(** Golden flower, the invariant of a round: each operation has a result and leaves the
    round consistent or settled. *)
From stdpp Require Import base option numbers sorting sets list.
From Stdlib Require Import ZArith Lia.
From S2P Require Import Prelude GameDefine ZjhLogic ZjhRound ZjhEntry ZjhRoundInv ZjhRoundTurn ZjhRoundEnd.

#[local] Open Scope Z_scope.

(** ** The invariant *)

(** What the operations of a player do not touch. *)
Definition frame (t : Table) := (gameStatus t, firstUser_ t, currentUser_ t, currentTurn_ t, isExceed_ t, ended t).

(** The round while an operation is under way: the user to move may be out already. *)
Record Mid (cfg : Config) (ps : nat → option userinfo_t) (t : Table) : Prop := {
  md_book : Book cfg ps t;
  md_bets : Bets cfg t;
  md_status : gameStatus t = GAME_STATUS_START;
  md_ended : ended t = None;
  md_bank : ∃ b, bankerUser_ t = Some b ∧ live t b = true;
  md_first : ∃ f, firstUser_ t = Some f ∧ is_Some (ps f);
  md_current : ∃ c, currentUser_ t = Some c ∧ is_Some (ps c);
  md_turn : 0 <= currentTurn_ t < MAX_ROUND;
  md_chip : followScore_ t ∈ JettionList cfg;
  md_two : ∃ i j, i ≠ j ∧ is_Some (ps i) ∧ is_Some (ps j)
}.

(** Between the events: two at least are left, and one of them is to move. *)
Record Playing (cfg : Config) (ps : nat → option userinfo_t) (t : Table) : Prop := {
  pg_mid : Mid cfg ps t;
  pg_current : ∃ c, currentUser_ t = Some c ∧ live t c = true;
  pg_left : (2 <= leftPlayerCount t)%nat;
  pg_exceed : isExceed_ t = false
}.

Definition draw_ok (d : Draw) : Prop := ∀ x l c, 0 <= x → 0 <= l <= c → 0 < c → 0 <= d_refund d x l c <= x.

(** ** Primitive steps *)

Lemma frame_core t t' : core t = core t' → frame t = frame t'.
Proof. intros E. change (frame (core t) = frame (core t')). by rewrite E. Qed.

Lemma bank_core t t' : core t = core t' → bankerUser_ t = bankerUser_ t'.
Proof. apply same_table. done. Qed.

Lemma follow_core t t' : core t = core t' → followScore_ t = followScore_ t'.
Proof. apply same_table. done. Qed.

Lemma live_same t t' i : core t = core t' → live t i = live t' i.
Proof. intros E. by rewrite <- (live_core t), <- (live_core t'), E. Qed.

Lemma write_lost_keeps i t : frame (write_lost i t) = frame t ∧ bankerUser_ (write_lost i t) = bankerUser_ t ∧ followScore_ (write_lost i t) = followScore_ t.
Proof. unfold write_lost. by destruct (IsAndroidUser t i). Qed.

Lemma write_lost_bank i t b : write_lost i (t <| bankerUser_ := b |>) = write_lost i t <| bankerUser_ := b |>.
Proof. unfold write_lost. change (IsAndroidUser (t <| bankerUser_ := b |>) i) with (IsAndroidUser t i). by destruct (IsAndroidUser t i). Qed.

Lemma stake_core i s t : core (stake i s t) = stake i s (core t).
Proof. unfold stake. change (core (upd i (λ p, p <| tableScore_ ::= Z.add s |>) t) <| tableAllScore_ ::= Z.add s |> = stake i s (core t)). by rewrite core_upd. Qed.

Lemma note_bet_core i s op t : core (note_bet i s op t) = note_bet i s op (core t).
Proof. unfold note_bet. by apply core_upd. Qed.

Lemma put_core i s op t : core (put_bet i s op t) = put_bet i s op (core t).
Proof. unfold put_bet. by rewrite stake_core, note_bet_core. Qed.

Lemma stake_knock i j s t : stake i s (knock j t) = knock j (stake i s t).
Proof.
  unfold stake, knock. change (upd i (λ p, p <| tableScore_ ::= Z.add s |>) (upd j (λ p, p <| isComparedLost_ := true |>) t) <| tableAllScore_ ::= Z.add s |>
    = upd j (λ p, p <| isComparedLost_ := true |>) (upd i (λ p, p <| tableScore_ ::= Z.add s |>) t) <| tableAllScore_ ::= Z.add s |>).
  by rewrite upd_comm.
Qed.

Lemma knock_live i t j : (i < length (players_ t))%nat → live (knock i t) j = live t j && negb (i =? j)%nat.
Proof.
  intros Hi. change (plive (pl (knock i t) j) = live t j && negb (i =? j)%nat). unfold knock. rewrite pl_upd by done.
  case_decide as H; [subst j; unfold plive, pout; cbn [isComparedLost_]; rewrite Nat.eqb_refl|rewrite (proj2 (Nat.eqb_neq i j)) by done; by rewrite andb_true_r].
  change (isComparedLost_ (pl t i <| isComparedLost_ := true |>)) with true. by rewrite orb_true_r, !andb_false_r.
Qed.

Lemma two_live t c : (2 <= leftPlayerCount t)%nat → ∃ j, j ∈ alive t ∧ j ≠ c.
Proof.
  intros H. pose proof (alive_NoDup t) as Hn. unfold leftPlayerCount in H. destruct (alive t) as [|a [|b l]]; simpl in H; [lia..|].
  apply NoDup_cons in Hn as [Ha _]. destruct (decide (a = c)) as [->|]; [exists b|exists a; split; [by left|done]].
  split; [right; by left|]. intros ->. apply Ha. by left.
Qed.

Lemma alive_lt t i : i ∈ alive t → (i < GAME_PLAYER)%nat.
Proof. unfold alive. rewrite list_elem_of_filter, elem_chairs. by intros [_ ?]. Qed.

Section Steps.
Context (cfg : Config) (Hcfg : config_ok cfg) (ps : nat → option userinfo_t).

Lemma Mid_from t t' : Mid cfg ps t → frame t' = frame t → followScore_ t' ∈ JettionList cfg → Book cfg ps t' → Bets cfg t' →
  (∃ b, bankerUser_ t' = Some b ∧ live t' b = true) → Mid cfg ps t'.
Proof.
  intros [] E Hf Hb Hbt Hbk. unfold frame in E. injection E as E1 E2 E3 E4 E5 E6. split; rewrite ?E1, ?E2, ?E3, ?E4, ?E6; done.
Qed.

Lemma Mid_timer t b : Mid cfg ps t → Mid cfg ps (t <| timerIdWaiting_ := b |>).
Proof. intros Hm. apply (Mid_from t); [done|done|apply (md_chip _ _ _ Hm)|by apply (Book_fields cfg ps t), md_book|apply (md_bets _ _ _ Hm)|apply (md_bank _ _ _ Hm)]. Qed.

Lemma alive_live t i : Book cfg ps t → i ∈ alive t ↔ live t i = true.
Proof. apply (elem_alive cfg ps). Qed.

(** ** The end of an operation *)

(** One is left. *)
Lemma last_settles t : Mid cfg ps t → (leftPlayerCount t = 1)%nat → ∃ t', OnEventGameConclude cfg t = Some t' ∧ Over cfg ps t'.
Proof.
  intros Hm Hl. pose proof (md_book _ _ _ Hm) as Hb. destruct (md_bank _ _ _ Hm) as (b & Hbank & Hlb). apply (alive_live t b Hb) in Hlb.
  assert (alive t = [b]) as Ha.
  { unfold leftPlayerCount in Hl. destruct (alive t) as [|a [|]]; try discriminate Hl. apply list_elem_of_singleton in Hlb. by subst. }
  destruct (md_two _ _ _ Hm) as (i & j & Hij & Hi & Hj). assert (∃ k, k ≠ b ∧ is_Some (ps k)) as (k & Hk & Hpk).
  { destruct (decide (i = b)) as [->|]; [exists j|exists i]; by split. }
  destruct (OnEventGameConclude_settles cfg Hcfg ps t b k Hb Ha Hbank Hpk Hk) as (t' & E & Ho & _). by exists t'.
Qed.

(** After a comparison of two players one of whom is out. *)
Lemma weigh_pair t tw i j lost : Book cfg ps t → live t i = true → live t j = true → j ≠ i → lost = i ∨ lost = j → core tw = core (knocked lost t) →
  ∃ t', weigh_compared i j tw = Some t' ∧ core t' = core (knocked lost t).
Proof.
  intros Hb Hi Hj Hne Hlost Hc. assert (∀ k, live t k = true → good (pl tw k) ∧ isComparedLost_ (pl tw k) = bool_decide (lost = k)) as Hk.
  { intros k Hk. assert (live t lost = true) as Hll by (destruct Hlost as [->| ->]; done).
    split; [apply (good_core _ _ _ Hc), (bk_hands _ _ _ (Book_knocked cfg ps t lost Hb Hll)); apply (live_player cfg ps t k Hb) in Hk; tauto|].
    pose proof (live_chair cfg ps t lost Hb Hll) as Hlc. rewrite <- (bk_len _ _ _ Hb) in Hlc.
    rewrite (same_pl isComparedLost_ tw (knocked lost t) k ltac:(done) Hc), knocked_lost by done.
    apply (live_player cfg ps t k Hb) in Hk as [_ [_ Hk]%orb_false_iff]. case_decide; [by rewrite bool_decide_true|by rewrite bool_decide_false]. }
  destruct (Hk i Hi) as [Gi Li], (Hk j Hj) as [Gj Lj]. destruct (weigh_some i j tw Gi Gj) as (t' & E & Ec); [|exists t'; split; [done|congruence]].
  rewrite Li, Lj. destruct Hlost as [->| ->]; [rewrite bool_decide_false, bool_decide_true by done; done|rewrite bool_decide_true, bool_decide_false by congruence; done].
Qed.

(** The forced comparison leaves one player. *)
Lemma force_loop d l w t : Book cfg ps t → live t w = true → (∀ j, live t j = true → j ≠ w → j ∈ l) →
  ∃ t' w', CompareCardForce_loop cfg d w l t = Some t' ∧ Book cfg ps t' ∧ alive t' = [w'] ∧ bankerUser_ t' = bankerUser_ t ∧
    (∀ i, live t i = true → i ≠ w' → isComparedLost_ (pl t' i) = true) ∧ (∀ i, isComparedLost_ (pl t i) = true → isComparedLost_ (pl t' i) = true).
Proof.
  revert w t. induction l as [|n l IH]; intros w t Hb Hw Hl; cbn [CompareCardForce_loop].
  { exists t, w. split; [done|]. split; [done|]. split; [|split; [done|split; [|done]]].
    - assert (∀ j, j ∈ alive t → j = w) as Hall.
      { intros j Hj%(alive_live t j Hb). destruct (decide (j = w)); [done|]. by specialize (Hl j Hj ltac:(done)) as ?%elem_of_nil. }
      apply (alive_live t w Hb) in Hw. pose proof (alive_NoDup t) as Hn. destruct (alive t) as [|a [|b l]]; [by apply elem_of_nil in Hw| |].
      + by rewrite (Hall a) by (by left).
      + exfalso. apply NoDup_cons in Hn as [Hn _]. apply Hn. rewrite (Hall a), <- (Hall b); [by left|right; by left|by left].
    - intros i Hi Hne. by specialize (Hl i Hi Hne) as ?%elem_of_nil. }
  destruct ((n =? w)%nat || negb (live t n)) eqn:E.
  { apply IH; [done..|]. intros j Hj Hjw. specialize (Hl j Hj Hjw). apply elem_of_cons in Hl as [->|]; [|done]. exfalso.
    apply orb_true_iff in E as [->%Nat.eqb_eq|E%negb_true_iff]; [done|congruence]. }
  apply orb_false_iff in E as [Hnw%Nat.eqb_neq Hn%negb_false_iff]. rewrite Hw. cbn [assert mbind option_bind].
  destruct (Analyse_book cfg ps d w n (note_compared w n t)) as (t1 & -> & E1).
  { by apply (Book_same cfg ps t); [rewrite note_compared_core|]. }
  { by rewrite (live_same _ t w (note_compared_core w n t)). }
  { by rewrite (live_same _ t n (note_compared_core w n t)). }
  rewrite note_compared_core in E1. cbn [mbind option_bind].
  destruct (compare_hands_some cfg ps t1 n w) as (r & t2 & -> & E2). cbn [mbind option_bind]. rewrite E1 in E2.
  assert (∀ lost, write_lost lost (upd w (λ p, p <| result_ := CMPLOST |>) (compare_lost lost t2)) = write_lost lost (upd w (λ p, p <| result_ := CMPLOST |>) (compare_lost lost t2)) ∧
    core (write_lost lost (upd w (λ p, p <| result_ := CMPLOST |>) (compare_lost lost t2))) = core (knocked lost t)) as Hcore.
  { intros lost. split; [done|]. rewrite write_lost_core, result_core, compare_lost_core, knock_core, E2, knocked_core. reflexivity. }
  assert (∃ lost best, (if 0 <? r then (w, n) else (n, w)) = (lost, best) ∧ (lost = w ∧ best = n ∨ lost = n ∧ best = w)) as (lost & best & -> & Hlb).
  { destruct (0 <? r); [exists w, n|exists n, w]; (split; [done|tauto]). }
  destruct (Hcore lost) as [_ Hc0]. set (tw := write_lost lost _) in *. clearbody tw. clear Hcore.
  destruct (weigh_pair t tw w n lost Hb Hw Hn Hnw) as (t3 & -> & Hc); [tauto|done|]. cbn [mbind option_bind].
  assert (live t lost = true) as Hlost by (destruct Hlb as [[-> _]|[-> _]]; done). pose proof (live_chair cfg ps t lost Hb Hlost) as Hlc. rewrite <- (bk_len _ _ _ Hb) in Hlc.
  assert (∀ j, live t3 j = live t j && negb (lost =? j)%nat) as Hl3 by (intros j; rewrite (live_same t3 _ j Hc); by apply live_knocked).
  assert (∀ i, isComparedLost_ (pl t3 i) = if decide (lost = i) then true else isComparedLost_ (pl t i)) as Hcl.
  { intros i. rewrite (same_pl isComparedLost_ t3 (knocked lost t) i ltac:(done) Hc). by apply knocked_lost. }
  destruct (IH best t3) as (t' & w' & I1 & I2 & I3 & I4 & I5 & I6).
  - apply (Book_same cfg ps (knocked lost t)); [done|]. by apply Book_knocked.
  - rewrite Hl3. destruct Hlb as [[-> ->]|[-> ->]]; [rewrite Hn|rewrite Hw]; rewrite (proj2 (Nat.eqb_neq _ _)) by congruence; done.
  - intros j. rewrite Hl3, andb_true_iff, negb_true_iff, Nat.eqb_neq. intros [Hj Hjl] Hjb. assert (j ≠ w ∧ j ≠ n) as [Hj1 Hj2] by (destruct Hlb as [[-> ->]|[-> ->]]; split; congruence).
    specialize (Hl j Hj Hj1). apply elem_of_cons in Hl as [->|]; done.
  - exists t', w'. split; [exact I1|]. split; [done|]. split; [done|]. split; [rewrite I4; etransitivity; [apply (bank_core t3 _ Hc)|apply (write_lost_keeps lost (knock lost t))]|]. split.
    + intros i Hi Hiw. destruct (decide (lost = i)) as [->|Hne]; [apply I6; rewrite Hcl; by rewrite decide_True|]. apply I5; [|done]. rewrite Hl3, Hi. by rewrite (proj2 (Nat.eqb_neq _ _)).
    + intros i Hi. apply I6. rewrite Hcl. by case_decide.
Qed.

Lemma force_result d t c : Mid cfg ps t → currentUser_ t = Some c → live t c = true →
  ∃ l t1 w t' e, CompareCardForce_loop cfg d c l t = Some t1 ∧ (∀ j, (j < GAME_PLAYER)%nat → j ∈ l) ∧ alive t1 = [w] ∧
    OnUserCompareCardForce cfg d t = Some t' ∧ Over cfg ps t' ∧ ended t' = Some e ∧ winuser e = w.
Proof.
  intros Hm Hc Hl. pose proof (md_book _ _ _ Hm) as Hb. destruct (md_bank _ _ _ Hm) as (b & Hbank & Hlb). unfold OnUserCompareCardForce. rewrite Hc, Hl, Hbank. cbn [negb mbind option_bind].
  set (l := ring _). destruct (force_loop d l c t Hb Hl) as (t1 & w & E & Hb1 & Ha & Hbk & Hlost & _).
  { intros j Hj _. by apply elem_ring, (live_chair cfg ps t). }
  exists l, t1, w. rewrite E. cbn [mbind option_bind]. assert (∃ k, k ≠ w ∧ is_Some (ps k)) as (k & Hk & Hpk).
  { destruct (md_two _ _ _ Hm) as (i & j & Hij & Hi & Hj). destruct (decide (i = w)) as [->|]; [exists j|exists i]; by split. }
  assert (live t1 w = true) as Hw by (apply (alive_live t1 w Hb1); rewrite Ha; by left).
  assert (∀ j, (j < GAME_PLAYER)%nat → j ∈ l) as Hlin by (intros j Hj; by apply elem_ring).
  destruct (isComparedLost_ (pl t1 b)) eqn:Eb.
  - destruct (move_bank_some t1 b w) as (n & -> & Hn); [by rewrite Hbk|by apply (live_chair cfg ps t1)|done|]. cbn [mbind option_bind].
    assert (n = w) as -> by (apply (alive_live t1 n Hb1) in Hn; rewrite Ha in Hn; by apply list_elem_of_singleton in Hn).
    destruct (OnEventGameConclude_settles cfg Hcfg ps (t1 <| bankerUser_ := Some w |>) w k) as (t' & E' & Ho & e & Ee & Hwin); [by apply (Book_fields cfg ps t1)|done..|]. by exists t', e.
  - cbn [mbind option_bind]. assert (b = w) as -> by (destruct (decide (b = w)); [done|]; by rewrite (Hlost b Hlb) in Eb).
    destruct (OnEventGameConclude_settles cfg Hcfg ps t1 w k Hb1 Ha) as (t' & E' & Ho & e & Ee & Hwin); [by rewrite Hbk|done..|]. by exists t', e.
Qed.

Lemma force_settles d t : Mid cfg ps t → (∃ c, currentUser_ t = Some c ∧ live t c = true) →
  ∃ t', OnUserCompareCardForce cfg d t = Some t' ∧ Over cfg ps t'.
Proof. intros Hm (c & Hc & Hl). destruct (force_result d t c Hm Hc Hl) as (l & t1 & w & t' & e & _ & _ & _ & E & Ho & _). by exists t'. Qed.

(** What an operation leads to: the round goes on with another user to move and his timer
    set, later by the clock, or it is over. *)
Definition moved (t t' : Table) : Prop := (Playing cfg ps t' ∧ timerIdWaiting_ t' = true ∧ clock t < clock t') ∨ Over cfg ps t'.

Lemma turn_moves d t : Mid cfg ps t → (2 <= leftPlayerCount t)%nat →
  ∃ t1, next_turn t = Some t1 ∧ (∀ i, pl t1 i = pl t i) ∧ ∃ t', go_on cfg d t1 = Some t' ∧ moved t t'.
Proof.
  intros Hm H2. pose proof (md_book _ _ _ Hm) as Hb. destruct (md_current _ _ _ Hm) as (c & Hc & Hpc). destruct (md_first _ _ _ Hm) as (f & Hf & Hpf).
  destruct (two_live t c H2) as (j & Hj%(alive_live t j Hb) & Hjc). pose proof (listed_chair cfg ps t c Hb (proj2 (listed_player cfg ps t c Hb) Hpc)) as Hcc.
  destruct (next_turn_passes cfg ps t c f j Hb Hc Hf Hcc (proj2 (listed_player cfg ps t f Hb) Hpf) (md_turn _ _ _ Hm) Hj Hjc) as (n & turn & ex & E & Hn & Hnc & Ht & Hclock & _).
  eexists. split; [exact E|]. split; [done|]. set (t1 := t <| currentUser_ := _ |> <| isExceed_ := _ |> <| currentTurn_ := _ |> <| timerIdWaiting_ := _ |>).
  assert (is_Some (ps n)) as Hpn by (apply (live_player cfg ps t n Hb) in Hn; tauto).
  assert (Mid cfg ps t1) as Hm1.
  { destruct Hm. split; try done; [by apply (Book_fields cfg ps t)|]. exists n. split; [reflexivity|exact Hpn]. }
  unfold go_on. change (isExceed_ t1) with ex. destruct ex.
  - destruct (force_settles d t1 Hm1) as (t' & E' & Ho); [by exists n|]. exists t'. split; [exact E'|by right].
  - eexists. split; [reflexivity|]. left. split; [|split; [done|]].
    + split; [by apply Mid_timer|by exists n|exact H2|done].
    + unfold clock at 2. change (firstUser_ (t1 <| timerIdWaiting_ := true |>)) with (firstUser_ t). rewrite Hf.
      change (clock t < 5 * turn + distance f n). by apply Hclock.
Qed.

(** Both ends: the turn passes, or one is left. *)
Definition resolve (d : Draw) (t : Table) : option Table :=
  if (2 <=? leftPlayerCount t)%nat then t ← next_turn t; go_on cfg d t else OnEventGameConclude cfg t.

Lemma resolve_moves d t : Mid cfg ps t → (1 <= leftPlayerCount t)%nat → ∃ t', resolve d t = Some t' ∧ moved t t'.
Proof.
  intros Hm H1. unfold resolve. destruct (Nat.leb_spec 2 (leftPlayerCount t)) as [H2|H2].
  - destruct (turn_moves d t Hm H2) as (t1 & -> & _ & t' & E & Hmv). by exists t'.
  - destruct (last_settles t Hm) as (t' & E & Ho); [lia|]. exists t'. split; [done|by right].
Qed.

(** ** A player goes out *)

Lemma set_bank t b : bankerUser_ t = Some b → t <| bankerUser_ := Some b |> = t.
Proof. intros E. destruct t. cbn in E. by subst. Qed.

(** The bank of a player who goes out passes on. *)
Lemma bank_passes t t1 i : Book cfg ps t → (2 <= leftPlayerCount t)%nat → (∃ b, bankerUser_ t = Some b ∧ live t b = true) →
  bankerUser_ t1 = bankerUser_ t → (∀ j, live t1 j = live t j && negb (i =? j)%nat) →
  ∃ n, (if is_bank t1 i then move_bank t1 else Some t1) = Some (t1 <| bankerUser_ := Some n |>) ∧ live t1 n = true.
Proof.
  intros Hb H2 (b & Hbank & Hlb) E1 Hl. unfold is_bank. rewrite E1, Hbank. case_bool_decide as Hd.
  - destruct (two_live t i H2) as (j & Hj & Hji). pose proof (alive_lt t j Hj) as Hjc. apply (alive_live t j Hb) in Hj.
    apply (move_bank_some t1 b j); [by rewrite E1|done|]. rewrite Hl, Hj. by rewrite (proj2 (Nat.eqb_neq i j)).
  - exists b. rewrite set_bank by (by rewrite E1). split; [done|]. rewrite Hl, Hlb. rewrite (proj2 (Nat.eqb_neq i b)); [done|]. congruence.
Qed.

Lemma Mid_out t t' i : Mid cfg ps t → live t i = true → (2 <= leftPlayerCount t)%nat → frame t' = frame t → followScore_ t' = followScore_ t → Book cfg ps t' → Bets cfg t' →
  (∃ b, bankerUser_ t' = Some b ∧ live t' b = true) → (∀ j, live t' j = live t j && negb (i =? j)%nat) →
  Mid cfg ps t' ∧ leftPlayerCount t = S (leftPlayerCount t').
Proof.
  intros Hm Hi H2 Hf Hch Hb Hbt Hbk Hl. split; [apply (Mid_from t); try done; rewrite Hch; apply (md_chip _ _ _ Hm)|].
  apply (count_without i); [|exact Hl]. by apply (alive_live t i), Hi; apply (md_book _ _ _ Hm).
Qed.

(** ** Giving up *)

Definition gives_up (turn : Z) (p : Player) : Player := p <| isGiveup_ := true |> <| turn_ := turn |> <| result_ := GIVEUP |>.

Lemma upd_live_out i f t j : (i < length (players_ t))%nat → (∀ p, pout (f p) = true) → live (upd i f t) j = live t j && negb (i =? j)%nat.
Proof.
  intros Hi Hf. change (plive (pl (upd i f t) j) = live t j && negb (i =? j)%nat). rewrite pl_upd by done.
  case_decide as H; [subst j; unfold plive; by rewrite Hf, Nat.eqb_refl, !andb_false_r|]. rewrite (proj2 (Nat.eqb_neq i j)) by done. by rewrite andb_true_r.
Qed.

Lemma give_up_step t i : Playing cfg ps t → live t i = true →
  ∃ n, let t1 := upd i (gives_up (currentTurn_ t + 1)) t in
    (if is_bank t1 i then move_bank t1 else Some t1) = Some (t1 <| bankerUser_ := Some n |>) ∧
    let t2 := write_lost i (t1 <| bankerUser_ := Some n |>) in Mid cfg ps t2 ∧ leftPlayerCount t = S (leftPlayerCount t2) ∧ frame t2 = frame t ∧
    (∀ j, live t2 j = live t j && negb (i =? j)%nat) ∧ timerIdWaiting_ t2 = timerIdWaiting_ t.
Proof.
  intros [Hm Hc H2 Hx] Hi. pose proof (md_book _ _ _ Hm) as Hb. pose proof (live_chair cfg ps t i Hb Hi) as Hic. rewrite <- (bk_len _ _ _ Hb) in Hic.
  set (t1 := upd i _ t). assert (∀ p, pout (gives_up (currentTurn_ t + 1) p) = true) as Hout by done.
  pose proof (λ j, upd_live_out i _ t j Hic Hout) as Hl. destruct (bank_passes t t1 i Hb H2 (md_bank _ _ _ Hm) eq_refl Hl) as (n & E & Hn).
  exists n. cbv zeta. split; [exact E|]. rewrite write_lost_bank. destruct (write_lost_keeps i t1) as (K1 & K2 & K3). set (t2 := write_lost i t1 <| bankerUser_ := Some n |>).
  assert (∀ j, live t2 j = live t j && negb (i =? j)%nat) as Hl2 by (intros j; change (live t2 j) with (live (write_lost i t1) j); rewrite live_write_lost; apply Hl).
  assert (frame t2 = frame t) as Hf by exact K1.
  destruct (Mid_out t t2 i Hm Hi H2) as [M1 M2]; try done.
  - apply (Book_fields cfg ps (write_lost i t1)); try done. by apply Book_gone.
  - change (Bets cfg (write_lost i t1)). by apply Bets_gone, (md_bets _ _ _ Hm).
  - exists n. split; [done|]. change (live (write_lost i t1) n = true). by rewrite live_write_lost.
  - split; [done|]. split; [done|]. split; [done|]. split; [done|]. change (timerIdWaiting_ (write_lost i t1) = timerIdWaiting_ t). unfold write_lost. by destruct (IsAndroidUser t1 i).
Qed.

(** The statistics of a player change nothing but the order of his cards. *)
Lemma weighed t i : Mid cfg ps t → is_Some (ps i) → ∃ t', GetWinRatioAndWeight i t = Some t' ∧ core t' = core t ∧ Mid cfg ps t' ∧ frame t = frame t' ∧
  (∀ j, live t j = live t' j) ∧ leftPlayerCount t = leftPlayerCount t' ∧ timerIdWaiting_ t = timerIdWaiting_ t'.
Proof.
  intros Hm Hi. pose proof (md_book _ _ _ Hm) as Hb. destruct (GetWinRatioAndWeight_some i t (bk_hands _ _ _ Hb i Hi)) as (t' & E & Hc). exists t'.
  assert (∀ j, live t j = live t' j) as Hl by (intros j; by apply live_same).
  split; [done|]. split; [done|]. split; [|split; [by apply frame_core|split; [done|split]]].
  - apply (Mid_from t); [done|by apply frame_core|rewrite (follow_core t' t Hc); apply (md_chip _ _ _ Hm)|by apply (Book_same cfg ps t)|
      apply (Bets_same cfg t); [done|apply (md_bets _ _ _ Hm)]|].
    destruct (md_bank _ _ _ Hm) as (b & Hbk & Hlb). exists b. rewrite (bank_core t' t Hc), <- Hl. done.
  - unfold leftPlayerCount. by rewrite (alive_eq t t').
  - by apply (same_table timerIdWaiting_).
Qed.

Lemma playing_not_over t : Playing cfg ps t → Over cfg ps t → False.
Proof. intros [Hm _ _ _] Ho. pose proof (md_status _ _ _ Hm) as Hs. rewrite (ov_status _ _ _ Ho) in Hs. discriminate Hs. Qed.

(** What a message may lead to. *)
Definition follows (t t' : Table) : Prop := (Playing cfg ps t' ∧ clock t <= clock t') ∨ Over cfg ps t'.

Lemma moved_follows t t' : moved t t' → follows t t'.
Proof. intros [(H1 & _ & H2)|H]; [left; split; [done|lia]|by right]. Qed.

Lemma clock_frame t t' : frame t' = frame t → clock t' = clock t.
Proof. intros E. unfold frame in E. injection E as _ E1 E2 E3 _ _. unfold clock. by rewrite E1, E2, E3. Qed.

Lemma OnUserGiveUp_follows d i timeout t : Playing cfg ps t → (IsAndroidUser t i = true → timeout = false ∧ isLooked_ (pl t i) = true) →
  ∃ b t', OnUserGiveUp cfg d i timeout t = Some (b, t') ∧ (if b then (if is_current t i then moved t t' else follows t t') ∧ (Playing cfg ps t' → timerIdWaiting_ t' = true ∨ timerIdWaiting_ t' = timerIdWaiting_ t) else t' = t) ∧
  b = live t i.
Proof.
  intros Hp Ha. pose proof Hp as [Hm (c & Hc & Hlc) H2 Hx]. pose proof (md_book _ _ _ Hm) as Hb. unfold OnUserGiveUp. rewrite Hc.
  unfold live in Hlc |- *. apply andb_true_iff in Hlc as [Hce Hco%negb_true_iff]. rewrite Hce, Hco. cbn [negb orb]. rewrite orb_false_r.
  destruct (IsExistUser t i) eqn:Ei; cbn [negb orb andb]; [|by exists false, t]. rewrite orb_false_r. destruct (out t i) eqn:Eo; cbn [negb andb]; [by exists false, t|].
  assert (live t i = true) as Hli by (unfold live; by rewrite Ei, Eo). destruct (give_up_step t i Hp Hli) as (n & E & Hm2 & H2c & Hf & Hl2 & Htm).
  change (λ p : Player, p <| isGiveup_ := true |> <| turn_ := currentTurn_ t + 1 |> <| result_ := GIVEUP |>) with (gives_up (currentTurn_ t + 1)). set (t1 := upd i _ t) in *.
  assert (i < length (players_ t))%nat as Hic by (rewrite (bk_len _ _ _ Hb); by apply (live_chair cfg ps t)).
  assert (negb (IsAndroidUser t1 i) || negb timeout && isLooked_ (pl t1 i) = true) as ->.
  { assert (IsAndroidUser t1 i = IsAndroidUser t i ∧ isLooked_ (pl t1 i) = isLooked_ (pl t i)) as [-> ->] by (unfold IsAndroidUser, t1; rewrite pl_upd, decide_True by done; done).
    destruct (IsAndroidUser t i); [|done]. by destruct Ha as [-> ->]. }
  cbn [assert mbind option_bind]. rewrite E. cbn [mbind option_bind]. set (tw := write_lost i _) in *. unfold is_current. rewrite Hc.
  destruct (weighed tw i Hm2) as (t2 & -> & Hcw & Hmw & Hfw & Hlw & Hnw & Htw); [by apply (live_player cfg ps t i Hb) in Hli as [? _]|]. cbn [mbind option_bind].
  rewrite Htw in Htm. rewrite Hnw in H2c. rewrite Hfw in Hf. setoid_rewrite Hlw in Hl2. clear Hm2. rename Hmw into Hm2. clear Hcw. clearbody tw.
  assert (clock t2 = clock t) as Hck by (by apply clock_frame). assert (1 <= leftPlayerCount t2)%nat as H1 by lia.
  assert (∃ j, live t2 j = true ∧ (j < GAME_PLAYER)%nat) as (j & Hj & Hjc).
  { unfold leftPlayerCount in H1. destruct (alive t2) as [|j l] eqn:Ej; [simpl in H1; lia|]. assert (j ∈ alive t2) as Hin by (rewrite Ej; by left).
    exists j. split; [by apply (alive_live t2 j (md_book _ _ _ Hm2))|by apply (alive_lt t2)]. }
  assert (∃ t', (if (2 <=? leftPlayerCount t2)%nat then if (i =? c)%nat then t ← next_turn t2; go_on cfg d t else Some t2
     else nextUser ← GetNextUser_from t2 (i + 1) false; t ← GetWinRatioAndWeight nextUser t2; OnEventGameConclude cfg t) = Some t' ∧ (if bool_decide (Some c = Some i) then moved t t' else follows t t') ∧
     (Playing cfg ps t' → timerIdWaiting_ t' = true ∨ timerIdWaiting_ t' = timerIdWaiting_ t)) as (t' & -> & R).
  { destruct (Nat.leb_spec 2 (leftPlayerCount t2)) as [Hge|Hlt].
    - destruct (Nat.eqb_spec i c) as [->|Hne].
      + rewrite bool_decide_true by done. destruct (turn_moves d t2 Hm2 Hge) as (t3 & -> & _ & t' & E' & Hmv). exists t'. split; [exact E'|]. unfold moved in *. rewrite <- Hck. split; [done|].
        intros Hpl. destruct Hmv as [(_ & Ht & _)|Ho]; [by left|]. by destruct (playing_not_over t').
      + rewrite bool_decide_false by congruence. exists t2. split; [done|]. split; [|intros _; by right]. left. split; [|lia]. split; [done| |lia|].
        * exists c. unfold frame in Hf. injection Hf as _ _ -> _ _ _. split; [done|]. rewrite Hl2. unfold live. rewrite Hce, Hco. by rewrite (proj2 (Nat.eqb_neq i c)).
        * unfold frame in Hf. by injection Hf as _ _ _ _ -> _.
    - destruct (GetNextUser_from_some t2 (i + 1) false j Hjc Hj ltac:(done)) as (n' & -> & Hn' & _). cbn [mbind option_bind].
      destruct (weighed t2 n' Hm2) as (t3 & -> & _ & Hm3 & _ & _ & Hn3 & _); [by apply (live_player cfg ps t2 n' (md_book _ _ _ Hm2)) in Hn' as [? _]|]. cbn [mbind option_bind].
      destruct (last_settles t3 Hm3) as (t' & E' & Ho); [lia|]. exists t'. split; [exact E'|]. split; [case_bool_decide; by right|].
      intros Hpl. by destruct (playing_not_over t'). }
  cbn [mbind option_bind]. exists true, t'. by split.
Qed.
End Steps.
