(* ===== verification/ZjhRoundMoves.v ===== *)
(** Golden flower, stakes, comparisons and going all in: each ends the turn of a player. *)
From stdpp Require Import base option numbers sorting sets list.
From Stdlib Require Import ZArith Lia.
From S2P Require Import Prelude GameDefine ZjhLogic ZjhRound ZjhEntry ZjhRoundInv ZjhRoundTurn ZjhRoundEnd ZjhRoundSteps.

#[local] Open Scope Z_scope.

Section Moves.
Context (cfg : Config) (Hcfg : config_ok cfg) (ps : nat → option userinfo_t).

#[local] Abbreviation Mid := (Mid cfg ps).
#[local] Abbreviation Playing := (Playing cfg ps).
#[local] Abbreviation moved := (moved cfg ps).

(** A player to move among others. *)
Definition to_move (t : Table) (c : nat) : Prop := Mid t ∧ currentUser_ t = Some c ∧ live t c = true ∧ (2 <= leftPlayerCount t)%nat.

Lemma to_move_timer t c b : to_move t c → to_move (t <| timerIdWaiting_ := b |>) c.
Proof. intros (H1 & H2 & H3 & H4). split; [by apply Mid_timer|]. by repeat split. Qed.

Lemma same_mid t t' : core t' = core t → Mid t → Mid t'.
Proof.
  intros E Hm. apply (Mid_from cfg ps t); [done|by apply frame_core|rewrite (follow_core t' t E); apply (md_chip _ _ _ Hm)| | |].
  - by apply (Book_same cfg ps t), md_book.
  - by apply (Bets_same cfg t), (md_bets cfg ps).
  - destruct (md_bank _ _ _ Hm) as (b & Hb & Hl). exists b. rewrite (bank_core t' t E). split; [done|]. by rewrite (live_same t' t b E).
Qed.

Lemma same_to_move t t' c : core t' = core t → to_move t c → to_move t' c.
Proof.
  intros E (H1 & H2 & H3 & H4). split; [by apply (same_mid t)|]. pose proof (frame_core t' t E) as Hf. injection Hf as _ _ Hf _ _ _.
  split; [by rewrite Hf|]. split; [by rewrite (live_same t' t c E)|]. unfold leftPlayerCount. rewrite (alive_eq t t'); [done|]. intros j. by apply live_same.
Qed.

Lemma to_move_facts t c : to_move t c → Book cfg ps t ∧ (c < GAME_PLAYER)%nat ∧ (c < length (players_ t))%nat ∧ IsExistUser t c = true ∧ out t c = false ∧ is_current t c = true ∧
  0 < followScore_ t ∧ CellScore cfg <= tableScore_ (pl t c) <= ScoreByChairId t c.
Proof.
  intros (Hm & Hc & Hl & _). pose proof (md_book _ _ _ Hm) as Hb. pose proof (live_chair cfg ps t c Hb Hl) as Hcc. destruct (live_facts cfg ps t c Hb Hl) as (f & u & _ & _ & _ & Hs & _ & Ht).
  rewrite Hs, (bk_len _ _ _ Hb). pose proof Hl as [He Ho%negb_true_iff]%andb_true_iff. split_and!; try done; [by apply bool_decide_eq_true| |lia..].
  destruct Hcfg as (_ & _ & _ & _ & Hj). rewrite Forall_forall in Hj. by apply Hj, (md_chip _ _ _ Hm).
Qed.

Lemma follow_range t c : to_move t c → 0 < CurrentFollowScore t c ∧ CurrentCompareScore t c = 2 * CurrentFollowScore t c.
Proof. intros H. destruct (to_move_facts t c H) as (_ & _ & _ & _ & _ & _ & Hf & _). unfold CurrentCompareScore, CurrentFollowScore. destruct (isLooked_ (pl t c)); lia. Qed.

Lemma frame_put i s op t : frame (put_bet i s op t) = frame t.
Proof. done. Qed.

(** The bet of the player to move leaves him to move. *)
Lemma put_to_move t c s op : to_move t c → 0 <= s → s + tableScore_ (pl t c) <= ScoreByChairId t c → to_move (put_bet c s op t) c.
Proof.
  intros Ht Hs Hle. pose proof Ht as (Hm & Hc & Hl & H2). pose proof (md_book _ _ _ Hm) as Hb. split; [|split; [done|split; [by rewrite live_put|]]].
  - apply (Mid_from cfg ps t); [done|done|apply (md_chip _ _ _ Hm)|by apply Book_put|apply Bets_put, (md_bets cfg ps); done|].
    destruct (md_bank _ _ _ Hm) as (b & Hbk & Hlb). exists b. split; [done|]. by rewrite live_put.
  - unfold leftPlayerCount. rewrite (alive_eq t); [done|]. intros j. apply live_put.
Qed.

(** ** A player loses a comparison *)

(** [t1] is the table after player [i] has lost, before the bank passes on and he pays. *)
Lemma lost_step t t1 c i : to_move t c → live t i = true → core t1 = core (knock i t) →
  ∃ n, (if is_bank t1 i then move_bank t1 else Some t1) = Some (t1 <| bankerUser_ := Some n |>) ∧
    let t2 := write_lost i (t1 <| bankerUser_ := Some n |>) in Mid t2 ∧ leftPlayerCount t = S (leftPlayerCount t2) ∧ clock t2 = clock t ∧
    isComparedLost_ (pl t2 i) = true ∧ (∀ k, live t k = true → isComparedLost_ (pl t2 k) = bool_decide (i = k)).
Proof.
  intros (Hm & Hc & Hlc & H2) Hi E. pose proof (md_book _ _ _ Hm) as Hb. pose proof (live_chair cfg ps t i Hb Hi) as Hic. rewrite <- (bk_len _ _ _ Hb) in Hic.
  assert (∀ j, live t1 j = live t j && negb (i =? j)%nat) as Hl by (intros j; rewrite (live_same t1 _ j E); by apply knock_live).
  assert (bankerUser_ t1 = bankerUser_ t) as Hbk by exact (bank_core _ _ E).
  destruct (bank_passes cfg ps t t1 i Hb H2 (md_bank _ _ _ Hm) Hbk Hl) as (n & En & Hn). exists n. cbv zeta. split; [exact En|]. rewrite write_lost_bank.
  destruct (write_lost_keeps i t1) as (K1 & K2 & K3). set (t2 := write_lost i t1 <| bankerUser_ := Some n |>).
  assert (core (write_lost i t1) = core (knocked i t)) as Ek by (unfold knocked; by rewrite !write_lost_core, E).
  assert (∀ j, live t2 j = live t j && negb (i =? j)%nat) as Hl2 by (intros j; change (live t2 j) with (live (write_lost i t1) j); rewrite live_write_lost; apply Hl).
  assert (frame t2 = frame t) as Hf by (etransitivity; [exact K1|exact (frame_core _ _ E)]).
  destruct (Mid_out cfg ps t t2 i Hm Hi H2) as [M1 M2]; try done.
  - etransitivity; [exact K3|exact (follow_core _ _ E)].
  - apply (Book_fields cfg ps (write_lost i t1)); try done. apply (Book_same cfg ps (knocked i t)); [done|]. by apply Book_knocked.
  - change (Bets cfg (write_lost i t1)). apply (Bets_same cfg (knocked i t)); [done|]. by apply Bets_knocked, (md_bets cfg ps).
  - exists n. split; [done|]. change (live (write_lost i t1) n = true). by rewrite live_write_lost.
  - split; [done|]. split; [done|]. split; [by apply clock_frame|].
    assert (∀ k, isComparedLost_ (pl t2 k) = if decide (i = k) then true else isComparedLost_ (pl t k)) as Hk.
    { intros k. change (pl t2 k) with (pl (write_lost i t1) k). rewrite (same_pl isComparedLost_ _ (knocked i t) k ltac:(done) Ek). by apply knocked_lost. }
    split; [by rewrite Hk, decide_True|]. intros k Hlk. rewrite Hk. apply (live_player cfg ps t k Hb) in Hlk as [_ [_ Hlk]%orb_false_iff].
    case_decide; [by rewrite bool_decide_true|by rewrite bool_decide_false].
Qed.

(** The statistics after a comparison. *)
Lemma weighed_pair t i j : Mid t → is_Some (ps i) → is_Some (ps j) → isComparedLost_ (pl t j) = negb (isComparedLost_ (pl t i)) →
  ∃ t', weigh_compared i j t = Some t' ∧ Mid t' ∧ leftPlayerCount t' = leftPlayerCount t ∧ clock t' = clock t.
Proof.
  intros Hm Hi Hj Hl. pose proof (md_book _ _ _ Hm) as Hb.
  destruct (weigh_some i j t (bk_hands _ _ _ Hb i Hi) (bk_hands _ _ _ Hb j Hj) Hl) as (t' & E & Ec). exists t'. split; [done|]. split; [by apply (same_mid t)|].
  split; [|by apply clock_frame, frame_core]. unfold leftPlayerCount. rewrite (alive_eq t t'); [done|]. intros k. by apply live_same.
Qed.

(** ** All in *)

Lemma all_in_loop d c l t : Book cfg ps t → live t c = true → (∃ t', OnUserAllIn_loop cfg d c l t = Some t' ∧ (core t' = core t ∨ core t' = core (knock c t))).
Proof.
  revert t. induction l as [|n l IH]; intros t Hb Hc; cbn [OnUserAllIn_loop]; [exists t; split; [done|by left]|].
  destruct ((n =? c)%nat || negb (live t n)) eqn:En; [by apply IH|]. apply orb_false_iff in En as [_ Hn%negb_false_iff].
  destruct (Analyse_book cfg ps d c n (note_compared c n t)) as (t1 & -> & E1).
  { by apply (Book_same cfg ps t); [rewrite note_compared_core|]. }
  { by rewrite (live_same _ t c (note_compared_core c n t)). }
  { by rewrite (live_same _ t n (note_compared_core c n t)). }
  rewrite note_compared_core in E1. cbn [mbind option_bind].
  destruct (compare_hands_some cfg ps t1 c n) as (r & t2 & -> & E2). cbn [mbind option_bind]. rewrite E1 in E2. destruct (r <? 0).
  - eexists. split; [done|]. right. by rewrite result_core, compare_lost_core, !knock_core, E2.
  - destruct (IH t2) as (t' & E & [H|H]); [by apply (Book_same cfg ps t)|by rewrite (live_same t2 t c E2)| |]; exists t'; (split; [done|]); [left|right]; [congruence|]. by rewrite H, !knock_core, E2.
Qed.

(** What a stake of the present turn is: a bet of the player, so at most his stake above the floor. *)
Lemma last_bet t i : Bets cfg t → 0 <= currentTurn_ t < MAX_ROUND → live t i = true → ∃ x, GetLastBetScore t i = Some x ∧ 0 <= x <= tableScore_ (pl t i) - CellScore cfg.
Proof.
  intros Hm Ht Hl. destruct (Hm i Hl) as [Hs Hf]. unfold GetLastBetScore.
  rewrite (proj2 (Z.leb_le _ _)), (proj2 (Z.ltb_lt _ _)) by lia. cbn [andb assert mbind option_bind]. eexists. split; [done|]. rewrite Hs.
  assert (∀ l : list betinfo_t, Forall (λ b, 0 <= score b) l → 0 <= sumZ (map score l) ∧ ∀ k, 0 <= match l !! k with Some b => score b | None => 0 end <= sumZ (map score l)) as H.
  { induction l as [|b l IH]; intros Hl'; [split; [done|intros k; by rewrite lookup_nil]|]. apply Forall_cons in Hl' as [Hb Hl']. destruct (IH Hl') as [I1 I2].
    unfold sumZ in *. cbn [map foldr]. split; [lia|]. intros [|k]; [change ((b :: l) !! 0%nat) with (Some b); lia|]. change ((b :: l) !! S k) with (l !! k). specialize (I2 k). lia. }
  destruct (H _ Hf) as [_ Hk]. specialize (Hk (Z.to_nat (currentTurn_ t))). lia.
Qed.

(** Those who lose against the one who is all in. *)
Definition beaten (c : nat) (l : list nat) (t t' : Table) : Prop :=
  Book cfg ps t' ∧ Bets cfg t' ∧ frame t' = frame t ∧ bankerUser_ t' = bankerUser_ t ∧ followScore_ t' = followScore_ t ∧
  (∀ j, live t' j = live t j && negb (bool_decide (j ∈ l) && negb (j =? c)%nat)) ∧
  (∀ j, isComparedLost_ (pl t j) = true → isComparedLost_ (pl t' j) = true) ∧ (∀ j, live t j = true → j ≠ c → j ∈ l → isComparedLost_ (pl t' j) = true).

Lemma beats_one d left compare i t : draw_ok d → 0 <= left <= compare → 0 < compare → Book cfg ps t → Bets cfg t → 0 <= currentTurn_ t < MAX_ROUND → live t i = true →
  ∃ t', OnUserAllIn_beats d left compare i t = Some t' ∧ Book cfg ps t' ∧ Bets cfg t' ∧ frame t' = frame t ∧ bankerUser_ t' = bankerUser_ t ∧ followScore_ t' = followScore_ t ∧
    (∀ j, live t' j = live t j && negb (i =? j)%nat) ∧ (∀ j, isComparedLost_ (pl t' j) = if decide (i = j) then true else isComparedLost_ (pl t j)).
Proof.
  intros Hd Hlc Hc Hb Hbt Ht Hl. destruct (last_bet t i Hbt Ht Hl) as (x & Hx & Hr). unfold OnUserAllIn_beats.
  set (t1 := upd i _ (compare_lost i t)). assert (core t1 = core (knock i t)) as E1 by (unfold t1; by rewrite result_core, compare_lost_core).
  pose proof (live_chair cfg ps t i Hb Hl) as Hic. rewrite <- (bk_len _ _ _ Hb) in Hic.
  assert (GetLastBetScore t1 i = GetLastBetScore t i) as -> .
  { assert (betinfo_ (pl t1 i) = betinfo_ (pl t i)) as E by (rewrite (same_pl betinfo_ t1 (knock i t) i ltac:(done) E1); unfold knock; by rewrite pl_upd, decide_True).
    unfold GetLastBetScore. by rewrite E. }
  rewrite Hx. cbn [mbind option_bind]. eexists. split; [done|].
  set (z := if 0 <? x then - d_refund d x left compare else 0). set (ts := if 0 <? x then stake i z t else t).
  assert (core (if 0 <? x then stake i (- d_refund d x left compare) t1 else t1) = core (knock i ts)) as E2.
  { unfold ts, z. destruct (0 <? x); [|done]. by rewrite stake_core, E1, <- stake_core, stake_knock. }
  assert (- (tableScore_ (pl t i) - CellScore cfg) <= z <= 0) as Hz.
  { unfold z. destruct (0 <? x) eqn:Ex; [|lia]. pose proof (Hd x left compare ltac:(lia) ltac:(lia) Hc). lia. }
  destruct (live_facts cfg ps t i Hb Hl) as (f & u & _ & _ & _ & Hsc & _ & Hch).
  assert (Book cfg ps ts ∧ (∀ j, live ts j = live t j) ∧ frame ts = frame t ∧ bankerUser_ ts = bankerUser_ t ∧ followScore_ ts = followScore_ t ∧
    (∀ j, isComparedLost_ (pl ts j) = isComparedLost_ (pl t j))) as (B1 & B2 & B3 & B4 & B5 & B6).
  { unfold ts. destruct (0 <? x); [|done]. split; [apply Book_stake; [done|done|lia|rewrite Hsc; lia]|].
    split; [intros j; change (live (upd i (λ p, p <| tableScore_ ::= Z.add z |>) t) j = live t j); by apply live_upd|]. split; [done|]. split; [done|]. split; [done|].
    intros j. change (isComparedLost_ (pl (upd i (λ p, p <| tableScore_ ::= Z.add z |>) t) j) = isComparedLost_ (pl t j)). rewrite pl_upd by done. by case_decide. }
  assert (Bets cfg (knocked i ts)) as B7.
  { unfold knocked. apply Bets_write_lost. intros j. unfold ts. destruct (0 <? x); [|by apply Bets_upd; [intros p _ Hp; unfold plive, pout in Hp; by rewrite orb_true_r, andb_false_r in Hp|]].
    rewrite <- stake_knock. unfold stake. change (bets_ok cfg (pl (upd i (λ p, p <| tableScore_ ::= Z.add z |>) (knock i t)) j)). unfold knock.
    rewrite pl_upd by (by rewrite upd_length). rewrite pl_upd by done. case_decide; [|apply Hbt].
    intros Hp. unfold plive, pout in Hp. change (isComparedLost_ (pl t j <| isComparedLost_ := true |> <| tableScore_ ::= Z.add z |>)) with true in Hp. by rewrite orb_true_r, andb_false_r in Hp. }
  set (t3 := if 0 <? x then _ else t1) in *. clearbody t3. assert (core (write_lost i t3) = core (knocked i ts)) as E3 by (unfold knocked; by rewrite !write_lost_core, E2).
  assert (i < length (players_ ts))%nat as Hic2 by (rewrite (bk_len _ _ _ B1); by rewrite (bk_len _ _ _ Hb) in Hic).
  split_and!.
  - apply (Book_same cfg ps (knocked i ts)); [done|]. apply Book_knocked; [done|]. by rewrite B2.
  - by apply (Bets_same cfg (knocked i ts)).
  - rewrite (frame_core _ _ E3). etransitivity; [apply (write_lost_keeps i (knock i ts))|exact B3].
  - rewrite (bank_core _ _ E3). etransitivity; [apply (write_lost_keeps i (knock i ts))|exact B4].
  - rewrite (follow_core _ _ E3). etransitivity; [apply (write_lost_keeps i (knock i ts))|exact B5].
  - intros j. rewrite (live_same _ _ j E3), live_knocked by done. by rewrite B2.
  - intros j. rewrite (same_pl isComparedLost_ _ _ j ltac:(done) E3), <- B6. by apply knocked_lost.
Qed.

Lemma beat_all d left compare c l t : draw_ok d → 0 <= left <= compare → 0 < compare → Book cfg ps t → Bets cfg t → 0 <= currentTurn_ t < MAX_ROUND →
  ∃ t', OnUserAllIn_beat d left compare c l t = Some t' ∧ beaten c l t t'.
Proof.
  intros Hd Hlc Hc. revert t. induction l as [|i l IH]; intros t Hb Hbt Ht; cbn [OnUserAllIn_beat].
  { exists t. split; [done|]. unfold beaten. split_and!; try done; [|by intros j _ _ ?%elem_of_nil]. intros j. rewrite bool_decide_false by apply not_elem_of_nil. by rewrite andb_true_r. }
  destruct ((i =? c)%nat || negb (live t i)) eqn:E.
  - cbn [mbind option_bind]. destruct (IH t Hb Hbt Ht) as (t' & Et & B1 & B2 & B3 & B4 & B5 & B6 & B7 & B8). exists t'. split; [done|]. unfold beaten. split_and!; try done.
    + intros j. rewrite B6. destruct (decide (j = i)) as [->|Hne].
      * apply orb_true_iff in E as [->|E%negb_true_iff]; [by rewrite !andb_false_r|by rewrite E].
      * do 3 f_equal. apply bool_decide_ext. rewrite elem_of_cons. tauto.
    + intros j Hj Hjc [->|Hin]%elem_of_cons; [|by apply B8]. apply orb_true_iff in E as [->%Nat.eqb_eq|E%negb_true_iff]; [done|congruence].
  - apply orb_false_iff in E as [Hic%Nat.eqb_neq Hli%negb_false_iff].
    destruct (beats_one d left compare i t Hd Hlc Hc Hb Hbt Ht Hli) as (t1 & -> & H1 & H2 & H3 & H4 & H5 & H6 & H7). cbn [mbind option_bind].
    assert (currentTurn_ t1 = currentTurn_ t) as Ht1 by (unfold frame in H3; by injection H3).
    destruct (IH t1 H1 H2 ltac:(by rewrite Ht1)) as (t' & Et & B1 & B2 & B3 & B4 & B5 & B6 & B7 & B8). exists t'. split; [done|]. unfold beaten. split_and!; try done; try congruence.
    + intros j. rewrite B6, H6. destruct (decide (j = i)) as [->|Hne].
      * rewrite Nat.eqb_refl. rewrite (bool_decide_true (i ∈ i :: l)) by (by left). rewrite (proj2 (Nat.eqb_neq i c)) by done. by rewrite !andb_false_r.
      * rewrite (proj2 (Nat.eqb_neq i j)) by done. cbn [negb]. rewrite andb_true_r. do 3 f_equal. apply bool_decide_ext. rewrite elem_of_cons. tauto.
    + intros j Hj. apply B7. rewrite H7. by case_decide.
    + intros j Hj Hjc Hin. destruct (decide (j = i)) as [->|Hne]; [apply B7; by rewrite H7, decide_True|].
      apply elem_of_cons in Hin as [->|Hin]; [done|]. apply B8; [|done..]. rewrite H6, Hj. by rewrite (proj2 (Nat.eqb_neq i j)).
Qed.

(** The winner of an all-in takes all. *)
Lemma all_in_wins d c left compare t : draw_ok d → 0 <= left <= compare → 0 < compare → to_move t c →
  ∃ t1 b, OnUserAllIn_beat d left compare c chairs t = Some t1 ∧ bankerUser_ t = Some b ∧ bankerUser_ t1 = Some b ∧ (b ≠ c → isComparedLost_ (pl t1 b) = true) ∧
    leftPlayerCount t1 = 1%nat ∧ ∃ t', OnEventGameConclude cfg (t1 <| bankerUser_ := Some c |>) = Some t' ∧ Over cfg ps t'.
Proof.
  intros Hd Hlc Hc Htm. pose proof Htm as (Hm & Hcur & Hl & H2). pose proof (md_book _ _ _ Hm) as Hb. destruct (md_bank _ _ _ Hm) as (b & Hbk & Hlb).
  destruct (beat_all d left compare c chairs t Hd Hlc Hc Hb (md_bets _ _ _ Hm) (md_turn _ _ _ Hm)) as (t1 & E & B1 & B2 & B3 & B4 & B5 & B6 & B7 & B8).
  exists t1, b. split; [done|]. split; [done|]. split; [by rewrite B4|]. split; [intros Hne; apply B8; [done..|]; by apply elem_chairs, (live_chair cfg ps t)|].
  assert (∀ j, live t1 j = true ↔ j = c) as Hj.
  { intros j. rewrite B6, andb_true_iff, negb_true_iff, andb_false_iff, bool_decide_eq_false, negb_false_iff, Nat.eqb_eq. split; [|intros ->; by split; [|right]].
    intros [Hlj [Hno|Heq]]; [|done]. destruct Hno. by apply elem_chairs, (live_chair cfg ps t). }
  assert (alive t1 = [c]) as Ha.
  { pose proof (alive_NoDup t1) as Hn. assert (∀ j, j ∈ alive t1 ↔ j = c) as Hin by (intros j; rewrite (alive_live cfg ps t1 j B1); apply Hj). destruct (alive t1) as [|x [|y l]].
    - exfalso. by apply (not_elem_of_nil c), Hin.
    - f_equal. apply Hin. by left.
    - exfalso. apply NoDup_cons in Hn as [Hn _]. apply Hn. rewrite (proj1 (Hin x)) by (by left). rewrite <- (proj1 (Hin y)) by (right; by left). by left. }
  split; [unfold leftPlayerCount; by rewrite Ha|].
  destruct (last_settles cfg Hcfg ps (t1 <| bankerUser_ := Some c |>)) as (t' & E' & Ho); [|unfold leftPlayerCount; change (alive (t1 <| bankerUser_ := Some c |>)) with (alive t1); by rewrite Ha|by exists t'].
  apply (Mid_from cfg ps t); [done|exact B3| |by apply (Book_fields cfg ps t1)|exact B2|].
  - change (followScore_ t1 ∈ JettionList cfg). rewrite B5. apply (md_chip _ _ _ Hm).
  - exists c. split; [done|]. by apply Hj.
Qed.

Lemma OnUserAllIn_moves d c n t : draw_ok d → to_move t c → live t n = true → n ≠ c →
  (CurrentCompareScore t c + tableScore_ (pl t c) < ScoreByChairId t c → OnUserAllIn cfg d c n t = Some (false, t <| timerIdWaiting_ := false |>)) ∧
  (ScoreByChairId t c <= CurrentCompareScore t c + tableScore_ (pl t c) → ∃ t', OnUserAllIn cfg d c n t = Some (true, t') ∧ moved t t').
Proof.
  intros Hd Htm0 Hn Hne. set (t0 := t <| timerIdWaiting_ := false |>). assert (to_move t0 c) as Htm by (by apply to_move_timer).
  destruct (to_move_facts t0 c Htm) as (Hb & Hcc & Hlen & Hex & Hout & Hcur & Hf & Hts). destruct (follow_range t0 c Htm) as [Hfr Hcmp].
  pose proof Hn as [Hne' Hno%negb_true_iff]%andb_true_iff. unfold OnUserAllIn. fold t0. change (IsExistUser t0 n) with (IsExistUser t n). change (out t0 n) with (out t n).
  rewrite Hex, Hout, Hcur, Hne', Hno, (proj2 (Nat.eqb_neq c n)) by congruence. cbn [negb orb].
  change (CurrentCompareScore t c) with (CurrentCompareScore t0 c). change (pl t c) with (pl t0 c). change (ScoreByChairId t c) with (ScoreByChairId t0 c).
  split; intros Hle; [by rewrite (proj2 (Z.ltb_lt _ _))|]. rewrite (proj2 (Z.ltb_ge _ _)) by lia. set (left := ScoreByChairId t0 c - tableScore_ (pl t0 c)). rewrite (proj2 (Z.ltb_ge left 0)) by lia.
  destruct (all_in_loop d c (ring n) (note_bet c left OP_ALLIN t0)) as (t1 & -> & E1).
  { unfold note_bet. apply Book_upd; [done|done|]. by apply (to_move_facts t0 c Htm). }
  { unfold note_bet. rewrite live_upd by done. apply Htm. }
  cbn [mbind option_bind]. set (tp := put_bet c left OP_ALLIN t0).
  assert (to_move tp c) as Hp by (apply put_to_move; [done|lia|lia]). set (t2 := stake c left t1).
  assert (core t2 = core tp ∨ core t2 = core (knock c tp)) as E2.
  { unfold t2, tp, put_bet. rewrite !stake_core. destruct E1 as [-> | ->]; [by left|right]. by rewrite <- stake_knock, stake_core. }
  assert (∃ b, bankerUser_ t2 = Some b ∧ bankerUser_ tp = Some b) as (b & Hbk & Hbp).
  { destruct (md_bank _ _ _ (proj1 Hp)) as (b & Hbk & _). exists b. split; [|done]. rewrite <- Hbk. destruct E2 as [E2|E2]; exact (bank_core _ _ E2). }
  rewrite Hbk. cbn [mbind option_bind]. assert (clock tp = clock t) as Hck by done.
  assert (isComparedLost_ (pl tp c) = false) as Hcl by (assert (out tp c = false) as Ho by (by apply (to_move_facts tp c Hp)); by apply orb_false_iff in Ho as [_ ?]).
  destruct E2 as [E2|E2].
  - rewrite (same_pl isComparedLost_ t2 tp c ltac:(done) E2), Hcl. cbn [negb]. assert (to_move t2 c) as Htm2 by (by apply (same_to_move tp)).
    destruct (all_in_wins d c left (CurrentCompareScore t0 c) t2 Hd ltac:(lia) ltac:(lia) Htm2) as (t3 & b' & -> & Hb' & Hb3 & Hlost & H1 & t' & E & Ho). cbn [mbind option_bind].
    rewrite Hbk in Hb'. injection Hb' as <-.
    assert ((if (b =? c)%nat then Some t3 else _ ← assert (isComparedLost_ (pl t3 b)); Some (t3 <| bankerUser_ := Some c |>)) = Some (t3 <| bankerUser_ := Some c |>)) as ->.
    { destruct (Nat.eqb_spec b c) as [->|Hbc]; [by rewrite set_bank|by rewrite (Hlost Hbc)]. }
    cbn [mbind option_bind]. change (leftPlayerCount (t3 <| bankerUser_ := Some c |>)) with (leftPlayerCount t3). rewrite H1. cbn [Nat.leb]. rewrite E.
    exists t'. split; [done|by right].
  - assert (isComparedLost_ (pl t2 c) = true) as ->.
    { rewrite (same_pl isComparedLost_ t2 (knock c tp) c ltac:(done) E2). unfold knock. rewrite pl_upd, decide_True; [done..|]. by apply (to_move_facts tp c Hp). }
    cbn [negb]. destruct (lost_step tp t2 c c Hp) as (m & Em & Hm2 & Hcount & Hclock & Hlost & _); [apply Hp|done|]. unfold is_bank in Em. rewrite Hbk in Em.
    assert ((if (b =? c)%nat then move_bank t2 else Some t2) = Some (t2 <| bankerUser_ := Some m |>)) as ->.
    { rewrite <- Em. destruct (Nat.eqb_spec b c) as [->|Hbc]; [by rewrite bool_decide_true|rewrite bool_decide_false by congruence; done]. }
    cbn [mbind option_bind]. set (t3 := write_lost c _) in *. pose proof (proj2 (proj2 (proj2 Hp))) as H2.
    destruct (Nat.leb_spec 2 (leftPlayerCount t3)) as [Hge|Hlt].
    + destruct (turn_moves cfg Hcfg ps d t3 Hm2 Hge) as (t4 & -> & Hpl & t' & E' & Hmv). cbn [mbind option_bind]. rewrite Hpl, Hlost. cbn [assert mbind option_bind]. rewrite E'.
      exists t'. split; [done|]. unfold ZjhRoundSteps.moved in *. by rewrite <- Hck, <- Hclock.
    + destruct (last_settles cfg Hcfg ps t3 Hm2) as (t' & -> & Ho); [lia|]. exists t'. split; [done|by right].
Qed.

(** ** Stakes *)

Lemma next_other t c s : to_move t c → ∃ n, GetNextUser_from t s true = Some n ∧ live t n = true ∧ n ≠ c.
Proof.
  intros (Hm & Hc & Hl & H2). destruct (two_live t c H2) as (j & Hj & Hjc). pose proof (alive_lt t j Hj) as Hjlt. apply (alive_live cfg ps t j (md_book _ _ _ Hm)) in Hj.
  destruct (GetNextUser_from_some t s true j Hjlt Hj) as (n & En & Hn & Hcur); [intros _; unfold is_current; rewrite Hc; apply bool_decide_eq_false; congruence|].
  exists n. split; [done|]. split; [done|]. intros ->. specialize (Hcur eq_refl). unfold is_current in Hcur. rewrite Hc in Hcur. by apply bool_decide_eq_false in Hcur.
Qed.

Lemma all_in_next_moves d c t : draw_ok d → to_move t c →
  (CurrentCompareScore t c + tableScore_ (pl t c) < ScoreByChairId t c → all_in_next cfg d c t = Some (false, t <| timerIdWaiting_ := false |>)) ∧
  (ScoreByChairId t c <= CurrentCompareScore t c + tableScore_ (pl t c) → ∃ t', all_in_next cfg d c t = Some (true, t') ∧ moved t t').
Proof. intros Hd Htm. destruct (next_other t c (c + 1) Htm) as (n & En & Hn & Hne). unfold all_in_next. rewrite En. by apply OnUserAllIn_moves. Qed.

Lemma bet_moves d c s op t : draw_ok d → to_move t c → 0 <= s <= CurrentCompareScore t c → ∃ t', bet cfg d c s op t = Some (true, t') ∧ moved t t'.
Proof.
  intros Hd Htm Hs. unfold bet. destruct (Z.leb_spec (ScoreByChairId t c) (s + tableScore_ (pl t c))) as [Hle|Hlt].
  - apply all_in_next_moves; [done..|]. lia.
  - assert (note_bet c s op (stake c s t) = put_bet c s op t) as ->.
    { unfold put_bet, stake, note_bet. change (upd c (λ p, p <| betinfo_ ::= λ l, l ++ [MkBet (jettonValue_ t) s op] |>) (upd c (λ p, p <| tableScore_ ::= Z.add s |>) t) <| tableAllScore_ ::= Z.add s |>
        = upd c (λ p, p <| tableScore_ ::= Z.add s |>) (upd c (λ p, p <| betinfo_ ::= λ l, l ++ [MkBet (jettonValue_ t) s op] |>) t) <| tableAllScore_ ::= Z.add s |>). by rewrite upd_comm. }
    assert (to_move (put_bet c s op t) c) as (Hm & _ & _ & H2) by (apply put_to_move; [done|lia..]).
    destruct (turn_moves cfg Hcfg ps d _ Hm H2) as (t1 & -> & _ & t' & E & Hmv). cbn [mbind option_bind]. rewrite E. by exists t'.
Qed.

(** The chips above the one that is followed. *)
Lemma GetCurrentAddStart_spec t : followScore_ t ∈ JettionList cfg →
  ∃ k, JettionList cfg !! k = Some (followScore_ t) ∧
    GetCurrentAddStart cfg t = Some (if (S k <? length (JettionList cfg))%nat then Z.of_nat (S k) else -1).
Proof.
  intros Hin. destruct Hcfg as (_ & _ & _ & Hord & Hpos). rewrite Forall_forall in Hpos. unfold GetCurrentAddStart. rewrite (proj2 (Z.ltb_lt _ _)) by (by apply Hpos).
  cbn [assert mbind option_bind]. destruct (list_find (λ j, followScore_ t = j) (JettionList cfg)) as [[k x]|] eqn:E.
  - apply list_find_Some in E as (Hk & <- & _). exists k. split; [done|]. destruct (Nat.ltb_spec (S k) (length (JettionList cfg))) as [Hlt|]; [|done].
    destruct (lookup_lt_is_Some_2 _ _ Hlt) as [y Hy]. rewrite (aget_lookup _ _ _ Hy), (proj2 (Z.ltb_lt _ _)) by (by apply (Hord k (S k) _ _ ltac:(lia) Hk Hy)).
    cbn [assert mbind option_bind]. assert (forallb (λ j, (JettionList cfg).[j - 1] <? (JettionList cfg).[j]) (seq (S (S k)) (length (JettionList cfg) - S (S k))) = true) as ->; [|done].
    apply List.forallb_forall. intros j [H1 H2]%in_seq. apply Z.ltb_lt. destruct (lookup_lt_is_Some_2 (JettionList cfg) (j - 1)) as [a Ha]; [lia|].
    destruct (lookup_lt_is_Some_2 (JettionList cfg) j) as [b Hb]; [lia|]. rewrite (aget_lookup _ _ _ Ha), (aget_lookup _ _ _ Hb). by apply (Hord (j - 1)%nat j); [lia|..].
  - apply list_find_None in E. rewrite Forall_forall in E. by destruct (E _ Hin).
Qed.

(** The message is refused: only the timer is gone. *)
Definition refused (t : Table) : Table := t <| timerIdWaiting_ := false |>.

Lemma OnUserAddScore_moves d c index t : draw_ok d → to_move t c →
  (∃ t', OnUserAddScore cfg d c index t = Some (true, t') ∧ moved t t') ∨
  (OnUserAddScore cfg d c index t = Some (false, refused t) ∧ 0 < index).
Proof.
  intros Hd Htm0. pose proof (to_move_timer t c false Htm0) as Htm. fold (refused t) in Htm. unfold OnUserAddScore. fold (refused t).
  destruct (to_move_facts _ c Htm) as (Hb & Hcc & Hlen & Hex & Hout & Hcur & Hf & Hts). destruct (follow_range _ c Htm) as [Hfr Hcmp]. rewrite Hex, Hout, Hcur. cbn [negb].
  assert (∃ t', bet cfg d c (CurrentFollowScore (refused t) c) OP_FOLLOW (refused t) = Some (true, t') ∧ moved t t') as Hfollow by (apply (bet_moves d c _ OP_FOLLOW (refused t)); [done..|lia]).
  destruct (Z.leb_spec index 0) as [Hi|Hi]; [by left|].
  destruct (GetCurrentAddStart_spec (refused t) (md_chip _ _ _ (proj1 Htm))) as (k & Hk & ->). cbn [mbind option_bind]. set (start := if (S k <? _)%nat then _ else _).
  destruct ((start <=? 0) || (index <? start)) eqn:Es; [destruct (IsAndroidUser (refused t) c); [by left|by right]|]. apply orb_false_iff in Es as [Es1%Z.leb_gt Es2%Z.ltb_ge].
  destruct (Z.leb_spec (Z.of_nat (length (JettionList cfg))) index) as [Hl|Hl]; [by right|]. left.
  unfold selectAddIndex. rewrite (proj2 (Z.leb_gt _ _)), (proj2 (Z.ltb_ge _ _)) by lia. cbn [orb]. set (j := (JettionList cfg).[Z.to_nat index]). set (t1 := refused t <| jettonValue_ := j |> <| followScore_ := j |>).
  assert (j ∈ JettionList cfg) as Hj by (destruct (lookup_lt_is_Some_2 (JettionList cfg) (Z.to_nat index)) as [x Hx]; [lia|]; unfold j; rewrite (aget_lookup _ _ _ Hx); by eapply list_elem_of_lookup_2).
  assert (to_move t1 c) as Htm1.
  { destruct Htm as (Hm & H1 & H2 & H3). split; [|by repeat split]. apply (Mid_from cfg ps (refused t)); [done|done|exact Hj|by apply (Book_fields cfg ps (refused t))|apply (md_bets _ _ _ Hm)|apply (md_bank _ _ _ Hm)]. }
  destruct (follow_range t1 c Htm1) as [F1 F2]. apply (bet_moves d c _ OP_ADD t1); [done..|]. unfold CurrentAddScore. lia.
Qed.
End Moves.
