(* ===== verification/ZjhRoundEvents.v ===== *)
(** Golden flower, comparisons, the timer and the messages: every event of a round has a
    result, and what it may lead to. *)
From stdpp Require Import base option numbers sorting sets list.
From Stdlib Require Import ZArith Lia.
From S2P Require Import Prelude GameDefine ZjhLogic ZjhRound ZjhEntry ZjhRoundInv ZjhRoundTurn ZjhRoundEnd ZjhRoundSteps ZjhRoundMoves.

#[local] Open Scope Z_scope.

(** ** The bank and a stake *)

Lemma find_ext {A} (f g : A → bool) l : (∀ x, f x = g x) → find f l = find g l.
Proof. intros H. induction l as [|x l IH]; [done|]. cbn [find]. by rewrite H, IH. Qed.

Lemma live_stake i s t j : live (stake i s t) j = live t j.
Proof. change (live (upd i (λ p, p <| tableScore_ ::= Z.add s |>) t) j = live t j). by apply live_upd. Qed.

Lemma move_bank_stake i s t : move_bank (stake i s t) = stake i s <$> move_bank t.
Proof.
  unfold move_bank. change (bankerUser_ (stake i s t)) with (bankerUser_ t). destruct (bankerUser_ t) as [b|]; [|done]. cbn [mbind option_bind].
  assert (GetNextUser_from (stake i s t) (b + 1) false = GetNextUser_from t (b + 1) false) as -> by (apply find_ext; intros j; by rewrite live_stake).
  by destruct (GetNextUser_from t (b + 1) false).
Qed.

Section Events.
Context (cfg : Config) (Hcfg : config_ok cfg) (ps : nat → option userinfo_t).

#[local] Abbreviation Mid := (Mid cfg ps).
#[local] Abbreviation Playing := (Playing cfg ps).
#[local] Abbreviation moved := (moved cfg ps).
#[local] Abbreviation follows := (follows cfg ps).
#[local] Abbreviation to_move := (to_move cfg ps).

(** ** Comparing *)

Lemma OnUserCompareCard_moves d c n t : draw_ok d → to_move t c → live t n = true → n ≠ c → ∃ t', OnUserCompareCard cfg d c n t = Some (true, t') ∧ moved t t'.
Proof.
  intros Hd Htm0 Hn Hne. pose proof (to_move_timer cfg ps t c false Htm0) as Htm. unfold OnUserCompareCard. fold (refused t) in Htm |- *.
  destruct (to_move_facts cfg Hcfg ps _ c Htm) as (_ & _ & _ & Hex & Hout & Hcur & _ & _). pose proof Hn as [Hne' Hno%negb_true_iff]%andb_true_iff.
  change (IsExistUser (refused t) n) with (IsExistUser t n). change (out (refused t) n) with (out t n).
  rewrite Hex, Hout, Hcur, Hne', Hno, (proj2 (Nat.eqb_neq c n)) by congruence. cbn [negb orb].
  destruct (Analyse_book cfg ps d c n (refused t)) as (t1 & -> & E1); [by apply (to_move_facts cfg Hcfg ps _ c Htm)|apply Htm|done|]. cbn [mbind option_bind]. pose proof (same_to_move cfg ps _ t1 c E1 Htm) as Htm1.
  assert (live t1 n = true) as Hn1 by (rewrite (live_same t1 _ n E1); exact Hn). assert (clock t1 = clock t) as Hck by exact (clock_frame _ _ (frame_core _ _ E1)).
  set (s := CurrentCompareScore t1 c). destruct (follow_range cfg Hcfg ps t1 c Htm1) as [Hf Hs]. fold s in Hs.
  destruct (Z.leb_spec (ScoreByChairId t1 c) (s + tableScore_ (pl t1 c))) as [Hle|Hlt].
  { destruct (OnUserAllIn_moves cfg Hcfg ps d c n t1 Hd Htm1 Hn1 Hne) as [_ Hall]. destruct (Hall ltac:(lia)) as (t' & E & Hm). exists t'. split; [done|].
    unfold ZjhRoundSteps.moved in *. by rewrite <- Hck. }
  destruct (compare_hands_some cfg ps (note_bet c s OP_COMPARE t1) c n) as (r & t2 & -> & E2). cbn [mbind option_bind]. set (lost := if 0 <? r then n else c).
  set (tx := upd c _ (compare_lost lost (note_compared c n t2))). set (tp := put_bet c s OP_COMPARE t1).
  assert (to_move tp c) as Hp by (apply put_to_move; [done|lia|lia]).
  assert (core (stake c s tx) = core (knock lost tp)) as Ey.
  { unfold tx. rewrite stake_core, result_core, compare_lost_core, knock_core, note_compared_core, E2. unfold tp, put_bet. by rewrite <- knock_core, <- stake_core, stake_knock. }
  assert (live tp lost = true) as Hlost by (unfold tp; rewrite live_put; unfold lost; destruct (0 <? r); [done|apply Htm1]).
  destruct (lost_step cfg ps tp _ c lost Hp Hlost Ey) as (m & Em & Hm2 & Hcount & Hclock & _ & Hflags).
  assert ((if is_bank tx lost then move_bank tx else Some tx) = Some (tx <| bankerUser_ := Some m |>)) as ->.
  { change (is_bank (stake c s tx) lost) with (is_bank tx lost) in Em. rewrite move_bank_stake in Em. destruct (is_bank tx lost).
    - unfold move_bank in *. destruct (bankerUser_ tx) as [b|]; [|done]. cbn [mbind option_bind fmap option_fmap option_map] in *. destruct (GetNextUser_from tx (b + 1) false) as [k|]; [|done].
      cbn [mbind option_bind fmap option_fmap option_map] in *. injection Em as ->. done.
    - do 2 f_equal. injection Em as Em. assert (bankerUser_ tx = Some m) as Eb by exact Em. symmetry. by apply set_bank. }
  cbn [mbind option_bind]. change (write_lost lost (stake c s (tx <| bankerUser_ := Some m |>))) with (write_lost lost (stake c s tx <| bankerUser_ := Some m |>)).
  set (tw := write_lost lost _) in *.
  destruct (weighed_pair cfg ps tw c n Hm2) as (t3 & -> & Hm3 & Hcount3 & Hclock3).
  { apply (live_player cfg ps tp c (md_book _ _ _ (proj1 Hp))). apply Hp. }
  { apply (live_player cfg ps tp n (md_book _ _ _ (proj1 Hp))). unfold tp. by rewrite live_put. }
  { rewrite !Hflags by (unfold tp; rewrite live_put; done || apply Htm1). unfold lost.
    destruct (0 <? r); [rewrite bool_decide_true, bool_decide_false by done|rewrite bool_decide_false, bool_decide_true by congruence]; done. }
  cbn [mbind option_bind]. rewrite <- Hcount3 in Hcount. rewrite <- Hclock3 in Hclock. clear Hm2. rename Hm3 into Hm2. destruct (resolve_moves cfg Hcfg ps d t3 Hm2) as (t' & E & Hmv); [pose proof (proj2 (proj2 (proj2 Hp))); lia|].
  unfold resolve in E. rewrite E. cbn [mbind option_bind]. exists t'. split; [done|].
  assert (clock t3 = clock t) as Hk by (rewrite Hclock; exact Hck). unfold ZjhRoundSteps.moved in *. by rewrite <- Hk.
Qed.

Lemma playing_to_move t : Playing t → ∃ c, to_move t c.
Proof. intros [Hm (c & Hc & Hl) H2 _]. by exists c. Qed.

(** The user to move is out of time: the round moves. *)
Lemma onTimerWaitingOver_moves d t : draw_ok d → (d_next d < GAME_PLAYER)%nat → Playing t → ∃ t', onTimerWaitingOver cfg d t = Some t' ∧ moved t t'.
Proof.
  intros Hd _ Hp. destruct (playing_to_move t Hp) as [c Htm0]. pose proof (to_move_timer cfg ps t c false Htm0) as Htm. unfold onTimerWaitingOver. fold (refused t) in *.
  destruct (to_move_facts cfg Hcfg ps _ c Htm) as (Hb & _ & _ & Hex & Hout & Hcur & _ & _). pose proof (proj1 (proj2 Htm)) as Hc. rewrite Hc, Hout, Hex. cbn [negb].
  assert (Playing (refused t)) as Hpr by (destruct Htm as (Hm & H1 & H3 & H4); split; [done|by exists c|done|apply (pg_exceed _ _ _ Hp)]).
  pose proof (follow_range cfg Hcfg ps _ c Htm) as [Hfr Hcmp].
  assert (IsAndroidUser (refused t) c = false → ∃ t', snd <$> OnUserGiveUp cfg d c true (refused t) = Some t' ∧ moved t t') as Hgive.
  { intros Ha. destruct (OnUserGiveUp_follows cfg Hcfg ps d c true (refused t) Hpr ltac:(by rewrite Ha)) as (b & t' & -> & Hr & Hbl). exists t'. split; [done|].
    rewrite (proj1 (proj2 (proj2 Htm))) in Hbl. subst b. rewrite Hcur in Hr. apply Hr. }
  assert (∀ s, ∃ n, GetNextUser_from (refused t) s true = Some n ∧ live (refused t) n = true ∧ n ≠ c) as Hnext by (intros s; exact (next_other cfg ps (refused t) c s Htm)).
  unfold timeout_operate. destruct (IsAndroidUser (refused t) c) eqn:Ea.
  { destruct (Hnext (d_next d)) as (n & -> & Hn & Hnc). destruct (OnUserCompareCard_moves d c n (refused t) Hd Htm Hn Hnc) as (t' & -> & Hm). by exists t'. }
  destruct (_ && _); [|by apply Hgive]. destruct (ty_code _ <? ty_code _); [by apply Hgive|]. destruct (currentTurn_ (refused t) =? 0).
  - destruct (_ <? _); [by apply Hgive|]. destruct (OnUserAddScore_moves cfg Hcfg ps d c (-1) (refused t) Hd Htm) as [(t' & -> & Hm)|[_ ?]]; [by exists t'|lia].
  - destruct (Z.ltb_spec (ScoreByChairId (refused t) c) (CurrentCompareScore (refused t) c + tableScore_ (pl (refused t) c))) as [Hlt|Hge].
    + destruct (Hnext (c + 1)%nat) as (n & -> & Hn & Hnc). destruct (OnUserAllIn_moves cfg Hcfg ps d c n (refused t) Hd Htm Hn Hnc) as [_ Hall].
      destruct (Hall ltac:(lia)) as (t' & -> & Hm). by exists t'.
    + destruct (Hnext (d_next d)) as (n & -> & Hn & Hnc). destruct (OnUserCompareCard_moves d c n (refused t) Hd Htm Hn Hnc) as (t' & -> & Hm). by exists t'.
Qed.

(** ** Messages *)

(** The messages that do not end a turn. *)
Definition notes (m : Msg) : bool := match m with SUB_C_LOOK_CARD | SUB_C_GIVEUP_TIMEOUT_OP _ => true | _ => false end.

(** What a message does: nothing; it is refused but stops the timer; the sender looks at his
    hand or sets the switch of his timer; somebody else gives up; or the turn moves. *)
Inductive answer (t : Table) (c : nat) (m : Msg) : bool → Table → Prop :=
  | ans_ignored : answer t c m false t
  | ans_stops : is_current t c = true → Playing (refused t) → answer t c m false (refused t)
  | ans_note t' : notes m = true → Playing t' → frame t' = frame t → timerIdWaiting_ t' = timerIdWaiting_ t → (∀ j, live t' j = live t j) → answer t c m true t'
  | ans_gives_up t' : is_current t c = false → live t c = true → follows t t' → (Playing t' → timerIdWaiting_ t' = true ∨ timerIdWaiting_ t' = timerIdWaiting_ t) → answer t c m true t'
  | ans_moves t' : is_current t c = true → moved t t' → answer t c m true t'.

(** A cell that the invariant does not read. *)
Lemma note_playing t i f : (∀ p, userinfo (f p) = userinfo p ∧ item (f p) = item p ∧ tableScore_ (f p) = tableScore_ p ∧ pout (f p) = pout p ∧ betinfo_ (f p) = betinfo_ p) →
  (∀ p, good p → good (f p)) → Playing t → Playing (upd i f t) ∧ ∀ j, live (upd i f t) j = live t j.
Proof.
  intros Hf Hgd [Hm (c & Hc & Hl) H2 Hx]. assert (∀ p, plive (f p) = plive p) as Hp by (intros p; destruct (Hf p) as (_ & Hi & _ & Ho & _); unfold plive; by rewrite Hi, Ho).
  pose proof (λ j, live_upd i f t j Hp) as Hlv. split; [|done]. split; [|by exists c; rewrite Hlv| |done].
  - apply (Mid_from cfg ps t); [done|done|apply (md_chip _ _ _ Hm)| | |].
    + apply Book_upd; [|exact Hgd|apply (md_book _ _ _ Hm)]. intros p. destruct (Hf p) as (? & ? & ? & ? & _). done.
    + apply Bets_upd; [|apply (md_bets _ _ _ Hm)]. intros p Hb Hpl. rewrite Hp in Hpl. destruct (Hf p) as (_ & _ & -> & _ & ->). by apply Hb.
    + destruct (md_bank _ _ _ Hm) as (b & Hbk & Hlb). exists b. by rewrite Hlv.
  - unfold leftPlayerCount. by rewrite (alive_eq t).
Qed.

Lemma look_answers t c : Playing t → answer t c SUB_C_LOOK_CARD (fst (OnUserLookCard c t)) (snd (OnUserLookCard c t)).
Proof.
  intros Hp. unfold OnUserLookCard. destruct (currentUser_ t) as [u|]; [|apply ans_ignored]. destruct (_ || _); [apply ans_ignored|]. destruct (_ || _); [apply ans_ignored|].
  destruct (isLooked_ _); [apply ans_ignored|]. destruct (note_playing t c (λ p, p <| isLooked_ := true |>) ltac:(done) ltac:(done) Hp). by apply ans_note.
Qed.

Lemma setting_answers t c b : Playing t → answer t c (SUB_C_GIVEUP_TIMEOUT_OP b) (fst (OnUserTimeoutGiveUpSetting c b t)) (snd (OnUserTimeoutGiveUpSetting c b t)).
Proof.
  intros Hp. unfold OnUserTimeoutGiveUpSetting. destruct (currentUser_ t) as [u|]; [|apply ans_ignored]. destruct (_ || _); [apply ans_ignored|]. destruct (_ || _); [apply ans_ignored|].
  destruct (note_playing t c (λ p, p <| noGiveUpTimeout_ := b |>) ltac:(done) ltac:(done) Hp). by apply ans_note.
Qed.

Lemma may_move_spec t c : Playing t → may_move t c = true → to_move t c.
Proof.
  intros [Hm (u & Hu & Hl) H2 Hx] [[He Ho%negb_true_iff]%andb_true_iff Hc]%andb_true_iff. apply bool_decide_eq_true in Hc. rewrite Hu in Hc. injection Hc as ->.
  by split.
Qed.

Lemma refused_playing t c : Playing t → to_move t c → Playing (refused t).
Proof. intros Hp Htm. destruct (to_move_timer cfg ps t c false Htm) as (H1 & H2 & H3 & H4). split; [done|by exists c|done|apply (pg_exceed _ _ _ Hp)]. Qed.

Lemma current_to_move t c : to_move t c → is_current t c = true.
Proof. intros H. apply (to_move_facts cfg Hcfg ps t c H). Qed.

(** A robot looks at its hand before it gives up. *)
Definition robot_looks (t : Table) (c : nat) (m : Msg) : Prop := m = SUB_C_GIVE_UP → IsAndroidUser t c = true → isLooked_ (pl t c) = true.

Lemma compare_self d t c : to_move t c → OnUserCompareCard cfg d c c t = Some (false, refused t).
Proof.
  intros Htm0. pose proof (to_move_timer cfg ps t c false Htm0) as Htm. unfold OnUserCompareCard. fold (refused t) in *.
  destruct (to_move_facts cfg Hcfg ps _ c Htm) as (_ & _ & _ & -> & -> & -> & _ & _). cbn [negb orb]. by rewrite Nat.eqb_refl.
Qed.

Lemma OnGameMessage_answers d c m t : draw_ok d → Playing t → robot_looks t c m → ∃ b t', OnGameMessage cfg d c m t = Some (b, t') ∧ answer t c m b t'.
Proof.
  intros Hd Hp Hr. destruct m as [| |index|peer| |b]; cbn [OnGameMessage].
  - destruct (OnUserLookCard c t) as [b t'] eqn:E. exists b, t'. split; [done|]. pose proof (look_answers t c Hp) as H. by rewrite E in H.
  - destruct (OnUserGiveUp_follows cfg Hcfg ps d c false t Hp) as (b & t' & -> & H & Hb); [intros Ha; split; [done|by apply Hr]|]. exists b, t'. split; [done|].
    destruct b; [|subst t'; apply ans_ignored]. destruct H as [H1 H2]. destruct (is_current t c) eqn:Ec; [by apply ans_moves|by apply ans_gives_up].
  - destruct (may_move t c) eqn:Em; cbn [negb]; [|exists false, t; split; [done|apply ans_ignored]]. pose proof (may_move_spec t c Hp Em) as Htm.
    assert (∃ b t', OnUserAddScore cfg d c index t = Some (b, t') ∧ answer t c (SUB_C_ADD_SCORE index) b t') as Hadd.
    { destruct (OnUserAddScore_moves cfg Hcfg ps d c index t Hd Htm) as [(t' & E & Hm)|[E _]]; [exists true, t'|exists false, (refused t)]; (split; [exact E|]).
      - apply ans_moves; [by apply current_to_move|done].
      - apply ans_stops; [by apply current_to_move|by apply (refused_playing t c)]. }
    destruct (index =? _); [|destruct (_ || _); [exists false, t; split; [done|apply ans_ignored]|done]].
    destruct Hcfg as (_ & _ & Hin & _). assert (is_Some (last (JettionList cfg))) as [top ->] by (apply last_is_Some; intros E; rewrite E in Hin; by apply elem_of_nil in Hin).
    cbn [mbind option_bind]. destruct (followScore_ t =? top); [exists false, t; split; [done|apply ans_ignored]|done].
  - destruct (may_move t c) eqn:Em; cbn [negb]; [|exists false, t; split; [done|apply ans_ignored]]. pose proof (may_move_spec t c Hp Em) as Htm.
    assert (∀ n, live t n = true → n ≠ c → ∃ b t', OnUserCompareCard cfg d c n t = Some (b, t') ∧ answer t c (SUB_C_COMPARE_CARD peer) b t') as Hcmp.
    { intros n Hn Hnc. destruct (OnUserCompareCard_moves d c n t Hd Htm Hn Hnc) as (t' & E & Hm). exists true, t'. split; [done|]. apply ans_moves; [by apply current_to_move|done]. }
    assert (∀ s, ∃ b t', match GetNextUser_from t s true with None => Some (false, t) | Some n => OnUserCompareCard cfg d c n t end = Some (b, t') ∧ answer t c (SUB_C_COMPARE_CARD peer) b t') as Hnext.
    { intros s. destruct (next_other cfg ps t c s Htm) as (n & -> & Hn & Hnc). by apply Hcmp. }
    destruct (IsExistUser t peer) eqn:Ee; cbn [negb].
    + destruct (out t peer) eqn:Eo; [destruct (IsAndroidUser t c); cbn [negb]; [apply Hnext|exists false, t; split; [done|apply ans_ignored]]|].
      destruct (decide (peer = c)) as [->|Hne]; [|apply Hcmp; [unfold live; by rewrite Ee, Eo|done]]. exists false, (refused t). split; [by apply compare_self|].
      apply ans_stops; [by apply current_to_move|by apply (refused_playing t c)].
    + destruct (leftPlayerCount t =? 2)%nat; [apply Hnext|exists false, t; split; [done|apply ans_ignored]].
  - destruct (may_move t c) eqn:Em; cbn [negb]; [|exists false, t; split; [done|apply ans_ignored]]. pose proof (may_move_spec t c Hp Em) as Htm.
    destruct (all_in_next_moves cfg Hcfg ps d c t Hd Htm) as [H1 H2]. destruct (Z.le_gt_cases (ScoreByChairId t c) (CurrentCompareScore t c + tableScore_ (pl t c))) as [Hle|Hgt].
    + destruct (H2 Hle) as (t' & E & Hm). exists true, t'. split; [done|]. apply ans_moves; [by apply current_to_move|done].
    + exists false, (refused t). split; [apply H1; lia|]. apply ans_stops; [by apply current_to_move|by apply (refused_playing t c)].
  - destruct (OnUserTimeoutGiveUpSetting c b t) as [b' t'] eqn:E. exists b', t'. split; [done|]. pose proof (setting_answers t c b Hp) as H. by rewrite E in H.
Qed.

(** ** All events *)

Lemma left_playing t i : Playing t → out t i = true → Playing (ClearTableUser i t) ∧ ∀ j, live (ClearTableUser i t) j = live t j.
Proof.
  intros Hp Ho. pose proof Hp as [Hm (c & Hc & Hl) H2 Hx]. pose proof (md_book _ _ _ Hm) as Hb.
  assert (i < length (players_ t))%nat as Hi by (destruct (decide (i < length (players_ t))%nat); [done|]; unfold out in Ho; by rewrite pl_out in Ho by lia).
  assert (∀ j, live (ClearTableUser i t) j = live t j) as Hlv.
  { intros j. change (plive (pl (ClearTableUser i t) j) = plive (pl t j)). unfold ClearTableUser. rewrite pl_upd by done. case_decide as Hd; [subst j|done].
    unfold plive. change (pout (pl t i <| item := None |>)) with (out t i). change (pout (pl t i)) with (out t i). rewrite Ho. by rewrite !andb_false_r. }
  split; [|done]. split; [|by exists c; rewrite Hlv|unfold leftPlayerCount; by rewrite (alive_eq t)|done].
  apply (Mid_from cfg ps t); [done|done|apply (md_chip _ _ _ Hm)|by apply Book_left| |].
  - apply Bets_upd; [|apply (md_bets _ _ _ Hm)]. intros p _ Hpl. done.
  - destruct (md_bank _ _ _ Hm) as (b & Hbk & Hlb). exists b. by rewrite Hlv.
Qed.

Definition event_ok (t : Table) (e : Event) : Prop := match e with EMessage c m => robot_looks t c m | _ => True end.

(** What an event does to a round that goes on. *)
Inductive stepped (t : Table) : Event → Table → Prop :=
  | st_answer c m b t' : answer t c m b t' → stepped t (EMessage c m) t'
  | st_timer t' : timerIdWaiting_ t = true → moved t t' → stepped t ETimer t'
  | st_same e : stepped t e t
  | st_leaves e t' : Playing t' → frame t' = frame t → timerIdWaiting_ t' = timerIdWaiting_ t → (∀ j, live t' j = live t j) → stepped t e t'.

Lemma exec_playing d e t : draw_ok d → (d_next d < GAME_PLAYER)%nat → Playing t → event_ok t e → ∃ t', exec cfg d e t = Some t' ∧ stepped t e t'.
Proof.
  intros Hd Hn Hp He. pose proof (md_status _ _ _ (pg_mid _ _ _ Hp)) as Hs. destruct e as [c m| |c|c]; cbn [exec].
  - destruct (IsExistUser t c); [|exists t; split; [done|apply st_same]]. destruct (OnGameMessage_answers d c m t Hd Hp He) as (b & t' & -> & Ha). exists t'. split; [done|]. by apply (st_answer _ _ _ b).
  - destruct (timerIdWaiting_ t) eqn:Et; [|exists t; split; [done|apply st_same]]. destruct (onTimerWaitingOver_moves d t Hd Hn Hp) as (t' & -> & Hm). exists t'. split; [done|]. by apply st_timer.
  - destruct (IsExistUser t c && CanLeftTable t c) eqn:E; [|exists t; split; [done|apply st_same]]. apply andb_true_iff in E as [_ E]. unfold CanLeftTable in E. rewrite Hs in E. cbn [orb] in E.
    eexists. split; [done|]. unfold OnUserLeft. rewrite Hs. change (GAME_STATUS_START =? GAME_STATUS_READY) with false. change ((GAME_STATUS_START <? GAME_STATUS_START) || (GAME_STATUS_START =? GAME_STATUS_END)) with false in E. cbn [orb] in E. rewrite E. cbn [orb].
    destruct (left_playing t c Hp E) as [Hp1 Hl1]. change (gameStatus (ClearTableUser c t)) with (gameStatus t). rewrite Hs. change (GAME_STATUS_START =? GAME_STATUS_READY) with false. cbn [andb snd].
    destruct (note_playing (ClearTableUser c t) c (λ p, p <| currentHaveWinScore_ := 0 |>) ltac:(done) ltac:(done) Hp1) as [Hp2 Hl2]. apply st_leaves; [done..|]. intros j. by rewrite Hl2.
  - destruct (IsExistUser t c && _) eqn:E; [|exists t; split; [done|apply st_same]]. unfold CanJoinTable_playing. eexists. split; [done|]. destruct (out t c) eqn:Eo; [|apply st_same].
    destruct (left_playing t c Hp Eo) as [Hp1 Hl1]. by apply st_leaves.
Qed.

Lemma stepped_follows t e t' : Playing t → stepped t e t' → follows t t'.
Proof.
  intros Hp H. assert (follows t t) as Hself by (left; split; [done|lia]).
  assert (∀ t', Playing t' → frame t' = frame t → follows t t') as Hframe by (intros t1 H1 H2; left; split; [done|rewrite (clock_frame t t1 H2); lia]).
  destruct H as [c m b t' Ha|t' _ Hm|e|e t' H1 H2 _ _]; [|by apply moved_follows|done|by apply Hframe]. destruct Ha as [|_ H1|t' _ H1 H2 _ _|t' _ _ H1 _|t' _ H1]; [done|by apply Hframe|by apply Hframe|done|by apply moved_follows].
Qed.

(** ** After the round *)

Lemma over_pl t i : Over cfg ps t → pl t i = nobody.
Proof. intros Ho. unfold pl. rewrite (ov_players _ _ _ Ho). destruct (replicate _ nobody !! i) as [p|] eqn:E; [|done]. by apply lookup_replicate in E as [-> _]. Qed.

Lemma exec_over d e t : Over cfg ps t → exec cfg d e t = Some t.
Proof.
  intros Ho. assert (∀ i, IsExistUser t i = false) as He by (intros i; unfold IsExistUser; by rewrite over_pl).
  destruct e; cbn [exec]; rewrite ?He, ?(ov_timer _ _ _ Ho); done.
Qed.
End Events.
