(* ===== verification/ZjhRoundStart.v ===== *)
(** Golden flower, the start of a round: the stakes are put, the bank and the first user
    are found, the books are right. *)
From stdpp Require Import base option numbers sorting sets list.
From Stdlib Require Import ZArith Lia.
From S2P Require Import Prelude GameDefine HongHei ZjhLogic ZjhRound ZjhEntry ZjhRoundInv ZjhRoundTurn ZjhRoundEnd ZjhRoundSteps.

#[local] Open Scope Z_scope.

(** The players of the round that is to start. *)
Definition seated (t : Table) (i : nat) : option userinfo_t := copy_info <$> item (pl t i).

(** The table before a round: two players at least, and all of them can pay the floor. *)
Record ready (cfg : Config) (t : Table) : Prop := {
  rd_chairs : length (players_ t) = GAME_PLAYER;
  rd_users : ∀ i u, item (pl t i) = Some u → 0 < userId u ∧ CellScore cfg <= userScore u;
  rd_two : ∃ i j, i ≠ j ∧ is_Some (item (pl t i)) ∧ is_Some (item (pl t j))
}.

(** The hands that are dealt, and the one that is kept, are cards of the pack. *)
Definition deal_ok (g : Deal) : Prop := (∀ i, (i < GAME_PLAYER)%nat → hand (g_hands g i)) ∧ hand (g_made g).

Section Start.
Context (cfg : Config) (Hcfg : config_ok cfg) (g : Deal) (Hdeal : deal_ok g).

(** A chair that enters the round. *)
Definition dealt (i : nat) (p : Player) : Player :=
  let '(ty, hand) := GetHandCardsType (g_hands g i) in
  p <| handCards_ := hand |> <| handCardsType_ := ty |> <| userinfo := copy_info <$> item p |> <| curWin := g_curWin g i |>
    <| curWeight := g_curWeight g i |> <| currentHaveWinScore_ := g_have g i |> <| controlAgent := g_agent g i |>.
Definition entered (i : nat) (p : Player) : Player := dealt i p <| tableScore_ ::= Z.add (CellScore cfg) |>.

Lemma enter_round_eq t i : enter_round cfg g t i = if IsExistUser t i then stake i (CellScore cfg) (upd i (dealt i) t) else t.
Proof. unfold enter_round, dealt. by destruct (GetHandCardsType (g_hands g i)). Qed.

(** What the chairs have no part in. *)
Definition off (t : Table) := (frame t, bankerUser_ t, followScore_ t, writes t, madeMaxCards_ t, madeMaxCardsType_ t).

Lemma enter_one t i : (i < length (players_ t))%nat → let t' := enter_round cfg g t i in
  length (players_ t') = length (players_ t) ∧ off t' = off t ∧
  (∀ j, pl t' j = if decide (i = j) then if IsExistUser t i then entered i (pl t i) else pl t i else pl t j) ∧
  tableAllScore_ t' - sumZ (map tableScore_ (players_ t')) = tableAllScore_ t - sumZ (map tableScore_ (players_ t)).
Proof.
  intros Hi. cbv zeta. rewrite enter_round_eq. destruct (IsExistUser t i) eqn:E.
  - set (t1 := upd i (dealt i) t). assert (i < length (players_ t1))%nat as Hi1 by (unfold t1; by rewrite upd_length).
    change (players_ (stake i (CellScore cfg) t1)) with (players_ (upd i (λ p, p <| tableScore_ ::= Z.add (CellScore cfg) |>) t1)).
    rewrite upd_length. split; [apply upd_length|]. split; [done|]. split.
    + intros j. change (pl (stake i (CellScore cfg) t1) j) with (pl (upd i (λ p, p <| tableScore_ ::= Z.add (CellScore cfg) |>) t1) j).
      rewrite pl_upd by done. unfold t1. rewrite pl_upd by done. by case_decide as Hd; [subst j|].
    + change (tableAllScore_ (stake i (CellScore cfg) t1)) with (CellScore cfg + tableAllScore_ t). rewrite sum_upd by done. unfold t1. rewrite sum_upd, pl_upd, decide_True by done.
      assert (tableScore_ (dealt i (pl t i)) = tableScore_ (pl t i)) as H by (unfold dealt; by destruct (GetHandCardsType (g_hands g i))).
      change (tableScore_ (dealt i (pl t i) <| tableScore_ ::= Z.add (CellScore cfg) |>)) with (CellScore cfg + tableScore_ (dealt i (pl t i))). lia.
  - split_and!; try done. intros j. by case_decide as Hd; [subst j|].
Qed.

Lemma enter_all l t : NoDup l → (∀ i, i ∈ l → (i < length (players_ t))%nat) → let t' := foldl (enter_round cfg g) t l in
  length (players_ t') = length (players_ t) ∧ off t' = off t ∧
  (∀ j, pl t' j = if decide (j ∈ l) then if IsExistUser t j then entered j (pl t j) else pl t j else pl t j) ∧
  tableAllScore_ t' - sumZ (map tableScore_ (players_ t')) = tableAllScore_ t - sumZ (map tableScore_ (players_ t)).
Proof.
  revert t. induction l as [|i l IH]; intros t Hn Hl; cbv zeta; cbn [foldl]; [done|]. apply NoDup_cons in Hn as [Hi Hn].
  destruct (enter_one t i (Hl i ltac:(by left))) as (E1 & E2 & E3 & E4). cbv zeta in *. set (t1 := enter_round cfg g t i) in *.
  destruct (IH t1 Hn) as (I1 & I2 & I3 & I4); [intros j Hj; rewrite E1; apply Hl; by right|]. cbv zeta in *. split_and!; [congruence..| |lia].
  intros j. rewrite I3. destruct (decide (i = j)) as [<-|Hne].
  - rewrite decide_False by done. rewrite E3, !decide_True by (done || by left). done.
  - assert (IsExistUser t1 j = IsExistUser t j) as -> by (unfold IsExistUser; by rewrite E3, decide_False). rewrite E3, (decide_False (P := i = j)) by done.
    destruct (decide (j ∈ l)); [rewrite decide_True by (by right)|rewrite decide_False by (intros [?|?]%elem_of_cons; congruence)]; done.
Qed.

Lemma reset_pl t i : pl (InitGameData cfg t) i = nobody <| item := item (pl t i) |>.
Proof.
  unfold pl. change (players_ (InitGameData cfg t)) with ((λ p, nobody <| item := item p |>) <$> players_ t). rewrite list_lookup_fmap. by destruct (players_ t !! i).
Qed.

Lemma dealt_item i p : item (entered i p) = item p ∧ userinfo (entered i p) = copy_info <$> item p ∧ pout (entered i p) = pout p ∧
  tableScore_ (entered i p) = CellScore cfg + tableScore_ p ∧ betinfo_ (entered i p) = betinfo_ p.
Proof. unfold entered, dealt. by destruct (GetHandCardsType (g_hands g i)). Qed.

(** The chairs of a round that has begun. *)
Lemma chair_entered t i : ready cfg t → IsExistUser t i = true ↔ is_Some (item (pl t i)).
Proof. intros Hr. unfold IsExistUser. destruct (item (pl t i)) as [u|] eqn:E; [|split; [done|by intros [? ?]]]. destruct (rd_users _ _ Hr i u E) as [H _]. split; [intros _; by eexists|intros _; by apply Z.ltb_lt]. Qed.

Definition opening (t : Table) (i : nat) : Player :=
  let p := nobody <| item := item (pl t i) |> in if IsExistUser t i then entered i p else p.

Lemma opening_ok t i : ready cfg t → chair_ok cfg (seated t i) (opening t i) ∧ bets_ok cfg (opening t i) ∧ pout (opening t i) = false ∧ item (opening t i) = item (pl t i).
Proof.
  intros Hr. pose proof (chair_entered t i Hr) as He. unfold opening, seated. set (p := nobody <| item := item (pl t i) |>). destruct (dealt_item i p) as (D1 & D2 & D3 & D4 & D5).
  destruct (IsExistUser t i).
  - destruct (proj1 He eq_refl) as [u Hu]. destruct (rd_users _ _ Hr i u Hu) as [H1 H2]. unfold chair_ok, bets_ok. rewrite D1, D2, D3, D4, D5. change (item p) with (item (pl t i)). rewrite Hu.
    cbn [fmap option_fmap option_map]. change (tableScore_ p) with 0. change (betinfo_ p) with (@nil betinfo_t). split_and!; try done; cbn [copy_info info_score info_userId isAndroidUser map sumZ foldr pout];  try lia. change (pout p) with false. cbn [andb]. lia.
  - destruct (item (pl t i)) eqn:Hu; [exfalso; assert (false = true) by (apply He; by eexists); done|]. unfold p. done.
Qed.

(** Every player holds the hand he was dealt, in order. *)
Lemma opening_good t i : ready cfg t → is_Some (seated t i) → good (opening t i).
Proof.
  intros Hr Hs. assert (is_Some (item (pl t i))) as Hi by (unfold seated in Hs; by rewrite fmap_is_Some in Hs). unfold opening. rewrite (proj2 (chair_entered t i Hr) Hi).
  assert (i < GAME_PLAYER)%nat as Hlt.
  { destruct Hi as [u Hu]. destruct (decide (i < GAME_PLAYER)%nat); [done|]. rewrite pl_out in Hu; [done|]. rewrite (rd_chairs _ _ Hr). lia. }
  pose proof (proj1 Hdeal i Hlt) as Hh. set (p := nobody <| item := item (pl t i) |>).
  assert (snd (GetHandCardsType (g_hands g i)) ≡ₚ g_hands g i) as Hp.
  { pose proof (private_perm (g_hands g i)) as H. unfold GetHandCardsType. by destruct (GetHandCardsType_private (g_hands g i)). }
  assert (handCardsType_ (entered i p) = fst (GetHandCardsType (g_hands g i)) ∧ handCards_ (entered i p) = snd (GetHandCardsType (g_hands g i))) as [Ht Hc].
  { unfold entered, dealt. by destruct (GetHandCardsType (g_hands g i)). }
  unfold good. rewrite Ht, Hc. apply (good_hand_perm _ (g_hands g i)); [done|]. by split.
Qed.

(** The table that [InitGameData] leaves. *)
Record cleared (t t0 : Table) : Prop := {
  cl_chairs : ∀ i, pl t0 i = nobody <| item := item (pl t i) |>;
  cl_length : length (players_ t0) = length (players_ t);
  cl_sum : sumZ (map tableScore_ (players_ t0)) = 0;
  cl_made : good_hand (madeMaxCardsType_ t0) (madeMaxCards_ t0);
  cl_off : (gameStatus t0, currentTurn_ t0, isExceed_ t0, ended t0, followScore_ t0, writes t0, tableAllScore_ t0) =
    (GAME_STATUS_START, -1, false, None, CellScore cfg, [], 0)
}.

Lemma InitGameData_clears t b s l h m ty : good_hand ty m →
  cleared t (ClearAllTimer (InitGameData cfg t <| gameStatus := GAME_STATUS_START |> <| blastAndroidChangeCard := b |>
    <| StockScore := s |> <| StockLowLimit := l |> <| StockHighLimit := h |> <| madeMaxCards_ := m |> <| madeMaxCardsType_ := ty |> <| writes := [] |> <| ended := None |>)).
Proof.
  intros Hm. split; [exact (reset_pl t)|apply length_map| |exact Hm|reflexivity].
  change (sumZ (map tableScore_ (map (λ p, nobody <| item := item p |>) (players_ t))) = 0). rewrite map_map. clear. by induction (players_ t).
Qed.

(** The first user sits at the first chair of the round. *)
Lemma first_clock t c : (c < GAME_PLAYER)%nat → firstUser_ t = Some c → currentUser_ t = Some c → currentTurn_ t = 0 → clock t = 0.
Proof. intros Hc E1 E2 E3. unfold clock. rewrite E1, E2, E3. unfold distance, GAME_PLAYER in *. do 5 (destruct c as [|c]; [done|]). lia. Qed.

(** All chairs enter the round [t1], where the bank and the first user are known. *)
Lemma enter_playing t t0 bank cur : ready cfg t → cleared t t0 → is_Some (seated t bank) → is_Some (seated t cur) →
  let t1 := t0 <| bankerUser_ := Some bank |> <| currentUser_ := Some cur |> <| firstUser_ := Some cur |> <| currentTurn_ := currentTurn_ t0 + 1 |> in
  let t2 := foldl (enter_round cfg g) t1 chairs <| timerIdWaiting_ := true |> in Playing cfg (seated t) t2 ∧ clock t2 = 0.
Proof.
  intros Hr Hcl Hbank Hcur t1 t2. destruct (rd_two _ _ Hr) as (a & b & Hab & Ha & Hb). pose proof (cl_off _ _ Hcl) as [= C1 C2 C3 C4 C5 C6 C7]. pose proof (rd_chairs _ _ Hr) as Hlen. rewrite <- (cl_length _ _ Hcl) in Hlen.
  destruct (enter_all chairs t1 chairs_NoDup) as (E1 & E2 & E3 & E4); [intros i Hi%elem_chairs; change (players_ t1) with (players_ t0); by rewrite Hlen|].
  assert (Hpl1 : ∀ i, pl t1 i = pl t0 i) by done. change (players_ t1) with (players_ t0) in E1, E4. rewrite (cl_sum _ _ Hcl) in E4. change (tableAllScore_ t1) with (tableAllScore_ t0) in E4. rewrite C7 in E4.
  assert (off t1 = (GAME_STATUS_START, Some cur, Some cur, 0, false, None, Some bank, CellScore cfg, [], madeMaxCards_ t0, madeMaxCardsType_ t0)) as Eo.
  { unfold off, frame, t1. cbn [gameStatus firstUser_ currentUser_ currentTurn_ isExceed_ ended bankerUser_ followScore_ writes madeMaxCards_ madeMaxCardsType_]. cbn. by rewrite C1, C2, C3, C4, C5, C6. }
  rewrite Eo in E2. clearbody t1. cbv zeta in E1, E2, E3, E4. set (tx := foldl (enter_round cfg g) t1 chairs) in *. unfold t2. clearbody tx. clear t2. injection E2 as F1 F2 F3 F4 F5 F6 F7 F8 F9 F10 F11.
  assert (∀ i, is_Some (item (pl t i)) → (i < GAME_PLAYER)%nat) as Hlt.
  { intros i [u Hu]. destruct (decide (i < GAME_PLAYER)%nat); [done|]. rewrite pl_out in Hu; [done|]. rewrite (rd_chairs _ _ Hr). lia. }
  assert (∀ i, is_Some (seated t i) ↔ is_Some (item (pl t i))) as Hs by (intros i; unfold seated; by rewrite fmap_is_Some).
  pose proof (λ i, chair_entered t i Hr) as He. assert (∀ i, pl tx i = opening t i) as Hpl.
  { intros i. rewrite E3, Hpl1. unfold IsExistUser. rewrite Hpl1, (cl_chairs _ _ Hcl). fold (IsExistUser t i). change (item (nobody <| item := item (pl t i) |>)) with (item (pl t i)).
    change (match item (pl t i) with Some u => 0 <? userId u | None => false end) with (IsExistUser t i).
    unfold opening. case_decide as Hi; [done|]. destruct (IsExistUser t i) eqn:E; [|done]. destruct Hi. by apply elem_chairs, Hlt, He. }
  assert (∀ i, live tx i = IsExistUser t i) as Hlv.
  { intros i. destruct (opening_ok t i Hr) as (_ & _ & Ho & Hi). unfold live, IsExistUser, out. rewrite Hpl, Hi. unfold pout in Ho. rewrite Ho. by rewrite andb_true_r. }
  assert (Book cfg (seated t) tx) as Hbook.
  { split; [by rewrite E1|intros i; rewrite Hpl; by apply opening_ok|lia| |intros i Hi; rewrite Hpl; by apply opening_good|rewrite F10, F11; apply (cl_made _ _ Hcl)]. intros i. unfold written. rewrite F9. destruct (opening_ok t i Hr) as (_ & _ & Ho & _). unfold out. rewrite Hpl. unfold pout in Ho. rewrite Ho. by destruct (seated t i). }
  assert (live tx bank = true ∧ live tx cur = true) as [Hlb Hlc] by (rewrite !Hlv; split; by apply He, Hs).
  split; [|apply (first_clock _ cur); [by apply Hlt, Hs|exact F2|exact F3|exact F4]]. split; [|by exists cur| |done].
  - apply Mid_timer. split; [done|intros i; rewrite Hpl; by apply opening_ok|done|done|by exists bank|by exists cur|by exists cur|rewrite F4; unfold MAX_ROUND; lia|rewrite F8; apply Hcfg|].
    exists a, b. by rewrite !Hs.
  - unfold leftPlayerCount. change (alive (tx <| timerIdWaiting_ := true |>)) with (alive tx).
    assert (a ∈ alive tx ∧ b ∈ alive tx) as [Ia Ib] by (split; apply (elem_alive cfg (seated t) tx _ Hbook); rewrite Hlv; by apply He).
    destruct (alive tx) as [|x [|y l]]; [by apply elem_of_nil in Ia|apply list_elem_of_singleton in Ia, Ib; congruence|simpl; lia].
Qed.

Lemma OnGameStart_playing t : ready cfg t → ∃ t', OnGameStart cfg g t = Some t' ∧ Playing cfg (seated t) t' ∧ timerIdWaiting_ t' = true ∧ clock t' = 0.
Proof.
  intros Hr. destruct (rd_two _ _ Hr) as (a & b & Hab & Ha & Hb). unfold OnGameStart. destruct (g_stock g) as [[stock low] high].
  pose proof (InitGameData_clears t false stock low high (g_made g) (fst (GetHandCardsType (g_made g))) ltac:(split; [apply Hdeal|done])) as Hcl. set (t0 := ClearAllTimer _) in *. clearbody t0.
  assert (∀ i, IsExistUser t0 i = IsExistUser t i) as He0 by (intros i; unfold IsExistUser; by rewrite (cl_chairs _ _ Hcl)).
  assert (∀ i, is_Some (item (pl t i)) → In i (ring (default (g_bank g) (bankerUser_ t0))) ∧ ∀ k, In i (ring k)) as Hin.
  { intros i [u Hu]. assert (i < GAME_PLAYER)%nat as Hi by (destruct (decide (i < GAME_PLAYER)%nat); [done|]; rewrite pl_out in Hu; [done|rewrite (rd_chairs _ _ Hr); lia]). split; [|intros k]; by apply list_elem_of_In, elem_ring. }
  pose proof (λ i, chair_entered t i Hr) as He. assert (∀ i, is_Some (item (pl t i)) → is_Some (seated t i)) as Hs by (intros i H; unfold seated; by apply fmap_is_Some).
  destruct (find_exists (IsExistUser t0) (ring (default (g_bank g) (bankerUser_ t0))) a) as [bank Hbank]; [by apply Hin|by rewrite He0; apply He|].
  rewrite Hbank. cbn [mbind option_bind]. apply find_some in Hbank as [_ Hbank]. rewrite He0 in Hbank.
  assert (∃ c, c ≠ bank ∧ is_Some (item (pl t c))) as (c & Hcb & Hc) by (destruct (decide (a = bank)) as [->|]; [exists b|exists a]; done).
  destruct (find_exists (λ i, IsExistUser t0 i && negb (i =? bank)%nat) (ring (bank + 1)) c) as [cur Hcur]; [by apply Hin|rewrite He0, (proj2 (He c) Hc); by rewrite (proj2 (Nat.eqb_neq _ _))|].
  rewrite Hcur. cbn [mbind option_bind]. apply find_some in Hcur as [_ [Hcur _]%andb_true_iff]. rewrite He0 in Hcur.
  assert ((currentTurn_ t0 + 1 =? 0) = true) as -> by (pose proof (cl_off _ _ Hcl) as [= _ C2 _ _ _ _ _]; by rewrite C2). cbn [assert mbind option_bind].
  destruct (enter_playing t t0 bank cur Hr Hcl) as [H1 H2]; [by apply Hs, He..|]. eexists. by split.
Qed.
End Start.
