(* ===== verification/ZjhRoundBest.v ===== *)
(** Golden flower, the comparison that ends a round of twenty turns: the best hand wins. *)
From stdpp Require Import base option numbers sorting sets list.
From Stdlib Require Import ZArith Lia.
From S2P Require Import Prelude GameDefine HongHei ZjhLogic ZjhCompare ZjhRound ZjhEntry ZjhRoundInv ZjhRoundTurn ZjhRoundEnd ZjhRoundSteps.

#[local] Open Scope Z_scope.

(** ** Hands *)

Definition strength (t : Table) (i : nat) : list Z := key (handCards_ (pl t i)).
Definition stronger (t : Table) (i j : nat) : Prop := 0 < lex_diff (strength t i) (strength t j).

(** The players who are left hold hands of one pack. *)
Definition one_pack (t : Table) : Prop := ∀ i, live t i = true → hand (handCards_ (pl t i)) ∧ ∀ j, live t j = true → j ≠ i → two_hands (handCards_ (pl t i)) (handCards_ (pl t j)).

(** No hand will be exchanged: one was already, or there are no robots. *)
Definition no_exchange (t : Table) : Prop := blastAndroidChangeCard t = true ∨ ∀ i, IsAndroidUser t i = false.

(** Two tables with the same hands, but for the order of the cards. *)
Definition same_hands (t t' : Table) : Prop :=
  (∀ i, handCards_ (pl t' i) ≡ₚ handCards_ (pl t i)) ∧ blastAndroidChangeCard t' = blastAndroidChangeCard t ∧ ∀ i, IsAndroidUser t' i = IsAndroidUser t i.

Lemma same_hands_refl t : same_hands t t.
Proof. done. Qed.

#[global] Instance same_hands_trans : Transitive same_hands.
Proof. intros t1 t2 t3 (H1 & H2 & H3) (K1 & K2 & K3). split_and!; [intros i; by rewrite K1|congruence|intros i; by rewrite K3]. Qed.

(** A change of other cells. *)
Lemma same_hands_upd i f t : (∀ p, handCards_ (f p) ≡ₚ handCards_ p ∧ (android <$> item (f p)) = (android <$> item p)) → same_hands t (upd i f t).
Proof.
  intros Hf. destruct (decide (i < length (players_ t))%nat) as [Hi|Hi].
  - split_and!; [|done|]; intros j; unfold IsAndroidUser; rewrite pl_upd by done; case_decide; try done; destruct (Hf (pl t j)) as [H1 H2]; [done|].
    destruct (item (f (pl t j))), (item (pl t j)); simpl in *; congruence.
  - assert (players_ (upd i f t) = players_ t) as E by (apply alter_out; lia). unfold same_hands, IsAndroidUser, pl. by rewrite E.
Qed.

Lemma same_hands_order k c t : c ≡ₚ handCards_ (pl t k) → same_hands t (upd k (λ p, p <| handCards_ := c |>) t).
Proof.
  intros Hc. destruct (decide (k < length (players_ t))%nat) as [Hi|Hi].
  - split_and!; [|done|]; intros m; unfold IsAndroidUser; rewrite pl_upd by done; case_decide as Hd; try done; by subst m.
  - assert (players_ (upd k (λ p, p <| handCards_ := c |>) t) = players_ t) as E by (apply alter_out; lia). unfold same_hands, IsAndroidUser, pl. by rewrite E.
Qed.

Lemma same_hands_write_lost i t : same_hands t (write_lost i t).
Proof.
  unfold write_lost. destruct (IsAndroidUser t i); [done|].
  apply (same_hands_upd i (λ p, p <| item ::= fmap (λ u, u <| userScore ::= Z.add (- tableScore_ (pl t i)) |>) |>) t).
  intros p. split; [done|]. change (item (p <| item ::= fmap (λ u, u <| userScore ::= Z.add (- tableScore_ (pl t i)) |>) |>)) with ((λ u : User, u <| userScore ::= Z.add (- tableScore_ (pl t i)) |>) <$> item p).
  by destruct (item p).
Qed.

Lemma same_strength t t' i : same_hands t t' → hand (handCards_ (pl t i)) → strength t' i = strength t i.
Proof. intros (H & _) Hh. unfold strength. by apply key_perm. Qed.

Lemma two_hands_perm a b a' b' : a' ≡ₚ a → b' ≡ₚ b → two_hands a b → two_hands a' b'.
Proof.
  intros Ha Hb (H1 & H2 & H). split; [by apply (hand_perm a)|]. split; [by apply (hand_perm b)|]. intros c Hc. rewrite Hb. apply H. by rewrite <- Ha.
Qed.

Lemma same_one_pack t t' : same_hands t t' → (∀ i, live t' i = true → live t i = true) → one_pack t → one_pack t'.
Proof.
  intros (H & _) Hl Hp i Hi. destruct (Hp i (Hl i Hi)) as [Hh Ht]. split; [by apply (hand_perm (handCards_ (pl t i)))|]. intros j Hj Hne.
  apply (two_hands_perm (handCards_ (pl t i)) (handCards_ (pl t j))); [done..|]. by apply Ht; [apply Hl|].
Qed.

Lemma same_no_exchange t t' : same_hands t t' → no_exchange t → no_exchange t'.
Proof. intros (_ & H1 & H2) [H|H]; [left; congruence|right]. intros i. by rewrite H2. Qed.

(** The comparison without the 2-3-5 sorts both hands and compares their keys. *)
Lemma compare_hands_key cfg i j t : special235_ cfg = false →
  ∃ t', compare_hands cfg i j t = Some (lex_diff (strength t i) (strength t j), t') ∧ core t' = core t ∧ same_hands t t'.
Proof.
  intros Hs. unfold compare_hands. rewrite Hs. pose proof (compare_key (handCards_ (pl t i)) (handCards_ (pl t j))) as Hk. fold (strength t i) (strength t j) in Hk.
  pose proof (CompareHandCards_hands (handCards_ (pl t i)) (handCards_ (pl t j)) false) as Hh.
  destruct (CompareHandCards _ _ _) as [r [a b]]. cbn [fst snd] in Hk, Hh. rewrite Hk. injection Hh as -> ->. cbn [mbind option_bind].
  pose proof (same_hands_order i _ t (private_perm (handCards_ (pl t i)))) as S1.
  set (t1 := upd i (λ p, p <| handCards_ := snd (GetHandCardsType_private (handCards_ (pl t i))) |>) t) in *.
  assert (snd (GetHandCardsType_private (handCards_ (pl t j))) ≡ₚ handCards_ (pl t1 j)) as Hj by (rewrite private_perm; symmetry; apply S1).
  eexists. split; [reflexivity|]. split; [|etransitivity; [exact S1|by apply same_hands_order]].
  rewrite (order_core j _ t1 Hj). apply order_core, private_perm.
Qed.

(** The statistics put hands in order. *)
Lemma weigh_same_hands i j t t' : good (pl t i) → good (pl t j) → weigh_compared i j t = Some t' → same_hands t t' ∧ core t' = core t.
Proof.
  intros Hi Hj. unfold weigh_compared. destruct (GetWinRatioAndWeight_order i t Hi) as (c & Hc & ->). cbn [mbind option_bind].
  set (t1 := upd i _ t). assert (core t1 = core t) as E1 by (by apply order_core). destruct (assert _); [|done]. cbn [mbind option_bind].
  destruct (GetWinRatioAndWeight_order j t1 (good_core _ _ _ E1 Hj)) as (c' & Hc' & ->). intros [= <-].
  split; [etransitivity; by apply same_hands_order|]. rewrite <- E1. by apply order_core.
Qed.

Section Best.
Context (cfg : Config) (Hplain : special235_ cfg = false) (ps : nat → option userinfo_t).

Lemma Analyse_idle d i j t : no_exchange t → AnalyseLastAndroidUser cfg d i j t = Some t.
Proof.
  intros H. unfold AnalyseLastAndroidUser. destruct (blastAndroidChangeCard t) eqn:E; [done|]. destruct H as [H|H]; [congruence|]. rewrite !H. by rewrite andb_false_r.
Qed.

Lemma stronger_trans t i j k : stronger t i j → stronger t j k → stronger t i k.
Proof. intros H1 H2. eapply (lex_diff_trans _ (strength t j)); [..|exact H1|exact H2]; unfold strength; by rewrite !key_length. Qed.

(** One comparison: the weaker of the two is out. *)
Lemma force_step d w n l t t' : Book cfg ps t → one_pack t → no_exchange t → live t w = true → live t n = true → n ≠ w →
  CompareCardForce_loop cfg d w (n :: l) t = Some t' →
  ∃ t3 lost best, CompareCardForce_loop cfg d best l t3 = Some t' ∧ (lost = w ∧ best = n ∨ lost = n ∧ best = w) ∧ stronger t best lost ∧
    Book cfg ps t3 ∧ same_hands t t3 ∧ ∀ j, live t3 j = live t j && negb (lost =? j)%nat.
Proof.
  intros Hb Hp Hx Hw Hn Hne E. cbn [CompareCardForce_loop] in E. rewrite (proj2 (Nat.eqb_neq n w) Hne), Hn in E. cbn [orb negb] in E. rewrite Hw in E. cbn [assert mbind option_bind] in E.
  assert (same_hands t (note_compared w n t)) as S0 by (unfold note_compared; etransitivity; apply same_hands_upd; done).
  rewrite Analyse_idle in E by (by apply (same_no_exchange t)). cbn [mbind option_bind] in E.
  destruct (compare_hands_key cfg n w (note_compared w n t) Hplain) as (t2 & E2 & C2 & S2). rewrite E2 in E. cbn [mbind option_bind] in E. rewrite note_compared_core in C2.
  destruct (Hp n Hn) as [Hhn Htn]. destruct (Hp w Hw) as [Hhw _]. rewrite (same_strength t _ n S0 Hhn), (same_strength t _ w S0 Hhw) in E.
  assert (lex_diff (strength t n) (strength t w) ≠ 0) as Hne0.
  { intros H%lex_diff_zero; [|unfold strength; by rewrite !key_length]. by apply (keys_differ _ _ (Htn w Hw (not_eq_sym Hne))). }
  set (r := lex_diff (strength t n) (strength t w)) in *.
  assert (∃ lost best, (if 0 <? r then (w, n) else (n, w)) = (lost, best) ∧ (lost = w ∧ best = n ∨ lost = n ∧ best = w) ∧ stronger t best lost) as (lost & best & El & Hlb & Hstr).
  { unfold stronger. destruct (Z.ltb_spec 0 r) as [H|H]; [exists w, n|exists n, w]; (split; [done|]); (split; [tauto|]); [exact H|]. rewrite (lex_diff_opp (strength t n)). fold r. lia. }
  rewrite El in E. set (tw := write_lost lost _) in E.
  assert (core tw = core (knocked lost t)) as Cw by (unfold tw; by rewrite write_lost_core, result_core, compare_lost_core, knock_core, C2, knocked_core).
  assert (live t lost = true) as Hlost by (destruct Hlb as [[-> _]|[-> _]]; done).
  destruct (weigh_compared w n tw) as [t3|] eqn:Ew; [|done]. cbn [mbind option_bind] in E. exists t3, lost, best. split; [exact E|]. split; [done|]. split; [done|].
  assert (∀ k, live t k = true → good (pl tw k)) as Hgood.
  { intros k Hk. apply (good_core _ _ _ Cw), (bk_hands _ _ _ (Book_knocked cfg ps t lost Hb Hlost)). apply (live_player cfg ps t k Hb) in Hk. tauto. }
  destruct (weigh_same_hands w n tw t3 (Hgood w Hw) (Hgood n Hn) Ew) as [S3 C3]. rewrite Cw in C3. pose proof (live_chair cfg ps t lost Hb Hlost) as Hlc. rewrite <- (bk_len _ _ _ Hb) in Hlc.
  split; [apply (Book_same cfg ps (knocked lost t)); [done|by apply Book_knocked]|]. split.
  - etransitivity; [exact S0|]. etransitivity; [exact S2|]. etransitivity; [|exact S3]. unfold tw, compare_lost. etransitivity; [|apply same_hands_write_lost]. etransitivity; apply same_hands_upd; done.
  - intros j. rewrite (live_same t3 _ j C3). by apply live_knocked.
Qed.

Lemma force_best d l w t t' : Book cfg ps t → one_pack t → no_exchange t → live t w = true → CompareCardForce_loop cfg d w l t = Some t' →
  ∃ b, live t b = true ∧ live t' b = true ∧ (∀ i, live t i = false → live t' i = false) ∧
    ∀ i, i = w ∨ i ∈ l → live t i = true → i ≠ b → stronger t b i ∧ live t' i = false.
Proof.
  revert w t. induction l as [|n l IH]; intros w t Hb Hp Hx Hw E.
  { injection E as <-. exists w. split_and!; [done..|]. intros i [->|H]; [done|by apply elem_of_nil in H]. }
  destruct (decide (n = w ∨ live t n = false)) as [Hskip|Hgo].
  { cbn [CompareCardForce_loop] in E. assert ((n =? w)%nat || negb (live t n) = true) as Hs by (destruct Hskip as [->| ->]; [by rewrite Nat.eqb_refl|by rewrite orb_true_r]). rewrite Hs in E.
    destruct (IH w t Hb Hp Hx Hw E) as (b & B1 & B2 & B3 & B4). exists b. split_and!; [done..|]. intros i [->|[->|Hi]%elem_of_cons] Hl Hne; [apply B4; tauto| |apply B4; tauto].
    destruct Hskip as [->|Hs']; [apply B4; tauto|congruence]. }
  apply Decidable.not_or in Hgo as [Hnw Hln%not_false_is_true]. destruct (force_step d w n l t t' Hb Hp Hx Hw Hln Hnw E) as (t3 & lost & best & E3 & Hlb & Hstr & Hb3 & Hs3 & Hl3).
  assert (live t best = true ∧ live t lost = true ∧ best ≠ lost) as (Hbest & Hlost & Hbl) by (destruct Hlb as [[-> ->]|[-> ->]]; done).
  assert (∀ i, live t3 i = true → live t i = true) as Hsub by (intros i; rewrite Hl3; by intros [? _]%andb_true_iff).
  destruct (IH best t3) as (b & B1 & B2 & B3 & B4); [done|by apply (same_one_pack t)|by apply (same_no_exchange t)|rewrite Hl3, Hbest, (proj2 (Nat.eqb_neq lost best)) by congruence; done|done|].
  assert (∀ i j, live t3 i = true → live t3 j = true → stronger t3 i j → stronger t i j) as Hback.
  { intros i j Hi Hj. unfold stronger. rewrite (same_strength t t3 i Hs3), (same_strength t t3 j Hs3); [done|by apply Hp, Hsub..]. }
  assert (live t3 lost = false) as Hl3lost by (rewrite Hl3, Nat.eqb_refl; by rewrite andb_false_r). assert (live t3 best = true) as Hl3best by (rewrite Hl3, Hbest; by rewrite (proj2 (Nat.eqb_neq lost best)) by congruence).
  assert (b = best ∨ stronger t b best) as Hbb by (destruct (decide (best = b)) as [->|H]; [by left|right; destruct (B4 best (or_introl eq_refl) Hl3best H) as [S _]; by apply Hback]).
  exists b. split_and!; [by apply Hsub|done|intros i Hi; apply B3; rewrite Hl3, Hi; done|]. intros i Hi Hli Hib. destruct (decide (i = lost)) as [->|Hil].
  - split; [|by apply B3]. destruct Hbb as [->|H]; [done|by apply (stronger_trans t b best lost)].
  - assert (live t3 i = true) as Hi3 by (rewrite Hl3, Hli; by rewrite (proj2 (Nat.eqb_neq lost i)) by congruence).
    assert (i = best ∨ i ∈ l) as Hin by (rewrite elem_of_cons in Hi; destruct Hlb as [[-> ->]|[-> ->]]; tauto).
    destruct (B4 i Hin Hi3 Hib) as [S L]. split; [by apply Hback|done].
Qed.
End Best.
