(* ===== verification/ZjhRoundProps.v ===== *)
(** Golden flower, what holds of every round: no event fails, the settlement balances, the
    round ends, and the messages after which it does not. *)
From stdpp Require Import base option numbers sorting sets list.
From Stdlib Require Import ZArith Lia.
From S2P Require Import Prelude GameDefine HongHei ZjhLogic ZjhCompare ZjhRound ZjhEntry ZjhRoundInv ZjhRoundTurn ZjhRoundEnd ZjhRoundSteps ZjhRoundMoves ZjhRoundEvents ZjhRoundStart ZjhRoundBest.

#[local] Open Scope Z_scope.

(** ** Runs *)

(** Each event is one that can happen: a refund is part of the stake, the chairs drawn
    are chairs, and a robot gives up after it has looked. *)
Fixpoint fair (cfg : Config) (l : list (Draw * Event)) (t : Table) : Prop :=
  match l with
  | [] => True
  | (d, e) :: l => draw_ok d ∧ (d_next d < GAME_PLAYER)%nat ∧ event_ok t e ∧ match exec cfg d e t with Some t' => fair cfg l t' | None => True end
  end.

(** The timer fires, or the user to move bets, compares, goes all in or gives up, and that
    is accepted. *)
Definition is_move (cfg : Config) (d : Draw) (e : Event) (t : Table) : bool :=
  match e with
  | EMessage c m => IsExistUser t c && is_current t c && negb (notes m) && match OnGameMessage cfg d c m t with Some (b, _) => b | None => false end
  | ETimer => timerIdWaiting_ t
  | _ => false
  end.

Fixpoint moves (cfg : Config) (l : list (Draw * Event)) (t : Table) : nat :=
  match l with
  | [] => 0
  | (d, e) :: l => (if is_move cfg d e t then 1 else 0) + match exec cfg d e t with Some t' => moves cfg l t' | None => 0 end
  end.

Definition firings (ds : list Draw) : list (Draw * Event) := map (λ d, (d, ETimer)) ds.

(** The chairs that are still to be passed. *)
Definition remaining (t : Table) : Z := match currentUser_ t with Some _ => 100 - clock t | None => 0 end.

Section Runs.
Context (cfg : Config) (Hcfg : config_ok cfg) (ps : nat → option userinfo_t).

#[local] Abbreviation Playing := (Playing cfg ps).
#[local] Abbreviation Over := (Over cfg ps).

(** A round that goes on or is over. *)
Definition kept (t : Table) : Prop := Playing t ∨ Over t.

Lemma remaining_playing t : Playing t → remaining t = 100 - clock t ∧ 1 <= remaining t.
Proof.
  intros [Hm (c & Hc & Hl) _ _]. unfold remaining, clock. rewrite Hc. destruct (md_first _ _ _ Hm) as (f & -> & Hf). split; [done|].
  pose proof (md_turn _ _ _ Hm) as Ht. unfold MAX_ROUND in Ht. pose proof (md_book _ _ _ Hm) as Hb.
  pose proof (distance_range f c (listed_chair cfg ps t f Hb (proj2 (listed_player cfg ps t f Hb) Hf))). lia.
Qed.

Lemma remaining_over t : Over t → remaining t = 0.
Proof. intros Ho. unfold remaining. by rewrite (ov_current _ _ _ Ho). Qed.

Lemma remaining_moved t t' : Playing t → moved cfg ps t t' → kept t' ∧ remaining t' < remaining t.
Proof.
  intros Hp Hm. destruct (remaining_playing t Hp) as [E H]. destruct Hm as [(Hp' & _ & Hck)|Ho].
  - split; [by left|]. destruct (remaining_playing t' Hp') as [E' _]. lia.
  - split; [by right|]. rewrite (remaining_over t' Ho). lia.
Qed.

Lemma remaining_follows t t' : Playing t → follows cfg ps t t' → kept t' ∧ remaining t' <= remaining t.
Proof.
  intros Hp Hm. destruct (remaining_playing t Hp) as [E H]. destruct Hm as [(Hp' & Hck)|Ho].
  - split; [by left|]. destruct (remaining_playing t' Hp') as [E' _]. lia.
  - split; [by right|]. rewrite (remaining_over t' Ho). lia.
Qed.

Lemma is_move_moved d e t : draw_ok d → (d_next d < GAME_PLAYER)%nat → Playing t → event_ok t e → is_move cfg d e t = true →
  ∃ t', exec cfg d e t = Some t' ∧ moved cfg ps t t'.
Proof.
  intros Hd Hn Hp He. destruct e as [c m| | |]; cbn [is_move exec]; [| |done..].
  - destruct (OnGameMessage_answers cfg Hcfg ps d c m t Hd Hp He) as (b & t' & E & Ha). rewrite E. intros [[[Hex Hcur]%andb_true_iff Hno%negb_true_iff]%andb_true_iff ->]%andb_true_iff.
    rewrite Hex. exists t'. split; [done|]. inversion Ha; subst; congruence.
  - intros ->. by apply onTimerWaitingOver_moves.
Qed.

(** One event. *)
Lemma exec_kept d e t : draw_ok d → (d_next d < GAME_PLAYER)%nat → kept t → event_ok t e →
  ∃ t', exec cfg d e t = Some t' ∧ kept t' ∧ (if is_move cfg d e t then remaining t' < remaining t else remaining t' <= remaining t).
Proof.
  intros Hd Hn [Hp|Ho] He.
  - destruct (is_move cfg d e t) eqn:E.
    + destruct (is_move_moved d e t Hd Hn Hp He E) as (t' & -> & Hm). exists t'. split; [done|]. by apply remaining_moved.
    + destruct (exec_playing cfg Hcfg ps d e t Hd Hn Hp He) as (t' & -> & Hs). exists t'. split; [done|]. by apply remaining_follows, (stepped_follows cfg ps t e).
  - exists t. split; [by apply (exec_over cfg ps)|]. split; [by right|]. assert (is_move cfg d e t = false) as ->; [|lia].
    destruct e as [c m| | |]; cbn [is_move]; [|apply (ov_timer _ _ _ Ho)|done..]. unfold IsExistUser. by rewrite (over_pl cfg ps t c Ho).
Qed.

(** All events. *)
Lemma run_kept l t : kept t → fair cfg l t → ∃ t', run cfg l t = Some t' ∧ kept t' ∧ Z.of_nat (moves cfg l t) + remaining t' <= remaining t.
Proof.
  revert t. induction l as [|[d e] l IH]; intros t Hk Hf; cbn [run moves fair] in *; [exists t; split; [done|]; split; [done|lia]|].
  destruct Hf as (Hd & Hn & He & Hf). destruct (exec_kept d e t Hd Hn Hk He) as (t1 & E & Hk1 & Hr). rewrite E in *. cbn [mbind option_bind].
  destruct (IH t1 Hk1 Hf) as (t' & E' & Hk' & Hr'). exists t'. split; [done|]. split; [done|]. destruct (is_move cfg d e t); lia.
Qed.

Lemma firings_end ds t : Forall (λ d, draw_ok d ∧ (d_next d < GAME_PLAYER)%nat) ds → Over t ∨ Playing t ∧ timerIdWaiting_ t = true → remaining t <= Z.of_nat (length ds) →
  ∃ t', run cfg (firings ds) t = Some t' ∧ Over t'.
Proof.
  revert t. induction ds as [|d ds IH]; intros t Hds Ht Hr; cbn [firings map run].
  - exists t. split; [done|]. destruct Ht as [|[Hp _]]; [done|]. destruct (remaining_playing t Hp) as [_ H]. simpl in Hr. lia.
  - apply Forall_cons in Hds as [[Hd Hn] Hds]. destruct Ht as [Ho|[Hp Ht]].
    + rewrite (exec_over cfg ps d ETimer t Ho). cbn [mbind option_bind]. apply IH; [done|by left|]. rewrite (remaining_over t Ho). lia.
    + destruct (is_move_moved d ETimer t Hd Hn Hp I Ht) as (t1 & -> & Hm). cbn [mbind option_bind]. destruct (remaining_moved t t1 Hp Hm) as [_ Hr1].
      apply IH; [done| |simpl in Hr; lia]. destruct Hm as [(Hp1 & Ht1 & _)|Ho]; [right; by split|by left].
Qed.

(** Without a timer the timer does nothing. *)
Lemma firings_idle ds t : timerIdWaiting_ t = false → run cfg (firings ds) t = Some t.
Proof. intros Ht. induction ds as [|d ds IH]; [done|]. cbn [firings map run exec]. rewrite Ht. exact IH. Qed.

(** ** The settlement *)

Lemma winner_row e : settled cfg ps e → ∃ l1 r l2, rows e = l1 ++ r :: l2 ∧ row_chair r = winuser e ∧ Forall (λ r, row_chair r ≠ winuser e) (l1 ++ l2).
Proof.
  intros [Hc Hw _ _]. apply list_elem_of_fmap in Hw as (r & Er & Hr). apply list_elem_of_split in Hr as (l1 & l2 & E). exists l1, r, l2. split; [done|]. split; [done|].
  assert (NoDup (map row_chair (rows e))) as Hn by (rewrite Hc; apply NoDup_filter, chairs_NoDup). rewrite E, map_app in Hn. cbn [map] in Hn.
  apply NoDup_app in Hn as (_ & H1 & [H2 _]%NoDup_cons). rewrite Forall_forall. intros x [Hx|Hx]%elem_of_app Ex.
  - apply (H1 (row_chair x)); [by apply list_elem_of_fmap_2|]. rewrite Ex, Er. by left.
  - apply H2. rewrite <- Er, <- Ex. by apply list_elem_of_fmap_2.
Qed.

Lemma losers_rows e l : settled cfg ps e → l ⊆ rows e → Forall (λ r, row_chair r ≠ winuser e) l →
  sumZ (map row_win l) = - sumZ (map row_table l) ∧ sumZ (map userWinScorePure l) = - sumZ (map row_table l).
Proof.
  intros Hs Hl Hw. induction l as [|r l IH]; [done|]. apply Forall_cons in Hw as [Hr Hw]. destruct IH as [I1 I2]; [intros x Hx; apply Hl; by right|done|].
  pose proof (st_rows _ _ _ Hs) as Hrow. rewrite Forall_forall in Hrow. destruct (Hrow r (Hl r ltac:(by left))) as (f & _ & _ & _ & H). rewrite decide_False in H by done.
  unfold sumZ in *. cbn [map foldr]. unfold userWinScorePure at 1. lia.
Qed.

Lemma settled_sums e : settled cfg ps e → sumZ (map row_win (rows e)) = 0 ∧ sumZ (map userWinScorePure (rows e)) = - sumZ (map row_revenue (filter (λ r, row_chair r = winuser e) (rows e))).
Proof.
  intros Hs. destruct (winner_row e Hs) as (l1 & r & l2 & E & Er & Hw). apply Forall_app in Hw as [W1 W2].
  destruct (losers_rows e l1 Hs) as [A1 A2]; [rewrite E; set_solver|done|]. destruct (losers_rows e l2 Hs) as [B1 B2]; [rewrite E; set_solver|done|].
  pose proof (st_rows _ _ _ Hs) as Hrow. rewrite Forall_forall in Hrow. assert (r ∈ rows e) as Hr by (rewrite E; set_solver). destruct (Hrow r Hr) as (f & _ & _ & _ & H).
  rewrite decide_True in H by done. rewrite E in H. rewrite E, filter_app, filter_cons_True by done. rewrite (filter_none _ l1), (filter_none _ l2) by done.
  rewrite !map_app, !sumZ_app in *. unfold sumZ in *. cbn [app map foldr] in *. unfold userWinScorePure at 2. lia.
Qed.
End Runs.

(** A run without robots that give up, and its draws. *)
Definition quiet (p : Draw * Event) : Prop := draw_ok p.1 ∧ (d_next p.1 < GAME_PLAYER)%nat ∧ match p.2 with EMessage _ SUB_C_GIVE_UP => False | _ => True end.

Lemma quiet_fair cfg l t : Forall quiet l → fair cfg l t.
Proof.
  revert t. induction l as [|[d e] l IH]; intros t Hl; [done|]. apply Forall_cons in Hl as [(Hd & Hn & He) Hl]. cbn [fst snd] in *. split; [done|]. split; [done|].
  split; [|destruct (exec cfg d e t); [by apply IH|done]]. destruct e as [c m| | |]; [|done..]. destruct m; [by intros|done|by intros..].
Qed.

(** A real player may give up at any time. *)
Lemma give_up_real t c : IsAndroidUser t c = false → event_ok t (EMessage c SUB_C_GIVE_UP).
Proof. intros H _ H'. congruence. Qed.

(** ** A room and its players *)

Module Demo.
Definition room : Config := MkConfig 5 [5; 10; 15; 20; 25] 5 10 true 60 100 10.
Definition draw : Draw := MkDraw (λ _, 100) (λ _, 0) (λ _, 0) 0 (λ x l c, x - Z.quot (x * l) c).
Definition deal : Deal := MkDeal 0 (λ i, nth i [[1; 17; 33]; [2; 18; 5]; [3; 19; 6]; [4; 20; 7]; [8; 9; 10]] []) [11; 12; 13] (0, -100, 100) (λ _, 0) (λ _, 0) (λ _, 0) (λ _, false).
Definition user (id : Z) (robot : bool) (score : Z) : Player := nobody <| item := Some (MkUser id robot score) |>.
Definition table : Table :=
  MkTable 0 [user 11 false 300; user 12 true 100; nobody; user 13 false 40; nobody] None None None None (-1) false 5 5 0 [] TyNil false 0 0 0 false [] None.
Definition events (l : list Event) : list (Draw * Event) := map (λ e, (draw, e)) l.

Lemma demo_room_ok : config_ok room.
Proof.
  split; [done|]. split; [done|]. split; [by left|]. split; [|by repeat constructor].
  intros i j x y Hij Hi Hj. pose proof (lookup_lt_Some _ _ _ Hj) as H. cbn in H.
  do 5 (destruct j as [|j]; [cbn in Hj; injection Hj as <-; do 5 (destruct i as [|i]; [cbn in Hi; injection Hi as <-; lia|]); lia|]). lia.
Qed.

Lemma draw_ok : ZjhRoundSteps.draw_ok draw.
Proof. intros x l c Hx Hl Hc. cbn. rewrite Z.quot_div_nonneg by nia. assert (0 <= x * l / c) by (apply Z.div_pos; nia). assert (x * l / c <= x) by (apply Z.div_le_upper_bound; nia). lia. Qed.

(** The first player raises, the second looks and follows, the bank compares hands with the
    first and wins, the second goes all in and loses. *)
Definition whole_round : list (Draw * Event) :=
  events [EMessage 1 (SUB_C_ADD_SCORE 2); EMessage 3 SUB_C_LOOK_CARD; EMessage 3 (SUB_C_ADD_SCORE (-1)); EMessage 0 (SUB_C_COMPARE_CARD 1); EMessage 3 SUB_C_ALL_IN].
Definition begun : Table := default table (OnGameStart room deal table).
Definition done_with : Table := default table (run room whole_round begun).

Lemma deal_fine : deal_ok deal.
Proof.
  split; [|apply (bool_decide_unpack _); vm_compute; exact I]. intros i Hi. unfold GAME_PLAYER in Hi.
  do 5 (destruct i as [|i]; [apply (bool_decide_unpack _); vm_compute; exact I|]). lia.
Qed.

Lemma begins : OnGameStart room deal table = Some begun.
Proof. vm_compute. reflexivity. Qed.

Lemma runs : run room whole_round begun = Some done_with.
Proof. vm_compute. reflexivity. Qed.

(** The same room without the special 2-3-5, and players who are not robots. *)
Definition plain_room : Config := MkConfig 5 [5; 10; 15; 20; 25] 5 10 false 60 100 10.
Definition real_table : Table :=
  MkTable 0 [user 11 false 300; user 12 false 100; nobody; user 13 false 40; nobody] None None None None (-1) false 5 5 0 [] TyNil false 0 0 0 false [] None.
Definition real_begun : Table := default real_table (OnGameStart plain_room deal real_table).

Lemma plain_room_ok : config_ok plain_room.
Proof. exact demo_room_ok. Qed.

Lemma table_ready : ready room table.
Proof.
  split; [done| |exists 0%nat, 1%nat; split; [done|split; by eexists]]. intros i u.
  do 5 (destruct i as [|i]; [cbn; first [done|intros [= <-]; cbn; lia]|]). by destruct i.
Qed.

Lemma real_table_ready : ready plain_room real_table.
Proof.
  split; [done| |exists 0%nat, 1%nat; split; [done|split; by eexists]]. intros i u.
  do 5 (destruct i as [|i]; [cbn; first [done|intros [= <-]; cbn; lia]|]). by destruct i.
Qed.

Lemma real_begins : OnGameStart plain_room deal real_table = Some real_begun.
Proof. vm_compute. reflexivity. Qed.

Lemma round_fair : fair room whole_round begun.
Proof. apply quiet_fair. repeat (apply Forall_cons; split; [split; [exact draw_ok|split; [cbn; unfold GAME_PLAYER; lia|exact I]]|]). by apply Forall_nil. Qed.

Lemma begun_playing : Playing room (seated table) begun.
Proof. destruct (OnGameStart_playing room demo_room_ok deal deal_fine table table_ready) as (t' & E & H & _). rewrite begins in E. by injection E as <-. Qed.

Lemma real_begun_playing : Playing plain_room (seated real_table) real_begun.
Proof. destruct (OnGameStart_playing plain_room plain_room_ok deal deal_fine real_table real_table_ready) as (t' & E & H & _). rewrite real_begins in E. by injection E as <-. Qed.

Lemma real_hands : one_pack real_begun.
Proof.
  assert (∀ i, live real_begun i = true → ∀ j, live real_begun j = true → j ≠ i → two_hands (handCards_ (pl real_begun i)) (handCards_ (pl real_begun j))) as H.
  { intros i Hi j Hj Hne. apply two_handsb_sound. revert Hi Hj Hne.
    do 5 (destruct i as [|i]; [do 5 (destruct j as [|j]; [vm_compute; congruence|]); by destruct j|]). by destruct i. }
  intros i Hi. split; [|by apply H].
  assert (∃ j, live real_begun j = true ∧ j ≠ i) as (j & Hj & Hne) by (destruct (decide (i = 0%nat)) as [->|]; [exists 1%nat|exists 0%nat]; split; [by vm_compute|done|by vm_compute|done]).
  apply (H i Hi j Hj Hne).
Qed.
End Demo.

(** ** Properties *)

Section Rounds.
Context (cfg : Config) (Hcfg : config_ok cfg) (g : Deal) (Hdeal : deal_ok g) (t : Table) (Hready : ready cfg t).

Lemma started t0 : OnGameStart cfg g t = Some t0 → Playing cfg (seated t) t0 ∧ timerIdWaiting_ t0 = true ∧ clock t0 = 0 ∧ remaining t0 = 100.
Proof.
  intros E. destruct (OnGameStart_playing cfg Hcfg g Hdeal t Hready) as (t' & E' & Hp & Ht & Hc). rewrite E in E'. injection E' as <-. split_and!; [done..|].
  destruct (remaining_playing cfg (seated t) t0 Hp). lia.
Qed.

(** A run from the start. *)
Lemma run_from_start l t0 t' : OnGameStart cfg g t = Some t0 → fair cfg l t0 → run cfg l t0 = Some t' →
  kept cfg (seated t) t' ∧ Z.of_nat (moves cfg l t0) + remaining t' <= 100.
Proof.
  intros E Hf Hr. destruct (started t0 E) as (Hp & _ & _ & Hrem). destruct (run_kept cfg Hcfg (seated t) l t0 (or_introl Hp) Hf) as (t1 & E1 & Hk & Hm).
  rewrite Hr in E1. injection E1 as <-. split; [done|lia].
Qed.
End Rounds.

(** A table with two players or more, all of whom can pay the floor and are dealt three cards
    of the pack, begins a round, and
    whatever then happens (messages of any player in any order, the timer, users who
    leave or come back) no assertion of the code fails: the round is consistent
    (every stake is covered by the balance its player came with, the stakes on the table
    are the sum of theirs, a real player who is out has paid exactly his stake, two at
    least are left, one of them is to move and the bank is one of them), or it is over
    and settled. *)
Theorem zjh_rounds_run cfg g t : config_ok cfg → deal_ok g → ready cfg t →
  ∃ t0, OnGameStart cfg g t = Some t0 ∧ Playing cfg (seated t) t0 ∧
    ∀ l, fair cfg l t0 → ∃ t', run cfg l t0 = Some t' ∧ (Playing cfg (seated t) t' ∨ Over cfg (seated t) t').
Proof.
  intros Hc Hg Hr. destruct (OnGameStart_playing cfg Hc g Hg t Hr) as (t0 & E & Hp & _). exists t0. split; [done|]. split; [done|]. intros l Hf.
  destruct (run_kept cfg Hc (seated t) l t0 (or_introl Hp) Hf) as (t' & E' & Hk & _). by exists t'.
Qed.

Lemma zjh_rounds_run_witness : ∃ t0, OnGameStart Demo.room Demo.deal Demo.table = Some t0 ∧ Playing Demo.room (seated Demo.table) t0 ∧
  ∀ l, fair Demo.room l t0 → ∃ t', run Demo.room l t0 = Some t' ∧ (Playing Demo.room (seated Demo.table) t' ∨ Over Demo.room (seated Demo.table) t').
Proof. exact (zjh_rounds_run Demo.room Demo.deal Demo.table Demo.demo_room_ok Demo.deal_fine Demo.table_ready). Defined.

(** C6. When a round in which every player was dealt three cards of the pack ([deal_ok]) is
    over, what the end announces adds up: the wins of all players sum to zero, and less the
    revenue to minus what the room keeps; the winner is one of the players, wins something
    after the revenue, and nobody else wins; every other player loses exactly his stake,
    which is at least the floor and at most what he came with; each real player was written
    his result exactly once, no robot anything, and all chairs are free. *)
Theorem zjh_settlement cfg g t t0 l t' : config_ok cfg → deal_ok g → ready cfg t → OnGameStart cfg g t = Some t0 → fair cfg l t0 → run cfg l t0 = Some t' →
  gameStatus t' = GAME_STATUS_INIT →
  ∃ e, ended t' = Some e ∧ map row_chair (rows e) = filter (λ i, is_Some (seated t i)) chairs ∧ winuser e ∈ map row_chair (rows e) ∧
    sumZ (map row_win (rows e)) = 0 ∧
    sumZ (map userWinScorePure (rows e)) = - sumZ (map row_revenue (filter (λ r, row_chair r = winuser e) (rows e))) ∧
    (∀ r, r ∈ rows e → ∃ u, item (pl t (row_chair r)) = Some u ∧
      (if decide (row_chair r = winuser e) then 0 < userWinScorePure r ∧ row_revenue r = CalculateRevenue (revenueRatio cfg) (row_win r)
       else userWinScorePure r = - row_table r) ∧
      CellScore cfg <= row_table r <= userScore u ∧ written t' (row_chair r) = (if android u then [] else [userWinScorePure r])) ∧
    ∀ i, IsExistUser t' i = false.
Proof.
  intros Hc Hg Hr E Hf Hrun Hs. destruct (run_from_start cfg Hc g Hg t Hr l t0 t' E Hf Hrun) as [[Hp|Ho] _].
  { pose proof (md_status _ _ _ (pg_mid _ _ _ Hp)) as H. rewrite Hs in H. discriminate H. }
  destruct (ov_end _ _ _ Ho) as (e & Ee & Hse & _ & Hw). destruct (settled_sums cfg Hc (seated t) e Hse) as [S1 S2].
  exists e. split; [done|]. split; [apply (st_chairs _ _ _ Hse)|]. split; [apply (st_winner _ _ _ Hse)|]. split; [done|]. split; [done|]. split.
  - intros r Hin. pose proof (st_rows _ _ _ Hse) as Hrow. rewrite Forall_forall in Hrow. destruct (Hrow r Hin) as (f & Hps & Ha & Hb & H).
    unfold seated in Hps. destruct (item (pl t (row_chair r))) as [u|] eqn:Hu; [|done]. injection Hps as <-. exists u. rewrite (Hw r Hin), Ha. split; [done|]. cbn [copy_info isAndroidUser info_score] in *.
    split; [|by split]. case_decide; [by destruct H as (_ & ? & ?)|]. destruct H as [H1 H2]. unfold userWinScorePure. lia.
  - intros i. unfold IsExistUser. by rewrite (over_pl cfg (seated t) t' i Ho).
Qed.

Lemma zjh_settlement_witness : (∃ e, ended Demo.done_with = Some e ∧ winuser e ∈ map row_chair (rows e) ∧ sumZ (map row_win (rows e)) = 0) ∧
  written Demo.done_with 0 = [57] ∧ written Demo.done_with 1 = [] ∧ written Demo.done_with 3 = [-40].
Proof.
  split; [|split_and!; reflexivity].
  destruct (zjh_settlement Demo.room Demo.deal Demo.table Demo.begun Demo.whole_round Demo.done_with Demo.demo_room_ok Demo.deal_fine Demo.table_ready Demo.begins Demo.round_fair Demo.runs eq_refl)
    as (e & E & _ & W & S & _). exists e. split; [exact E|]. split; [exact W|exact S].
Defined.

(** C13. A round dealt from the pack ([deal_ok]) ends: in every run of events at most a
    hundred are moves (the timer fires, or the user to move bets, compares, goes all in or
    gives up and that is accepted), and after a hundred moves the round is over. *)
Theorem zjh_moves_bound cfg g t t0 l t' : config_ok cfg → deal_ok g → ready cfg t → OnGameStart cfg g t = Some t0 → fair cfg l t0 → run cfg l t0 = Some t' →
  (moves cfg l t0 <= 100)%nat ∧ (moves cfg l t0 = 100%nat → Over cfg (seated t) t').
Proof.
  intros Hc Hg Hr E Hf Hrun. destruct (run_from_start cfg Hc g Hg t Hr l t0 t' E Hf Hrun) as [Hk Hm].
  assert (0 <= remaining t') as H0 by (destruct Hk as [Hp|Ho]; [destruct (remaining_playing _ _ t' Hp); lia|by rewrite (remaining_over _ _ t' Ho)]).
  split; [lia|]. intros Hall. destruct Hk as [Hp|Ho]; [|done]. destruct (remaining_playing _ _ t' Hp). lia.
Qed.

Lemma zjh_moves_bound_witness : moves Demo.room Demo.whole_round Demo.begun = 4%nat ∧ (moves Demo.room Demo.whole_round Demo.begun <= 100)%nat.
Proof.
  split; [reflexivity|].
  exact (proj1 (zjh_moves_bound Demo.room Demo.deal Demo.table Demo.begun Demo.whole_round Demo.done_with Demo.demo_room_ok Demo.deal_fine Demo.table_ready Demo.begins Demo.round_fair Demo.runs)).
Defined.

(** C16. Whatever has happened in a round dealt from the pack ([deal_ok]), if the timer is
    set then the timer alone ends it: after a hundred firings at most the round is over,
    though no user does anything. *)
Theorem zjh_timers_end cfg g t t0 l t' ds : config_ok cfg → deal_ok g → ready cfg t → OnGameStart cfg g t = Some t0 → fair cfg l t0 → run cfg l t0 = Some t' →
  timerIdWaiting_ t' = true → Forall (λ d, draw_ok d ∧ (d_next d < GAME_PLAYER)%nat) ds → length ds = 100%nat →
  ∃ t'', run cfg (firings ds) t' = Some t'' ∧ Over cfg (seated t) t''.
Proof.
  intros Hc Hg Hr E Hf Hrun Ht Hds Hl. destruct (run_from_start cfg Hc g Hg t Hr l t0 t' E Hf Hrun) as [Hk Hm]. apply firings_end; [done|done| |lia].
  destruct Hk as [Hp|Ho]; [right; by split|by left].
Qed.

Lemma zjh_timers_end_witness : timerIdWaiting_ Demo.begun = true ∧
  ∃ t'', run Demo.room (firings (replicate 100 Demo.draw)) Demo.begun = Some t'' ∧ Over Demo.room (seated Demo.table) t''.
Proof.
  split; [reflexivity|].
  apply (zjh_timers_end Demo.room Demo.deal Demo.table Demo.begun [] Demo.begun (replicate 100 Demo.draw) Demo.demo_room_ok Demo.deal_fine Demo.table_ready Demo.begins I eq_refl eq_refl); [|reflexivity].
  apply Forall_replicate. split; [exact Demo.draw_ok|]. cbn. unfold GAME_PLAYER. lia.
Defined.

(** C38. The handlers stop the timer before they test the message, so a refused message of
    the user to move leaves the round without one: he compares with himself, goes all
    in with more than that takes, or, being no robot, raises to a chip that is not above
    the one followed and is not the highest one (the highest chip is refused before the
    timer is stopped).  The message changes nothing else, and from then on firings of the
    timer alone change nothing, however many: only a further message, or others who give
    up, can let the round go on. *)
Theorem zjh_refused_stops cfg ps d t c : config_ok cfg → Playing cfg ps t → currentUser_ t = Some c →
  OnGameMessage cfg d c (SUB_C_COMPARE_CARD c) t = Some (false, refused t) ∧
  (CurrentCompareScore t c + tableScore_ (pl t c) < ScoreByChairId t c → OnGameMessage cfg d c SUB_C_ALL_IN t = Some (false, refused t)) ∧
  (∀ k index, IsAndroidUser t c = false → JettionList cfg !! k = Some (followScore_ t) → 0 < index <= Z.of_nat k → index < Z.of_nat (length (JettionList cfg)) - 1 →
    OnGameMessage cfg d c (SUB_C_ADD_SCORE index) t = Some (false, refused t)) ∧
  ∀ ds, run cfg (firings ds) (refused t) = Some (refused t).
Proof.
  intros Hc Hp Hcur. pose proof Hp as [Hm (c' & Hc' & Hl) H2 _]. assert (c' = c) as -> by congruence. assert (to_move cfg ps t c) as Htm by done.
  destruct (to_move_facts cfg Hc ps t c Htm) as (_ & _ & _ & He & Ho & Hi & _). assert (may_move t c = true) as Hmay by (unfold may_move; by rewrite He, Ho, Hi).
  split; [|split; [|split]].
  - cbn [OnGameMessage]. rewrite Hmay, He, Ho. cbn [negb]. by apply (compare_self cfg Hc ps).
  - intros Hs. cbn [OnGameMessage]. rewrite Hmay. cbn [negb]. destruct (next_other cfg ps t c (c + 1) Htm) as (n & En & Hn & Hnc). unfold all_in_next. rewrite En.
    unfold OnUserAllIn. fold (refused t). pose proof (to_move_facts cfg Hc ps _ c (to_move_timer cfg ps t c false Htm)) as (_ & _ & _ & F1 & F2 & F3 & _). fold (refused t) in F1, F2, F3.
    pose proof Hn as [Hn1 Hn2%negb_true_iff]%andb_true_iff. change (IsExistUser (refused t) n) with (IsExistUser t n). change (out (refused t) n) with (out t n).
    rewrite F1, F2, F3, Hn1, Hn2, (proj2 (Nat.eqb_neq c n)) by congruence. cbn [negb orb]. by rewrite (proj2 (Z.ltb_lt _ _)).
  - intros k index Ha Hk Hix Hlast. cbn [OnGameMessage]. rewrite Hmay. cbn [negb]. rewrite (proj2 (Z.eqb_neq _ _)), (proj2 (Z.eqb_neq index 0)), (proj2 (Z.leb_gt _ _)) by lia. cbn [orb].
    pose proof (to_move_facts cfg Hc ps _ c (to_move_timer cfg ps t c false Htm)) as (_ & _ & _ & F1 & F2 & F3 & _). unfold OnUserAddScore. fold (refused t) in *.
    rewrite F1, F2, F3, (proj2 (Z.leb_gt index 0)) by lia. cbn [negb]. destruct (GetCurrentAddStart_spec cfg Hc ps (refused t) (md_chip _ _ _ Hm)) as (k' & Hk' & ->).
    change (followScore_ (refused t)) with (followScore_ t) in Hk'. assert (k' = k) as ->.
    { destruct Hc as (_ & _ & _ & Hord & _). destruct (Nat.lt_total k' k) as [H|[H|H]]; [pose proof (Hord _ _ _ _ H Hk' Hk)|done|pose proof (Hord _ _ _ _ H Hk Hk')]; lia. }
    cbn [mbind option_bind]. change (IsAndroidUser (refused t) c) with (IsAndroidUser t c). rewrite Ha. destruct (S k <? length (JettionList cfg))%nat; [|done]. by rewrite (proj2 (Z.ltb_lt index _)), orb_true_r by lia.
  - intros ds. by apply firings_idle.
Qed.

Lemma zjh_refused_stops_witness : OnGameMessage Demo.room Demo.draw 1 (SUB_C_COMPARE_CARD 1) Demo.begun = Some (false, refused Demo.begun) ∧
  OnGameMessage Demo.room Demo.draw 1 SUB_C_ALL_IN Demo.begun = Some (false, refused Demo.begun) ∧
  timerIdWaiting_ Demo.begun = true ∧ timerIdWaiting_ (refused Demo.begun) = false.
Proof.
  destruct (zjh_refused_stops Demo.room (seated Demo.table) Demo.draw Demo.begun 1 Demo.demo_room_ok Demo.begun_playing eq_refl) as (H1 & H2 & _).
  split; [exact H1|]. split; [apply H2; vm_compute; reflexivity|]. split; reflexivity.
Defined.

(** Passing the turn counts chairs: five for each turn.  The next user is the first one
    from the present one's left who has not gone out; the turn is the number of chairs
    counted since the round began by five, at most 19; and the turns are used up
    exactly when a hundred chairs have been counted. *)
Theorem zjh_turn_counts cfg ps t cur i : Playing cfg ps t → currentUser_ t = Some cur → next_live t cur = Some i →
  GetNextUser t = Some (Some (seats_after cur i), 100 <=? clock t + Z.of_nat i, Z.min 19 ((clock t + Z.of_nat i) / 5)) ∧ live t (seats_after cur i) = true ∧ (1 <= i <= 4)%nat.
Proof.
  intros Hp Hcur Hn. pose proof Hp as [Hm _ _ _]. pose proof (md_book _ _ _ Hm) as Hb. destruct (md_first _ _ _ Hm) as (f & Hf & Hpf). destruct (md_current _ _ _ Hm) as (c & Hc & Hpc).
  assert (c = cur) as -> by congruence. destruct (GetNextUser_counts cfg ps t cur f i Hb Hcur Hf) as (H1 & H2 & _ & H3 & _); [|by apply (listed_player cfg ps t)|apply (md_turn _ _ _ Hm)|done|done].
  apply (listed_chair cfg ps t cur Hb). by apply (listed_player cfg ps t).
Qed.

Lemma zjh_turn_counts_witness : next_live Demo.begun 1 = Some 2%nat ∧ clock Demo.begun = 0 ∧ GetNextUser Demo.begun = Some (Some 3%nat, false, 0).
Proof.
  split; [reflexivity|]. split; [reflexivity|].
  exact (proj1 (zjh_turn_counts Demo.room (seated Demo.table) Demo.begun 1 2 Demo.begun_playing eq_refl eq_refl)).
Defined.

(** C20. The comparison that ends a round after twenty turns finds the best hand: when the 2-3-5
    is not special ([special235_]: with it hands beat each other in a circle), no two hands
    share a card and no hand will be exchanged for a made one ([no_exchange]), the round
    ends with a winner who was still playing and whose hand beats the hand of every other
    player who was, in whatever order the chairs are asked. *)
Theorem zjh_best_hand_wins cfg d ps t c : config_ok cfg → special235_ cfg = false → Mid cfg ps t → currentUser_ t = Some c → live t c = true →
  one_pack t → no_exchange t →
  ∃ t' e, OnUserCompareCardForce cfg d t = Some t' ∧ Over cfg ps t' ∧ ended t' = Some e ∧ live t (winuser e) = true ∧
    ∀ i, live t i = true → i ≠ winuser e →
      ∃ x, fst (CompareHandCards (handCards_ (pl t (winuser e))) (handCards_ (pl t i)) (special235_ cfg)) = Some x ∧ 0 < x.
Proof.
  intros Hc Hs Hm Hcur Hl Hp Hx. destruct (force_result cfg Hc ps d t c Hm Hcur Hl) as (l & t1 & w & t' & e & El & Hin & Ha & E & Ho & Ee & Hw). exists t', e. split; [done|]. split; [done|]. split; [done|].
  pose proof (md_book _ _ _ Hm) as Hb. destruct (force_best cfg Hs ps d l c t t1 Hb Hp Hx Hl El) as (b & B1 & B2 & _ & B4).
  assert (b = w) as ->.
  { assert (b ∈ alive t1) as H by (unfold alive; apply list_elem_of_filter; split; [done|]; by apply elem_chairs, (live_chair cfg ps t)). rewrite Ha in H. by apply list_elem_of_singleton in H. }
  rewrite Hw, Hs. split; [done|]. intros i Hi Hne. eexists. split; [apply compare_key|]. apply B4; [right; by apply Hin, (live_chair cfg ps t)|done..].
Qed.

Lemma zjh_best_hand_wins_witness : ∃ t' e, OnUserCompareCardForce Demo.plain_room Demo.draw Demo.real_begun = Some t' ∧ ended t' = Some e ∧
  ∀ i, live Demo.real_begun i = true → i ≠ winuser e →
    ∃ x, fst (CompareHandCards (handCards_ (pl Demo.real_begun (winuser e))) (handCards_ (pl Demo.real_begun i)) false) = Some x ∧ 0 < x.
Proof.
  destruct (zjh_best_hand_wins Demo.plain_room Demo.draw (seated Demo.real_table) Demo.real_begun 1 Demo.plain_room_ok eq_refl (pg_mid _ _ _ Demo.real_begun_playing) eq_refl eq_refl Demo.real_hands)
    as (t' & e & E & _ & Ee & _ & H).
  - right. intros i. do 5 (destruct i as [|i]; [reflexivity|]). destruct i; reflexivity.
  - exists t', e. split; [exact E|]. split; [exact Ee|]. exact H.
Defined.
