(* ===== verification/ZjhWait.v ===== *)
(** Golden flower, the table between the rounds ([src/Games/Game_zjh/GameProcess.cpp]): users
    gather until a number that was drawn is reached, or for some time, then a round
    begins.  The time is a sum of [double]s; what it is compared with is an argument. *)
From stdpp Require Import base option numbers sorting sets list.
From Stdlib Require Import ZArith Lia.
From S2P Require Import Prelude GameDefine ZjhLogic ZjhRound.

#[local] Open Scope Z_scope.

Definition MIN_GAME_PLAYER : nat := 2.

(** [match_over n] and [match_late n]: after [n] slices [totalMatchSeconds_] has reached
    [timeoutMatchSeconds_], and that and [timeoutAddAndroidSeconds_]. *)
Record Match := MkMatch {
  EnterMinScore : Z;
  match_over : nat → bool;
  match_late : nat → bool
}.

(** The table of a round with what the waiting adds: [slices] counts the slices in
    [totalMatchSeconds_], [timerIdGameReadyOver] tells whether that timer is set. *)
Record Desk := MkDesk {
  table : Table;
  MaxGamePlayers_ : nat;
  slices : nat;
  timerIdGameReadyOver : bool
}.
#[global] Instance eta_Desk : Settable Desk := λ w, MkDesk (table w) (MaxGamePlayers_ w) (slices w) (timerIdGameReadyOver w).

Definition GetPlayerCount (t : Table) : nat := length (filter (λ i, IsExistUser t i = true) chairs).

(** The frame has given user [u] the chair. *)
Definition seat (i : nat) (u : User) (t : Table) : Table := upd i (λ p, p <| item := Some u |>) t.

(** [CanJoinTable] before a round; [nameless] is a call for a robot that is not chosen yet. *)
Definition CanJoinTable (mt : Match) (nameless : bool) (w : Desk) : bool :=
  if gameStatus (table w) <? GAME_STATUS_START then
    if (MaxGamePlayers_ w <=? GetPlayerCount (table w))%nat then false
    else negb (nameless && negb (match_over mt (slices w)))
  else false.

(** Users who cannot pay to enter, and real ones who are offline, leave. *)
Definition leaves (mt : Match) (offline : nat → bool) (t : Table) (i : nat) : bool :=
  if IsAndroidUser t i then ScoreByChairId t i <? EnterMinScore mt
  else offline i || (ScoreByChairId t i <? EnterMinScore mt).
Definition check_user (mt : Match) (offline : nat → bool) (t : Table) (i : nat) : Table :=
  if IsExistUser t i && leaves mt offline t i then ClearTableUser i t else t.

Definition GameTimerReadyOver (cfg : Config) (mt : Match) (offline : nat → bool) (g : Deal) (w : Desk) : option Desk :=
  let w := w <| timerIdGameReadyOver := false |> in
  let t := foldl (check_user mt offline) (table w) chairs in
  if (MIN_GAME_PLAYER <=? GetPlayerCount t)%nat then
    t ← OnGameStart cfg g t;
    Some (w <| table := t |>)
  else Some (w <| table := ClearAllTimer t <| gameStatus := GAME_STATUS_INIT |> |>).

(** The user sits already; [players] is the number that is drawn if he is the first. *)
Definition OnUserEnter (cfg : Config) (mt : Match) (offline : nat → bool) (g : Deal) (players : nat) (w : Desk) : option Desk :=
  let n := GetPlayerCount (table w) in
  w ← (if (n =? 1)%nat then
         let w := if negb (gameStatus (table w) =? GAME_STATUS_INIT) then w <| table ::= λ t, t <| gameStatus := GAME_STATUS_INIT |> |> else w in
         _ ← assert ((MIN_GAME_PLAYER <=? players)%nat && (players <=? GAME_PLAYER)%nat);
         Some (w <| MaxGamePlayers_ := players |> <| slices := 0%nat |>)
       else Some w);
  if (gameStatus (table w) <? GAME_STATUS_START) && (MaxGamePlayers_ w <=? n)%nat then
    let w := if (n =? 1)%nat then w <| table ::= λ t, t <| gameStatus := GAME_STATUS_READY |> |> else w in
    _ ← assert (n =? MaxGamePlayers_ w)%nat;
    GameTimerReadyOver cfg mt offline g w
  else if (n =? 1)%nat then
    Some (w <| table ::= λ t, ClearAllTimer (t <| gameStatus := GAME_STATUS_READY |>) |> <| timerIdGameReadyOver := true |>)
  else Some w.

(** Everybody leaves; what [OnTimerGameEnd] does. *)
Definition clear_table (cfg : Config) (w : Desk) : Desk := w <| table ::= OnTimerGameEnd cfg |>.

Definition OnTimerGameReadyOver (cfg : Config) (mt : Match) (offline : nat → bool) (g : Deal) (w : Desk) : option Desk :=
  let w := w <| timerIdGameReadyOver := false |> in
  let t := table w in
  if (GetPlayerCount_real t =? 0)%nat then
    Some (if negb (gameStatus t =? GAME_STATUS_INIT) then clear_table cfg w else w)
  else if gameStatus t =? GAME_STATUS_START then Some w
  else if negb (gameStatus t =? GAME_STATUS_READY) then Some (clear_table cfg w)
  else
    _ ← assert (0 <? GetPlayerCount_real t)%nat;
    let w := w <| slices ::= S |> in
    if (MaxGamePlayers_ w <=? GetPlayerCount t)%nat then _ ← assert (GetPlayerCount t =? MaxGamePlayers_ w)%nat; Some w
    else if negb (match_over mt (slices w)) then Some (w <| timerIdGameReadyOver := true |>)
    else if match_late mt (slices w) then
      if (MIN_GAME_PLAYER <=? GetPlayerCount t)%nat then GameTimerReadyOver cfg mt offline g w
      else Some (w <| timerIdGameReadyOver := true |>)
    else Some (w <| timerIdGameReadyOver := true |>).

(** ** All events of a table *)

(** A user is given a free chair, one who sits enters again, the timer of the waiting
    fires, or an event of a round.  The frame asks [CanJoinTable] unless it takes an empty
    table; one who enters again during a round is an event of the round. *)
Inductive DeskEvent :=
  | DEnter (i : nat) (u : User) (players : nat)
  | DReturn (i players : nat)
  | DReady
  | DRound (d : Draw) (e : Event).

Definition exec_desk (cfg : Config) (mt : Match) (offline : nat → bool) (g : Deal) (e : DeskEvent) (w : Desk) : option Desk :=
  match e with
  | DEnter i u players =>
      if negb (IsExistUser (table w) i) && (gameStatus (table w) <? GAME_STATUS_START) && ((GetPlayerCount (table w) =? 0)%nat || CanJoinTable mt false w)
      then OnUserEnter cfg mt offline g players (w <| table ::= seat i u |>)
      else Some w
  | DReturn i players =>
      if IsExistUser (table w) i && (gameStatus (table w) <? GAME_STATUS_START) && CanJoinTable mt false w
      then OnUserEnter cfg mt offline g players w
      else Some w
  | DReady => if timerIdGameReadyOver w then OnTimerGameReadyOver cfg mt offline g w else Some w
  | DRound d e => t ← exec cfg d e (table w); Some (w <| table := t |>)
  end.

Fixpoint run_desk (cfg : Config) (mt : Match) (l : list (DeskEvent * (nat → bool) * Deal)) (w : Desk) : option Desk :=
  match l with
  | [] => Some w
  | (e, offline, g) :: l => w ← exec_desk cfg mt offline g e w; run_desk cfg mt l w
  end.

(** A table nobody has used. *)
Definition new_table (cfg : Config) : Table :=
  MkTable GAME_STATUS_INIT (replicate GAME_PLAYER nobody) None None None None (-1) false (CellScore cfg) (CellScore cfg) 0 (replicate MaxCount 0) TyNil false 0 0 0 false [] None.
Definition new_desk (cfg : Config) : Desk := MkDesk (new_table cfg) 0 0 false.
