(* ===== verification/ZjhTable.v ===== *)
(** Golden flower, the table from round to round: users gather, a round is played, the table
    is free again; no assertion fails on the way.  A start that fails leaves a table where
    nothing happens. *)
From stdpp Require Import base option numbers sorting sets list.
From Stdlib Require Import ZArith Lia.
From S2P Require Import Prelude GameDefine ZjhLogic ZjhRound ZjhRoundInv ZjhRoundTurn ZjhRoundEnd ZjhRoundSteps ZjhRoundMoves ZjhRoundEvents ZjhRoundStart ZjhRoundProps ZjhWait.

#[local] Open Scope Z_scope.

(** ** Counting users *)

Lemma filter_length_le {A} (f h : A → bool) (l : list A) : (∀ a, f a = true → h a = true) → (length (filter (λ a, f a = true) l) <= length (filter (λ a, h a = true) l))%nat.
Proof.
  intros H. induction l as [|a l IH]; [done|]. rewrite !filter_cons. destruct (decide (f a = true)) as [Hf|Hf].
  - rewrite decide_True by (by apply H). simpl. lia.
  - destruct (decide (h a = true)); simpl; lia.
Qed.

Lemma filter_same {A} (f h : A → bool) (l : list A) : (∀ a, a ∈ l → f a = h a) → filter (λ a, f a = true) l = filter (λ a, h a = true) l.
Proof. induction l as [|a l IH]; intros H; [done|]. rewrite !filter_cons, (H a), IH; [done| |by left]. intros b Hb. apply H. by right. Qed.

Lemma filter_length_one {A} `{EqDecision A} (f h : A → bool) (l : list A) a : NoDup l → a ∈ l → f a = false → h a = true → (∀ b, b ≠ a → h b = f b) →
  length (filter (λ b, h b = true) l) = S (length (filter (λ b, f b = true) l)).
Proof.
  intros Hn Ha Hf Hh He. induction l as [|b l IH]; [by apply elem_of_nil in Ha|]. apply NoDup_cons in Hn as [Hb Hn]. rewrite !filter_cons. destruct (decide (b = a)) as [->|Hne].
  - rewrite decide_True, decide_False by congruence. simpl. do 2 f_equal. apply filter_same. intros c Hc. apply He. by intros ->.
  - apply elem_of_cons in Ha as [?|Ha]; [congruence|]. rewrite (He b Hne). destruct (decide (f b = true)); simpl; by rewrite IH.
Qed.

Lemma exist_lt t i : IsExistUser t i = true → (i < length (players_ t))%nat.
Proof. intros H. destruct (decide (i < length (players_ t))%nat); [done|]. unfold IsExistUser in H. by rewrite pl_out in H by lia. Qed.

Lemma users_pos t i : IsExistUser t i = true → (i < GAME_PLAYER)%nat → (0 < GetPlayerCount t)%nat.
Proof.
  intros H Hi. unfold GetPlayerCount. assert (i ∈ filter (λ i, IsExistUser t i = true) chairs) as E by (apply list_elem_of_filter; split; [done|by apply elem_chairs]).
  destruct (filter _ chairs); [by apply elem_of_nil in E|simpl; lia].
Qed.

Lemma count_two t : (2 <= GetPlayerCount t)%nat → ∃ i j, i ≠ j ∧ IsExistUser t i = true ∧ IsExistUser t j = true.
Proof.
  unfold GetPlayerCount. intros H. assert (NoDup (filter (λ i, IsExistUser t i = true) chairs)) as Hn by apply NoDup_filter, chairs_NoDup.
  destruct (filter _ chairs) as [|i [|j l]] eqn:E; [simpl in H; lia..|]. exists i, j. apply NoDup_cons in Hn as [Hn _].
  assert (∀ k, k ∈ i :: j :: l → IsExistUser t k = true) as Hk by (intros k Hk; rewrite <- E in Hk; by apply list_elem_of_filter in Hk as [? _]).
  split; [intros ->; apply Hn; by left|]. split; apply Hk; [by left|right; by left].
Qed.

(** ** Tables that lose users *)

Definition thinner (t t' : Table) : Prop :=
  length (players_ t') = length (players_ t) ∧ ∀ i, pout (pl t' i) = pout (pl t i) ∧ (item (pl t' i) = item (pl t i) ∨ item (pl t' i) = None).

Lemma thinner_refl t : thinner t t.
Proof. split; [done|]. intros i. split; [done|by left]. Qed.

#[global] Instance thinner_trans : Transitive thinner.
Proof. intros t1 t2 t3 [L1 H1] [L2 H2]. split; [congruence|]. intros i. destruct (H1 i) as [P1 I1], (H2 i) as [P2 I2]. split; [congruence|]. destruct I1, I2; naive_solver congruence. Qed.

Lemma thinner_exist t t' i : thinner t t' → IsExistUser t' i = true → IsExistUser t i = true.
Proof. intros [_ H]. unfold IsExistUser. by destruct (H i) as [_ [-> | ->]]. Qed.

Lemma thinner_count t t' : thinner t t' → (GetPlayerCount t' <= GetPlayerCount t)%nat.
Proof. intros H. apply filter_length_le. intros i. by apply thinner_exist. Qed.

Lemma thinner_upd i f t : (∀ p, pout (f p) = pout p ∧ (item (f p) = item p ∨ item (f p) = None)) → thinner t (upd i f t).
Proof.
  intros Hf. split; [apply upd_length|]. intros j. destruct (decide (i < length (players_ t))%nat) as [Hi|Hi].
  - rewrite pl_upd by done. case_decide; [apply Hf|]. split; [done|by left].
  - assert (players_ (upd i f t) = players_ t) as E by (apply alter_out; lia). unfold pl. rewrite E. split; [done|by left].
Qed.

Lemma thinner_clear i t : thinner t (ClearTableUser i t).
Proof. apply thinner_upd. intros p. split; [done|by right]. Qed.

(** What the users have no part in. *)
Definition idle (t : Table) : Prop := currentUser_ t = None ∧ timerIdWaiting_ t = false.

Lemma foldl_thins {A} (g : Table → A → Table) l t : (∀ t a, thinner t (g t a) ∧ gameStatus (g t a) = gameStatus t ∧ (idle t → idle (g t a))) →
  thinner t (foldl g t l) ∧ gameStatus (foldl g t l) = gameStatus t ∧ (idle t → idle (foldl g t l)).
Proof.
  intros Hg. revert t. induction l as [|a l IH]; intros t; cbn [foldl]; [split; [apply thinner_refl|done]|]. destruct (Hg t a) as (H1 & H2 & H3), (IH (g t a)) as (I1 & I2 & I3).
  split; [by transitivity (g t a)|]. split; [congruence|]. tauto.
Qed.

Section Waits.
Context (cfg : Config) (Hcfg : config_ok cfg) (mt : Match) (Hmin : CellScore cfg <= EnterMinScore mt).

(** Users who may wait. *)
Record gathered (t : Table) : Prop := {
  ga_len : length (players_ t) = GAME_PLAYER;
  ga_out : ∀ i, pout (pl t i) = false;
  ga_ids : ∀ i u, item (pl t i) = Some u → 0 < userId u;
  ga_idle : idle t
}.

Lemma gathered_thinner t t' : thinner t t' → idle t' → gathered t → gathered t'.
Proof.
  intros [L H] Hi [G1 G2 G3 G4]. split; [congruence| | |done].
  - intros i. destruct (H i) as [-> _]. apply G2.
  - intros i u Hu. destruct (H i) as [_ [E|E]]; [apply (G3 i); congruence|congruence].
Qed.

Lemma gathered_exist t i : gathered t → IsExistUser t i = true ↔ is_Some (item (pl t i)).
Proof.
  intros G. unfold IsExistUser. destruct (item (pl t i)) as [u|] eqn:E; [|split; [done|by intros [? ?]]]. split; [by eexists|]. intros _. apply Z.ltb_lt. by apply (ga_ids _ G i).
Qed.

(** The table between two rounds. *)
Record Waiting (w : Desk) : Prop := {
  wt_users : gathered (table w);
  wt_status : gameStatus (table w) = GAME_STATUS_INIT ∨
    gameStatus (table w) = GAME_STATUS_READY ∧ (GetPlayerCount (table w) < MaxGamePlayers_ w)%nat ∧ timerIdGameReadyOver w = true;
  wt_count : (GetPlayerCount (table w) <= MaxGamePlayers_ w)%nat
}.

(** A table that waits, or plays a round whose timer of the waiting is not set. *)
Definition desk_ok (w : Desk) : Prop := Waiting w ∨ (∃ ps, Playing cfg ps (table w)) ∧ timerIdGameReadyOver w = false.

(** ** The start *)

Lemma check_thins offline t i : thinner t (check_user mt offline t i) ∧ gameStatus (check_user mt offline t i) = gameStatus t ∧ (idle t → idle (check_user mt offline t i)).
Proof. unfold check_user. destruct (_ && _); [|by split; [apply thinner_refl|]]. split; [apply thinner_clear|done]. Qed.

(** Who stays can pay. *)
Lemma checked offline l t : (∀ i u, item (pl t i) = Some u → 0 < userId u) → let t' := foldl (check_user mt offline) t l in
  ∀ i u, i ∈ l → item (pl t' i) = Some u → EnterMinScore mt <= userScore u.
Proof.
  intros Hids. cbv zeta. revert t Hids. induction l as [|j l IH]; intros t Hids i u Hi Hu; [by apply elem_of_nil in Hi|]. cbn [foldl] in Hu. destruct (check_thins offline t j) as (T & _ & _).
  set (t1 := check_user mt offline t j) in *. assert (∀ i u, item (pl t1 i) = Some u → 0 < userId u) as Hids1.
  { intros k v Hv. destruct T as [_ T]. destruct (T k) as [_ [E|E]]; [apply (Hids k); congruence|congruence]. }
  destruct (decide (i ∈ l)) as [Hil|Hil]; [by apply (IH t1 Hids1 i u)|]. apply elem_of_cons in Hi as [->|]; [|done].
  destruct (foldl_thins (check_user mt offline) l t1 (check_thins offline)) as ([_ T'] & _). destruct (T' j) as [_ [E|E]]; [|congruence]. rewrite E in Hu. clear E T T' IH Hids1.
  unfold t1, check_user in Hu. destruct (IsExistUser t j) eqn:Ex; cbn [andb] in Hu.
  - pose proof (exist_lt t j Ex) as Hj. destruct (leaves mt offline t j) eqn:El; [unfold ClearTableUser in Hu; rewrite pl_upd, decide_True in Hu by done; done|].
    unfold leaves, ScoreByChairId in El. rewrite Hu in El. destruct (IsAndroidUser t j); [|apply orb_false_iff in El as [_ El]]; by apply Z.ltb_ge in El.
  - unfold IsExistUser in Ex. rewrite Hu in Ex. pose proof (Hids j u Hu). apply Z.ltb_ge in Ex. lia.
Qed.

Lemma enter_status g l t : gameStatus (foldl (enter_round cfg g) t l) = gameStatus t.
Proof.
  revert t. induction l as [|i l IH]; intros t; cbn [foldl]; [done|]. rewrite IH. unfold enter_round. destruct (IsExistUser t i); [|done]. by destruct (GetHandCardsType _).
Qed.

(** A round that begins is announced. *)
Lemma start_status g t t' : OnGameStart cfg g t = Some t' → gameStatus t' = GAME_STATUS_START.
Proof.
  unfold OnGameStart. destruct (g_stock g) as [[s l] h].
  assert (gameStatus (ClearAllTimer (InitGameData cfg t <| gameStatus := GAME_STATUS_START |> <| blastAndroidChangeCard := false |>
    <| StockScore := s |> <| StockLowLimit := l |> <| StockHighLimit := h |> <| madeMaxCards_ := g_made g |>
    <| madeMaxCardsType_ := fst (GetHandCardsType (g_made g)) |> <| writes := [] |> <| ended := None |>)) = GAME_STATUS_START) as H0 by reflexivity.
  generalize dependent (ClearAllTimer (InitGameData cfg t <| gameStatus := GAME_STATUS_START |> <| blastAndroidChangeCard := false |>
    <| StockScore := s |> <| StockLowLimit := l |> <| StockHighLimit := h |> <| madeMaxCards_ := g_made g |>
    <| madeMaxCardsType_ := fst (GetHandCardsType (g_made g)) |> <| writes := [] |> <| ended := None |>)). intros t0 H0.
  destruct (find _ _) as [b|]; [|discriminate]. cbn [mbind option_bind]. destruct (find _ _) as [c|]; [|discriminate]. cbn [mbind option_bind].
  destruct (assert _); [|discriminate]. cbn [mbind option_bind]. intros E.
  apply (inj Some) in E. rewrite <- E.
  etransitivity; [|exact H0]. symmetry. etransitivity; [|symmetry; exact (enter_status g chairs _)]. reflexivity.
Qed.

(** Two users who are left begin a round if they are dealt cards of the pack; fewer wait. *)
Lemma start_or_wait offline g w : gathered (table w) → (GetPlayerCount (table w) <= MaxGamePlayers_ w)%nat →
  (deal_ok g → ∃ w', GameTimerReadyOver cfg mt offline g w = Some w' ∧ desk_ok w') ∧
  ∀ w', GameTimerReadyOver cfg mt offline g w = Some w' → gameStatus (table w') = GAME_STATUS_START ∨
    Waiting w' ∧ gameStatus (table w') = GAME_STATUS_INIT ∧ (GetPlayerCount (table w') < 2)%nat ∧ timerIdGameReadyOver w' = false.
Proof.
  intros G Hc. unfold GameTimerReadyOver. cbn [table]. change (table (w <| timerIdGameReadyOver := false |>)) with (table w).
  destruct (foldl_thins (check_user mt offline) chairs (table w) (check_thins offline)) as (T & _ & Ti). pose proof (checked offline chairs (table w) (ga_ids _ G)) as Hpay. cbv zeta in Hpay.
  set (t := foldl (check_user mt offline) (table w) chairs) in *. pose proof (gathered_thinner _ _ T (Ti (ga_idle _ G)) G) as Gt. pose proof (thinner_count _ _ T) as Hct.
  unfold MIN_GAME_PLAYER. destruct (Nat.leb_spec 2 (GetPlayerCount t)) as [H2|H2].
  - split; [intros Hg|].
    + destruct (count_two t H2) as (i & j & Hij & Hi & Hj). destruct (OnGameStart_playing cfg Hcfg g Hg t) as (t' & -> & Hp & _).
      { split; [apply (ga_len _ Gt)| |exists i, j; split; [done|]; split; by apply gathered_exist]. intros k u Hu. split; [by apply (ga_ids _ Gt k)|].
        assert (k ∈ chairs) as Hk by (apply elem_chairs; rewrite <- (ga_len _ Gt); apply exist_lt, gathered_exist; [done|by eexists]). pose proof (Hpay k u Hk Hu). lia. }
      cbn [mbind option_bind]. eexists. split; [done|]. right. split; [by exists (seated t)|done].
    + intros w'. destruct (OnGameStart cfg g t) as [t'|] eqn:E; [|done]. cbn [mbind option_bind]. intros [= <-]. left. exact (start_status g t t' E).
  - set (t' := ClearAllTimer t <| gameStatus := GAME_STATUS_INIT |>). assert (GetPlayerCount t' = GetPlayerCount t) as E by done.
    assert (Waiting (w <| timerIdGameReadyOver := false |> <| table := t' |>)) as Hw.
    { split; [|by left|change (GetPlayerCount t <= MaxGamePlayers_ w)%nat; lia].
      apply (gathered_thinner t); [split; [done|]; intros i; split; [done|by left]|by destruct (ga_idle _ Gt)|done]. }
    split; [intros _; eexists; split; [done|by left]|]. intros w' [= <-]. right. split; [exact Hw|]. split; [done|]. split; [exact H2|done].
Qed.

(** ** A user enters *)

Lemma seat_gathers i u t : gathered t → (i < GAME_PLAYER)%nat → 0 < userId u → IsExistUser t i = false → gathered (seat i u t) ∧ GetPlayerCount (seat i u t) = S (GetPlayerCount t).
Proof.
  intros G Hi Hu He. rewrite <- (ga_len _ G) in Hi. set (f := λ p : Player, p <| item := Some u |>).
  assert (∀ j, pl (seat i u t) j = if decide (i = j) then f (pl t j) else pl t j) as Hpl by (intros j; by apply pl_upd). split.
  - split; [rewrite <- (ga_len _ G); apply upd_length| | |apply (ga_idle _ G)].
    + intros j. rewrite Hpl. case_decide; apply (ga_out _ G).
    + intros j v. rewrite Hpl. case_decide; [by intros [= <-]|apply (ga_ids _ G)].
  - apply (filter_length_one _ _ _ i); [apply chairs_NoDup|apply elem_chairs; by rewrite <- (ga_len _ G)|done| |].
    + unfold IsExistUser. rewrite Hpl, decide_True by done. by apply Z.ltb_lt.
    + intros j Hj. unfold IsExistUser. by rewrite Hpl, decide_False.
Qed.

Lemma enter_ok offline g players w : (GetPlayerCount (table w) ≠ 1%nat → deal_ok g) → gathered (table w) → gameStatus (table w) = GAME_STATUS_INIT ∨ gameStatus (table w) = GAME_STATUS_READY ∧ timerIdGameReadyOver w = true →
  (2 <= players <= 5)%nat → GetPlayerCount (table w) = 1%nat ∨ (GetPlayerCount (table w) <= MaxGamePlayers_ w)%nat →
  ∃ w', OnUserEnter cfg mt offline g players w = Some w' ∧ desk_ok w' ∧
    (GetPlayerCount (table w) = 1%nat → gameStatus (table w') = GAME_STATUS_READY ∧ timerIdGameReadyOver w' = true).
Proof.
  intros Hdeal G Hs Hp Hc. unfold OnUserEnter. set (n := GetPlayerCount (table w)) in *. assert ((gameStatus (table w) <? GAME_STATUS_START) = true) as Hlt by (destruct Hs as [-> | [-> _]]; done).
  destruct (Nat.eqb_spec n 1) as [H1|H1].
  - assert ((MIN_GAME_PLAYER <=? players)%nat && (players <=? GAME_PLAYER)%nat = true) as Hb.
    { unfold MIN_GAME_PLAYER, GAME_PLAYER. apply andb_true_iff. split; apply Nat.leb_le; lia. }
    rewrite Hb. cbn [assert mbind option_bind]. set (w2 := if negb _ then _ else w). assert (players_ (table w2) = players_ (table w) ∧ gameStatus (table w2) = GAME_STATUS_INIT ∧ idle (table w2)) as (E1 & E2 & E3).
    { unfold w2. destruct (Z.eqb_spec (gameStatus (table w)) GAME_STATUS_INIT); (split; [done|]); (split; [done|]); apply (ga_idle _ G). }
    clearbody w2. change (table (w2 <| MaxGamePlayers_ := players |> <| slices := 0%nat |>)) with (table w2). rewrite E2. change (GAME_STATUS_INIT <? GAME_STATUS_START) with true.
    change (MaxGamePlayers_ (w2 <| MaxGamePlayers_ := players |> <| slices := 0%nat |>)) with players. rewrite (proj2 (Nat.leb_gt players n)) by lia. cbn [andb]. eexists. split; [done|]. split; [left|by intros _].
    set (t := table w2) in *. set (t' := ClearAllTimer (t <| gameStatus := GAME_STATUS_READY |>)). assert (thinner (table w) t') as T.
    { split; [change (length (players_ t) = length (players_ (table w))); by rewrite E1|]. intros j. unfold pl. change (players_ t') with (players_ t). rewrite E1. split; [done|by left]. }
    pose proof (thinner_count _ _ T) as Hle. fold n in Hle. split; [apply (gathered_thinner _ _ T); [split; [apply E3|done]|done]| |].
    + right. split; [done|]. split; [|done]. change (GetPlayerCount t' < players)%nat. lia.
    + change (GetPlayerCount t' <= players)%nat. lia.
  - assert (n <= MaxGamePlayers_ w)%nat as Hn by (by destruct Hc). cbn [mbind option_bind]. rewrite Hlt. cbn [andb]. destruct (Nat.leb_spec (MaxGamePlayers_ w) n) as [Hm|Hm].
    + rewrite (proj2 (Nat.eqb_eq n (MaxGamePlayers_ w))) by lia. cbn [assert mbind option_bind]. destruct (proj1 (start_or_wait offline g w G Hn) (Hdeal H1)) as (w' & E & Hk). exists w'. by split.
    + exists w. split; [done|]. split; [left|done]. split; [exact G|destruct Hs as [Hs|[Hs Ht]]; [by left|by right]|exact Hn].
Qed.

Lemma enters offline g i u players w : deal_ok g → Waiting w → (i < GAME_PLAYER)%nat → 0 < userId u → (2 <= players <= 5)%nat → IsExistUser (table w) i = false →
  GetPlayerCount (table w) = 0%nat ∨ (GetPlayerCount (table w) < MaxGamePlayers_ w)%nat →
  ∃ w', OnUserEnter cfg mt offline g players (w <| table ::= seat i u |>) = Some w' ∧ desk_ok w'.
Proof.
  intros Hg [G Hs _] Hi Hu Hp He Hj. destruct (seat_gathers i u (table w) G Hi Hu He) as [G1 C1].
  destruct (enter_ok offline g players (w <| table ::= seat i u |>)) as (w' & E & Hk & _); [done|exact G1|destruct Hs as [Hs|(Hs & _ & Ht)]; [by left|by right]|done| |by exists w'].
  change (GetPlayerCount (seat i u (table w)) = 1%nat ∨ (GetPlayerCount (seat i u (table w)) <= MaxGamePlayers_ w)%nat). rewrite C1. lia.
Qed.

Lemma returns offline g players w : (GetPlayerCount (table w) ≠ 1%nat → deal_ok g) → Waiting w → (2 <= players <= 5)%nat →
  ∃ w', OnUserEnter cfg mt offline g players w = Some w' ∧ desk_ok w' ∧ (GetPlayerCount (table w) = 1%nat → gameStatus (table w') = GAME_STATUS_READY ∧ timerIdGameReadyOver w' = true).
Proof. intros Hg [G Hs Hc] Hp. apply enter_ok; [done|done| |done|by right]. destruct Hs as [Hs|(Hs & _ & Ht)]; [by left|by right]. Qed.

(** ** The other events of a table that waits *)

Lemma waits_message d c m t : idle t → OnGameMessage cfg d c m t = Some (false, t).
Proof.
  intros [Hc _]. assert (may_move t c = false) as Hm by (unfold may_move, is_current; rewrite Hc; by rewrite bool_decide_false, andb_false_r).
  destruct m; cbn [OnGameMessage]; rewrite ?Hm; try done; [unfold OnUserLookCard|unfold OnUserGiveUp|unfold OnUserTimeoutGiveUpSetting]; by rewrite Hc.
Qed.

Lemma waits_left c t : idle t → gameStatus t = GAME_STATUS_INIT ∨ gameStatus t = GAME_STATUS_READY → (∀ i, pout (pl t i) = false) →
  let t' := snd (OnUserLeft c t) in thinner t t' ∧ idle t' ∧ (gameStatus t' = gameStatus t ∨ gameStatus t' = GAME_STATUS_INIT).
Proof.
  intros Hi Hs Ho. cbv zeta. unfold OnUserLeft. pose proof (Ho c : out t c = false) as Hoc. rewrite Hoc, orb_false_r.
  destruct Hs as [Hs|Hs]; rewrite Hs.
  - change (GAME_STATUS_INIT =? GAME_STATUS_READY) with false. cbv iota. rewrite Hs. change (GAME_STATUS_INIT =? GAME_STATUS_READY) with false. cbn [snd andb]. split; [apply thinner_refl|]. split; [done|by left].
  - change (GAME_STATUS_READY =? GAME_STATUS_READY) with true. cbv iota. set (t1 := ClearTableUser c t). change (gameStatus t1) with (gameStatus t). rewrite Hs.
    change (GAME_STATUS_READY =? GAME_STATUS_READY) with true. cbn [andb snd].
    set (g := λ (t : Table) i, if IsExistUser t i then _ else t). assert (∀ t i, thinner t (g t i) ∧ gameStatus (g t i) = gameStatus t ∧ (idle t → idle (g t i))) as Hg.
    { intros t2 i. unfold g. destruct (IsExistUser t2 i); [|by split; [apply thinner_refl|]]. split; [|done]. transitivity (ClearTableUser i t2); [apply thinner_clear|]. apply thinner_upd. intros p. split; [done|by left]. }
    destruct (foldl_thins g chairs t1 Hg) as (T & E & I). set (t2 := if (GetPlayerCount_real t1 =? 0)%nat then _ else t1).
    assert (thinner t t2 ∧ idle t2 ∧ (gameStatus t2 = gameStatus t ∨ gameStatus t2 = GAME_STATUS_INIT)) as (T2 & I2 & S2).
    { unfold t2. destruct (GetPlayerCount_real t1 =? 0)%nat; [|split; [apply thinner_clear|]; split; [done|by left]].
      split; [transitivity t1; [apply thinner_clear|]; transitivity (foldl g t1 chairs); [done|]; split; [done|]; intros i; split; [done|by left]|].
      split; [|by right]. destruct (I Hi). by split. }
    rewrite Hs in S2. clearbody t2. split; [|by split]. transitivity t2; [done|]. apply thinner_upd. intros p. split; [done|by left].
Qed.

Lemma waits_round d e w : Waiting w → ∃ t', exec cfg d e (table w) = Some t' ∧ desk_ok (w <| table := t' |>).
Proof.
  intros [G Hs Hc]. pose proof (ga_idle _ G) as Hi. set (t := table w) in *.
  assert (∀ t', thinner t t' → idle t' → (gameStatus t' = gameStatus t ∨ gameStatus t' = GAME_STATUS_INIT) → desk_ok (w <| table := t' |>)) as H.
  { intros t' T I S. pose proof (thinner_count _ _ T). left. split; [by apply (gathered_thinner t)| |change (GetPlayerCount t' <= MaxGamePlayers_ w)%nat; lia].
    change (gameStatus t' = GAME_STATUS_INIT ∨ gameStatus t' = GAME_STATUS_READY ∧ (GetPlayerCount t' < MaxGamePlayers_ w)%nat ∧ timerIdGameReadyOver w = true).
    destruct S as [S|S]; [|by left]. rewrite S. destruct Hs as [Hs|(Hs & H2 & H3)]; [by left|right]. split; [done|]. split; [lia|done]. }
  assert (desk_ok (w <| table := t |>)) as Hself by (apply H; [apply thinner_refl|done|by left]).
  assert (gameStatus t = GAME_STATUS_INIT ∨ gameStatus t = GAME_STATUS_READY) as Hst by tauto.
  destruct e as [c m| |c|c]; cbn [exec].
  - destruct (IsExistUser t c); [rewrite waits_message by done|]; exists t; done.
  - rewrite (proj2 Hi). by exists t.
  - destruct (IsExistUser t c && CanLeftTable t c); [|by exists t]. destruct (waits_left c t Hi Hst (ga_out _ G)) as (T & I & S). eexists. split; [done|]. by apply H.
  - assert ((GAME_STATUS_START <=? gameStatus t) = false) as -> by (by destruct Hst as [-> | ->]). rewrite andb_false_r. by exists t.
Qed.

Lemma cleared_waits w : gathered (table w) → Waiting (clear_table cfg w).
Proof.
  intros G. destruct (OnTimerGameEnd_clears cfg (λ _, None) (table w) (ga_len _ G) (λ i, gathered_exist _ i G)) as (E1 & E2 & E3 & E4 & _). cbv zeta in *.
  set (t := OnTimerGameEnd cfg (table w)) in *. assert (∀ i, pl t i = nobody) as Hp by (intros i; unfold pl; rewrite E2; destruct (replicate _ _ !! i) eqn:E; [by apply lookup_replicate in E as [-> _]|done]).
  split; [|by left|].
  - split; [change (length (players_ t) = GAME_PLAYER); by rewrite E2, length_replicate|intros i; change (pout (pl t i) = false); by rewrite Hp|intros i u; change (item (pl t i) = Some u → 0 < userId u); by rewrite Hp|by split].
  - change (GetPlayerCount t <= MaxGamePlayers_ w)%nat. unfold GetPlayerCount. rewrite (filter_none _ chairs); [simpl; lia|]. apply Forall_forall. intros i _. unfold IsExistUser. by rewrite Hp.
Qed.

Lemma timer_ok offline g w : deal_ok g → Waiting w → ∃ w', OnTimerGameReadyOver cfg mt offline g w = Some w' ∧ desk_ok w'.
Proof.
  intros Hg [G Hs Hc]. unfold OnTimerGameReadyOver. set (w1 := w <| timerIdGameReadyOver := false |>). change (table w1) with (table w). set (t := table w) in *.
  destruct (GetPlayerCount_real t =? 0)%nat eqn:Er.
  { eexists. split; [done|]. left. destruct (Z.eqb_spec (gameStatus t) GAME_STATUS_INIT) as [E|E]; cbn [negb]; [|by apply cleared_waits]. split; [exact G|by left|exact Hc]. }
  destruct Hs as [Hs|(Hs & Hlt & Ht)]; rewrite Hs.
  { change (GAME_STATUS_INIT =? GAME_STATUS_START) with false. change (GAME_STATUS_INIT =? GAME_STATUS_READY) with false. cbn [negb]. eexists. split; [done|]. left. by apply cleared_waits. }
  change (GAME_STATUS_READY =? GAME_STATUS_START) with false. change (GAME_STATUS_READY =? GAME_STATUS_READY) with true. cbn [negb].
  apply Nat.eqb_neq in Er. rewrite (proj2 (Nat.ltb_lt 0 (GetPlayerCount_real t))) by lia. cbn [assert mbind option_bind]. set (w2 := w1 <| slices ::= S |>).
  change (MaxGamePlayers_ w2) with (MaxGamePlayers_ w). rewrite (proj2 (Nat.leb_gt _ _)) by done.
  assert (desk_ok (w2 <| timerIdGameReadyOver := true |>)) as Hagain by (left; split; [exact G|by right|exact Hc]).
  destruct (negb (match_over mt (slices w2))); [by eexists|]. destruct (match_late mt (slices w2)); [|by eexists]. destruct (MIN_GAME_PLAYER <=? GetPlayerCount t)%nat; [|by eexists].
  destruct (proj1 (start_or_wait offline g w2 G Hc) Hg) as (w' & E & Hk). by exists w'.
Qed.

(** ** All events *)

Definition desk_event_ok (w : Desk) (e : DeskEvent) : Prop :=
  match e with
  | DEnter i u players => (i < GAME_PLAYER)%nat ∧ 0 < userId u ∧ (2 <= players <= 5)%nat
  | DReturn i players => (2 <= players <= 5)%nat
  | DReady => True
  | DRound d e => draw_ok d ∧ (d_next d < GAME_PLAYER)%nat ∧ event_ok (table w) e
  end.

Lemma over_waits ps w : Over cfg ps (table w) → Waiting w.
Proof.
  intros Ho. assert (∀ i, pl (table w) i = nobody) as Hp by (intros i; by apply (over_pl cfg ps)). split; [|left; apply (ov_status _ _ _ Ho)|].
  - split; [by rewrite (ov_players _ _ _ Ho), length_replicate|intros i; by rewrite Hp|intros i u; by rewrite Hp|split; [apply (ov_current _ _ _ Ho)|apply (ov_timer _ _ _ Ho)]].
  - unfold GetPlayerCount. rewrite (filter_none _ chairs); [simpl; lia|]. apply Forall_forall. intros i _. unfold IsExistUser. by rewrite Hp.
Qed.

Lemma desk_event offline g e w : deal_ok g → desk_ok w → desk_event_ok w e → ∃ w', exec_desk cfg mt offline g e w = Some w' ∧ desk_ok w'.
Proof.
  intros Hg [Hw|[[ps Hp] Ht]] He.
  - destruct e as [i u players|i players| |d e]; cbn [exec_desk].
    + destruct He as (Hi & Hu & Hpl). destruct (negb _ && _ && _) eqn:E; [|exists w; split; [done|by left]]. apply andb_true_iff in E as [[Hex%negb_true_iff _]%andb_true_iff E].
      apply enters; try done. apply orb_true_iff in E as [E%Nat.eqb_eq|E]; [by left|right]. unfold CanJoinTable in E. destruct (_ <? _); [|done].
      destruct (Nat.leb_spec (MaxGamePlayers_ w) (GetPlayerCount (table w))); [done|lia].
    + destruct (_ && _); [|exists w; split; [done|by left]]. destruct (returns offline g players w (λ _, Hg) Hw He) as (w' & E & Hk & _). by exists w'.
    + destruct (timerIdGameReadyOver w); [by apply timer_ok|exists w; split; [done|by left]].
    + destruct (waits_round d e w Hw) as (t' & -> & Hk). cbn [mbind option_bind]. by eexists.
  - pose proof (md_status _ _ _ (pg_mid _ _ _ Hp)) as Hs. destruct e as [i u players|i players| |d e]; cbn [exec_desk].
    + rewrite Hs. change (GAME_STATUS_START <? GAME_STATUS_START) with false. rewrite andb_false_r. cbn [andb]. exists w. split; [done|]. right. by split; [exists ps|].
    + rewrite Hs. change (GAME_STATUS_START <? GAME_STATUS_START) with false. rewrite andb_false_r. cbn [andb]. exists w. split; [done|]. right. by split; [exists ps|].
    + rewrite Ht. exists w. split; [done|]. right. by split; [exists ps|].
    + destruct He as (Hd & Hn & He). destruct (exec_kept cfg Hcfg ps d e (table w) Hd Hn (or_introl Hp) He) as (t' & -> & [Hp'|Ho] & _); cbn [mbind option_bind]; eexists; (split; [done|]).
      * right. by split; [exists ps|].
      * left. by apply (over_waits ps).
Qed.

Lemma new_desk_ok : desk_ok (new_desk cfg).
Proof.
  assert (∀ i, pl (new_table cfg) i = nobody) as Hp by (intros i; do 5 (destruct i as [|i]; [done|]); by destruct i).
  left. split; [|by left|].
  - split; [done|intros i; change (pout (pl (new_table cfg) i) = false); by rewrite Hp|intros i u; change (item (pl (new_table cfg) i) = Some u → 0 < userId u); by rewrite Hp|done].
  - change (GetPlayerCount (new_table cfg) <= 0)%nat. unfold GetPlayerCount. rewrite (filter_none _ chairs); [simpl; lia|]. apply Forall_forall. intros i _. unfold IsExistUser. by rewrite Hp.
Qed.
End Waits.

Fixpoint fair_desk (cfg : Config) (mt : Match) (l : list (DeskEvent * (nat → bool) * Deal)) (w : Desk) : Prop :=
  match l with
  | [] => True
  | (e, offline, g) :: l => deal_ok g ∧ desk_event_ok w e ∧ match exec_desk cfg mt offline g e w with Some w' => fair_desk cfg mt l w' | None => True end
  end.

Lemma run_desk_ok cfg mt l w : config_ok cfg → CellScore cfg <= EnterMinScore mt → desk_ok cfg w → fair_desk cfg mt l w → ∃ w', run_desk cfg mt l w = Some w' ∧ desk_ok cfg w'.
Proof.
  intros Hc Hm. revert w. induction l as [|[[e offline] g] l IH]; intros w Hw Hf; cbn [run_desk]; [by exists w|]. destruct Hf as (Hg & He & Hf).
  destruct (desk_event cfg Hc mt Hm offline g e w Hg Hw He) as (w1 & E & Hw1). rewrite E in *. cbn [mbind option_bind]. by apply IH.
Qed.

(** Events that may happen whatever the table is. *)
Definition plain_event (e : DeskEvent) : Prop :=
  match e with
  | DEnter i u players => (i < GAME_PLAYER)%nat ∧ 0 < userId u ∧ (2 <= players <= 5)%nat
  | DReturn i players => (2 <= players <= 5)%nat
  | DReady => True
  | DRound d e => quiet (d, e)
  end.

Lemma plain_fair cfg mt l w : Forall (λ x, plain_event x.1.1 ∧ deal_ok x.2) l → fair_desk cfg mt l w.
Proof.
  revert w. induction l as [|[[e offline] g] l IH]; intros w Hl; [done|]. apply Forall_cons in Hl as [[He Hg] Hl]. cbn [fst snd] in He, Hg. split; [done|]. split.
  - destruct e as [| | |d e]; [done..|]. destruct (quiet_fair Demo.room [(d, e)] (table w)) as (H1 & H2 & H3 & _); [by apply Forall_singleton|]. done.
  - destruct (exec_desk cfg mt offline g e w); [by apply IH|done].
Qed.

(** ** A table, its users and their times *)

Module DemoTable.
(** The waiting takes three slices, the time for robots two more. *)
Definition times : Match := MkMatch 50 (λ n, (3 <=? n)%nat) (λ n, (5 <=? n)%nat).
Definition rich : User := MkUser 11 false 300.
Definition robot : User := MkUser 12 true 100.
Definition poor : User := MkUser 13 false 40.
Definition step (e : DeskEvent) : DeskEvent * (nat → bool) * Deal := (e, λ _, false, Demo.deal).
Definition evening : list (DeskEvent * (nat → bool) * Deal) :=
  map step [DEnter 2 rich 4; DReturn 2 3; DReady; DEnter 4 poor 3; DReady; DReady; DEnter 0 robot 3; DRound Demo.draw (EMessage 4 SUB_C_LOOK_CARD)].
Definition two : Desk := MkDesk (seat 4 poor (seat 2 rich (new_table Demo.room))) 3 4 true.
End DemoTable.

(** C4. A table of golden flower that users find, wait at, play at, leave and come back to is
    never in a state from which a handler fails. Take a room with a positive floor that is
    one of its chips, positive chips in ascending order, a revenue of 0 to 99 percent
    ([config_ok]) and an entry score of at least the floor. From a new table take any
    sequence of users who enter a free chair or return, of timers, messages, and users who
    leave ([fair_desk]: two to five players are drawn, every hand dealt or kept is three
    cards of the pack, what an all in gives back is between nothing and the stake, and a
    robot looks at its hand before it gives up). It runs without a failed assertion, and
    leads to a table that waits (all chairs ready for the next round, no timer of a round
    set, fewer users than the drawn number and the timer of the waiting set, or nothing set
    and no round announced) or to a consistent round. *)
Theorem zjh_table_lifecycle cfg mt l : config_ok cfg → CellScore cfg <= EnterMinScore mt → fair_desk cfg mt l (new_desk cfg) →
  ∃ w, run_desk cfg mt l (new_desk cfg) = Some w ∧ desk_ok cfg w.
Proof. intros Hc Hm. apply run_desk_ok; [done..|]. by apply new_desk_ok. Qed.

Lemma zjh_table_lifecycle_witness : ∃ w, run_desk Demo.room DemoTable.times DemoTable.evening (new_desk Demo.room) = Some w ∧ desk_ok Demo.room w ∧
  gameStatus (table w) = GAME_STATUS_START.
Proof.
  assert (fair_desk Demo.room DemoTable.times DemoTable.evening (new_desk Demo.room)) as Hf.
  { apply plain_fair. repeat (apply Forall_cons; split; [split; [|exact Demo.deal_fine]; first [exact I|split; [exact Demo.draw_ok|split; [cbn; unfold GAME_PLAYER; lia|exact I]]|cbn; unfold GAME_PLAYER; lia]|]). by apply Forall_nil. }
  destruct (zjh_table_lifecycle Demo.room DemoTable.times DemoTable.evening Demo.demo_room_ok ltac:(cbn; lia) Hf) as (w & E & H).
  exists w. split; [exact E|]. split; [exact H|]. assert (gameStatus ∘ table <$> run_desk Demo.room DemoTable.times DemoTable.evening (new_desk Demo.room) = Some GAME_STATUS_START) as S by (vm_compute; reflexivity).
  rewrite E in S. by injection S.
Defined.

(** C39. A start that fails, because fewer than two users are left once those who are offline
    or cannot pay have gone, strands the one who is left: the table is in its first state with
    no timer set, no timer, message or attempt to leave changes anything, and a user who
    enters only takes a chair, unless he completes the number that was drawn.  What helps is
    that the one who is left enters again: the table gets ready and waits anew. *)
Theorem zjh_failed_start cfg mt offline g w w' : config_ok cfg → CellScore cfg <= EnterMinScore mt →
  gathered (table w) → (GetPlayerCount (table w) <= MaxGamePlayers_ w)%nat →
  GameTimerReadyOver cfg mt offline g w = Some w' → gameStatus (table w') = GAME_STATUS_INIT →
  (GetPlayerCount (table w') < 2)%nat ∧ timerIdGameReadyOver w' = false ∧ timerIdWaiting_ (table w') = false ∧
  (∀ off' g', exec_desk cfg mt off' g' DReady w' = Some w') ∧
  (∀ off' g' d e, exec_desk cfg mt off' g' (DRound d e) w' = Some w') ∧
  (∀ c, fst (OnUserLeft c (table w')) = false) ∧
  (∀ off' g' i u players, (i < GAME_PLAYER)%nat → 0 < userId u → (0 < GetPlayerCount (table w'))%nat → (S (GetPlayerCount (table w')) < MaxGamePlayers_ w')%nat →
    IsExistUser (table w') i = false → exec_desk cfg mt off' g' (DEnter i u players) w' = Some (w' <| table ::= seat i u |>)) ∧
  ∀ off' g' i players, (2 <= players <= 5)%nat → (GetPlayerCount (table w') < MaxGamePlayers_ w')%nat → IsExistUser (table w') i = true →
    ∃ w'', exec_desk cfg mt off' g' (DReturn i players) w' = Some w'' ∧ gameStatus (table w'') = GAME_STATUS_READY ∧ timerIdGameReadyOver w'' = true.
Proof.
  intros Hc Hm G Hn E Hs. destruct (proj2 (start_or_wait cfg Hc mt Hm offline g w G Hn) w' E) as [Hst|(Hw & _ & H2 & Ht)]; [rewrite Hs in Hst; discriminate Hst|].
  pose proof (wt_users _ Hw) as G'. pose proof (ga_idle _ G') as Hi. pose proof Hi as [Hcur Htm]. assert (∀ t, w' <| table := t |> = MkDesk t (MaxGamePlayers_ w') (slices w') (timerIdGameReadyOver w')) as Hset by done.
  assert (w' <| table := table w' |> = w') as Hsame by (rewrite Hset; by destruct w').
  assert (∀ c, OnUserLeft c (table w') = (false, table w')) as Hleft.
  { intros c. unfold OnUserLeft. rewrite (ga_out _ G' c : out (table w') c = false), Hs. change (GAME_STATUS_INIT =? GAME_STATUS_READY) with false. cbn [orb]. cbv iota. rewrite Hs. done. }
  split_and!; try done.
  - intros off' g'. cbn [exec_desk]. by rewrite Ht.
  - intros off' g' d e. cbn [exec_desk]. assert (exec cfg d e (table w') = Some (table w')) as ->; [|cbn [mbind option_bind]; by rewrite Hsame].
    destruct e as [c m| |c|c]; cbn [exec].
    + destruct (IsExistUser (table w') c); [|done]. by rewrite waits_message.
    + by rewrite Htm.
    + rewrite Hleft. by destruct (_ && _).
    + rewrite Hs. change (GAME_STATUS_START <=? GAME_STATUS_INIT) with false. by rewrite andb_false_r.
  - intros c. by rewrite Hleft.
  - intros off' g' i u players Hic Hu H0 HS He. cbn [exec_desk]. rewrite He, Hs. change (GAME_STATUS_INIT <? GAME_STATUS_START) with true.
    unfold CanJoinTable. rewrite Hs. change (GAME_STATUS_INIT <? GAME_STATUS_START) with true. cbv iota. rewrite (proj2 (Nat.leb_gt _ _)) by lia. cbn [negb andb]. rewrite orb_true_r.
    destruct (seat_gathers i u (table w') G' Hic Hu He) as [_ C]. unfold OnUserEnter. change (table (w' <| table ::= seat i u |>)) with (seat i u (table w')). rewrite C, (proj2 (Nat.eqb_neq _ 1)) by lia.
    cbn [mbind option_bind]. change (table (w' <| table ::= seat i u |>)) with (seat i u (table w')). change (MaxGamePlayers_ (w' <| table ::= seat i u |>)) with (MaxGamePlayers_ w').
    rewrite (proj2 (Nat.leb_gt _ _)) by lia. by rewrite andb_false_r.
  - intros off' g' i players Hpl Hlt Hex. cbn [exec_desk]. unfold CanJoinTable. rewrite Hex, Hs. change (GAME_STATUS_INIT <? GAME_STATUS_START) with true. rewrite (proj2 (Nat.leb_gt _ _)) by done. cbn [negb andb].
    assert (0 < GetPlayerCount (table w'))%nat as H0.
    2:{ destruct (returns cfg Hc mt Hm off' g' players w' ltac:(lia) Hw Hpl) as (w'' & E' & _ & H1). exists w''. split; [exact E'|]. apply H1. lia. } apply (users_pos _ i); [done|]. rewrite <- (ga_len _ G'). by apply exist_lt.
Qed.

Lemma zjh_failed_start_witness : ∃ w', GameTimerReadyOver Demo.room DemoTable.times (λ _, false) Demo.deal DemoTable.two = Some w' ∧
  gameStatus (table w') = GAME_STATUS_INIT ∧ GetPlayerCount (table w') = 1%nat ∧ MaxGamePlayers_ w' = 3%nat ∧
  (∀ off' g', exec_desk Demo.room DemoTable.times off' g' DReady w' = Some w') ∧ fst (OnUserLeft 2 (table w')) = false ∧
  exec_desk Demo.room DemoTable.times (λ _, false) Demo.deal (DEnter 0 DemoTable.robot 2) w' = Some (w' <| table ::= seat 0 DemoTable.robot |>) ∧
  ∃ w'', exec_desk Demo.room DemoTable.times (λ _, false) Demo.deal (DReturn 2 3) w' = Some w'' ∧ gameStatus (table w'') = GAME_STATUS_READY ∧ timerIdGameReadyOver w'' = true.
Proof.
  assert (gathered (table DemoTable.two)) as G.
  { destruct (new_desk_ok Demo.room) as [[G _ _]|[[ps Hp] _]]; [|pose proof (md_status _ _ _ (pg_mid _ _ _ Hp)) as Hx; discriminate Hx].
    destruct (seat_gathers 2 DemoTable.rich _ G) as [G1 _]; [unfold GAME_PLAYER; lia|reflexivity|reflexivity|].
    destruct (seat_gathers 4 DemoTable.poor _ G1) as [G2 _]; [unfold GAME_PLAYER; lia|reflexivity|reflexivity|exact G2]. }
  eexists. split; [vm_compute; reflexivity|]. split; [reflexivity|]. split; [reflexivity|]. split; [reflexivity|].
  match goal with |- context [OnUserLeft 2 (table ?w)] =>
    destruct (zjh_failed_start Demo.room DemoTable.times (λ _, false) Demo.deal DemoTable.two w Demo.demo_room_ok ltac:(cbn; lia) G ltac:(vm_compute; lia) ltac:(vm_compute; reflexivity) eq_refl) as (_ & _ & _ & H1 & _ & H2 & H3 & H4) end.
  split; [exact H1|]. split; [apply H2|]. split; [apply H3; vm_compute; (reflexivity || lia)|]. apply H4; [lia|vm_compute; lia|reflexivity].
Defined.
