(* ===== verification/Baccarat.v ===== *)
(** Baccarat, the cards and the shoe ([src/Games/Game_BaiJiaLeLandy/GameLogic.cpp] and the
    dealing of [CTableFrameSink.cpp]): eight packs are shuffled into a shoe, the house looks
    in it for two hands that fit the result it wants, and third cards are drawn.  Random
    numbers are arguments; test cards ([m_bTestGame]) are left out. *)
From stdpp Require Import base list numbers sorting.
From Stdlib Require Import ZArith Lia.
From S2P Require Import Prelude.

#[local] Open Scope Z_scope.

(** ** Results

    A loop that draws until a card fits goes on when the numbers drawn so far are used up;
    a failed assertion or an index outside a vector has no result. *)
Inductive Outcome (A : Type) :=
  | Ret (a : A)
  | Waits
  | Bad.
Arguments Ret {A} a.
Arguments Waits {A}.
Arguments Bad {A}.
#[global] Instance Outcome_ret : MRet Outcome := λ A a, Ret a.
#[global] Instance Outcome_bind : MBind Outcome := λ A B f m,
  match m with Ret a => f a | Waits => Waits | Bad => Bad end.
Definition check (b : bool) : Outcome unit := if b then Ret () else Bad.

(** ** Cards *)

Definition MAX_CARDS : nat := 416.

Definition GetCardValue (c : Z) : Z := Z.land c 15.
Definition GetCardColor (c : Z) : Z := Z.shiftr (Z.land c 240) 4.

Definition IsCardValid (c : Z) : bool :=
  if c =? 0 then false
  else if (GetCardValue c <=? 0) || (13 <? GetCardValue c) then false
  else if (GetCardColor c <? 0) || (3 <? GetCardColor c) then false
  else true.

Definition GetCardLogicValue (c : Z) : Z := if GetCardValue c =? 1 then GetCardValue c + 13 else GetCardValue c.
Definition GetCardPip (c : Z) : Z := if 10 <=? GetCardValue c then 0 else GetCardValue c.
Definition GetCardListPip (cards : list Z) (cbCardCount : nat) : Z :=
  foldl (λ pip c, (GetCardPip c + pip) mod 10) 0 (take cbCardCount cards).

Definition same_value (c d : Z) : bool := GetCardLogicValue c =? GetCardLogicValue d.

(** The pair of one hand. *)
Definition IsCardPair (c : list Z) : Z := if same_value c.[0] c.[1] then 1 else 0.

Definition ID_HEPAIR : Z := 0.
Definition ID_BANKERPAIR : Z := 1.
Definition ID_PLAYERPAIR : Z := 2.

(** The pairs of two hands: the same two values in both, the pair of the banker, of the
    player. *)
Definition IsCardPairOf (b p : list Z) (cbCardCount : nat) (index : Z) : Z :=
  if index =? ID_HEPAIR then
    if negb (GetCardListPip b cbCardCount =? GetCardListPip p cbCardCount) then 0
    else if negb (same_value p.[0] b.[0]) && negb (same_value p.[0] b.[1]) then 0
    else if negb (same_value p.[1] b.[0]) && negb (same_value p.[1] b.[1]) then 0
    else if same_value p.[0] b.[0] && same_value p.[1] b.[1] then 1
    else if same_value p.[0] b.[1] && same_value p.[1] b.[0] then 1
    else 0
  else if index =? ID_BANKERPAIR then if same_value b.[0] b.[1] then 1 else 0
  else if index =? ID_PLAYERPAIR then if same_value p.[0] p.[1] then 1 else 0
  else 0.

(** The eight packs of [m_cbTableCard]. *)
Definition suit (color : Z) : list Z := map (λ v, 16 * color + Z.of_nat v) (seq 1 13).
Definition pack : list Z := suit 0 ++ suit 1 ++ suit 2 ++ suit 3.
Definition m_cbTableCard : list Z := concat (replicate 8 pack).

(** ** The table as the dealing sees it *)

Record Hand := MkHand {
  m_cbTableCards : list Z;
  m_cbCardCount : nat;
  m_cbCardPoint : Z
}.
#[global] Instance eta_Hand : Settable Hand := λ h, MkHand (m_cbTableCards h) (m_cbCardCount h) (m_cbCardPoint h).

(** [m_cbCardTypeCount] has a row of 13 for each colour; the rows are one list here. *)
Record Shoe := MkShoe {
  m_CardVecData : list Z;
  m_cbCardTypeCount : list Z;
  m_nSendCardIndex : Z;
  m_nLeftCardCount : Z;
  m_nCutCardId : Z;
  banker : Hand;
  player : Hand;
  m_cbCardPair : list Z
}.
#[global] Instance eta_Shoe : Settable Shoe := λ s,
  MkShoe (m_CardVecData s) (m_cbCardTypeCount s) (m_nSendCardIndex s) (m_nLeftCardCount s) (m_nCutCardId s) (banker s) (player s) (m_cbCardPair s).

Definition no_hand : Hand := MkHand [0; 0; 0] 0 0.
Definition with_cards (cards : list Z) (h : Hand) : Hand := h <| m_cbTableCards := cards |> <| m_cbCardCount := 2%nat |>.

Definition type_index (c : Z) : nat := Z.to_nat (GetCardColor c * 13 + (GetCardValue c - 1)).
Definition is_type (c : Z) : bool :=
  (1 <=? GetCardValue c) && (GetCardValue c <=? 13) && (0 <=? GetCardColor c) && (GetCardColor c <=? 3).

Definition IsMoreCard (s : Shoe) (c : Z) : bool :=
  if is_type c then negb (8 <? (m_cbCardTypeCount s).[type_index c] + 1) else false.
Definition more_cards (s : Shoe) : list Z := filter (λ c, IsMoreCard s c = true) (m_CardVecData s).

(** ** Two cards for each hand *)

Fixpoint erase_card (c : Z) (l : list Z) : list Z :=
  match l with
  | [] => []
  | d :: l => if c =? d then l else d :: erase_card c l
  end.
Definition eraseVecCard (cards l : list Z) : list Z := foldl (λ l c, erase_card c l) l cards.

(** The partner of [c]: the first card that makes the pair, or no pair, as asked for;
    if there is none the last one looked at ([d] before the loop). *)
Fixpoint second_card (skips : Z → bool) (nPair c d : Z) (l : list Z) : Z * bool :=
  match l with
  | [] => (d, false)
  | e :: l =>
      if skips e then second_card skips nPair c d l
      else if IsCardPair [c; e] =? nPair then (e, true)
      else second_card skips nPair c e l
  end.

(** [getTwoCard] for the banker, [l] being the cards from [starIndex] on. *)
Fixpoint two_cards (nPair : Z) (cb l : list Z) : list Z :=
  match l with
  | c :: ((_ :: _) as l') =>
      if IsCardValid c then
        let '(d, IsOK) := second_card (Z.eqb 0) nPair c cb.[1] l' in
        if IsOK then [c; d] else two_cards nPair [c; d] l'
      else two_cards nPair cb l'
  | _ => cb
  end.
Definition getTwoCard_banker (cb : list Z) (nPair : Z) (starIndex : nat) (vec : list Z) (cardSize : nat) : Outcome (list Z * list Z) :=
  _ ← check (cardSize <=? length vec)%nat;
  let cb := two_cards nPair cb (drop starIndex (take cardSize vec)) in
  Ret (cb, eraseVecCard cb vec).

(** For the player the first card is the one at [starIndex]. *)
Definition getTwoCard_player (cb : list Z) (nPair : Z) (l : list Z) : list Z :=
  match l with
  | c :: ((_ :: _) as l') => if IsCardValid c then [c; fst (second_card (λ d, negb (IsCardValid d)) nPair c cb.[1] l')] else cb
  | _ => cb
  end.

Fixpoint he_second (b : list Z) (nPair c d : Z) (l : list Z) : Z * bool :=
  match l with
  | [] => (d, false)
  | e :: l => if IsCardPairOf b [c; e] 2 ID_HEPAIR =? nPair then (e, true) else he_second b nPair c e l
  end.
Fixpoint he_cards (b : list Z) (nPair : Z) (cb l : list Z) : list Z :=
  match l with
  | c :: ((_ :: _) as l') =>
      let '(d, IsOK) := he_second b nPair c cb.[1] l' in
      if IsOK then [c; d] else he_cards b nPair [c; d] l'
  | _ => cb
  end.
Definition getHePairCard (b cb : list Z) (nPair : Z) (vec : list Z) : list Z * list Z :=
  let cb := he_cards b nPair cb vec in (cb, eraseVecCard cb vec).

(** [xianValue] fits what is wanted (0 a tie, 1 the banker, 2 the player wins), or the search
    has lasted too long. *)
Definition fits (winFlag zhuangValue xianValue hePair pair0 : Z) (washCount : nat) : bool :=
  if winFlag =? 0 then (zhuangValue =? xianValue) && (hePair =? pair0) || (100 <=? washCount)%nat
  else if zhuangValue =? xianValue then false
  else (if winFlag =? 1 then xianValue <? zhuangValue else zhuangValue <? xianValue) && (hePair =? pair0) || (100 <=? washCount)%nat.

(** The loop over [xianIndex]; [l] are the cards from there on.  The last hand looked at
    and its value stay. *)
Fixpoint search_player (winFlag : Z) (cardPair z : list Z) (washCount : nat) (x : list Z) (xianValue : Z) (l : list Z) : list Z * Z * bool :=
  match l with
  | c :: ((_ :: _) as l') =>
      let x := getTwoCard_player x cardPair.[2] l in
      let xianValue := GetCardListPip x 2 in
      if fits winFlag (GetCardListPip z 2) xianValue (IsCardPairOf z x 2 ID_HEPAIR) cardPair.[0] washCount
      then (x, xianValue, true)
      else search_player winFlag cardPair z washCount x xianValue l'
  | _ => (x, xianValue, false)
  end.

(** The loop around it: a new hand for the banker each time. *)
Fixpoint search (fuel : nat) (winFlag : Z) (cardPair : list Z) (s : Shoe) (z x : list Z) (xianValue : Z) (washCount : nat) (vec : list Z) : Outcome (list Z * list Z * Z * list Z) :=
  match fuel with
  | O => Waits
  | S fuel =>
      let '(x, xianValue, isOK) := search_player winFlag cardPair z washCount x xianValue vec in
      if isOK then Ret (z, x, xianValue, eraseVecCard x vec)
      else if (length vec <=? S washCount)%nat then Ret (z, x, xianValue, eraseVecCard x vec)
      else
        '(z, vec) ← getTwoCard_banker z cardPair.[1] (S washCount) (more_cards s) (length (m_CardVecData s));
        search fuel winFlag cardPair s z x xianValue (S washCount) vec
  end.

(** [randomRet] is drawn when no pair is asked for. *)
Definition swaps (zhuangValue xianValue randomRet : Z) : bool :=
  ((zhuangValue <=? 5) && (xianValue <=? 5) ||
   ((zhuangValue <=? 7) && (xianValue <=? 5) || (xianValue <=? 7) && (zhuangValue <=? 5))) && (randomRet <? 500).

(** The cases of the switch; another [winFlag] is logged and nothing is searched. *)
Definition is_flag (winFlag : Z) : bool := (winFlag =? 0) || (winFlag =? 1) || (winFlag =? 2).

(** [z] and [x] are the caller's arrays for the two hands. *)
Definition GetSearchCards (winFlag : Z) (cardPair z x : list Z) (randomRet : Z) (s : Shoe) : Outcome (list Z * list Z * Shoe) :=
  let pkSize := length (m_CardVecData s) in
  '(z, vec) ← getTwoCard_banker z cardPair.[1] 0 (more_cards s) pkSize;
  '(z, x, xianValue) ←
    (if negb (is_flag winFlag) then Ret (z, x, 0)
     else if cardPair.[0] =? 1 then Ret (z, fst (getHePairCard z x cardPair.[0] vec), 0)
     else '(z, x, xianValue, _) ← search (S pkSize) winFlag cardPair s z x 0 0 vec; Ret (z, x, xianValue));
  let '(b, p) :=
    if (cardPair.[0] =? 0) && (cardPair.[1] =? 0) && (cardPair.[2] =? 0) && swaps (GetCardListPip z 2) xianValue randomRet
    then (x, z) else (z, x) in
  let hand cards h := with_cards [cards.[0]; cards.[1]; (m_cbTableCards h).[2]] h in
  Ret (z, x, s <| banker ::= hand b |> <| player ::= hand p |>
    <| m_cbCardPair := [IsCardPairOf b p 2 ID_HEPAIR; IsCardPairOf b p 2 ID_BANKERPAIR; IsCardPairOf b p 2 ID_PLAYERPAIR] |>).

(** ** Third cards *)

(** [playerIndex] is drawn between 0 and the last place; a draw is any number here, of which
    the remainder by the size is taken.  The draws that are left are returned.  [winTag] is
    one of the three flags here and below. *)
Definition wins (bankerPoint playerPoint : Z) : Z :=
  if bankerPoint =? playerPoint then 0 else if playerPoint <? bankerPoint then 1 else 2.
Definition player_fits (winTag playerAllPoint : Z) : bool :=
  if winTag =? 0 then true else if winTag =? 1 then playerAllPoint <? 8 else 7 <=? playerAllPoint.

(** The third card of the player, with [winTagChang] and [playerIndex]. *)
Fixpoint getOneCard_player (winTag bankerPoint playerPoint : Z) (vec : list Z) (draws : list nat) : Outcome (Z * Z * nat * list nat) :=
  match draws with
  | [] => Waits
  | r :: draws =>
      let playerIndex := (r mod length vec)%nat in
      match vec !! playerIndex with
      | None => Bad
      | Some card =>
          let playerAllPoint := (playerPoint + GetCardPip card) mod 10 in
          if IsCardValid card && player_fits winTag playerAllPoint then Ret (card, wins bankerPoint playerAllPoint, playerIndex, draws)
          else getOneCard_player winTag bankerPoint playerPoint vec draws
      end
  end.

Definition banker_fits (winTag bankerAllPoint playerPoint : Z) : bool :=
  if winTag =? 0 then bankerAllPoint =? playerPoint else if winTag =? 1 then playerPoint <? bankerAllPoint else bankerAllPoint <? playerPoint.

(** The third card of the banker: the first one that fits, or the last one; the player's
    is left out.  [i] is the place of the first card of [vec]. *)
Fixpoint getOneCard_banker (winTag bankerPoint playerPoint : Z) (playerIndex : option nat) (card : Z) (i : nat) (vec : list Z) : Z :=
  match vec with
  | [] => card
  | c :: vec =>
      if bool_decide (playerIndex = Some i) then getOneCard_banker winTag bankerPoint playerPoint playerIndex card (S i) vec
      else if banker_fits winTag ((bankerPoint + GetCardPip c) mod 10) playerPoint then c
      else getOneCard_banker winTag bankerPoint playerPoint playerIndex c (S i) vec
  end.

(** With what third card of the player a banker's three to six stands. *)
Definition stands (cbBankerPoint third : Z) : bool :=
  if cbBankerPoint =? 3 then third =? 8
  else if cbBankerPoint =? 4 then (third =? 1) || (third =? 8) || (third =? 9) || (third =? 0)
  else if cbBankerPoint =? 5 then (third =? 1) || (third =? 2) || (third =? 3) || (third =? 8) || (third =? 9) || (third =? 0)
  else negb (third =? 6) && negb (third =? 7).

(** The banker draws: the conditions of the cases of [JudgmentRepairCard]. *)
Definition banker_draws (cbBankerPoint : Z) (playerCount : nat) (third : Z) : bool :=
  if cbBankerPoint <=? 2 then true
  else if cbBankerPoint <=? 5 then ((playerCount =? 3)%nat && negb (stands cbBankerPoint third)) || (playerCount =? 2)%nat
  else if cbBankerPoint =? 6 then (playerCount =? 3)%nat && negb (stands cbBankerPoint third)
  else false.

(** The player's third card is drawn again, at most 201 times ([n] is what is left of
    them), when it changes the result; a banker's seven only looks at the result. *)
Fixpoint draw_again (n : nat) (winFlag b p : Z) (vec : list Z) (draws : list nat) : Outcome (Z * Z * nat * list nat) :=
  '(card, winFlagChang, playerIndex, draws) ← getOneCard_player winFlag b p vec draws;
  match n with
  | O => Ret (card, winFlagChang, playerIndex, draws)
  | S n =>
      if (winFlagChang =? winFlag) || (negb (b =? 7) && negb (stands b (GetCardPip card))) then Ret (card, winFlagChang, playerIndex, draws)
      else draw_again n winFlag b p vec draws
  end.

(** What the player has drawn: the card and its place, or nothing. *)
Definition player_draw (winFlag b p : Z) (vec : list Z) (draws : list nat) : Outcome (option (Z * nat) * list nat) :=
  if (p <=? 5) && (b <? 8) then
    '(card, winFlagChang, playerIndex, draws) ← getOneCard_player winFlag b p vec draws;
    if negb (winFlagChang =? winFlag) && (3 <=? b) && ((b =? 7) || stands b (GetCardPip card)) then
      '(card, _, playerIndex, draws) ← draw_again 200 winFlag b p vec draws; Ret (Some (card, playerIndex), draws)
    else Ret (Some (card, playerIndex), draws)
  else Ret (None, draws).

Definition third_card (card : Z) (h : Hand) : Hand := h <| m_cbTableCards ::= <[2%nat := card]> |> <| m_cbCardCount := 3%nat |>.
Definition hand_point (h : Hand) : Z := GetCardListPip (m_cbTableCards h) (m_cbCardCount h).

(** From the player's third card on: the banker's card, the points, and the third cards
    leave the shoe. *)
Definition after_player (winFlag b p : Z) (vec : list Z) (drawn : option (Z * nat)) (s : Shoe) : Shoe :=
  let s := match drawn with
           | Some (card, _) => s <| m_nSendCardIndex ::= Z.succ |> <| player ::= third_card card |>
           | None => s
           end in
  let third := match drawn with Some (card, _) => GetCardPip card | None => 0 end in
  let s := if (p <? 8) && (b <? 8) && banker_draws b (m_cbCardCount (player s)) third then
             let card := getOneCard_banker winFlag b ((p + third) mod 10) (snd <$> drawn) 0 0 vec in
             s <| m_nSendCardIndex ::= Z.succ |> <| banker ::= third_card card |>
           else s in
  let full (h : Hand) := if IsCardValid (m_cbTableCards h).[2] && negb (m_cbCardCount h =? 3)%nat then h <| m_cbCardCount := 3%nat |> else h in
  let s := s <| banker ::= full |> <| player ::= full |> in
  let s := s <| banker ::= λ h, h <| m_cbCardPoint := hand_point h |> |> <| player ::= λ h, h <| m_cbCardPoint := hand_point h |> |> in
  let put (h : Hand) (s : Shoe) :=
    if (m_cbCardCount h =? 3)%nat then s <| m_nLeftCardCount ::= Z.pred |> <| m_CardVecData ::= erase_card (m_cbTableCards h).[2] |> else s in
  put (player s) (put (banker s) s).

Definition two_each (s : Shoe) : list Z :=
  [(m_cbTableCards (banker s)).[0]; (m_cbTableCards (player s)).[0]; (m_cbTableCards (banker s)).[1]; (m_cbTableCards (player s)).[1]].

Definition JudgmentRepairCard (winFlag : Z) (draws : list nat) (s : Shoe) : Outcome (Shoe * list nat) :=
  let two := two_each s in
  let s := s <| m_CardVecData ::= eraseVecCard two |> in
  _ ← check (forallb IsCardValid two);
  let b := hand_point (banker s) in
  let p := hand_point (player s) in
  let vec := more_cards s in
  '(drawn, draws) ← player_draw winFlag b p vec draws;
  Ret (after_player winFlag b p vec drawn s, draws).

(** [JudgmentIsValidCard]: the dealt cards are counted; no card of the eight packs is dealt
    a ninth time. *)
Definition count_card (c : Z) (s : Shoe) : Outcome Shoe :=
  if is_type c then
    let s := s <| m_cbCardTypeCount ::= alter Z.succ (type_index c) |> in
    _ ← check ((m_cbCardTypeCount s).[type_index c] <=? 8); Ret s
  else _ ← check (IsCardValid c); Ret s.
Fixpoint count_cards (l : list Z) (s : Shoe) : Outcome Shoe :=
  match l with
  | [] => Ret s
  | c :: l => s ← count_card c s; count_cards l s
  end.
Definition hand_cards (h : Hand) : list Z := take (m_cbCardCount h) (m_cbTableCards h).
Definition JudgmentIsValidCard (s : Shoe) : Outcome Shoe := count_cards (hand_cards (banker s) ++ hand_cards (player s)) s.

(** ** A round of the dealing *)

(** The second part of [GetOpenCards]: the hands for [winFlag] and [cardPair].  A tie
    without pairs is first looked for among hands that are no tie yet. *)
Definition GetOpenCards_hands (winFlag : Z) (cardPair : list Z) (rets : nat → Z) (s : Shoe) : Outcome Shoe :=
  let z := [0; 0] in let x := [0; 0] in
  if (winFlag =? 0) && (cardPair.[0] =? 0) && (cardPair.[1] =? 0) && (cardPair.[2] =? 0) then
    '(z, x, s) ← GetSearchCards 1 cardPair z x (rets 0%nat) s;
    if (GetCardListPip z 2 <=? 5) && (GetCardListPip x 2 <=? 5) then Ret s else
    '(z, x, s) ← GetSearchCards 2 cardPair z x (rets 1%nat) s;
    if (GetCardListPip z 2 <=? 5) && (GetCardListPip x 2 <=? 5) then Ret s else
    '(_, _, s) ← GetSearchCards winFlag cardPair z x (rets 2%nat) s; Ret s
  else '(_, _, s) ← GetSearchCards winFlag cardPair z x (rets 0%nat) s; Ret s.

Definition clear_cards (s : Shoe) : Shoe :=
  s <| banker ::= λ h, h <| m_cbTableCards := [0; 0; 0] |> |> <| player ::= λ h, h <| m_cbTableCards := [0; 0; 0] |> |>.

Definition GetOpenCards (winFlag : Z) (cardPair : list Z) (rets : nat → Z) (draws : list nat) (s : Shoe) : Outcome (Shoe * list nat) :=
  s ← GetOpenCards_hands winFlag cardPair rets (clear_cards s);
  let s := s <| m_nSendCardIndex ::= Z.add 4 |> <| m_nLeftCardCount ::= λ n, n - 4 |> in
  '(s, draws) ← JudgmentRepairCard winFlag draws s;
  s ← JudgmentIsValidCard s;
  Ret (s, draws).

(** The area that wins, as [OnEventGameConclude] finds it. *)
Definition m_nWinIndex (s : Shoe) : Z :=
  if hand_point (player s) <? hand_point (banker s) then 1 else if hand_point (banker s) <? hand_point (player s) then 2 else 0.

(** ** The shoe *)

(** The first cards of a shuffled shoe are taken away. *)
Fixpoint burn (n : nat) (s : Shoe) : Outcome Shoe :=
  match n with
  | O => Ret s
  | S n => match m_CardVecData s with
           | [] => Bad
           | _ :: l => burn n (s <| m_CardVecData := l |> <| m_nSendCardIndex ::= Z.succ |> <| m_nLeftCardCount ::= Z.pred |>)
           end
  end.

(** A new shoe: [cards] is the shuffled [m_cbTableCard], [cut] is drawn. *)
Definition new_shoe (cards : list Z) (cut : Z) (first : nat) (s : Shoe) : Outcome Shoe :=
  burn first (s <| m_CardVecData := cards |> <| m_nCutCardId := cut |> <| m_nSendCardIndex := 0 |>
    <| m_nLeftCardCount := Z.of_nat MAX_CARDS |> <| m_cbCardTypeCount := replicate 52 0 |>).

(** What [OnTimerEnd] does with the shoe: beyond the cut it is changed. *)
Definition next_shoe (cards : list Z) (cut : Z) (first : nat) (s : Shoe) : Outcome Shoe :=
  let s := clear_cards s in
  if m_nLeftCardCount s <=? m_nCutCardId s then new_shoe cards cut first s else Ret s.

(** The shoe of a new table. *)
Definition no_shoe : Shoe := MkShoe [] (replicate 52 0) 0 0 0 no_hand no_hand [0; 0; 0].

(** One round: what the house wants, the numbers drawn, and the shuffle in case the shoe
    is changed after it. *)
Record Round := MkRound {
  r_winFlag : Z;
  r_cardPair : list Z;
  r_rets : nat → Z;
  r_draws : list nat;
  r_cards : list Z;
  r_cut : Z
}.
Definition play_round (first : nat) (r : Round) (s : Shoe) : Outcome Shoe :=
  '(s, _) ← GetOpenCards (r_winFlag r) (r_cardPair r) (r_rets r) (r_draws r) s;
  next_shoe (r_cards r) (r_cut r) first s.
Fixpoint play_rounds (first : nat) (l : list Round) (s : Shoe) : Outcome Shoe :=
  match l with
  | [] => Ret s
  | r :: l => s ← play_round first r s; play_rounds first l s
  end.
