(* ===== verification/BaccaratChoice.v ===== *)
(** Baccarat, the choice of the result ([src/Games/Game_BaiJiaLeLandy/BjlAlgorithm.cpp] and
    its header): the winner and the pairs the house wants, by its stock and the users' bets.
    The scores are computed with [double]s, which are modelled bit by bit; numbers drawn are
    arguments, and so is what a probability is compared with in the two functions for
    blacklisted users. *)
From stdpp Require Import base list numbers sorting.
From Stdlib Require Import ZArith Lia SpecFloat.
From S2P Require Import Prelude Baccarat.

#[local] Open Scope Z_scope.

(** ** Floating point *)

Definition double : Type := spec_float.
Definition of_int (z : Z) : double := binary_normalize 53 1024 z 0 false.
Definition dadd : double → double → double := SFadd 53 1024.
Definition dsub : double → double → double := SFsub 53 1024.
Definition dmul : double → double → double := SFmul 53 1024.
Definition ddiv : double → double → double := SFdiv 53 1024.

(** A [float] (24 bits) becomes a [double] without loss. *)
Definition of_float (x : spec_float) : double :=
  match x with S754_finite s m e => binary_round 53 1024 s m e | _ => x end.

(** The conversion to [int64_t] cuts off the fraction; the code does not meet numbers
    outside the type. *)
Definition to_int (x : double) : Z :=
  match x with
  | S754_finite s m e => let n := if 0 <=? e then Z.pos m * 2 ^ e else Z.pos m / 2 ^ (- e) in if s then - n else n
  | _ => 0
  end.

(** ** State *)

Definition Denominator : Z := 10000.
Definition He : Z := 0.
Definition Zhuang : Z := 1.
Definition Xian : Z := 2.
Definition Max : nat := 6.

(** [BjlAlgorithm]. *)
Record Algo := MkAlgo {
  m_highLimit : Z;
  m_lowLimit : Z;
  m_curProfit : Z;
  m_probability : spec_float;
  m_thresholdNum : Z;
  m_profitInterval : Z;
  m_killOrReword : Z;
  resultProbility : Z;
  bettingQuantity : list Z;
  m_muticleArr : list double;
  miCurrentProfit : Z
}.
#[global] Instance eta_Algo : Settable Algo := λ a,
  MkAlgo (m_highLimit a) (m_lowLimit a) (m_curProfit a) (m_probability a) (m_thresholdNum a) (m_profitInterval a)
    (m_killOrReword a) (resultProbility a) (bettingQuantity a) (m_muticleArr a) (miCurrentProfit a).

Definition SetBetting (index value : Z) (a : Algo) : Algo :=
  if (index <? 0) || (Z.of_nat Max <=? index) then a else a <| bettingQuantity ::= <[Z.to_nat index := value]> |>.

(** The interval of the stock and the probability of a control. *)
Definition interval_probability (resh : Z) (a : Algo) : double :=
  let two := binary_normalize 24 128 2 0 false in
  let dpro := ddiv (dmul (of_float (SFmul 24 128 (m_probability a) two)) (of_int resh)) (of_int (m_highLimit a - m_lowLimit a)) in
  let p := of_float (m_probability a) in
  if SFltb dpro p then dpro else p.
Definition OverHighLowLimit (a : Algo) : double * Algo :=
  if m_highLimit a <? m_curProfit a then (interval_probability (m_curProfit a - m_highLimit a) a, a <| m_profitInterval := 1 |>)
  else if m_curProfit a <? m_lowLimit a then (interval_probability (m_lowLimit a - m_curProfit a) a, a <| m_profitInterval := -1 |>)
  else (of_int 0, a <| m_profitInterval := 0 |>).

(** [r] is drawn between 0 and 10000. *)
Definition CalculatCotrol (r : Z) (a : Algo) : Algo :=
  a <| m_killOrReword :=
    if m_profitInterval a =? 1 then if r <? resultProbility a then 1 else 0
    else if m_profitInterval a =? -1 then if r <? resultProbility a then -1 else 0
    else 0 |>.

Definition SetAlgorithemNum (high low curr : Z) (ptobali : spec_float) (mularr : list double) (threshold r : Z) (a : Algo) : Algo :=
  let '(h, l) := if high <? low then (low, high) else (high, low) in
  let a := a <| m_highLimit := h |> <| m_lowLimit := l |> <| m_thresholdNum := threshold |> <| m_curProfit := curr |> <| m_probability := ptobali |>
             <| resultProbility := 0 |> <| miCurrentProfit := 0 |> <| m_muticleArr := mularr |> in
  let '(p, a) := OverHighLowLimit a in
  CalculatCotrol r (a <| resultProbility := to_int (dmul p (of_int Denominator)) |>).

Definition SetMustKill (isKillOrRewar : Z) (a : Algo) : Algo :=
  a <| m_killOrReword := if 1 <? isKillOrRewar then 1 else if isKillOrRewar <? -1 then -1 else isKillOrRewar |>.

(** ** The score of the house *)

Definition win_part (a : Algo) (i : nat) : double := dsub (default (of_int 0) (m_muticleArr a !! i)) (of_int 1).

Definition area_score (a : Algo) (winTag : Z) (cardPair : list Z) (winscore : Z) (i : nat) : Z :=
  let q := (bettingQuantity a).[i] in
  if (i <? 3)%nat then
    if Z.of_nat i =? winTag then to_int (dadd (of_int winscore) (dmul (of_int (- q)) (win_part a i)))
    else if winTag =? He then
      if (Z.of_nat i =? Zhuang) || (Z.of_nat i =? Xian) then winscore else winscore + q
    else winscore + q
  else if cardPair.[i - 3] =? 1 then to_int (dsub (of_int winscore) (dmul (of_int q) (win_part a i)))
  else winscore + q.
Definition CalculatWinScore (a : Algo) (winTag : Z) (cardPair : list Z) : Z := foldl (area_score a winTag cardPair) 0 (seq 0 Max).

Definition getAllBetScore (a : Algo) : Z := sumZ (map (λ i, (bettingQuantity a).[i]) (seq 0 Max)).

(** ** The choice *)

Definition half_stock (a : Algo) : Z := - (m_curProfit a - m_lowLimit a) ÷ 2.

(** A house that rewards wants a loss within one of its limits; if there is none it does not
    reward.  [cast] is the type of the vector the scores are put in. *)
Definition rewardable (a : Algo) (v : Z) : bool := (- m_thresholdNum a <=? v) || (half_stock a <=? v).
Definition check_reward (cast : Z → Z) (cardPair : list Z) (a : Algo) : Algo :=
  if m_killOrReword a =? 1 then
    let v_wintag := map cast (filter (λ w, w < 0) (map (λ i, CalculatWinScore a i cardPair) [He; Zhuang; Xian])) in
    let jishi := length (filter (λ v, rewardable a v = false) v_wintag) in
    if (length v_wintag <=? 0)%nat || (jishi =? length v_wintag)%nat then a <| m_killOrReword := 0 |> else a
  else a.

Definition beyond_red_line (a : Algo) (winscore red : Z) : bool := (winscore <? - m_thresholdNum a) && (red <? half_stock a).

(** [isOk] (the result is thrown away) and whether that counts as a try; [red] is the score
    that is compared with half the stock. *)
Definition judge (a : Algo) (winscore red : Z) : bool * bool :=
  if m_killOrReword a =? -1 then (winscore <? 0, winscore <? 0)
  else if m_killOrReword a =? 1 then ((0 <? winscore) || beyond_red_line a winscore red, false)
  else (beyond_red_line a winscore red, beyond_red_line a winscore red).

(** After 500 tries the first pair is given up. *)
Fixpoint drop_pair (cardPair : list Z) : list Z :=
  match cardPair with
  | [] => []
  | p :: l => if p =? 1 then 0 :: l else p :: drop_pair l
  end.
Definition count_try (counts : bool) (npair loopCount : nat) (cardPair : list Z) : nat * nat * list Z :=
  if counts then
    let loopCount := S loopCount in
    if (0 <? npair)%nat && (500 <=? loopCount)%nat then (pred npair, 0%nat, drop_pair cardPair) else (npair, loopCount, cardPair)
  else (npair, loopCount, cardPair).
Definition pairs_wanted (cardPair : list Z) : nat := length (filter (λ p, p = 1) (take 3 cardPair)).

(** [d]: what is drawn for the banker and the player. *)
Definition draw_tag (d : Z * Z) : Z := if fst d =? snd d then 0 else if snd d <? fst d then 1 else 2.

Fixpoint open_loop (draws : list (Z * Z)) (npair loopCount : nat) (cardPair : list Z) (a : Algo) : Outcome (Z * list Z * Algo) :=
  match draws with
  | [] => Waits
  | d :: draws =>
      let wintag := draw_tag d in
      if getAllBetScore a <=? 0 then Ret (wintag, cardPair, a)
      else
        let winscore := CalculatWinScore a wintag cardPair in
        let a := a <| miCurrentProfit := winscore |> in
        let '(isOk, counts) := judge a winscore winscore in
        let '(npair, loopCount, cardPair) := count_try counts npair loopCount cardPair in
        if isOk && negb ((npair =? 0)%nat && (500 <=? loopCount)%nat) then open_loop draws npair loopCount cardPair a
        else Ret (wintag, cardPair, a)
  end.
Definition GetOpenCard (draws : list (Z * Z)) (cardPair : list Z) (a : Algo) : Outcome (Z * list Z * Algo) :=
  open_loop draws (pairs_wanted cardPair) 0 cardPair (check_reward id cardPair a).

(** ** Blacklisted users *)

(** [he]: the number drawn is beyond 0.9253; [kai]: else it is below the banker's share.
    The first score is the one that stays compared with half the stock. *)
Fixpoint black_loop (draws : list (Z * Z)) (red wintag : Z) (npair loopCount : nat) (cardPair : list Z) (a : Algo) : Outcome (Z * list Z * Algo) :=
  let winscore1 := CalculatWinScore a wintag cardPair in
  let a := a <| miCurrentProfit := winscore1 |> in
  let '(isOk, counts) := judge a winscore1 red in
  let '(npair, loopCount, cardPair) := count_try counts npair loopCount cardPair in
  if isOk then
    match draws with
    | [] => Waits
    | d :: draws =>
        if (npair =? 0)%nat && (500 <=? loopCount)%nat then Ret (draw_tag d, cardPair, a)
        else black_loop draws red (draw_tag d) npair loopCount cardPair a
    end
  else Ret (wintag, cardPair, a).
Definition BlackGetOpenCard (he kai : bool) (draws : list (Z * Z)) (wintag : Z) (cardPair : list Z) (a : Algo) : Outcome (Z * list Z * Algo) :=
  if getAllBetScore a <=? 0 then Ret (wintag, cardPair, a)
  else
    let wintag := if he then 0 else if kai then 1 else 2 in
    let winscore := CalculatWinScore a wintag cardPair in
    black_loop draws winscore wintag (pairs_wanted cardPair) 0 cardPair (check_reward i32 cardPair (a <| miCurrentProfit := winscore |>)).

(** [any] is drawn between 1 and 2. *)
Definition BlackGetMustkillOpenCard (he : bool) (any wintag : Z) (jetton cardPair : list Z) (isMust : bool) (a : Algo) : Z * Algo :=
  if getAllBetScore a <=? 0 then (wintag, a)
  else
    let wintag := if he then He else if jetton.[Z.to_nat Xian] <? jetton.[Z.to_nat Zhuang] then Xian else Zhuang in
    let a := a <| miCurrentProfit := CalculatWinScore a wintag cardPair |> in
    if isMust then (wintag, a)
    else
      let wintag :=
        if (miCurrentProfit a <? -1000000) && (m_killOrReword a =? -1) then
          let wintag := if wintag =? Xian then Zhuang else wintag in
          if wintag =? Zhuang then Xian else wintag
        else if (miCurrentProfit a <? -500000) && (m_killOrReword a =? 0) then
          if (wintag =? Xian) || (wintag =? Zhuang) then any else wintag
        else wintag in
      (wintag, a <| miCurrentProfit := CalculatWinScore a wintag cardPair |>).
