(* ===== verification/BaccaratTries.v ===== *)
(** Baccarat, the loops that choose a result: when they end, what they answer, and the one
    that never ends. *)
From stdpp Require Import base list numbers sorting.
From Stdlib Require Import ZArith Lia.
From S2P Require Import Prelude Baccarat BaccaratChoice.

#[local] Open Scope Z_scope.

(** ** The pairs *)

Definition ones (l : list Z) : nat := length (filter (λ p, p = 1) l).

Lemma ones_cons p l : ones (p :: l) = ((if decide (p = 1%Z) then 1 else 0) + ones l)%nat.
Proof. unfold ones. rewrite filter_cons. by destruct (decide (p = 1)). Qed.

Lemma drop_pair_ones n l : (0 < ones (take n l))%nat → ones (take n (drop_pair l)) = pred (ones (take n l)).
Proof.
  revert n. induction l as [|p l IH]; intros n; [rewrite take_nil; unfold ones; simpl; lia|]. destruct n as [|n]; [unfold ones; simpl; lia|]. cbn [take drop_pair]. rewrite ones_cons. intros H.
  destruct (Z.eqb_spec p 1) as [->|Hp]; cbn [take]; rewrite ones_cons.
  - by rewrite decide_False, decide_True.
  - rewrite decide_False by done. rewrite decide_False in H by done. by apply IH.
Qed.

Lemma pairs_wanted_le l : (pairs_wanted l <= 3)%nat.
Proof. unfold pairs_wanted. rewrite length_filter. rewrite length_take. lia. Qed.

(** ** The scores do not look at what was booked *)

Lemma score_profit a w t pairs : CalculatWinScore (a <| miCurrentProfit := w |>) t pairs = CalculatWinScore a t pairs.
Proof. done. Qed.

Lemma check_reward_same cast pairs a : ∃ k, check_reward cast pairs a = a <| m_killOrReword := k |> ∧ (k = m_killOrReword a ∨ k = 0).
Proof. unfold check_reward. destruct (_ =? 1); [destruct (_ || _)|]; eexists; (split; [|by (left + right)]); by destruct a. Qed.

Lemma score_reward cast pairs a t l : CalculatWinScore (check_reward cast pairs a) t l = CalculatWinScore a t l.
Proof. by destruct (check_reward_same cast pairs a) as (k & -> & _). Qed.

Lemma reward_profit cast pairs a w : check_reward cast pairs (a <| miCurrentProfit := w |>) = check_reward cast pairs a <| miCurrentProfit := w |>.
Proof.
  unfold check_reward. change (m_killOrReword (a <| miCurrentProfit := w |>)) with (m_killOrReword a). destruct (_ =? 1); [|done]. cbv zeta.
  change (rewardable (a <| miCurrentProfit := w |>)) with (rewardable a).
  change (λ i, CalculatWinScore (a <| miCurrentProfit := w |>) i pairs) with (λ i, CalculatWinScore a i pairs). by destruct (_ || _).
Qed.

(** A house that goes on rewarding has a result that it may give. *)
Lemma reward_possible cast pairs a : m_killOrReword (check_reward cast pairs a) = 1 →
  ∃ t, (t = 0 ∨ t = 1 ∨ t = 2) ∧ CalculatWinScore a t pairs < 0 ∧ rewardable a (cast (CalculatWinScore a t pairs)) = true.
Proof.
  unfold check_reward. destruct (Z.eqb_spec (m_killOrReword a) 1) as [_|]; [|done]. set (v := map cast _). destruct (_ || _) eqn:E; [done|]. intros _. apply orb_false_iff in E as [_ E%Nat.eqb_neq].
  destruct (existsb (rewardable a) v) eqn:Ee.
  - apply existsb_exists in Ee as (w & [w' [-> [Hw [t [-> Ht]]%list_elem_of_fmap]%list_elem_of_filter]]%list_elem_of_In%list_elem_of_fmap & Hr). exists t. split; [|done].
    unfold He, Zhuang, Xian in Ht. rewrite !elem_of_cons, elem_of_nil in Ht. tauto.
  - destruct E. apply f_equal, filter_all, Forall_forall. intros w Hw. destruct (rewardable a w) eqn:Er; [|done]. assert (existsb (rewardable a) v = true); [|congruence].
    apply existsb_exists. exists w. split; [by apply list_elem_of_In|done].
Qed.

Definition draw_of (t : Z) : Z * Z := if t =? 0 then (1, 1) else if t =? 1 then (2, 1) else (1, 2).
Lemma draw_of_tag t : t = 0 ∨ t = 1 ∨ t = 2 → draw_tag (draw_of t) = t.
Proof. by intros [->|[->| ->]]. Qed.

(** ** The end of the loop *)

Section Loop.
Context (a : Algo) (Hbet : 0 < getAllBetScore a).

(** The tries that are left. *)
Definition tries (npair loopCount : nat) : nat := (npair * 500 + (500 - loopCount))%nat.

Lemma open_ends draws npair loopCount pairs w : m_killOrReword a ≠ 1 → (loopCount < 500)%nat → (tries npair loopCount <= length draws)%nat →
  ∃ r, open_loop draws npair loopCount pairs (a <| miCurrentProfit := w |>) = Ret r.
Proof.
  intros Hk. revert npair loopCount pairs w. induction draws as [|d draws IH]; intros npair loopCount pairs w Hl Ht; [unfold tries in Ht; simpl in Ht; lia|]. cbn [open_loop].
  change (getAllBetScore (a <| miCurrentProfit := w |>)) with (getAllBetScore a). rewrite (proj2 (Z.leb_gt _ _)) by done.
  set (w1 := CalculatWinScore _ _ _). change (a <| miCurrentProfit := w |> <| miCurrentProfit := w1 |>) with (a <| miCurrentProfit := w1 |>).
  assert (∃ b, judge (a <| miCurrentProfit := w1 |>) w1 w1 = (b, b)) as (b & ->).
  { unfold judge. change (m_killOrReword (a <| miCurrentProfit := w1 |>)) with (m_killOrReword a). destruct (_ =? -1); [by eexists|]. rewrite (proj2 (Z.eqb_neq _ _)) by done. by eexists. }
  unfold count_try. destruct b; cbn [andb negb]; [|by eexists]. unfold tries in *. cbn [length] in Ht.
  destruct (Nat.ltb_spec 0 npair), (Nat.leb_spec 500 (S loopCount)); cbn [andb].
  - change (500 <=? 0)%nat with false. rewrite andb_false_r. cbn [andb negb]. apply IH; lia.
  - rewrite (proj2 (Nat.leb_gt 500 _)), andb_false_r by done. cbn [andb negb]. apply IH; lia.
  - rewrite (proj2 (Nat.leb_le 500 _)) by done. rewrite (proj2 (Nat.eqb_eq npair 0)) by lia. by eexists.
  - rewrite (proj2 (Nat.leb_gt 500 _)), andb_false_r by done. cbn [andb negb]. apply IH; lia.
Qed.

(** What the loop answers. *)
Definition answered (draws : list (Z * Z)) (tag : Z) (pairs : list Z) (a' : Algo) : Prop :=
  miCurrentProfit a' = CalculatWinScore a tag pairs ∧ m_killOrReword a' = m_killOrReword a ∧
  (m_killOrReword a = 1 → miCurrentProfit a' <= 0 ∧ rewardable a (miCurrentProfit a') = true) ∧
  (m_killOrReword a = -1 → 0 <= miCurrentProfit a' ∨ pairs_wanted pairs = 0%nat ∧ (500 <= length draws)%nat).

Lemma red_line_reward w : beyond_red_line a w w = negb (rewardable a w).
Proof. unfold beyond_red_line, rewardable. rewrite negb_orb. by rewrite !Z.ltb_antisym. Qed.

Lemma open_answers all draws used npair loopCount pairs w tag pairs' a' : (loopCount < 500)%nat → (loopCount <= used)%nat → (used + length draws = length all)%nat → npair = pairs_wanted pairs →
  open_loop draws npair loopCount pairs (a <| miCurrentProfit := w |>) = Ret (tag, pairs', a') → answered all tag pairs' a'.
Proof.
  revert used npair loopCount pairs w. induction draws as [|d draws IH]; intros used npair loopCount pairs w Hl Hu Hall Hn; [done|]. cbn [open_loop].
  change (getAllBetScore (a <| miCurrentProfit := w |>)) with (getAllBetScore a). rewrite (proj2 (Z.leb_gt _ _)) by done. rewrite score_profit.
  set (w1 := CalculatWinScore a (draw_tag d) pairs). change (a <| miCurrentProfit := w |> <| miCurrentProfit := w1 |>) with (a <| miCurrentProfit := w1 |>). cbn [length] in Hall.
  unfold judge. change (m_killOrReword (a <| miCurrentProfit := w1 |>)) with (m_killOrReword a). change (beyond_red_line (a <| miCurrentProfit := w1 |>) w1 w1) with (beyond_red_line a w1 w1). rewrite red_line_reward.
  assert (∀ b : bool, (m_killOrReword a ≠ 1) → (m_killOrReword a = -1 → b = (w1 <? 0)) →
    (let '(npair, loopCount, cardPair) := count_try b npair loopCount pairs in
     if b && negb ((npair =? 0)%nat && (500 <=? loopCount)%nat) then open_loop draws npair loopCount cardPair (a <| miCurrentProfit := w1 |>) else Ret (draw_tag d, cardPair, a <| miCurrentProfit := w1 |>)) = Ret (tag, pairs', a') → answered all tag pairs' a') as Htry.
  { intros b Hk Hb. unfold count_try. destruct b; cbn [andb negb].
    2: { intros [= <- <- <-]. split; [done|]. split; [done|]. split; [done|]. intros H. left. change (0 <= w1). specialize (Hb H). symmetry in Hb. by apply Z.ltb_ge in Hb. }
    destruct (Nat.ltb_spec 0 npair), (Nat.leb_spec 500 (S loopCount)); cbn [andb].
    - change (500 <=? 0)%nat with false. rewrite andb_false_r. cbn [andb negb]. apply (IH (S used)); try lia. unfold pairs_wanted. symmetry. rewrite Hn. apply drop_pair_ones. unfold pairs_wanted in Hn. unfold ones. lia.
    - rewrite (proj2 (Nat.leb_gt 500 _)), andb_false_r by done. cbn [andb negb]. apply (IH (S used)); lia || done.
    - rewrite (proj2 (Nat.leb_le 500 _)) by done. rewrite (proj2 (Nat.eqb_eq npair 0)) by lia. cbn [andb negb]. intros [= <- <- <-]. split; [done|]. split; [done|]. split; [done|]. intros _. right. split; lia.
    - rewrite (proj2 (Nat.leb_gt 500 _)), andb_false_r by done. cbn [andb negb]. apply (IH (S used)); lia || done. }
  destruct (Z.eqb_spec (m_killOrReword a) (-1)) as [E|E]; [apply Htry; congruence|]. destruct (Z.eqb_spec (m_killOrReword a) 1) as [E1|E1]; [|by apply Htry].
  unfold count_try. rewrite (proj2 (Nat.leb_gt 500 loopCount)), andb_false_r by done. cbn [negb]. rewrite andb_true_r. destruct (_ || _) eqn:Eb; [apply (IH (S used)); lia || done|]. intros [= <- <- <-].
  apply orb_false_iff in Eb as [Eb1%Z.ltb_ge Eb2%negb_false_iff]. split; [done|]. split; [done|]. split; [by intros _|]. congruence.
Qed.

(** A house that rewards stops at a result it may give. *)
Lemma reward_ends draws npair pairs w t : m_killOrReword a = 1 → (t = 0 ∨ t = 1 ∨ t = 2) → CalculatWinScore a t pairs < 0 → rewardable a (CalculatWinScore a t pairs) = true →
  ∃ r, open_loop (draws ++ [draw_of t]) npair 0 pairs (a <| miCurrentProfit := w |>) = Ret r.
Proof.
  intros Hk Ht Hw Hr. revert w. induction draws as [|d draws IH]; intros w; cbn [app open_loop]; change (getAllBetScore (a <| miCurrentProfit := w |>)) with (getAllBetScore a); rewrite (proj2 (Z.leb_gt _ _)) by done;
    set (w1 := CalculatWinScore _ _ _); change (a <| miCurrentProfit := w |> <| miCurrentProfit := w1 |>) with (a <| miCurrentProfit := w1 |>);
    unfold judge; change (m_killOrReword (a <| miCurrentProfit := w1 |>)) with (m_killOrReword a); rewrite Hk; change (1 =? -1) with false; change (1 =? 1) with true; cbn [count_try];
    change (500 <=? 0)%nat with false; rewrite andb_false_r; cbn [negb]; rewrite andb_true_r.
  - change (beyond_red_line (a <| miCurrentProfit := w1 |>) w1 w1) with (beyond_red_line a w1 w1). rewrite red_line_reward. assert (w1 = CalculatWinScore a (draw_tag (draw_of t)) pairs) as -> by apply score_profit. rewrite (draw_of_tag t Ht), Hr.
    rewrite (proj2 (Z.ltb_ge _ _)) by lia. by eexists.
  - destruct (_ || _); [apply IH|by eexists].
Qed.
End Loop.

(** ** Blacklisted users *)

Section Black.
Context (a : Algo) (red : Z) (Hk : m_killOrReword a = 1) (Hred : red < half_stock a).

(** Every result wins or goes beyond the first limit; the second one is not looked at. *)
Lemma black_goes_on draws t npair loopCount pairs w : (t = 0 ∨ t = 1 ∨ t = 2) → (loopCount < 500)%nat →
  (∀ t, t = 0 ∨ t = 1 ∨ t = 2 → 0 < CalculatWinScore a t pairs ∨ CalculatWinScore a t pairs < - m_thresholdNum a) →
  black_loop draws red t npair loopCount pairs (a <| miCurrentProfit := w |>) = Waits.
Proof.
  intros Ht Hl Hw. revert t w Ht. induction draws as [|d draws IH]; intros t w Ht; cbn [black_loop]; rewrite score_profit; pose proof (Hw t Ht) as Hs; set (w1 := CalculatWinScore a t pairs) in *;
    change (a <| miCurrentProfit := w |> <| miCurrentProfit := w1 |>) with (a <| miCurrentProfit := w1 |>);
    unfold judge; change (m_killOrReword (a <| miCurrentProfit := w1 |>)) with (m_killOrReword a); rewrite Hk; change (1 =? -1) with false; change (1 =? 1) with true; cbn [count_try];
    (assert ((0 <? w1) || beyond_red_line (a <| miCurrentProfit := w1 |>) w1 red = true) as ->;
      [unfold beyond_red_line; apply orb_true_iff; destruct Hs; [left; by apply Z.ltb_lt|right; apply andb_true_iff; split; by apply Z.ltb_lt]|]); [done|].
  rewrite (proj2 (Nat.leb_gt 500 loopCount)), andb_false_r by done. apply IH. unfold draw_tag. destruct (_ =? _); [by left|]. destruct (_ <? _); [right; by left|by right; right].
Qed.
End Black.
