(* ===== verification/BaccaratShoe.v ===== *)
(** Baccarat, the books of the shoe: the cards that are dealt leave it, no card of the
    eight packs is dealt a ninth time, and no index or assertion fails. *)
From stdpp Require Import base list numbers sorting.
From Stdlib Require Import ZArith Lia.
From S2P Require Import Prelude Baccarat.

#[local] Open Scope Z_scope.

(** ** Cards *)

Definition card (c : Z) : Prop := c ∈ pack.

Lemma card_facts c : card c → IsCardValid c = true ∧ is_type c = true ∧ (type_index c < 52)%nat.
Proof.
  intros H. assert (Forall (λ c, IsCardValid c = true ∧ is_type c = true ∧ (type_index c < 52)%nat) pack) as F; [|exact (proj1 (Forall_forall _ _) F c H)].
  by_decide.
Qed.

Lemma card_valid c : card c → IsCardValid c = true.
Proof. intros H. by destruct (card_facts c H). Qed.

(** A card has a place of its own among the counts. *)
Lemma type_index_inj c d : card c → card d → type_index c = type_index d → c = d.
Proof.
  intros Hc Hd H. assert (Forall (λ c, Forall (λ d, type_index c = type_index d → c = d) pack) pack) as F by by_decide.
  exact (proj1 (Forall_forall _ _) (proj1 (Forall_forall _ _) F c Hc) d Hd H).
Qed.

Lemma valid_skips c : card c → Z.eqb 0 c = false.
Proof. intros H%card_valid. apply Z.eqb_neq. by intros <-. Qed.

(** How often a card occurs. *)
Definition occ (c : Z) (l : list Z) : nat := count_occ Z.eq_dec l c.

Lemma occ_app c l k : occ c (l ++ k) = (occ c l + occ c k)%nat.
Proof. apply count_occ_app. Qed.

Lemma occ_perm c l k : l ≡ₚ k → occ c l = occ c k.
Proof. intros H. exact (proj1 (Permutation_count_occ Z.eq_dec l k) H c). Qed.

Lemma occ_in c l : c ∈ l → (1 <= occ c l)%nat.
Proof. intros H%list_elem_of_In. apply (count_occ_In Z.eq_dec) in H. unfold occ. lia. Qed.

(** ** Erasing cards *)

Lemma erase_card_perm c l : c ∈ l → l ≡ₚ c :: erase_card c l.
Proof.
  induction l as [|d l IH]; intros H; [by apply elem_of_nil in H|]. cbn [erase_card]. destruct (Z.eqb_spec c d) as [->|Hne]; [done|].
  apply elem_of_cons in H as [|H]; [done|]. rewrite (IH H) at 1. apply Permutation_swap.
Qed.

Lemma eraseVecCard_perm k l : k ⊆+ l → l ≡ₚ k ++ eraseVecCard k l.
Proof.
  revert l. induction k as [|c k IH]; intros l H; [done|]. unfold eraseVecCard. cbn [foldl app]. fold (eraseVecCard k (erase_card c l)).
  assert (c ∈ l) as Hc by (eapply elem_of_submseteq; [by left|done]). rewrite <- IH; [by apply erase_card_perm|].
  rewrite (erase_card_perm c l Hc) in H. by apply submseteq_app_inv_l with (k := [c]) in H.
Qed.

(** ** Two cards *)

Lemma second_card_in skips nPair c d l : l ≠ [] → Forall (λ e, skips e = false) l → fst (second_card skips nPair c d l) ∈ l.
Proof.
  revert d. induction l as [|e l IH]; intros d Hl Hs; [done|]. apply Forall_cons in Hs as [He Hs]. cbn [second_card]. rewrite He.
  destruct (IsCardPair [c; e] =? nPair); [by left|]. destruct l as [|e' l]; [by left|]. right. by apply IH.
Qed.

Lemma he_second_in b nPair c d l : l ≠ [] → fst (he_second b nPair c d l) ∈ l.
Proof.
  revert d. induction l as [|e l IH]; intros d Hl; [done|]. cbn [he_second]. destruct (_ =? nPair); [by left|]. destruct l as [|e' l]; [by left|]. right. by apply IH.
Qed.

(** A hand that was found among [l]. *)
Definition found (cb l : list Z) : Prop := ∃ c d, cb = [c; d] ∧ [c; d] ⊆+ l.

Lemma found_sub cb l : found cb l → cb ⊆+ l.
Proof. by intros (c & d & -> & H). Qed.

Lemma found_mono cb l k : l ⊆+ k → found cb l → found cb k.
Proof. intros H (c & d & -> & H'). exists c, d. split; [done|]. by transitivity l. Qed.

Lemma found_here c d l : d ∈ l → found [c; d] (c :: l).
Proof. intros H. exists c, d. split; [done|]. apply submseteq_skip. by apply singleton_submseteq_l. Qed.

Lemma two_cards_found nPair cb l : Forall card l → (2 <= length l)%nat → found (two_cards nPair cb l) l.
Proof.
  revert cb. induction l as [|c l IH]; intros cb Hv Hl; [simpl in Hl; lia|]. apply Forall_cons in Hv as [Hc Hv]. destruct l as [|c' l]; [simpl in Hl; lia|].
  cbn [two_cards]. rewrite (card_valid c Hc). pose proof (second_card_in (Z.eqb 0) nPair c cb.[1] (c' :: l)) as Hin.
  destruct (second_card _ _ _ _ _) as [d IsOK]. cbn [fst] in Hin. assert (d ∈ c' :: l) as Hd by (apply Hin; [done|]; by eapply Forall_impl; [exact Hv|apply valid_skips]).
  destruct IsOK; [by apply found_here|]. destruct l as [|c'' l]; [by apply found_here|]. apply (found_mono _ (c' :: c'' :: l)); [by apply submseteq_cons|].
  apply IH; [done|simpl; lia].
Qed.

Lemma he_cards_found b nPair cb l : (2 <= length l)%nat → found (he_cards b nPair cb l) l.
Proof.
  revert cb. induction l as [|c l IH]; intros cb Hl; [simpl in Hl; lia|]. destruct l as [|c' l]; [simpl in Hl; lia|]. cbn [he_cards].
  pose proof (he_second_in b nPair c cb.[1] (c' :: l)) as Hin. destruct (he_second _ _ _ _ _) as [d IsOK]. cbn [fst] in Hin. assert (d ∈ c' :: l) as Hd by by apply Hin.
  destruct IsOK; [by apply found_here|]. destruct l as [|c'' l]; [by apply found_here|]. apply (found_mono _ (c' :: c'' :: l)); [by apply submseteq_cons|]. apply IH. simpl; lia.
Qed.

Lemma player_found cb nPair c l : Forall card (c :: l) → l ≠ [] → found (getTwoCard_player cb nPair (c :: l)) (c :: l).
Proof.
  intros [Hc Hv]%Forall_cons Hl. destruct l as [|c' l]; [done|]. unfold getTwoCard_player. rewrite (card_valid c Hc). apply found_here. apply second_card_in; [done|].
  eapply Forall_impl; [exact Hv|]. intros d Hd. by apply negb_false_iff, card_valid.
Qed.

Lemma search_player_found winFlag cardPair z w x xv l : Forall card l → (2 <= length l)%nat → found (fst (fst (search_player winFlag cardPair z w x xv l))) l.
Proof.
  revert x xv. induction l as [|c l IH]; intros x xv Hv Hl; [simpl in Hl; lia|]. destruct l as [|c' l]; [simpl in Hl; lia|]. cbn [search_player].
  pose proof (player_found x cardPair.[2] c (c' :: l) Hv ltac:(done)) as Hf. destruct (fits _ _ _ _ _ _); [exact Hf|]. apply Forall_cons in Hv as [_ Hv].
  destruct l as [|c'' l]; [exact Hf|]. apply (found_mono _ (c' :: c'' :: l)); [by apply submseteq_cons|]. apply (IH _ xv); [done|simpl; lia].
Qed.

(** ** The books *)

(** [s] deals from a shoe of eight packs. *)
Record consistent (s : Shoe) : Prop := {
  cs_cards : Forall card (m_CardVecData s);
  cs_len : length (m_cbCardTypeCount s) = 52%nat;
  cs_counts : ∀ c, card c → (m_cbCardTypeCount s).[type_index c] + Z.of_nat (occ c (m_CardVecData s)) <= 8;
  cs_left : m_nLeftCardCount s = Z.of_nat (length (m_CardVecData s));
  cs_sent : m_nSendCardIndex s + m_nLeftCardCount s = Z.of_nat MAX_CARDS
}.

(** The part of it that concerns the cards. *)
Record stocked (s : Shoe) : Prop := {
  st_cards : Forall card (m_CardVecData s);
  st_len : length (m_cbCardTypeCount s) = 52%nat;
  st_counts : ∀ c, card c → (m_cbCardTypeCount s).[type_index c] + Z.of_nat (occ c (m_CardVecData s)) <= 8
}.

Lemma more_cards_all s : stocked s → more_cards s = m_CardVecData s.
Proof.
  intros [H1 H2 H3]. apply filter_all. apply Forall_forall. intros c Hc. pose proof (proj1 (Forall_forall _ _) H1 c Hc) as Hv. unfold IsMoreCard.
  destruct (card_facts c Hv) as (_ & -> & _). apply negb_true_iff, Z.ltb_ge. pose proof (H3 c Hv). apply occ_in in Hc. lia.
Qed.

(** A shoe with fewer cards. *)
Lemma stocked_less s l k : m_CardVecData s ≡ₚ k ++ l → stocked s → stocked (s <| m_CardVecData := l |>).
Proof.
  intros Hp [H1 H2 H3]. split; [|done|].
  - rewrite Hp in H1. by apply Forall_app in H1 as [_ H1].
  - intros c Hc. pose proof (H3 c Hc) as H. rewrite (occ_perm c _ _ Hp), occ_app in H. change ((m_cbCardTypeCount s).[type_index c] + Z.of_nat (occ c l) <= 8). lia.
Qed.

(** The fields a step of the dealing may change leave the stock alone. *)
Lemma stocked_same s s' : m_CardVecData s' = m_CardVecData s → m_cbCardTypeCount s' = m_cbCardTypeCount s → stocked s → stocked s'.
Proof. intros E1 E2 [H1 H2 H3]. split; rewrite ?E1, ?E2; done. Qed.

(** ** Two hands *)

Lemma banker_pair z nPair start s : stocked s → (start + 2 <= length (m_CardVecData s))%nat →
  ∃ z' vec, getTwoCard_banker z nPair start (more_cards s) (length (m_CardVecData s)) = Ret (z', vec) ∧ (∃ c d, z' = [c; d]) ∧ m_CardVecData s ≡ₚ z' ++ vec.
Proof.
  intros Hs Hl. rewrite (more_cards_all s Hs). unfold getTwoCard_banker. rewrite Nat.leb_refl. cbn [check mbind Outcome_bind]. rewrite take_ge by lia.
  set (l := drop start (m_CardVecData s)). assert (found (two_cards nPair z l) l) as Hf.
  { apply two_cards_found; [apply Forall_drop, st_cards, Hs|]. unfold l. rewrite length_drop. lia. }
  assert (l ⊆+ m_CardVecData s) as Hsub by (apply sublist_submseteq, sublist_drop).
  do 2 eexists. split; [done|]. split; [by destruct Hf as (c & d & -> & _); eauto|]. apply eraseVecCard_perm. transitivity l; [by apply found_sub|done].
Qed.

Lemma search_pairs fuel winFlag cardPair s z x xv w vec : stocked s → (∃ c d, z = [c; d]) → m_CardVecData s ≡ₚ z ++ vec → (4 <= length (m_CardVecData s))%nat → (length vec < fuel + w)%nat → (w < length vec)%nat →
  ∃ z' x' xv' vec', search fuel winFlag cardPair s z x xv w vec = Ret (z', x', xv', vec') ∧ (∃ c d, z' = [c; d]) ∧ (∃ c d, x' = [c; d]) ∧ z' ++ x' ⊆+ m_CardVecData s.
Proof.
  revert z x xv w vec. induction fuel as [|fuel IH]; intros z x xv w vec Hs Hz Hp H4 Hf Hw; [lia|]. cbn [search].
  assert (length (m_CardVecData s) = S (S (length vec))) as Hlen by (rewrite Hp, length_app; by destruct Hz as (c & d & ->)).
  assert (Forall card vec) as Hv by (pose proof (st_cards _ Hs) as H; rewrite Hp in H; by apply Forall_app in H as [_ H]).
  pose proof (search_player_found winFlag cardPair z w x xv vec Hv ltac:(lia)) as Hfd. destruct (search_player _ _ _ _ _ _ _) as [[x' xv'] ok]. cbn [fst] in Hfd.
  assert (z ++ x' ⊆+ m_CardVecData s) as Hsub by (rewrite Hp; by apply submseteq_skips_l, found_sub).
  assert (∃ c d, x' = [c; d]) as Hx by (destruct Hfd as (c & d & -> & _); eauto).
  destruct ok; [by do 4 eexists|]. destruct (Nat.leb_spec (length vec) (S w)) as [|Hlt]; [by do 4 eexists|].
  destruct (banker_pair z cardPair.[1] (S w) s Hs ltac:(lia)) as (z' & vec' & -> & Hz' & Hp'). cbn [mbind Outcome_bind].
  assert (length vec' = length vec) as Hl' by (rewrite Hp', length_app in Hlen; destruct Hz' as (c & d & ->); simpl in Hlen; lia).
  apply IH; [done..| |]; lia.
Qed.

(** The hands are on the table and came from the shoe, which still has their cards. *)
Record dealt (s : Shoe) : Prop := {
  dl_banker : ∃ c d, banker s = MkHand [c; d; 0] 2 (m_cbCardPoint (banker s));
  dl_player : ∃ c d, player s = MkHand [c; d; 0] 2 (m_cbCardPoint (player s));
  dl_pairs : m_cbCardPair s = [IsCardPairOf (hand_cards (banker s)) (hand_cards (player s)) 2 ID_HEPAIR; IsCardPairOf (hand_cards (banker s)) (hand_cards (player s)) 2 ID_BANKERPAIR;
    IsCardPairOf (hand_cards (banker s)) (hand_cards (player s)) 2 ID_PLAYERPAIR];
  dl_cards : hand_cards (banker s) ++ hand_cards (player s) ⊆+ m_CardVecData s
}.

(** What a search leaves alone. *)
Definition same_shoe (s s' : Shoe) : Prop :=
  m_CardVecData s' = m_CardVecData s ∧ m_cbCardTypeCount s' = m_cbCardTypeCount s ∧ m_nSendCardIndex s' = m_nSendCardIndex s ∧ m_nLeftCardCount s' = m_nLeftCardCount s ∧ m_nCutCardId s' = m_nCutCardId s.

#[global] Instance same_shoe_trans : Transitive same_shoe.
Proof. intros s1 s2 s3 (?&?&?&?&?) (?&?&?&?&?). unfold same_shoe. split_and!; congruence. Qed.

(** No third card lies on the table. *)
Definition two_only (s : Shoe) : Prop := (m_cbTableCards (banker s)).[2] = 0 ∧ (m_cbTableCards (player s)).[2] = 0.

Lemma search_deals winFlag cardPair z x ret s : is_flag winFlag = true → stocked s → (4 <= length (m_CardVecData s))%nat → two_only s →
  ∃ z' x' s', GetSearchCards winFlag cardPair z x ret s = Ret (z', x', s') ∧ same_shoe s s' ∧ two_only s' ∧ dealt s'.
Proof.
  intros Hw Hs H4 [Ht1 Ht2]. unfold GetSearchCards. rewrite Hw. cbn [negb]. destruct (banker_pair z cardPair.[1] 0 s Hs ltac:(lia)) as (z1 & vec & -> & Hz & Hp). cbn [mbind Outcome_bind].
  assert (length (m_CardVecData s) = S (S (length vec))) as Hlen by (rewrite Hp, length_app; by destruct Hz as (c & d & ->)).
  match goal with |- context [mbind _ ?m] => assert (∃ z2 x2 xv, m = Ret (z2, x2, xv) ∧ (∃ c d, z2 = [c; d]) ∧ (∃ c d, x2 = [c; d]) ∧ z2 ++ x2 ⊆+ m_CardVecData s) as (z2 & x2 & xv & -> & (c1 & d1 & ->) & (c2 & d2 & ->) & Hsub) end.
  { destruct (cardPair.[0] =? 1).
    - pose proof (he_cards_found z1 cardPair.[0] x vec ltac:(lia)) as Hf. unfold getHePairCard. do 3 eexists. split; [done|]. split; [done|]. split; [by destruct Hf as (c & d & -> & _); eauto|].
      rewrite Hp. by apply submseteq_skips_l, found_sub.
    - destruct (search_pairs (S (length (m_CardVecData s))) winFlag cardPair s z1 x 0 0 vec Hs Hz Hp H4 ltac:(lia) ltac:(lia)) as (z2 & x2 & xv & vec' & -> & Hz2 & Hx2 & Hsub). by do 3 eexists. }
  cbn [mbind Outcome_bind]. destruct (_ && swaps _ _ _); (do 3 eexists; split; [done|]; split; [done|]; split; [done|]; split).
  all: try (do 2 eexists; cbn; rewrite ?Ht1, ?Ht2; reflexivity).
  all: try reflexivity.
  { cbn. etransitivity; [|exact Hsub]. apply Permutation_submseteq. change [c2; d2; c1; d1] with ([c2; d2] ++ [c1; d1]). by rewrite Permutation_app_comm. }
  cbn. exact Hsub.
Qed.

Lemma hands_deal winFlag cardPair rets s : is_flag winFlag = true → stocked s → (4 <= length (m_CardVecData s))%nat → two_only s →
  ∃ s', GetOpenCards_hands winFlag cardPair rets s = Ret s' ∧ same_shoe s s' ∧ two_only s' ∧ dealt s'.
Proof.
  intros Hw Hs H4 Ht. unfold GetOpenCards_hands.
  assert (∀ f z x r s0, is_flag f = true → same_shoe s s0 → two_only s0 → ∃ z' x' s', GetSearchCards f cardPair z x r s0 = Ret (z', x', s') ∧ same_shoe s s' ∧ two_only s' ∧ dealt s') as H.
  { intros f z x r s0 Hf E Ht0. pose proof E as (E1 & E2 & _). destruct (search_deals f cardPair z x r s0 Hf) as (z' & x' & s' & -> & E' & ? & ?); [by apply (stocked_same s)|by rewrite E1|done|].
    do 3 eexists. split; [done|]. split; [by transitivity s0|done]. }
  assert (same_shoe s s) as E0 by done.
  destruct (_ && _).
  - destruct (H 1 [0;0] [0;0] (rets 0%nat) s ltac:(done) E0 Ht) as (z1 & x1 & s1 & -> & E1 & T1 & D1). cbn [mbind Outcome_bind]. destruct (_ && _); [by exists s1|].
    destruct (H 2 z1 x1 (rets 1%nat) s1 ltac:(done) E1 T1) as (z2 & x2 & s2 & -> & E2 & T2 & D2). cbn [mbind Outcome_bind]. destruct (_ && _); [by exists s2|].
    destruct (H winFlag z2 x2 (rets 2%nat) s2 Hw E2 T2) as (z3 & x3 & s3 & -> & E3 & T3 & D3). by exists s3.
  - destruct (H winFlag [0;0] [0;0] (rets 0%nat) s Hw E0 Ht) as (z1 & x1 & s1 & -> & E1 & T1 & D1). by exists s1.
Qed.
