(* ===== verification/BaccaratThird.v ===== *)
(** Baccarat, the third cards: whatever the house wants, they are drawn by the rules of the
    game, and the cards of a round leave the shoe. *)
From stdpp Require Import base option list numbers sorting.
From Stdlib Require Import ZArith Lia.
From S2P Require Import Prelude Baccarat BaccaratShoe.

#[local] Open Scope Z_scope.

(** ** The rules *)

(** The points of a hand. *)
Definition pips (cards : list Z) : Z := sumZ (map GetCardPip cards) mod 10.

(** The banker draws: with no third card of the player up to five, else by the table. *)
Definition tableau (b : Z) (third : option Z) : bool :=
  match third with
  | None => b <=? 5
  | Some t =>
      if b <=? 2 then true
      else if b =? 3 then negb (t =? 8)
      else if b =? 4 then (2 <=? t) && (t <=? 7)
      else if b =? 5 then (4 <=? t) && (t <=? 7)
      else if b =? 6 then (6 <=? t) && (t <=? 7)
      else false
  end.

(** Hands [b] and [p] of two cards, and the third cards, if any. *)
Definition drawn_by_rules (b p : list Z) (tb tp : option Z) : Prop :=
  if (8 <=? pips b) || (8 <=? pips p) then tb = None ∧ tp = None
  else (is_Some tp ↔ pips p <= 5) ∧ (is_Some tb ↔ tableau (pips b) (GetCardPip <$> tp) = true).

Lemma pip_range c : 0 <= GetCardPip c <= 9.
Proof. unfold GetCardPip, GetCardValue. assert (0 <= Z.land c 15) by (apply Z.land_nonneg; lia). bcrush. Qed.

Lemma sum_pips l : 0 <= sumZ (map GetCardPip l).
Proof. apply sumZ_nonneg, Forall_forall. intros x [c [-> _]]%list_elem_of_fmap. apply pip_range. Qed.

Lemma GetCardListPip_pips cards n : GetCardListPip cards n = pips (take n cards).
Proof.
  unfold GetCardListPip, pips. set (l := take n cards). assert (∀ a, 0 <= a < 10 → foldl (λ pip c, (GetCardPip c + pip) mod 10) a l = (a + sumZ (map GetCardPip l)) mod 10) as H; [|by rewrite H by lia].
  induction l as [|c l IH]; intros a Ha; cbn [foldl map sumZ foldr]; [rewrite Z.mod_small; lia|]. pose proof (pip_range c). rewrite IH by (apply Z.mod_pos_bound; lia).
  fold (sumZ (map GetCardPip l)). rewrite Zplus_mod_idemp_l. f_equal. lia.
Qed.

Lemma hand_point_pips h : hand_point h = pips (hand_cards h).
Proof. apply GetCardListPip_pips. Qed.

Lemma pips_range l : 0 <= pips l <= 9.
Proof. unfold pips. pose proof (Z.mod_pos_bound (sumZ (map GetCardPip l)) 10). lia. Qed.

Lemma stands_tableau b p t : 0 <= b <= 7 → 0 <= p <= 7 → (if p <=? 5 then 0 <= t <= 9 else t = 0) →
  banker_draws b (if p <=? 5 then 3 else 2) t = tableau b (if p <=? 5 then Some t else None).
Proof.
  intros Hb Hp Ht. destruct (p <=? 5) eqn:E.
  - assert (b = 0 ∨ b = 1 ∨ b = 2 ∨ b = 3 ∨ b = 4 ∨ b = 5 ∨ b = 6 ∨ b = 7) as Hb' by lia.
    assert (t = 0 ∨ t = 1 ∨ t = 2 ∨ t = 3 ∨ t = 4 ∨ t = 5 ∨ t = 6 ∨ t = 7 ∨ t = 8 ∨ t = 9) as Ht' by lia.
    destruct Hb' as [->|[->|[->|[->|[->|[->|[->| ->]]]]]]]; destruct Ht' as [->|[->|[->|[->|[->|[->|[->|[->|[->| ->]]]]]]]]]; reflexivity.
  - subst t. unfold banker_draws, tableau. cbn [Nat.eqb andb orb]. destruct (b <=? 2) eqn:E1, (b <=? 5) eqn:E2; try done; breflect; [lia|]. by destruct (b =? 6).
Qed.

(** ** The player's card *)

Section Draws.
Context (winFlag b p : Z) (vec : list Z) (Hv : vec ≠ []).

(** A card at its place, and that the house wants it. *)
Definition drawn (card : Z) (i : nat) : Prop := vec !! i = Some card ∧ IsCardValid card = true ∧ player_fits winFlag ((p + GetCardPip card) mod 10) = true.

Lemma one_card draws : match getOneCard_player winFlag b p vec draws with
  | Ret (card, _, i, _) => drawn card i | Waits => True | Bad => False end.
Proof.
  induction draws as [|r draws IH]; cbn [getOneCard_player]; [done|]. assert (r mod length vec < length vec)%nat as Hi by (apply Nat.mod_upper_bound; by destruct vec).
  destruct (lookup_lt_is_Some_2 vec _ Hi) as [card E]. rewrite E. destruct (IsCardValid card) eqn:Ev; [|exact IH]. cbn [andb]. destruct (player_fits _ _) eqn:Ef; [|exact IH]. by split_and!.
Qed.

Lemma again_card n draws : match draw_again n winFlag b p vec draws with
  | Ret (card, _, i, _) => drawn card i | Waits => True | Bad => False end.
Proof.
  revert draws. induction n as [|n IH]; intros draws; cbn [draw_again]; pose proof (one_card draws) as H;
    (destruct (getOneCard_player _ _ _ _ _) as [[[[card tag] i] ds]| |]; cbn [mbind Outcome_bind]; [|done..]); [done|].
  destruct (_ || _); [done|apply IH].
Qed.

Lemma player_draws draws : match player_draw winFlag b p vec draws with
  | Ret (Some (card, i), _) => (p <=? 5) && (b <? 8) = true ∧ drawn card i
  | Ret (None, _) => (p <=? 5) && (b <? 8) = false
  | Waits => True | Bad => False end.
Proof.
  unfold player_draw. destruct (_ && (b <? 8)); [|done]. pose proof (one_card draws) as H. destruct (getOneCard_player _ _ _ _ _) as [[[[card tag] i] ds]| |]; cbn [mbind Outcome_bind]; [|done..].
  destruct (_ && _ && _); [|done]. pose proof (again_card 200 ds) as H'. destruct (draw_again _ _ _ _ _ _) as [[[[card' tag'] i'] ds']| |]; cbn [mbind Outcome_bind]; done.
Qed.
End Draws.

(** ** The banker's card *)

(** It is not the player's: a card at another place, unless there is none. *)
Lemma banker_card winTag bp pp playerIndex card i vec : let c := getOneCard_banker winTag bp pp playerIndex card i vec in
  (c = card ∧ ∀ j d, vec !! j = Some d → playerIndex = Some (i + j)%nat) ∨ ∃ j, vec !! j = Some c ∧ playerIndex ≠ Some (i + j)%nat.
Proof.
  cbv zeta. revert card i. induction vec as [|d vec IH]; intros card i; cbn [getOneCard_banker]; [by left|]. case_bool_decide as E.
  - destruct (IH card (S i)) as [[-> H]|(j & H1 & H2)].
    + left. split; [done|]. intros [|j] c' Hj; [by rewrite Nat.add_0_r|]. rewrite <- plus_n_Sm. by apply (H j c').
    + right. exists (S j). by rewrite <- plus_n_Sm.
  - destruct (banker_fits _ _ _); [right; exists 0%nat; by rewrite Nat.add_0_r|]. right. destruct (IH d (S i)) as [[-> H]|(j & H1 & H2)]; [exists 0%nat; by rewrite Nat.add_0_r|].
    exists (S j). by rewrite <- plus_n_Sm.
Qed.

Lemma banker_card_in winTag bp pp playerIndex vec : (2 <= length vec)%nat → ∃ j, vec !! j = Some (getOneCard_banker winTag bp pp playerIndex 0 0 vec) ∧ playerIndex ≠ Some j.
Proof.
  intros Hl. destruct (banker_card winTag bp pp playerIndex 0 0 vec) as [[_ H]|H]; [|done]. destruct vec as [|c0 [|c1 vec]]; [simpl in Hl; lia..|].
  pose proof (H 0%nat c0 eq_refl) as H0. pose proof (H 1%nat c1 eq_refl) as H1. rewrite H0 in H1. discriminate H1.
Qed.

Lemma two_cards_places (l : list Z) i j c d : l !! i = Some c → l !! j = Some d → i ≠ j → [d; c] ⊆+ l.
Proof.
  intros Hi Hj Hne. rewrite (delete_Permutation l j d Hj). apply submseteq_skip, singleton_submseteq_l. apply list_elem_of_lookup. destruct (decide (i < j)%nat).
  - exists i. by rewrite list_lookup_delete_lt.
  - exists (pred i). rewrite list_lookup_delete_ge by lia. by replace (S (pred i)) with i by lia.
Qed.

(** The third cards are in what is left of the shoe. *)
Lemma thirds_in (tb : option Z) (drawn : option (Z * nat)) (vec : list Z) :
  (∀ c i, drawn = Some (c, i) → vec !! i = Some c) → (∀ c, tb = Some c → ∃ j, vec !! j = Some c ∧ snd <$> drawn ≠ Some j) →
  option_list tb ++ option_list (fst <$> drawn) ⊆+ vec.
Proof.
  intros Hd Hb. destruct tb as [c|], drawn as [[d i]|]; cbn.
  - destruct (Hb c eq_refl) as (j & Hj & Hne). pose proof (Hd d i eq_refl). apply (two_cards_places vec i j); [done..|]. intros ->. by apply Hne.
  - destruct (Hb c eq_refl) as (j & Hj & _). apply singleton_submseteq_l. by apply (list_elem_of_lookup_2 _ j).
  - apply singleton_submseteq_l. apply (list_elem_of_lookup_2 _ i). by apply Hd.
  - apply submseteq_nil_l.
Qed.

(** ** The whole step *)

(** [s'] is [s] after the third cards. *)
Record repaired (s s' : Shoe) (b p : list Z) (tb tp : option Z) : Prop := {
  rp_banker : hand_cards (banker s') = b ++ option_list tb;
  rp_player : hand_cards (player s') = p ++ option_list tp;
  rp_rules : drawn_by_rules b p tb tp;
  rp_points : m_cbCardPoint (banker s') = pips (b ++ option_list tb) ∧ m_cbCardPoint (player s') = pips (p ++ option_list tp);
  rp_pairs : m_cbCardPair s' = m_cbCardPair s;
  rp_cards : m_CardVecData s ≡ₚ (b ++ option_list tb) ++ (p ++ option_list tp) ++ m_CardVecData s';
  rp_counts : m_cbCardTypeCount s' = m_cbCardTypeCount s;
  rp_cut : m_nCutCardId s' = m_nCutCardId s;
  rp_left : m_nLeftCardCount s' = m_nLeftCardCount s - Z.of_nat (length (option_list tb ++ option_list tp));
  rp_sent : m_nSendCardIndex s' = m_nSendCardIndex s + Z.of_nat (length (option_list tb ++ option_list tp))
}.

(** The numbers the code compares are the points of the rules. *)
Lemma rules_apply (b p : list Z) (drawn : option (Z * nat)) (cb : Z) :
  (if (pips p <=? 5) && (pips b <? 8) then ∃ card i, drawn = Some (card, i) else drawn = None) →
  drawn_by_rules b p
    (if (pips p <? 8) && (pips b <? 8) && banker_draws (pips b) (match drawn with Some _ => 3 | None => 2 end) (match drawn with Some (card, _) => GetCardPip card | None => 0 end) then Some cb else None)
    (fst <$> drawn).
Proof.
  pose proof (pips_range b). pose proof (pips_range p). unfold drawn_by_rules. intros Hd. destruct (Z.leb_spec 8 (pips b)) as [Hb|Hb]; cbn [orb].
  { rewrite (proj2 (Z.ltb_ge (pips b) 8)) in * by lia. rewrite andb_false_r in *. by rewrite Hd. }
  rewrite (proj2 (Z.ltb_lt (pips b) 8)) in * by lia. rewrite !andb_true_r in *. destruct (Z.leb_spec 8 (pips p)) as [Hp|Hp].
  { rewrite (proj2 (Z.ltb_ge (pips p) 8)) by lia. cbn [andb]. rewrite (proj2 (Z.leb_gt (pips p) 5)) in Hd by lia. by rewrite Hd. }
  rewrite (proj2 (Z.ltb_lt (pips p) 8)) by lia. cbn [andb].
  pose proof (stands_tableau (pips b) (pips p)) as Hs. destruct (Z.leb_spec (pips p) 5) as [Hp5|Hp5].
  - destruct Hd as (card & i & ->). change (GetCardPip <$> (fst <$> Some (card, i))) with (Some (GetCardPip card)). rewrite <- Hs by (try apply pip_range; lia). split; [split; [done|by eexists]|]. destruct (banker_draws _ _ _); split; try done; by intros [? ?].
  - subst drawn. change (GetCardPip <$> (fst <$> @None (Z * nat))) with (@None Z). rewrite <- (Hs 0) by lia. split; [split; [by intros [? ?]|lia]|]. destruct (banker_draws _ _ _); split; try done; by intros [? ?].
Qed.

(** The table with the third cards on it. *)
Definition laid (s : Shoe) (rest : list Z) (b0 b1 p0 p1 : Z) (tb tp : option Z) : Shoe :=
  let thirds := option_list tb ++ option_list tp in
  MkShoe (eraseVecCard thirds rest) (m_cbCardTypeCount s) (m_nSendCardIndex s + Z.of_nat (length thirds)) (m_nLeftCardCount s - Z.of_nat (length thirds)) (m_nCutCardId s)
    (MkHand [b0; b1; default 0 tb] (2 + length (option_list tb)) (pips ([b0; b1] ++ option_list tb)))
    (MkHand [p0; p1; default 0 tp] (2 + length (option_list tp)) (pips ([p0; p1] ++ option_list tp))) (m_cbCardPair s).

Lemma laid_repaired s rest b0 b1 p0 p1 tb tp : m_CardVecData s ≡ₚ [b0; p0; b1; p1] ++ rest → option_list tb ++ option_list tp ⊆+ rest → drawn_by_rules [b0; b1] [p0; p1] tb tp →
  repaired s (laid s rest b0 b1 p0 p1 tb tp) [b0; b1] [p0; p1] tb tp.
Proof.
  intros Hp Hsub Hr. split; try done; [by destruct tb|by destruct tp|]. rewrite Hp. cbn [laid m_CardVecData]. rewrite (eraseVecCard_perm _ _ Hsub) at 1.
  apply (Permutation_count_occ Z.eq_dec). intros c. rewrite !count_occ_app. cbn [count_occ]. repeat destruct (Z.eq_dec _ c); lia.
Qed.

(** What remains of the shoe. *)
Definition left_cards (s : Shoe) : list Z := eraseVecCard (two_each s) (m_CardVecData s).

Lemma dealt_cards s : dealt s → ∃ b0 b1 p0 p1, banker s = MkHand [b0; b1; 0] 2 (m_cbCardPoint (banker s)) ∧ player s = MkHand [p0; p1; 0] 2 (m_cbCardPoint (player s)) ∧
  two_each s = [b0; p0; b1; p1] ∧ hand_cards (banker s) = [b0; b1] ∧ hand_cards (player s) = [p0; p1] ∧ m_CardVecData s ≡ₚ two_each s ++ left_cards s.
Proof.
  intros [(b0 & b1 & Eb) (p0 & p1 & Ep) _ Hsub]. exists b0, b1, p0, p1. split; [done|]. split; [done|]. assert (two_each s = [b0; p0; b1; p1]) as Et by (unfold two_each; by rewrite Eb, Ep).
  assert (hand_cards (banker s) = [b0; b1]) as Hb by by rewrite Eb. assert (hand_cards (player s) = [p0; p1]) as Hp by by rewrite Ep. split_and!; try done.
  apply eraseVecCard_perm. rewrite Et. rewrite Hb, Hp in Hsub. etransitivity; [|exact Hsub]. apply Permutation_submseteq, (Permutation_count_occ Z.eq_dec). intros c.
  cbn [app count_occ]. repeat destruct (Z.eq_dec _ c); lia.
Qed.

Section Repair.
Context (winFlag : Z) (s : Shoe) (Hs : stocked s) (Hd : dealt s).

Lemma shoe_length : length (m_CardVecData s) = (4 + length (left_cards s))%nat.
Proof. destruct (dealt_cards s Hd) as (? & ? & ? & ? & _ & _ & E & _ & _ & Hp). rewrite (Permutation_length Hp), length_app, E. done. Qed.

Lemma left_valid : Forall card (left_cards s).
Proof. destruct (dealt_cards s Hd) as (? & ? & ? & ? & _ & _ & _ & _ & _ & Hp). pose proof (st_cards _ Hs) as H. rewrite Hp in H. by apply Forall_app in H as [_ H]. Qed.

(** The step in terms of the points of the hands. *)
Lemma repair_draws draws : JudgmentRepairCard winFlag draws s =
  ('(drawn, draws) ← player_draw winFlag (pips (hand_cards (banker s))) (pips (hand_cards (player s))) (left_cards s) draws;
   Ret (after_player winFlag (pips (hand_cards (banker s))) (pips (hand_cards (player s))) (left_cards s) drawn (s <| m_CardVecData := left_cards s |>), draws)).
Proof.
  destruct (dealt_cards s Hd) as (b0 & b1 & p0 & p1 & Eb & Ep & Et & _ & _ & Hp). unfold JudgmentRepairCard. change (s <| m_CardVecData ::= eraseVecCard (two_each s) |>) with (s <| m_CardVecData := left_cards s |>).
  assert (forallb IsCardValid (two_each s) = true) as ->.
  { apply forallb_forall. intros c Hc. pose proof (st_cards _ Hs) as H. rewrite Hp in H. apply Forall_app in H as [H _]. by apply card_valid, (proj1 (Forall_forall _ _) H), list_elem_of_In. }
  cbn [check mbind Outcome_bind]. rewrite more_cards_all by by apply (stocked_less s _ (two_each s)). by rewrite !hand_point_pips.
Qed.

(** Nothing of it is left to the order of the steps. *)
Lemma after_lays b0 b1 p0 p1 dr cb third : banker s = MkHand [b0; b1; 0] 2 (m_cbCardPoint (banker s)) → player s = MkHand [p0; p1; 0] 2 (m_cbCardPoint (player s)) →
  third = match dr with Some (card, _) => GetCardPip card | None => 0 end →
  cb = getOneCard_banker winFlag (pips [b0; b1]) ((pips [p0; p1] + third) mod 10) (snd <$> dr) 0 0 (left_cards s) →
  after_player winFlag (pips [b0; b1]) (pips [p0; p1]) (left_cards s) dr (s <| m_CardVecData := left_cards s |>) =
  laid s (left_cards s) b0 b1 p0 p1
    (if (pips [p0; p1] <? 8) && (pips [b0; b1] <? 8) && banker_draws (pips [b0; b1]) (match dr with Some _ => 3 | None => 2 end) third then Some cb else None) (fst <$> dr).
Proof.
  intros Eb Ep -> Ec. unfold after_player. rewrite <- Ec. clear Ec Hs Hd. generalize (left_cards s). intros rest. destruct s as [cards counts sent left cut bk pl pr]. cbn in Eb, Ep. generalize dependent (m_cbCardPoint bk). generalize dependent (m_cbCardPoint pl). intros pp Ep pb Eb. subst bk pl.
  destruct dr as [[card i]|]; cbn [fmap option_fmap option_map fst m_cbCardCount player third_card set_field]; (match goal with |- context [banker_draws ?b ?n ?t] => destruct (_ && _ && banker_draws b n t) eqn:E end);
    rewrite ?E; cbv -[pips hand_point erase_card IsCardValid Z.add Z.sub Z.succ Z.pred]; change (IsCardValid 0) with false; cbv iota; try destruct (IsCardValid card); try destruct (IsCardValid cb);
    rewrite !hand_point_pips; f_equal; first [reflexivity|lia].
Qed.

Lemma repair_lays draws : (6 <= length (m_CardVecData s))%nat →
  match JudgmentRepairCard winFlag draws s with
  | Ret (s', _) => ∃ tb tp, repaired s s' (hand_cards (banker s)) (hand_cards (player s)) tb tp
  | Waits => True
  | Bad => False
  end.
Proof.
  intros H6. pose proof shoe_length as Hl. rewrite repair_draws. destruct (dealt_cards s Hd) as (b0 & b1 & p0 & p1 & Eb & Ep & Et & -> & -> & Hp). rewrite Et in Hp.
  assert (left_cards s ≠ []) as Hne by (intros E; rewrite E in Hl; simpl in Hl; lia). pose proof (player_draws winFlag (pips [b0; b1]) (pips [p0; p1]) (left_cards s) Hne draws) as Hdr.
  destruct (player_draw _ _ _ _ _) as [[dr ds]| |]; cbn [mbind Outcome_bind]; [|exact I|exact Hdr].
  rewrite (after_lays b0 b1 p0 p1 dr _ _ Eb Ep eq_refl eq_refl). set (third := match dr with Some (card, _) => GetCardPip card | None => 0 end).
  pose proof (banker_card_in winFlag (pips [b0; b1]) ((pips [p0; p1] + third) mod 10) (snd <$> dr) (left_cards s) ltac:(lia)) as Hb. set (cb := getOneCard_banker _ _ _ _ _ _ _) in *.
  do 2 eexists. apply laid_repaired; [done| |].
  - apply thirds_in; [intros c i ->; by destruct Hdr as (_ & Hdr & _)|]. intros c Hc. destruct (_ && _ && _); [injection Hc as <-|]; done.
  - apply rules_apply. destruct dr as [[card i]|]; [destruct Hdr as [-> _]; eauto|by rewrite Hdr].
Qed.
End Repair.
