(* ===== verification/BaccaratRounds.v ===== *)
(** Baccarat, the rounds of a shoe: no assertion and no index fails, the cards of a round
    leave the shoe, and a player's third card is found exactly when the shoe has one. *)
From stdpp Require Import base option list numbers sorting.
From Stdlib Require Import ZArith Lia.
From S2P Require Import Prelude Baccarat BaccaratShoe BaccaratThird.

#[local] Open Scope Z_scope.

(** ** Counting what is dealt *)

Lemma count_cards_ok l s : Forall card l → length (m_cbCardTypeCount s) = 52%nat → (∀ c, card c → (m_cbCardTypeCount s).[type_index c] + Z.of_nat (occ c l) <= 8) →
  ∃ counts, count_cards l s = Ret (s <| m_cbCardTypeCount := counts |>) ∧ length counts = 52%nat ∧ ∀ c, card c → counts.[type_index c] = (m_cbCardTypeCount s).[type_index c] + Z.of_nat (occ c l).
Proof.
  revert s. induction l as [|d l IH]; intros s Hl Hn Hc.
  { exists (m_cbCardTypeCount s). split; [by destruct s|]. split; [done|]. intros c _. cbn. lia. }
  apply Forall_cons in Hl as [Hd Hl]. cbn [count_cards]. unfold count_card. destruct (card_facts d Hd) as (_ & -> & Hi).
  set (counts1 := alter Z.succ (type_index d) (m_cbCardTypeCount s)). change (s <| m_cbCardTypeCount ::= alter Z.succ (type_index d) |>) with (s <| m_cbCardTypeCount := counts1 |>).
  assert (∀ c, card c → counts1.[type_index c] = (m_cbCardTypeCount s).[type_index c] + Z.of_nat (occ c [d])) as H1.
  { intros c Hcc. unfold counts1, aget, occ. cbn [count_occ]. destruct (Z.eq_dec d c) as [->|Hne].
    - rewrite list_lookup_alter. destruct (lookup_lt_is_Some_2 (m_cbCardTypeCount s) (type_index c)) as [x ->]; [by rewrite Hn|]. rewrite decide_True by done. cbn. lia.
    - rewrite list_lookup_alter_ne by (intros E; by apply Hne, type_index_inj). lia. }
  pose proof (H1 d Hd) as Hd1. pose proof (Hc d Hd) as Hd2. unfold occ in Hd1, Hd2. cbn [count_occ] in Hd1, Hd2. destruct (Z.eq_dec d d); [|done].
  change (m_cbCardTypeCount (s <| m_cbCardTypeCount := counts1 |>)) with counts1. rewrite (proj2 (Z.leb_le _ _)) by lia. cbn [check mbind Outcome_bind].
  destruct (IH (s <| m_cbCardTypeCount := counts1 |>)) as (counts & E & Hn' & Hcs); [done|change (length counts1 = 52%nat); unfold counts1; by rewrite length_alter| |].
  - intros c Hcc. change (counts1.[type_index c] + Z.of_nat (occ c l) <= 8). rewrite H1 by done. pose proof (Hc c Hcc) as H. unfold occ in *. cbn [count_occ] in *. destruct (Z.eq_dec d c); lia.
  - exists counts. split; [exact E|]. split; [done|]. intros c Hcc. rewrite (Hcs c Hcc). change (m_cbCardTypeCount (s <| m_cbCardTypeCount := counts1 |>)) with counts1. rewrite H1 by done.
    unfold occ. cbn [count_occ]. destruct (Z.eq_dec d c); lia.
Qed.

(** ** A round *)

Lemma consistent_stocked s : consistent s → stocked s.
Proof. by intros [? ? ? _ _]. Qed.

(** [s'] is [s] after a round. *)
Record played (s s' : Shoe) : Prop := {
  pd_shoe : consistent s';
  pd_cut : m_nCutCardId s' = m_nCutCardId s;
  pd_cards : m_CardVecData s ≡ₚ hand_cards (banker s') ++ hand_cards (player s') ++ m_CardVecData s';
  pd_hands : ∃ b p tb tp, hand_cards (banker s') = b ++ option_list tb ∧ hand_cards (player s') = p ++ option_list tp ∧ length b = 2%nat ∧ length p = 2%nat ∧ drawn_by_rules b p tb tp ∧
    m_cbCardPair s' = [IsCardPairOf b p 2 ID_HEPAIR; IsCardPairOf b p 2 ID_BANKERPAIR; IsCardPairOf b p 2 ID_PLAYERPAIR];
  pd_points : m_cbCardPoint (banker s') = pips (hand_cards (banker s')) ∧ m_cbCardPoint (player s') = pips (hand_cards (player s'))
}.

Lemma counted s s2 s3 tb tp b0 b1 p0 p1 : consistent s → dealt s2 → m_CardVecData s2 = m_CardVecData s → m_cbCardTypeCount s2 = m_cbCardTypeCount s →
  m_nSendCardIndex s2 = 4 + m_nSendCardIndex s → m_nLeftCardCount s2 = m_nLeftCardCount s - 4 → m_nCutCardId s2 = m_nCutCardId s →
  hand_cards (banker s2) = [b0; b1] → hand_cards (player s2) = [p0; p1] → repaired s2 s3 (hand_cards (banker s2)) (hand_cards (player s2)) tb tp →
  ∃ s', JudgmentIsValidCard s3 = Ret s' ∧ played s s'.
Proof.
  intros [C1 C2 C3 C4 C5] Hd2 F1 F2 F3 F4 F5 Hb Hp [R1 R2 R3 R4 R5 R6 R7 R8 R9 R10]. unfold JudgmentIsValidCard. rewrite Hb in *. rewrite Hp in *. rewrite R1, R2.
  set (dealt := ([b0; b1] ++ option_list tb) ++ ([p0; p1] ++ option_list tp)) in *.
  assert (m_CardVecData s ≡ₚ dealt ++ m_CardVecData s3) as Hdealt by (rewrite <- F1; unfold dealt; by rewrite <- app_assoc).
  assert (m_cbCardTypeCount s3 = m_cbCardTypeCount s) as Hcnt by by rewrite R7.
  assert (Forall card dealt ∧ Forall card (m_CardVecData s3)) as [G1 G2] by (rewrite Hdealt in C1; by apply Forall_app in C1).
  destruct (count_cards_ok dealt s3) as (counts & -> & Hn & Hc); [done|by rewrite Hcnt| |].
  { intros c Hcc. pose proof (C3 c Hcc) as H. rewrite (occ_perm c _ _ Hdealt), occ_app in H. rewrite Hcnt. lia. }
  eexists. split; [done|]. pose proof (Permutation_length Hdealt) as Hl. rewrite length_app in Hl.
  assert (length dealt = 4 + length (option_list tb ++ option_list tp))%nat as Hd by (unfold dealt; rewrite !length_app; simpl; lia). split.
  - split; [exact G2|exact Hn| | |].
    + intros c Hcc. change (counts.[type_index c] + Z.of_nat (occ c (m_CardVecData s3)) <= 8). rewrite (Hc c Hcc), Hcnt. pose proof (C3 c Hcc) as H. rewrite (occ_perm c _ _ Hdealt), occ_app in H. lia.
    + change (m_nLeftCardCount s3 = Z.of_nat (length (m_CardVecData s3))). lia.
    + change (m_nSendCardIndex s3 + m_nLeftCardCount s3 = Z.of_nat MAX_CARDS). lia.
  - change (m_nCutCardId s3 = m_nCutCardId s). by rewrite R8.
  - change (m_CardVecData s ≡ₚ hand_cards (banker s3) ++ hand_cards (player s3) ++ m_CardVecData s3). rewrite R1, R2. unfold dealt in Hdealt. by rewrite app_assoc.
  - exists [b0; b1], [p0; p1], tb, tp. split_and!; try done. change (m_cbCardPair s3 = [IsCardPairOf [b0; b1] [p0; p1] 2 ID_HEPAIR; IsCardPairOf [b0; b1] [p0; p1] 2 ID_BANKERPAIR; IsCardPairOf [b0; b1] [p0; p1] 2 ID_PLAYERPAIR]).
    by rewrite R5, (dl_pairs _ Hd2), Hb, Hp.
  - change (m_cbCardPoint (banker s3) = pips (hand_cards (banker s3)) ∧ m_cbCardPoint (player s3) = pips (hand_cards (player s3))). by rewrite R1, R2.
Qed.

(** The four cards of a round are found and counted off. *)
Lemma round_deals winFlag cardPair rets s : is_flag winFlag = true → consistent s → (6 <= length (m_CardVecData s))%nat →
  ∃ s1 s2, GetOpenCards_hands winFlag cardPair rets (clear_cards s) = Ret s1 ∧ s2 = s1 <| m_nSendCardIndex ::= Z.add 4 |> <| m_nLeftCardCount ::= λ n, n - 4 |> ∧ stocked s2 ∧ dealt s2 ∧
    m_CardVecData s2 = m_CardVecData s ∧ m_cbCardTypeCount s2 = m_cbCardTypeCount s ∧ m_nSendCardIndex s2 = 4 + m_nSendCardIndex s ∧
    m_nLeftCardCount s2 = m_nLeftCardCount s - 4 ∧ m_nCutCardId s2 = m_nCutCardId s.
Proof.
  intros Hw Hs H6. set (s0 := clear_cards s). assert (stocked s0) as Hs0 by (apply (stocked_same s); [done..|by apply consistent_stocked]).
  destruct (hands_deal winFlag cardPair rets s0 Hw Hs0) as (s1 & -> & (E1 & E2 & E3 & E4 & E5) & _ & Hd); [change (4 <= length (m_CardVecData s))%nat; lia|done|].
  exists s1. eexists. split; [done|]. split; [reflexivity|]. split; [apply (stocked_same s); [exact E1|exact E2|by apply consistent_stocked]|]. split; [by destruct Hd; split|].
  split; [exact E1|]. split; [exact E2|]. split; [change (4 + m_nSendCardIndex s1 = 4 + m_nSendCardIndex s); by rewrite E3|].
  split; [change (m_nLeftCardCount s1 - 4 = m_nLeftCardCount s - 4); by rewrite E4|exact E5].
Qed.

Lemma round_ok winFlag cardPair rets draws s : is_flag winFlag = true → consistent s → (6 <= length (m_CardVecData s))%nat →
  match GetOpenCards winFlag cardPair rets draws s with
  | Ret (s', _) => played s s'
  | Waits => True
  | Bad => False
  end.
Proof.
  intros Hw Hs H6. unfold GetOpenCards. destruct (round_deals winFlag cardPair rets s Hw Hs H6) as (s1 & s2 & -> & E & Hs2 & Hd2 & F1 & F2 & F3 & F4 & F5). cbn [mbind Outcome_bind]. rewrite <- E.
  destruct (dealt_cards s2 Hd2) as (b0 & b1 & p0 & p1 & _ & _ & _ & Hb & Hp & _). pose proof (repair_lays winFlag s2 Hs2 Hd2 draws ltac:(by rewrite F1)) as Hr.
  destruct (JudgmentRepairCard winFlag draws s2) as [[s3 ds]| |]; cbn [mbind Outcome_bind]; [|exact I|exact Hr]. destruct Hr as (tb & tp & Hr).
  by destruct (counted s s2 s3 tb tp b0 b1 p0 p1 Hs Hd2 F1 F2 F3 F4 F5 Hb Hp Hr) as (s' & -> & H).
Qed.

(** ** The shoe *)

Lemma table_card_counts c : card c → (occ c m_cbTableCard <= 8)%nat.
Proof. intros H. assert (Forall (λ c, (occ c m_cbTableCard <= 8)%nat) pack) as F by by_decide. exact (proj1 (Forall_forall _ _) F c H). Qed.

Lemma burns n s : consistent s → (n <= length (m_CardVecData s))%nat →
  ∃ s', burn n s = Ret s' ∧ consistent s' ∧ m_nCutCardId s' = m_nCutCardId s ∧ (length (m_CardVecData s') + n = length (m_CardVecData s))%nat.
Proof.
  revert s. induction n as [|n IH]; intros s Hs Hn; [exists s; split; [done|]; split; [done|]; split; [done|lia]|]. destruct Hs as [C1 C2 C3 C4 C5]. cbn [burn].
  destruct (m_CardVecData s) as [|c l] eqn:E; [simpl in Hn; lia|]. set (s1 := s <| m_CardVecData := l |> <| m_nSendCardIndex ::= Z.succ |> <| m_nLeftCardCount ::= Z.pred |>).
  destruct (IH s1) as (s' & -> & Hs' & Hcut & Hl); [|change (n <= length l)%nat; simpl in Hn; lia|].
  - simpl in C4. split; [by apply Forall_cons in C1 as [_ C1]|done| | |].
    + intros d Hd. pose proof (C3 d Hd) as H. unfold occ in H. cbn [count_occ] in H. change ((m_cbCardTypeCount s).[type_index d] + Z.of_nat (count_occ Z.eq_dec l d) <= 8). destruct (Z.eq_dec c d); lia.
    + change (Z.pred (m_nLeftCardCount s) = Z.of_nat (length l)). lia.
    + change (Z.succ (m_nSendCardIndex s) + Z.pred (m_nLeftCardCount s) = Z.of_nat MAX_CARDS). lia.
  - exists s'. split; [done|]. split; [done|]. split; [done|]. change (m_CardVecData s1) with l in Hl. simpl. lia.
Qed.

(** A shoe a round may be played from. *)
Definition ready (s : Shoe) : Prop := consistent s ∧ (6 <= length (m_CardVecData s))%nat ∧ 5 <= m_nCutCardId s.

Lemma new_shoe_ready cards cut first s : cards ≡ₚ m_cbTableCard → 5 <= cut → (first <= 410)%nat → ∃ s', new_shoe cards cut first s = Ret s' ∧ ready s'.
Proof.
  intros Hp Hcut Hf. pose proof (Permutation_length Hp) as Hl. change (length m_cbTableCard) with 416%nat in Hl. unfold new_shoe. set (s1 := _ <| m_cbCardTypeCount := _ |>).
  assert (consistent s1) as Hs1.
  { split; [change (Forall card cards); rewrite Hp; by_decide|done| |change (416 = Z.of_nat (length cards)); lia|done].
    intros c Hc. change ((replicate 52 0).[type_index c] + Z.of_nat (occ c cards) <= 8). pose proof (table_card_counts c Hc) as Ho. rewrite (occ_perm c _ _ Hp).
    destruct (card_facts c Hc) as (_ & _ & Hi). unfold aget. rewrite lookup_replicate_2 by done. change (default 0 (Some 0)) with 0. lia. }
  destruct (burns first s1 Hs1) as (s' & E & Hs' & Hc & Hn); [change (first <= length cards)%nat; lia|]. exists s'. split; [exact E|]. split; [done|]. change (m_CardVecData s1) with cards in Hn. split; [lia|]. by rewrite Hc.
Qed.

(** What the shuffles of the rounds are, and that the result wanted is one there is. *)
Definition fair_round (r : Round) : Prop := r_cards r ≡ₚ m_cbTableCard ∧ 5 <= r_cut r ∧ is_flag (r_winFlag r) = true.

Lemma next_ready first r s s' : (first <= 410)%nat → fair_round r → ready s → played s s' → ∃ s'', next_shoe (r_cards r) (r_cut r) first s' = Ret s'' ∧ ready s''.
Proof.
  intros Hf (Hc & Hcut & _) (_ & _ & H5) [P1 P2 _ _ _]. unfold next_shoe. change (m_nLeftCardCount (clear_cards s')) with (m_nLeftCardCount s'). change (m_nCutCardId (clear_cards s')) with (m_nCutCardId s').
  destruct (Z.leb_spec (m_nLeftCardCount s') (m_nCutCardId s')) as [H|H]; [by apply new_shoe_ready|]. eexists. split; [done|]. destruct P1 as [C1 C2 C3 C4 C5]. split; [by split|].
  change (m_CardVecData (clear_cards s')) with (m_CardVecData s'). change (m_nCutCardId (clear_cards s')) with (m_nCutCardId s'). lia.
Qed.

Lemma rounds_ok first l s : (first <= 410)%nat → Forall fair_round l → ready s →
  match play_rounds first l s with Ret s' => ready s' | Waits => True | Bad => False end.
Proof.
  intros Hf. revert s. induction l as [|r l IH]; intros s Hl Hs; cbn [play_rounds]; [done|]. apply Forall_cons in Hl as [Hr Hl]. unfold play_round. pose proof Hs as (C & H6 & _).
  pose proof (round_ok (r_winFlag r) (r_cardPair r) (r_rets r) (r_draws r) s (proj2 (proj2 Hr)) C H6) as H. destruct (GetOpenCards _ _ _ _ _) as [[s1 ds]| |]; cbn [mbind Outcome_bind]; [|exact I|exact H].
  destruct (next_ready first r s s1 Hf Hr Hs H) as (s2 & -> & Hs2). cbn [mbind Outcome_bind]. by apply IH.
Qed.

(** ** The search for the player's card *)

Section Search.
Context (winFlag b p : Z) (vec : list Z) (Hv : vec ≠ []).

(** A card the house lets the player have. *)
Definition wanted (c : Z) : bool := IsCardValid c && player_fits winFlag ((p + GetCardPip c) mod 10).

Lemma never_found draws : Forall (λ c, wanted c = false) vec → getOneCard_player winFlag b p vec draws = Waits.
Proof.
  intros H. induction draws as [|r draws IH]; cbn [getOneCard_player]; [done|]. assert (r mod length vec < length vec)%nat as Hi by (apply Nat.mod_upper_bound; by destruct vec).
  destruct (lookup_lt_is_Some_2 vec _ Hi) as [card E]. rewrite E. pose proof (proj1 (Forall_lookup _ _) H _ _ E) as Hw. cbn in Hw. unfold wanted in Hw. by rewrite Hw.
Qed.

Context (k : nat) (c : Z) (Hk : vec !! k = Some c) (Hc : wanted c = true).

(** Draws of [k] end the search; those that are not used stay. *)
Lemma found_at_last m draws : ∃ card tag i draws' m', getOneCard_player winFlag b p vec (draws ++ replicate (S m) k) = Ret (card, tag, i, draws' ++ replicate m' k) ∧ (m <= m')%nat.
Proof.
  induction draws as [|r draws IH].
  - cbn [app replicate getOneCard_player]. rewrite Nat.mod_small by (by eapply lookup_lt_Some). rewrite Hk. unfold wanted in Hc. rewrite Hc. exists c, (wins b ((p + GetCardPip c) mod 10)), k, [], m. by split.
  - cbn [app getOneCard_player]. assert (r mod length vec < length vec)%nat as Hi by (apply Nat.mod_upper_bound; by destruct vec).
    destruct (lookup_lt_is_Some_2 vec _ Hi) as [card E]. rewrite E. destruct (_ && _); [|exact IH]. do 3 eexists. exists draws, (S m). split; [done|lia].
Qed.

Lemma again_at_last n m draws : (n <= m)%nat → ∃ r, draw_again n winFlag b p vec (draws ++ replicate (S m) k) = Ret r.
Proof.
  revert m draws. induction n as [|n IH]; intros m draws Hm; cbn [draw_again]; destruct (found_at_last m draws) as (card & tag & i & draws' & m' & -> & Hm'); cbn [mbind Outcome_bind]; [by eexists|].
  destruct (_ || _); [by eexists|]. destruct m' as [|m']; [lia|]. apply IH. lia.
Qed.

Lemma player_at_last draws : ∃ r, player_draw winFlag b p vec (draws ++ replicate 202 k) = Ret r.
Proof.
  unfold player_draw. destruct (_ && (b <? 8)); [|by eexists]. destruct (found_at_last 201 draws) as (card & tag & i & draws' & m' & -> & Hm'). cbn [mbind Outcome_bind].
  destruct (_ && _ && _); [|by eexists]. destruct m' as [|m']; [lia|]. destruct (again_at_last 200 m' draws') as ([[[card' tag'] i'] ds] & ->); [lia|]. by eexists.
Qed.
End Search.

(** No card of the shoe is one the house lets the player draw. *)
Definition player_stuck (winFlag : Z) (s : Shoe) : bool :=
  let p := pips (hand_cards (player s)) in
  (p <=? 5) && (pips (hand_cards (banker s)) <? 8) && forallb (λ c, negb (wanted winFlag p c)) (left_cards s).

Lemma stuck_waits winFlag s draws : stocked s → dealt s → left_cards s ≠ [] → player_stuck winFlag s = true → JudgmentRepairCard winFlag draws s = Waits.
Proof.
  intros Hs Hd Hne [Hpb Hf]%andb_true_iff. rewrite (repair_draws winFlag s Hs Hd). unfold player_draw. rewrite Hpb, never_found; [done..|].
  apply Forall_forall. intros c Hc. rewrite forallb_forall in Hf. apply negb_true_iff, Hf. by apply list_elem_of_In.
Qed.

Lemma free_ends winFlag s draws : stocked s → dealt s → left_cards s ≠ [] → player_stuck winFlag s = false →
  ∃ more s' ds, JudgmentRepairCard winFlag (draws ++ more) s = Ret (s', ds).
Proof.
  intros Hs Hd Hne Hf. set (p := pips (hand_cards (player s))). set (b := pips (hand_cards (banker s))).
  assert (∃ more r, player_draw winFlag b p (left_cards s) (draws ++ more) = Ret r) as (more & [dr ds] & E).
  { unfold player_stuck in Hf. apply andb_false_iff in Hf as [Hf|Hf]; [unfold player_draw, p, b; rewrite Hf; exists []; by eexists|].
    destruct (existsb (wanted winFlag p) (left_cards s)) eqn:Ee.
    2: { assert (forallb (λ c, negb (wanted winFlag p c)) (left_cards s) = true) as Ha; [|unfold p in Ha; by rewrite Ha in Hf].
         apply forallb_forall. intros c Hc. destruct (wanted winFlag p c) eqn:Ew; [|done]. assert (existsb (wanted winFlag p) (left_cards s) = true); [|congruence]. apply existsb_exists. by exists c. }
    apply existsb_exists in Ee as (c & [k Hk]%list_elem_of_In%list_elem_of_lookup & Hc).
    exists (replicate 202 k). by apply (player_at_last winFlag b p (left_cards s) Hne k c). }
  exists more. rewrite (repair_draws winFlag s Hs Hd). fold p b. rewrite E. by do 2 eexists.
Qed.

(** A whole round waits for ever or can be ended. *)
Lemma round_waits winFlag cardPair rets s : is_flag winFlag = true → consistent s → (6 <= length (m_CardVecData s))%nat → ∃ s1, GetOpenCards_hands winFlag cardPair rets (clear_cards s) = Ret s1 ∧
  if player_stuck winFlag s1 then ∀ draws, GetOpenCards winFlag cardPair rets draws s = Waits
  else ∀ draws, ∃ more s' ds, GetOpenCards winFlag cardPair rets (draws ++ more) s = Ret (s', ds).
Proof.
  intros Hw Hs H6. unfold GetOpenCards. destruct (round_deals winFlag cardPair rets s Hw Hs H6) as (s1 & s2 & -> & E & Hs2 & Hd2 & F1 & F2 & F3 & F4 & F5). exists s1. split; [done|]. cbn [mbind Outcome_bind]. rewrite <- E.
  assert (left_cards s2 ≠ []) as Hne by (pose proof (shoe_length s2 Hd2) as Hl; rewrite F1 in Hl; destruct (left_cards s2); [simpl in Hl; lia|done]).
  assert (player_stuck winFlag s1 = player_stuck winFlag s2) as -> by by rewrite E.
  destruct (player_stuck winFlag s2) eqn:Ep; intros draws; [by rewrite (stuck_waits winFlag s2 draws)|].
  destruct (free_ends winFlag s2 draws Hs2 Hd2 Hne Ep) as (more & s3 & ds & Er). exists more. pose proof (repair_lays winFlag s2 Hs2 Hd2 (draws ++ more) ltac:(by rewrite F1)) as Hr. rewrite Er in Hr |- *.
  destruct Hr as (tb & tp & Hr). cbn [mbind Outcome_bind]. destruct (dealt_cards s2 Hd2) as (b0 & b1 & p0 & p1 & _ & _ & _ & Hb & Hp & _).
  destruct (counted s s2 s3 tb tp b0 b1 p0 p1 Hs Hd2 F1 F2 F3 F4 F5 Hb Hp Hr) as (s' & -> & _). by do 2 eexists.
Qed.
