(* ===== verification/BaccaratProps.v ===== *)
(** Baccarat, what the choice of a result and the dealing of a shoe are worth. *)
From stdpp Require Import base option list numbers sorting.
From Stdlib Require Import ZArith Lia.
From S2P Require Import Prelude Baccarat BaccaratChoice BaccaratTries BaccaratShoe BaccaratThird BaccaratRounds.

#[local] Open Scope Z_scope.

(** ** A shoe for examples *)

Module DemoShoe.
(** The packs as they come, six cards taken away, the cut at a hundred. *)
Definition shoe : Shoe := match new_shoe m_cbTableCard 100 6 no_shoe with Ret s => s | _ => no_shoe end.
Lemma shoe_ready : ready shoe.
Proof. destruct (new_shoe_ready m_cbTableCard 100 6 no_shoe) as (s & E & H); [done|lia|lia|]. unfold shoe. by rewrite E. Qed.
Definition draws : list nat := [20; 30; 45; 3; 66; 77]%nat.
Definition round : Round := MkRound 1 [0; 0; 0] (λ _, 600) draws m_cbTableCard 120.
(** Doubles 9, 2 and 12, and a stock with a user's bets on the tie and on the banker. *)
Definition stock : Algo :=
  MkAlgo 10000 1000 3000 (of_int 0) 100 0 1 0 [60; 5000; 0; 0; 0; 0] (map of_int [9; 2; 2; 26; 12; 12]) 0.
(** Little is left, most of it tens. *)
Definition tens : Shoe :=
  MkShoe ([2; 3; 10; 5] ++ replicate 6 10) (replicate 52 0) 406 10 5 no_hand no_hand [0; 0; 0].
Lemma tens_consistent : consistent tens.
Proof.
  split; [by_decide|done| |done|done]. intros c Hc.
  assert (Forall (λ c, (m_cbCardTypeCount tens).[type_index c] + Z.of_nat (occ c (m_CardVecData tens)) <= 8) pack) as F by by_decide. exact (proj1 (Forall_forall _ _) F c Hc).
Qed.
End DemoShoe.

(** ** Claims *)

(** C7. A round of baccarat is dealt by the rules, whichever of the three results the house wants, whatever
    is drawn: from a shoe of eight packs with six cards or more no assertion and no index
    fails; each hand has two cards and, unless one of them has eight or nine points, the
    player draws a third one with up to five points and the banker by the table of the
    game; the points, the pairs and the counts are those of the cards dealt; and exactly the
    cards dealt leave the shoe. *)
Theorem bac_round winFlag cardPair rets draws s : is_flag winFlag = true → consistent s → (6 <= length (m_CardVecData s))%nat →
  match GetOpenCards winFlag cardPair rets draws s with
  | Ret (s', _) => played s s'
  | Waits => True
  | Bad => False
  end.
Proof. apply round_ok. Qed.

Lemma bac_round_witness : ∃ s', GetOpenCards 1 [0; 0; 0] (λ _, 600) DemoShoe.draws DemoShoe.shoe = Ret (s', tail DemoShoe.draws) ∧ played DemoShoe.shoe s' ∧ m_nWinIndex s' = 1.
Proof.
  destruct DemoShoe.shoe_ready as (Hs & H6 & _). pose proof (bac_round 1 [0; 0; 0] (λ _, 600) DemoShoe.draws DemoShoe.shoe eq_refl Hs H6) as H.
  eexists. split; [vm_compute; reflexivity|]. split; [|vm_compute; reflexivity].
  match goal with |- played _ ?s' => assert (GetOpenCards 1 [0; 0; 0] (λ _, 600) DemoShoe.draws DemoShoe.shoe = Ret (s', tail DemoShoe.draws)) as E by (vm_compute; reflexivity) end.
  rewrite E in H. exact H.
Defined.

(** C11. A table of baccarat deals on and on: whichever of the three results are wanted and whatever is
    drawn, in every sequence of rounds, with the shoe changed beyond the cut, no assertion
    and no index fails; the books of the shoe agree, no card is dealt a ninth time, and
    there are cards for another round. *)
Theorem bac_rounds first cards cut l : cards ≡ₚ m_cbTableCard → 5 <= cut → (first <= 410)%nat → Forall fair_round l →
  ∃ s, new_shoe cards cut first no_shoe = Ret s ∧ match play_rounds first l s with Ret s' => ready s' | Waits => True | Bad => False end.
Proof.
  intros Hp Hcut Hf Hl. destruct (new_shoe_ready cards cut first no_shoe Hp Hcut Hf) as (s & -> & Hs). exists s. split; [done|]. by apply rounds_ok.
Qed.

Lemma bac_rounds_witness : ∃ s', play_rounds 6 [DemoShoe.round; DemoShoe.round] DemoShoe.shoe = Ret s' ∧ ready s' ∧ m_nLeftCardCount s' = 400.
Proof.
  destruct (bac_rounds 6 m_cbTableCard 100 [DemoShoe.round; DemoShoe.round]) as (s & E & H); [done|lia|lia|repeat (apply Forall_cons; split; [by split_and!|]); by apply Forall_nil|].
  assert (DemoShoe.shoe = s) as Es by (unfold DemoShoe.shoe; by rewrite E). rewrite <- Es in H. clear E Es s. eexists. split; [vm_compute; reflexivity|]. split; [|vm_compute; reflexivity].
  match goal with |- ready ?s' => assert (play_rounds 6 [DemoShoe.round; DemoShoe.round] DemoShoe.shoe = Ret s') as E by (vm_compute; reflexivity) end.
  rewrite E in H. exact H.
Defined.

(** C22. In a round for a tie, the banker or the player the two hands are always found.  The player's third card is then drawn
    until it is one the house lets him have, with less than eight points when the banker is
    to win, seven or more when the player is.  If the shoe has no such card the round never
    ends; else every run of draws can still be ended. *)
Theorem bac_third_card winFlag cardPair rets s : is_flag winFlag = true → consistent s → (6 <= length (m_CardVecData s))%nat →
  ∃ s1, GetOpenCards_hands winFlag cardPair rets (clear_cards s) = Ret s1 ∧
  if player_stuck winFlag s1 then ∀ draws, GetOpenCards winFlag cardPair rets draws s = Waits
  else ∀ draws, ∃ more s' ds, GetOpenCards winFlag cardPair rets (draws ++ more) s = Ret (s', ds).
Proof. apply round_waits. Qed.

Lemma bac_third_card_witness : (∀ draws, GetOpenCards 2 [0; 0; 0] (λ _, 0) draws DemoShoe.tens = Waits) ∧
  ∀ draws, ∃ more s' ds, GetOpenCards 2 [0; 0; 0] (λ _, 600) (draws ++ more) DemoShoe.tens = Ret (s', ds).
Proof.
  destruct (bac_third_card 2 [0; 0; 0] (λ _, 0) DemoShoe.tens eq_refl DemoShoe.tens_consistent) as (s1 & E1 & H1); [vm_compute; lia|].
  destruct (bac_third_card 2 [0; 0; 0] (λ _, 600) DemoShoe.tens eq_refl DemoShoe.tens_consistent) as (s2 & E2 & H2); [vm_compute; lia|].
  vm_compute in E1, E2. injection E1 as <-. injection E2 as <-. split; [exact H1|exact H2].
Defined.

(** C19. The choice of a result ends and answers what the house wants.  A house that does not
    reward needs at most five hundred tries for each pair and five hundred more; one that
    rewards stops at the first result it may give, and there is one.  The profit that is
    booked is that of the answer; a house that kills does not lose, unless all pairs were
    given up and five hundred tries were in vain; one that rewards does not win and stays
    within one of its two limits. *)
Theorem bac_choice_ends a pairs : 0 < getAllBetScore a →
  (m_killOrReword (check_reward id pairs a) ≠ 1 → ∀ draws, (500 * S (pairs_wanted pairs) <= length draws)%nat → ∃ r, GetOpenCard draws pairs a = Ret r) ∧
  (m_killOrReword (check_reward id pairs a) = 1 → ∀ draws, ∃ d r, GetOpenCard (draws ++ [d]) pairs a = Ret r) ∧
  ∀ draws tag pairs' a', GetOpenCard draws pairs a = Ret (tag, pairs', a') → answered (check_reward id pairs a) draws tag pairs' a'.
Proof.
  intros Hb. unfold GetOpenCard. set (a1 := check_reward id pairs a). assert (0 < getAllBetScore a1) as Hb1 by (unfold a1; by destruct (check_reward_same id pairs a) as (k & -> & _)).
  assert (a1 <| miCurrentProfit := miCurrentProfit a1 |> = a1) as Ha by by destruct a1. split_and!.
  - intros Hk draws Hd. rewrite <- Ha. apply open_ends; [done..|lia|unfold tries; lia].
  - intros Hk draws. destruct (reward_possible id pairs a Hk) as (t & Ht & Hw & Hr). exists (draw_of t). rewrite <- Ha. apply reward_ends; [done|exact Hk|exact Ht|unfold a1; by rewrite score_reward|].
    unfold a1. rewrite score_reward. by destruct (check_reward_same id pairs a) as (k & -> & _).
  - intros draws tag pairs' a' E. rewrite <- Ha in E. by apply (open_answers a1 Hb1 draws draws 0 (pairs_wanted pairs) 0 pairs (miCurrentProfit a1)); [lia..| | | |].
Qed.

Lemma bac_choice_ends_witness : ∃ a', GetOpenCard [(2, 1); (1, 2); (3, 3)] [0; 0; 0] DemoShoe.stock = Ret (0, [0; 0; 0], a') ∧ miCurrentProfit a' = -480 ∧
  answered (check_reward id [0; 0; 0] DemoShoe.stock) [(2, 1); (1, 2); (3, 3)] 0 [0; 0; 0] a' ∧ m_killOrReword (check_reward id [0; 0; 0] DemoShoe.stock) = 1.
Proof.
  destruct (bac_choice_ends DemoShoe.stock [0; 0; 0] ltac:(by vm_compute)) as (_ & _ & H). eexists. split; [vm_compute; reflexivity|]. split; [vm_compute; reflexivity|]. split; [|vm_compute; reflexivity].
  apply H. vm_compute. reflexivity.
Defined.

(** C40. For blacklisted users the choice may never end: it compares the score of the first
    result, not of the one at hand, with half the stock.  When the house rewards, the first
    result loses more than that, and every result wins or loses more than the threshold,
    all draws are thrown away, although there is a result the house may give. *)
Theorem bac_black_never (he kai : bool) wintag pairs a : 0 < getAllBetScore a → m_killOrReword (check_reward i32 pairs a) = 1 →
  CalculatWinScore a (if he then 0 else if kai then 1 else 2) pairs < half_stock a →
  (∀ t, t = 0 ∨ t = 1 ∨ t = 2 → 0 < CalculatWinScore a t pairs ∨ CalculatWinScore a t pairs < - m_thresholdNum a) →
  (∃ t, (t = 0 ∨ t = 1 ∨ t = 2) ∧ CalculatWinScore a t pairs < 0 ∧ rewardable a (i32 (CalculatWinScore a t pairs)) = true) ∧
  ∀ draws, BlackGetOpenCard he kai draws wintag pairs a = Waits.
Proof.
  intros Hb Hk Hred Hw. split; [by apply reward_possible|]. intros draws. unfold BlackGetOpenCard. rewrite (proj2 (Z.leb_gt _ _)) by done.
  set (t := if he then 0 else if kai then 1 else 2) in *. set (w := CalculatWinScore a t pairs) in *.
  rewrite reward_profit. assert (check_reward i32 pairs a = a) as ->.
  { destruct (check_reward_same i32 pairs a) as (k & E & Hk'). rewrite E in Hk |- *. change (k = 1) in Hk. destruct Hk' as [-> | ->]; [by destruct a|done]. }
  destruct (check_reward_same i32 pairs a) as (k & E & Hk'). rewrite E in Hk. change (k = 1) in Hk.
  apply black_goes_on; [destruct Hk'; congruence|done|unfold t; destruct he; [by left|]; destruct kai; [right; by left|by right; right]|lia|done].
Qed.

Lemma bac_black_never_witness : CalculatWinScore DemoShoe.stock 1 [0; 0; 0] = -4940 ∧ ∀ draws, BlackGetOpenCard false true draws 2 [0; 0; 0] DemoShoe.stock = Waits.
Proof.
  split; [vm_compute; reflexivity|].
  refine (proj2 (bac_black_never false true 2 [0; 0; 0] DemoShoe.stock _ _ _ _)); [vm_compute; reflexivity..|]. intros t [->|[->| ->]]; vm_compute; first [by left|by right].
Defined.
